(* ===== verification/_CoqProject ===== *)
-Q . S2P
Prelude.v
Strings.v
Types.v
ByteReader.v
PerfItem.v
Enumerator.v
EnumeratorInv.v
EnumeratorSpec.v
EnumeratorSkip.v
EnumeratorWalk.v
EnumeratorProps.v
Guid.v
GuidProps.v
Tracepoint.v
TracepointProps.v
TracepointThreads.v
Provider.v
ProviderProps.v
DynProvider.v
DynProviderProps.v
EventBytes.v
Builder.v
BuilderProps.v
FieldTree.v
FieldWalk.v
FieldVisit.v
FieldProps.v
Text.v
Writers.v
TextSpec.v
TextProps.v
WritersProps.v
JsonTree.v
JsonProps.v
Session.v
SessionProps.v
FieldFormat.v
FieldFormatProps.v
FieldLine.v
PerfAbi.v
PerfIo.v
EventFormat.v
EventFormatProps.v
FileReader.v
SampleInfo.v
FileWriter.v
SampleProps.v
SampleSafe.v
FileBytes.v
FileOpen.v
FileEvents.v
FileRoundTrip.v
FileSpec.v
FileFaults.v
Floats.v
ItemText.v
EventJson.v
Display.v
FloatsProps.v
LeafJson.v
EventJsonProps.v
EventJsonRound.v
MacroTokens.v
MacroTrees.v
MacroFields.v
MacroParser.v
MacroEvent.v
MacroGenerator.v
MacroProvider.v
MacroRuntime.v
MacroMeaning.v
MacroPieces.v
MacroValues.v
MacroSyntax.v
MacroProps.v
MacroTotal.v
MacroNames.v
EnumText.v
Recorded.v
