(* ===== verification/Prelude.v ===== *)
(** * LinuxTracepoints-Rust verification library

    The repository writes and reads Linux user_events tracepoints in the
    EventHeader format.  A program registers tracepoints with the kernel
    (crate [tracepoint]), writes events through a provider ([eventheader],
    [eventheader_dynamic]), the kernel records them into perf.data files
    ([tracepoint_perf]), and a decoder enumerates the fields of each event and
    formats them as text or JSON ([tracepoint_decode]).

    ** Parts and files

    - [Prelude], [Strings]: outcomes (a value or a panic), machine integers,
      slices, lemmas and tactics used everywhere; Rust's [str] as UTF-8 bytes.
    - [Types]: eventheader_types/src/enums.rs and descriptors.rs: flags, field
      encodings and formats, levels, the header and its extensions.
    - [ByteReader]: tracepoint_decode/src/byte_reader.rs.
    - [PerfItem]: tracepoint_decode/src/perf_item.rs: metadata and values.
    - [Enumerator]: tracepoint_decode/src/enumerator.rs, the state machine that
      walks the fields of an event.  [EnumeratorInv]: its invariant, kept by every
      move.  [EnumeratorSpec]: starting, items, siblings.  [EnumeratorSkip]: the
      events on which a move or an item panics, read off their metadata.
      [EnumeratorWalk]: sequences of moves.  [EnumeratorProps]: the properties.
    - [Guid], [GuidProps]: eventheader_types/src/guid.rs, with SHA-1.
    - [Tracepoint]: tracepoint/src/native.rs, the search for [user_events_data]
      and the registration of a tracepoint.  [TracepointProps]: sequential
      properties.  [TracepointThreads]: interleavings of the atomic operations of
      any number of threads.
    - [Provider], [ProviderProps]: eventheader/src/provider.rs and _internal.rs,
      names of tracepoints, the linker-made list of tracepoints, registration.
    - [DynProvider], [DynProviderProps]: eventheader_dynamic/src/provider.rs.
    - [Builder]: eventheader_dynamic/src/builder.rs and [write_eventheader] of
      eventheader/src/_internal.rs.  [EventBytes], [BuilderProps]: the bytes of a
      written event.  [FieldTree], [FieldWalk], [FieldVisit], [FieldProps]: the
      round trip of all fields, from the builder through the enumerator.
    - [Text]: tracepoint_decode/src/filters.rs and charconv.rs.  [Writers]:
      writers.rs.  [TextSpec], [TextProps], [WritersProps]: texts and their JSON
      escapes.  [JsonTree], [JsonProps]: the comma and space state of [JsonWriter].
    - [Session], [SessionProps]: tracepoint_decode/src/perf_session.rs.
    - [FieldFormat]: tracepoint_decode/src/perf_field_format.rs.
      [FieldFormatProps], [FieldLine]: declarations, lines and field values.
    - [PerfAbi]: tracepoint_decode/src/perf_abi.rs, tracepoint_perf/src/file_abi.rs
      and header_index.rs: constants, and structs with their layout in bytes.
      [PerfIo]: input_file.rs and output_file.rs.
    - [EventFormat], [EventFormatProps]: perf_event_format.rs and perf_event_desc.rs.
    - [FileReader], [FileWriter]: tracepoint_perf/src/file_reader.rs and
      file_writer.rs, whole.  [SampleInfo]: the part of file_reader.rs that takes a sample
      apart, and perf_event_data.rs.  [SampleProps], [SampleSafe]: its round trip and
      its safety.  [FileBytes]: the bytes of a finished file; [FileOpen], [FileEvents]:
      opening it and reading its events; [FileRoundTrip] puts them together, and
      [FileSpec] states the specification, a document with operations, that the writer
      and the reader refine, on a system that takes every write ([SystemTakes]).
      [FileFaults]: what the writer does when the system refuses one; what a system
      does with a write is the parameter [WriteSystem] of the output file.
    - [Floats], [FloatsProps], [ItemText], [LeafJson]: numbers, dates and the other
      values of perf_item.rs and writers.rs as text and JSON.  [EventJson],
      [EventJsonProps], [EventJsonRound]: the JSON of a whole event (enumerator.rs).
      [Recorded]: enumeration from a sample (enumerator.rs), and the way of an event
      through builder, kernel, reader and enumerator.
      [Display]: display.rs.  [EnumText]: the text of the small types, and [drop].
    - The procedural macros of eventheader_macros, from tokens to tokens.
      [MacroTokens]: trees of tokens (tree.rs, strings.rs, ident_builder.rs), with the
      panic of [Ident::new] on a text that is no identifier; which characters continue
      an identifier is the parameter [UnicodeIdent].  [MacroTrees]: the texts and paths
      that the generator makes identifiers of.
      [MacroFields]: the table of types of fields (field_options.rs, field_option.rs).
      [MacroParser]: parser.rs.  [MacroEvent]: event_info.rs.  [MacroGenerator]:
      event_generator.rs.  [MacroProvider]: provider_info.rs, provider_generator.rs,
      enabled_info.rs, enabled_generator.rs and the entry points of lib.rs.
      [MacroRuntime]: what the generated code calls (tracepoint/src/descriptors.rs,
      eventheader/src/_internal.rs and provider.rs).
    - [MacroMeaning] evaluates the tokens that the generator emits, as the compiler
      would.  [MacroPieces]: what each field adds.  [MacroValues]: the event that
      the code gives.  [MacroSyntax]: a call as tokens, and its parse.  [MacroProps],
      [MacroTotal], [MacroNames]: the properties.

    Each definition carries a comment that names the Rust item it translates.

    ** Conventions

    A function that may panic returns an [outcome]; [wp m Q] says that it does
    not panic and gives a value in [Q].  The build modelled is the debug
    profile on a 64-bit target: [u8] to [u64] and [usize] are [Z] and each
    addition, subtraction and multiplication that the source leaves to the
    compiler's check is a [checked] one; wrapping operations are written with
    their modulus; each [debug_assert!] is an [rassert].  Every index and slice
    panics out of range as in Rust.  A method with [&mut self] is a function
    from the old state to the new one; objects that are shared ([Arc], the
    descriptor and the state of a tracepoint) are in an explicit store, and
    their atomic operations are steps that threads interleave.  A byte order of
    the target is the class [Target], a sink of text the class [FmtWrite], a
    system call a parameter with its documented behaviour as hypotheses.

    ** What the theorems show

    - Safety of decoding: from any bytes, starting an enumeration ends without a
      panic, in bounds, with an invariant that says where the enumerator is and that
      every move keeps ([enumerate_total], [reachable_invariant],
      [move_next_metadata_safe]).  [move_next] panics in one situation, described by
      the metadata alone, and returns in every other ([move_next_safe]);
      [move_next_sibling] returns unless it comes to one of those positions, when
      fewer moves are left than an [i32] counts ([move_next_sibling_sound]);
      [item_info] panics for two kinds of declaration and reads in bounds for all
      others ([item_info_in_bounds]).  Traversals end ([traversal_bounded]).
    - Round trips: fields given to the builder are what a traversal of the
      written event shows ([event_round_trip], [written_event_decodes]); names of
      tracepoints ([dyn_provider_names]); provider ids
      ([guid_parse_exact]); text and JSON ([string_value_is_written_as_text],
      [json_string_round_trip], [json_writer_round_trip]); format lines
      ([format_round_trip]); clocks ([clock_data_round_trip]).
    - Equivalence with a reference: the streaming hasher is SHA-1
      ([guid_from_name_is_sha1]), the fast path over arrays is the slow path
      ([simple_array_fast_path]).
    - Concurrency: the owner of a descriptor is unique and the busy states of a
      tracepoint exclude each other under every interleaving
      ([data_file_owned], [tracepoint_exclusive]); a thread with which no other
      interferes returns from the exchange loop after three steps at most
      ([file_thread_finishes]).
    - Functional behaviour of registration ([provider_register_all] gives the exact
      command string, state and result for every tracepoint), format declarations
      ([declaration_is_parsed]) and session clocks, with the inputs on which the code
      panics.
    - Each theorem's comment states the inputs it is about; where the code does not do
      the same beyond them, a lemma next to it shows what it does
      ([utf32_text_is_not_escaped], [big_array_length_panics],
      [no_common_fields_reread], [raw_symbols_panic]).
    - Files: on a system that takes every write, a sequence of well-formed operations on
      a writer, with a description, gives a file that each reader opens and shows as the
      document that was written ([file_round_trip]); a write that the system refuses is
      reported ([write_faults_are_reported]); the items
      of a sample are read back ([sample_info_round_trip]) and any bytes are taken
      apart without a panic ([sample_info_safe]); format files with a common field
      are written and read back ([format_round_trip]).
      An event is followed from the builder, through the sample that the kernel makes of
      it, to the fields that the decoder shows ([recorded_event_decodes]).
    - JSON of events: what is written for a built event is well formed and reads
      back as its fields, if no value holds UTF-32 text or a wide backslash character,
      which the code does not escape ([event_json_round_trip], [json_of_values]).
    - Macros: [write_event!] ends on any tokens, and panics for a provider symbol that
      is a raw identifier only ([write_event_total]); the code it
      generates hands the kernel the event that the decoder reads back as the fields
      of the call ([write_event_round_trip]); what [define_provider!] accepts can be
      registered ([accepted_provider_registers]).

    ** Fuel

    Loops of the source are structural recursion over the data they consume
    where there is one.  Where fuel is used it is the quantity the loop
    decreases, and a theorem says that it is enough: the moves of the enumerator
    use the move limit of the context; the skipping of metadata its remaining
    bytes; the tokenizer and the declaration loop the length of the text; the
    parser of the macros the number of tokens; the loops over the headers and events of
    a file the bytes that are left.  The exchange loop of the data file has no bound
    when other threads interfere: it is a relation of single steps.

    ** Not modelled

    - The crate roots (lib.rs of each crate but eventheader_macros) are documentation,
      re-exports and a macro that chooses between two functions of _internal.rs; the
      changelogs are documentation; examples and tests are clients of the crates.
    - [Hash] of the keys of dynamic providers, [Clone] and [Default] (a copy, the
      initial state), conversions between a newtype and its integer, and accessors
      that return one field.
    - Spans of tokens, which place error messages; the text of a token stream is a
      parameter.
    - System calls, the registration by the kernel, the linker's list of tracepoints,
      the calendar of libc, Unicode upper case and the digits of floating point
      numbers: parameters, with documented behaviour as hypotheses where a theorem
      needs it.  The memory order of atomics: every operation on one atomic is one
      step.  The build without user_events support, whose operations do nothing.
*)

From Stdlib Require Export ZArith Lia Bool List.
From stdpp Require Export base tactics list option numbers.

#[global] Open Scope Z_scope.

Declare Scope tp_scope.
Delimit Scope tp_scope with tp.
#[global] Open Scope tp_scope.

Create HintDb tp discriminated.
Create Rewrite HintDb tp_simpl.

(** ** Outcomes: a Rust computation returns a value or panics

    A panic is an out-of-range index or slice, an [unwrap] of [None], a failed
    [assert!]/[debug_assert!], or an integer operation that leaves its width
    (the debug profile's overflow check). *)

Inductive outcome (A : Type) : Type :=
  | Ret (a : A)
  | Panic.
Arguments Ret {A} a.
Arguments Panic {A}.

#[export] Instance outcome_ret : MRet outcome := fun A a => Ret a.
#[export] Instance outcome_bind : MBind outcome := fun A B f m =>
  match m with Ret a => f a | Panic => Panic end.

Definition is_ret {A} (m : outcome A) : bool :=
  match m with Ret _ => true | Panic => false end.

(** [wp m Q]: [m] does not panic and its value satisfies [Q]. *)
Definition wp {A} (m : outcome A) (Q : A -> Prop) : Prop :=
  match m with Ret a => Q a | Panic => False end.

Section Wp.
Context {A B : Type}.

Lemma wp_ret (a : A) (Q : A -> Prop) : Q a -> wp (Ret a) Q.
Proof. done. Qed.

Lemma wp_bind (m : outcome A) (f : A -> outcome B) (Q : B -> Prop) :
  wp m (fun a => wp (f a) Q) -> wp (m ≫= f) Q.
Proof. by destruct m. Qed.

Lemma wp_mono (m : outcome A) (P Q : A -> Prop) :
  wp m P -> (forall a, P a -> Q a) -> wp m Q.
Proof. destruct m; cbn; auto. Qed.

Lemma wp_inv (m : outcome A) (Q : A -> Prop) :
  wp m Q -> exists a, m = Ret a /\ Q a.
Proof. destruct m; cbn; [eauto | done]. Qed.

Lemma wp_intro (m : outcome A) (a : A) (Q : A -> Prop) :
  m = Ret a -> Q a -> wp m Q.
Proof. by intros ->. Qed.
End Wp.

(** [wlp m Q]: the value of [m], if it does not panic, satisfies [Q]. *)
Definition wlp {A} (m : outcome A) (Q : A -> Prop) : Prop :=
  match m with Ret a => Q a | Panic => True end.

Lemma wlp_bind {A B} (m : outcome A) (f : A -> outcome B) (Q : B -> Prop) :
  wlp m (fun a => wlp (f a) Q) -> wlp (m ≫= f) Q.
Proof. by destruct m. Qed.

Lemma wlp_of_wp {A} (m : outcome A) (Q : A -> Prop) : wp m Q -> wlp m Q.
Proof. by destruct m. Qed.

(** Weakest precondition under a weakest liberal one. *)
Lemma wlp_wp_bind {A B} (m : outcome A) (f : A -> outcome B) (Q : B -> Prop) :
  wp m (fun a => wlp (f a) Q) -> wlp (m ≫= f) Q.
Proof. by destruct m. Qed.

Lemma wlp_mono {A} (m : outcome A) (P Q : A -> Prop) :
  wlp m P -> (forall a, P a -> Q a) -> wlp m Q.
Proof. destruct m; cbn; auto. Qed.

(** ** Checked machine arithmetic *)

Definition fits (w z : Z) : bool := (0 <=? z) && (z <? 2 ^ w).
Definition fits_signed (w z : Z) : bool :=
  (- 2 ^ (w - 1) <=? z) && (z <? 2 ^ (w - 1)).

(** An operation whose mathematical result must fit in an unsigned
    (respectively signed) integer of [w] bits. *)
Definition checked (w z : Z) : outcome Z := if fits w z then Ret z else Panic.
Definition checked_signed (w z : Z) : outcome Z :=
  if fits_signed w z then Ret z else Panic.

(** [value as uN] and [value as iN]. *)
Definition as_unsigned (w z : Z) : Z := z mod 2 ^ w.
Definition as_signed (w z : Z) : Z :=
  (z + 2 ^ (w - 1)) mod 2 ^ w - 2 ^ (w - 1).

(** [assert!] and [debug_assert!]. *)
Definition rassert (b : bool) : outcome unit := if b then Ret tt else Panic.

Abbreviation u8 := (checked 8) (only parsing).
Abbreviation u16 := (checked 16) (only parsing).
Abbreviation u32 := (checked 32) (only parsing).
Abbreviation u64 := (checked 64) (only parsing).
Abbreviation usize := (checked 64) (only parsing).
Abbreviation i64 := (checked_signed 64) (only parsing).

Definition in_width (w z : Z) : Prop := 0 <= z < 2 ^ w.
Definition is_u8 (z : Z) : Prop := 0 <= z < 256.

Lemma wp_checked w z (Q : Z -> Prop) :
  0 <= z < 2 ^ w -> Q z -> wp (checked w z) Q.
Proof.
  intros [H1 H2] HQ. unfold checked, fits.
  by rewrite (proj2 (Z.leb_le _ _) H1), (proj2 (Z.ltb_lt _ _) H2).
Qed.

Lemma wp_checked_signed w z (Q : Z -> Prop) :
  - 2 ^ (w - 1) <= z < 2 ^ (w - 1) -> Q z -> wp (checked_signed w z) Q.
Proof.
  intros [H1 H2] HQ. unfold checked_signed, fits_signed.
  by rewrite (proj2 (Z.leb_le _ _) H1), (proj2 (Z.ltb_lt _ _) H2).
Qed.

Lemma checked_ok w z : 0 <= z < 2 ^ w -> checked w z = Ret z.
Proof.
  intros [H1 H2]. unfold checked, fits.
  by rewrite (proj2 (Z.leb_le _ _) H1), (proj2 (Z.ltb_lt _ _) H2).
Qed.

Lemma checked_signed_ok w z : - 2 ^ (w - 1) <= z < 2 ^ (w - 1) -> checked_signed w z = Ret z.
Proof.
  intros [H1 H2]. unfold checked_signed, fits_signed.
  by rewrite (proj2 (Z.leb_le _ _) H1), (proj2 (Z.ltb_lt _ _) H2).
Qed.

Lemma checked_inv w z r : checked w z = Ret r -> r = z /\ 0 <= z < 2 ^ w.
Proof. unfold checked, fits. case_match; [|done]. intros [= <-]. lia. Qed.

Lemma checked_panic w z : ~ (0 <= z < 2 ^ w) -> checked w z = Panic.
Proof. intros H. unfold checked, fits. case_match; [lia | done]. Qed.

Lemma wp_rassert b (Q : unit -> Prop) : b = true -> Q tt -> wp (rassert b) Q.
Proof. by intros ->. Qed.

Lemma as_unsigned_range w z : 0 <= w -> 0 <= as_unsigned w z < 2 ^ w.
Proof. intros. apply Z.mod_pos_bound, Z.pow_pos_nonneg; lia. Qed.

Lemma as_unsigned_id w z : 0 <= z < 2 ^ w -> as_unsigned w z = z.
Proof. apply Z.mod_small. Qed.

Lemma as_signed_small w z :
  0 < w -> 0 <= z < 2 ^ (w - 1) -> as_signed w z = z.
Proof.
  intros Hw Hz. unfold as_signed. rewrite Z.mod_small; [lia|].
  replace (2 ^ w) with (2 * 2 ^ (w - 1)); [lia|].
  rewrite <- Z.pow_succ_r by lia. f_equal. lia.
Qed.

Lemma as_signed_big w z :
  0 < w -> 2 ^ (w - 1) <= z < 2 ^ w -> as_signed w z = z - 2 ^ w.
Proof.
  intros Hw Hz. unfold as_signed.
  assert (E : 2 ^ w = 2 * 2 ^ (w - 1)).
  { rewrite <- Z.pow_succ_r by lia. f_equal. lia. }
  rewrite (Z.mod_eq (z + 2 ^ (w - 1)) (2 ^ w)) by lia.
  replace ((z + 2 ^ (w - 1)) / 2 ^ w) with 1; [lia|].
  apply Z.div_unique with (z - 2 ^ (w - 1)); lia.
Qed.

(** ** Byte slices *)

Abbreviation bytes := (list Z) (only parsing).

Definition len {A} (l : list A) : Z := Z.of_nat (length l).
Definition bytes_ok (l : bytes) : Prop := Forall is_u8 l.

(** [l[i]] *)
Definition index {A} (l : list A) (i : Z) : outcome A :=
  if i <? 0 then Panic
  else match l !! Z.to_nat i with Some b => Ret b | None => Panic end.

(** [&l[a..b]] *)
Definition slice {A} (l : list A) (a b : Z) : outcome (list A) :=
  if (0 <=? a) && (a <=? b) && (b <=? len l)
  then Ret (take (Z.to_nat (b - a)) (drop (Z.to_nat a) l))
  else Panic.

(** [&l[a..]] *)
Definition slice_from {A} (l : list A) (a : Z) : outcome (list A) :=
  slice l a (len l).

(** [l[i] = v] *)
Definition store {A} (l : list A) (i : Z) (v : A) : outcome (list A) :=
  if (0 <=? i) && (i <? len l) then Ret (<[Z.to_nat i := v]> l) else Panic.

(** The total counterparts used in specifications. *)
Definition sub {A} (l : list A) (a b : Z) : list A :=
  take (Z.to_nat (b - a)) (drop (Z.to_nat a) l).
Definition byte_at (l : bytes) (i : Z) : Z := nth (Z.to_nat i) l 0.

Section Slices.
Context {A : Type}.
Implicit Types l : list A.

Lemma len_nonneg l : 0 <= len l.
Proof. unfold len. lia. Qed.

Lemma len_nil : len (@nil A) = 0.
Proof. done. Qed.

Lemma len_cons (x : A) l : len (x :: l) = 1 + len l.
Proof. unfold len. cbn. lia. Qed.

Lemma len_app l1 l2 : len (l1 ++ l2) = len l1 + len l2.
Proof. unfold len. rewrite length_app. lia. Qed.

Lemma len_sub l a b : 0 <= a <= b -> b <= len l -> len (sub l a b) = b - a.
Proof. unfold len, sub. rewrite length_take, length_drop. lia. Qed.

Lemma wp_index l i (Q : A -> Prop) :
  0 <= i < len l -> (forall b, l !! Z.to_nat i = Some b -> Q b) ->
  wp (index l i) Q.
Proof.
  intros Hi HQ. unfold index, len in *.
  destruct (Z.ltb_spec i 0); [lia|].
  destruct (l !! Z.to_nat i) eqn:E; [by apply HQ|].
  apply lookup_ge_None in E. lia.
Qed.

Lemma wp_slice l a b (Q : list A -> Prop) :
  0 <= a <= b -> b <= len l -> Q (sub l a b) -> wp (slice l a b) Q.
Proof.
  intros H1 H2 HQ. unfold slice.
  rewrite (proj2 (Z.leb_le 0 a)), (proj2 (Z.leb_le a b)),
    (proj2 (Z.leb_le b (len l))) by lia. done.
Qed.

Lemma slice_ok l a b :
  0 <= a <= b -> b <= len l -> slice l a b = Ret (sub l a b).
Proof.
  intros H1 H2. unfold slice.
  by rewrite (proj2 (Z.leb_le 0 a)), (proj2 (Z.leb_le a b)),
    (proj2 (Z.leb_le b (len l))) by lia.
Qed.

Lemma slice_inv l a b r :
  slice l a b = Ret r -> 0 <= a <= b /\ b <= len l /\ r = sub l a b.
Proof. unfold slice. case_match; [|done]. intros [= <-]. split_and!; lia || done. Qed.

Lemma wp_slice_from l a (Q : list A -> Prop) :
  0 <= a <= len l -> Q (sub l a (len l)) -> wp (slice_from l a) Q.
Proof. intros. apply wp_slice; auto; lia. Qed.

Lemma wp_store l i v (Q : list A -> Prop) :
  0 <= i < len l -> Q (<[Z.to_nat i := v]> l) -> wp (store l i v) Q.
Proof.
  intros H HQ. unfold store.
  rewrite (proj2 (Z.leb_le 0 i)), (proj2 (Z.ltb_lt i (len l))) by lia. done.
Qed.

Lemma sub_from_drop l a : 0 <= a <= len l -> sub l a (len l) = drop (Z.to_nat a) l.
Proof.
  intros. unfold sub, len in *. apply take_ge. rewrite length_drop. lia.
Qed.

Lemma index_app_r l1 l2 i :
  len l1 <= i -> index (l1 ++ l2) i = index l2 (i - len l1).
Proof.
  intros H. unfold index, len in *.
  destruct (Z.ltb_spec i 0), (Z.ltb_spec (i - Z.of_nat (length l1)) 0); try lia.
  rewrite lookup_app_r by lia.
  by replace (Z.to_nat (i - Z.of_nat (length l1))) with (Z.to_nat i - length l1)%nat by lia.
Qed.

Lemma index_app_l l1 l2 i :
  i < len l1 -> index (l1 ++ l2) i = index l1 i.
Proof.
  intros H. unfold index, len in *. destruct (Z.ltb_spec i 0); [done|].
  by rewrite lookup_app_l by lia.
Qed.
End Slices.

#[export] Hint Rewrite @len_nil @len_cons @len_app : tp_simpl.

Lemma index_byte_at l i : 0 <= i < len l -> index l i = Ret (byte_at l i).
Proof.
  intros H. unfold index, len, byte_at in *. destruct (Z.ltb_spec i 0); [lia|].
  destruct (l !! Z.to_nat i) eqn:E.
  - by rewrite (nth_lookup_Some _ _ _ _ E).
  - apply lookup_ge_None in E. lia.
Qed.

Lemma byte_at_ok l i : bytes_ok l -> 0 <= byte_at l i < 256.
Proof.
  intros H. unfold byte_at. destruct (l !! Z.to_nat i) eqn:E.
  - rewrite (nth_lookup_Some _ _ _ _ E).
    exact (proj1 (Forall_lookup _ _) H _ _ E).
  - rewrite nth_overflow by (by apply lookup_ge_None). lia.
Qed.

Lemma bytes_ok_sub l a b : bytes_ok l -> bytes_ok (sub l a b).
Proof. intros. by apply Forall_take, Forall_drop. Qed.

#[export] Hint Resolve bytes_ok_sub byte_at_ok : tp.

(** Deciding [bytes_ok], for concrete data. *)
Lemma bytes_ok_decide l : forallb (fun b => (0 <=? b) && (b <? 256)) l = true -> bytes_ok l.
Proof.
  induction l as [|b l IH]; cbn [forallb]; intros H; [constructor|].
  apply andb_prop in H as [[?%Z.leb_le ?%Z.ltb_lt]%andb_prop Hl].
  constructor; [unfold is_u8; lia|by apply IH].
Qed.

(** A property of every byte is decided by trying all 256 of them. *)
Lemma u8_exhaustive (P : Z -> bool) :
  forallb P (map Z.of_nat (seq 0 256)) = true -> forall b, is_u8 b -> P b = true.
Proof.
  intros H b Hb. rewrite forallb_forall in H. apply H.
  apply in_map_iff. exists (Z.to_nat b). unfold is_u8 in Hb. split; [lia|].
  apply in_seq. lia.
Qed.

(** ** Endian-aware integers *)

Fixpoint le_value (l : bytes) : Z :=
  match l with [] => 0 | b :: l => b + 256 * le_value l end.
Definition be_value (l : bytes) : Z := le_value (rev l).

Fixpoint le_bytes (n : nat) (v : Z) : bytes :=
  match n with O => [] | S n => v mod 256 :: le_bytes n (v / 256) end.
Definition be_bytes (n : nat) (v : Z) : bytes := rev (le_bytes n v).

Lemma length_le_bytes n v : length (le_bytes n v) = n.
Proof. revert v. induction n as [|n IH]; cbn; auto. Qed.

Lemma length_be_bytes n v : length (be_bytes n v) = n.
Proof. unfold be_bytes. by rewrite length_rev, length_le_bytes. Qed.

Lemma le_bytes_ok n v : bytes_ok (le_bytes n v).
Proof.
  revert v. induction n as [|n IH]; intros v; cbn; constructor; [|apply IH].
  apply Z.mod_pos_bound. lia.
Qed.

Lemma be_bytes_ok n v : bytes_ok (be_bytes n v).
Proof. apply Forall_rev, le_bytes_ok. Qed.

Lemma pow256_succ n : 256 ^ Z.of_nat (S n) = 256 * 256 ^ Z.of_nat n.
Proof. rewrite Nat2Z.inj_succ, Z.pow_succ_r by lia. done. Qed.

Lemma le_value_le_bytes n v :
  0 <= v < 256 ^ Z.of_nat n -> le_value (le_bytes n v) = v.
Proof.
  revert v. induction n as [|n IH]; intros v Hv; cbn [le_value le_bytes].
  - cbn in Hv. lia.
  - rewrite pow256_succ in Hv. rewrite IH.
    + pose proof (Z.div_mod v 256). lia.
    + split; [apply Z.div_pos; lia | apply Z.div_lt_upper_bound; lia].
Qed.

Lemma le_value_bound l : bytes_ok l -> 0 <= le_value l < 256 ^ len l.
Proof.
  induction 1 as [|b l Hb Hl IH]; cbn [le_value].
  - by vm_compute.
  - unfold len in *. cbn [length]. rewrite pow256_succ. unfold is_u8 in Hb. nia.
Qed.

Lemma be_value_bound l : bytes_ok l -> 0 <= be_value l < 256 ^ len l.
Proof.
  intros H. unfold be_value. replace (len l) with (len (rev l))
    by (unfold len; by rewrite length_rev).
  by apply le_value_bound, Forall_rev.
Qed.

Lemma le_bytes_le_value l :
  bytes_ok l -> le_bytes (length l) (le_value l) = l.
Proof.
  induction 1 as [|b l Hb Hl IH]; cbn [le_bytes le_value length]; [done|].
  unfold is_u8 in Hb.
  assert (E : (b + 256 * le_value l) mod 256 = b).
  { rewrite Z.mul_comm, Z_mod_plus_full. apply Z.mod_small. lia. }
  assert (E' : (b + 256 * le_value l) / 256 = le_value l).
  { rewrite Z.mul_comm, Z_div_plus_full by lia. rewrite Z.div_small; lia. }
  by rewrite E, E', IH.
Qed.

Lemma be_value_be_bytes n v :
  0 <= v < 256 ^ Z.of_nat n -> be_value (be_bytes n v) = v.
Proof.
  intros. unfold be_value, be_bytes. rewrite rev_involutive.
  by apply le_value_le_bytes.
Qed.

Lemma be_bytes_be_value l :
  bytes_ok l -> be_bytes (length l) (be_value l) = l.
Proof.
  intros H. unfold be_bytes, be_value.
  rewrite <- (length_rev l), le_bytes_le_value by (by apply Forall_rev).
  apply rev_involutive.
Qed.

(** ** Results *)

Inductive result (A E : Type) : Type :=
  | Ok (a : A)
  | Err (e : E).
Arguments Ok {A E} a.
Arguments Err {A E} e.

(** ** Tactics *)

(** One symbolic-execution step of a goal [wp m Q]. *)
Ltac wp_step :=
  lazymatch goal with
  | |- wp (mret _) _ => apply wp_ret
  | |- wp (Ret _) _ => apply wp_ret
  | |- wp (_ ≫= _) _ => apply wp_bind
  | |- wp (checked _ _) _ => apply wp_checked; [cbn; try lia | cbn beta]
  | |- wp (checked_signed _ _) _ => apply wp_checked_signed; [cbn; try lia | cbn beta]
  | |- wp (rassert _) _ => apply wp_rassert; [ | cbn beta]
  | |- wp (slice _ _ _) _ => apply wp_slice; [try lia | try lia | cbn beta]
  | |- wp (slice_from _ _) _ => apply wp_slice_from; [try lia | cbn beta]
  end.

Ltac bool_solve :=
  repeat match goal with
         | |- _ && _ = true => apply andb_true_intro; split
         | |- negb _ = true => apply negb_true_iff
         | |- (_ <=? _) = true => apply Z.leb_le
         | |- (_ <? _) = true => apply Z.ltb_lt
         | |- (_ =? _) = true => apply Z.eqb_eq
         | |- (_ =? _) = false => apply Z.eqb_neq
         | |- (_ <? _) = false => apply Z.ltb_ge
         end; try lia; try done.

(** Turns boolean hypotheses into propositional ones. *)
Ltac bool_hyps :=
  repeat match goal with
         | H : _ && _ = true |- _ => apply andb_prop in H as [? ?]
         | H : _ || _ = false |- _ => apply orb_false_elim in H as [? ?]
         | H : negb _ = true |- _ => apply negb_true_iff in H
         | H : negb _ = false |- _ => apply negb_false_iff in H
         | H : (_ <=? _) = true |- _ => apply Z.leb_le in H
         | H : (_ <=? _) = false |- _ => apply Z.leb_gt in H
         | H : (_ <? _) = true |- _ => apply Z.ltb_lt in H
         | H : (_ <? _) = false |- _ => apply Z.ltb_ge in H
         | H : (_ =? _) = true |- _ => apply Z.eqb_eq in H
         | H : (_ =? _) = false |- _ => apply Z.eqb_neq in H
         | H : Bool.eqb _ _ = true |- _ => apply eqb_prop in H
         end.
