(* ===== verification/Strings.v ===== *)
(** * Strings: literals and slices of [str]

    A [str] is the list of its bytes.  Slicing one by byte offsets panics when an
    offset is not at the boundary of a character. *)

From Stdlib Require Ascii String.
From S2P Require Import Prelude.
Export String.StringSyntax.
Delimit Scope string_scope with string.

(** A string literal. *)
Definition str_bytes (s : String.string) : bytes :=
  map (fun a => Z.of_N (Ascii.N_of_ascii a)) (String.list_ascii_of_string s).
Arguments str_bytes s%_string_scope.

(** [value == "literal"] *)
Definition str_is (value : bytes) (s : String.string) : bool := bool_decide (value = str_bytes s).
Arguments str_is value s%_string_scope.

(** [str::is_char_boundary] and [&value[a..b]] *)
Definition is_char_boundary (value : bytes) (i : Z) : bool :=
  (i =? 0) || (i =? len value)
  || (0 <=? i) && (i <? len value) && negb ((0x80 <=? byte_at value i) && (byte_at value i <=? 0xBF)).
Definition str_slice (value : bytes) (a b : Z) : outcome bytes :=
  _ ← rassert (is_char_boundary value a && is_char_boundary value b);
  slice value a b.

(** ** Scans: [while pos < bytes.len() && p(bytes[pos]) { pos += 1; }] *)

(** [rest] is [bytes[pos..]]. *)
Fixpoint skip_bytes (p : Z -> bool) (rest : bytes) (pos : Z) : Z :=
  match rest with b :: rest => if p b then skip_bytes p rest (pos + 1) else pos | [] => pos end.
Definition from (l : bytes) (pos : Z) : bytes := drop (Z.to_nat pos) l.
Definition skip_from (p : Z -> bool) (l : bytes) (pos : Z) : Z := skip_bytes p (from l pos) pos.

(** ** Facts *)

Definition ascii (l : bytes) : Prop := Forall (fun b => 0 <= b < 0x80) l.

Lemma skip_bytes_bounds p rest pos : pos <= skip_bytes p rest pos <= pos + len rest.
Proof.
  revert pos. induction rest as [|b rest IH]; intros pos; cbn; [change (len (@nil Z)) with 0; lia|].
  rewrite len_cons. destruct (p b); [specialize (IH (pos + 1)); lia | pose proof (len_nonneg rest); lia].
Qed.
Lemma len_from (l : bytes) pos : 0 <= pos <= len l -> len (from l pos) = len l - pos.
Proof. intros H. unfold len, from in *. rewrite length_drop. lia. Qed.
Lemma skip_from_bounds p (l : bytes) pos : 0 <= pos <= len l -> pos <= skip_from p l pos <= len l.
Proof.
  intros H. unfold skip_from. pose proof (skip_bytes_bounds p (from l pos) pos) as Hb.
  rewrite len_from in Hb by done. lia.
Qed.

Lemma ascii_byte_at (l : bytes) i : ascii l -> 0 <= byte_at l i < 0x80.
Proof.
  intros H. unfold byte_at. destruct (Nat.lt_ge_cases (Z.to_nat i) (length l)) as [Hi | Hi].
  - by apply (proj1 (List.Forall_forall _ _) H), nth_In.
  - rewrite nth_overflow by done. lia.
Qed.
(** In ASCII every offset is a boundary. *)
Lemma ascii_boundary (l : bytes) i : ascii l -> 0 <= i <= len l -> is_char_boundary l i = true.
Proof.
  intros Ha Hi. unfold is_char_boundary. pose proof (ascii_byte_at l i Ha) as Hb.
  rewrite (proj2 (Z.leb_gt 0x80 (byte_at l i))) by lia. cbn [andb negb].
  destruct (Z.eqb_spec i (len l)) as [-> |]; [by rewrite orb_true_r|].
  rewrite (proj2 (Z.leb_le 0 i)), (proj2 (Z.ltb_lt i (len l))) by lia. by rewrite !orb_true_r.
Qed.
Lemma str_slice_ascii (l : bytes) a b : ascii l -> 0 <= a <= b -> b <= len l -> str_slice l a b = Ret (sub l a b).
Proof.
  intros Ha H1 H2. unfold str_slice. rewrite !ascii_boundary by (done || lia). cbn.
  by rewrite slice_ok by lia.
Qed.
