(* ===== verification/Types.v ===== *)
(** * Types: the EventHeader encoding constants (eventheader_types/src/enums.rs,
    descriptors.rs)

    The newtypes [HeaderFlags], [ExtensionKind], [FieldEncoding], [FieldFormat],
    [Level] and [Opcode] wrap one unsigned integer and are modelled by that
    integer ([from_int] and [as_int] are the identity), so every constant of the
    source is a [Z] with the type's name as prefix. *)

From S2P Require Import Prelude.

(** The compilation target. [usize] is 64 bits wide throughout the development;
    the byte order is a parameter ([cfg!(target_endian)]). *)
Class Target := { HOST_IS_BIG_ENDIAN : bool }.

(** The usual little-endian target, used by concrete examples. *)
Definition little_endian_target : Target := {| HOST_IS_BIG_ENDIAN := false |}.
Definition big_endian_target : Target := {| HOST_IS_BIG_ENDIAN := true |}.

(** ** HeaderFlags *)

(* eventheader_types/src/enums.rs:38-38: HeaderFlags::None *)
Definition HeaderFlags_None : Z := 0.
(* eventheader_types/src/enums.rs:41-41: HeaderFlags::Pointer64 *)
Definition HeaderFlags_Pointer64 : Z := 0x01.
(* eventheader_types/src/enums.rs:44-44: HeaderFlags::LittleEndian *)
Definition HeaderFlags_LittleEndian : Z := 0x02.
(* eventheader_types/src/enums.rs:47-47: HeaderFlags::Extension *)
Definition HeaderFlags_Extension : Z := 0x04.
(* eventheader_types/src/enums.rs: HeaderFlags::has_flag *)
Definition HeaderFlags_has_flag (self flag : Z) : bool := negb (Z.land self flag =? 0).

(* eventheader_types/src/enums.rs:48-59: HeaderFlags::Default *)
Definition HeaderFlags_Default `{Target} : Z :=
  Z.lor HeaderFlags_Pointer64
    (if HOST_IS_BIG_ENDIAN then HeaderFlags_None else HeaderFlags_LittleEndian).

(* eventheader_types/src/enums.rs:63-63: HeaderFlags::DefaultWithExtension *)
Definition HeaderFlags_DefaultWithExtension `{Target} : Z :=
  Z.lor HeaderFlags_Default HeaderFlags_Extension.

(** ** ExtensionKind *)

(* eventheader_types/src/enums.rs:108-108: ExtensionKind::Invalid *)
Definition ExtensionKind_Invalid : Z := 0.
(* eventheader_types/src/enums.rs:132-132: ExtensionKind::Metadata *)
Definition ExtensionKind_Metadata : Z := 1.
(* eventheader_types/src/enums.rs:157-157: ExtensionKind::ActivityId *)
Definition ExtensionKind_ActivityId : Z := 2.
(* eventheader_types/src/enums.rs:161-161: ExtensionKind::ChainFlag *)
Definition ExtensionKind_ChainFlag : Z := 0x8000.
(* eventheader_types/src/enums.rs:164-164: ExtensionKind::ValueMask *)
Definition ExtensionKind_ValueMask : Z := 0x7FFF.
(* eventheader_types/src/enums.rs: ExtensionKind::has_flag *)
Definition ExtensionKind_has_flag (self flag : Z) : bool := negb (Z.land self flag =? 0).

(** ** FieldEncoding *)

(* eventheader_types/src/enums.rs:300-300: FieldEncoding::Invalid *)
Definition FieldEncoding_Invalid : Z := 0.
(* eventheader_types/src/enums.rs:303-303: FieldEncoding::Struct *)
Definition FieldEncoding_Struct : Z := 1.
(* eventheader_types/src/enums.rs:308-308: FieldEncoding::Value8 *)
Definition FieldEncoding_Value8 : Z := 2.
(* eventheader_types/src/enums.rs:313-313: FieldEncoding::Value16 *)
Definition FieldEncoding_Value16 : Z := 3.
(* eventheader_types/src/enums.rs:319-319: FieldEncoding::Value32 *)
Definition FieldEncoding_Value32 : Z := 4.
(* eventheader_types/src/enums.rs:324-324: FieldEncoding::Value64 *)
Definition FieldEncoding_Value64 : Z := 5.
(* eventheader_types/src/enums.rs:329-329: FieldEncoding::Value128 *)
Definition FieldEncoding_Value128 : Z := 6.
(* eventheader_types/src/enums.rs:335-335: FieldEncoding::ZStringChar8 *)
Definition FieldEncoding_ZStringChar8 : Z := 7.
(* eventheader_types/src/enums.rs:340-340: FieldEncoding::ZStringChar16 *)
Definition FieldEncoding_ZStringChar16 : Z := 8.
(* eventheader_types/src/enums.rs:345-345: FieldEncoding::ZStringChar32 *)
Definition FieldEncoding_ZStringChar32 : Z := 9.
(* eventheader_types/src/enums.rs:351-351: FieldEncoding::StringLength16Char8 *)
Definition FieldEncoding_StringLength16Char8 : Z := 10.
(* eventheader_types/src/enums.rs:356-356: FieldEncoding::StringLength16Char16 *)
Definition FieldEncoding_StringLength16Char16 : Z := 11.
(* eventheader_types/src/enums.rs:361-361: FieldEncoding::StringLength16Char32 *)
Definition FieldEncoding_StringLength16Char32 : Z := 12.
(* eventheader_types/src/enums.rs:367-367: FieldEncoding::BinaryLength16Char8 *)
Definition FieldEncoding_BinaryLength16Char8 : Z := 13.
(* eventheader_types/src/enums.rs:380-380: FieldEncoding::ValueMask *)
Definition FieldEncoding_ValueMask : Z := 0x1F.
(* eventheader_types/src/enums.rs:383-383: FieldEncoding::FlagMask *)
Definition FieldEncoding_FlagMask : Z := 0xE0.
(* eventheader_types/src/enums.rs:386-386: FieldEncoding::ArrayFlagMask *)
Definition FieldEncoding_ArrayFlagMask : Z := 0x60.
(* eventheader_types/src/enums.rs:389-389: FieldEncoding::CArrayFlag *)
Definition FieldEncoding_CArrayFlag : Z := 0x20.
(* eventheader_types/src/enums.rs:392-392: FieldEncoding::VArrayFlag *)
Definition FieldEncoding_VArrayFlag : Z := 0x40.
(* eventheader_types/src/enums.rs:395-395: FieldEncoding::ChainFlag *)
Definition FieldEncoding_ChainFlag : Z := 0x80.
(* eventheader_types/src/enums.rs: FieldEncoding::without_flags *)
Definition FieldEncoding_without_flags (self : Z) : Z :=
  Z.land self FieldEncoding_ValueMask.
(* eventheader_types/src/enums.rs: FieldEncoding::with_flags *)
Definition FieldEncoding_with_flags (self flags : Z) : Z := Z.lor self flags.
(* eventheader_types/src/enums.rs: FieldEncoding::without_chain_flag *)
Definition FieldEncoding_without_chain_flag (self : Z) : Z :=
  Z.land self (255 - FieldEncoding_ChainFlag).
(* eventheader_types/src/enums.rs: FieldEncoding::array_flags *)
Definition FieldEncoding_array_flags (self : Z) : Z :=
  Z.land self (Z.lor FieldEncoding_CArrayFlag FieldEncoding_VArrayFlag).
(* eventheader_types/src/enums.rs: FieldEncoding::is_array *)
Definition FieldEncoding_is_array (self : Z) : bool :=
  negb (Z.land self (Z.lor FieldEncoding_CArrayFlag FieldEncoding_VArrayFlag) =? 0).
(* eventheader_types/src/enums.rs: FieldEncoding::is_constant_length_array *)
Definition FieldEncoding_is_constant_length_array (self : Z) : bool :=
  negb (Z.land self FieldEncoding_CArrayFlag =? 0).
(* eventheader_types/src/enums.rs: FieldEncoding::is_variable_length_array *)
Definition FieldEncoding_is_variable_length_array (self : Z) : bool :=
  negb (Z.land self FieldEncoding_VArrayFlag =? 0).
(* eventheader_types/src/enums.rs: FieldEncoding::has_chain_flag *)
Definition FieldEncoding_has_chain_flag (self : Z) : bool :=
  negb (Z.land self FieldEncoding_ChainFlag =? 0).

(** ** FieldFormat *)

(* eventheader_types/src/enums.rs:451-451: FieldFormat::Default *)
Definition FieldFormat_Default : Z := 0.
(* eventheader_types/src/enums.rs:454-454: FieldFormat::UnsignedInt *)
Definition FieldFormat_UnsignedInt : Z := 1.
(* eventheader_types/src/enums.rs:457-457: FieldFormat::SignedInt *)
Definition FieldFormat_SignedInt : Z := 2.
(* eventheader_types/src/enums.rs:460-460: FieldFormat::HexInt *)
Definition FieldFormat_HexInt : Z := 3.
(* eventheader_types/src/enums.rs:463-463: FieldFormat::Errno *)
Definition FieldFormat_Errno : Z := 4.
(* eventheader_types/src/enums.rs:466-466: FieldFormat::Pid *)
Definition FieldFormat_Pid : Z := 5.
(* eventheader_types/src/enums.rs:469-469: FieldFormat::Time *)
Definition FieldFormat_Time : Z := 6.
(* eventheader_types/src/enums.rs:472-472: FieldFormat::Boolean *)
Definition FieldFormat_Boolean : Z := 7.
(* eventheader_types/src/enums.rs:475-475: FieldFormat::Float *)
Definition FieldFormat_Float : Z := 8.
(* eventheader_types/src/enums.rs:478-478: FieldFormat::HexBytes *)
Definition FieldFormat_HexBytes : Z := 9.
(* eventheader_types/src/enums.rs:481-481: FieldFormat::String8 *)
Definition FieldFormat_String8 : Z := 10.
(* eventheader_types/src/enums.rs:484-484: FieldFormat::StringUtf *)
Definition FieldFormat_StringUtf : Z := 11.
(* eventheader_types/src/enums.rs:487-487: FieldFormat::StringUtfBom *)
Definition FieldFormat_StringUtfBom : Z := 12.
(* eventheader_types/src/enums.rs:490-490: FieldFormat::StringXml *)
Definition FieldFormat_StringXml : Z := 13.
(* eventheader_types/src/enums.rs:493-493: FieldFormat::StringJson *)
Definition FieldFormat_StringJson : Z := 14.
(* eventheader_types/src/enums.rs:496-496: FieldFormat::Uuid *)
Definition FieldFormat_Uuid : Z := 15.
(* eventheader_types/src/enums.rs:499-499: FieldFormat::Port *)
Definition FieldFormat_Port : Z := 16.
(* eventheader_types/src/enums.rs:502-502: FieldFormat::IPAddress *)
Definition FieldFormat_IPAddress : Z := 17.
(* eventheader_types/src/enums.rs:505-505: FieldFormat::IPAddressObsolete *)
Definition FieldFormat_IPAddressObsolete : Z := 18.
(* eventheader_types/src/enums.rs:514-514: FieldFormat::ValueMask *)
Definition FieldFormat_ValueMask : Z := 0x7F.
(* eventheader_types/src/enums.rs:517-517: FieldFormat::ChainFlag *)
Definition FieldFormat_ChainFlag : Z := 0x80.
(* eventheader_types/src/enums.rs:504-504: FieldFormat::IPv4 *)
Definition FieldFormat_IPv4 : Z := FieldFormat_IPAddress.
(* eventheader_types/src/enums.rs:507-507: FieldFormat::IPv6 *)
Definition FieldFormat_IPv6 : Z := FieldFormat_IPAddressObsolete.
(* eventheader_types/src/enums.rs: FieldFormat::without_flags *)
Definition FieldFormat_without_flags (self : Z) : Z := Z.land self FieldFormat_ValueMask.
(* eventheader_types/src/enums.rs: FieldFormat::has_chain_flag *)
Definition FieldFormat_has_chain_flag (self : Z) : bool :=
  negb (Z.land self FieldFormat_ChainFlag =? 0).

(** ** Level and Opcode *)

(* eventheader_types/src/enums.rs:557-557: Level::Invalid *)
Definition Level_Invalid : Z := 0.
(* eventheader_types/src/enums.rs:560-560: Level::CriticalError *)
Definition Level_CriticalError : Z := 1.
(* eventheader_types/src/enums.rs:563-563: Level::Error *)
Definition Level_Error : Z := 2.
(* eventheader_types/src/enums.rs:566-566: Level::Warning *)
Definition Level_Warning : Z := 3.
(* eventheader_types/src/enums.rs:569-569: Level::Informational *)
Definition Level_Informational : Z := 4.
(* eventheader_types/src/enums.rs:572-572: Level::Verbose *)
Definition Level_Verbose : Z := 5.
(* eventheader_types/src/enums.rs:633-633: Opcode::Info *)
Definition Opcode_Info : Z := 0.
(* eventheader_types/src/enums.rs:640-640: Opcode::ActivityStart *)
Definition Opcode_ActivityStart : Z := 1.
(* eventheader_types/src/enums.rs:646-646: Opcode::ActivityStop *)
Definition Opcode_ActivityStop : Z := 2.
(* eventheader_types/src/enums.rs:649-649: Opcode::CollectionStart *)
Definition Opcode_CollectionStart : Z := 3.
(* eventheader_types/src/enums.rs:652-652: Opcode::CollectionStop *)
Definition Opcode_CollectionStop : Z := 4.
(* eventheader_types/src/enums.rs:655-655: Opcode::Extension *)
Definition Opcode_Extension : Z := 5.
(* eventheader_types/src/enums.rs:658-658: Opcode::Reply *)
Definition Opcode_Reply : Z := 6.
(* eventheader_types/src/enums.rs:661-661: Opcode::Resume *)
Definition Opcode_Resume : Z := 7.
(* eventheader_types/src/enums.rs:664-664: Opcode::Suspend *)
Definition Opcode_Suspend : Z := 8.
(* eventheader_types/src/enums.rs:667-667: Opcode::Send *)
Definition Opcode_Send : Z := 9.
(* eventheader_types/src/enums.rs:670-670: Opcode::Receive *)
Definition Opcode_Receive : Z := 240.

(** ** EventHeader and EventHeaderExtension *)

(* eventheader_types/src/descriptors.rs:38-66: struct EventHeader *)
Record EventHeader := {
  eh_flags : Z;
  eh_version : Z;
  eh_id : Z;
  eh_tag : Z;
  eh_opcode : Z;
  eh_level : Z;
}.

(* eventheader_types/src/descriptors.rs: EventHeader::new *)
Definition EventHeader_new `{Target} (level : Z) (has_extension : bool) : EventHeader :=
  {| eh_flags := if has_extension then HeaderFlags_DefaultWithExtension
                 else HeaderFlags_Default;
     eh_version := 0; eh_id := 0; eh_tag := 0;
     eh_opcode := Opcode_Info; eh_level := level |}.

(* eventheader_types/src/descriptors.rs: EventHeader::from_parts *)
Definition EventHeader_from_parts (flags version id tag opcode level : Z) : EventHeader :=
  {| eh_flags := flags; eh_version := version; eh_id := id; eh_tag := tag;
     eh_opcode := opcode; eh_level := level |}.

(* eventheader_types/src/descriptors.rs: struct EventHeaderExtension *)
Record EventHeaderExtension := { ext_size : Z; ext_kind : Z }.

(* eventheader_types/src/descriptors.rs: EventHeaderExtension::new *)
Definition EventHeaderExtension_new (kind : Z) : EventHeaderExtension :=
  {| ext_size := 0; ext_kind := kind |}.

(* eventheader_types/src/descriptors.rs: EventHeaderExtension::from_parts *)
Definition EventHeaderExtension_from_parts (size kind : Z) (chain : bool)
  : EventHeaderExtension :=
  {| ext_size := size;
     ext_kind := if chain then Z.lor kind ExtensionKind_ChainFlag else kind |}.

(** ** Facts about the encoding and format bytes *)

Definition encoding_facts (b : Z) : bool :=
  let e := FieldEncoding_without_chain_flag b in
  (0 <=? e) && (e <? 128) &&
  negb (FieldEncoding_has_chain_flag e) &&
  (FieldEncoding_without_flags e =? FieldEncoding_without_flags b) &&
  (0 <=? FieldEncoding_without_flags b) && (FieldEncoding_without_flags b <? 32) &&
  Bool.eqb (FieldEncoding_is_array b)
    (FieldEncoding_is_constant_length_array b || FieldEncoding_is_variable_length_array b) &&
  Bool.eqb (FieldEncoding_is_array e) (FieldEncoding_is_array b) &&
  (FieldEncoding_is_array e || (e =? FieldEncoding_without_flags e)) &&
  (FieldFormat_without_flags b <? 128) && (0 <=? FieldFormat_without_flags b) &&
  negb (FieldFormat_has_chain_flag (FieldFormat_without_flags b)).

Lemma encoding_facts_hold b : is_u8 b -> encoding_facts b = true.
Proof. apply u8_exhaustive. vm_compute. reflexivity. Qed.

Lemma encoding_byte b :
  is_u8 b ->
  0 <= FieldEncoding_without_chain_flag b < 128 /\
  FieldEncoding_has_chain_flag (FieldEncoding_without_chain_flag b) = false /\
  FieldEncoding_without_flags (FieldEncoding_without_chain_flag b)
    = FieldEncoding_without_flags b /\
  0 <= FieldEncoding_without_flags b < 32.
Proof.
  intros H%encoding_facts_hold. unfold encoding_facts in H. bool_hyps. split_and!; done || lia.
Qed.

Lemma encoding_scalar b :
  is_u8 b ->
  FieldEncoding_is_array (FieldEncoding_without_chain_flag b) = false ->
  FieldEncoding_without_flags (FieldEncoding_without_chain_flag b)
    = FieldEncoding_without_chain_flag b.
Proof.
  intros H%encoding_facts_hold Ha. unfold encoding_facts in H. rewrite Ha in H.
  cbn in H. by bool_hyps.
Qed.

Lemma format_byte b :
  is_u8 b ->
  0 <= FieldFormat_without_flags b < 128 /\
  FieldFormat_has_chain_flag (FieldFormat_without_flags b) = false.
Proof.
  intros H%encoding_facts_hold. unfold encoding_facts in H. bool_hyps. split_and!; done || lia.
Qed.

#[export] Hint Resolve encoding_byte encoding_scalar format_byte : tp.
