(* ===== verification/ByteReader.v ===== *)
(** * ByteReader: endian-aware reads (tracepoint_decode/src/byte_reader.rs)

    [f32] and [f64] values are modelled by their bit patterns. *)

From S2P Require Import Prelude Types.

(* byte_reader.rs: struct PerfByteReader *)
Record PerfByteReader := { source_big_endian : bool }.

(* byte_reader.rs: PerfByteReader::new *)
Definition PerfByteReader_new (big : bool) : PerfByteReader := {| source_big_endian := big |}.

#[export] Instance PerfByteReader_eq_dec : EqDecision PerfByteReader.
Proof. solve_decision. Defined.

Section Target.
Context `{Target}.

(* byte_reader.rs: PerfByteReader::KEEP_ENDIAN *)
Definition KEEP_ENDIAN : PerfByteReader := PerfByteReader_new HOST_IS_BIG_ENDIAN.
(* byte_reader.rs: PerfByteReader::SWAP_ENDIAN *)
Definition SWAP_ENDIAN : PerfByteReader := PerfByteReader_new (negb HOST_IS_BIG_ENDIAN).
(* byte_reader.rs: PerfByteReader::byte_swap_needed *)
Definition byte_swap_needed (r : PerfByteReader) : bool :=
  negb (Bool.eqb (source_big_endian r) HOST_IS_BIG_ENDIAN).

(** [uN::from_ne_bytes], [uN::to_ne_bytes], [swap_bytes]. *)
Definition from_ne_bytes (a : bytes) : Z :=
  if HOST_IS_BIG_ENDIAN then be_value a else le_value a.
Definition to_ne_bytes (n : nat) (v : Z) : bytes :=
  if HOST_IS_BIG_ENDIAN then be_bytes n v else le_bytes n v.
Definition swap_bytes (n : nat) (v : Z) : Z := le_value (be_bytes n v).

(* byte_reader.rs: PerfByteReader::fix_u16 *)
Definition fix_u16 (r : PerfByteReader) (value : Z) : Z :=
  if Bool.eqb (source_big_endian r) HOST_IS_BIG_ENDIAN then value else swap_bytes 2 value.
(* byte_reader.rs: PerfByteReader::fix_u32 *)
Definition fix_u32 (r : PerfByteReader) (value : Z) : Z :=
  if Bool.eqb (source_big_endian r) HOST_IS_BIG_ENDIAN then value else swap_bytes 4 value.
(* byte_reader.rs: PerfByteReader::fix_u64 *)
Definition fix_u64 (r : PerfByteReader) (value : Z) : Z :=
  if Bool.eqb (source_big_endian r) HOST_IS_BIG_ENDIAN then value else swap_bytes 8 value.
End Target.

(** The value of a byte array in the reader's byte order, and its inverse. *)
Definition from_source_bytes (r : PerfByteReader) (a : bytes) : Z :=
  if source_big_endian r then be_value a else le_value a.
Definition to_source_bytes (r : PerfByteReader) (n : nat) (v : Z) : bytes :=
  if source_big_endian r then be_bytes n v else le_bytes n v.

(** The common shape of the [read_*] methods: [source[..n]] in source order. *)
Definition read_uint (n : Z) (r : PerfByteReader) (source : bytes) : outcome Z :=
  _ ← rassert (n <=? len source);
  a ← slice source 0 n;
  Ret (from_source_bytes r a).

(* byte_reader.rs: PerfByteReader::read_u16 *)
Definition read_u16 (r : PerfByteReader) (source : bytes) : outcome Z := read_uint 2 r source.
(* byte_reader.rs: PerfByteReader::read_u32 *)
Definition read_u32 (r : PerfByteReader) (source : bytes) : outcome Z := read_uint 4 r source.
(* byte_reader.rs: PerfByteReader::read_u64 *)
Definition read_u64 (r : PerfByteReader) (source : bytes) : outcome Z := read_uint 8 r source.
(* byte_reader.rs: PerfByteReader::read_i16 *)
Definition read_i16 (r : PerfByteReader) (source : bytes) : outcome Z :=
  v ← read_uint 2 r source; Ret (as_signed 16 v).
(* byte_reader.rs: PerfByteReader::read_i32 *)
Definition read_i32 (r : PerfByteReader) (source : bytes) : outcome Z :=
  v ← read_uint 4 r source; Ret (as_signed 32 v).
(* byte_reader.rs: PerfByteReader::read_i64 *)
Definition read_i64 (r : PerfByteReader) (source : bytes) : outcome Z :=
  v ← read_uint 8 r source; Ret (as_signed 64 v).
(* byte_reader.rs: PerfByteReader::read_f32 *)
Definition read_f32 (r : PerfByteReader) (source : bytes) : outcome Z := read_uint 4 r source.
(* byte_reader.rs: PerfByteReader::read_f64 *)
Definition read_f64 (r : PerfByteReader) (source : bytes) : outcome Z := read_uint 8 r source.

(** ** Reads are total on long enough slices and stay in width *)

Lemma read_uint_ok n r l :
  0 <= n <= len l -> read_uint n r l = Ret (from_source_bytes r (sub l 0 n)).
Proof.
  intros Hn. unfold read_uint.
  rewrite (proj2 (Z.leb_le n (len l))) by lia. cbn.
  by rewrite slice_ok by lia.
Qed.

Lemma from_source_bytes_bound r a :
  bytes_ok a -> 0 <= from_source_bytes r a < 256 ^ len a.
Proof.
  intros. unfold from_source_bytes. case_match; [by apply be_value_bound | by apply le_value_bound].
Qed.

Lemma wp_read_uint n r l (Q : Z -> Prop) :
  bytes_ok l -> 0 <= n <= len l ->
  (forall v, 0 <= v < 256 ^ n -> Q v) -> wp (read_uint n r l) Q.
Proof.
  intros Hl Hn HQ. rewrite read_uint_ok by lia. apply HQ.
  replace n with (len (sub l 0 n)) at 3 by (rewrite len_sub; lia).
  apply from_source_bytes_bound, bytes_ok_sub, Hl.
Qed.

Lemma wp_read_u16 r l (Q : Z -> Prop) :
  bytes_ok l -> 2 <= len l -> (forall v, 0 <= v < 65536 -> Q v) -> wp (read_u16 r l) Q.
Proof. intros. apply wp_read_uint; auto; lia. Qed.

Lemma wp_read_u32 r l (Q : Z -> Prop) :
  bytes_ok l -> 4 <= len l -> (forall v, 0 <= v < 2 ^ 32 -> Q v) -> wp (read_u32 r l) Q.
Proof. intros. apply wp_read_uint; auto; lia. Qed.

Lemma wp_read_u64 r l (Q : Z -> Prop) :
  bytes_ok l -> 8 <= len l -> (forall v, 0 <= v < 2 ^ 64 -> Q v) -> wp (read_u64 r l) Q.
Proof. intros. apply wp_read_uint; auto; lia. Qed.

Lemma from_to_source_bytes r n v :
  0 <= v < 256 ^ Z.of_nat n -> from_source_bytes r (to_source_bytes r n v) = v.
Proof.
  intros. unfold from_source_bytes, to_source_bytes.
  case_match; [by apply be_value_be_bytes | by apply le_value_le_bytes].
Qed.

Lemma length_to_source_bytes r n v : length (to_source_bytes r n v) = n.
Proof.
  unfold to_source_bytes. case_match; [apply length_be_bytes | apply length_le_bytes].
Qed.

Lemma to_source_bytes_ok r n v : bytes_ok (to_source_bytes r n v).
Proof. unfold to_source_bytes. case_match; [apply be_bytes_ok | apply le_bytes_ok]. Qed.

Lemma read_uint_app r n v rest :
  0 <= v < 256 ^ Z.of_nat n ->
  read_uint (Z.of_nat n) r (to_source_bytes r n v ++ rest) = Ret v.
Proof.
  intros Hv. pose proof (length_to_source_bytes r n v) as Hl.
  rewrite read_uint_ok by (autorewrite with tp_simpl; unfold len; lia).
  unfold sub. rewrite Z.sub_0_r, Nat2Z.id, drop_0.
  rewrite take_app_length' by done. by rewrite from_to_source_bytes.
Qed.

#[export] Hint Resolve to_source_bytes_ok : tp.
