(* ===== verification/PerfItem.v ===== *)
(** * PerfItem: item metadata and values (tracepoint_decode/src/perf_item.rs)

    Text formatting of values (the [write_*] methods) is in the writer files;
    this file holds the data, its well-formedness asserts and the typed
    accessors. *)

From S2P Require Import Prelude Types ByteReader.

(** ** PerfItemMetadata *)

(* perf_item.rs: struct PerfItemMetadata *)
Record PerfItemMetadata := {
  element_count : Z;
  field_tag : Z;
  type_size : Z;
  encoding_and_array_flag_and_is_scalar : Z;
  format : Z;
  md_byte_reader : PerfByteReader;
}.

(* perf_item.rs: PerfItemMetadata::null *)
Definition PerfItemMetadata_null : PerfItemMetadata :=
  {| element_count := 0; field_tag := 0; type_size := 0;
     encoding_and_array_flag_and_is_scalar := FieldEncoding_Invalid;
     format := FieldFormat_Default; md_byte_reader := PerfByteReader_new false |}.

(** The [debug_assert!]s of [PerfItemMetadata::new]. *)
Definition metadata_asserts (enc fmt : Z) (is_scalar : bool) (ts count : Z) : bool :=
  negb (FieldEncoding_has_chain_flag enc) &&
  negb (FieldFormat_has_chain_flag fmt) &&
  negb (FieldEncoding_array_flags enc =? FieldEncoding_ArrayFlagMask) &&
  (if is_scalar then count =? 1 else FieldEncoding_is_array enc) &&
  (if FieldEncoding_without_flags enc =? FieldEncoding_Struct
   then (ts =? 0) && negb (fmt =? 0) else true).

(* perf_item.rs: PerfItemMetadata::new *)
Definition PerfItemMetadata_new (r : PerfByteReader) (encoding_and_array_flag fmt : Z)
    (is_scalar : bool) (ts count tag : Z) : outcome PerfItemMetadata :=
  _ ← rassert (metadata_asserts encoding_and_array_flag fmt is_scalar ts count);
  let is_scalar_flag := if is_scalar then FieldEncoding_ChainFlag else 0 in
  Ret {| element_count := count; field_tag := tag; type_size := ts;
         encoding_and_array_flag_and_is_scalar :=
           FieldEncoding_with_flags encoding_and_array_flag is_scalar_flag;
         format := fmt; md_byte_reader := r |}.

(* perf_item.rs: PerfItemMetadata::encoding *)
Definition md_encoding (m : PerfItemMetadata) : Z :=
  FieldEncoding_without_flags (encoding_and_array_flag_and_is_scalar m).
(* perf_item.rs: PerfItemMetadata::array_flag *)
Definition md_array_flag (m : PerfItemMetadata) : Z :=
  FieldEncoding_array_flags (encoding_and_array_flag_and_is_scalar m).
(* perf_item.rs: PerfItemMetadata::is_scalar *)
Definition md_is_scalar (m : PerfItemMetadata) : bool :=
  FieldEncoding_has_chain_flag (encoding_and_array_flag_and_is_scalar m).
(* perf_item.rs: PerfItemMetadata::is_element *)
Definition md_is_element (m : PerfItemMetadata) : bool :=
  let enc := encoding_and_array_flag_and_is_scalar m in
  negb (0 =? Z.land enc FieldEncoding_ChainFlag) &&
  negb (0 =? Z.land enc FieldEncoding_ArrayFlagMask).
(* perf_item.rs: PerfItemMetadata::struct_field_count *)
Definition md_struct_field_count (m : PerfItemMetadata) : Z := format m.
(* perf_item.rs: PerfItemMetadata::source_big_endian *)
Definition md_source_big_endian (m : PerfItemMetadata) : bool :=
  source_big_endian (md_byte_reader m).

(** ** PerfItemValue *)

(* perf_item.rs: struct PerfItemValue *)
Record PerfItemValue := { item_bytes : bytes; item_metadata : PerfItemMetadata }.

(* perf_item.rs: PerfItemValue::new *)
Definition PerfItemValue_new (b : bytes) (m : PerfItemMetadata) : outcome PerfItemValue :=
  _ ← rassert (if negb (type_size m =? 0) && negb (len b =? 0)
               then len b =? type_size m * element_count m else true);
  _ ← rassert (if md_encoding m =? FieldEncoding_Struct then len b =? 0 else true);
  Ret {| item_bytes := b; item_metadata := m |}.

(** The shape shared by [to_u8x2] .. [to_u8x16]: element [index] of an array of
    [size]-byte elements. *)
Definition element_bytes (size : Z) (v : PerfItemValue) (i : Z) : outcome bytes :=
  _ ← rassert (i <? len (item_bytes v) / size);
  slice (item_bytes v) (i * size) (i * size + size).

(* perf_item.rs: PerfItemValue::to_u8x1 *)
Definition to_u8x1 (v : PerfItemValue) (i : Z) : outcome bytes :=
  _ ← rassert (i <? len (item_bytes v));
  b ← index (item_bytes v) i; Ret [b].
(* perf_item.rs: PerfItemValue::to_u8x2 *)
Definition to_u8x2 (v : PerfItemValue) (i : Z) : outcome bytes := element_bytes 2 v i.
(* perf_item.rs: PerfItemValue::to_u8x4 *)
Definition to_u8x4 (v : PerfItemValue) (i : Z) : outcome bytes := element_bytes 4 v i.
(* perf_item.rs: PerfItemValue::to_u8x8 *)
Definition to_u8x8 (v : PerfItemValue) (i : Z) : outcome bytes := element_bytes 8 v i.
(* perf_item.rs: PerfItemValue::to_u8x16 *)
Definition to_u8x16 (v : PerfItemValue) (i : Z) : outcome bytes := element_bytes 16 v i.

(* perf_item.rs: PerfItemValue::to_u8 *)
Definition to_u8 (v : PerfItemValue) (i : Z) : outcome Z :=
  _ ← rassert (i <? len (item_bytes v));
  index (item_bytes v) i.
(* perf_item.rs: PerfItemValue::to_i8 *)
Definition to_i8 (v : PerfItemValue) (i : Z) : outcome Z :=
  _ ← rassert (i <? len (item_bytes v));
  b ← index (item_bytes v) i; Ret (as_signed 8 b).

(** The shape shared by [to_u16] .. [to_f64]: read at [&self.bytes[index * size..]]. *)
Definition element_read (size : Z) (read : PerfByteReader -> bytes -> outcome Z)
    (v : PerfItemValue) (i : Z) : outcome Z :=
  _ ← rassert (i <? len (item_bytes v) / size);
  src ← slice_from (item_bytes v) (i * size);
  read (md_byte_reader (item_metadata v)) src.

(* perf_item.rs: PerfItemValue::to_u16 *)
Definition to_u16 (v : PerfItemValue) (i : Z) : outcome Z := element_read 2 read_u16 v i.
(* perf_item.rs: PerfItemValue::to_i16 *)
Definition to_i16 (v : PerfItemValue) (i : Z) : outcome Z := element_read 2 read_i16 v i.
(* perf_item.rs: PerfItemValue::to_u32 *)
Definition to_u32 (v : PerfItemValue) (i : Z) : outcome Z := element_read 4 read_u32 v i.
(* perf_item.rs: PerfItemValue::to_i32 *)
Definition to_i32 (v : PerfItemValue) (i : Z) : outcome Z := element_read 4 read_i32 v i.
(* perf_item.rs: PerfItemValue::to_u64 *)
Definition to_u64 (v : PerfItemValue) (i : Z) : outcome Z := element_read 8 read_u64 v i.
(* perf_item.rs: PerfItemValue::to_i64 *)
Definition to_i64 (v : PerfItemValue) (i : Z) : outcome Z := element_read 8 read_i64 v i.
(* perf_item.rs: PerfItemValue::to_f32 *)
Definition to_f32 (v : PerfItemValue) (i : Z) : outcome Z := element_read 4 read_f32 v i.
(* perf_item.rs: PerfItemValue::to_f64 *)
Definition to_f64 (v : PerfItemValue) (i : Z) : outcome Z := element_read 8 read_f64 v i.
(* perf_item.rs: PerfItemValue::to_time32 *)
Definition to_time32 (v : PerfItemValue) (i : Z) : outcome Z := element_read 4 read_i32 v i.
(* perf_item.rs: PerfItemValue::to_time64 *)
Definition to_time64 (v : PerfItemValue) (i : Z) : outcome Z := element_read 8 read_i64 v i.
(* perf_item.rs: PerfItemValue::to_guid *)
Definition to_guid (v : PerfItemValue) (i : Z) : outcome bytes := element_bytes 16 v i.
(* perf_item.rs: PerfItemValue::to_port *)
Definition to_port (v : PerfItemValue) (i : Z) : outcome Z :=
  b ← element_bytes 2 v i; Ret (be_value b).

(** ** Text encodings *)

(* perf_item.rs: enum PerfTextEncoding *)
Inductive PerfTextEncoding := Latin1 | Utf8 | Utf16BE | Utf16LE | Utf32BE | Utf32LE.

#[export] Instance PerfTextEncoding_eq_dec : EqDecision PerfTextEncoding.
Proof. solve_decision. Defined.

(* perf_item.rs: PerfTextEncoding::from_bom *)
Definition from_bom (b : bytes) : option PerfTextEncoding * Z :=
  let has n := n <=? len b in
  let eq_at i v := byte_at b i =? v in
  if has 4 && eq_at 0 0x00 && eq_at 1 0x00 && eq_at 2 0xFE && eq_at 3 0xFF then (Some Utf32BE, 4)
  else if has 4 && eq_at 0 0xFF && eq_at 1 0xFE && eq_at 2 0x00 && eq_at 3 0x00 then (Some Utf32LE, 4)
  else if has 2 && eq_at 0 0xFE && eq_at 1 0xFF then (Some Utf16BE, 2)
  else if has 2 && eq_at 0 0xFF && eq_at 1 0xFE then (Some Utf16LE, 2)
  else if has 3 && eq_at 0 0xEF && eq_at 1 0xBB && eq_at 2 0xBF then (Some Utf8, 3)
  else (None, 0).

(* perf_item.rs: PerfItemValue::to_string_bytes *)
Definition to_string_bytes (v : PerfItemValue) : outcome (bytes * PerfTextEncoding) :=
  let m := item_metadata v in
  let no_bom :=
    let e := md_encoding m in
    let big := md_source_big_endian m in
    let enc :=
      if (e =? FieldEncoding_Value8) || (e =? FieldEncoding_ZStringChar8)
         || (e =? FieldEncoding_StringLength16Char8)
         || (e =? FieldEncoding_BinaryLength16Char8) then Utf8
      else if (e =? FieldEncoding_Value16) || (e =? FieldEncoding_ZStringChar16)
              || (e =? FieldEncoding_StringLength16Char16)
      then if big then Utf16BE else Utf16LE
      else if (e =? FieldEncoding_Value32) || (e =? FieldEncoding_ZStringChar32)
              || (e =? FieldEncoding_StringLength16Char32)
      then if big then Utf32BE else Utf32LE
      else Latin1 in
    Ret (item_bytes v, enc) in
  if format m =? FieldFormat_String8 then Ret (item_bytes v, Latin1)
  else if (format m =? FieldFormat_StringUtfBom) || (format m =? FieldFormat_StringXml)
          || (format m =? FieldFormat_StringJson)
  then match from_bom (item_bytes v) with
       | (Some enc, n) => b ← slice_from (item_bytes v) n; Ret (b, enc)
       | (None, _) => no_bom
       end
  else no_bom.

(** ** Facts *)

Lemma wp_metadata_new r enc fmt is_scalar ts count tag (Q : PerfItemMetadata -> Prop) :
  metadata_asserts enc fmt is_scalar ts count = true ->
  Q {| element_count := count; field_tag := tag; type_size := ts;
       encoding_and_array_flag_and_is_scalar :=
         FieldEncoding_with_flags enc (if is_scalar then FieldEncoding_ChainFlag else 0);
       format := fmt; md_byte_reader := r |} ->
  wp (PerfItemMetadata_new r enc fmt is_scalar ts count tag) Q.
Proof. intros H HQ. unfold PerfItemMetadata_new. by rewrite H. Qed.

(** The packed byte keeps the encoding, the array flags and the scalar flag apart. *)
Definition packed_facts (b : Z) : bool :=
  if FieldEncoding_has_chain_flag b then true
  else
    let s := FieldEncoding_with_flags b FieldEncoding_ChainFlag in
    let a := FieldEncoding_with_flags b 0 in
    (FieldEncoding_without_flags s =? FieldEncoding_without_flags b) &&
    (FieldEncoding_without_flags a =? FieldEncoding_without_flags b) &&
    (FieldEncoding_array_flags s =? FieldEncoding_array_flags b) &&
    (FieldEncoding_array_flags a =? FieldEncoding_array_flags b) &&
    FieldEncoding_has_chain_flag s && negb (FieldEncoding_has_chain_flag a).

Lemma packed_facts_hold b : is_u8 b -> packed_facts b = true.
Proof. apply u8_exhaustive. vm_compute. reflexivity. Qed.

Lemma metadata_new_accessors r enc fmt sc ts count tag m :
  is_u8 enc -> PerfItemMetadata_new r enc fmt sc ts count tag = Ret m ->
  md_encoding m = FieldEncoding_without_flags enc /\
  md_array_flag m = FieldEncoding_array_flags enc /\
  md_is_scalar m = sc /\ element_count m = count /\ type_size m = ts /\
  format m = fmt /\ field_tag m = tag /\ md_byte_reader m = r.
Proof.
  intros Hu. unfold PerfItemMetadata_new, rassert.
  destruct (metadata_asserts _ _ _ _ _) eqn:E; [|done]. cbn. intros [= <-].
  unfold metadata_asserts in E. bool_hyps. apply packed_facts_hold in Hu.
  unfold packed_facts in Hu.
  match goal with H : FieldEncoding_has_chain_flag enc = false |- _ => rewrite H in Hu end.
  bool_hyps. unfold md_encoding, md_array_flag, md_is_scalar. cbn. destruct sc; split_and!; done.
Qed.
