(* ===== verification/Enumerator.v ===== *)
(** * Enumerator: decoding of EventHeader events
    (tracepoint_decode/src/enumerator.rs)

    [EventHeaderEnumeratorContext] is the state of the decoder; the methods that
    take [&mut self] become functions from a context to an outcome carrying the
    new context, and those that also return a [bool] return the pair.  The
    event's bytes are the argument [event_data], as in the source.  Every
    [debug_assert!] and every checked arithmetic operation of the source is
    present, so an outcome that is not [Panic] is one the debug build accepts. *)

From S2P Require Import Prelude Types ByteReader PerfItem.

(** ** Data *)

(* enumerator.rs: enum SubState *)
Inductive SubState :=
  | SsError | SsAfterLastItem | SsBeforeFirstItem | SsValueMetadata | SsValueScalar
  | SsValueSimpleArrayElement | SsValueComplexArrayElement | SsArrayBegin
  | SsArrayEnd | SsStructBegin | SsStructEnd.

(* enumerator.rs: enum EventHeaderEnumeratorState *)
Inductive EventHeaderEnumeratorState :=
  | StError | StAfterLastItem | StBeforeFirstItem | StValue | StArrayBegin
  | StArrayEnd | StStructBegin | StStructEnd.

(* enumerator.rs: enum EventHeaderEnumeratorError *)
Inductive EventHeaderEnumeratorError :=
  | ErSuccess | ErInvalidParameter | ErNotSupported | ErImplementationLimit
  | ErInvalidData | ErStackOverflow | ErNotEventHeader.

#[export] Instance SubState_eq_dec : EqDecision SubState.
Proof. solve_decision. Defined.
#[export] Instance EventHeaderEnumeratorState_eq_dec : EqDecision EventHeaderEnumeratorState.
Proof. solve_decision. Defined.
#[export] Instance EventHeaderEnumeratorError_eq_dec : EqDecision EventHeaderEnumeratorError.
Proof. solve_decision. Defined.

(** [state as u8]: the discriminant, which orders the states. *)
(* enumerator.rs:138-172: EventHeaderEnumeratorState, discriminants *)
Definition state_code (s : EventHeaderEnumeratorState) : Z :=
  match s with
  | StError => 0 | StAfterLastItem => 1 | StBeforeFirstItem => 2 | StValue => 3
  | StArrayBegin => 4 | StArrayEnd => 5 | StStructBegin => 6 | StStructEnd => 7
  end.

(* enumerator.rs: EventHeaderEnumeratorState::can_move_next *)
Definition can_move_next (s : EventHeaderEnumeratorState) : bool :=
  state_code StBeforeFirstItem <=? state_code s.

(* enumerator.rs: EventHeaderEnumeratorState::can_item_info *)
Definition can_item_info (s : EventHeaderEnumeratorState) : bool :=
  state_code StValue <=? state_code s.

(* enumerator.rs: struct StackEntry *)
Record StackEntry := {
  next_offset : Z;
  name_offset : Z;
  name_len : Z;
  array_index : Z;
  array_count : Z;
  remaining_field_count : Z;
}.

(* enumerator.rs: StackEntry::ZERO *)
Definition StackEntry_ZERO : StackEntry :=
  {| next_offset := 0; name_offset := 0; name_len := 0; array_index := 0;
     array_count := 0; remaining_field_count := 0 |}.

(* enumerator.rs: struct FieldType *)
Record FieldType := { ft_encoding : Z; ft_format : Z; ft_tag : Z }.

(* enumerator.rs: struct EventHeaderEnumeratorContext *)
Record EventHeaderEnumeratorContext := {
  header : EventHeader;
  keyword : Z;
  meta_start : Z;
  meta_end : Z;
  activity_id_start : Z;
  activity_id_len : Z;
  byte_reader : PerfByteReader;
  event_name_len : Z;
  data_start : Z;
  data_pos_raw : Z;
  move_next_remaining : Z;
  stack_top : StackEntry;
  stack_index : Z;
  state : EventHeaderEnumeratorState;
  substate : SubState;
  last_error : EventHeaderEnumeratorError;
  element_size : Z;
  field_type : FieldType;
  data_pos_cooked : Z;
  item_size_raw : Z;
  item_size_cooked : Z;
  stack : list StackEntry;
}.

Abbreviation Ctx := EventHeaderEnumeratorContext (only parsing).

(** Assignments to one field of the context or of a stack entry. *)
Definition set_next_offset (v : Z) (e : StackEntry) : StackEntry :=
  Build_StackEntry v (e.(name_offset)) (e.(name_len)) (e.(array_index))
  (e.(array_count)) (e.(remaining_field_count)).
Definition set_name_offset (v : Z) (e : StackEntry) : StackEntry :=
  Build_StackEntry (e.(next_offset)) v (e.(name_len)) (e.(array_index))
  (e.(array_count)) (e.(remaining_field_count)).
Definition set_name_len (v : Z) (e : StackEntry) : StackEntry :=
  Build_StackEntry (e.(next_offset)) (e.(name_offset)) v (e.(array_index))
  (e.(array_count)) (e.(remaining_field_count)).
Definition set_array_index (v : Z) (e : StackEntry) : StackEntry :=
  Build_StackEntry (e.(next_offset)) (e.(name_offset)) (e.(name_len)) v
  (e.(array_count)) (e.(remaining_field_count)).
Definition set_array_count (v : Z) (e : StackEntry) : StackEntry :=
  Build_StackEntry (e.(next_offset)) (e.(name_offset)) (e.(name_len)) (e.(array_index))
  v (e.(remaining_field_count)).
Definition set_remaining_field_count (v : Z) (e : StackEntry) : StackEntry :=
  Build_StackEntry (e.(next_offset)) (e.(name_offset)) (e.(name_len)) (e.(array_index))
  (e.(array_count)) v.

Definition set_header (v : EventHeader) (c : Ctx) : Ctx :=
  Build_EventHeaderEnumeratorContext v (c.(keyword)) (c.(meta_start)) (c.(meta_end))
  (c.(activity_id_start)) (c.(activity_id_len)) (c.(byte_reader)) (c.(event_name_len))
  (c.(data_start)) (c.(data_pos_raw)) (c.(move_next_remaining)) (c.(stack_top))
  (c.(stack_index)) (c.(state)) (c.(substate)) (c.(last_error)) (c.(element_size))
  (c.(field_type)) (c.(data_pos_cooked)) (c.(item_size_raw)) (c.(item_size_cooked))
  (c.(stack)).
Definition set_keyword (v : Z) (c : Ctx) : Ctx :=
  Build_EventHeaderEnumeratorContext (c.(header)) v (c.(meta_start)) (c.(meta_end))
  (c.(activity_id_start)) (c.(activity_id_len)) (c.(byte_reader)) (c.(event_name_len))
  (c.(data_start)) (c.(data_pos_raw)) (c.(move_next_remaining)) (c.(stack_top))
  (c.(stack_index)) (c.(state)) (c.(substate)) (c.(last_error)) (c.(element_size))
  (c.(field_type)) (c.(data_pos_cooked)) (c.(item_size_raw)) (c.(item_size_cooked))
  (c.(stack)).
Definition set_meta_start (v : Z) (c : Ctx) : Ctx :=
  Build_EventHeaderEnumeratorContext (c.(header)) (c.(keyword)) v (c.(meta_end))
  (c.(activity_id_start)) (c.(activity_id_len)) (c.(byte_reader)) (c.(event_name_len))
  (c.(data_start)) (c.(data_pos_raw)) (c.(move_next_remaining)) (c.(stack_top))
  (c.(stack_index)) (c.(state)) (c.(substate)) (c.(last_error)) (c.(element_size))
  (c.(field_type)) (c.(data_pos_cooked)) (c.(item_size_raw)) (c.(item_size_cooked))
  (c.(stack)).
Definition set_meta_end (v : Z) (c : Ctx) : Ctx :=
  Build_EventHeaderEnumeratorContext (c.(header)) (c.(keyword)) (c.(meta_start)) v
  (c.(activity_id_start)) (c.(activity_id_len)) (c.(byte_reader)) (c.(event_name_len))
  (c.(data_start)) (c.(data_pos_raw)) (c.(move_next_remaining)) (c.(stack_top))
  (c.(stack_index)) (c.(state)) (c.(substate)) (c.(last_error)) (c.(element_size))
  (c.(field_type)) (c.(data_pos_cooked)) (c.(item_size_raw)) (c.(item_size_cooked))
  (c.(stack)).
Definition set_activity_id_start (v : Z) (c : Ctx) : Ctx :=
  Build_EventHeaderEnumeratorContext (c.(header)) (c.(keyword)) (c.(meta_start))
  (c.(meta_end)) v (c.(activity_id_len)) (c.(byte_reader)) (c.(event_name_len))
  (c.(data_start)) (c.(data_pos_raw)) (c.(move_next_remaining)) (c.(stack_top))
  (c.(stack_index)) (c.(state)) (c.(substate)) (c.(last_error)) (c.(element_size))
  (c.(field_type)) (c.(data_pos_cooked)) (c.(item_size_raw)) (c.(item_size_cooked))
  (c.(stack)).
Definition set_activity_id_len (v : Z) (c : Ctx) : Ctx :=
  Build_EventHeaderEnumeratorContext (c.(header)) (c.(keyword)) (c.(meta_start))
  (c.(meta_end)) (c.(activity_id_start)) v (c.(byte_reader)) (c.(event_name_len))
  (c.(data_start)) (c.(data_pos_raw)) (c.(move_next_remaining)) (c.(stack_top))
  (c.(stack_index)) (c.(state)) (c.(substate)) (c.(last_error)) (c.(element_size))
  (c.(field_type)) (c.(data_pos_cooked)) (c.(item_size_raw)) (c.(item_size_cooked))
  (c.(stack)).
Definition set_byte_reader (v : PerfByteReader) (c : Ctx) : Ctx :=
  Build_EventHeaderEnumeratorContext (c.(header)) (c.(keyword)) (c.(meta_start))
  (c.(meta_end)) (c.(activity_id_start)) (c.(activity_id_len)) v (c.(event_name_len))
  (c.(data_start)) (c.(data_pos_raw)) (c.(move_next_remaining)) (c.(stack_top))
  (c.(stack_index)) (c.(state)) (c.(substate)) (c.(last_error)) (c.(element_size))
  (c.(field_type)) (c.(data_pos_cooked)) (c.(item_size_raw)) (c.(item_size_cooked))
  (c.(stack)).
Definition set_event_name_len (v : Z) (c : Ctx) : Ctx :=
  Build_EventHeaderEnumeratorContext (c.(header)) (c.(keyword)) (c.(meta_start))
  (c.(meta_end)) (c.(activity_id_start)) (c.(activity_id_len)) (c.(byte_reader)) v
  (c.(data_start)) (c.(data_pos_raw)) (c.(move_next_remaining)) (c.(stack_top))
  (c.(stack_index)) (c.(state)) (c.(substate)) (c.(last_error)) (c.(element_size))
  (c.(field_type)) (c.(data_pos_cooked)) (c.(item_size_raw)) (c.(item_size_cooked))
  (c.(stack)).
Definition set_data_start (v : Z) (c : Ctx) : Ctx :=
  Build_EventHeaderEnumeratorContext (c.(header)) (c.(keyword)) (c.(meta_start))
  (c.(meta_end)) (c.(activity_id_start)) (c.(activity_id_len)) (c.(byte_reader))
  (c.(event_name_len)) v (c.(data_pos_raw)) (c.(move_next_remaining)) (c.(stack_top))
  (c.(stack_index)) (c.(state)) (c.(substate)) (c.(last_error)) (c.(element_size))
  (c.(field_type)) (c.(data_pos_cooked)) (c.(item_size_raw)) (c.(item_size_cooked))
  (c.(stack)).
Definition set_data_pos_raw (v : Z) (c : Ctx) : Ctx :=
  Build_EventHeaderEnumeratorContext (c.(header)) (c.(keyword)) (c.(meta_start))
  (c.(meta_end)) (c.(activity_id_start)) (c.(activity_id_len)) (c.(byte_reader))
  (c.(event_name_len)) (c.(data_start)) v (c.(move_next_remaining)) (c.(stack_top))
  (c.(stack_index)) (c.(state)) (c.(substate)) (c.(last_error)) (c.(element_size))
  (c.(field_type)) (c.(data_pos_cooked)) (c.(item_size_raw)) (c.(item_size_cooked))
  (c.(stack)).
Definition set_move_next_remaining (v : Z) (c : Ctx) : Ctx :=
  Build_EventHeaderEnumeratorContext (c.(header)) (c.(keyword)) (c.(meta_start))
  (c.(meta_end)) (c.(activity_id_start)) (c.(activity_id_len)) (c.(byte_reader))
  (c.(event_name_len)) (c.(data_start)) (c.(data_pos_raw)) v (c.(stack_top))
  (c.(stack_index)) (c.(state)) (c.(substate)) (c.(last_error)) (c.(element_size))
  (c.(field_type)) (c.(data_pos_cooked)) (c.(item_size_raw)) (c.(item_size_cooked))
  (c.(stack)).
Definition set_stack_top (v : StackEntry) (c : Ctx) : Ctx :=
  Build_EventHeaderEnumeratorContext (c.(header)) (c.(keyword)) (c.(meta_start))
  (c.(meta_end)) (c.(activity_id_start)) (c.(activity_id_len)) (c.(byte_reader))
  (c.(event_name_len)) (c.(data_start)) (c.(data_pos_raw)) (c.(move_next_remaining)) v
  (c.(stack_index)) (c.(state)) (c.(substate)) (c.(last_error)) (c.(element_size))
  (c.(field_type)) (c.(data_pos_cooked)) (c.(item_size_raw)) (c.(item_size_cooked))
  (c.(stack)).
Definition set_stack_index (v : Z) (c : Ctx) : Ctx :=
  Build_EventHeaderEnumeratorContext (c.(header)) (c.(keyword)) (c.(meta_start))
  (c.(meta_end)) (c.(activity_id_start)) (c.(activity_id_len)) (c.(byte_reader))
  (c.(event_name_len)) (c.(data_start)) (c.(data_pos_raw)) (c.(move_next_remaining))
  (c.(stack_top)) v (c.(state)) (c.(substate)) (c.(last_error)) (c.(element_size))
  (c.(field_type)) (c.(data_pos_cooked)) (c.(item_size_raw)) (c.(item_size_cooked))
  (c.(stack)).
Definition set_last_error (v : EventHeaderEnumeratorError) (c : Ctx) : Ctx :=
  Build_EventHeaderEnumeratorContext (c.(header)) (c.(keyword)) (c.(meta_start))
  (c.(meta_end)) (c.(activity_id_start)) (c.(activity_id_len)) (c.(byte_reader))
  (c.(event_name_len)) (c.(data_start)) (c.(data_pos_raw)) (c.(move_next_remaining))
  (c.(stack_top)) (c.(stack_index)) (c.(state)) (c.(substate)) v (c.(element_size))
  (c.(field_type)) (c.(data_pos_cooked)) (c.(item_size_raw)) (c.(item_size_cooked))
  (c.(stack)).
Definition set_element_size (v : Z) (c : Ctx) : Ctx :=
  Build_EventHeaderEnumeratorContext (c.(header)) (c.(keyword)) (c.(meta_start))
  (c.(meta_end)) (c.(activity_id_start)) (c.(activity_id_len)) (c.(byte_reader))
  (c.(event_name_len)) (c.(data_start)) (c.(data_pos_raw)) (c.(move_next_remaining))
  (c.(stack_top)) (c.(stack_index)) (c.(state)) (c.(substate)) (c.(last_error)) v
  (c.(field_type)) (c.(data_pos_cooked)) (c.(item_size_raw)) (c.(item_size_cooked))
  (c.(stack)).
Definition set_field_type (v : FieldType) (c : Ctx) : Ctx :=
  Build_EventHeaderEnumeratorContext (c.(header)) (c.(keyword)) (c.(meta_start))
  (c.(meta_end)) (c.(activity_id_start)) (c.(activity_id_len)) (c.(byte_reader))
  (c.(event_name_len)) (c.(data_start)) (c.(data_pos_raw)) (c.(move_next_remaining))
  (c.(stack_top)) (c.(stack_index)) (c.(state)) (c.(substate)) (c.(last_error))
  (c.(element_size)) v (c.(data_pos_cooked)) (c.(item_size_raw)) (c.(item_size_cooked))
  (c.(stack)).
Definition set_data_pos_cooked (v : Z) (c : Ctx) : Ctx :=
  Build_EventHeaderEnumeratorContext (c.(header)) (c.(keyword)) (c.(meta_start))
  (c.(meta_end)) (c.(activity_id_start)) (c.(activity_id_len)) (c.(byte_reader))
  (c.(event_name_len)) (c.(data_start)) (c.(data_pos_raw)) (c.(move_next_remaining))
  (c.(stack_top)) (c.(stack_index)) (c.(state)) (c.(substate)) (c.(last_error))
  (c.(element_size)) (c.(field_type)) v (c.(item_size_raw)) (c.(item_size_cooked))
  (c.(stack)).
Definition set_item_size_raw (v : Z) (c : Ctx) : Ctx :=
  Build_EventHeaderEnumeratorContext (c.(header)) (c.(keyword)) (c.(meta_start))
  (c.(meta_end)) (c.(activity_id_start)) (c.(activity_id_len)) (c.(byte_reader))
  (c.(event_name_len)) (c.(data_start)) (c.(data_pos_raw)) (c.(move_next_remaining))
  (c.(stack_top)) (c.(stack_index)) (c.(state)) (c.(substate)) (c.(last_error))
  (c.(element_size)) (c.(field_type)) (c.(data_pos_cooked)) v (c.(item_size_cooked))
  (c.(stack)).
Definition set_item_size_cooked (v : Z) (c : Ctx) : Ctx :=
  Build_EventHeaderEnumeratorContext (c.(header)) (c.(keyword)) (c.(meta_start))
  (c.(meta_end)) (c.(activity_id_start)) (c.(activity_id_len)) (c.(byte_reader))
  (c.(event_name_len)) (c.(data_start)) (c.(data_pos_raw)) (c.(move_next_remaining))
  (c.(stack_top)) (c.(stack_index)) (c.(state)) (c.(substate)) (c.(last_error))
  (c.(element_size)) (c.(field_type)) (c.(data_pos_cooked)) (c.(item_size_raw)) v
  (c.(stack)).
Definition set_stack (v : list StackEntry) (c : Ctx) : Ctx :=
  Build_EventHeaderEnumeratorContext (c.(header)) (c.(keyword)) (c.(meta_start))
  (c.(meta_end)) (c.(activity_id_start)) (c.(activity_id_len)) (c.(byte_reader))
  (c.(event_name_len)) (c.(data_start)) (c.(data_pos_raw)) (c.(move_next_remaining))
  (c.(stack_top)) (c.(stack_index)) (c.(state)) (c.(substate)) (c.(last_error))
  (c.(element_size)) (c.(field_type)) (c.(data_pos_cooked)) (c.(item_size_raw))
  (c.(item_size_cooked)) v.
Definition set_states (st : EventHeaderEnumeratorState) (ss : SubState) (c : Ctx) : Ctx :=
  Build_EventHeaderEnumeratorContext (c.(header)) (c.(keyword)) (c.(meta_start))
  (c.(meta_end)) (c.(activity_id_start)) (c.(activity_id_len)) (c.(byte_reader))
  (c.(event_name_len)) (c.(data_start)) (c.(data_pos_raw)) (c.(move_next_remaining))
  (c.(stack_top)) (c.(stack_index)) st ss (c.(last_error)) (c.(element_size))
  (c.(field_type)) (c.(data_pos_cooked)) (c.(item_size_raw)) (c.(item_size_cooked))
  (c.(stack)).

(** [self.stack_top.f = v] *)
Definition upd_top (f : StackEntry -> StackEntry) (c : Ctx) : Ctx :=
  set_stack_top (f c.(stack_top)) c.

(* enumerator.rs: EventHeaderEnumeratorContext::READ_FIELD_ERROR *)
Definition READ_FIELD_ERROR : Z := FieldEncoding_Invalid.
(* enumerator.rs: EventHeaderEnumeratorContext::MOVE_NEXT_LIMIT_DEFAULT *)
Definition MOVE_NEXT_LIMIT_DEFAULT : Z := 4096.
(* enumerator.rs: EventHeaderEnumeratorContext::STRUCT_NEST_LIMIT *)
Definition STRUCT_NEST_LIMIT : Z := 8.

(* enumerator.rs: EventHeaderEnumeratorContext::new *)
Definition EventHeaderEnumeratorContext_new : Ctx :=
  {| header := {| eh_flags := HeaderFlags_None; eh_version := 0; eh_id := 0; eh_tag := 0;
                  eh_opcode := Opcode_Info; eh_level := Level_Invalid |};
     keyword := 0; meta_start := 0; meta_end := 0; activity_id_start := 0;
     activity_id_len := 0; byte_reader := PerfByteReader_new false; event_name_len := 0;
     data_start := 0; data_pos_raw := 0; move_next_remaining := 0;
     stack_top := StackEntry_ZERO; stack_index := 0; state := StError; substate := SsError;
     last_error := ErSuccess; element_size := 0;
     field_type := {| ft_encoding := FieldEncoding_Invalid; ft_format := FieldFormat_Default;
                      ft_tag := 0 |};
     data_pos_cooked := 0; item_size_raw := 0; item_size_cooked := 0;
     stack := repeat StackEntry_ZERO 8 |}.

(** ** State transitions shared by the methods *)

(* enumerator.rs: EventHeaderEnumeratorContext::set_state *)
Definition set_state (st : EventHeaderEnumeratorState) (ss : SubState) (c : Ctx) : Ctx :=
  set_states st ss c.

(* enumerator.rs: EventHeaderEnumeratorContext::set_end_state *)
Definition set_end_state (st : EventHeaderEnumeratorState) (ss : SubState) (c : Ctx) : Ctx :=
  set_states st ss
    (set_item_size_cooked 0 (set_item_size_raw 0 (set_data_pos_cooked c.(data_pos_raw) c))).

(* enumerator.rs: EventHeaderEnumeratorContext::set_error_state *)
Definition set_error_state (e : EventHeaderEnumeratorError) (c : Ctx) : bool * Ctx :=
  (false, set_states StError SsError (set_last_error e c)).

(* enumerator.rs: EventHeaderEnumeratorContext::reset_impl *)
Definition reset_impl (move_next_limit : Z) (c : Ctx) : outcome Ctx :=
  let c := set_data_pos_raw c.(data_start) c in
  let c := set_move_next_remaining move_next_limit c in
  a ← u32 (c.(meta_start) + c.(event_name_len));
  off ← u32 (a + 1);
  let c := upd_top (set_next_offset off) c in
  let c := upd_top (set_remaining_field_count 255) c in
  let c := set_stack_index 0 c in
  let c := set_state StBeforeFirstItem SsBeforeFirstItem c in
  Ret (set_last_error ErSuccess c).

(** ** Reading field declarations *)

(** [while pos < lim && event_data[pos] != 0 { pos += 1 }], where [n] is
    [lim - pos] at the start, the number of iterations the bound allows. *)
(* enumerator.rs:1614-1617: EventHeaderEnumeratorContext::read_field_name_and_type, name scan *)
Fixpoint scan_nul (event_data : bytes) (n : nat) (pos : Z) : outcome Z :=
  match n with
  | O => Ret pos
  | S n => b ← index event_data pos;
           if b =? 0 then Ret pos else scan_nul event_data n (pos + 1)
  end.

(* enumerator.rs: EventHeaderEnumeratorContext::read_field_type *)
Definition read_field_type (event_data : bytes) (type_offset : Z) (c : Ctx)
  : outcome (FieldType * Ctx) :=
  _ ← rassert (type_offset <? c.(meta_end));
  encoding ← index event_data type_offset;
  pos ← u32 (type_offset + 1);
  '(encoding, fmt, tag, pos) ←
    (if FieldEncoding_has_chain_flag encoding then
       if c.(meta_end) =? pos then Ret (READ_FIELD_ERROR, FieldFormat_Default, 0, pos)
       else
         fmt ← index event_data pos;
         pos ← u32 (pos + 1);
         if FieldFormat_has_chain_flag fmt then
           remaining ← u32 (c.(meta_end) - pos);
           if remaining <? 2 then Ret (READ_FIELD_ERROR, fmt, 0, pos)
           else
             src ← slice_from event_data pos;
             tag ← read_u16 c.(byte_reader) src;
             pos ← u32 (pos + 2);
             Ret (encoding, fmt, tag, pos)
         else Ret (encoding, fmt, 0, pos)
     else Ret (encoding, FieldFormat_Default, 0, pos));
  Ret ({| ft_encoding := FieldEncoding_without_chain_flag encoding;
          ft_format := FieldFormat_without_flags fmt; ft_tag := tag |},
       upd_top (set_next_offset pos) c).

(* enumerator.rs: EventHeaderEnumeratorContext::read_field_name_and_type *)
Definition read_field_name_and_type (event_data : bytes) (c : Ctx)
  : outcome (FieldType * Ctx) :=
  let name_begin := c.(stack_top).(name_offset) in
  _ ← rassert (name_begin <=? c.(meta_end));
  name_end ← scan_nul event_data (Z.to_nat (c.(meta_end) - name_begin)) name_begin;
  remaining ← u32 (c.(meta_end) - name_end);
  if remaining <? 2 then
    Ret ({| ft_encoding := READ_FIELD_ERROR; ft_format := FieldFormat_Default; ft_tag := 0 |}, c)
  else
    let c := upd_top (set_name_len (as_unsigned 16 (name_end - name_begin))) c in
    type_offset ← u32 (name_end + 1);
    read_field_type event_data type_offset c.

(** ** Starting an item *)

(** [event_data.len() as u32 - self.data_pos_raw] *)
Definition remaining_data (event_data : bytes) (c : Ctx) : outcome Z :=
  u32 (as_unsigned 32 (len event_data) - c.(data_pos_raw)).

(* enumerator.rs: EventHeaderEnumeratorContext::start_array *)
Definition start_array (event_data_len : Z) (c : Ctx) : outcome (bool * Ctx) :=
  let c := set_element_size 0 c in
  let c := set_item_size_raw 0 c in
  let c := set_data_pos_cooked c.(data_pos_raw) c in
  let c := set_item_size_cooked 0 c in
  let c := set_state StArrayBegin SsArrayBegin c in
  let simple (size : Z) :=
    let c := set_element_size size c in
    remaining_len ← u32 (event_data_len - c.(data_pos_raw));
    array_len ← u32 (c.(stack_top).(array_count) * c.(element_size));
    if remaining_len <? array_len then Ret (set_error_state ErInvalidData c)
    else Ret (true, set_item_size_raw array_len (set_item_size_cooked array_len c)) in
  let e := FieldEncoding_without_flags c.(field_type).(ft_encoding) in
  if e =? FieldEncoding_Struct then Ret (true, c)
  else if e =? FieldEncoding_Value8 then simple 1
  else if e =? FieldEncoding_Value16 then simple 2
  else if e =? FieldEncoding_Value32 then simple 4
  else if e =? FieldEncoding_Value64 then simple 8
  else if e =? FieldEncoding_Value128 then simple 16
  else if (e =? FieldEncoding_ZStringChar8) || (e =? FieldEncoding_ZStringChar16)
       || (e =? FieldEncoding_ZStringChar32) || (e =? FieldEncoding_StringLength16Char8)
       || (e =? FieldEncoding_StringLength16Char16) || (e =? FieldEncoding_StringLength16Char32)
       || (e =? FieldEncoding_BinaryLength16Char8) then Ret (true, c)
  else if e =? FieldEncoding_Invalid then Ret (set_error_state ErInvalidData c)
  else Ret (set_error_state ErNotSupported c).

(* enumerator.rs: EventHeaderEnumeratorContext::start_struct *)
Definition start_struct (c : Ctx) : outcome Ctx :=
  _ ← rassert (FieldEncoding_without_flags c.(field_type).(ft_encoding) =? FieldEncoding_Struct);
  let c := set_element_size 0 c in
  let c := set_item_size_raw 0 c in
  let c := set_data_pos_cooked c.(data_pos_raw) c in
  let c := set_item_size_cooked 0 c in
  Ret (set_state StStructBegin SsStructBegin c).

(* enumerator.rs: EventHeaderEnumeratorContext::start_value_simple *)
Definition start_value_simple (c : Ctx) : outcome Ctx :=
  _ ← rassert (c.(stack_top).(array_index) <? c.(stack_top).(array_count));
  _ ← rassert (FieldEncoding_is_array c.(field_type).(ft_encoding));
  _ ← rassert (negb (FieldEncoding_without_flags c.(field_type).(ft_encoding)
                     =? FieldEncoding_Struct));
  _ ← rassert (negb (c.(element_size) =? 0));
  _ ← rassert (c.(item_size_cooked) =? c.(element_size));
  _ ← rassert (c.(item_size_raw) =? c.(element_size));
  _ ← rassert (bool_decide (c.(state) = StValue));
  Ret (set_data_pos_cooked c.(data_pos_raw) c).

(* enumerator.rs: EventHeaderEnumeratorContext::start_value_fixed_length *)
Definition start_value_fixed_length (event_data : bytes) (size : Z) (c : Ctx)
  : outcome (bool * Ctx) :=
  let c := set_element_size size c in
  remaining_len ← remaining_data event_data c;
  if remaining_len <? size then
    Ret (set_error_state ErInvalidData (set_item_size_raw 0 (set_item_size_cooked 0 c)))
  else Ret (true, set_item_size_raw size (set_item_size_cooked size c)).

(** The two forms of the [CH::from_ne_bytes(..) == 0] test at [pos]. *)
Section Target.
Context `{Target}.

Definition char8_is_nul (event_data : bytes) (pos : Z) : outcome bool :=
  b ← index event_data pos; Ret (0 =? b).
Definition char_is_nul (element_size : Z) (event_data : bytes) (pos : Z) : outcome bool :=
  b ← slice event_data pos (pos + element_size); Ret (0 =? from_ne_bytes b).

(** [while pos < end_pos { if nul { return Some(pos) } pos += element_size }].
    The loop runs at most [end_pos - pos] times; [fuel] is one more. *)
(* enumerator.rs:1843-1851: EventHeaderEnumeratorContext::start_value_zstring16, scan loop *)
Fixpoint zstring_scan (is_nul : Z -> outcome bool) (element_size end_pos : Z)
    (fuel : nat) (pos : Z) : outcome (option Z) :=
  match fuel with
  | O => Panic
  | S fuel =>
    if pos <? end_pos then
      z ← is_nul pos;
      if (z : bool) then Ret (Some pos)
      else zstring_scan is_nul element_size end_pos fuel (pos + element_size)
    else Ret None
  end.

(** The body shared by the three [start_value_zstring*] methods. *)
(* enumerator.rs:1838-1855: EventHeaderEnumeratorContext::start_value_zstring16, body *)
Definition start_value_zstring (is_nul : bytes -> Z -> outcome bool) (element_size : Z)
    (event_data : bytes) (c : Ctx) : outcome Ctx :=
  e ← usize (len event_data - element_size);
  end_pos ← usize (e + 1);
  found ← zstring_scan (is_nul event_data) element_size end_pos
            (S (Z.to_nat (end_pos - c.(data_pos_raw)))) c.(data_pos_raw);
  match found with
  | Some pos =>
    cooked ← u32 (as_unsigned 32 pos - c.(data_pos_raw));
    raw ← u32 (cooked + element_size);
    Ret (set_item_size_raw raw (set_item_size_cooked cooked c))
  | None =>
    n ← remaining_data event_data c;
    Ret (set_item_size_raw n (set_item_size_cooked n c))
  end.

(* enumerator.rs: EventHeaderEnumeratorContext::start_value_zstring8 *)
Definition start_value_zstring8 (event_data : bytes) (c : Ctx) : outcome Ctx :=
  start_value_zstring char8_is_nul 1 event_data c.
(* enumerator.rs: EventHeaderEnumeratorContext::start_value_zstring16 *)
Definition start_value_zstring16 (event_data : bytes) (c : Ctx) : outcome Ctx :=
  start_value_zstring (char_is_nul 2) 2 event_data c.
(* enumerator.rs: EventHeaderEnumeratorContext::start_value_zstring32 *)
Definition start_value_zstring32 (event_data : bytes) (c : Ctx) : outcome Ctx :=
  start_value_zstring (char_is_nul 4) 4 event_data c.

(* enumerator.rs: EventHeaderEnumeratorContext::start_value_string *)
Definition start_value_string (event_data : bytes) (char_size_shift : Z) (c : Ctx)
  : outcome Ctx :=
  remaining ← remaining_data event_data c;
  if remaining <? 2 then Ret (set_item_size_raw 2 c)
  else
    cooked_pos ← u32 (c.(data_pos_raw) + 2);
    let c := set_data_pos_cooked cooked_pos c in
    src ← slice_from event_data c.(data_pos_raw);
    cch ← read_u16 c.(byte_reader) src;
    let c := set_item_size_cooked (as_unsigned 32 (Z.shiftl cch char_size_shift)) c in
    raw ← u32 (c.(item_size_cooked) + 2);
    Ret (set_item_size_raw raw c).

(* enumerator.rs: EventHeaderEnumeratorContext::start_value *)
Definition start_value (event_data : bytes) (c : Ctx) : outcome (bool * Ctx) :=
  remaining_len ← remaining_data event_data c;
  _ ← rassert (bool_decide (c.(state) = StValue));
  p ← u32 (c.(stack_top).(name_offset) + c.(stack_top).(name_len));
  p ← u32 (p + 1);
  b ← index event_data p;
  _ ← rassert (c.(field_type).(ft_encoding) =? FieldEncoding_without_chain_flag b);
  let c := set_data_pos_cooked c.(data_pos_raw) c in
  let c := set_element_size 0 c in
  let variable (m : outcome Ctx) :=
    c ← m;
    if remaining_len <? c.(item_size_raw) then
      Ret (set_error_state ErInvalidData (set_item_size_raw 0 (set_item_size_cooked 0 c)))
    else Ret (true, c) in
  let e := FieldEncoding_without_flags c.(field_type).(ft_encoding) in
  if e =? FieldEncoding_Value8 then start_value_fixed_length event_data 1 c
  else if e =? FieldEncoding_Value16 then start_value_fixed_length event_data 2 c
  else if e =? FieldEncoding_Value32 then start_value_fixed_length event_data 4 c
  else if e =? FieldEncoding_Value64 then start_value_fixed_length event_data 8 c
  else if e =? FieldEncoding_Value128 then start_value_fixed_length event_data 16 c
  else if e =? FieldEncoding_ZStringChar8 then variable (start_value_zstring8 event_data c)
  else if e =? FieldEncoding_ZStringChar16 then variable (start_value_zstring16 event_data c)
  else if e =? FieldEncoding_ZStringChar32 then variable (start_value_zstring32 event_data c)
  else if (e =? FieldEncoding_StringLength16Char8) || (e =? FieldEncoding_BinaryLength16Char8)
  then variable (start_value_string event_data 0 c)
  else if e =? FieldEncoding_StringLength16Char16
  then variable (start_value_string event_data 1 c)
  else if e =? FieldEncoding_StringLength16Char32
  then variable (start_value_string event_data 2 c)
  else
    _ ← rassert (negb (FieldEncoding_without_flags c.(field_type).(ft_encoding)
                       =? FieldEncoding_Struct));
    Ret (set_error_state ErInvalidData (set_item_size_raw 0 (set_item_size_cooked 0 c))).

(** ** Moving to the next property *)

(** [self.meta_end - self.stack_top.next_offset] *)
Definition remaining_meta (c : Ctx) : outcome Z :=
  u32 (c.(meta_end) - c.(stack_top).(next_offset)).

(** [self.byte_reader.read_u16(&event_data[pos..])] *)
Definition read_u16_at (event_data : bytes) (pos : Z) (c : Ctx) : outcome Z :=
  src ← slice_from event_data pos; read_u16 c.(byte_reader) src.

(* enumerator.rs:1506-1563: EventHeaderEnumeratorContext::next_property, field by its type *)
Definition start_property (event_data : bytes) (c : Ctx) : outcome (bool * Ctx) :=
  let ft := c.(field_type) in
  if ft.(ft_encoding) =? READ_FIELD_ERROR then Ret (set_error_state ErInvalidData c)
  else if negb (FieldEncoding_is_array ft.(ft_encoding)) then
    let c := upd_top (set_array_count 1) c in
    if negb (FieldEncoding_Struct =? ft.(ft_encoding)) then
      start_value event_data (set_state StValue SsValueScalar c)
    else if ft.(ft_format) =? FieldFormat_Default then Ret (set_error_state ErInvalidData c)
    else c ← start_struct c; Ret (true, c)
  else if FieldEncoding_is_variable_length_array ft.(ft_encoding) then
    remaining ← usize (len event_data - c.(data_pos_raw));
    if remaining <? 2 then Ret (set_error_state ErInvalidData c)
    else
      count ← read_u16_at event_data c.(data_pos_raw) c;
      let c := upd_top (set_array_count count) c in
      pos ← u32 (c.(data_pos_raw) + 2);
      start_array (as_unsigned 32 (len event_data)) (set_data_pos_raw pos c)
  else if FieldEncoding_is_constant_length_array ft.(ft_encoding) then
    remaining ← remaining_meta c;
    if remaining <? 2 then Ret (set_error_state ErInvalidData c)
    else
      count ← read_u16_at event_data c.(stack_top).(next_offset) c;
      let c := upd_top (set_array_count count) c in
      off ← u32 (c.(stack_top).(next_offset) + 2);
      let c := upd_top (set_next_offset off) c in
      if count =? 0 then Ret (set_error_state ErInvalidData c)
      else start_array (as_unsigned 32 (len event_data)) c
  else Ret (set_error_state ErNotSupported c).

(* enumerator.rs:1497-1505: EventHeaderEnumeratorContext::next_property, a field remains *)
Definition next_field (event_data : bytes) (c : Ctx) : outcome (bool * Ctx) :=
  n ← u8 (c.(stack_top).(remaining_field_count) - 1);
  let c := upd_top (set_remaining_field_count n) c in
  let c := upd_top (set_array_index 0) c in
  let c := upd_top (set_name_offset c.(stack_top).(next_offset)) c in
  '(ft, c) ← read_field_name_and_type event_data c;
  start_property event_data (set_field_type ft c).

(* enumerator.rs:1566-1592: EventHeaderEnumeratorContext::next_property, end of struct *)
Definition end_of_struct (event_data : bytes) (c : Ctx) : outcome (bool * Ctx) :=
  i ← u8 (c.(stack_index) - 1);
  let c := set_stack_index i c in
  let child_metadata_offset := c.(stack_top).(next_offset) in
  parent ← index c.(stack) c.(stack_index);
  let c := set_stack_top parent c in
  p ← u32 (c.(stack_top).(name_offset) + c.(stack_top).(name_len));
  p ← u32 (p + 1);
  '(ft, c) ← read_field_type event_data p c;
  let c := set_field_type ft c in
  _ ← rassert (FieldEncoding_Struct =? FieldEncoding_without_flags ft.(ft_encoding));
  let c := set_element_size 0 c in
  _ ← rassert (c.(stack_top).(array_index) <? c.(stack_top).(array_count));
  i1 ← u16 (c.(stack_top).(array_index) + 1);
  let c := if i1 =? c.(stack_top).(array_count)
           then upd_top (set_next_offset child_metadata_offset) c else c in
  Ret (true, set_end_state StStructEnd SsStructEnd c).

(* enumerator.rs: EventHeaderEnumeratorContext::next_property *)
Definition next_property (event_data : bytes) (c : Ctx) : outcome (bool * Ctx) :=
  if negb (c.(stack_top).(remaining_field_count) =? 0)
     && negb (c.(stack_top).(next_offset) =? c.(meta_end))
  then next_field event_data c
  else if negb (c.(stack_index) =? 0) then end_of_struct event_data c
  else if negb (c.(stack_top).(next_offset) =? c.(meta_end))
  then Ret (set_error_state ErNotSupported c)
  else Ret (false, set_end_state StAfterLastItem SsAfterLastItem c).

(** The loop of [skip_struct_metadata].  Each iteration consumes at least two
    metadata bytes, so [meta_end - next_offset + 1] iterations are enough. *)
(* enumerator.rs:1449-1493: EventHeaderEnumeratorContext::skip_struct_metadata, loop *)
Fixpoint skip_struct_loop (event_data : bytes) (fuel : nat) (remaining : Z) (c : Ctx)
  : outcome (bool * Ctx) :=
  match fuel with
  | O => Panic
  | S fuel =>
    if (remaining =? 0) || (c.(stack_top).(next_offset) =? c.(meta_end)) then Ret (true, c)
    else
      let c := upd_top (set_name_offset c.(stack_top).(next_offset)) c in
      '(typ, c) ← read_field_name_and_type event_data c;
      if typ.(ft_encoding) =? READ_FIELD_ERROR then Ret (set_error_state ErInvalidData c)
      else
        remaining ← (if FieldEncoding_Struct =? FieldEncoding_without_flags typ.(ft_encoding)
                     then u8 (remaining + typ.(ft_format)) else Ret remaining);
        if negb (FieldEncoding_is_constant_length_array typ.(ft_encoding)) then
          remaining ← u8 (remaining - 1);
          skip_struct_loop event_data fuel remaining c
        else if negb (FieldEncoding_is_variable_length_array typ.(ft_encoding)) then
          n ← remaining_meta c;
          if n <? 2 then Ret (set_error_state ErInvalidData c)
          else
            off ← u32 (c.(stack_top).(next_offset) + 2);
            let c := upd_top (set_next_offset off) c in
            remaining ← u8 (remaining - 1);
            skip_struct_loop event_data fuel remaining c
        else Ret (set_error_state ErNotSupported c)
  end.

(* enumerator.rs: EventHeaderEnumeratorContext::skip_struct_metadata *)
Definition skip_struct_metadata (event_data : bytes) (c : Ctx) : outcome (bool * Ctx) :=
  _ ← rassert (FieldEncoding_without_flags c.(field_type).(ft_encoding) =? FieldEncoding_Struct);
  skip_struct_loop event_data
    (S (Z.to_nat (c.(meta_end) - c.(stack_top).(next_offset)))) c.(field_type).(ft_format) c.

(** ** The moves *)

(** [debug_assert!(event_data.len() as u32 - self.data_pos_raw >= self.item_size_raw)],
    then [self.data_pos_raw += self.item_size_raw]. *)
(* enumerator.rs:1086-1088: EventHeaderEnumeratorContext::move_next_impl, consuming the item *)
Definition consume_item (event_data : bytes) (c : Ctx) : outcome Ctx :=
  remaining ← remaining_data event_data c;
  _ ← rassert (c.(item_size_raw) <=? remaining);
  pos ← u32 (c.(data_pos_raw) + c.(item_size_raw));
  Ret (set_data_pos_raw pos c).

(* enumerator.rs:1078-1081: move_next_impl, BeforeFirstItem *)
Definition move_from_before_first (event_data : bytes) (c : Ctx) : outcome (bool * Ctx) :=
  _ ← rassert (bool_decide (c.(state) = StBeforeFirstItem));
  next_property event_data c.

(* enumerator.rs:1082-1090: move_next_impl, ValueScalar *)
Definition move_from_value_scalar (event_data : bytes) (c : Ctx) : outcome (bool * Ctx) :=
  _ ← rassert (bool_decide (c.(state) = StValue));
  _ ← rassert (negb (FieldEncoding_without_flags c.(field_type).(ft_encoding)
                     =? FieldEncoding_Struct));
  _ ← rassert (negb (FieldEncoding_is_array c.(field_type).(ft_encoding)));
  c ← consume_item event_data c;
  next_property event_data c.

(** The asserts common to the two array-element arms. *)
(* enumerator.rs:1092-1098: EventHeaderEnumeratorContext::move_next_impl, array element asserts *)
Definition element_asserts (fast : bool) (c : Ctx) : bool :=
  bool_decide (c.(state) = StValue) &&
  negb (FieldEncoding_without_flags c.(field_type).(ft_encoding) =? FieldEncoding_Struct) &&
  FieldEncoding_is_array c.(field_type).(ft_encoding) &&
  (c.(stack_top).(array_index) <? c.(stack_top).(array_count)) &&
  Bool.eqb fast (negb (c.(element_size) =? 0)).

(** [self.stack_top.array_index += 1] *)
Definition next_index (c : Ctx) : outcome Ctx :=
  i ← u16 (c.(stack_top).(array_index) + 1);
  Ret (upd_top (set_array_index i) c).

(** [self.stack_top.array_count == self.stack_top.array_index] *)
Definition at_array_end (c : Ctx) : bool :=
  c.(stack_top).(array_count) =? c.(stack_top).(array_index).

(* enumerator.rs:1091-1111: move_next_impl, ValueSimpleArrayElement *)
Definition move_from_simple_element (event_data : bytes) (c : Ctx) : outcome (bool * Ctx) :=
  _ ← rassert (element_asserts true c);
  c ← consume_item event_data c;
  c ← next_index c;
  if at_array_end c then Ret (true, set_end_state StArrayEnd SsArrayEnd c)
  else c ← start_value_simple c; Ret (true, c).

(* enumerator.rs:1112-1131: move_next_impl, ValueComplexArrayElement *)
Definition move_from_complex_element (event_data : bytes) (c : Ctx) : outcome (bool * Ctx) :=
  _ ← rassert (element_asserts false c);
  c ← consume_item event_data c;
  c ← next_index c;
  if at_array_end c then Ret (true, set_end_state StArrayEnd SsArrayEnd c)
  else start_value event_data c.

(* enumerator.rs:1132-1166: move_next_impl, ArrayBegin *)
Definition move_from_array_begin (event_data : bytes) (c : Ctx) : outcome (bool * Ctx) :=
  _ ← rassert (bool_decide (c.(state) = StArrayBegin));
  _ ← rassert (FieldEncoding_is_array c.(field_type).(ft_encoding));
  _ ← rassert (c.(stack_top).(array_index) =? 0);
  let is_struct :=
    FieldEncoding_without_flags c.(field_type).(ft_encoding) =? FieldEncoding_Struct in
  if c.(stack_top).(array_count) =? 0 then Ret (true, set_end_state StArrayEnd SsArrayEnd c)
  else if negb (c.(element_size) =? 0) then
    _ ← rassert (negb is_struct);
    let c := set_item_size_cooked c.(element_size) c in
    let c := set_item_size_raw c.(element_size) c in
    c ← start_value_simple (set_state StValue SsValueSimpleArrayElement c);
    Ret (true, c)
  else if negb is_struct then
    start_value event_data (set_state StValue SsValueComplexArrayElement c)
  else c ← start_struct c; Ret (true, c).

(* enumerator.rs:1167-1183: move_next_impl, ArrayEnd *)
Definition move_from_array_end (event_data : bytes) (c : Ctx) : outcome (bool * Ctx) :=
  _ ← rassert (bool_decide (c.(state) = StArrayEnd));
  _ ← rassert (FieldEncoding_is_array c.(field_type).(ft_encoding));
  _ ← rassert (at_array_end c);
  if (FieldEncoding_without_flags c.(field_type).(ft_encoding) =? FieldEncoding_Struct)
     && (c.(stack_top).(array_count) =? 0)
  then
    '(ok, c) ← skip_struct_metadata event_data c;
    if (ok : bool) then next_property event_data c else Ret (false, c)
  else next_property event_data c.

(* enumerator.rs:1184-1196: move_next_impl, StructBegin *)
Definition move_from_struct_begin (event_data : bytes) (c : Ctx) : outcome (bool * Ctx) :=
  _ ← rassert (bool_decide (c.(state) = StStructBegin));
  if STRUCT_NEST_LIMIT <=? c.(stack_index) then Ret (set_error_state ErStackOverflow c)
  else
    st ← store c.(stack) c.(stack_index) c.(stack_top);
    let c := set_stack st c in
    i ← u8 (c.(stack_index) + 1);
    let c := set_stack_index i c in
    let c := upd_top (set_remaining_field_count c.(field_type).(ft_format)) c in
    next_property event_data c.

(* enumerator.rs:1197-1220: move_next_impl, StructEnd *)
Definition move_from_struct_end (event_data : bytes) (c : Ctx) : outcome (bool * Ctx) :=
  _ ← rassert (bool_decide (c.(state) = StStructEnd));
  _ ← rassert (FieldEncoding_without_flags c.(field_type).(ft_encoding) =? FieldEncoding_Struct);
  _ ← rassert (c.(item_size_raw) =? 0);
  c ← next_index c;
  if negb (at_array_end c) then
    _ ← rassert (FieldEncoding_is_array c.(field_type).(ft_encoding));
    _ ← rassert (c.(stack_top).(array_index) <? c.(stack_top).(array_count));
    c ← start_struct c; Ret (true, c)
  else if FieldEncoding_is_array c.(field_type).(ft_encoding) then
    Ret (true, set_end_state StArrayEnd SsArrayEnd c)
  else next_property event_data c.

(* enumerator.rs: EventHeaderEnumeratorContext::move_next_impl *)
Definition move_next_impl (event_data : bytes) (c : Ctx) : outcome (bool * Ctx) :=
  _ ← rassert (can_move_next c.(state));
  if c.(move_next_remaining) =? 0 then Ret (set_error_state ErImplementationLimit c)
  else
    n ← u32 (c.(move_next_remaining) - 1);
    let c := set_move_next_remaining n c in
    match c.(substate) with
    | SsBeforeFirstItem => move_from_before_first event_data c
    | SsValueScalar => move_from_value_scalar event_data c
    | SsValueSimpleArrayElement => move_from_simple_element event_data c
    | SsValueComplexArrayElement => move_from_complex_element event_data c
    | SsArrayBegin => move_from_array_begin event_data c
    | SsArrayEnd => move_from_array_end event_data c
    | SsStructBegin => move_from_struct_begin event_data c
    | SsStructEnd => move_from_struct_end event_data c
    | SsError | SsAfterLastItem | SsValueMetadata => Panic
    end.

(* enumerator.rs:1245-1263: move_next_sibling_impl, jump over a simple array *)
Definition skip_simple_array (event_data : bytes) (c : Ctx) : outcome (bool * Ctx) :=
  _ ← rassert (bool_decide (c.(substate) = SsArrayBegin));
  _ ← rassert (negb (FieldEncoding_without_flags c.(field_type).(ft_encoding)
                     =? FieldEncoding_Struct));
  _ ← rassert (FieldEncoding_is_array c.(field_type).(ft_encoding));
  _ ← rassert (c.(stack_top).(array_index) =? 0);
  n ← u32 (c.(stack_top).(array_count) * c.(element_size));
  pos ← u32 (c.(data_pos_raw) + n);
  let c := set_data_pos_raw pos c in
  r ← u32 (c.(move_next_remaining) - 1);
  next_property event_data (set_move_next_remaining r c).

(** The loop of [move_next_sibling_impl].  Each iteration that does not return
    lowers [move_next_remaining], so [move_next_remaining + 1] iterations are
    enough. *)
(* enumerator.rs:1232-1272: EventHeaderEnumeratorContext::move_next_sibling_impl, loop *)
Fixpoint sibling_loop (event_data : bytes) (fuel : nat) (depth : Z) (c : Ctx)
  : outcome (bool * Ctx) :=
  match fuel with
  | O => Panic
  | S fuel =>
    let move (depth : Z) :=
      '(moved, c) ← move_next_impl event_data c;
      if negb moved || (depth <=? 0) then Ret (moved, c)
      else sibling_loop event_data fuel depth c in
    match c.(state) with
    | StArrayEnd | StStructEnd => d ← checked_signed 32 (depth - 1); move d
    | StStructBegin => d ← checked_signed 32 (depth + 1); move d
    | StArrayBegin =>
      if (c.(element_size) =? 0) || (c.(move_next_remaining) =? 0) then
        d ← checked_signed 32 (depth + 1); move d
      else
        '(moved, c) ← skip_simple_array event_data c;
        if negb moved || (depth <=? 0) then Ret (moved, c)
        else sibling_loop event_data fuel depth c
    | _ => move depth
    end
  end.

(* enumerator.rs: EventHeaderEnumeratorContext::move_next_sibling_impl *)
Definition move_next_sibling_impl (event_data : bytes) (c : Ctx) : outcome (bool * Ctx) :=
  _ ← rassert (can_move_next c.(state));
  sibling_loop event_data (S (Z.to_nat c.(move_next_remaining))) 0 c.

(* enumerator.rs:1276-1284: move_next_metadata_impl, entering metadata mode *)
Definition metadata_enter (event_data : bytes) (c : Ctx) : outcome Ctx :=
  if bool_decide (c.(substate) = SsValueMetadata) then Ret c
  else
    _ ← rassert (bool_decide (c.(state) = StBeforeFirstItem));
    _ ← rassert (bool_decide (c.(substate) = SsBeforeFirstItem));
    let c := upd_top (set_array_index 0) c in
    let c := set_data_pos_cooked (as_unsigned 32 (len event_data)) c in
    let c := set_item_size_cooked 0 c in
    let c := set_element_size 0 c in
    Ret (set_state StValue SsValueMetadata c).

(* enumerator.rs:1296-1341: move_next_metadata_impl, the declaration by its type *)
Definition metadata_property (event_data : bytes) (c : Ctx) : outcome (bool * Ctx) :=
  let ft := c.(field_type) in
  if ft.(ft_encoding) =? READ_FIELD_ERROR then Ret (set_error_state ErInvalidData c)
  else if (FieldEncoding_Struct =? FieldEncoding_without_flags ft.(ft_encoding))
          && (ft.(ft_format) =? FieldFormat_Default)
  then Ret (set_error_state ErInvalidData c)
  else if negb (FieldEncoding_is_array ft.(ft_encoding)) then
    Ret (true, set_state StValue SsValueMetadata (upd_top (set_array_count 1) c))
  else if FieldEncoding_is_variable_length_array ft.(ft_encoding) then
    Ret (true, set_state StArrayBegin SsValueMetadata (upd_top (set_array_count 0) c))
  else if FieldEncoding_is_constant_length_array ft.(ft_encoding) then
    remaining ← remaining_meta c;
    if remaining <? 2 then Ret (set_error_state ErInvalidData c)
    else
      count ← read_u16_at event_data c.(stack_top).(next_offset) c;
      let c := upd_top (set_array_count count) c in
      off ← u32 (c.(stack_top).(next_offset) + 2);
      let c := upd_top (set_next_offset off) c in
      if count =? 0 then Ret (set_error_state ErInvalidData c)
      else Ret (true, set_state StArrayBegin SsValueMetadata c)
  else Ret (set_error_state ErNotSupported c).

(* enumerator.rs: EventHeaderEnumeratorContext::move_next_metadata_impl *)
Definition move_next_metadata_impl (event_data : bytes) (c : Ctx) : outcome (bool * Ctx) :=
  c ← metadata_enter event_data c;
  _ ← rassert (bool_decide (c.(state) = StValue) || bool_decide (c.(state) = StArrayBegin));
  if negb (c.(stack_top).(next_offset) =? c.(meta_end)) then
    let c := upd_top (set_name_offset c.(stack_top).(next_offset)) c in
    '(ft, c) ← read_field_name_and_type event_data c;
    metadata_property event_data (set_field_type ft c)
  else Ret (false, set_end_state StAfterLastItem SsAfterLastItem c).

(** ** Item access *)

(* enumerator.rs: EventHeaderEnumeratorContext::item_metadata_impl *)
Definition item_metadata_impl (c : Ctx) : outcome PerfItemMetadata :=
  _ ← rassert (can_item_info c.(state));
  let is_scalar := (state_code c.(state) <? state_code StArrayBegin)
                   || (state_code StArrayEnd <? state_code c.(state)) in
  PerfItemMetadata_new c.(byte_reader) c.(field_type).(ft_encoding) c.(field_type).(ft_format)
    is_scalar c.(element_size) (if is_scalar then 1 else c.(stack_top).(array_count))
    c.(field_type).(ft_tag).

(* enumerator.rs: struct EventHeaderItemInfo *)
Record EventHeaderItemInfo := {
  ii_event_data : bytes;
  ii_name_start : Z;
  ii_name_len : Z;
  ii_value : PerfItemValue;
}.

(* enumerator.rs: EventHeaderItemInfo::new *)
Definition EventHeaderItemInfo_new (event_data : bytes) (c : Ctx) : outcome EventHeaderItemInfo :=
  _ ← rassert (can_item_info c.(state));
  b ← slice event_data c.(data_pos_cooked) (c.(data_pos_cooked) + c.(item_size_cooked));
  m ← item_metadata_impl c;
  v ← PerfItemValue_new b m;
  Ret {| ii_event_data := event_data; ii_name_start := c.(stack_top).(name_offset);
         ii_name_len := c.(stack_top).(name_len); ii_value := v |}.

(* enumerator.rs: EventHeaderItemInfo::name_bytes *)
Definition ii_name_bytes (i : EventHeaderItemInfo) : outcome bytes :=
  slice i.(ii_event_data) i.(ii_name_start) (i.(ii_name_start) + i.(ii_name_len)).

(** ** Beginning an enumeration

    The fallible steps return [result _ EventHeaderEnumeratorError]; the context
    is changed by the steps done before an error, as in the source. *)

Definition is_ascii_digit (ch : Z) : bool := (48 <=? ch) && (ch <=? 57).
Definition is_ascii_lowercase (ch : Z) : bool := (97 <=? ch) && (ch <=? 122).
Definition is_ascii_uppercase (ch : Z) : bool := (65 <=? ch) && (ch <=? 90).

(** The loop of [lowercase_hex_to_int]; [n] is [str.len() - pos]. *)
(* enumerator.rs:38-51: lowercase_hex_to_int, loop *)
Fixpoint lowercase_hex_loop (str : bytes) (n : nat) (val pos : Z) : outcome (Z * Z) :=
  match n with
  | O => Ret (val, pos)
  | S n =>
    ch ← index str pos;
    let step nibble :=
      lowercase_hex_loop str n (as_unsigned 64 (Z.shiftl val 4) + nibble) (pos + 1) in
    if is_ascii_digit ch then step (ch - 48)
    else if (97 <=? ch) && (ch <=? 102) then step (ch - 97 + 10)
    else Ret (val, pos)
  end.

(* enumerator.rs: lowercase_hex_to_int *)
Definition lowercase_hex_to_int (str : bytes) (start_pos : Z) : outcome (Z * Z) :=
  lowercase_hex_loop str (Z.to_nat (len str - start_pos)) 0 start_pos.

(* enumerator.rs:872-885: enumerate_with_name_and_data, event header *)
Definition read_event_header (event_data : bytes) (c : Ctx) : outcome Ctx :=
  flags ← index event_data 0;
  let c := set_byte_reader
             (PerfByteReader_new (negb (HeaderFlags_has_flag flags HeaderFlags_LittleEndian))) c in
  version ← index event_data 1;
  src ← slice_from event_data 2; id ← read_u16 c.(byte_reader) src;
  src ← slice_from event_data 4; tag ← read_u16 c.(byte_reader) src;
  opcode ← index event_data 6;
  level ← index event_data 7;
  Ret (set_header (EventHeader_from_parts flags version id tag opcode level) c).

(** [loop { if pos == 0 { return Err } if name[pos - 1] == b'_' { break } pos -= 1 }] *)
(* enumerator.rs:894-905: enumerate_with_name_and_data, last underscore *)
Fixpoint find_underscore (name : bytes) (pos : nat) : outcome (option Z) :=
  match pos with
  | O => Ret None
  | S p => b ← index name (Z.of_nat p);
           if b =? 95 then Ret (Some (Z.of_nat pos)) else find_underscore name p
  end.

(** [while pos < name.len() { .. digits and lowercase .. }]; [n] is [name.len() - pos]. *)
(* enumerator.rs:938-944: enumerate_with_name_and_data, attribute value *)
Fixpoint skip_attrib_value (name : bytes) (n : nat) (pos : Z) : outcome Z :=
  match n with
  | O => Ret pos
  | S n => ch ← index name pos;
           if negb (is_ascii_digit ch) && negb (is_ascii_lowercase ch) then Ret pos
           else skip_attrib_value name n (pos + 1)
  end.

(** The loop over the attributes after the keyword; every iteration consumes a
    character, so [name.len() - pos + 1] iterations are enough. *)
(* enumerator.rs:929-945: enumerate_with_name_and_data, attributes *)
Fixpoint validate_attribs (name : bytes) (fuel : nat) (pos : Z) : outcome bool :=
  match fuel with
  | O => Panic
  | S fuel =>
    if pos <? len name then
      ch ← index name pos;
      if negb (is_ascii_uppercase ch) then Ret false
      else
        pos ← skip_attrib_value name (Z.to_nat (len name - (pos + 1))) (pos + 1);
        validate_attribs name fuel pos
    else Ret true
  end.

(* enumerator.rs:894-945: enumerate_with_name_and_data, tracepoint name *)
Definition parse_tracepoint_name (name : bytes) (c : Ctx)
  : outcome (result unit EventHeaderEnumeratorError * Ctx) :=
  let not_supported c := Ret (Err ErNotSupported, c) in
  underscore ← find_underscore name (length name);
  match underscore with
  | None => not_supported c
  | Some pos =>
    is_level ← (if len name <=? pos then Ret false
                else b ← index name pos; Ret (b =? 76));
    if negb is_level then not_supported c
    else
      '(attrib_level, pos) ← lowercase_hex_to_int name (pos + 1);
      if negb (attrib_level =? c.(header).(eh_level)) then not_supported c
      else
        is_keyword ← (if len name <=? pos then Ret false
                      else b ← index name pos; Ret (75 =? b));
        if negb is_keyword then not_supported c
        else
          '(keyword, pos) ← lowercase_hex_to_int name (pos + 1);
          let c := set_keyword keyword c in
          ok ← validate_attribs name (S (Z.to_nat (len name - pos))) pos;
          if (ok : bool) then Ret (Ok tt, c) else not_supported c
  end.

(* enumerator.rs:956-996: enumerate_with_name_and_data, one header extension *)
Definition read_extension (event_data : bytes) (event_pos : Z) (c : Ctx)
  : outcome (result (Z * Z) EventHeaderEnumeratorError * Ctx) :=
  let invalid c := Ret (Err ErInvalidData, c) in
  remaining ← usize (len event_data - event_pos);
  if remaining <? 4 then invalid c
  else
    ext_size ← read_u16_at event_data event_pos c;
    let event_pos := event_pos + 2 in
    ext_kind ← read_u16_at event_data event_pos c;
    let event_pos := event_pos + 2 in
    remaining ← usize (len event_data - event_pos);
    if remaining <? ext_size then invalid c
    else
      let done c := Ret (Ok (event_pos + ext_size, ext_kind), c) in
      let kind := Z.land ext_kind ExtensionKind_ValueMask in
      if kind =? ExtensionKind_Invalid then invalid c
      else if kind =? ExtensionKind_Metadata then
        if negb (c.(meta_start) =? 0) then invalid c
        else
          let c := set_meta_start (as_unsigned 32 event_pos) c in
          e ← u32 (c.(meta_start) + ext_size);
          done (set_meta_end e c)
      else if kind =? ExtensionKind_ActivityId then
        if negb (c.(activity_id_start) =? 0)
           || (negb (ext_size =? 16) && negb (ext_size =? 32)) then invalid c
        else
          let c := set_activity_id_start (as_unsigned 32 event_pos) c in
          done (set_activity_id_len (as_unsigned 8 ext_size) c)
      else done c.

(** The loop over the extensions; each one takes at least four bytes, so
    [event_data.len() - event_pos + 1] iterations are enough. *)
(* enumerator.rs:954-1002: enumerate_with_name_and_data, header extensions *)
Fixpoint read_extensions (event_data : bytes) (fuel : nat) (event_pos : Z) (c : Ctx)
  : outcome (result Z EventHeaderEnumeratorError * Ctx) :=
  match fuel with
  | O => Panic
  | S fuel =>
    '(r, c) ← read_extension event_data event_pos c;
    match r with
    | Err e => Ret (Err e, c)
    | Ok (event_pos, ext_kind) =>
      if negb (ExtensionKind_has_flag ext_kind ExtensionKind_ChainFlag)
      then Ret (Ok event_pos, c)
      else read_extensions event_data fuel event_pos c
    end
  end.

(* enumerator.rs:853-853: enumerate_with_name_and_data, name limit *)
Definition EVENT_HEADER_TRACEPOINT_NAME_MAX : Z := 256.
(* enumerator.rs:855-857: enumerate_with_name_and_data, flags *)
Definition KNOWN_FLAGS : Z :=
  Z.lor (Z.lor HeaderFlags_Pointer64 HeaderFlags_LittleEndian) HeaderFlags_Extension.

(* enumerator.rs:1004-1033: enumerate_with_name_and_data, event name and reset *)
Definition finish_enumerate (event_data : bytes) (event_pos move_next_limit : Z) (c : Ctx)
  : outcome (result unit EventHeaderEnumeratorError * Ctx) :=
  if c.(meta_start) =? 0 then Ret (Err ErNotSupported, c)
  else
    name_pos ← scan_nul event_data (Z.to_nat (c.(meta_end) - c.(meta_start))) c.(meta_start);
    if c.(meta_end) <=? name_pos then Ret (Err ErInvalidData, c)
    else
      name_len ← usize (name_pos - c.(meta_start));
      let c := set_event_name_len (as_unsigned 16 name_len) c in
      let c := set_data_start (as_unsigned 32 event_pos) c in
      c ← reset_impl move_next_limit c;
      Ret (Ok tt, c).

(* enumerator.rs: EventHeaderEnumeratorContext::enumerate_with_name_and_data *)
Definition enumerate_with_name_and_data (tp_name_bytes event_data : bytes)
    (move_next_limit : Z) (c : Ctx)
  : outcome (result unit EventHeaderEnumeratorError * Ctx) :=
  if (len event_data <? 8) || (0x80000000 <=? len event_data)
     || (EVENT_HEADER_TRACEPOINT_NAME_MAX <=? len tp_name_bytes)
  then Ret (Err ErInvalidParameter, c)
  else
    c ← read_event_header event_data c;
    if negb (c.(header).(eh_flags) =? Z.land c.(header).(eh_flags) KNOWN_FLAGS)
    then Ret (Err ErNotSupported, c)
    else
      '(r, c) ← parse_tracepoint_name tp_name_bytes c;
      match r with
      | Err e => Ret (Err e, c)
      | Ok _ =>
        let c := set_meta_end 0 (set_meta_start 0 c) in
        let c := set_activity_id_len 0 (set_activity_id_start 0 c) in
        '(r, c) ←
          (if HeaderFlags_has_flag c.(header).(eh_flags) HeaderFlags_Extension
           then read_extensions event_data (S (Z.to_nat (len event_data - 8))) 8 c
           else Ret (Ok 8, c));
        match r with
        | Err e => Ret (Err e, c)
        | Ok event_pos => finish_enumerate event_data event_pos move_next_limit c
        end
      end.
End Target.

(** ** EventHeaderEnumerator: the context together with the event *)

(* enumerator.rs: struct EventHeaderEventInfo *)
Record EventHeaderEventInfo := {
  ei_tracepoint_name : bytes;
  ei_event_data : bytes;
  ei_name_start : Z;
  ei_name_len : Z;
  ei_activity_id_start : Z;
  ei_activity_id_len : Z;
  ei_header : EventHeader;
  ei_keyword : Z;
}.

(* enumerator.rs: EventHeaderEnumerator::event_info *)
Definition event_info (tracepoint_name event_data : bytes) (c : Ctx) : EventHeaderEventInfo :=
  {| ei_tracepoint_name := tracepoint_name; ei_event_data := event_data;
     ei_name_start := c.(meta_start); ei_name_len := c.(event_name_len);
     ei_activity_id_start := c.(activity_id_start); ei_activity_id_len := c.(activity_id_len);
     ei_header := c.(header); ei_keyword := c.(keyword) |}.

(* enumerator.rs: EventHeaderEventInfo::name_bytes *)
Definition ei_name_bytes (i : EventHeaderEventInfo) : outcome bytes :=
  slice i.(ei_event_data) i.(ei_name_start) (i.(ei_name_start) + i.(ei_name_len)).

(** [str::rfind('_')] on the bytes of the name: the position of the last underscore. *)
Definition rfind_underscore (name : bytes) : option Z :=
  fold_left (fun acc p => if snd p =? 95 then Some (fst p) else acc)
    (combine (map Z.of_nat (seq 0 (length name))) name) None.

(* enumerator.rs: EventHeaderEventInfo::provider_name *)
Definition provider_name (i : EventHeaderEventInfo) : outcome bytes :=
  match rfind_underscore i.(ei_tracepoint_name) with
  | Some p => slice i.(ei_tracepoint_name) 0 p
  | None => Ret i.(ei_tracepoint_name)
  end.

(** The scan of [options] for an uppercase letter other than [L] and [K]. *)
(* enumerator.rs:345-355: EventHeaderEventInfo::options, loop *)
Fixpoint find_option_start (name : bytes) (n : nat) (pos : Z) : outcome (option Z) :=
  match n with
  | O => Ret None
  | S n => ch ← index name pos;
           if is_ascii_uppercase ch && negb (ch =? 76) && negb (ch =? 75) then Ret (Some pos)
           else find_option_start name n (pos + 1)
  end.

(* enumerator.rs: EventHeaderEventInfo::options *)
Definition options (i : EventHeaderEventInfo) : outcome bytes :=
  let name := i.(ei_tracepoint_name) in
  match rfind_underscore name with
  | Some p =>
    o ← find_option_start name (Z.to_nat (len name - (p + 1))) (p + 1);
    match o with Some pos => slice_from name pos | None => Ret [] end
  | None => Ret []
  end.

(* enumerator.rs: EventHeaderEventInfo::activity_id_section *)
Definition activity_id_section (i : EventHeaderEventInfo) : outcome bytes :=
  slice i.(ei_event_data) i.(ei_activity_id_start)
    (i.(ei_activity_id_start) + i.(ei_activity_id_len)).

(* enumerator.rs: EventHeaderEventInfo::activity_id *)
Definition activity_id (i : EventHeaderEventInfo) : outcome (option bytes) :=
  if i.(ei_activity_id_len) <? 16 then Ret None
  else b ← slice i.(ei_event_data) i.(ei_activity_id_start) (i.(ei_activity_id_start) + 16);
       Ret (Some b).

(* enumerator.rs: EventHeaderEventInfo::related_activity_id *)
Definition related_activity_id (i : EventHeaderEventInfo) : outcome (option bytes) :=
  if i.(ei_activity_id_len) <? 32 then Ret None
  else
    let start := i.(ei_activity_id_start) + 16 in
    b ← slice i.(ei_event_data) start (start + 16); Ret (Some b).

(* enumerator.rs: EventHeaderEnumerator::raw_data_position *)
Definition raw_data_position (event_data : bytes) (c : Ctx) : outcome bytes :=
  slice_from event_data c.(data_pos_raw).

(* enumerator.rs: EventHeaderEnumerator::item_info *)
Definition item_info (event_data : bytes) (c : Ctx) : outcome EventHeaderItemInfo :=
  EventHeaderItemInfo_new event_data c.

(* enumerator.rs: EventHeaderEnumerator::reset *)
Definition reset (c : Ctx) : outcome Ctx := reset_impl MOVE_NEXT_LIMIT_DEFAULT c.
(* enumerator.rs: EventHeaderEnumerator::reset_with_limit *)
Definition reset_with_limit (move_next_limit : Z) (c : Ctx) : outcome Ctx :=
  reset_impl move_next_limit c.
