(* ===== verification/EnumeratorInv.v ===== *)
(** * EnumeratorInv: the invariant of the EventHeader enumerator

    [Inv ed c] is the relation between an event [ed] and a context positioned in
    it that [enumerate_with_name_and_data] establishes and that every move
    preserves.  It is strong enough to discharge each index, slice, arithmetic
    operation and [debug_assert!] of the moves, with one exception that is a
    defect of the code: the 8-bit field counter of [skip_struct_metadata]. *)

From S2P Require Import Prelude Types ByteReader PerfItem Enumerator.

(** Reduces projections of updated contexts and stack entries. *)
Ltac ctx :=
  cbn [header keyword meta_start meta_end activity_id_start activity_id_len byte_reader
       event_name_len data_start data_pos_raw move_next_remaining stack_top stack_index
       state substate last_error element_size field_type data_pos_cooked item_size_raw
       item_size_cooked stack
       next_offset name_offset name_len array_index array_count remaining_field_count
       set_header set_keyword set_meta_start set_meta_end set_activity_id_start
       set_activity_id_len set_byte_reader set_event_name_len set_data_start
       set_data_pos_raw set_move_next_remaining set_stack_top set_stack_index
       set_last_error set_element_size set_field_type set_data_pos_cooked
       set_item_size_raw set_item_size_cooked set_stack set_states upd_top
       set_next_offset set_name_offset set_name_len set_array_index set_array_count
       set_remaining_field_count set_state set_end_state set_error_state
       ft_encoding ft_format ft_tag fst snd] in *.

(** The three fields of the context that describe the current item. *)
Definition with_item (cooked raw csize : Z) (c : Ctx) : Ctx :=
  set_item_size_raw raw (set_item_size_cooked csize (set_data_pos_cooked cooked c)).

(** Proves an equality of updated contexts over the context [c]. *)
Ltac ctx_eq c :=
  clear; unfold with_item; destruct c;
  cbv [header keyword meta_start meta_end activity_id_start activity_id_len byte_reader
       event_name_len data_start data_pos_raw move_next_remaining stack_top stack_index
       state substate last_error element_size field_type data_pos_cooked item_size_raw
       item_size_cooked stack
       set_header set_keyword set_meta_start set_meta_end set_activity_id_start
       set_activity_id_len set_byte_reader set_event_name_len set_data_start
       set_data_pos_raw set_move_next_remaining set_stack_top set_stack_index
       set_last_error set_element_size set_field_type set_data_pos_cooked
       set_item_size_raw set_item_size_cooked set_stack set_states upd_top
       set_state set_end_state set_error_state];
  reflexivity.

(** Replaces the context of a step result [(true, _)] by an equal one. *)
Ltac replace_ctx c x :=
  lazymatch goal with
  | |- _ (true, ?y) => replace y with x by ctx_eq c
  end.

(** ** The value of a field type, without the context *)

(** What [read_field_type] computes: the type and the offset after it. *)
Definition field_type_at (ed : bytes) (me : Z) (br : PerfByteReader) (p : Z)
  : outcome (FieldType * Z) :=
  b ← index ed p;
  if FieldEncoding_has_chain_flag b then
    if me =? p + 1 then Ret ({| ft_encoding := 0; ft_format := 0; ft_tag := 0 |}, p + 1)
    else
      f ← index ed (p + 1);
      let fmt := FieldFormat_without_flags f in
      if FieldFormat_has_chain_flag f then
        if me - (p + 2) <? 2
        then Ret ({| ft_encoding := 0; ft_format := fmt; ft_tag := 0 |}, p + 2)
        else
          src ← slice_from ed (p + 2); tag ← read_u16 br src;
          Ret ({| ft_encoding := FieldEncoding_without_chain_flag b; ft_format := fmt;
                  ft_tag := tag |}, p + 4)
      else Ret ({| ft_encoding := FieldEncoding_without_chain_flag b; ft_format := fmt;
                   ft_tag := 0 |}, p + 2)
  else Ret ({| ft_encoding := FieldEncoding_without_chain_flag b; ft_format := 0; ft_tag := 0 |},
            p + 1).

Definition ft_ok (ft : FieldType) : Prop :=
  0 <= ft.(ft_encoding) < 128 /\ 0 <= ft.(ft_format) < 128 /\ 0 <= ft.(ft_tag) < 65536 /\
  (FieldEncoding_is_array ft.(ft_encoding) = false ->
   FieldEncoding_without_flags ft.(ft_encoding) = ft.(ft_encoding)).

Section Event.
Context (ed : bytes) (Hbytes : bytes_ok ed) (Hlen : len ed < 2 ^ 31).

Lemma field_type_at_ok me br p :
  0 <= p < me -> me <= len ed ->
  exists ft q, field_type_at ed me br p = Ret (ft, q) /\ p < q <= me /\ ft_ok ft /\
    (ft.(ft_encoding) = 0 \/
     ft.(ft_encoding) = FieldEncoding_without_chain_flag (byte_at ed p)).
Proof.
  intros Hp Hme. unfold field_type_at.
  pose proof (byte_at_ok ed p Hbytes) as Hb. pose proof (byte_at_ok ed (p + 1) Hbytes) as Hf.
  pose proof (encoding_byte _ Hb) as (He & _). pose proof (encoding_scalar _ Hb) as Hs.
  pose proof (format_byte _ Hf) as (Hf' & _).
  rewrite (index_byte_at ed p) by lia. cbn [mbind outcome_bind].
  case_match; [|eexists _, _; split_and!; [done|lia..| |by right];
                unfold ft_ok; ctx; split_and!; try lia; apply Hs].
  case_match; bool_hyps.
  { eexists _, _; split_and!; [done|lia..| |by left]; unfold ft_ok; ctx; split_and!; lia || done. }
  rewrite (index_byte_at ed (p + 1)) by lia. cbn [mbind outcome_bind].
  case_match; [|eexists _, _; split_and!; [done|lia..| |by right];
                unfold ft_ok; ctx; split_and!; try lia; apply Hs].
  case_match; bool_hyps.
  { eexists _, _; split_and!; [done|lia..| |by left]; unfold ft_ok; ctx; split_and!; lia || done. }
  unfold slice_from. rewrite slice_ok by lia. cbn [mbind outcome_bind].
  assert (W : wp (read_u16 br (sub ed (p + 2) (len ed))) (fun t => 0 <= t < 65536)).
  { apply wp_read_u16; [by apply bytes_ok_sub|rewrite len_sub; lia|done]. }
  apply wp_inv in W as (t & -> & Ht). cbn [mbind outcome_bind].
  eexists _, _; split_and!; [done|lia..| |by right].
  unfold ft_ok; ctx; split_and!; try lia; apply Hs.
Qed.

Lemma read_field_type_eq p c :
  0 <= p < c.(meta_end) -> c.(meta_end) <= len ed ->
  read_field_type ed p c =
    '(ft, q) ← field_type_at ed c.(meta_end) c.(byte_reader) p;
    Ret (ft, upd_top (set_next_offset q) c).
Proof using Hbytes Hlen.
  intros Hp Hme. unfold read_field_type, field_type_at.
  rewrite (proj2 (Z.ltb_lt p _)) by lia. cbn [rassert mbind outcome_bind].
  rewrite (index_byte_at ed p) by lia. cbn [mbind outcome_bind].
  rewrite checked_ok by lia. cbn [mbind outcome_bind].
  case_match; [|done]. case_match; [done|]. bool_hyps.
  rewrite (index_byte_at ed (p + 1)) by lia. cbn [mbind outcome_bind].
  rewrite checked_ok by lia. cbn [mbind outcome_bind].
  replace (p + 1 + 1) with (p + 2) by lia.
  case_match; [|done].
  rewrite (checked_ok 32 (c.(meta_end) - (p + 2))) by lia. cbn [mbind outcome_bind].
  case_match; [done|]. bool_hyps.
  unfold slice_from. rewrite slice_ok by lia. cbn [mbind outcome_bind].
  destruct (read_u16 _ _); [|done]. cbn [mbind outcome_bind].
  rewrite checked_ok by lia. cbn [mbind outcome_bind].
  by replace (p + 2 + 2) with (p + 4) by lia.
Qed.

(** ** The invariant *)

(** The offset of the encoding byte of the field whose name an entry records. *)
Definition type_offset (e : StackEntry) : Z := e.(name_offset) + e.(name_len) + 1.

(** [ft] is the type declared in the metadata [ms..me] for the entry [e]. *)
Definition declared (ms me : Z) (br : PerfByteReader) (e : StackEntry) (ft : FieldType) : Prop :=
  ms <= e.(name_offset) /\ 0 <= e.(name_len) <= 65535 /\ type_offset e < me /\
  (exists q, field_type_at ed me br (type_offset e) = Ret (ft, q)) /\ ft.(ft_encoding) <> 0.

(** The entry is at one of the elements of its field; a scalar is its own element. *)
Definition at_element (e : StackEntry) (ft : FieldType) : Prop :=
  0 <= e.(array_index) < e.(array_count) /\ e.(array_count) <= 65535 /\
  (FieldEncoding_is_array ft.(ft_encoding) = false ->
   e.(array_index) = 0 /\ e.(array_count) = 1).

Definition struct_type (ft : FieldType) : bool :=
  FieldEncoding_without_flags ft.(ft_encoding) =? FieldEncoding_Struct.

(** An entry saved on the stack: a struct value whose fields are being visited. *)
Definition suspended (ms me : Z) (br : PerfByteReader) (e : StackEntry) : Prop :=
  (exists ft, declared ms me br e ft /\ struct_type ft = true /\ at_element e ft) /\
  ms <= e.(next_offset) <= me /\ 0 <= e.(remaining_field_count) <= 255.

Record Base (c : Ctx) : Prop := {
  base_meta_start : 8 <= c.(meta_start);
  base_event_name : 0 <= c.(event_name_len) /\
                    c.(meta_start) + c.(event_name_len) + 1 <= c.(meta_end);
  base_meta_size : c.(meta_end) - c.(meta_start) <= 65535;
  base_meta_end : c.(meta_end) <= c.(data_start);
  base_data_pos : c.(data_start) <= c.(data_pos_raw) <= len ed;
  base_remaining : 0 <= c.(move_next_remaining) < 2 ^ 32;
  base_stack : length c.(stack) = 8%nat;
  base_stack_index : 0 <= c.(stack_index) <= 8;
  base_next_offset : c.(meta_start) <= c.(stack_top).(next_offset) <= c.(meta_end);
  base_field_count : 0 <= c.(stack_top).(remaining_field_count) <= 255;
  base_suspended : forall i e, Z.of_nat i < c.(stack_index) -> c.(stack) !! i = Some e ->
    suspended c.(meta_start) c.(meta_end) c.(byte_reader) e;
}.

(** The field type held by the context is the one declared for the stack top. *)
Definition live (c : Ctx) : Prop :=
  declared c.(meta_start) c.(meta_end) c.(byte_reader) c.(stack_top) c.(field_type).

(** The element size of the encodings whose arrays take the fast path, or 0. *)
Definition simple_size (e : Z) : Z :=
  if e =? FieldEncoding_Value8 then 1 else if e =? FieldEncoding_Value16 then 2
  else if e =? FieldEncoding_Value32 then 4 else if e =? FieldEncoding_Value64 then 8
  else if e =? FieldEncoding_Value128 then 16 else 0.
Definition field_size (c : Ctx) : Z :=
  simple_size (FieldEncoding_without_flags c.(field_type).(ft_encoding)).
Definition is_array_field (c : Ctx) : bool :=
  FieldEncoding_is_array c.(field_type).(ft_encoding).

(** The cooked value lies within the raw item, and the raw item within the data. *)
Definition item_in_data (c : Ctx) : Prop :=
  c.(data_pos_raw) <= c.(data_pos_cooked) /\ 0 <= c.(item_size_cooked) /\
  c.(data_pos_cooked) + c.(item_size_cooked) <= c.(data_pos_raw) + c.(item_size_raw) <= len ed.

Definition empty_item (c : Ctx) : Prop :=
  c.(data_pos_cooked) = c.(data_pos_raw) /\ c.(item_size_raw) = 0 /\ c.(item_size_cooked) = 0.

Definition at_value (c : Ctx) : Prop :=
  c.(state) = StValue /\ live c /\ struct_type c.(field_type) = false /\
  at_element c.(stack_top) c.(field_type) /\ item_in_data c /\
  c.(element_size) = field_size c /\
  (c.(element_size) <> 0 -> c.(item_size_cooked) = c.(element_size)).

Definition SubInv (c : Ctx) : Prop :=
  match c.(substate) with
  | SsError => c.(state) = StError
  | SsAfterLastItem => c.(state) = StAfterLastItem
  | SsBeforeFirstItem => c.(state) = StBeforeFirstItem
  | SsValueMetadata =>
      (if is_array_field c then c.(state) = StArrayBegin
       else c.(state) = StValue /\ c.(stack_top).(array_count) = 1) /\
      live c /\ 0 <= c.(stack_top).(array_count) <= 65535 /\ c.(stack_top).(array_index) = 0 /\
      c.(data_pos_cooked) = len ed /\ c.(item_size_cooked) = 0 /\ c.(element_size) = 0 /\
      (struct_type c.(field_type) = true -> c.(field_type).(ft_format) <> 0)
  | SsValueScalar => at_value c /\ is_array_field c = false
  | SsValueSimpleArrayElement =>
      at_value c /\ is_array_field c = true /\ c.(element_size) <> 0 /\
      c.(data_pos_cooked) = c.(data_pos_raw) /\ c.(item_size_raw) = c.(element_size) /\
      c.(data_pos_raw)
        + (c.(stack_top).(array_count) - c.(stack_top).(array_index)) * c.(element_size) <= len ed
  | SsValueComplexArrayElement =>
      at_value c /\ is_array_field c = true /\ c.(element_size) = 0
  | SsArrayBegin =>
      c.(state) = StArrayBegin /\ live c /\ is_array_field c = true /\
      c.(stack_top).(array_index) = 0 /\ 0 <= c.(stack_top).(array_count) <= 65535 /\
      c.(element_size) = field_size c /\ c.(data_pos_cooked) = c.(data_pos_raw) /\
      c.(item_size_raw) = c.(stack_top).(array_count) * c.(element_size) /\
      c.(item_size_cooked) = c.(item_size_raw) /\
      c.(data_pos_raw) + c.(item_size_raw) <= len ed
  | SsArrayEnd =>
      c.(state) = StArrayEnd /\ live c /\ is_array_field c = true /\ empty_item c /\
      c.(stack_top).(array_index) = c.(stack_top).(array_count) /\
      0 <= c.(stack_top).(array_count) <= 65535 /\
      (struct_type c.(field_type) = true -> c.(element_size) = 0)
  | SsStructBegin =>
      c.(state) = StStructBegin /\ live c /\ struct_type c.(field_type) = true /\
      at_element c.(stack_top) c.(field_type) /\ empty_item c /\ c.(element_size) = 0
  | SsStructEnd =>
      c.(state) = StStructEnd /\ live c /\ struct_type c.(field_type) = true /\
      at_element c.(stack_top) c.(field_type) /\ empty_item c /\ c.(element_size) = 0
  end.

Definition Inv (c : Ctx) : Prop := Base c /\ SubInv c.

(** The part of the context that describes the event and no move changes. *)
Definition event_part (c : Ctx) :=
  (c.(header), c.(keyword), (c.(meta_start), c.(meta_end)),
   (c.(activity_id_start), c.(activity_id_len)), c.(byte_reader), c.(event_name_len),
   c.(data_start)).

(** What a step from [c] guarantees of its result: the invariant, the event kept,
    the data position not moved back, and the state the returned flag announces. *)
Definition moved_to (c : Ctx) (r : bool * Ctx) : Prop :=
  Inv r.2 /\ event_part r.2 = event_part c /\ c.(data_pos_raw) <= r.2.(data_pos_raw) /\
  r.2.(move_next_remaining) = c.(move_next_remaining) /\
  r.2.(substate) <> SsValueMetadata /\ r.2.(substate) <> SsBeforeFirstItem /\
  (if r.1 then can_item_info r.2.(state) = true
   else r.2.(state) = StError \/ r.2.(state) = StAfterLastItem) /\
  (r.2.(state) = StAfterLastItem -> r.2.(stack_index) = 0 /\
     r.2.(stack_top).(next_offset) = r.2.(meta_end)).

(** ** Reading a field declaration *)

Lemma scan_nul_ok n pos :
  0 <= pos -> pos + Z.of_nat n <= len ed ->
  wp (scan_nul ed n pos) (fun e => pos <= e <= pos + Z.of_nat n /\
    (e < pos + Z.of_nat n -> byte_at ed e = 0)).
Proof.
  revert pos. induction n as [|n IH]; intros pos Hp Hn; cbn [scan_nul].
  - wp_step. split; lia.
  - rewrite index_byte_at by lia. cbn [mbind outcome_bind]. case_match; bool_hyps.
    + wp_step. split; [lia|done].
    + eapply wp_mono; [apply IH; lia|]. intros e [He Hz]. split; [lia|]. intros. apply Hz. lia.
Qed.

Lemma read_field_name_and_type_ok c :
  8 <= c.(meta_start) -> c.(meta_end) - c.(meta_start) <= 65535 -> c.(meta_end) <= len ed ->
  c.(meta_start) <= c.(stack_top).(next_offset) <= c.(meta_end) ->
  c.(meta_start) <= c.(stack_top).(name_offset) <= c.(meta_end) ->
  wp (read_field_name_and_type ed c) (fun r => exists nl q,
    r.2 = upd_top (fun e => set_next_offset q (set_name_len nl e)) c /\
    c.(meta_start) <= q <= c.(meta_end) /\ ft_ok r.1 /\
    (r.1.(ft_encoding) <> 0 ->
     c.(stack_top).(name_offset) + 2 <= q /\
     declared c.(meta_start) c.(meta_end) c.(byte_reader) r.2.(stack_top) r.1)).
Proof.
  intros Hs Hsz He Hn Ho. unfold read_field_name_and_type.
  wp_step. wp_step; [bool_solve|]. wp_step.
  eapply wp_mono; [apply scan_nul_ok; lia|]. intros ne [Hne _].
  wp_step. wp_step.
  case_match; bool_hyps.
  - wp_step. exists c.(stack_top).(name_len), c.(stack_top).(next_offset). ctx. split_and!; try lia.
    + by destruct c as [? ? ? ? ? ? ? ? ? ? ? []].
    + unfold ft_ok. ctx. unfold READ_FIELD_ERROR, FieldEncoding_Invalid, FieldFormat_Default.
      split_and!; try lia. done.
    + done.
  - wp_step. wp_step. rewrite read_field_type_eq by (ctx; lia). ctx.
    destruct (field_type_at_ok c.(meta_end) c.(byte_reader) (ne + 1))
      as (ft & q & E & Hq & Hok & _); [lia..|].
    rewrite E. cbn [mbind outcome_bind]. wp_step.
    exists (as_unsigned 16 (ne - c.(stack_top).(name_offset))), q. ctx.
    rewrite as_unsigned_id by lia. split_and!; try lia; try done.
    intros Hz. split; [lia|]. unfold declared, type_offset. ctx. split_and!; try lia.
    exists q. rewrite <- E. f_equal. lia.
Qed.

(** ** Starting a value *)

Lemma zstring_scan_ok is_nul es end_pos fuel pos :
  1 <= es -> 0 <= pos -> Z.max 0 (end_pos - pos) < Z.of_nat fuel ->
  (forall p, 0 <= p < end_pos -> wp (is_nul p) (fun _ => True)) ->
  wp (zstring_scan is_nul es end_pos fuel pos) (fun r =>
    match r with Some p => pos <= p < end_pos | None => True end).
Proof.
  intros Hes Hp Hf Hnul. revert pos Hp Hf.
  induction fuel as [|fuel IH]; intros pos Hp Hf; cbn [zstring_scan].
  { lia. }
  case_match; bool_hyps; [|by wp_step]. wp_step.
  eapply wp_mono; [apply Hnul; lia|]. intros [] _; [wp_step; lia|].
  eapply wp_mono; [apply IH; lia|]. intros [p|] Hpp; [lia|done].
Qed.

(** A string loader leaves an item that, if it fits in the data, is well placed. *)
Definition item_loaded (c c' : Ctx) : Prop :=
  exists cooked raw csize,
    c' = with_item cooked raw csize c /\ 0 <= raw /\
    (raw <= len ed - c.(data_pos_raw) ->
     c.(data_pos_raw) <= cooked /\ 0 <= csize /\ cooked + csize <= c.(data_pos_raw) + raw).

Lemma remaining_data_ok c (Q : Z -> Prop) :
  0 <= c.(data_pos_raw) <= len ed -> Q (len ed - c.(data_pos_raw)) ->
  wp (remaining_data ed c) Q.
Proof.
  intros. unfold remaining_data. rewrite as_unsigned_id by (pose proof (len_nonneg ed); lia).
  wp_step. done.
Qed.

Lemma start_value_zstring_ok is_nul es c :
  1 <= es <= 8 -> 8 <= c.(data_pos_raw) <= len ed -> c.(data_pos_cooked) = c.(data_pos_raw) ->
  (forall p, 0 <= p < len ed - es + 1 -> wp (is_nul ed p) (fun _ => True)) ->
  wp (start_value_zstring is_nul es ed c) (item_loaded c).
Proof.
  intros Hes Hp Hc Hnul. unfold start_value_zstring.
  wp_step. wp_step. wp_step. wp_step. wp_step.
  eapply wp_mono; [apply zstring_scan_ok; [lia|lia|lia|done]|]. intros [p|] Hr.
  - rewrite as_unsigned_id by lia. wp_step. wp_step. wp_step. wp_step. wp_step.
    exists c.(data_pos_raw), (p - c.(data_pos_raw) + es), (p - c.(data_pos_raw)).
    split; [|lia]. unfold with_item. ctx. by rewrite <- Hc.
  - wp_step. apply remaining_data_ok; [lia|]. wp_step.
    exists c.(data_pos_raw), (len ed - c.(data_pos_raw)), (len ed - c.(data_pos_raw)).
    split; [|lia]. unfold with_item. ctx. by rewrite <- Hc.
Qed.

Lemma start_value_string_ok sh c :
  0 <= sh <= 2 -> 8 <= c.(data_pos_raw) <= len ed ->
  wp (start_value_string ed sh c) (item_loaded c).
Proof.
  intros Hsh Hp. unfold start_value_string.
  wp_step. apply remaining_data_ok; [lia|]. case_match; bool_hyps.
  - wp_step. exists c.(data_pos_cooked), 2, c.(item_size_cooked). split; [done|lia].
  - wp_step. wp_step. wp_step. wp_step; [ctx; lia|]. wp_step. ctx.
    apply wp_read_u16; [by apply bytes_ok_sub|rewrite len_sub; lia|]. intros v Hv.
    assert (Hsv : 0 <= Z.shiftl v sh <= 4 * 65535).
    { rewrite Z.shiftl_mul_pow2 by lia.
      assert (1 <= 2 ^ sh <= 4); [|nia]. destruct (decide (sh = 0)), (decide (sh = 1)); subst; try lia.
      by replace sh with 2 by lia. }
    wp_step. ctx. rewrite as_unsigned_id by lia. wp_step. wp_step.
    exists (c.(data_pos_raw) + 2), (Z.shiftl v sh + 2), (Z.shiftl v sh).
    unfold with_item. ctx. split; [done|lia].
Qed.

(** ** Frames *)

(** The fields [Base] depends on. *)
Definition base_part (c : Ctx) :=
  (event_part c, c.(data_pos_raw), c.(move_next_remaining), (c.(stack), c.(stack_index)),
   (c.(stack_top).(next_offset), c.(stack_top).(remaining_field_count))).

Lemma Base_ext c c' : Base c -> base_part c' = base_part c -> Base c'.
Proof.
  intros [] E. unfold base_part, event_part in E. simplify_eq.
  constructor; repeat match goal with
                      | H : ?f c' = ?f c |- _ => rewrite !H; clear H
                      | H : ?f (?g c') = _ |- _ => rewrite !H; clear H
                      end; done.
Qed.

Lemma moved_error c c' e :
  Base c' -> event_part c' = event_part c -> c.(data_pos_raw) <= c'.(data_pos_raw) ->
  c'.(move_next_remaining) = c.(move_next_remaining) -> moved_to c (set_error_state e c').
Proof.
  intros HB HE Hp Hr. unfold moved_to. ctx. split_and!; try done; [|by left].
  split; [by eapply Base_ext|done].
Qed.

Lemma moved_item c c' :
  Base c' -> SubInv c' -> event_part c' = event_part c ->
  c.(data_pos_raw) <= c'.(data_pos_raw) ->
  c'.(move_next_remaining) = c.(move_next_remaining) ->
  can_item_info c'.(state) = true -> c'.(substate) <> SsValueMetadata ->
  c'.(substate) <> SsBeforeFirstItem -> moved_to c (true, c').
Proof.
  intros HB HS HE Hp Hr Hi H1 H2. unfold moved_to, Inv. ctx. split_and!; try done;
  intros E; by rewrite E in Hi.
Qed.

Lemma moved_trans c c' r :
  moved_to c' r -> event_part c' = event_part c -> c.(data_pos_raw) <= c'.(data_pos_raw) ->
  c'.(move_next_remaining) = c.(move_next_remaining) -> moved_to c r.
Proof.
  intros (H1 & H2 & H3 & H4 & H5) HE Hp Hr. unfold moved_to.
  split_and!; try tauto; [congruence|lia|congruence].
Qed.

(** ** Starting a value, an array, a struct *)

Definition value_started (c : Ctx) (r : bool * Ctx) : Prop :=
  (exists cooked raw csize,
     r = (true, with_item cooked raw csize (set_element_size (field_size c) c)) /\
     c.(data_pos_raw) <= cooked /\ 0 <= csize /\
     cooked + csize <= c.(data_pos_raw) + raw <= len ed /\
     (field_size c <> 0 -> csize = field_size c)) \/
  (exists es cooked raw csize,
     r = set_error_state ErInvalidData (with_item cooked raw csize (set_element_size es c))).

Lemma start_value_fixed_length_ok size c c0 :
  0 < size <= 16 -> size = field_size c0 -> 8 <= c0.(data_pos_raw) <= len ed ->
  c = set_element_size 0 (set_data_pos_cooked c0.(data_pos_raw) c0) ->
  wp (start_value_fixed_length ed size c) (value_started c0).
Proof.
  intros Hsz Hf Hp ->. unfold start_value_fixed_length.
  wp_step. apply remaining_data_ok; ctx; [lia|]. case_match; bool_hyps; wp_step.
  - right. exists size, c0.(data_pos_raw), 0, 0. done.
  - left. exists c0.(data_pos_raw), size, size. rewrite <- Hf. split; [done|lia].
Qed.

(** The common end of the string arms of [start_value]. *)
Lemma start_value_variable_ok m c c0 :
  field_size c0 = 0 -> 8 <= c0.(data_pos_raw) <= len ed ->
  c = set_element_size 0 (set_data_pos_cooked c0.(data_pos_raw) c0) ->
  wp m (item_loaded c) ->
  wp (c ← m;
      if len ed - c0.(data_pos_raw) <? c.(item_size_raw) then
        Ret (set_error_state ErInvalidData (set_item_size_raw 0 (set_item_size_cooked 0 c)))
      else Ret (true, c)) (value_started c0).
Proof.
  intros Hf Hp Hc Hm. wp_step. eapply wp_mono; [exact Hm|].
  intros c' (cooked & raw & csize & -> & Hraw & Hfit). subst c. unfold with_item in *. ctx.
  case_match; bool_hyps; wp_step.
  - right. exists 0, cooked, 0, 0. done.
  - left. exists cooked, raw, csize. rewrite Hf. destruct Hfit; [lia|]. split; [done|lia].
Qed.

Lemma char_is_nul_ok `{Target} es p :
  0 <= p -> 0 <= es -> p < len ed - es + 1 -> wp (char_is_nul es ed p) (fun _ => True).
Proof. intros. unfold char_is_nul. wp_step. wp_step. by wp_step. Qed.

Lemma char8_is_nul_ok p : 0 <= p < len ed -> wp (char8_is_nul ed p) (fun _ => True).
Proof. intros. unfold char8_is_nul. rewrite index_byte_at by lia. cbn [mbind outcome_bind]. by wp_step. Qed.

Lemma base_bounds c :
  Base c -> 8 <= c.(meta_start) /\ c.(meta_start) <= c.(meta_end) /\ c.(meta_end) <= len ed /\
  8 <= c.(data_pos_raw) <= len ed /\ c.(meta_end) - c.(meta_start) <= 65535.
Proof. intros []. lia. Qed.

Lemma declared_type ms me br e ft :
  0 <= ms -> me <= len ed -> declared ms me br e ft ->
  ft_ok ft /\ ft.(ft_encoding) = FieldEncoding_without_chain_flag (byte_at ed (type_offset e)).
Proof.
  intros Hms Hme (Hno & Hnl & Hto & (q & Eq) & Hnz).
  destruct (field_type_at_ok me br (type_offset e)) as (ft' & q' & E & _ & Hok & Hor).
  { unfold type_offset in *. lia. }
  { done. }
  rewrite E in Eq. simplify_eq. split; [done|]. by destruct Hor.
Qed.

Lemma live_type c :
  Base c -> live c ->
  ft_ok c.(field_type) /\
  c.(field_type).(ft_encoding)
    = FieldEncoding_without_chain_flag (byte_at ed (type_offset c.(stack_top))).
Proof.
  intros HB HL. pose proof (base_bounds _ HB). eapply declared_type; [| |exact HL]; lia.
Qed.

Lemma start_value_ok `{Target} c :
  Base c -> live c -> struct_type c.(field_type) = false -> c.(state) = StValue ->
  wp (start_value ed c) (value_started c).
Proof.
  intros HB HL Hst Hs. pose proof (base_bounds _ HB) as Hb.
  destruct (live_type _ HB HL) as [_ Hdt].
  destruct HL as (Hno & Hnl & Hto & _). unfold type_offset in *. unfold start_value.
  wp_step. apply remaining_data_ok; [lia|].
  wp_step. wp_step; [by rewrite bool_decide_true|].
  do 4 wp_step.
  wp_step. rewrite index_byte_at by lia. wp_step. wp_step. wp_step; [bool_solve|].
  unfold struct_type in Hst.
  assert (Hzs : forall es, 1 <= es <= 8 -> forall is_nul,
      (forall p, 0 <= p < len ed - es + 1 -> wp (is_nul ed p) (fun _ => True)) ->
      let c' := set_element_size 0 (set_data_pos_cooked c.(data_pos_raw) c) in
      wp (start_value_zstring is_nul es ed c') (item_loaded c')).
  { intros es ? is_nul ? c'. subst c'. apply start_value_zstring_ok; ctx; auto; lia. }
  assert (Hss : forall sh, 0 <= sh <= 2 ->
      let c' := set_element_size 0 (set_data_pos_cooked c.(data_pos_raw) c) in
      wp (start_value_string ed sh c') (item_loaded c')).
  { intros sh ? c'. subst c'. apply start_value_string_ok; ctx; auto; lia. }
  cbv zeta. ctx.
  assert (Hfs : field_size c = simple_size (FieldEncoding_without_flags c.(field_type).(ft_encoding)))
    by done.
  revert Hst Hfs. generalize (FieldEncoding_without_flags c.(field_type).(ft_encoding)).
  intros e Hst Hfs. unfold simple_size in Hfs.
  repeat match goal with
  | |- wp (if ?b then _ else _) _ => destruct b eqn:?
  end.
  all: try (apply start_value_fixed_length_ok; [lia|by rewrite Hfs|lia|done]).
  7: { wp_step. wp_step; [bool_solve|]. wp_step. right. by exists 0, c.(data_pos_raw), 0, 0. }
  all: eapply start_value_variable_ok; [by rewrite Hfs; bool_hyps; subst|lia|reflexivity|].
  all: try (apply Hss; lia).
  - apply Hzs; [lia|]. intros. apply char8_is_nul_ok. lia.
  - apply Hzs; [lia|]. intros. apply char_is_nul_ok; lia.
  - apply Hzs; [lia|]. intros. apply char_is_nul_ok; lia.
Qed.

(** A started value or a failed one, as a step result. *)
Lemma value_started_moved c r ss :
  Base c -> live c -> struct_type c.(field_type) = false -> c.(state) = StValue ->
  c.(substate) = ss -> at_element c.(stack_top) c.(field_type) ->
  (ss = SsValueScalar /\ is_array_field c = false \/
   ss = SsValueComplexArrayElement /\ is_array_field c = true /\ field_size c = 0) ->
  value_started c r -> moved_to c r.
Proof.
  intros HB HL Hst Hs Hss He Hcase [(cooked & raw & csize & -> & H1 & H2 & H3 & H4) |
                                    (es & cooked & raw & csize & ->)].
  - apply moved_item; try done.
    + by eapply Base_ext.
    + assert (at_value (with_item cooked raw csize (set_element_size (field_size c) c))).
      { unfold at_value, item_in_data, with_item. ctx. split_and!; done || lia. }
      unfold SubInv. destruct Hcase as [[-> Ha]|(-> & Ha & Hf)];
        unfold with_item at 1; ctx; rewrite Hss; split_and!; done.
    + unfold with_item. ctx. by rewrite Hs.
    + unfold with_item. ctx. rewrite Hss. by destruct Hcase as [[-> _]|[-> _]].
    + unfold with_item. ctx. rewrite Hss. by destruct Hcase as [[-> _]|[-> _]].
  - apply moved_error; try done. by eapply Base_ext.
Qed.

Lemma start_array_ok c :
  Base c -> live c -> is_array_field c = true -> c.(stack_top).(array_index) = 0 ->
  0 <= c.(stack_top).(array_count) <= 65535 ->
  wp (start_array (as_unsigned 32 (len ed)) c) (moved_to c).
Proof.
  intros HB HL Ha Hi Hc. pose proof (base_bounds _ HB) as Hb. unfold start_array.
  rewrite as_unsigned_id by lia. ctx.
  assert (Herr : forall e es, moved_to c (set_error_state e (set_states StArrayBegin SsArrayBegin
     (set_item_size_cooked 0 (set_data_pos_cooked c.(data_pos_raw)
       (set_item_size_raw 0 (set_element_size es c))))))).
  { intros. apply moved_error; [by eapply Base_ext|done|ctx; lia|done]. }
  assert (Hok : forall raw es, es = field_size c ->
     raw = c.(stack_top).(array_count) * es -> c.(data_pos_raw) + raw <= len ed ->
     moved_to c (true, set_states StArrayBegin SsArrayBegin
       (with_item c.(data_pos_raw) raw raw (set_element_size es c)))).
  { intros. subst. apply moved_item; try done; by eapply Base_ext. }
  assert (Hfs : field_size c = simple_size (FieldEncoding_without_flags c.(field_type).(ft_encoding)))
    by done.
  revert Hfs. generalize (FieldEncoding_without_flags c.(field_type).(ft_encoding)).
  intros e Hfs. unfold simple_size in Hfs.
  repeat match goal with
  | |- wp (if ?b then _ else _) _ => destruct b eqn:?
  end.
  all: try (wp_step; apply (Herr _ 0)).
  all: try (wp_step; apply (Hok 0 0); [|lia..]; rewrite Hfs; bool_hyps; by subst).
  all: do 4 wp_step; case_match; wp_step.
  all: match goal with
       | |- moved_to _ (set_error_state _ _) =>
           apply moved_error; [by eapply Base_ext|done|ctx; lia|done]
       | |- moved_to _ (true, set_item_size_raw ?r (set_item_size_cooked _ (set_element_size ?es _))) =>
           bool_hyps; replace_ctx c (set_states StArrayBegin SsArrayBegin
             (with_item c.(data_pos_raw) r r (set_element_size es c))); apply Hok; done || lia
       end.
Qed.

Lemma start_struct_ok c :
  Base c -> live c -> struct_type c.(field_type) = true ->
  at_element c.(stack_top) c.(field_type) ->
  wp (start_struct c) (fun c' => moved_to c (true, c') /\ c'.(substate) = SsStructBegin).
Proof.
  intros HB HL Hst He. unfold start_struct. wp_step. wp_step; [exact Hst|]. wp_step.
  split; [|done]. apply moved_item; try done. by eapply Base_ext.
Qed.

(** ** The next property *)

(** The context after the declaration of the next field has been read. *)
Definition field_read (c c1 : Ctx) : Prop :=
  Base c1 /\ event_part c1 = event_part c /\ c1.(data_pos_raw) = c.(data_pos_raw) /\
  c1.(move_next_remaining) = c.(move_next_remaining) /\
  c1.(stack_top).(array_index) = 0 /\ ft_ok c1.(field_type) /\
  (c1.(field_type).(ft_encoding) <> 0 -> live c1).

Lemma struct_scalar ft :
  ft_ok ft -> FieldEncoding_is_array ft.(ft_encoding) = false ->
  struct_type ft = (FieldEncoding_Struct =? ft.(ft_encoding)).
Proof.
  intros (_ & _ & _ & H) Ha. unfold struct_type. rewrite (H Ha). apply Z.eqb_sym.
Qed.

Lemma read_u16_at_ok p c (Q : Z -> Prop) :
  0 <= p -> p + 2 <= len ed -> (forall v, 0 <= v < 65536 -> Q v) -> wp (read_u16_at ed p c) Q.
Proof.
  intros. unfold read_u16_at. wp_step. wp_step.
  apply wp_read_u16; [by apply bytes_ok_sub|rewrite len_sub; lia|done].
Qed.

(** Overwriting the array count of the stack top keeps the invariant. *)
Lemma with_array_count n c :
  Base c -> live c -> Base (upd_top (set_array_count n) c) /\ live (upd_top (set_array_count n) c).
Proof. intros HB HL. split; [by eapply Base_ext|done]. Qed.

Lemma start_scalar_ok `{Target} c :
  Base c -> live c -> ft_ok c.(field_type) -> is_array_field c = false ->
  c.(stack_top).(array_index) = 0 ->
  wp (let c := upd_top (set_array_count 1) c in
      if negb (FieldEncoding_Struct =? c.(field_type).(ft_encoding)) then
        start_value ed (set_state StValue SsValueScalar c)
      else if c.(field_type).(ft_format) =? FieldFormat_Default
      then Ret (set_error_state ErInvalidData c)
      else c ← start_struct c; Ret (true, c)) (moved_to c).
Proof.
  intros HB HL Hok Ha Hi. cbv zeta. destruct (with_array_count 1 c HB HL) as [HB' HL'].
  assert (He : at_element (upd_top (set_array_count 1) c).(stack_top) c.(field_type)).
  { unfold at_element. ctx. rewrite Hi. lia. }
  pose proof (struct_scalar _ Hok Ha) as Hs.
  change (moved_to c) with (moved_to (upd_top (set_array_count 1) c)).
  change (stack_top c) with (stack_top c) in He.
  destruct (negb _) eqn:En.
  - apply negb_true_iff in En. change (ft_encoding _) with c.(field_type).(ft_encoding) in En.
    eapply wp_mono.
    + apply start_value_ok; [by eapply Base_ext|done|by rewrite <- En|done].
    + intros r Hv. eapply (value_started_moved _ r SsValueScalar) in Hv; try done.
      * by eapply Base_ext.
      * ctx. by rewrite <- En.
      * by left.
  - apply negb_false_iff in En. change (ft_encoding _) with c.(field_type).(ft_encoding) in En.
    case_match; [wp_step; by apply moved_error|].
    wp_step. eapply wp_mono; [apply start_struct_ok; try done; by rewrite <- En|].
    intros c' [Hm _]. by wp_step.
Qed.

Lemma start_property_ok `{Target} c0 c :
  field_read c0 c -> wp (start_property ed c) (moved_to c0).
Proof.
  intros (HB & HE & Hp & Hr & Hi & Hok & HL).
  cut (wp (start_property ed c) (moved_to c)).
  { intros W. eapply wp_mono; [exact W|]. intros r Hm. by eapply moved_trans; [|done|lia|]. }
  pose proof (base_bounds _ HB) as Hb. pose proof (base_next_offset _ HB) as Hn.
  unfold start_property. cbv zeta.
  case_match eqn:Ez; bool_hyps; [wp_step; by apply moved_error|].
  unfold READ_FIELD_ERROR, FieldEncoding_Invalid in Ez. specialize (HL Ez).
  destruct (negb _) eqn:Ea; bool_hyps; [by apply start_scalar_ok|].
  case_match; [|case_match; [|wp_step; by apply moved_error]].
  - wp_step. wp_step. case_match; bool_hyps; [wp_step; by apply moved_error|].
    wp_step. apply read_u16_at_ok; [lia..|]. intros n Hnn. wp_step. wp_step. ctx.
    eapply wp_mono; [apply start_array_ok|].
    + destruct HB. constructor; ctx; try done; lia.
    + done.
    + done.
    + done.
    + ctx. lia.
    + intros r Hm. eapply moved_trans; [exact Hm|done|ctx; lia|done].
  - wp_step. unfold remaining_meta. wp_step. case_match; bool_hyps; [wp_step; by apply moved_error|].
    wp_step. apply read_u16_at_ok; [lia..|]. intros n Hnn. wp_step. ctx. wp_step.
    set (c1 := upd_top (set_next_offset _) _).
    assert (HB1 : Base c1) by (subst c1; destruct HB; constructor; ctx; try done; lia).
    case_match; [wp_step; by apply moved_error|].
    eapply wp_mono; [apply start_array_ok; try done; subst c1; ctx; lia|].
    intros r Hm. by eapply moved_trans.
Qed.

Lemma next_field_ok `{Target} c :
  Base c -> c.(stack_top).(remaining_field_count) <> 0 ->
  wp (next_field ed c) (moved_to c).
Proof.
  intros HB Hr. pose proof (base_bounds _ HB) as Hb.
  pose proof (base_next_offset _ HB) as Hn. pose proof (base_field_count _ HB) as Hfc.
  unfold next_field. wp_step. wp_step. cbv zeta. wp_step.
  eapply wp_mono; [apply read_field_name_and_type_ok; ctx; lia|].
  intros [ft c'] (nl & q & E & Hq & Hok & Hd). cbn [fst snd] in *. subst c'. ctx.
  apply start_property_ok. unfold field_read. split_and!; try done.
  - destruct HB. constructor; ctx; try done; lia.
  - ctx. intros Hz. by apply Hd.
Qed.

Lemma end_of_struct_ok c :
  Base c -> c.(stack_index) <> 0 -> wp (end_of_struct ed c) (moved_to c).
Proof.
  intros HB Hi. pose proof (base_bounds _ HB) as Hb.
  pose proof (base_stack_index _ HB) as Hsi. pose proof (base_next_offset _ HB) as Hn.
  unfold end_of_struct. wp_step. wp_step. wp_step. ctx.
  apply wp_index; [unfold len; rewrite (base_stack _ HB); lia|]. intros parent Hpar.
  destruct (base_suspended _ HB (Z.to_nat (c.(stack_index) - 1)) parent ltac:(lia) Hpar) as [(ft & Hd & Hst & He) [Hno Hfc]].
  destruct (Hd) as (Hd1 & Hd2 & Hd3 & (q & Eq) & Hnz). unfold type_offset in *.
  do 4 wp_step. rewrite read_field_type_eq by (ctx; lia). ctx. rewrite Eq.
  assert (Hq : c.(meta_start) <= q <= c.(meta_end)).
  { destruct (field_type_at_ok c.(meta_end) c.(byte_reader) (parent.(name_offset) + parent.(name_len) + 1))
      as (ft' & q' & E & Hq & _); [lia|lia|]. rewrite E in Eq. simplify_eq. lia. }
  pose proof He as (Hidx & Hcnt & _).
  do 4 wp_step. cbv zeta. ctx. wp_step.
  wp_step; [unfold struct_type in Hst; by rewrite Z.eqb_sym|].
  wp_step. wp_step; [bool_solve|]. wp_step. wp_step. wp_step.
  assert (Hgoal : forall off, c.(meta_start) <= off <= c.(meta_end) ->
    moved_to c (true, set_end_state StStructEnd SsStructEnd
      (upd_top (set_next_offset off) (set_element_size 0 (set_field_type ft
         (set_stack_top parent (set_stack_index (c.(stack_index) - 1) c))))))).
  { intros off Hoff. apply moved_item; try done.
    destruct HB. constructor; ctx; try done; try lia.
    intros i e Hlt. apply base_suspended0. lia. }
  case_match; ctx.
  - apply (Hgoal _ Hn).
  - apply (Hgoal q Hq).
Qed.

Lemma next_property_ok `{Target} c : Base c -> wp (next_property ed c) (moved_to c).
Proof.
  intros HB. unfold next_property. case_match eqn:E1; bool_hyps; [by apply next_field_ok|].
  case_match eqn:E2; bool_hyps; [by apply end_of_struct_ok|].
  case_match eqn:E3; bool_hyps; wp_step; [by apply moved_error|].
  unfold moved_to, Inv. ctx. split_and!; try done; [by eapply Base_ext|by right].
Qed.

(** ** The moves, one arm of [move_next_impl] at a time *)

Lemma consume_item_ok c (Q : Ctx -> Prop) :
  8 <= c.(data_pos_raw) <= len ed -> 0 <= c.(item_size_raw) ->
  c.(data_pos_raw) + c.(item_size_raw) <= len ed ->
  Q (set_data_pos_raw (c.(data_pos_raw) + c.(item_size_raw)) c) -> wp (consume_item ed c) Q.
Proof.
  intros. unfold consume_item. wp_step. apply remaining_data_ok; [lia|].
  wp_step. wp_step; [bool_solve|]. wp_step. wp_step. by wp_step.
Qed.

Lemma Base_advance n c :
  Base c -> 0 <= n -> c.(data_pos_raw) + n <= len ed ->
  Base (set_data_pos_raw (c.(data_pos_raw) + n) c).
Proof. intros [] ? ?. constructor; ctx; try done; lia. Qed.

Lemma move_from_before_first_ok `{Target} c :
  Base c -> c.(state) = StBeforeFirstItem -> wp (move_from_before_first ed c) (moved_to c).
Proof.
  intros HB Hs. unfold move_from_before_first. wp_step.
  wp_step; [by rewrite bool_decide_true|]. by apply next_property_ok.
Qed.

Lemma move_from_value_scalar_ok `{Target} c :
  Base c -> at_value c -> is_array_field c = false ->
  wp (move_from_value_scalar ed c) (moved_to c).
Proof.
  intros HB (Hs & HL & Hst & He & (Hi1 & Hi2 & Hi3) & _) Ha.
  pose proof (base_bounds _ HB) as Hb. unfold move_from_value_scalar.
  wp_step. wp_step; [by rewrite bool_decide_true|].
  wp_step. wp_step; [unfold struct_type in Hst; by rewrite Hst|].
  wp_step. wp_step; [unfold is_array_field in Ha; by rewrite Ha|].
  wp_step. apply consume_item_ok; [lia..|].
  eapply wp_mono; [apply next_property_ok, Base_advance; done || lia|].
  intros r Hm. eapply moved_trans; [exact Hm|done|ctx; lia|done].
Qed.

(** The end of an array, reached with all of its elements consumed. *)
Lemma array_end_moved c :
  Base c -> live c -> is_array_field c = true ->
  c.(stack_top).(array_index) = c.(stack_top).(array_count) ->
  0 <= c.(stack_top).(array_count) <= 65535 ->
  (struct_type c.(field_type) = true -> c.(element_size) = 0) ->
  moved_to c (true, set_end_state StArrayEnd SsArrayEnd c).
Proof. intros. apply moved_item; try done. by eapply Base_ext. Qed.

Lemma element_asserts_ok c fast :
  at_value c -> is_array_field c = true -> fast = negb (c.(element_size) =? 0) ->
  element_asserts fast c = true.
Proof.
  intros (Hs & HL & Hst & (He & _) & _) Ha ->. unfold element_asserts.
  unfold struct_type in Hst. unfold is_array_field in Ha.
  rewrite Hst, Ha, eqb_reflx, (proj2 (Z.ltb_lt _ _)) by lia.
  by rewrite bool_decide_true.
Qed.

Lemma next_index_ok c (Q : Ctx -> Prop) :
  0 <= c.(stack_top).(array_index) < 65535 ->
  Q (upd_top (set_array_index (c.(stack_top).(array_index) + 1)) c) -> wp (next_index c) Q.
Proof. intros. unfold next_index. wp_step. wp_step. by wp_step. Qed.

(** After consuming an item the index advances: the context reached. *)
Definition advanced (c : Ctx) : Ctx :=
  upd_top (set_array_index (c.(stack_top).(array_index) + 1))
    (set_data_pos_raw (c.(data_pos_raw) + c.(item_size_raw)) c).

Lemma Base_advanced c :
  Base c -> 0 <= c.(item_size_raw) -> c.(data_pos_raw) + c.(item_size_raw) <= len ed ->
  Base (advanced c).
Proof. intros [] ? ?. constructor; unfold advanced; ctx; try done; lia. Qed.

Lemma moved_advanced c r :
  moved_to (advanced c) r -> 0 <= c.(item_size_raw) -> moved_to c r.
Proof.
  intros Hm Hr. eapply moved_trans; [exact Hm|done|unfold advanced; ctx; lia|done].
Qed.

(** What the fast path for array elements needs, and where it leads. *)
Lemma start_value_simple_ok c :
  Base c -> live c -> struct_type c.(field_type) = false -> is_array_field c = true ->
  0 <= c.(stack_top).(array_index) < c.(stack_top).(array_count) ->
  c.(stack_top).(array_count) <= 65535 ->
  c.(element_size) <> 0 -> c.(element_size) = field_size c ->
  c.(item_size_cooked) = c.(element_size) -> c.(item_size_raw) = c.(element_size) ->
  c.(state) = StValue -> c.(substate) = SsValueSimpleArrayElement -> 0 <= c.(element_size) ->
  c.(data_pos_raw)
    + (c.(stack_top).(array_count) - c.(stack_top).(array_index)) * c.(element_size) <= len ed ->
  wp (start_value_simple c) (fun c' => moved_to c (true, c')).
Proof.
  intros HB HL Hst Ha Hidx Hcnt Hz Hes Hck Hraw Hs Hss Hpos Hfit. unfold start_value_simple.
  wp_step. wp_step; [bool_solve|]. wp_step. wp_step; [exact Ha|].
  wp_step. wp_step; [unfold struct_type in Hst; by rewrite Hst|].
  wp_step. wp_step; [bool_solve|]. wp_step. wp_step; [bool_solve|].
  wp_step. wp_step; [bool_solve|]. wp_step. wp_step; [by rewrite bool_decide_true|]. wp_step.
  apply moved_item; ctx; try done; [by eapply Base_ext| |by rewrite Hs|by rewrite Hss|by rewrite Hss].
  unfold SubInv. ctx. rewrite Hss. unfold at_value, item_in_data, at_element. ctx.
  split_and!; try done; try lia; try nia.
  unfold is_array_field in Ha. congruence.
Qed.

Lemma move_from_simple_element_ok c :
  Base c -> SubInv c -> c.(substate) = SsValueSimpleArrayElement ->
  wp (move_from_simple_element ed c) (moved_to c).
Proof.
  intros HB HS Hss. unfold SubInv in HS. rewrite Hss in HS.
  destruct HS as (Hv & Ha & Hz & Hc & Hraw & Hfit). pose proof (base_bounds _ HB) as Hb.
  pose proof Hv as (Hs & HL & Hst & (Hidx & Hcnt & _) & (Hi1 & Hi2 & Hi3) & Hes & Hck).
  specialize (Hck Hz). unfold move_from_simple_element.
  wp_step. wp_step; [apply element_asserts_ok; try done; by rewrite (proj2 (Z.eqb_neq _ 0))|].
  wp_step. apply consume_item_ok; [lia..|]. wp_step. apply next_index_ok; [ctx; lia|]. ctx.
  fold (advanced c). pose proof (Base_advanced _ HB ltac:(lia) ltac:(lia)) as HB'.
  unfold at_array_end. case_match eqn:Eend; bool_hyps; unfold advanced in Eend; ctx.
  - wp_step. apply moved_advanced; [|lia].
    apply array_end_moved; try done; unfold advanced; ctx; [lia..|].
    intros E. unfold struct_type in *. congruence.
  - wp_step. eapply wp_mono; [apply start_value_simple_ok; try done; unfold advanced; ctx; nia|].
    intros c' Hm. wp_step. by apply moved_advanced; [|lia].
Qed.

Lemma move_from_complex_element_ok `{Target} c :
  Base c -> SubInv c -> c.(substate) = SsValueComplexArrayElement ->
  wp (move_from_complex_element ed c) (moved_to c).
Proof.
  intros HB HS Hss. unfold SubInv in HS. rewrite Hss in HS.
  destruct HS as (Hv & Ha & Hz). pose proof (base_bounds _ HB) as Hb.
  pose proof Hv as (Hs & HL & Hst & (Hidx & Hcnt & _) & (Hi1 & Hi2 & Hi3) & Hes & Hck).
  unfold move_from_complex_element.
  wp_step. wp_step; [apply element_asserts_ok; try done; by rewrite Hz|].
  wp_step. apply consume_item_ok; [lia..|]. wp_step. apply next_index_ok; [ctx; lia|]. ctx.
  fold (advanced c). pose proof (Base_advanced _ HB ltac:(lia) ltac:(lia)) as HB'.
  unfold at_array_end. case_match eqn:Eend; bool_hyps; unfold advanced in Eend; ctx.
  - wp_step. apply moved_advanced; [|lia].
    apply array_end_moved; try done; unfold advanced; ctx; lia.
  - eapply wp_mono; [by apply start_value_ok|]. intros r Hr. apply moved_advanced; [|lia].
    eapply (value_started_moved _ _ SsValueComplexArrayElement); try done.
    + unfold at_element, advanced. ctx. split_and!; try lia. unfold is_array_field in Ha. congruence.
    + right. split_and!; try done. by rewrite <- Hz.
Qed.

Lemma move_from_array_begin_ok `{Target} c :
  Base c -> SubInv c -> c.(substate) = SsArrayBegin ->
  wp (move_from_array_begin ed c) (moved_to c).
Proof.
  intros HB HS Hss. unfold SubInv in HS. rewrite Hss in HS.
  destruct HS as (Hs & HL & Ha & Hi & Hc & Hes & Hck & Hraw & Hcs & Hfit).
  pose proof (base_bounds _ HB) as Hb. unfold move_from_array_begin.
  wp_step. wp_step; [by rewrite bool_decide_true|]. wp_step. wp_step; [exact Ha|].
  wp_step. wp_step; [bool_solve|]. cbv zeta.
  assert (Hel : c.(stack_top).(array_count) <> 0 -> at_element c.(stack_top) c.(field_type)).
  { unfold at_element, is_array_field in *. intros. split_and!; try lia. congruence. }
  case_match eqn:Ec; bool_hyps.
  { wp_step. apply array_end_moved; try done; [lia|]. intros E.
    rewrite Hes. unfold field_size, struct_type in *. by apply Z.eqb_eq in E as ->. }
  specialize (Hel Ec). destruct (negb (c.(element_size) =? 0)) eqn:Ez; bool_hyps.
  - assert (Hst : struct_type c.(field_type) = false).
    { destruct (struct_type _) eqn:E; [|done]. unfold field_size, struct_type in *.
      apply Z.eqb_eq in E. by rewrite E in Hes. }
    assert (Hnn : 0 <= c.(element_size)).
    { rewrite Hes. unfold field_size, simple_size. by repeat case_match. }
    wp_step. wp_step; [unfold struct_type in Hst; by rewrite Hst|]. wp_step.
    eapply wp_mono; [apply start_value_simple_ok; try done; ctx; try done; try lia|].
    + by eapply Base_ext.
    + intros c' Hm. wp_step. eapply moved_trans; [exact Hm|done|ctx; lia|done].
  - destruct (negb _) eqn:En; bool_hyps.
    + eapply wp_mono; [apply start_value_ok; try done; [by eapply Base_ext|]|].
      * ctx. unfold struct_type. by apply Z.eqb_neq.
      * intros r Hr. eapply (value_started_moved _ _ SsValueComplexArrayElement) in Hr; try done.
        -- by eapply Base_ext.
        -- ctx. unfold struct_type. by apply Z.eqb_neq.
        -- right. split_and!; try done. change (field_size c = 0). by rewrite <- Hes.
    + wp_step. eapply wp_mono; [apply start_struct_ok; try done; by apply Z.eqb_eq|].
      intros c' [Hm _]. by wp_step.
Qed.

Lemma move_from_struct_begin_ok `{Target} c :
  Base c -> SubInv c -> c.(substate) = SsStructBegin ->
  wp (move_from_struct_begin ed c) (moved_to c).
Proof.
  intros HB HS Hss. unfold SubInv in HS. rewrite Hss in HS.
  destruct HS as (Hs & HL & Hst & He & _). pose proof (live_type _ HB HL) as [(_ & Hf & _) _].
  unfold move_from_struct_begin. wp_step. wp_step; [by rewrite bool_decide_true|].
  unfold STRUCT_NEST_LIMIT. case_match eqn:E8; bool_hyps; [wp_step; by apply moved_error|].
  pose proof (base_stack _ HB) as Hlen8. pose proof (base_stack_index _ HB) as Hsi.
  wp_step. apply wp_store; [unfold len; lia|]. cbv zeta. wp_step. ctx. wp_step. ctx.
  eapply wp_mono; [apply next_property_ok|].
  - pose proof (base_next_offset _ HB) as Hno. pose proof (base_field_count _ HB) as Hfc.
    destruct HB. constructor; ctx; try done; try lia; [by rewrite length_insert|].
    intros i e Hi' Hl. destruct (decide (i = Z.to_nat c.(stack_index))) as [->|Hne].
    + rewrite list_lookup_insert_eq in Hl by lia. simplify_eq. split; [by eexists|done].
    + rewrite list_lookup_insert_ne in Hl by done. eapply base_suspended0; [|done]. lia.
  - intros r Hm. eapply moved_trans; [exact Hm|done|ctx; lia|done].
Qed.

Lemma move_from_struct_end_ok `{Target} c :
  Base c -> SubInv c -> c.(substate) = SsStructEnd ->
  wp (move_from_struct_end ed c) (moved_to c).
Proof.
  intros HB HS Hss. unfold SubInv in HS. rewrite Hss in HS.
  destruct HS as (Hs & HL & Hst & (Hidx & Hcnt & Hsc) & (Hdc & Hraw & Hck) & Hez).
  unfold move_from_struct_end. wp_step. wp_step; [by rewrite bool_decide_true|].
  wp_step. wp_step; [exact Hst|]. wp_step. wp_step; [bool_solve|]. wp_step.
  apply next_index_ok; [lia|].
  set (c1 := upd_top _ c). assert (HB1 : Base c1) by by eapply Base_ext.
  assert (Htr : forall r, moved_to c1 r -> moved_to c r).
  { intros r Hm. eapply moved_trans; [exact Hm|done|subst c1; ctx; lia|done]. }
  unfold at_array_end. subst c1. ctx.
  destruct (FieldEncoding_is_array c.(field_type).(ft_encoding)) eqn:Ea.
  - case_match eqn:Eend; bool_hyps.
    + wp_step. wp_step; [done|]. wp_step. wp_step; [bool_solve|]. wp_step.
      eapply wp_mono; [apply start_struct_ok; try done; unfold at_element; ctx|].
      * split_and!; try lia. congruence.
      * intros c' [Hm _]. wp_step. by apply Htr.
    + wp_step. apply Htr, array_end_moved; try done; ctx; lia.
  - destruct (Hsc eq_refl) as [Hi0 Hc1]. rewrite (proj2 (Z.eqb_eq _ _)) by lia.
    cbn [negb].
    eapply wp_mono; [by apply next_property_ok|]. auto.
Qed.

(** ** Skipping the metadata of a struct

    The loop may panic in its 8-bit field counter, so its result is stated with
    [wlp]; the fuel is shown not to matter separately. *)

Definition skipped (c : Ctx) (r : bool * Ctx) : Prop :=
  if r.1 then Base r.2 /\ event_part r.2 = event_part c /\
              r.2.(data_pos_raw) = c.(data_pos_raw) /\
              r.2.(move_next_remaining) = c.(move_next_remaining)
  else moved_to c r.

Lemma skipped_trans c c' r :
  skipped c' r -> event_part c' = event_part c -> c'.(data_pos_raw) = c.(data_pos_raw) ->
  c'.(move_next_remaining) = c.(move_next_remaining) -> skipped c r.
Proof.
  intros Hs HE Hp Hr. unfold skipped in *. destruct r.1.
  - destruct Hs as (? & ? & ? & ?). split_and!; congruence.
  - eapply moved_trans; [exact Hs|done|lia|done].
Qed.

(** Reading the next declaration, from the invariant. *)
Lemma read_declaration_ok c :
  Base c ->
  wp (read_field_name_and_type ed (upd_top (set_name_offset c.(stack_top).(next_offset)) c))
    (fun r => Base r.2 /\ event_part r.2 = event_part c /\
       r.2.(data_pos_raw) = c.(data_pos_raw) /\
       r.2.(move_next_remaining) = c.(move_next_remaining) /\
       r.2.(meta_end) = c.(meta_end) /\
       (r.1.(ft_encoding) <> 0 ->
          c.(stack_top).(next_offset) + 2 <= r.2.(stack_top).(next_offset))).
Proof.
  intros HB. pose proof (base_bounds _ HB). pose proof (base_next_offset _ HB).
  eapply wp_mono; [apply read_field_name_and_type_ok; ctx; lia|].
  intros [ft c'] (nl & q & E & Hq & Hok & Hd). cbn [fst snd] in *. subst c'. ctx.
  split_and!; try done.
  - destruct HB. constructor; ctx; try done; lia.
  - intros Hz. by apply Hd.
Qed.

Lemma Base_next_offset off c :
  Base c -> c.(meta_start) <= off <= c.(meta_end) -> Base (upd_top (set_next_offset off) c).
Proof. intros [] ?. constructor; ctx; try done; lia. Qed.

Lemma wlp_checked w z (Q : Z -> Prop) : Q z -> wlp (checked w z) Q.
Proof. intros. unfold checked. by case_match. Qed.

Lemma skip_struct_loop_ok fuel remaining c :
  Base c -> wlp (skip_struct_loop ed fuel remaining c) (skipped c).
Proof.
  revert remaining c. induction fuel as [|fuel IH]; intros remaining c HB; [done|].
  cbn [skip_struct_loop]. case_match; [by split_and!|]. cbv zeta.
  apply wlp_wp_bind. eapply wp_mono; [by apply read_declaration_ok|].
  intros [typ c1] (HB1 & HE & Hp & Hr & Hme & Hgrow). cbn [fst snd] in *.
  assert (Herr : forall c' e, Base c' -> event_part c' = event_part c ->
     c'.(data_pos_raw) = c.(data_pos_raw) ->
     c'.(move_next_remaining) = c.(move_next_remaining) -> skipped c (set_error_state e c')).
  { intros. apply moved_error; done || lia. }
  case_match eqn:Ez; [by apply Herr|]. apply wlp_bind.
  assert (Hcont : forall n, wlp (n ← u8 (n - 1); skip_struct_loop ed fuel n c1) (skipped c)).
  { intros. apply wlp_bind, wlp_checked. eapply wlp_mono; [by apply IH|].
    intros r Hsk. by eapply skipped_trans. }
  eapply (wlp_mono _ (fun _ => True)); [by destruct (if _ : bool then _ else _)|].
  intros n _. case_match; [apply Hcont|]. case_match; [|by apply Herr].
  pose proof (base_bounds _ HB1). pose proof (base_next_offset _ HB1).
  apply wlp_wp_bind. unfold remaining_meta. wp_step. case_match; bool_hyps; [by apply Herr|].
  apply wlp_wp_bind. wp_step. apply wlp_bind, wlp_checked.
  eapply wlp_mono; [apply IH, Base_next_offset; [done|lia]|].
  intros r Hsk. by eapply skipped_trans.
Qed.

(** More iterations than metadata bytes: the fuel of [skip_struct_metadata] is
    enough, since no larger amount gives another result. *)
Lemma skip_struct_fuel fuel1 fuel2 remaining c :
  Base c -> c.(meta_end) - c.(stack_top).(next_offset) < Z.of_nat fuel1 ->
  c.(meta_end) - c.(stack_top).(next_offset) < Z.of_nat fuel2 ->
  skip_struct_loop ed fuel1 remaining c = skip_struct_loop ed fuel2 remaining c.
Proof.
  revert fuel2 remaining c.
  induction fuel1 as [|fuel1 IH]; intros fuel2 remaining c HB H1 H2;
    pose proof (base_next_offset _ HB); [lia|].
  destruct fuel2 as [|fuel2]; [lia|]. cbn [skip_struct_loop].
  case_match; [done|]. cbv zeta.
  destruct (wp_inv _ _ (read_declaration_ok _ HB)) as ([typ c1] & E & HB1 & HE & _ & _ & Hme & Hgrow).
  rewrite E. cbn [mbind outcome_bind fst snd] in *.
  case_match eqn:Ez; [done|]. unfold READ_FIELD_ERROR, FieldEncoding_Invalid in Ez. bool_hyps.
  specialize (Hgrow Ez). pose proof (base_next_offset _ HB1).
  destruct (if _ : bool then checked 8 _ else _) as [n|]; [|done]. cbn [mbind outcome_bind].
  case_match.
  - destruct (checked 8 (n - 1)); [|done]. cbn [mbind outcome_bind]. apply IH; done || lia.
  - case_match; [|done]. unfold remaining_meta. pose proof (base_bounds _ HB1).
    rewrite (checked_ok 32 (_ - _)) by lia. cbn [mbind outcome_bind].
    case_match; [done|]. bool_hyps.
    rewrite (checked_ok 32 (_ + 2)) by lia. cbn [mbind outcome_bind].
    destruct (checked 8 (n - 1)); [|done]. cbn [mbind outcome_bind].
    apply IH; [apply Base_next_offset; [done|lia]|ctx; lia..].
Qed.

(** The position where [move_next] calls [skip_struct_metadata]. *)
Definition skips_struct (c : Ctx) : bool :=
  bool_decide (c.(substate) = SsArrayEnd) && struct_type c.(field_type)
  && (c.(stack_top).(array_count) =? 0).

Lemma move_from_array_end_ok `{Target} c :
  Base c -> SubInv c -> c.(substate) = SsArrayEnd ->
  wlp (move_from_array_end ed c) (moved_to c) /\
  (skips_struct c = false -> wp (move_from_array_end ed c) (moved_to c)).
Proof.
  intros HB HS Hss. unfold SubInv in HS. rewrite Hss in HS.
  destruct HS as (Hs & HL & Ha & _ & Hi & _).
  unfold move_from_array_end, skips_struct, at_array_end.
  rewrite !bool_decide_true by done. unfold is_array_field in Ha. rewrite Ha, Hi, Z.eqb_refl.
  cbn [rassert mbind outcome_bind andb]. fold (struct_type c.(field_type)).
  destruct (struct_type _ && _) eqn:Esk.
  - split; [|done]. apply wlp_bind. unfold skip_struct_metadata. apply wlp_bind.
    apply andb_prop in Esk as [Est _]. unfold struct_type in Est. rewrite Est. cbn [rassert wlp].
    eapply wlp_mono; [by apply skip_struct_loop_ok|]. intros [[] c1] Hsk; [|exact Hsk].
    destruct Hsk as (HB1 & HE & Hp & Hr). cbn [snd] in *.
    apply wlp_of_wp. eapply wp_mono; [by apply next_property_ok|].
    intros r Hm. by eapply moved_trans; [|done|lia|].
  - split; [apply wlp_of_wp|intros _]; by apply next_property_ok.
Qed.

(** ** move_next *)

Lemma Inv_remaining n c :
  Inv c -> 0 <= n <= c.(move_next_remaining) -> Inv (set_move_next_remaining n c).
Proof.
  intros [HB HS] Hn. split; [|exact HS]. destruct HB. constructor; ctx; done || lia.
Qed.

Lemma move_next_exhausted `{Target} c :
  can_move_next c.(state) = true -> c.(move_next_remaining) = 0 ->
  move_next_impl ed c = Ret (set_error_state ErImplementationLimit c).
Proof. intros Hs Hr. unfold move_next_impl. by rewrite Hs, Hr. Qed.

Lemma move_next_ok `{Target} c :
  Inv c -> can_move_next c.(state) = true -> c.(substate) <> SsValueMetadata ->
  c.(move_next_remaining) <> 0 ->
  let c1 := set_move_next_remaining (c.(move_next_remaining) - 1) c in
  wlp (move_next_impl ed c) (moved_to c1) /\
  (skips_struct c = false -> wp (move_next_impl ed c) (moved_to c1)).
Proof.
  intros HI Hs Hm Hr c1. assert (HI1 : Inv c1).
  { apply Inv_remaining; [done|]. pose proof (base_remaining _ (proj1 HI)). lia. }
  destruct HI1 as [HB1 HS1]. pose proof (base_remaining _ (proj1 HI)).
  unfold move_next_impl. rewrite Hs, (proj2 (Z.eqb_neq _ _) Hr). cbn [rassert mbind outcome_bind].
  rewrite (checked_ok 32 (_ - 1)) by lia. cbn [mbind outcome_bind]. fold c1. cbv zeta.
  assert (Hwp : forall m, wp m (moved_to c1) ->
    wlp m (moved_to c1) /\ (skips_struct c = false -> wp m (moved_to c1))).
  { intros m W. split; [by apply wlp_of_wp|done]. }
  pose proof HS1 as HS. unfold SubInv in HS. change (substate c1) with (substate c) in *.
  destruct (substate c) eqn:Ess; try done.
  all: change (state c1) with (state c) in *.
  all: try (exfalso; destruct HI as [_ HSc]; unfold SubInv in HSc; rewrite Ess in HSc;
            rewrite HSc in Hs; discriminate Hs).
  - apply Hwp. by apply move_from_before_first_ok.
  - apply Hwp. destruct HS; by apply move_from_value_scalar_ok.
  - apply Hwp. by apply move_from_simple_element_ok.
  - apply Hwp. by apply move_from_complex_element_ok.
  - apply Hwp. by apply move_from_array_begin_ok.
  - by apply (move_from_array_end_ok c1).
  - apply Hwp. by apply move_from_struct_begin_ok.
  - apply Hwp. by apply move_from_struct_end_ok.
Qed.

(** ** move_next_metadata *)

Definition metadata_post (c : Ctx) (r : bool * Ctx) : Prop :=
  Inv r.2 /\ event_part r.2 = event_part c /\
  (if r.1 then r.2.(substate) = SsValueMetadata /\
      (c.(substate) = SsValueMetadata \/ c.(substate) = SsBeforeFirstItem) /\
      c.(stack_top).(next_offset) < r.2.(stack_top).(next_offset)
   else r.2.(state) = StError \/
        r.2.(state) = StAfterLastItem /\ r.2.(stack_top).(next_offset) = r.2.(meta_end)).

Lemma metadata_error c c' e :
  Base c' -> event_part c' = event_part c -> metadata_post c (set_error_state e c').
Proof.
  intros HB HE. unfold metadata_post. ctx. split_and!; try done; [|by left].
  split; [by eapply Base_ext|done].
Qed.

(** The context in which a metadata step reads the next declaration. *)
Definition metadata_entered (c c1 : Ctx) : Prop :=
  Base c1 /\ base_part c1 = base_part c /\ c1.(substate) = SsValueMetadata /\
  (c1.(state) = StValue \/ c1.(state) = StArrayBegin) /\
  c1.(stack_top).(array_index) = 0 /\ c1.(data_pos_cooked) = len ed /\
  c1.(item_size_cooked) = 0 /\ c1.(element_size) = 0.

Lemma metadata_enter_ok c :
  Inv c -> c.(substate) = SsValueMetadata \/ c.(substate) = SsBeforeFirstItem ->
  wp (metadata_enter ed c) (metadata_entered c).
Proof.
  intros [HB HS] Hss. pose proof (base_bounds _ HB). unfold metadata_enter.
  unfold SubInv in HS. destruct Hss as [Hss|Hss]; rewrite Hss in HS.
  - destruct HS as (Hst & _ & _ & ? & ? & ? & ? & _). rewrite bool_decide_true by done.
    wp_step. split_and!; try done. destruct (is_array_field c); [by right|left; tauto].
  - rewrite bool_decide_false by congruence.
    do 2 (wp_step; wp_step; [by rewrite bool_decide_true|]). wp_step.
    split_and!; try done; [by eapply Base_ext|by left|ctx; apply as_unsigned_id; lia].
Qed.

(** A declaration reported as an item. *)
Lemma metadata_item_ok c st :
  Base c -> live c -> c.(stack_top).(array_index) = 0 -> c.(data_pos_cooked) = len ed ->
  c.(item_size_cooked) = 0 -> c.(element_size) = 0 ->
  0 <= c.(stack_top).(array_count) <= 65535 ->
  (is_array_field c = false -> c.(stack_top).(array_count) = 1) ->
  (struct_type c.(field_type) = true -> c.(field_type).(ft_format) <> 0) ->
  st = (if is_array_field c then StArrayBegin else StValue) ->
  Inv (set_state st SsValueMetadata c).
Proof.
  intros HB HL Hi Hd Hz He Hn Ha Hf ->. split; [by eapply Base_ext|].
  unfold SubInv. ctx. split_and!; try done; try lia.
  unfold is_array_field in *. ctx. destruct (FieldEncoding_is_array _); [done|]. split; [done|auto].
Qed.

(** What [metadata_property] needs of the context it is called in. *)
Definition metadata_read (c : Ctx) : Prop :=
  Base c /\ c.(stack_top).(array_index) = 0 /\ c.(data_pos_cooked) = len ed /\
  c.(item_size_cooked) = 0 /\ c.(element_size) = 0 /\
  (c.(field_type).(ft_encoding) <> 0 -> live c).

Definition metadata_found (c : Ctx) (r : bool * Ctx) : Prop :=
  Inv r.2 /\ event_part r.2 = event_part c /\
  (if r.1 then r.2.(substate) = SsValueMetadata /\ c.(field_type).(ft_encoding) <> 0 /\
      c.(stack_top).(next_offset) <= r.2.(stack_top).(next_offset)
   else r.2.(state) = StError).

Lemma metadata_property_ok c :
  metadata_read c -> wp (metadata_property ed c) (metadata_found c).
Proof.
  intros (HB & Hi & Hd & Hz & He & HL).
  pose proof (base_bounds _ HB) as Hb. pose proof (base_next_offset _ HB) as Hn.
  assert (Herr : forall c' e, Base c' -> event_part c' = event_part c ->
     metadata_found c (set_error_state e c')).
  { intros. split_and!; try done. split; [by eapply Base_ext|done]. }
  unfold metadata_property. cbv zeta.
  case_match eqn:Ez; [wp_step; by apply Herr|].
  unfold READ_FIELD_ERROR, FieldEncoding_Invalid in Ez. bool_hyps. specialize (HL Ez).
  case_match eqn:Es; [wp_step; by apply Herr|].
  assert (Hf : struct_type c.(field_type) = true -> c.(field_type).(ft_format) <> 0).
  { unfold struct_type. rewrite Z.eqb_sym. intros E. rewrite E in Es. cbn [andb] in Es. by bool_hyps. }
  assert (Hitem : forall c' st, Base c' -> live c' -> event_part c' = event_part c ->
     c'.(stack_top).(array_index) = 0 -> c'.(data_pos_cooked) = len ed ->
     c'.(item_size_cooked) = 0 -> c'.(element_size) = 0 -> c'.(field_type) = c.(field_type) ->
     0 <= c'.(stack_top).(array_count) <= 65535 ->
     (is_array_field c = false -> c'.(stack_top).(array_count) = 1) ->
     st = (if is_array_field c then StArrayBegin else StValue) ->
     c.(stack_top).(next_offset) <= c'.(stack_top).(next_offset) ->
     metadata_found c (true, set_state st SsValueMetadata c')).
  { intros c' st HB' HL' HE' ? ? ? ? Hft ? ? ? ?. split_and!; try done.
    apply metadata_item_ok; try done; unfold is_array_field in *; by rewrite Hft. }
  unfold is_array_field in Hitem.
  destruct (negb _) eqn:Ea; bool_hyps; rewrite Ea in Hitem.
  { wp_step. apply Hitem; try done. by eapply Base_ext. }
  case_match; [wp_step; apply Hitem; try done; try (ctx; lia); by eapply Base_ext|].
  case_match; [|wp_step; by apply Herr].
  wp_step. unfold remaining_meta. wp_step. case_match; bool_hyps; [wp_step; by apply Herr|].
  wp_step. apply read_u16_at_ok; [lia..|]. intros n Hnn. wp_step. ctx. wp_step.
  set (c1 := upd_top (set_next_offset _) _).
  assert (HB1 : Base c1) by (subst c1; destruct HB; constructor; ctx; try done; lia).
  case_match; wp_step; [by apply Herr|]. apply Hitem; try done; subst c1; ctx; lia.
Qed.

Lemma move_next_metadata_ok c :
  Inv c -> c.(substate) = SsValueMetadata \/ c.(substate) = SsBeforeFirstItem ->
  wp (move_next_metadata_impl ed c) (metadata_post c).
Proof.
  intros HI Hss. unfold move_next_metadata_impl. wp_step.
  eapply wp_mono; [by apply metadata_enter_ok|].
  intros c0 (HB & HP & Hs0 & Hst & Hi & Hd & Hz & He).
  assert (HE : event_part c0 = event_part c) by (unfold base_part in HP; congruence).
  assert (Ho : c0.(stack_top).(next_offset) = c.(stack_top).(next_offset))
    by (unfold base_part in HP; congruence).
  wp_step. wp_step; [apply orb_true_iff; rewrite !bool_decide_eq_true; tauto|].
  destruct (negb _) eqn:En; bool_hyps; [|wp_step].
  2: { unfold metadata_post. ctx. split_and!; try done; [|by right].
       split; [by eapply Base_ext|done]. }
  cbv zeta. wp_step. pose proof (base_bounds _ HB). pose proof (base_next_offset _ HB).
  eapply wp_mono; [apply read_field_name_and_type_ok; ctx; lia|].
  intros [ft c1] (nl & q & Ec & Hq & Hok & Hdl). cbn [fst snd] in *.
  eapply wp_mono; [apply metadata_property_ok|].
  - subst c1. split_and!; try done.
    + destruct HB; constructor; ctx; try done; lia.
    + ctx. intros Hnz. by apply Hdl.
  - intros [b c2] (HI2 & HE2 & Hr). unfold metadata_post. cbn [fst snd] in *.
    split_and!; [done|rewrite HE2; subst c1; exact HE|]. destruct b; [|by left].
    destruct Hr as (Hr1 & Hr2 & Hr3). subst c1. ctx. split_and!; [done|tauto|].
    destruct (Hdl Hr2) as [Hq2 _]. lia.
Qed.
End Event.
