(* ===== verification/EnumeratorSpec.v ===== *)
(** * EnumeratorSpec: beginning an enumeration, items, siblings, whole traversals

    Uses the invariant of EnumeratorInv.  [enumerate_with_name_and_data] never
    panics and establishes the invariant; items and event properties are read in
    bounds; sibling moves terminate and keep the invariant; the fast path over
    simple arrays agrees with element-by-element moves. *)

From S2P Require Import Prelude Types ByteReader PerfItem Enumerator EnumeratorInv.

(** ** The tracepoint name *)

Section Name.
Context (name : bytes) (Hbytes : bytes_ok name).

Lemma lowercase_hex_loop_ok n val pos :
  0 <= pos -> pos + Z.of_nat n <= len name -> 0 <= val < 2 ^ 64 ->
  wp (lowercase_hex_loop name n val pos) (fun r =>
    0 <= r.1 < 2 ^ 64 /\ pos <= r.2 <= pos + Z.of_nat n).
Proof using Hbytes.
  revert val pos. induction n as [|n IH]; intros val pos Hp Hn Hv; cbn [lowercase_hex_loop].
  - wp_step. ctx. lia.
  - rewrite index_byte_at by lia. cbn [mbind outcome_bind].
    assert (Hstep : forall nib, 0 <= nib < 16 ->
      wp (lowercase_hex_loop name n (as_unsigned 64 (Z.shiftl val 4) + nib) (pos + 1))
        (fun r => 0 <= r.1 < 2 ^ 64 /\ pos <= r.2 <= pos + Z.of_nat (S n))).
    { intros nib Hnib. eapply wp_mono; [apply IH; [lia|lia|]|].
      - unfold as_unsigned. rewrite Z.shiftl_mul_pow2 by lia.
        replace (2 ^ 64) with (2 ^ 60 * 2 ^ 4) by lia.
        rewrite Z.mul_mod_distr_r by lia. pose proof (Z.mod_pos_bound val (2 ^ 60) ltac:(lia)). lia.
      - intros r Hr. cbn beta in *. lia. }
    unfold is_ascii_digit. case_match; [apply Hstep; bool_hyps; lia|].
    case_match; [apply Hstep; bool_hyps; lia|]. wp_step. ctx. lia.
Qed.

Lemma lowercase_hex_to_int_ok pos :
  0 <= pos <= len name ->
  wp (lowercase_hex_to_int name pos) (fun r => 0 <= r.1 < 2 ^ 64 /\ pos <= r.2 <= len name).
Proof using Hbytes.
  intros. eapply wp_mono; [apply lowercase_hex_loop_ok; lia|]. intros r Hr. cbn beta in *. lia.
Qed.

Lemma find_underscore_ok pos :
  Z.of_nat pos <= len name ->
  wp (find_underscore name pos) (fun r =>
    match r with Some p => 0 < p <= Z.of_nat pos | None => True end).
Proof.
  induction pos as [|p IH]; intros Hp; cbn [find_underscore]; [by wp_step|].
  rewrite index_byte_at by lia. cbn [mbind outcome_bind]. case_match; [wp_step; lia|].
  eapply wp_mono; [apply IH; lia|]. intros [q|] Hq; [lia|done].
Qed.

Lemma skip_attrib_value_ok n pos :
  0 <= pos -> pos + Z.of_nat n <= len name ->
  wp (skip_attrib_value name n pos) (fun r => pos <= r <= pos + Z.of_nat n).
Proof.
  revert pos. induction n as [|n IH]; intros pos Hp Hn; cbn [skip_attrib_value]; [wp_step; lia|].
  rewrite index_byte_at by lia. cbn [mbind outcome_bind]. case_match; [wp_step; lia|].
  eapply wp_mono; [apply IH; lia|]. intros r Hr. cbn beta in *. lia.
Qed.

Lemma validate_attribs_ok fuel pos :
  0 <= pos <= len name -> len name - pos < Z.of_nat fuel ->
  wp (validate_attribs name fuel pos) (fun _ => True).
Proof.
  revert pos. induction fuel as [|fuel IH]; intros pos Hp Hf; cbn [validate_attribs]; [lia|].
  case_match; bool_hyps; [|by wp_step].
  rewrite index_byte_at by lia. cbn [mbind outcome_bind]. case_match; [by wp_step|].
  wp_step. eapply wp_mono; [apply skip_attrib_value_ok; lia|]. intros r Hr. cbn beta in Hr. apply IH; lia.
Qed.

(** The name only sets the keyword. *)
Lemma parse_tracepoint_name_ok c :
  wp (parse_tracepoint_name name c) (fun r =>
    (r.1 = Ok tt \/ r.1 = Err ErNotSupported) /\ exists k, r.2 = set_keyword k c).
Proof using Hbytes.
  assert (Hself : c = set_keyword c.(keyword) c) by by destruct c.
  unfold parse_tracepoint_name.
  wp_step. eapply wp_mono; [apply find_underscore_ok; unfold len; lia|].
  assert (Hno : forall k, wp (Ret (@Err unit _ ErNotSupported, set_keyword k c)) (fun r =>
    (r.1 = Ok tt \/ r.1 = Err ErNotSupported) /\ exists k, r.2 = set_keyword k c)).
  { intros k. wp_step. split; [by right|by exists k]. }
  pose proof (Hno c.(keyword)) as Hno1. rewrite <- Hself in Hno1.
  intros [pos|] Hpos; [|exact Hno1].
  assert (Hat : forall pos v, 0 <= pos ->
    wp (if len name <=? pos then Ret false else b ← index name pos; Ret (b =? v))
      (fun b => b = true -> pos < len name)).
  { intros p v Hp. case_match eqn:E; bool_hyps; [by wp_step|].
    rewrite index_byte_at by lia. cbn [mbind outcome_bind]. by wp_step. }
  wp_step. eapply wp_mono; [apply Hat; lia|]. intros [] Hl; cbn [negb]; [|exact Hno1].
  specialize (Hl eq_refl). wp_step. eapply wp_mono; [apply lowercase_hex_to_int_ok; lia|].
  intros [level p] [_ Hp]. cbn [snd] in Hp. case_match; [exact Hno1|].
  wp_step. eapply (wp_mono _ (fun b => b = true -> p < len name)).
  { case_match eqn:E; bool_hyps; [by wp_step|].
    rewrite index_byte_at by lia. cbn [mbind outcome_bind]. by wp_step. }
  intros [] Hk; cbn [negb]; [|exact Hno1]. specialize (Hk eq_refl).
  wp_step. eapply wp_mono; [apply lowercase_hex_to_int_ok; lia|].
  intros [k q] [_ Hq]. cbn [snd] in Hq. cbv zeta.
  wp_step. eapply wp_mono; [apply validate_attribs_ok; lia|]. intros [] _; [|apply Hno].
  wp_step. split; [by left|by exists k].
Qed.
End Name.

(** ** The event header and its extensions *)

Section Enumerate.
Context (ed : bytes) (Hbytes : bytes_ok ed).

Lemma read_event_header_ok c :
  8 <= len ed ->
  wp (read_event_header ed c) (fun c' => exists br h, c' = set_header h (set_byte_reader br c)).
Proof using Hbytes.
  intros Hl. unfold read_event_header.
  assert (Hi : forall i, 0 <= i < 8 -> index ed i = Ret (byte_at ed i))
    by (intros; apply index_byte_at; lia).
  assert (Hr : forall i br (Q : Z -> Prop), 0 <= i <= 4 -> (forall v, Q v) ->
     wp (src ← slice_from ed i; read_u16 br src) Q).
  { intros. wp_step. wp_step. apply wp_read_u16; [by apply bytes_ok_sub|rewrite len_sub; lia|auto]. }
  rewrite !Hi by lia. cbn [mbind outcome_bind]. cbv zeta.
  unfold slice_from. rewrite !slice_ok by lia. cbn [mbind outcome_bind].
  assert (Hr' : forall i br, 0 <= i <= 4 -> exists v, read_u16 br (sub ed i (len ed)) = Ret v).
  { intros i br Hi'. destruct (wp_inv _ _ (Hr i br (fun _ => True) Hi' ltac:(done))) as (v & E & _).
    unfold slice_from in E. rewrite slice_ok in E by lia. by exists v. }
  edestruct (Hr' 2) as [v2 ->]; [lia|]. cbn [mbind outcome_bind].
  edestruct (Hr' 4) as [v4 ->]; [lia|]. cbn [mbind outcome_bind].
  wp_step. eexists _, _. reflexivity.
Qed.

(** The extension fields of the context, before [pos]. *)
Record ExtInv (pos : Z) (c : Ctx) : Prop := {
  ext_meta : c.(meta_start) = 0 /\ c.(meta_end) = 0 \/
             8 <= c.(meta_start) <= c.(meta_end) /\ c.(meta_end) <= pos /\
             c.(meta_end) - c.(meta_start) <= 65535;
  ext_activity : c.(activity_id_start) = 0 /\ c.(activity_id_len) = 0 \/
             8 <= c.(activity_id_start) /\
             (c.(activity_id_len) = 16 \/ c.(activity_id_len) = 32) /\
             c.(activity_id_start) + c.(activity_id_len) <= pos;
  ext_stack : length c.(stack) = 8%nat;
}.

Lemma ExtInv_mono p q c : p <= q -> ExtInv p c -> ExtInv q c.
Proof. intros Hpq [[?|?] [?|?] ?]; constructor; try done; try (by left); right; lia. Qed.

Lemma read_extension_ok pos c :
  8 <= pos <= len ed -> len ed < 2 ^ 31 -> ExtInv pos c ->
  wp (read_extension ed pos c) (fun r =>
    length r.2.(stack) = 8%nat /\
    match r.1 with
    | Ok (pos', _) => pos + 4 <= pos' <= len ed /\ ExtInv pos' r.2
    | Err e => e = ErInvalidData
    end).
Proof using Hbytes.
  intros Hp Hlen HX. pose proof (ext_stack _ _ HX) as Hst. unfold read_extension.
  wp_step. wp_step. case_match; bool_hyps; [by wp_step|].
  wp_step. apply read_u16_at_ok; [done|lia..|]. intros size Hsize. cbv zeta.
  wp_step. apply read_u16_at_ok; [done|lia..|]. intros kind Hkind.
  wp_step. wp_step. case_match; bool_hyps; [by wp_step|].
  assert (HX' : ExtInv (pos + 2 + 2 + size) c) by (eapply ExtInv_mono; [|exact HX]; lia).
  case_match; [by wp_step|]. case_match; [|case_match].
  - case_match; bool_hyps; [by wp_step|]. wp_step. rewrite as_unsigned_id by lia.
    ctx. wp_step. wp_step. ctx. split; [done|]. split; [lia|].
    destruct HX'. constructor; ctx; try done. right. lia.
  - case_match eqn:E; [by wp_step|]. apply orb_false_elim in E as [Ea Es]. bool_hyps.
    assert (Hs : size = 16 \/ size = 32).
    { destruct (Z.eqb_spec size 16); [by left|]. destruct (Z.eqb_spec size 32); [by right|done]. }
    wp_step. ctx. rewrite !as_unsigned_id by lia. split; [done|]. split; [lia|].
    destruct HX'. constructor; ctx; try done. right. lia.
  - wp_step. ctx. split; [done|]. split; [lia|done].
Qed.

Lemma read_extensions_ok fuel pos c :
  8 <= pos <= len ed -> len ed < 2 ^ 31 -> len ed - pos < Z.of_nat fuel -> ExtInv pos c ->
  wp (read_extensions ed fuel pos c) (fun r =>
    length r.2.(stack) = 8%nat /\
    match r.1 with
    | Ok pos' => pos <= pos' <= len ed /\ ExtInv pos' r.2
    | Err e => e = ErInvalidData
    end).
Proof using Hbytes.
  revert pos c. induction fuel as [|fuel IH]; intros pos c Hp Hl Hf HX; cbn [read_extensions]; [lia|].
  wp_step. eapply wp_mono; [by apply read_extension_ok|].
  intros [[[pos' kind]|e] c'] [Hs Hr]; cbn [fst snd] in *.
  - destruct Hr as [Hr HX']. case_match; [wp_step; ctx; split_and!; done || lia|].
    eapply wp_mono; [apply IH; done || lia|]. intros [[p|e] c2] [Hs2 Hr2]; cbn [fst snd] in *.
    + destruct Hr2. split_and!; done || lia.
    + done.
  - by wp_step.
Qed.

(** What a successful start establishes. *)
Definition started (limit : Z) (c : Ctx) : Prop :=
  Inv ed c /\ c.(substate) = SsBeforeFirstItem /\ c.(move_next_remaining) = limit /\
  c.(data_pos_raw) = c.(data_start) /\ c.(stack_index) = 0 /\ c.(last_error) = ErSuccess /\
  (c.(activity_id_start) = 0 /\ c.(activity_id_len) = 0 \/
   8 <= c.(activity_id_start) /\ (c.(activity_id_len) = 16 \/ c.(activity_id_len) = 32) /\
   c.(activity_id_start) + c.(activity_id_len) <= len ed) /\
  byte_at ed (c.(meta_start) + c.(event_name_len)) = 0.

Lemma finish_enumerate_ok pos limit c :
  8 <= pos <= len ed -> len ed < 2 ^ 31 -> 0 <= limit < 2 ^ 32 -> ExtInv pos c ->
  wp (finish_enumerate ed pos limit c) (fun r =>
    length r.2.(stack) = 8%nat /\
    match r.1 with
    | Ok _ => started limit r.2
    | Err e => e = ErNotSupported \/ e = ErInvalidData
    end).
Proof using Hbytes.
  intros Hp Hl Hlim [Hm Ha Hst]. unfold finish_enumerate.
  case_match eqn:E0; bool_hyps; [wp_step; split; [done|by left]|].
  destruct Hm as [[? _]|Hm]; [done|].
  wp_step. eapply wp_mono; [apply scan_nul_ok; lia|]. intros e [He Hz]. cbn beta in *.
  case_match eqn:E1; bool_hyps; [wp_step; split; [done|by right]|].
  specialize (Hz ltac:(lia)).
  wp_step. wp_step. cbv zeta. rewrite (as_unsigned_id 16), (as_unsigned_id 32) by lia.
  wp_step. unfold reset_impl. ctx. wp_step. wp_step. wp_step. wp_step. wp_step. wp_step.
  unfold started. ctx. split; [done|].
  replace (c.(meta_start) + (e - c.(meta_start))) with e by lia.
  split_and!; try done; [|destruct Ha as [Ha|Ha]; [by left|right; lia]].
  split; [|done]. constructor; ctx; try done; try lia.
Qed.

Lemma enumerate_ok name limit c :
  bytes_ok name -> 0 <= limit < 2 ^ 32 -> length c.(stack) = 8%nat ->
  wp (enumerate_with_name_and_data name ed limit c) (fun r =>
    length r.2.(stack) = 8%nat /\
    match r.1 with
    | Ok _ => started limit r.2 /\ 8 <= len ed < 2 ^ 31 /\ len name < 256
    | Err e => e = ErInvalidParameter \/ e = ErNotSupported \/ e = ErInvalidData
    end).
Proof using Hbytes.
  intros Hn Hlim Hst. unfold enumerate_with_name_and_data.
  case_match eqn:Ep; [wp_step; ctx; split; [done|by left]|].
  unfold EVENT_HEADER_TRACEPOINT_NAME_MAX in Ep. bool_hyps.
  wp_step. eapply wp_mono; [apply read_event_header_ok; lia|]. intros c1 (br & h & ->).
  case_match; [wp_step; ctx; tauto|].
  wp_step. eapply wp_mono; [by apply parse_tracepoint_name_ok|].
  intros [rn c2] (Hr & k & E). cbn [fst snd] in *. subst c2.
  destruct Hr as [->| ->]; [|wp_step; ctx; tauto]. cbv zeta. ctx.
  wp_step. eapply (wp_mono _ (fun r => length r.2.(stack) = 8%nat /\
    match r.1 with
    | Ok pos' => 8 <= pos' <= len ed /\ ExtInv pos' r.2
    | Err e => e = ErInvalidData
    end)).
  { case_match.
    - apply read_extensions_ok; [lia|lia|lia|]. constructor; ctx; [by left|by left|done].
    - wp_step. ctx. split; [done|]. split; [lia|]. constructor; ctx; [by left|by left|done]. }
  intros [[pos|e] c3] [Hs3 H3]; cbn [fst snd] in *; [|wp_step; ctx; tauto].
  destruct H3 as [Hpos HX].
  eapply wp_mono; [apply finish_enumerate_ok; done || lia|].
  intros [[[]|e] c4] [Hs4 H4]; cbn [fst snd] in *; (split; [done|]); [|tauto].
  split_and!; [done|lia..].
Qed.
End Enumerate.

(** ** Items *)

(** The declarations for which [PerfItemMetadata::new] does not assert: not both
    array flags, and a struct has at least one field. *)
Definition well_declared (ft : FieldType) : Prop :=
  FieldEncoding_array_flags ft.(ft_encoding) <> FieldEncoding_ArrayFlagMask /\
  (struct_type ft = true -> ft.(ft_format) <> 0).

Definition low_half (b : Z) : bool :=
  (128 <=? b) || negb (FieldEncoding_has_chain_flag b) && negb (FieldFormat_has_chain_flag b).

Lemma low_half_no_chain b :
  0 <= b < 128 ->
  FieldEncoding_has_chain_flag b = false /\ FieldFormat_has_chain_flag b = false.
Proof.
  intros Hb. assert (E : low_half b = true).
  { apply u8_exhaustive; [by vm_compute|]. unfold is_u8. lia. }
  unfold low_half in E. rewrite (proj2 (Z.leb_gt 128 b)) in E by lia. cbn [orb] in E. by bool_hyps.
Qed.

(** The state is one of the scalar states. *)
Definition scalar_state (s : EventHeaderEnumeratorState) : bool :=
  (state_code s <? state_code StArrayBegin) || (state_code StArrayEnd <? state_code s).

(** The number of elements the metadata of the current item reports. *)
Definition reported_count (c : Ctx) : Z :=
  if scalar_state c.(state) then 1 else c.(stack_top).(array_count).

Section Items.
Context (ed : bytes) (Hbytes : bytes_ok ed) (Hlen : len ed < 2 ^ 31).

(** Facts about the current item that hold in every item state. *)
Lemma item_facts c :
  Inv ed c -> can_item_info c.(state) = true ->
  live ed c /\ 0 <= c.(data_pos_cooked) /\ 0 <= c.(item_size_cooked) /\
  c.(data_pos_cooked) + c.(item_size_cooked) <= len ed /\
  (scalar_state c.(state) = false -> is_array_field c = true) /\
  (c.(element_size) <> 0 -> c.(item_size_cooked) <> 0 ->
   c.(item_size_cooked) = c.(element_size) * reported_count c) /\
  (struct_type c.(field_type) = true -> c.(element_size) = 0 /\ c.(item_size_cooked) = 0).
Proof.
  intros [HB HS] Hc. pose proof (base_bounds _ _ HB) as Hb.
  assert (Hfs : struct_type c.(field_type) = true -> field_size c = 0).
  { unfold struct_type, field_size. by intros ->%Z.eqb_eq. }
  assert (Hpos : 0 <= field_size c) by (unfold field_size, simple_size; by repeat case_match).
  unfold SubInv, at_value, item_in_data, empty_item, reported_count in *.
  destruct (substate c); try (rewrite HS in Hc; discriminate Hc);
    repeat match goal with H : _ /\ _ |- _ => destruct H end;
    try match goal with
        | H : if is_array_field c then _ else _ |- _ => destruct (is_array_field c) eqn:?
        end;
    repeat match goal with H : _ /\ _ |- _ => destruct H end;
    repeat match goal with H : state c = _ |- _ => rewrite H in *; clear H end;
    cbn [scalar_state state_code Z.ltb Z.compare Pos.compare Pos.compare_cont orb] in *;
    split_and!; try done; try lia; intros; try split; try lia; try congruence;
    try (rewrite Hfs in * by done);
    try match goal with H : _ <> 0 -> item_size_cooked c = _ |- _ => rewrite H by done end; first [nia | auto].
Qed.

Lemma item_metadata_ok c :
  Inv ed c -> can_item_info c.(state) = true -> well_declared c.(field_type) ->
  wp (item_metadata_impl c) (fun m =>
    md_encoding m = FieldEncoding_without_flags c.(field_type).(ft_encoding) /\
    md_array_flag m = FieldEncoding_array_flags c.(field_type).(ft_encoding) /\
    md_is_scalar m = scalar_state c.(state) /\ element_count m = reported_count c /\
    type_size m = c.(element_size) /\ format m = c.(field_type).(ft_format) /\
    field_tag m = c.(field_type).(ft_tag) /\ md_byte_reader m = c.(byte_reader)).
Proof using Hbytes.
  intros HI Hc [Hflags Hfmt].
  destruct (item_facts c HI Hc) as (HL & _ & _ & _ & Harr & _ & Hst).
  destruct (live_type _ Hbytes _ (proj1 HI) HL) as [(He & Hf & _) _].
  destruct (low_half_no_chain _ He) as [Hce _]. destruct (low_half_no_chain _ Hf) as [_ Hcf].
  unfold item_metadata_impl. wp_step. wp_step; [done|]. fold (scalar_state c.(state)).
  fold (reported_count c). cbv zeta.
  destruct (PerfItemMetadata_new _ _ _ _ _ _ _) as [m|] eqn:E.
  - eapply metadata_new_accessors in E; [|unfold is_u8; lia].
    cbn [wp]. destruct E as (-> & -> & -> & -> & -> & -> & -> & ->). done.
  - exfalso. unfold PerfItemMetadata_new, rassert in E. destruct (metadata_asserts _ _ _ _ _) eqn:Ea; [done|].
    apply not_true_iff_false in Ea. apply Ea. unfold metadata_asserts.
    rewrite Hce, Hcf, (proj2 (Z.eqb_neq _ _) Hflags). cbn [negb andb].
    apply andb_true_intro. split.
    + unfold reported_count. destruct (scalar_state _) eqn:Es; [done|by apply Harr].
    + destruct (_ =? _) eqn:Est; [|done]. destruct (Hst Est) as [-> _].
      pose proof (Hfmt Est). bool_solve.
Qed.

(** The item at the current position: its name, value and metadata. *)
Lemma item_info_ok c :
  Inv ed c -> can_item_info c.(state) = true -> well_declared c.(field_type) ->
  wp (item_info ed c) (fun i =>
    ii_name_bytes i = Ret (sub ed c.(stack_top).(name_offset)
                             (c.(stack_top).(name_offset) + c.(stack_top).(name_len))) /\
    item_bytes (ii_value i) = sub ed c.(data_pos_cooked)
                                (c.(data_pos_cooked) + c.(item_size_cooked)) /\
    element_count (item_metadata (ii_value i)) = reported_count c /\
    type_size (item_metadata (ii_value i)) = c.(element_size) /\
    md_encoding (item_metadata (ii_value i)) = FieldEncoding_without_flags c.(field_type).(ft_encoding) /\
    md_array_flag (item_metadata (ii_value i)) = FieldEncoding_array_flags c.(field_type).(ft_encoding) /\
    format (item_metadata (ii_value i)) = c.(field_type).(ft_format) /\
    field_tag (item_metadata (ii_value i)) = c.(field_type).(ft_tag)).
Proof using Hbytes.
  intros HI Hc Hw. destruct (item_facts c HI Hc) as (HL & Hp & Hz & Hle & _ & Hsz & Hst).
  pose proof (base_bounds _ _ (proj1 HI)) as Hb.
  unfold item_info, EventHeaderItemInfo_new. wp_step. wp_step; [done|]. wp_step. wp_step.
  wp_step. eapply wp_mono; [by apply item_metadata_ok|].
  intros m (Hm1 & Hm2 & _ & Hm4 & Hm5 & Hm6 & Hm7 & _). unfold PerfItemValue_new. rewrite Hm5, Hm4, Hm1.
  rewrite len_sub by lia.
  wp_step. wp_step. wp_step.
  { destruct (negb _ && negb _) eqn:E; [|done]. bool_hyps. rewrite Hsz by lia. bool_solve. }
  wp_step. wp_step.
  { fold (struct_type c.(field_type)). destruct (struct_type _) eqn:E; [|done].
    destruct (Hst eq_refl) as [_ ->]. bool_solve. }
  wp_step. wp_step. cbn [ii_value item_bytes item_metadata]. split_and!; try done.
  unfold ii_name_bytes. cbn. destruct HL as (Hn1 & Hn2 & Hn3 & _). unfold type_offset in *.
  apply slice_ok; lia.
Qed.

(** The event properties that are slices of the event. *)
Lemma event_slices_ok name c limit :
  started ed limit c ->
  ei_name_bytes (event_info name ed c) = Ret (sub ed c.(meta_start) (c.(meta_start) + c.(event_name_len))) /\
  wp (activity_id_section (event_info name ed c)) (fun b => len b = c.(activity_id_len)) /\
  wp (activity_id (event_info name ed c)) (fun o =>
    match o with Some b => len b = 16 | None => c.(activity_id_len) = 0 end) /\
  wp (related_activity_id (event_info name ed c)) (fun o =>
    match o with Some b => len b = 16 | None => c.(activity_id_len) < 32 end).
Proof.
  intros ([HB _] & _ & _ & _ & _ & _ & Ha & _). pose proof (base_bounds _ _ HB).
  destruct HB. unfold ei_name_bytes, activity_id_section, activity_id, related_activity_id. cbn.
  split; [apply slice_ok; lia|].
  split; [wp_step; rewrite len_sub; lia|].
  split; case_match; bool_hyps; do 3 (try wp_step); try (rewrite len_sub; lia); lia.
Qed.
End Items.

(** ** Siblings *)

Section Siblings.
Context `{Target} (ed : bytes) (Hbytes : bytes_ok ed) (Hlen : len ed < 2 ^ 31).

(** A context from which [move_next] may be called. *)
Definition movable (c : Ctx) : Prop :=
  Inv ed c /\ can_move_next c.(state) = true /\ c.(substate) <> SsValueMetadata.

(** What a move that used up some of the limit guarantees. *)
Definition advanced_to (c : Ctx) (r : bool * Ctx) : Prop :=
  Inv ed r.2 /\ event_part r.2 = event_part c /\ c.(data_pos_raw) <= r.2.(data_pos_raw) /\
  r.2.(substate) <> SsValueMetadata /\
  (if r.1 then can_item_info r.2.(state) = true /\
               r.2.(move_next_remaining) < c.(move_next_remaining)
   else (r.2.(state) = StError \/ r.2.(state) = StAfterLastItem) /\
        r.2.(move_next_remaining) <= c.(move_next_remaining)).

Lemma moved_advanced_to n c r :
  n < c.(move_next_remaining) -> moved_to ed (set_move_next_remaining n c) r -> advanced_to c r.
Proof.
  intros Hn (HI & HE & Hp & Hr & Hs & _ & Hb & _). unfold advanced_to. ctx.
  split_and!; try done. destruct r.1; split; done || lia.
Qed.

Lemma can_item_can_move s : can_item_info s = true -> can_move_next s = true.
Proof. by destruct s. Qed.

Lemma advanced_movable c c' : advanced_to c (true, c') -> movable c'.
Proof.
  intros (HI & _ & _ & Hs & Hc & _). split_and!; try done. by apply can_item_can_move.
Qed.

Lemma advanced_trans c c' r : advanced_to c (true, c') -> advanced_to c' r -> advanced_to c r.
Proof.
  intros (_ & HE & Hp & _ & _ & Hr) (HI & HE2 & Hp2 & Hs & Hb). cbn [fst snd] in *.
  unfold advanced_to. split_and!; try done; [congruence|lia|].
  destruct r.1; destruct Hb; split; done || lia.
Qed.

Lemma move_next_advanced c :
  movable c ->
  wlp (move_next_impl ed c) (advanced_to c) /\
  (skips_struct c = false -> wp (move_next_impl ed c) (advanced_to c)).
Proof using Hbytes Hlen.
  intros (HI & Hs & Hm). destruct (Z.eqb_spec c.(move_next_remaining) 0) as [Hr|Hr].
  - rewrite move_next_exhausted by done.
    assert (advanced_to c (set_error_state ErImplementationLimit c)).
    { unfold advanced_to. ctx. split_and!; try done; [|by left].
      split; [eapply Base_ext; [apply HI|done]|done]. }
    split; [done|]. intros _. by apply wp_ret.
  - pose proof (base_remaining _ _ (proj1 HI)).
    destruct (move_next_ok ed Hbytes Hlen c HI Hs Hm Hr) as [Hl Ht].
    split; [eapply wlp_mono; [exact Hl|]|intros Hk; eapply wp_mono; [by apply Ht|]];
      intros r Hmv; eapply moved_advanced_to; try exact Hmv; lia.
Qed.

(** The state [ArrayBegin] is reached in one substate only. *)
Lemma array_begin_substate c :
  movable c -> c.(state) = StArrayBegin -> c.(substate) = SsArrayBegin.
Proof.
  intros ([_ HS] & _ & Hm) Hs. unfold SubInv, at_value in HS.
  destruct (substate c); try done; destruct_and?; congruence.
Qed.

Lemma skip_simple_array_ok c :
  movable c -> c.(state) = StArrayBegin -> c.(element_size) <> 0 ->
  c.(move_next_remaining) <> 0 -> wp (skip_simple_array ed c) (advanced_to c).
Proof using Hbytes Hlen.
  intros HM Hs Hz Hr. pose proof (array_begin_substate c HM Hs) as Hss.
  destruct HM as ([HB HS] & _ & _). unfold SubInv in HS. rewrite Hss in HS.
  destruct HS as (_ & HL & Ha & Hi & Hc & Hes & Hck & Hraw & Hcs & Hfit).
  pose proof (base_bounds _ _ HB). pose proof (base_remaining _ _ HB).
  assert (Hst : struct_type c.(field_type) = false).
  { destruct (struct_type _) eqn:E; [|done]. unfold field_size, struct_type in *.
    apply Z.eqb_eq in E. by rewrite E in Hes. }
  assert (Hn : 0 <= c.(item_size_raw)).
  { rewrite Hraw, Hes. unfold field_size, simple_size. repeat case_match; lia. }
  unfold skip_simple_array. wp_step. wp_step; [by rewrite bool_decide_true|].
  wp_step. wp_step; [unfold struct_type in Hst; by rewrite Hst|].
  wp_step. wp_step; [exact Ha|]. wp_step. wp_step; [bool_solve|].
  rewrite <- Hraw. wp_step. wp_step. wp_step. wp_step. wp_step. wp_step. ctx.
  set (c1 := set_move_next_remaining _ _).
  eapply wp_mono; [apply next_property_ok; try done|].
  - subst c1. destruct HB. constructor; ctx; try done; lia.
  - intros r Hm. eapply (moved_advanced_to (c.(move_next_remaining) - 1)); [lia|].
    eapply moved_trans; [exact Hm|done|subst c1; ctx; lia|done].
Qed.

Lemma sibling_loop_ok fuel depth c :
  movable c -> wlp (sibling_loop ed fuel depth c) (advanced_to c).
Proof using Hbytes Hlen.
  revert depth c. induction fuel as [|fuel IH]; intros depth c HM; [done|]. cbn [sibling_loop].
  assert (Hstep : forall m d, wlp m (advanced_to c) ->
    wlp ('(moved, c) ← m; if negb moved || (d <=? 0) then Ret (moved, c)
                          else sibling_loop ed fuel d c) (advanced_to c)).
  { intros m d Hm. apply wlp_bind. eapply wlp_mono; [exact Hm|]. intros [[] c'] Ha; cbn [negb orb].
    - case_match; [exact Ha|]. eapply wlp_mono; [apply IH; by eapply advanced_movable|].
      intros r. by apply advanced_trans.
    - exact Ha. }
  pose proof (Hstep _ depth (proj1 (move_next_advanced c HM))) as Hm0.
  assert (Hm : forall w z, wlp (d ← checked_signed w z;
    '(moved, c) ← move_next_impl ed c; if negb moved || (d <=? 0) then Ret (moved, c)
                          else sibling_loop ed fuel d c) (advanced_to c)).
  { intros w z. unfold checked_signed. case_match; [|done].
    apply Hstep, (proj1 (move_next_advanced c HM)). }
  cbv zeta. destruct (state c) eqn:Es; try apply Hm0; try apply Hm.
  case_match eqn:E; [apply Hm|]. apply orb_false_elim in E as [E1 E2]. bool_hyps.
  apply Hstep, wlp_of_wp. by apply skip_simple_array_ok.
Qed.

(** No iteration is cut short by the fuel of [move_next_sibling_impl]. *)
Lemma sibling_loop_fuel fuel1 fuel2 depth c :
  movable c -> c.(move_next_remaining) < Z.of_nat fuel1 ->
  c.(move_next_remaining) < Z.of_nat fuel2 ->
  sibling_loop ed fuel1 depth c = sibling_loop ed fuel2 depth c.
Proof using Hbytes Hlen.
  revert fuel2 depth c. induction fuel1 as [|fuel1 IH]; intros fuel2 depth c HM H1 H2;
    pose proof (base_remaining _ _ (proj1 (proj1 HM))); [lia|].
  destruct fuel2 as [|fuel2]; [lia|]. cbn [sibling_loop].
  assert (Hstep : forall m d, wlp m (advanced_to c) ->
    ('(moved, c) ← m; if negb moved || (d <=? 0) then Ret (moved, c)
                      else sibling_loop ed fuel1 d c) =
    ('(moved, c) ← m; if negb moved || (d <=? 0) then Ret (moved, c)
                      else sibling_loop ed fuel2 d c)).
  { intros m d Hm. destruct m as [[[] c']|]; cbn [mbind outcome_bind negb orb]; try done.
    case_match; [done|]. cbn [wlp] in Hm. pose proof Hm as (_ & _ & _ & _ & _ & Hr). cbn [snd] in Hr.
    apply IH; [by eapply advanced_movable|lia..]. }
  pose proof (Hstep _ depth (proj1 (move_next_advanced c HM))) as Hm0.
  assert (Hm : forall w z, (d ← checked_signed w z;
    '(moved, c) ← move_next_impl ed c; if negb moved || (d <=? 0) then Ret (moved, c)
                          else sibling_loop ed fuel1 d c) = (d ← checked_signed w z;
    '(moved, c) ← move_next_impl ed c; if negb moved || (d <=? 0) then Ret (moved, c)
                          else sibling_loop ed fuel2 d c)).
  { intros w z. unfold checked_signed. case_match; [|done].
    apply Hstep, (proj1 (move_next_advanced c HM)). }
  cbv zeta. destruct (state c) eqn:Es; try apply Hm0; try apply Hm.
  case_match eqn:E; [apply Hm|]. apply orb_false_elim in E as [E1 E2]. bool_hyps.
  apply Hstep, wlp_of_wp. by apply skip_simple_array_ok.
Qed.
End Siblings.
