(* ===== verification/EnumeratorSkip.v ===== *)
(** * EnumeratorSkip: where moving through an event can panic

    The moves of the enumerator return for every event but one kind: at the end
    of an array of zero structs, [skip_struct_metadata] counts the declarations to
    skip in a [u8] and may overflow it.  Here the overflow is described by the
    declarations in the metadata alone, and shown to be the only way [move_next]
    panics; the loop of [move_next_sibling] is shown to return otherwise. *)

From stdpp Require Import relations.
From S2P Require Import Prelude Types ByteReader PerfItem Enumerator EnumeratorInv.
From S2P Require Import EnumeratorSpec.

Section Declarations.
Context (ed : bytes) (me : Z) (br : PerfByteReader).

(** A field is declared at [p]: a nul-terminated name, then a type that ends at [q]. *)
Definition declaration_at (p : Z) (typ : FieldType) (q : Z) : Prop :=
  exists e, p <= e /\ e + 2 <= me /\ (forall i, p <= i < e -> byte_at ed i <> 0) /\
    byte_at ed e = 0 /\ field_type_at ed me br (e + 1) = Ret (typ, q) /\
    typ.(ft_encoding) <> READ_FIELD_ERROR.

(** The fields a declaration nests: its format, for a struct. *)
Definition nested_fields (typ : FieldType) : Z :=
  if struct_type typ then typ.(ft_format) else 0.

(** Where the next declaration begins: after the length of a constant-length array. *)
Definition after_length (typ : FieldType) (q : Z) : option Z :=
  if FieldEncoding_is_constant_length_array typ.(ft_encoding) then
    if FieldEncoding_is_variable_length_array typ.(ft_encoding) || (me - q <? 2) then None
    else Some (q + 2)
  else Some q.

(** Counting the declarations from [p] on, with [n] of them left to skip, exceeds
    the range of a [u8]. *)
Inductive counter_overflows : Z -> Z -> Prop :=
| overflow_here n p typ q :
    0 < n -> declaration_at p typ q -> 255 < n + nested_fields typ -> counter_overflows n p
| overflow_later n p typ q r :
    0 < n -> declaration_at p typ q -> after_length typ q = Some r ->
    counter_overflows (n + nested_fields typ - 1) r -> counter_overflows n p.
End Declarations.

(** [move_next] at [c] skips the metadata of an array of zero structs and
    overflows its counter. *)
Definition skip_overflows (ed : bytes) (c : Ctx) : Prop :=
  c.(move_next_remaining) <> 0 /\ skips_struct c = true /\
  counter_overflows ed c.(meta_end) c.(byte_reader) c.(field_type).(ft_format)
    c.(stack_top).(next_offset).

(** One round of [move_next_sibling]: the jump over a simple array, or a move. *)
Definition sibling_step `{Target} (ed : bytes) (c : Ctx) : outcome (bool * Ctx) :=
  if bool_decide (c.(state) = StArrayBegin) && negb (c.(element_size) =? 0)
     && negb (c.(move_next_remaining) =? 0)
  then skip_simple_array ed c else move_next_impl ed c.

(** The positions [move_next_sibling] visits from [c]. *)
Definition sibling_visits `{Target} (ed : bytes) : Ctx -> Ctx -> Prop :=
  rtc (fun c c' => sibling_step ed c = Ret (true, c')).

Section Event.
Context (ed : bytes) (Hbytes : bytes_ok ed) (Hlen : len ed < 2 ^ 31).

Lemma scan_nul_first n pos e :
  0 <= pos -> pos + Z.of_nat n <= len ed -> scan_nul ed n pos = Ret e ->
  forall i, pos <= i < e -> byte_at ed i <> 0.
Proof.
  revert pos. induction n as [|n IH]; intros pos Hp Hn E i Hi; cbn [scan_nul] in E.
  - simplify_eq. lia.
  - rewrite index_byte_at in E by lia. cbn [mbind outcome_bind] in E.
    case_match; bool_hyps; simplify_eq; [lia|].
    destruct (decide (i = pos)) as [->|]; [done|]. eapply (IH (pos + 1)); [lia|lia|exact E|lia].
Qed.

(** Reading a declaration from the invariant: what is read is what the bytes declare. *)
Lemma read_declaration_at c :
  Base ed c ->
  exists typ c1,
    read_field_name_and_type ed (upd_top (set_name_offset c.(stack_top).(next_offset)) c)
      = Ret (typ, c1) /\
    Base ed c1 /\ c1.(meta_end) = c.(meta_end) /\ c1.(byte_reader) = c.(byte_reader) /\
    0 <= typ.(ft_format) < 128 /\
    (typ.(ft_encoding) <> READ_FIELD_ERROR ->
     c.(stack_top).(next_offset) + 2 <= c1.(stack_top).(next_offset) /\
     declaration_at ed c.(meta_end) c.(byte_reader) c.(stack_top).(next_offset) typ
       c1.(stack_top).(next_offset)) /\
    (forall typ' q, declaration_at ed c.(meta_end) c.(byte_reader) c.(stack_top).(next_offset) typ' q ->
       typ' = typ /\ q = c1.(stack_top).(next_offset)).
Proof using Hbytes Hlen.
  intros HB. pose proof (base_bounds _ _ HB). pose proof (base_next_offset _ _ HB).
  destruct (wp_inv _ _ (read_declaration_ok ed Hbytes Hlen c HB))
    as ([typ c1] & E & HB1 & HE & _ & _ & Hme & Hgrow).
  cbn [fst snd] in *. exists typ, c1. assert (Hbr : c1.(byte_reader) = c.(byte_reader)).
  { unfold event_part in HE. congruence. }
  do 4 (split; [done|]). revert E. unfold read_field_name_and_type. ctx.
  set (p := next_offset (stack_top c)) in *.
  rewrite (proj2 (Z.leb_le _ _)) by lia. cbn [rassert mbind outcome_bind].
  destruct (wp_inv _ _ (scan_nul_ok ed (Z.to_nat (c.(meta_end) - p)) p ltac:(lia) ltac:(lia)))
    as (e & Ee & He & Hz).
  pose proof (scan_nul_first (Z.to_nat (c.(meta_end) - p)) p e ltac:(lia) ltac:(lia) Ee) as Hfirst.
  rewrite Ee. cbn [mbind outcome_bind]. rewrite (checked_ok 32 (c.(meta_end) - e)) by lia. cbn [mbind outcome_bind].
  assert (Huniq : forall e', p <= e' -> e' + 2 <= c.(meta_end) ->
    (forall i, p <= i < e' -> byte_at ed i <> 0) -> byte_at ed e' = 0 -> e' = e).
  { intros e' H1 H2 H3 H4. destruct (Z.lt_trichotomy e e') as [?|[?|?]]; [|done|].
    - exfalso. apply (H3 e); [lia|]. apply Hz. lia.
    - exfalso. by apply (Hfirst e'); [lia|]. }
  case_match; bool_hyps.
  - intros E. simplify_eq. ctx. split; [unfold FieldFormat_Default; lia|]. split; [done|].
    intros typ' q (e' & D1 & D2 & D3 & D4 & _). rewrite (Huniq e') in D2 by done. lia.
  - rewrite checked_ok by lia. cbn [mbind outcome_bind].
    rewrite read_field_type_eq by (ctx; done || lia). ctx.
    destruct (field_type_at_ok ed Hbytes c.(meta_end) c.(byte_reader) (e + 1))
      as (ft & q & Eq & Hq & Hok & _); [lia..|].
    rewrite Eq. cbn [mbind outcome_bind]. intros E. simplify_eq. ctx.
    split; [apply Hok|]. split.
    + intros Hne. split; [by apply Hgrow|]. exists e. split_and!; try done; try lia.
    + intros typ' q' (e' & D1 & D2 & D3 & D4 & D5 & _). rewrite (Huniq e') in D5 by done.
      rewrite Eq in D5. injection D5 as -> ->. done.
Qed.

(** The loop of [skip_struct_metadata] panics exactly when its counter overflows. *)
Lemma skip_struct_loop_panics fuel n c :
  Base ed c -> 0 <= n <= 255 ->
  c.(meta_end) - c.(stack_top).(next_offset) < Z.of_nat fuel ->
  skip_struct_loop ed fuel n c = Panic <->
  counter_overflows ed c.(meta_end) c.(byte_reader) n c.(stack_top).(next_offset).
Proof using Hbytes Hlen.
  revert n c. induction fuel as [|fuel IH]; intros n c HB Hn Hf;
    pose proof (base_next_offset _ _ HB); pose proof (base_bounds _ _ HB); [lia|].
  cbn [skip_struct_loop]. destruct (_ || _) eqn:Eend.
  { split; [done|]. intros HC. exfalso. inversion HC as [? ? ? ? Hn0 (e & ? & ? & _)|? ? ? ? ? Hn0 (e & ? & ? & _)]; subst;
      apply orb_true_iff in Eend as [?|?]; bool_hyps; lia. }
  apply orb_false_elim in Eend as [En Em]. bool_hyps. cbv zeta.
  destruct (read_declaration_at c HB) as (typ & c1 & E & HB1 & Hme & Hbr & Hfmt & Hdecl & Huniq).
  rewrite E. cbn [mbind outcome_bind].
  destruct (_ =? READ_FIELD_ERROR) eqn:Ez; bool_hyps.
  { split; [done|]. intros HC. exfalso.
    inversion HC as [? ? ? ? _ HD|? ? ? ? ? _ HD]; subst;
      destruct (Huniq _ _ HD) as [-> ->]; destruct HD as (? & _ & _ & _ & _ & _ & ?); done. }
  destruct (Hdecl Ez) as [Hgrow HD]. pose proof (base_next_offset _ _ HB1).
  assert (Hnest : (if FieldEncoding_Struct =? FieldEncoding_without_flags typ.(ft_encoding)
                   then checked 8 (n + typ.(ft_format)) else Ret n) = checked 8 (n + nested_fields typ)).
  { unfold nested_fields, struct_type. rewrite Z.eqb_sym. case_match; [done|].
    by rewrite Z.add_0_r, checked_ok by lia. }
  rewrite Hnest.
  assert (Hn0 : 0 <= nested_fields typ) by (unfold nested_fields; destruct (struct_type typ); [apply Hfmt|done]).
  assert (Hover : 255 < n + nested_fields typ ->
    counter_overflows ed c.(meta_end) c.(byte_reader) n c.(stack_top).(next_offset)).
  { intros. eapply overflow_here; [lia|exact HD|done]. }
  assert (Hlater : n + nested_fields typ <= 255 ->
    counter_overflows ed c.(meta_end) c.(byte_reader) n c.(stack_top).(next_offset) <->
    exists r, after_length c.(meta_end) typ c1.(stack_top).(next_offset) = Some r /\
      counter_overflows ed c.(meta_end) c.(byte_reader) (n + nested_fields typ - 1) r).
  { intros Hle. split.
    - inversion 1 as [? ? ? ? _ HD'|? ? ? ? r _ HD' Hr HC]; subst;
        destruct (Huniq _ _ HD') as [-> ->]; [lia|by exists r].
    - intros (r & Hr & HC). eapply overflow_later; [lia|exact HD|exact Hr|exact HC]. }
  destruct (Z.leb_spec (n + nested_fields typ) 255) as [Hle|Hgt].
  2: { split; [by auto|]. intros _. unfold checked, fits. by rewrite (proj2 (Z.ltb_ge (n + nested_fields typ) (2 ^ 8))), andb_false_r by lia. }
  rewrite (checked_ok 8 (n + nested_fields typ)) by lia. cbn [mbind outcome_bind].
  rewrite (Hlater Hle). clear Hlater Hover.
  rewrite !(checked_ok 8 (n + nested_fields typ - 1)) by lia. unfold after_length.
  destruct (FieldEncoding_is_constant_length_array _); cbn [negb].
  - destruct (FieldEncoding_is_variable_length_array _); cbn [negb orb]; [by split; [|intros (? & ? & _)]|].
    unfold remaining_meta. rewrite Hme.
    rewrite (checked_ok 32 (c.(meta_end) - c1.(stack_top).(next_offset))) by lia. cbn [mbind outcome_bind].
    destruct (_ <? 2) eqn:Eroom; bool_hyps; [by split; [|intros (? & ? & _)]|].
    rewrite (checked_ok 32 (c1.(stack_top).(next_offset) + 2)) by lia. cbn [mbind outcome_bind].
    rewrite IH; [|by apply Base_next_offset; [|lia]|lia|ctx; lia]. ctx. rewrite Hme, Hbr.
    split; [eauto|]. by intros (r & [= <-] & ?).
  - cbn [mbind outcome_bind]. rewrite IH; [|done|lia|lia]. rewrite Hme, Hbr.
    split; [eauto|]. by intros (r & [= <-] & ?).
Qed.

Lemma ret_not_panic {A} (m : outcome A) (Q : A -> Prop) : wp m Q -> m <> Panic.
Proof. by destruct m. Qed.

(** [move_next] panics exactly when it skips the metadata of zero structs and the
    counter overflows. *)
Lemma move_next_panics `{Target} c :
  movable ed c -> move_next_impl ed c = Panic <-> skip_overflows ed c.
Proof using Hbytes Hlen.
  intros HM. pose proof HM as (HI & Hs & Hm). unfold skip_overflows.
  destruct (Z.eqb_spec c.(move_next_remaining) 0) as [Hr|Hr].
  { rewrite move_next_exhausted by done. split; [done|]. by intros [? _]. }
  destruct (skips_struct c) eqn:Esk.
  2: { split; [|by intros (_ & ? & _)]. intros E. exfalso.
       by eapply ret_not_panic; [apply (proj2 (move_next_advanced ed Hbytes Hlen c HM))|]. }
  pose proof Esk as Hsk. unfold skips_struct in Hsk.
  apply andb_prop in Hsk as [[Hss Hst]%andb_prop Hz]. apply bool_decide_eq_true in Hss.
  pose proof (base_remaining _ _ (proj1 HI)).
  assert (HI1 : Inv ed (set_move_next_remaining (c.(move_next_remaining) - 1) c)).
  { apply Inv_remaining; [done|lia]. }
  unfold move_next_impl. rewrite Hs, (proj2 (Z.eqb_neq _ _) Hr). cbn [rassert mbind outcome_bind].
  rewrite (checked_ok 32 (_ - 1)) by lia. cbn [mbind outcome_bind]. cbv zeta.
  change (substate (set_move_next_remaining _ c)) with (substate c). rewrite Hss.
  destruct HI1 as [HB1 HS1]. destruct HI as [_ HS]. unfold SubInv in HS, HS1.
  change (substate (set_move_next_remaining _ c)) with (substate c) in HS1. rewrite Hss in HS, HS1.
  destruct HS as (Hst' & _ & Ha & _ & Hi & _). destruct HS1 as (_ & HL & _).
  destruct (live_type ed Hbytes _ HB1 HL) as [(_ & Hfmt & _) _]. revert HB1 Hfmt. ctx.
  set (c1 := set_move_next_remaining _ c). intros HB1 Hfmt.
  unfold move_from_array_end, at_array_end, skip_struct_metadata.
  unfold struct_type in Hst. unfold is_array_field in Ha.
  rewrite bool_decide_true by done. change (field_type c1) with (field_type c).
  change (stack_top c1) with (stack_top c).
  rewrite Ha, Hi, Z.eqb_refl, Hst, Hz. cbn [rassert mbind outcome_bind andb].
  etransitivity; [|etransitivity;
    [apply (skip_struct_loop_panics (S (Z.to_nat (c.(meta_end) - c.(stack_top).(next_offset))))
              c.(field_type).(ft_format) c1 HB1); [lia|]|]].
  - change (meta_end c1) with (meta_end c).
    pose proof (skip_struct_loop_ok ed Hbytes Hlen
      (S (Z.to_nat (c.(meta_end) - c.(stack_top).(next_offset)))) c.(field_type).(ft_format) c1 HB1) as W.
    destruct (skip_struct_loop _ _ _ _) as [[[] c2]|]; cbn [mbind outcome_bind]; [|done|done].
    destruct W as [HB2 _]. split; [|done]. intros E. exfalso.
    by eapply ret_not_panic; [apply (next_property_ok ed Hbytes Hlen c2 HB2)|].
  - subst c1. ctx. lia.
  - subst c1. ctx. by split; [|intros (_ & _ & ?)].
Qed.
End Event.

(** ** The loop of [move_next_sibling] *)

Section Siblings.
Context `{Target} (ed : bytes) (Hbytes : bytes_ok ed) (Hlen : len ed < 2 ^ 31).

(** A round advances, unless it panics where [move_next] does. *)
Lemma sibling_step_ok c :
  movable ed c ->
  (exists b c', sibling_step ed c = Ret (b, c') /\ advanced_to ed c (b, c')) \/
  (sibling_step ed c = Panic /\ skip_overflows ed c).
Proof using Hbytes Hlen.
  intros HM. unfold sibling_step. case_match eqn:E.
  - left. apply andb_prop in E as [[Hs Hz]%andb_prop Hr]. apply bool_decide_eq_true in Hs. bool_hyps.
    destruct (wp_inv _ _ (skip_simple_array_ok ed Hbytes Hlen c HM Hs Hz Hr)) as ([b c'] & ? & ?).
    by exists b, c'.
  - pose proof (proj1 (move_next_advanced ed Hbytes Hlen c HM)) as W.
    destruct (move_next_impl ed c) as [[b c']|] eqn:Em; [left; by exists b, c'|right].
    split; [done|]. by apply (move_next_panics ed Hbytes Hlen c HM).
Qed.

(** An iteration of the loop is a round, at a depth at most one deeper. *)
Lemma sibling_loop_step fuel depth c :
  movable ed c -> 0 <= depth < 2 ^ 31 - 1 ->
  exists d, d <= depth + 1 /\
    sibling_loop ed (S fuel) depth c =
      ('(moved, c) ← sibling_step ed c;
       if negb moved || (d <=? 0) then Ret (moved, c) else sibling_loop ed fuel d c).
Proof using.
  intros HM Hd. cbn [sibling_loop]. cbv zeta. unfold sibling_step.
  assert (Hdown : checked_signed 32 (depth - 1) = Ret (depth - 1)) by (apply checked_signed_ok; lia).
  assert (Hup : checked_signed 32 (depth + 1) = Ret (depth + 1)) by (apply checked_signed_ok; lia).
  rewrite Hdown, Hup. destruct (state c) eqn:Es.
  5: { rewrite bool_decide_true by done. cbn [andb]. rewrite <- negb_orb.
       destruct (_ || _); cbn [negb]; [exists (depth + 1)|exists depth]; (split; [lia|done]). }
  all: rewrite bool_decide_false by done; cbn [andb mbind outcome_bind].
  all: solve [exists depth; split; [lia|done] | exists (depth - 1); split; [lia|done]
             | exists (depth + 1); split; [lia|done]].
Qed.

(** With fewer moves left than an [i32] counts, the loop returns, unless it comes
    to a position where skipping the metadata of zero structs overflows. *)
Lemma sibling_loop_total fuel depth c :
  movable ed c -> c.(move_next_remaining) < Z.of_nat fuel ->
  0 <= depth -> depth + c.(move_next_remaining) < 2 ^ 31 - 1 ->
  (exists b c', sibling_loop ed fuel depth c = Ret (b, c') /\ advanced_to ed c (b, c')) \/
  (sibling_loop ed fuel depth c = Panic /\
   exists c', sibling_visits ed c c' /\ skip_overflows ed c').
Proof using Hbytes Hlen.
  revert depth c. induction fuel as [|fuel IH]; intros depth c HM Hf Hd0 Hd;
    pose proof (base_remaining _ _ (proj1 (proj1 HM))); [lia|].
  destruct (sibling_loop_step fuel depth c HM) as (d & Hdle & ->); [lia|].
  destruct (sibling_step_ok c HM) as [([] & c1 & E & Ha)|[E Hov]].
  - rewrite E. cbn [mbind outcome_bind negb orb].
    destruct (Z.leb_spec d 0); [left; by exists true, c1|].
    pose proof Ha as (_ & _ & _ & _ & _ & Hr). cbn [snd] in Hr.
    destruct (IH d c1) as [(b & c2 & E2 & Ha2)|(E2 & c2 & Hv & Hov)];
      [by eapply advanced_movable|lia..| |].
    + left. exists b, c2. split; [done|]. by eapply advanced_trans.
    + right. split; [done|]. exists c2. split; [|done]. by eapply rtc_l.
  - rewrite E. left. by exists false, c1.
  - rewrite E. right. split; [done|]. exists c. split; [apply rtc_refl|done].
Qed.
End Siblings.

(** ** Declarations that [PerfItemMetadata::new] refuses *)

#[export] Instance well_declared_dec ft : Decision (well_declared ft).
Proof. unfold well_declared. apply _. Defined.

Section Items.
Context (ed : bytes) (Hbytes : bytes_ok ed).

(** An item that is not well declared stops [item_info] at an assert. *)
Lemma item_info_refused c :
  Inv ed c -> can_item_info c.(state) = true -> ~ well_declared c.(field_type) ->
  item_info ed c = Panic.
Proof using.
  intros HI Hc Hw. destruct (item_facts ed c HI Hc) as (_ & Hp & Hz & Hle & _).
  unfold item_info, EventHeaderItemInfo_new, item_metadata_impl. rewrite Hc.
  cbn [rassert mbind outcome_bind]. rewrite slice_ok by lia. cbn [mbind outcome_bind]. cbv zeta.
  unfold PerfItemMetadata_new.
  match goal with |- context [rassert (metadata_asserts ?e ?f ?s ?t ?n)] =>
    assert (metadata_asserts e f s t n = false) as ->; [|done] end.
  apply not_true_iff_false. unfold metadata_asserts. intros Ha. apply Hw.
  repeat apply andb_prop in Ha as [Ha ?]. bool_hyps. split; [done|].
  unfold struct_type. intros Est. rewrite Est in *. by bool_hyps.
Qed.
End Items.
