(* ===== verification/EnumeratorWalk.v ===== *)
(** * EnumeratorWalk: sequences of enumerator operations

    The contexts reachable by any sequence of operations, the bound the move
    limit puts on a traversal, and the traversal of an array of fixed-size
    elements, where the fast path of [move_next_sibling] is compared with
    element-by-element moves. *)

From S2P Require Import Prelude Types ByteReader PerfItem Enumerator EnumeratorInv EnumeratorSpec.

(** [n] calls of [move_next], stopping at the first that returns false. *)
Fixpoint moves `{Target} (ed : bytes) (n : nat) (c : Ctx) : outcome (bool * Ctx) :=
  match n with
  | O => Ret (true, c)
  | S n => '(b, c) ← move_next_impl ed c; if (b : bool) then moves ed n c else Ret (false, c)
  end.

(** The contexts reachable from a successful start by the public operations. *)
Inductive reachable `{Target} (name ed : bytes) : Ctx -> Prop :=
  | reach_start limit c0 c :
      length c0.(stack) = 8%nat -> 0 <= limit < 2 ^ 32 ->
      enumerate_with_name_and_data name ed limit c0 = Ret (Ok tt, c) -> reachable name ed c
  | reach_move c b c' :
      reachable name ed c -> move_next_impl ed c = Ret (b, c') -> reachable name ed c'
  | reach_sibling c b c' :
      reachable name ed c -> move_next_sibling_impl ed c = Ret (b, c') -> reachable name ed c'
  | reach_metadata c b c' :
      reachable name ed c -> move_next_metadata_impl ed c = Ret (b, c') -> reachable name ed c'
  | reach_reset limit c c' :
      0 <= limit < 2 ^ 32 ->
      reachable name ed c -> reset_with_limit limit c = Ret c' -> reachable name ed c'.

Section Walk.
Context `{Target} (ed : bytes) (Hbytes : bytes_ok ed) (Hlen : len ed < 2 ^ 31).

Lemma reset_ok limit c :
  Inv ed c -> 0 <= limit < 2 ^ 32 ->
  wp (reset_with_limit limit c) (fun c' => Inv ed c' /\ event_part c' = event_part c /\
    c'.(substate) = SsBeforeFirstItem /\ c'.(move_next_remaining) = limit /\
    c'.(data_pos_raw) = c.(data_start)).
Proof.
  intros [HB HS] Hl. pose proof (base_bounds _ _ HB). unfold reset_with_limit, reset_impl.
  destruct HB. ctx. do 4 wp_step. wp_step. split_and!; try done.
  split; [|done]. constructor; ctx; try done; lia.
Qed.

Definition kept (c : Ctx) (r : bool * Ctx) : Prop :=
  Inv ed r.2 /\ event_part r.2 = event_part c.

(** In metadata mode a move either reports the exhausted limit or panics. *)
Lemma metadata_mode_move c :
  Inv ed c -> c.(substate) = SsValueMetadata ->
  wlp (move_next_impl ed c) (fun r => r = set_error_state ErImplementationLimit c).
Proof.
  intros HI Hm. unfold move_next_impl.
  destruct (can_move_next _); [|done]. cbn [rassert mbind outcome_bind].
  case_match; [done|]. cbv zeta. ctx. rewrite Hm. by destruct (checked 32 _).
Qed.

Lemma exhausted_kept c : Inv ed c -> kept c (set_error_state ErImplementationLimit c).
Proof. intros [HB HS]. split; [|done]. split; [by eapply Base_ext|done]. Qed.

Lemma move_next_kept c : Inv ed c -> wlp (move_next_impl ed c) (kept c).
Proof using Hbytes Hlen.
  intros HI. destruct (decide (c.(substate) = SsValueMetadata)) as [Hm|Hm].
  - eapply wlp_mono; [by apply metadata_mode_move|]. intros r ->. by apply exhausted_kept.
  - destruct (can_move_next c.(state)) eqn:Es; [|unfold move_next_impl; by rewrite Es].
    eapply wlp_mono; [by apply move_next_advanced|]. intros r (? & ? & _). by split.
Qed.

Lemma move_next_sibling_kept c : Inv ed c -> wlp (move_next_sibling_impl ed c) (kept c).
Proof using Hbytes Hlen.
  intros HI. unfold move_next_sibling_impl. apply wlp_bind.
  destruct (can_move_next c.(state)) eqn:Es; [|done]. cbn [rassert wlp].
  destruct (decide (c.(substate) = SsValueMetadata)) as [Hm|Hm].
  - assert (Hstep : forall d fuel, wlp ('(moved, c) ← move_next_impl ed c;
        if negb moved || (d <=? 0) then Ret (moved, c) else sibling_loop ed fuel d c) (kept c)).
    { intros. apply wlp_bind. eapply wlp_mono; [by apply metadata_mode_move|].
      intros r ->. cbn. by apply exhausted_kept. }
    assert (He : c.(element_size) = 0).
    { destruct HI as [_ HS]. unfold SubInv in HS. rewrite Hm in HS. by destruct_and?. }
    cbn [sibling_loop]. rewrite He, Z.eqb_refl. cbn [orb].
    destruct (state c); try apply Hstep;
      unfold checked_signed; (case_match; [apply Hstep|done]).
  - eapply wlp_mono; [by apply sibling_loop_ok|]. intros r (? & ? & _). by split.
Qed.

Lemma move_next_metadata_kept c : Inv ed c -> wlp (move_next_metadata_impl ed c) (kept c).
Proof using Hbytes Hlen.
  intros HI. destruct (decide (c.(substate) = SsValueMetadata \/ c.(substate) = SsBeforeFirstItem)) as [Hm|Hm].
  - apply wlp_of_wp. eapply wp_mono; [by apply move_next_metadata_ok|].
    intros r (? & ? & _). by split.
  - unfold move_next_metadata_impl, metadata_enter.
    rewrite (bool_decide_false (_ = SsValueMetadata)) by tauto.
    rewrite (bool_decide_false (_ = SsBeforeFirstItem)) by tauto.
    by destruct (bool_decide _).
Qed.

Lemma moves_bound n c c' :
  movable ed c -> moves ed n c = Ret (true, c') ->
  Z.of_nat n <= c.(move_next_remaining) /\ (n <> O -> advanced_to ed c (true, c')) /\
  c'.(move_next_remaining) <= c.(move_next_remaining) - Z.of_nat n.
Proof using Hbytes Hlen.
  revert c. induction n as [|n IH]; intros c HM E; cbn [moves] in E.
  - simplify_eq. pose proof (base_remaining _ _ (proj1 (proj1 HM))). split_and!; done || lia.
  - destruct (move_next_impl ed c) as [[b c1]|] eqn:Em; [|done]. cbn [mbind outcome_bind] in E.
    destruct b; [|done]. destruct (move_next_advanced ed Hbytes Hlen c HM) as [Hw _].
    rewrite Em in Hw. cbn [wlp] in Hw. pose proof Hw as (_ & _ & _ & _ & _ & Hr). cbn [snd] in Hr.
    destruct (IH c1 (advanced_movable _ _ _ Hw) E) as (Hn & Ha & Hr2).
    split_and!; [lia| |lia]. intros _. destruct n as [|n].
    + cbn [moves] in E. by simplify_eq.
    + eapply advanced_trans; [exact Hw|by apply Ha].
Qed.

(** ** Arrays of fixed-size elements *)

(** Position [k] of the array that starts at [c]. *)
Definition element_start (c : Ctx) (k : Z) : Z := c.(data_pos_raw) + k * c.(element_size).

Definition at_position (c : Ctx) (k used : Z) : Ctx :=
  upd_top (set_array_index k)
    (set_data_pos_raw (element_start c k)
       (set_move_next_remaining (c.(move_next_remaining) - used) c)).

(** The context at element [k], and at the end of the array. *)
Definition element_context (c : Ctx) (k : Z) : Ctx :=
  set_states StValue SsValueSimpleArrayElement
    (with_item (element_start c k) c.(element_size) c.(element_size) (at_position c k (k + 1))).
Definition array_end_context (c : Ctx) : Ctx :=
  let n := c.(stack_top).(array_count) in
  set_states StArrayEnd SsArrayEnd (with_item (element_start c n) 0 0 (at_position c n (n + 1))).

(** A context at the start of a non-empty array of fixed-size elements. *)
Definition at_simple_array (c : Ctx) : Prop :=
  Inv ed c /\ c.(substate) = SsArrayBegin /\ c.(element_size) <> 0 /\
  c.(stack_top).(array_count) <> 0.

Lemma simple_array_facts c :
  at_simple_array c ->
  c.(state) = StArrayBegin /\ is_array_field c = true /\ struct_type c.(field_type) = false /\
  c.(stack_top).(array_index) = 0 /\ 0 < c.(element_size) <= 16 /\
  0 < c.(stack_top).(array_count) <= 65535 /\ 8 <= c.(data_pos_raw) /\
  element_start c c.(stack_top).(array_count) <= len ed /\
  0 <= c.(move_next_remaining) < 2 ^ 32.
Proof.
  intros ([HB HS] & Hss & Hz & Hn). unfold SubInv in HS. rewrite Hss in HS.
  destruct HS as (Hs & HL & Ha & Hi & Hc & Hes & Hck & Hraw & Hcs & Hfit).
  pose proof (base_bounds _ _ HB). pose proof (base_remaining _ _ HB).
  assert (Hst : struct_type c.(field_type) = false).
  { destruct (struct_type _) eqn:E; [|done]. unfold field_size, struct_type in *.
    apply Z.eqb_eq in E. by rewrite E in Hes. }
  assert (0 <= field_size c <= 16) by (unfold field_size, simple_size; repeat case_match; lia).
  unfold element_start. split_and!; try done; lia.
Qed.

(** The asserts of the fast path hold at every element. *)
Lemma start_value_simple_eq c :
  c.(stack_top).(array_index) < c.(stack_top).(array_count) -> is_array_field c = true ->
  struct_type c.(field_type) = false -> c.(element_size) <> 0 ->
  c.(item_size_cooked) = c.(element_size) -> c.(item_size_raw) = c.(element_size) ->
  c.(state) = StValue -> start_value_simple c = Ret (set_data_pos_cooked c.(data_pos_raw) c).
Proof.
  unfold is_array_field, struct_type. intros Hi Ha Hst Hz Hc Hr Hs. unfold start_value_simple.
  rewrite (proj2 (Z.ltb_lt _ _) Hi), Ha, Hst, (proj2 (Z.eqb_neq _ _) Hz),
    (proj2 (Z.eqb_eq _ _) Hc), (proj2 (Z.eqb_eq _ _) Hr), bool_decide_true by done.
  reflexivity.
Qed.

(** Equality of updated contexts, field by field, up to arithmetic. *)
Ltac ctx_lia c :=
  unfold element_context, array_end_context, at_position, element_start, with_item in *;
  let top := fresh "top" in
  destruct c as [? ? ? ? ? ? ? ? ? ? ? top ? ? ? ? ? ? ? ? ? ?]; destruct top;
  cbv [header keyword meta_start meta_end activity_id_start activity_id_len byte_reader
       event_name_len data_start data_pos_raw move_next_remaining stack_top stack_index
       state substate last_error element_size field_type data_pos_cooked item_size_raw
       item_size_cooked stack next_offset name_offset name_len array_index array_count
       remaining_field_count
       set_data_pos_raw set_move_next_remaining set_stack_top
       set_element_size set_data_pos_cooked set_item_size_raw set_item_size_cooked
       set_states upd_top set_state set_end_state
       set_next_offset set_name_offset set_name_len set_array_index set_array_count
       set_remaining_field_count] in *;
  repeat (f_equal; try lia).

(** [debug_assert!(can_move_next)] and the move limit, then the arm of the substate. *)
Lemma move_next_arm c :
  can_move_next c.(state) = true -> 0 < c.(move_next_remaining) < 2 ^ 32 ->
  move_next_impl ed c =
    let c := set_move_next_remaining (c.(move_next_remaining) - 1) c in
    match c.(substate) with
    | SsBeforeFirstItem => move_from_before_first ed c
    | SsValueScalar => move_from_value_scalar ed c
    | SsValueSimpleArrayElement => move_from_simple_element ed c
    | SsValueComplexArrayElement => move_from_complex_element ed c
    | SsArrayBegin => move_from_array_begin ed c
    | SsArrayEnd => move_from_array_end ed c
    | SsStructBegin => move_from_struct_begin ed c
    | SsStructEnd => move_from_struct_end ed c
    | SsError | SsAfterLastItem | SsValueMetadata => Panic
    end.
Proof.
  intros Hs Hr. unfold move_next_impl. rewrite Hs. cbn [rassert mbind outcome_bind].
  rewrite (proj2 (Z.eqb_neq _ _)) by lia. rewrite (checked_ok 32 (_ - 1)) by lia. done.
Qed.

Lemma first_element c :
  at_simple_array c -> 0 < c.(move_next_remaining) ->
  move_next_impl ed c = Ret (true, element_context c 0).
Proof.
  intros HA Hr. pose proof (simple_array_facts c HA) as (Hs & Ha & Hst & Hi & Hz & Hn & Hp & Hf & Hm).
  destruct HA as (_ & Hss & _ & _). rewrite move_next_arm by (rewrite ?Hs; done || lia).
  cbv zeta. ctx. rewrite Hss. unfold move_from_array_begin. ctx.
  unfold is_array_field in Ha. unfold struct_type in Hst.
  rewrite Hs, Ha, Hst, Hi, bool_decide_true by done. cbn [rassert mbind outcome_bind Z.eqb].
  rewrite (proj2 (Z.eqb_neq c.(stack_top).(array_count) 0)) by lia. cbv zeta.
  rewrite (proj2 (Z.eqb_neq c.(element_size) 0)) by lia. cbn [negb rassert mbind outcome_bind].
  rewrite start_value_simple_eq by (ctx; done || lia). cbn [mbind outcome_bind].
  do 2 f_equal. clear Hf. ctx_lia c.
Qed.

(** From element [k] to the next one, or to the end of the array. *)
Lemma next_element c k :
  at_simple_array c -> 0 <= k < c.(stack_top).(array_count) ->
  k + 1 < c.(move_next_remaining) ->
  move_next_impl ed (element_context c k) =
    Ret (true, if k + 1 =? c.(stack_top).(array_count) then array_end_context c
               else element_context c (k + 1)).
Proof.
  intros HA Hk Hr. pose proof (simple_array_facts c HA) as (Hs & Ha & Hst & Hi & Hz & Hn & Hp & Hf & Hm).
  unfold element_start in Hf.
  rewrite move_next_arm by (unfold element_context, with_item, at_position; ctx; done || lia).
  cbv zeta. change (substate _) with SsValueSimpleArrayElement. cbv iota.
  set (c1 := set_move_next_remaining _ _).
  assert (Hx : element_asserts true c1 = true).
  { unfold element_asserts. subst c1. unfold element_context, with_item, at_position. ctx.
    unfold is_array_field in Ha. unfold struct_type in Hst. rewrite Ha, Hst, bool_decide_true by done.
    rewrite (proj2 (Z.ltb_lt _ _)), (proj2 (Z.eqb_neq _ _)) by lia. done. }
  unfold move_from_simple_element. rewrite Hx. cbn [rassert mbind outcome_bind].
  unfold consume_item, remaining_data. rewrite as_unsigned_id by (pose proof (len_nonneg ed); lia).
  replace (c1.(data_pos_raw)) with (element_start c k) by done.
  replace (c1.(item_size_raw)) with c.(element_size) by done.
  unfold element_start. rewrite (checked_ok 32 (len ed - _)) by nia. cbn [mbind outcome_bind].
  rewrite (proj2 (Z.leb_le _ _)) by nia. cbn [rassert mbind outcome_bind].
  rewrite (checked_ok 32 (_ + _ + _)) by nia. cbn [mbind outcome_bind]. unfold next_index.
  change (array_index _) with k at 1. rewrite checked_ok by lia. cbn [mbind outcome_bind].
  unfold at_array_end. ctx. change (array_count (stack_top c1)) with c.(stack_top).(array_count).
  rewrite Z.eqb_sym. case_match; bool_hyps.
  - do 2 f_equal. subst c1. clear Hx. ctx_lia c.
  - rewrite start_value_simple_eq; [|subst c1; unfold element_context, with_item, at_position; ctx; done || lia ..].
    cbn [mbind outcome_bind]. do 2 f_equal. subst c1. clear Hx. ctx_lia c.
Qed.

Lemma moves_snoc n c c1 r :
  moves ed n c = Ret (true, c1) -> move_next_impl ed c1 = Ret (true, r) ->
  moves ed (S n) c = Ret (true, r).
Proof.
  revert c. induction n as [|n IH]; intros c E E1; cbn [moves] in *.
  - simplify_eq. by rewrite E1.
  - destruct (move_next_impl ed c) as [[[] c2]|]; cbn [mbind outcome_bind] in *; try done.
    specialize (IH c2 E E1). cbn [moves] in IH. exact IH.
Qed.

Lemma walk_elements c k :
  at_simple_array c -> Z.of_nat k < c.(stack_top).(array_count) ->
  Z.of_nat k < c.(move_next_remaining) ->
  moves ed (S k) c = Ret (true, element_context c (Z.of_nat k)).
Proof.
  intros HA. induction k as [|k IH]; intros Hk Hr.
  - cbn [moves]. rewrite first_element by (done || lia). done.
  - eapply moves_snoc; [apply IH; lia|]. rewrite next_element by (done || lia).
    rewrite (proj2 (Z.eqb_neq _ _)) by lia. do 3 f_equal. lia.
Qed.

Lemma walk_array c :
  at_simple_array c -> c.(stack_top).(array_count) < c.(move_next_remaining) ->
  moves ed (S (Z.to_nat c.(stack_top).(array_count))) c = Ret (true, array_end_context c).
Proof.
  intros HA Hr. pose proof (simple_array_facts c HA) as (_ & _ & _ & _ & _ & Hn & _).
  replace (Z.to_nat _) with (S (Z.to_nat (c.(stack_top).(array_count) - 1))) by lia.
  eapply moves_snoc; [apply walk_elements; done || lia|].
  rewrite Z2Nat.id by lia. rewrite next_element by (done || lia).
  rewrite Z.sub_add, Z.eqb_refl. done.
Qed.

(** Where the fast path of [move_next_sibling] calls [next_property]. *)
Definition skipped_context (c : Ctx) : Ctx :=
  set_move_next_remaining (c.(move_next_remaining) - 1)
    (set_data_pos_raw (element_start c c.(stack_top).(array_count)) c).

Lemma skip_array_eq c :
  at_simple_array c -> 0 < c.(move_next_remaining) ->
  skip_simple_array ed c = next_property ed (skipped_context c).
Proof.
  intros HA Hr. pose proof (simple_array_facts c HA) as (Hs & Ha & Hst & Hi & Hz & Hn & Hp & Hf & Hm).
  destruct HA as (_ & Hss & _). unfold element_start in Hf. unfold skip_simple_array.
  unfold is_array_field in Ha. unfold struct_type in Hst.
  rewrite Hss, Ha, Hst, Hi, bool_decide_true by done. cbn [rassert mbind outcome_bind negb Z.eqb].
  rewrite (checked_ok 32 (_ * _)) by nia. cbn [mbind outcome_bind].
  rewrite (checked_ok 32 (_ + _)) by nia. cbn [mbind outcome_bind]. ctx.
  rewrite (checked_ok 32 (_ - 1)) by lia. done.
Qed.

Lemma move_next_array_end c :
  c.(substate) = SsArrayEnd -> c.(state) = StArrayEnd -> is_array_field c = true ->
  struct_type c.(field_type) = false ->
  c.(stack_top).(array_index) = c.(stack_top).(array_count) ->
  0 < c.(move_next_remaining) < 2 ^ 32 ->
  move_next_impl ed c =
    next_property ed (set_move_next_remaining (c.(move_next_remaining) - 1) c).
Proof.
  unfold is_array_field, struct_type. intros Hss Hs Ha Hst Hi Hr.
  rewrite move_next_arm by (rewrite ?Hs; done || lia). cbv zeta. ctx. rewrite Hss.
  unfold move_from_array_end, at_array_end. ctx.
  by rewrite Hs, Ha, Hst, Hi, Z.eqb_refl, bool_decide_true by done.
Qed.

Lemma array_end_step c :
  at_simple_array c -> c.(stack_top).(array_count) + 1 < c.(move_next_remaining) ->
  move_next_impl ed (array_end_context c) =
    next_property ed (set_move_next_remaining
      (c.(move_next_remaining) - (c.(stack_top).(array_count) + 2)) (array_end_context c)).
Proof.
  intros HA Hr. pose proof (simple_array_facts c HA) as (Hs & Ha & Hst & Hi & Hz & Hn & Hp & Hf & Hm).
  assert (E : (array_end_context c).(move_next_remaining)
              = c.(move_next_remaining) - (c.(stack_top).(array_count) + 1)).
  { unfold array_end_context, with_item, at_position. ctx. done. }
  rewrite move_next_array_end.
  - rewrite E. replace (c.(move_next_remaining) - (c.(stack_top).(array_count) + 1) - 1)
      with (c.(move_next_remaining) - (c.(stack_top).(array_count) + 2)) by lia. done.
  - unfold array_end_context. ctx. done.
  - unfold array_end_context. ctx. done.
  - unfold array_end_context, with_item, at_position, is_array_field in *. ctx. done.
  - unfold array_end_context, with_item, at_position. ctx. done.
  - unfold array_end_context, with_item, at_position. ctx. done.
  - rewrite E. lia.
Qed.
End Walk.
