(* ===== verification/EnumeratorProps.v ===== *)
(** * EnumeratorProps: the properties of the EventHeader enumerator

    Stated over the contexts reachable by the public operations, with concrete
    events on which they apply. *)

From S2P Require Import Prelude Types ByteReader PerfItem Enumerator EnumeratorInv.
From S2P Require Import EnumeratorSpec EnumeratorSkip EnumeratorWalk.

(** ** A concrete event, decoded on a little-endian target *)

#[local] Existing Instance little_endian_target.

(** [P_L5K1], with the metadata of an event [E] and its data. *)
Definition example_name : bytes := [80; 95; 76; 53; 75; 49].
Definition example_event (meta data : bytes) : bytes :=
  [7; 0; 0; 0; 0; 0; 0; 5] ++ le_bytes 2 (len meta) ++ [1; 0; 69; 0] ++ skipn 2 meta ++ data.

(** Fields: u8 [a]; u32 array [b]; struct [s] with string [c] and u16 [d]. *)
Definition example_data : bytes :=
  example_event ([69; 0] ++ [97; 0; 2] ++ [98; 0; 0x44] ++ [115; 0; 0x81; 2] ++ [99; 0; 7]
                 ++ [100; 0; 3])
    ([5] ++ [2; 0; 1; 0; 0; 0; 2; 0; 0; 0] ++ [65; 66; 0] ++ [7; 7]).

Definition after (m : outcome (bool * Ctx)) : Ctx :=
  match m with Ret r => r.2 | Panic => EventHeaderEnumeratorContext_new end.
Definition started_at (ed : bytes) (limit : Z) : Ctx :=
  match enumerate_with_name_and_data example_name ed limit
          EventHeaderEnumeratorContext_new with
  | Ret r => r.2
  | Panic => EventHeaderEnumeratorContext_new
  end.
Definition example_start : Ctx := started_at example_data 100.
Definition example_array : Ctx :=
  after (moves example_data 2 example_start).

Lemma example_reachable n c :
  moves example_data n example_start = Ret (true, c) ->
  reachable example_name example_data c.
Proof.
  assert (H0 : reachable example_name example_data example_start).
  { eapply (reach_start _ _ 100 EventHeaderEnumeratorContext_new);
      [done|lia|by vm_compute]. }
  revert H0. generalize example_start as c0. induction n as [|n IH]; intros c0 H0 E; cbn [moves] in E.
  - by simplify_eq.
  - destruct (move_next_impl example_data c0) as [[[] c1]|] eqn:Em; try done.
    eapply IH; [|exact E]. eapply reach_move; [exact H0|exact Em].
Qed.

(** ** Beginning an enumeration *)

(** C1. Starting an enumeration never panics, whatever the tracepoint name, the
    event bytes and the limit: it fails with one of three errors, or it leaves a
    context that satisfies the invariant, before the first item, at the start of
    the data, with the whole limit, a nul-terminated event name and an activity
    id that lies within the event. *)
Theorem enumerate_total `{Target} name ed limit c
    (Hname : bytes_ok name) (Hdata : bytes_ok ed) (Hlimit : 0 <= limit < 2 ^ 32)
    (Hstack : length c.(stack) = 8%nat) :
  exists r c', enumerate_with_name_and_data name ed limit c = Ret (r, c') /\
    match r with
    | Ok _ => Inv ed c' /\ c'.(state) = StBeforeFirstItem /\
        c'.(data_pos_raw) = c'.(data_start) /\ c'.(move_next_remaining) = limit /\
        byte_at ed (c'.(meta_start) + c'.(event_name_len)) = 0 /\
        c'.(activity_id_start) + c'.(activity_id_len) <= len ed
    | Err e => e = ErInvalidParameter \/ e = ErNotSupported \/ e = ErInvalidData
    end.
Proof.
  destruct (wp_inv _ _ (enumerate_ok ed Hdata name limit c Hname Hlimit Hstack))
    as ([r c'] & E & _ & Hr). exists r, c'. split; [exact E|]. destruct r; [|exact Hr].
  destruct Hr as [(HI & Hss & Hrem & Hpos & _ & _ & Ha & Hz) Hlen].
  assert (Hst : c'.(state) = StBeforeFirstItem).
  { destruct HI as [_ HS]. unfold SubInv in HS. by rewrite Hss in HS. }
  cbn [snd] in *. split_and!; try done. destruct Ha; lia.
Qed.

Lemma enumerate_total_witness :
  bytes_ok example_name /\ bytes_ok example_data /\
  exists r c', enumerate_with_name_and_data example_name example_data 100
                 EventHeaderEnumeratorContext_new = Ret (r, c') /\
    match r with
    | Ok _ => Inv example_data c' /\ c'.(state) = StBeforeFirstItem /\
        c'.(data_pos_raw) = c'.(data_start) /\ c'.(move_next_remaining) = 100 /\
        byte_at example_data (c'.(meta_start) + c'.(event_name_len)) = 0 /\
        c'.(activity_id_start) + c'.(activity_id_len) <= len example_data
    | Err e => e = ErInvalidParameter \/ e = ErNotSupported \/ e = ErInvalidData
    end.
Proof.
  assert (Hn : bytes_ok example_name) by (apply bytes_ok_decide; reflexivity).
  assert (Hd : bytes_ok example_data) by (apply bytes_ok_decide; reflexivity).
  split; [exact Hn|]. split; [exact Hd|].
  apply (enumerate_total example_name example_data 100 EventHeaderEnumeratorContext_new Hn Hd);
    [lia|reflexivity].
Defined.

Lemma reachable_facts `{Target} name ed c :
  bytes_ok name -> bytes_ok ed -> reachable name ed c ->
  Inv ed c /\ 8 <= len ed < 2 ^ 31.
Proof.
  intros Hn Hd. induction 1 as [limit c0 c Hst Hl E|c b c' _ IH E|c b c' _ IH E|c b c' _ IH E
                               |limit c c' Hl _ IH E].
  - pose proof (enumerate_ok ed Hd name limit c0 Hn Hl Hst) as W. rewrite E in W.
    destruct W as [_ [(HI & _) [Hlen _]]]. by split.
  - destruct IH as [HI Hlen]. split; [|done].
    pose proof (move_next_kept ed Hd (proj2 Hlen) c HI) as W. rewrite E in W. apply W.
  - destruct IH as [HI Hlen]. split; [|done].
    pose proof (move_next_sibling_kept ed Hd (proj2 Hlen) c HI) as W. rewrite E in W. apply W.
  - destruct IH as [HI Hlen]. split; [|done].
    pose proof (move_next_metadata_kept ed Hd (proj2 Hlen) c HI) as W. rewrite E in W. apply W.
  - destruct IH as [HI Hlen]. split; [|done].
    pose proof (reset_ok ed (proj2 Hlen) limit c HI Hl) as W. rewrite E in W. apply W.
Qed.

(** C7. Every context that any sequence of [move_next], [move_next_sibling],
    [move_next_metadata] and [reset_with_limit] calls reaches from a successful
    start satisfies the invariant: the data position stays between the start of
    the data and its end, the metadata position within the metadata, at most
    eight structs are suspended and each of them can be resumed. *)
Theorem reachable_invariant `{Target} name ed c
    (Hname : bytes_ok name) (Hdata : bytes_ok ed) (Hreach : reachable name ed c) :
  Inv ed c /\ c.(data_start) <= c.(data_pos_raw) <= len ed /\
  c.(meta_start) <= c.(stack_top).(next_offset) <= c.(meta_end) /\
  0 <= c.(stack_index) <= STRUCT_NEST_LIMIT.
Proof.
  destruct (reachable_facts name ed c Hname Hdata Hreach) as [HI _].
  pose proof (proj1 HI) as []. unfold STRUCT_NEST_LIMIT. split_and!; done || lia.
Qed.

Lemma reachable_invariant_witness :
  exists c, moves example_data 7 example_start = Ret (true, c) /\ Inv example_data c /\
    c.(data_start) <= c.(data_pos_raw) <= len example_data /\
    c.(meta_start) <= c.(stack_top).(next_offset) <= c.(meta_end) /\
    0 <= c.(stack_index) <= STRUCT_NEST_LIMIT.
Proof.
  eexists. split; [vm_compute; reflexivity|].
  apply (reachable_invariant example_name example_data).
  - apply bytes_ok_decide. reflexivity.
  - apply bytes_ok_decide. reflexivity.
  - apply (example_reachable 7). vm_compute. reflexivity.
Defined.

(** ** Moves *)

(** C8. From any reachable position outside metadata mode, [move_next] panics in
    exactly one situation, read off the metadata alone: moves are left, the position
    is the end of an array of zero structs, and counting the declarations to skip,
    those of the structs nested in it included, exceeds a [u8].  Everywhere else it
    returns, keeps the event, never moves the data position back, uses up one unit
    of the limit (or reports [ImplementationLimit]), lands on an item exactly when
    it returns true, and when it reports the end of the event no struct is open and
    all metadata has been used. *)
Theorem move_next_safe `{Target} name ed c
    (Hname : bytes_ok name) (Hdata : bytes_ok ed) (Hreach : reachable name ed c)
    (Hcan : can_move_next c.(state) = true) (Hmode : c.(substate) <> SsValueMetadata) :
  (move_next_impl ed c = Panic <-> skip_overflows ed c) /\
  (~ skip_overflows ed c ->
   exists b c', move_next_impl ed c = Ret (b, c') /\
     event_part c' = event_part c /\ c.(data_pos_raw) <= c'.(data_pos_raw) /\
     (c.(move_next_remaining) <> 0 -> c'.(move_next_remaining) = c.(move_next_remaining) - 1) /\
     (c.(move_next_remaining) = 0 -> b = false /\ c'.(last_error) = ErImplementationLimit) /\
     (if b then can_item_info c'.(state) = true
      else c'.(state) = StError \/
           c'.(state) = StAfterLastItem /\ c'.(stack_index) = 0 /\
           c'.(stack_top).(next_offset) = c'.(meta_end))).
Proof.
  destruct (reachable_facts name ed c Hname Hdata Hreach) as [HI Hlen].
  pose proof (move_next_panics ed Hdata (proj2 Hlen) c ltac:(done)) as Hp. split; [exact Hp|].
  intros Hno. destruct (Z.eqb_spec c.(move_next_remaining) 0) as [Hr|Hr].
  - rewrite (move_next_exhausted ed c Hcan Hr). eexists _, _. split; [done|].
    ctx. split_and!; try done. by left.
  - destruct (move_next_ok ed Hdata (proj2 Hlen) c HI Hcan Hmode Hr) as [W _].
    destruct (move_next_impl ed c) as [[b c']|] eqn:E; [|by destruct Hno; apply Hp].
    exists b, c'. split; [done|]. destruct W as (_ & HE & Hpos & Hrem & _ & _ & Hb & Hlast).
    ctx. split_and!; try done. destruct b; [done|]. destruct Hb as [Hb|Hb]; [by left|right].
    split; [done|by apply Hlast].
Qed.

Lemma move_next_safe_witness :
  ~ skip_overflows example_data example_start /\
  exists b c', move_next_impl example_data example_start = Ret (b, c') /\
    event_part c' = event_part example_start /\
    example_start.(data_pos_raw) <= c'.(data_pos_raw) /\
    (example_start.(move_next_remaining) <> 0 ->
     c'.(move_next_remaining) = example_start.(move_next_remaining) - 1) /\
    (example_start.(move_next_remaining) = 0 ->
     b = false /\ c'.(last_error) = ErImplementationLimit) /\
    (if b then can_item_info c'.(state) = true
     else c'.(state) = StError \/
          c'.(state) = StAfterLastItem /\ c'.(stack_index) = 0 /\
          c'.(stack_top).(next_offset) = c'.(meta_end)).
Proof.
  assert (Hno : ~ skip_overflows example_data example_start).
  { intros (_ & E & _). revert E. vm_compute. discriminate. }
  split; [exact Hno|]. apply (move_next_safe example_name example_data example_start).
  - apply bytes_ok_decide. reflexivity.
  - apply bytes_ok_decide. reflexivity.
  - apply (example_reachable 0). reflexivity.
  - vm_compute. reflexivity.
  - vm_compute. discriminate.
  - exact Hno.
Defined.

(** C24. The move limit bounds every traversal: [n] successful [move_next] calls
    in a row need at least [n] units of the limit, and use up [n] of them. *)
Theorem traversal_bounded `{Target} name ed c n c'
    (Hname : bytes_ok name) (Hdata : bytes_ok ed) (Hreach : reachable name ed c)
    (Hcan : can_move_next c.(state) = true) (Hmode : c.(substate) <> SsValueMetadata)
    (Hmoves : moves ed n c = Ret (true, c')) :
  Z.of_nat n <= c.(move_next_remaining) /\
  c'.(move_next_remaining) <= c.(move_next_remaining) - Z.of_nat n.
Proof.
  destruct (reachable_facts name ed c Hname Hdata Hreach) as [HI Hlen].
  destruct (moves_bound ed Hdata (proj2 Hlen) n c c') as (H1 & _ & H2); [done|exact Hmoves|].
  by split.
Qed.

Lemma traversal_bounded_witness :
  exists c', moves example_data 9 example_start = Ret (true, c') /\
    Z.of_nat 9 <= example_start.(move_next_remaining) /\
    c'.(move_next_remaining) <= example_start.(move_next_remaining) - Z.of_nat 9.
Proof.
  eexists. split; [vm_compute; reflexivity|].
  apply (traversal_bounded example_name example_data).
  - apply bytes_ok_decide. reflexivity.
  - apply bytes_ok_decide. reflexivity.
  - apply (example_reachable 0). reflexivity.
  - vm_compute. reflexivity.
  - vm_compute. discriminate.
  - vm_compute. reflexivity.
Defined.

(** C25. [move_next_sibling] terminates: called with fewer moves left than an [i32]
    counts (its depth is one; the default limit is 4096), it returns a result that
    keeps the invariant and the event, moves forward, uses up some of the limit, and
    lands on an item exactly when it returns true; or it panics because a position
    it visits is one of those where [move_next] does.  Its loop is never cut short:
    every larger number of iterations gives the same result. *)
Theorem move_next_sibling_sound `{Target} name ed c
    (Hname : bytes_ok name) (Hdata : bytes_ok ed) (Hreach : reachable name ed c)
    (Hcan : can_move_next c.(state) = true) (Hmode : c.(substate) <> SsValueMetadata)
    (Hlimit : c.(move_next_remaining) < 2 ^ 31 - 1) :
  ((exists b c', move_next_sibling_impl ed c = Ret (b, c') /\ advanced_to ed c (b, c')) \/
   (move_next_sibling_impl ed c = Panic /\
    exists c', sibling_visits ed c c' /\ skip_overflows ed c')) /\
  (forall fuel, c.(move_next_remaining) < Z.of_nat fuel ->
     move_next_sibling_impl ed c = sibling_loop ed fuel 0 c).
Proof.
  destruct (reachable_facts name ed c Hname Hdata Hreach) as [HI [_ Hlen]].
  assert (HM : movable ed c) by done. pose proof (base_remaining _ _ (proj1 HI)).
  unfold move_next_sibling_impl. rewrite Hcan. cbn [rassert mbind outcome_bind]. split.
  - apply (sibling_loop_total ed Hdata Hlen); done || lia.
  - intros fuel Hf. apply (sibling_loop_fuel ed Hdata Hlen); [done|lia|done].
Qed.

Lemma move_next_sibling_sound_witness :
  ((exists b c', move_next_sibling_impl example_data example_array = Ret (b, c') /\
      advanced_to example_data example_array (b, c')) \/
   (move_next_sibling_impl example_data example_array = Panic /\
    exists c', sibling_visits example_data example_array c' /\ skip_overflows example_data c')) /\
  (forall fuel, example_array.(move_next_remaining) < Z.of_nat fuel ->
     move_next_sibling_impl example_data example_array
     = sibling_loop example_data fuel 0 example_array).
Proof.
  apply (move_next_sibling_sound example_name).
  - apply bytes_ok_decide. reflexivity.
  - apply bytes_ok_decide. reflexivity.
  - apply (example_reachable 2). vm_compute. reflexivity.
  - vm_compute. reflexivity.
  - vm_compute. discriminate.
  - vm_compute. reflexivity.
Defined.

(** C26. Metadata enumeration never panics from the positions it is specified for,
    and each declaration it reports consumes metadata, so it terminates; at its
    end all metadata has been used. *)
Theorem move_next_metadata_safe `{Target} name ed c
    (Hname : bytes_ok name) (Hdata : bytes_ok ed) (Hreach : reachable name ed c)
    (Hmode : c.(substate) = SsValueMetadata \/ c.(substate) = SsBeforeFirstItem) :
  exists b c', move_next_metadata_impl ed c = Ret (b, c') /\ Inv ed c' /\
    event_part c' = event_part c /\
    (if b then c'.(substate) = SsValueMetadata /\
       c.(stack_top).(next_offset) < c'.(stack_top).(next_offset) <= c'.(meta_end)
     else c'.(state) = StError \/
          c'.(state) = StAfterLastItem /\ c'.(stack_top).(next_offset) = c'.(meta_end)).
Proof.
  destruct (reachable_facts name ed c Hname Hdata Hreach) as [HI [_ Hlen]].
  destruct (wp_inv _ _ (move_next_metadata_ok ed Hdata Hlen c HI Hmode)) as ([b c'] & E & HI' & HE & Hb).
  exists b, c'. split_and!; try done. destruct b; [|done].
  destruct Hb as (Hs & _ & Hlt). pose proof (base_next_offset _ _ (proj1 HI')). split; [done|].
  cbn [snd] in *. lia.
Qed.

Lemma move_next_metadata_safe_witness :
  exists b c', move_next_metadata_impl example_data example_start = Ret (b, c') /\
    Inv example_data c' /\ event_part c' = event_part example_start /\
    (if b then c'.(substate) = SsValueMetadata /\
       example_start.(stack_top).(next_offset) < c'.(stack_top).(next_offset) <= c'.(meta_end)
     else c'.(state) = StError \/
          c'.(state) = StAfterLastItem /\ c'.(stack_top).(next_offset) = c'.(meta_end)).
Proof.
  apply (move_next_metadata_safe example_name).
  - apply bytes_ok_decide. reflexivity.
  - apply bytes_ok_decide. reflexivity.
  - apply (example_reachable 0). reflexivity.
  - right. vm_compute. reflexivity.
Defined.

(** ** Items *)

(** C22. At a reachable item, [item_info] panics exactly when the declaration is one
    of the two that [PerfItemMetadata::new] asserts against and the moves let through
    (both array flags set, or a struct without fields). For every other declaration
    it returns: the name and the value are slices of the event, and for fixed-size
    elements the value holds exactly [element_count] elements of [type_size] bytes. *)
Theorem item_info_in_bounds `{Target} name ed c
    (Hname : bytes_ok name) (Hdata : bytes_ok ed) (Hreach : reachable name ed c)
    (Hitem : can_item_info c.(state) = true) :
  (item_info ed c = Panic <-> ~ well_declared c.(field_type)) /\
  (well_declared c.(field_type) ->
   exists i, item_info ed c = Ret i /\
     (exists n, ii_name_bytes i = Ret n /\ len n = c.(stack_top).(name_len)) /\
     item_bytes (ii_value i)
       = sub ed c.(data_pos_cooked) (c.(data_pos_cooked) + c.(item_size_cooked)) /\
     c.(data_pos_cooked) + c.(item_size_cooked) <= len ed /\
     (let m := item_metadata (ii_value i) in
      type_size m <> 0 -> item_bytes (ii_value i) <> [] ->
      len (item_bytes (ii_value i)) = type_size m * element_count m)).
Proof.
  destruct (reachable_facts name ed c Hname Hdata Hreach) as [HI [_ Hlen]]. split.
  { split; [|by apply item_info_refused]. intros E Hdecl.
    pose proof (item_info_ok ed Hdata c HI Hitem Hdecl) as W. by rewrite E in W. }
  intros Hdecl.
  destruct (wp_inv _ _ (item_info_ok ed Hdata c HI Hitem Hdecl)) as (i & E & Hn & Hv & Hc & Ht & _).
  destruct (item_facts ed c HI Hitem) as (HL & Hp & Hz & Hle & _ & Hsz & _).
  exists i. split; [exact E|]. cbv zeta. rewrite Hn, Hv, Hc, Ht. split_and!; [|done|done|].
  - eexists. split; [done|]. destruct HL as (H1 & H2 & H3 & _). unfold type_offset in *.
    pose proof (base_bounds _ _ (proj1 HI)). rewrite len_sub; lia.
  - intros Hes Hne. rewrite len_sub by lia.
    assert (Hnz : c.(item_size_cooked) <> 0).
    { intros E0. apply Hne. rewrite E0, Z.add_0_r. unfold sub. by rewrite Z.sub_diag. }
    rewrite (Hsz Hes Hnz). lia.
Qed.

Lemma item_info_in_bounds_witness :
  exists i, item_info example_data example_array = Ret i /\
    (exists n, ii_name_bytes i = Ret n /\ len n = example_array.(stack_top).(name_len)) /\
    item_bytes (ii_value i)
      = sub example_data example_array.(data_pos_cooked)
          (example_array.(data_pos_cooked) + example_array.(item_size_cooked)) /\
    example_array.(data_pos_cooked) + example_array.(item_size_cooked) <= len example_data /\
    (let m := item_metadata (ii_value i) in
     type_size m <> 0 -> item_bytes (ii_value i) <> [] ->
     len (item_bytes (ii_value i)) = type_size m * element_count m).
Proof.
  apply (item_info_in_bounds example_name).
  - apply bytes_ok_decide. reflexivity.
  - apply bytes_ok_decide. reflexivity.
  - apply (example_reachable 2). vm_compute. reflexivity.
  - vm_compute. reflexivity.
  - split; vm_compute; discriminate.
Defined.

(** ** Arrays of fixed-size elements *)

(** Moving through an array of fixed-size elements visits each element in
    order and then the end of the array: the item after [k + 1] moves is exactly
    the [k]-th slice of the array's bytes, and all [count] elements need
    [count + 1] moves. *)
Theorem simple_array_elements `{Target} name ed c
    (Hname : bytes_ok name) (Hdata : bytes_ok ed) (Hreach : reachable name ed c)
    (Hpos : c.(substate) = SsArrayBegin) (Hsimple : c.(element_size) <> 0)
    (Hcount : c.(stack_top).(array_count) <> 0)
    (Hlimit : c.(stack_top).(array_count) < c.(move_next_remaining)) :
  (forall k, Z.of_nat k < c.(stack_top).(array_count) ->
     exists c', moves ed (S k) c = Ret (true, c') /\ c'.(state) = StValue /\
       c'.(stack_top).(array_index) = Z.of_nat k /\
       c'.(data_pos_cooked) = c.(data_pos_raw) + Z.of_nat k * c.(element_size) /\
       c'.(item_size_cooked) = c.(element_size)) /\
  (exists c', moves ed (S (Z.to_nat c.(stack_top).(array_count))) c = Ret (true, c') /\
     c'.(state) = StArrayEnd /\
     c'.(data_pos_raw)
       = c.(data_pos_raw) + c.(stack_top).(array_count) * c.(element_size)).
Proof.
  destruct (reachable_facts name ed c Hname Hdata Hreach) as [HI [_ Hlen]].
  assert (HA : at_simple_array ed c) by (split_and!; done). split.
  - intros k Hk. eexists. split; [apply (walk_elements ed Hlen c k HA Hk); lia|].
    unfold element_context, with_item, at_position, element_start. ctx. done.
  - eexists. split; [by apply (walk_array ed Hlen c HA)|].
    unfold array_end_context, with_item, at_position, element_start. ctx. done.
Qed.

Lemma simple_array_elements_witness :
  (forall k, Z.of_nat k < example_array.(stack_top).(array_count) ->
     exists c', moves example_data (S k) example_array = Ret (true, c') /\ c'.(state) = StValue /\
       c'.(stack_top).(array_index) = Z.of_nat k /\
       c'.(data_pos_cooked)
         = example_array.(data_pos_raw) + Z.of_nat k * example_array.(element_size) /\
       c'.(item_size_cooked) = example_array.(element_size)) /\
  (exists c', moves example_data (S (Z.to_nat example_array.(stack_top).(array_count)))
                example_array = Ret (true, c') /\
     c'.(state) = StArrayEnd /\
     c'.(data_pos_raw) = example_array.(data_pos_raw)
       + example_array.(stack_top).(array_count) * example_array.(element_size)).
Proof.
  apply (simple_array_elements example_name).
  - apply bytes_ok_decide. reflexivity.
  - apply bytes_ok_decide. reflexivity.
  - apply (example_reachable 2). vm_compute. reflexivity.
  - vm_compute. reflexivity.
  - vm_compute. discriminate.
  - vm_compute. discriminate.
  - vm_compute. reflexivity.
Defined.

(** C23. The fast path of [move_next_sibling] over an array of fixed-size elements
    agrees with visiting every element: both call [next_property] at the same
    data position and metadata position and with the same suspended structs; they
    differ in the moves they charge, one against [count + 2]. *)
Theorem simple_array_fast_path `{Target} name ed c
    (Hname : bytes_ok name) (Hdata : bytes_ok ed) (Hreach : reachable name ed c)
    (Hpos : c.(substate) = SsArrayBegin) (Hsimple : c.(element_size) <> 0)
    (Hcount : c.(stack_top).(array_count) <> 0)
    (Hlimit : c.(stack_top).(array_count) + 1 < c.(move_next_remaining)) :
  exists slow fast cend,
    moves ed (S (Z.to_nat c.(stack_top).(array_count))) c = Ret (true, cend) /\
    move_next_impl ed cend = next_property ed slow /\
    skip_simple_array ed c = next_property ed fast /\
    slow.(data_pos_raw) = fast.(data_pos_raw) /\ event_part slow = event_part fast /\
    slow.(stack_top).(next_offset) = fast.(stack_top).(next_offset) /\
    slow.(stack_top).(remaining_field_count) = fast.(stack_top).(remaining_field_count) /\
    (slow.(stack_index), slow.(stack)) = (fast.(stack_index), fast.(stack)) /\
    slow.(move_next_remaining) + c.(stack_top).(array_count) + 1 = fast.(move_next_remaining).
Proof.
  destruct (reachable_facts name ed c Hname Hdata Hreach) as [HI [_ Hlen]].
  assert (HA : at_simple_array ed c) by (split_and!; done).
  pose proof (simple_array_facts ed c HA) as (_ & _ & _ & _ & _ & Hn & _).
  eexists _, _, _. split; [apply (walk_array ed Hlen c HA); lia|].
  split; [apply (array_end_step ed c HA Hlimit)|].
  split; [apply (skip_array_eq ed Hlen c HA); lia|].
  unfold array_end_context, skipped_context, with_item, at_position, element_start, event_part. ctx.
  split_and!; done || lia.
Qed.

Lemma simple_array_fast_path_witness :
  exists slow fast cend,
    moves example_data (S (Z.to_nat example_array.(stack_top).(array_count))) example_array
      = Ret (true, cend) /\
    move_next_impl example_data cend = next_property example_data slow /\
    skip_simple_array example_data example_array = next_property example_data fast /\
    slow.(data_pos_raw) = fast.(data_pos_raw) /\ event_part slow = event_part fast /\
    slow.(stack_top).(next_offset) = fast.(stack_top).(next_offset) /\
    slow.(stack_top).(remaining_field_count) = fast.(stack_top).(remaining_field_count) /\
    (slow.(stack_index), slow.(stack)) = (fast.(stack_index), fast.(stack)) /\
    slow.(move_next_remaining) + example_array.(stack_top).(array_count) + 1
      = fast.(move_next_remaining).
Proof.
  apply (simple_array_fast_path example_name).
  - apply bytes_ok_decide. reflexivity.
  - apply bytes_ok_decide. reflexivity.
  - apply (example_reachable 2). vm_compute. reflexivity.
  - vm_compute. reflexivity.
  - vm_compute. discriminate.
  - vm_compute. discriminate.
  - vm_compute. reflexivity.
Defined.

(** ** Events the enumerator does not handle as documented *)

Definition skip_overflow_event : bytes :=
  example_event ([69; 0] ++ [97; 0; 0xC1; 0x7F] ++ [98; 0; 0x81; 0x7F] ++ [99; 0; 0x81; 0x7F])
    [0; 0].
(** An array of two structs with one [u8] field, of constant and of variable length. *)
Definition constant_struct_array_event : bytes :=
  example_event ([69; 0] ++ [97; 0; 0xA1; 1; 2; 0] ++ [102; 0; 2]) [1; 2].
Definition variable_struct_array_event : bytes :=
  example_event ([69; 0] ++ [97; 0; 0xC1; 1] ++ [102; 0; 2]) [2; 0; 1; 2].
Definition both_array_flags_event : bytes := example_event ([69; 0] ++ [97; 0; 0x62]) [1; 0; 9].
Definition empty_struct_array_event : bytes := example_event ([69; 0] ++ [97; 0; 0x41]) [1; 0].

(** The 8-bit field counter of [skip_struct_metadata] can overflow: for a
    zero-length array of a struct that nests two structs of 127 fields, the third
    [move_next] panics, although the documentation of [move_next] promises an
    error state for malformed events. *)
Lemma skip_counter_overflows :
  exists c, moves skip_overflow_event 2 (started_at skip_overflow_event 100) = Ret (true, c) /\
    can_move_next c.(state) = true /\ skips_struct c = true /\
    move_next_impl skip_overflow_event c = Panic.
Proof. eexists. split; [vm_compute; reflexivity|]. split_and!; vm_compute; reflexivity. Qed.

(** Arrays of structs with a constant length of two or more are not decoded:
    after the first element the metadata position is the array's length instead
    of the first field, so an event that decodes as a variable-length array fails
    with [InvalidData] as a constant-length one. *)
Lemma constant_struct_array_fails :
  (exists c, moves constant_struct_array_event 6 (started_at constant_struct_array_event 100)
               = Ret (false, c) /\ c.(state) = StError /\ c.(last_error) = ErInvalidData) /\
  (exists c, moves variable_struct_array_event 9 (started_at variable_struct_array_event 100)
               = Ret (false, c) /\ c.(state) = StAfterLastItem /\ c.(last_error) = ErSuccess).
Proof. split; (eexists; split; [vm_compute; reflexivity|]; split; vm_compute; reflexivity). Qed.

(** Two declarations that the enumerator accepts as items make [item_info]
    panic: an array with both array flags, which should be rejected as
    [NotSupported], and an array of structs without fields, which should be
    rejected as [InvalidData]. *)
Lemma bad_declarations_accepted :
  (exists c, moves both_array_flags_event 1 (started_at both_array_flags_event 100)
               = Ret (true, c) /\ item_info both_array_flags_event c = Panic) /\
  (exists c, moves empty_struct_array_event 1 (started_at empty_struct_array_event 100)
               = Ret (true, c) /\ item_info empty_struct_array_event c = Panic).
Proof. split; (eexists; split; [vm_compute; reflexivity|]; vm_compute; reflexivity). Qed.
