(* ===== verification/Guid.v ===== *)
(** * Guid: provider ids (eventheader_types/src/guid.rs)

    A [Guid] is its sixteen bytes in memory order.  Parsing and printing, the
    conversions between byte orders, and the SHA-1 hasher behind [from_name],
    which is compared with a block-by-block definition of SHA-1 in GuidProps. *)

From S2P Require Import Prelude.

(** ** Conversions *)

(* guid.rs: Guid::zero *)
Definition Guid_zero : bytes := repeat 0 16.

(* guid.rs: Guid::from_fields *)
Definition Guid_from_fields (data1 data2 data3 : Z) (data4 : bytes) : bytes :=
  be_bytes 4 data1 ++ be_bytes 2 data2 ++ be_bytes 2 data3 ++ data4.

(* guid.rs: Guid::from_bytes_be *)
Definition Guid_from_bytes_be (b : bytes) : bytes := b.

(** [b[i]] for an array of sixteen bytes, where every index is in range. *)
Definition at16 (b : bytes) (i : nat) : Z := nth i b 0.

(** The permutation that both byte-order conversions apply. *)
Definition swap_fields (b : bytes) : bytes :=
  map (at16 b) [3; 2; 1; 0; 5; 4; 7; 6; 8; 9; 10; 11; 12; 13; 14; 15]%nat.

(* guid.rs: Guid::from_bytes_le *)
Definition Guid_from_bytes_le (b : bytes) : bytes := swap_fields b.

(* guid.rs: Guid::from_u128 *)
Definition Guid_from_u128 (value : Z) : bytes := be_bytes 16 value.

(* guid.rs: Guid::to_fields *)
Definition Guid_to_fields (g : bytes) : Z * Z * Z * bytes :=
  (be_value (take 4 g), be_value (take 2 (drop 4 g)), be_value (take 2 (drop 6 g)), drop 8 g).

(* guid.rs: Guid::to_bytes_be *)
Definition Guid_to_bytes_be (g : bytes) : bytes := g.
(* guid.rs: Guid::as_bytes_raw *)
Definition Guid_as_bytes_raw (g : bytes) : bytes := g.
(* guid.rs: Guid::to_bytes_le *)
Definition Guid_to_bytes_le (g : bytes) : bytes := swap_fields g.
(* guid.rs: Guid::to_u128 *)
Definition Guid_to_u128 (g : bytes) : Z := be_value g.

(** ** Printing and parsing *)

Definition HEX_DIGITS : bytes := [48; 49; 50; 51; 52; 53; 54; 55; 56; 57; 97; 98; 99; 100; 101; 102].

(** The two digits of one byte. *)
Definition hex_pair (b : Z) : bytes :=
  [nth (Z.to_nat (Z.shiftr b 4)) HEX_DIGITS 0; nth (Z.to_nat (Z.land b 0xf)) HEX_DIGITS 0].

(* guid.rs: Guid::to_utf8_bytes *)
Definition Guid_to_utf8_bytes (g : bytes) : bytes :=
  flat_map (fun i => hex_pair (at16 g i)) [0; 1; 2; 3]%nat ++ [45] ++
  flat_map (fun i => hex_pair (at16 g i)) [4; 5]%nat ++ [45] ++
  flat_map (fun i => hex_pair (at16 g i)) [6; 7]%nat ++ [45] ++
  flat_map (fun i => hex_pair (at16 g i)) [8; 9]%nat ++ [45] ++
  flat_map (fun i => hex_pair (at16 g i)) [10; 11; 12; 13; 14; 15]%nat.

(* guid.rs: struct GuidParseState *)
Record GuidParseState := {
  gp_input : bytes;
  gp_pos : Z;
  gp_dash : Z;
  gp_highbits : Z;
}.

(* guid.rs: GuidParseState::hex_to_u4 *)
Definition hex_to_u4 (ch : Z) : Z :=
  let index := as_unsigned 8 (ch - 48) in
  if index <? 10 then index
  else
    let index := as_unsigned 8 (Z.lor ch 32 - 97) in
    if index <? 6 then index + 10 else 256.

(* guid.rs: GuidParseState::next *)
Definition gp_next (s : GuidParseState) : outcome (Z * GuidParseState) :=
  c1 ← index s.(gp_input) s.(gp_pos);
  let val1 := hex_to_u4 c1 in
  c2 ← index s.(gp_input) (s.(gp_pos) + 1);
  let val2 := hex_to_u4 c2 in
  let val := Z.lor (Z.shiftl val1 4) val2 in
  Ret (as_unsigned 8 val,
       {| gp_input := s.(gp_input); gp_pos := s.(gp_pos) + 2; gp_dash := s.(gp_dash);
          gp_highbits := Z.lor s.(gp_highbits) val |}).

(* guid.rs: GuidParseState::next_dash *)
Definition gp_next_dash (s : GuidParseState) : outcome (Z * GuidParseState) :=
  gp_next {| gp_input := s.(gp_input); gp_pos := s.(gp_pos) + s.(gp_dash);
             gp_dash := s.(gp_dash); gp_highbits := s.(gp_highbits) |}.

(** The array expression of [try_parse_ascii]: [true] stands for [next_dash]. *)
Fixpoint gp_bytes (dashes : list bool) (s : GuidParseState) : outcome (bytes * GuidParseState) :=
  match dashes with
  | [] => Ret ([], s)
  | d :: dashes =>
    '(b, s) ← (if d then gp_next_dash s else gp_next s);
    '(bs, s) ← gp_bytes dashes s;
    Ret (b :: bs, s)
  end.

Definition guid_dashes : list bool :=
  [false; false; false; false; true; false; true; false; true; false; true; false;
   false; false; false; false].

(* guid.rs: Guid::try_parse_ascii *)
Definition Guid_try_parse_ascii (value : bytes) : outcome (option bytes) :=
  if len value <? 32 then Ret None
  else
    first ← index value 0;
    braced ← (if negb (first =? 123) then Ret false
              else last ← index value (len value - 1); Ret (negb (negb (last =? 125))));
    input ← (if (braced : bool) then slice value 1 (len value - 1) else Ret value);
    i8 ← index input 8; i13 ← index input 13; i18 ← index input 18; i23 ← index input 23;
    let dashed :=
      (len input =? 36) && (i8 =? 45) && (i13 =? 45) && (i18 =? 45) && (i23 =? 45) in
    if negb dashed && negb (len input =? 32) then Ret None
    else
      '(b, s) ← gp_bytes guid_dashes
                  {| gp_input := input; gp_pos := 0; gp_dash := if dashed then 1 else 0;
                     gp_highbits := 0 |};
      if negb (Z.land s.(gp_highbits) 0xFFFFFF00 =? 0) then Ret None
      else Ret (Some (Guid_from_bytes_be b)).

(* guid.rs: Guid::try_parse *)
Definition Guid_try_parse (value : bytes) : outcome (option bytes) := Guid_try_parse_ascii value.

(** ** The SHA-1 hasher *)

(* guid.rs: struct Sha1NonSecret *)
Record Sha1NonSecret := {
  chunk : bytes;
  chunk_count : Z;
  chunk_pos : Z;
  results : list Z;
}.

(* guid.rs: Sha1NonSecret::new *)
Definition Sha1_new : Sha1NonSecret :=
  {| chunk := repeat 0 64; chunk_count := 0; chunk_pos := 0;
     results := [0x67452301; 0xEFCDAB89; 0x98BADCFE; 0x10325476; 0xC3D2E1F0] |}.

(** [u32::rotate_left], [u32::wrapping_add] and [!] on a [u32]. *)
Definition rotate_left (n x : Z) : Z :=
  Z.lor (as_unsigned 32 (Z.shiftl x n)) (Z.shiftr x (32 - n)).
Definition wrapping_add (x y : Z) : Z := as_unsigned 32 (x + y).
Definition not_u32 (x : Z) : Z := 2 ^ 32 - 1 - x.

(* guid.rs:436-444: Sha1NonSecret::drain, the first sixteen words; [n] is the count left *)
Fixpoint drain_words (chunk : bytes) (n : nat) (wpos : Z) (w : list Z) : outcome (list Z) :=
  match n with
  | O => Ret w
  | S n =>
    b0 ← index chunk (wpos * 4); b1 ← index chunk (wpos * 4 + 1);
    b2 ← index chunk (wpos * 4 + 2); b3 ← index chunk (wpos * 4 + 3);
    w ← store w wpos (be_value [b0; b1; b2; b3]);
    drain_words chunk n (wpos + 1) w
  end.

(* guid.rs:446-449: Sha1NonSecret::drain, the other words; [n] is the count left *)
Fixpoint drain_extend (n : nat) (wpos : Z) (w : list Z) : outcome (list Z) :=
  match n with
  | O => Ret w
  | S n =>
    a ← index w (wpos - 3); b ← index w (wpos - 8);
    c ← index w (wpos - 14); d ← index w (wpos - 16);
    w ← store w wpos (rotate_left 1 (Z.lxor (Z.lxor (Z.lxor a b) c) d));
    drain_extend n (wpos + 1) w
  end.

Definition Sha1Vars : Type := Z * Z * Z * Z * Z.

(* guid.rs:458-473: Sha1NonSecret::drain, a run of rounds with one K and one f *)
Fixpoint drain_rounds (k : Z) (f : Z -> Z -> Z -> Z) (w : list Z) (n : nat) (wpos : Z)
    (v : Sha1Vars) : outcome Sha1Vars :=
  match n with
  | O => Ret v
  | S n =>
    let '(a, b, c, d, e) := v in
    wi ← index w wpos;
    let temp := wrapping_add (wrapping_add (wrapping_add (wrapping_add (rotate_left 5 a)
                  (f b c d)) e) k) wi in
    drain_rounds k f w n (wpos + 1) (temp, a, rotate_left 30 b, c, d)
  end.

Definition f_ch (b c d : Z) : Z := Z.lor (Z.land b c) (Z.land (not_u32 b) d).
Definition f_parity (b c d : Z) : Z := Z.lxor (Z.lxor b c) d.
Definition f_maj (b c d : Z) : Z := Z.lor (Z.lor (Z.land b c) (Z.land b d)) (Z.land c d).

(* guid.rs:433-449: Sha1NonSecret::drain, the message schedule *)
Definition drain_schedule (chunk : bytes) : outcome (list Z) :=
  w ← drain_words chunk 16 0 (repeat 0 80);
  drain_extend 64 16 w.

(* guid.rs:457-524: Sha1NonSecret::drain, the four runs of rounds *)
Definition drain_phases (w : list Z) (v : Sha1Vars) : outcome Sha1Vars :=
  v ← drain_rounds 0x5A827999 f_ch w 20 0 v;
  v ← drain_rounds 0x6ED9EBA1 f_parity w 20 20 v;
  v ← drain_rounds 0x8F1BBCDC f_maj w 20 40 v;
  drain_rounds 0xCA62C1D6 f_parity w 20 60 v.

(* guid.rs: Sha1NonSecret::drain *)
Definition Sha1_drain (s : Sha1NonSecret) : outcome Sha1NonSecret :=
  w ← drain_schedule s.(chunk);
  r0 ← index s.(results) 0; r1 ← index s.(results) 1; r2 ← index s.(results) 2;
  r3 ← index s.(results) 3; r4 ← index s.(results) 4;
  '(a, b, c, d, e) ← drain_phases w (r0, r1, r2, r3, r4);
  count ← u32 (s.(chunk_count) + 1);
  Ret {| chunk := s.(chunk); chunk_count := count; chunk_pos := s.(chunk_pos);
         results := [wrapping_add r0 a; wrapping_add r1 b; wrapping_add r2 c;
                     wrapping_add r3 d; wrapping_add r4 e] |}.

(* guid.rs: Sha1NonSecret::write_u8 *)
Definition Sha1_write_u8 (val : Z) (s : Sha1NonSecret) : outcome Sha1NonSecret :=
  ch ← store s.(chunk) s.(chunk_pos) val;
  p ← u8 (s.(chunk_pos) + 1);
  let pos := Z.land p 63 in
  let s := {| chunk := ch; chunk_count := s.(chunk_count); chunk_pos := pos;
              results := s.(results) |} in
  if pos =? 0 then Sha1_drain s else Ret s.

(* guid.rs: Sha1NonSecret::write *)
Fixpoint Sha1_write (l : bytes) (s : Sha1NonSecret) : outcome Sha1NonSecret :=
  match l with
  | [] => Ret s
  | b :: l => s ← Sha1_write_u8 b s; Sha1_write l s
  end.

(** [while self.chunk_pos != 56 { self.write_u8(0) }]: at most 63 writes. *)
Fixpoint Sha1_zero_fill (fuel : nat) (s : Sha1NonSecret) : outcome Sha1NonSecret :=
  match fuel with
  | O => Panic
  | S fuel =>
    if s.(chunk_pos) =? 56 then Ret s
    else s ← Sha1_write_u8 0 s; Sha1_zero_fill fuel s
  end.

(* guid.rs: Sha1NonSecret::finish *)
Definition Sha1_finish (s : Sha1NonSecret) : outcome bytes :=
  m ← u64 (s.(chunk_count) * 512);
  total_bit_count ← u64 (m + s.(chunk_pos) * 8);
  s ← Sha1_write_u8 0x80 s;
  s ← Sha1_zero_fill 64 s;
  s ← Sha1_write (be_bytes 8 total_bit_count) s;
  _ ← rassert (s.(chunk_pos) =? 0);
  Ret (flat_map (be_bytes 4) s.(results)).

(** [char::encode_utf16]. *)
Definition encode_utf16 (ch : Z) : list Z :=
  if ch <? 0x10000 then [ch]
  else let c := ch - 0x10000 in
       [Z.lor 0xD800 (Z.shiftr c 10); Z.lor 0xDC00 (Z.land c 0x3FF)].

Definition guid_namespace : bytes :=
  [0x48; 0x2C; 0x2D; 0xB2; 0xC3; 0x90; 0x47; 0xC8; 0x87; 0xF8; 0x1A; 0x15; 0xBF; 0xC1; 0x30; 0xFB].

Section Name.
(** [char::to_uppercase], the Unicode table of the standard library. *)
Context (to_uppercase : Z -> list Z).

(** The bytes hashed for a name given as a list of code points. *)
Definition name_bytes (name : list Z) : bytes :=
  flat_map (fun ch => flat_map (fun u => be_bytes 2 u) (encode_utf16 ch))
    (flat_map to_uppercase name).

(* guid.rs: Guid::from_name *)
Definition Guid_from_name (name : list Z) : outcome bytes :=
  s ← Sha1_write guid_namespace Sha1_new;
  s ← Sha1_write (name_bytes name) s;
  v ← Sha1_finish s;
  b7 ← index v 7;
  v ← store v 7 (Z.lor (Z.land b7 0x0F) 0x50);
  b ← slice v 0 16;
  Ret (Guid_from_bytes_le b).
End Name.
