(* ===== verification/GuidProps.v ===== *)
(** * GuidProps: properties of provider ids

    Parsing accepts exactly the documented texts and inverts printing; the byte
    order conversions are inverse to each other; the streaming SHA-1 hasher
    computes SHA-1. *)

From S2P Require Import Prelude Guid.

(** ** Conversions *)

(** A list of sixteen bytes, element by element. *)
Lemma sixteen (g : bytes) :
  length g = 16%nat ->
  g = map (at16 g) [0; 1; 2; 3; 4; 5; 6; 7; 8; 9; 10; 11; 12; 13; 14; 15]%nat.
Proof. intros H. do 16 (destruct g as [|? g]; [done|]). by destruct g. Qed.

Lemma Guid_le_involutive g : length g = 16%nat -> swap_fields (swap_fields g) = g.
Proof. intros H. rewrite (sixteen g H) at 2. reflexivity. Qed.

(** ** Digits *)

Definition lower (c : Z) : Z := if (65 <=? c) && (c <=? 90) then c + 32 else c.
Definition is_hex_digit (c : Z) : bool :=
  ((48 <=? c) && (c <=? 57)) || ((97 <=? c) && (c <=? 102)) || ((65 <=? c) && (c <=? 70)).

(** Every byte is a digit with a value below 16 that prints as it was, in lower
    case, or is given the value 256. *)
Definition hex_facts (c : Z) : bool :=
  let v := hex_to_u4 c in
  if is_hex_digit c then (0 <=? v) && (v <? 16) && (nth (Z.to_nat v) HEX_DIGITS 0 =? lower c)
  else v =? 256.

Lemma hex_facts_hold c : is_u8 c -> hex_facts c = true.
Proof. apply u8_exhaustive. vm_compute. reflexivity. Qed.

Definition pair_value (v1 v2 : Z) : Z := Z.lor (Z.shiftl v1 4) v2.
Definition digit_values : list Z := map Z.of_nat (seq 0 16) ++ [256].

Definition pair_facts (p : Z * Z) : bool :=
  let '(v1, v2) := p in
  let v := pair_value v1 v2 in
  Bool.eqb (Z.land v 0xFFFFFF00 =? 0) ((v1 <? 16) && (v2 <? 16)) &&
  (if (v1 <? 16) && (v2 <? 16)
   then (Z.shiftr v 4 =? v1) && (Z.land v 0xf =? v2) && (0 <=? v) && (v <? 256) else true).

Lemma pair_facts_hold v1 v2 : In v1 digit_values -> In v2 digit_values -> pair_facts (v1, v2) = true.
Proof.
  intros H1 H2. assert (E : forallb pair_facts (list_prod digit_values digit_values) = true)
    by (vm_compute; reflexivity).
  rewrite forallb_forall in E. apply E. by apply in_prod.
Qed.

Lemma hex_to_u4_value c : is_u8 c -> In (hex_to_u4 c) digit_values.
Proof.
  intros H%hex_facts_hold. unfold hex_facts in H. apply in_app_iff. case_match; bool_hyps.
  - left. apply in_map_iff. exists (Z.to_nat (hex_to_u4 c)). split; [lia|]. apply in_seq. lia.
  - right. left. done.
Qed.

Lemma pair_valid c1 c2 :
  is_u8 c1 -> is_u8 c2 ->
  let v := pair_value (hex_to_u4 c1) (hex_to_u4 c2) in
  (Z.land v 0xFFFFFF00 =? 0) = is_hex_digit c1 && is_hex_digit c2 /\
  (is_hex_digit c1 && is_hex_digit c2 = true ->
   0 <= v < 256 /\ hex_pair v = [lower c1; lower c2]).
Proof.
  intros H1 H2 v. pose proof (hex_facts_hold _ H1) as F1. pose proof (hex_facts_hold _ H2) as F2.
  pose proof (pair_facts_hold _ _ (hex_to_u4_value _ H1) (hex_to_u4_value _ H2)) as P.
  unfold pair_facts in P. fold v in P. bool_hyps. unfold hex_facts in F1, F2.
  match goal with H : (Z.land v _ =? 0) = _ |- _ => rewrite H end.
  assert (E1 : (hex_to_u4 c1 <? 16) = is_hex_digit c1)
    by (destruct (is_hex_digit c1); bool_hyps; bool_solve).
  assert (E2 : (hex_to_u4 c2 <? 16) = is_hex_digit c2)
    by (destruct (is_hex_digit c2); bool_hyps; bool_solve).
  rewrite E1, E2 in *. split; [done|]. intros Hd.
  apply andb_prop in Hd as [D1 D2]. rewrite D1, D2 in *. cbn [andb] in *. bool_hyps.
  split; [lia|].
  unfold hex_pair. repeat match goal with H : Z.shiftr v 4 = _ |- _ => rewrite H; clear H
    | H : Z.land v 0xf = _ |- _ => rewrite H; clear H end. by f_equal; [|f_equal].
Qed.

(** The printed digits of a byte parse back to it. *)
Definition print_facts (b : Z) : bool :=
  match hex_pair b with
  | [c1; c2] => is_hex_digit c1 && is_hex_digit c2 && (0 <=? c1) && (c1 <? 256) && (0 <=? c2)
                && (c2 <? 256) && (pair_value (hex_to_u4 c1) (hex_to_u4 c2) =? b)
                && (lower c1 =? c1) && (lower c2 =? c2)
  | _ => false
  end.

Lemma print_facts_hold b : is_u8 b -> print_facts b = true.
Proof. apply u8_exhaustive. vm_compute. reflexivity. Qed.

(** ** The text format *)

(** The text without the optional braces. *)
Definition unbrace (v : bytes) : bytes :=
  if (byte_at v 0 =? 123) && (byte_at v (len v - 1) =? 125) then sub v 1 (len v - 1) else v.

Definition has_dashes (t : bytes) : bool :=
  (len t =? 36) && (byte_at t 8 =? 45) && (byte_at t 13 =? 45) && (byte_at t 18 =? 45)
  && (byte_at t 23 =? 45).

Definition remove_dashes (t : bytes) : bytes :=
  take 8 t ++ take 4 (drop 9 t) ++ take 4 (drop 14 t) ++ take 4 (drop 19 t) ++ drop 24 t.

(** The 32 characters that stand for the digits of a GUID text, if it has the
    right shape. *)
Definition guid_digits (v : bytes) : option bytes :=
  let t := unbrace v in
  if len v <? 32 then None
  else if has_dashes t then Some (remove_dashes t)
  else if len t =? 32 then Some t else None.

Fixpoint pair_values (ds : bytes) : list Z :=
  match ds with
  | c1 :: c2 :: ds => pair_value (hex_to_u4 c1) (hex_to_u4 c2) :: pair_values ds
  | _ => []
  end.

Definition or_all (l : list Z) : Z := fold_left Z.lor l 0.

(** Where the sixteen digit pairs start. *)
Fixpoint gp_offsets (ds : list bool) (dash pos : Z) : list Z :=
  match ds with
  | [] => []
  | d :: ds => let p := if d then pos + dash else pos in p :: gp_offsets ds dash (p + 2)
  end.
Definition value_at (t : bytes) (p : Z) : Z :=
  pair_value (hex_to_u4 (byte_at t p)) (hex_to_u4 (byte_at t (p + 1))).

Lemma gp_next_ok t pos dash h :
  0 <= pos -> pos + 1 < len t ->
  gp_next {| gp_input := t; gp_pos := pos; gp_dash := dash; gp_highbits := h |} =
  Ret (as_unsigned 8 (value_at t pos),
       {| gp_input := t; gp_pos := pos + 2; gp_dash := dash;
          gp_highbits := Z.lor h (value_at t pos) |}).
Proof.
  intros H1 H2. unfold gp_next. cbn [gp_input gp_pos gp_dash gp_highbits].
  rewrite (index_byte_at t pos) by lia. cbn [mbind outcome_bind].
  rewrite (index_byte_at t (pos + 1)) by lia. reflexivity.
Qed.

Lemma gp_bytes_ok ds t dash pos h :
  Forall (fun p => 0 <= p /\ p + 1 < len t) (gp_offsets ds dash pos) ->
  exists p', gp_bytes ds {| gp_input := t; gp_pos := pos; gp_dash := dash; gp_highbits := h |} =
  Ret (map (as_unsigned 8) (map (value_at t) (gp_offsets ds dash pos)),
       {| gp_input := t; gp_pos := p'; gp_dash := dash;
          gp_highbits := fold_left Z.lor (map (value_at t) (gp_offsets ds dash pos)) h |}).
Proof.
  revert pos h. induction ds as [|d ds IH]; intros pos h HF; cbn [gp_bytes gp_offsets map fold_left].
  - by exists pos.
  - cbn [gp_offsets] in HF. inversion HF as [|? ? [H1 H2] HF']; subst; clear HF; rename HF' into HF.
    unfold gp_next_dash. cbn [gp_input gp_pos gp_dash gp_highbits].
    destruct d; (rewrite gp_next_ok by done); cbn [mbind outcome_bind];
      lazymatch goal with
      | |- context [gp_bytes ds (Build_GuidParseState _ _ _ ?h)] => destruct (IH _ h HF) as [p' ->]
      end; cbn [mbind outcome_bind]; by exists p'.
Qed.

Lemma offsets_plain t :
  length t = 32%nat -> map (value_at t) (gp_offsets guid_dashes 0 0) = pair_values t.
Proof.
  intros H. do 32 (destruct t as [|? t]; [done|]). destruct t; [|done].
  cbv -[hex_to_u4 pair_value]. reflexivity.
Qed.

Lemma offsets_dashed t :
  length t = 36%nat ->
  map (value_at t) (gp_offsets guid_dashes 1 0) = pair_values (remove_dashes t).
Proof.
  intros H. do 36 (destruct t as [|? t]; [done|]). destruct t; [|done].
  cbv -[hex_to_u4 pair_value]. reflexivity.
Qed.

Lemma land_fold_lor l h m :
  Z.land (fold_left Z.lor l h) m = 0 <-> Z.land h m = 0 /\ Forall (fun v => Z.land v m = 0) l.
Proof.
  revert h. induction l as [|v l IH]; intros h; cbn [fold_left]; [by split; [|intros []]|].
  rewrite IH, Z.land_lor_distr_l, Z.lor_eq_0_iff. split.
  - intros [[H1 H2] H3]. split; [done|]. by constructor.
  - intros [H1 H2]. inversion H2; subst. done.
Qed.

(** Induction on lists two elements at a time. *)
Lemma pairs_ind (P : bytes -> Prop) :
  P [] -> (forall c1 c2 ds, P ds -> P (c1 :: c2 :: ds)) ->
  forall ds, Nat.even (length ds) = true -> P ds.
Proof.
  intros H0 H2 ds. remember (length ds) as n eqn:E. revert ds E.
  induction n as [n IH] using lt_wf_ind. intros [|c1 [|c2 ds]] -> Hn; [done|done|].
  apply H2. eapply IH; [|reflexivity|exact Hn]. cbn. lia.
Qed.

Lemma pair_values_digits ds :
  Nat.even (length ds) = true -> bytes_ok ds ->
  (Z.land (or_all (pair_values ds)) 0xFFFFFF00 =? 0) = forallb is_hex_digit ds /\
  (forallb is_hex_digit ds = true ->
   map (as_unsigned 8) (pair_values ds) = pair_values ds /\ bytes_ok (pair_values ds) /\
   flat_map hex_pair (pair_values ds) = map lower ds).
Proof.
  intros Hev Hok. unfold or_all.
  assert (HF : Forall (fun v => Z.land v 0xFFFFFF00 = 0) (pair_values ds)
               <-> forallb is_hex_digit ds = true).
  { revert Hok. pattern ds. revert ds Hev. apply pairs_ind; [done|]. intros c1 c2 ds IH Hok.
    inversion Hok as [|? ? Hc1 Hok1]; subst. inversion Hok1 as [|? ? Hc2 Hok2]; subst.
    cbn [pair_values forallb]. destruct (pair_valid c1 c2 Hc1 Hc2) as [Ev _].
    rewrite Forall_cons_iff, (IH Hok2), <- Z.eqb_eq, Ev, !andb_true_iff. tauto. }
  split.
  - apply eq_true_iff_eq. rewrite Z.eqb_eq, land_fold_lor, HF. by split; [intros []|].
  - clear HF. revert Hok. pattern ds. revert ds Hev. apply pairs_ind; [done|]. intros c1 c2 ds IH Hok Hd.
    inversion Hok as [|? ? Hc1 Hok1]; subst. inversion Hok1 as [|? ? Hc2 Hok2]; subst.
    cbn [forallb] in Hd. rewrite andb_assoc in Hd. apply andb_prop in Hd as [Hd1 Hd2].
    destruct (pair_valid c1 c2 Hc1 Hc2) as [_ Hv]. destruct (Hv Hd1) as [Hr Hp].
    destruct (IH Hok2 Hd2) as (I1 & I2 & I3). cbn [pair_values map flat_map].
    rewrite I1, I3, as_unsigned_id by lia. unfold pair_value in *. rewrite Hp.
    split_and!; [done| |done]. by constructor.
Qed.

(** [try_parse_ascii] as a function of the digits of the text. *)
Lemma try_parse_ascii_eq v :
  bytes_ok v ->
  Guid_try_parse_ascii v =
    Ret (match guid_digits v with
         | Some ds => if forallb is_hex_digit ds then Some (pair_values ds) else None
         | None => None
         end).
Proof.
  intros Hv. unfold Guid_try_parse_ascii, guid_digits. case_match eqn:E32; [done|]. bool_hyps.
  rewrite (index_byte_at v 0) by lia. cbn [mbind outcome_bind].
  assert (Eb : (if negb (byte_at v 0 =? 123) then Ret false
                else last ← index v (len v - 1); Ret (negb (negb (last =? 125))))
               = Ret ((byte_at v 0 =? 123) && (byte_at v (len v - 1) =? 125))).
  { destruct (byte_at v 0 =? 123); cbn [negb andb]; [|done].
    rewrite index_byte_at by lia. cbn [mbind outcome_bind]. by rewrite negb_involutive. }
  rewrite Eb. cbn [mbind outcome_bind]. clear Eb.
  assert (Eu : (if (byte_at v 0 =? 123) && (byte_at v (len v - 1) =? 125)
                then slice v 1 (len v - 1) else Ret v) = Ret (unbrace v)).
  { unfold unbrace. case_match; [|done]. apply slice_ok; lia. }
  rewrite Eu. cbn [mbind outcome_bind]. clear Eu.
  assert (Hlen : 30 <= len (unbrace v)).
  { unfold unbrace. case_match; [rewrite len_sub; lia|lia]. }
  assert (Ht : bytes_ok (unbrace v)) by (unfold unbrace; case_match; [by apply bytes_ok_sub|done]).
  revert Hlen Ht. generalize (unbrace v) as t. clear v Hv E32. intros t Hlen Ht.
  rewrite !index_byte_at by lia. cbn [mbind outcome_bind]. fold (has_dashes t).
  assert (Hparse : forall dash ds, length ds = 32%nat -> bytes_ok ds ->
     map (value_at t) (gp_offsets guid_dashes dash 0) = pair_values ds ->
     Forall (fun p => 0 <= p /\ p + 1 < len t) (gp_offsets guid_dashes dash 0) ->
     ('(b, s) ← gp_bytes guid_dashes {| gp_input := t; gp_pos := 0; gp_dash := dash; gp_highbits := 0 |};
      if negb (Z.land s.(gp_highbits) 0xFFFFFF00 =? 0) then Ret None
      else Ret (Some (Guid_from_bytes_be b)))
     = Ret (if forallb is_hex_digit ds then Some (pair_values ds) else None)).
  { intros dash ds Hl Hok Ho HF. destruct (gp_bytes_ok guid_dashes t dash 0 0 HF) as [p' ->].
    cbn [mbind outcome_bind gp_highbits]. rewrite Ho. fold (or_all (pair_values ds)).
    destruct (pair_values_digits ds ltac:(by rewrite Hl) Hok) as [-> Hd].
    destruct (forallb _ _); [|done]. cbn [negb]. destruct (Hd eq_refl) as (-> & _). done. }
  destruct (has_dashes t) eqn:Ed; cbn [negb andb].
  - unfold has_dashes in Ed. bool_hyps. unfold len in *.
    apply Hparse; [| | apply offsets_dashed; lia |].
    + unfold remove_dashes. rewrite !length_app, !length_take, !length_drop. lia.
    + unfold remove_dashes, bytes_ok. rewrite !Forall_app. split_and!;
        repeat first [apply Forall_take | apply Forall_drop]; done.
    + cbn. repeat constructor; lia.
  - destruct (Z.eqb_spec (len t) 32) as [E|E]; cbn [negb]; [|done]. unfold len in *.
    apply Hparse; [lia|done|apply offsets_plain; lia|]. cbn. repeat constructor; lia.
Qed.

(** ** SHA-1, block by block (FIPS 180) *)

Definition sha1_word (block : bytes) (i : nat) : Z :=
  be_value (map (fun j => nth (4 * i + j) block 0) [0; 1; 2; 3]%nat).

Definition sha1_next_word (w : list Z) : Z :=
  let t := length w in
  rotate_left 1 (Z.lxor (Z.lxor (Z.lxor (nth (t - 3) w 0) (nth (t - 8) w 0))
                                (nth (t - 14) w 0)) (nth (t - 16) w 0)).

Fixpoint sha1_extend (n : nat) (w : list Z) : list Z :=
  match n with O => w | S n => sha1_extend n (w ++ [sha1_next_word w]) end.

(** The message schedule of a block of 64 bytes. *)
Definition sha1_schedule (block : bytes) : list Z :=
  sha1_extend 64 (map (sha1_word block) (seq 0 16)).

Definition sha1_k (t : nat) : Z :=
  if (t <? 20)%nat then 0x5A827999 else if (t <? 40)%nat then 0x6ED9EBA1
  else if (t <? 60)%nat then 0x8F1BBCDC else 0xCA62C1D6.
Definition sha1_f (t : nat) : Z -> Z -> Z -> Z :=
  if (t <? 20)%nat then f_ch else if (t <? 40)%nat then f_parity
  else if (t <? 60)%nat then f_maj else f_parity.

Definition sha1_step (k : Z) (f : Z -> Z -> Z -> Z) (wt : Z) (v : Sha1Vars) : Sha1Vars :=
  let '(a, b, c, d, e) := v in
  (wrapping_add (wrapping_add (wrapping_add (wrapping_add (rotate_left 5 a) (f b c d)) e) k) wt,
   a, rotate_left 30 b, c, d).

Definition sha1_rounds (w : list Z) (v : Sha1Vars) : Sha1Vars :=
  fold_left (fun v t => sha1_step (sha1_k t) (sha1_f t) (nth t w 0) v) (seq 0 80) v.

Definition sha1_add (h v : Sha1Vars) : Sha1Vars :=
  let '(h0, h1, h2, h3, h4) := h in let '(a, b, c, d, e) := v in
  (wrapping_add h0 a, wrapping_add h1 b, wrapping_add h2 c, wrapping_add h3 d, wrapping_add h4 e).

Definition sha1_compress (h : Sha1Vars) (block : bytes) : Sha1Vars :=
  sha1_add h (sha1_rounds (sha1_schedule block) h).

(** The blocks of 64 bytes of a message, without an incomplete last one. *)
Definition blocks (l : bytes) : list bytes :=
  map (fun i => take 64 (drop (64 * i) l)) (seq 0 (length l / 64)).

Definition sha1_init : Sha1Vars := (0x67452301, 0xEFCDAB89, 0x98BADCFE, 0x10325476, 0xC3D2E1F0).
Definition sha1_state (l : bytes) : Sha1Vars := fold_left sha1_compress (blocks l) sha1_init.

Definition sha1_pad (l : bytes) : bytes :=
  l ++ [0x80] ++ repeat 0 (Z.to_nat ((55 - len l) mod 64)) ++ be_bytes 8 (8 * len l).

Definition words_of (v : Sha1Vars) : list Z := let '(a, b, c, d, e) := v in [a; b; c; d; e].
Definition sha1 (l : bytes) : bytes := flat_map (be_bytes 4) (words_of (sha1_state (sha1_pad l))).

(** ** The hasher computes it *)

Lemma index_nth (l : list Z) i : (i < length l)%nat -> index l (Z.of_nat i) = Ret (nth i l 0).
Proof.
  intros H. rewrite index_byte_at by (unfold len; lia). unfold byte_at. by rewrite Nat2Z.id.
Qed.

Lemma store_app (l : list Z) r v rest :
  store (l ++ r :: rest) (len l) v = Ret (l ++ v :: rest).
Proof.
  unfold store. rewrite (proj2 (Z.leb_le _ _)), (proj2 (Z.ltb_lt _ _))
    by (autorewrite with tp_simpl; pose proof (len_nonneg l); pose proof (len_nonneg rest); lia).
  cbn [andb]. f_equal. unfold len. rewrite Nat2Z.id, insert_app_r_alt by lia.
  by rewrite Nat.sub_diag.
Qed.

Lemma store_nat (l : list Z) i v : (i < length l)%nat -> store l (Z.of_nat i) v = Ret (<[i := v]> l).
Proof.
  intros H. unfold store, len. rewrite (proj2 (Z.leb_le 0 (Z.of_nat i))) by lia.
  rewrite (proj2 (Z.ltb_lt (Z.of_nat i) _)) by lia. cbn [andb]. by rewrite Nat2Z.id.
Qed.

Lemma drain_words_ok block n r ws :
  length block = 64%nat -> (length ws + n <= 16)%nat ->
  drain_words block n (len ws) (ws ++ repeat 0 (n + r)) =
  Ret (ws ++ map (sha1_word block) (seq (length ws) n) ++ repeat 0 r).
Proof.
  intros Hb. revert ws. induction n as [|n IH]; intros ws Hw; cbn [drain_words repeat Nat.add seq map app].
  - done.
  - assert (E : forall j, (j < 4)%nat ->
      index block (len ws * 4 + Z.of_nat j) = Ret (nth (4 * length ws + j) block 0)).
    { intros j Hj. unfold len. replace (Z.of_nat (length ws) * 4 + Z.of_nat j)
        with (Z.of_nat (4 * length ws + j)) by lia. apply index_nth. lia. }
    replace (len ws * 4) with (len ws * 4 + Z.of_nat 0) by lia.
    rewrite (E 0%nat) by lia. cbn [mbind outcome_bind].
    replace (len ws * 4 + Z.of_nat 0 + 1) with (len ws * 4 + Z.of_nat 1) by lia.
    replace (len ws * 4 + Z.of_nat 0 + 2) with (len ws * 4 + Z.of_nat 2) by lia.
    replace (len ws * 4 + Z.of_nat 0 + 3) with (len ws * 4 + Z.of_nat 3) by lia.
    rewrite (E 1%nat), (E 2%nat), (E 3%nat) by lia. cbn [mbind outcome_bind].
    rewrite store_app. cbn [mbind outcome_bind].
    replace (len ws + 1) with (len (ws ++ [sha1_word block (length ws)])) by (autorewrite with tp_simpl; done).
    change (ws ++ be_value _ :: repeat 0 (n + r))
      with (ws ++ [sha1_word block (length ws)] ++ repeat 0 (n + r)).
    rewrite app_assoc, IH by (rewrite length_app; cbn; lia).
    rewrite length_app. cbn [length]. rewrite Nat.add_1_r, <- app_assoc. done.
Qed.

Lemma drain_extend_ok n r ws :
  (16 <= length ws)%nat ->
  drain_extend n (len ws) (ws ++ repeat 0 (n + r)) = Ret (sha1_extend n ws ++ repeat 0 r).
Proof.
  revert ws. induction n as [|n IH]; intros ws Hw; cbn [drain_extend repeat Nat.add sha1_extend]; [done|].
  assert (E : forall j rest, (0 < j <= 16)%nat ->
    index (ws ++ rest) (len ws - Z.of_nat j) = Ret (nth (length ws - j) ws 0)).
  { intros j rest Hj. rewrite index_app_l by lia. unfold len.
    replace (Z.of_nat (length ws) - Z.of_nat j) with (Z.of_nat (length ws - j)) by lia.
    apply index_nth. lia. }
  rewrite (E 3%nat), (E 8%nat), (E 14%nat), (E 16%nat) by lia. cbn [mbind outcome_bind].
  rewrite store_app. cbn [mbind outcome_bind]. fold (sha1_next_word ws).
  replace (len ws + 1) with (len (ws ++ [sha1_next_word ws])) by (autorewrite with tp_simpl; done).
  change (ws ++ sha1_next_word ws :: repeat 0 (n + r))
    with (ws ++ [sha1_next_word ws] ++ repeat 0 (n + r)).
  rewrite app_assoc. apply IH. rewrite length_app. lia.
Qed.

Lemma length_sha1_extend n ws : length (sha1_extend n ws) = (n + length ws)%nat.
Proof.
  revert ws. induction n as [|n IH]; intros ws; cbn [sha1_extend]; [done|].
  rewrite IH, length_app. cbn. lia.
Qed.

Lemma drain_rounds_ok k f w n t v :
  (t + n <= length w)%nat ->
  drain_rounds k f w n (Z.of_nat t) v =
  Ret (fold_left (fun v t => sha1_step k f (nth t w 0) v) (seq t n) v).
Proof.
  revert t v. induction n as [|n IH]; intros t v Ht; cbn [drain_rounds seq fold_left]; [done|].
  destruct v as [[[[a b] c] d] e]. rewrite index_nth by lia. cbn [mbind outcome_bind].
  replace (Z.of_nat t + 1) with (Z.of_nat (S t)) by lia. rewrite IH by lia. done.
Qed.

Lemma rounds_segment w t n k f v :
  (forall i, (t <= i < t + n)%nat -> sha1_k i = k /\ sha1_f i = f) ->
  fold_left (fun v t => sha1_step k f (nth t w 0) v) (seq t n) v =
  fold_left (fun v t => sha1_step (sha1_k t) (sha1_f t) (nth t w 0) v) (seq t n) v.
Proof.
  revert t v. induction n as [|n IH]; intros t v H; cbn [seq fold_left]; [done|].
  destruct (H t) as [-> ->]; [lia|]. apply IH. intros i Hi. apply H. lia.
Qed.

(** The constant and the function of each phase of twenty rounds. *)
Ltac sha1_phase :=
  let i := fresh "i" in
  intros i ?; unfold sha1_k, sha1_f;
  destruct (Nat.ltb_spec i 20), (Nat.ltb_spec i 40), (Nat.ltb_spec i 60); try lia; done.

Lemma drain_schedule_ok ch : length ch = 64%nat -> drain_schedule ch = Ret (sha1_schedule ch).
Proof.
  unfold drain_schedule.
  intros Hch. pose proof (drain_words_ok ch 16 64 [] Hch ltac:(cbn; lia)) as E1.
  pose proof (drain_extend_ok 64 0 (map (sha1_word ch) (seq 0 16)) ltac:(cbn; lia)) as E2.
  rewrite app_nil_r in E2. replace (len (map (sha1_word ch) (seq 0 16))) with 16 in E2 by reflexivity.
  replace (len (@nil Z)) with 0 in E1 by reflexivity. rewrite !app_nil_l in E1.
  replace (16 + 64)%nat with 80%nat in E1 by reflexivity. rewrite E1. cbn [mbind outcome_bind].
  replace (64 + 0)%nat with 64%nat in E2 by reflexivity. exact E2.
Qed.

(** The four runs of rounds are the eighty steps of the definition. *)
Lemma drain_phases_ok w v :
  length w = 80%nat ->
  drain_phases w v = Ret (sha1_rounds w v).
Proof.
  intros Hw. unfold drain_phases, sha1_rounds.
  pose proof (fun k f => drain_rounds_ok k f w 20 0) as E0.
  pose proof (fun k f => drain_rounds_ok k f w 20 20) as E20.
  pose proof (fun k f => drain_rounds_ok k f w 20 40) as E40.
  pose proof (fun k f => drain_rounds_ok k f w 20 60) as E60.
  replace (Z.of_nat 0) with 0 in E0 by reflexivity. replace (Z.of_nat 20) with 20 in E20 by reflexivity.
  replace (Z.of_nat 40) with 40 in E40 by reflexivity. replace (Z.of_nat 60) with 60 in E60 by reflexivity.
  rewrite E0 by lia. cbn [mbind outcome_bind]. rewrite E20 by lia. cbn [mbind outcome_bind].
  rewrite E40 by lia. cbn [mbind outcome_bind]. rewrite E60 by lia. clear E0 E20 E40 E60.
  rewrite (rounds_segment w 0 20) by sha1_phase. rewrite (rounds_segment w 20 20) by sha1_phase.
  rewrite (rounds_segment w 40 20) by sha1_phase. rewrite (rounds_segment w 60 20) by sha1_phase.
  rewrite <- !fold_left_app.
  assert (E : seq 0 20 ++ seq 20 20 ++ seq 40 20 ++ seq 60 20 = seq 0 80) by reflexivity.
  rewrite E. reflexivity.
Qed.

Lemma index_words a b c d e :
  index (words_of (a, b, c, d, e)) 0 = Ret a /\ index (words_of (a, b, c, d, e)) 1 = Ret b /\
  index (words_of (a, b, c, d, e)) 2 = Ret c /\ index (words_of (a, b, c, d, e)) 3 = Ret d /\
  index (words_of (a, b, c, d, e)) 4 = Ret e.
Proof. split_and!; reflexivity. Qed.

Lemma schedule_length ch : length (sha1_schedule ch) = 80%nat.
Proof. unfold sha1_schedule. rewrite length_sha1_extend. done. Qed.

Lemma Sha1_drain_eq ch count pos r :
  Sha1_drain {| chunk := ch; chunk_count := count; chunk_pos := pos; results := r |} =
  (w ← drain_schedule ch;
   r0 ← index r 0; r1 ← index r 1; r2 ← index r 2; r3 ← index r 3; r4 ← index r 4;
   '(a, b, c, d, e) ← drain_phases w (r0, r1, r2, r3, r4);
   n ← u32 (count + 1);
   Ret {| chunk := ch; chunk_count := n; chunk_pos := pos;
          results := [wrapping_add r0 a; wrapping_add r1 b; wrapping_add r2 c;
                      wrapping_add r3 d; wrapping_add r4 e] |}).
Proof. reflexivity. Qed.

(** [drain] for any schedule and any rounds. *)
Lemma drain_generic (sched : outcome (list Z)) (phases : list Z -> Sha1Vars -> outcome Sha1Vars)
    (w : list Z) (rounds : Sha1Vars -> Sha1Vars) ch count pos v :
  sched = Ret w -> (forall v, phases w v = Ret (rounds v)) -> 0 <= count < 2 ^ 32 - 1 ->
  (w ← sched;
   r0 ← index (words_of v) 0; r1 ← index (words_of v) 1; r2 ← index (words_of v) 2;
   r3 ← index (words_of v) 3; r4 ← index (words_of v) 4;
   '(a, b, c, d, e) ← phases w (r0, r1, r2, r3, r4);
   n ← u32 (count + 1);
   Ret {| chunk := ch; chunk_count := n; chunk_pos := pos;
          results := [wrapping_add r0 a; wrapping_add r1 b; wrapping_add r2 c;
                      wrapping_add r3 d; wrapping_add r4 e] |}) =
  Ret {| chunk := ch; chunk_count := count + 1; chunk_pos := pos;
         results := words_of (sha1_add v (rounds v)) |}.
Proof.
  intros -> Hp Hc. destruct v as [[[[h0 h1] h2] h3] h4].
  destruct (index_words h0 h1 h2 h3 h4) as (-> & -> & -> & -> & ->).
  cbn [mbind outcome_bind]. rewrite Hp. cbn [mbind outcome_bind].
  destruct (rounds _) as [[[[a b] c] d] e]. by rewrite checked_ok by lia.
Qed.

Lemma Sha1_drain_ok ch count pos v :
  length ch = 64%nat -> 0 <= count < 2 ^ 32 - 1 ->
  Sha1_drain {| chunk := ch; chunk_count := count; chunk_pos := pos; results := words_of v |} =
  Ret {| chunk := ch; chunk_count := count + 1; chunk_pos := pos;
         results := words_of (sha1_compress v ch) |}.
Proof.
  intros Hch Hc. rewrite Sha1_drain_eq.
  exact (drain_generic (drain_schedule ch) drain_phases (sha1_schedule ch)
    (sha1_rounds (sha1_schedule ch)) ch count pos v (drain_schedule_ok ch Hch)
    (fun v => drain_phases_ok (sha1_schedule ch) v (schedule_length ch)) Hc).
Qed.

(** The state of the hasher after the bytes [l]. *)
Definition hashed (l : bytes) (s : Sha1NonSecret) : Prop :=
  length s.(chunk) = 64%nat /\ s.(chunk_pos) = Z.of_nat (length l mod 64) /\
  s.(chunk_count) = Z.of_nat (length l / 64) /\
  take (length l mod 64) s.(chunk) = drop (64 * (length l / 64)) l /\
  s.(results) = words_of (sha1_state l).

Lemma hashed_new : hashed [] Sha1_new.
Proof. by vm_compute. Qed.

Lemma blocks_snoc_inside l b :
  ((length l + 1) mod 64 <> 0)%nat -> blocks (l ++ [b]) = blocks l.
Proof.
  intros H. unfold blocks. rewrite length_app. cbn [length].
  pose proof (Nat.div_mod_eq (length l) 64). pose proof (Nat.mod_upper_bound (length l) 64 ltac:(lia)).
  assert (E : ((length l + 1) / 64 = length l / 64)%nat).
  { symmetry. apply (Nat.div_unique _ _ _ (length l mod 64 + 1)); [|lia].
    destruct (decide (length l mod 64 = 63)%nat) as [E|]; [|lia]. exfalso. apply H.
    rewrite <- Nat.Div0.add_mod_idemp_l, E. reflexivity. }
  rewrite E. apply map_ext_in. intros i Hi%in_seq.
  rewrite drop_app_le, take_app_le by (rewrite ?length_drop; lia). done.
Qed.

Lemma blocks_snoc_end l b :
  ((length l + 1) mod 64 = 0)%nat ->
  blocks (l ++ [b]) = blocks l ++ [drop (64 * (length l / 64)) l ++ [b]].
Proof.
  intros H. unfold blocks. rewrite length_app. cbn [length].
  pose proof (Nat.div_mod_eq (length l) 64). pose proof (Nat.mod_upper_bound (length l) 64 ltac:(lia)).
  pose proof (Nat.div_mod_eq (length l + 1) 64) as E1. rewrite H in E1.
  assert (Em : (length l mod 64 = 63)%nat) by lia.
  assert (E : ((length l + 1) / 64 = S (length l / 64))%nat) by lia.
  rewrite E, seq_S, map_app. cbn [map Nat.add]. f_equal.
  - apply map_ext_in. intros i Hi%in_seq.
    rewrite drop_app_le, take_app_le by (rewrite ?length_drop; lia). done.
  - rewrite drop_app_le by lia. f_equal. apply take_ge. rewrite length_app, length_drop. cbn [length]. lia.
Qed.

Lemma Sha1_write_u8_ok l b s :
  hashed l s -> Z.of_nat (length l) < 64 * (2 ^ 32 - 1) ->
  exists s', Sha1_write_u8 b s = Ret s' /\ hashed (l ++ [b]) s'.
Proof.
  intros (Hch & Hp & Hc & Ht & Hr) Hl.
  pose proof (Nat.div_mod_eq (length l) 64). pose proof (Nat.mod_upper_bound (length l) 64 ltac:(lia)).
  unfold Sha1_write_u8. rewrite Hp, store_nat by lia. cbn [mbind outcome_bind].
  rewrite checked_ok by lia. cbn [mbind outcome_bind].
  change 63 with (Z.ones 6). rewrite Z.land_ones by lia. cbv zeta.
  set (ch := <[_ := b]> _). assert (Hch' : length ch = 64%nat) by (subst ch; by rewrite length_insert).
  assert (Htk : take (length l mod 64 + 1) ch = drop (64 * (length l / 64)) l ++ [b]).
  { subst ch. rewrite <- Ht, Nat.add_1_r, (take_S_r _ _ b) by (apply list_lookup_insert_eq; lia).
    by rewrite take_insert_ge by lia. }
  destruct (decide (length l mod 64 = 63)%nat) as [E|E].
  - rewrite E. change (Z.of_nat 63 + 1) with 64. change (64 mod 2 ^ 6) with 0. rewrite Z.eqb_refl.
    rewrite Hr, Hc, Sha1_drain_ok by lia. eexists. split; [done|].
    assert (Hmod : ((length l + 1) mod 64 = 0)%nat)
      by (rewrite <- Nat.Div0.add_mod_idemp_l, E; reflexivity).
    assert (Hdiv : ((length l + 1) / 64 = length l / 64 + 1)%nat).
    { pose proof (Nat.div_mod_eq (length l + 1) 64). lia. }
    assert (Hfull : drop (64 * (length l / 64)) l ++ [b] = ch).
    { rewrite <- Htk, E. apply take_ge. lia. }
    unfold hashed. cbn [chunk chunk_pos chunk_count results]. rewrite length_app. cbn [length].
    rewrite Hmod, Hdiv. split_and!; [done|done|lia| |].
    + rewrite take_0, drop_ge; [done|]. rewrite length_app. cbn [length]. lia.
    + unfold sha1_state. rewrite blocks_snoc_end, fold_left_app by done. cbn [fold_left].
      by rewrite Hfull.
  - rewrite Z.mod_small by lia. rewrite (proj2 (Z.eqb_neq _ 0)) by lia.
    eexists. split; [done|].
    assert (Hmod : ((length l + 1) mod 64 = length l mod 64 + 1)%nat).
    { rewrite <- Nat.Div0.add_mod_idemp_l. apply Nat.mod_small. lia. }
    assert (Hdiv : ((length l + 1) / 64 = length l / 64)%nat).
    { pose proof (Nat.div_mod_eq (length l + 1) 64). lia. }
    unfold hashed. cbn [chunk chunk_pos chunk_count results]. rewrite length_app. cbn [length].
    rewrite Hmod, Hdiv. split_and!; [done|lia|done| |].
    + rewrite Htk. rewrite drop_app_le by lia. done.
    + unfold sha1_state. rewrite blocks_snoc_inside by lia. done.
Qed.

Lemma Sha1_write_ok m l s :
  hashed l s -> Z.of_nat (length l + length m) < 64 * (2 ^ 32 - 1) ->
  exists s', Sha1_write m s = Ret s' /\ hashed (l ++ m) s'.
Proof.
  revert l s. induction m as [|b m IH]; intros l s Hs Hl; cbn [Sha1_write length] in *.
  - exists s. by rewrite app_nil_r.
  - destruct (Sha1_write_u8_ok l b s Hs) as (s1 & -> & Hs1); [lia|]. cbn [mbind outcome_bind].
    destruct (IH (l ++ [b]) s1 Hs1) as (s2 & -> & Hs2); [rewrite length_app; cbn [length]; lia|].
    exists s2. split; [done|]. by rewrite <- app_assoc in Hs2.
Qed.

(** The number of zeros that [finish] writes after [l]. *)
Definition zeros_after (l : bytes) : nat := Z.to_nat ((56 - len l) mod 64).

Lemma zeros_after_snoc l b :
  (length l mod 64 <> 56)%nat -> zeros_after l = S (zeros_after (l ++ [b])).
Proof.
  intros H. unfold zeros_after. autorewrite with tp_simpl. unfold len.
  assert (E : (56 - Z.of_nat (length l)) mod 64 <> 0).
  { intros E. apply H. apply Nat2Z.inj. rewrite Nat2Z.inj_mod.
    change (Z.of_nat 64) with 64. change (Z.of_nat 56) with 56.
    apply Z.mod_divide in E as [k Ek]; [|lia]. symmetry. apply Z.mod_unique with (- k); lia. }
  pose proof (Z.mod_pos_bound (56 - Z.of_nat (length l)) 64 ltac:(lia)).
  assert (E2 : (56 - (Z.of_nat (length l) + (1 + 0))) mod 64 = (56 - Z.of_nat (length l)) mod 64 - 1).
  { symmetry. apply Z.mod_unique with ((56 - Z.of_nat (length l)) / 64); [lia|].
    pose proof (Z.div_mod (56 - Z.of_nat (length l)) 64). lia. }
  rewrite E2. lia.
Qed.

Lemma zeros_after_56 l : (length l mod 64 = 56)%nat <-> zeros_after l = O.
Proof.
  split; intros H.
  - unfold zeros_after, len. pose proof (Nat.div_mod_eq (length l) 64) as E. rewrite H in E.
    replace (56 - Z.of_nat (length l)) with (- Z.of_nat (length l / 64) * 64) by lia.
    by rewrite Z.mod_mul by lia.
  - destruct (decide (length l mod 64 = 56)%nat) as [|Hn]; [done|].
    by rewrite (zeros_after_snoc l 0 Hn) in H.
Qed.

Lemma Sha1_zero_fill_ok fuel l s :
  hashed l s -> (zeros_after l < fuel)%nat ->
  Z.of_nat (length l + zeros_after l) < 64 * (2 ^ 32 - 1) ->
  exists s', Sha1_zero_fill fuel s = Ret s' /\ hashed (l ++ repeat 0 (zeros_after l)) s'.
Proof.
  revert l s. induction fuel as [|fuel IH]; intros l s Hs Hf Hl; [lia|]. cbn [Sha1_zero_fill].
  pose proof Hs as (_ & Hp & _). rewrite Hp. change 56 with (Z.of_nat 56).
  destruct (Z.eqb_spec (Z.of_nat (length l mod 64)) (Z.of_nat 56)) as [E|E].
  - apply Nat2Z.inj, zeros_after_56 in E as ->. exists s. by rewrite app_nil_r.
  - assert (E' : (length l mod 64 <> 56)%nat) by lia.
    pose proof (zeros_after_snoc l 0 E') as Ez. rewrite Ez in *.
    destruct (Sha1_write_u8_ok l 0 s Hs) as (s1 & -> & Hs1); [lia|]. cbn [mbind outcome_bind].
    destruct (IH (l ++ [0]) s1 Hs1) as (s2 & -> & Hs2); [lia|rewrite length_app; cbn [length]; lia|].
    exists s2. split; [done|]. by rewrite <- app_assoc in Hs2.
Qed.

(** Hashing [m] from a fresh hasher is SHA-1, as long as the padded message has
    fewer than 2^32 - 1 blocks. *)
Lemma Sha1_ok m :
  len m < 2 ^ 37 ->
  (s ← Sha1_write m Sha1_new; Sha1_finish s) = Ret (sha1 m).
Proof.
  intros Hm. unfold len in Hm.
  destruct (Sha1_write_ok m [] Sha1_new hashed_new) as (s & -> & Hs); [cbn [length]; lia|].
  cbn [mbind outcome_bind app] in *. unfold Sha1_finish.
  pose proof Hs as (_ & Hp & Hc & _). rewrite Hp, Hc.
  pose proof (Nat.div_mod_eq (length m) 64) as E.
  rewrite checked_ok by lia. cbn [mbind outcome_bind]. rewrite checked_ok by lia. cbn [mbind outcome_bind].
  replace (Z.of_nat (length m / 64) * 512 + Z.of_nat (length m mod 64) * 8) with (8 * len m)
    by (unfold len; lia).
  destruct (Sha1_write_u8_ok m 0x80 s Hs) as (s1 & -> & Hs1); [lia|]. cbn [mbind outcome_bind].
  assert (Hz : (zeros_after (m ++ [128%Z]) < 64)%nat).
  { unfold zeros_after. pose proof (Z.mod_pos_bound (56 - len (m ++ [128])) 64). lia. }
  destruct (Sha1_zero_fill_ok 64 _ s1 Hs1) as (s2 & -> & Hs2);
    [done|rewrite length_app; cbn [length]; lia|]. cbn [mbind outcome_bind].
  destruct (Sha1_write_ok (be_bytes 8 (8 * len m)) _ s2 Hs2) as (s3 & -> & Hs3).
  { rewrite !length_app, repeat_length, length_be_bytes. cbn [length]. lia. }
  cbn [mbind outcome_bind].
  assert (Ep : ((m ++ [128]) ++ repeat 0 (zeros_after (m ++ [128]))) ++ be_bytes 8 (8 * len m)
               = sha1_pad m).
  { unfold sha1_pad, zeros_after. rewrite <- !app_assoc. autorewrite with tp_simpl.
    replace (56 - (len m + (1 + 0))) with (55 - len m) by lia. done. }
  rewrite Ep in Hs3. destruct Hs3 as (_ & Hp3 & _ & _ & Hr3).
  assert (Hmod : (length (sha1_pad m) mod 64 = 0)%nat).
  { rewrite <- Ep, length_app, length_be_bytes.
    set (k := length ((m ++ [128]) ++ _)).
    assert (Hk : (k mod 64 = 56)%nat).
    { destruct Hs2 as (_ & Hp2 & _). subst k. apply zeros_after_56. clear.
      unfold zeros_after at 1. autorewrite with tp_simpl. unfold zeros_after.
      assert (Er : forall n, len (repeat 0 n) = Z.of_nat n) by (intros; unfold len; by rewrite repeat_length).
      rewrite Er. autorewrite with tp_simpl.
      pose proof (Z.mod_pos_bound (56 - (len m + (1 + 0))) 64 ltac:(lia)).
      rewrite Z2Nat.id by lia.
      pose proof (Z.div_mod (56 - (len m + (1 + 0))) 64 ltac:(lia)).
      replace (56 - (len m + (1 + 0) + (56 - (len m + (1 + 0))) mod 64))
        with ((56 - (len m + (1 + 0))) / 64 * 64) by lia.
      by rewrite Z.mod_mul by lia. }
    rewrite <- Nat.Div0.add_mod_idemp_l, Hk. reflexivity. }
  rewrite Hp3, Hmod, Hr3. reflexivity.
Qed.

(** ** Properties *)

Definition example_guid : bytes :=
  [0xa3; 0xa2; 0xa1; 0xa0; 0xb1; 0xb0; 0xc1; 0xc0; 0xd7; 0xd6; 0xd5; 0xd4; 0xd3; 0xd2; 0xd1; 0xd0].

Lemma flat_map_hex_pair_digits g :
  bytes_ok g ->
  forallb is_hex_digit (flat_map hex_pair g) = true /\ bytes_ok (flat_map hex_pair g) /\
  pair_values (flat_map hex_pair g) = g.
Proof.
  induction 1 as [|b g Hb Hg IH]; [by split_and!; try constructor|]. pose proof (print_facts_hold b Hb) as F.
  unfold print_facts in F. cbn [flat_map]. destruct (hex_pair b) as [|c1 [|c2 []]]; try done.
  bool_hyps. destruct IH as (I1 & I2 & I3).
  cbn [app forallb pair_values]. rewrite I1, I3. split_and!; [by bool_solve| |by f_equal].
  by repeat constructor.
Qed.

(** The printed text is the digits with dashes inserted. *)
Lemma printed_shape g :
  length g = 16%nat -> bytes_ok g ->
  len (Guid_to_utf8_bytes g) = 36 /\ has_dashes (Guid_to_utf8_bytes g) = true /\
  remove_dashes (Guid_to_utf8_bytes g) = flat_map hex_pair g /\
  byte_at (Guid_to_utf8_bytes g) 0 <> 123 /\ bytes_ok (Guid_to_utf8_bytes g).
Proof.
  intros Hl Hok.
  assert (Hd : forall b, is_u8 b -> byte_at (hex_pair b) 0 <> 123).
  { intros b Hb E. pose proof (print_facts_hold b Hb) as F. unfold print_facts in F.
    destruct (hex_pair b) as [|c1 [|c2 []]]; try done. change (byte_at _ 0) with c1 in E. subst c1.
    bool_hyps. discriminate. }
  assert (Hb0 : bytes_ok (Guid_to_utf8_bytes g)).
  { assert (Hat : forall i, bytes_ok (hex_pair (at16 g i))).
    { intros i. pose proof (byte_at_ok g (Z.of_nat i) Hok) as Hi. unfold byte_at in Hi.
      rewrite Nat2Z.id in Hi. destruct (flat_map_hex_pair_digits [at16 g i]) as (_ & Ho & _).
      - constructor; [exact Hi|constructor].
      - cbn [flat_map] in Ho. by rewrite app_nil_r in Ho. }
    unfold Guid_to_utf8_bytes, bytes_ok. cbn [flat_map]. rewrite !Forall_app.
    split_and!; first [apply Hat | by apply bytes_ok_decide | by constructor]. }
  rewrite (sixteen g Hl) in Hok |- *. split_and!; [reflexivity|reflexivity|reflexivity| |].
  - pose proof (Forall_inv Hok) as H0. apply (Hd _ H0).
  - rewrite <- (sixteen g Hl). exact Hb0.
Qed.

(** Parsing inverts printing: the 36-character text of a GUID, the same text
    in braces, and its 32 digits without dashes all parse to the GUID. *)
Theorem guid_text_round_trip g (Hlen : length g = 16%nat) (Hok : bytes_ok g) :
  let text := Guid_to_utf8_bytes g in
  Guid_try_parse text = Ret (Some g) /\
  Guid_try_parse ([123] ++ text ++ [125]) = Ret (Some g) /\
  Guid_try_parse (flat_map hex_pair g) = Ret (Some g).
Proof.
  intros text. destruct (printed_shape g Hlen Hok) as (Hl & Hd & Hr & H0 & Hb). fold text in Hl, Hd, Hr, H0, Hb.
  destruct (flat_map_hex_pair_digits g Hok) as (D1 & D2 & D3).
  assert (Hp : forall v ds, bytes_ok v -> guid_digits v = Some ds -> ds = flat_map hex_pair g ->
    Guid_try_parse v = Ret (Some g)).
  { intros v ds Hv Hds ->. unfold Guid_try_parse. rewrite try_parse_ascii_eq by done.
    by rewrite Hds, D1, D3. }
  split_and!.
  - eapply Hp; [done| |exact Hr]. unfold guid_digits, unbrace. rewrite Hl. cbn [Z.ltb Z.compare].
    destruct (Z.eqb_spec (byte_at text 0) 123); [done|]. cbn [andb]. rewrite Hd. done.
  - eapply Hp; [| |exact Hr].
    + apply Forall_app. split; [by repeat constructor|]. apply Forall_app. split; [done|by repeat constructor].
    + unfold guid_digits. assert (Hlb : len ([123] ++ text ++ [125]) = 38)
        by (autorewrite with tp_simpl; lia). rewrite Hlb.
      assert (Hu : unbrace ([123] ++ text ++ [125]) = text).
      { unfold unbrace. rewrite Hlb.
        assert (Elast : byte_at ([123] ++ text ++ [125]) (38 - 1) = 125).
        { unfold byte_at, len in *. rewrite app_assoc, app_nth2 by (rewrite length_app; cbn; lia).
          rewrite length_app. cbn [length]. by replace (Z.to_nat (38 - 1) - (1 + length text))%nat with 0%nat by lia. }
        rewrite Elast. change (byte_at ([123] ++ text ++ [125]) 0) with 123. cbn [Z.eqb Pos.eqb andb].
        unfold sub. cbn [Z.sub Z.to_nat]. change (Z.to_nat 1) with 1%nat. cbn [app drop].
        unfold len in Hl. change (Z.to_nat (38 - 1 - 1)) with 36%nat.
        rewrite drop_0, take_app_le, take_ge by lia. done. }
      rewrite Hu, Hd. done.
  - assert (Hf : len (flat_map hex_pair g) = 32).
    { rewrite (sixteen g Hlen). reflexivity. }
    eapply Hp; [done| |reflexivity]. unfold guid_digits, unbrace. rewrite Hf. cbn [Z.ltb Z.compare].
    assert (H1 : byte_at (flat_map hex_pair g) 0 <> 123).
    { unfold text in H0. rewrite (sixteen g Hlen) in H0 |- *. exact H0. }
    destruct (Z.eqb_spec (byte_at (flat_map hex_pair g) 0) 123); [done|]. cbn [andb].
    unfold has_dashes. by rewrite Hf.
Qed.

Lemma guid_text_round_trip_witness :
  length example_guid = 16%nat /\ Guid_try_parse (Guid_to_utf8_bytes example_guid) = Ret (Some example_guid).
Proof.
  split; [reflexivity|].
  exact (proj1 (guid_text_round_trip example_guid eq_refl (bytes_ok_decide example_guid eq_refl))).
Defined.

(** The texts that [try_parse] accepts have sixteen pairs of digits. *)
Lemma guid_digits_facts v ds :
  bytes_ok v -> guid_digits v = Some ds -> length ds = 32%nat /\ bytes_ok ds.
Proof.
  intros Hv. unfold guid_digits.
  assert (Ht : bytes_ok (unbrace v)) by (unfold unbrace; case_match; [by apply bytes_ok_sub|done]).
  revert Ht. generalize (unbrace v) as t. intros t Ht. case_match; [done|].
  destruct (has_dashes t) eqn:Ed.
  - intros [= <-]. unfold has_dashes in Ed. bool_hyps. unfold len in *. split.
    + unfold remove_dashes. rewrite !length_app, !length_take, !length_drop. lia.
    + unfold remove_dashes, bytes_ok. rewrite !Forall_app. split_and!;
        repeat first [apply Forall_take | apply Forall_drop]; done.
  - case_match eqn:E; [|done]. intros [= <-]. bool_hyps. unfold len in *. split; [lia|done].
Qed.

Lemma length_pair_values n ds : length ds = (2 * n)%nat -> length (pair_values ds) = n.
Proof.
  revert ds. induction n as [|n IH]; intros ds H; [by destruct ds|].
  destruct ds as [|c1 [|c2 ds]]; cbn [length] in H; try lia. cbn [pair_values length].
  f_equal. apply IH. lia.
Qed.

(** C28. Parsing never panics, for any bytes; it accepts a text exactly when, after
    optional braces, it is 32 hexadecimal digits, or 36 characters with dashes at
    offsets 8, 13, 18 and 23 around 32 digits; and printing the result gives
    those digits back in lower case. *)
Theorem guid_parse_exact v (Hok : bytes_ok v) :
  exists r, Guid_try_parse v = Ret r /\
  match r with
  | Some g => exists ds, guid_digits v = Some ds /\ forallb is_hex_digit ds = true /\
                length g = 16%nat /\ bytes_ok g /\ remove_dashes (Guid_to_utf8_bytes g) = map lower ds
  | None => forall ds, guid_digits v = Some ds -> forallb is_hex_digit ds = false
  end.
Proof.
  unfold Guid_try_parse. rewrite try_parse_ascii_eq by done. eexists. split; [reflexivity|].
  destruct (guid_digits v) as [ds|] eqn:E; [|done].
  destruct (guid_digits_facts v ds Hok E) as [Hl Hd].
  destruct (pair_values_digits ds ltac:(by rewrite Hl) Hd) as [_ Hp].
  destruct (forallb is_hex_digit ds) eqn:Eh; [|by intros ? [= <-]].
  destruct (Hp eq_refl) as (_ & Hg & Hlow). pose proof (length_pair_values 16 ds Hl) as Hlen.
  exists ds. split_and!; try done.
  destruct (printed_shape _ Hlen Hg) as (_ & _ & -> & _). done.
Qed.

Lemma guid_parse_exact_witness :
  exists r, Guid_try_parse [123; 48; 125] = Ret r /\ r = None.
Proof.
  destruct (guid_parse_exact [123; 48; 125] (bytes_ok_decide [123; 48; 125] eq_refl)) as (r & Hr & _).
  exists r. split; [exact Hr|]. vm_compute in Hr. congruence.
Defined.

(** The byte-order conversions are inverse to each other: a GUID survives the
    little-endian form, the four fields and the 128-bit integer, and the integer
    is the big-endian value of the bytes in memory. *)
Theorem guid_conversions_round_trip g (Hlen : length g = 16%nat) (Hok : bytes_ok g) :
  Guid_from_bytes_le (Guid_to_bytes_le g) = g /\
  Guid_to_bytes_le (Guid_from_bytes_le g) = g /\
  (let '(d1, d2, d3, d4) := Guid_to_fields g in
   Guid_from_fields d1 d2 d3 d4 = g /\ in_width 32 d1 /\ in_width 16 d2 /\ in_width 16 d3) /\
  Guid_from_u128 (Guid_to_u128 g) = g /\ in_width 128 (Guid_to_u128 g).
Proof.
  split_and!; try by apply Guid_le_involutive.
  - assert (B : forall n l, bytes_ok l -> length l = n -> be_bytes n (be_value l) = l)
      by (intros ? ? ? <-; by apply be_bytes_be_value).
    assert (W : forall n l, bytes_ok l -> length l = n -> in_width (8 * Z.of_nat n) (be_value l)).
    { intros n l Hl' <-. pose proof (be_value_bound l Hl') as Hv. unfold in_width, len in *.
      rewrite Z.pow_mul_r by lia. exact Hv. }
    unfold Guid_to_fields, Guid_from_fields.
    assert (Hs : forall n m, bytes_ok (take n (drop m g))) by (intros; by apply Forall_take, Forall_drop).
    split_and!; try (apply (W 4%nat) || apply (W 2%nat));
      try (rewrite ?length_take, ?length_drop; lia); try apply Hs; [|apply (Hs 4%nat 0%nat)].
    rewrite (B 4%nat (take 4 g)), !(B 2%nat);
      try (rewrite ?length_take, ?length_drop; lia); try apply Hs; [|apply (Hs 4%nat 0%nat)].
    rewrite (sixteen g Hlen). reflexivity.
  - unfold Guid_from_u128, Guid_to_u128. rewrite <- Hlen. by apply be_bytes_be_value.
  - pose proof (be_value_bound g Hok) as H. unfold len in H. rewrite Hlen in H. exact H.
Qed.

Lemma guid_conversions_round_trip_witness :
  Guid_from_bytes_le (Guid_to_bytes_le example_guid) = example_guid /\
  Guid_to_u128 example_guid = 0xa3a2a1a0b1b0c1c0d7d6d5d4d3d2d1d0.
Proof.
  split; [|reflexivity].
  exact (proj1 (guid_conversions_round_trip example_guid eq_refl (bytes_ok_decide example_guid eq_refl))).
Defined.

Lemma Sha1_write_app m1 m2 s :
  Sha1_write (m1 ++ m2) s = (s ← Sha1_write m1 s; Sha1_write m2 s).
Proof.
  revert s. induction m1 as [|b m1 IH]; intros s; [done|]. cbn [app Sha1_write].
  destruct (Sha1_write_u8 b s); cbn [mbind outcome_bind]; [apply IH|done].
Qed.

Lemma length_sha1 m : length (sha1 m) = 20%nat.
Proof. unfold sha1. destruct (sha1_state _) as [[[[a b] c] d] e]. reflexivity. Qed.

(** C20. The streaming hasher behind [from_name] computes SHA-1, so the provider id
    of a name is the version-5 style id the docs define: the first sixteen bytes
    of the SHA-1 of the namespace and the upper-cased name in big-endian UTF-16,
    with the version nibble 5, read in little-endian order. *)
Theorem guid_from_name_is_sha1 to_uppercase name
    (Hlen : len (name_bytes to_uppercase name) < 2 ^ 37 - 16) :
  let h := sha1 (guid_namespace ++ name_bytes to_uppercase name) in
  exists g, Guid_from_name to_uppercase name = Ret g /\
    g = Guid_from_bytes_le (take 16 (<[7%nat := Z.lor (Z.land (byte_at h 7) 0x0F) 0x50]> h)) /\
    length g = 16%nat /\ Z.shiftr (byte_at g 6) 4 = 5.
Proof.
  intros h. pose proof (length_sha1 (guid_namespace ++ name_bytes to_uppercase name)) as Hl.
  fold h in Hl. eexists. split_and!; [|reflexivity|reflexivity|].
  - unfold Guid_from_name.
    pose proof (Sha1_ok (guid_namespace ++ name_bytes to_uppercase name)
                  ltac:(rewrite len_app; change (len guid_namespace) with 16; lia)) as E.
    rewrite Sha1_write_app in E. fold h in E.
    destruct (Sha1_write guid_namespace Sha1_new) as [s|]; [|done]. cbn [mbind outcome_bind] in *.
    destruct (Sha1_write _ s) as [s1|]; [|done]. cbn [mbind outcome_bind] in *. rewrite E.
    cbn [mbind outcome_bind]. unfold len in *.
    rewrite index_byte_at by (unfold len; lia). cbn [mbind outcome_bind].
    unfold store. replace ((0 <=? 7) && (7 <? len h)) with true by (unfold len; rewrite Hl; done).
    cbn [mbind outcome_bind].
    rewrite slice_ok by (unfold len; rewrite ?length_insert; lia). reflexivity.
  - clearbody h. do 20 (destruct h as [|? h]; [done|]). 
    match goal with |- context [byte_at (?a :: ?l) 7] =>
      let b := eval cbv in (nth 7 (a :: l) 0) in change (byte_at (a :: l) 7) with b;
      match goal with |- Z.shiftr ?v 4 = 5 => change v with (Z.lor (Z.land b 15) 80) end end.
    rewrite Z.shiftr_lor, Z.shiftr_land. change (Z.shiftr 15 4) with 0.
    by rewrite Z.land_0_r.
Qed.

Definition ascii_upper (c : Z) : list Z := [if (97 <=? c) && (c <=? 122) then c - 32 else c].
Definition example_name : list Z := [77; 121; 80; 114; 111; 118; 105; 100; 101; 114].

Lemma guid_from_name_is_sha1_witness :
  Guid_from_name ascii_upper example_name =
    Ret [0xb3; 0x86; 0x4c; 0x38; 0x42; 0x73; 0x58; 0xc5; 0x54; 0x5b; 0x8b; 0x36; 0x08; 0x34; 0x34; 0x71].
Proof.
  destruct (guid_from_name_is_sha1 ascii_upper example_name ltac:(vm_compute; reflexivity))
    as (g & Hg & _).
  rewrite Hg. vm_compute in Hg. congruence.
Defined.
