(* ===== verification/Tracepoint.v ===== *)
(** * Tracepoint: the user_events file and tracepoint registration
    (tracepoint/src/native.rs)

    The shared [user_events_data] file, the registration state of one tracepoint
    and the writing of events.  The system calls are a parameter ([UserEvents]).
    Each operation that touches an atomic more than once is the composition of
    the steps between two atomic operations, and TracepointThreads interleaves the
    same steps of several threads. *)

From S2P Require Import Prelude Types ByteReader.

(** The system calls of the Linux build.  A call returns its result, or [errno]
    when it fails.  [linux_mounts] is [fopen] and the successive [fgets] results
    of [/proc/mounts]: the contents of the line buffer after each call. *)
Class UserEvents := {
  linux_open : bytes -> result Z Z;
  linux_mounts : result (list bytes) Z;
  linux_reg : Z -> bytes -> Z -> result Z Z;
  linux_unreg : Z -> result unit Z;
  linux_writev : Z -> list bytes -> result unit Z;
}.

(* native.rs: get_failure_errno *)
Definition get_failure_errno (errno : Z) : outcome Z :=
  _ ← rassert (0 <? errno); Ret errno.

(** ** Finding the file *)

(* native.rs: UserEventsDataFile::EAGAIN_ERROR *)
Definition EAGAIN_ERROR : Z := -11.
Definition ENOTSUP : Z := 95.

(* native.rs: UserEventsDataFile::is_space_char *)
Definition is_space_char (ch : Z) : bool := (ch =? 32) || (ch =? 9).
(* native.rs: UserEventsDataFile::is_nonspace_char *)
Definition is_nonspace_char (ch : Z) : bool := negb (ch =? 0) && negb (is_space_char ch).

(** [while p(line[line_pos]) { line_pos += 1 }]; [n] is [line.len() - line_pos],
    past which the index is out of range. *)
Fixpoint skip_while (p : Z -> bool) (line : bytes) (n : nat) (pos : Z) : outcome Z :=
  match n with
  | O => Panic
  | S n => ch ← index line pos; if p ch then skip_while p line n (pos + 1) else Ret pos
  end.
Definition skip_chars (p : Z -> bool) (line : bytes) (pos : Z) : outcome Z :=
  skip_while p line (Z.to_nat (len line - pos)) pos.

Definition tracefs_name : bytes := [116; 114; 97; 99; 101; 102; 115].
Definition debugfs_name : bytes := [100; 101; 98; 117; 103; 102; 115].
(** ["/user_events_data\0"] and ["/tracing/user_events_data\0"]. *)
Definition user_events_suffix : bytes :=
  [47; 117; 115; 101; 114; 95; 101; 118; 101; 110; 116; 115; 95; 100; 97; 116; 97; 0].
Definition tracing_suffix : bytes := [47; 116; 114; 97; 99; 105; 110; 103] ++ user_events_suffix.

(** [dst[a..a + src.len()].copy_from_slice(src)]. *)
Definition copy_at (dst : bytes) (a : Z) (src : bytes) : outcome bytes :=
  _ ← slice dst a (a + len src);
  Ret (take (Z.to_nat a) dst ++ src ++ drop (Z.to_nat (a + len src)) dst).

(* native.rs:117-153: UserEventsDataFile::update, the fields of one line *)
Definition parse_mount_line (line : bytes) : outcome (option (bytes * bytes)) :=
  pos ← skip_chars is_nonspace_char line 0;
  mount_begin ← skip_chars is_space_char line pos;
  mount_end ← skip_chars is_nonspace_char line mount_begin;
  fs_begin ← skip_chars is_space_char line mount_end;
  fs_end ← skip_chars is_nonspace_char line fs_begin;
  ch ← index line fs_end;
  if negb (is_space_char ch) then Ret None
  else
    fs ← slice line fs_begin fs_end;
    mount ← slice line mount_begin mount_end;
    Ret (Some (mount, fs)).

(** What one line does to [path]; [true] asks for the loop to stop. *)
(* native.rs:155-182: UserEventsDataFile::update, the choice of the path *)
Definition use_mount (path mount fs : bytes) : outcome (bool * bytes) :=
  first ← index path 0;
  let choice :=
    if bool_decide (fs = tracefs_name) then Some (user_events_suffix, true)
    else if (first =? 0) && bool_decide (fs = debugfs_name) then Some (tracing_suffix, false)
    else None in
  match choice with
  | None => Ret (false, path)
  | Some (path_suffix, stop) =>
    if len path <? len mount + len path_suffix then Ret (false, path)
    else
      path ← copy_at path 0 mount;
      path ← copy_at path (len mount) path_suffix;
      Ret (stop, path)
  end.

(* native.rs:103-183: UserEventsDataFile::update, the loop over the lines *)
Fixpoint scan_mounts (lines : list bytes) (path : bytes) : outcome bytes :=
  match lines with
  | [] => Ret path
  | line :: lines =>
    fields ← parse_mount_line line;
    match fields with
    | None => scan_mounts lines path
    | Some (mount, fs) =>
      '(stop, path) ← use_mount path mount fs;
      if (stop : bool) then Ret path else scan_mounts lines path
    end
  end.

(** ["/sys/kernel/tracing/user_events_data\0"]. *)
Definition default_path : bytes :=
  [47; 115; 121; 115; 47; 107; 101; 114; 110; 101; 108; 47; 116; 114; 97; 99; 105; 110; 103]
  ++ user_events_suffix.

(** [path.ends_with(&[0])]. *)
Definition ends_with_nul (path : bytes) : bool :=
  match rev path with b :: _ => b =? 0 | [] => false end.

Section Kernel.
Context `{UserEvents}.

(* native.rs: open_wronly *)
Definition open_wronly (path0 : bytes) : outcome (result Z Z) :=
  _ ← rassert (ends_with_nul path0);
  Ret (linux_open path0).

(** [if let new_file @ 0.. = open_wronly(path)]: the file, or [errno]. *)
Definition opened (r : result Z Z) : result Z Z :=
  match r with Ok fd => if 0 <=? fd then Ok fd else Err 0 | Err e => Err e end.

(* native.rs:73-201: UserEventsDataFile::update, up to the exchange *)
Definition find_file : outcome Z :=
  r ← open_wronly default_path;
  match opened r with
  | Ok new_file => Ret new_file
  | Err _ =>
    match linux_mounts with
    | Err e => e ← get_failure_errno e; Ret (- e)
    | Ok lines =>
      path ← scan_mounts lines (repeat 0 274);
      first ← index path 0;
      if first =? 0 then Ret (- ENOTSUP)
      else
        r ← open_wronly path;
        match opened r with
        | Ok new_file => Ret new_file
        | Err e => e ← get_failure_errno e; Ret (- e)
        end
    end
  end.
End Kernel.

(** ** The shared file descriptor *)

(** One iteration of the exchange loop, given the value found in the atomic: the
    new value is stored, or the current one is preferred (and the new file, if
    any, is closed), or the loop goes on with the current value as the old one. *)
Inductive Exchange :=
  | Stored
  | Preferred (close_new : bool)
  | Again.

(* native.rs:204-230: UserEventsDataFile::update, one iteration of the exchange loop *)
Definition exchange (old_file_or_error new_file_or_error current : Z) : Exchange :=
  if current =? old_file_or_error then Stored
  else if (0 <=? current) || (new_file_or_error <? 0) then Preferred (0 <=? new_file_or_error)
  else Again.

(** The loop when no other thread interferes: it stores or prefers in the first
    iteration, or stores in the second.  The result and the atomic's new value. *)
(* native.rs:203-231: UserEventsDataFile::update, the exchange loop *)
Definition UserEventsDataFile_update (new_file_or_error file_or_error : Z) : Z * Z :=
  match exchange EAGAIN_ERROR new_file_or_error file_or_error with
  | Stored => (new_file_or_error, new_file_or_error)
  | Preferred _ => (file_or_error, file_or_error)
  | Again => (new_file_or_error, new_file_or_error)
  end.

(* native.rs: UserEventsDataFile::new *)
Definition UserEventsDataFile_new : Z := EAGAIN_ERROR.

(** [swap(EAGAIN)]; the descriptor to close, if there is one. *)
(* native.rs: UserEventsDataFile::close *)
Definition UserEventsDataFile_close (file_or_error : Z) : Z * option Z :=
  (EAGAIN_ERROR, if 0 <=? file_or_error then Some file_or_error else None).

(* native.rs: UserEventsDataFile::peek *)
Definition UserEventsDataFile_peek (file_or_error : Z) : Z := file_or_error.

(* native.rs: UserEventsDataFile::get *)
Definition UserEventsDataFile_get `{UserEvents} (file_or_error : Z) : outcome (Z * Z) :=
  if file_or_error =? EAGAIN_ERROR
  then new ← find_file; Ret (UserEventsDataFile_update new file_or_error)
  else Ret (file_or_error, file_or_error).

(** ** The state of one tracepoint *)

(** The request codes of the [ioctl] calls; the [DIAG_IOCSREG] and [DIAG_IOCSUNREG] of
    the kernel's user_events.h. *)
(* native.rs:300-300: TracepointState::IOC_WRITE *)
Definition IOC_WRITE : Z := 1.
(* native.rs:303-303: TracepointState::IOC_READ *)
Definition IOC_READ : Z := 2.
(* native.rs:306-306: TracepointState::DIAG_IOC_MAGIC *)
Definition DIAG_IOC_MAGIC : Z := 42.
(* native.rs: TracepointState::ioc *)
Definition ioc (dir typ nr : Z) : Z :=
  let IOC_NRSHIFT := 0 in
  let IOC_TYPESHIFT := IOC_NRSHIFT + 8 in
  let IOC_SIZESHIFT := IOC_TYPESHIFT + 8 in
  let IOC_DIRSHIFT := IOC_SIZESHIFT + 14 in
  Z.lor (Z.lor (Z.lor (Z.shiftl dir IOC_DIRSHIFT) (Z.shiftl typ IOC_TYPESHIFT)) (Z.shiftl nr IOC_NRSHIFT))
    (Z.shiftl 8 IOC_SIZESHIFT).
(* native.rs:309-310: TracepointState::DIAG_IOCSREG *)
Definition DIAG_IOCSREG : Z := ioc (Z.lor IOC_WRITE IOC_READ) DIAG_IOC_MAGIC 0.
(* native.rs:313-313: TracepointState::DIAG_IOCSUNREG *)
Definition DIAG_IOCSUNREG : Z := ioc IOC_WRITE DIAG_IOC_MAGIC 2.

(* native.rs: struct TracepointState *)
Record TracepointState := { enable_status : Z; write_index : Z }.

(* native.rs: TracepointState::UNREGISTERED_WRITE_INDEX *)
Definition UNREGISTERED_WRITE_INDEX : Z := 2 ^ 32 - 1.
(* native.rs: TracepointState::BUSY_WRITE_INDEX *)
Definition BUSY_WRITE_INDEX : Z := 2 ^ 32 - 1 - 1.
(* native.rs: TracepointState::HIGHEST_VALID_WRITE_INDEX *)
Definition HIGHEST_VALID_WRITE_INDEX : Z := 2 ^ 32 - 1 - 2.

(* native.rs: TracepointState::new *)
Definition TracepointState_new (initial_enable_status : Z) : TracepointState :=
  {| enable_status := initial_enable_status; write_index := UNREGISTERED_WRITE_INDEX |}.

(* native.rs: TracepointState::enabled *)
Definition TracepointState_enabled (s : TracepointState) : bool := negb (0 =? s.(enable_status)).

(** [self.write_index.swap(v)]: the old value and the new state. *)
Definition swap_index (v : Z) (s : TracepointState) : Z * TracepointState :=
  (s.(write_index), {| enable_status := s.(enable_status); write_index := v |}).

Definition EBUSY : Z := 16.
Definition EALREADY : Z := 116.
Definition EBADF : Z := 9.

(** What the first swap of [unregister] finds. *)
Inductive Unregistering :=
  | AlreadyBusy
  | AlreadyUnregistered
  | WasRegistered.

(* native.rs:357-405: TracepointState::unregister, the first swap and its match *)
Definition unregister_begin (s : TracepointState) : Unregistering * TracepointState :=
  let '(old_write_index, s) := swap_index BUSY_WRITE_INDEX s in
  (if old_write_index =? BUSY_WRITE_INDEX then AlreadyBusy
   else if old_write_index =? UNREGISTERED_WRITE_INDEX then AlreadyUnregistered
   else WasRegistered, s).

(** The second swap of [unregister] and of [register_with_flags], with its
    [debug_assert!]. *)
(* native.rs:529-530: TracepointState::register_with_flags, the last swap *)
Definition finish_swap (new_write_index : Z) (s : TracepointState) : bool * TracepointState :=
  let '(old_write_index, s) := swap_index new_write_index s in
  (old_write_index =? BUSY_WRITE_INDEX, s).

(** The first swap of [register_with_flags]; [false] is the failed [assert!]. *)
(* native.rs:472-478: TracepointState::register_with_flags, the first swap and its assert *)
Definition register_begin (s : TracepointState) : bool * TracepointState :=
  let '(old_write_index, s) := swap_index BUSY_WRITE_INDEX s in
  (old_write_index =? UNREGISTERED_WRITE_INDEX, s).

Section Operations.
Context `{UserEvents} `{Target}.

(** The error of the kernel call that unregisters. *)
(* native.rs:394-402: TracepointState::unregister, the system call *)
Definition unregister_call (file_or_error : Z) : outcome Z :=
  match linux_unreg (UserEventsDataFile_peek file_or_error) with
  | Ok _ => Ret 0
  | Err e => get_failure_errno e
  end.

(* native.rs: TracepointState::unregister *)
Definition TracepointState_unregister (file_or_error : Z) (s : TracepointState) : outcome (Z * TracepointState) :=
  let '(found, s) := unregister_begin s in
  match found with
  | AlreadyBusy => Ret (EBUSY, s)
  | _ =>
    error ← (match found with
             | WasRegistered => unregister_call file_or_error
             | _ => Ret EALREADY
             end);
    let '(ok, s) := finish_swap UNREGISTERED_WRITE_INDEX s in
    _ ← rassert ok;
    Ret (error, s)
  end.

(** The error and the new write index of a registration. *)
(* native.rs:480-527: TracepointState::register_with_flags, the system call *)
Definition register_call (user_events_data : Z) (name_args : bytes) (flags : Z)
  : outcome (Z * Z) :=
  if user_events_data <? 0 then Ret (- user_events_data, UNREGISTERED_WRITE_INDEX)
  else
    match linux_reg user_events_data name_args flags with
    | Err e => e ← get_failure_errno e; Ret (e, UNREGISTERED_WRITE_INDEX)
    | Ok new_write_index =>
      _ ← rassert (new_write_index <=? HIGHEST_VALID_WRITE_INDEX);
      Ret (0, new_write_index)
    end.

(* native.rs: TracepointState::register_with_flags *)
Definition TracepointState_register_with_flags (file_or_error : Z) (name_args : bytes) (flags : Z)
    (s : TracepointState) : outcome (Z * Z * TracepointState) :=
  let '(ok, s) := register_begin s in
  _ ← rassert ok;
  '(user_events_data, file_or_error) ← UserEventsDataFile_get file_or_error;
  '(error, new_write_index) ← register_call user_events_data name_args flags;
  let '(ok, s) := finish_swap new_write_index s in
  _ ← rassert ok;
  Ret (error, file_or_error, s).

(* native.rs: TracepointState::register *)
Definition TracepointState_register (file_or_error : Z) (name_args : bytes) (s : TracepointState)
  : outcome (Z * Z * TracepointState) :=
  TracepointState_register_with_flags file_or_error name_args 0 s.

(** ** Writing

    The descriptors are the byte strings they point to.  The result is the return
    value and the descriptors that were given to [writev], if it was called. *)

(* native.rs: TracepointState::writev *)
Definition TracepointState_writev (file_or_error : Z) (data : list bytes) (headers : bytes)
  : outcome (Z * option (list bytes)) :=
  data ← store data 0 headers;
  match linux_writev (UserEventsDataFile_peek file_or_error) data with
  | Ok _ => Ret (0, Some data)
  | Err e => e ← get_failure_errno e; Ret (e, Some data)
  end.

(** The check that [write] and [write_with_headers] begin with. *)
Definition cannot_write (s : TracepointState) : bool :=
  (s.(enable_status) =? 0) || (HIGHEST_VALID_WRITE_INDEX <? s.(write_index)).

(* native.rs: TracepointState::write *)
Definition TracepointState_write (file_or_error : Z) (data : list bytes) (s : TracepointState)
  : outcome (Z * option (list bytes)) :=
  d0 ← index data 0;
  _ ← rassert (len d0 =? 0);
  if cannot_write s then Ret (EBADF, None)
  else TracepointState_writev file_or_error data (to_ne_bytes 4 s.(write_index)).

(* native.rs: TracepointState::write_with_headers *)
Definition TracepointState_write_with_headers (file_or_error : Z) (data : list bytes) (headers : bytes)
    (s : TracepointState) : outcome (Z * option (list bytes)) :=
  d0 ← index data 0;
  _ ← rassert (len d0 =? 0);
  _ ← rassert (4 <=? len headers);
  if cannot_write s then Ret (EBADF, None)
  else
    headers ← copy_at headers 0 (to_ne_bytes 4 s.(write_index));
    TracepointState_writev file_or_error data headers.
End Operations.
