(* ===== verification/TracepointProps.v ===== *)
(** * TracepointProps: the data file and registration under interleaving

    The search for [user_events_data] in the mount table against a reference
    parser; the steps of several threads that share the descriptor of the data
    file, or one tracepoint, in any order. *)

From S2P Require Import Prelude Types ByteReader Tracepoint.

(** ** The mount table *)

(** The text of a C string buffer. *)
Fixpoint c_text (l : bytes) : bytes :=
  match l with [] => [] | b :: l => if b =? 0 then [] else b :: c_text l end.

Fixpoint take_while (p : Z -> bool) (l : bytes) : bytes :=
  match l with [] => [] | b :: l => if p b then b :: take_while p l else [] end.
Fixpoint drop_while (p : Z -> bool) (l : bytes) : bytes :=
  match l with [] => [] | b :: l' => if p b then drop_while p l' else l end.

(** The second and the third word of a line, if a space follows the third. *)
Definition mount_fields (l : bytes) : option (bytes * bytes) :=
  let l := drop_while is_space_char (drop_while is_nonspace_char l) in
  let mount := take_while is_nonspace_char l in
  let l := drop_while is_space_char (drop_while is_nonspace_char l) in
  let fs := take_while is_nonspace_char l in
  match drop_while is_nonspace_char l with
  | ch :: _ => if is_space_char ch then Some (mount, fs) else None
  | [] => None
  end.

Lemma take_drop_while p l : take_while p l ++ drop_while p l = l.
Proof. induction l as [|b l IH]; cbn; [done|]. destruct (p b); cbn; [by rewrite IH|done]. Qed.

Lemma drop_while_eq p l : drop_while p l = drop (length (take_while p l)) l.
Proof. induction l as [|b l IH]; cbn; [done|]. by destruct (p b). Qed.

(** [p]'s run from [pos] on ends before the end of a buffer that still holds a
    NUL, when NUL is not in [p]. *)
Lemma skip_chars_ok p line pos :
  p 0 = false -> 0 <= pos -> In 0 (drop (Z.to_nat pos) line) ->
  skip_chars p line pos = Ret (pos + len (take_while p (drop (Z.to_nat pos) line))) /\
  In 0 (drop_while p (drop (Z.to_nat pos) line)).
Proof.
  intros Hp Hpos HIn. unfold skip_chars.
  assert (Hn : Z.to_nat (len line - pos) = length (drop (Z.to_nat pos) line))
    by (rewrite length_drop; unfold len; lia).
  rewrite Hn. clear Hn. remember (drop (Z.to_nat pos) line) as l eqn:El.
  revert pos Hpos El HIn. induction l as [|b l IH]; intros pos Hpos El HIn; [done|].
  cbn [length skip_while take_while drop_while].
  assert (Eb : line !! Z.to_nat pos = Some b).
  { rewrite <- (Nat.add_0_r (Z.to_nat pos)), <- lookup_drop, <- El. done. }
  unfold index. destruct (Z.ltb_spec pos 0); [lia|]. rewrite Eb. cbn [mbind outcome_bind].
  destruct (p b) eqn:Epb.
  - assert (E1 : l = drop (Z.to_nat (pos + 1)) line).
    { replace (Z.to_nat (pos + 1)) with (Z.to_nat pos + 1)%nat by lia.
      rewrite <- drop_drop, <- El. done. }
    destruct HIn as [->|HIn]; [congruence|].
    destruct (IH (pos + 1) ltac:(lia) E1 HIn) as [E HI]. rewrite E. split; [|done].
    f_equal. rewrite len_cons. lia.
  - split; [f_equal; rewrite len_nil; lia|done].
Qed.

Lemma sub_take_while p line pos :
  0 <= pos ->
  sub line pos (pos + len (take_while p (drop (Z.to_nat pos) line)))
  = take_while p (drop (Z.to_nat pos) line).
Proof.
  intros H. unfold sub. rewrite Z.add_simpl_l. unfold len. rewrite Nat2Z.id.
  rewrite <- (take_drop_while p (drop (Z.to_nat pos) line)) at 2.
  by rewrite take_app_length.
Qed.

Lemma skip_chars_spec p line pos :
  p 0 = false -> 0 <= pos -> In 0 (drop (Z.to_nat pos) line) ->
  exists q, skip_chars p line pos = Ret q /\ pos <= q < len line /\
    drop (Z.to_nat q) line = drop_while p (drop (Z.to_nat pos) line) /\
    sub line pos q = take_while p (drop (Z.to_nat pos) line) /\
    In 0 (drop (Z.to_nat q) line).
Proof.
  intros Hp Hpos HIn. destruct (skip_chars_ok p line pos Hp Hpos HIn) as [-> HI].
  eexists. split; [reflexivity|]. set (k := len (take_while p _)).
  assert (Hk : 0 <= k) by apply len_nonneg.
  assert (Ed : drop (Z.to_nat (pos + k)) line = drop_while p (drop (Z.to_nat pos) line)).
  { rewrite drop_while_eq, drop_drop. f_equal. subst k. unfold len. lia. }
  rewrite Ed. split_and!; [lia| |done|by apply sub_take_while|done].
  destruct (drop_while p _) as [|b l] eqn:E; [done|]. clear -Ed Hpos Hk.
  assert (H : (length (drop (Z.to_nat (pos + k)) line) = S (length l))) by by rewrite Ed.
  rewrite length_drop in H. unfold len. lia.
Qed.

Lemma parse_mount_line_eq line :
  In 0 line -> parse_mount_line line = Ret (mount_fields line).
Proof.
  intros H0. unfold parse_mount_line, mount_fields.
  destruct (skip_chars_spec is_nonspace_char line 0) as (q1 & -> & R1 & D1 & _ & I1); [done|lia|done|].
  cbn [mbind outcome_bind]. change (drop (Z.to_nat 0) line) with line in *.
  destruct (skip_chars_spec is_space_char line q1) as (q2 & -> & R2 & D2 & _ & I2); [done|lia|done|].
  cbn [mbind outcome_bind].
  destruct (skip_chars_spec is_nonspace_char line q2) as (q3 & -> & R3 & D3 & S3 & I3); [done|lia|done|].
  cbn [mbind outcome_bind].
  destruct (skip_chars_spec is_space_char line q3) as (q4 & -> & R4 & D4 & _ & I4); [done|lia|done|].
  cbn [mbind outcome_bind].
  destruct (skip_chars_spec is_nonspace_char line q4) as (q5 & -> & R5 & D5 & S5 & I5); [done|lia|done|].
  cbn [mbind outcome_bind]. rewrite <- D1, <- D2, <- D3, <- D4, <- S3, <- S5, <- D5.
  rewrite index_byte_at by lia. cbn [mbind outcome_bind].
  assert (E : exists l, drop (Z.to_nat q5) line = byte_at line q5 :: l).
  { unfold byte_at. destruct (drop (Z.to_nat q5) line) as [|b l] eqn:E; [done|].
    exists l. f_equal. symmetry. apply nth_lookup_Some.
    rewrite <- (Nat.add_0_r (Z.to_nat q5)), <- lookup_drop, E. done. }
  destruct E as [l ->]. destruct (is_space_char (byte_at line q5)); cbn [negb]; [|done].
  rewrite !slice_ok by lia. reflexivity.
Qed.

(** ** The choice of the path *)

(** The path of the data file below a mount point, if the buffer can hold it. *)
Definition mount_path (suffix mount : bytes) : option bytes :=
  if len mount + len suffix <=? 274 then Some (mount ++ c_text suffix) else None.

(** The first usable tracefs mount, or else the first usable debugfs mount. *)
Fixpoint first_path (fs_name suffix : bytes) (ms : list (bytes * bytes)) : option bytes :=
  match ms with
  | [] => None
  | (mount, fs) :: ms =>
    match (if bool_decide (fs = fs_name) then mount_path suffix mount else None) with
    | Some p => Some p
    | None => first_path fs_name suffix ms
    end
  end.

Definition chosen_path (ms : list (bytes * bytes)) : option bytes :=
  match first_path tracefs_name user_events_suffix ms with
  | Some p => Some p
  | None => first_path debugfs_name tracing_suffix ms
  end.

Definition mounts_of (lines : list bytes) : list (bytes * bytes) := omap mount_fields lines.

(** The path buffer: 274 bytes, the last of them NUL; [r] is its text. *)
Definition path_buffer (path r : bytes) : Prop :=
  length path = 274%nat /\ ends_with_nul path = true /\ c_text path = r.

Lemma ends_with_nul_app l b : ends_with_nul (l ++ [b]) = (b =? 0).
Proof. unfold ends_with_nul. by rewrite rev_unit. Qed.

Lemma take_while_nonspace l : Forall (fun b => b <> 0) (take_while is_nonspace_char l).
Proof.
  induction l as [|b l IH]; cbn; [constructor|]. destruct (is_nonspace_char b) eqn:E; [|constructor].
  constructor; [|done]. unfold is_nonspace_char in E. bool_hyps. done.
Qed.

Lemma c_text_app l r : Forall (fun b => b <> 0) l -> c_text (l ++ r) = l ++ c_text r.
Proof.
  induction 1 as [|b l Hb Hl IH]; cbn; [done|]. destruct (Z.eqb_spec b 0); [done|]. by rewrite IH.
Qed.

Lemma ends_with_nul_suffix a b c : b <> [] -> ends_with_nul (a ++ b ++ c) = ends_with_nul (b ++ c).
Proof.
  intros Hb. unfold ends_with_nul. rewrite !rev_app_distr. destruct (rev c); [|done]. cbn.
  destruct (rev b) eqn:E; [|done]. destruct b; [done|]. cbn in E. by destruct (rev b).
Qed.

(** A path that is copied into the buffer becomes its text. *)
Lemma copy_path path r mount suffix t :
  path_buffer path r -> len mount + len (suffix ++ [0]) <= 274 ->
  Forall (fun b => b <> 0) mount -> suffix ++ [0] = t ->
  exists path', (p ← copy_at path 0 mount; copy_at p (len mount) t) = Ret path' /\
    path_buffer path' (mount ++ c_text t).
Proof.
  intros (Hl & He & _) Hlen Hm Ht. unfold copy_at. unfold len in Hlen. rewrite length_app in Hlen.
  cbn [length] in Hlen.
  rewrite slice_ok by (unfold len; lia). cbn [mbind outcome_bind].
  change (take (Z.to_nat 0) path) with (@nil Z). cbn [app].
  set (p1 := mount ++ drop (Z.to_nat (0 + len mount)) path).
  assert (Hl1 : length p1 = 274%nat).
  { subst p1. rewrite length_app, length_drop. unfold len. lia. }
  assert (Ed : drop (Z.to_nat (len mount + len t)) p1 = drop (length mount + length t) path).
  { subst p1. rewrite Z2Nat.inj_add by apply len_nonneg. unfold len. rewrite !Nat2Z.id.
    rewrite <- drop_drop, drop_app_length, drop_drop. f_equal. lia. }
  assert (Et : take (Z.to_nat (len mount)) p1 = mount).
  { subst p1. unfold len. by rewrite Nat2Z.id, take_app_length. }
  assert (Hlt : (length t = length suffix + 1)%nat) by (rewrite <- Ht, length_app; done).
  rewrite slice_ok by (unfold len; lia). cbn [mbind outcome_bind]. rewrite Ed, Et.
  eexists. split; [reflexivity|]. split_and!.
  - rewrite !length_app, length_drop. lia.
  - rewrite ends_with_nul_suffix by (by rewrite <- Ht; destruct suffix).
    destruct (decide (length mount + length t = 274)%nat) as [E|E].
    + rewrite drop_ge, app_nil_r, <- Ht by lia. by rewrite ends_with_nul_app.
    + rewrite <- (take_drop (length mount + length t) path) in He.
      rewrite <- (app_nil_r (_ ++ drop _ _)), <- app_assoc, app_nil_r.
      unfold ends_with_nul in *. rewrite rev_app_distr in *.
      destruct (rev (drop (length mount + length t) path)) eqn:Er; [|done].
      apply (f_equal (@length Z)) in Er. rewrite length_rev, length_drop in Er. cbn in Er. lia.
  - rewrite c_text_app by done. f_equal. rewrite <- Ht. generalize (drop (length mount + length (suffix ++ [0])) path). clear.
    intros rest.
    induction suffix as [|b s IH]; [done|]. cbn. destruct (b =? 0); [done|]. f_equal. exact IH.
Qed.

Lemma path_buffer_first path r :
  path_buffer path r -> exists b, index path 0 = Ret b /\ ((b =? 0) = true <-> r = []).
Proof.
  intros (Hl & _ & <-). destruct path as [|b path]; [done|]. exists b. split; [done|].
  cbn. destruct (b =? 0); split; intros; congruence.
Qed.

(** What one line does to the text of the path. *)
Definition path_step (r mount fs : bytes) : bool * bytes :=
  if bool_decide (fs = tracefs_name) then
    match mount_path user_events_suffix mount with Some p => (true, p) | None => (false, r) end
  else if bool_decide (fs = debugfs_name) && bool_decide (r = []) then
    match mount_path tracing_suffix mount with Some p => (false, p) | None => (false, r) end
  else (false, r).

Lemma use_mount_ok path r mount fs :
  path_buffer path r -> Forall (fun b => b <> 0) mount ->
  exists path', use_mount path mount fs = Ret ((path_step r mount fs).1, path') /\
    path_buffer path' (path_step r mount fs).2.
Proof.
  intros Hp Hm. pose proof Hp as (Hl & _ & _).
  destruct (path_buffer_first path r Hp) as (b & Eb & Hb). unfold use_mount, path_step. rewrite Eb.
  cbn [mbind outcome_bind].
  assert (Hcopy : forall suffix s stop, s ++ [0] = suffix ->
    exists path', (if len path <? len mount + len suffix then Ret (false, path)
       else p ← copy_at path 0 mount; p ← copy_at p (len mount) suffix; Ret (stop, p))
      = Ret (match mount_path suffix mount with Some _ => stop | None => false end, path') /\
      path_buffer path' (match mount_path suffix mount with Some p => p | None => r end)).
  { intros suffix s stop Hs. unfold mount_path.
    replace (len path) with 274 by (unfold len; lia). rewrite Z.leb_antisym.
    destruct (Z.ltb_spec 274 (len mount + len suffix)); cbn [negb]; [by exists path|].
    destruct (copy_path path r mount s suffix Hp) as (p' & E & Hp'); [by rewrite Hs|done|done|].
    exists p'. split; [|done]. destruct (copy_at path 0 mount) as [p1|]; [|done].
    cbn [mbind outcome_bind] in *. by rewrite E. }
  destruct (bool_decide (fs = tracefs_name)).
  - destruct (Hcopy user_events_suffix (removelast user_events_suffix) true eq_refl) as (p' & E & Hp').
    exists p'. rewrite E. by destruct (mount_path _ _).
  - destruct (decide (r = [])) as [Hr|Hr].
    + rewrite (proj2 Hb Hr), (bool_decide_eq_true_2 (r = [])) by done. rewrite andb_true_r. cbn [andb].
      destruct (bool_decide (fs = debugfs_name)); [|by exists path].
      destruct (Hcopy tracing_suffix (removelast tracing_suffix) false eq_refl) as (p' & E & Hp').
      exists p'. rewrite E. by destruct (mount_path _ _).
    + rewrite (bool_decide_eq_false_2 (r = [])), andb_false_r by done.
      destruct (b =? 0); [by destruct Hr; apply Hb|]. by exists path.
Qed.

Lemma mount_path_nonempty suffix mount p :
  c_text suffix <> [] -> mount_path suffix mount = Some p -> p <> [].
Proof.
  unfold mount_path. case_match; [|done]. intros Hs [= <-]. by destruct mount, (c_text suffix).
Qed.

Lemma mount_fields_nonul line mount fs :
  mount_fields line = Some (mount, fs) -> Forall (fun b => b <> 0) mount.
Proof.
  unfold mount_fields. repeat case_match; try done. intros [= <- _]. apply take_while_nonspace.
Qed.

Lemma scan_mounts_ok lines path r :
  Forall (In 0) lines -> path_buffer path r ->
  exists path', scan_mounts lines path = Ret path' /\
    path_buffer path'
      (match first_path tracefs_name user_events_suffix (mounts_of lines) with
       | Some p => p
       | None => if bool_decide (r = [])
                 then default [] (first_path debugfs_name tracing_suffix (mounts_of lines)) else r
       end).
Proof.
  intros Hlines. revert path r. induction Hlines as [|line lines H0 Hlines IH]; intros path r Hp.
  - exists path. split; [done|]. cbn. by case_bool_decide; subst.
  - cbn [scan_mounts]. rewrite parse_mount_line_eq by done. cbn [mbind outcome_bind].
    unfold mounts_of. cbn [omap list_omap]. destruct (mount_fields line) as [[mount fs]|] eqn:Ef;
      [|by apply IH].
    pose proof (mount_fields_nonul _ _ _ Ef) as Hm.
    destruct (use_mount_ok path r mount fs Hp Hm) as (p' & -> & Hp'). cbn [mbind outcome_bind].
    fold (mounts_of lines). cbn [first_path]. unfold path_step in *.
    destruct (bool_decide (fs = tracefs_name)) eqn:Et.
    + apply bool_decide_eq_true_1 in Et as ->.
      rewrite (bool_decide_eq_false_2 (tracefs_name = debugfs_name)) by done.
      destruct (mount_path user_events_suffix mount); cbn [fst snd] in *; [by exists p'|by apply IH].
    + destruct (bool_decide (fs = debugfs_name)) eqn:Ed; cbn [andb] in *; [|by apply IH].
      destruct (decide (r = [])) as [->|Hr].
      * rewrite (bool_decide_eq_true_2 (@nil Z = [])) in Hp' |- * by done.
        destruct (mount_path tracing_suffix mount) as [p|] eqn:Emp; cbn [fst snd] in *;
          destruct (IH _ _ Hp') as (p2 & -> & Hp2); exists p2; (split; [done|]).
        -- rewrite (bool_decide_eq_false_2 (p = [])) in Hp2; [done|].
           by apply (mount_path_nonempty tracing_suffix mount).
        -- by rewrite bool_decide_eq_true_2 in Hp2.
      * rewrite (bool_decide_eq_false_2 (r = [])) in Hp' |- * by done. cbn [fst snd] in *.
        destruct (IH _ _ Hp') as (p2 & -> & Hp2). exists p2. split; [done|].
        by rewrite (bool_decide_eq_false_2 (r = [])) in Hp2.
Qed.

Lemma first_path_nonempty fs_name suffix ms p :
  c_text suffix <> [] -> first_path fs_name suffix ms = Some p -> p <> [].
Proof.
  intros Hs. induction ms as [|[mount fs] ms IH]; cbn; [done|].
  case_bool_decide; [|by apply IH]. destruct (mount_path suffix mount) eqn:E; [|by apply IH].
  intros [= <-]. by apply (mount_path_nonempty suffix mount).
Qed.

Lemma chosen_path_nonempty ms p : chosen_path ms = Some p -> p <> [].
Proof.
  unfold chosen_path. destruct (first_path tracefs_name _ ms) eqn:E; intros H.
  - injection H as <-. by eapply first_path_nonempty; [|exact E].
  - by eapply first_path_nonempty; [|exact H].
Qed.

Lemma c_text_nul l : c_text (c_text l ++ [0]) = c_text l.
Proof. induction l as [|b l IH]; cbn; [done|]. destruct (b =? 0) eqn:E; cbn; [done|]. by rewrite E, IH. Qed.

(** What the documentation of the calls promises: descriptors are not negative and
    [errno] is positive; a line read by [fgets] ends with NUL; a path is the text
    up to its NUL. *)
Class UserEventsOk `{K : UserEvents} : Prop := {
  open_ok : forall p, match linux_open p with Ok fd => 0 <= fd | Err e => 0 < e end;
  open_text : forall p q, c_text p = c_text q -> linux_open p = linux_open q;
  mounts_ok : match linux_mounts with Ok lines => Forall (In 0) lines | Err e => 0 < e end;
  reg_ok : forall fd name fl, match linux_reg fd name fl with
             | Ok i => 0 <= i <= HIGHEST_VALID_WRITE_INDEX | Err e => 0 < e end;
  unreg_ok : forall fd e, linux_unreg fd = Err e -> 0 < e;
  writev_ok : forall fd d e, linux_writev fd d = Err e -> 0 < e;
}.

(** [Ok fd] as [fd], [Err e] as [-e]. *)
Definition file_or_errno (r : result Z Z) : Z := match r with Ok fd => fd | Err e => - e end.

Section Search.
Context `{UserEventsOk}.

Lemma opened_eq p : opened (linux_open p) = linux_open p.
Proof.
  pose proof (open_ok p). unfold opened. destruct (linux_open p); [|done].
  by rewrite (proj2 (Z.leb_le _ _)).
Qed.

Lemma open_wronly_ok p : ends_with_nul p = true -> open_wronly p = Ret (linux_open p).
Proof. intros E. unfold open_wronly. by rewrite E. Qed.

(** What [get] stores in the atomic. *)
Definition chosen_file : Z :=
  match linux_open default_path with
  | Ok fd => fd
  | Err _ =>
    match linux_mounts with
    | Err e => - e
    | Ok lines =>
      match chosen_path (mounts_of lines) with
      | None => - ENOTSUP
      | Some p => file_or_errno (linux_open (p ++ [0]))
      end
    end
  end.

Lemma find_file_eq : find_file = Ret chosen_file.
Proof.
  unfold chosen_file, find_file. rewrite (open_wronly_ok default_path) by done. cbn [mbind outcome_bind].
  rewrite opened_eq. destruct (linux_open default_path) as [|?]; [done|].
  pose proof mounts_ok as Hm. destruct linux_mounts as [lines|eno].
  2: { unfold get_failure_errno. rewrite (proj2 (Z.ltb_lt _ _)) by done. done. }
  destruct (scan_mounts_ok lines (repeat 0 274) [] Hm) as (path & -> & Hp); [by vm_compute|].
  cbn [mbind outcome_bind]. rewrite bool_decide_eq_true_2 in Hp by done.
  assert (Hp' : path_buffer path (default [] (chosen_path (mounts_of lines)))).
  { unfold chosen_path. by destruct (first_path tracefs_name _ _). }
  clear Hp. destruct (path_buffer_first _ _ Hp') as (b & -> & Hb). cbn [mbind outcome_bind].
  pose proof (chosen_path_nonempty (mounts_of lines)) as Hne.
  destruct (chosen_path (mounts_of lines)) as [p|]; cbn [default] in *.
  - destruct (b =? 0); [by destruct (Hne p eq_refl); apply Hb|].
    destruct Hp' as (_ & He & Ht). change (c_text path = p) in Ht. rewrite open_wronly_ok by done. cbn [mbind outcome_bind].
    rewrite opened_eq.
    assert (Eo : linux_open (p ++ [0]) = linux_open path) by (apply open_text; by rewrite <- Ht, c_text_nul).
    rewrite Eo. pose proof (open_ok path). destruct (linux_open path); [done|].
    unfold get_failure_errno. rewrite (proj2 (Z.ltb_lt _ _)) by done. done.
  - by rewrite (proj2 Hb eq_refl).
Qed.

(** C29. The search for the data file never panics.  It opens the usual path, or
    else the file below the first tracefs mount of the mount table whose path the
    buffer can hold, or else below the first such debugfs mount; a mount is the
    second word of a line, its type the third. *)
Theorem data_file_search :
  find_file =
    Ret (match linux_open default_path with
         | Ok fd => fd
         | Err _ =>
           match linux_mounts with
           | Err e => - e
           | Ok lines =>
             match chosen_path (mounts_of lines) with
             | None => - ENOTSUP
             | Some p => file_or_errno (linux_open (p ++ [0]))
             end
           end
         end).
Proof. exact find_file_eq. Qed.
End Search.

(** ** Registering from the unregistered state *)

Definition unregistered (s : TracepointState) : Prop := s.(write_index) = UNREGISTERED_WRITE_INDEX.

(** The outcome of a registration: a valid index exactly when the error is 0. *)
Definition registration_result (err : Z) (s : TracepointState) : Prop :=
  (err = 0 /\ 0 <= s.(write_index) <= HIGHEST_VALID_WRITE_INDEX) \/ (0 < err /\ unregistered s).

Lemma TracepointState_register_ok `{UserEventsOk} file name s :
  unregistered s ->
  exists err file' s', TracepointState_register file name s = Ret (err, file', s') /\
    registration_result err s' /\ s'.(enable_status) = s.(enable_status).
Proof.
  intros Hs. unfold TracepointState_register, TracepointState_register_with_flags, register_begin, swap_index.
  rewrite Hs, Z.eqb_refl. cbn [rassert mbind outcome_bind].
  assert (Hget : exists fd file', UserEventsDataFile_get file = Ret (fd, file')).
  { unfold UserEventsDataFile_get. case_match; [|eauto]. rewrite find_file_eq. cbn [mbind outcome_bind].
    destruct (UserEventsDataFile_update _ _). eauto. }
  destruct Hget as (fd & file' & ->). cbn [mbind outcome_bind]. unfold register_call, finish_swap, swap_index.
  destruct (Z.ltb_spec fd 0).
  - cbn. eexists _, _, _. split_and!; [reflexivity| |done]. right. unfold unregistered. cbn. lia.
  - pose proof (reg_ok fd name 0) as Hr. destruct (linux_reg fd name 0) as [idx|eno].
    + rewrite (proj2 (Z.leb_le _ _)) by lia. cbn. eexists _, _, _. split_and!; [reflexivity| |done].
      left. cbn. lia.
    + unfold get_failure_errno. rewrite (proj2 (Z.ltb_lt _ _)) by done. cbn.
      eexists _, _, _. split_and!; [reflexivity| |done]. right. unfold unregistered. cbn. lia.
Qed.

(** A system without the usual mount point: ["d /t tracefs x"] in the mount table. *)
Definition example_mounts : list bytes :=
  [[110; 32; 47; 100; 32; 100; 101; 98; 117; 103; 102; 115; 32; 120; 10; 0];
   [100; 32; 47; 116; 32; 116; 114; 97; 99; 101; 102; 115; 32; 120; 10; 0; 9]].
Definition example_kernel : UserEvents := {|
  linux_open p := if bool_decide (c_text p = [47; 116] ++ c_text user_events_suffix) then Ok 5 else Err 2;
  linux_mounts := Ok example_mounts;
  linux_reg fd name flags := Ok 7;
  linux_unreg fd := Ok tt;
  linux_writev fd data := Ok tt;
|}.

Lemma example_kernel_ok : @UserEventsOk example_kernel.
Proof.
  split; cbn; try done; try lia.
  - intros p. by case_bool_decide.
  - intros p q ->. done.
  - repeat constructor; vm_compute; tauto.
Qed.

Lemma data_file_search_witness : @find_file example_kernel = Ret 5.
Proof.
  rewrite (@data_file_search example_kernel example_kernel_ok). vm_compute. reflexivity.
Defined.

(** The numbers of the kernel's interface: [_IOWR] of number 0 and [_IOW] of number 2,
    with a pointer as argument. *)
Lemma request_codes : DIAG_IOCSREG = 0xC0082A00 /\ DIAG_IOCSUNREG = 0x40082A02.
Proof. done. Qed.
