(* ===== verification/TracepointThreads.v ===== *)
(** * TracepointThreads: threads that share the data file or a tracepoint

    Each step of a thread is one atomic operation of the code, or one system
    call, so that the threads interleave between any two of them.  The files that
    are open, and the registration the kernel holds, are tracked beside the
    atomics. *)

From stdpp Require Import relations.
From S2P Require Import Prelude Types ByteReader Tracepoint TracepointProps.

(** ** The descriptor of the data file *)

(** Where a thread is: outside, searching for the file, in the exchange loop with
    its old and new values, about to close a descriptor, or back with a result. *)
Inductive FileThread :=
  | FileIdle
  | FileSearching
  | FileExchanging (old new : Z)
  | FileClosing (fd : Z)
  | FileReturned (r : Z).

Record FileWorld := { fw_atomic : Z; fw_open : list Z; fw_threads : list FileThread }.

Definition set_thread (i : nat) (t : FileThread) (w : FileWorld) : FileWorld :=
  {| fw_atomic := w.(fw_atomic); fw_open := w.(fw_open); fw_threads := <[i := t]> w.(fw_threads) |}.
Definition with_file (a : Z) (o : list Z) (w : FileWorld) : FileWorld :=
  {| fw_atomic := a; fw_open := o; fw_threads := w.(fw_threads) |}.

(** [close(fd)] removes the descriptor from the open files. *)
Definition close_fd (fd : Z) (o : list Z) : list Z := filter (fun x => x <> fd) o.

(** One iteration of the exchange loop: the atomic, the open files, the thread. *)
(* native.rs:204-230: UserEventsDataFile::update, one iteration on the shared state *)
Definition exchange_step (old new current : Z) (o : list Z) : Z * list Z * FileThread :=
  match exchange old new current with
  | Stored => (new, o, FileReturned new)
  | Preferred c => (current, if c then close_fd new o else o, FileReturned current)
  | Again => (current, o, FileExchanging current new)
  end.

Inductive file_step (w : FileWorld) : FileWorld -> Prop :=
  | file_get i :
      w.(fw_threads) !! i = Some FileIdle ->
      file_step w (set_thread i (if w.(fw_atomic) =? EAGAIN_ERROR then FileSearching
                                 else FileReturned w.(fw_atomic)) w)
  | file_found i fd :
      w.(fw_threads) !! i = Some FileSearching -> 0 <= fd -> fd ∉ w.(fw_open) ->
      file_step w (set_thread i (FileExchanging EAGAIN_ERROR fd)
                     (with_file w.(fw_atomic) (fd :: w.(fw_open)) w))
  | file_not_found i e :
      w.(fw_threads) !! i = Some FileSearching -> e < 0 ->
      file_step w (set_thread i (FileExchanging EAGAIN_ERROR e) w)
  | file_exchange i old new a o t :
      w.(fw_threads) !! i = Some (FileExchanging old new) ->
      exchange_step old new w.(fw_atomic) w.(fw_open) = (a, o, t) ->
      file_step w (set_thread i t (with_file a o w))
  | file_close_swap i a fd :
      w.(fw_threads) !! i = Some FileIdle -> UserEventsDataFile_close w.(fw_atomic) = (a, fd) ->
      file_step w (set_thread i (match fd with Some fd => FileClosing fd | None => FileReturned 0 end)
                     (with_file a w.(fw_open) w))
  | file_close i fd :
      w.(fw_threads) !! i = Some (FileClosing fd) ->
      file_step w (set_thread i (FileReturned 0)
                     (with_file w.(fw_atomic) (close_fd fd w.(fw_open)) w))
  | file_leave i r :
      w.(fw_threads) !! i = Some (FileReturned r) -> file_step w (set_thread i FileIdle w).

Definition file_start (n : nat) : FileWorld :=
  {| fw_atomic := UserEventsDataFile_new; fw_open := []; fw_threads := repeat FileIdle n |}.

(** The descriptors that the atomic and the threads are responsible for. *)
Definition descriptor (v : Z) : list Z := if 0 <=? v then [v] else [].
Definition held (t : FileThread) : list Z :=
  match t with FileExchanging _ new => descriptor new | FileClosing fd => descriptor fd | _ => [] end.
Definition held_by (ts : list FileThread) : list Z := flat_map held ts.
Definition owned (w : FileWorld) : list Z := descriptor w.(fw_atomic) ++ held_by w.(fw_threads).

(** Every open file has exactly one owner; the exchange loop's old value is an
    error, so a file in the atomic is never overwritten. *)
Definition old_value_ok (t : FileThread) : Prop :=
  match t with FileExchanging old _ => old < 0 | FileClosing fd => 0 <= fd | _ => True end.
Definition FileInv (w : FileWorld) : Prop :=
  NoDup w.(fw_open) /\ w.(fw_open) ≡ₚ owned w /\ Forall old_value_ok w.(fw_threads).

Lemma held_by_insert ts i t t' :
  ts !! i = Some t -> held t ++ held_by (<[i := t']> ts) ≡ₚ held t' ++ held_by ts.
Proof.
  revert i. induction ts as [|u ts IH]; intros [|i] Hi; try done; cbn in *.
  - injection Hi as ->. by rewrite !(assoc_L (++)), (comm (++) (held t)).
  - unfold held_by in *. rewrite (Permutation_app_swap_app (held t)), (IH i Hi).
    by rewrite Permutation_app_swap_app.
Qed.

Lemma close_fd_absent fd o : fd ∉ o -> close_fd fd o = o.
Proof.
  unfold close_fd. induction o as [|x o IH]; intros H; [done|].
  rewrite not_elem_of_cons in H. destruct H as [H1 H2].
  rewrite filter_cons_True by congruence. by rewrite IH.
Qed.

Lemma close_fd_owned fd o l : NoDup o -> o ≡ₚ fd :: l -> NoDup (close_fd fd o) /\ close_fd fd o ≡ₚ l.
Proof.
  intros Hn Hp. assert (Hp2 : close_fd fd o ≡ₚ l).
  { rewrite Hp in Hn. apply list.NoDup_cons in Hn as [Hfd Hl].
    unfold close_fd. rewrite Hp, filter_cons_False by (by intros []). fold (close_fd fd l).
    by rewrite close_fd_absent. }
  split; [|done]. rewrite Hp2. rewrite Hp in Hn. by apply list.NoDup_cons in Hn as [_ Hl].
Qed.

(** A thread's step that changes the owned descriptors from [d ++ l] to [d' ++ l]
    changes the owned descriptors of the world in the same way. *)
Lemma owned_step w i t t' a o :
  w.(fw_threads) !! i = Some t ->
  (descriptor w.(fw_atomic) ++ held t) ++ owned (set_thread i t' (with_file a o w))
  ≡ₚ (descriptor a ++ held t') ++ owned w.
Proof.
  intros Hi. unfold owned. cbn. pose proof (held_by_insert _ _ _ t' Hi) as E.
  set (x := descriptor w.(fw_atomic)) in *. set (y := descriptor a).
  transitivity (x ++ y ++ (held t ++ held_by (<[i:=t']> w.(fw_threads)))).
  { rewrite <- !(assoc_L (++)). apply Permutation_app_head. apply Permutation_app_swap_app. }
  rewrite E. rewrite <- !(assoc_L (++)). rewrite Permutation_app_swap_app.
  apply Permutation_app_head. apply Permutation_app_swap_app.
Qed.

Lemma old_values_insert w i t :
  Forall old_value_ok w.(fw_threads) -> old_value_ok t -> Forall old_value_ok (<[i:=t]> w.(fw_threads)).
Proof. intros. by apply Forall_insert. Qed.

Lemma descriptor_pos v : 0 <= v -> descriptor v = [v].
Proof. intros. unfold descriptor. by rewrite (proj2 (Z.leb_le _ _)). Qed.
Lemma descriptor_neg v : v < 0 -> descriptor v = [].
Proof. intros. unfold descriptor. destruct (Z.leb_spec 0 v); [lia|done]. Qed.

(** A step keeps the invariant when the descriptors it gains and loses match. *)
Lemma FileInv_step w i t t' a o gained lost :
  FileInv w -> w.(fw_threads) !! i = Some t -> old_value_ok t' -> NoDup o ->
  o ++ lost ≡ₚ gained ++ w.(fw_open) ->
  (descriptor a ++ held t') ++ lost ≡ₚ gained ++ (descriptor w.(fw_atomic) ++ held t) ->
  FileInv (set_thread i t' (with_file a o w)).
Proof.
  intros (Hn & Hp & Hold) Hi Ht Ho E1 E2. split_and!; [done| |by apply old_values_insert].
  pose proof (owned_step w i t t' a o Hi) as E3. change (fw_open (set_thread i t' (with_file a o w))) with o.
  apply (Permutation_app_inv_l (descriptor w.(fw_atomic) ++ held t)).
  rewrite E3, <- Hp. apply (Permutation_app_inv_l gained). rewrite (assoc_L (++) gained), <- E2.
  rewrite <- (assoc_L (++) _ lost), (comm (++) lost o), E1.
  apply Permutation_app_swap_app.
Qed.

Lemma FileInv_start n : FileInv (file_start n).
Proof.
  split_and!; [constructor| |].
  - unfold owned, file_start. cbn. by induction n.
  - cbn. by apply Forall_replicate || (induction n; by constructor).
Qed.

Lemma NoDup_open_drop w i t fd :
  FileInv w -> w.(fw_threads) !! i = Some t -> held t = [fd] ->
  NoDup (close_fd fd w.(fw_open)) /\ fd :: close_fd fd w.(fw_open) ≡ₚ w.(fw_open).
Proof.
  intros (Hn & Hp & _) Hi Ht.
  assert (E : exists l, w.(fw_open) ≡ₚ fd :: l).
  { unfold owned in Hp. pose proof (held_by_insert _ _ _ FileIdle Hi) as E. cbn in E. rewrite <- E in Hp.
    rewrite Ht in Hp. eexists. rewrite Hp. rewrite Permutation_app_swap_app. cbn. reflexivity. }
  destruct E as [l E]. destruct (close_fd_owned fd _ l Hn E) as [H1 H2]. split; [done|].
  by rewrite H2, E.
Qed.

Lemma file_step_keeps w w' : FileInv w -> file_step w w' -> FileInv w'.
Proof.
  intros Hw Hs. pose proof Hw as (Hn & Hp & Hold). destruct Hs as
    [i Hi|i fd Hi Hfd Hnew|i e Hi He|i old new a o t Hi He|i a fd Hi Hc|i fd Hi|i r Hi].
  - change (FileInv (set_thread i (if w.(fw_atomic) =? EAGAIN_ERROR then FileSearching
       else FileReturned w.(fw_atomic)) (with_file w.(fw_atomic) w.(fw_open) w))).
    eapply (FileInv_step w i _ _ _ _ [] []); [done|done|by case_match|done|by rewrite app_nil_r|].
    case_match; cbn [held]; by rewrite !app_nil_r.
  - eapply (FileInv_step w i _ _ _ _ [fd] []); [done|done|by unfold EAGAIN_ERROR, old_value_ok| |by rewrite app_nil_r|].
    + by apply list.NoDup_cons.
    + cbn [held]. rewrite (descriptor_pos fd) by done. rewrite !app_nil_r. apply (comm (++)).
  - change (FileInv (set_thread i (FileExchanging EAGAIN_ERROR e) (with_file w.(fw_atomic) w.(fw_open) w))).
    eapply (FileInv_step w i _ _ _ _ [] []); [done|done|by unfold EAGAIN_ERROR, old_value_ok|done|by rewrite app_nil_r|].
    cbn [held]. rewrite (descriptor_neg e) by done. by rewrite !app_nil_r.
  - pose proof (proj1 (Forall_lookup _ _) Hold _ _ Hi) as Hoi. cbn in Hoi.
    unfold exchange_step, exchange in He.
    destruct (Z.eqb_spec (fw_atomic w) old) as [Ea|Ea].
    { injection He as <- <- <-. eapply (FileInv_step w i _ _ _ _ [] []); try done; [by rewrite app_nil_r|].
      cbn [held]. rewrite Ea, (descriptor_neg old) by done. rewrite !app_nil_r. done. }
    destruct ((0 <=? fw_atomic w) || (new <? 0)) eqn:Eb.
    { destruct (Z.leb_spec 0 new); injection He as <- <- <-.
      - destruct (NoDup_open_drop w i _ new Hw Hi) as [N1 N2]; [by apply descriptor_pos|].
        eapply (FileInv_step w i _ _ _ _ [] [new]); try done.
        + rewrite (comm (++)). exact N2.
        + cbn [held]. rewrite (descriptor_pos new) by done. by rewrite !app_nil_r.
      - eapply (FileInv_step w i _ _ _ _ [] []); try done; [by rewrite app_nil_r|].
        cbn [held]. rewrite (descriptor_neg new) by done. by rewrite !app_nil_r. }
    apply orb_false_elim in Eb as [Eb1 Eb2]. injection He as <- <- <-.
    eapply (FileInv_step w i _ _ _ _ [] []); try done; [cbn; bool_hyps; lia|by rewrite app_nil_r|].
    cbn [held]. by rewrite !app_nil_r.
  - unfold UserEventsDataFile_close in Hc. destruct (Z.leb_spec 0 (fw_atomic w)); injection Hc as <- <-.
    + eapply (FileInv_step w i _ _ _ _ [] []); try done. by rewrite app_nil_r.
    + eapply (FileInv_step w i _ _ _ _ [] []); try done; [by rewrite app_nil_r|].
      cbn [held]. rewrite (descriptor_neg (fw_atomic w)) by done. by rewrite !app_nil_r.
  - pose proof (proj1 (Forall_lookup _ _) Hold _ _ Hi) as Hoi. cbn in Hoi.
    destruct (NoDup_open_drop w i _ fd Hw Hi) as [N1 N2]; [by apply descriptor_pos|].
    eapply (FileInv_step w i _ _ _ _ [] [fd]); try done.
    + rewrite (comm (++)). exact N2.
    + cbn [held]. rewrite (descriptor_pos fd) by done. by rewrite !app_nil_r.
  - change (FileInv (set_thread i FileIdle (with_file w.(fw_atomic) w.(fw_open) w))).
    eapply (FileInv_step w i _ _ _ _ [] []); try done; by rewrite app_nil_r.
Qed.

Lemma FileInv_reachable n w : rtc file_step (file_start n) w -> FileInv w.
Proof.
  generalize (FileInv_start n). generalize (file_start n). intros w0 Hw0 Hr.
  induction Hr; [done|]. eauto using file_step_keeps.
Qed.

(** C15. However the threads that open, share and close the data file interleave,
    each open descriptor has one owner: the shared atomic, or one thread that is
    about to store or close it.  So a descriptor is closed only while it is open,
    and when no thread is inside, the atomic holds the only open file. *)
Theorem data_file_owned n w (Hreach : rtc file_step (file_start n) w) :
  NoDup w.(fw_open) /\ w.(fw_open) ≡ₚ owned w /\
  (forall i fd, w.(fw_threads) !! i = Some (FileClosing fd) -> fd ∈ w.(fw_open)) /\
  (held_by w.(fw_threads) = [] -> w.(fw_open) ≡ₚ descriptor w.(fw_atomic)).
Proof.
  assert (Hw : FileInv w) by by eapply FileInv_reachable.
  pose proof Hw as (Hn & Hp & Hold). split_and!; [done|done| |].
  - intros i fd Hi. pose proof (proj1 (Forall_lookup _ _) Hold _ _ Hi) as Hoi.
    destruct (NoDup_open_drop w i _ fd Hw Hi) as [_ <-]; [by apply descriptor_pos|]. left.
  - intros E. rewrite Hp. unfold owned. by rewrite E, app_nil_r.
Qed.

Definition example_race : FileWorld :=
  {| fw_atomic := 3; fw_open := [3]; fw_threads := [FileReturned 3; FileReturned 3] |}.

Lemma data_file_owned_witness :
  rtc file_step (file_start 2) example_race /\ example_race.(fw_open) ≡ₚ descriptor 3.
Proof.
  assert (Hr : rtc file_step (file_start 2) example_race).
  { eapply rtc_l; [by apply (file_get _ 0%nat)|].
    eapply rtc_l; [by apply (file_get _ 1%nat)|].
    eapply rtc_l; [apply (file_found _ 1%nat 4); [done|lia|by intros ?%elem_of_nil]|].
    eapply rtc_l; [apply (file_found _ 0%nat 3); [done|lia|by intros [?|[]%elem_of_nil]%elem_of_cons]|].
    eapply rtc_l; [by eapply (file_exchange _ 0%nat)|].
    eapply rtc_l; [by eapply (file_exchange _ 1%nat)|]. apply rtc_refl. }
  split; [exact Hr|]. destruct (data_file_owned 2 example_race Hr) as (_ & _ & _ & H). by apply H.
Defined.

(** ** The exchange loop ends

    A thread is inside from the start of its search, or from the swap that took a
    descriptor to close, to its return. *)
Definition inside (t : FileThread) : bool :=
  match t with FileSearching | FileExchanging _ _ | FileClosing _ => true | _ => false end.

(** A step of thread [i], which is inside; every step changes its thread only. *)
Definition own_step (i : nat) (w w' : FileWorld) : Prop :=
  exists t t', w.(fw_threads) !! i = Some t /\ inside t = true /\ file_step w w' /\
    w'.(fw_threads) = <[i := t']> w.(fw_threads) /\ t' <> t.

(** How many steps of its own a thread needs when no other thread steps. *)
Definition steps_left (atomic : Z) (t : FileThread) : nat :=
  match t with
  | FileSearching => 3
  | FileExchanging old _ => if atomic =? old then 1 else 2
  | FileClosing _ => 1
  | _ => 0
  end.

(** What a thread that is inside has when it returns. *)
Definition thread_result (atomic : Z) (t : FileThread) (r : Z) : Prop :=
  match t with FileClosing _ => r = 0 | _ => r = atomic end.

Lemma exchange_step_decreases old new current o a o' t :
  exchange_step old new current o = (a, o', t) ->
  (steps_left a t < steps_left current (FileExchanging old new))%nat /\
  (t = FileReturned a \/ (t = FileExchanging a new /\ a <> old)).
Proof.
  unfold exchange_step, exchange. intros E. cbn [steps_left].
  destruct (Z.eqb_spec current old); [injection E as <- <- <-; cbn; auto with lia|].
  destruct ((0 <=? current) || (new <? 0)); injection E as <- <- <-; cbn [steps_left];
    rewrite ?Z.eqb_refl; auto with lia.
Qed.

Lemma own_step_inside i w w' t :
  w.(fw_threads) !! i = Some t -> own_step i w w' ->
  exists t', w'.(fw_threads) !! i = Some t' /\
    (steps_left w'.(fw_atomic) t' < steps_left w.(fw_atomic) t)%nat /\
    ((inside t' = true /\ forall a r, thread_result a t' r -> thread_result a t r) \/
     (exists r, t' = FileReturned r /\ thread_result w'.(fw_atomic) t r)).
Proof.
  intros Ht (u & t' & Hu & Hin & Hs & Hts & Hne). rewrite Ht in Hu. injection Hu as <-.
  assert (Hl : w'.(fw_threads) !! i = Some t').
  { rewrite Hts, list_lookup_insert_eq; [done|]. by eapply lookup_lt_Some. }
  exists t'. split; [done|]. clear Hts.
  destruct Hs as [j Hi|j fd Hi Hfd Hnew|j e Hi He|j old new a o t2 Hi He|j a fd Hi Hc|j fd Hi|j r Hi];
    cbn in Hl;
    (destruct (decide (j = i)) as [->|Hji];
      [rewrite Ht in Hi; injection Hi as ->;
       rewrite list_lookup_insert_eq in Hl by (by eapply lookup_lt_Some); injection Hl as <-
      |rewrite list_lookup_insert_ne in Hl by done; congruence]); try done.
  - split; [unfold steps_left; destruct (_ =? EAGAIN_ERROR); lia|by left].
  - split; [unfold steps_left; destruct (_ =? EAGAIN_ERROR); lia|by left].
  - destruct (exchange_step_decreases _ _ _ _ _ _ _ He) as [Hlt [-> | [-> _]]]; (split; [done|]);
      [right; by eexists|by left].
  - split; [cbn; lia|right; by eexists].
Qed.

Lemma own_step_exists i w t :
  w.(fw_threads) !! i = Some t -> inside t = true -> exists w', own_step i w w'.
Proof.
  intros Ht Hin. destruct t as [| |old new|fd|r]; try done.
  - eexists. eexists _, _. split_and!; [done|done|by apply (file_not_found w i (-1))|done|done].
  - destruct (exchange_step old new w.(fw_atomic) w.(fw_open)) as [[a o] t] eqn:E.
    eexists. eexists _, t. split_and!; [done|done|by eapply file_exchange|done|].
    destruct (exchange_step_decreases _ _ _ _ _ _ _ E) as [Hlt [-> | [-> Hne]]]; [done|].
    by intros [= ?].
  - eexists. eexists _, _. split_and!; [done|done|by apply file_close|done|done].
Qed.

(** A run of its own steps: its length, and where it can stop. *)
Lemma own_run i k w w' t :
  w.(fw_threads) !! i = Some t -> nsteps (own_step i) k w w' ->
  exists t', w'.(fw_threads) !! i = Some t' /\ (k + steps_left w'.(fw_atomic) t' <= steps_left w.(fw_atomic) t)%nat /\
    (inside t = true -> inside t' = true \/ exists r, t' = FileReturned r /\ thread_result w'.(fw_atomic) t r).
Proof.
  intros Ht Hr. revert t Ht. induction Hr as [w|k w w1 w' Hs Hr IH]; intros t Ht.
  { exists t. split_and!; [done|lia|by left]. }
  destruct (own_step_inside _ _ _ _ Ht Hs) as (t1 & Ht1 & Hlt & Hend).
  destruct (IH t1 Ht1) as (t' & Ht' & Hk & Hin). exists t'. split_and!; [done|lia|]. intros _.
  destruct Hend as [(Hin1 & Hres)|(r & -> & Hr1)].
  - destruct (Hin Hin1) as [?|(r & -> & Hr1)]; [by left|]. right. eauto.
  - right. exists r. destruct Hr as [w1|k w1 w2 w' (u & u' & Hu & Hi2 & _) Hr].
    + rewrite Ht1 in Ht'. by injection Ht' as <-.
    + rewrite Ht1 in Hu. by injection Hu as <-.
Qed.

Lemma own_run_ends i m w t :
  w.(fw_threads) !! i = Some t -> inside t = true -> (steps_left w.(fw_atomic) t <= m)%nat ->
  exists k w' r, nsteps (own_step i) k w w' /\ w'.(fw_threads) !! i = Some (FileReturned r).
Proof.
  revert w t. induction m as [|m IH]; intros w t Ht Hin Hm;
    destruct (own_step_exists i w t Ht Hin) as [w1 Hs];
    destruct (own_step_inside _ _ _ _ Ht Hs) as (t1 & Ht1 & Hlt & Hend); [lia|].
  destruct Hend as [(Hin1 & _)|(r & -> & _)].
  - destruct (IH w1 t1 Ht1 Hin1) as (k & w' & r & Hr & Hret); [lia|].
    exists (S k), w', r. split; [by eapply nsteps_l|done].
  - exists 1%nat, w1, r. split; [by apply nsteps_once|done].
Qed.

Lemma own_run_steps i k w w' : nsteps (own_step i) k w w' -> rtc file_step w w'.
Proof. intros Hr. induction Hr as [|k w w1 w' (? & ? & ? & ? & Hs & _)]; [done|]. by eapply rtc_l. Qed.

Lemma returned_open n w :
  rtc file_step (file_start n) w -> 0 <= w.(fw_atomic) -> w.(fw_atomic) ∈ w.(fw_open).
Proof.
  intros (_ & Hp & _)%FileInv_reachable Hpos. rewrite Hp. unfold owned.
  rewrite descriptor_pos by done. by left.
Qed.

(** C16. A thread that searches for the data file, that is in the exchange loop, or
    that closes a descriptor, in any state that the threads can reach, is never
    stuck and returns after three steps of its own at most if no other thread
    interferes: a run of its own steps can be continued until the thread returns,
    has three steps at most, and ends with the value that the atomic then holds, an open file
    unless it is an error (0 for [close]). *)
Theorem file_thread_finishes n w i t
    (Hreach : rtc file_step (file_start n) w)
    (Ht : w.(fw_threads) !! i = Some t) (Hin : inside t = true) :
  (exists k w' r, nsteps (own_step i) k w w' /\ w'.(fw_threads) !! i = Some (FileReturned r)) /\
  (forall k w', nsteps (own_step i) k w w' ->
     (k <= 3)%nat /\
     ((exists w2, own_step i w' w2) \/
      (exists r, w'.(fw_threads) !! i = Some (FileReturned r) /\ thread_result w'.(fw_atomic) t r /\
                 (match t with FileClosing _ => True | _ => 0 <= r -> r ∈ w'.(fw_open) end)))).
Proof.
  assert (Hruns : forall k w', nsteps (own_step i) k w w' ->
    (k <= 3)%nat /\ ((exists w2, own_step i w' w2) \/
      (exists r, w'.(fw_threads) !! i = Some (FileReturned r) /\ thread_result w'.(fw_atomic) t r))).
  { intros k w' Hr. destruct (own_run _ _ _ _ _ Ht Hr) as (t' & Ht' & Hk & Hend).
    split; [destruct t; cbn in Hk; try lia; case_match; lia|].
    destruct (Hend Hin) as [Hin'|(r & -> & Hres)]; [left; by eapply own_step_exists|right; eauto]. }
  split.
  - destruct (own_run_ends i (steps_left w.(fw_atomic) t) w t Ht Hin) as (k & w' & r & Hr & Hret); eauto.
  - intros k w' Hr. destruct (Hruns k w' Hr) as [Hk [Hmore|(r & Hret & Hres)]]; split; eauto.
    right. exists r. split_and!; [done|done|].
    destruct t; try done; cbn in Hres; intros Hpos; subst r.
    all: apply returned_open with n; [|done].
    all: etrans; [exact Hreach|]; by eapply own_run_steps.
Qed.

Definition example_contended : FileWorld :=
  {| fw_atomic := 4; fw_open := [3; 4]; fw_threads := [FileExchanging EAGAIN_ERROR 3; FileReturned 4] |}.

Lemma file_thread_finishes_witness :
  (exists w2, own_step 0 example_contended w2) /\ exists k w' r,
    nsteps (own_step 0) k example_contended w' /\ w'.(fw_threads) !! 0%nat = Some (FileReturned r).
Proof.
  assert (Hr : rtc file_step (file_start 2) example_contended).
  { eapply rtc_l; [by apply (file_get _ 0%nat)|].
    eapply rtc_l; [by apply (file_get _ 1%nat)|].
    eapply rtc_l; [apply (file_found _ 1%nat 4); [done|lia|by intros ?%elem_of_nil]|].
    eapply rtc_l; [apply (file_found _ 0%nat 3); [done|lia|by intros [?|[]%elem_of_nil]%elem_of_cons]|].
    eapply rtc_l; [by eapply (file_exchange _ 1%nat)|]. apply rtc_refl. }
  destruct (file_thread_finishes 2 example_contended 0 _ Hr eq_refl eq_refl) as [Hends Hruns].
  split; [|exact Hends].
  destruct (Hruns 0%nat example_contended (nsteps_O _ _)) as [_ [Hmore|(r & Hret & _)]]; [exact Hmore|done].
Defined.

(** ** One tracepoint

    A thread that registers or unregisters the tracepoint is outside, waiting for
    the kernel, about to make its last swap, back with a result, or stopped by one
    of the asserts. *)
Inductive RegThread :=
  | RegIdle
  | Registering
  | RegFinishing (new_write_index : Z)
  | Unregistering
  | UnregFinishing (error : Z)
  | RegDone (error : Z)
  | RegRefused
  | RegFault.

(** [rw_kernel]: the write index under which the kernel knows the tracepoint. *)
Record RegWorld := {
  rw_state : TracepointState;
  rw_kernel : option Z;
  rw_threads : list RegThread;
}.

Definition put (i : nat) (t : RegThread) (s : TracepointState) (k : option Z) (w : RegWorld) : RegWorld :=
  {| rw_state := s; rw_kernel := k; rw_threads := <[i := t]> w.(rw_threads) |}.

Inductive reg_step (w : RegWorld) : RegWorld -> Prop :=
  | reg_begin i ok s :
      w.(rw_threads) !! i = Some RegIdle -> register_begin w.(rw_state) = (ok, s) ->
      reg_step w (put i (if ok then Registering else RegRefused) s w.(rw_kernel) w)
  | reg_call i idx :
      w.(rw_threads) !! i = Some Registering -> 0 <= idx <= HIGHEST_VALID_WRITE_INDEX ->
      reg_step w (put i (RegFinishing idx) w.(rw_state) (Some idx) w)
  | reg_call_failed i :
      w.(rw_threads) !! i = Some Registering ->
      reg_step w (put i (RegFinishing UNREGISTERED_WRITE_INDEX) w.(rw_state) w.(rw_kernel) w)
  | reg_finish i idx ok s :
      w.(rw_threads) !! i = Some (RegFinishing idx) -> finish_swap idx w.(rw_state) = (ok, s) ->
      reg_step w (put i (if ok then RegDone 0 else RegFault) s w.(rw_kernel) w)
  | unreg_begin i found s :
      w.(rw_threads) !! i = Some RegIdle -> unregister_begin w.(rw_state) = (found, s) ->
      reg_step w (put i (match found with
                         | AlreadyBusy => RegDone EBUSY
                         | AlreadyUnregistered => UnregFinishing EALREADY
                         | WasRegistered => Unregistering
                         end) s w.(rw_kernel) w)
  | unreg_call i :
      w.(rw_threads) !! i = Some Unregistering ->
      reg_step w (put i (UnregFinishing 0) w.(rw_state) None w)
  | unreg_call_failed i e :
      w.(rw_threads) !! i = Some Unregistering -> 0 < e ->
      reg_step w (put i (UnregFinishing e) w.(rw_state) w.(rw_kernel) w)
  | unreg_finish i e ok s :
      w.(rw_threads) !! i = Some (UnregFinishing e) ->
      finish_swap UNREGISTERED_WRITE_INDEX w.(rw_state) = (ok, s) ->
      reg_step w (put i (if ok then RegDone e else RegFault) s w.(rw_kernel) w)
  | reg_again i e :
      w.(rw_threads) !! i = Some (RegDone e) -> reg_step w (put i RegIdle w.(rw_state) w.(rw_kernel) w).

Definition reg_start (n : nat) : RegWorld :=
  {| rw_state := TracepointState_new 0; rw_kernel := None; rw_threads := repeat RegIdle n |}.

(** Between its two swaps a thread owns the tracepoint. *)
Definition owns (t : RegThread) : bool :=
  match t with Registering | RegFinishing _ | Unregistering | UnregFinishing _ => true | _ => false end.

Definition owner_facts (k : option Z) (t : RegThread) : Prop :=
  match t with
  | RegFinishing idx => idx = UNREGISTERED_WRITE_INDEX \/ (0 <= idx <= HIGHEST_VALID_WRITE_INDEX /\ k = Some idx)
  | _ => t <> RegFault
  end.

Definition index_facts (idx : Z) (k : option Z) : Prop :=
  idx = UNREGISTERED_WRITE_INDEX \/ idx = BUSY_WRITE_INDEX \/
  (0 <= idx <= HIGHEST_VALID_WRITE_INDEX /\ k = Some idx).

Record RegInv (w : RegWorld) : Prop := {
  ri_index : index_facts w.(rw_state).(write_index) w.(rw_kernel);
  ri_busy : forall i t, w.(rw_threads) !! i = Some t -> owns t = true ->
              w.(rw_state).(write_index) = BUSY_WRITE_INDEX;
  ri_one : forall i j ti tj, w.(rw_threads) !! i = Some ti -> w.(rw_threads) !! j = Some tj ->
              owns ti = true -> owns tj = true -> i = j;
  ri_facts : forall i t, w.(rw_threads) !! i = Some t -> owner_facts w.(rw_kernel) t;
}.

Lemma put_lookup i t s k w j u :
  (put i t s k w).(rw_threads) !! j = Some u ->
  (i = j /\ u = t) \/ (i <> j /\ w.(rw_threads) !! j = Some u).
Proof.
  cbn. destruct (decide (i = j)) as [->|Hn].
  - destruct (decide (j < length w.(rw_threads))%nat).
    + rewrite list_lookup_insert_eq by done. intros [= <-]. by left.
    + rewrite lookup_ge_None_2 by (rewrite length_insert; lia). done.
  - rewrite list_lookup_insert_ne by done. by right.
Qed.

(** The owner's step: the thread ends up owning the busy tracepoint, or not
    owning it. *)
Lemma RegInv_owner_step w i t t' s k :
  RegInv w -> w.(rw_threads) !! i = Some t -> owns t = true ->
  (owns t' = true -> s.(write_index) = BUSY_WRITE_INDEX) ->
  index_facts s.(write_index) k -> owner_facts k t' -> RegInv (put i t' s k w).
Proof.
  intros Hw Hi Ho Hb Hidx Hf.
  assert (Hother : forall j u, w.(rw_threads) !! j = Some u -> i <> j -> owns u = false).
  { intros j u Hj Hn. destruct (owns u) eqn:E; [|done]. destruct Hn. by apply (ri_one w Hw i j t u). }
  split.
  - exact Hidx.
  - intros j u [[<- ->]|[Hn Hj]]%put_lookup Hou; [by apply Hb|]. by rewrite (Hother j u) in Hou.
  - intros j1 j2 u1 u2 [[<- ->]|[Hn1 Hj1]]%put_lookup [[<- ->]|[Hn2 Hj2]]%put_lookup H1 H2; try done.
    + by rewrite (Hother j2 u2) in H2.
    + by rewrite (Hother j1 u1) in H1.
    + by rewrite (Hother j2 u2) in H2.
  - intros j u [[<- ->]|[Hn Hj]]%put_lookup; [done|]. pose proof (Hother j u Hj Hn) as Eo.
    pose proof (ri_facts w Hw j u Hj) as Fu. by destruct u.
Qed.

(** A thread outside enters, or stays outside. *)
Lemma RegInv_enter w i t t' s :
  RegInv w -> w.(rw_threads) !! i = Some t -> owns t = false ->
  s.(write_index) = BUSY_WRITE_INDEX \/ (s = w.(rw_state) /\ owns t' = false) ->
  (owns t' = true -> w.(rw_state).(write_index) <> BUSY_WRITE_INDEX) ->
  owner_facts w.(rw_kernel) t' -> RegInv (put i t' s w.(rw_kernel) w).
Proof.
  intros Hw Hi Ho Hs Ht Hf.
  assert (Hnew : owns t' = true -> forall j u, w.(rw_threads) !! j = Some u -> owns u = false).
  { intros Ho' j u Hj. destruct (owns u) eqn:E; [|done]. destruct (Ht Ho'). by apply (ri_busy w Hw j u). }
  split.
  - destruct Hs as [Hs|[-> _]]; [by right; left|apply (ri_index w Hw)].
  - intros j u [[<- ->]|[Hn Hj]]%put_lookup Hou; (destruct Hs as [Hs|[-> Hs]]; [done|]); [congruence|].
    by apply (ri_busy w Hw j u).
  - intros j1 j2 u1 u2 [[<- ->]|[Hn1 Hj1]]%put_lookup [[<- ->]|[Hn2 Hj2]]%put_lookup H1 H2; try done.
    + by rewrite (Hnew H1 _ _ Hj2) in H2.
    + by rewrite (Hnew H2 _ _ Hj1) in H1.
    + by apply (ri_one w Hw j1 j2 u1 u2).
  - intros j u [[<- ->]|[Hn Hj]]%put_lookup; [done|]. apply (ri_facts w Hw j u Hj).
Qed.

Lemma RegInv_start n : RegInv (reg_start n).
Proof.
  assert (Hidle : forall i t, repeat RegIdle n !! i = Some t -> t = RegIdle).
  { intros i t Hi. apply (list_elem_of_lookup_2 _ _ _) in Hi. by apply list_elem_of_In, repeat_spec in Hi. }
  split.
  - by left.
  - intros i t Hi Ho. apply Hidle in Hi as ->. done.
  - intros i j ti tj Hi Hj Ho. apply Hidle in Hi as ->. done.
  - intros i t Hi. apply Hidle in Hi as ->. done.
Qed.

Lemma reg_step_keeps w w' : RegInv w -> reg_step w w' -> RegInv w'.
Proof.
  intros Hw Hs. destruct Hs as
    [i ok s Hi E|i idx Hi Hidx|i Hi|i idx ok s Hi E|i found s Hi E|i Hi|i e Hi He|i e ok s Hi E|i e Hi].
  - unfold register_begin, swap_index in E. injection E as <- <-.
    eapply RegInv_enter; [done|exact Hi|done|by left| |].
    + destruct (Z.eqb_spec (write_index (rw_state w)) UNREGISTERED_WRITE_INDEX) as [->|]; done.
    + by case_match.
  - eapply RegInv_owner_step; [done|exact Hi|done|intros _; by apply (ri_busy w Hw i _ Hi)| |by right].
    right; left. by apply (ri_busy w Hw i _ Hi).
  - eapply RegInv_owner_step; [done|exact Hi|done|intros _; by apply (ri_busy w Hw i _ Hi)|apply (ri_index w Hw)|by left].
  - unfold finish_swap, swap_index in E. injection E as <- <-.
    rewrite (ri_busy w Hw i _ Hi), Z.eqb_refl by done. pose proof (ri_facts w Hw i _ Hi) as F. cbn in F.
    eapply RegInv_owner_step; [done|exact Hi|done|done| |done]. unfold index_facts. cbn. tauto.
  - unfold unregister_begin, swap_index in E. injection E as <- <-.
    eapply RegInv_enter; [done|exact Hi|done|by left| |].
    + destruct (Z.eqb_spec (write_index (rw_state w)) BUSY_WRITE_INDEX); done.
    + by repeat case_match.
  - eapply RegInv_owner_step; [done|exact Hi|done|intros _; by apply (ri_busy w Hw i _ Hi)| |done].
    right; left. by apply (ri_busy w Hw i _ Hi).
  - eapply RegInv_owner_step; [done|exact Hi|done|intros _; by apply (ri_busy w Hw i _ Hi)|apply (ri_index w Hw)|done].
  - unfold finish_swap, swap_index in E. injection E as <- <-.
    rewrite (ri_busy w Hw i _ Hi), Z.eqb_refl by done.
    eapply RegInv_owner_step; [done|exact Hi|done|done|by left|done].
  - eapply RegInv_enter; [done|exact Hi|done|by right|done|done].
Qed.

(** C14. However the threads that register and unregister a tracepoint interleave:
    at most one of them is between its two swaps; the asserts on the second swap
    never fail; and a write index that passes the check of [write] is the one the
    kernel gave for a registration it still holds. *)
Theorem tracepoint_exclusive n w (Hreach : rtc reg_step (reg_start n) w) :
  (forall i j ti tj, w.(rw_threads) !! i = Some ti -> w.(rw_threads) !! j = Some tj ->
     owns ti = true -> owns tj = true -> i = j) /\
  (forall i, w.(rw_threads) !! i <> Some RegFault) /\
  (w.(rw_state).(write_index) <= HIGHEST_VALID_WRITE_INDEX ->
   w.(rw_kernel) = Some w.(rw_state).(write_index)).
Proof.
  assert (Hw : RegInv w).
  { revert Hreach. generalize (RegInv_start n). generalize (reg_start n). intros w0 H0 Hr.
    induction Hr; [done|]. eauto using reg_step_keeps. }
  split_and!; [apply (ri_one w Hw)| |].
  - intros i Hi. by pose proof (ri_facts w Hw i _ Hi).
  - intros Hle. destruct (ri_index w Hw) as [E|[E|[_ E]]]; [| |done];
      rewrite E in Hle; unfold UNREGISTERED_WRITE_INDEX, BUSY_WRITE_INDEX, HIGHEST_VALID_WRITE_INDEX in Hle; lia.
Qed.

Definition example_registered : RegWorld :=
  {| rw_state := {| enable_status := 0; write_index := 7 |}; rw_kernel := Some 7;
     rw_threads := [RegIdle; RegDone EBUSY] |}.

Lemma tracepoint_exclusive_witness :
  rtc reg_step (reg_start 2) example_registered /\ rw_kernel example_registered = Some 7.
Proof.
  assert (Hr : rtc reg_step (reg_start 2) example_registered).
  { eapply rtc_l; [by eapply (reg_begin _ 0%nat)|].
    eapply rtc_l; [by eapply (unreg_begin _ 1%nat)|].
    eapply rtc_l; [by eapply (reg_call _ 0%nat 7)|].
    eapply rtc_l; [by eapply (reg_finish _ 0%nat)|].
    eapply rtc_l; [by eapply (reg_again _ 0%nat)|]. apply rtc_refl. }
  split; [exact Hr|]. destruct (tracepoint_exclusive 2 _ Hr) as (_ & _ & H). by apply H.
Defined.

(** Busy, and nobody will finish. *)
Definition stuck (k : option Z) (w : RegWorld) : Prop :=
  w.(rw_state).(write_index) = BUSY_WRITE_INDEX /\ w.(rw_kernel) = k /\
  forall i t, w.(rw_threads) !! i = Some t -> owns t = false.

Lemma stuck_step k w w' : stuck k w -> reg_step w w' -> stuck k w'.
Proof.
  intros (Hb & Hk & Ho) Hs.
  assert (Hput : forall i t s, owns t = false -> s.(write_index) = BUSY_WRITE_INDEX ->
            stuck k (put i t s w.(rw_kernel) w)).
  { intros i t s Ht Hsb. split_and!; [done|done|]. intros j u [[_ ->]|[_ Hj]]%put_lookup; [done|eauto]. }
  destruct Hs as [i ok s Hi E|i idx Hi|i Hi|i idx ok s Hi E|i found s Hi E|i Hi|i e Hi|i e ok s Hi E|i e Hi];
    try (by apply Ho in Hi).
  - unfold register_begin, swap_index in E. injection E as <- <-. rewrite Hb. by apply Hput.
  - unfold unregister_begin, swap_index in E. injection E as <- <-. rewrite Hb. by apply Hput.
  - by apply Hput.
Qed.

(** [register] on a tracepoint that is already registered stops at its assert,
    but only after its first swap has marked the tracepoint busy: from then on
    every [unregister] (the one in [Drop] included) answers [EBUSY] without
    calling the kernel, so the registration stays for good. *)
Theorem register_active_never_unregisters w i
    (Hidle : w.(rw_threads) !! i = Some RegIdle)
    (Hquiet : forall j t, w.(rw_threads) !! j = Some t -> owns t = false)
    (Hindex : 0 <= w.(rw_state).(write_index) <= HIGHEST_VALID_WRITE_INDEX) :
  exists s w', register_begin w.(rw_state) = (false, s) /\ reg_step w w' /\
    w'.(rw_state) = s /\ w'.(rw_threads) !! i = Some RegRefused /\
    forall w'', rtc reg_step w' w'' ->
      w''.(rw_kernel) = w.(rw_kernel) /\ (unregister_begin w''.(rw_state)).1 = AlreadyBusy.
Proof.
  assert (E : register_begin w.(rw_state) = (false, snd (swap_index BUSY_WRITE_INDEX w.(rw_state)))).
  { unfold register_begin, swap_index. f_equal. apply Z.eqb_neq.
    unfold HIGHEST_VALID_WRITE_INDEX, UNREGISTERED_WRITE_INDEX in *. lia. }
  eexists _, _. split_and!; [exact E|by eapply (reg_begin w i)|done| |].
  - cbn. apply list_lookup_insert_eq. by apply lookup_lt_is_Some_1; eexists.
  - intros w'' Hr.
    assert (Hs : stuck w.(rw_kernel) w'').
    { revert Hr. match goal with |- rtc _ ?w' _ -> _ => assert (H0 : stuck w.(rw_kernel) w') end.
      { split_and!; [done|done|]. intros j u [[_ ->]|[_ Hj]]%put_lookup; [done|eauto]. }
      revert H0. generalize (put i RegRefused (swap_index BUSY_WRITE_INDEX (rw_state w)).2 (rw_kernel w) w).
      intros w0 H0 Hr. induction Hr; [done|]. eauto using stuck_step. }
    destruct Hs as (Hb & Hk & _). split; [done|]. unfold unregister_begin, swap_index. by rewrite Hb.
Qed.

Lemma register_active_never_unregisters_witness :
  exists s w', register_begin example_registered.(rw_state) = (false, s) /\ reg_step example_registered w' /\
    w'.(rw_state) = s /\ w'.(rw_threads) !! 0%nat = Some RegRefused /\
    forall w'', rtc reg_step w' w'' ->
      w''.(rw_kernel) = Some 7 /\ (unregister_begin w''.(rw_state)).1 = AlreadyBusy.
Proof.
  apply (register_active_never_unregisters example_registered 0%nat); [reflexivity| |].
  - intros [|[|j]] t Hj; cbn in Hj; [injection Hj as <-..|]; done.
  - vm_compute. split; discriminate.
Defined.
