(* ===== verification/Provider.v ===== *)
(** * Provider: tracepoint names and the static provider
    (eventheader/src/provider.rs, eventheader/src/_internal.rs)

    The command string that names and declares a tracepoint, the in-place repair
    of the linker-made list of tracepoints, and registration of a provider. *)

From stdpp Require Import gmap sorting.
From S2P Require Import Prelude Types ByteReader Tracepoint.

(** ** Command strings *)

(** ["u8 eventheader_flags; u8 version; u16 id; u16 tag; u8 opcode; u8 level"]. *)
(* eventheader/src/_internal.rs:24-25: EVENTHEADER_COMMAND_TYPES *)
Definition EVENTHEADER_COMMAND_TYPES : bytes :=
  [117; 56; 32; 101; 118; 101; 110; 116; 104; 101; 97; 100; 101; 114; 95; 102; 108; 97; 103; 115; 59;
   32; 117; 56; 32; 118; 101; 114; 115; 105; 111; 110; 59; 32; 117; 49; 54; 32; 105; 100; 59; 32; 117;
   49; 54; 32; 116; 97; 103; 59; 32; 117; 56; 32; 111; 112; 99; 111; 100; 101; 59; 32; 117; 56; 32;
   108; 101; 118; 101; 108].
(* eventheader/src/_internal.rs:28-28: EVENTHEADER_NAME_MAX *)
Definition EVENTHEADER_NAME_MAX : Z := 256.
(* eventheader/src/_internal.rs:31-32: EVENTHEADER_COMMAND_MAX *)
Definition EVENTHEADER_COMMAND_MAX : Z := EVENTHEADER_NAME_MAX + 1 + len EVENTHEADER_COMMAND_TYPES.

(** [{:x}] of an unsigned integer: lower-case digits without leading zeros; [n]
    bounds the number of digits. *)
Definition hex_digit (v : Z) : Z := if v <? 10 then 48 + v else 97 + (v - 10).
Fixpoint fmt_hex_loop (n : nat) (v : Z) (tail : bytes) : bytes :=
  match n with
  | O => tail
  | S n => let tail := hex_digit (v mod 16) :: tail in
           if v / 16 =? 0 then tail else fmt_hex_loop n (v / 16) tail
  end.
Definition fmt_hex (v : Z) : bytes := fmt_hex_loop 16 v [].

(* eventheader/src/provider.rs: struct CommandStringBuffer *)
Record CommandStringBuffer := { buf : bytes; buf_pos : Z }.

(* eventheader/src/provider.rs: CommandStringBuffer::write *)
Definition CommandStringBuffer_write (src : bytes) (b : CommandStringBuffer)
  : outcome CommandStringBuffer :=
  new ← copy_at b.(buf) b.(buf_pos) src;
  Ret {| buf := new; buf_pos := b.(buf_pos) + len src |}.

(* eventheader/src/provider.rs: CommandString::new *)
Definition CommandString_new : CommandStringBuffer :=
  {| buf := repeat 0 (Z.to_nat EVENTHEADER_COMMAND_MAX); buf_pos := 0 |}.

(** [CStr::from_bytes_with_nul(..).unwrap()]: NUL is the last byte and only there. *)
Definition cstr_unwrap (l : bytes) : outcome bytes :=
  match rev l with
  | 0 :: r => if existsb (fun b => b =? 0) r then Panic else Ret l
  | _ => Panic
  end.

(* eventheader/src/provider.rs: CommandString::format *)
Definition CommandString_format (provider_name provider_options : bytes) (level keyword : Z)
    (b : CommandStringBuffer) : outcome (bytes * CommandStringBuffer) :=
  let b := {| buf := b.(buf); buf_pos := 0 |} in
  b ← CommandStringBuffer_write provider_name b;
  b ← CommandStringBuffer_write [95; 76] b;
  b ← CommandStringBuffer_write (fmt_hex level) b;
  b ← CommandStringBuffer_write [75] b;
  b ← CommandStringBuffer_write (fmt_hex keyword) b;
  b ← CommandStringBuffer_write provider_options b;
  b ← CommandStringBuffer_write [32] b;
  b ← CommandStringBuffer_write EVENTHEADER_COMMAND_TYPES b;
  new ← store b.(buf) b.(buf_pos) 0;
  let b := {| buf := new; buf_pos := b.(buf_pos) + 1 |} in
  text ← slice b.(buf) 0 b.(buf_pos);
  text ← cstr_unwrap text;
  Ret (text, b).

(** ** The list of tracepoints

    A pointer is its address, 0 the null pointer. *)

(** [events_slice.sort_unstable_by(|a, b| b.cmp(a))]. *)
Definition descending (a b : Z) : Prop := b <= a.
#[export] Instance descending_dec : RelDecision descending := fun a b => Z.le_dec b a.
Definition sort_descending (events : list Z) : list Z := merge_sort descending events.

(** [n] is [end_pos - next_pos]. *)
(* eventheader/src/provider.rs:168-174: Provider::register_impl, the inner loop *)
Fixpoint compact_loop (n : nat) (events : list Z) (good_pos next_pos : Z) : outcome (list Z * Z) :=
  match n with
  | O => Ret (events, good_pos)
  | S n =>
    a ← index events good_pos; b ← index events next_pos;
    if negb (a =? b) then
      events ← store events (good_pos + 1) b;
      compact_loop n events (good_pos + 1) (next_pos + 1)
    else compact_loop n events good_pos (next_pos + 1)
  end.

(** [n] is [end_pos - 1 - good_pos]. *)
(* eventheader/src/provider.rs:163-178: Provider::register_impl, the duplicates *)
Fixpoint dedup_loop (n : nat) (events : list Z) (good_pos : Z) : outcome (list Z * Z) :=
  match n with
  | O => Ret (events, good_pos)
  | S n =>
    a ← index events good_pos; b ← index events (good_pos + 1);
    if a =? b
    then compact_loop (Z.to_nat (len events - (good_pos + 2))) events good_pos (good_pos + 2)
    else dedup_loop n events (good_pos + 1)
  end.

(** [n] is [end_pos - next_pos]. *)
(* eventheader/src/provider.rs:180-185: Provider::register_impl, the rest of the list *)
Fixpoint fill_loop (n : nat) (events : list Z) (next_pos : Z) : outcome (list Z) :=
  match n with
  | O => Ret events
  | S n => events ← store events next_pos 0; fill_loop n events (next_pos + 1)
  end.

(* eventheader/src/provider.rs:155-185: Provider::register_impl, the repair of the list *)
Definition fix_up (events : list Z) : outcome (list Z) :=
  let events := sort_descending events in
  '(events, good_pos) ← dedup_loop (Z.to_nat (len events - 1)) events 0;
  fill_loop (Z.to_nat (len events - (good_pos + 1))) events (good_pos + 1).

(* eventheader/src/provider.rs: struct EventHeaderTracepoint *)
Record EventHeaderTracepoint := {
  ht_state : TracepointState;
  ht_header : EventHeader;
  ht_keyword : Z;
  ht_metadata : bytes;
}.

(* eventheader/src/provider.rs: EventHeaderTracepoint::new *)
Definition EventHeaderTracepoint_new (header : EventHeader) (keyword : Z) (metadata : bytes)
  : EventHeaderTracepoint :=
  {| ht_state := TracepointState_new 0; ht_header := header; ht_keyword := keyword;
     ht_metadata := metadata |}.

Definition set_ht_state (s : TracepointState) (t : EventHeaderTracepoint) : EventHeaderTracepoint :=
  {| ht_state := s; ht_header := t.(ht_header); ht_keyword := t.(ht_keyword);
     ht_metadata := t.(ht_metadata) |}.

(** The provider and the tracepoints its list points to. *)
(* eventheader/src/provider.rs: struct Provider *)
Record Provider := {
  p_name : bytes;
  p_options : bytes;
  p_events : list Z;
  p_busy : bool;
  p_tracepoints : gmap Z EventHeaderTracepoint;
}.

Section Operations.
Context `{UserEvents} `{Target}.

(** [&*event_ptr]: the pointers of the list are valid. *)
Definition deref (ts : gmap Z EventHeaderTracepoint) (p : Z) : outcome EventHeaderTracepoint :=
  match ts !! p with Some t => Ret t | None => Panic end.

(** The shared file, the result and the tracepoints are threaded through. *)
(* eventheader/src/provider.rs:187-206: Provider::register_impl, the registrations *)
Fixpoint register_events (name options : bytes) (events : list Z) (cs : CommandStringBuffer)
    (file result : Z) (ts : gmap Z EventHeaderTracepoint)
  : outcome (Z * Z * gmap Z EventHeaderTracepoint) :=
  match events with
  | [] => Ret (file, result, ts)
  | event_ptr :: events =>
    if event_ptr =? 0 then Ret (file, result, ts)
    else
      event ← deref ts event_ptr;
      '(name_args, cs) ← CommandString_format name options
                           event.(ht_header).(eh_level) event.(ht_keyword) cs;
      '(err, file, s) ← TracepointState_register file name_args event.(ht_state);
      register_events name options events cs file (if result =? 0 then err else result)
        (<[event_ptr := set_ht_state s event]> ts)
  end.

(* eventheader/src/provider.rs: Provider::register_impl *)
Definition Provider_register (file : Z) (p : Provider) : outcome (Z * Z * Provider) :=
  if p.(p_busy) then Panic
  else
    '(file, result, events, ts) ←
      (if 0 <? len p.(p_events) then
         events ← fix_up p.(p_events);
         '(file, result, ts) ← register_events p.(p_name) p.(p_options) events CommandString_new
                                 file 0 p.(p_tracepoints);
         Ret (file, result, events, ts)
       else Ret (file, 0, p.(p_events), p.(p_tracepoints)));
    Ret (as_unsigned 32 result, file,
         {| p_name := p.(p_name); p_options := p.(p_options); p_events := events;
            p_busy := false; p_tracepoints := ts |}).

(* eventheader/src/provider.rs:77-89: Provider::unregister, the loop *)
Fixpoint unregister_events (events : list Z) (file result : Z) (ts : gmap Z EventHeaderTracepoint)
  : outcome (Z * gmap Z EventHeaderTracepoint) :=
  match events with
  | [] => Ret (result, ts)
  | event_ptr :: events =>
    if event_ptr =? 0 then Ret (result, ts)
    else
      event ← deref ts event_ptr;
      '(err, s) ← TracepointState_unregister file event.(ht_state);
      unregister_events events file (if result =? 0 then err else result)
        (<[event_ptr := set_ht_state s event]> ts)
  end.

(* eventheader/src/provider.rs: Provider::unregister *)
Definition Provider_unregister (file : Z) (p : Provider) : outcome (Z * Provider) :=
  if p.(p_busy) then Ret (0, p)
  else
    '(result, ts) ← unregister_events p.(p_events) file 0 p.(p_tracepoints);
    Ret (as_unsigned 32 result,
         {| p_name := p.(p_name); p_options := p.(p_options); p_events := p.(p_events);
            p_busy := false; p_tracepoints := ts |}).
End Operations.
