(* ===== verification/ProviderProps.v ===== *)
(** * ProviderProps: tracepoint names and the list of tracepoints

    The command string is exactly the documented text and never overflows its
    buffer; the decoder reads the level and keyword back from the name; the
    repaired list has every tracepoint once; registering a provider registers each of
    them under its command string. *)

From stdpp Require Import gmap sorting.
From S2P Require Import Prelude Types ByteReader Tracepoint TracepointProps Provider.
From S2P Require Import PerfItem Enumerator.

(** ** Hexadecimal numbers *)

Definition nibbles_ok (ns : list Z) : Prop := Forall (fun d => 0 <= d < 16) ns.
Definition hex_value (acc : Z) (ns : list Z) : Z := fold_left (fun a d => a * 16 + d) ns acc.

Lemma hex_value_app acc a b : hex_value acc (a ++ b) = hex_value (hex_value acc a) b.
Proof. apply fold_left_app. Qed.

Lemma hex_value_acc acc ns : hex_value acc ns = acc * 16 ^ len ns + hex_value 0 ns.
Proof.
  revert acc. induction ns as [|d ns IH]; intros acc; cbn -[Z.mul Z.pow].
  - change (len []) with 0. lia.
  - unfold hex_value in *. rewrite (IH (acc * 16 + d)), (IH (0 * 16 + d)), len_cons.
    rewrite Z.pow_add_r by (try apply len_nonneg; lia). lia.
Qed.

Lemma fmt_hex_loop_ok n v tail :
  0 <= v < 16 ^ Z.of_nat n ->
  exists ns, fmt_hex_loop n v tail = map hex_digit ns ++ tail /\ nibbles_ok ns /\
    hex_value 0 ns = v /\ (n <> O -> ns <> []) /\
    (forall k, 0 < k -> v < 16 ^ k -> len ns <= k).
Proof.
  revert v tail. induction n as [|n IH]; intros v tail Hv.
  - exists []. split_and!; [done|constructor|cbn in *; lia|done|]. intros k Hk _. change (len []) with 0. lia.
  - cbn [fmt_hex_loop]. pose proof (Z.mod_pos_bound v 16 ltac:(lia)) as Hd.
    pose proof (Z.div_mod v 16 ltac:(lia)) as Ev.
    destruct (Z.eqb_spec (v / 16) 0) as [E|E].
    + exists [v mod 16]. split_and!; [done|by constructor|cbn; lia|done|].
      intros k Hk _. change (len [v mod 16]) with 1. lia.
    + rewrite Nat2Z.inj_succ, Z.pow_succ_r in Hv by lia.
      assert (Hv' : 0 <= v / 16 < 16 ^ Z.of_nat n)
        by (split; [apply Z.div_pos; lia|apply Z.div_lt_upper_bound; lia]).
      destruct (IH (v / 16) (hex_digit (v mod 16) :: tail) Hv') as (ns & -> & Hns & Hval & _ & Hk).
      exists (ns ++ [v mod 16]). split_and!.
      * by rewrite map_app, <- app_assoc.
      * apply Forall_app. split; [done|by constructor].
      * rewrite hex_value_app, Hval. cbn. lia.
      * intros _ Hnil. by destruct ns.
      * intros k Hkp Hkv. rewrite len_app. change (len [v mod 16]) with 1.
        destruct (Z.eq_dec k 1) as [->|].
        -- rewrite Z.div_small in E by lia. done.
        -- pose proof (Hk (k - 1) ltac:(lia)) as Hk1.
           assert (v / 16 < 16 ^ (k - 1)); [|lia]. apply Z.div_lt_upper_bound; [lia|].
           replace (16 * 16 ^ (k - 1)) with (16 ^ k); [done|]. rewrite <- Z.pow_succ_r by lia. f_equal. lia.
Qed.

Definition hex_char (c : Z) : bool := is_ascii_digit c || ((97 <=? c) && (c <=? 102)).

Lemma hex_digit_facts d :
  0 <= d < 16 -> hex_char (hex_digit d) = true /\
  (if is_ascii_digit (hex_digit d) then hex_digit d - 48 else hex_digit d - 97 + 10) = d.
Proof.
  intros H. unfold hex_char, hex_digit, is_ascii_digit. destruct (Z.ltb_spec d 10).
  - rewrite !(proj2 (Z.leb_le _ _)) by lia. cbn. lia.
  - rewrite (proj2 (Z.leb_gt (97 + (d - 10)) 57)), !(proj2 (Z.leb_le _ _)) by lia.
    rewrite andb_false_r. cbn. lia.
Qed.

(** The rest of a text after a number: nothing, or a character that is not a
    lower-case digit. *)
Definition ends_number (rest : bytes) : Prop :=
  match rest with [] => True | c :: _ => hex_char c = false end.

Lemma drop_cons_lookup {A} (l : list A) pos x r :
  0 <= pos -> drop (Z.to_nat pos) l = x :: r ->
  index l pos = Ret x /\ drop (Z.to_nat (pos + 1)) l = r /\ pos < len l.
Proof.
  intros Hp E. assert (El : l !! Z.to_nat pos = Some x).
  { rewrite <- (Nat.add_0_r (Z.to_nat pos)), <- lookup_drop, E. done. }
  unfold index. destruct (Z.ltb_spec pos 0); [lia|]. rewrite El. split_and!; [done| |].
  - replace (Z.to_nat (pos + 1)) with (Z.to_nat pos + 1)%nat by lia. by rewrite <- drop_drop, E.
  - apply lookup_lt_Some in El. unfold len. lia.
Qed.

Lemma hex_loop_ok str ns rest val pos :
  nibbles_ok ns -> 0 <= pos -> 0 <= val -> hex_value val ns < 2 ^ 64 ->
  drop (Z.to_nat pos) str = map hex_digit ns ++ rest -> ends_number rest ->
  lowercase_hex_loop str (Z.to_nat (len str - pos)) val pos = Ret (hex_value val ns, pos + len ns).
Proof.
  intros Hns. revert val pos. induction Hns as [|d ns Hd Hns IH]; intros val pos Hpos Hval Hmax E Hr.
  - cbn [map app] in E. change (len []) with 0. rewrite Z.add_0_r. cbn [hex_value fold_left].
    destruct rest as [|c rest].
    + assert (En : Z.to_nat (len str - pos) = O).
      { apply (f_equal (@length Z)) in E. rewrite length_drop in E. unfold len. cbn in E. lia. }
      by rewrite En.
    + destruct (drop_cons_lookup str pos c rest Hpos E) as (Ei & _ & Hl).
      destruct (Z.to_nat (len str - pos)) eqn:En; [lia|]. cbn [lowercase_hex_loop]. rewrite Ei.
      cbn [mbind outcome_bind]. cbn in Hr. unfold hex_char in Hr. apply orb_false_elim in Hr as [-> ->]. done.
  - cbn [map app] in E. destruct (drop_cons_lookup str pos _ _ Hpos E) as (Ei & Ed & Hl).
    destruct (Z.to_nat (len str - pos)) eqn:En; [lia|]. cbn [lowercase_hex_loop]. rewrite Ei.
    cbn [mbind outcome_bind]. destruct (hex_digit_facts d Hd) as [Hh Hv].
    cbn [hex_value fold_left] in *. fold (hex_value (val * 16 + d) ns) in *.
    assert (Hacc : val * 16 + d <= hex_value (val * 16 + d) ns).
    { rewrite hex_value_acc. pose proof (len_nonneg ns).
      assert (0 <= hex_value 0 ns).
      { clear -Hns. unfold hex_value. assert (G : forall a, 0 <= a -> 0 <= fold_left (fun a d => a * 16 + d) ns a).
        { induction Hns as [|x l Hx Hl IH]; intros a Ha; cbn; [done|]. apply IH. lia. }
        by apply G. }
      assert (1 <= 16 ^ len ns) by (pose proof (Z.pow_pos_nonneg 16 (len ns)); lia). nia. }
    assert (Es : as_unsigned 64 (Z.shiftl val 4) = val * 16).
    { rewrite Z.shiftl_mul_pow2 by lia. apply as_unsigned_id. lia. }
    rewrite Es, len_cons.
    unfold hex_char in Hh. replace n with (Z.to_nat (len str - (pos + 1))) by lia.
    destruct (is_ascii_digit (hex_digit d)); cbn [orb] in Hh.
    + rewrite Hv, (IH (val * 16 + d) (pos + 1)) by (lia || done). do 2 f_equal. lia.
    + rewrite Hh, Hv, (IH (val * 16 + d) (pos + 1)) by (lia || done). do 2 f_equal. lia.
Qed.

Lemma fmt_hex_ok v k :
  0 <= v < 2 ^ 64 -> 0 < k -> v < 16 ^ k ->
  exists ns, fmt_hex v = map hex_digit ns /\ nibbles_ok ns /\ hex_value 0 ns = v /\ len ns <= k.
Proof.
  intros Hv Hk Hvk. destruct (fmt_hex_loop_ok 16 v [] Hv) as (ns & E & Hns & Hval & _ & Hl).
  exists ns. rewrite app_nil_r in E. split_and!; [done|done|done|by apply Hl].
Qed.

(** Reading a printed number back. *)
Lemma read_fmt_hex str pos v rest :
  0 <= pos -> 0 <= v < 2 ^ 64 -> drop (Z.to_nat pos) str = fmt_hex v ++ rest -> ends_number rest ->
  lowercase_hex_to_int str pos = Ret (v, pos + len (fmt_hex v)).
Proof.
  intros Hp Hv E Hr. destruct (fmt_hex_ok v 16 Hv) as (ns & En & Hns & Hval & _); [lia|lia|].
  rewrite En in *. unfold lowercase_hex_to_int.
  rewrite (hex_loop_ok str ns rest 0 pos) by (rewrite ?Hval; lia || done).
  rewrite Hval. unfold len. by rewrite length_map.
Qed.

(** ** The name of a tracepoint *)

Definition tracepoint_name (name options : bytes) (level keyword : Z) : bytes :=
  name ++ [95; 76] ++ fmt_hex level ++ [75] ++ fmt_hex keyword ++ options.

(** Attributes: upper-case letters, each followed by digits and lower-case letters. *)
Definition attributes (attrs : list (Z * bytes)) : bytes := flat_map (fun a => a.1 :: a.2) attrs.
Definition value_char (c : Z) : bool := is_ascii_digit c || is_ascii_lowercase c.
Definition attributes_ok (attrs : list (Z * bytes)) : Prop :=
  Forall (fun a => is_ascii_uppercase a.1 = true /\ forallb value_char a.2 = true) attrs.

Lemma find_underscore_last pre post :
  ~ In 95 post -> find_underscore (pre ++ [95] ++ post) (length (pre ++ [95] ++ post)) = Ret (Some (len pre + 1)).
Proof.
  intros Hp. induction post as [|c post IH] using rev_ind.
  - rewrite app_nil_r, length_app. cbn [length]. rewrite Nat.add_1_r. cbn [find_underscore].
    rewrite index_byte_at by (unfold len; rewrite length_app; cbn; lia).
    unfold byte_at. rewrite Nat2Z.id, nth_middle. cbn. do 2 f_equal. unfold len. lia.
  - assert (Hc : c <> 95) by (intros ->; apply Hp, in_or_app; right; by left).
    assert (Hp' : ~ In 95 post) by (intros ?; apply Hp, in_or_app; by left).
    replace (pre ++ [95] ++ post ++ [c]) with ((pre ++ [95] ++ post) ++ [c]) by (by rewrite <- !app_assoc).
    specialize (IH Hp'). set (l := pre ++ [95] ++ post) in *. rewrite length_app. cbn [length].
    rewrite Nat.add_1_r. cbn [find_underscore].
    rewrite index_byte_at by (unfold len; rewrite length_app; cbn; lia).
    unfold byte_at. rewrite Nat2Z.id, nth_middle. cbn [mbind outcome_bind].
    destruct (Z.eqb_spec c 95); [done|]. rewrite <- IH.
    assert (G : forall m, (m <= length l)%nat -> find_underscore (l ++ [c]) m = find_underscore l m).
    { intros m. induction m as [|m IHm]; intros Hm; [done|]. cbn [find_underscore].
      rewrite index_app_l by (unfold len; lia). destruct (index l (Z.of_nat m)); [|done].
      cbn. rewrite IHm by lia. done. }
    by apply G.
Qed.

Lemma skip_attrib_value_reads name v rest pos :
  0 <= pos -> drop (Z.to_nat pos) name = v ++ rest -> forallb value_char v = true ->
  match rest with [] => True | c :: _ => value_char c = false end ->
  skip_attrib_value name (Z.to_nat (len name - pos)) pos = Ret (pos + len v) /\
  drop (Z.to_nat (pos + len v)) name = rest.
Proof.
  intros Hp E Hv Hr. revert pos Hp E. induction v as [|c v IH]; intros pos Hp E.
  - rewrite len_nil, Z.add_0_r. split; [|done]. cbn [app] in E. destruct rest as [|c rest].
    + assert (En : Z.to_nat (len name - pos) = O).
      { apply (f_equal (@length Z)) in E. rewrite length_drop in E. unfold len. cbn in E. lia. }
      by rewrite En.
    + destruct (drop_cons_lookup name pos c rest Hp E) as (Ei & _ & Hl).
      destruct (Z.to_nat (len name - pos)) eqn:En; [lia|]. cbn [skip_attrib_value]. rewrite Ei.
      cbn [mbind outcome_bind]. unfold value_char in Hr. apply orb_false_elim in Hr as [-> ->]. done.
  - cbn [app forallb] in *. apply andb_prop in Hv as [Hc Hv].
    destruct (drop_cons_lookup name pos c _ Hp E) as (Ei & Ed & Hl).
    destruct (IH Hv (pos + 1) ltac:(lia) Ed) as [I1 I2].
    destruct (Z.to_nat (len name - pos)) eqn:En; [lia|]. cbn [skip_attrib_value]. rewrite Ei.
    cbn [mbind outcome_bind]. rewrite <- negb_orb. fold (value_char c). rewrite Hc. cbn [negb].
    replace n with (Z.to_nat (len name - (pos + 1))) by lia. rewrite I1, len_cons.
    rewrite <- Z.add_assoc in *. done.
Qed.

Lemma uppercase_facts c : is_ascii_uppercase c = true -> value_char c = false /\ hex_char c = false.
Proof.
  unfold is_ascii_uppercase, value_char, hex_char, is_ascii_digit, is_ascii_lowercase. intros H.
  bool_hyps.
  repeat match goal with |- context [?a <=? ?b] => destruct (Z.leb_spec a b) end; done || lia.
Qed.

Lemma validate_attribs_accepts name attrs pos fuel :
  attributes_ok attrs -> 0 <= pos -> drop (Z.to_nat pos) name = attributes attrs ->
  (Z.to_nat (len name - pos) < fuel)%nat -> validate_attribs name fuel pos = Ret true.
Proof.
  intros Ha. revert pos fuel. induction Ha as [|[u v] attrs [Hu Hv] Ha IH]; intros pos fuel Hp E Hf;
    (destruct fuel as [|fuel]; [lia|]); cbn [validate_attribs].
  - destruct (Z.ltb_spec pos (len name)); [|done]. exfalso.
    apply (f_equal (@length Z)) in E. rewrite length_drop in E. unfold len in *. cbn in E. lia.
  - cbn [attributes flat_map app fst snd] in *. fold (attributes attrs) in E.
    destruct (drop_cons_lookup name pos u _ Hp E) as (Ei & Ed & Hl).
    destruct (Z.ltb_spec pos (len name)); [|lia]. rewrite Ei. cbn [mbind outcome_bind]. rewrite Hu. cbn [negb].
    destruct (skip_attrib_value_reads name v (attributes attrs) (pos + 1)) as [-> Ed2]; [lia|done|done| |].
    { destruct Ha as [|[u2 v2] attrs2 [Hu2 _] _]; [done|]. cbn. by apply uppercase_facts. }
    cbn [mbind outcome_bind]. pose proof (len_nonneg v). apply IH; [lia|done|lia].
Qed.

Lemma attributes_no_underscore attrs : attributes_ok attrs -> ~ In 95 (attributes attrs).
Proof.
  induction 1 as [|[u v] attrs [Hu Hv] Ha IH]; [intros []|]. cbn [attributes flat_map app fst snd] in *.
  intros [->|H]; [done|]. apply in_app_or in H as [H|H]; [|done].
  rewrite forallb_forall in Hv. by apply Hv in H.
Qed.

Lemma map_hex_no_underscore ns : nibbles_ok ns -> ~ In 95 (map hex_digit ns).
Proof.
  intros Hns (d & Ed & Hd)%in_map_iff. apply (List.Forall_forall _ _) with (x := d) in Hns; [|done].
  destruct (hex_digit_facts d Hns) as [Hh _]. by rewrite Ed in Hh.
Qed.

Lemma fmt_hex_no_underscore v : 0 <= v < 2 ^ 64 -> ~ In 95 (fmt_hex v).
Proof.
  intros Hv. destruct (fmt_hex_ok v 16 Hv) as (ns & -> & Hns & _); [lia|lia|]. by apply map_hex_no_underscore.
Qed.

Lemma drop_len_app {A} (a b : list A) : drop (Z.to_nat (len a)) (a ++ b) = b.
Proof. unfold len. by rewrite Nat2Z.id, drop_app_length. Qed.

Lemma tracepoint_name_parses name attrs level keyword c :
  attributes_ok attrs -> in_width 8 level -> in_width 64 keyword -> c.(header).(eh_level) = level ->
  parse_tracepoint_name (tracepoint_name name (attributes attrs) level keyword) c
    = Ret (Ok tt, set_keyword keyword c).
Proof.
  intros Hattrs Hlevel Hkeyword Hheader.
  unfold in_width in *. set (rest := attributes attrs).
  set (k := fmt_hex keyword). set (l := fmt_hex level).
  assert (Hpost : ~ In 95 ([76] ++ l ++ [75] ++ k ++ rest)).
  { rewrite !in_app_iff. subst k l rest.
    intros [[?|[]]|[H|[[?|[]]|[H|H]]]]; try done.
    - by apply fmt_hex_no_underscore in H; [|lia].
    - by apply fmt_hex_no_underscore in H; [|lia].
    - by apply attributes_no_underscore in H. }
  pose proof (find_underscore_last name _ Hpost) as Hf.
  assert (E0 : tracepoint_name name rest level keyword = name ++ [95] ++ [76] ++ l ++ [75] ++ k ++ rest) by done.
  rewrite <- E0 in Hf. unfold parse_tracepoint_name. rewrite Hf. cbn [mbind outcome_bind]. clear Hf.
  set (t := tracepoint_name name rest level keyword) in *.
  pose proof (len_nonneg name). pose proof (len_nonneg l). pose proof (len_nonneg k).
  assert (D1 : drop (Z.to_nat (len name + 1)) t = [76] ++ l ++ [75] ++ k ++ rest).
  { rewrite E0, (assoc_L (++)). replace (len name + 1) with (len (name ++ [95])) by (rewrite len_app; done).
    apply drop_len_app. }
  destruct (drop_cons_lookup t (len name + 1) _ _ ltac:(lia) D1) as (I1 & D2 & L1).
  destruct (Z.leb_spec (len t) (len name + 1)); [lia|]. rewrite I1. cbn [mbind outcome_bind negb Z.eqb Pos.eqb].
  rewrite (read_fmt_hex t (len name + 1 + 1) level ([75] ++ k ++ rest)) by (lia || done).
  cbn [mbind outcome_bind]. rewrite Hheader, Z.eqb_refl. cbn [negb]. fold l.
  assert (D3 : drop (Z.to_nat (len name + 1 + 1 + len l)) t = [75] ++ k ++ rest).
  { rewrite Z2Nat.inj_add, <- drop_drop, D2 by lia. apply drop_len_app. }
  destruct (drop_cons_lookup t (len name + 1 + 1 + len l) _ _ ltac:(lia) D3) as (I3 & D4 & L3).
  destruct (Z.leb_spec (len t) (len name + 1 + 1 + len l)); [lia|]. rewrite I3.
  cbn [mbind outcome_bind negb Z.eqb Pos.eqb].
  assert (Hrest : ends_number rest).
  { subst rest. destruct Hattrs as [|[u v] attrs [Hu _] _]; [done|]. cbn. by apply uppercase_facts. }
  rewrite (read_fmt_hex t (len name + 1 + 1 + len l + 1) keyword rest) by (lia || done).
  cbn [mbind outcome_bind]. fold k.
  rewrite (validate_attribs_accepts t attrs); [done|done|lia| |lia].
  rewrite Z2Nat.inj_add, <- drop_drop, D4 by lia. apply drop_len_app.
Qed.

(** The decoder reads a tracepoint's level and keyword back from the name that
    the provider gives it: for every provider name and every list of well-formed
    attributes, [parse_tracepoint_name] accepts the name for an event header with
    that level and finds that keyword. *)
Theorem tracepoint_name_round_trip name attrs level keyword c
    (Hattrs : attributes_ok attrs) (Hlevel : in_width 8 level) (Hkeyword : in_width 64 keyword)
    (Hheader : c.(header).(eh_level) = level) :
  parse_tracepoint_name (tracepoint_name name (attributes attrs) level keyword) c
    = Ret (Ok tt, set_keyword keyword c).
Proof. by apply tracepoint_name_parses. Qed.

Definition example_attributes : list (Z * bytes) := [(71, [103; 49])].

Lemma tracepoint_name_round_trip_witness :
  parse_tracepoint_name (tracepoint_name [80; 95; 120] [71; 103; 49] 5 0x1F)
    (set_header (EventHeader_from_parts 7 0 0 0 0 5) EventHeaderEnumeratorContext_new)
  = Ret (Ok tt, set_keyword 0x1F
                  (set_header (EventHeader_from_parts 7 0 0 0 0 5) EventHeaderEnumeratorContext_new)).
Proof.
  apply (tracepoint_name_round_trip [80; 95; 120] example_attributes 5 0x1F).
  - repeat constructor.
  - unfold in_width. lia.
  - unfold in_width. lia.
  - reflexivity.
Defined.

(** ** The command string *)

(** The buffer has its fixed size and holds [t] up to the position. *)
Definition holds (b : CommandStringBuffer) (t : bytes) : Prop :=
  len b.(buf) = EVENTHEADER_COMMAND_MAX /\ b.(buf_pos) = len t /\ take (length t) b.(buf) = t.

Lemma buffer_write_ok b t src :
  holds b t -> len t + len src <= EVENTHEADER_COMMAND_MAX ->
  exists b', CommandStringBuffer_write src b = Ret b' /\ holds b' (t ++ src).
Proof.
  intros (Hl & Hp & Ht) Hmax. pose proof (len_nonneg t). pose proof (len_nonneg src).
  unfold CommandStringBuffer_write, copy_at. rewrite Hp, slice_ok by lia. cbn [mbind outcome_bind].
  eexists. split; [reflexivity|].
  assert (Et : take (Z.to_nat (len t)) b.(buf) = t) by (unfold len; by rewrite Nat2Z.id).
  split_and!; cbn [buf buf_pos].
  - rewrite Et, !len_app. rewrite <- Hl in *. unfold len in *. rewrite length_drop. lia.
  - by rewrite len_app.
  - rewrite Et, (assoc_L (++)). by rewrite take_app_length.
Qed.

Lemma fmt_hex_length v k : 0 <= v < 2 ^ 64 -> 0 < k -> v < 16 ^ k -> len (fmt_hex v) <= k.
Proof.
  intros Hv Hk Hvk. destruct (fmt_hex_ok v k Hv Hk Hvk) as (ns & -> & _ & _ & Hl).
  unfold len in *. by rewrite length_map.
Qed.

Definition no_nul (l : bytes) : Prop := Forall (fun b => (b =? 0) = false) l.

Lemma fmt_hex_no_nul v : 0 <= v < 2 ^ 64 -> no_nul (fmt_hex v).
Proof.
  intros Hv. destruct (fmt_hex_ok v 16 Hv) as (ns & -> & Hns & _); [lia|lia|].
  apply Forall_map. eapply List.Forall_impl; [|exact Hns]. intros d Hd. cbn in *.
  unfold hex_digit. destruct (d <? 10); lia.
Qed.

Lemma cstr_unwrap_ok l : no_nul l -> cstr_unwrap (l ++ [0]) = Ret (l ++ [0]).
Proof.
  intros Hl. unfold cstr_unwrap. rewrite rev_unit.
  assert (E : existsb (fun b => b =? 0) (rev l) = false); [|by rewrite E].
  apply not_true_is_false. intros (x & Hx & E)%existsb_exists.
  apply in_rev in Hx. apply (List.Forall_forall _ _) with (x := x) in Hl; [|done]. congruence.
Qed.

(** The text of a command: the name of the tracepoint and the types of its fields. *)
Definition command_text (name options : bytes) (level keyword : Z) : bytes :=
  tracepoint_name name options level keyword ++ [32] ++ EVENTHEADER_COMMAND_TYPES ++ [0].

Lemma CommandString_format_ok name options level keyword b :
  no_nul name -> no_nul options -> len name + len options <= EVENTHEADER_NAME_MAX - 22 ->
  in_width 8 level -> in_width 64 keyword -> len b.(buf) = EVENTHEADER_COMMAND_MAX ->
  exists b', CommandString_format name options level keyword b
               = Ret (command_text name options level keyword, b') /\
    len b'.(buf) = EVENTHEADER_COMMAND_MAX.
Proof.
  intros Hname Hoptions Hlen Hlevel Hkeyword Hbuf. unfold in_width in *. unfold CommandString_format.
  set (b0 := {| buf := buf b; buf_pos := 0 |}).
  assert (H0 : holds b0 []) by (split_and!; done).
  pose proof (fmt_hex_length level 2 ltac:(lia) ltac:(lia) ltac:(lia)) as Hl1.
  pose proof (fmt_hex_length keyword 16 ltac:(lia) ltac:(lia) ltac:(lia)) as Hl2.
  set (fl := fmt_hex level) in *. set (fk := fmt_hex keyword) in *.
  pose proof (len_nonneg name) as N1. pose proof (len_nonneg options) as N2.
  pose proof (len_nonneg fl) as N3. pose proof (len_nonneg fk) as N4.
  change EVENTHEADER_NAME_MAX with 256 in Hlen.
  assert (Hmax : EVENTHEADER_COMMAND_MAX = 327) by reflexivity.
  assert (Hty : len EVENTHEADER_COMMAND_TYPES = 70) by reflexivity.
  destruct (buffer_write_ok _ _ name H0) as (b1 & -> & H1); [rewrite len_nil; lia|]. cbn [mbind outcome_bind app] in *.
  destruct (buffer_write_ok _ _ [95; 76] H1) as (b2 & -> & H2); [autorewrite with tp_simpl; lia|]. cbn [mbind outcome_bind].
  destruct (buffer_write_ok _ _ fl H2) as (b3 & -> & H3); [autorewrite with tp_simpl; lia|]. cbn [mbind outcome_bind].
  destruct (buffer_write_ok _ _ [75] H3) as (b4 & -> & H4); [autorewrite with tp_simpl; lia|]. cbn [mbind outcome_bind].
  destruct (buffer_write_ok _ _ fk H4) as (b5 & -> & H5); [autorewrite with tp_simpl; lia|]. cbn [mbind outcome_bind].
  destruct (buffer_write_ok _ _ options H5) as (b6 & -> & H6); [autorewrite with tp_simpl; lia|]. cbn [mbind outcome_bind].
  destruct (buffer_write_ok _ _ [32] H6) as (b7 & -> & H7); [autorewrite with tp_simpl; lia|]. cbn [mbind outcome_bind].
  destruct (buffer_write_ok _ _ EVENTHEADER_COMMAND_TYPES H7) as (b8 & -> & H8); [autorewrite with tp_simpl; lia|].
  cbn [mbind outcome_bind]. set (t := (_ ++ EVENTHEADER_COMMAND_TYPES)) in *.
  assert (Et : t ++ [0] = command_text name options level keyword).
  { subst t. unfold command_text, tracepoint_name. fold fl fk. by rewrite <- !app_assoc. }
  assert (Hlt : len t <= 326) by (subst t; autorewrite with tp_simpl; lia). clearbody t.
  destruct H8 as (Hl8 & Hp8 & Ht8). pose proof (len_nonneg t). rewrite Hp8. unfold store.
  replace ((0 <=? len t) && (len t <? len b8.(buf))) with true by (symmetry; bool_solve).
  cbn [mbind outcome_bind]. assert (Hi : length (<[Z.to_nat (len t) := 0]> b8.(buf)) = length b8.(buf))
    by apply length_insert.
  cbn [buf buf_pos].
  rewrite slice_ok by (unfold len in *; lia). cbn [mbind outcome_bind].
  assert (Es : sub (<[Z.to_nat (len t):=0]> (buf b8)) 0 (len t + 1) = t ++ [0]).
  { unfold sub, len in *. change (Z.to_nat 0) with 0%nat. rewrite drop_0, Nat2Z.id, Z.sub_0_r.
    replace (Z.to_nat (Z.of_nat (length t) + 1)) with (S (length t)) by lia.
    rewrite (take_S_r _ _ 0) by (apply list_lookup_insert_eq; lia).
    by rewrite take_insert_ge, Ht8 by lia. }
  rewrite Es, Et. rewrite <- Et, cstr_unwrap_ok.
  - cbn [mbind outcome_bind]. eexists. split; [reflexivity|]. cbn [buf]. unfold len in *. lia.
  - assert (Hn : t = tracepoint_name name options level keyword ++ [32] ++ EVENTHEADER_COMMAND_TYPES).
    { unfold command_text in Et. rewrite !(assoc_L (++)) in Et. apply app_inj_tail in Et as [-> _].
      by rewrite <- !app_assoc. }
    rewrite Hn. unfold tracepoint_name, no_nul in *. rewrite !Forall_app. fold fl fk.
    split_and!; try done; try (by apply fmt_hex_no_nul; lia); repeat constructor.
Qed.

Lemma tracepoint_name_short name options level keyword :
  len name + len options <= EVENTHEADER_NAME_MAX - 22 -> in_width 8 level -> in_width 64 keyword ->
  len (tracepoint_name name options level keyword) < EVENT_HEADER_TRACEPOINT_NAME_MAX.
Proof.
  intros Hlen Hlevel Hkeyword. unfold in_width in *.
  pose proof (fmt_hex_length level 2 ltac:(lia) ltac:(lia) ltac:(lia)).
  pose proof (fmt_hex_length keyword 16 ltac:(lia) ltac:(lia) ltac:(lia)).
  unfold tracepoint_name. autorewrite with tp_simpl.
  unfold EVENT_HEADER_TRACEPOINT_NAME_MAX, EVENTHEADER_NAME_MAX in *. lia.
Qed.

(** The command string is exactly "Name_LxKxOptions " and the field types,
    whatever the buffer held before, and never overflows the buffer, for every
    name and options that the providers' length check admits; and the name of the
    tracepoint is short enough for the decoder. *)
Theorem command_string_exact name options level keyword b
    (Hname : no_nul name) (Hoptions : no_nul options)
    (Hlen : len name + len options <= EVENTHEADER_NAME_MAX - 22)
    (Hlevel : in_width 8 level) (Hkeyword : in_width 64 keyword)
    (Hbuf : len b.(buf) = EVENTHEADER_COMMAND_MAX) :
  (exists b', CommandString_format name options level keyword b
                = Ret (command_text name options level keyword, b') /\
     len b'.(buf) = EVENTHEADER_COMMAND_MAX) /\
  len (tracepoint_name name options level keyword) < EVENT_HEADER_TRACEPOINT_NAME_MAX.
Proof. split; [by apply CommandString_format_ok|by apply tracepoint_name_short]. Qed.

Lemma command_string_exact_witness :
  len (tracepoint_name [80] [71; 103] 4 0x1F) < EVENT_HEADER_TRACEPOINT_NAME_MAX.
Proof.
  apply (command_string_exact [80] [71; 103] 4 0x1F CommandString_new);
    [repeat constructor|repeat constructor|vm_compute; discriminate
    |unfold in_width; lia|unfold in_width; lia|vm_compute; reflexivity].
Defined.

(** ** The repaired list *)

(** [l] without the elements that repeat the one before them, [x] being before
    the first. *)
Fixpoint dedup_from (x : Z) (l : list Z) : list Z :=
  match l with [] => [] | y :: l => if x =? y then dedup_from x l else y :: dedup_from y l end.

Lemma index_at {A} (pre : list A) x suf : index (pre ++ x :: suf) (Z.of_nat (length pre)) = Ret x.
Proof.
  unfold index. destruct (Z.ltb_spec (Z.of_nat (length pre)) 0); [lia|].
  by rewrite Nat2Z.id, list_lookup_middle.
Qed.

Lemma store_at {A} (pre : list A) x y suf :
  store (pre ++ x :: suf) (Z.of_nat (length pre)) y = Ret (pre ++ y :: suf).
Proof.
  unfold store, len. rewrite length_app. cbn [length].
  replace ((0 <=? _) && _) with true by (symmetry; bool_solve).
  rewrite Nat2Z.id, <- (Nat.add_0_r (length pre)), insert_app_r. done.
Qed.

Lemma compact_loop_ok suf pre x j junk :
  exists junk',
    compact_loop (length suf) (pre ++ x :: (j :: junk) ++ suf)
      (Z.of_nat (length pre)) (Z.of_nat (length pre) + 1 + Z.of_nat (length (j :: junk)))
    = Ret (pre ++ x :: dedup_from x suf ++ junk', Z.of_nat (length pre) + Z.of_nat (length (dedup_from x suf))).
Proof.
  revert pre x j junk. induction suf as [|y suf IH]; intros pre x j junk.
  - exists (j :: junk). cbn [compact_loop length dedup_from app]. rewrite app_nil_r. do 2 f_equal. lia.
  - cbn [compact_loop length dedup_from]. rewrite index_at. cbn [mbind outcome_bind].
    replace (Z.of_nat (length pre) + 1 + Z.of_nat (S (length junk)))
      with (Z.of_nat (length (pre ++ x :: j :: junk))) by (rewrite length_app; cbn [length]; lia).
    replace (pre ++ x :: (j :: junk) ++ y :: suf) with ((pre ++ x :: j :: junk) ++ y :: suf)
      by (by rewrite <- app_assoc). rewrite index_at. cbn [mbind outcome_bind].
    destruct (Z.eqb_spec x y) as [->|Hne]; cbn [negb].
    + destruct (IH pre y j (junk ++ [y])) as [junk' E]. exists junk'. rewrite <- E. f_equal.
      * rewrite <- app_assoc. cbn [app]. by rewrite <- app_assoc.
      * rewrite length_app. cbn [length]. rewrite length_app. cbn [length]. lia.
    + replace (Z.of_nat (length pre) + 1) with (Z.of_nat (length (pre ++ [x]))) by (rewrite length_app; cbn [length]; lia).
      replace ((pre ++ x :: j :: junk) ++ y :: suf) with ((pre ++ [x]) ++ j :: junk ++ y :: suf)
        by (by rewrite <- !app_assoc). rewrite store_at. cbn [mbind outcome_bind].
      destruct junk as [|j' junk].
      * destruct (IH (pre ++ [x]) y y []) as [junk' E]. exists junk'. cbn [app] in *.
        rewrite <- app_assoc in E. cbn [app] in E. rewrite <- (app_assoc pre) in E. cbn [app] in E.
        rewrite <- (app_assoc pre [x]). cbn [app length]. cbn [length] in E. change (Z.of_nat 1) with 1 in E.
        replace (Z.of_nat (length (pre ++ [x; j])) + 1) with (Z.of_nat (length (pre ++ [x])) + 1 + 1)
          by (rewrite !length_app; cbn [length]; lia).
        rewrite E. do 2 f_equal. rewrite length_app. cbn [length]. lia.
      * destruct (IH (pre ++ [x]) y j' (junk ++ [y])) as [junk' E]. exists junk'.
        rewrite <- (app_assoc pre [x]) in E. cbn [app length] in E.
        rewrite <- (app_assoc junk [y]) in E. cbn [app] in E.
        rewrite <- (app_assoc pre [x]). cbn [app].
        replace (Z.of_nat (length (pre ++ x :: j :: j' :: junk)) + 1)
          with (Z.of_nat (length (pre ++ [x])) + 1 + Z.of_nat (S (length (junk ++ [y]))))
          by (rewrite !length_app; cbn [length]; lia).
        rewrite E. rewrite <- (app_assoc pre [x]). cbn [app].
        do 2 f_equal. rewrite length_app. cbn [length]. lia.
Qed.

Lemma dedup_loop_ok suf pre x :
  exists junk,
    dedup_loop (length suf) (pre ++ x :: suf) (Z.of_nat (length pre))
    = Ret (pre ++ x :: dedup_from x suf ++ junk, Z.of_nat (length pre) + Z.of_nat (length (dedup_from x suf))) /\
    length (dedup_from x suf ++ junk) = length suf.
Proof.
  assert (Hlen : forall events n g r g', compact_loop n events g g' = Ret r -> length r.1 = length events).
  { intros events n. revert events. induction n as [|n IHn]; intros events g r g'; cbn [compact_loop].
    - by intros [= <-].
    - destruct (index events g) as [a|]; [|done]. cbn. destruct (index events g') as [b|]; [|done]. cbn.
      destruct (negb (a =? b)); [|apply IHn]. unfold store. case_match; [|done]. cbn.
      intros E%IHn. by rewrite E, length_insert. }
  revert pre x. induction suf as [|y suf IH]; intros pre x.
  - exists []. cbn. by rewrite Z.add_0_r.
  - cbn [dedup_loop length dedup_from]. rewrite index_at. cbn [mbind outcome_bind].
    replace (Z.of_nat (length pre) + 1) with (Z.of_nat (length (pre ++ [x]))) by (rewrite length_app; cbn [length]; lia).
    assert (Ei : index (pre ++ x :: y :: suf) (Z.of_nat (length (pre ++ [x]))) = Ret y)
      by (rewrite <- (index_at (pre ++ [x]) y suf), <- app_assoc; done).
    rewrite Ei. cbn [mbind outcome_bind]. destruct (Z.eqb_spec x y) as [->|Hne].
    + destruct (compact_loop_ok suf pre y y []) as [junk E]. exists junk. cbn [app length] in E. change (Z.of_nat 1) with 1 in E.
      replace (Z.to_nat (len (pre ++ y :: y :: suf) - (Z.of_nat (length pre) + 2))) with (length suf)
        by (unfold len; rewrite length_app; cbn [length]; lia).
      replace (Z.of_nat (length pre) + 2) with (Z.of_nat (length pre) + 1 + 1) by lia. rewrite E. split; [done|].
      apply Hlen in E. cbn in E. rewrite !length_app in *. cbn [length] in E. rewrite length_app in E. lia.
    + destruct (IH (pre ++ [x]) y) as (junk & E & El). exists junk. rewrite <- !app_assoc in E. cbn [app] in E.
      rewrite E. cbn [app length]. split; [|by rewrite El].
      do 2 f_equal. rewrite length_app. cbn [length]. lia.
Qed.

Lemma fill_loop_ok junk keep :
  fill_loop (length junk) (keep ++ junk) (Z.of_nat (length keep)) = Ret (keep ++ repeat 0 (length junk)).
Proof.
  revert keep. induction junk as [|j junk IH]; intros keep; [done|].
  cbn [fill_loop length repeat]. rewrite store_at. cbn [mbind outcome_bind].
  specialize (IH (keep ++ [0])). rewrite <- !app_assoc in IH. cbn [app] in IH. rewrite <- IH. f_equal.
  rewrite length_app. cbn [length]. lia.
Qed.

Lemma fix_up_eq events x suf :
  sort_descending events = x :: suf ->
  fix_up events = Ret (x :: dedup_from x suf ++ repeat 0 (length suf - length (dedup_from x suf))).
Proof.
  intros E. unfold fix_up. rewrite E.
  replace (Z.to_nat (len (x :: suf) - 1)) with (length suf) by (unfold len; cbn [length]; lia).
  destruct (dedup_loop_ok suf [] x) as (junk & Ed & Hl). cbn [app length] in Ed.
  change (Z.of_nat 0) with 0 in Ed. rewrite Ed. cbn [mbind outcome_bind].
  rewrite length_app in Hl.
  pose proof (fill_loop_ok junk (x :: dedup_from x suf)) as F. cbn [app length] in F.
  replace (Z.to_nat (len (x :: dedup_from x suf ++ junk) - (0 + Z.of_nat (length (dedup_from x suf)) + 1)))
    with (length junk) by (unfold len; cbn [length]; rewrite length_app; lia).
  replace (0 + Z.of_nat (length (dedup_from x suf)) + 1) with (Z.of_nat (S (length (dedup_from x suf)))) by lia.
  rewrite F. by replace (length suf - length (dedup_from x suf))%nat with (length junk) by lia.
Qed.

#[export] Instance descending_total : Total descending.
Proof. intros a b. unfold descending. lia. Qed.
#[export] Instance descending_trans : Transitive descending.
Proof. intros a b c. unfold descending. lia. Qed.

Lemma dedup_from_facts x suf :
  StronglySorted descending (x :: suf) ->
  StronglySorted Z.gt (x :: dedup_from x suf) /\ (forall p, In p (x :: dedup_from x suf) <-> In p (x :: suf)).
Proof.
  revert x. induction suf as [|y suf IH]; intros x Hs; [by split; [repeat constructor|]|].
  apply StronglySorted_inv in Hs as [Hs Hx]. cbn [dedup_from]. destruct (Z.eqb_spec x y) as [->|Hne].
  - destruct (IH y Hs) as [I1 I2]. split; [done|]. intros p. rewrite I2. cbn. tauto.
  - destruct (IH y Hs) as [I1 I2]. split.
    + constructor; [done|]. apply Forall_cons_iff in Hx as [Hxy _]. unfold descending in Hxy.
      apply List.Forall_forall. intros p Hp. apply I2 in Hp as [<-|Hp]; [lia|].
      apply StronglySorted_inv in Hs as [_ Hy].
      apply (List.Forall_forall _ _) with (x := p) in Hy; [|done]. unfold descending in Hy. lia.
    + intros p. split; (intros [->|H]; [by left|right; by apply I2]).
Qed.

(** A strictly descending list of addresses has its null pointer, if any, at the end. *)
Lemma split_null D :
  StronglySorted Z.gt D -> Forall (fun p => 0 <= p) D ->
  exists l z, D = l ++ repeat 0 z /\ StronglySorted Z.gt l /\ (forall p, In p l <-> In p D /\ p <> 0).
Proof.
  induction 1 as [|x D Hs IH Hx]; intros HD.
  - exists [], O. split_and!; [done|constructor|]. cbn. tauto.
  - apply Forall_cons_iff in HD as [Hx0 HD]. destruct (IH HD) as (l & z & -> & Hl & Hin).
    destruct (Z.eq_dec x 0) as [->|Hne].
    + assert (El : l ++ repeat 0 z = []).
      { destruct (l ++ repeat 0 z) as [|y t]; [done|]. apply Forall_cons_iff in Hx as [Hy _].
        apply Forall_cons_iff in HD as [Hy' _]. lia. }
      exists [], 1%nat. split_and!; [by rewrite El|constructor|].
      intros p. rewrite El. cbn. intuition congruence.
    + exists (x :: l), z. split_and!; [done| |].
      * constructor; [done|]. by apply Forall_app in Hx as [Hx _].
      * intros p. cbn. rewrite Hin. intuition congruence.
Qed.

Lemma fix_up_ok events :
  Forall (fun p => 0 <= p) events ->
  exists l k, fix_up events = Ret (l ++ repeat 0 k) /\
    (length l + k = length events)%nat /\ NoDup l /\ StronglySorted Z.gt l /\
    (forall p, In p l <-> In p events /\ p <> 0).
Proof.
  intros Haddr.
  pose proof (merge_sort_Permutation descending events) as Hp. fold (sort_descending events) in Hp.
  pose proof (StronglySorted_merge_sort descending events) as Hs. fold (sort_descending events) in Hs.
  destruct (sort_descending events) as [|x suf] eqn:E.
  - apply Permutation_nil in Hp as ->. exists [], O. split_and!; try done; try constructor; cbn; tauto.
  - rewrite (fix_up_eq events x suf E). destruct (dedup_from_facts x suf Hs) as [Hd Hin].
    assert (HD : Forall (fun p => 0 <= p) (x :: dedup_from x suf)).
    { apply List.Forall_forall. intros p Hpp. apply Hin in Hpp. revert p Hpp. apply List.Forall_forall.
      by rewrite Hp. }
    destruct (split_null _ Hd HD) as (l & z & El & Hl & Hinl).
    assert (Hlen : (length (dedup_from x suf) <= length suf)%nat).
    { clear. revert x. induction suf as [|y suf IH]; intros x; cbn [dedup_from length]; [lia|].
      pose proof (IH x). pose proof (IH y). destruct (x =? y); cbn [length]; lia. }
    exists l, (z + (length suf - length (dedup_from x suf)))%nat. split_and!.
    + rewrite app_comm_cons, El, <- app_assoc. by rewrite <- repeat_app.
    + apply Permutation_length in Hp. apply (f_equal (@length Z)) in El.
      rewrite length_app, repeat_length in El. cbn [length] in *. lia.
    + clear -Hl. induction Hl as [|p l Hl IH HF]; constructor; [|done].
      intros Hpin%list_elem_of_In. apply (List.Forall_forall _ _) with (x := p) in HF; [lia|done].
    + done.
    + intros p. rewrite Hinl, Hin. by rewrite <- !list_elem_of_In, Hp.
Qed.

(** ** Registering a provider *)

(** A tracepoint that [register] accepts, with a name the provider's check admits. *)
Definition registrable (t : EventHeaderTracepoint) : Prop :=
  unregistered t.(ht_state) /\ in_width 8 t.(ht_header).(eh_level) /\ in_width 64 t.(ht_keyword).
Definition names_ok (name options : bytes) : Prop :=
  no_nul name /\ no_nul options /\ len name + len options <= EVENTHEADER_NAME_MAX - 22.

(** The first error of a list of results, or 0. *)
Fixpoint first_error (errors : list Z) : Z :=
  match errors with [] => 0 | e :: errors => if e =? 0 then first_error errors else e end.

Section Register.
Context `{UserEventsOk}.

(** What registering [command] through the descriptor or negated error [fd] gives:
    an error and a write index. *)
Definition kernel_reply (fd : Z) (command : bytes) : Z * Z :=
  if fd <? 0 then (- fd, UNREGISTERED_WRITE_INDEX)
  else match linux_reg fd command 0 with
       | Ok i => (0, i)
       | Err e => (e, UNREGISTERED_WRITE_INDEX)
       end.

(** The reply to the command string of [t], in the provider named [name]. *)
Definition tracepoint_reply (name options : bytes) (fd : Z) (t : EventHeaderTracepoint) : Z * Z :=
  kernel_reply fd (command_text name options t.(ht_header).(eh_level) t.(ht_keyword)).

(** [t] with the write index the kernel gave it. *)
Definition registered (name options : bytes) (fd : Z) (t : EventHeaderTracepoint)
  : EventHeaderTracepoint :=
  set_ht_state {| enable_status := t.(ht_state).(enable_status);
                  write_index := (tracepoint_reply name options fd t).2 |} t.

Definition reply_error (name options : bytes) (fd : Z) (ts : gmap Z EventHeaderTracepoint) (q : Z) : Z :=
  from_option (fun t => (tracepoint_reply name options fd t).1) 0 (ts !! q).

(** The tracepoints of [l], and no others, have been registered in turn. *)
Definition all_registered (name options : bytes) (fd : Z) (l : list Z)
    (ts ts' : gmap Z EventHeaderTracepoint) : Prop :=
  (forall q, ~ In q l -> ts' !! q = ts !! q) /\
  (forall q, In q l -> exists t, ts !! q = Some t /\ ts' !! q = Some (registered name options fd t)).

(** Finding the file again gives the same descriptor. *)
Lemma data_file_kept file :
  exists fd shared, UserEventsDataFile_get file = Ret (fd, shared) /\
    UserEventsDataFile_get shared = Ret (fd, shared).
Proof.
  unfold UserEventsDataFile_get. destruct (Z.eqb_spec file EAGAIN_ERROR) as [->|Hf].
  - assert (Hu : exists z, UserEventsDataFile_update chosen_file EAGAIN_ERROR = (z, z)).
    { unfold UserEventsDataFile_update. case_match; eauto. }
    destruct Hu as [z Hz]. exists z, z. rewrite find_file_eq. cbn [mbind outcome_bind]. rewrite Hz.
    split; [done|]. destruct (Z.eqb_spec z EAGAIN_ERROR) as [->|]; [by rewrite Hz|done].
  - eexists _, _. split; [reflexivity|]. by rewrite (proj2 (Z.eqb_neq _ _)) by done.
Qed.

Lemma TracepointState_register_eq file name s fd shared :
  unregistered s -> UserEventsDataFile_get file = Ret (fd, shared) ->
  TracepointState_register file name s =
    Ret ((kernel_reply fd name).1, shared,
         {| enable_status := s.(enable_status); write_index := (kernel_reply fd name).2 |}).
Proof.
  intros Hs Hget. unfold TracepointState_register, TracepointState_register_with_flags, register_begin, swap_index.
  rewrite Hs, Z.eqb_refl. cbn [rassert mbind outcome_bind]. rewrite Hget. cbn [mbind outcome_bind].
  unfold register_call, finish_swap, swap_index, kernel_reply.
  destruct (Z.ltb_spec fd 0); [done|]. pose proof (reg_ok fd name 0) as Hr.
  destruct (linux_reg fd name 0) as [idx|eno].
  - by rewrite (proj2 (Z.leb_le _ _)) by lia.
  - unfold get_failure_errno. by rewrite (proj2 (Z.ltb_lt _ _)) by done.
Qed.

Lemma register_events_ok name options fd shared l k cs file r ts :
  names_ok name options -> len cs.(buf) = EVENTHEADER_COMMAND_MAX -> NoDup l -> ~ In 0 l ->
  (forall q, In q l -> exists t, ts !! q = Some t /\ registrable t) ->
  UserEventsDataFile_get file = Ret (fd, shared) -> UserEventsDataFile_get shared = Ret (fd, shared) ->
  exists ts', register_events name options (l ++ repeat 0 k) cs file r ts =
      Ret (match l with [] => file | _ => shared end,
           first_error (r :: map (reply_error name options fd ts) l), ts') /\
    all_registered name options fd l ts ts'.
Proof.
  intros Hn. revert cs file r ts.
  induction l as [|p l IH]; intros cs file r ts Hcs Hnd H0 Hts Hget Hkept.
  - exists ts. split; [|split; [done|intros p []]].
    cbn [map first_error]. destruct (Z.eqb_spec r 0) as [->|]; by destruct k.
  - apply list.NoDup_cons in Hnd as [Hp Hnd]. rewrite list_elem_of_In in Hp. cbn [app register_events].
    destruct (Z.eqb_spec p 0) as [->|Hp0]; [by destruct H0; left|].
    destruct (Hts p (or_introl eq_refl)) as (t & Et & Hu & Hl & Hk). unfold deref. rewrite Et. cbn [mbind outcome_bind].
    destruct Hn as (N1 & N2 & N3).
    destruct (CommandString_format_ok name options _ _ cs N1 N2 N3 Hl Hk Hcs) as (cs' & -> & Hcs').
    cbn [mbind outcome_bind]. rewrite (TracepointState_register_eq file _ _ fd shared Hu Hget).
    cbn [mbind outcome_bind]. fold (tracepoint_reply name options fd t).
    fold (registered name options fd t).
    set (r1 := if r =? 0 then (tracepoint_reply name options fd t).1 else r).
    destruct (IH cs' shared r1 (<[p:=registered name options fd t]> ts) Hcs' Hnd)
      as (ts' & -> & A1 & A2); [intros ?; apply H0; by right| |done|done|].
    { intros q Hq. rewrite lookup_insert_ne by (by intros ->). apply Hts. by right. }
    exists ts'. split; [|split].
    + do 2 f_equal. f_equal; [by destruct l|]. cbn [map].
      replace (map (reply_error name options fd (<[p:=registered name options fd t]> ts)) l)
        with (map (reply_error name options fd ts) l).
      2: { apply map_ext_in. intros q Hq. unfold reply_error. by rewrite lookup_insert_ne by (by intros ->). }
      unfold reply_error at 2. rewrite Et. cbn [from_option first_error]. unfold r1.
      destruct (Z.eqb_spec r 0) as [->|Hr]; [done|]. by rewrite (proj2 (Z.eqb_neq _ _) Hr).
    + intros q Hq. rewrite A1 by (intros ?; apply Hq; by right). rewrite lookup_insert_ne; [done|].
      intros ->. apply Hq. by left.
    + intros q [<-|Hq]; [exists t; by rewrite A1, lookup_insert_eq by done|].
      destruct (A2 q Hq) as (t2 & E1 & E2). exists t2.
      by rewrite lookup_insert_ne in E1 by (by intros ->).
Qed.

(** C31. Registering a provider whose tracepoints are unregistered never panics.
    Although its list may hold null pointers and duplicates, each tracepoint of the
    list is registered once (a second registration would stop at an assert), in the
    order of the repaired list, through the shared data file and under the exact
    command string of the provider's name and options and its own level and keyword:
    it takes the write index the kernel answers, or stays unregistered when there is
    an error.  Other tracepoints are untouched, the list is left without duplicates,
    the provider is no longer busy, and the result is the first error. *)
Theorem provider_register_all file p
    (Hbusy : p.(p_busy) = false) (Hnames : names_ok p.(p_name) p.(p_options))
    (Haddr : Forall (fun q => 0 <= q) p.(p_events))
    (Hts : forall q, In q p.(p_events) -> q <> 0 -> exists t, p.(p_tracepoints) !! q = Some t /\ registrable t) :
  exists fd shared l k file' p',
    UserEventsDataFile_get file = Ret (fd, shared) /\
    (file' = if bool_decide (l = []) then file else shared) /\
    Provider_register file p =
      Ret (as_unsigned 32 (first_error (map (reply_error p.(p_name) p.(p_options) fd p.(p_tracepoints)) l)),
           file', p') /\
    p'.(p_busy) = false /\ p'.(p_events) = l ++ repeat 0 k /\
    length p'.(p_events) = length p.(p_events) /\ NoDup l /\
    (forall q, In q l <-> In q p.(p_events) /\ q <> 0) /\
    all_registered p.(p_name) p.(p_options) fd l p.(p_tracepoints) p'.(p_tracepoints).
Proof.
  destruct (data_file_kept file) as (fd & shared & Hget & Hkept). exists fd, shared.
  unfold Provider_register. rewrite Hbusy. destruct (Z.ltb_spec 0 (len p.(p_events))) as [Hlen|Hlen].
  - destruct (fix_up_ok _ Haddr) as (l & k & -> & Hl & Hnd & _ & Hin). cbn [mbind outcome_bind].
    destruct (register_events_ok p.(p_name) p.(p_options) fd shared l k CommandString_new file 0 p.(p_tracepoints))
      as (ts' & -> & Ha); [done|done|done|by intros [_ ?]%Hin| |done|done|].
    { intros q [Hq Hq0]%Hin. by apply Hts. }
    eexists l, k, _, _. split; [done|]. split; [|split; [reflexivity|]].
    + by destruct l.
    + cbn. split_and!; try done. by rewrite length_app, repeat_length.
  - exists [], O. eexists _, _. split; [done|]. split; [done|]. split; [reflexivity|]. cbn.
    destruct (p_events p) as [|x es]; [|unfold len in Hlen; cbn in Hlen; lia].
    split_and!; try done; [constructor|cbn; tauto].
Qed.
End Register.

Definition example_tracepoint (level keyword : Z) : EventHeaderTracepoint :=
  EventHeaderTracepoint_new (EventHeader_from_parts 7 0 0 0 0 level) keyword [].
Definition example_provider : Provider :=
  {| p_name := [80]; p_options := []; p_events := [0; 16; 32; 16]; p_busy := false;
     p_tracepoints := {[ 16 := example_tracepoint 4 1; 32 := example_tracepoint 5 2 ]} |}.

(** Both tracepoints get the index 7 that the kernel of the example answers. *)
Lemma provider_register_all_witness :
  exists file' p',
    @Provider_register example_kernel EAGAIN_ERROR example_provider = Ret (0, file', p') /\
    p'.(p_busy) = false /\
    (forall q, In q [16; 32] -> exists t, p'.(p_tracepoints) !! q = Some t /\ t.(ht_state).(write_index) = 7).
Proof.
  destruct (@provider_register_all example_kernel example_kernel_ok EAGAIN_ERROR example_provider)
    as (fd & shared & l & k & file' & p' & Hget & _ & E & Hb & _ & _ & _ & Hin & _ & Hl).
  - reflexivity.
  - split_and!; [repeat constructor|constructor|vm_compute; discriminate].
  - repeat constructor; lia.
  - cbn. intros q [<-|[<-|[<-|[<-|[]]]]] Hq; try done; eexists; (split; [reflexivity|]);
      (split_and!; [reflexivity|unfold in_width; cbn; lia|unfold in_width; cbn; lia]).
  - assert (Efd : fd = 5) by (vm_compute in Hget; congruence). subst fd.
    exists file', p'. split; [|split; [exact Hb|]].
    + rewrite E. do 3 f_equal. assert (Hz : forall q, @reply_error example_kernel [80] [] 5
        example_provider.(p_tracepoints) q = 0).
      { intros q. unfold reply_error. destruct (_ !! q); reflexivity. }
      clear -Hz. cbn [p_name p_options example_provider] in *.
      induction l as [|q l IH]; [reflexivity|]. cbn [map first_error]. rewrite Hz. exact IH.
    + intros q Hq. destruct (Hl q) as (t & _ & Et).
      { apply Hin. cbn. destruct Hq as [<-|[<-|[]]]; split; try lia; tauto. }
      eexists. split; [exact Et|]. reflexivity.
Defined.

(** C30. The in-place repair of the linker-made list of tracepoints, which may hold
    null pointers and duplicates in any order: it stays in bounds, and leaves every
    tracepoint of the list exactly once, in descending order of address, followed
    only by null pointers, so the loops that stop at the first null pointer see
    each of them once. *)
Theorem tracepoint_list_repaired events (Haddr : Forall (fun p => 0 <= p) events) :
  exists l k, fix_up events = Ret (l ++ repeat 0 k) /\
    (length l + k = length events)%nat /\ NoDup l /\ StronglySorted Z.gt l /\
    (forall p, In p l <-> In p events /\ p <> 0).
Proof. by apply fix_up_ok. Qed.

Lemma tracepoint_list_repaired_witness :
  exists l k, fix_up [0; 16; 32; 0; 16] = Ret (l ++ repeat 0 k) /\ NoDup l.
Proof.
  destruct (tracepoint_list_repaired [0; 16; 32; 0; 16] ltac:(repeat constructor; lia)) as (l & k & H1 & _ & H2 & _).
  exists l, k. split; [exact H1|exact H2].
Defined.
