(* ===== verification/DynProvider.v ===== *)
(** * DynProvider: the dynamic provider and its event sets
    (eventheader_dynamic/src/provider.rs)

    An [Arc<EventSet>] is an index into a heap of event sets, so a set that the
    caller keeps is the one that the provider registers and unregisters.  The
    [BTreeSet] is the list of its elements in ascending key order. *)

From S2P Require Import Prelude Types ByteReader Tracepoint.
From S2P Require Import Provider.

(* eventheader_dynamic/src/provider.rs: is_option_val_char *)
Definition is_option_val_char (ch : Z) : bool :=
  ((48 <=? ch) && (ch <=? 57)) || ((97 <=? ch) && (ch <=? 122)).

(* eventheader_dynamic/src/provider.rs: ProviderOptions::is_valid_option_value *)
Definition is_valid_option_value (value : bytes) : bool := forallb is_option_val_char value.

(* eventheader_dynamic/src/provider.rs: struct ProviderOptions *)
Record ProviderOptions := { group_name : bytes }.

(* eventheader_dynamic/src/provider.rs: ProviderOptions::new *)
Definition ProviderOptions_new : ProviderOptions := {| group_name := [] |}.

(* eventheader_dynamic/src/provider.rs: ProviderOptions::group_name *)
Definition ProviderOptions_group_name (name : bytes) (o : ProviderOptions) : outcome ProviderOptions :=
  _ ← rassert (is_valid_option_value name);
  Ret {| group_name := name |}.

(* eventheader_dynamic/src/provider.rs: struct EventSetKey *)
Record EventSetKey := { key_keyword : Z; key_level : Z }.

(* eventheader_dynamic/src/provider.rs: EventSetKey::cmp *)
Definition key_cmp (a b : EventSetKey) : comparison :=
  match Z.compare a.(key_level) b.(key_level) with
  | Eq => Z.compare a.(key_keyword) b.(key_keyword)
  | level_ordering => level_ordering
  end.

(* eventheader_dynamic/src/provider.rs: struct EventSet *)
Record EventSet := { es_state : TracepointState; es_key : EventSetKey; es_errno : Z }.

(* eventheader_dynamic/src/provider.rs: EventSet::new *)
Definition EventSet_new (enable_status level keyword : Z) : EventSet :=
  {| es_state := TracepointState_new enable_status;
     es_key := {| key_keyword := keyword; key_level := level |}; es_errno := 0 |}.

(* eventheader_dynamic/src/provider.rs: EventSet::new_unregistered *)
Definition EventSet_new_unregistered : EventSet :=
  {| es_state := TracepointState_new 0; es_key := {| key_keyword := 0; key_level := 0 |};
     es_errno := 22 |}.

(* eventheader_dynamic/src/provider.rs: EventSet::level *)
Definition EventSet_level (s : EventSet) : Z := s.(es_key).(key_level).
(* eventheader_dynamic/src/provider.rs: EventSet::enabled *)
Definition EventSet_enabled (s : EventSet) : bool := TracepointState_enabled s.(es_state).

Definition set_es_state (st : TracepointState) (s : EventSet) : EventSet :=
  {| es_state := st; es_key := s.(es_key); es_errno := s.(es_errno) |}.

(* eventheader_dynamic/src/provider.rs: struct Provider *)
Record DynProvider := {
  dp_name : bytes;
  dp_options : bytes;
  dp_sets : list (EventSetKey * nat);
}.

(** ** The sorted set *)

(** [BTreeSet::get]. *)
Fixpoint sets_get (k : EventSetKey) (sets : list (EventSetKey * nat)) : option nat :=
  match sets with
  | [] => None
  | (k', i) :: sets => match key_cmp k k' with Eq => Some i | _ => sets_get k sets end
  end.

(** [BTreeSet::insert]; an equal element stays. *)
Fixpoint sets_insert (k : EventSetKey) (i : nat) (sets : list (EventSetKey * nat))
  : list (EventSetKey * nat) :=
  match sets with
  | [] => [(k, i)]
  | (k', j) :: rest =>
    match key_cmp k k' with
    | Lt => (k, i) :: sets
    | Eq => sets
    | Gt => (k', j) :: sets_insert k i rest
    end
  end.

(** ** The provider *)

(* eventheader_dynamic/src/provider.rs: Provider::new *)
Definition DynProvider_new (name : bytes) (o : ProviderOptions) : outcome DynProvider :=
  _ ← rassert (len name + len o.(group_name) <? EVENTHEADER_NAME_MAX - 22);
  _ ← rassert (negb (existsb (fun b => b =? 0) name));
  _ ← rassert (negb (existsb (fun b => b =? 32) name));
  _ ← rassert (negb (existsb (fun b => b =? 58) name));
  Ret {| dp_name := name;
         dp_options := if len o.(group_name) =? 0 then [] else 71 :: o.(group_name);
         dp_sets := [] |}.

(* eventheader_dynamic/src/provider.rs: Provider::find_set *)
Definition find_set (level keyword : Z) (p : DynProvider) : option nat :=
  sets_get {| key_keyword := keyword; key_level := level |} p.(dp_sets).

Definition with_sets (sets : list (EventSetKey * nat)) (p : DynProvider) : DynProvider :=
  {| dp_name := p.(dp_name); dp_options := p.(dp_options); dp_sets := sets |}.

(** A new event set goes to the end of the heap. *)
Definition add_set (s : EventSet) (p : DynProvider) (heap : list EventSet) : nat * DynProvider * list EventSet :=
  (length heap, with_sets (sets_insert s.(es_key) (length heap) p.(dp_sets)) p, heap ++ [s]).

(* eventheader_dynamic/src/provider.rs: Provider::create_unregistered *)
Definition create_unregistered (enabled : bool) (level keyword : Z) (p : DynProvider)
    (heap : list EventSet) : nat * DynProvider * list EventSet :=
  match find_set level keyword p with
  | Some i => (i, p, heap)
  | None => add_set (EventSet_new (if enabled then 1 else 0) level keyword) p heap
  end.

Section Operations.
Context `{UserEvents}.

(** The shared file, the provider and the heap are threaded through. *)
(* eventheader_dynamic/src/provider.rs: Provider::register_set *)
Definition register_set (level keyword : Z) (file : Z) (p : DynProvider) (heap : list EventSet)
  : outcome (nat * Z * DynProvider * list EventSet) :=
  match find_set level keyword p with
  | Some i => Ret (i, file, p, heap)
  | None =>
    let s := EventSet_new 0 level keyword in
    '(name_args, _) ← CommandString_format p.(dp_name) p.(dp_options) level keyword CommandString_new;
    '(err, file, st) ← TracepointState_register file name_args s.(es_state);
    let '(i, p, heap) := add_set {| es_state := st; es_key := s.(es_key); es_errno := err |} p heap in
    Ret (i, file, p, heap)
  end.

(* eventheader_dynamic/src/provider.rs:101-103: Provider::unregister, the loop *)
Fixpoint unregister_sets (file : Z) (sets : list (EventSetKey * nat)) (heap : list EventSet)
  : outcome (list EventSet) :=
  match sets with
  | [] => Ret heap
  | (_, i) :: sets =>
    s ← index heap (Z.of_nat i);
    '(_, st) ← TracepointState_unregister file s.(es_state);
    heap ← store heap (Z.of_nat i) (set_es_state st s);
    unregister_sets file sets heap
  end.

(* eventheader_dynamic/src/provider.rs: Provider::unregister *)
Definition DynProvider_unregister (file : Z) (p : DynProvider) (heap : list EventSet)
  : outcome (DynProvider * list EventSet) :=
  heap ← unregister_sets file p.(dp_sets) heap;
  Ret (with_sets [] p, heap).
End Operations.
