(* ===== verification/DynProviderProps.v ===== *)
(** * DynProviderProps: event sets are registered once and found again

    The sorted set keeps one event set per level and keyword; [register_set]
    registers each of them once under its own name; [unregister] leaves none
    registered. *)

From stdpp Require Import gmap sorting.
From S2P Require Import Prelude Types ByteReader Tracepoint TracepointProps.
From S2P Require Import PerfItem Enumerator Provider ProviderProps DynProvider.

(** ** Keys *)

Lemma key_cmp_eq a b : key_cmp a b = Eq <-> a = b.
Proof.
  destruct a as [ka la], b as [kb lb]. unfold key_cmp. cbn. destruct (Z.compare_spec la lb) as [->| |].
  - rewrite Z.compare_eq_iff. split; [by intros ->|by intros [= ->]].
  - split; [done|]. intros [= _ ->]. lia.
  - split; [done|]. intros [= _ ->]. lia.
Qed.

Definition key_lt (a b : EventSetKey) : Prop := key_cmp a b = Lt.

Lemma key_lt_spec a b :
  key_lt a b <-> a.(key_level) < b.(key_level) \/
                 (a.(key_level) = b.(key_level) /\ a.(key_keyword) < b.(key_keyword)).
Proof.
  unfold key_lt, key_cmp. destruct (Z.compare_spec a.(key_level) b.(key_level)) as [->|?|?].
  - rewrite Z.compare_lt_iff. lia.
  - split; [|done]. lia.
  - split; [done|]. lia.
Qed.

Lemma key_cmp_gt a b : key_cmp a b = Gt -> key_lt b a.
Proof.
  rewrite key_lt_spec. unfold key_cmp. destruct (Z.compare_spec a.(key_level) b.(key_level)) as [->|?|?]; [|done|lia].
  rewrite Z.compare_gt_iff. lia.
Qed.

Lemma key_lt_trans a b c : key_lt a b -> key_lt b c -> key_lt a c.
Proof. rewrite !key_lt_spec. lia. Qed.

Lemma key_lt_irrefl a : ~ key_lt a a.
Proof. rewrite key_lt_spec. lia. Qed.

(** ** The sorted set *)

Definition sorted_sets (sets : list (EventSetKey * nat)) : Prop :=
  StronglySorted key_lt (map fst sets).

Lemma sets_get_in k i sets : sets_get k sets = Some i -> In (k, i) sets.
Proof.
  induction sets as [|[k' j] sets IH]; cbn; [done|]. destruct (key_cmp k k') eqn:E.
  - intros [= ->]. apply key_cmp_eq in E as ->. by left.
  - intros H. right. by apply IH.
  - intros H. right. by apply IH.
Qed.

Lemma sets_get_none k sets : sets_get k sets = None -> ~ In k (map fst sets).
Proof.
  induction sets as [|[k' j] sets IH]; cbn; [by intros _ []|]. destruct (key_cmp k k') eqn:E; [done| |];
    (intros H [Heq|Hin]; [|by apply (IH H)]); symmetry in Heq; apply key_cmp_eq in Heq; congruence.
Qed.

Lemma in_sets_insert k i sets x :
  ~ In k (map fst sets) -> (In x (sets_insert k i sets) <-> x = (k, i) \/ In x sets).
Proof.
  induction sets as [|[k' j] sets IH]; cbn; intros Hk; [firstorder congruence|].
  destruct (key_cmp k k') eqn:E.
  - apply key_cmp_eq in E as ->. tauto.
  - cbn. firstorder congruence.
  - cbn. rewrite IH by tauto. firstorder congruence.
Qed.

Lemma sets_insert_sorted k i sets :
  sorted_sets sets -> ~ In k (map fst sets) -> sorted_sets (sets_insert k i sets).
Proof.
  unfold sorted_sets. induction sets as [|[k' j] sets IH]; cbn [map fst sets_insert]; intros Hs Hk.
  - repeat constructor.
  - assert (Hk' : ~ In k (map fst sets)) by (intros ?; apply Hk; by right).
    apply StronglySorted_inv in Hs as [Hs Hf]. destruct (key_cmp k k') eqn:E.
    + by constructor.
    + cbn [map fst]. constructor; [by constructor|]. constructor; [done|].
      eapply List.Forall_impl; [|exact Hf]. intros a. by apply key_lt_trans.
    + cbn [map fst] in *. constructor; [by apply IH|]. apply List.Forall_forall. intros a Ha.
      apply in_map_iff in Ha as ([a' ia] & <- & Ha). apply in_sets_insert in Ha; [|done].
      destruct Ha as [[= -> ->]|Ha]; [by apply key_cmp_gt|].
      apply (List.Forall_forall _ _) with (x := a') in Hf; [done|]. apply in_map_iff. by exists (a', ia).
Qed.

Lemma sets_get_insert k i sets :
  ~ In k (map fst sets) -> sets_get k (sets_insert k i sets) = Some i.
Proof.
  induction sets as [|[k' j] sets IH]; cbn; intros Hk; [by rewrite (proj2 (key_cmp_eq k k) eq_refl)|].
  destruct (key_cmp k k') eqn:E.
  - apply key_cmp_eq in E as ->. tauto.
  - cbn. by rewrite (proj2 (key_cmp_eq k k) eq_refl).
  - cbn. rewrite E. apply IH. tauto.
Qed.

Lemma sets_get_insert_ne k k' i sets :
  k <> k' -> sets_get k' (sets_insert k i sets) = sets_get k' sets.
Proof.
  intros Hne. induction sets as [|[k2 j] sets IH]; cbn.
  - destruct (key_cmp k' k) eqn:E; try done. by apply key_cmp_eq in E as ->.
  - destruct (key_cmp k k2) eqn:E; cbn; try done.
    + destruct (key_cmp k' k) eqn:E2; try done. by apply key_cmp_eq in E2 as ->.
    + by rewrite IH.
Qed.

(** ** The provider's invariant *)

(** A state that is at rest: not between two swaps. *)
Definition at_rest (s : TracepointState) : Prop :=
  unregistered s \/ 0 <= s.(write_index) <= HIGHEST_VALID_WRITE_INDEX.

Record DynInv (p : DynProvider) (heap : list EventSet) : Prop := {
  di_names : names_ok p.(dp_name) p.(dp_options);
  di_sorted : sorted_sets p.(dp_sets);
  di_heap : forall k i, In (k, i) p.(dp_sets) ->
              exists s, heap !! i = Some s /\ s.(es_key) = k /\ at_rest s.(es_state);
  di_one : forall k1 k2 i, In (k1, i) p.(dp_sets) -> In (k2, i) p.(dp_sets) -> k1 = k2;
}.

Lemma add_set_inv s p heap :
  DynInv p heap -> at_rest s.(es_state) -> find_set s.(es_key).(key_level) s.(es_key).(key_keyword) p = None ->
  let '(i, p', heap') := add_set s p heap in
  DynInv p' heap' /\ heap' = heap ++ [s] /\ i = length heap /\
  find_set s.(es_key).(key_level) s.(es_key).(key_keyword) p' = Some i /\
  (forall level keyword, {| key_keyword := keyword; key_level := level |} <> s.(es_key) ->
     find_set level keyword p' = find_set level keyword p).
Proof.
  intros Hp Hs Hnone. unfold add_set, find_set in *. cbn [dp_sets with_sets].
  assert (Ek : {| key_keyword := key_keyword (es_key s); key_level := key_level (es_key s) |} = es_key s)
    by (by destruct (es_key s)).
  rewrite Ek in *. apply sets_get_none in Hnone. split_and!; try done.
  - destruct Hp as [Hn Ho Hh Hone]. split; cbn [dp_name dp_options dp_sets with_sets].
    + done.
    + by apply sets_insert_sorted.
    + intros k i Hin. apply in_sets_insert in Hin; [|done]. destruct Hin as [[= -> ->]|Hin].
      * exists s. by rewrite list_lookup_middle.
      * destruct (Hh k i Hin) as (s' & Es & E). exists s'. split; [|done]. by apply lookup_app_l_Some.
    + intros k1 k2 i H1 H2. apply in_sets_insert in H1; [|done]. apply in_sets_insert in H2; [|done].
      destruct H1 as [[= -> ->]|H1], H2 as [H2|H2]; [by injection H2| | |by apply (Hone k1 k2 i)].
      * destruct (Hh k2 (length heap) H2) as (s' & Es & _). apply lookup_lt_Some in Es. lia.
      * injection H2 as -> ->. destruct (Hh k1 (length heap) H1) as (s' & Es & _). apply lookup_lt_Some in Es. lia.
  - by apply sets_get_insert.
  - intros level keyword Hne. by apply sets_get_insert_ne.
Qed.

Section Register.
Context `{UserEventsOk}.

(** C32. [register_set] never panics on a provider in a consistent state.  It returns
    the event set of that level and keyword, which [find_set] finds from then on;
    sets that exist already, in this provider or not, keep their place and state; a
    second call returns the same set and registers nothing; and a set created by
    the call is either registered, with error 0, or unregistered with the error. *)
Theorem register_set_once level keyword file p heap
    (Hp : DynInv p heap) (Hlevel : in_width 8 level) (Hkeyword : in_width 64 keyword) :
  exists i file' p' heap', register_set level keyword file p heap = Ret (i, file', p', heap') /\
    DynInv p' heap' /\ find_set level keyword p' = Some i /\
    (forall j s, heap !! j = Some s -> heap' !! j = Some s) /\
    (forall l k, (l, k) <> (level, keyword) -> find_set l k p' = find_set l k p) /\
    (forall f, register_set level keyword f p' heap' = Ret (i, f, p', heap')) /\
    (find_set level keyword p = None ->
       exists s, heap' !! i = Some s /\ s.(es_key) = {| key_keyword := keyword; key_level := level |} /\
                 registration_result s.(es_errno) s.(es_state)).
Proof.
  unfold register_set at 1. destruct (find_set level keyword p) as [i|] eqn:E.
  - exists i, file, p, heap. split_and!; try done. intros f. unfold register_set. by rewrite E.
  - destruct (di_names _ _ Hp) as (N1 & N2 & N3).
    destruct (CommandString_format_ok _ _ level keyword CommandString_new N1 N2 N3 Hlevel Hkeyword eq_refl)
      as (b' & -> & _). cbn [mbind outcome_bind].
    destruct (TracepointState_register_ok file (command_text (dp_name p) (dp_options p) level keyword)
                (es_state (EventSet_new 0 level keyword)) eq_refl) as (err & file' & st & -> & Hr & _).
    cbn [mbind outcome_bind]. set (s := {| es_state := st; es_key := _; es_errno := err |}).
    assert (Hs : at_rest st) by (destruct Hr as [[_ ?]|[_ ?]]; [by right|by left]).
    pose proof (add_set_inv s p heap Hp Hs E) as Ha. destruct (add_set s p heap) as [[i p'] heap'].
    destruct Ha as (Hp' & -> & -> & Hf & Hother). cbn in Hf.
    exists (length heap), file', p', (heap ++ [s]). split_and!; try done.
    + intros j s' Hj. by apply lookup_app_l_Some.
    + intros l k Hne. apply Hother. cbn. intros [= -> ->]. done.
    + intros f. unfold register_set. by rewrite Hf.
    + intros _. exists s. by rewrite list_lookup_middle.
Qed.

Lemma TracepointState_unregister_ok file s :
  at_rest s ->
  exists err s', TracepointState_unregister file s = Ret (err, s') /\ unregistered s' /\
    s'.(enable_status) = s.(enable_status).
Proof.
  intros Hs. unfold TracepointState_unregister, unregister_begin, swap_index.
  assert (Hb : s.(write_index) <> BUSY_WRITE_INDEX).
  { unfold at_rest, unregistered, UNREGISTERED_WRITE_INDEX, HIGHEST_VALID_WRITE_INDEX, BUSY_WRITE_INDEX in *. lia. }
  rewrite (proj2 (Z.eqb_neq _ _) Hb). destruct (write_index s =? UNREGISTERED_WRITE_INDEX).
  - cbn. eexists _, _. by split_and!.
  - unfold unregister_call. pose proof (unreg_ok (UserEventsDataFile_peek file)) as Hu.
    destruct (linux_unreg _) as [|eno].
    + cbn. eexists _, _. by split_and!.
    + specialize (Hu eno eq_refl). unfold get_failure_errno. rewrite (proj2 (Z.ltb_lt _ _)) by done. cbn.
      eexists _, _. by split_and!.
Qed.

Lemma unregister_sets_ok file sets heap :
  sorted_sets sets ->
  (forall k i, In (k, i) sets -> exists s, heap !! i = Some s /\ s.(es_key) = k /\ at_rest s.(es_state)) ->
  exists heap', unregister_sets file sets heap = Ret heap' /\ length heap' = length heap /\
    (forall i, ~ In i (map snd sets) -> heap' !! i = heap !! i) /\
    (forall i, In i (map snd sets) -> exists s st, heap !! i = Some s /\ heap' !! i = Some (set_es_state st s) /\
       unregistered st).
Proof.
  revert heap. induction sets as [|[k i] sets IH]; intros heap Hso Hs.
  - by exists heap.
  - cbn [unregister_sets]. destruct (Hs k i (or_introl eq_refl)) as (s & Es & Ek & Hr).
    unfold index. destruct (Z.ltb_spec (Z.of_nat i) 0); [lia|]. rewrite Nat2Z.id, Es. cbn [mbind outcome_bind].
    destruct (TracepointState_unregister_ok file (es_state s) Hr) as (err & st & -> & Hu & _).
    cbn [mbind outcome_bind]. pose proof (lookup_lt_Some _ _ _ Es) as Hlt. unfold store, len.
    replace ((0 <=? Z.of_nat i) && (Z.of_nat i <? Z.of_nat (length heap))) with true by (symmetry; bool_solve).
    rewrite Nat2Z.id. cbn [mbind outcome_bind]. unfold sorted_sets in Hso. cbn [map fst] in Hso.
    apply StronglySorted_inv in Hso as [Hso Hf].
    assert (Hni : ~ In i (map snd sets)).
    { intros Hi. apply in_map_iff in Hi as ([k2 i2] & E2 & Hi). cbn in E2. subst i2.
      destruct (Hs k2 i (or_intror Hi)) as (s2 & Es2 & Ek2 & _). assert (k2 = k) as -> by congruence.
      apply (List.Forall_forall _ _) with (x := k) in Hf; [by apply key_lt_irrefl in Hf|].
      apply in_map_iff. by exists (k, i). }
    destruct (IH (<[i:=set_es_state st s]> heap) Hso) as (heap' & -> & Hl & Hout & Hin).
    { intros k2 i2 H2. destruct (Hs k2 i2 (or_intror H2)) as (s2 & Es2 & Hk2).
      exists s2. rewrite list_lookup_insert_ne; [done|]. intros ->. apply Hni, in_map_iff. by exists (k2, i2). }
    exists heap'. rewrite length_insert in Hl. split_and!; [done|done| |].
    + intros j Hj. cbn in Hj. rewrite Hout by tauto. apply list_lookup_insert_ne. tauto.
    + intros j Hj. cbn in Hj. destruct Hj as [<-|Hj].
      * exists s, st. rewrite Hout by done. by rewrite list_lookup_insert_eq.
      * destruct (Hin j Hj) as (s2 & st2 & E1 & E2 & E3). exists s2, st2. split; [|done].
        rewrite list_lookup_insert_ne in E1; [done|]. by intros ->.
Qed.

(** [unregister] never panics, drops every event set from the provider, and
    leaves each of them unregistered, with its key and error unchanged, for every
    caller that still holds it; other event sets are untouched. *)
Theorem dyn_unregister_all file p heap (Hp : DynInv p heap) :
  exists p' heap', DynProvider_unregister file p heap = Ret (p', heap') /\
    p'.(dp_sets) = [] /\ DynInv p' heap' /\ length heap' = length heap /\
    (forall i, ~ In i (map snd p.(dp_sets)) -> heap' !! i = heap !! i) /\
    (forall i, In i (map snd p.(dp_sets)) -> exists s st, heap !! i = Some s /\
       heap' !! i = Some (set_es_state st s) /\ unregistered st).
Proof.
  unfold DynProvider_unregister.
  destruct (unregister_sets_ok file p.(dp_sets) heap (di_sorted _ _ Hp) (di_heap _ _ Hp))
    as (heap' & -> & Hl & Hout & Hin). cbn [mbind outcome_bind].
  eexists _, heap'. split_and!; [reflexivity|done| |done|done|done].
  split; cbn; [apply (di_names _ _ Hp)|constructor|intros k i []|intros k1 k2 i []].
Qed.
End Register.

Lemma value_char_option c : is_option_val_char c = value_char c.
Proof. reflexivity. Qed.

Lemma is_option_value_no_nul v : is_valid_option_value v = true -> no_nul v.
Proof.
  unfold is_valid_option_value, no_nul. rewrite forallb_forall, List.Forall_forall. intros H c Hc.
  specialize (H c Hc). unfold is_option_val_char in H. destruct (Z.eqb_spec c 0) as [->|]; done.
Qed.

Lemma existsb_no_nul l : negb (existsb (fun b => b =? 0) l) = true -> no_nul l.
Proof.
  intros H%negb_true_iff. apply List.Forall_forall. intros c Hc. apply not_true_is_false. intros E.
  assert (existsb (fun b => b =? 0) l = true); [|congruence]. apply existsb_exists. by exists c.
Qed.

(** C33. Every provider that [new] accepts, with a group name that [group_name]
    accepts, starts in a consistent state without event sets; and for every level
    and keyword its command string declares a tracepoint name from which the
    decoder reads that level and keyword. *)
Theorem dyn_provider_names name group o p level keyword c
    (Ho : ProviderOptions_group_name group ProviderOptions_new = Ret o)
    (Hp : DynProvider_new name o = Ret p)
    (Hlevel : in_width 8 level) (Hkeyword : in_width 64 keyword)
    (Hheader : c.(header).(eh_level) = level) :
  DynInv p [] /\
  exists t b, CommandString_format p.(dp_name) p.(dp_options) level keyword CommandString_new = Ret (t, b) /\
    exists n, t = n ++ [32] ++ EVENTHEADER_COMMAND_TYPES ++ [0] /\ len n < EVENT_HEADER_TRACEPOINT_NAME_MAX /\
      parse_tracepoint_name n c = Ret (Ok tt, set_keyword keyword c).
Proof.
  unfold ProviderOptions_group_name in Ho. destruct (is_valid_option_value group) eqn:Eg; [|done].
  injection Ho as <-. unfold DynProvider_new in Hp. cbn [group_name] in Hp.
  destruct (len name + len group <? EVENTHEADER_NAME_MAX - 22) eqn:El; [|done]. cbn [rassert mbind outcome_bind] in Hp.
  destruct (negb (existsb (fun b => b =? 0) name)) eqn:En; [|done]. cbn [rassert mbind outcome_bind] in Hp.
  destruct (negb (existsb (fun b => b =? 32) name)); [|done]. cbn [rassert mbind outcome_bind] in Hp.
  destruct (negb (existsb (fun b => b =? 58) name)); [|done]. cbn [rassert mbind outcome_bind] in Hp.
  injection Hp as <-. cbn [dp_name dp_options].
  assert (Hattrs : exists attrs, (if len group =? 0 then [] else 71 :: group) = attributes attrs /\ attributes_ok attrs).
  { destruct (len group =? 0); [exists []; split; [done|constructor]|]. exists [(71, group)]. cbn. rewrite app_nil_r. split; [done|].
    constructor; [|constructor]. split; [done|]. exact Eg. }
  destruct Hattrs as (attrs & Ea & Hattrs). apply Z.ltb_lt in El.
  assert (Hn : names_ok name (attributes attrs)).
  { split_and!; [by apply existsb_no_nul| |].
    - rewrite <- Ea. case_match; [constructor|]. constructor; [done|]. by apply is_option_value_no_nul.
    - rewrite <- Ea. pose proof (len_nonneg group). case_match; rewrite ?len_cons, ?len_nil; lia. }
  rewrite Ea. split.
  - split; cbn; [done|constructor|intros k i []|intros k1 k2 i []].
  - destruct Hn as (N1 & N2 & N3).
    destruct (CommandString_format_ok name (attributes attrs) level keyword CommandString_new N1 N2 N3 Hlevel Hkeyword eq_refl)
      as (b' & E & _).
    eexists _, b'. split; [exact E|]. eexists. split; [reflexivity|]. split.
    + by apply tracepoint_name_short.
    + by apply tracepoint_name_parses.
Qed.

(** Witnesses: a provider ["P"] in group ["g1"]. *)
Definition example_dyn : DynProvider := {| dp_name := [80]; dp_options := [71; 103; 49]; dp_sets := [] |}.

Lemma example_dyn_inv : DynInv example_dyn [].
Proof.
  split; cbn; [split_and!; [repeat constructor|repeat constructor|vm_compute; discriminate]|constructor
    |intros k i []|intros k1 k2 i []].
Qed.

Lemma register_set_once_witness :
  exists i file' p' heap', @register_set example_kernel 5 0x1F EAGAIN_ERROR example_dyn [] = Ret (i, file', p', heap') /\
    find_set 5 0x1F p' = Some i.
Proof.
  destruct (@register_set_once example_kernel example_kernel_ok 5 0x1F EAGAIN_ERROR example_dyn [] example_dyn_inv
    ltac:(unfold in_width; lia) ltac:(unfold in_width; lia)) as (i & f & p' & h & H1 & _ & H2 & _).
  exists i, f, p', h. split; [exact H1|exact H2].
Defined.

Lemma dyn_unregister_all_witness :
  exists p' heap', @DynProvider_unregister example_kernel 5 example_dyn [] = Ret (p', heap') /\ p'.(dp_sets) = [].
Proof.
  destruct (@dyn_unregister_all example_kernel example_kernel_ok 5 example_dyn [] example_dyn_inv)
    as (p' & h & H1 & H2 & _).
  exists p', h. split; [exact H1|exact H2].
Defined.

Lemma dyn_provider_names_witness :
  DynProvider_new [80] {| group_name := [103; 49] |} = Ret example_dyn /\ DynInv example_dyn [].
Proof.
  split; [reflexivity|].
  exact (proj1 (dyn_provider_names [80] [103; 49] {| group_name := [103; 49] |} example_dyn 5 0x1F
    (set_header (EventHeader_from_parts 7 0 0 0 0 5) EventHeaderEnumeratorContext_new)
    eq_refl eq_refl ltac:(unfold in_width; lia) ltac:(unfold in_width; lia) eq_refl)).
Defined.
