(* ===== verification/EventBytes.v ===== *)
(** * EventBytes: where an event holds what

    [holds_at ed p l]: the bytes [l] are in the event [ed] at offset [p].  With the
    layout of an event given by such facts, the reads of the enumerator are
    computed by rewriting. *)

From S2P Require Import Prelude Types ByteReader PerfItem Enumerator.

Definition holds_at (ed : bytes) (p : Z) (l : bytes) : Prop :=
  0 <= p /\ p + len l <= len ed /\ sub ed p (p + len l) = l.

Section Event.
Context (ed : bytes).
Implicit Types l : bytes.

Lemma holds_at_intro pre l post : ed = pre ++ l ++ post -> holds_at ed (len pre) l.
Proof.
  intros ->. pose proof (len_nonneg pre). pose proof (len_nonneg l). pose proof (len_nonneg post).
  split_and!; [done|autorewrite with tp_simpl; lia|].
  unfold sub. rewrite Z.add_simpl_l. unfold len. rewrite !Nat2Z.id.
  by rewrite drop_app_length, take_app_length.
Qed.

Lemma holds_at_take p l1 l2 : holds_at ed p (l1 ++ l2) -> holds_at ed p l1.
Proof.
  intros (H1 & H2 & H3). pose proof (len_nonneg l1). pose proof (len_nonneg l2).
  rewrite len_app in *. split_and!; [done|lia|].
  apply (f_equal (take (length l1))) in H3. rewrite take_app_length in H3. rewrite <- H3 at 2.
  unfold sub. rewrite take_take. f_equal. unfold len in *. lia.
Qed.

Lemma holds_at_drop p l1 l2 : holds_at ed p (l1 ++ l2) -> holds_at ed (p + len l1) l2.
Proof.
  intros (H1 & H2 & H3). pose proof (len_nonneg l1). pose proof (len_nonneg l2).
  rewrite len_app in *. split_and!; [lia|lia|].
  apply (f_equal (drop (length l1))) in H3. rewrite drop_app_length in H3. rewrite <- H3 at 2.
  unfold sub, len in *. rewrite !skipn_firstn_comm, drop_drop. f_equal; [lia|]. f_equal. lia.
Qed.

Lemma holds_at_app p l1 l2 :
  holds_at ed p (l1 ++ l2) -> holds_at ed p l1 /\ holds_at ed (p + len l1) l2.
Proof. split; [by eapply holds_at_take|by apply holds_at_drop]. Qed.

Lemma holds_at_join p l1 l2 : holds_at ed p l1 -> holds_at ed (p + len l1) l2 -> holds_at ed p (l1 ++ l2).
Proof.
  intros (A1 & A2 & A3) (B1 & B2 & B3). pose proof (len_nonneg l1). pose proof (len_nonneg l2).
  rewrite <- Z.add_assoc, <- len_app in *. split_and!; [done|done|].
  rewrite <- A3, <- B3 at 2. unfold sub. rewrite len_app, !Z.add_simpl_l.
  replace (p + (len l1 + len l2) - (p + len l1)) with (len l2) by lia.
  rewrite !Z2Nat.inj_add by lia. rewrite <- drop_drop. symmetry. apply take_take_drop.
Qed.

Lemma holds_at_cons p x l : holds_at ed p (x :: l) -> holds_at ed p [x] /\ holds_at ed (p + 1) l.
Proof. apply (holds_at_app p [x] l). Qed.

Lemma holds_slice p q l : holds_at ed p l -> q = p + len l -> slice ed p q = Ret l.
Proof. intros (H1 & H2 & H3) ->. pose proof (len_nonneg l). rewrite slice_ok by lia. by rewrite H3. Qed.

Lemma holds_sub p l : holds_at ed p l -> sub ed p (p + len l) = l.
Proof. by intros (_ & _ & ?). Qed.

Lemma holds_bounds p l : holds_at ed p l -> 0 <= p /\ p + len l <= len ed.
Proof. by intros (? & ? & _). Qed.

Lemma holds_index p x l : holds_at ed p (x :: l) -> index ed p = Ret x.
Proof.
  intros (H1 & H2 & H3). pose proof (len_nonneg l). rewrite len_cons in *.
  rewrite index_byte_at by lia. f_equal. unfold sub in H3.
  replace (Z.to_nat (p + (1 + len l) - p)) with (S (Z.to_nat (len l))) in H3 by lia.
  unfold byte_at. apply nth_lookup_Some. rewrite <- (Nat.add_0_r (Z.to_nat p)), <- lookup_drop.
  destruct (drop (Z.to_nat p) ed); [done|]. cbn in H3. by injection H3 as -> _.
Qed.

Lemma holds_read_uint n r p v :
  holds_at ed p (to_source_bytes r n v) -> 0 <= v < 256 ^ Z.of_nat n ->
  (src ← slice_from ed p; read_uint (Z.of_nat n) r src) = Ret v.
Proof.
  intros (H1 & H2 & H3) Hv. unfold slice_from.
  assert (Hl : len (to_source_bytes r n v) = Z.of_nat n) by (unfold len; by rewrite length_to_source_bytes).
  rewrite slice_ok by lia. cbn [mbind outcome_bind].
  rewrite read_uint_ok by (rewrite len_sub; lia). f_equal.
  assert (E : sub (sub ed p (len ed)) 0 (Z.of_nat n) = to_source_bytes r n v).
  { rewrite <- H3. unfold sub, len in *. change (Z.to_nat 0) with 0%nat. rewrite drop_0, take_take. f_equal. lia. }
  rewrite E. by apply from_to_source_bytes.
Qed.

Lemma holds_read_u16 c p v :
  holds_at ed p (to_source_bytes c.(byte_reader) 2 v) -> 0 <= v < 65536 ->
  read_u16_at ed p c = Ret v.
Proof. intros. by apply (holds_read_uint 2 c.(byte_reader) p v). Qed.

(** A scan for NUL stops at the first one. *)
Lemma holds_scan_nul n p name :
  holds_at ed p (name ++ [0]) -> Forall (fun b => (b =? 0) = false) name -> len name < Z.of_nat n ->
  scan_nul ed n p = Ret (p + len name).
Proof.
  intros H Hn. revert n p H. induction Hn as [|b name Hb Hn IH]; intros n p H Hlen.
  - cbn [app] in H. rewrite len_nil, Z.add_0_r in *. destruct n; [lia|]. cbn [scan_nul].
    by rewrite (holds_index p 0 []).
  - cbn [app] in H. rewrite len_cons in *. pose proof (len_nonneg name).
    destruct n; [lia|]. cbn [scan_nul]. rewrite (holds_index p b (name ++ [0])) by done.
    cbn [mbind outcome_bind]. rewrite Hb. apply holds_at_cons in H as [_ H].
    rewrite (IH n (p + 1)) by (done || lia). f_equal. lia.
Qed.
End Event.
