(* ===== verification/Builder.v ===== *)
(** * Builder: building and writing events
    (eventheader_dynamic/src/builder.rs, eventheader/src/_internal.rs)

    A value of a [ValueField] type is its bytes in memory, so the type is the
    number of bytes, and a string is the list of its elements' bytes. *)

From S2P Require Import Prelude Types ByteReader Tracepoint.

(* builder.rs:55-64: ValueFieldEncoding::VALUE_ENCODING *)
Definition VALUE_ENCODING (size_of : Z) : outcome Z :=
  if size_of =? 1 then Ret FieldEncoding_Value8
  else if size_of =? 2 then Ret FieldEncoding_Value16
  else if size_of =? 4 then Ret FieldEncoding_Value32
  else if size_of =? 8 then Ret FieldEncoding_Value64
  else if size_of =? 16 then Ret FieldEncoding_Value128
  else Panic.

(* builder.rs:69-74: StringFieldEncoding::STRING_ENCODING *)
Definition STRING_ENCODING (size_of : Z) : outcome Z :=
  if size_of =? 1 then Ret FieldEncoding_StringLength16Char8
  else if size_of =? 2 then Ret FieldEncoding_StringLength16Char16
  else if size_of =? 4 then Ret FieldEncoding_StringLength16Char32
  else Panic.

(* builder.rs:75-80: StringFieldEncoding::ZSTRING_ENCODING *)
Definition ZSTRING_ENCODING (size_of : Z) : outcome Z :=
  if size_of =? 1 then Ret FieldEncoding_ZStringChar8
  else if size_of =? 2 then Ret FieldEncoding_ZStringChar16
  else if size_of =? 4 then Ret FieldEncoding_ZStringChar32
  else Panic.

(* builder.rs:85-90: BinaryFieldEncoding::BINARY_ENCODING *)
Definition BINARY_ENCODING (size_of : Z) : outcome Z :=
  if size_of =? 1 then Ret FieldEncoding_BinaryLength16Char8 else Panic.

(* builder.rs: struct EventBuilder *)
Record EventBuilder := {
  b_meta : bytes;
  b_data : bytes;
  b_flags : Z;
  b_version : Z;
  b_id : Z;
  b_tag : Z;
  b_opcode : Z;
}.

Definition with_meta (meta : bytes) (b : EventBuilder) : EventBuilder :=
  {| b_meta := meta; b_data := b.(b_data); b_flags := b.(b_flags); b_version := b.(b_version);
     b_id := b.(b_id); b_tag := b.(b_tag); b_opcode := b.(b_opcode) |}.
Definition with_data (data : bytes) (b : EventBuilder) : EventBuilder :=
  {| b_meta := b.(b_meta); b_data := data; b_flags := b.(b_flags); b_version := b.(b_version);
     b_id := b.(b_id); b_tag := b.(b_tag); b_opcode := b.(b_opcode) |}.

(** [str::contains('\0')]. *)
Definition contains_nul (s : bytes) : bool := existsb (fun c => c =? 0) s.

Section Target.
Context `{Target}.

(* builder.rs: EventBuilder::new_with_capacity *)
Definition EventBuilder_new : EventBuilder :=
  {| b_meta := [0]; b_data := []; b_flags := HeaderFlags_DefaultWithExtension; b_version := 0;
     b_id := 0; b_tag := 0; b_opcode := Opcode_Info |}.

(* builder.rs: EventBuilder::reset *)
Definition EventBuilder_reset (name : bytes) (event_tag : Z) (b : EventBuilder) : outcome EventBuilder :=
  _ ← rassert (negb (contains_nul name));
  Ret {| b_meta := name ++ [0]; b_data := []; b_flags := HeaderFlags_DefaultWithExtension;
         b_version := 0; b_id := 0; b_tag := event_tag; b_opcode := Opcode_Info |}.

(* builder.rs: EventBuilder::id_version *)
Definition EventBuilder_id_version (id version : Z) (b : EventBuilder) : EventBuilder :=
  {| b_meta := b.(b_meta); b_data := b.(b_data); b_flags := b.(b_flags); b_version := version;
     b_id := id; b_tag := b.(b_tag); b_opcode := b.(b_opcode) |}.

(* builder.rs: EventBuilder::opcode *)
Definition EventBuilder_opcode (op : Z) (b : EventBuilder) : EventBuilder :=
  {| b_meta := b.(b_meta); b_data := b.(b_data); b_flags := b.(b_flags); b_version := b.(b_version);
     b_id := b.(b_id); b_tag := b.(b_tag); b_opcode := op |}.

(** ** Metadata *)

(* builder.rs: EventBuilder::raw_add_meta *)
Definition raw_add_meta (field_name : bytes) (encoding format field_tag : Z) (b : EventBuilder)
  : outcome EventBuilder :=
  _ ← rassert (negb (contains_nul field_name));
  let meta := b.(b_meta) ++ field_name ++ [0] in
  Ret (with_meta
    (meta ++ if negb (field_tag =? 0)
             then [Z.lor 0x80 encoding; Z.lor 0x80 format] ++ to_ne_bytes 2 field_tag
             else if negb (format =? 0) then [Z.lor 0x80 encoding; format]
             else [encoding]) b).

(* builder.rs: EventBuilder::raw_add_meta_scalar *)
Definition raw_add_meta_scalar (field_name : bytes) (encoding format field_tag : Z)
    (b : EventBuilder) : outcome EventBuilder :=
  _ ← rassert (Z.land encoding FieldEncoding_FlagMask =? 0);
  raw_add_meta field_name encoding format field_tag b.

(* builder.rs: EventBuilder::raw_add_meta_vcount *)
Definition raw_add_meta_vcount (field_name : bytes) (encoding format field_tag : Z)
    (b : EventBuilder) : outcome EventBuilder :=
  _ ← rassert (Z.land encoding FieldEncoding_FlagMask =? 0);
  raw_add_meta field_name (Z.lor encoding FieldEncoding_VArrayFlag) format field_tag b.

(** The check of a struct's field count that three methods share. *)
Definition masked_field_count (count : Z) : outcome Z :=
  let masked := Z.land count FieldFormat_ValueMask in
  _ ← rassert (masked =? count);
  _ ← rassert (negb (masked =? 0));
  Ret masked.

(* builder.rs: EventBuilder::add_struct *)
Definition add_struct (field_name : bytes) (struct_field_count field_tag : Z) (b : EventBuilder)
  : outcome EventBuilder :=
  masked ← masked_field_count struct_field_count;
  raw_add_meta field_name FieldEncoding_Struct masked field_tag b.

(* builder.rs: EventBuilder::add_struct_with_bookmark *)
Definition add_struct_with_bookmark (field_name : bytes) (initial_struct_field_count field_tag : Z)
    (b : EventBuilder) : outcome (Z * EventBuilder) :=
  masked ← masked_field_count initial_struct_field_count;
  b ← raw_add_meta field_name FieldEncoding_Struct masked field_tag b;
  bookmark ← (if field_tag =? 0 then usize (len b.(b_meta) - 1) else usize (len b.(b_meta) - 3));
  Ret (bookmark, b).

(* builder.rs: EventBuilder::set_struct_field_count *)
Definition set_struct_field_count (field_count_bookmark updated_struct_field_count : Z)
    (b : EventBuilder) : outcome EventBuilder :=
  masked ← masked_field_count updated_struct_field_count;
  old ← index b.(b_meta) field_count_bookmark;
  meta ← store b.(b_meta) field_count_bookmark (Z.lor (Z.land old 0x80) masked);
  Ret (with_meta meta b).

(** ** Data *)

(* builder.rs: EventBuilder::raw_add_data_value *)
Definition raw_add_data_value (value : bytes) (b : EventBuilder) : EventBuilder :=
  with_data (b.(b_data) ++ value) b.

(* builder.rs: EventBuilder::raw_add_data_slice *)
Definition raw_add_data_slice (value : list bytes) (b : EventBuilder) : EventBuilder :=
  with_data (b.(b_data) ++ concat value) b.

(** [T::default()] of a [StringField] type and the test for it. *)
Definition zero_element (size_of : Z) : bytes := repeat 0 (Z.to_nat size_of).
Definition is_zero_element (size_of : Z) (e : bytes) : bool := bool_decide (e = zero_element size_of).

(** [nul_pos] and [rest] are the elements before and after the scan position. *)
(* builder.rs: EventBuilder::raw_add_data_cstr *)
Fixpoint raw_add_data_cstr_loop (size_of : Z) (value before rest : list bytes) (b : EventBuilder)
  : EventBuilder :=
  match rest with
  | [] => raw_add_data_value (zero_element size_of) (raw_add_data_slice value b)
  | e :: rest =>
    if is_zero_element size_of e then raw_add_data_slice (before ++ [e]) b
    else raw_add_data_cstr_loop size_of value (before ++ [e]) rest b
  end.
Definition raw_add_data_cstr (size_of : Z) (value : list bytes) (b : EventBuilder) : EventBuilder :=
  raw_add_data_cstr_loop size_of value [] value b.

(** [&65535] is an [i32], the default type of an integer literal. *)
(* builder.rs: EventBuilder::raw_add_data_counted *)
Definition raw_add_data_counted (value : list bytes) (b : EventBuilder) : EventBuilder :=
  if 65535 <? len value then
    raw_add_data_slice (take (Z.to_nat 65535) value) (raw_add_data_value (to_ne_bytes 4 65535) b)
  else raw_add_data_slice value (raw_add_data_value (to_ne_bytes 2 (len value)) b).

(** The loop over the values: the count and the builder. *)
(* builder.rs:991-997: EventBuilder::raw_add_data_range, loop *)
Fixpoint data_range_loop {T} (add_data : T -> EventBuilder -> EventBuilder) (values : list T)
    (count : Z) (b : EventBuilder) : outcome (Z * EventBuilder) :=
  match values with
  | [] => Ret (count, b)
  | value :: values =>
    if count =? 65535 then Ret (count, b)
    else
      count ← u16 (count + 1);
      data_range_loop add_data values count (add_data value b)
  end.

(* builder.rs: EventBuilder::raw_add_data_range *)
Definition raw_add_data_range {T} (add_data : T -> EventBuilder -> EventBuilder)
    (field_values : list T) (b : EventBuilder) : outcome EventBuilder :=
  let old_data_size := len b.(b_data) in
  let b := raw_add_data_value (to_ne_bytes 2 0) b in
  '(count, b) ← data_range_loop add_data field_values 0 b;
  data ← copy_at b.(b_data) old_data_size (to_ne_bytes 2 count);
  Ret (with_data data b).

(** ** Fields *)

(* builder.rs: EventBuilder::add_value *)
Definition add_value (size_of : Z) (field_name : bytes) (field_value : bytes) (format field_tag : Z)
    (b : EventBuilder) : outcome EventBuilder :=
  e ← VALUE_ENCODING size_of;
  b ← raw_add_meta_scalar field_name e format field_tag b;
  Ret (raw_add_data_value field_value b).

(* builder.rs: EventBuilder::add_value_sequence *)
Definition add_value_sequence (size_of : Z) (field_name : bytes) (field_values : list bytes)
    (format field_tag : Z) (b : EventBuilder) : outcome EventBuilder :=
  e ← VALUE_ENCODING size_of;
  b ← raw_add_meta_vcount field_name e format field_tag b;
  raw_add_data_range raw_add_data_value field_values b.

(* builder.rs: EventBuilder::add_str *)
Definition add_str (size_of : Z) (field_name : bytes) (field_value : list bytes)
    (format field_tag : Z) (b : EventBuilder) : outcome EventBuilder :=
  e ← STRING_ENCODING size_of;
  b ← raw_add_meta_scalar field_name e format field_tag b;
  Ret (raw_add_data_counted field_value b).

(* builder.rs: EventBuilder::add_str_sequence *)
Definition add_str_sequence (size_of : Z) (field_name : bytes) (field_values : list (list bytes))
    (format field_tag : Z) (b : EventBuilder) : outcome EventBuilder :=
  e ← STRING_ENCODING size_of;
  b ← raw_add_meta_vcount field_name e format field_tag b;
  raw_add_data_range raw_add_data_counted field_values b.

(* builder.rs: EventBuilder::add_cstr *)
Definition add_cstr (size_of : Z) (field_name : bytes) (field_value : list bytes)
    (format field_tag : Z) (b : EventBuilder) : outcome EventBuilder :=
  e ← ZSTRING_ENCODING size_of;
  b ← raw_add_meta_scalar field_name e format field_tag b;
  Ret (raw_add_data_cstr size_of field_value b).

(* builder.rs: EventBuilder::add_cstr_sequence *)
Definition add_cstr_sequence (size_of : Z) (field_name : bytes) (field_values : list (list bytes))
    (format field_tag : Z) (b : EventBuilder) : outcome EventBuilder :=
  e ← ZSTRING_ENCODING size_of;
  b ← raw_add_meta_vcount field_name e format field_tag b;
  raw_add_data_range (raw_add_data_cstr size_of) field_values b.

(* builder.rs: EventBuilder::add_binary *)
Definition add_binary (size_of : Z) (field_name : bytes) (field_value : list bytes)
    (format field_tag : Z) (b : EventBuilder) : outcome EventBuilder :=
  e ← BINARY_ENCODING size_of;
  b ← raw_add_meta_scalar field_name e format field_tag b;
  Ret (raw_add_data_counted field_value b).

(* builder.rs: EventBuilder::add_binary_sequence *)
Definition add_binary_sequence (size_of : Z) (field_name : bytes) (field_values : list (list bytes))
    (format field_tag : Z) (b : EventBuilder) : outcome EventBuilder :=
  e ← BINARY_ENCODING size_of;
  b ← raw_add_meta_vcount field_name e format field_tag b;
  raw_add_data_range raw_add_data_counted field_values b.

(** ** Writing *)

(** The bytes of an [EventHeader] and of an [EventHeaderExtension] in memory. *)
Definition EventHeader_bytes (h : EventHeader) : bytes :=
  [h.(eh_flags); h.(eh_version)] ++ to_ne_bytes 2 h.(eh_id) ++ to_ne_bytes 2 h.(eh_tag)
  ++ [h.(eh_opcode); h.(eh_level)].
Definition EventHeaderExtension_bytes (e : EventHeaderExtension) : bytes :=
  to_ne_bytes 2 e.(ext_size) ++ to_ne_bytes 2 e.(ext_kind).

(* eventheader/src/_internal.rs:140-143: HEADERS_SIZE_MAX *)
Definition HEADERS_SIZE_MAX : Z := 4 + 8 + (4 + 16 + 16) + 4.

(** The activity extension block and the number of extensions left. *)
(* eventheader/src/_internal.rs:150-178: write_eventheader, the activity ids *)
Definition activity_extension (activity_id related_id : option bytes) (extension_count : Z)
  : outcome (bytes * Z) :=
  match activity_id with
  | None =>
    _ ← rassert (match related_id with None => true | Some _ => false end);
    Ret ([], extension_count)
  | Some aid =>
    extension_count ← u8 (extension_count - 1);
    let ext size := EventHeaderExtension_bytes
      (EventHeaderExtension_from_parts size ExtensionKind_ActivityId (0 <? extension_count)) in
    Ret (match related_id with
         | None => ext 16 ++ aid
         | Some rid => ext 32 ++ aid ++ rid
         end, extension_count)
  end.

(** The metadata extension header and the number of extensions left. *)
(* eventheader/src/_internal.rs:181-191: write_eventheader, the metadata header *)
Definition metadata_extension (meta_len extension_count : Z) : outcome (bytes * Z) :=
  if negb (meta_len =? 0) then
    extension_count ← u8 (extension_count - 1);
    Ret (EventHeaderExtension_bytes
           (EventHeaderExtension_from_parts meta_len ExtensionKind_Metadata (0 <? extension_count)),
         extension_count)
  else Ret ([], extension_count).

Definition is_none {A} (o : option A) : bool := match o with None => true | Some _ => false end.
Definition bool_value (b : bool) : Z := if b then 1 else 0.

Section Write.
Context `{UserEvents}.

(* eventheader/src/_internal.rs: write_eventheader *)
Definition write_eventheader (file_or_error : Z) (state : TracepointState) (event_header : EventHeader)
    (activity_id related_id : option bytes) (meta_len : Z) (data : list bytes)
  : outcome (Z * option (list bytes)) :=
  d0 ← index data 0;
  _ ← rassert (len d0 =? 0);
  _ ← rassert (is_none related_id || negb (is_none activity_id));
  _ ← rassert ((is_none activity_id && (meta_len =? 0))
               || (event_header.(eh_flags) =? HeaderFlags_DefaultWithExtension));
  extension_count ← u8 (bool_value (negb (is_none activity_id)) + bool_value (negb (meta_len =? 0)));
  '(activity, extension_count) ← activity_extension activity_id related_id extension_count;
  '(metadata, extension_count) ← metadata_extension meta_len extension_count;
  let headers := repeat 0 4 ++ EventHeader_bytes event_header ++ activity ++ metadata in
  _ ← rassert (len headers <=? HEADERS_SIZE_MAX);
  _ ← rassert (extension_count =? 0);
  TracepointState_write_with_headers file_or_error data headers state.

Definition ERANGE : Z := 34.

(** The event set is its level and the state of its tracepoint. *)
(* builder.rs: EventBuilder::write *)
Definition EventBuilder_write (file_or_error level : Z) (state : TracepointState)
    (activity_id related_id : option bytes) (b : EventBuilder) : outcome (Z * option (list bytes)) :=
  _ ← rassert (is_none related_id || negb (is_none activity_id));
  if 65535 - (52 + 16) <? len b.(b_meta) + len b.(b_data) then Ret (ERANGE, None)
  else
    write_eventheader file_or_error state
      {| eh_flags := b.(b_flags); eh_version := b.(b_version); eh_id := b.(b_id); eh_tag := b.(b_tag);
         eh_opcode := b.(b_opcode); eh_level := level |}
      activity_id related_id (as_unsigned 16 (len b.(b_meta))) [[]; b.(b_meta); b.(b_data)].
End Write.
End Target.
