(* ===== verification/BuilderProps.v ===== *)
(** * BuilderProps: what the builder writes, the enumerator reads

    The bytes of a written event; the decoder finds in them the header, the ids,
    the name, the metadata and the data that the builder was given. *)

From S2P Require Import Prelude Types ByteReader PerfItem Enumerator EnumeratorInv EnumeratorSpec.
From S2P Require Import EventBytes Tracepoint TracepointProps Provider ProviderProps Builder.

(** ** The bytes of an event *)

Section Layout.
Context `{Target}.

(** The byte order of the events that this target writes. *)
Definition host_reader : PerfByteReader := {| source_big_endian := HOST_IS_BIG_ENDIAN |}.

Lemma to_ne_source n v : to_ne_bytes n v = to_source_bytes host_reader n v.
Proof. reflexivity. Qed.

Definition built_header (b : EventBuilder) (level : Z) : EventHeader :=
  {| eh_flags := b.(b_flags); eh_version := b.(b_version); eh_id := b.(b_id); eh_tag := b.(b_tag);
     eh_opcode := b.(b_opcode); eh_level := level |}.

Definition extension (size kind : Z) : bytes := to_ne_bytes 2 size ++ to_ne_bytes 2 kind.

(** The activity block: always followed by the metadata block. *)
Definition activity_block (aid rid : option bytes) : bytes :=
  match aid, rid with
  | None, _ => []
  | Some a, None => extension 16 (Z.lor ExtensionKind_ActivityId ExtensionKind_ChainFlag) ++ a
  | Some a, Some r => extension 32 (Z.lor ExtensionKind_ActivityId ExtensionKind_ChainFlag) ++ a ++ r
  end.

Definition event_headers (b : EventBuilder) (level : Z) (aid rid : option bytes) : bytes :=
  EventHeader_bytes (built_header b level) ++ activity_block aid rid
  ++ extension (len b.(b_meta)) ExtensionKind_Metadata.

(** The event that a consumer of the tracepoint sees after the write index. *)
Definition event_payload (b : EventBuilder) (level : Z) (aid rid : option bytes) : bytes :=
  event_headers b level aid rid ++ b.(b_meta) ++ b.(b_data).

Definition id_ok (o : option bytes) : Prop :=
  match o with None => True | Some a => length a = 16%nat /\ bytes_ok a end.

(** A builder that holds an event named [name] whose fields are declared by
    [fields]. *)
Record built (b : EventBuilder) (name fields : bytes) : Prop := {
  built_meta : b.(b_meta) = name ++ [0] ++ fields;
  built_name : no_nul name;
  built_meta_ok : bytes_ok b.(b_meta);
  built_data_ok : bytes_ok b.(b_data);
  built_size : len b.(b_meta) + len b.(b_data) <= 65535 - (52 + 16);
  built_flags : b.(b_flags) = HeaderFlags_DefaultWithExtension;
  built_version : in_width 8 b.(b_version);
  built_id : in_width 16 b.(b_id);
  built_tag : in_width 16 b.(b_tag);
  built_opcode : in_width 8 b.(b_opcode);
}.

Lemma length_to_ne_bytes n v : length (to_ne_bytes n v) = n.
Proof. rewrite to_ne_source. apply length_to_source_bytes. Qed.

Lemma len_extension s k : len (extension s k) = 4.
Proof. unfold extension, len. by rewrite length_app, !length_to_ne_bytes. Qed.

Lemma len_EventHeader_bytes h : len (EventHeader_bytes h) = 8.
Proof. unfold EventHeader_bytes, len. by rewrite !length_app, !length_to_ne_bytes. Qed.

Definition activity_len (aid rid : option bytes) : Z :=
  match aid, rid with None, _ => 0 | Some _, None => 16 | Some _, Some _ => 32 end.

Lemma len_activity_block aid rid :
  id_ok aid -> id_ok rid ->
  len (activity_block aid rid) = if is_none aid then 0 else 4 + activity_len aid rid.
Proof.
  unfold activity_block, activity_len, id_ok, len. destruct aid as [a|], rid as [r|]; cbn [is_none];
    intros Ha Hr; rewrite ?length_app; unfold extension; rewrite ?length_app, ?length_to_ne_bytes;
    destruct_and?; try done; lia.
Qed.

(** The payload, after the write index, is handed to the kernel, whatever the
    descriptors of the data. *)
Lemma write_eventheader_ok `{K : UserEvents} file level st aid rid b name fields rest :
  built b name fields -> in_width 8 level -> id_ok aid -> id_ok rid ->
  (aid = None -> rid = None) ->
  st.(enable_status) <> 0 -> 0 <= st.(write_index) <= HIGHEST_VALID_WRITE_INDEX ->
  write_eventheader file st (built_header b level) aid rid (as_unsigned 16 (len b.(b_meta))) ([] :: b.(b_meta) :: rest) =
    TracepointState_writev file ([] :: b.(b_meta) :: rest)
      (to_ne_bytes 4 st.(write_index) ++ event_headers b level aid rid).
Proof.
  intros Hb Hl Ha Hr Har He Hw.
  assert (E1 : is_none rid || negb (is_none aid) = true).
  { destruct aid, rid; try done. by specialize (Har eq_refl). }
  pose proof (built_size _ _ _ Hb) as Hs.
  pose proof (len_nonneg (b_data b)). assert (Hm : 0 < len (b_meta b)).
  { rewrite (built_meta _ _ _ Hb). pose proof (len_nonneg name). pose proof (len_nonneg fields).
    autorewrite with tp_simpl. lia. }
  rewrite as_unsigned_id by lia. unfold write_eventheader.
  change (index ([] :: b_meta b :: rest) 0) with (Ret (@nil Z)). cbn [mbind outcome_bind].
  change (len (@nil Z) =? 0) with true. rewrite E1. cbn [rassert mbind outcome_bind]. change (eh_flags (built_header b level)) with (b_flags b).
  rewrite (built_flags _ _ _ Hb), Z.eqb_refl, orb_true_r. cbn [rassert mbind outcome_bind].
  rewrite (proj2 (Z.eqb_neq (len (b_meta b)) 0)) by lia. cbn [negb bool_value].
  rewrite checked_ok by (destruct aid; cbn; lia). cbn [mbind outcome_bind].
  assert (Eact : activity_extension aid rid (bool_value (negb (is_none aid)) + 1)
                 = Ret (activity_block aid rid, 1)).
  { unfold activity_extension, activity_block. destruct aid as [a|], rid as [r|]; cbn [is_none negb bool_value].
    - reflexivity.
    - reflexivity.
    - by specialize (Har eq_refl).
    - reflexivity. }
  rewrite Eact. cbn [mbind outcome_bind]. unfold metadata_extension.
  rewrite (proj2 (Z.eqb_neq (len (b_meta b)) 0)) by lia. cbn [negb].
  change (checked 8 (1 - 1)) with (Ret 0). cbn [mbind outcome_bind].
  change (EventHeaderExtension_bytes _) with (extension (len (b_meta b)) ExtensionKind_Metadata).
  assert (Hh : len (event_headers b level aid rid) <= 48).
  { unfold event_headers. rewrite !len_app, len_EventHeader_bytes, len_extension, len_activity_block by done.
    unfold activity_len. destruct aid, rid; cbn [is_none]; lia. }
  fold (event_headers b level aid rid).
  replace (len (repeat 0 4 ++ event_headers b level aid rid) <=? HEADERS_SIZE_MAX) with true
    by (symmetry; apply Z.leb_le; rewrite len_app; change (len (repeat 0 4)) with 4;
        unfold HEADERS_SIZE_MAX; lia).
  cbn [rassert mbind outcome_bind Z.eqb]. unfold TracepointState_write_with_headers.
  change (index ([] :: b_meta b :: rest) 0) with (Ret (@nil Z)). cbn [mbind outcome_bind].
  change (len (@nil Z) =? 0) with true. cbn [rassert mbind outcome_bind].
  pose proof (len_nonneg (event_headers b level aid rid)).
  rewrite (proj2 (Z.leb_le 4 _)) by (rewrite len_app; change (len (repeat 0 4)) with 4; lia).
  cbn [rassert mbind outcome_bind]. unfold cannot_write.
  rewrite (proj2 (Z.eqb_neq _ 0)), (proj2 (Z.ltb_ge _ _)) by lia. cbn [orb].
  unfold copy_at. pose proof (length_to_ne_bytes 4 (write_index st)) as E4.
  assert (E4' : len (to_ne_bytes 4 (write_index st)) = 4) by (unfold len; by rewrite E4).
  rewrite slice_ok by (rewrite ?len_app, ?E4'; change (len (repeat 0 4)) with 4; lia).
  cbn [mbind outcome_bind]. rewrite E4'. reflexivity.
Qed.

Lemma EventBuilder_write_ok `{K : UserEvents} file level st aid rid b name fields :
  built b name fields -> in_width 8 level -> id_ok aid -> id_ok rid ->
  (aid = None -> rid = None) ->
  st.(enable_status) <> 0 -> 0 <= st.(write_index) <= HIGHEST_VALID_WRITE_INDEX ->
  EventBuilder_write file level st aid rid b =
    TracepointState_writev file [[]; b.(b_meta); b.(b_data)]
      (to_ne_bytes 4 st.(write_index) ++ event_headers b level aid rid).
Proof.
  intros Hb Hl Ha Hr Har He Hw. unfold EventBuilder_write.
  assert (E1 : is_none rid || negb (is_none aid) = true).
  { destruct aid, rid; try done. by specialize (Har eq_refl). }
  rewrite E1. cbn [rassert mbind outcome_bind]. pose proof (built_size _ _ _ Hb) as Hs.
  destruct (Z.ltb_spec (65535 - (52 + 16)) (len (b_meta b) + len (b_data b))); [lia|].
  by apply (write_eventheader_ok file level st aid rid b name fields).
Qed.

(** ** Reading the headers *)

Section Read.
Context (ed : bytes).

Lemma read_event_header_eq h c :
  holds_at ed 0 (EventHeader_bytes h) ->
  h.(eh_flags) = HeaderFlags_DefaultWithExtension -> in_width 16 h.(eh_id) -> in_width 16 h.(eh_tag) ->
  read_event_header ed c = Ret (set_header h (set_byte_reader host_reader c)).
Proof.
  intros Hh Hf Hid Htag. unfold EventHeader_bytes in Hh. rewrite !to_ne_source in Hh.
  apply holds_at_app in Hh as [H0 Hh]. apply holds_at_app in Hh as [H2 Hh].
  apply holds_at_app in Hh as [H4 H6]. cbn [app] in *.
  assert (E2 : forall v, len (to_source_bytes host_reader 2 v) = 2)
    by (intros; unfold len; by rewrite length_to_source_bytes).
  rewrite !E2 in *.
  change (holds_at ed 2 (to_source_bytes host_reader 2 (eh_id h))) in H2.
  change (holds_at ed 4 (to_source_bytes host_reader 2 (eh_tag h))) in H4.
  change (holds_at ed 6 [eh_opcode h; eh_level h]) in H6.
  pose proof (holds_at_cons _ _ _ _ H0) as [_ H1]. pose proof (holds_at_cons _ _ _ _ H6) as [_ H7].
  change (0 + 1) with 1 in H1. change (6 + 1) with 7 in H7.
  unfold read_event_header. rewrite (holds_index _ _ _ _ H0). cbn [mbind outcome_bind].
  assert (Er : PerfByteReader_new (negb (HeaderFlags_has_flag (eh_flags h) HeaderFlags_LittleEndian)) = host_reader).
  { rewrite Hf. unfold host_reader, PerfByteReader_new, HeaderFlags_DefaultWithExtension, HeaderFlags_Default.
    by destruct HOST_IS_BIG_ENDIAN. }
  rewrite Er. cbv zeta. rewrite (holds_index _ _ _ _ H1). cbn [mbind outcome_bind].
  change (byte_reader (set_byte_reader host_reader c)) with host_reader.
  pose proof (holds_read_uint _ 2 _ _ _ H2 Hid) as R2. pose proof (holds_read_uint _ 2 _ _ _ H4 Htag) as R4.
  unfold read_u16. change (Z.of_nat 2) with 2 in *.
  destruct (slice_from ed 2) as [s2|]; [|done]. destruct (slice_from ed 4) as [s4|]; [|done].
  cbn [mbind outcome_bind] in *. rewrite R2, R4. cbn [mbind outcome_bind].
  rewrite (holds_index _ _ _ _ H6), (holds_index _ _ _ _ H7). cbn [mbind outcome_bind].
  by destruct h.
Qed.

(** The size and kind of an extension, and what follows. *)
Lemma read_extension_header p c size kind rest :
  holds_at ed p (extension size kind ++ rest) -> c.(byte_reader) = host_reader ->
  in_width 16 size -> in_width 16 kind -> len ed < 2 ^ 31 ->
  usize (len ed - p) = Ret (len ed - p) /\ (len ed - p <? 4) = false /\
  read_u16_at ed p c = Ret size /\ read_u16_at ed (p + 2) c = Ret kind /\
  usize (len ed - (p + 2 + 2)) = Ret (len ed - (p + 4)).
Proof.
  intros HH Hr Hs Hk Hl. pose proof (holds_bounds _ _ _ HH) as Hb. rewrite len_app, len_extension in Hb.
  pose proof (len_nonneg rest). apply holds_at_app in HH as [HH _]. unfold extension in HH. rewrite !to_ne_source in HH.
  apply holds_at_app in HH as [H1 H2].
  replace (len (to_source_bytes host_reader 2 size)) with 2 in H2 by (unfold len; by rewrite length_to_source_bytes).
  split_and!.
  - apply checked_ok. lia.
  - apply Z.ltb_ge. lia.
  - apply holds_read_u16; [by rewrite Hr|exact Hs].
  - apply holds_read_u16; [by rewrite Hr|exact Hk].
  - rewrite checked_ok by lia. f_equal. lia.
Qed.

Lemma read_extension_metadata p c size rest :
  holds_at ed p (extension size ExtensionKind_Metadata ++ rest) -> c.(byte_reader) = host_reader ->
  in_width 16 size -> size <= len rest -> len ed < 2 ^ 31 -> c.(meta_start) = 0 ->
  read_extension ed p c = Ret (Ok (p + 4 + size, ExtensionKind_Metadata),
                               set_meta_end (p + 4 + size) (set_meta_start (p + 4) c)).
Proof.
  intros HH Hr Hs Hrest Hl Hm. pose proof (holds_bounds _ _ _ HH) as Hb. rewrite len_app, len_extension in Hb.
  destruct (read_extension_header p c size ExtensionKind_Metadata rest HH Hr Hs) as (E0 & E1 & E2 & E3 & E4); [vm_compute; by split|done|].
  unfold in_width in Hs. unfold read_extension. rewrite E0. cbn [mbind outcome_bind]. rewrite E1, E2. cbn [mbind outcome_bind]. rewrite E3. cbn [mbind outcome_bind]. rewrite E4.
  cbn [mbind outcome_bind]. rewrite (proj2 (Z.ltb_ge _ _)) by lia.
  change (Z.land ExtensionKind_Metadata ExtensionKind_ValueMask) with 1.
  change (1 =? ExtensionKind_Invalid) with false. change (1 =? ExtensionKind_Metadata) with true.
  rewrite Hm. cbn [negb Z.eqb]. cbv zeta. replace (p + 2 + 2) with (p + 4) by lia.
  rewrite (as_unsigned_id 32) by lia. change (meta_start (set_meta_start _ _)) with (p + 4).
  rewrite checked_ok by lia. reflexivity.
Qed.

Lemma read_extension_activity p c size rest :
  holds_at ed p (extension size (Z.lor ExtensionKind_ActivityId ExtensionKind_ChainFlag) ++ rest) ->
  c.(byte_reader) = host_reader -> size = 16 \/ size = 32 -> size <= len rest -> len ed < 2 ^ 31 ->
  c.(activity_id_start) = 0 ->
  read_extension ed p c =
    Ret (Ok (p + 4 + size, Z.lor ExtensionKind_ActivityId ExtensionKind_ChainFlag),
         set_activity_id_len size (set_activity_id_start (p + 4) c)).
Proof.
  intros HH Hr Hs Hrest Hl Hm. pose proof (holds_bounds _ _ _ HH) as Hb. rewrite len_app, len_extension in Hb.
  destruct (read_extension_header p c size _ rest HH Hr) as (E0 & E1 & E2 & E3 & E4);
    [unfold in_width; lia|vm_compute; by split|done|].
  unfold read_extension. rewrite E0. cbn [mbind outcome_bind]. rewrite E1, E2. cbn [mbind outcome_bind]. rewrite E3. cbn [mbind outcome_bind]. rewrite E4.
  cbn [mbind outcome_bind]. rewrite (proj2 (Z.ltb_ge _ _)) by lia.
  change (Z.land (Z.lor ExtensionKind_ActivityId ExtensionKind_ChainFlag) ExtensionKind_ValueMask) with 2.
  change (2 =? ExtensionKind_Invalid) with false. change (2 =? ExtensionKind_Metadata) with false.
  change (2 =? ExtensionKind_ActivityId) with true. cbv iota.
  rewrite Hm. cbn [negb Z.eqb orb].
  replace (negb (size =? 16) && negb (size =? 32)) with false by (destruct Hs as [-> | ->]; done).
  cbv zeta. replace (p + 2 + 2) with (p + 4) by lia. rewrite (as_unsigned_id 32) by lia.
  rewrite (as_unsigned_id 8) by lia. reflexivity.
Qed.
End Read.

(** ** Beginning the enumeration of a written event *)

(** Where the enumerator finds the parts of the event. *)
Definition block_len (aid rid : option bytes) : Z := len (activity_block aid rid).
Definition written_meta_start (aid rid : option bytes) : Z := 8 + block_len aid rid + 4.

Record written_context (b : EventBuilder) (name : bytes) (level kw limit : Z)
    (aid rid : option bytes) (c : Ctx) : Prop := {
  wc_started : started (event_payload b level aid rid) limit c;
  wc_header : c.(header) = built_header b level;
  wc_keyword : c.(keyword) = kw;
  wc_reader : c.(byte_reader) = host_reader;
  wc_meta_start : c.(meta_start) = written_meta_start aid rid;
  wc_meta_end : c.(meta_end) = written_meta_start aid rid + len b.(b_meta);
  wc_data_start : c.(data_start) = c.(meta_end);
  wc_name_len : c.(event_name_len) = len name;
  wc_activity : c.(activity_id_len) = activity_len aid rid /\
                (aid <> None -> c.(activity_id_start) = 12);
  wc_top : c.(stack_top).(next_offset) = c.(meta_start) + len name + 1 /\
           c.(stack_top).(remaining_field_count) = 255;
}.

Lemma payload_layout b level aid rid :
  let ed := event_payload b level aid rid in
  holds_at ed 0 (EventHeader_bytes (built_header b level)) /\
  holds_at ed 8 (activity_block aid rid) /\
  holds_at ed (8 + block_len aid rid) (extension (len b.(b_meta)) ExtensionKind_Metadata) /\
  holds_at ed (written_meta_start aid rid) b.(b_meta) /\
  holds_at ed (written_meta_start aid rid + len b.(b_meta)) b.(b_data) /\
  len ed = written_meta_start aid rid + len b.(b_meta) + len b.(b_data).
Proof.
  intros ed.
  assert (HH : holds_at ed 0 (EventHeader_bytes (built_header b level) ++ activity_block aid rid ++
     extension (len b.(b_meta)) ExtensionKind_Metadata ++ b.(b_meta) ++ b.(b_data))).
  { apply (holds_at_intro ed [] _ []). rewrite app_nil_r. unfold ed, event_payload, event_headers.
    by rewrite <- !app_assoc. }
  pose proof (holds_bounds _ _ _ HH) as Hb.
  apply holds_at_app in HH as [H1 HH]. rewrite len_EventHeader_bytes in HH.
  apply holds_at_app in HH as [H2 HH]. fold (block_len aid rid) in HH.
  apply holds_at_app in HH as [H3 HH]. rewrite len_extension in HH.
  apply holds_at_app in HH as [H4 HH]. split_and!; try done.
  unfold ed, event_payload, event_headers. rewrite !len_app, len_EventHeader_bytes, len_extension.
  unfold written_meta_start, block_len. lia.
Qed.

Lemma read_written_extensions b level aid rid c fuel name fields :
  built b name fields -> id_ok aid -> id_ok rid -> (aid = None -> rid = None) ->
  c.(byte_reader) = host_reader -> c.(meta_start) = 0 -> c.(activity_id_start) = 0 ->
  c.(activity_id_len) = 0 -> (2 <= fuel)%nat ->
  exists st, (aid <> None -> st = 12) /\
    read_extensions (event_payload b level aid rid) fuel 8 c =
      Ret (Ok (written_meta_start aid rid + len b.(b_meta)),
           set_meta_end (written_meta_start aid rid + len b.(b_meta))
             (set_meta_start (written_meta_start aid rid)
                (set_activity_id_len (activity_len aid rid) (set_activity_id_start st c)))).
Proof.
  intros Hb Ha Hr Har Hbr Hm Hst Hln Hf. set (ed := event_payload b level aid rid).
  destruct (payload_layout b level aid rid) as (_ & H2 & H3 & H4 & _ & Hlen). fold ed in H2, H3, H4, Hlen.
  pose proof (built_size _ _ _ Hb) as Hs. pose proof (len_nonneg (b_meta b)) as N1. pose proof (len_nonneg (b_data b)) as N2.
  assert (Hext : holds_at ed (8 + block_len aid rid) (extension (len b.(b_meta)) ExtensionKind_Metadata ++ b.(b_meta))).
  { apply holds_at_join; [exact H3|]. rewrite len_extension. exact H4. }
  pose proof (len_activity_block aid rid Ha Hr) as Hbl. fold (block_len aid rid) in Hbl.
  assert (Hlb : len ed < 2 ^ 31).
  { rewrite Hlen. unfold written_meta_start. rewrite Hbl. unfold activity_len. destruct aid, rid; cbn [is_none]; lia. }
  destruct fuel as [|[|fuel]]; [lia|lia|]. destruct aid as [a|].
  - set (sz := activity_len (Some a) rid) in *. cbn [is_none] in Hbl.
    assert (Hact : holds_at ed 8 (extension sz (Z.lor ExtensionKind_ActivityId ExtensionKind_ChainFlag) ++
                     (a ++ default [] rid))).
    { unfold activity_block in H2. destruct rid; [exact H2|]. cbn [default]. by rewrite app_nil_r. }
    assert (Hsz : sz = 16 \/ sz = 32) by (subst sz; unfold activity_len; destruct rid; tauto).
    assert (Hrest : len (a ++ default [] rid) = sz).
    { destruct Ha as [Ha _]. subst sz. unfold len. rewrite length_app.
      destruct rid as [r|]; [destruct Hr as [Hr _]; change (default [] (Some r)) with r|];
        cbn [activity_len default length]; lia. }
    exists 12. split; [done|]. cbn [read_extensions].
    rewrite (read_extension_activity ed 8 c sz _ Hact) by (done || lia). cbn [mbind outcome_bind].
    change (ExtensionKind_has_flag (Z.lor ExtensionKind_ActivityId ExtensionKind_ChainFlag) ExtensionKind_ChainFlag)
      with true. cbn [negb].
    change (8 + 4) with 12. rewrite Hbl in Hext.
    replace (8 + (4 + sz)) with (12 + sz) in Hext by lia.
    rewrite (read_extension_metadata ed (12 + sz) _ (len (b_meta b)) _ Hext);
      [|done|unfold in_width; lia|lia|done|done].
    cbn [mbind outcome_bind].
    change (ExtensionKind_has_flag ExtensionKind_Metadata ExtensionKind_ChainFlag) with false. cbn [negb].
    unfold written_meta_start. rewrite Hbl. replace (8 + (4 + sz) + 4) with (12 + sz + 4) by lia. reflexivity.
  - cbn [is_none] in Hbl. rewrite Hbl in Hext. change (8 + 0) with 8 in Hext. exists 0. split; [done|]. cbn [read_extensions].
    rewrite (read_extension_metadata ed 8 c (len (b_meta b)) _ Hext);
      [|done|unfold in_width; lia|lia|done|done].
    cbn [mbind outcome_bind].
    change (ExtensionKind_has_flag ExtensionKind_Metadata ExtensionKind_ChainFlag) with false. cbn [negb].
    unfold written_meta_start. rewrite Hbl. cbn [activity_len].
    assert (Ec : set_activity_id_len 0 (set_activity_id_start 0 c) = c).
    { clear - Hst Hln. destruct c. cbn in *. by subst. }
    rewrite Ec. reflexivity.
Qed.

Lemma payload_ok b level aid rid name fields :
  built b name fields -> in_width 8 level -> id_ok aid -> id_ok rid ->
  bytes_ok (event_payload b level aid rid).
Proof.
  intros Hb Hl Ha Hr. pose proof (built_meta_ok _ _ _ Hb). pose proof (built_data_ok _ _ _ Hb).
  pose proof (built_version _ _ _ Hb). pose proof (built_opcode _ _ _ Hb).
  assert (Hx : forall n v, bytes_ok (to_ne_bytes n v)) by (intros; rewrite to_ne_source; apply to_source_bytes_ok).
  assert (Hf : is_u8 (b_flags b)).
  { rewrite (built_flags _ _ _ Hb). unfold is_u8, HeaderFlags_DefaultWithExtension, HeaderFlags_Default.
    destruct HOST_IS_BIG_ENDIAN; vm_compute; split; done. }
  assert (He : forall s k, bytes_ok (extension s k)) by (intros; unfold extension; apply Forall_app; split; apply Hx).
  unfold event_payload, event_headers, EventHeader_bytes, bytes_ok. rewrite !Forall_app. unfold in_width in *.
  split_and!; try done; try apply Hx; try apply He; cbn [built_header eh_flags eh_version eh_opcode eh_level].
  1-2: constructor; [|constructor; [|constructor]]; unfold is_u8 in *; lia.
  unfold activity_block, id_ok in *. destruct aid as [a|]; [|constructor].
  destruct Ha as [_ Ha]. destruct rid as [r|]; rewrite !Forall_app; [destruct Hr as [_ Hr]|]; split_and!; done || apply He.
Qed.

(** The enumerator accepts what the builder wrote, under every name whose
    provider part is any text. *)
Lemma enumerate_written b level kw aid rid name fields pname attrs limit c0 :
  built b name fields -> in_width 8 level -> id_ok aid -> id_ok rid -> (aid = None -> rid = None) ->
  attributes_ok attrs -> in_width 64 kw ->
  len (tracepoint_name pname (attributes attrs) level kw) < EVENT_HEADER_TRACEPOINT_NAME_MAX ->
  bytes_ok (tracepoint_name pname (attributes attrs) level kw) ->
  0 <= limit < 2 ^ 32 -> length c0.(stack) = 8%nat ->
  exists c, enumerate_with_name_and_data (tracepoint_name pname (attributes attrs) level kw)
              (event_payload b level aid rid) limit c0 = Ret (Ok tt, c) /\
    written_context b name level kw limit aid rid c.
Proof.
  intros Hb Hl Ha Hr Har Hattrs Hk Htn Htok Hlim Hst.
  set (ed := event_payload b level aid rid). set (tn := tracepoint_name _ _ _ _) in *.
  pose proof (payload_ok b level aid rid name fields Hb Hl Ha Hr) as Hok. fold ed in Hok.
  pose proof (enumerate_ok ed Hok tn limit c0 Htok Hlim Hst) as W.
  destruct (payload_layout b level aid rid) as (H1 & _ & _ & H4 & _ & Hlen). fold ed in H1, H4, Hlen.
  pose proof (built_size _ _ _ Hb) as Hs. pose proof (len_nonneg (b_data b)) as N2.
  pose proof (len_activity_block aid rid Ha Hr) as Hbl. fold (block_len aid rid) in Hbl.
  assert (Hblr : 0 <= block_len aid rid <= 36).
  { rewrite Hbl. unfold activity_len. destruct aid, rid; cbn [is_none]; lia. }
  pose proof (len_nonneg name) as N3. pose proof (len_nonneg fields) as N4.
  assert (Hml : len (b_meta b) = len name + 1 + len fields).
  { rewrite (built_meta _ _ _ Hb). autorewrite with tp_simpl. lia. }
  unfold written_meta_start in Hlen.
  assert (E : exists c, enumerate_with_name_and_data tn ed limit c0 = Ret (Ok tt, c) /\
     c.(header) = built_header b level /\ c.(keyword) = kw /\ c.(byte_reader) = host_reader /\
     c.(meta_start) = written_meta_start aid rid /\
     c.(meta_end) = written_meta_start aid rid + len b.(b_meta) /\
     c.(data_start) = c.(meta_end) /\ c.(event_name_len) = len name /\
     (c.(activity_id_len) = activity_len aid rid /\ (aid <> None -> c.(activity_id_start) = 12)) /\
     c.(stack_top).(next_offset) = c.(meta_start) + len name + 1 /\
     c.(stack_top).(remaining_field_count) = 255).
  { unfold enumerate_with_name_and_data.
    replace ((len ed <? 8) || (0x80000000 <=? len ed) || (EVENT_HEADER_TRACEPOINT_NAME_MAX <=? len tn)) with false.
    2: { symmetry. rewrite !orb_false_iff, Z.ltb_ge, !Z.leb_gt. lia. }
    rewrite (read_event_header_eq ed (built_header b level) c0 H1 (built_flags _ _ _ Hb) (built_id _ _ _ Hb) (built_tag _ _ _ Hb)).
    cbn [mbind outcome_bind]. set (c1 := set_header _ _).
    change (eh_flags (header c1)) with (b_flags b). rewrite (built_flags _ _ _ Hb).
    replace (negb (HeaderFlags_DefaultWithExtension =? Z.land HeaderFlags_DefaultWithExtension KNOWN_FLAGS)) with false
      by (unfold HeaderFlags_DefaultWithExtension, HeaderFlags_Default; by destruct HOST_IS_BIG_ENDIAN).
    unfold tn. rewrite (tracepoint_name_parses pname attrs level kw c1 Hattrs Hl Hk eq_refl). cbn [mbind outcome_bind].
    cbv zeta. set (c2 := set_activity_id_len 0 _).
    change (eh_flags (header c2)) with (b_flags b). rewrite (built_flags _ _ _ Hb).
    replace (HeaderFlags_has_flag HeaderFlags_DefaultWithExtension HeaderFlags_Extension) with true
      by (unfold HeaderFlags_DefaultWithExtension, HeaderFlags_Default; by destruct HOST_IS_BIG_ENDIAN).
    destruct (read_written_extensions b level aid rid c2 (S (Z.to_nat (len ed - 8))) name fields Hb Ha Hr Har
      eq_refl eq_refl eq_refl eq_refl ltac:(lia)) as (st & Hst12 & Ee). fold ed in Ee. rewrite Ee. cbn [mbind outcome_bind].
    set (c3 := set_meta_end _ _). unfold finish_enumerate.
    change (meta_start c3) with (written_meta_start aid rid).
    change (meta_end c3) with (written_meta_start aid rid + len (b_meta b)).
    unfold written_meta_start. rewrite (proj2 (Z.eqb_neq _ 0)) by lia.
    rewrite (built_meta _ _ _ Hb), (assoc_L (++)) in H4. apply holds_at_app in H4 as [H4 _].
    unfold written_meta_start in H4.
    rewrite (holds_scan_nul ed _ _ name H4 (built_name _ _ _ Hb)) by lia. cbn [mbind outcome_bind].
    rewrite (proj2 (Z.leb_gt _ _)) by lia. rewrite checked_ok by lia. cbn [mbind outcome_bind].
    rewrite (as_unsigned_id 16), (as_unsigned_id 32) by lia. unfold reset_impl. ctx.
    change (meta_start c3) with (8 + block_len aid rid + 4).
    rewrite checked_ok by lia. cbn [mbind outcome_bind]. rewrite checked_ok by lia. cbn [mbind outcome_bind].
    eexists. split; [reflexivity|]. subst c3. ctx. unfold written_meta_start. split_and!; done || lia. }
  destruct E as (c & E & F). exists c. split; [exact E|]. rewrite E in W. cbn [wp fst snd] in W.
  destruct W as (_ & Hstart & _). destruct F as (F1 & F2 & F3 & F4 & F5 & F6 & F7 & F8 & F9).
  by constructor.
Qed.
End Layout.

(** ** What a consumer reads *)

(** Everything the builder was given, except the fields, as a consumer reads it. *)
Definition decodes_as `{Target} (b : EventBuilder) (tn name : bytes) (level kw : Z)
    (aid rid : option bytes) (ed : bytes) (c : Ctx) : Prop :=
  let info := event_info tn ed c in
  info.(ei_header) = built_header b level /\ info.(ei_keyword) = kw /\
  ei_name_bytes info = Ret name /\ activity_id info = Ret aid /\ related_activity_id info = Ret rid /\
  slice ed c.(meta_start) c.(meta_end) = Ret b.(b_meta) /\ raw_data_position ed c = Ret b.(b_data).

Lemma written_decodes `{Target} b tn name fields level kw limit aid rid c :
  built b name fields -> id_ok aid -> id_ok rid -> (aid = None -> rid = None) ->
  written_context b name level kw limit aid rid c ->
  decodes_as b tn name level kw aid rid (event_payload b level aid rid) c.
Proof.
  intros Hb Ha Hr Har W. set (ed := event_payload b level aid rid).
  destruct (payload_layout b level aid rid) as (_ & H2 & _ & H4 & H5 & Hlen). fold ed in H2, H4, H5, Hlen.
  destruct (wc_activity _ _ _ _ _ _ _ _ W) as [Wl Ws]. pose proof (wc_started _ _ _ _ _ _ _ _ W) as Hst.
  destruct Hst as (_ & _ & _ & Hraw & _).
  unfold decodes_as, event_info, ei_name_bytes, activity_id, related_activity_id, raw_data_position.
  cbn [ei_header ei_keyword ei_event_data ei_name_start ei_name_len ei_activity_id_start ei_activity_id_len].
  rewrite (wc_header _ _ _ _ _ _ _ _ W), (wc_keyword _ _ _ _ _ _ _ _ W), (wc_name_len _ _ _ _ _ _ _ _ W), Hraw,
    (wc_data_start _ _ _ _ _ _ _ _ W), (wc_meta_end _ _ _ _ _ _ _ _ W), (wc_meta_start _ _ _ _ _ _ _ _ W), Wl.
  pose proof H4 as H4'. rewrite (built_meta _ _ _ Hb) in H4'. apply holds_at_app in H4' as [Hname _].
  assert (Haid : aid <> None -> forall a, aid = Some a ->
     holds_at ed 12 (a ++ default [] rid) /\ len a = 16 /\ c.(activity_id_start) = 12).
  { intros Hn a ->. specialize (Ws Hn). destruct Ha as [Ha _]. split; [|split; [unfold len; lia|done]].
    unfold activity_block in H2. change 12 with (8 + 4). destruct rid as [r|].
    - rewrite <- (len_extension 32 (Z.lor ExtensionKind_ActivityId ExtensionKind_ChainFlag)).
      by apply holds_at_drop.
    - rewrite <- (len_extension 16 (Z.lor ExtensionKind_ActivityId ExtensionKind_ChainFlag)).
      cbn [default]. rewrite app_nil_r. by apply holds_at_drop. }
  assert (Hrid : forall r, rid = Some r -> len r = 16) by (intros r ->; destruct Hr as [Hr _]; unfold len; lia).
  split_and!; try done.
  - by apply (holds_slice ed _ _ name).
  - destruct aid as [a|]; [|done]. destruct (Haid ltac:(done) a eq_refl) as (Hat & Hal & ->).
    replace (activity_len (Some a) rid <? 16) with false by (unfold activity_len; by destruct rid).
    apply holds_at_app in Hat as [Hat _]. by rewrite (holds_slice ed _ _ a Hat) by lia.
  - destruct aid as [a|].
    + destruct (Haid ltac:(done) a eq_refl) as (Hat & Hal & ->).
      apply holds_at_app in Hat as [_ Hat]. rewrite Hal in Hat. destruct rid as [r|]; [|done].
      change (default [] (Some r)) with r in Hat. change (activity_len (Some a) (Some r) <? 32) with false.
      cbv iota zeta. specialize (Hrid r eq_refl). by rewrite (holds_slice ed _ _ r Hat) by lia.
    + by rewrite (Har eq_refl).
  - by apply holds_slice.
  - unfold slice_from. apply holds_slice; [done|lia].
Qed.

(** What [write] hands to the kernel. *)
Lemma payload_written `{Target} `{UserEventsOk} file level st aid rid b rest : concat rest = b.(b_data) ->
  exists code iov,
    TracepointState_writev file ([] :: b.(b_meta) :: rest) (to_ne_bytes 4 st.(write_index) ++ event_headers b level aid rid)
    = Ret (code, Some iov) /\
    concat iov = to_ne_bytes 4 st.(write_index) ++ event_payload b level aid rid /\
    (code = 0 <-> linux_writev (UserEventsDataFile_peek file) iov = Ok tt).
Proof.
  intros Hr. unfold TracepointState_writev.
  set (iov := (to_ne_bytes 4 st.(write_index) ++ event_headers b level aid rid) :: b.(b_meta) :: rest).
  change (store ([] :: b.(b_meta) :: rest) 0 _) with (Ret iov). cbn [mbind outcome_bind].
  assert (Ei : concat iov = to_ne_bytes 4 st.(write_index) ++ event_payload b level aid rid).
  { subst iov. cbn [concat]. unfold event_payload. rewrite Hr, <- (app_assoc (to_ne_bytes 4 _)). reflexivity. }
  destruct (linux_writev _ iov) as [[]|e] eqn:Ew.
  - by exists 0, iov.
  - pose proof (writev_ok _ _ _ Ew). unfold get_failure_errno. rewrite (proj2 (Z.ltb_lt 0 e)) by done.
    cbn [rassert mbind outcome_bind]. exists e, iov. split_and!; try done. rewrite Ew. split; [lia|done].
Qed.
Lemma written_payload `{Target} `{UserEventsOk} file level st aid rid b name fields :
  built b name fields -> in_width 8 level -> id_ok aid -> id_ok rid -> (aid = None -> rid = None) ->
  st.(enable_status) <> 0 -> 0 <= st.(write_index) <= HIGHEST_VALID_WRITE_INDEX ->
  exists code iov, EventBuilder_write file level st aid rid b = Ret (code, Some iov) /\
    concat iov = to_ne_bytes 4 st.(write_index) ++ event_payload b level aid rid /\
    (code = 0 <-> linux_writev (UserEventsDataFile_peek file) iov = Ok tt).
Proof.
  intros Hb Hl Ha Hr Har He Hw. rewrite (EventBuilder_write_ok file level st aid rid b name fields) by done.
  apply payload_written. cbn [concat]. apply app_nil_r.
Qed.

(** C12. What [write] hands to the kernel is the write index followed by an event
    that the enumerator accepts under the name of the event set: it reads back
    the header, the keyword, the event name, both activity ids, the metadata and
    the data that the builder holds.  [write] returns the kernel's answer. *)
Theorem written_event_decodes `{Target} `{UserEventsOk} file st b name fields level kw aid rid pname attrs limit
    (Hbuilt : built b name fields) (Hlevel : in_width 8 level) (Hkeyword : in_width 64 kw)
    (Haid : id_ok aid) (Hrid : id_ok rid) (Hids : aid = None -> rid = None)
    (Henabled : st.(enable_status) <> 0) (Hindex : 0 <= st.(write_index) <= HIGHEST_VALID_WRITE_INDEX)
    (Hattrs : attributes_ok attrs) (Hname : bytes_ok (tracepoint_name pname (attributes attrs) level kw))
    (Hshort : len (tracepoint_name pname (attributes attrs) level kw) < EVENT_HEADER_TRACEPOINT_NAME_MAX)
    (Hlimit : 0 <= limit < 2 ^ 32) :
  let tn := tracepoint_name pname (attributes attrs) level kw in
  exists code iov ed c,
    EventBuilder_write file level st aid rid b = Ret (code, Some iov) /\
    concat iov = to_ne_bytes 4 st.(write_index) ++ ed /\
    (code = 0 <-> linux_writev (UserEventsDataFile_peek file) iov = Ok tt) /\
    enumerate_with_name_and_data tn ed limit EventHeaderEnumeratorContext_new = Ret (Ok tt, c) /\
    decodes_as b tn name level kw aid rid ed c.
Proof.
  cbv zeta. destruct (written_payload file level st aid rid b name fields) as (code & iov & Ew & Ei & Hc); try done.
  destruct (enumerate_written b level kw aid rid name fields pname attrs limit EventHeaderEnumeratorContext_new)
    as (c & E & W); try done.
  exists code, iov, (event_payload b level aid rid), c. split_and!; try done. by eapply written_decodes.
Qed.

(** An event with one field and an activity id, in the event set [P_L5K1fGg1]. *)
Definition example_id : bytes := map Z.of_nat (seq 1 16).
Definition example_builder `{Target} : outcome EventBuilder :=
  b ← EventBuilder_reset [101; 118] 3 EventBuilder_new;
  add_value 2 [120] [7; 0] FieldFormat_UnsignedInt 0 b.
Definition example_state : TracepointState := {| enable_status := 1; write_index := 9 |}.

Lemma written_event_decodes_witness : exists b, @example_builder little_endian_target = Ret b /\
  let tn := tracepoint_name [80] (attributes example_attributes) 5 0x1F in
  exists code iov ed c,
    @EventBuilder_write little_endian_target example_kernel 5 5 example_state (Some example_id) None b
      = Ret (code, Some iov) /\
    concat iov = @to_ne_bytes little_endian_target 4 9 ++ ed /\
    (code = 0 <-> @linux_writev example_kernel (UserEventsDataFile_peek 5) iov = Ok tt) /\
    enumerate_with_name_and_data tn ed 100 EventHeaderEnumeratorContext_new
      = Ret (Ok tt, c) /\
    @decodes_as little_endian_target b tn [101; 118] 5 0x1F (Some example_id) None ed c.
Proof.
  eexists. split; [vm_compute; reflexivity|].
  apply (@written_event_decodes little_endian_target example_kernel example_kernel_ok 5 example_state _
           [101; 118] [120; 0; 0x83; 1]).
  - constructor; cbn [b_meta b_data b_flags b_version b_id b_tag b_opcode]; try reflexivity;
      try (vm_compute; by split); try (apply bytes_ok_decide; reflexivity); try (repeat constructor).
    vm_compute. discriminate.
  - vm_compute; by split.
  - vm_compute; by split.
  - split; [reflexivity|apply bytes_ok_decide; reflexivity].
  - exact I.
  - reflexivity.
  - discriminate.
  - vm_compute. split; discriminate.
  - repeat constructor.
  - apply bytes_ok_decide. reflexivity.
  - vm_compute. reflexivity.
  - lia.
Defined.
