(* ===== verification/FieldTree.v ===== *)
(** * FieldTree: the fields of an event as a tree, and their bytes

    An event's fields are scalars, arrays and structs.  [field_meta] and
    [field_data] are the bytes a field occupies in the metadata and in the data;
    [add_field] adds it with the methods of the builder, one call per node of the
    tree, and appends exactly these bytes. *)

From S2P Require Import Prelude Types ByteReader EventBytes Tracepoint TracepointProps Provider ProviderProps.
From S2P Require Import Builder BuilderProps.

#[local] Set Warnings "-register-all".

(** The types of values, with the size of a value or of a string's elements. *)
Inductive ValueKind :=
  | KValue (size : Z)
  | KString (size : Z)
  | KZString (size : Z)
  | KBinary.

(** A value is the list of its elements: one for [KValue], the characters of a
    string, the bytes of a binary. *)
Inductive Field :=
  | FScalar (name : bytes) (k : ValueKind) (v : list bytes) (format tag : Z)
  | FArray (name : bytes) (k : ValueKind) (vs : list (list bytes)) (format tag : Z)
  | FStruct (name : bytes) (fields : list Field) (tag : Z).

Definition element_width (k : ValueKind) : Z :=
  match k with KValue n | KString n | KZString n => n | KBinary => 1 end.

(** The sizes that have an encoding. *)
Definition kind_ok (k : ValueKind) : bool :=
  match k with
  | KValue n => existsb (Z.eqb n) [1; 2; 4; 8; 16]
  | KString n | KZString n => existsb (Z.eqb n) [1; 2; 4]
  | KBinary => true
  end.

Definition kind_encoding (k : ValueKind) : Z :=
  match k with
  | KValue n => if n =? 1 then 2 else if n =? 2 then 3 else if n =? 4 then 4 else if n =? 8 then 5 else 6
  | KZString n => if n =? 1 then 7 else if n =? 2 then 8 else 9
  | KString n => if n =? 1 then 10 else if n =? 2 then 11 else 12
  | KBinary => 13
  end.

Definition value_ok (k : ValueKind) (v : list bytes) : Prop :=
  Forall (fun e => len e = element_width k /\ bytes_ok e) v /\
  match k with
  | KValue _ => length v = 1%nat
  | KZString _ => True
  | _ => len v <= 65535
  end.

(** The elements before the first zero element. *)
Fixpoint before_zero (width : Z) (v : list bytes) : list bytes :=
  match v with
  | [] => []
  | e :: v => if is_zero_element width e then [] else e :: before_zero width v
  end.

Section Target.
Context `{Target}.

(** What a consumer reads of a value, and the bytes of the value in the event. *)
Definition value_item (k : ValueKind) (v : list bytes) : bytes :=
  match k with KZString n => concat (before_zero n v) | _ => concat v end.
Definition value_bytes (k : ValueKind) (v : list bytes) : bytes :=
  match k with
  | KValue _ => concat v
  | KZString n => concat (before_zero n v) ++ zero_element n
  | KString _ | KBinary => to_ne_bytes 2 (len v) ++ concat v
  end.

(** The declaration of a field. *)
Definition type_bytes (encoding format tag : Z) : bytes :=
  if negb (tag =? 0) then [Z.lor 0x80 encoding; Z.lor 0x80 format] ++ to_ne_bytes 2 tag
  else if negb (format =? 0) then [Z.lor 0x80 encoding; format]
  else [encoding].
Definition declaration (name : bytes) (encoding format tag : Z) : bytes :=
  name ++ [0] ++ type_bytes encoding format tag.

Fixpoint field_meta (f : Field) : bytes :=
  match f with
  | FScalar name k _ format tag => declaration name (kind_encoding k) format tag
  | FArray name k _ format tag =>
    declaration name (Z.lor (kind_encoding k) FieldEncoding_VArrayFlag) format tag
  | FStruct name fields tag =>
    declaration name FieldEncoding_Struct (len fields) tag ++ concat (map field_meta fields)
  end.
Fixpoint field_data (f : Field) : bytes :=
  match f with
  | FScalar _ k v _ _ => value_bytes k v
  | FArray _ k vs _ _ => to_ne_bytes 2 (len vs) ++ concat (map (value_bytes k) vs)
  | FStruct _ fields _ => concat (map field_data fields)
  end.

(** One method call per node. *)
Definition add_scalar (name : bytes) (k : ValueKind) (v : list bytes) (format tag : Z)
  : EventBuilder -> outcome EventBuilder :=
  match k with
  | KValue n => add_value n name (concat v) format tag
  | KString n => add_str n name v format tag
  | KZString n => add_cstr n name v format tag
  | KBinary => add_binary 1 name v format tag
  end.
Definition add_array (name : bytes) (k : ValueKind) (vs : list (list bytes)) (format tag : Z)
  : EventBuilder -> outcome EventBuilder :=
  match k with
  | KValue n => add_value_sequence n name (map (@concat Z) vs) format tag
  | KString n => add_str_sequence n name vs format tag
  | KZString n => add_cstr_sequence n name vs format tag
  | KBinary => add_binary_sequence 1 name vs format tag
  end.
Definition seq_calls (calls : list (EventBuilder -> outcome EventBuilder)) (b : EventBuilder)
  : outcome EventBuilder :=
  fold_left (fun b call => b ← b; call b) calls (Ret b).
Fixpoint add_field (f : Field) (b : EventBuilder) : outcome EventBuilder :=
  match f with
  | FScalar name k v format tag => add_scalar name k v format tag b
  | FArray name k vs format tag => add_array name k vs format tag b
  | FStruct name fields tag =>
    b ← add_struct name (len fields) tag b; seq_calls (map add_field fields) b
  end.
Definition add_fields (fs : list Field) : EventBuilder -> outcome EventBuilder :=
  seq_calls (map add_field fs).
End Target.

(** ** Well-formed fields *)

Definition decl_ok (name : bytes) (format tag : Z) : Prop :=
  no_nul name /\ bytes_ok name /\ 0 <= format < 128 /\ in_width 16 tag.

Inductive field_ok : Field -> Prop :=
  | scalar_ok name k v format tag :
      decl_ok name format tag -> kind_ok k = true -> value_ok k v ->
      field_ok (FScalar name k v format tag)
  | array_ok name k vs format tag :
      decl_ok name format tag -> kind_ok k = true -> Forall (value_ok k) vs -> len vs <= 65535 ->
      field_ok (FArray name k vs format tag)
  | struct_ok name fields tag :
      decl_ok name 0 tag -> 1 <= len fields <= 127 -> Forall field_ok fields ->
      field_ok (FStruct name fields tag).

(** The structs open at the deepest field. *)
Fixpoint depth (f : Field) : Z :=
  match f with
  | FStruct _ fields _ => 1 + fold_right Z.max 0 (map depth fields)
  | _ => 0
  end.

(** Induction over a field and the lists of fields in it. *)
Section Induction.
Context (P : Field -> Prop).
Context (Hscalar : forall name k v format tag, P (FScalar name k v format tag)).
Context (Harray : forall name k vs format tag, P (FArray name k vs format tag)).
Context (Hstruct : forall name fields tag, Forall P fields -> P (FStruct name fields tag)).

Fixpoint Field_tree_ind (f : Field) : P f :=
  match f with
  | FScalar name k v format tag => Hscalar name k v format tag
  | FArray name k vs format tag => Harray name k vs format tag
  | FStruct name fields tag =>
    Hstruct name fields tag
      ((fix all (fs : list Field) : Forall P fs :=
          match fs with
          | [] => @List.Forall_nil _ P
          | f :: fs => @List.Forall_cons _ P f _ (Field_tree_ind f) (all fs)
          end) fields)
  end.
End Induction.

(** ** The builder appends the bytes of the field *)

Section Append.
Context `{Target}.

Definition appended (meta data : bytes) (b : EventBuilder) : EventBuilder :=
  with_data (b.(b_data) ++ data) (with_meta (b.(b_meta) ++ meta) b).

Lemma appended_app m1 d1 m2 d2 b :
  appended m2 d2 (appended m1 d1 b) = appended (m1 ++ m2) (d1 ++ d2) b.
Proof. unfold appended. cbn. by rewrite <- !(assoc_L (++)). Qed.

Lemma appended_nil b : appended [] [] b = b.
Proof. unfold appended, with_data, with_meta. cbn. rewrite !app_nil_r. by destruct b. Qed.

Lemma no_nul_contains name : no_nul name -> contains_nul name = false.
Proof. unfold contains_nul. induction 1 as [|c l Hc Hl IH]; [done|]. cbn [existsb]. by rewrite Hc. Qed.

Lemma raw_add_meta_ok name encoding format tag b :
  no_nul name -> raw_add_meta name encoding format tag b = Ret (appended (declaration name encoding format tag) [] b).
Proof.
  intros Hn. unfold raw_add_meta. rewrite (no_nul_contains name Hn). cbn [negb rassert mbind outcome_bind].
  unfold appended, declaration, type_bytes, with_meta, with_data. cbn. rewrite app_nil_r.
  by rewrite <- !(assoc_L (++)).
Qed.

Lemma kind_encoding_flags k :
  kind_ok k = true -> Z.land (kind_encoding k) FieldEncoding_FlagMask = 0 /\ 2 <= kind_encoding k <= 13.
Proof.
  intros Hk. destruct k as [n|n|n|]; cbn [kind_ok] in Hk; try (split; [done|]; vm_compute; by split);
    apply existsb_exists in Hk as (m & Hm & ->%Z.eqb_eq); cbn [In] in Hm;
    repeat destruct Hm as [<-|Hm]; try done; split; try done; vm_compute; by split.
Qed.

Lemma concat_values vs : concat (map (@concat Z) vs) = concat (concat vs).
Proof. induction vs as [|v vs IH]; [done|]. cbn [map concat]. by rewrite concat_app, IH. Qed.

Lemma cstr_loop_ok n before rest b :
  raw_add_data_cstr_loop n (before ++ rest) before rest b
  = raw_add_data_value (concat before ++ value_bytes (KZString n) rest) b.
Proof.
  revert before. induction rest as [|e rest IH]; intros before; cbn [raw_add_data_cstr_loop].
  - rewrite app_nil_r. unfold raw_add_data_slice, raw_add_data_value, with_data. cbn.
    by rewrite <- (assoc_L (++)).
  - unfold value_bytes. cbn [before_zero]. unfold is_zero_element. case_bool_decide as E.
    + subst e. unfold raw_add_data_slice, raw_add_data_value, with_data. cbn.
      rewrite concat_app. cbn. by rewrite app_nil_r.
    + replace (before ++ e :: rest) with ((before ++ [e]) ++ rest) by (by rewrite <- (assoc_L (++))).
      rewrite IH. unfold value_bytes. rewrite concat_app. cbn [concat]. rewrite app_nil_r.
      by rewrite <- !(assoc_L (++)).
Qed.

Lemma raw_add_data_cstr_ok n v b : raw_add_data_cstr n v b = appended [] (value_bytes (KZString n) v) b.
Proof.
  unfold raw_add_data_cstr. pose proof (cstr_loop_ok n [] v b) as E. cbn [app concat] in E. rewrite E. unfold appended, raw_add_data_value, with_data. cbn.
  by rewrite app_nil_r.
Qed.

Lemma raw_add_data_counted_ok v b :
  len v <= 65535 -> raw_add_data_counted v b = appended [] (to_ne_bytes 2 (len v) ++ concat v) b.
Proof.
  intros Hv. unfold raw_add_data_counted. rewrite (proj2 (Z.ltb_ge _ _)) by lia.
  unfold raw_add_data_slice, raw_add_data_value, appended, with_data, with_meta. cbn.
  by rewrite <- (assoc_L (++)), app_nil_r.
Qed.

Lemma data_range_ok {T} (add : T -> EventBuilder -> EventBuilder) (g : T -> bytes) vs count b :
  Forall (fun v => forall b, add v b = appended [] (g v) b) vs ->
  0 <= count -> count + len vs <= 65535 ->
  data_range_loop add vs count b = Ret (count + len vs, appended [] (concat (map g vs)) b).
Proof.
  intros Hvs. revert count b. induction Hvs as [|v vs Hv Hvs IH]; intros count b H0 H1; cbn [data_range_loop].
  - cbn [map concat]. by rewrite appended_nil, len_nil, Z.add_0_r.
  - rewrite len_cons in *. pose proof (len_nonneg vs). rewrite (proj2 (Z.eqb_neq _ _)) by lia.
    rewrite checked_ok by lia. cbn [mbind outcome_bind]. rewrite IH by lia. rewrite Hv, appended_app.
    cbn [map concat app]. do 2 f_equal. lia.
Qed.

Lemma raw_add_data_range_ok {T} (add : T -> EventBuilder -> EventBuilder) (g : T -> bytes) vs b :
  Forall (fun v => forall b, add v b = appended [] (g v) b) vs -> len vs <= 65535 ->
  raw_add_data_range add vs b = Ret (appended [] (to_ne_bytes 2 (len vs) ++ concat (map g vs)) b).
Proof.
  intros Hvs Hl. pose proof (len_nonneg vs). pose proof (len_nonneg (b_data b)) as Hd. unfold raw_add_data_range.
  rewrite (data_range_ok add g) by (done || lia). cbn [mbind outcome_bind]. rewrite (Z.add_0_l (len vs)).
  set (d := b_data b) in *. set (body := concat (map g vs)).
  change (b_data _) with ((d ++ to_ne_bytes 2 0) ++ body).
  unfold copy_at. pose proof (length_to_ne_bytes 2 (len vs)) as E2. pose proof (length_to_ne_bytes 2 0) as E0.
  assert (E2' : len (to_ne_bytes 2 (len vs)) = 2) by (unfold len at 1; by rewrite E2).
  pose proof (len_nonneg body). rewrite slice_ok.
  2: { rewrite E2'. lia. }
  2: { assert (E0' : len (to_ne_bytes 2 0) = 2) by (unfold len; by rewrite E0). rewrite E2', !len_app. lia. }
  cbn [mbind outcome_bind]. unfold appended, with_data, with_meta. cbn. do 2 f_equal.
  rewrite <- !(assoc_L (++)). unfold len at 1. rewrite Nat2Z.id, take_app_length. do 2 f_equal.
  rewrite E2'. replace (Z.to_nat (len d + 2)) with (length d + 2)%nat by (unfold len; lia).
  rewrite drop_app_add' by done. by rewrite drop_app_length'.
Qed.

Lemma VALUE_ENCODING_ok n : kind_ok (KValue n) = true -> VALUE_ENCODING n = Ret (kind_encoding (KValue n)).
Proof.
  cbn [kind_ok]. intros (m & Hm & ->%Z.eqb_eq)%existsb_exists. cbn [In] in Hm.
  by repeat destruct Hm as [<-|Hm].
Qed.
Lemma STRING_ENCODING_ok n : kind_ok (KString n) = true -> STRING_ENCODING n = Ret (kind_encoding (KString n)).
Proof.
  cbn [kind_ok]. intros (m & Hm & ->%Z.eqb_eq)%existsb_exists. cbn [In] in Hm.
  by repeat destruct Hm as [<-|Hm].
Qed.
Lemma ZSTRING_ENCODING_ok n : kind_ok (KZString n) = true -> ZSTRING_ENCODING n = Ret (kind_encoding (KZString n)).
Proof.
  cbn [kind_ok]. intros (m & Hm & ->%Z.eqb_eq)%existsb_exists. cbn [In] in Hm.
  by repeat destruct Hm as [<-|Hm].
Qed.

Lemma raw_add_data_value_ok d b : raw_add_data_value d b = appended [] d b.
Proof. unfold appended, raw_add_data_value, with_data, with_meta. cbn. by rewrite app_nil_r. Qed.

(** The encoding and the declaration of a method call. *)
Ltac declare Hk :=
  rewrite ?VALUE_ENCODING_ok, ?STRING_ENCODING_ok, ?ZSTRING_ENCODING_ok by exact Hk;
  change (BINARY_ENCODING 1) with (Ret (kind_encoding KBinary)); cbn [mbind outcome_bind];
  rewrite (proj1 (kind_encoding_flags _ Hk)), Z.eqb_refl; cbn [rassert mbind outcome_bind];
  rewrite raw_add_meta_ok by done; cbn [mbind outcome_bind].

Lemma add_scalar_ok name k v format tag b :
  decl_ok name format tag -> kind_ok k = true -> value_ok k v ->
  add_scalar name k v format tag b
  = Ret (appended (field_meta (FScalar name k v format tag)) (value_bytes k v) b).
Proof.
  intros (Hn & _ & Hf & Ht) Hk [_ Hv].
  destruct k as [n|n|n|]; cbn [add_scalar]; unfold add_value, add_str, add_cstr, add_binary, raw_add_meta_scalar;
    declare Hk; rewrite ?raw_add_data_value_ok, ?raw_add_data_cstr_ok, ?raw_add_data_counted_ok by done;
    by rewrite appended_app, app_nil_r.
Qed.

Lemma add_array_ok name k vs format tag b :
  decl_ok name format tag -> kind_ok k = true -> Forall (value_ok k) vs -> len vs <= 65535 ->
  add_array name k vs format tag b
  = Ret (appended (field_meta (FArray name k vs format tag)) (field_data (FArray name k vs format tag)) b).
Proof.
  intros (Hn & _ & Hf & Ht) Hk Hvs Hl.
  assert (Hcounted : forall k, (k = KBinary \/ exists n, k = KString n) -> Forall (value_ok k) vs ->
    Forall (fun v => forall b, raw_add_data_counted v b = appended [] (value_bytes k v) b) vs).
  { intros k' Hk' Hvs'. eapply List.Forall_impl; [|exact Hvs']. intros v [_ Hv] b'.
    destruct Hk' as [->|[n ->]]; by apply raw_add_data_counted_ok. }
  destruct k as [n|n|n|]; cbn [add_array];
    unfold add_value_sequence, add_str_sequence, add_cstr_sequence, add_binary_sequence, raw_add_meta_vcount;
    declare Hk.
  - assert (El : len (map (@concat Z) vs) = len vs) by (unfold len; by rewrite length_map).
    rewrite (raw_add_data_range_ok _ (fun d => d)); [|apply Forall_forall; intros; apply raw_add_data_value_ok|by rewrite El].
    rewrite appended_app, app_nil_r, map_id, El. reflexivity.
  - rewrite (raw_add_data_range_ok _ (value_bytes (KString n))) by (try done; apply Hcounted; eauto).
    by rewrite appended_app, app_nil_r.
  - rewrite (raw_add_data_range_ok _ (value_bytes (KZString n))); [by rewrite appended_app, app_nil_r| |done].
    apply Forall_forall. intros v _ b'. apply raw_add_data_cstr_ok.
  - rewrite (raw_add_data_range_ok _ (value_bytes KBinary)) by (try done; apply Hcounted; eauto).
    by rewrite appended_app, app_nil_r.
Qed.

Lemma seq_calls_ok {A} (call : A -> EventBuilder -> outcome EventBuilder) (m d : A -> bytes) l b :
  Forall (fun a => forall b, call a b = Ret (appended (m a) (d a) b)) l ->
  seq_calls (map call l) b = Ret (appended (concat (map m l)) (concat (map d l)) b).
Proof.
  unfold seq_calls. intros Hl. revert b. induction Hl as [|a l Ha Hl IH]; intros b; cbn [map fold_left concat].
  - by rewrite appended_nil.
  - cbn [mbind outcome_bind]. by rewrite Ha, IH, appended_app.
Qed.

Lemma masked_field_count_ok n : 1 <= n <= 127 -> masked_field_count n = Ret n.
Proof.
  intros Hn. unfold masked_field_count. cbv zeta. unfold FieldFormat_ValueMask.
  assert (E : Z.land n 127 = n). { change 127 with (Z.ones 7). rewrite Z.land_ones by lia. apply Z.mod_small. lia. }
  rewrite E, Z.eqb_refl. cbn [rassert mbind outcome_bind]. by rewrite (proj2 (Z.eqb_neq n 0)) by lia.
Qed.

Lemma add_field_ok f : field_ok f -> forall b, add_field f b = Ret (appended (field_meta f) (field_data f) b).
Proof.
  induction f as [name k v format tag|name k vs format tag|name fields tag IH] using Field_tree_ind;
    intros Hf b; inversion Hf; subst; cbn [add_field].
  - by apply add_scalar_ok.
  - by apply add_array_ok.
  - match goal with H : decl_ok _ _ _ |- _ => destruct H as (Hn & _) end.
    unfold add_struct. rewrite masked_field_count_ok by done. cbn [mbind outcome_bind].
    rewrite raw_add_meta_ok by done. cbn [mbind outcome_bind].
    rewrite (seq_calls_ok _ field_meta field_data).
    + by rewrite appended_app.
    + apply Forall_forall. intros f Hin. rewrite Forall_forall in IH.
      apply IH; [done|]. match goal with H : Forall field_ok fields |- _ => rewrite Forall_forall in H; by apply H end.
Qed.

Lemma add_fields_ok fs b :
  Forall field_ok fs ->
  add_fields fs b = Ret (appended (concat (map field_meta fs)) (concat (map field_data fs)) b).
Proof.
  intros Hfs. apply seq_calls_ok. eapply List.Forall_impl; [|exact Hfs]. intros f Hf b'. by apply add_field_ok.
Qed.
End Append.
