(* ===== verification/FieldWalk.v ===== *)
(** * FieldWalk: the enumerator reads what a field's bytes declare

    With the bytes of a field at the current metadata and data offsets, each move
    of the enumerator is computed: the declaration is read back, and a value is
    found with its size. *)

From S2P Require Import Prelude Types ByteReader PerfItem Enumerator EnumeratorInv EnumeratorSpec EnumeratorWalk.
From S2P Require Import EventBytes Tracepoint TracepointProps Provider ProviderProps Builder BuilderProps FieldTree.

(** ** Declarations *)

Definition chained (e : Z) : bool :=
  (128 <=? e) ||
  FieldEncoding_has_chain_flag (Z.lor 0x80 e) && FieldFormat_has_chain_flag (Z.lor 0x80 e) &&
  (FieldEncoding_without_chain_flag (Z.lor 0x80 e) =? e) && (FieldFormat_without_flags (Z.lor 0x80 e) =? e) &&
  negb (FieldEncoding_has_chain_flag e) && negb (FieldFormat_has_chain_flag e) &&
  (FieldEncoding_without_chain_flag e =? e) && (FieldFormat_without_flags e =? e).

Lemma chain_flag e : 0 <= e < 128 ->
  FieldEncoding_has_chain_flag (Z.lor 0x80 e) = true /\ FieldFormat_has_chain_flag (Z.lor 0x80 e) = true /\
  FieldEncoding_without_chain_flag (Z.lor 0x80 e) = e /\ FieldFormat_without_flags (Z.lor 0x80 e) = e /\
  FieldEncoding_has_chain_flag e = false /\ FieldFormat_has_chain_flag e = false /\
  FieldEncoding_without_chain_flag e = e /\ FieldFormat_without_flags e = e.
Proof.
  intros He. assert (E : chained e = true) by (apply u8_exhaustive; [by vm_compute|unfold is_u8; lia]).
  unfold chained in E. rewrite (proj2 (Z.leb_gt 128 e)) in E by lia. cbn [orb] in E. bool_hyps. done.
Qed.

Section Walk.
Context `{Target} (ed : bytes) (Hbytes : bytes_ok ed) (Hlen : len ed < 2 ^ 31).

Lemma type_bytes_decode e f t p me :
  holds_at ed p (type_bytes e f t) -> p + len (type_bytes e f t) <= me ->
  0 <= e < 128 -> 0 <= f < 128 -> in_width 16 t ->
  field_type_at ed me host_reader p =
    Ret ({| ft_encoding := e; ft_format := f; ft_tag := t |}, p + len (type_bytes e f t)).
Proof.
  intros Hh Hme He Hf Ht. destruct (chain_flag e He) as (E1 & _ & E3 & _ & E5 & _ & E7 & _).
  destruct (chain_flag f Hf) as (_ & F2 & _ & F4 & _ & F6 & _ & F8). unfold field_type_at, type_bytes in *.
  destruct (Z.eqb_spec t 0) as [->|Ht0]; cbn [negb] in *; [destruct (Z.eqb_spec f 0) as [->|Hf0]; cbn [negb] in *|].
  - rewrite (holds_index _ _ _ _ Hh). cbn [mbind outcome_bind]. by rewrite E5, E7.
  - rewrite (holds_index _ _ _ _ Hh). cbn [mbind outcome_bind]. rewrite E1.
    apply holds_at_cons in Hh as [_ Hh]. autorewrite with tp_simpl in Hme.
    rewrite (proj2 (Z.eqb_neq _ _)) by lia. rewrite (holds_index _ _ _ _ Hh). cbn [mbind outcome_bind]. cbv zeta.
    by rewrite F6, E3, F8.
  - cbn [app] in Hh. rewrite (holds_index _ _ _ _ Hh). cbn [mbind outcome_bind]. rewrite E1.
    apply holds_at_cons in Hh as [_ Hh].
    assert (L2 : len (to_ne_bytes 2 t) = 2) by (unfold len; by rewrite length_to_ne_bytes).
    autorewrite with tp_simpl in *. rewrite L2 in *.
    rewrite (proj2 (Z.eqb_neq _ _)) by lia. rewrite (holds_index _ _ _ _ Hh). cbn [mbind outcome_bind]. cbv zeta.
    rewrite F2, (proj2 (Z.ltb_ge _ _)) by lia.
    apply holds_at_cons in Hh as [_ Hh]. rewrite to_ne_source in Hh. replace (p + 1 + 1) with (p + 2) in Hh by lia.
    pose proof (holds_read_uint _ 2 host_reader _ _ Hh Ht) as R. unfold read_u16.
    change (Z.of_nat 2) with 2 in R. destruct (slice_from ed (p + 2)) as [s|]; [|done].
    cbn [mbind outcome_bind] in *. rewrite R. cbn [mbind outcome_bind]. rewrite E3, F4. reflexivity.
Qed.

Lemma len_type_bytes e f t : 1 <= len (type_bytes e f t).
Proof.
  unfold type_bytes. pose proof (len_nonneg (to_ne_bytes 2 t)). destruct (negb (t =? 0)); [|destruct (negb (f =? 0))]; autorewrite with tp_simpl; lia.
Qed.

(** The context in which the type of the next field has been read. *)
Definition field_ctx (name : bytes) (e f t : Z) (c : Ctx) : Ctx :=
  let top := c.(stack_top) in
  set_field_type {| ft_encoding := e; ft_format := f; ft_tag := t |}
    (set_stack_top {| next_offset := top.(next_offset) + len (declaration name e f t);
                      name_offset := top.(next_offset); name_len := len name;
                      array_index := 0; array_count := top.(array_count);
                      remaining_field_count := top.(remaining_field_count) - 1 |} c).

Lemma next_property_declared name e f t c :
  Base ed c -> c.(byte_reader) = host_reader -> c.(stack_top).(remaining_field_count) <> 0 ->
  holds_at ed c.(stack_top).(next_offset) (declaration name e f t) ->
  c.(stack_top).(next_offset) + len (declaration name e f t) <= c.(meta_end) ->
  no_nul name -> 0 <= e < 128 -> 0 <= f < 128 -> in_width 16 t ->
  next_property ed c = start_property ed (field_ctx name e f t c).
Proof.
  intros HB Hr Hn Hh Hme Hname He Hf Ht. pose proof (base_bounds _ _ HB) as Hb.
  pose proof (base_next_offset _ _ HB) as Hno. pose proof (base_field_count _ _ HB) as Hfc.
  pose proof (len_type_bytes e f t) as Htl. pose proof (len_nonneg name) as Hnl.
  assert (Hd : len (declaration name e f t) = len name + 1 + len (type_bytes e f t)).
  { unfold declaration. autorewrite with tp_simpl. lia. }
  unfold next_property. rewrite (proj2 (Z.eqb_neq _ 0)), (proj2 (Z.eqb_neq _ _)) by lia. cbn [negb andb].
  unfold next_field. rewrite checked_ok by lia. cbn [mbind outcome_bind]. cbv zeta.
  set (c1 := upd_top _ (upd_top _ (upd_top _ c))). unfold read_field_name_and_type.
  change (name_offset (stack_top c1)) with (next_offset (stack_top c)). change (meta_end c1) with (meta_end c).
  cbv zeta. rewrite (proj2 (Z.leb_le _ _)) by lia. cbn [rassert mbind outcome_bind].
  unfold declaration in Hh. rewrite (assoc_L (++)) in Hh. apply holds_at_app in Hh as [Hh1 Hh2].
  rewrite (holds_scan_nul ed _ _ name Hh1 Hname) by lia. cbn [mbind outcome_bind].
  rewrite (checked_ok 32 (meta_end c - (c.(stack_top).(next_offset) + len name))) by lia.
  cbn [mbind outcome_bind]. rewrite (proj2 (Z.ltb_ge _ _)) by lia.
  rewrite (checked_ok 32 (c.(stack_top).(next_offset) + len name + 1)) by lia.
  cbn [mbind outcome_bind]. rewrite len_app in Hh2. change (len [0]) with 1 in Hh2.
  rewrite (Z.add_assoc _ _ 1) in Hh2.
  rewrite (read_field_type_eq ed Hbytes Hlen) by (change (meta_end _) with (meta_end c); lia).
  change (meta_end (upd_top _ c1)) with (meta_end c). change (byte_reader (upd_top _ c1)) with (byte_reader c).
  rewrite Hr, (type_bytes_decode e f t _ (meta_end c) Hh2) by (done || lia). cbn [mbind outcome_bind].
  f_equal. rewrite as_unsigned_id by lia. unfold field_ctx. cbv zeta. subst c1. rewrite Hd.
  replace (next_offset (stack_top c) + len name + 1 + len (type_bytes e f t))
    with (next_offset (stack_top c) + (len name + 1 + len (type_bytes e f t))) by lia.
  replace (next_offset (stack_top c) + len name - next_offset (stack_top c)) with (len name) by lia.
  clear. by destruct c.
Qed.

(** ** Values *)

Lemma le_value_zero l : bytes_ok l -> (le_value l =? 0) = bool_decide (l = repeat 0 (length l)).
Proof.
  induction 1 as [|b l Hb Hl IH]; [done|]. pose proof (le_value_bound l Hl) as Hv. unfold is_u8 in Hb.
  cbn [le_value length repeat]. destruct (Z.eqb_spec (le_value l) 0) as [E|E].
  - symmetry in IH. apply bool_decide_eq_true in IH. rewrite <- IH. rewrite E, Z.mul_0_r, Z.add_0_r.
    destruct (Z.eqb_spec b 0) as [->|Hb0]; symmetry; [by apply bool_decide_eq_true|].
    apply bool_decide_eq_false. congruence.
  - symmetry in IH. apply bool_decide_eq_false in IH. rewrite (proj2 (Z.eqb_neq _ _)) by lia.
    symmetry. apply bool_decide_eq_false. congruence.
Qed.

Lemma repeat_rev {A} (x : A) n : rev (repeat x n) = repeat x n.
Proof.
  induction n as [|n IH]; [done|]. cbn [repeat rev]. rewrite IH. clear IH.
  induction n as [|n IH]; [done|]. cbn [repeat app]. by rewrite IH.
Qed.

Lemma from_ne_zero n e :
  len e = n -> bytes_ok e -> (0 =? from_ne_bytes e) = is_zero_element n e.
Proof.
  intros Hl He. unfold from_ne_bytes, is_zero_element, zero_element. rewrite Z.eqb_sym.
  replace (Z.to_nat n) with (length e) by (unfold len in Hl; lia).
  case_match; [|by apply le_value_zero]. unfold be_value.
  rewrite le_value_zero by (by apply Forall_rev). rewrite length_rev.
  apply bool_decide_ext. split; intros E; [|by rewrite E at 1; rewrite repeat_rev].
  apply (f_equal (@rev Z)) in E. by rewrite rev_involutive, repeat_rev in E.
Qed.

(** The test that the scan for a string of [n]-byte elements uses. *)
Definition nul_test (n : Z) : bytes -> Z -> outcome bool :=
  if n =? 1 then char8_is_nul else char_is_nul n.

Lemma nul_test_ok n p e :
  holds_at ed p e -> len e = n -> 0 < n -> bytes_ok e -> nul_test n ed p = Ret (is_zero_element n e).
Proof.
  intros Hh Hl Hn He. rewrite <- (from_ne_zero n e Hl He). unfold nul_test.
  destruct (Z.eqb_spec n 1) as [->|Hn1].
  - destruct e as [|b [|]]; unfold len in Hl; cbn in Hl; try lia. unfold char8_is_nul.
    rewrite (holds_index _ _ _ _ Hh). cbn [mbind outcome_bind]. unfold from_ne_bytes. do 2 f_equal.
    case_match; cbn; lia.
  - unfold char_is_nul. rewrite (holds_slice ed p (p + n) e Hh) by lia. done.
Qed.

Lemma len_zero_element n : 0 <= n -> len (zero_element n) = n.
Proof. intros. unfold zero_element, len. rewrite repeat_length. lia. Qed.

Lemma is_zero_zero n : is_zero_element n (zero_element n) = true.
Proof. by apply bool_decide_eq_true. Qed.

Lemma zero_element_ok n : bytes_ok (zero_element n).
Proof. apply Forall_forall. intros x Hx%repeat_spec. subst. unfold is_u8. lia. Qed.

Lemma zstring_scan_found n v p fuel :
  0 < n -> Forall (fun e => len e = n /\ bytes_ok e) v ->
  holds_at ed p (value_bytes (KZString n) v) -> len ed - n + 1 - p < Z.of_nat fuel ->
  zstring_scan (nul_test n ed) n (len ed - n + 1) fuel p = Ret (Some (p + len (value_item (KZString n) v))).
Proof using Hbytes.
  intros Hn Hv. revert p fuel. unfold value_bytes, value_item.
  induction Hv as [|e v [Hl He] Hv IH]; intros p fuel Hh Hf; cbn [before_zero concat] in *.
  - cbn [app] in Hh. pose proof (holds_bounds _ _ _ Hh) as Hb. rewrite len_zero_element in Hb by lia.
    destruct fuel; [lia|]. cbn [zstring_scan]. rewrite (proj2 (Z.ltb_lt _ _)) by lia.
    rewrite (nul_test_ok n p (zero_element n)) by solve [done | apply len_zero_element; lia | apply zero_element_ok].
    rewrite is_zero_zero. cbn [mbind outcome_bind]. do 2 f_equal. rewrite len_nil. lia.
  - revert Hh. destruct (is_zero_element n e) eqn:Ez; intros Hh;
    (assert (Hb : p < len ed - n + 1);
     [pose proof (holds_bounds _ _ _ Hh) as Hb; cbn [concat] in Hb; rewrite !len_app, len_zero_element in Hb by lia; pose proof (len_nonneg (concat (before_zero n v)));
        try change (len (@nil Z)) with 0 in Hb; lia|]);
    (destruct fuel; [lia|]); cbn [zstring_scan]; rewrite (proj2 (Z.ltb_lt _ _)) by lia;
    cbn [concat app] in *.
    + assert (e = zero_element n) as -> by (by apply bool_decide_eq_true in Ez).
      rewrite (nul_test_ok n p (zero_element n)) by done. rewrite Ez. cbn [mbind outcome_bind].
      do 2 f_equal. rewrite len_nil. lia.
    + rewrite <- (assoc_L (++)) in Hh. apply holds_at_app in Hh as [H1 H2].
      rewrite (nul_test_ok n p e) by done. rewrite Ez. cbn [mbind outcome_bind].
      rewrite Hl in H2. rewrite IH by (done || lia). do 2 f_equal. rewrite len_app. lia.
Qed.

Definition value_offset (k : ValueKind) : Z := match k with KString _ | KBinary => 2 | _ => 0 end.

(** The item of a value at the data offset [d]. *)
Definition with_value (k : ValueKind) (v : list bytes) (d : Z) (c : Ctx) : Ctx :=
  with_item (d + value_offset k) (len (value_bytes k v)) (len (value_item k v)) c.

Lemma len_concat w (v : list bytes) : Forall (fun e => len e = w /\ bytes_ok e) v -> len (concat v) = w * len v.
Proof.
  induction 1 as [|e v [He _] Hv IH]; [unfold len; cbn; lia|]. cbn [concat]. rewrite len_app, len_cons, IH, He. lia.
Qed.

Lemma string_item k sh v :
  (k = KBinary /\ sh = 0) \/ (exists n, k = KString n /\ (n = 1 /\ sh = 0 \/ n = 2 /\ sh = 1 \/ n = 4 /\ sh = 2)) ->
  value_ok k v -> 0 <= len v <= 65535 /\ Z.shiftl (len v) sh = len (value_item k v) /\
  value_bytes k v = to_source_bytes host_reader 2 (len v) ++ value_item k v /\
  len (value_item k v) <= 4 * 65535.
Proof.
  intros Hk [He Hv]. pose proof (len_nonneg v). rewrite <- to_ne_source.
  destruct Hk as [[-> ->]|(n & -> & Hn)]; cbn [value_item value_bytes element_width] in *;
    rewrite (len_concat _ _ He);
    try (destruct Hn as [[-> ->]|[[-> ->]|[-> ->]]]);
    split_and!; try done; try lia; rewrite Z.shiftl_mul_pow2 by lia; lia.
Qed.

Lemma len_to_ne n v : len (to_ne_bytes n v) = Z.of_nat n.
Proof. unfold len. by rewrite length_to_ne_bytes. Qed.

Lemma kind_struct_type c k :
  FieldEncoding_without_flags c.(field_type).(ft_encoding) = kind_encoding k -> kind_ok k = true ->
  struct_type c.(field_type) = false.
Proof.
  intros E Hk. unfold struct_type. rewrite E. apply Z.eqb_neq.
  pose proof (proj2 (kind_encoding_flags k Hk)). unfold FieldEncoding_Struct. lia.
Qed.

Lemma value_bytes_bounds k v : kind_ok k = true -> value_ok k v -> 0 <= len (value_item k v) /\
  0 <= len (value_bytes k v) /\
  (value_offset k + len (value_item k v) <= len (value_bytes k v)).
Proof.
  intros Hk Hv. pose proof (len_nonneg (value_item k v)). pose proof (len_nonneg (value_bytes k v)).
  split_and!; [done|done|]. destruct k as [n|n|n|]; cbn [value_offset value_item value_bytes];
    rewrite ?len_app, ?len_to_ne; try lia.
  pose proof (len_nonneg (zero_element n)). lia.
Qed.

(** Where [start_value] hands over to the method of the encoding. *)
Definition value_base (c : Ctx) : Ctx := set_element_size 0 (set_data_pos_cooked c.(data_pos_raw) c).

Lemma fixed_length_found n v c :
  8 <= c.(data_pos_raw) -> 0 < n -> value_ok (KValue n) v -> holds_at ed c.(data_pos_raw) (value_bytes (KValue n) v) ->
  start_value_fixed_length ed n (value_base c)
  = Ret (true, with_value (KValue n) v c.(data_pos_raw) (set_element_size n c)).
Proof using Hlen.
  intros Hd Hn [He Hv] Hh. pose proof (holds_bounds _ _ _ Hh) as Hb. cbn [value_bytes] in *.
  unfold start_value_fixed_length, remaining_data, with_value. cbn [value_bytes value_item value_offset].
  rewrite (len_concat _ _ He) in *. cbn [element_width] in *. replace (n * len v) with n in * by (unfold len; rewrite Hv; lia).
  rewrite as_unsigned_id by (pose proof (len_nonneg ed); lia).
  change (data_pos_raw (set_element_size n (value_base c))) with (data_pos_raw c). rewrite checked_ok by lia. cbn [mbind outcome_bind].
  rewrite (proj2 (Z.ltb_ge _ _)) by lia. rewrite Z.add_0_r. unfold value_base. do 2 f_equal; ctx_eq c.
Qed.

Lemma zstring_found n v c :
  8 <= c.(data_pos_raw) -> 0 < n -> value_ok (KZString n) v ->
  holds_at ed c.(data_pos_raw) (value_bytes (KZString n) v) ->
  start_value_zstring (nul_test n) n ed (value_base c)
  = Ret (with_value (KZString n) v c.(data_pos_raw) (set_element_size 0 c)).
Proof using Hbytes Hlen.
  intros Hd Hn [He _] Hh. pose proof (holds_bounds _ _ _ Hh) as Hb.
  assert (El : len (value_bytes (KZString n) v) = len (value_item (KZString n) v) + n).
  { unfold value_bytes, value_item. by rewrite len_app, len_zero_element by lia. }
  pose proof (len_nonneg (value_item (KZString n) v)) as Hi.
  unfold start_value_zstring. rewrite (checked_ok 64 (len ed - n)) by lia. cbn [mbind outcome_bind].
  rewrite (checked_ok 64 (len ed - n + 1)) by lia. cbn [mbind outcome_bind].
  change (data_pos_raw (value_base c)) with (data_pos_raw c).
  rewrite (zstring_scan_found n v) by (done || lia). cbn [mbind outcome_bind].
  rewrite as_unsigned_id by lia. rewrite Z.add_simpl_l. rewrite checked_ok by lia. cbn [mbind outcome_bind].
  rewrite checked_ok by lia. cbn [mbind outcome_bind]. f_equal. unfold with_value. cbn [value_offset].
  rewrite El, Z.add_0_r. unfold value_base. f_equal; ctx_eq c.
Qed.

Lemma string_found k sh v c :
  8 <= c.(data_pos_raw) ->
  (k = KBinary /\ sh = 0) \/ (exists n, k = KString n /\ (n = 1 /\ sh = 0 \/ n = 2 /\ sh = 1 \/ n = 4 /\ sh = 2)) ->
  value_ok k v -> c.(byte_reader) = host_reader -> holds_at ed c.(data_pos_raw) (value_bytes k v) ->
  start_value_string ed sh (value_base c)
  = Ret (with_value k v c.(data_pos_raw) (set_element_size 0 c)).
Proof using Hlen.
  intros Hd Hk Hv Hr Hh. destruct (string_item k sh v Hk Hv) as (Hc & Hsh & Eb & Hi).
  pose proof (holds_bounds _ _ _ Hh) as Hb. pose proof (len_nonneg (value_item k v)) as Hi0.
  assert (El : len (value_bytes k v) = 2 + len (value_item k v)).
  { rewrite Eb, len_app, <- to_ne_source, len_to_ne. lia. }
  assert (Eo : value_offset k = 2) by (destruct Hk as [[-> _]|(n & -> & _)]; done).
  rewrite Eb in Hh. apply holds_at_app in Hh as [Hh _].
  unfold start_value_string, remaining_data. rewrite as_unsigned_id by (pose proof (len_nonneg ed); lia).
  change (data_pos_raw (value_base c)) with (data_pos_raw c).
  rewrite (checked_ok 32 (len ed - c.(data_pos_raw))) by lia. cbn [mbind outcome_bind].
  rewrite (proj2 (Z.ltb_ge _ _)) by lia. rewrite (checked_ok 32 (c.(data_pos_raw) + 2)) by lia.
  cbn [mbind outcome_bind]. cbv zeta.
  change (data_pos_raw (set_data_pos_cooked _ _)) with (data_pos_raw c).
  change (byte_reader (set_data_pos_cooked _ _)) with (byte_reader c).
  pose proof (holds_read_uint _ 2 _ _ _ Hh ltac:(lia)) as R. rewrite Hr. unfold read_u16.
  change (Z.of_nat 2) with 2 in R. destruct (slice_from ed c.(data_pos_raw)) as [s|]; [|done].
  cbn [mbind outcome_bind] in *. rewrite R. cbn [mbind outcome_bind]. rewrite Hsh, as_unsigned_id by lia.
  change (item_size_cooked (set_item_size_cooked ?x _)) with x. rewrite checked_ok by lia. cbn [mbind outcome_bind].
  f_equal. unfold with_value. rewrite Eo, El. rewrite (Z.add_comm (len _) 2). unfold value_base. f_equal; ctx_eq c.
Qed.

(** The end of the string arms, for an item that fits. *)
Lemma variable_found k v c :
  c.(data_pos_raw) + len (value_bytes k v) <= len ed ->
  (c ← Ret (with_value k v c.(data_pos_raw) (set_element_size 0 c));
   if len ed - c.(data_pos_raw) <? c.(item_size_raw)
   then Ret (set_error_state ErInvalidData (set_item_size_raw 0 (set_item_size_cooked 0 c))) else Ret (true, c))
  = Ret (true, with_value k v c.(data_pos_raw) (set_element_size 0 c)).
Proof.
  intros Hb. cbn [mbind outcome_bind]. change (data_pos_raw (with_value _ _ _ _)) with (data_pos_raw c).
  change (item_size_raw (with_value _ _ _ _)) with (len (value_bytes k v)). by rewrite (proj2 (Z.ltb_ge _ _)) by lia.
Qed.

(** [start_value] finds a value at the data position. *)
Lemma start_value_found k v c :
  Base ed c -> live ed c -> c.(state) = StValue -> c.(byte_reader) = host_reader ->
  FieldEncoding_without_flags c.(field_type).(ft_encoding) = kind_encoding k ->
  kind_ok k = true -> value_ok k v -> holds_at ed c.(data_pos_raw) (value_bytes k v) ->
  start_value ed c = Ret (true, with_value k v c.(data_pos_raw) (set_element_size (field_size c) c)).
Proof using Hbytes Hlen.
  intros HB HL Hs Hr Hk Hkok Hv Hh. pose proof (base_bounds _ _ HB) as Hb.
  destruct (live_type _ Hbytes _ HB HL) as [_ Hdt]. pose proof HL as (Hno & Hnl & Hto & _).
  unfold type_offset in *. pose proof (holds_bounds _ _ _ Hh) as Hhb.
  unfold start_value. unfold remaining_data at 1. rewrite as_unsigned_id by (pose proof (len_nonneg ed); lia).
  rewrite (checked_ok 32 (len ed - c.(data_pos_raw))) by lia. cbn [mbind outcome_bind].
  rewrite Hs, bool_decide_true by done. cbn [rassert mbind outcome_bind].
  rewrite (checked_ok 32 (_ + name_len _)) by lia. cbn [mbind outcome_bind].
  rewrite (checked_ok 32 (_ + name_len _ + 1)) by lia. cbn [mbind outcome_bind].
  rewrite index_byte_at by lia. cbn [mbind outcome_bind]. rewrite <- Hdt, Z.eqb_refl.
  cbn [rassert mbind outcome_bind]. cbv zeta. fold (value_base c).
  change (ft_encoding (field_type (value_base c))) with (ft_encoding (field_type c)).
  unfold field_size. rewrite Hk.
  pose proof (variable_found k v c ltac:(lia)) as Hvar.
  assert (Hfix : forall n, 0 < n -> k = KValue n -> start_value_fixed_length ed n (value_base c)
     = Ret (true, with_value k v c.(data_pos_raw) (set_element_size n c)))
    by (intros n ? ->; apply fixed_length_found; done || lia).
  assert (Hz : forall n, 0 < n -> k = KZString n -> start_value_zstring (nul_test n) n ed (value_base c)
     = Ret (with_value k v c.(data_pos_raw) (set_element_size 0 c)))
    by (intros n ? ->; apply zstring_found; done || lia).
  assert (Hstr : forall sh, (k = KBinary /\ sh = 0) \/
      (exists n, k = KString n /\ (n = 1 /\ sh = 0 \/ n = 2 /\ sh = 1 \/ n = 4 /\ sh = 2)) ->
      start_value_string ed sh (value_base c) = Ret (with_value k v c.(data_pos_raw) (set_element_size 0 c)))
    by (intros; apply string_found; done || lia).
  destruct k as [n|n|n|]; cbn [kind_ok] in Hkok;
    try (apply existsb_exists in Hkok as (m & Hm & ->%Z.eqb_eq); cbn [In] in Hm);
    repeat match goal with
    | H : _ \/ _ |- _ => destruct H as [<-|H]
    | H : False |- _ => destruct H
    end;
    cbn -[mbind with_value start_value_string start_value_fixed_length start_value_zstring8
          start_value_zstring16 start_value_zstring32].
  1-5: by apply Hfix.
  1-3: rewrite Hstr by (right; eexists; split; [done|tauto]); exact Hvar.
  - change (start_value_zstring8 ed) with (start_value_zstring (nul_test 1) 1 ed). rewrite Hz by done. exact Hvar.
  - change (start_value_zstring16 ed) with (start_value_zstring (nul_test 2) 2 ed). rewrite Hz by done. exact Hvar.
  - change (start_value_zstring32 ed) with (start_value_zstring (nul_test 4) 4 ed). rewrite Hz by done. exact Hvar.
  - rewrite Hstr by (by left). exact Hvar.
Qed.
End Walk.
