(* ===== verification/FieldVisit.v ===== *)
(** * FieldVisit: a traversal visits the fields in order

    [runs]: a stretch of a traversal, from one outcome of [next_property] to
    another, with the contexts it visits.  The bytes of a field at the current
    offsets make the enumerator visit exactly the items of the field. *)

From S2P Require Import Prelude Types ByteReader PerfItem Enumerator EnumeratorInv EnumeratorSpec EnumeratorWalk.
From S2P Require Import EventBytes Tracepoint TracepointProps Provider ProviderProps Builder BuilderProps FieldTree FieldWalk.

(** What an item shows: the state, the name, the type and the bytes of the value. *)
Record Item := { it_state : EventHeaderEnumeratorState; it_name : bytes; it_type : FieldType; it_value : bytes }.

Definition field_type_of (e f t : Z) : FieldType := {| ft_encoding := e; ft_format := f; ft_tag := t |}.

(** The kinds whose arrays the enumerator takes as one block. *)
Definition is_fixed (k : ValueKind) : bool := match k with KValue _ => true | _ => false end.

(** The items of a field, in the order of a traversal. *)
Fixpoint field_items (f : Field) : list Item :=
  match f with
  | FScalar name k v format tag =>
    [{| it_state := StValue; it_name := name;
        it_type := field_type_of (kind_encoding k) format tag; it_value := value_item k v |}]
  | FArray name k vs format tag =>
    let item s v := {| it_state := s; it_name := name;
      it_type := field_type_of (Z.lor (kind_encoding k) FieldEncoding_VArrayFlag) format tag; it_value := v |} in
    item StArrayBegin (if is_fixed k then concat (map (value_item k) vs) else [])
    :: map (fun v => item StValue (value_item k v)) vs ++ [item StArrayEnd []]
  | FStruct name fields tag =>
    let item s := {| it_state := s; it_name := name;
      it_type := field_type_of FieldEncoding_Struct (len fields) tag; it_value := [] |} in
    item StStructBegin :: concat (map field_items fields) ++ [item StStructEnd]
  end.

Section Visit.
Context `{Target} (ed : bytes) (Hbytes : bytes_ok ed) (Hlen : len ed < 2 ^ 31).

Definition seen (c : Ctx) : Item :=
  {| it_state := c.(state);
     it_name := sub ed c.(stack_top).(name_offset) (c.(stack_top).(name_offset) + c.(stack_top).(name_len));
     it_type := c.(field_type);
     it_value := sub ed c.(data_pos_cooked) (c.(data_pos_cooked) + c.(item_size_cooked)) |}.

(** [while move_next() { .. }]: the contexts visited and the one at the end. *)
Fixpoint visit (fuel : nat) (r : outcome (bool * Ctx)) : outcome (list Ctx * Ctx) :=
  '(b, c) ← r;
  if (b : bool) then
    match fuel with
    | O => Panic
    | S fuel => '(l, e) ← visit fuel (move_next_impl ed c); Ret (c :: l, e)
    end
  else Ret ([], c).

Fixpoint runs (r : outcome (bool * Ctx)) (cs : list Ctx) (r' : outcome (bool * Ctx)) {struct cs} : Prop :=
  match cs with
  | [] => r = r'
  | c :: cs => r = Ret (true, c) /\ runs (move_next_impl ed c) cs r'
  end.

Lemma runs_refl r : runs r [] r.
Proof. done. Qed.

Lemma runs_step r c cs r' : r = Ret (true, c) -> runs (move_next_impl ed c) cs r' -> runs r (c :: cs) r'.
Proof. by split. Qed.

Lemma runs_trans r cs r' cs' r'' : runs r cs r' -> runs r' cs' r'' -> runs r (cs ++ cs') r''.
Proof.
  revert r. induction cs as [|c cs IH]; intros r H1 H2; [cbn in H1; by subst|].
  destruct H1 as [-> H1]. split; [done|]. by apply IH.
Qed.

Lemma runs_eq r r0 cs r' : r = r0 -> runs r0 cs r' -> runs r cs r'.
Proof. by intros ->. Qed.

(** What a traversal collects over the stretch. *)
Lemma runs_visit r cs r' fuel :
  runs r cs r' -> visit (length cs + fuel) r = '(l, e) ← visit fuel r'; Ret (cs ++ l, e).
Proof.
  revert r. induction cs as [|c cs IH]; intros r H1.
  - cbn in H1. subst. cbn [length Nat.add app]. by destruct (visit fuel r') as [[? ?]|].
  - destruct H1 as [-> H1]. cbn [length Nat.add visit mbind outcome_bind]. rewrite IH by done.
    by destruct (visit fuel r') as [[? ?]|].
Qed.

(** What a stretch that visits [n] items, over [m] bytes of metadata and [d] bytes
    of data, leaves of the context. *)
Definition after (m d n fields : Z) (c c' : Ctx) : Prop :=
  Base ed c' /\ event_part c' = event_part c /\
  c'.(stack_top).(next_offset) = c.(stack_top).(next_offset) + m /\
  c'.(data_pos_raw) = c.(data_pos_raw) + d /\
  c'.(stack_top).(remaining_field_count) = c.(stack_top).(remaining_field_count) - fields /\
  c'.(stack_index) = c.(stack_index) /\
  (forall i, Z.of_nat i < c.(stack_index) -> c'.(stack) !! i = c.(stack) !! i) /\
  c'.(move_next_remaining) = c.(move_next_remaining) - n.

Lemma after_trans m1 d1 n1 k1 m2 d2 n2 k2 c c1 c2 :
  after m1 d1 n1 k1 c c1 -> after m2 d2 n2 k2 c1 c2 -> after (m1 + m2) (d1 + d2) (n1 + n2) (k1 + k2) c c2.
Proof.
  intros (A1 & A2 & A3 & A4 & A5 & A6 & A7 & A8) (B1 & B2 & B3 & B4 & B5 & B6 & B7 & B8).
  unfold after. rewrite B2, B3, B4, B5, B6, B8, A2, A3, A4, A5, A6, A8. split_and!; try done; try lia.
  intros i Hi. rewrite B7 by lia. by apply A7.
Qed.

(** ** The context of a field that has been read *)

(** The field's bytes are at the offsets of the context. *)
Definition at_field (meta data : bytes) (c : Ctx) : Prop :=
  Base ed c /\ c.(byte_reader) = host_reader /\
  holds_at ed c.(stack_top).(next_offset) meta /\ holds_at ed c.(data_pos_raw) data /\
  c.(stack_top).(next_offset) + len meta <= c.(meta_end).

Lemma len_declaration name e f t : len (declaration name e f t) = len name + 1 + len (type_bytes e f t).
Proof. unfold declaration. autorewrite with tp_simpl. lia. Qed.

Lemma field_ctx_live name e f t rest data n c :
  at_field (declaration name e f t ++ rest) data c -> e <> 0 -> no_nul name ->
  0 <= e < 128 -> 0 <= f < 128 -> in_width 16 t -> c.(stack_top).(remaining_field_count) <> 0 ->
  let c1 := upd_top (set_array_count n) (field_ctx name e f t c) in
  Base ed c1 /\ live ed c1 /\ next_property ed c = start_property ed (field_ctx name e f t c) /\
  sub ed c1.(stack_top).(name_offset) (c1.(stack_top).(name_offset) + c1.(stack_top).(name_len)) = name.
Proof using Hbytes Hlen.
  intros (HB & Hr & Hm & Hd & Hme) He0 Hname He Hf Ht Hrem. pose proof (base_bounds _ _ HB) as Hb.
  pose proof (base_next_offset _ _ HB) as Hno. pose proof (base_field_count _ _ HB) as Hfc.
  pose proof (len_type_bytes e f t) as Htl. pose proof (len_nonneg name) as Hnl. pose proof (len_nonneg rest) as Hrl.
  rewrite len_app, len_declaration in Hme. apply holds_at_app in Hm as [Hm _]. cbv zeta.
  assert (HB1 : Base ed (upd_top (set_array_count n) (field_ctx name e f t c))).
  { destruct HB. unfold field_ctx. cbv zeta. constructor; ctx; rewrite ?len_declaration; try done; lia. }
  pose proof Hm as Hm'. unfold declaration in Hm'. rewrite (assoc_L (++)) in Hm'. apply holds_at_app in Hm' as [Hn Hty].
  apply holds_at_app in Hn as [Hn _].
  split_and!.
  - exact HB1.
  - unfold live, declared, field_ctx, type_offset. cbv zeta. ctx. split_and!; [lia|lia|lia|lia| |done].
    eexists. rewrite Hr. apply type_bytes_decode; try done.
    + replace (next_offset (stack_top c) + len name + 1)
        with (next_offset (stack_top c) + len (name ++ [0])) by (autorewrite with tp_simpl; lia). exact Hty.
    + lia.
  - apply next_property_declared; try done. rewrite len_declaration. lia.
  - unfold field_ctx. cbv zeta. ctx. by apply holds_sub.
Qed.

(** ** Scalars *)

Definition all_kinds : list ValueKind :=
  [KValue 1; KValue 2; KValue 4; KValue 8; KValue 16; KString 1; KString 2; KString 4;
   KZString 1; KZString 2; KZString 4; KBinary].

Lemma kind_cases (P : ValueKind -> bool) : forallb P all_kinds = true -> forall k, kind_ok k = true -> P k = true.
Proof.
  intros HP k Hk. rewrite forallb_forall in HP. apply HP. unfold all_kinds.
  destruct k as [n|n|n|]; cbn [kind_ok] in Hk; try (cbn; tauto);
    apply existsb_exists in Hk as (m & Hm & ->%Z.eqb_eq); cbn [In] in *;
    repeat destruct Hm as [<-|Hm]; try tauto; done.
Qed.

(** The encodings of a kind, as a scalar and as an array. *)
Definition encodings_distinct (k : ValueKind) : bool :=
  let e := kind_encoding k in let a := Z.lor e FieldEncoding_VArrayFlag in
  negb (FieldEncoding_is_array e) && (FieldEncoding_without_flags e =? e) &&
  FieldEncoding_is_array a && (FieldEncoding_without_flags a =? e) &&
  FieldEncoding_is_variable_length_array a && negb (a =? 0) && (0 <=? a) && (a <? 128) &&
  (simple_size e =? if is_fixed k then element_width k else 0) &&
  (negb (is_fixed k) || negb (element_width k =? 0)).

Lemma kind_facts k : kind_ok k = true ->
  let e := kind_encoding k in let a := Z.lor e FieldEncoding_VArrayFlag in
  FieldEncoding_is_array e = false /\ FieldEncoding_without_flags e = e /\
  FieldEncoding_is_array a = true /\ FieldEncoding_without_flags a = e /\
  FieldEncoding_is_variable_length_array a = true /\ a <> 0 /\ 0 <= a < 128 /\
  simple_size e = (if is_fixed k then element_width k else 0) /\
  (is_fixed k = true -> element_width k <> 0) /\ 2 <= e <= 13.
Proof.
  intros Hk. pose proof (proj2 (kind_encoding_flags k Hk)) as He.
  assert (E : encodings_distinct k = true) by (apply (kind_cases encodings_distinct); done).
  unfold encodings_distinct in E. bool_hyps. cbv zeta. split_and!; try done; try lia.
  intros Hf. rewrite Hf in *. cbn [negb orb] in *. bool_hyps. done.
Qed.

Lemma value_at k v d : holds_at ed d (value_bytes k v) -> kind_ok k = true ->
  sub ed (d + value_offset k) (d + value_offset k + len (value_item k v)) = value_item k v.
Proof.
  intros Hd Hk. apply holds_sub. destruct k as [n|n|n|]; cbn [value_offset value_item value_bytes] in *.
  - by rewrite Z.add_0_r.
  - apply holds_at_app in Hd as [_ Hd]. rewrite len_to_ne in Hd. exact Hd.
  - rewrite Z.add_0_r. by apply holds_at_app in Hd as [Hd _].
  - apply holds_at_app in Hd as [_ Hd]. rewrite len_to_ne in Hd. exact Hd.
Qed.

(** The raw item of a value lies in the data. *)
Lemma leave_scalar c :
  Inv ed c -> c.(substate) = SsValueScalar -> 0 < c.(move_next_remaining) ->
  move_next_impl ed c = next_property ed (set_data_pos_raw (c.(data_pos_raw) + c.(item_size_raw))
                          (set_move_next_remaining (c.(move_next_remaining) - 1) c)).
Proof using Hlen.
  intros [HB HS] Hss Hr. pose proof (base_remaining _ _ HB). pose proof (base_bounds _ _ HB) as Hb.
  unfold SubInv in HS. rewrite Hss in HS. destruct HS as [(Hs & HL & Hst & He & (Hi1 & Hi2 & Hi3) & _) Ha].
  rewrite move_next_arm by (rewrite ?Hs; done || lia). cbv zeta. ctx. rewrite Hss.
  unfold move_from_value_scalar. ctx. unfold struct_type in Hst. unfold is_array_field in Ha.
  rewrite Hs, Hst, Ha, bool_decide_true by done. cbn [negb rassert mbind outcome_bind].
  unfold consume_item, remaining_data. ctx. rewrite as_unsigned_id by (pose proof (len_nonneg ed); lia).
  rewrite (checked_ok 32 (len ed - c.(data_pos_raw))) by lia. cbn [mbind outcome_bind].
  rewrite (proj2 (Z.leb_le _ _)) by lia. cbn [rassert mbind outcome_bind].
  rewrite (checked_ok 32 (_ + _)) by lia. reflexivity.
Qed.

Lemma Inv_of_step c c1 : Base ed c -> next_property ed c = Ret (true, c1) -> Inv ed c1.
Proof using Hbytes Hlen.
  intros HB E. pose proof (next_property_ok ed Hbytes Hlen c HB) as W. rewrite E in W. apply W.
Qed.

Lemma Base_moves m c : Base ed c -> 0 <= m < 2 ^ 32 -> Base ed (set_move_next_remaining m c).
Proof. intros [] ?. constructor; ctx; done || lia. Qed.

Lemma Base_leave n m c :
  Base ed c -> 0 <= n -> c.(data_pos_raw) + n <= len ed -> 0 <= m < 2 ^ 32 ->
  Base ed (set_data_pos_raw (c.(data_pos_raw) + n) (set_move_next_remaining m c)).
Proof. intros [] ? ? ?. constructor; ctx; done || lia. Qed.

Lemma scalar_runs name k v f t c :
  let F := FScalar name k v f t in
  field_ok F -> at_field (field_meta F) (field_data F) c ->
  c.(stack_top).(remaining_field_count) <> 0 -> 1 <= c.(move_next_remaining) ->
  exists cs c', runs (next_property ed c) cs (next_property ed c') /\ map seen cs = field_items F /\
    after (len (field_meta F)) (len (field_data F)) 1 1 c c'.
Proof using Hbytes Hlen.
  intros F HF Hat Hrem Hmv. inversion HF as [? ? ? ? ? (Hname & Hnb & Hf & Ht) Hk Hv| |]; subst.
  destruct (kind_facts k Hk) as (K1 & K2 & _ & _ & _ & _ & _ & K8 & _ & K10).
  assert (Hat' : at_field (declaration name (kind_encoding k) f t ++ []) (field_data F) c) by (by rewrite app_nil_r).
  destruct (field_ctx_live name (kind_encoding k) f t [] (field_data F) 1 c Hat') as (HB1 & HL1 & En & Es);
    [lia|done|lia|done|done|done|]. destruct Hat as (HB & Hr & Hm & Hd & Hme).
  pose proof (base_remaining _ _ HB) as Hmr. pose proof (base_field_count _ _ HB) as Hfc.
  set (c0 := set_state StValue SsValueScalar (upd_top (set_array_count 1) (field_ctx name (kind_encoding k) f t c))).
  assert (Esv : next_property ed c = start_value ed c0).
  { rewrite En. unfold start_property. change (field_type (field_ctx _ _ _ _ c)) with (field_type_of (kind_encoding k) f t).
    cbn [field_type_of ft_encoding ft_format]. unfold READ_FIELD_ERROR, FieldEncoding_Invalid.
    rewrite (proj2 (Z.eqb_neq _ 0)), K1 by lia. cbn [negb].
    rewrite (proj2 (Z.eqb_neq FieldEncoding_Struct _)) by (unfold FieldEncoding_Struct; lia). done. }
  rewrite (start_value_found ed Hbytes Hlen k v c0) in Esv; try done; [|by eapply Base_ext].
  set (c1 := with_value k v _ _) in Esv. pose proof (Inv_of_step c c1 HB Esv) as HI.
  pose proof (value_bytes_bounds k v Hk Hv) as (Hv1 & Hv2 & Hv3).
  pose proof (holds_bounds _ _ _ Hd) as Hdb. cbn [field_data] in Hdb.
  change (field_data F) with (value_bytes k v) in *.
  exists [c1], (set_data_pos_raw (c.(data_pos_raw) + len (value_bytes k v))
     (set_move_next_remaining (c.(move_next_remaining) - 1) c1)).
  split; [|split].
  - eapply runs_step; [exact Esv|]. rewrite (leave_scalar c1 HI) by (done || (change (move_next_remaining c1) with (move_next_remaining c); lia)).
    apply runs_refl.
  - cbn [map]. f_equal. unfold seen. cbn [F field_items]. f_equal. f_equal; [exact Es|].
    change (data_pos_cooked c1) with (c.(data_pos_raw) + value_offset k).
    change (item_size_cooked c1) with (len (value_item k v)).
    by apply value_at.
  - split_and!; try done.
    + apply (Base_leave (len (value_bytes k v)) (c.(move_next_remaining) - 1) c1); [apply HI|lia| |lia].
      change (data_pos_raw c1) with (data_pos_raw c). lia.
Qed.

(** ** Arrays *)

Lemma start_array_found k c :
  kind_ok k = true -> FieldEncoding_without_flags c.(field_type).(ft_encoding) = kind_encoding k ->
  8 <= c.(data_pos_raw) -> 0 <= c.(stack_top).(array_count) <= 65535 ->
  c.(data_pos_raw) + c.(stack_top).(array_count) * field_size c <= len ed ->
  start_array (as_unsigned 32 (len ed)) c =
    Ret (true, set_states StArrayBegin SsArrayBegin
      (with_item c.(data_pos_raw) (c.(stack_top).(array_count) * field_size c)
         (c.(stack_top).(array_count) * field_size c) (set_element_size (field_size c) c))).
Proof using Hlen.
  intros Hk He Hd Hn Hfit. unfold field_size in *. rewrite He in *.
  rewrite as_unsigned_id by (pose proof (len_nonneg ed); lia). unfold start_array. ctx. rewrite He.
  assert (Hs : forall s, 1 <= s <= 16 -> c.(data_pos_raw) + c.(stack_top).(array_count) * s <= len ed ->
     checked 32 (len ed - c.(data_pos_raw)) = Ret (len ed - c.(data_pos_raw)) /\
     checked 32 (c.(stack_top).(array_count) * s) = Ret (c.(stack_top).(array_count) * s) /\
     (len ed - c.(data_pos_raw) <? c.(stack_top).(array_count) * s) = false).
  { intros s Hs Hfs. split_and!; [apply checked_ok; nia|apply checked_ok; nia|apply Z.ltb_ge; lia]. }
  destruct k as [n|n|n|]; cbn [kind_ok] in Hk;
    try (apply existsb_exists in Hk as (m & Hm & ->%Z.eqb_eq); cbn [In] in Hm);
    repeat match goal with
    | H : _ \/ _ |- _ => destruct H as [<-|H]
    | H : False |- _ => destruct H
    end; cbn -[checked Z.mul Z.sub with_item Z.add] in *.
  1-5: match type of Hfit with _ + _ * ?s <= _ =>
         destruct (Hs s ltac:(lia) Hfit) as (E1 & E2 & E3) end;
       rewrite E1; cbn -[checked Z.mul Z.sub with_item Z.add]; rewrite E2;
       cbn -[checked Z.mul Z.sub with_item Z.add]; rewrite E3; do 2 f_equal; ctx_eq c.
  all: rewrite Z.mul_0_r; do 2 f_equal; ctx_eq c.
Qed.

(** What the elements of an array leave as it is. *)
Definition frame (c : Ctx) :=
  (event_part c, (c.(stack), c.(stack_index)), c.(field_type),
   (c.(stack_top).(next_offset), c.(stack_top).(name_offset), c.(stack_top).(name_len),
    c.(stack_top).(array_count), c.(stack_top).(remaining_field_count))).

Lemma frame_eq c c' : frame c = frame c' ->
  event_part c = event_part c' /\ c.(stack) = c'.(stack) /\ c.(stack_index) = c'.(stack_index) /\
  c.(field_type) = c'.(field_type) /\ c.(stack_top).(next_offset) = c'.(stack_top).(next_offset) /\
  c.(stack_top).(name_offset) = c'.(stack_top).(name_offset) /\
  c.(stack_top).(name_len) = c'.(stack_top).(name_len) /\
  c.(stack_top).(array_count) = c'.(stack_top).(array_count) /\
  c.(stack_top).(remaining_field_count) = c'.(stack_top).(remaining_field_count).
Proof.
  unfold frame. generalize (event_part c), (event_part c'). intros e e' E. injection E as -> -> -> -> -> -> -> -> ->.
  done.
Qed.

Lemma Inv_of_move c b c1 : Inv ed c -> move_next_impl ed c = Ret (b, c1) -> Inv ed c1.
Proof using Hbytes Hlen.
  intros HI E. pose proof (move_next_kept ed Hbytes Hlen c HI) as W. rewrite E in W. apply W.
Qed.

(** An element of an array, or its end: the position [i] with the data offset [d]
    and the remaining moves [m]. *)
Definition element_at (i d m : Z) (c : Ctx) : Ctx :=
  upd_top (set_array_index i) (set_data_pos_raw d (set_move_next_remaining m c)).

Lemma element_live i d m c : live ed c -> live ed (element_at i d m c).
Proof. exact (fun H => H). Qed.

Lemma element_Base i n m c :
  Base ed c -> 0 <= n -> c.(data_pos_raw) + n <= len ed -> 0 <= m < 2 ^ 32 ->
  Base ed (element_at i (c.(data_pos_raw) + n) m c).
Proof. intros HB H0 H1 H2. eapply Base_ext; [exact (Base_leave n m c HB H0 H1 H2)|reflexivity]. Qed.

Lemma leave_complex c :
  Inv ed c -> c.(substate) = SsValueComplexArrayElement -> 0 < c.(move_next_remaining) ->
  let c2 := element_at (c.(stack_top).(array_index) + 1) (c.(data_pos_raw) + c.(item_size_raw))
              (c.(move_next_remaining) - 1) c in
  move_next_impl ed c =
    if c.(stack_top).(array_count) =? c.(stack_top).(array_index) + 1
    then Ret (true, set_end_state StArrayEnd SsArrayEnd c2) else start_value ed c2.
Proof using Hlen.
  intros [HB HS] Hss Hr. pose proof (base_remaining _ _ HB). pose proof (base_bounds _ _ HB) as Hb.
  unfold SubInv in HS. rewrite Hss in HS. destruct HS as (Hv & Ha & Hes).
  pose proof Hv as (Hs & HL & Hst & (He1 & He2 & _) & (Hi1 & Hi2 & Hi3) & _). cbv zeta.
  rewrite move_next_arm by (rewrite ?Hs; done || lia). cbv zeta. ctx. rewrite Hss.
  unfold move_from_complex_element. set (c1 := set_move_next_remaining _ c).
  assert (Hx : element_asserts false c1 = true) by (apply (element_asserts_ok ed); [exact Hv|exact Ha|change (element_size c1) with (element_size c); by rewrite Hes]).
  rewrite Hx. cbn [rassert mbind outcome_bind].
  unfold consume_item, remaining_data. subst c1. ctx. rewrite as_unsigned_id by (pose proof (len_nonneg ed); lia).
  rewrite (checked_ok 32 (len ed - c.(data_pos_raw))) by lia. cbn [mbind outcome_bind].
  rewrite (proj2 (Z.leb_le _ _)) by lia. cbn [rassert mbind outcome_bind].
  rewrite (checked_ok 32 (_ + _)) by lia. cbn [mbind outcome_bind]. unfold next_index. ctx.
  rewrite (checked_ok 16) by lia. cbn [mbind outcome_bind]. unfold at_array_end. ctx. reflexivity.
Qed.

Definition complex_ctx (k : ValueKind) (v : list bytes) (i d m : Z) (c : Ctx) : Ctx :=
  set_states StValue SsValueComplexArrayElement (with_value k v d (set_element_size 0 (element_at i d m c))).

Definition end_ctx (i d m : Z) (c : Ctx) : Ctx :=
  set_end_state StArrayEnd SsArrayEnd (set_element_size 0 (element_at i d m c)).

Fixpoint complex_list (k : ValueKind) (vs : list (list bytes)) (i d m : Z) (c : Ctx) : list Ctx :=
  match vs with
  | [] => []
  | v :: vs => complex_ctx k v i d m c :: complex_list k vs (i + 1) (d + len (value_bytes k v)) (m - 1) c
  end.

Lemma complex_runs k c vs v i d m :
  kind_ok k = true -> is_fixed k = false ->
  FieldEncoding_without_flags c.(field_type).(ft_encoding) = kind_encoding k -> c.(byte_reader) = host_reader ->
  Forall (value_ok k) (v :: vs) -> holds_at ed d (concat (map (value_bytes k) (v :: vs))) ->
  i + len (v :: vs) = c.(stack_top).(array_count) -> len (v :: vs) <= m ->
  Inv ed (complex_ctx k v i d m c) ->
  let e := end_ctx c.(stack_top).(array_count) (d + len (concat (map (value_bytes k) (v :: vs)))) (m - len (v :: vs)) c in
  runs (Ret (true, complex_ctx k v i d m c)) (complex_list k (v :: vs) i d m c) (Ret (true, e)) /\ Inv ed e.
Proof using Hbytes Hlen.
  intros Hk Hfix Hek Hr. revert v i d m. induction vs as [|w vs IH]; intros v i d m Hvs Hd Hi Hm HI; cbv zeta;
    pose proof (List.Forall_inv_tail Hvs) as Hvs'.
  - pose proof (leave_complex _ HI eq_refl) as E. cbv zeta in E.
    change (len [v]) with 1 in *. change (move_next_remaining (complex_ctx k v i d m c)) with m in E.
    change (array_index (stack_top (complex_ctx k v i d m c))) with i in E.
    change (array_count (stack_top (complex_ctx k v i d m c))) with (array_count (stack_top c)) in E.
    change (data_pos_raw (complex_ctx k v i d m c)) with d in E.
    change (item_size_raw (complex_ctx k v i d m c)) with (len (value_bytes k v)) in E.
    rewrite <- Hi, Z.eqb_refl in E. specialize (E ltac:(lia)). cbn [map concat]. rewrite app_nil_r. rewrite <- Hi.
    match type of E with _ = Ret (true, ?x) =>
      replace x with (end_ctx (i + 1) (d + len (value_bytes k v)) (m - 1) c) in E
        by (unfold end_ctx, complex_ctx, with_value, element_at; ctx_eq c) end.
    split; [|by eapply Inv_of_move]. eapply runs_step; [done|]. rewrite E. apply runs_refl.
  - cbn [map concat] in Hd. apply holds_at_app in Hd as [Hdv Hd]. rewrite len_cons in Hi, Hm.
    pose proof (len_nonneg (w :: vs)) as Hl. rewrite len_cons in Hl. pose proof (len_nonneg vs).
    pose proof (leave_complex _ HI eq_refl) as E. cbv zeta in E.
    change (move_next_remaining (complex_ctx k v i d m c)) with m in E.
    change (array_index (stack_top (complex_ctx k v i d m c))) with i in E.
    change (array_count (stack_top (complex_ctx k v i d m c))) with (array_count (stack_top c)) in E.
    change (data_pos_raw (complex_ctx k v i d m c)) with d in E.
    change (item_size_raw (complex_ctx k v i d m c)) with (len (value_bytes k v)) in E.
    rewrite len_cons in Hi, Hm. rewrite (proj2 (Z.eqb_neq _ _)) in E by lia. specialize (E ltac:(lia)).
    set (d' := d + len (value_bytes k v)) in *.
    set (c2 := element_at (i + 1) d' (m - 1) (complex_ctx k v i d m c)) in E.
    pose proof (List.Forall_inv Hvs') as Hw.
    pose proof HI as [HB HS]. unfold SubInv in HS.
    change (substate (complex_ctx k v i d m c)) with SsValueComplexArrayElement in HS. cbv iota in HS.
    destruct HS as ((_ & HL & _ & (_ & Hc & _) & _) & _ & Hfs).
    pose proof (holds_bounds _ _ _ Hd) as Hdb. pose proof (base_remaining _ _ HB) as Hmr.
    change (move_next_remaining (complex_ctx k v i d m c)) with m in Hmr.
    assert (HB2 : Base ed c2).
    { pose proof (len_nonneg (value_bytes k v)). pose proof (len_nonneg (value_bytes k w ++ concat (map (value_bytes k) vs))).
      apply (element_Base (i + 1) (len (value_bytes k v)) (m - 1) (complex_ctx k v i d m c) HB); [lia| |lia].
      change (data_pos_raw (complex_ctx k v i d m c)) with d. lia. }
    assert (Hdw : holds_at ed d' (value_bytes k w)) by (cbn [map concat] in Hd; by apply holds_at_app in Hd as [Hd _]).
    pose proof (element_live (i + 1) d' (m - 1) _ HL) as HL2. fold c2 in HL2.
    rewrite (start_value_found ed Hbytes Hlen k w c2 HB2 HL2 eq_refl Hr Hek Hk Hw Hdw) in E.
    assert (Hf0 : field_size c2 = 0).
    { unfold field_size. change (field_type c2) with (field_type c). rewrite Hek.
      destruct (kind_facts k Hk) as (_ & _ & _ & _ & _ & _ & _ & K8 & _). by rewrite K8, Hfix. }
    rewrite Hf0 in E. change (data_pos_raw c2) with d' in E.
    replace (with_value k w d' (set_element_size 0 c2)) with (complex_ctx k w (i + 1) d' (m - 1) c) in E
      by (subst c2; unfold complex_ctx, with_value, element_at; ctx_eq c).
    pose proof (Inv_of_move _ _ _ HI E) as HI'.
    destruct (IH w (i + 1) d' (m - 1)) as [R HIe]; try done; [rewrite len_cons; lia|rewrite len_cons; lia|].
    cbn [map concat] in *. rewrite len_app.
    replace (d + (len (value_bytes k v) + len (value_bytes k w ++ concat (map (value_bytes k) vs))))
      with (d' + len (value_bytes k w ++ concat (map (value_bytes k) vs))) by (subst d'; lia).
    rewrite (len_cons v). replace (m - (1 + len (w :: vs))) with (m - 1 - len (w :: vs)) by lia.
    split; [|exact HIe]. eapply runs_step; [done|]. rewrite E. exact R.
Qed.

Definition kind_size (k : ValueKind) : Z := if is_fixed k then element_width k else 0.

(** The start of an array of [n] values. *)
Definition begin_ctx (name : bytes) (k : ValueKind) (n f t : Z) (c : Ctx) : Ctx :=
  let d := c.(data_pos_raw) + 2 in
  set_states StArrayBegin SsArrayBegin
    (with_item d (n * kind_size k) (n * kind_size k)
       (set_element_size (kind_size k) (set_data_pos_raw d
          (upd_top (set_array_count n)
             (field_ctx name (Z.lor (kind_encoding k) FieldEncoding_VArrayFlag) f t c))))).

Lemma fixed_array_len k vs :
  Forall (value_ok k) vs -> len vs * kind_size k = if is_fixed k then len (concat (map (value_bytes k) vs)) else 0.
Proof.
  unfold kind_size. destruct k as [n|n|n|]; cbn [is_fixed element_width]; try lia.
  induction 1 as [|v vs [He Hv] Hvs IH]; [done|]. cbn [map concat]. rewrite len_app, <- IH, len_cons.
  cbn [value_bytes]. rewrite (len_concat _ _ He). cbn [element_width].
  replace (len v) with 1 by (unfold len; lia). lia.
Qed.

Lemma array_begins name k vs f t c :
  let F := FArray name k vs f t in
  field_ok F -> at_field (field_meta F) (field_data F) c -> c.(stack_top).(remaining_field_count) <> 0 ->
  let cb := begin_ctx name k (len vs) f t c in
  next_property ed c = Ret (true, cb) /\ Inv ed cb /\
  sub ed cb.(stack_top).(name_offset) (cb.(stack_top).(name_offset) + cb.(stack_top).(name_len)) = name.
Proof using Hbytes Hlen.
  intros F HF Hat Hrem cb. inversion HF as [|? ? ? ? ? (Hname & Hnb & Hf & Ht) Hk Hvs Hl|]; subst.
  destruct (kind_facts k Hk) as (_ & _ & K3 & K4 & K5 & K6 & K7 & K8 & _).
  set (a := Z.lor (kind_encoding k) FieldEncoding_VArrayFlag) in *.
  assert (Hat' : at_field (declaration name a f t ++ []) (field_data F) c) by (by rewrite app_nil_r).
  destruct (field_ctx_live name a f t [] (field_data F) (len vs) c Hat') as (HB1 & HL1 & En & Es);
    [done|done|lia|done|done|done|]. destruct Hat as (HB & Hr & Hm & Hd & Hme).
  pose proof (base_bounds _ _ HB) as Hb. pose proof (holds_bounds _ _ _ Hd) as Hdb.
  pose proof (len_nonneg vs) as Hvl. pose proof (len_nonneg (concat (map (value_bytes k) vs))) as Hcl.
  change (field_data F) with (to_ne_bytes 2 (len vs) ++ concat (map (value_bytes k) vs)) in *. rewrite len_app, len_to_ne in Hdb. apply holds_at_app in Hd as [Hd _].
  assert (E : next_property ed c = Ret (true, cb)).
  { rewrite En. unfold start_property. change (field_type (field_ctx name a f t c)) with (field_type_of a f t).
    cbn [field_type_of ft_encoding ft_format]. unfold READ_FIELD_ERROR, FieldEncoding_Invalid.
    rewrite (proj2 (Z.eqb_neq a 0)), K3, K5 by done. cbn [negb].
    change (data_pos_raw (field_ctx name a f t c)) with (data_pos_raw c).
    rewrite (checked_ok 64) by lia. cbn [mbind outcome_bind]. rewrite (proj2 (Z.ltb_ge _ _)) by lia.
    rewrite (holds_read_u16 ed (field_ctx name a f t c) c.(data_pos_raw) (len vs)); [| |lia].
    2: { change (byte_reader (field_ctx name a f t c)) with (byte_reader c). rewrite Hr, <- to_ne_source. exact Hd. }
    cbn [mbind outcome_bind]. cbv zeta. set (c1 := upd_top (set_array_count (len vs)) _).
    change (data_pos_raw c1) with (data_pos_raw c). rewrite (checked_ok 32) by lia. cbn [mbind outcome_bind].
    assert (Hfs : field_size (set_data_pos_raw (c.(data_pos_raw) + 2) c1) = kind_size k).
    { unfold field_size. change (field_type _) with (field_type_of a f t). cbn [field_type_of ft_encoding].
      by rewrite K4, K8. }
    rewrite (start_array_found k); [| done | exact K4 | | | ].
    - rewrite Hfs. reflexivity.
    - change (data_pos_raw (set_data_pos_raw ?x _)) with x. lia.
    - change (array_count (stack_top (set_data_pos_raw _ c1))) with (len vs). lia.
    - change (array_count (stack_top (set_data_pos_raw _ c1))) with (len vs). rewrite Hfs.
      change (data_pos_raw (set_data_pos_raw ?x _)) with x. rewrite (fixed_array_len k vs Hvs).
      destruct (is_fixed k); lia. }
  split_and!; [exact E|exact (Inv_of_step c cb HB E)|exact Es].
Qed.

(** The contexts of an array of fixed-size values, after its start. *)
Definition simple_list (c : Ctx) (k n : nat) : list Ctx := map (fun i => element_context c (Z.of_nat i)) (seq k n).

Lemma simple_runs c n k :
  at_simple_array ed c -> Z.of_nat (k + S n) = c.(stack_top).(array_count) ->
  c.(stack_top).(array_count) < c.(move_next_remaining) ->
  runs (Ret (true, element_context c (Z.of_nat k))) (simple_list c k (S n)) (Ret (true, array_end_context c)).
Proof using Hlen.
  intros HA. revert k. induction n as [|n IH]; intros k Hk Hm; unfold simple_list; cbn [seq map].
  - eapply runs_step; [done|]. eapply runs_eq; [|apply runs_refl].
    rewrite (next_element ed Hlen c (Z.of_nat k) HA) by lia. rewrite (proj2 (Z.eqb_eq _ _)) by lia. done.
  - eapply runs_step; [done|]. eapply runs_eq; [|apply (IH (S k)); lia].
    rewrite (next_element ed Hlen c (Z.of_nat k) HA) by lia. rewrite (proj2 (Z.eqb_neq _ _)) by lia.
    do 3 f_equal. lia.
Qed.

Lemma leave_begin c :
  Inv ed c -> c.(substate) = SsArrayBegin -> 0 < c.(move_next_remaining) ->
  let c1 := set_move_next_remaining (c.(move_next_remaining) - 1) c in
  (c.(stack_top).(array_count) = 0 -> move_next_impl ed c = Ret (true, set_end_state StArrayEnd SsArrayEnd c1)) /\
  (c.(stack_top).(array_count) <> 0 -> c.(element_size) = 0 -> struct_type c.(field_type) = false ->
   move_next_impl ed c = start_value ed (set_state StValue SsValueComplexArrayElement c1)).
Proof using Hlen.
  intros [HB HS] Hss Hr c1. pose proof (base_remaining _ _ HB). unfold SubInv in HS. rewrite Hss in HS.
  destruct HS as (Hs & HL & Ha & Hi & Hc & Hes & Hck & Hraw & Hcs & Hfit). unfold is_array_field in Ha.
  rewrite move_next_arm by (rewrite ?Hs; done || lia). cbv zeta. fold c1. change (substate c1) with (substate c).
  rewrite Hss. unfold move_from_array_begin.
  change (state c1) with (state c). change (ft_encoding (field_type c1)) with (ft_encoding (field_type c)).
  change (array_index (stack_top c1)) with (array_index (stack_top c)).
  change (array_count (stack_top c1)) with (array_count (stack_top c)). change (element_size c1) with (element_size c).
  rewrite Hs, Ha, Hi, bool_decide_true by done. cbn [rassert mbind outcome_bind Z.eqb]. split.
  - intros ->. done.
  - intros Hz He Hst. rewrite (proj2 (Z.eqb_neq _ _)), He by done. unfold struct_type in Hst. by rewrite Hst.
Qed.

(** The items of the values of an array. *)
Definition element_items (name : bytes) (k : ValueKind) (f t : Z) (vs : list (list bytes)) : list Item :=
  map (fun v => {| it_state := StValue; it_name := name;
    it_type := field_type_of (Z.lor (kind_encoding k) FieldEncoding_VArrayFlag) f t;
    it_value := value_item k v |}) vs.

Lemma seen_complex name k f t c vs i d m :
  kind_ok k = true -> holds_at ed d (concat (map (value_bytes k) vs)) ->
  sub ed c.(stack_top).(name_offset) (c.(stack_top).(name_offset) + c.(stack_top).(name_len)) = name ->
  c.(field_type) = field_type_of (Z.lor (kind_encoding k) FieldEncoding_VArrayFlag) f t ->
  map seen (complex_list k vs i d m c) = element_items name k f t vs.
Proof.
  intros Hk Hd Hn Hf. revert i d m Hd. induction vs as [|v vs IH]; intros i d m Hd; [done|].
  cbn [map concat] in Hd. apply holds_at_app in Hd as [Hv Hd].
  cbn [complex_list map element_items]. fold (element_items name k f t vs). f_equal; [|by apply IH].
  unfold seen. change (state (complex_ctx k v i d m c)) with StValue.
  change (name_offset (stack_top (complex_ctx k v i d m c))) with (name_offset (stack_top c)).
  change (name_len (stack_top (complex_ctx k v i d m c))) with (name_len (stack_top c)).
  change (field_type (complex_ctx k v i d m c)) with (field_type c).
  change (data_pos_cooked (complex_ctx k v i d m c)) with (d + value_offset k).
  change (item_size_cooked (complex_ctx k v i d m c)) with (len (value_item k v)).
  by rewrite Hn, Hf, value_at.
Qed.

Lemma seen_simple name s f t c vs n :
  Forall (value_ok (KValue s)) vs ->
  holds_at ed (element_start c (Z.of_nat n)) (concat (map (value_bytes (KValue s)) vs)) -> c.(element_size) = s ->
  sub ed c.(stack_top).(name_offset) (c.(stack_top).(name_offset) + c.(stack_top).(name_len)) = name ->
  c.(field_type) = field_type_of (Z.lor (kind_encoding (KValue s)) FieldEncoding_VArrayFlag) f t ->
  map seen (simple_list c n (length vs)) = element_items name (KValue s) f t vs.
Proof.
  intros Hvs Hd Hs Hn Hf. revert n Hd. induction Hvs as [|v vs [He Hv] Hvs IH]; intros n Hd; [done|].
  assert (El : len (value_bytes (KValue s) v) = s).
  { cbn [value_bytes]. rewrite (len_concat _ _ He). cbn [element_width]. unfold len. rewrite Hv. lia. }
  cbn [map concat] in Hd. apply holds_at_app in Hd as [Hdv Hd].
  cbn [length map element_items]. fold (element_items name (KValue s) f t vs). unfold simple_list in *. cbn [seq map].
  f_equal.
  - unfold seen. change (state (element_context c (Z.of_nat n))) with StValue.
    change (name_offset (stack_top (element_context c (Z.of_nat n)))) with (name_offset (stack_top c)).
    change (name_len (stack_top (element_context c (Z.of_nat n)))) with (name_len (stack_top c)).
    change (field_type (element_context c (Z.of_nat n))) with (field_type c).
    change (data_pos_cooked (element_context c (Z.of_nat n))) with (element_start c (Z.of_nat n)).
    change (item_size_cooked (element_context c (Z.of_nat n))) with (element_size c).
    rewrite Hn, Hf, Hs. f_equal. pose proof (holds_sub _ _ _ Hdv) as Hsub. rewrite El in Hsub. exact Hsub.
  - apply IH. rewrite El in Hd. unfold element_start in *. rewrite Hs in *.
    by replace (data_pos_raw c + Z.of_nat (S n) * s) with (data_pos_raw c + Z.of_nat n * s + s) by lia.
Qed.

(** From the start of an array to the property after it. *)
Definition elements_done (n d : Z) (cb ce : Ctx) : Prop :=
  Inv ed ce /\ ce.(substate) = SsArrayEnd /\ ce.(state) = StArrayEnd /\ frame ce = frame cb /\
  ce.(data_pos_raw) = cb.(data_pos_raw) + d /\
  ce.(move_next_remaining) = cb.(move_next_remaining) - (n + 1).

Lemma simple_movable cb : Inv ed cb -> cb.(substate) = SsArrayBegin -> movable ed cb.
Proof.
  intros HI Hss. pose proof (proj2 HI) as HS. unfold SubInv in HS. rewrite Hss in HS. destruct HS as [Hs _].
  split_and!; [done|by rewrite Hs|by rewrite Hss].
Qed.

Lemma element_at_first c d m :
  c.(stack_top).(array_index) = 0 -> c.(data_pos_raw) = d -> element_at 0 d m c = set_move_next_remaining m c.
Proof.
  intros Hi <-. assert (E : set_array_index 0 c.(stack_top) = c.(stack_top)).
  { rewrite <- Hi. by destruct c.(stack_top). }
  unfold element_at, upd_top. ctx. rewrite E. clear. by destruct c.
Qed.

Lemma complex_first k v vs f t cb :
  Inv ed cb -> cb.(substate) = SsArrayBegin -> kind_ok k = true -> is_fixed k = false ->
  Forall (value_ok k) (v :: vs) -> cb.(byte_reader) = host_reader ->
  cb.(field_type) = field_type_of (Z.lor (kind_encoding k) FieldEncoding_VArrayFlag) f t ->
  cb.(stack_top).(array_count) = len (v :: vs) ->
  holds_at ed cb.(data_pos_raw) (concat (map (value_bytes k) (v :: vs))) -> 0 < cb.(move_next_remaining) ->
  let c1 := complex_ctx k v 0 cb.(data_pos_raw) (cb.(move_next_remaining) - 1) cb in
  move_next_impl ed cb = Ret (true, c1) /\ Inv ed c1.
Proof using Hbytes Hlen.
  intros HI Hss Hk Hf Hvs Hr Hft Hn Hd Hm c1. destruct (leave_begin cb HI Hss ltac:(lia)) as [_ L1].
  destruct (kind_facts k Hk) as (_ & _ & _ & K4 & _ & _ & _ & K8 & _).
  pose proof (base_remaining _ _ (proj1 HI)) as Hmr.
  assert (Hfs : field_size cb = 0).
  { unfold field_size. rewrite Hft. cbn [field_type_of ft_encoding]. by rewrite K4, K8, Hf. }
  pose proof HI as [HB HS]. unfold SubInv in HS. rewrite Hss in HS.
  destruct HS as (Hs & HL & Ha & Hi & Hc & Hes & Hck & Hraw & Hcs & Hfit).
  assert (Hst : struct_type cb.(field_type) = false) by (apply (kind_struct_type cb k); [by rewrite Hft|done]).
  rewrite Hfs in Hes. specialize (L1 ltac:(rewrite Hn, len_cons; pose proof (len_nonneg vs); lia) Hes Hst).
  set (c0 := set_state _ _ _) in L1.
  assert (HB0 : Base ed c0).
  { assert (HB0 : Base ed (set_move_next_remaining (move_next_remaining cb - 1) cb)).
    { apply Base_moves; [done|lia]. }
    eapply Base_ext; [exact HB0|reflexivity]. }
  assert (Hdv : holds_at ed cb.(data_pos_raw) (value_bytes k v)).
  { cbn [map concat] in Hd. by apply holds_at_app in Hd as [Hd _]. }
  assert (Hek : FieldEncoding_without_flags c0.(field_type).(ft_encoding) = kind_encoding k).
  { change (field_type c0) with (field_type cb). by rewrite Hft. }
  rewrite (start_value_found ed Hbytes Hlen k v c0 HB0 HL eq_refl Hr Hek Hk (List.Forall_inv Hvs) Hdv) in L1.
  assert (E : move_next_impl ed cb = Ret (true, c1)).
  { rewrite L1. subst c1. unfold complex_ctx. rewrite element_at_first by done. do 2 f_equal.
    change (field_size c0) with (field_size cb). rewrite Hfs. change (data_pos_raw c0) with (data_pos_raw cb).
    subst c0. unfold with_value. ctx_eq cb. }
  split; [exact E|exact (Inv_of_move _ _ _ HI E)].
Qed.

Lemma elements_run name k f t vs cb :
  Inv ed cb -> cb.(substate) = SsArrayBegin -> kind_ok k = true -> Forall (value_ok k) vs ->
  cb.(byte_reader) = host_reader ->
  cb.(field_type) = field_type_of (Z.lor (kind_encoding k) FieldEncoding_VArrayFlag) f t ->
  cb.(stack_top).(array_count) = len vs ->
  sub ed cb.(stack_top).(name_offset) (cb.(stack_top).(name_offset) + cb.(stack_top).(name_len)) = name ->
  holds_at ed cb.(data_pos_raw) (concat (map (value_bytes k) vs)) -> len vs + 2 <= cb.(move_next_remaining) ->
  exists cs ce, runs (move_next_impl ed cb) cs (Ret (true, ce)) /\
    map seen cs = element_items name k f t vs /\
    elements_done (len vs) (len (concat (map (value_bytes k) vs))) cb ce.
Proof using Hbytes Hlen.
  intros HI Hss Hk Hvs Hr Hft Hn Hname Hd Hm. pose proof (base_remaining _ _ (proj1 HI)) as Hmr.
  pose proof (len_nonneg vs) as Hvl. destruct (leave_begin cb HI Hss ltac:(lia)) as [L0 L1].
  destruct (kind_facts k Hk) as (_ & _ & _ & K4 & _ & _ & _ & K8 & K9 & K10).
  assert (Hes : cb.(element_size) = kind_size k).
  { destruct HI as [_ HS]. unfold SubInv in HS. rewrite Hss in HS. destruct HS as (_ & _ & _ & _ & _ & Hes & _).
    rewrite Hes. unfold field_size. rewrite Hft. cbn [field_type_of ft_encoding]. by rewrite K4, K8. }
  assert (Hst : struct_type cb.(field_type) = false).
  { apply (kind_struct_type cb k); [|done]. by rewrite Hft. }
  destruct vs as [|v vs].
  - specialize (L0 Hn). eexists [], _. split; [eapply runs_eq; [exact L0|apply runs_refl]|].
    split; [done|]. pose proof (Inv_of_move _ _ _ HI L0) as HIe.
    split_and!; try done; cbn [map concat]; rewrite ?len_nil; change (len (@nil Z)) with 0; cbn; lia.
  - destruct (is_fixed k) eqn:Ef.
    + assert (HA : at_simple_array ed cb).
      { unfold kind_size in Hes. rewrite Ef in Hes. split_and!; [done|done|rewrite Hes; by apply K9|].
        rewrite Hn, len_cons. pose proof (len_nonneg vs). lia. }
      assert (Hm' : cb.(stack_top).(array_count) < cb.(move_next_remaining)) by lia.
      exists (simple_list cb 0 (length (v :: vs))), (array_end_context cb). unfold elements_done. split_and!.
      * eapply runs_eq; [apply (first_element ed cb HA); lia|].
        apply (simple_runs cb (length vs) 0 HA); [rewrite Hn; unfold len; cbn; lia|done].
      * destruct k as [s|s|s|]; try done. apply seen_simple; try done.
        -- unfold element_start. rewrite Z.mul_0_l, Z.add_0_r. exact Hd.
      * pose proof (walk_array ed Hlen cb HA Hm') as E.
        destruct (moves_bound ed Hbytes Hlen _ _ _ (simple_movable cb HI Hss) E) as (_ & W & _).
        apply W. done.
      * done.
      * done.
      * reflexivity.
      * change (data_pos_raw (array_end_context cb)) with (element_start cb (array_count (stack_top cb))).
        unfold element_start. rewrite Hn, Hes, (fixed_array_len k _ Hvs), Ef. done.
      * change (move_next_remaining (array_end_context cb)) with (move_next_remaining cb - (array_count (stack_top cb) + 1)).
        by rewrite Hn.
    + assert (Hm0 : 0 < cb.(move_next_remaining)) by lia.
      destruct (complex_first k v vs f t cb HI Hss Hk Ef Hvs Hr Hft Hn Hd Hm0) as [E HIc].
      destruct (complex_runs k cb vs v 0 cb.(data_pos_raw) (cb.(move_next_remaining) - 1)) as [R HIe]; try done.
      { by rewrite Hft. }
      { lia. }
      cbv zeta in R. set (ce := end_ctx _ _ _ cb) in *.
      exists (complex_list k (v :: vs) 0 cb.(data_pos_raw) (cb.(move_next_remaining) - 1) cb), ce. unfold elements_done. split_and!.
      * eapply runs_eq; [exact E|exact R].
      * by apply (seen_complex name).
      * exact HIe.
      * done.
      * done.
      * reflexivity.
      * done.
      * change (move_next_remaining ce) with (cb.(move_next_remaining) - 1 - len (v :: vs)). lia.
Qed.

Lemma sub_empty {A} (l : list A) p : sub l p (p + 0) = [].
Proof. unfold sub. by rewrite Z.add_0_r, Z.sub_diag. Qed.

(** The moves at an array: its start, its elements and its end. *)
Definition array_item (st : EventHeaderEnumeratorState) (name : bytes) (k : ValueKind) (f t : Z) (v : bytes) : Item :=
  {| it_state := st; it_name := name;
     it_type := field_type_of (Z.lor (kind_encoding k) FieldEncoding_VArrayFlag) f t; it_value := v |}.

Lemma array_steps name k vs f t c :
  let F := FArray name k vs f t in
  field_ok F -> at_field (field_meta F) (field_data F) c ->
  c.(stack_top).(remaining_field_count) <> 0 -> len vs + 2 <= c.(move_next_remaining) ->
  let cb := begin_ctx name k (len vs) f t c in
  next_property ed c = Ret (true, cb) /\ Inv ed cb /\
  seen cb = array_item StArrayBegin name k f t (if is_fixed k then concat (map (value_item k) vs) else []) /\
  exists cs ce c', runs (move_next_impl ed cb) cs (Ret (true, ce)) /\
    map seen cs = element_items name k f t vs /\
    Inv ed ce /\ seen ce = array_item StArrayEnd name k f t [] /\
    move_next_impl ed ce = next_property ed c' /\
    after (len (field_meta F)) (len (field_data F)) (len vs + 2) 1 c c'.
Proof using Hbytes Hlen.
  intros F HF Hat Hrem Hmv. cbv zeta. destruct (array_begins name k vs f t c HF Hat Hrem) as (En & HI & Hname).
  inversion HF as [|? ? ? ? ? (Hn & Hnb & Hf & Ht) Hk Hvs Hl|]; subst. set (cb := begin_ctx name k (len vs) f t c) in *.
  destruct Hat as (HB & Hr & Hm & Hd & Hme). pose proof (base_remaining _ _ HB) as Hmr.
  pose proof (len_nonneg vs) as Hvl. pose proof (holds_bounds _ _ _ Hd) as Hdb.
  change (field_data F) with (to_ne_bytes 2 (len vs) ++ concat (map (value_bytes k) vs)) in *.
  rewrite len_app, len_to_ne in *. apply holds_at_app in Hd as [_ Hd]. rewrite len_to_ne in Hd.
  change (Z.of_nat 2) with 2 in *.
  split_and!; [exact En|exact HI| |].
  { unfold seen, array_item. f_equal; [exact Hname|]. change (data_pos_cooked cb) with (data_pos_raw c + 2).
    change (item_size_cooked cb) with (len vs * kind_size k). rewrite (fixed_array_len k vs Hvs).
    destruct (is_fixed k) eqn:Ef; [|apply sub_empty]. destruct k; try done. by apply holds_sub. }
  destruct (elements_run name k f t vs cb HI eq_refl Hk Hvs Hr eq_refl eq_refl Hname Hd ltac:(exact Hmv))
    as (cs & ce & R & Hseen & HIe & Hss & Hs & Hfr & Hp & Hrm).
  change (data_pos_raw cb) with (data_pos_raw c + 2) in Hp. change (move_next_remaining cb) with (move_next_remaining c) in Hrm.
  destruct (kind_facts k Hk) as (_ & _ & K3 & K4 & _).
  destruct (frame_eq _ _ Hfr) as (Hev & Hstk & Hsi & Hft & Hno & Hnameo & Hnl & Hac & Hrc).
  assert (Ha : is_array_field ce = true) by (unfold is_array_field; rewrite Hft; exact K3).
  assert (Hst : struct_type ce.(field_type) = false).
  { apply (kind_struct_type ce k); [|done]. rewrite Hft. exact K4. }
  assert (Hai : ce.(stack_top).(array_index) = ce.(stack_top).(array_count)).
  { destruct HIe as [_ HS]. unfold SubInv in HS. rewrite Hss in HS. tauto. }
  assert (Hemp : ce.(item_size_cooked) = 0).
  { destruct HIe as [_ HS]. unfold SubInv, empty_item in HS. rewrite Hss in HS. tauto. }
  exists cs, ce, (set_move_next_remaining (ce.(move_next_remaining) - 1) ce). split_and!; try done.
  - unfold seen, array_item. rewrite Hs, Hnameo, Hnl, Hft, Hemp, sub_empty. f_equal. exact Hname.
  - apply move_next_array_end; done || lia.
  - assert (HBe : Base ed (set_move_next_remaining (ce.(move_next_remaining) - 1) ce)).
    { apply Base_moves; [apply HIe|lia]. }
    unfold after. split_and!; [exact HBe| | | | | | |].
    + exact Hev.
    + change (next_offset (stack_top ce) = next_offset (stack_top c) + len (field_meta F)). exact Hno.
    + change (data_pos_raw ce = data_pos_raw c + (2 + len (concat (map (value_bytes k) vs)))). lia.
    + exact Hrc.
    + exact Hsi.
    + intros i _. change (stack ce !! i = stack c !! i). by rewrite Hstk.
    + change (move_next_remaining ce - 1 = move_next_remaining c - (len vs + 2)). lia.
Qed.

Lemma array_runs name k vs f t c :
  let F := FArray name k vs f t in
  field_ok F -> at_field (field_meta F) (field_data F) c ->
  c.(stack_top).(remaining_field_count) <> 0 -> len (field_items F) <= c.(move_next_remaining) ->
  exists cs c', runs (next_property ed c) cs (next_property ed c') /\ map seen cs = field_items F /\
    after (len (field_meta F)) (len (field_data F)) (len (field_items F)) 1 c c'.
Proof using Hbytes Hlen.
  intros F HF Hat Hrem Hmv.
  assert (Hit : len (field_items F) = len vs + 2).
  { cbn [F field_items]. autorewrite with tp_simpl. unfold len at 1. rewrite length_map. fold (len vs). lia. }
  rewrite Hit in *.
  destruct (array_steps name k vs f t c HF Hat Hrem Hmv) as (En & _ & Sb & cs & ce & c' & R & Hs & _ & Se & Ee & A).
  exists (begin_ctx name k (len vs) f t c :: cs ++ [ce]), c'. split; [|split; [|exact A]].
  - eapply runs_step; [exact En|]. eapply runs_trans; [exact R|]. eapply runs_step; [done|].
    eapply runs_eq; [exact Ee|apply runs_refl].
  - cbn [map F field_items]. rewrite map_app, Hs, Sb. cbn [map]. by rewrite Se.
Qed.

(** The jump over an array of fixed-size values. *)
Lemma array_skipped name k vs f t c :
  let F := FArray name k vs f t in
  is_fixed k = true -> field_ok F -> at_field (field_meta F) (field_data F) c ->
  c.(stack_top).(remaining_field_count) <> 0 -> 0 < c.(move_next_remaining) ->
  exists c', move_next_sibling_impl ed (begin_ctx name k (len vs) f t c) = next_property ed c' /\
    after (len (field_meta F)) (len (field_data F)) 1 1 c c'.
Proof using Hbytes Hlen.
  intros F Hfix HF Hat Hrem Hmv. destruct (array_begins name k vs f t c HF Hat Hrem) as (En & HI & Hname).
  inversion HF as [|? ? ? ? ? (Hn & Hnb & Hf & Ht) Hk Hvs Hl|]; subst. set (cb := begin_ctx name k (len vs) f t c) in *.
  destruct Hat as (HB & Hr & Hm & Hd & Hme). pose proof (base_remaining _ _ HB) as Hmr.
  pose proof (holds_bounds _ _ _ Hd) as Hdb. pose proof (base_bounds _ _ HB) as Hbb. pose proof (len_nonneg vs) as Hvl.
  change (field_data F) with (to_ne_bytes 2 (len vs) ++ concat (map (value_bytes k) vs)) in *.
  rewrite len_app, len_to_ne in *. change (Z.of_nat 2) with 2 in *.
  pose proof (fixed_array_len k vs Hvs) as Hal. rewrite Hfix in Hal.
  pose proof (len_nonneg (concat (map (value_bytes k) vs))) as Hcl.
  destruct (kind_facts k Hk) as (_ & _ & K3 & K4 & _ & _ & _ & _ & K9 & K10). specialize (K9 Hfix).
  assert (Hks : kind_size k <> 0) by (unfold kind_size; by rewrite Hfix).
  set (c' := set_move_next_remaining (c.(move_next_remaining) - 1) (set_data_pos_raw (c.(data_pos_raw) + 2 + len vs * kind_size k) cb)).
  exists c'. split.
  - unfold move_next_sibling_impl. change (can_move_next (state cb)) with true. cbn [rassert mbind outcome_bind].
    cbn [sibling_loop]. change (state cb) with StArrayBegin. cbv iota.
    change (element_size cb) with (kind_size k). change (move_next_remaining cb) with (move_next_remaining c).
    rewrite (proj2 (Z.eqb_neq _ _) Hks), (proj2 (Z.eqb_neq (move_next_remaining c) 0)) by lia. cbn [orb].
    assert (E : skip_simple_array ed cb = next_property ed c').
    { unfold skip_simple_array. change (substate cb) with SsArrayBegin. change (ft_encoding (field_type cb)) with (Z.lor (kind_encoding k) FieldEncoding_VArrayFlag).
      rewrite K4, K3. change (array_index (stack_top cb)) with 0.
      rewrite (proj2 (Z.eqb_neq (kind_encoding k) FieldEncoding_Struct)) by (unfold FieldEncoding_Struct; lia).
      rewrite bool_decide_true by done. cbn [negb rassert mbind outcome_bind Z.eqb].
      change (array_count (stack_top cb)) with (len vs). change (element_size cb) with (kind_size k).
      change (data_pos_raw cb) with (data_pos_raw c + 2).
      rewrite (checked_ok 32 (len vs * kind_size k)) by lia. cbn [mbind outcome_bind].
      rewrite (checked_ok 32 (data_pos_raw c + 2 + len vs * kind_size k)) by lia. cbn [mbind outcome_bind].
      change (move_next_remaining (set_data_pos_raw _ cb)) with (move_next_remaining c).
      rewrite (checked_ok 32 (move_next_remaining c - 1)) by lia. done. }
    rewrite E. destruct (next_property ed c') as [[m x]|]; cbn [mbind outcome_bind]; [|done]. by rewrite orb_true_r.
  - assert (HBe : Base ed c').
    { apply (Base_ext ed (set_data_pos_raw (cb.(data_pos_raw) + len vs * kind_size k) (set_move_next_remaining (c.(move_next_remaining) - 1) cb))); [|done].
      apply Base_leave; [apply HI|lia| |lia]. change (data_pos_raw cb) with (data_pos_raw c + 2). lia. }
    unfold after. split_and!; try done.
    change (data_pos_raw c + 2 + len vs * kind_size k = data_pos_raw c + (2 + len (concat (map (value_bytes k) vs)))). lia.
Qed.
End Visit.
