(* ===== verification/FieldProps.v ===== *)
(** * FieldProps: what the builder is given, a traversal of the written event shows

    Structs and lists of fields, and the round trip of all fields. *)

From S2P Require Import Prelude Types ByteReader PerfItem Enumerator EnumeratorInv EnumeratorSpec EnumeratorWalk.
From S2P Require Import EventBytes Tracepoint TracepointProps Provider ProviderProps Builder BuilderProps.
From S2P Require Import FieldTree FieldWalk FieldVisit.

Section Structs.
Context `{Target} (ed : bytes) (Hbytes : bytes_ok ed) (Hlen : len ed < 2 ^ 31).

(** ** The moves at a struct *)

Definition struct_ctx (name : bytes) (n t : Z) (c : Ctx) : Ctx :=
  set_states StStructBegin SsStructBegin
    (with_item c.(data_pos_raw) 0 0
       (set_element_size 0 (upd_top (set_array_count 1) (field_ctx name FieldEncoding_Struct n t c)))).

Lemma struct_begins name fs t c :
  let F := FStruct name fs t in
  field_ok F -> at_field ed (field_meta F) (field_data F) c -> c.(stack_top).(remaining_field_count) <> 0 ->
  let cb := struct_ctx name (len fs) t c in
  next_property ed c = Ret (true, cb) /\ Inv ed cb /\
  sub ed cb.(stack_top).(name_offset) (cb.(stack_top).(name_offset) + cb.(stack_top).(name_len)) = name.
Proof using Hbytes Hlen.
  intros F HF Hat Hrem cb. inversion HF as [| |? ? ? (Hname & Hnb & Hf & Ht) Hl Hfs]; subst.
  assert (H0 : 0 <= len fs < 128) by lia.
  destruct (field_ctx_live ed Hbytes Hlen name FieldEncoding_Struct (len fs) t _ (field_data F) 1 c Hat)
    as (HB1 & HL1 & En & Es); [done|done|done|exact H0|done|done|].
  assert (E : next_property ed c = Ret (true, cb)).
  { rewrite En. unfold start_property.
    change (field_type (field_ctx _ _ _ _ c)) with (field_type_of FieldEncoding_Struct (len fs) t).
    cbn [field_type_of ft_encoding ft_format]. change (FieldEncoding_Struct =? READ_FIELD_ERROR) with false.
    change (FieldEncoding_is_array FieldEncoding_Struct) with false. cbn [negb].
    rewrite Z.eqb_refl. cbn [negb]. unfold FieldFormat_Default. rewrite (proj2 (Z.eqb_neq _ 0)) by lia.
    unfold start_struct. change (ft_encoding (field_type _)) with FieldEncoding_Struct.
    change (FieldEncoding_without_flags FieldEncoding_Struct =? FieldEncoding_Struct) with true.
    cbn [rassert mbind outcome_bind]. do 2 f_equal. }
  split_and!; [exact E| |exact Es]. eapply (Inv_of_step ed Hbytes Hlen c); [apply Hat|exact E].
Qed.

(** Inside the struct: its own entry is suspended. *)
Definition enter (c : Ctx) : Ctx :=
  upd_top (set_remaining_field_count c.(field_type).(ft_format))
    (set_stack_index (c.(stack_index) + 1)
       (set_stack (<[Z.to_nat c.(stack_index) := c.(stack_top)]> c.(stack))
          (set_move_next_remaining (c.(move_next_remaining) - 1) c))).

Lemma enter_event c : event_part (enter c) = event_part c.
Proof. done. Qed.

Lemma enter_ok c :
  Inv ed c -> c.(substate) = SsStructBegin -> c.(stack_index) < 8 -> 0 < c.(move_next_remaining) ->
  move_next_impl ed c = next_property ed (enter c) /\ Base ed (enter c).
Proof using Hbytes.
  intros [HB HS] Hss Hsi Hr. pose proof (base_remaining _ _ HB) as Hmr. pose proof (base_stack_index _ _ HB) as Hi.
  pose proof (base_stack _ _ HB) as Hlen8. unfold SubInv in HS. rewrite Hss in HS.
  destruct HS as (Hs & HL & Hst & He & _). destruct (live_type _ Hbytes _ HB HL) as [(_ & Hf & _) _]. split.
  - rewrite move_next_arm by (rewrite ?Hs; done || lia). cbv zeta. ctx. rewrite Hss. unfold move_from_struct_begin. ctx.
    rewrite Hs, bool_decide_true by done. cbn [rassert mbind outcome_bind]. unfold STRUCT_NEST_LIMIT.
    rewrite (proj2 (Z.leb_gt _ _)) by lia. unfold store.
    rewrite (proj2 (Z.leb_le 0 _)), (proj2 (Z.ltb_lt _ _)) by (unfold len; lia). cbn [andb mbind outcome_bind].
    cbv zeta. ctx. rewrite (checked_ok 8) by lia. reflexivity.
  - pose proof (base_next_offset _ _ HB) as Hno. pose proof (base_field_count _ _ HB) as Hfc.
    unfold enter. destruct HB. constructor; ctx; try done; try lia; [by rewrite length_insert|].
    intros i e Hi' Hl. destruct (decide (i = Z.to_nat c.(stack_index))) as [->|Hne].
    + rewrite list_lookup_insert_eq in Hl by lia. simplify_eq. split; [by eexists|done].
    + rewrite list_lookup_insert_ne in Hl by done. eapply base_suspended; [|done]. lia.
Qed.

(** Back at the struct, after its last field. *)
Definition struct_end_ctx (parent : StackEntry) (ft : FieldType) (i : Z) (c : Ctx) : Ctx :=
  set_end_state StStructEnd SsStructEnd
    (set_element_size 0 (set_field_type ft
       (set_stack_top (set_next_offset c.(stack_top).(next_offset) parent) (set_stack_index i c)))).

Lemma struct_ends c parent ft :
  Base ed c -> c.(stack_index) <> 0 -> c.(stack_top).(remaining_field_count) = 0 ->
  c.(stack) !! Z.to_nat (c.(stack_index) - 1) = Some parent ->
  declared ed c.(meta_start) c.(meta_end) c.(byte_reader) parent ft -> struct_type ft = true ->
  parent.(array_index) = 0 -> parent.(array_count) = 1 ->
  next_property ed c = Ret (true, struct_end_ctx parent ft (c.(stack_index) - 1) c).
Proof using Hbytes Hlen.
  intros HB Hi Hr Hp Hd Hst Hai Hac. pose proof (base_bounds _ _ HB) as Hb. pose proof (base_stack_index _ _ HB) as Hsi.
  destruct Hd as (Hd1 & Hd2 & Hd3 & (q & Eq) & Hnz). unfold type_offset in *.
  unfold next_property. rewrite Hr. cbn [Z.eqb negb andb]. rewrite (proj2 (Z.eqb_neq _ _)) by done. cbn [negb].
  unfold end_of_struct. rewrite (checked_ok 8) by lia. cbn [mbind outcome_bind]. cbv zeta. ctx.
  unfold index. rewrite (proj2 (Z.ltb_ge _ _)), Hp by lia. cbn [mbind outcome_bind]. ctx.
  rewrite (checked_ok 32 (_ + _)) by lia. cbn [mbind outcome_bind]. rewrite (checked_ok 32 (_ + 1)) by lia.
  cbn [mbind outcome_bind]. rewrite (read_field_type_eq ed Hbytes Hlen) by (ctx; lia). ctx. rewrite Eq.
  cbn [mbind outcome_bind]. cbv zeta. ctx. unfold struct_type in Hst. rewrite Z.eqb_sym, Hst.
  cbn [rassert mbind outcome_bind]. rewrite Hai, Hac. cbn [Z.ltb Z.compare rassert mbind outcome_bind].
  change (checked 16 (0 + 1)) with (Ret 1). cbn [mbind outcome_bind]. change (1 =? 1) with true. cbv iota.
  reflexivity.
Qed.

(** The context after the struct has been left. *)
Definition left_ctx (parent : StackEntry) (ft : FieldType) (i : Z) (c : Ctx) : Ctx :=
  let cx := struct_end_ctx parent ft i c in
  upd_top (set_array_index 1) (set_move_next_remaining (cx.(move_next_remaining) - 1) cx).

Lemma left_facts parent ft i c : let c' := left_ctx parent ft i c in
  event_part c' = event_part c /\ c'.(stack_top).(next_offset) = c.(stack_top).(next_offset) /\
  c'.(data_pos_raw) = c.(data_pos_raw) /\
  c'.(stack_top).(remaining_field_count) = parent.(remaining_field_count) /\
  c'.(stack_index) = i /\ c'.(stack) = c.(stack) /\ c'.(move_next_remaining) = c.(move_next_remaining) - 1.
Proof. done. Qed.

Lemma Base_index i m c :
  Base ed c -> 0 <= m < 2 ^ 32 -> Base ed (upd_top (set_array_index i) (set_move_next_remaining m c)).
Proof. intros HB Hm. eapply Base_ext; [exact (Base_moves ed m c HB Hm)|reflexivity]. Qed.

Lemma leave_struct c :
  Inv ed c -> c.(substate) = SsStructEnd -> is_array_field c = false -> 0 < c.(move_next_remaining) ->
  move_next_impl ed c = next_property ed (upd_top (set_array_index 1)
                          (set_move_next_remaining (c.(move_next_remaining) - 1) c)).
Proof.
  intros [HB HS] Hss Ha Hr. pose proof (base_remaining _ _ HB) as Hmr. unfold SubInv in HS. rewrite Hss in HS.
  destruct HS as (Hs & HL & Hst & (Hidx & Hcnt & Hsc) & (Hdc & Hraw & Hck) & Hez). unfold is_array_field in Ha.
  destruct (Hsc Ha) as [Hi0 Hc1].
  rewrite move_next_arm by (rewrite ?Hs; done || lia). cbv zeta. ctx. rewrite Hss. unfold move_from_struct_end. ctx.
  unfold struct_type in Hst. rewrite Hs, Hst, Hraw, bool_decide_true by done. cbn [rassert mbind outcome_bind Z.eqb].
  unfold next_index. ctx. rewrite Hi0. change (checked 16 (0 + 1)) with (Ret 1). cbn [mbind outcome_bind].
  unfold at_array_end. ctx. rewrite Hc1. cbn [Z.eqb negb Pos.eqb]. rewrite Ha. reflexivity.
Qed.

(** ** Fields and lists of fields *)

Lemma event_part_facts c c' : event_part c' = event_part c ->
  c'.(byte_reader) = c.(byte_reader) /\ c'.(meta_start) = c.(meta_start) /\ c'.(meta_end) = c.(meta_end) /\
  c'.(data_start) = c.(data_start).
Proof. unfold event_part. intros E. by injection E. Qed.

Lemma at_field_split m1 d1 m2 d2 c :
  at_field ed (m1 ++ m2) (d1 ++ d2) c -> at_field ed m1 d1 c /\
  forall n k c', after ed (len m1) (len d1) n k c c' -> at_field ed m2 d2 c'.
Proof.
  intros (HB & Hr & Hm & Hd & Hme). rewrite len_app in Hme. pose proof (len_nonneg m2).
  apply holds_at_app in Hm as [Hm1 Hm2]. apply holds_at_app in Hd as [Hd1 Hd2]. split.
  - split_and!; done || lia.
  - intros n k c' (A1 & A2 & A3 & A4 & _). destruct (event_part_facts _ _ A2) as (E1 & _ & E2 & _).
    unfold at_field. rewrite E1, E2, A3, A4. split_and!; done || lia.
Qed.

Definition run_ok (f : Field) : Prop :=
  field_ok f -> forall c, at_field ed (field_meta f) (field_data f) c ->
  c.(stack_top).(remaining_field_count) <> 0 -> c.(stack_index) + depth f <= 8 ->
  len (field_items f) <= c.(move_next_remaining) ->
  exists cs c', runs ed (next_property ed c) cs (next_property ed c') /\ map (seen ed) cs = field_items f /\
    after ed (len (field_meta f)) (len (field_data f)) (len (field_items f)) 1 c c'.

Definition max_depth (fs : list Field) : Z := fold_right Z.max 0 (map depth fs).

Lemma max_depth_nonneg fs : 0 <= max_depth fs.
Proof. unfold max_depth. induction fs as [|f fs IH]; cbn [map fold_right]; lia. Qed.

Lemma fields_run fs c :
  Forall run_ok fs -> Forall field_ok fs ->
  at_field ed (concat (map field_meta fs)) (concat (map field_data fs)) c ->
  len fs <= c.(stack_top).(remaining_field_count) -> c.(stack_index) + max_depth fs <= 8 ->
  len (concat (map field_items fs)) <= c.(move_next_remaining) ->
  exists cs c', runs ed (next_property ed c) cs (next_property ed c') /\
    map (seen ed) cs = concat (map field_items fs) /\
    after ed (len (concat (map field_meta fs))) (len (concat (map field_data fs)))
      (len (concat (map field_items fs))) (len fs) c c'.
Proof.
  intros Hrun. revert c. induction Hrun as [|f fs Hf Hrun IH]; intros c Hok Hat Hrem Hdep Hm.
  - exists [], c. split_and!; [apply runs_refl|done|]. destruct Hat as (HB & _).
    unfold after, len. cbn [map concat length Z.of_nat]. split_and!; done || lia.
  - cbn [map concat] in *. destruct (at_field_split _ _ _ _ _ Hat) as [Hat1 Hat2].
    rewrite len_app in Hm. rewrite len_cons in Hrem. pose proof (len_nonneg fs).
    pose proof (len_nonneg (concat (map field_items fs))). unfold max_depth in Hdep. cbn [map fold_right] in Hdep.
    destruct (Hf (List.Forall_inv Hok) c Hat1) as (cs1 & c1 & R1 & S1 & A1); [lia|lia|lia|].
    pose proof A1 as (_ & _ & _ & _ & B5 & B6 & _ & B8).
    destruct (IH c1 (List.Forall_inv_tail Hok) (Hat2 _ _ _ A1)) as (cs2 & c2 & R2 & S2 & A2);
      [lia|unfold max_depth; lia|lia|].
    exists (cs1 ++ cs2), c2. split_and!.
    + by eapply runs_trans.
    + by rewrite map_app, S1, S2.
    + rewrite !len_app, len_cons. by eapply after_trans.
Qed.

(** The moves at a struct, around those at its fields. *)
Definition struct_item (st : EventHeaderEnumeratorState) (name : bytes) (n t : Z) : Item :=
  {| it_state := st; it_name := name; it_type := field_type_of FieldEncoding_Struct n t; it_value := [] |}.

Lemma struct_steps name fs t c :
  let F := FStruct name fs t in
  field_ok F -> at_field ed (field_meta F) (field_data F) c ->
  c.(stack_top).(remaining_field_count) <> 0 -> c.(stack_index) < 8 -> 0 < c.(move_next_remaining) ->
  let cb := struct_ctx name (len fs) t c in
  let ci := enter cb in
  next_property ed c = Ret (true, cb) /\ Inv ed cb /\ seen ed cb = struct_item StStructBegin name (len fs) t /\
  move_next_impl ed cb = next_property ed ci /\
  at_field ed (concat (map field_meta fs)) (concat (map field_data fs)) ci /\
  ci.(stack_top).(remaining_field_count) = len fs /\ ci.(stack_index) = c.(stack_index) + 1 /\
  ci.(move_next_remaining) = c.(move_next_remaining) - 1 /\
  forall n ce,
    after ed (len (concat (map field_meta fs))) (len (concat (map field_data fs))) n (len fs) ci ce ->
    0 < ce.(move_next_remaining) ->
    exists cx c', next_property ed ce = Ret (true, cx) /\ Inv ed cx /\
      seen ed cx = struct_item StStructEnd name (len fs) t /\
      move_next_impl ed cx = next_property ed c' /\
      after ed (len (field_meta F)) (len (field_data F)) (n + 2) 1 c c'.
Proof using Hbytes Hlen.
  intros F HF Hat Hrem Hsi8 Hm. destruct (struct_begins name fs t c HF Hat Hrem) as (En & HIb & Hname). subst F.
  inversion HF as [| |? ? ? (Hn & Hnb & Hf & Ht) Hl Hfs]; subst. set (cb := struct_ctx name (len fs) t c) in *.
  pose proof (base_stack_index _ _ (proj1 Hat)) as Hsi.
  destruct (enter_ok cb HIb eq_refl) as [Eb HBe].
  { change (stack_index c < 8). lia. }
  { change (0 < move_next_remaining c). lia. }
  set (ci := enter cb) in *.
  assert (Hate : at_field ed (concat (map field_meta fs)) (concat (map field_data fs)) ci).
  { destruct Hat as (HB & Hr & Hmt & Hdt & Hme). cbn [field_meta field_data] in *. rewrite len_app in Hme.
    apply holds_at_app in Hmt as [_ Hmt]. split_and!; try done.
    change (next_offset (stack_top c) + len (declaration name FieldEncoding_Struct (len fs) t) +
            len (concat (map field_meta fs)) <= meta_end c). lia. }
  split_and!; try done.
  { unfold seen, struct_item. f_equal; [exact Hname|]. apply sub_empty. }
  intros n ce (A1 & A2 & A3 & A4 & A5 & A6 & A7 & A8) Hm2.
  subst ci.
  change (stack_index (enter cb)) with (stack_index c + 1) in A6, A7.
  change (remaining_field_count (stack_top (enter cb))) with (len fs) in A5.
  change (move_next_remaining (enter cb)) with (move_next_remaining c - 1) in A8.
  rewrite enter_event in A2. destruct (event_part_facts _ _ A2) as (V1 & V2 & V3 & V4).
  pose proof HIb as [_ HSb]. unfold SubInv in HSb. change (substate cb) with SsStructBegin in HSb. cbv iota in HSb.
  destruct HSb as (_ & HLb & Hstb & _).
  assert (Hpar : ce.(stack) !! Z.to_nat (ce.(stack_index) - 1) = Some cb.(stack_top)).
  { rewrite A6, Z.add_simpl_r. rewrite A7 by lia.
    apply list_lookup_insert_eq. pose proof (base_stack _ _ (proj1 HIb)) as Hs8. change (stack cb) with (stack c) in *. change (stack_index cb) with (stack_index c). lia. }
  assert (Hdec : declared ed ce.(meta_start) ce.(meta_end) ce.(byte_reader) cb.(stack_top) cb.(field_type)).
  { unfold live in HLb. by rewrite V1, V2, V3. }
  assert (Hi0 : ce.(stack_index) <> 0) by lia.
  assert (Hr0 : ce.(stack_top).(remaining_field_count) = 0) by lia.
  pose proof (struct_ends ce cb.(stack_top) cb.(field_type) A1 Hi0 Hr0 Hpar Hdec Hstb
    eq_refl eq_refl) as Ee.
  rewrite A6, Z.add_simpl_r in Ee. set (cx := struct_end_ctx _ _ _ ce) in Ee.
  pose proof (Inv_of_step ed Hbytes Hlen ce cx A1 Ee) as HIx.
  pose proof (base_remaining _ _ (proj1 HIx)) as Hmx.
  assert (HBx : Base ed (left_ctx cb.(stack_top) cb.(field_type) (stack_index c) ce)).
  { unfold left_ctx. cbv zeta. fold cx. apply Base_index; [apply HIx|]. change (0 < move_next_remaining cx) in Hm2. lia. }
  exists cx, (left_ctx cb.(stack_top) cb.(field_type) (stack_index c) ce).
  destruct (left_facts cb.(stack_top) cb.(field_type) (stack_index c) ce) as (L1 & L2 & L3 & L4 & L5 & L6 & L7).
  split_and!; try done.
  - unfold seen, struct_item. f_equal; [exact Hname|]. apply sub_empty.
  - by apply (leave_struct cx HIx eq_refl eq_refl Hm2).
  - unfold after. rewrite L1, L2, L3, L4, L5, L6, L7, A2, A3, A4, A8. split_and!.
    + exact HBx.
    + done.
    + cbn [field_meta]. rewrite len_app. change (next_offset (stack_top (enter cb))) with
        (next_offset (stack_top c) + len (declaration name FieldEncoding_Struct (len fs) t)). lia.
    + done.
    + done.
    + done.
    + intros i Hi. rewrite A7 by lia. apply list_lookup_insert_ne.
      change (stack_index cb) with (stack_index c). lia.
    + lia.
Qed.

Lemma struct_runs name fs t : Forall run_ok fs -> run_ok (FStruct name fs t).
Proof using Hbytes Hlen.
  intros Hrun HF c Hat Hrem Hdep Hm. cbn [depth] in Hdep. fold (max_depth fs) in Hdep.
  pose proof (max_depth_nonneg fs) as Hd0. pose proof (len_nonneg (concat (map field_items fs))) as Hil.
  assert (Hit : len (field_items (FStruct name fs t)) = len (concat (map field_items fs)) + 2).
  { cbn [field_items]. rewrite len_cons, len_app. change (len [_]) with 1. lia. }
  rewrite Hit in *.
  destruct (struct_steps name fs t c HF Hat Hrem) as (En & _ & Sb & Eb & Hate & Hfc & Hsi & Hmr & Hend); [lia|lia|].
  inversion HF; subst.
  destruct (fields_run fs _ Hrun ltac:(done) Hate) as (cs & ce & R & S & A); [lia|lia|lia|].
  destruct (Hend _ ce A) as (cx & c' & Ee & _ & Sx & Ex & Ax); [destruct A as (_ & _ & _ & _ & _ & _ & _ & ->); lia|].
  exists (struct_ctx name (len fs) t c :: cs ++ [cx]), c'. split_and!.
  - eapply runs_step; [exact En|]. rewrite Eb. eapply runs_trans; [exact R|]. eapply runs_step; [exact Ee|].
    rewrite Ex. apply runs_refl.
  - cbn [map field_items]. rewrite map_app, S, Sb. cbn [map]. by rewrite Sx.
  - exact Ax.
Qed.

Lemma field_run f : run_ok f.
Proof using Hbytes Hlen.
  induction f as [name k v f t|name k vs f t|name fs t IH] using Field_tree_ind.
  - intros HF c Hat Hrem _ Hm. by apply scalar_runs.
  - intros HF c Hat Hrem _ Hm. by apply array_runs.
  - by apply struct_runs.
Qed.
End Structs.

(** ** Observing an item *)

(** What a consumer sees through [item_info]. *)
Definition observe (ed : bytes) (c : Ctx) : outcome Item :=
  i ← item_info ed c;
  name ← ii_name_bytes i;
  let m := item_metadata (ii_value i) in
  Ret {| it_state := c.(state); it_name := name;
         it_type := field_type_of (Z.lor (md_encoding m) (md_array_flag m)) (format m) (field_tag m);
         it_value := item_bytes (ii_value i) |}.

Definition encoding_parts (e : Z) : bool :=
  (128 <=? e) || (Z.lor (FieldEncoding_without_flags e) (FieldEncoding_array_flags e) =? e).

Lemma observe_seen ed c :
  bytes_ok ed -> Inv ed c -> can_item_info c.(state) = true -> well_declared c.(field_type) ->
  observe ed c = Ret (seen ed c).
Proof.
  intros Hb HI Hc Hw. destruct (wp_inv _ _ (item_info_ok ed Hb c HI Hc Hw)) as (i & E & Hn & Hv & _ & _ & He & Ha & Hf & Ht).
  unfold observe. rewrite E. cbn [mbind outcome_bind]. rewrite Hn. cbn [mbind outcome_bind]. cbv zeta.
  rewrite Hv, He, Ha, Hf, Ht. destruct (item_facts ed c HI Hc) as (HL & _).
  destruct (live_type _ Hb _ (proj1 HI) HL) as [(Hr & _) _].
  assert (Ep : encoding_parts c.(field_type).(ft_encoding) = true) by (apply u8_exhaustive; [by vm_compute|unfold is_u8; lia]).
  unfold encoding_parts in Ep. rewrite (proj2 (Z.leb_gt 128 _)) in Ep by lia. cbn [orb] in Ep. apply Z.eqb_eq in Ep.
  rewrite Ep. unfold seen, field_type_of. by destruct (field_type c).
Qed.

Definition showable (i : Item) : Prop := can_item_info i.(it_state) = true /\ well_declared i.(it_type).

Lemma kind_declared k f t : kind_ok k = true ->
  well_declared (field_type_of (kind_encoding k) f t) /\
  well_declared (field_type_of (Z.lor (kind_encoding k) FieldEncoding_VArrayFlag) f t).
Proof.
  intros Hk. set (P := fun k =>
    negb (FieldEncoding_array_flags (kind_encoding k) =? FieldEncoding_ArrayFlagMask) &&
    negb (FieldEncoding_array_flags (Z.lor (kind_encoding k) FieldEncoding_VArrayFlag) =? FieldEncoding_ArrayFlagMask) &&
    negb (FieldEncoding_without_flags (kind_encoding k) =? FieldEncoding_Struct) &&
    negb (FieldEncoding_without_flags (Z.lor (kind_encoding k) FieldEncoding_VArrayFlag) =? FieldEncoding_Struct)).
  assert (E : P k = true) by (by apply kind_cases). subst P. cbv beta in E. bool_hyps.
  unfold well_declared, struct_type. cbn [field_type_of ft_encoding ft_format].
  split; (split; [done|]); intros E%Z.eqb_eq; congruence.
Qed.

Lemma field_items_showable f : field_ok f -> Forall showable (field_items f).
Proof.
  induction f as [name k v f t|name k vs f t|name fs t IH] using Field_tree_ind; intros HF; inversion HF; subst;
    cbn [field_items].
  - constructor; [|constructor]. split; [done|by apply kind_declared].
  - assert (Hd := proj2 (kind_declared k f t ltac:(done))). constructor; [by split|].
    apply Forall_app. split; [|by constructor; [split|]].
    apply Forall_map, Forall_forall. intros v _. by split.
  - assert (Hd : well_declared (field_type_of FieldEncoding_Struct (len fs) t)).
    { split; [done|]. cbn. lia. }
    constructor; [by split|]. apply Forall_app. split; [|by constructor; [split|]].
    apply Forall_concat, Forall_map. match goal with H : Forall field_ok fs |- _ => rename H into Hfs end.
    rewrite Forall_forall in *. intros f Hin. apply IH; [done|by apply Hfs].
Qed.

Lemma field_bytes_ok `{Target} f : field_ok f -> bytes_ok (field_meta f) /\ bytes_ok (field_data f).
Proof.
  assert (Hx : forall n v, bytes_ok (to_ne_bytes n v)) by (intros; rewrite to_ne_source; apply to_source_bytes_ok).
  assert (Hdecl : forall name e f t, bytes_ok name -> 0 <= e < 128 -> 0 <= f < 128 -> bytes_ok (declaration name e f t)).
  { intros name e f0 t Hn He Hf. unfold declaration, type_bytes.
    assert (Ho : forall x, 0 <= x < 128 -> is_u8 (Z.lor 0x80 x)).
    { intros x Hx'. set (P := fun x => (128 <=? x) || ((0 <=? Z.lor 0x80 x) && (Z.lor 0x80 x <? 256))).
      assert (E : P x = true) by (apply u8_exhaustive; [by vm_compute|unfold is_u8; lia]). subst P. cbv beta in E.
      rewrite (proj2 (Z.leb_gt 128 _)) in E by lia. cbn [orb] in E. bool_hyps. by split. }
    apply Forall_app. split; [done|]. constructor; [by split|].
    destruct (negb (t =? 0)); [|destruct (negb (f0 =? 0))]; repeat (constructor || apply Ho || apply Hx || done);
      unfold is_u8; lia. }
  assert (Hval : forall k v, value_ok k v -> bytes_ok (value_bytes k v)).
  { intros k v [He _].
    assert (Hc : bytes_ok (concat v)) by (apply Forall_concat; eapply List.Forall_impl; [|exact He]; by intros ? []).
    destruct k as [n|n|n|]; cbn [value_bytes]; try done; apply Forall_app; split; try done; try apply Hx.
    - clear Hc. induction He as [|e v [_ He'] He IH]; [constructor|]. cbn [before_zero].
      destruct (is_zero_element n e); [constructor|]. cbn [concat]. apply Forall_app. by split.
    - apply zero_element_ok. }
  induction f as [name k v f t|name k vs f t|name fs t IH] using Field_tree_ind; intros HF; inversion HF; subst;
    match goal with H : decl_ok _ _ _ |- _ => destruct H as (_ & Hnb & Hf & _) end; cbn [field_meta field_data].
  - destruct (kind_facts k) as (_ & _ & _ & _ & _ & _ & _ & _ & _ & K10); [done|]. split; [apply Hdecl; done || lia|by apply Hval].
  - destruct (kind_facts k) as (_ & _ & _ & _ & _ & _ & K7 & _); [done|]. split; [by apply Hdecl|].
    apply Forall_app. split; [apply Hx|]. apply Forall_concat, Forall_map.
    match goal with H : Forall (value_ok k) vs |- _ => eapply List.Forall_impl; [|exact H] end. intros v Hv. by apply Hval.
  - match goal with H : Forall field_ok fs |- _ => rename H into Hfs end. rewrite Forall_forall in IH, Hfs. split.
    + apply Forall_app. split; [apply Hdecl; done || lia|]. apply Forall_concat, Forall_map, Forall_forall.
      intros f Hin. by apply IH, Hfs.
    + apply Forall_concat, Forall_map, Forall_forall. intros f Hin. by apply IH, Hfs.
Qed.

(** ** The round trip *)

Lemma visit_Inv `{Target} ed fuel c cs e :
  bytes_ok ed -> len ed < 2 ^ 31 -> Inv ed c -> visit ed fuel (move_next_impl ed c) = Ret (cs, e) -> Forall (Inv ed) cs.
Proof.
  intros Hb Hl. revert c cs e. induction fuel as [|fuel IH]; intros c cs e HI E; cbn [visit] in E;
    destruct (move_next_impl ed c) as [[[] c1]|] eqn:Em; cbn [mbind outcome_bind] in E; try done;
    try (injection E as <- <-; constructor).
  pose proof (Inv_of_move ed Hb Hl _ _ _ HI Em) as HI1.
  destruct (visit ed fuel (move_next_impl ed c1)) as [[l e']|] eqn:Ev; [|done]. cbn in E. injection E as <- <-.
  constructor; [done|]. by eapply IH.
Qed.

Lemma observed_all `{Target} ed cs items :
  bytes_ok ed -> Forall (Inv ed) cs -> map (seen ed) cs = items -> Forall showable items ->
  map (observe ed) cs = map Ret items.
Proof.
  intros Hb HI <-. rewrite map_map. induction HI as [|c cs HI HIs IH]; intros Hs; [done|].
  cbn [map] in *. pose proof (List.Forall_inv Hs) as [Hc Hd]. f_equal; [by apply observe_seen|].
  apply IH. exact (List.Forall_inv_tail Hs).
Qed.

Definition all_meta `{Target} (fs : list Field) : bytes := concat (map field_meta fs).
Definition all_data `{Target} (fs : list Field) : bytes := concat (map field_data fs).
Definition all_items (fs : list Field) : list Item := concat (map field_items fs).

(** The builder with the fields added to a new event. *)
Lemma fields_built `{Target} name tag fs b :
  no_nul name -> bytes_ok name -> in_width 16 tag -> Forall field_ok fs ->
  len name + 1 + len (all_meta fs) + len (all_data fs) <= 65535 - (52 + 16) ->
  exists b', (b0 ← EventBuilder_reset name tag b; add_fields fs b0) = Ret b' /\
    built b' name (all_meta fs) /\ b'.(b_data) = all_data fs.
Proof.
  intros Hn Hnb Ht Hfs Hsz. unfold EventBuilder_reset. rewrite no_nul_contains by done.
  cbn [negb rassert mbind outcome_bind]. rewrite add_fields_ok by done. eexists. split; [reflexivity|].
  assert (Hok : bytes_ok (all_meta fs) /\ bytes_ok (all_data fs)).
  { rewrite Forall_forall in Hfs. split; apply Forall_concat, Forall_map, Forall_forall; intros f Hin;
      by apply field_bytes_ok, Hfs. }
  split; [|done]. unfold appended. cbn [with_data with_meta b_meta b_data b_flags b_version b_id b_tag b_opcode].
  constructor; cbn [b_meta b_data b_flags b_version b_id b_tag b_opcode with_data with_meta]; try done.
  - by rewrite <- (assoc_L (++)).
  - apply Forall_app. split; [|apply Hok]. apply Forall_app. split; [done|]. repeat constructor; unfold is_u8; lia.
  - exact (proj2 Hok).
  - fold (all_meta fs) (all_data fs). rewrite !len_app. change (len [0]) with 1. change (len (@nil Z)) with 0. lia.
Qed.

(** A successful start of a written event: the first move reads at the fields, and
    after the fields is the end of the event. *)
Lemma written_start `{Target} b level kw aid rid name fs limit c :
  built b name (all_meta fs) -> b.(b_data) = all_data fs ->
  in_width 8 level -> id_ok aid -> id_ok rid -> 0 < limit ->
  written_context b name level kw limit aid rid c ->
  let ed := event_payload b level aid rid in
  bytes_ok ed /\ len ed < 2 ^ 31 /\ Inv ed c /\ c.(state) = StBeforeFirstItem /\ c.(move_next_remaining) = limit /\
  exists c1, move_next_impl ed c = next_property ed c1 /\ at_field ed (all_meta fs) (all_data fs) c1 /\
    c1.(stack_top).(remaining_field_count) = 255 /\ c1.(stack_index) = 0 /\ c1.(move_next_remaining) = limit - 1 /\
    forall n c', after ed (len (all_meta fs)) (len (all_data fs)) n (len fs) c1 c' ->
      next_property ed c' = Ret (false, set_end_state StAfterLastItem SsAfterLastItem c').
Proof.
  intros Hb Hbd Hlv Ha Hr Hlim W ed.
  pose proof (payload_ok b level aid rid name (all_meta fs) Hb Hlv Ha Hr) as Hok. fold ed in Hok.
  destruct (payload_layout b level aid rid) as (_ & _ & _ & H4 & H5 & Hlen'). fold ed in H4, H5, Hlen'.
  pose proof (built_size _ _ _ Hb) as Hs. pose proof (len_activity_block aid rid Ha Hr) as Hbl.
  fold (block_len aid rid) in Hbl.
  assert (Hlen : len ed < 2 ^ 31).
  { rewrite Hlen'. unfold written_meta_start. rewrite Hbl. unfold activity_len. destruct aid, rid; cbn [is_none]; lia. }
  destruct (wc_started _ _ _ _ _ _ _ _ W) as (HI & Hss & Hrem & Hpos & Hsi & _). fold ed in HI.
  destruct (wc_top _ _ _ _ _ _ _ _ W) as [Hno Hfc]. pose proof (base_remaining _ _ (proj1 HI)) as Hmr.
  assert (Hst : c.(state) = StBeforeFirstItem).
  { pose proof (proj2 HI) as HS. unfold SubInv in HS. by rewrite Hss in HS. }
  split_and!; [done..|]. set (c1 := set_move_next_remaining (c.(move_next_remaining) - 1) c). exists c1.
  rewrite (built_meta _ _ _ Hb), (assoc_L (++)) in H4. apply holds_at_app in H4 as [_ H4].
  split_and!; [| |exact Hfc|exact Hsi|by unfold c1; ctx; rewrite Hrem|].
  - rewrite move_next_arm by (rewrite ?Hst; done || lia). cbv zeta. ctx. rewrite Hss. unfold move_from_before_first. ctx.
    by rewrite Hst, bool_decide_true by done.
  - assert (Eno : next_offset (stack_top c1) = written_meta_start aid rid + len (name ++ [0])).
    { change (next_offset (stack_top c1)) with (next_offset (stack_top c)). rewrite Hno, (wc_meta_start _ _ _ _ _ _ _ _ W), len_app.
      change (len [0]) with 1. lia. }
    unfold at_field. rewrite Eno. split_and!.
    + apply Base_moves; [apply HI|lia].
    + exact (wc_reader _ _ _ _ _ _ _ _ W).
    + exact H4.
    + change (data_pos_raw c1) with (data_pos_raw c). rewrite Hpos, (wc_data_start _ _ _ _ _ _ _ _ W),
        (wc_meta_end _ _ _ _ _ _ _ _ W). rewrite Hbd in H5. exact H5.
    + change (meta_end c1) with (meta_end c). rewrite (wc_meta_end _ _ _ _ _ _ _ _ W), (built_meta _ _ _ Hb).
      rewrite !len_app. lia.
  - intros n c' (A1 & A2 & A3 & _ & _ & A6 & _).
    assert (Eend : c'.(stack_top).(next_offset) = c'.(meta_end)).
    { destruct (event_part_facts _ _ A2) as (_ & _ & -> & _). rewrite A3.
      change (next_offset (stack_top c1)) with (next_offset (stack_top c)).
      change (meta_end c1) with (meta_end c). rewrite Hno, (wc_meta_start _ _ _ _ _ _ _ _ W),
        (wc_meta_end _ _ _ _ _ _ _ _ W), (built_meta _ _ _ Hb), !len_app. change (len [0]) with 1.
      unfold all_meta. lia. }
    unfold next_property. rewrite Eend, Z.eqb_refl, andb_false_r, A6.
    change (stack_index c1) with (stack_index c). by rewrite Hsi.
Qed.

(** From a successful start, a traversal visits exactly the fields. *)
Lemma written_traversal `{Target} b level kw aid rid name fs limit c :
  built b name (all_meta fs) -> b.(b_data) = all_data fs -> Forall field_ok fs ->
  in_width 8 level -> id_ok aid -> id_ok rid ->
  len fs <= 255 -> max_depth fs <= 8 -> len (all_items fs) < limit ->
  written_context b name level kw limit aid rid c ->
  let ed := event_payload b level aid rid in
  exists cs e, visit ed (length (all_items fs)) (move_next_impl ed c) = Ret (cs, e) /\
    map (observe ed) cs = map Ret (all_items fs) /\ e.(state) = StAfterLastItem.
Proof.
  intros Hb Hbd Hfs Hlv Ha Hr Hn Hdep Hlim W ed. pose proof (len_nonneg (all_items fs)) as Hil.
  destruct (written_start b level kw aid rid name fs limit c Hb Hbd Hlv Ha Hr ltac:(lia) W)
    as (Hok & Hlen & HI & _ & _ & c1 & Em & Hat & Hfc & Hsi & Hmr & Hend). fold ed in Hok, Hlen, HI, Em, Hat, Hend.
  destruct (fields_run ed fs c1) as (cs & c' & R & S & A); try done.
  { apply Forall_forall. intros f _. by apply field_run. }
  { lia. }
  { lia. }
  { fold (all_items fs). lia. }
  apply Hend in A. assert (Elen : length cs = length (all_items fs)) by (unfold all_items; by rewrite <- S, length_map).
  apply (runs_visit ed _ _ _ 0%nat) in R. rewrite Nat.add_0_r, A, Elen in R. cbn [visit mbind outcome_bind] in R.
  rewrite app_nil_r, <- Em in R. eexists cs, _. split; [exact R|]. split; [|done].
  apply observed_all; try done.
  - by eapply (visit_Inv ed); [..|exact R].
  - apply Forall_concat, Forall_map. eapply List.Forall_impl; [|exact Hfs]. intros f. apply field_items_showable.
Qed.

(** The event that is written, and its traversal. *)
Lemma written_event_visited `{Target} `{UserEventsOk} file st name tag fs b0 level kw aid rid pname attrs limit
    (Hname : no_nul name /\ bytes_ok name) (Htag : in_width 16 tag) (Hfields : Forall field_ok fs)
    (Hsize : len name + 1 + len (all_meta fs) + len (all_data fs) <= 65535 - (52 + 16))
    (Hcount : len fs <= 255) (Hdepth : max_depth fs <= 8) (Hmoves : len (all_items fs) < limit < 2 ^ 32)
    (Hlevel : in_width 8 level) (Hkeyword : in_width 64 kw)
    (Haid : id_ok aid) (Hrid : id_ok rid) (Hids : aid = None -> rid = None)
    (Henabled : st.(enable_status) <> 0) (Hindex : 0 <= st.(write_index) <= HIGHEST_VALID_WRITE_INDEX)
    (Hattrs : attributes_ok attrs) (Htn : bytes_ok (tracepoint_name pname (attributes attrs) level kw))
    (Hshort : len (tracepoint_name pname (attributes attrs) level kw) < EVENT_HEADER_TRACEPOINT_NAME_MAX) :
  exists b code iov ed c cs e,
    (b ← EventBuilder_reset name tag b0; add_fields fs b) = Ret b /\
    EventBuilder_write file level st aid rid b = Ret (code, Some iov) /\
    concat iov = to_ne_bytes 4 st.(write_index) ++ ed /\
    enumerate_with_name_and_data (tracepoint_name pname (attributes attrs) level kw) ed limit
      EventHeaderEnumeratorContext_new = Ret (Ok tt, c) /\
    visit ed (length (all_items fs)) (move_next_impl ed c) = Ret (cs, e) /\
    map (observe ed) cs = map Ret (all_items fs) /\ e.(state) = StAfterLastItem.
Proof.
  destruct Hname as [Hn Hnb]. destruct (fields_built name tag fs b0 Hn Hnb Htag Hfields Hsize) as (b & Eb & Hb & Hd).
  destruct (written_payload file level st aid rid b name (all_meta fs)) as (code & iov & Ew & Ei & _); try done.
  assert (Hlim : 0 <= limit < 2 ^ 32) by (pose proof (len_nonneg (all_items fs)); lia).
  destruct (enumerate_written b level kw aid rid name (all_meta fs) pname attrs limit EventHeaderEnumeratorContext_new)
    as (c & Ec & W); try done.
  destruct (written_traversal b level kw aid rid name fs limit c) as (cs & e & Ev & Eo & Es); try done; [lia|].
  by exists b, code, iov, (event_payload b level aid rid), c, cs, e.
Qed.

(** C2. An event built with any tree of scalar, array and struct fields (at most
    255 at the top, at most 127 in a struct, structs nested at most 8 deep, in all
    at most the size the builder accepts) is written as the write index and an event which the
    enumerator accepts, and a traversal within the move limit visits exactly the
    items of the fields in their order: the names, types, tags and values that the
    builder was given, each array and struct between its begin and end; it then
    reports the end of the event. *)
Theorem event_round_trip `{Target} `{UserEventsOk} file st name tag fs b0 level kw aid rid pname attrs limit
    (Hname : no_nul name /\ bytes_ok name) (Htag : in_width 16 tag) (Hfields : Forall field_ok fs)
    (Hsize : len name + 1 + len (all_meta fs) + len (all_data fs) <= 65535 - (52 + 16))
    (Hcount : len fs <= 255) (Hdepth : max_depth fs <= 8) (Hmoves : len (all_items fs) < limit < 2 ^ 32)
    (Hlevel : in_width 8 level) (Hkeyword : in_width 64 kw)
    (Haid : id_ok aid) (Hrid : id_ok rid) (Hids : aid = None -> rid = None)
    (Henabled : st.(enable_status) <> 0) (Hindex : 0 <= st.(write_index) <= HIGHEST_VALID_WRITE_INDEX)
    (Hattrs : attributes_ok attrs) (Htn : bytes_ok (tracepoint_name pname (attributes attrs) level kw))
    (Hshort : len (tracepoint_name pname (attributes attrs) level kw) < EVENT_HEADER_TRACEPOINT_NAME_MAX) :
  exists b code iov ed c cs e,
    (b ← EventBuilder_reset name tag b0; add_fields fs b) = Ret b /\
    EventBuilder_write file level st aid rid b = Ret (code, Some iov) /\
    concat iov = to_ne_bytes 4 st.(write_index) ++ ed /\
    enumerate_with_name_and_data (tracepoint_name pname (attributes attrs) level kw) ed limit
      EventHeaderEnumeratorContext_new = Ret (Ok tt, c) /\
    visit ed (length (all_items fs)) (move_next_impl ed c) = Ret (cs, e) /\
    map (observe ed) cs = map Ret (all_items fs) /\ e.(state) = StAfterLastItem.
Proof. by apply (written_event_visited file st name tag fs b0 level kw aid rid pname attrs limit). Qed.

(** Deciding [field_ok], for concrete fields. *)
Definition byteb (b : Z) : bool := (0 <=? b) && (b <? 256).
Definition decl_okb (name : bytes) (f t : Z) : bool :=
  forallb (fun c => byteb c && negb (c =? 0)) name && (0 <=? f) && (f <? 128) && (0 <=? t) && (t <? 65536).
Definition value_okb (k : ValueKind) (v : list bytes) : bool :=
  forallb (fun e => (len e =? element_width k) && forallb byteb e) v &&
  match k with KValue _ => Nat.eqb (length v) 1 | KZString _ => true | _ => len v <=? 65535 end.
Fixpoint field_okb (f : Field) : bool :=
  match f with
  | FScalar name k v f t => decl_okb name f t && kind_ok k && value_okb k v
  | FArray name k vs f t => decl_okb name f t && kind_ok k && forallb (value_okb k) vs && (len vs <=? 65535)
  | FStruct name fs t => decl_okb name 0 t && (1 <=? len fs) && (len fs <=? 127) && forallb field_okb fs
  end.

Lemma forallb_Forall {A} (p : A -> bool) (P : A -> Prop) l :
  (forall x, p x = true -> P x) -> forallb p l = true -> Forall P l.
Proof. intros Hp Hl. rewrite forallb_forall in Hl. apply List.Forall_forall. auto. Qed.

Lemma decl_ok_decide name f t : decl_okb name f t = true -> decl_ok name f t.
Proof.
  unfold decl_okb. intros E. bool_hyps. unfold decl_ok, in_width. split_and!; try lia;
    (eapply forallb_Forall; [|eassumption]); intros c Ec; cbv beta in Ec; bool_hyps; [lia|].
  unfold byteb in *. bool_hyps. by split.
Qed.

Lemma value_ok_decide k v : value_okb k v = true -> value_ok k v.
Proof.
  unfold value_okb. intros E. bool_hyps. split.
  - eapply forallb_Forall; [|eassumption]. intros e Ee. cbv beta in Ee. bool_hyps. split; [done|by apply bytes_ok_decide].
  - destruct k; try done; [by apply Nat.eqb_eq|by apply Z.leb_le|by apply Z.leb_le].
Qed.

Lemma field_ok_decide f : field_okb f = true -> field_ok f.
Proof.
  induction f as [name k v f t|name k vs f t|name fs t IH] using Field_tree_ind; cbn [field_okb]; intros E; bool_hyps;
    constructor; try (by apply decl_ok_decide); try done; try lia.
  - by apply value_ok_decide.
  - eapply forallb_Forall; [|eassumption]. apply value_ok_decide.
  - rewrite Forall_forall in IH. match goal with H : forallb field_okb fs = true |- _ => rewrite forallb_forall in H; rename H into Hfs end.
    apply Forall_forall. intros f Hin. apply IH; [done|]. by apply Hfs.
Qed.

(** A scalar, an array of strings and a struct that holds an array and a scalar. *)
Definition example_fields : list Field :=
  [FScalar [105; 100] (KValue 4) [[1; 2; 3; 4]] 3 0;
   FArray [115] (KString 1) [[[65]; [66]]; []] 0 7;
   FStruct [112] [FArray [120] (KValue 2) [[[1; 0]]; [[2; 0]]] 0 0;
                  FScalar [122] (KZString 1) [[67]; [0]; [68]] 0 0] 0].

Lemma event_round_trip_witness :
  exists b code iov ed c cs e,
    (b ← @EventBuilder_reset little_endian_target [101] 3 (@EventBuilder_new little_endian_target);
     @add_fields little_endian_target example_fields b) = Ret b /\
    @EventBuilder_write little_endian_target example_kernel 5 5 example_state None None b = Ret (code, Some iov) /\
    concat iov = @to_ne_bytes little_endian_target 4 9 ++ ed /\
    enumerate_with_name_and_data (tracepoint_name [80] (attributes example_attributes) 5 0x1F) ed 100
      EventHeaderEnumeratorContext_new = Ret (Ok tt, c) /\
    @visit little_endian_target ed 12%nat (@move_next_impl little_endian_target ed c) = Ret (cs, e) /\
    map (observe ed) cs = map Ret (all_items example_fields) /\ e.(state) = StAfterLastItem.
Proof.
  apply (@event_round_trip little_endian_target example_kernel example_kernel_ok 5 example_state [101] 3
           example_fields _ 5 0x1F None None [80] example_attributes 100).
  - split; [repeat constructor|apply bytes_ok_decide; reflexivity].
  - vm_compute; by split.
  - apply (forallb_Forall field_okb); [exact field_ok_decide|reflexivity].
  - vm_compute. discriminate.
  - vm_compute. discriminate.
  - vm_compute. discriminate.
  - vm_compute. by split.
  - vm_compute; by split.
  - vm_compute; by split.
  - exact I.
  - exact I.
  - reflexivity.
  - discriminate.
  - vm_compute. split; discriminate.
  - repeat constructor.
  - apply bytes_ok_decide. reflexivity.
  - vm_compute. reflexivity.
Defined.
