(* ===== verification/Text.v ===== *)
(** * Text: filters and conversions of strings
    (tracepoint_decode/src/filters.rs, charconv.rs, the text part of writers.rs)

    A character is its Unicode scalar value and a [str] its UTF-8 bytes.  A filter
    is a value of class [Filter] over the state of the destination; a filter that
    holds a [&mut] to a lower filter works on the lower filter's state. *)

From S2P Require Import Prelude Types ByteReader PerfItem.

(** ** [fmt::Result] *)

(** [Err] is [fmt::Error], which carries nothing. *)
Definition fmt (S : Type) : Type := S -> outcome (result unit unit * S).
Definition fmt_ok {S} : fmt S := fun s => Ret (Ok tt, s).
(** [m?; k] *)
Definition fmt_then {S} (m k : fmt S) : fmt S := fun s =>
  '(r, s) ← m s; match r with Ok _ => k s | Err e => Ret (Err e, s) end.
(** An assert in front of [k]. *)
Definition fmt_assert {S} (b : bool) (k : fmt S) : fmt S := fun s => _ ← rassert b; k s.
Notation "m ;;? k" := (fmt_then m k) (at level 60, right associativity).

(** ** Unicode, as [char] and [str] of the standard library define it *)

Definition is_scalar_value (c : Z) : bool :=
  (0 <=? c) && (c <? 0xD800) || (0xE000 <=? c) && (c <? 0x110000).
(** [char::from_u32(v).unwrap_or(REPLACEMENT_CHARACTER)] *)
Definition REPLACEMENT_CHARACTER : Z := 0xFFFD.
Definition char_from_u32 (v : Z) : Z := if is_scalar_value v then v else REPLACEMENT_CHARACTER.

(** [char::encode_utf8] *)
Definition utf8_encode (c : Z) : bytes :=
  if c <? 0x80 then [c]
  else if c <? 0x800 then [0xC0 + c / 64; 0x80 + c mod 64]
  else if c <? 0x10000 then [0xE0 + c / 4096; 0x80 + c / 64 mod 64; 0x80 + c mod 64]
  else [0xF0 + c / 262144; 0x80 + c / 4096 mod 64; 0x80 + c / 64 mod 64; 0x80 + c mod 64].
Definition utf8 (cs : list Z) : bytes := concat (map utf8_encode cs).

(** The next character of well-formed UTF-8 (table 3-7 of the Unicode standard). *)
Definition continuation (b : Z) : bool := (0x80 <=? b) && (b <=? 0xBF).
Definition utf8_next (l : bytes) : option (Z * bytes) :=
  match l with
  | [] => None
  | b0 :: t =>
    if b0 <? 0x80 then Some (b0, t)
    else if (0xC2 <=? b0) && (b0 <=? 0xDF) then
      match t with
      | b1 :: t => if continuation b1 then Some ((b0 - 0xC0) * 64 + (b1 - 0x80), t) else None
      | _ => None
      end
    else if (0xE0 <=? b0) && (b0 <=? 0xEF) then
      match t with
      | b1 :: b2 :: t =>
        if continuation b1 && continuation b2
           && ((negb (b0 =? 0xE0) || (0xA0 <=? b1)) && (negb (b0 =? 0xED) || (b1 <=? 0x9F)))
        then Some ((b0 - 0xE0) * 4096 + (b1 - 0x80) * 64 + (b2 - 0x80), t) else None
      | _ => None
      end
    else if (0xF0 <=? b0) && (b0 <=? 0xF4) then
      match t with
      | b1 :: b2 :: b3 :: t =>
        if continuation b1 && continuation b2 && continuation b3
           && ((negb (b0 =? 0xF0) || (0x90 <=? b1)) && (negb (b0 =? 0xF4) || (b1 <=? 0x8F)))
        then Some ((b0 - 0xF0) * 262144 + (b1 - 0x80) * 4096 + (b2 - 0x80) * 64 + (b3 - 0x80), t)
        else None
      | _ => None
      end
    else None
  end.

(** [str::from_utf8]; every character has at least one byte. *)
Fixpoint from_utf8_loop (fuel : nat) (l : bytes) : option (list Z) :=
  match l with
  | [] => Some []
  | _ =>
    match fuel with
    | O => None
    | S fuel =>
      match utf8_next l with
      | Some (c, l) => match from_utf8_loop fuel l with Some cs => Some (c :: cs) | None => None end
      | None => None
      end
    end
  end.
Definition from_utf8 (l : bytes) : option (list Z) := from_utf8_loop (length l) l.
Definition is_utf8 (l : bytes) : bool := match from_utf8 l with Some _ => true | None => false end.

(** ** Filters *)

(** [fmt::Write]: what a destination offers. *)
Class Write (S : Type) := {
  dest_write_str : bytes -> fmt S;
  dest_write_char : Z -> fmt S;
}.

(* filters.rs: trait Filter *)
Class Filter (S : Type) := {
  write_ascii : Z -> fmt S;
  write_non_ascii : Z -> fmt S;
  write_str : bytes -> fmt S;
}.

(** [lower.write_str(str_from_validated_utf8(b))] *)
(* filters.rs: str_from_validated_utf8 *)
Definition write_validated {S} `{Filter S} (b : bytes) : fmt S := fmt_assert (is_utf8 b) (write_str b).

Section Filters.
Context {S : Type}.

(* filters.rs: WriteFilter::write_ascii *)
Definition WriteFilter_write_ascii `{Write S} (value : Z) : fmt S :=
  fmt_assert (value <? 0x80) (fmt_assert (is_utf8 [value]) (dest_write_str [value])).
(* filters.rs: WriteFilter::write_non_ascii *)
Definition WriteFilter_write_non_ascii `{Write S} (value : Z) : fmt S := dest_write_char value.
(* filters.rs: WriteFilter::write_str *)
Definition WriteFilter_write_str `{Write S} (value : bytes) : fmt S := dest_write_str value.
(* filters.rs: struct WriteFilter *)
Definition WriteFilter `{Write S} : Filter S :=
  {| write_ascii := WriteFilter_write_ascii; write_non_ascii := WriteFilter_write_non_ascii;
     write_str := WriteFilter_write_str |}.

Context (lower : Filter S).
#[local] Existing Instance lower.

(* filters.rs: ControlCharsSpaceFilter::write_ascii *)
Definition Space_write_ascii (value : Z) : fmt S :=
  fmt_assert (value <? 0x80) (if value <? 32 then write_ascii 32 else write_ascii value).
(* filters.rs: ControlCharsSpaceFilter::write_non_ascii *)
Definition Space_write_non_ascii (value : Z) : fmt S := write_non_ascii value.

(** The loop over [pos in 0..bytes.len()]; [rest] is [bytes[pos..]]. *)
(* filters.rs:85-97: ControlCharsSpaceFilter::write_str, loop *)
Fixpoint Space_write_str_loop (bytes : bytes) (pos written_pos : Z) (rest : list Z) : fmt S :=
  match rest with
  | [] =>
    if written_pos <? len bytes then
      fun s => b ← slice_from bytes written_pos; write_validated b s
    else fmt_ok
  | b :: rest =>
    if b <? 32 then
      (if written_pos <? pos then fun s => b ← slice bytes written_pos pos; write_validated b s else fmt_ok) ;;?
      write_ascii 32 ;;?
      Space_write_str_loop bytes (pos + 1) (pos + 1) rest
    else Space_write_str_loop bytes (pos + 1) written_pos rest
  end.
(* filters.rs: ControlCharsSpaceFilter::write_str *)
Definition Space_write_str (value : bytes) : fmt S := Space_write_str_loop value 0 0 value.
(* filters.rs: struct ControlCharsSpaceFilter *)
Definition ControlCharsSpaceFilter : Filter S :=
  {| write_ascii := Space_write_ascii; write_non_ascii := Space_write_non_ascii;
     write_str := Space_write_str |}.

(* filters.rs: JsonFilterImpl::to_hex_char_uppercase *)
Definition to_hex_char_uppercase (nibble : Z) : Z :=
  let nibble := Z.land nibble 0xF in if nibble <=? 9 then 48 + nibble else 65 + nibble - 10.

(** [CONTROL_CHARS_ONLY] is the constant parameter of the type. *)
(* filters.rs: JsonFilterImpl::write_ascii_impl *)
Definition write_ascii_impl (CONTROL_CHARS_ONLY : bool) (value : Z) : fmt S :=
  fmt_assert (value <? 0x80)
    (if (value =? 34) && negb CONTROL_CHARS_ONLY then write_str [92; 34]
     else if (value =? 92) && negb CONTROL_CHARS_ONLY then write_str [92; 92]
     else if value =? 8 then write_str [92; 98]
     else if value =? 12 then write_str [92; 102]
     else if value =? 10 then write_str [92; 110]
     else if value =? 13 then write_str [92; 114]
     else if value =? 9 then write_str [92; 116]
     else if (0 <=? value) && (value <=? 0x1F) then
       write_validated [92; 117; 48; 48; if value <? 0x10 then 48 else 49; to_hex_char_uppercase value]
     else write_ascii value).
(* filters.rs: JsonFilterImpl::write_non_ascii_impl *)
Definition write_non_ascii_impl (value : Z) : fmt S := write_non_ascii value.
(* filters.rs:223-235: JsonFilterImpl::write_str_impl, loop *)
Fixpoint write_str_impl_loop (CONTROL_CHARS_ONLY : bool) (bytes : bytes) (pos written_pos : Z) (rest : list Z)
  : fmt S :=
  match rest with
  | [] =>
    if written_pos <? len bytes then
      fun s => b ← slice_from bytes written_pos; write_validated b s
    else fmt_ok
  | b :: rest =>
    if b <=? (if CONTROL_CHARS_ONLY then 0x1F else 92) then
      (if written_pos <=? pos then fun s => b ← slice bytes written_pos pos; write_validated b s else fmt_ok) ;;?
      write_ascii_impl CONTROL_CHARS_ONLY b ;;?
      write_str_impl_loop CONTROL_CHARS_ONLY bytes (pos + 1) (pos + 1) rest
    else write_str_impl_loop CONTROL_CHARS_ONLY bytes (pos + 1) written_pos rest
  end.
(* filters.rs: JsonFilterImpl::write_str_impl *)
Definition write_str_impl (CONTROL_CHARS_ONLY : bool) (value : bytes) : fmt S :=
  write_str_impl_loop CONTROL_CHARS_ONLY value 0 0 value.

(* filters.rs: ControlCharsJsonFilter::write_ascii *)
Definition ControlCharsJson_write_ascii (value : Z) : fmt S :=
  fmt_assert (value <? 0x80) (write_ascii_impl true value).
(* filters.rs: struct ControlCharsJsonFilter *)
Definition ControlCharsJsonFilter : Filter S :=
  {| write_ascii := ControlCharsJson_write_ascii; write_non_ascii := write_non_ascii_impl;
     write_str := write_str_impl true |}.
(* filters.rs: JsonEscapeFilter::write_ascii *)
Definition JsonEscape_write_ascii (value : Z) : fmt S :=
  fmt_assert (value <? 0x80) (write_ascii_impl false value).
(* filters.rs: struct JsonEscapeFilter *)
Definition JsonEscapeFilter : Filter S :=
  {| write_ascii := JsonEscape_write_ascii; write_non_ascii := write_non_ascii_impl;
     write_str := write_str_impl false |}.
End Filters.

(** ** Conversions *)

Section CharConv.
Context {S : Type} (filter : Filter S).
#[local] Existing Instance filter.

(* charconv.rs:26-44: write_latin1_to, loop *)
Fixpoint latin1_loop (bytes : bytes) (pos written_pos : Z) (rest : list Z) : fmt S :=
  match rest with
  | [] => if written_pos <? len bytes
          then fun s => b ← slice_from bytes written_pos; write_validated b s else fmt_ok
  | b :: rest =>
    if b <=? 0x7F then latin1_loop bytes (pos + 1) written_pos rest
    else
      (if written_pos <? pos then fun s => b ← slice bytes written_pos pos; write_validated b s else fmt_ok) ;;?
      write_non_ascii b ;;?
      latin1_loop bytes (pos + 1) (pos + 1) rest
  end.
(* charconv.rs: write_latin1_to *)
Definition write_latin1_to (bytes : bytes) : fmt S := latin1_loop bytes 0 0 bytes.

(** The number of bytes of the UTF-8 sequence at [pos], or [None] if it is not valid. *)
(* charconv.rs:71-122: write_utf8_with_latin1_fallback_to, the sequence at pos *)
Definition utf8_sequence (bytes : bytes) (pos : Z) : outcome (option Z) :=
  let len := len bytes in
  let lead (b : Z) : bool := 0x80 =? Z.land b 0xC0 in
  b0 ← index bytes pos;
  if b0 <=? 0x7F then Ret (Some 1)
  else if b0 <=? 0xBF then Ret None
  else if b0 <=? 0xDF then
    remaining ← usize (len - pos);
    if 2 <=? remaining then
      b1 ← index bytes (pos + 1);
      if lead b1 then
        let ch := Z.lor (Z.shiftl (Z.land b0 0x1F) 6) (Z.land b1 0x3F) in
        Ret (if 0x80 <=? ch then Some 2 else None)
      else Ret None
    else Ret None
  else if b0 <=? 0xEF then
    remaining ← usize (len - pos);
    if 3 <=? remaining then
      b1 ← index bytes (pos + 1);
      b2 ← index bytes (pos + 2);
      if lead b1 && lead b2 then
        let ch := Z.lor (Z.lor (Z.shiftl (Z.land b0 0x0F) 12) (Z.shiftl (Z.land b1 0x3F) 6)) (Z.land b2 0x3F) in
        Ret (if (0x800 <=? ch) && negb ((0xD800 <=? ch) && (ch <=? 0xDFFF)) then Some 3 else None)
      else Ret None
    else Ret None
  else if b0 <=? 0xF4 then
    remaining ← usize (len - pos);
    if 4 <=? remaining then
      b1 ← index bytes (pos + 1);
      b2 ← index bytes (pos + 2);
      b3 ← index bytes (pos + 3);
      if lead b1 && lead b2 && lead b3 then
        let ch := Z.lor (Z.lor (Z.lor (Z.shiftl (Z.land b0 0x07) 18) (Z.shiftl (Z.land b1 0x3F) 12))
                     (Z.shiftl (Z.land b2 0x3F) 6)) (Z.land b3 0x3F) in
        Ret (if (0x10000 <=? ch) && (ch <=? 0x10FFFF) then Some 4 else None)
      else Ret None
    else Ret None
  else Ret None.

(** Each iteration moves [pos] forward, so [len bytes + 1] iterations are enough. *)
(* charconv.rs:62-143: write_utf8_with_latin1_fallback_to, loop *)
Fixpoint utf8_loop (bytes : bytes) (fuel : nat) (pos written_pos : Z) : fmt S :=
  match fuel with
  | O => fun _ => Panic
  | Datatypes.S fuel =>
    if pos <? len bytes then fun s =>
      found ← utf8_sequence bytes pos;
      match found with
      | Some n => utf8_loop bytes fuel (pos + n) written_pos s
      | None =>
        b0 ← index bytes pos;
        ((if written_pos <? pos then fun s => b ← slice bytes written_pos pos; write_validated b s else fmt_ok) ;;?
         write_non_ascii b0 ;;?
         utf8_loop bytes fuel (pos + 1) (pos + 1)) s
      end
    else if written_pos <? len bytes then
      fun s => b ← slice_from bytes written_pos; write_validated b s
    else fmt_ok
  end.
(* charconv.rs: write_utf8_with_latin1_fallback_to *)
Definition write_utf8_with_latin1_fallback_to (bytes : bytes) : fmt S :=
  utf8_loop bytes (Datatypes.S (length bytes)) 0 0.

(** The code unit made of two bytes, and the one of four bytes. *)
Definition unit16 (BIG_ENDIAN : bool) (x y : Z) : Z := if BIG_ENDIAN then be_value [x; y] else le_value [x; y].
Definition unit32 (BIG_ENDIAN : bool) (w x y z : Z) : Z :=
  if BIG_ENDIAN then be_value [w; x; y; z] else le_value [w; x; y; z].

(** [char_from_validated_u32], with its assert. *)
(* charconv.rs: char_from_validated_u32 *)
Definition write_validated_char (ch : Z) (k : fmt S) : fmt S :=
  fmt_assert (is_scalar_value ch) (write_non_ascii ch ;;? k).

(** The recursion is on [bytes[pos..]]; the two code units of a pair are consumed
    together. *)
(* charconv.rs: write_utf16_to *)
Fixpoint write_utf16_to (BIG_ENDIAN : bool) (bytes : bytes) : fmt S :=
  match bytes with
  | x :: y :: bytes =>
    let high := unit16 BIG_ENDIAN x y in
    if high <=? 0x7F then write_ascii high ;;? write_utf16_to BIG_ENDIAN bytes
    else if negb ((0xD800 <=? high) && (high <=? 0xDFFF)) then
      write_validated_char high (write_utf16_to BIG_ENDIAN bytes)
    else if (0xDC00 <=? high) || (len bytes <? 2) then
      write_non_ascii REPLACEMENT_CHARACTER ;;? write_utf16_to BIG_ENDIAN bytes
    else
      match bytes with
      | z :: w :: bytes' =>
        let low := unit16 BIG_ENDIAN z w in
        if negb ((0xDC00 <=? low) && (low <=? 0xDFFF)) then
          write_non_ascii REPLACEMENT_CHARACTER ;;? write_utf16_to BIG_ENDIAN bytes
        else
          write_validated_char (Z.lor (Z.shiftl (high - 0xD800) 10) (low - 0xDC00) + 0x10000)
            (write_utf16_to BIG_ENDIAN bytes')
      | _ => fun _ => Panic
      end
  | _ => fmt_ok
  end.
(* charconv.rs: write_utf16be_to *)
Definition write_utf16be_to (bytes : bytes) : fmt S := write_utf16_to true bytes.
(* charconv.rs: write_utf16le_to *)
Definition write_utf16le_to (bytes : bytes) : fmt S := write_utf16_to false bytes.

(* charconv.rs: write_utf32_to *)
Fixpoint write_utf32_to (BIG_ENDIAN : bool) (bytes : bytes) : fmt S :=
  match bytes with
  | w :: x :: y :: z :: bytes =>
    write_non_ascii (char_from_u32 (unit32 BIG_ENDIAN w x y z)) ;;? write_utf32_to BIG_ENDIAN bytes
  | _ => fmt_ok
  end.
(* charconv.rs: write_utf32be_to *)
Definition write_utf32be_to (bytes : bytes) : fmt S := write_utf32_to true bytes.
(* charconv.rs: write_utf32le_to *)
Definition write_utf32le_to (bytes : bytes) : fmt S := write_utf32_to false bytes.
End CharConv.
