(* ===== verification/Writers.v ===== *)
(** * Writers: values and JSON (tracepoint_decode/src/writers.rs)

    A [ValueWriter] holds its destination and the two bits of a [JsonWriter].  What
    [write!] makes of its arguments is written piece by piece with [write_str]. *)

From S2P Require Import Prelude Strings Types ByteReader PerfItem Text Provider Guid.

(** ** [PerfConvertOptions]: a [u32] of flags *)

(* perf_item.rs:111-111: PerfConvertOptions::Space *)
Definition Space : Z := 0x01.
(* perf_item.rs:120-120: PerfConvertOptions::FieldTag *)
Definition FieldTag : Z := 0x04.
(* perf_item.rs: const IntHexAsString *)
Definition IntHexAsString : Z := 0x40.
(* perf_item.rs: const BoolOutOfRangeAsString *)
Definition BoolOutOfRangeAsString : Z := 0x80.
(* perf_item.rs: const ErrnoKnownAsString *)
Definition ErrnoKnownAsString : Z := 0x400.
(* perf_item.rs: const ErrnoUnknownAsString *)
Definition ErrnoUnknownAsString : Z := 0x800.
(* perf_item.rs: const StringControlCharsReplaceWithSpace *)
Definition StringControlCharsReplaceWithSpace : Z := 0x10000.
(* perf_item.rs: const StringControlCharsJsonEscape *)
Definition StringControlCharsJsonEscape : Z := 0x20000.
(* perf_item.rs: const StringControlCharsMask *)
Definition StringControlCharsMask : Z :=
  Z.lor StringControlCharsReplaceWithSpace StringControlCharsJsonEscape.
(* perf_item.rs:88-90: PerfConvertOptions::has_flag *)
Definition options_has_flag (o flag : Z) : bool := negb (Z.land o flag =? 0).
(* perf_item.rs:93-95: PerfConvertOptions::and *)
Definition options_and (o flag : Z) : Z := Z.land o flag.

(** ** ValueWriter *)

(* writers.rs: struct ValueWriter *)
Record ValueWriter (S : Type) := {
  dest : S;
  options : Z;
  json_comma : bool;
  json_space : bool;
}.
Arguments dest {S} _.
Arguments options {S} _.
Arguments json_comma {S} _.
Arguments json_space {S} _.

Section Writer.
Context {S : Type} `{Write S}.

Definition set_dest (d : S) (w : ValueWriter S) : ValueWriter S :=
  {| dest := d; options := w.(options); json_comma := w.(json_comma); json_space := w.(json_space) |}.
Definition set_json_comma (b : bool) (w : ValueWriter S) : ValueWriter S :=
  {| dest := w.(dest); options := w.(options); json_comma := b; json_space := w.(json_space) |}.
Definition set_json_space (b : bool) (w : ValueWriter S) : ValueWriter S :=
  {| dest := w.(dest); options := w.(options); json_comma := w.(json_comma); json_space := b |}.

(** A call on [self.dest]. *)
Definition on_dest (m : fmt S) : fmt (ValueWriter S) := fun w =>
  '(r, d) ← m w.(dest); Ret (r, set_dest d w).
(** A choice that reads [self.options]. *)
Definition with_options (f : Z -> fmt (ValueWriter S)) : fmt (ValueWriter S) := fun w => f w.(options) w.

(** [self.dest], a [WriteFilter] on the destination. *)
Definition dest_filter : Filter S := WriteFilter.
Definition dest_ascii (c : Z) : fmt (ValueWriter S) := on_dest (WriteFilter_write_ascii c).
Definition dest_str (b : bytes) : fmt (ValueWriter S) := on_dest (WriteFilter_write_str b).
(** [write_char] of a [WriteFilter] is the default of the trait. *)
Definition dest_char (c : Z) : fmt (ValueWriter S) := dest_str (utf8_encode c).

(* writers.rs: ValueWriter::new *)
Definition ValueWriter_new (writer : S) (options : Z) : ValueWriter S :=
  {| dest := writer; options := options; json_comma := false; json_space := false |}.
(* writers.rs: ValueWriter::write_quoted *)
Definition write_quoted (f : fmt (ValueWriter S)) : fmt (ValueWriter S) :=
  dest_ascii 34 ;;? f ;;? dest_ascii 34.

(* writers.rs: ValueWriter::write_str_with_no_filter *)
Definition write_str_with_no_filter (value : bytes) : fmt (ValueWriter S) := dest_str value.
(* writers.rs: ValueWriter::write_str_with_json_escape *)
Definition write_str_with_json_escape (value : bytes) : fmt (ValueWriter S) :=
  on_dest (write_str_impl dest_filter false value).

(* writers.rs: ValueWriter::write_latin1_with_no_filter *)
Definition write_latin1_with_no_filter (bytes : bytes) : fmt (ValueWriter S) :=
  on_dest (write_latin1_to dest_filter bytes).
(* writers.rs: ValueWriter::write_latin1_with_json_escape *)
Definition write_latin1_with_json_escape (bytes : bytes) : fmt (ValueWriter S) :=
  on_dest (write_latin1_to (JsonEscapeFilter dest_filter) bytes).
(* writers.rs: ValueWriter::write_latin1_with_control_chars_filter *)
Definition write_latin1_with_control_chars_filter (bytes : bytes) : fmt (ValueWriter S) :=
  with_options (fun options =>
    let mask := options_and options StringControlCharsMask in
    if mask =? StringControlCharsReplaceWithSpace then
      on_dest (write_latin1_to (ControlCharsSpaceFilter dest_filter) bytes)
    else if mask =? StringControlCharsJsonEscape then
      on_dest (write_latin1_to (ControlCharsJsonFilter dest_filter) bytes)
    else write_latin1_with_no_filter bytes).

(* writers.rs: ValueWriter::write_utf8_with_no_filter *)
Definition write_utf8_with_no_filter (bytes : bytes) : fmt (ValueWriter S) :=
  on_dest (write_utf8_with_latin1_fallback_to dest_filter bytes).
(* writers.rs: ValueWriter::write_utf8_with_json_escape *)
Definition write_utf8_with_json_escape (bytes : bytes) : fmt (ValueWriter S) :=
  on_dest (write_utf8_with_latin1_fallback_to (JsonEscapeFilter dest_filter) bytes).
(* writers.rs: ValueWriter::write_utf8_with_control_chars_filter *)
Definition write_utf8_with_control_chars_filter (bytes : bytes) : fmt (ValueWriter S) :=
  with_options (fun options =>
    let mask := options_and options StringControlCharsMask in
    if mask =? StringControlCharsReplaceWithSpace then
      on_dest (write_utf8_with_latin1_fallback_to (ControlCharsSpaceFilter dest_filter) bytes)
    else if mask =? StringControlCharsJsonEscape then
      on_dest (write_utf8_with_latin1_fallback_to (ControlCharsJsonFilter dest_filter) bytes)
    else write_utf8_with_no_filter bytes).

(* writers.rs: ValueWriter::write_utf16be_with_no_filter *)
Definition write_utf16be_with_no_filter (bytes : bytes) : fmt (ValueWriter S) :=
  on_dest (write_utf16be_to dest_filter bytes).
(* writers.rs: ValueWriter::write_utf16be_with_json_escape *)
Definition write_utf16be_with_json_escape (bytes : bytes) : fmt (ValueWriter S) :=
  on_dest (write_utf16be_to (JsonEscapeFilter dest_filter) bytes).
(* writers.rs: ValueWriter::write_utf16be_with_control_chars_filter *)
Definition write_utf16be_with_control_chars_filter (bytes : bytes) : fmt (ValueWriter S) :=
  with_options (fun options =>
    let mask := options_and options StringControlCharsMask in
    if mask =? StringControlCharsReplaceWithSpace then
      on_dest (write_utf16be_to (ControlCharsSpaceFilter dest_filter) bytes)
    else if mask =? StringControlCharsJsonEscape then
      on_dest (write_utf16be_to (ControlCharsJsonFilter dest_filter) bytes)
    else write_utf16be_with_no_filter bytes).

(* writers.rs: ValueWriter::write_utf16le_with_no_filter *)
Definition write_utf16le_with_no_filter (bytes : bytes) : fmt (ValueWriter S) :=
  on_dest (write_utf16le_to dest_filter bytes).
(* writers.rs: ValueWriter::write_utf16le_with_json_escape *)
Definition write_utf16le_with_json_escape (bytes : bytes) : fmt (ValueWriter S) :=
  on_dest (write_utf16le_to (JsonEscapeFilter dest_filter) bytes).
(* writers.rs: ValueWriter::write_utf16le_with_control_chars_filter *)
Definition write_utf16le_with_control_chars_filter (bytes : bytes) : fmt (ValueWriter S) :=
  with_options (fun options =>
    let mask := options_and options StringControlCharsMask in
    if mask =? StringControlCharsReplaceWithSpace then
      on_dest (write_utf16le_to (ControlCharsSpaceFilter dest_filter) bytes)
    else if mask =? StringControlCharsJsonEscape then
      on_dest (write_utf16le_to (ControlCharsJsonFilter dest_filter) bytes)
    else write_utf16le_with_no_filter bytes).

(* writers.rs: ValueWriter::write_utf32be_with_no_filter *)
Definition write_utf32be_with_no_filter (bytes : bytes) : fmt (ValueWriter S) :=
  on_dest (write_utf32be_to dest_filter bytes).
(* writers.rs: ValueWriter::write_utf32be_with_json_escape *)
Definition write_utf32be_with_json_escape (bytes : bytes) : fmt (ValueWriter S) :=
  on_dest (write_utf32be_to (JsonEscapeFilter dest_filter) bytes).
(* writers.rs: ValueWriter::write_utf32be_with_control_chars_filter *)
Definition write_utf32be_with_control_chars_filter (bytes : bytes) : fmt (ValueWriter S) :=
  with_options (fun options =>
    let mask := options_and options StringControlCharsMask in
    if mask =? StringControlCharsReplaceWithSpace then
      on_dest (write_utf32be_to (ControlCharsSpaceFilter dest_filter) bytes)
    else if mask =? StringControlCharsJsonEscape then
      on_dest (write_utf32be_to (ControlCharsJsonFilter dest_filter) bytes)
    else write_utf32be_with_no_filter bytes).

(* writers.rs: ValueWriter::write_utf32le_with_no_filter *)
Definition write_utf32le_with_no_filter (bytes : bytes) : fmt (ValueWriter S) :=
  on_dest (write_utf32le_to dest_filter bytes).
(* writers.rs: ValueWriter::write_utf32le_with_json_escape *)
Definition write_utf32le_with_json_escape (bytes : bytes) : fmt (ValueWriter S) :=
  on_dest (write_utf32le_to (JsonEscapeFilter dest_filter) bytes).
(* writers.rs: ValueWriter::write_utf32le_with_control_chars_filter *)
Definition write_utf32le_with_control_chars_filter (bytes : bytes) : fmt (ValueWriter S) :=
  with_options (fun options =>
    let mask := options_and options StringControlCharsMask in
    if mask =? StringControlCharsReplaceWithSpace then
      on_dest (write_utf32le_to (ControlCharsSpaceFilter dest_filter) bytes)
    else if mask =? StringControlCharsJsonEscape then
      on_dest (write_utf32le_to (ControlCharsJsonFilter dest_filter) bytes)
    else write_utf32le_with_no_filter bytes).

(* writers.rs: ValueWriter::write_with_control_chars_filter *)
Definition write_with_control_chars_filter (bytes : bytes) (encoding : PerfTextEncoding) : fmt (ValueWriter S) :=
  match encoding with
  | Latin1 => write_latin1_with_control_chars_filter bytes
  | Utf8 => write_utf8_with_control_chars_filter bytes
  | Utf16BE => write_utf16be_with_control_chars_filter bytes
  | Utf16LE => write_utf16le_with_control_chars_filter bytes
  | Utf32BE => write_utf32be_with_control_chars_filter bytes
  | Utf32LE => write_utf32le_with_control_chars_filter bytes
  end.

(* writers.rs: ValueWriter::write_with_json_escape *)
Definition write_with_json_escape (bytes : bytes) (encoding : PerfTextEncoding) : fmt (ValueWriter S) :=
  match encoding with
  | Latin1 => write_latin1_with_json_escape bytes
  | Utf8 => write_utf8_with_json_escape bytes
  | Utf16BE => write_utf16be_with_json_escape bytes
  | Utf16LE => write_utf16le_with_json_escape bytes
  | Utf32BE => write_utf32be_with_json_escape bytes
  | Utf32LE => write_utf32le_with_json_escape bytes
  end.

(* writers.rs: ValueWriter::write_char32_with_control_chars_filter *)
Definition write_char32_with_control_chars_filter (value : Z) : fmt (ValueWriter S) :=
  if 0x20 <=? value then dest_char (char_from_u32 value)
  else
    with_options (fun options =>
      let mask := options_and options StringControlCharsMask in
      if mask =? StringControlCharsReplaceWithSpace then dest_ascii 32
      else if mask =? StringControlCharsJsonEscape then
        on_dest (ControlCharsJson_write_ascii dest_filter (as_unsigned 8 value))
      else dest_ascii (as_unsigned 8 value)).
(* writers.rs: ValueWriter::write_char32_with_json_escape *)
Definition write_char32_with_json_escape (value : Z) : fmt (ValueWriter S) :=
  if 92 <=? value then dest_char (char_from_u32 value)
  else on_dest (JsonEscape_write_ascii dest_filter (as_unsigned 8 value)).

(** ** Numbers, as the standard library formats them *)

(** [{}] of an unsigned and of a signed integer of at most 64 bits. *)
Fixpoint decimal_loop (n : nat) (v : Z) (tail : bytes) : bytes :=
  match n with
  | O => tail
  | Datatypes.S n => let tail := 48 + v mod 10 :: tail in
                     if v / 10 =? 0 then tail else decimal_loop n (v / 10) tail
  end.
Definition fmt_decimal (v : Z) : bytes :=
  if v <? 0 then 45 :: decimal_loop 20 (- v) [] else decimal_loop 20 v [].
(** [{:X}]. *)
Definition fmt_HEX (v : Z) : bytes := map (fun c => if 97 <=? c then c - 32 else c) (fmt_hex v).
(** [{:02X}] of a [u8]. *)
Definition fmt_02X (v : Z) : bytes := [to_hex_char_uppercase (v / 16); to_hex_char_uppercase v].

(** The pieces of a [write!], in order. *)
Fixpoint write_pieces (l : list bytes) : fmt (ValueWriter S) :=
  match l with [] => fmt_ok | b :: l => dest_str b ;;? write_pieces l end.

(* writers.rs: ValueWriter::write_uuid *)
Definition write_uuid (value : bytes) : fmt (ValueWriter S) :=
  dest_str (Guid_to_utf8_bytes (Guid_from_bytes_be value)).
(* writers.rs: ValueWriter::write_hexbytes *)
Definition write_hexbytes (bytes : bytes) : fmt (ValueWriter S) :=
  match bytes with
  | [] => fmt_ok
  | b :: bytes =>
    write_pieces [fmt_02X b] ;;?
    foldr (fun b k => write_pieces [[32]; fmt_02X b] ;;? k) fmt_ok bytes
  end.
(* writers.rs: ValueWriter::write_hex32 *)
Definition write_hex32 (value : Z) : fmt (ValueWriter S) := write_pieces [str_bytes "0x"; fmt_HEX value].
(* writers.rs: ValueWriter::write_hex64 *)
Definition write_hex64 (value : Z) : fmt (ValueWriter S) := write_pieces [str_bytes "0x"; fmt_HEX value].
(* writers.rs: ValueWriter::write_ipv4 *)
Definition write_ipv4 (a b c d : Z) : fmt (ValueWriter S) :=
  write_pieces [fmt_decimal a; [46]; fmt_decimal b; [46]; fmt_decimal c; [46]; fmt_decimal d].

(** An integer as a JSON string with a prefix, or as a JSON number. *)
(* writers.rs: ValueWriter::write_json_hex32 *)
Definition write_json_hex32 (value : Z) : fmt (ValueWriter S) :=
  with_options (fun options =>
    if options_has_flag options IntHexAsString
    then write_pieces [34 :: str_bytes "0x"; fmt_HEX value; [34]] else write_pieces [fmt_decimal value]).
(* writers.rs: ValueWriter::write_json_hex64 *)
Definition write_json_hex64 (value : Z) : fmt (ValueWriter S) :=
  with_options (fun options =>
    if options_has_flag options IntHexAsString
    then write_pieces [34 :: str_bytes "0x"; fmt_HEX value; [34]] else write_pieces [fmt_decimal value]).
(* writers.rs: ValueWriter::write_bool *)
Definition write_bool (value : Z) : fmt (ValueWriter S) :=
  if value =? 0 then dest_str (str_bytes "false")
  else if value =? 1 then dest_str (str_bytes "true")
  else
    with_options (fun options =>
      if options_has_flag options BoolOutOfRangeAsString
      then write_pieces [str_bytes "BOOL("; fmt_decimal (as_signed 32 value); [41]]
      else write_pieces [fmt_decimal (as_signed 32 value)]).
(* writers.rs: ValueWriter::write_json_bool *)
Definition write_json_bool (value : Z) : fmt (ValueWriter S) :=
  if value =? 0 then dest_str (str_bytes "false")
  else if value =? 1 then dest_str (str_bytes "true")
  else
    with_options (fun options =>
      if options_has_flag options BoolOutOfRangeAsString
      then write_pieces [34 :: str_bytes "BOOL("; fmt_decimal (as_signed 32 value); [41; 34]]
      else write_pieces [fmt_decimal (as_signed 32 value)]).
(* writers.rs: const ERRNO_STRINGS *)
Definition ERRNO_STRINGS : list bytes :=
  (map str_bytes [
    "ERRNO(0)"; "EPERM(1)"; "ENOENT(2)"; "ESRCH(3)"; "EINTR(4)"; "EIO(5)"; "ENXIO(6)"; "E2BIG(7)";
    "ENOEXEC(8)"; "EBADF(9)"; "ECHILD(10)"; "EAGAIN(11)"; "ENOMEM(12)"; "EACCES(13)"; "EFAULT(14)";
    "ENOTBLK(15)"; "EBUSY(16)"; "EEXIST(17)"; "EXDEV(18)"; "ENODEV(19)"; "ENOTDIR(20)"; "EISDIR(21)";
    "EINVAL(22)"; "ENFILE(23)"; "EMFILE(24)"; "ENOTTY(25)"; "ETXTBSY(26)"; "EFBIG(27)"; "ENOSPC(28)";
    "ESPIPE(29)"; "EROFS(30)"; "EMLINK(31)"; "EPIPE(32)"; "EDOM(33)"; "ERANGE(34)"; "EDEADLK(35)";
    "ENAMETOOLONG(36)"; "ENOLCK(37)"; "ENOSYS(38)"; "ENOTEMPTY(39)"; "ELOOP(40)"; "ERRNO(41)";
    "ENOMSG(42)"; "EIDRM(43)"; "ECHRNG(44)"; "EL2NSYNC(45)"; "EL3HLT(46)"; "EL3RST(47)"; "ELNRNG(48)";
    "EUNATCH(49)"; "ENOCSI(50)"; "EL2HLT(51)"; "EBADE(52)"; "EBADR(53)"; "EXFULL(54)"; "ENOANO(55)";
    "EBADRQC(56)"; "EBADSLT(57)"; "ERRNO(58)"; "EBFONT(59)"; "ENOSTR(60)"; "ENODATA(61)"; "ETIME(62)";
    "ENOSR(63)"; "ENONET(64)"; "ENOPKG(65)"; "EREMOTE(66)"; "ENOLINK(67)"; "EADV(68)"; "ESRMNT(69)";
    "ECOMM(70)"; "EPROTO(71)"; "EMULTIHOP(72)"; "EDOTDOT(73)"; "EBADMSG(74)"; "EOVERFLOW(75)";
    "ENOTUNIQ(76)"; "EBADFD(77)"; "EREMCHG(78)"; "ELIBACC(79)"; "ELIBBAD(80)"; "ELIBSCN(81)";
    "ELIBMAX(82)"; "ELIBEXEC(83)"; "EILSEQ(84)"; "ERESTART(85)"; "ESTRPIPE(86)"; "EUSERS(87)";
    "ENOTSOCK(88)"; "EDESTADDRREQ(89)"; "EMSGSIZE(90)"; "EPROTOTYPE(91)"; "ENOPROTOOPT(92)";
    "EPROTONOSUPPORT(93)"; "ESOCKTNOSUPPORT(94)"; "EOPNOTSUPP(95)"; "EPFNOSUPPORT(96)";
    "EAFNOSUPPORT(97)"; "EADDRINUSE(98)"; "EADDRNOTAVAIL(99)"; "ENETDOWN(100)"; "ENETUNREACH(101)";
    "ENETRESET(102)"; "ECONNABORTED(103)"; "ECONNRESET(104)"; "ENOBUFS(105)"; "EISCONN(106)";
    "ENOTCONN(107)"; "ESHUTDOWN(108)"; "ETOOMANYREFS(109)"; "ETIMEDOUT(110)"; "ECONNREFUSED(111)";
    "EHOSTDOWN(112)"; "EHOSTUNREACH(113)"; "EALREADY(114)"; "EINPROGRESS(115)"; "ESTALE(116)";
    "EUCLEAN(117)"; "ENOTNAM(118)"; "ENAVAIL(119)"; "EISNAM(120)"; "EREMOTEIO(121)"; "EDQUOT(122)";
    "ENOMEDIUM(123)"; "EMEDIUMTYPE(124)"; "ECANCELED(125)"; "ENOKEY(126)"; "EKEYEXPIRED(127)";
    "EKEYREVOKED(128)"; "EKEYREJECTED(129)"; "EOWNERDEAD(130)"; "ENOTRECOVERABLE(131)"; "ERFKILL(132)";
    "EHWPOISON(133)"])%string.
(* writers.rs: ValueWriter::write_errno *)
Definition write_errno (value : Z) : fmt (ValueWriter S) :=
  if value <? len ERRNO_STRINGS then fun w => b ← index ERRNO_STRINGS value; dest_str b w
  else
    with_options (fun options =>
      if options_has_flag options ErrnoUnknownAsString
      then write_pieces [str_bytes "ERRNO("; fmt_decimal (as_signed 32 value); [41]]
      else write_pieces [fmt_decimal (as_signed 32 value)]).
(* writers.rs: ValueWriter::write_json_errno *)
Definition write_json_errno (value : Z) : fmt (ValueWriter S) :=
  let number := write_pieces [fmt_decimal (as_signed 32 value)] in
  with_options (fun options =>
    if value <? len ERRNO_STRINGS then
      if options_has_flag options ErrnoKnownAsString
      then fun w => b ← index ERRNO_STRINGS value; write_pieces [[34]; b; [34]] w else number
    else if options_has_flag options ErrnoUnknownAsString
    then write_pieces [34 :: str_bytes "ERRNO("; fmt_decimal (as_signed 32 value); [41; 34]] else number).

(** ** JsonWriter: a [ValueWriter] whose two bits are in use *)

(* writers.rs: JsonWriter::new *)
Definition JsonWriter_new (writer : S) (options : Z) (json_comma : bool) : ValueWriter S :=
  {| dest := writer; options := options; json_comma := json_comma;
     json_space := json_comma && options_has_flag options Space |}.
(* writers.rs: JsonWriter::comma *)
Definition comma (w : ValueWriter S) : bool := w.(json_comma).

(** An assignment to [self.json_comma] or [self.json_space]. *)
Definition assign (f : ValueWriter S -> ValueWriter S) : fmt (ValueWriter S) := fun w => Ret (Ok tt, f w).

(* writers.rs: JsonWriter::write_raw_comma_space *)
Definition write_raw_comma_space : fmt (ValueWriter S) := fun w =>
  let need_space := w.(json_space) in
  let w := set_json_space (options_has_flag w.(options) Space) w in
  (if need_space then
     if w.(json_comma) then dest_str [44; 32] else dest_ascii 32
   else if w.(json_comma) then dest_ascii 44 else fmt_ok) w.
(* writers.rs: JsonWriter::write_property_name_json_safe *)
Definition write_property_name_json_safe (name : bytes) : fmt (ValueWriter S) :=
  write_raw_comma_space ;;? assign (set_json_comma false) ;;?
  dest_ascii 34 ;;? dest_str name ;;? dest_str [34; 58].
(* writers.rs: JsonWriter::write_object_begin *)
Definition write_object_begin : fmt (ValueWriter S) :=
  write_raw_comma_space ;;? assign (set_json_comma false) ;;? dest_ascii 123.
(* writers.rs: JsonWriter::write_object_end *)
Definition write_object_end : fmt (ValueWriter S) :=
  assign (set_json_comma true) ;;?
  (fun w => (if w.(json_space) then dest_ascii 32 else fmt_ok) w) ;;? dest_ascii 125.
(* writers.rs: JsonWriter::write_array_begin *)
Definition write_array_begin : fmt (ValueWriter S) :=
  write_raw_comma_space ;;? assign (set_json_comma false) ;;? dest_ascii 91.
(* writers.rs: JsonWriter::write_array_end *)
Definition write_array_end : fmt (ValueWriter S) :=
  assign (set_json_comma true) ;;?
  (fun w => (if w.(json_space) then dest_ascii 32 else fmt_ok) w) ;;? dest_ascii 93.
(* writers.rs: JsonWriter::write_value *)
Definition write_value (f : fmt (ValueWriter S)) : fmt (ValueWriter S) :=
  write_raw_comma_space ;;? assign (set_json_comma true) ;;? f.
(* writers.rs: JsonWriter::write_value_quoted *)
Definition write_value_quoted (f : fmt (ValueWriter S)) : fmt (ValueWriter S) :=
  write_raw_comma_space ;;? assign (set_json_comma true) ;;? write_quoted f.
(** The name and the tag are those of the item info. *)
(* writers.rs: JsonWriter::write_property_name_from_item_info *)
Definition write_property_name_from_item_info (name : bytes) (tag : Z) : fmt (ValueWriter S) :=
  write_raw_comma_space ;;? assign (set_json_comma false) ;;?
  dest_ascii 34 ;;? write_utf8_with_json_escape name ;;?
  with_options (fun options =>
    if options_has_flag options FieldTag && negb (tag =? 0)
    then write_pieces [str_bytes ";tag=0x"; fmt_HEX tag] else fmt_ok) ;;?
  dest_str [34; 58].

(** The string of an item, written to [writer] itself. *)
(* perf_item.rs: PerfItemValue::write_string_to *)
Definition write_string_to (v : PerfItemValue) : fmt S := fun s =>
  '(bytes, enc) ← to_string_bytes v;
  let writer := WriteFilter in
  match enc with
  | Latin1 => write_latin1_to writer bytes
  | Utf8 => write_utf8_with_latin1_fallback_to writer bytes
  | Utf16BE => write_utf16be_to writer bytes
  | Utf16LE => write_utf16le_to writer bytes
  | Utf32BE => write_utf32be_to writer bytes
  | Utf32LE => write_utf32le_to writer bytes
  end s.
End Writer.
