(* ===== verification/TextSpec.v ===== *)
(** * TextSpec: what text is, and what it means for a filter to write it

    Facts of UTF-8, the law a [Filter] keeps ([FilterOk]), and the reference
    decoders and the JSON string syntax the writers are compared with. *)

From S2P Require Import Prelude Types ByteReader PerfItem Text.

(** ** UTF-8 *)

Definition scalars (cs : list Z) : Prop := Forall (fun c => is_scalar_value c = true) cs.

(** Decides the comparisons of the goal by arithmetic. *)
Ltac zcases :=
  repeat (cbn [andb orb negb];
          match goal with
          | |- context [?a <=? ?b] => destruct (Z.leb_spec a b); try lia
          | |- context [?a <? ?b] => destruct (Z.ltb_spec a b); try lia
          | |- context [?a =? ?b] => destruct (Z.eqb_spec a b); try lia
          end).

Lemma scalar_cases c : is_scalar_value c = true <-> 0 <= c < 0xD800 \/ 0xE000 <= c < 0x110000.
Proof. unfold is_scalar_value. zcases; cbn; split; (lia || done). Qed.

Lemma scalar_ascii c : 0 <= c < 0x80 -> is_scalar_value c = true.
Proof. intros H. apply scalar_cases. lia. Qed.

Lemma utf8_cons c cs : utf8 (c :: cs) = utf8_encode c ++ utf8 cs.
Proof. done. Qed.
Lemma utf8_app cs ds : utf8 (cs ++ ds) = utf8 cs ++ utf8 ds.
Proof. unfold utf8. by rewrite map_app, concat_app. Qed.
Lemma utf8_ascii c : c < 0x80 -> utf8_encode c = [c].
Proof. intros H. unfold utf8_encode. by zcases. Qed.
Lemma utf8_ascii_list l : Forall (fun c => c < 0x80) l -> utf8 l = l.
Proof. induction 1 as [|c l Hc _ IH]; [done|]. by rewrite utf8_cons, utf8_ascii, IH. Qed.
Lemma utf8_encode_nonempty c : (0 < length (utf8_encode c))%nat.
Proof. unfold utf8_encode. zcases; cbn; lia. Qed.

(** Every byte of a character that is not ASCII is above [0x7F]. *)
Lemma utf8_high c : is_scalar_value c = true -> 0x80 <= c -> Forall (fun b => 0x80 <= b < 256) (utf8_encode c).
Proof.
  intros Hc Hc'. apply scalar_cases in Hc. unfold utf8_encode.
  zcases; repeat constructor; Z.div_mod_to_equations; lia.
Qed.

(** Encoding and then reading the next character gives it back. *)
Lemma utf8_next_encode c l : is_scalar_value c = true -> utf8_next (utf8_encode c ++ l) = Some (c, l).
Proof.
  intros Hc. apply scalar_cases in Hc. unfold utf8_encode, utf8_next, continuation.
  zcases; cbn [app]; zcases; try (repeat f_equal; Z.div_mod_to_equations; lia);
    exfalso; Z.div_mod_to_equations; lia.
Qed.

(** A character that can be read is a scalar value, and what was read is its encoding. *)
Lemma utf8_next_sound l c l' : utf8_next l = Some (c, l') -> bytes_ok l ->
  is_scalar_value c = true /\ l = utf8_encode c ++ l'.
Proof.
  unfold utf8_next, continuation. intros Hn Hl.
  repeat match goal with
         | H : bytes_ok (_ :: _) |- _ => apply Forall_cons_iff in H as [? ?]
         | H : is_u8 _ |- _ => unfold is_u8 in H
         | H : context [match ?l with [] => _ | _ :: _ => _ end] |- _ => is_var l; destruct l; [done|]
         | H : context [if ?b then _ else _] |- _ => destruct b eqn:?
         end; try done; injection Hn as <- <-; bool_hyps;
  repeat match goal with H : _ || _ = true |- _ => apply orb_prop in H as [H | H] end; bool_hyps;
  (split; [apply scalar_cases | unfold utf8_encode; zcases; cbn [app]; repeat f_equal];
   try (Z.div_mod_to_equations; lia)).
Qed.

Lemma utf8_next_shorter l c l' : utf8_next l = Some (c, l') -> bytes_ok l -> (length l' < length l)%nat.
Proof.
  intros Hn Hl. destruct (utf8_next_sound l c l' Hn Hl) as [_ ->]. rewrite length_app.
  pose proof (utf8_encode_nonempty c). lia.
Qed.

Lemma from_utf8_loop_utf8 cs fuel : scalars cs -> (length (utf8 cs) <= fuel)%nat ->
  from_utf8_loop fuel (utf8 cs) = Some cs.
Proof.
  revert fuel. induction cs as [|c cs IH]; intros fuel Hcs Hf; [by destruct fuel|].
  apply Forall_cons_iff in Hcs as [Hc Hcs]. rewrite utf8_cons in Hf |- *. rewrite length_app in Hf.
  pose proof (utf8_encode_nonempty c). destruct fuel as [|fuel]; [lia|].
  cbn [from_utf8_loop]. rewrite utf8_next_encode by done.
  destruct (utf8_encode c ++ utf8 cs) eqn:E; [destruct (utf8_encode c); cbn in *; [lia | done]|].
  rewrite IH; [done | done | lia].
Qed.
Lemma from_utf8_utf8 cs : scalars cs -> from_utf8 (utf8 cs) = Some cs.
Proof. intros H. by apply from_utf8_loop_utf8. Qed.
Lemma is_utf8_utf8 cs : scalars cs -> is_utf8 (utf8 cs) = true.
Proof. intros H. unfold is_utf8. by rewrite from_utf8_utf8. Qed.

(** [from_utf8] accepts the encodings of characters and nothing else. *)
Lemma from_utf8_loop_sound fuel l cs : from_utf8_loop fuel l = Some cs -> bytes_ok l -> scalars cs /\ l = utf8 cs.
Proof.
  revert l cs. induction fuel as [|fuel IH]; intros l cs; destruct l as [|b l]; cbn [from_utf8_loop].
  1, 3: intros [= <-] _; split; [constructor | done].
  - done.
  - destruct (utf8_next (b :: l)) as [[c l']|] eqn:En; [|done].
    destruct (from_utf8_loop fuel l') as [ds|] eqn:El; [|done]. intros [= <-] Hok.
    destruct (utf8_next_sound _ _ _ En Hok) as [Hc E]. rewrite E in Hok |- *.
    apply Forall_app in Hok as [_ Hok]. destruct (IH l' ds El Hok) as [Hds ->].
    split; [by constructor | done].
Qed.

(** ** Writing to a string *)

(** [impl fmt::Write for String]: never fails. *)
#[export] Instance String_Write : Write bytes :=
  {| dest_write_str := fun b s => Ret (Ok tt, s ++ b);
     dest_write_char := fun c s => Ret (Ok tt, s ++ utf8_encode c) |}.

(** [m] returns [Ok] and appends the characters [cs] to the string. *)
Definition writes (m : fmt bytes) (cs : list Z) : Prop := forall s, m s = Ret (Ok tt, s ++ utf8 cs).

Lemma writes_ok : writes fmt_ok [].
Proof. intros s. cbn. by rewrite app_nil_r. Qed.
Lemma writes_then m k cs ds : writes m cs -> writes k ds -> writes (m ;;? k) (cs ++ ds).
Proof. intros Hm Hk s. unfold fmt_then. rewrite Hm. cbn. by rewrite Hk, utf8_app, app_assoc. Qed.
Lemma writes_assert b k cs : b = true -> writes k cs -> writes (fmt_assert b k) cs.
Proof. intros -> Hk s. apply Hk. Qed.
Lemma writes_eq m cs ds : writes m cs -> cs = ds -> writes m ds.
Proof. by intros H <-. Qed.

(** The law of a filter: a character [c] of a string, or an ASCII character, is written
    as [h c]; one given as not ASCII goes through. *)
Class FilterOk (F : Filter bytes) (h : Z -> list Z) : Prop := {
  ascii_ok c : 0 <= c < 0x80 -> writes (write_ascii c) (h c);
  non_ascii_ok c : is_scalar_value c = true -> writes (write_non_ascii c) [c];
  str_ok cs : scalars cs -> writes (write_str (utf8 cs)) (flat_map h cs);
  high_ok c : 0x80 <= c -> h c = [c];
}.

Section FilterFacts.
Context {F : Filter bytes} {h : Z -> list Z} `{!FilterOk F h}.

Lemma writes_validated cs : scalars cs -> writes (write_validated (utf8 cs)) (flat_map h cs).
Proof. intros H. apply writes_assert; [by apply is_utf8_utf8 | by apply str_ok]. Qed.

(** A slice of a text that lies between characters is written as the text it is. *)
Lemma writes_slice l cs r i j :
  scalars cs -> i = len l -> j = len l + len (utf8 cs) ->
  writes (fun s => b ← slice (l ++ utf8 cs ++ r) i j; write_validated b s) (flat_map h cs).
Proof.
  intros Hcs -> -> s. pose proof (len_nonneg l). pose proof (len_nonneg (utf8 cs)).
  rewrite slice_ok by (rewrite ?len_app; pose proof (len_nonneg r); lia).
  cbn. replace (sub _ _ _) with (utf8 cs); [by apply writes_validated|].
  unfold sub, len. rewrite drop_app_length', take_app_length'; [done | lia | lia].
Qed.
Lemma writes_slice_from l cs i :
  scalars cs -> i = len l ->
  writes (fun s => b ← slice_from (l ++ utf8 cs) i; write_validated b s) (flat_map h cs).
Proof.
  intros Hcs -> s. unfold slice_from. rewrite <- (app_nil_r (utf8 cs)).
  refine (writes_slice l cs [] (len l) _ Hcs eq_refl _ s). by rewrite app_nil_r, len_app.
Qed.

(** What a loop does with the text it holds back: before a character ... *)
Lemma writes_flush l cs r i j :
  scalars cs -> i = len l -> j = len l + len (utf8 cs) ->
  writes (if i <? j then fun s => b ← slice (l ++ utf8 cs ++ r) i j; write_validated b s else fmt_ok)
    (flat_map h cs).
Proof.
  intros Hcs Hi Hj. destruct (Z.ltb_spec i j) as [Hij | Hij]; [by apply writes_slice|].
  destruct cs as [|c cs]; [apply writes_ok|]. exfalso. subst.
  rewrite utf8_cons, len_app in Hij. pose proof (utf8_encode_nonempty c).
  pose proof (len_nonneg (utf8 cs)). unfold len in *. lia.
Qed.
(** ... and at the end. *)
Lemma writes_rest l cs i :
  scalars cs -> i = len l ->
  writes (if i <? len (l ++ utf8 cs) then fun s => b ← slice_from (l ++ utf8 cs) i; write_validated b s
          else fmt_ok) (flat_map h cs).
Proof.
  intros Hcs Hi. destruct (Z.ltb_spec i (len (l ++ utf8 cs))) as [Hij | Hij]; [by apply writes_slice_from|].
  destruct cs as [|c cs]; [apply writes_ok|]. exfalso. subst.
  rewrite len_app, utf8_cons, len_app in Hij. pose proof (utf8_encode_nonempty c).
  pose proof (len_nonneg (utf8 cs)). unfold len in *. lia.
Qed.
End FilterFacts.

Lemma flat_map_fixed (f : Z -> list Z) cs : Forall (fun c => f c = [c]) cs -> flat_map f cs = cs.
Proof. induction 1 as [|c cs Hc _ IH]; [done|]. cbn. by rewrite Hc, IH. Qed.

(** A [WriteFilter] writes every character as it is. *)
#[export] Instance WriteFilter_ok : FilterOk WriteFilter (fun c => [c]).
Proof.
  assert (One : forall c (s : bytes), s ++ utf8_encode c = s ++ utf8 [c])
    by (intros; unfold utf8; cbn; by rewrite app_nil_r).
  constructor.
  - intros c Hc. apply writes_assert; [bool_solve|].
    assert (E : utf8 [c] = [c]) by (unfold utf8; cbn; rewrite app_nil_r; apply utf8_ascii; lia).
    apply writes_assert.
    + rewrite <- E. apply is_utf8_utf8. repeat constructor. by apply scalar_ascii.
    + intros s. by rewrite E.
  - intros c _ s. cbn. by rewrite One.
  - intros cs _ s. cbn. rewrite flat_map_fixed; [done | by apply List.Forall_forall].
  - done.
Qed.

(** ** The filters *)

(** What [ControlCharsSpaceFilter] makes of a character. *)
Definition space_char (c : Z) : list Z := if c <? 32 then [32] else [c].
(** The JSON escape of a character: the control characters, and unless only they are
    escaped the quotation mark and the backslash. *)
Definition hex_digit (n : Z) : Z := if n <=? 9 then 48 + n else 55 + n.
Definition json_char (controls_only : bool) (c : Z) : list Z :=
  if (c =? 34) && negb controls_only then [92; 34]
  else if (c =? 92) && negb controls_only then [92; 92]
  else if c =? 8 then [92; 98]
  else if c =? 12 then [92; 102]
  else if c =? 10 then [92; 110]
  else if c =? 13 then [92; 114]
  else if c =? 9 then [92; 116]
  else if c <? 32 then [92; 117; 48; 48; hex_digit (c / 16); hex_digit (c mod 16)]
  else [c].

Lemma flat_map_flat_map (f g : Z -> list Z) cs :
  flat_map f (flat_map g cs) = flat_map (fun c => flat_map f (g c)) cs.
Proof. induction cs as [|c cs IH]; [done|]. cbn. by rewrite flat_map_app, IH. Qed.

Section Filtered.
Context (lower : Filter bytes) (h : Z -> list Z) `{!FilterOk lower h}.

Definition after_esc (esc : Z -> list Z) (c : Z) : list Z := flat_map h (esc c).

(** A loop over the bytes of a string that stops at the special ones, all ASCII: it
    writes the text held back and then [act] of the byte, which is [esc] of it. *)
Section Scan.
Context (bytes : bytes) (loop : Z -> Z -> list Z -> fmt Prelude.bytes) (special : Z -> bool)
  (flush : Z -> Z -> fmt Prelude.bytes) (act : Z -> fmt Prelude.bytes) (esc : Z -> list Z).
Hypothesis loop_nil : forall j i,
  loop j i [] = if i <? len bytes then fun s => b ← slice_from bytes i; write_validated b s else fmt_ok.
Hypothesis loop_special : forall j i b rest, special b = true ->
  loop j i (b :: rest) = (flush i j ;;? act b ;;? loop (j + 1) (j + 1) rest).
Hypothesis loop_plain : forall j i b rest, special b = false -> loop j i (b :: rest) = loop (j + 1) i rest.
Hypothesis special_ascii : forall c, special c = true -> c < 0x80.
Hypothesis plain_esc : forall c, special c = false -> esc c = [c].
Hypothesis act_ok : forall c, 0 <= c -> special c = true -> writes (act c) (after_esc esc c).
Hypothesis flush_ok : forall l p r i j, bytes = l ++ utf8 p ++ r -> scalars p ->
  i = len l -> j = len l + len (utf8 p) -> writes (flush i j) (flat_map h p).

Lemma loop_skip bs rest j i : Forall (fun b => special b = false) bs ->
  loop j i (bs ++ rest) = loop (j + len bs) i rest.
Proof.
  intros Hbs. revert j. induction Hbs as [|b bs Hb _ IH]; intros j.
  - change (len (@nil Z)) with 0. by rewrite Z.add_0_r.
  - cbn [app]. rewrite loop_plain by done. rewrite IH, len_cons. f_equal. lia.
Qed.
Lemma plain_bytes c : is_scalar_value c = true -> special c = false ->
  Forall (fun b => special b = false) (utf8_encode c).
Proof.
  intros Hc Hp. destruct (Z.ltb_spec c 0x80) as [H | H].
  - rewrite utf8_ascii by done. by repeat constructor.
  - eapply List.Forall_impl; [|by apply utf8_high]. intros b Hb. cbv beta in Hb.
    destruct (special b) eqn:E; [apply special_ascii in E; lia | done].
Qed.

(** [p] is the text held back since [l]. *)
Lemma scan_ok cs p l i j :
  scalars p -> scalars cs -> bytes = l ++ utf8 (p ++ cs) -> i = len l -> j = len l + len (utf8 p) ->
  writes (loop j i (utf8 cs)) (flat_map h p ++ flat_map (after_esc esc) cs).
Proof using All.
  revert p l i j. induction cs as [|c cs IH]; intros p l i j Hp Hcs Hb Hi Hj.
  - rewrite app_nil_r in Hb. cbn [utf8 map concat flat_map]. rewrite app_nil_r, loop_nil, Hb.
    by apply writes_rest.
  - pose proof (proj1 (Forall_cons_iff _ _ _) Hcs) as [Hc Hcs']. rewrite utf8_cons.
    cbn [flat_map]. destruct (special c) eqn:Hsp.
    + pose proof (special_ascii c Hsp) as Ha. rewrite utf8_ascii by done. cbn [app].
      rewrite loop_special by done. rewrite utf8_app, utf8_cons, utf8_ascii in Hb by done.
      apply writes_then; [by eapply flush_ok|].
      apply scalar_cases in Hc. apply writes_then; [apply act_ok; [lia | done]|].
      apply (IH [] (l ++ utf8 p ++ [c])); rewrite ?len_app, ?len_cons; try done.
      * constructor.
      * rewrite Hb. by rewrite <- !app_assoc.
      * change (len (@nil Z)) with 0. lia.
      * change (len (@nil Z)) with 0. change (len (utf8 [])) with 0. lia.
    + rewrite loop_skip by by apply plain_bytes.
      eapply writes_eq; [apply (IH (p ++ [c]) l); try done|].
      * apply Forall_app. split; [done | by repeat constructor].
      * by rewrite <- app_assoc.
      * rewrite utf8_app, len_app, utf8_cons, len_app. change (len (utf8 [])) with 0. lia.
      * rewrite flat_map_app, <- app_assoc. do 2 f_equal. unfold after_esc. by rewrite plain_esc.
Qed.
End Scan.

(** ** The laws of the filters *)

Lemma plain_space c : (c <? 32) = false -> space_char c = [c].
Proof. unfold space_char. by intros ->. Qed.

Lemma Space_ascii_ok c : 0 <= c < 0x80 -> writes (Space_write_ascii lower c) (after_esc space_char c).
Proof.
  intros Hc. apply writes_assert; [bool_solve|]. unfold after_esc, space_char.
  destruct (c <? 32); cbn; rewrite app_nil_r; apply ascii_ok; lia.
Qed.

Lemma Space_str_ok cs : scalars cs ->
  writes (Space_write_str lower (utf8 cs)) (flat_map (after_esc space_char) cs).
Proof.
  intros Hcs. unfold Space_write_str.
  apply (scan_ok (utf8 cs) (Space_write_str_loop lower (utf8 cs)) (fun c => c <? 32)
           (fun i j => if i <? j then fun s => b ← slice (utf8 cs) i j; write_validated b s else fmt_ok)
           (fun _ => write_ascii 32) space_char) with (p := []) (l := []); try done.
  - intros j i b rest Hb. cbn [Space_write_str_loop]. by rewrite Hb.
  - intros j i b rest Hb. cbn [Space_write_str_loop]. by rewrite Hb.
  - intros c Hc. bool_hyps. lia.
  - apply plain_space.
  - intros c Hc Hs. unfold after_esc, space_char. rewrite Hs. cbn. rewrite app_nil_r. by apply ascii_ok.
  - intros l p r i j -> Hp Hi Hj. by apply writes_flush.
  - constructor.
Qed.

#[export] Instance ControlCharsSpaceFilter_ok : FilterOk (ControlCharsSpaceFilter lower) (after_esc space_char).
Proof.
  constructor.
  - apply Space_ascii_ok.
  - intros c Hc. by apply (non_ascii_ok (F := lower)).
  - apply Space_str_ok.
  - intros c Hc. unfold after_esc. rewrite plain_space by (apply Z.ltb_ge; lia). cbn.
    by rewrite app_nil_r, high_ok.
Qed.

(** The escape of a control character with four hexadecimal digits. *)
Lemma control_digits c : 0 <= c < 32 ->
  (if c <? 0x10 then 48 else 49) = hex_digit (c / 16) /\ to_hex_char_uppercase c = hex_digit (c mod 16).
Proof.
  intros Hc. unfold to_hex_char_uppercase, hex_digit.
  change 15 with (Z.ones 4). rewrite (Z.land_ones c 4) by lia. change (2 ^ 4) with 16.
  split; zcases; Z.div_mod_to_equations; lia.
Qed.

Lemma writes_ascii_list l : Forall (fun c => 0 <= c < 0x80) l -> writes (write_str l) (flat_map h l).
Proof.
  intros Hl. rewrite <- (utf8_ascii_list l) at 1.
  - apply str_ok. eapply List.Forall_impl; [|exact Hl]. intros c Hc. by apply scalar_ascii.
  - eapply List.Forall_impl; [|exact Hl]. intros c Hc. cbv beta in Hc. lia.
Qed.

Lemma write_ascii_impl_ok only c : 0 <= c < 0x80 ->
  writes (write_ascii_impl lower only c) (after_esc (json_char only) c).
Proof.
  intros Hc. apply writes_assert; [bool_solve|]. unfold after_esc, json_char.
  destruct ((c =? 34) && _); [apply writes_ascii_list; repeat constructor; lia|].
  destruct ((c =? 92) && _); [apply writes_ascii_list; repeat constructor; lia|].
  do 5 (destruct (c =? _); [apply writes_ascii_list; repeat constructor; lia|]).
  destruct (Z.ltb_spec c 32) as [Hlt | Hge].
  - assert (E : (0 <=? c) && (c <=? 0x1F) = true) by bool_solve. rewrite E.
    destruct (control_digits c) as [-> ->]; [lia|]. set (l := [92; _; _; _; _; _]).
    assert (Hl : Forall (fun c => 0 <= c < 0x80) l).
    { unfold l, hex_digit. repeat constructor; zcases; Z.div_mod_to_equations; lia. }
    apply writes_assert; [|by apply writes_ascii_list].
    rewrite <- (utf8_ascii_list l).
    + apply is_utf8_utf8. eapply List.Forall_impl; [|exact Hl]. intros x Hx. by apply scalar_ascii.
    + eapply List.Forall_impl; [|exact Hl]. intros x Hx. cbv beta in Hx. lia.
  - assert (E : (0 <=? c) && (c <=? 0x1F) = false) by zcases. rewrite E.
    cbn. rewrite app_nil_r. by apply ascii_ok.
Qed.

Definition json_special (only : bool) (c : Z) : bool := c <=? (if only then 0x1F else 92).
Lemma plain_json only c : json_special only c = false -> json_char only c = [c].
Proof. unfold json_special, json_char. destruct only; intros Hc; bool_hyps; zcases; done. Qed.

Lemma write_str_impl_ok only cs : scalars cs ->
  writes (write_str_impl lower only (utf8 cs)) (flat_map (after_esc (json_char only)) cs).
Proof.
  intros Hcs. unfold write_str_impl.
  apply (scan_ok (utf8 cs) (write_str_impl_loop lower only (utf8 cs)) (json_special only)
           (fun i j => if i <=? j then fun s => b ← slice (utf8 cs) i j; write_validated b s else fmt_ok)
           (write_ascii_impl lower only) (json_char only)) with (p := []) (l := []); try done.
  - unfold json_special. intros j i b rest Hb. cbn [write_str_impl_loop]. by rewrite Hb.
  - unfold json_special. intros j i b rest Hb. cbn [write_str_impl_loop]. by rewrite Hb.
  - unfold json_special. intros c Hc. bool_hyps. destruct only; lia.
  - apply plain_json.
  - unfold json_special. intros c Hc Hs. bool_hyps. apply write_ascii_impl_ok. destruct only; lia.
  - intros l p r i j -> Hp Hi Hj. pose proof (len_nonneg (utf8 p)).
    rewrite (proj2 (Z.leb_le i j)) by lia. by apply writes_slice.
  - constructor.
Qed.

Lemma JsonFilterImpl_ok only c : 0x80 <= c -> after_esc (json_char only) c = [c].
Proof.
  intros Hc. unfold after_esc. rewrite plain_json by (unfold json_special; destruct only; apply Z.leb_gt; lia).
  cbn. by rewrite app_nil_r, high_ok.
Qed.

#[export] Instance ControlCharsJsonFilter_ok :
  FilterOk (ControlCharsJsonFilter lower) (after_esc (json_char true)).
Proof.
  constructor.
  - intros c Hc. apply writes_assert; [bool_solve|]. by apply write_ascii_impl_ok.
  - intros c Hc. by apply (non_ascii_ok (F := lower)).
  - apply write_str_impl_ok.
  - apply JsonFilterImpl_ok.
Qed.
#[export] Instance JsonEscapeFilter_ok : FilterOk (JsonEscapeFilter lower) (after_esc (json_char false)).
Proof.
  constructor.
  - intros c Hc. apply writes_assert; [bool_solve|]. by apply write_ascii_impl_ok.
  - intros c Hc. by apply (non_ascii_ok (F := lower)).
  - apply write_str_impl_ok.
  - apply JsonFilterImpl_ok.
Qed.
End Filtered.
