(* ===== verification/TextProps.v ===== *)
(** * TextProps: what the conversions and the JSON writer produce *)

From S2P Require Import Prelude Types ByteReader PerfItem Text TextSpec.

(** ** UTF-8 with a fallback to Latin-1 *)

(** The reference decoder: the next character if there is one, and else the next byte
    as the character with its number. *)
Fixpoint decode_utf8_loop (fuel : nat) (l : bytes) : list Z :=
  match fuel, l with
  | O, _ | _, [] => []
  | S fuel, b :: t =>
    match utf8_next l with
    | Some (c, l) => c :: decode_utf8_loop fuel l
    | None => b :: decode_utf8_loop fuel t
    end
  end.
Definition decode_utf8 (l : bytes) : list Z := decode_utf8_loop (length l) l.

(** The code units of a big- or little-endian text; what is left at the end is dropped. *)
Fixpoint units16 (BE : bool) (l : bytes) : list Z :=
  match l with x :: y :: l => unit16 BE x y :: units16 BE l | _ => [] end.
Fixpoint units32 (BE : bool) (l : bytes) : list Z :=
  match l with w :: x :: y :: z :: l => unit32 BE w x y z :: units32 BE l | _ => [] end.

(** UTF-16, a surrogate without its partner read as the replacement character. *)
Definition surrogate (u : Z) : bool := (0xD800 <=? u) && (u <=? 0xDFFF).
Definition low_surrogate (u : Z) : bool := (0xDC00 <=? u) && (u <=? 0xDFFF).
Fixpoint decode_utf16 (us : list Z) : list Z :=
  match us with
  | [] => []
  | u :: us =>
    if negb (surrogate u) then u :: decode_utf16 us
    else if low_surrogate u then REPLACEMENT_CHARACTER :: decode_utf16 us
    else
      match us with
      | v :: us' =>
        if low_surrogate v then 0x10000 + (u - 0xD800) * 1024 + (v - 0xDC00) :: decode_utf16 us'
        else REPLACEMENT_CHARACTER :: decode_utf16 us
      | [] => [REPLACEMENT_CHARACTER]
      end
  end.
Definition utf16_encode (c : Z) : list Z :=
  if c <? 0x10000 then [c] else [0xD800 + (c - 0x10000) / 1024; 0xDC00 + (c - 0x10000) mod 1024].
Definition unit_bytes16 (BE : bool) (u : Z) : bytes := if BE then be_bytes 2 u else le_bytes 2 u.

(** Bits of the bytes of a sequence. *)
Lemma lead_continuation b : is_u8 b -> (0x80 =? Z.land b 0xC0) = continuation b.
Proof.
  intros Hb. apply eqb_prop. revert b Hb.
  apply (u8_exhaustive (fun b => Bool.eqb (0x80 =? Z.land b 0xC0) (continuation b))). by vm_compute.
Qed.
Lemma lor_shiftl a b n : 0 <= n -> 0 <= b < 2 ^ n -> Z.lor (Z.shiftl a n) b = a * 2 ^ n + b.
Proof.
  intros Hn Hb. rewrite Z.shiftl_mul_pow2 by done. symmetry. apply Z.add_nocarry_lor.
  apply Z.bits_inj'. intros i Hi. rewrite Z.land_spec, Z.bits_0.
  destruct (Z.ltb_spec i n).
  - by rewrite Z.mul_pow2_bits_low.
  - rewrite <- (Z.mod_small b (2 ^ n)) by lia. rewrite Z.mod_pow2_bits_high by lia. by rewrite andb_false_r.
Qed.
Lemma land_low b n : 0 <= n -> Z.land b (Z.ones n) = b mod 2 ^ n.
Proof. intros Hn. by rewrite Z.land_ones. Qed.

(** The code's test of the sequence at [pos] is the table of the Unicode standard. *)
Lemma index_after (l r : bytes) k : 0 <= k -> index (l ++ r) (len l + k) = index r k.
Proof. intros Hk. rewrite index_app_r by lia. f_equal. lia. Qed.

Lemma sequence2 b0 b1 : 0xBF < b0 <= 0xDF -> 0x80 <= b1 <= 0xBF ->
  Z.lor (Z.shiftl (Z.land b0 0x1F) 6) (Z.land b1 0x3F) = (b0 - 0xC0) * 64 + (b1 - 0x80).
Proof.
  intros H0 H1. change 0x1F with (Z.ones 5). change 0x3F with (Z.ones 6). rewrite !land_low by lia.
  rewrite lor_shiftl by (try apply Z.mod_pos_bound; lia). Z.div_mod_to_equations. lia.
Qed.
Lemma sequence3 b0 b1 b2 : 0xDF < b0 <= 0xEF -> 0x80 <= b1 <= 0xBF -> 0x80 <= b2 <= 0xBF ->
  Z.lor (Z.lor (Z.shiftl (Z.land b0 0x0F) 12) (Z.shiftl (Z.land b1 0x3F) 6)) (Z.land b2 0x3F)
  = (b0 - 0xE0) * 4096 + (b1 - 0x80) * 64 + (b2 - 0x80).
Proof.
  intros H0 H1 H2. change 0x0F with (Z.ones 4). change 0x3F with (Z.ones 6). rewrite !land_low by lia.
  change 12 with (6 + 6). rewrite <- Z.shiftl_shiftl, <- Z.shiftl_lor by lia.
  rewrite !lor_shiftl by (try apply Z.mod_pos_bound; lia). Z.div_mod_to_equations. lia.
Qed.
Lemma sequence4 b0 b1 b2 b3 :
  0xEF < b0 <= 0xF4 -> 0x80 <= b1 <= 0xBF -> 0x80 <= b2 <= 0xBF -> 0x80 <= b3 <= 0xBF ->
  Z.lor (Z.lor (Z.lor (Z.shiftl (Z.land b0 0x07) 18) (Z.shiftl (Z.land b1 0x3F) 12))
               (Z.shiftl (Z.land b2 0x3F) 6)) (Z.land b3 0x3F)
  = (b0 - 0xF0) * 262144 + (b1 - 0x80) * 4096 + (b2 - 0x80) * 64 + (b3 - 0x80).
Proof.
  intros H0 H1 H2 H3. change 0x07 with (Z.ones 3). change 0x3F with (Z.ones 6). rewrite !land_low by lia.
  assert (E12 : forall x, Z.shiftl x 12 = Z.shiftl (Z.shiftl x 6) 6)
    by (intros; by rewrite Z.shiftl_shiftl by lia).
  assert (E18 : forall x, Z.shiftl x 18 = Z.shiftl (Z.shiftl (Z.shiftl x 6) 6) 6)
    by (intros; by rewrite !Z.shiftl_shiftl by lia).
  rewrite E18, E12, <- !Z.shiftl_lor by lia.
  rewrite !lor_shiftl by (try apply Z.mod_pos_bound; lia). Z.div_mod_to_equations. lia.
Qed.

Lemma checked_left (l : bytes) x : len l + x < 2 ^ 64 -> 0 <= x -> checked 64 (len l + x - len l) = Ret x.
Proof. intros H1 H2. rewrite checked_ok by (pose proof (len_nonneg l); lia). f_equal. lia. Qed.

(** Evaluates the byte accesses of [utf8_sequence]. *)
Ltac seq_step := cbn [mbind outcome_bind mret outcome_ret].
Ltac seq_index :=
  rewrite ?index_after by lia;
  repeat match goal with
         | |- context [@index Z (?b :: ?t) 0] => change (index (b :: t) 0) with (Ret b)
         | |- context [@index Z (?b :: ?c :: ?t) 1] => change (index (b :: c :: t) 1) with (Ret c)
         | |- context [@index Z (?b :: ?c :: ?d :: ?t) 2] => change (index (b :: c :: d :: t) 2) with (Ret d)
         | |- context [@index Z (?b :: ?c :: ?d :: ?e :: ?t) 3] =>
             change (index (b :: c :: d :: e :: t) 3) with (Ret e)
         end; seq_step.

Lemma utf8_sequence_ok l r : bytes_ok r -> r <> [] -> len (l ++ r) < 2 ^ 64 ->
  utf8_sequence (l ++ r) (len l)
  = Ret (match utf8_next r with Some (_, r') => Some (len r - len r') | None => None end).
Proof.
  intros Hr Hne Hlen. destruct r as [|b0 r]; [done|]. unfold utf8_sequence.
  pose proof (len_nonneg l). pose proof (len_nonneg r).
  replace (index (l ++ b0 :: r) (len l)) with (index (l ++ b0 :: r) (len l + 0)) by (f_equal; lia).
  seq_index. apply Forall_cons_iff in Hr as [Hb0 Hr]. unfold is_u8 in Hb0. unfold utf8_next.
  rewrite len_app in Hlen. rewrite len_cons in Hlen. rewrite len_app, len_cons, !checked_left by lia.
  destruct (Z.leb_spec b0 0x7F); [rewrite (proj2 (Z.ltb_lt b0 0x80)) by lia; do 2 f_equal; try lia|].
  rewrite (proj2 (Z.ltb_ge b0 0x80)) by lia.
  destruct (Z.leb_spec b0 0xBF); [zcases; done|].
  destruct (Z.leb_spec b0 0xDF).
  { seq_step. destruct r as [|b1 r]; [change (len (@nil Z)) with 0; zcases; done|].
    rewrite len_cons in *. pose proof (len_nonneg r). rewrite (proj2 (Z.leb_le 2 _)) by lia.
    seq_index. apply Forall_cons_iff in Hr as [Hb1 Hr]. rewrite lead_continuation by done.
    unfold continuation. destruct ((0x80 <=? b1) && (b1 <=? 0xBF)) eqn:E1; [|by zcases].
    bool_hyps. rewrite sequence2 by lia. zcases; do 2 f_equal; lia. }
  destruct (Z.leb_spec b0 0xEF).
  { seq_step. destruct r as [|b1 [|b2 r]]; [change (len (@nil Z)) with 0; zcases; done | |].
    { change (len [b1]) with 1. zcases; done. }
    rewrite !len_cons in *. pose proof (len_nonneg r). rewrite (proj2 (Z.leb_le 3 _)) by lia.
    seq_index. apply Forall_cons_iff in Hr as [Hb1 Hr]. apply Forall_cons_iff in Hr as [Hb2 Hr].
    rewrite !lead_continuation by done. unfold continuation.
    destruct ((0x80 <=? b1) && (b1 <=? 0xBF)) eqn:E1; [|by zcases].
    destruct ((0x80 <=? b2) && (b2 <=? 0xBF)) eqn:E2; [|cbn [andb]; zcases; done].
    bool_hyps. rewrite sequence3 by lia. zcases; do 2 f_equal; lia. }
  destruct (Z.leb_spec b0 0xF4); [|zcases; done].
  seq_step. destruct r as [|b1 [|b2 [|b3 r]]]; [change (len (@nil Z)) with 0; zcases; done | | |].
  { change (len [b1]) with 1. zcases; done. }
  { change (len [b1; b2]) with 2. zcases; done. }
  rewrite !len_cons in *. pose proof (len_nonneg r). rewrite (proj2 (Z.leb_le 4 _)) by lia.
  seq_index. apply Forall_cons_iff in Hr as [Hb1 Hr]. apply Forall_cons_iff in Hr as [Hb2 Hr].
  apply Forall_cons_iff in Hr as [Hb3 Hr].
  rewrite !lead_continuation by done. unfold continuation.
  destruct ((0x80 <=? b1) && (b1 <=? 0xBF)) eqn:E1; [|by zcases].
  destruct ((0x80 <=? b2) && (b2 <=? 0xBF)) eqn:E2; [|cbn [andb]; zcases; done].
  destruct ((0x80 <=? b3) && (b3 <=? 0xBF)) eqn:E3; [|cbn [andb]; zcases; done].
  bool_hyps. rewrite sequence4 by lia. zcases; do 2 f_equal; lia.
Qed.

(** The loop consumes what the reference decoder reads. *)
Section Conversions.
Context (filter : Filter bytes) (h : Z -> list Z) `{!FilterOk filter h}.

Lemma decode_utf8_loop_enough l n m : bytes_ok l -> (length l <= n)%nat -> (length l <= m)%nat ->
  decode_utf8_loop n l = decode_utf8_loop m l.
Proof.
  intros Hok. revert l m Hok. induction n as [|n IH]; intros l m Hok Hn Hm.
  - destruct l; [by destruct m | cbn in Hn; lia].
  - destruct m as [|m]; destruct l as [|b l]; cbn [length] in *; try done; try lia.
    cbn [decode_utf8_loop]. destruct (utf8_next (b :: l)) as [[c l']|] eqn:E.
    + pose proof (utf8_next_shorter _ _ _ E Hok) as Hs. cbn [length] in Hs.
      destruct (utf8_next_sound _ _ _ E Hok) as [_ El]. f_equal. apply IH; try lia.
      rewrite El in Hok. by apply Forall_app in Hok as [_ Hok].
    + f_equal. apply IH; try lia. by apply Forall_cons_iff in Hok as [_ Hok].
Qed.

(** [p] is the text held back since [l], and [r] is left to read. *)
Lemma utf8_loop_ok n m bytes l p r i j :
  bytes = l ++ utf8 p ++ r -> len bytes < 2 ^ 64 -> bytes_ok r -> scalars p ->
  i = len l -> j = len l + len (utf8 p) -> (length r < n)%nat -> (length r <= m)%nat ->
  writes (utf8_loop filter bytes n j i) (flat_map h p ++ flat_map h (decode_utf8_loop m r)).
Proof.
  revert m l p r i j. induction n as [|n IH]; intros m l p r i j Hb Hlen Hr Hp Hi Hj Hn Hm; [lia|].
  cbn [utf8_loop]. destruct r as [|b r].
  - rewrite app_nil_r in Hb. rewrite (proj2 (Z.ltb_ge j _)) by (rewrite Hb, len_app; lia).
    replace (decode_utf8_loop m []) with (@nil Z) by by destruct m. cbn. rewrite app_nil_r, Hb.
    by apply writes_rest.
  - pose proof (len_nonneg r). rewrite (proj2 (Z.ltb_lt j _)) by (rewrite Hb, !len_app, len_cons; lia).
    destruct m as [|m]; [cbn [length] in Hm; lia|]. intros s.
    rewrite app_assoc in Hb. subst j. rewrite <- len_app. rewrite Hb at 1.
    rewrite utf8_sequence_ok by (done || by rewrite <- Hb). seq_step. cbn [decode_utf8_loop].
    destruct (utf8_next (b :: r)) as [[c r']|] eqn:E.
    + pose proof (utf8_next_shorter _ _ _ E Hr) as Hs. cbn [length] in *.
      destruct (utf8_next_sound _ _ _ E Hr) as [Hc Er]. rewrite Er in *.
      refine (writes_eq _ _ _ (IH m l (p ++ [c]) r' i _ _ Hlen _ _ Hi _ _ _) _ s).
      * rewrite utf8_app, utf8_cons, <- app_assoc, Hb, <- !app_assoc. done.
      * by apply Forall_app in Hr as [_ Hr].
      * apply Forall_app. split; [done | by repeat constructor].
      * rewrite utf8_app, utf8_cons, !len_app. change (len (utf8 [])) with 0. lia.
      * lia.
      * lia.
      * rewrite flat_map_app. cbn [flat_map]. by rewrite app_nil_r, <- app_assoc.
    + rewrite Hb at 1. replace (len (l ++ utf8 p)) with (len (l ++ utf8 p) + 0) at 1 by lia.
      seq_index. apply Forall_cons_iff in Hr as [Hb0 Hr]. unfold is_u8 in Hb0.
      assert (Hb8 : 0x80 <= b).
      { destruct (Z.ltb_spec b 0x80) as [Hlt|]; [|done]. unfold utf8_next in E.
        by rewrite (proj2 (Z.ltb_lt b 0x80)) in E. }
      assert (Hsc : is_scalar_value b = true) by (apply scalar_cases; lia).
      cbn [length] in Hn, Hm. cbn [flat_map]. rewrite high_ok by done.
      refine (writes_then _ _ _ _ _ (writes_then _ _ _ _ _ (IH m (l ++ utf8 p ++ [b]) [] r _ _ _ Hlen Hr _ _ _ _ _)) s).
      * rewrite len_app, Hb, <- app_assoc. by apply writes_flush.
      * by apply non_ascii_ok.
      * rewrite Hb. cbn [utf8 map concat app]. by rewrite <- !app_assoc.
      * constructor.
      * rewrite !len_app. change (len [b]) with 1. lia.
      * rewrite !len_app. change (len [b]) with 1. change (len (utf8 [])) with 0. lia.
      * lia.
      * lia.
Qed.

Lemma write_utf8_ok bytes : bytes_ok bytes -> len bytes < 2 ^ 64 ->
  writes (write_utf8_with_latin1_fallback_to filter bytes) (flat_map h (decode_utf8 bytes)).
Proof.
  intros Hok Hlen. apply (utf8_loop_ok _ (length bytes) bytes [] [] bytes); try done; try lia.
  constructor.
Qed.

Lemma latin1_loop_ok bytes l p r i j :
  bytes = l ++ utf8 p ++ r -> bytes_ok r -> scalars p -> Forall (fun c => c < 0x80) p ->
  i = len l -> j = len l + len p -> 
  writes (latin1_loop filter bytes j i r) (flat_map h p ++ flat_map h r).
Proof.
  revert l p i j. induction r as [|b r IH]; intros l p i j Hb Hr Hp Ha Hi Hj; cbn [latin1_loop flat_map].
  - rewrite app_nil_r in Hb |- *. rewrite Hb. by apply writes_rest.
  - apply Forall_cons_iff in Hr as [Hb0 Hr]. unfold is_u8 in Hb0.
    assert (Hsc : is_scalar_value b = true) by (apply scalar_cases; lia).
    destruct (Z.leb_spec b 0x7F).
    + refine (writes_eq _ _ _ (IH l (p ++ [b]) i _ _ Hr _ _ Hi _) _).
      * rewrite utf8_app, (utf8_ascii_list [b]) by (repeat constructor; lia). by rewrite Hb, <- app_assoc.
      * apply Forall_app. split; [done | by repeat constructor].
      * apply Forall_app. split; [done | repeat constructor; lia].
      * rewrite len_app. change (len [b]) with 1. lia.
      * rewrite flat_map_app. cbn. by rewrite app_nil_r, <- app_assoc.
    + rewrite high_ok by lia.
      refine (writes_then _ _ _ _ _ (writes_then _ _ _ _ _ (IH (l ++ utf8 p ++ [b]) [] _ _ _ Hr _ _ _ _))).
      * rewrite Hb. rewrite <- (utf8_ascii_list p Ha) in Hj at 1. by apply writes_flush.
      * by apply non_ascii_ok.
      * rewrite Hb. cbn [utf8 map concat app]. by rewrite <- !app_assoc.
      * constructor.
      * constructor.
      * rewrite !len_app, (utf8_ascii_list p Ha). change (len [b]) with 1. lia.
      * rewrite !len_app, (utf8_ascii_list p Ha). change (len [b]) with 1. change (len []) with 0. lia.
Qed.
Lemma write_latin1_ok bytes : bytes_ok bytes -> writes (write_latin1_to filter bytes) (flat_map h bytes).
Proof. intros Hok. apply (latin1_loop_ok bytes [] []); try done; constructor. Qed.

Lemma unit16_bound BE x y : is_u8 x -> is_u8 y -> 0 <= unit16 BE x y < 65536.
Proof. unfold is_u8. intros Hx Hy. unfold unit16. destruct BE; cbn; lia. Qed.

Lemma writes_validated_char c k cs : is_scalar_value c = true -> writes k cs ->
  writes (write_validated_char filter c k) (c :: cs).
Proof.
  intros Hc Hk. apply writes_assert; [done|]. apply (writes_then _ _ [c] cs); [|done].
  by apply non_ascii_ok.
Qed.
Lemma writes_replacement k cs : writes k cs ->
  writes (write_non_ascii REPLACEMENT_CHARACTER ;;? k) (REPLACEMENT_CHARACTER :: cs).
Proof. intros Hk. apply (writes_then _ _ [_] cs); [by apply non_ascii_ok | done]. Qed.

Lemma write_utf16_unit BE x y l : is_u8 x -> is_u8 y -> surrogate (unit16 BE x y) = false ->
  writes (write_utf16_to filter BE l) (flat_map h (decode_utf16 (units16 BE l))) ->
  writes (write_utf16_to filter BE (x :: y :: l)) (flat_map h (decode_utf16 (units16 BE (x :: y :: l)))).
Proof.
  intros Hx Hy Hs IH. pose proof (unit16_bound BE x y Hx Hy) as Hu.
  cbn [write_utf16_to units16 decode_utf16]. rewrite Hs. cbn [negb flat_map].
  unfold surrogate in Hs. rewrite Hs. cbn [negb].
  destruct (Z.leb_spec (unit16 BE x y) 0x7F); [apply writes_then; [apply ascii_ok; lia | done]|].
  rewrite high_ok by lia. apply (writes_validated_char _ _ _); [|done].
  apply scalar_cases. destruct (Z.leb_spec 0xD800 (unit16 BE x y)); [|lia]. cbn in Hs. bool_hyps. lia.
Qed.

Lemma write_utf16_ok BE l : bytes_ok l ->
  writes (write_utf16_to filter BE l) (flat_map h (decode_utf16 (units16 BE l))).
Proof.
  remember (length l) as n eqn:Hn. revert l Hn.
  induction n as [n IH] using lt_wf_ind. intros l Hn Hok.
  destruct l as [|x [|y l]]; [apply writes_ok | apply writes_ok |].
  apply Forall_cons_iff in Hok as [Hx Hok]. apply Forall_cons_iff in Hok as [Hy Hok].
  assert (IHl : writes (write_utf16_to filter BE l) (flat_map h (decode_utf16 (units16 BE l))))
    by (eapply IH; [|reflexivity | done]; cbn in Hn; lia).
  destruct (surrogate (unit16 BE x y)) eqn:Hs; [|by apply write_utf16_unit].
  cbn [write_utf16_to units16 decode_utf16]. rewrite Hs. cbn [negb].
  pose proof Hs as Hs'. unfold surrogate in Hs'. rewrite Hs'. cbn [negb]. bool_hyps.
  rewrite (proj2 (Z.leb_gt (unit16 BE x y) 0x7F)) by lia.
  unfold low_surrogate at 1. rewrite (proj2 (Z.leb_le (unit16 BE x y) 0xDFFF)), andb_true_r by lia.
  destruct (Z.leb_spec 0xDC00 (unit16 BE x y)) as [Hlow | Hhigh]; cbn [orb].
  { cbn [flat_map]. rewrite high_ok by done. by apply writes_replacement. }
  destruct l as [|z [|w l]].
  { change (len (@nil Z) <? 2) with true. cbn [units16 flat_map app]. rewrite high_ok by done. exact (writes_replacement _ [] writes_ok). }
  { change (len [z] <? 2) with true. cbn [units16 flat_map app]. rewrite high_ok by done. exact (writes_replacement _ [] writes_ok). }
  rewrite (proj2 (Z.ltb_ge (len (z :: w :: l)) 2)) by (rewrite !len_cons; pose proof (len_nonneg l); lia).
  apply Forall_cons_iff in Hok as [Hz Hok]. apply Forall_cons_iff in Hok as [Hw Hok].
  cbn [units16] in *. fold (low_surrogate (unit16 BE z w)).
  destruct (low_surrogate (unit16 BE z w)) eqn:Hl; cbn [negb flat_map].
  - unfold low_surrogate in Hl. bool_hyps.
    replace (Z.lor _ _ + 0x10000) with (0x10000 + (unit16 BE x y - 0xD800) * 1024 + (unit16 BE z w - 0xDC00))
      by (rewrite lor_shiftl by lia; lia).
    rewrite high_ok by lia. apply (writes_validated_char _ _ _); [apply scalar_cases; lia|].
    eapply IH; [|reflexivity | done]. cbn in Hn. lia.
  - rewrite high_ok by done. by apply writes_replacement.
Qed.

(** UTF-32 goes around the filter: every character is passed on as not ASCII. *)
Lemma write_utf32_ok BE l : 
  writes (write_utf32_to filter BE l) (map char_from_u32 (units32 BE l)).
Proof.
  remember (length l) as n eqn:Hn. revert l Hn.
  induction n as [n IH] using lt_wf_ind. intros l Hn.
  destruct l as [|w [|x [|y [|z l]]]]; try apply writes_ok.
  cbn [write_utf32_to units32 map]. apply (writes_then _ _ [_]).
  - apply non_ascii_ok. unfold char_from_u32. by destruct (is_scalar_value (unit32 BE w x y z)) eqn:E.
  - eapply IH; [|reflexivity]. cbn in Hn. lia.
Qed.
End Conversions.

(** ** Round trips of the decoders *)

Lemma decode_utf8_loop_text cs n : scalars cs -> (length (utf8 cs) <= n)%nat -> decode_utf8_loop n (utf8 cs) = cs.
Proof.
  revert n. induction cs as [|c cs IH]; intros n Hcs Hn; [by destruct n|].
  apply Forall_cons_iff in Hcs as [Hc Hcs]. rewrite utf8_cons in *. rewrite length_app in Hn.
  pose proof (utf8_encode_nonempty c). destruct n as [|n]; [lia|]. cbn [decode_utf8_loop].
  rewrite utf8_next_encode by done. rewrite IH by (done || lia).
  destruct (utf8_encode c); cbn in *; [lia | done].
Qed.
(** On valid UTF-8 there is no fallback. *)
Lemma decode_utf8_text cs : scalars cs -> decode_utf8 (utf8 cs) = cs.
Proof. intros H. by apply decode_utf8_loop_text. Qed.

Lemma decode_utf8_loop_scalars n l : bytes_ok l -> scalars (decode_utf8_loop n l).
Proof.
  revert l. induction n as [|n IH]; intros [|b l] Hok; try constructor. cbn [decode_utf8_loop].
  destruct (utf8_next (b :: l)) as [[c l']|] eqn:E.
  - destruct (utf8_next_sound _ _ _ E Hok) as [Hc El]. constructor; [done|]. apply IH.
    rewrite El in Hok. by apply Forall_app in Hok as [_ Hok].
  - apply Forall_cons_iff in Hok as [Hb Hok]. unfold is_u8 in Hb.
    constructor; [apply scalar_cases; lia | by apply IH].
Qed.

Lemma units16_unit BE u l : 0 <= u < 65536 -> units16 BE (unit_bytes16 BE u ++ l) = u :: units16 BE l.
Proof.
  intros Hu. destruct BE; cbn [unit_bytes16 units16 unit16 app].
  - cbn. f_equal. Z.div_mod_to_equations. lia.
  - cbn. f_equal. Z.div_mod_to_equations. lia.
Qed.
Lemma units16_units BE us l : Forall (fun u => 0 <= u < 65536) us ->
  units16 BE (flat_map (unit_bytes16 BE) us ++ l) = us ++ units16 BE l.
Proof.
  induction 1 as [|u us Hu _ IH]; [done|]. cbn [flat_map app]. rewrite <- app_assoc, units16_unit by done.
  by rewrite IH.
Qed.
Lemma decode_utf16_char c us : is_scalar_value c = true -> decode_utf16 (utf16_encode c ++ us) = c :: decode_utf16 us.
Proof.
  intros Hc. apply scalar_cases in Hc. unfold utf16_encode.
  destruct (Z.ltb_spec c 0x10000); cbn [app decode_utf16]; unfold surrogate, low_surrogate.
  - zcases; done.
  - zcases; cbn; try (f_equal; Z.div_mod_to_equations; lia); exfalso; Z.div_mod_to_equations; lia.
Qed.
Lemma decode_utf16_text cs : scalars cs -> decode_utf16 (flat_map utf16_encode cs) = cs.
Proof.
  induction 1 as [|c cs Hc _ IH]; [done|]. cbn [flat_map]. by rewrite decode_utf16_char, IH.
Qed.
Lemma utf16_encode_units c : is_scalar_value c = true -> Forall (fun u => 0 <= u < 65536) (utf16_encode c).
Proof.
  intros Hc. apply scalar_cases in Hc. unfold utf16_encode. zcases; repeat constructor;
    Z.div_mod_to_equations; lia.
Qed.

(** ** JSON strings *)

(** A reader of JSON strings (RFC 8259): the text up to the closing quotation mark
    and what follows it.  Raw control characters are refused, and so are escaped
    surrogates. *)
Definition hex_value (c : Z) : option Z :=
  if (48 <=? c) && (c <=? 57) then Some (c - 48)
  else if (65 <=? c) && (c <=? 70) then Some (c - 55)
  else if (97 <=? c) && (c <=? 102) then Some (c - 87)
  else None.
Definition hex4 (a b c d : Z) : option Z :=
  match hex_value a, hex_value b, hex_value c, hex_value d with
  | Some a, Some b, Some c, Some d =>
    let v := a * 4096 + b * 256 + c * 16 + d in if is_scalar_value v then Some v else None
  | _, _, _, _ => None
  end.
Definition simple_escape (c : Z) : option Z :=
  if (c =? 34) || (c =? 92) || (c =? 47) then Some c
  else if c =? 98 then Some 8
  else if c =? 102 then Some 12
  else if c =? 110 then Some 10
  else if c =? 114 then Some 13
  else if c =? 116 then Some 9
  else None.
Definition then_read (o : option Z) (k : option (list Z * list Z)) : option (list Z * list Z) :=
  match o, k with Some c, Some (cs, rest) => Some (c :: cs, rest) | _, _ => None end.
Fixpoint json_string (l : list Z) : option (list Z * list Z) :=
  match l with
  | [] => None
  | c :: l =>
    if c =? 34 then Some ([], l)
    else if c =? 92 then
      match l with
      | [] => None
      | e :: l =>
        if e =? 117 then
          match l with
          | a :: b :: c :: d :: l => then_read (hex4 a b c d) (json_string l)
          | _ => None
          end
        else then_read (simple_escape e) (json_string l)
      end
    else if c <? 32 then None
    else then_read (Some c) (json_string l)
  end.

(** Reading an escaped character gives it back. *)
Lemma hex_value_digit n : 0 <= n < 16 -> hex_value (hex_digit n) = Some n.
Proof. intros Hn. unfold hex_value, hex_digit. destruct (Z.leb_spec n 9); zcases; f_equal; lia. Qed.
Lemma json_string_char c l : 0 <= c ->
  json_string (json_char false c ++ l) = then_read (Some c) (json_string l).
Proof.
  intros Hc. unfold json_char. cbn [negb]. rewrite !andb_true_r.
  do 7 (match goal with |- context [c =? ?v] => destruct (Z.eqb_spec c v) as [-> | ?]; [reflexivity|] end).
  destruct (Z.ltb_spec c 32).
  - cbn [app json_string]. cbn [Z.eqb Pos.eqb]. unfold hex4.
    change (hex_value 48) with (Some 0).
    rewrite !hex_value_digit by (Z.div_mod_to_equations; lia).
    replace (0 * 4096 + 0 * 256 + c / 16 * 16 + c mod 16) with c by (Z.div_mod_to_equations; lia).
    rewrite scalar_ascii by lia. done.
  - cbn [app json_string]. rewrite (proj2 (Z.eqb_neq c 34)), (proj2 (Z.eqb_neq c 92)), (proj2 (Z.ltb_ge c 32)) by lia.
    done.
Qed.
Lemma json_string_text cs rest : scalars cs ->
  json_string (flat_map (json_char false) cs ++ 34 :: rest) = Some (cs, rest).
Proof.
  induction 1 as [|c cs Hc _ IH]; [done|]. cbn [flat_map]. rewrite <- app_assoc.
  apply scalar_cases in Hc. rewrite json_string_char, IH by lia. done.
Qed.
