(* ===== verification/WritersProps.v ===== *)
(** * WritersProps: the text and the JSON that the writers produce *)

From S2P Require Import Prelude Types ByteReader PerfItem Text Writers TextSpec TextProps.

(** ** Text in the six encodings *)

(** What a string of bytes says, and the bytes of a text. *)
Definition decode (e : PerfTextEncoding) (b : bytes) : list Z :=
  match e with
  | Latin1 => b
  | Utf8 => decode_utf8 b
  | Utf16BE => decode_utf16 (units16 true b)
  | Utf16LE => decode_utf16 (units16 false b)
  | Utf32BE => map char_from_u32 (units32 true b)
  | Utf32LE => map char_from_u32 (units32 false b)
  end.
Definition unit_bytes32 (BE : bool) (u : Z) : bytes := if BE then be_bytes 4 u else le_bytes 4 u.
Definition encode (e : PerfTextEncoding) (cs : list Z) : bytes :=
  match e with
  | Latin1 => cs
  | Utf8 => utf8 cs
  | Utf16BE => flat_map (unit_bytes16 true) (flat_map utf16_encode cs)
  | Utf16LE => flat_map (unit_bytes16 false) (flat_map utf16_encode cs)
  | Utf32BE => flat_map (unit_bytes32 true) cs
  | Utf32LE => flat_map (unit_bytes32 false) cs
  end.
Definition is_utf32 (e : PerfTextEncoding) : bool := match e with Utf32BE | Utf32LE => true | _ => false end.

(** The characters an encoding has. *)
Definition encodable (e : PerfTextEncoding) (cs : list Z) : Prop :=
  match e with Latin1 => bytes_ok cs | _ => scalars cs end.

Lemma units32_unit BE u l : 0 <= u < 2 ^ 32 -> units32 BE (unit_bytes32 BE u ++ l) = u :: units32 BE l.
Proof. intros Hu. destruct BE; cbn; f_equal; Z.div_mod_to_equations; lia. Qed.
Lemma units32_text BE cs : scalars cs -> map char_from_u32 (units32 BE (flat_map (unit_bytes32 BE) cs)) = cs.
Proof.
  induction 1 as [|c cs Hc _ IH]; [done|]. cbn [flat_map].
  rewrite units32_unit by (apply scalar_cases in Hc; lia). cbn [map]. rewrite IH.
  unfold char_from_u32. by rewrite Hc.
Qed.
Lemma units16_text BE cs : scalars cs ->
  units16 BE (flat_map (unit_bytes16 BE) (flat_map utf16_encode cs)) = flat_map utf16_encode cs.
Proof.
  intros Hcs. rewrite <- (app_nil_r (flat_map (unit_bytes16 BE) _)), units16_units; [by rewrite app_nil_r|].
  induction Hcs as [|c cs Hc _ IH]; [constructor|]. cbn. apply Forall_app. split; [by apply utf16_encode_units | done].
Qed.
Lemma decode_encode e cs : encodable e cs -> decode e (encode e cs) = cs.
Proof.
  destruct e; cbn [encodable decode encode]; intros H; try by apply units32_text.
  - done.
  - by apply decode_utf8_text.
  - by rewrite units16_text, decode_utf16_text.
  - by rewrite units16_text, decode_utf16_text.
Qed.

Lemma flat_map_bytes_ok (f : Z -> bytes) cs : (forall c, bytes_ok (f c)) -> bytes_ok (flat_map f cs).
Proof. intros Hf. induction cs as [|c cs IH]; [constructor|]. cbn. apply Forall_app. split; [apply Hf | done]. Qed.
Lemma utf8_bytes_ok cs : scalars cs -> bytes_ok (utf8 cs).
Proof.
  induction 1 as [|c cs Hc _ IH]; [constructor|]. rewrite utf8_cons. apply Forall_app. split; [|done].
  destruct (Z.ltb_spec c 0x80).
  - rewrite utf8_ascii by done. apply scalar_cases in Hc. repeat constructor; unfold is_u8; lia.
  - eapply List.Forall_impl; [|by apply utf8_high]. unfold is_u8. cbn. lia.
Qed.
Lemma encode_bytes_ok e cs : encodable e cs -> bytes_ok (encode e cs).
Proof.
  destruct e; cbn [encodable encode]; intros H; try done; try by apply utf8_bytes_ok.
  all: apply flat_map_bytes_ok; intros; try apply be_bytes_ok; apply le_bytes_ok.
Qed.

(** What a conversion makes of the bytes under a filter. *)
Definition converts (filter : Filter bytes) (e : PerfTextEncoding) (b : bytes) : fmt bytes :=
  match e with
  | Latin1 => write_latin1_to filter b
  | Utf8 => write_utf8_with_latin1_fallback_to filter b
  | Utf16BE => write_utf16be_to filter b
  | Utf16LE => write_utf16le_to filter b
  | Utf32BE => write_utf32be_to filter b
  | Utf32LE => write_utf32le_to filter b
  end.
Lemma converts_ok filter h `{!FilterOk filter h} e b : bytes_ok b -> len b < 2 ^ 64 ->
  writes (converts filter e b)
    (if is_utf32 e then decode e b else flat_map h (decode e b)).
Proof.
  intros Hb Hlen. destruct e; cbn [converts is_utf32 decode].
  - by apply write_latin1_ok.
  - by apply write_utf8_ok.
  - by apply write_utf16_ok.
  - by apply write_utf16_ok.
  - by apply (write_utf32_ok _ h).
  - by apply (write_utf32_ok _ h).
Qed.

(** ** Through a [ValueWriter] *)

(** [m] returns [Ok] and appends [cs] to the destination; the rest of the writer is kept. *)
Definition emits (m : fmt (ValueWriter bytes)) (w : ValueWriter bytes) (cs : list Z) : Prop :=
  m w = Ret (Ok tt, set_dest (w.(dest) ++ utf8 cs) w).

Lemma emits_on_dest m cs w : writes m cs -> emits (on_dest m) w cs.
Proof. intros H. unfold emits, on_dest. by rewrite H. Qed.
Lemma emits_then m k w cs ds : emits m w cs -> emits k (set_dest (w.(dest) ++ utf8 cs) w) ds ->
  emits (m ;;? k) w (cs ++ ds).
Proof.
  unfold emits, fmt_then. intros -> Hk. cbn [mbind outcome_bind]. rewrite Hk. destruct w. cbn.
  by rewrite utf8_app, app_assoc.
Qed.
Lemma emits_ascii c w : 0 <= c < 0x80 -> emits (dest_ascii c) w [c].
Proof. intros Hc. apply emits_on_dest. by apply (ascii_ok (F := WriteFilter) (h := fun c => [c])). Qed.
Lemma emits_quoted f w cs : emits f (set_dest (w.(dest) ++ [34]) w) cs -> emits (write_quoted f) w (34 :: cs ++ [34]).
Proof.
  intros Hf. apply (emits_then _ _ _ [34] (cs ++ [34])); [by apply emits_ascii|].
  apply emits_then; [exact Hf | by apply emits_ascii].
Qed.

Lemma json_escape_converts e b w : bytes_ok b -> len b < 2 ^ 64 ->
  emits (write_with_json_escape b e) w
    (if is_utf32 e then decode e b else flat_map (json_char false) (decode e b)).
Proof.
  intros Hb Hlen.
  assert (E : write_with_json_escape b e = on_dest (converts (JsonEscapeFilter dest_filter) e b)) by by destruct e.
  rewrite E. apply emits_on_dest. pose proof (converts_ok (JsonEscapeFilter WriteFilter) _ e b Hb Hlen) as H.
  destruct (is_utf32 e); [exact H|]. eapply writes_eq; [exact H|]. unfold after_esc.
  apply flat_map_ext. intros c. apply flat_map_fixed. by apply List.Forall_forall.
Qed.

Definition filter_char (options c : Z) : list Z :=
  let mask := options_and options StringControlCharsMask in
  if mask =? StringControlCharsReplaceWithSpace then space_char c
  else if mask =? StringControlCharsJsonEscape then json_char true c
  else [c].
Lemma control_chars_converts e b w : bytes_ok b -> len b < 2 ^ 64 ->
  emits (write_with_control_chars_filter b e) w
    (if is_utf32 e then decode e b else flat_map (filter_char w.(options)) (decode e b)).
Proof.
  intros Hb Hlen. unfold filter_char.
  assert (E : write_with_control_chars_filter b e
    = with_options (fun options =>
        let mask := options_and options StringControlCharsMask in
        if mask =? StringControlCharsReplaceWithSpace then
          on_dest (converts (ControlCharsSpaceFilter dest_filter) e b)
        else if mask =? StringControlCharsJsonEscape then
          on_dest (converts (ControlCharsJsonFilter dest_filter) e b)
        else on_dest (converts dest_filter e b))) by by destruct e.
  rewrite E. unfold with_options, emits.
  assert (Id : forall (f : Z -> list Z) cs, flat_map (fun c => flat_map (fun c => [c]) (f c)) cs = flat_map f cs).
  { intros f cs. apply flat_map_ext. intros c. apply flat_map_fixed. by apply List.Forall_forall. }
  unfold dest_filter. cbv zeta. destruct (_ =? _); [|destruct (_ =? _)]; apply emits_on_dest;
    (eapply writes_eq; [exact (converts_ok _ _ e b Hb Hlen)|]); destruct (is_utf32 e); try done; apply Id.
Qed.

(** The characters of a text are scalar values. *)
Lemma units16_bound BE b : bytes_ok b -> Forall (fun u => 0 <= u < 65536) (units16 BE b).
Proof.
  remember (length b) as n eqn:Hn. revert b Hn. induction n as [n IH] using lt_wf_ind.
  intros [|x [|y b]] Hn Hb; try constructor.
  - apply Forall_cons_iff in Hb as [Hx Hb]. apply Forall_cons_iff in Hb as [Hy _]. by apply unit16_bound.
  - apply Forall_cons_iff in Hb as [_ Hb]. apply Forall_cons_iff in Hb as [_ Hb].
    eapply IH; [|reflexivity | done]. cbn in Hn. lia.
Qed.
Lemma decode_utf16_scalars us : Forall (fun u => 0 <= u < 65536) us -> scalars (decode_utf16 us).
Proof.
  remember (length us) as n eqn:Hn. revert us Hn. induction n as [n IH] using lt_wf_ind.
  intros [|u us] Hn Hus; [constructor|]. apply Forall_cons_iff in Hus as [Hu Hus]. cbn [length] in Hn.
  assert (IHus : scalars (decode_utf16 us)) by (eapply IH; [|reflexivity | done]; lia).
  cbn [decode_utf16]. destruct (surrogate u) eqn:Es; cbn [negb].
  - destruct (low_surrogate u) eqn:El; [by constructor|].
    destruct us as [|v us]; [by repeat constructor|].
    destruct (low_surrogate v) eqn:Ev; [|by constructor].
    unfold surrogate, low_surrogate in *. bool_hyps. apply Forall_cons_iff in Hus as [_ Hus].
    rewrite (proj2 (Z.leb_le u 0xDFFF)), andb_true_r in El by lia. bool_hyps.
    constructor; [apply scalar_cases; lia|]. eapply IH; [|reflexivity | done]. cbn in Hn. lia.
  - constructor; [|done]. apply scalar_cases. unfold surrogate in Es.
    destruct (Z.leb_spec 0xD800 u); cbn in Es; bool_hyps; lia.
Qed.
Lemma decode_scalars e b : bytes_ok b -> scalars (decode e b).
Proof.
  intros Hb. destruct e; cbn [decode].
  - eapply List.Forall_impl; [|exact Hb]. unfold is_u8. intros c Hc. apply scalar_cases. lia.
  - by apply decode_utf8_loop_scalars.
  - by apply decode_utf16_scalars, units16_bound.
  - by apply decode_utf16_scalars, units16_bound.
  - apply Forall_map, List.Forall_forall. intros u _. unfold compose, char_from_u32. by destruct (is_scalar_value u) eqn:E.
  - apply Forall_map, List.Forall_forall. intros u _. unfold compose, char_from_u32. by destruct (is_scalar_value u) eqn:E.
Qed.

(** ** Properties of text *)

Lemma converts_write_string v b e s : to_string_bytes v = Ret (b, e) ->
  write_string_to v s = converts WriteFilter e b s.
Proof. intros H. unfold write_string_to. rewrite H. by destruct e. Qed.

(** C13. [PerfItemValue::write_string_to] appends to the writer the UTF-8 form of what
    the item's bytes say in their encoding: Latin-1, UTF-8 with the bytes of invalid
    sequences read as Latin-1, UTF-16 and UTF-32 with unpaired surrogates and numbers
    that are no characters read as U+FFFD.  It never fails or panics on a string, and
    the encoding of a text, in any of the six, is written as that text. *)
Theorem string_value_is_written_as_text v b e s :
  to_string_bytes v = Ret (b, e) -> bytes_ok b -> len b < 2 ^ 64 ->
  write_string_to v s = Ret (Ok tt, s ++ utf8 (decode e b)) /\
  scalars (decode e b) /\
  (forall cs, encodable e cs -> b = encode e cs -> decode e b = cs).
Proof.
  intros Hv Hb Hlen. split_and!.
  - rewrite (converts_write_string v b e s Hv).
    pose proof (converts_ok WriteFilter (fun c => [c]) e b Hb Hlen) as H.
    rewrite flat_map_fixed in H by by apply List.Forall_forall. rewrite H. by destruct (is_utf32 e).
  - by apply decode_scalars.
  - intros cs Hcs ->. by apply decode_encode.
Qed.

(** An item whose bytes are the UTF-16 form of a letter, an accented letter and a
    character outside the basic plane. *)
Definition example_text : list Z := [97; 233; 0x1F600].
Definition example_string : PerfItemValue :=
  {| item_bytes := encode Utf16LE example_text;
     item_metadata := {| element_count := 1; field_tag := 0; type_size := 0;
       encoding_and_array_flag_and_is_scalar :=
         FieldEncoding_with_flags FieldEncoding_StringLength16Char16 FieldEncoding_ChainFlag;
       format := FieldFormat_StringUtf; md_byte_reader := PerfByteReader_new false |} |}.

Lemma string_value_is_written_as_text_witness :
  write_string_to example_string [] = Ret (Ok tt, [97; 0xC3; 0xA9; 0xF0; 0x9F; 0x98; 0x80]) /\
  decode Utf16LE (item_bytes example_string) = example_text.
Proof.
  destruct (string_value_is_written_as_text example_string (encode Utf16LE example_text) Utf16LE [])
    as (H1 & _ & H3).
  - by vm_compute.
  - apply bytes_ok_decide. by vm_compute.
  - by vm_compute.
  - split; [exact H1 | apply H3; [repeat constructor | reflexivity]].
Defined.

(** C10. A string written between quotation marks with [write_with_json_escape], from
    bytes in Latin-1, UTF-8 or UTF-16, is a well-formed JSON string: a reader of JSON
    that starts after the opening mark finds exactly the text the bytes say and stops
    after the closing mark, whatever follows.  For UTF-32 bytes it is the text as it
    is, with no escapes, which is such a string only if the text needs none. *)
Theorem json_string_round_trip e b w rest :
  bytes_ok b -> len b < 2 ^ 64 ->
  exists cs, emits (write_quoted (write_with_json_escape b e)) w (34 :: cs) /\
    if is_utf32 e then cs = decode e b ++ [34]
    else json_string (cs ++ rest) = Some (decode e b, rest).
Proof.
  intros Hb Hlen. pose proof (json_escape_converts e b (set_dest (w.(dest) ++ [34]) w) Hb Hlen) as H.
  destruct (is_utf32 e).
  - exists (decode e b ++ [34]). split; [by apply emits_quoted|done].
  - exists (flat_map (json_char false) (decode e b) ++ [34]). split; [by apply emits_quoted|].
    rewrite <- app_assoc. apply json_string_text. by apply decode_scalars.
Qed.

Lemma json_string_round_trip_witness :
  exists cs, emits (write_quoted (write_with_json_escape [104; 34; 10; 0xE9; 92] Utf8))
      (ValueWriter_new [] 0) (34 :: cs) /\
    json_string (cs ++ [44]) = Some ([104; 34; 10; 0xE9; 92], [44]).
Proof.
  apply (json_string_round_trip Utf8 [104; 34; 10; 0xE9; 92] (ValueWriter_new [] 0) [44]).
  - apply bytes_ok_decide. by vm_compute.
  - by vm_compute.
Defined.

Lemma filter_char_controls o c : 0 <= c ->
  (options_and o StringControlCharsMask =? StringControlCharsReplaceWithSpace)
  || (options_and o StringControlCharsMask =? StringControlCharsJsonEscape) = true ->
  Forall (fun c => 32 <= c) (filter_char o c).
Proof.
  intros Hc Ho. unfold filter_char. cbv zeta. apply orb_prop in Ho.
  destruct (_ =? StringControlCharsReplaceWithSpace).
  - unfold space_char. zcases; repeat constructor; lia.
  - destruct Ho as [Ho | Ho]; [done|]. rewrite Ho. unfold json_char. cbn [negb]. rewrite !andb_false_r.
    repeat (match goal with |- context [c =? ?v] => destruct (c =? v); [repeat constructor; lia|] end).
    destruct (Z.ltb_spec c 32); repeat constructor; try lia; unfold hex_digit; zcases;
      Z.div_mod_to_equations; lia.
Qed.

(** C34. With either of the control character flags set, what
    [write_with_control_chars_filter] writes of Latin-1, UTF-8 or UTF-16 bytes has no
    control character in it: it is the text with each of them replaced by a space, or
    by its JSON escape; with neither or both flags it is the text itself.  Of UTF-32
    bytes it writes the text itself whatever the flags are, control characters
    included. *)
Theorem control_chars_are_filtered e b w :
  bytes_ok b -> len b < 2 ^ 64 ->
  let mask := options_and w.(options) StringControlCharsMask in
  exists cs, emits (write_with_control_chars_filter b e) w cs /\
    cs = flat_map (if is_utf32 e then fun c => [c]
                   else if mask =? StringControlCharsReplaceWithSpace then space_char
                   else if mask =? StringControlCharsJsonEscape then json_char true
                   else fun c => [c]) (decode e b) /\
    (is_utf32 e = false -> mask = StringControlCharsReplaceWithSpace \/ mask = StringControlCharsJsonEscape ->
     Forall (fun c => 32 <= c) cs).
Proof.
  intros Hb Hlen mask. pose proof (control_chars_converts e b w Hb Hlen) as H. destruct (is_utf32 e).
  { exists (decode e b). split_and!; [exact H| |done].
    clear. induction (decode e b) as [|c cs IH]; [done|]. cbn. by rewrite <- IH. }
  exists (flat_map (filter_char w.(options)) (decode e b)). split_and!; [exact H| |].
  - apply flat_map_ext. intros c. unfold filter_char. fold mask. cbv zeta.
    by destruct (mask =? _); [|destruct (mask =? _)].
  - intros _ Hm. assert (Ho : (mask =? StringControlCharsReplaceWithSpace) || (mask =? StringControlCharsJsonEscape) = true).
    { by destruct Hm as [-> | ->]. }
    pose proof (decode_scalars e b Hb) as Hs. clear H. induction Hs as [|c cs Hc _ IH]; [constructor|].
    cbn. apply Forall_app. split; [|done]. apply filter_char_controls; [apply scalar_cases in Hc; lia | done].
Qed.

Lemma control_chars_are_filtered_witness :
  let w := ValueWriter_new [] StringControlCharsReplaceWithSpace in
  exists cs, emits (write_with_control_chars_filter [0; 97; 0; 10; 0; 98] Utf16BE) w cs /\
    cs = [97; 32; 98] /\ Forall (fun c => 32 <= c) cs.
Proof.
  destruct (control_chars_are_filtered Utf16BE [0; 97; 0; 10; 0; 98]
              (ValueWriter_new [] StringControlCharsReplaceWithSpace)) as (cs & H1 & H2 & H3).
  - apply bytes_ok_decide. by vm_compute.
  - by vm_compute.
  - exists cs. split; [exact H1|]. split; [exact H2|]. apply H3; [reflexivity|]. left. reflexivity.
Defined.

(** UTF-32 text is not escaped: the conversion hands even its ASCII characters on
    as not ASCII, so [write_with_json_escape] writes a quotation mark, a backslash or a
    control character as it is, and the JSON string of the one-character text of a
    quotation mark reads back as the empty text. *)
Theorem utf32_text_is_not_escaped e b w :
  is_utf32 e = true -> bytes_ok b -> len b < 2 ^ 64 ->
  emits (write_quoted (write_with_json_escape b e)) w (34 :: decode e b ++ [34]) /\
  (b = encode e [34] -> json_string (decode e b ++ [34]) = Some ([], [34])).
Proof.
  intros He Hb Hlen. split.
  - apply emits_quoted. pose proof (json_escape_converts e b (set_dest (w.(dest) ++ [34]) w) Hb Hlen) as H.
    rewrite He in H. exact H.
  - intros ->. rewrite decode_encode; [reflexivity|]. destruct e; try done; by repeat constructor.
Qed.

Lemma utf32_text_is_not_escaped_witness :
  emits (write_quoted (write_with_json_escape [34; 0; 0; 0] Utf32LE)) (ValueWriter_new [] 0) [34; 34; 34] /\
  json_string (decode Utf32LE [34; 0; 0; 0] ++ [34]) = Some ([], [34]).
Proof.
  destruct (utf32_text_is_not_escaped Utf32LE [34; 0; 0; 0] (ValueWriter_new [] 0)) as [H1 H2].
  - reflexivity.
  - apply bytes_ok_decide. by vm_compute.
  - by vm_compute.
  - split; [exact H1 | apply H2; reflexivity].
Defined.
