(* ===== verification/JsonTree.v ===== *)
(** * JsonTree: the comma and space state of a JsonWriter

    A JSON tree, the calls that write it, its text, and a reader of that text. *)

From S2P Require Import Prelude Types ByteReader PerfItem Text Writers TextSpec TextProps WritersProps.
#[local] Set Warnings "-register-all".

(** ** Trees *)

(** A literal is a number or a keyword; strings and names are their characters. *)
Inductive json :=
| JLiteral (l : list Z)
| JString (cs : list Z)
| JArray (js : list json)
| JObject (ms : list (list Z * json)).

Section JsonInd.
Context (P : json -> Prop).
Hypothesis Pliteral : forall l, P (JLiteral l).
Hypothesis Pstring : forall cs, P (JString cs).
Hypothesis Parray : forall js, Forall P js -> P (JArray js).
Hypothesis Pobject : forall ms, Forall (fun m => P (snd m)) ms -> P (JObject ms).
Fixpoint json_tree_ind (j : json) : P j :=
  match j with
  | JLiteral l => Pliteral l
  | JString cs => Pstring cs
  | JArray js =>
    Parray js ((fix all (js : list json) : Forall P js :=
      match js with
      | [] => @List.Forall_nil _ P
      | j :: js => @List.Forall_cons _ P j js (json_tree_ind j) (all js)
      end) js)
  | JObject ms =>
    Pobject ms ((fix all (ms : list (list Z * json)) : Forall (fun m => P (snd m)) ms :=
      match ms with
      | [] => @List.Forall_nil _ _
      | m :: ms => @List.Forall_cons _ (fun m => P (snd m)) m ms (json_tree_ind (snd m)) (all ms)
      end) ms)
  end.
End JsonInd.

(** The characters of numbers and keywords. *)
Definition is_literal (c : Z) : bool :=
  (48 <=? c) && (c <=? 57) || (65 <=? c) && (c <=? 90) || (97 <=? c) && (c <=? 122)
  || (c =? 43) || (c =? 45) || (c =? 46).
(** Names and strings are any text, and literals are not empty. *)
Fixpoint json_wf (j : json) : Prop :=
  match j with
  | JLiteral l => l <> [] /\ Forall (fun c => is_literal c = true) l
  | JString cs => scalars cs
  | JArray js => (fix all js := match js with [] => True | j :: js => json_wf j /\ all js end) js
  | JObject ms =>
    (fix all ms := match ms with [] => True | m :: ms => scalars (fst m) /\ json_wf (snd m) /\ all ms end) ms
  end.
(** A name that needs no escape. *)
Definition json_safe (n : list Z) : Prop :=
  Forall (fun c => is_scalar_value c = true /\ json_char false c = [c]) n.
Fixpoint json_ok (j : json) : Prop :=
  match j with
  | JLiteral l => l <> [] /\ Forall (fun c => is_literal c = true) l
  | JString cs => scalars cs
  | JArray js => (fix all js := match js with [] => True | j :: js => json_ok j /\ all js end) js
  | JObject ms =>
    (fix all ms := match ms with [] => True | m :: ms => json_safe (fst m) /\ json_ok (snd m) /\ all ms end) ms
  end.

(** ** Writing a tree *)

(** The calls a client makes on the writer, as the enumerator does for an event. *)
Fixpoint write_json (j : json) : fmt (ValueWriter bytes) :=
  match j with
  | JLiteral l => write_value (write_str_with_no_filter l)
  | JString cs => write_value_quoted (write_str_with_json_escape (utf8 cs))
  | JArray js =>
    write_array_begin ;;?
    (fix all js := match js with [] => fmt_ok | j :: js => write_json j ;;? all js end) js ;;?
    write_array_end
  | JObject ms =>
    write_object_begin ;;?
    (fix all ms :=
       match ms with
       | [] => fmt_ok
       | m :: ms => write_property_name_json_safe (utf8 (fst m)) ;;? write_json (snd m) ;;? all ms
       end) ms ;;?
    write_object_end
  end.

(** ** The text of a tree *)

Section Text.
Context (spaced : bool).

Definition gap : list Z := if spaced then [32] else [].
Definition separator (first : bool) : list Z := (if first then [] else [44]) ++ gap.
Fixpoint json_text (j : json) : list Z :=
  match j with
  | JLiteral l => l
  | JString cs => 34 :: flat_map (json_char false) cs ++ [34]
  | JArray js =>
    91 :: (fix all first js :=
             match js with [] => [] | j :: js => separator first ++ json_text j ++ all false js end) true js
      ++ gap ++ [93]
  | JObject ms =>
    123 :: (fix all first ms :=
              match ms with
              | [] => []
              | m :: ms =>
                separator first ++ 34 :: flat_map (json_char false) (fst m) ++ 34 :: 58 :: gap
                ++ json_text (snd m) ++ all false ms
              end) true ms
      ++ gap ++ [125]
  end.
End Text.

(** ** A reader of JSON *)

Fixpoint skip_spaces (l : list Z) : list Z :=
  match l with c :: t => if c =? 32 then skip_spaces t else l | [] => [] end.
Fixpoint span_literal (l : list Z) : list Z * list Z :=
  match l with
  | c :: t => if is_literal c then let (a, r) := span_literal t in (c :: a, r) else ([], l)
  | [] => ([], [])
  end.

Fixpoint read_json (n : nat) (l : list Z) : option (json * list Z) :=
  match n with
  | O => None
  | S n =>
    match skip_spaces l with
    | [] => None
    | c :: t =>
      if c =? 34 then match json_string t with Some (cs, r) => Some (JString cs, r) | None => None end
      else if c =? 91 then match read_elements n true t with Some (js, r) => Some (JArray js, r) | None => None end
      else if c =? 123 then match read_members n true t with Some (ms, r) => Some (JObject ms, r) | None => None end
      else match span_literal (c :: t) with ([], _) => None | (a, r) => Some (JLiteral a, r) end
    end
  end
with read_elements (n : nat) (first : bool) (l : list Z) : option (list json * list Z) :=
  match n with
  | O => None
  | S n =>
    match skip_spaces l with
    | [] => None
    | c :: t =>
      if c =? 93 then Some ([], t)
      else if first || (c =? 44) then
        match read_json n (if first then c :: t else t) with
        | Some (j, r) => match read_elements n false r with Some (js, r) => Some (j :: js, r) | None => None end
        | None => None
        end
      else None
    end
  end
with read_members (n : nat) (first : bool) (l : list Z) : option (list (list Z * json) * list Z) :=
  match n with
  | O => None
  | S n =>
    match skip_spaces l with
    | [] => None
    | c :: t =>
      if c =? 125 then Some ([], t)
      else if first || (c =? 44) then
        match skip_spaces (if first then c :: t else t) with
        | q :: t =>
          if q =? 34 then
            match json_string t with
            | Some (name, t) =>
              match skip_spaces t with
              | d :: t =>
                if d =? 58 then
                  match read_json n t with
                  | Some (j, r) =>
                    match read_members n false r with Some (ms, r) => Some ((name, j) :: ms, r) | None => None end
                  | None => None
                  end
                else None
              | [] => None
              end
            | None => None
            end
          else None
        | [] => None
        end
      else None
    end
  end.
Definition parse_json (l : list Z) : option json :=
  match read_json (length l) l with
  | Some (j, r) => match skip_spaces r with [] => Some j | _ => None end
  | None => None
  end.
