(* ===== verification/JsonProps.v ===== *)
(** * JsonProps: what a JsonWriter writes reads back as the tree *)

From S2P Require Import Prelude Strings Types ByteReader PerfItem Text Writers TextSpec TextProps WritersProps JsonTree.

Fixpoint write_elements (js : list json) : fmt (ValueWriter bytes) :=
  match js with [] => fmt_ok | j :: js => write_json j ;;? write_elements js end.
Fixpoint write_members (ms : list (list Z * json)) : fmt (ValueWriter bytes) :=
  match ms with
  | [] => fmt_ok
  | m :: ms => write_property_name_json_safe (utf8 (fst m)) ;;? write_json (snd m) ;;? write_members ms
  end.
Lemma write_array js : write_json (JArray js) = (write_array_begin ;;? write_elements js ;;? write_array_end).
Proof. reflexivity. Qed.
Lemma write_object ms : write_json (JObject ms) = (write_object_begin ;;? write_members ms ;;? write_object_end).
Proof. reflexivity. Qed.

Section Texts.
Context (S : bool).
Fixpoint elements_text (first : bool) (js : list json) : list Z :=
  match js with [] => [] | j :: js => separator S first ++ json_text S j ++ elements_text false js end.
Fixpoint members_text (first : bool) (ms : list (list Z * json)) : list Z :=
  match ms with
  | [] => []
  | m :: ms =>
    separator S first ++ 34 :: flat_map (json_char false) (fst m) ++ 34 :: 58 :: gap S ++ json_text S (snd m)
    ++ members_text false ms
  end.
(** A member, without what is due before it. *)
Definition member_text (m : list Z * json) : list Z :=
  34 :: flat_map (json_char false) (fst m) ++ 34 :: 58 :: gap S ++ json_text S (snd m).
Lemma members_cons first m ms :
  members_text first (m :: ms) = separator S first ++ member_text m ++ members_text false ms.
Proof. cbn [members_text]. unfold member_text. cbn [app]. rewrite <- !app_assoc. cbn [app]. by rewrite <- app_assoc. Qed.
Lemma array_text js : json_text S (JArray js) = 91 :: elements_text true js ++ gap S ++ [93].
Proof. reflexivity. Qed.
Lemma object_text ms : json_text S (JObject ms) = 123 :: members_text true ms ++ gap S ++ [125].
Proof. reflexivity. Qed.
End Texts.

Lemma json_ok_array js : json_ok (JArray js) <-> Forall json_ok js.
Proof.
  cbn [json_ok]. induction js as [|j js IH]; [by split|]. rewrite Forall_cons_iff. by rewrite <- IH.
Qed.
Lemma json_ok_object ms : json_ok (JObject ms) <-> Forall (fun m => json_safe (fst m) /\ json_ok (snd m)) ms.
Proof.
  cbn [json_ok]. induction ms as [|m ms IH]; [by split|]. rewrite Forall_cons_iff, <- IH. tauto.
Qed.

Lemma json_wf_array js : json_wf (JArray js) <-> Forall json_wf js.
Proof.
  cbn [json_wf]. induction js as [|j js IH]; [by split|]. rewrite Forall_cons_iff. by rewrite <- IH.
Qed.
Lemma json_wf_object ms : json_wf (JObject ms) <-> Forall (fun m => scalars (fst m) /\ json_wf (snd m)) ms.
Proof.
  cbn [json_wf]. induction ms as [|m ms IH]; [by split|]. rewrite Forall_cons_iff, <- IH. tauto.
Qed.
Lemma json_safe_scalars n : json_safe n -> scalars n.
Proof. intros H. eapply List.Forall_impl; [|exact H]. by intros c [Hc _]. Qed.
Lemma json_safe_text n : json_safe n -> flat_map (json_char false) n = n.
Proof. intros H. apply flat_map_fixed. eapply List.Forall_impl; [|exact H]. by intros c [_ Hc]. Qed.
Lemma json_ok_wf j : json_ok j -> json_wf j.
Proof.
  induction j as [l | cs | js IH | ms IH] using json_tree_ind; intros Hj; [done | done | |].
  - apply json_wf_array. apply json_ok_array in Hj. induction IH as [|j js IHj _ IH]; [constructor|].
    apply Forall_cons_iff in Hj as [Hj Hjs]. constructor; [by apply IHj | by apply IH].
  - apply json_wf_object. apply json_ok_object in Hj. induction IH as [|m ms IHm _ IH]; [constructor|].
    apply Forall_cons_iff in Hj as [[Hn Hm] Hms].
    constructor; [split; [by apply json_safe_scalars | by apply IHm] | by apply IH].
Qed.

(** ** Writing *)

Section Writing.
Context (o : Z).
Abbreviation S := (options_has_flag o Space).

(** [m] appends [cs] and leaves the two bits as [c'] and [s']. *)
Definition state (d : bytes) (c s : bool) : ValueWriter bytes :=
  {| dest := d; options := o; json_comma := c; json_space := s |}.
Definition runs (m : fmt (ValueWriter bytes)) (c s : bool) (cs : list Z) (c' s' : bool) : Prop :=
  forall d, m (state d c s) = Ret (Ok tt, state (d ++ utf8 cs) c' s').

Lemma runs_then m k c s c1 s1 c2 s2 cs ds :
  runs m c s cs c1 s1 -> runs k c1 s1 ds c2 s2 -> runs (m ;;? k) c s (cs ++ ds) c2 s2.
Proof. intros Hm Hk d. unfold fmt_then. rewrite Hm. cbn. by rewrite Hk, utf8_app, app_assoc. Qed.
Lemma runs_cast m c s cs ds c' s' : runs m c s cs c' s' -> cs = ds -> runs m c s ds c' s'.
Proof. by intros H <-. Qed.
Lemma runs_assign f c s c' s' : (forall d, f (state d c s) = state d c' s') -> runs (assign f) c s [] c' s'.
Proof. intros Hf d. unfold assign. rewrite Hf. cbn. by rewrite app_nil_r. Qed.
Lemma runs_ok c s : runs fmt_ok c s [] c s.
Proof. intros d. cbn. by rewrite app_nil_r. Qed.
Lemma runs_ascii a c s : 0 <= a < 0x80 -> runs (dest_ascii a) c s [a] c s.
Proof. intros Ha d. by apply emits_ascii. Qed.
Lemma runs_emits m cs c s : (forall d, emits m (state d c s) cs) -> runs m c s cs c s.
Proof. intros H d. apply H. Qed.
Lemma runs_str cs c s : scalars cs -> runs (dest_str (utf8 cs)) c s cs c s.
Proof.
  intros Hcs. apply runs_emits. intros d. apply emits_on_dest.
  eapply writes_eq; [by apply (str_ok (F := WriteFilter) (h := fun c => [c]))|].
  apply flat_map_fixed. by apply List.Forall_forall.
Qed.
Lemma runs_ascii_str l c s : Forall (fun c => 0 <= c < 0x80) l -> runs (dest_str l) c s l c s.
Proof.
  intros Hl. rewrite <- (utf8_ascii_list l) at 1.
  - apply runs_str. eapply List.Forall_impl; [|exact Hl]. intros a Ha. by apply scalar_ascii.
  - eapply List.Forall_impl; [|exact Hl]. cbn. lia.
Qed.

(** What [write_raw_comma_space] writes in a state. *)
Definition lead (c s : bool) : list Z := (if c then [44] else []) ++ (if s then [32] else []).
Lemma runs_comma_space c s : runs write_raw_comma_space c s (lead c s) c S.
Proof.
  intros d. unfold write_raw_comma_space. change (set_json_space _ (state d c s)) with (state d c S).
  cbn [json_space json_comma state options].
  destruct s, c; cbn [lead app].
  - apply (runs_ascii_str [44; 32]). repeat constructor; lia.
  - apply runs_ascii. lia.
  - apply runs_ascii. lia.
  - apply runs_ok.
Qed.
Lemma runs_begin a c s : 0 <= a < 0x80 ->
  runs (write_raw_comma_space ;;? assign (set_json_comma false) ;;? dest_ascii a) c s (lead c s ++ [a]) false S.
Proof.
  intros Ha. eapply runs_then; [apply runs_comma_space|].
  apply (runs_then _ _ _ _ false S _ _ []); [by apply runs_assign | by apply runs_ascii].
Qed.
Lemma runs_end a c : 0 <= a < 0x80 ->
  runs (assign (set_json_comma true) ;;? (fun w => (if w.(json_space) then dest_ascii 32 else fmt_ok) w)
        ;;? dest_ascii a) c S (gap S ++ [a]) true S.
Proof.
  intros Ha. apply (runs_then _ _ _ _ true S _ _ []); [by apply runs_assign|].
  eapply runs_then; [|by apply runs_ascii]. intros d. cbn [json_space state]. unfold gap.
  destruct S; [apply runs_ascii; lia | apply runs_ok].
Qed.

Lemma separator_lead first : separator S first = lead (negb first) S.
Proof. unfold separator, lead, gap. by destruct first, S. Qed.

Lemma runs_value f c s cs : runs f true S cs true S -> runs (write_value f) c s (lead c s ++ cs) true S.
Proof.
  intros Hf. eapply runs_then; [apply runs_comma_space|].
  apply (runs_then _ _ _ _ true S _ _ []); [by apply runs_assign | done].
Qed.
Lemma runs_quoted f c s cs : runs f true S cs true S ->
  runs (write_value_quoted f) c s (lead c s ++ 34 :: cs ++ [34]) true S.
Proof.
  intros Hf. apply runs_value. eapply (runs_then _ _ _ _ _ _ _ _ [34]); [by apply runs_ascii|].
  eapply runs_then; [exact Hf | by apply runs_ascii].
Qed.
Lemma runs_name n c s : json_safe n ->
  runs (write_property_name_json_safe (utf8 n)) c s (lead c s ++ 34 :: n ++ [34; 58]) false S.
Proof.
  intros Hn. eapply runs_then; [apply runs_comma_space|].
  apply (runs_then _ _ _ _ false S _ _ []); [by apply runs_assign|].
  eapply (runs_then _ _ _ _ _ _ _ _ [34]); [by apply runs_ascii|].
  eapply runs_then; [|by apply (runs_ascii_str [34; 58]); repeat constructor].
  apply runs_str. eapply List.Forall_impl; [|exact Hn]. by intros a [Ha _].
Qed.

(** A call that writes a tree writes what is due before it, and then its text. *)
Lemma write_json_runs j : json_ok j -> forall c s, runs (write_json j) c s (lead c s ++ json_text S j) true S.
Proof.
  induction j as [l | cs | js IH | ms IH] using json_tree_ind; intros Hj c s.
  - destruct Hj as [_ Hl]. apply runs_value. apply runs_ascii_str.
    eapply List.Forall_impl; [|exact Hl]. unfold is_literal. intros a Ha. cbv beta in Ha.
    repeat (apply orb_prop in Ha as [Ha | Ha]); bool_hyps; lia.
  - cbn [json_ok] in Hj. cbn [write_json json_text]. apply runs_quoted. apply runs_emits. intros d.
    apply emits_on_dest. unfold dest_filter.
    eapply writes_eq; [apply (str_ok (F := JsonEscapeFilter WriteFilter)); exact Hj|].
    unfold after_esc. apply flat_map_ext. intros a. apply flat_map_fixed. by apply List.Forall_forall.
  - rewrite write_array, array_text. apply json_ok_array in Hj.
    assert (Hall : forall first, runs (write_elements js) (negb first) S (elements_text S first js)
                     (match js with [] => negb first | _ => true end) S).
    { clear c s. revert Hj. induction IH as [|j js IHj _ IHjs]; intros Hj first; [apply runs_ok|].
      apply Forall_cons_iff in Hj as [Hj Hjs]. cbn [write_elements elements_text].
      rewrite app_assoc, separator_lead. eapply runs_then; [by apply IHj|].
      specialize (IHjs Hjs false). by destruct js. }
    eapply runs_cast; [eapply runs_then; [by apply runs_begin|]; eapply runs_then; [apply (Hall true)|]; by apply runs_end|].
    by rewrite <- app_assoc.
  - rewrite write_object, object_text. apply json_ok_object in Hj.
    assert (Hall : forall first, runs (write_members ms) (negb first) S (members_text S first ms)
                     (match ms with [] => negb first | _ => true end) S).
    { clear c s. revert Hj. induction IH as [|m ms IHm _ IHms]; intros Hj first; [apply runs_ok|].
      apply Forall_cons_iff in Hj as [[Hn Hm] Hms]. cbn [write_members members_text].
      specialize (IHms Hms false).
      eapply runs_cast.
      - eapply runs_then; [by apply runs_name|]. eapply runs_then; [by apply IHm|].
        destruct ms; exact IHms.
      - rewrite separator_lead, <- app_assoc. cbn [app lead]. do 2 f_equal.
        rewrite <- app_assoc. cbn [app]. rewrite json_safe_text by done. unfold gap. by destruct S. }
    eapply runs_cast; [eapply runs_then; [by apply runs_begin|]; eapply runs_then; [apply (Hall true)|]; by apply runs_end|].
    by rewrite <- app_assoc.
Qed.
End Writing.

(** ** Reading *)

Section Reading.
Context (S : bool).

Lemma skip_other c t : c <> 32 -> skip_spaces (c :: t) = c :: t.
Proof. intros Hc. cbn. by rewrite (proj2 (Z.eqb_neq c 32)). Qed.
Lemma skip_gap b l : skip_spaces (gap b ++ l) = skip_spaces l.
Proof. unfold gap. by destruct b. Qed.
Lemma read_gap n l : read_json n (gap S ++ l) = read_json n l.
Proof. destruct n; [done|]. cbn [read_json]. by rewrite skip_gap. Qed.

(** What follows a literal must not look like one. *)
Definition terminated (r : list Z) : Prop := match r with [] => True | c :: _ => is_literal c = false end.
Lemma span_literal_ok l r : Forall (fun c => is_literal c = true) l -> terminated r -> span_literal (l ++ r) = (l, r).
Proof.
  intros Hl Hr. induction Hl as [|c l Hc _ IH]; cbn.
  - destruct r as [|c r]; [done|]. cbn in Hr |- *. by rewrite Hr.
  - by rewrite Hc, IH.
Qed.
Lemma literal_other c v : is_literal c = true -> is_literal v = false -> c <> v.
Proof. intros Hc Hv ->. congruence. Qed.

Lemma text_starts j : json_wf j -> exists c t, json_text S j = c :: t /\ c <> 32 /\ c <> 93 /\ c <> 125 /\ c <> 44.
Proof.
  destruct j as [l | cs | js | ms]; intros Hj.
  - destruct Hj as [Hne Hl]. destruct l as [|c l]; [done|]. apply Forall_cons_iff in Hl as [Hc _].
    exists c, l. split_and!; [done | by eapply literal_other ..].
  - by repeat eexists.
  - by repeat eexists.
  - by repeat eexists.
Qed.

Lemma read_string n cs r : scalars cs ->
  read_json (Datatypes.S n) (json_text S (JString cs) ++ r) = Some (JString cs, r).
Proof.
  intros Hcs. cbn [json_text app read_json]. rewrite skip_other by done. cbn [Z.eqb Pos.eqb].
  rewrite <- app_assoc. cbn [app]. by rewrite json_string_text.
Qed.
Lemma read_literal n l r : json_wf (JLiteral l) -> terminated r ->
  read_json (Datatypes.S n) (l ++ r) = Some (JLiteral l, r).
Proof.
  intros [Hne Hl] Hr. destruct l as [|c l]; [done|]. pose proof Hl as Hl'. apply Forall_cons_iff in Hl' as [Hc _].
  cbn [app read_json]. rewrite skip_other by by eapply literal_other.
  rewrite (proj2 (Z.eqb_neq c 34)), (proj2 (Z.eqb_neq c 91)), (proj2 (Z.eqb_neq c 123)) by by eapply literal_other.
  change (c :: l ++ r) with ((c :: l) ++ r). by rewrite span_literal_ok.
Qed.

Lemma after_element js r : terminated (elements_text S false js ++ gap S ++ 93 :: r).
Proof. destruct js as [|j js]; [|by destruct S]. unfold gap. by destruct S. Qed.
Lemma after_member b ms r : terminated (members_text S false ms ++ gap b ++ 125 :: r).
Proof. destruct ms as [|m ms]; [|by destruct S]. unfold gap. by destruct b. Qed.

(** A tree reads back from its text, given fuel for its length. *)
Definition reads (j : json) : Prop := forall n r, (length (json_text S j) <= n)%nat -> terminated r ->
  read_json n (json_text S j ++ r) = Some (j, r).

Lemma read_elements_ok js : Forall json_wf js -> Forall reads js -> forall n first r,
  (length (elements_text S first js ++ gap S ++ [93%Z]) <= n)%nat ->
  read_elements n first (elements_text S first js ++ gap S ++ 93 :: r) = Some (js, r).
Proof.
  intros Hok Hr. induction Hr as [|j js Hj _ IH]; intros n first r Hn.
  - destruct n as [|n]; [rewrite !length_app in Hn; cbn in Hn; lia|]. cbn [elements_text app read_elements].
    rewrite skip_gap, skip_other by done. done.
  - apply Forall_cons_iff in Hok as [Hok Hoks]. destruct (text_starts j Hok) as (c & t & Et & Hc).
    cbn [elements_text] in Hn |- *. rewrite <- !app_assoc in Hn |- *. rewrite length_app in Hn.
    set (rest := elements_text S false js ++ gap S ++ 93 :: r).
    assert (Hread : forall m, (length (json_text S j) <= m)%nat ->
              read_json m (json_text S j ++ rest) = Some (j, rest)) by (intros; apply Hj; [done | apply after_element]).
    rewrite length_app in Hn.
    assert (Hl : (1 <= length (json_text S j))%nat) by (rewrite Et; cbn; lia).
    assert (Hl2 : (1 <= length (elements_text S false js ++ gap S ++ [93%Z]))%nat) by (rewrite !length_app; cbn; lia).
    destruct n as [|n]; [lia|].
    assert (IH' : read_elements n false rest = Some (js, r)) by (apply IH; [done | lia]).
    destruct first; cbn [separator app read_elements orb].
    + rewrite skip_gap, Et. cbn [app]. rewrite skip_other by tauto.
      rewrite (proj2 (Z.eqb_neq c 93)) by tauto. change (c :: t ++ rest) with ((c :: t) ++ rest).
      rewrite <- Et, Hread by lia. by rewrite IH'.
    + rewrite skip_other by done. cbn [Z.eqb Pos.eqb]. rewrite read_gap, Hread by lia. by rewrite IH'.
Qed.

Lemma read_members_ok ms : Forall (fun m => scalars (fst m) /\ json_wf (snd m)) ms ->
  Forall (fun m => reads (snd m)) ms -> forall b n first r,
  (length (members_text S first ms ++ gap b ++ [125%Z]) <= n)%nat ->
  read_members n first (members_text S first ms ++ gap b ++ 125 :: r) = Some (ms, r).
Proof.
  intros Hok Hr. induction Hr as [|[name j] ms Hj _ IH]; intros b n first r Hn.
  - destruct n as [|n]; [rewrite !length_app in Hn; cbn in Hn; lia|]. cbn [members_text app read_members].
    rewrite skip_gap, skip_other by done. done.
  - apply Forall_cons_iff in Hok as [[Hname Hok] Hoks]. cbn [fst snd] in *.
    cbn [members_text fst snd] in Hn |- *. rewrite <- !app_assoc in Hn |- *. rewrite length_app in Hn.
    cbn [app] in Hn |- *. rewrite <- !app_assoc in Hn |- *. cbn [app] in Hn |- *. rewrite <- !app_assoc in Hn |- *.
    set (rest := members_text S false ms ++ gap b ++ 125 :: r).
    assert (Hread : forall m, (length (json_text S j) <= m)%nat ->
              read_json m (gap S ++ json_text S j ++ rest) = Some (j, rest))
      by (intros; rewrite read_gap; apply Hj; [done | apply after_member]).
    cbn [length] in Hn. rewrite length_app in Hn. cbn [length] in Hn. rewrite length_app in Hn.
    rewrite (length_app (json_text S j)) in Hn.
    destruct n as [|n]; [lia|].
    assert (IH' : read_members n false rest = Some (ms, r)) by (apply IH; [done | lia]).
    destruct first; cbn [separator app read_members orb].
    + rewrite skip_gap, !skip_other by done. cbn [Z.eqb Pos.eqb].
      rewrite json_string_text by done. rewrite skip_other by done. cbn [Z.eqb Pos.eqb].
      rewrite Hread by lia. by rewrite IH'.
    + rewrite skip_other by done. cbn [Z.eqb Pos.eqb]. rewrite skip_gap, skip_other by done. cbn [Z.eqb Pos.eqb].
      rewrite json_string_text by done. rewrite skip_other by done. cbn [Z.eqb Pos.eqb].
      rewrite Hread by lia. by rewrite IH'.
Qed.

Lemma json_reads j : json_wf j -> reads j.
Proof.
  induction j as [l | cs | js IH | ms IH] using json_tree_ind; intros Hj n r Hn Hr.
  - destruct n as [|n]; [|by apply read_literal]. cbn in Hn. destruct Hj as [Hne _]. destruct l; [done | cbn in Hn; lia].
  - destruct n as [|n]; [cbn in Hn; lia | by apply read_string].
  - apply json_wf_array in Hj. rewrite array_text in Hn |- *. cbn [length] in Hn. destruct n as [|n]; [lia|].
    cbn [app read_json]. rewrite skip_other by done. cbn [Z.eqb Pos.eqb]. rewrite <- !app_assoc. cbn [app].
    rewrite read_elements_ok; [done | done | | lia].
    clear Hn n r Hr. induction IH as [|j js IHj _ IH]; [constructor|]. apply Forall_cons_iff in Hj as [Hj Hjs].
    constructor; [by apply IHj | by apply IH].
  - apply json_wf_object in Hj. rewrite object_text in Hn |- *. cbn [length] in Hn. destruct n as [|n]; [lia|].
    cbn [app read_json]. rewrite skip_other by done. cbn [Z.eqb Pos.eqb]. rewrite <- !app_assoc. cbn [app].
    rewrite read_members_ok; [done | done | | lia].
    clear Hn n r Hr. induction IH as [|m ms IHm _ IH]; [constructor|]. apply Forall_cons_iff in Hj as [[_ Hm] Hms].
    constructor; [by apply IHm | by apply IH].
Qed.

(** The members of an object, as they are written between its braces. *)
Definition members_body (ms : list (list Z * json)) : list Z :=
  match ms with [] => [] | m :: ms => member_text S m ++ members_text S false ms end.
Lemma parse_members ms : json_wf (JObject ms) -> parse_json (123 :: members_body ms ++ [125]) = Some (JObject ms).
Proof.
  intros Hj. apply json_wf_object in Hj. unfold parse_json.
  assert (E : forall n, (length (members_body ms ++ [125%Z]) <= n)%nat ->
            read_members n true (members_body ms ++ [125]) = Some (ms, [])).
  { intros n Hn. destruct ms as [|[name j] ms]; [by destruct n; [cbn in Hn; lia|]|].
    apply Forall_cons_iff in Hj as [[Hname Hok] Hoks]. cbn [members_body fst snd] in *. unfold member_text in *. cbn [fst snd] in *.
    set (rest := members_text S false ms ++ gap false ++ [125]).
    assert (Hread : forall m, (length (json_text S j) <= m)%nat ->
              read_json m (gap S ++ json_text S j ++ rest) = Some (j, rest))
      by (intros; rewrite read_gap; apply json_reads; [done|done|apply after_member]).
    cbn [app length] in Hn |- *. rewrite !length_app in Hn. cbn [length] in Hn. rewrite !length_app in Hn. cbn [length] in Hn.
    rewrite <- !app_assoc. cbn [app]. rewrite <- !app_assoc. destruct n as [|n]; [lia|].
    assert (Hrest : read_members n false rest = Some (ms, [])).
    { apply read_members_ok; [done| |rewrite !length_app; cbn [gap app length]; lia].
      eapply List.Forall_impl; [|exact Hoks]. intros m [_ Hm]. by apply json_reads. }
    cbn [read_members orb]. rewrite !skip_other by done. cbn [Z.eqb Pos.eqb].
    rewrite json_string_text by done. rewrite skip_other by done. cbn [Z.eqb Pos.eqb].
    change (members_text S false ms ++ [125]) with rest. rewrite Hread by lia. by rewrite Hrest. }
  cbn [length read_json]. rewrite skip_other by done. cbn [Z.eqb Pos.eqb]. by rewrite E.
Qed.
End Reading.

(** C9. A client that writes a JSON tree through a [JsonWriter], calling the begin and
    end of each array and object and the property names (free of characters that need an
    escape) in between, gets well-formed
    JSON that reads back as the tree, whatever the [Space] option says: the two bits of
    the writer put each comma and space where it belongs.  When the writer was made with
    [json_comma], exactly the separator a value after another one needs comes first, and
    afterwards the writer is ready for the next value. *)
Theorem json_writer_round_trip j o json_comma d :
  json_ok j ->
  exists lead text,
    write_json j (JsonWriter_new d o json_comma)
    = Ret (Ok tt, JsonWriter_new (d ++ utf8 (lead ++ text)) o true) /\
    parse_json text = Some j /\
    lead = (if json_comma then 44 :: (if options_has_flag o Space then [32] else []) else []).
Proof.
  intros Hj. set (S := options_has_flag o Space).
  exists (if json_comma then 44 :: (if S then [32] else []) else []), (json_text S j).
  split_and!; [| | done].
  - pose proof (write_json_runs o j Hj json_comma (json_comma && S) d) as H.
    change (JsonWriter_new d o json_comma) with (state o d json_comma (json_comma && S)).
    rewrite H. unfold JsonWriter_new, state, lead. fold S. by destruct json_comma, S.
  - unfold parse_json. pose proof (json_reads S j (json_ok_wf j Hj) (length (json_text S j)) [] (le_n _) I) as H.
    rewrite app_nil_r in H. by rewrite H.
Qed.

Definition example_json : json :=
  JObject [(str_bytes "n", JString [80; 34]);
           (str_bytes "xs", JArray [JLiteral (str_bytes "-1"); JArray []; JObject []])].
Lemma json_writer_round_trip_witness :
  exists lead text,
    write_json example_json (JsonWriter_new [] Space true)
    = Ret (Ok tt, JsonWriter_new (utf8 (lead ++ text)) Space true) /\
    parse_json text = Some example_json /\ lead = [44; 32].
Proof.
  apply (json_writer_round_trip example_json Space true []).
  repeat (split || constructor); done.
Defined.
