(* ===== verification/Session.v ===== *)
(** * Session: session clocks (tracepoint_decode/src/perf_session.rs)

    A session relates event timestamps, nanoseconds of some clock, to wall-clock time
    by an offset of seconds and nanoseconds. *)

From S2P Require Import Prelude Types ByteReader.

(* perf_session.rs: const BILLION32 *)
Definition BILLION32 : Z := 1000000000.
(* perf_session.rs: const BILLION64 *)
Definition BILLION64 : Z := 1000000000.

(** ** PerfTimeSpec *)

(* perf_session.rs: struct PerfTimeSpec *)
Record PerfTimeSpec := { seconds : Z; nanoseconds : Z }.

#[export] Instance PerfTimeSpec_eq_dec : EqDecision PerfTimeSpec.
Proof. solve_decision. Defined.

(* perf_session.rs: const UNIX_EPOCH *)
Definition UNIX_EPOCH : PerfTimeSpec := {| seconds := 0; nanoseconds := 0 |}.
(* perf_session.rs:26-29: PerfTimeSpec::MAX *)
Definition PerfTimeSpec_MAX : PerfTimeSpec := {| seconds := 2 ^ 63 - 1; nanoseconds := BILLION32 - 1 |}.
(* perf_session.rs:32-35: PerfTimeSpec::MIN *)
Definition PerfTimeSpec_MIN : PerfTimeSpec := {| seconds := - 2 ^ 63; nanoseconds := 0 |}.

(** A [u32] of nanoseconds is less than five seconds, so five turns are enough. *)
(* perf_session.rs:50-53: PerfTimeSpec::new, loop *)
Fixpoint normalize_loop (fuel : nat) (this : PerfTimeSpec) : outcome PerfTimeSpec :=
  match fuel with
  | O => Panic
  | S fuel =>
    if BILLION32 <=? this.(nanoseconds) then
      sec ← i64 (this.(seconds) + 1);
      nsec ← u32 (this.(nanoseconds) - BILLION32);
      normalize_loop fuel {| seconds := sec; nanoseconds := nsec |}
    else Ret this
  end.
(* perf_session.rs: PerfTimeSpec::new *)
Definition PerfTimeSpec_new (seconds nanoseconds : Z) : outcome PerfTimeSpec :=
  normalize_loop 5 {| seconds := seconds; nanoseconds := nanoseconds |}.

(** A [time::Duration] is its seconds and the nanoseconds below a second. *)
(* perf_session.rs: PerfTimeSpec::from_duration_after_epoch *)
Definition from_duration_after_epoch (as_secs subsec_nanos : Z) : outcome PerfTimeSpec :=
  _ ← rassert (as_secs <=? 2 ^ 63 - 1);
  PerfTimeSpec_new (as_signed 64 as_secs) subsec_nanos.
(** [Duration::new] carries whole seconds and panics when they do not fit. *)
Definition Duration_new (secs nanos : Z) : outcome (Z * Z) :=
  secs ← u64 (secs + nanos / BILLION32); Ret (secs, nanos mod BILLION32).
(* perf_session.rs: PerfTimeSpec::as_duration_after_epoch *)
Definition as_duration_after_epoch (this : PerfTimeSpec) : outcome (option (Z * Z)) :=
  if this.(seconds) <? 0 then Ret None
  else d ← Duration_new (as_unsigned 64 this.(seconds)) this.(nanoseconds); Ret (Some d).
(* perf_session.rs: PerfTimeSpec::add_nanoseconds *)
Definition add_nanoseconds (this : PerfTimeSpec) (nanoseconds : Z) : outcome PerfTimeSpec :=
  let sec := as_signed 64 (nanoseconds / BILLION64) in
  let nsec := as_unsigned 32 (nanoseconds mod BILLION64) in
  sec ← i64 (this.(seconds) + sec);
  nsec ← u32 (this.(Session.nanoseconds) + nsec);
  PerfTimeSpec_new sec nsec.

(** The derived ordering: lexicographic on the two fields. *)
(* perf_session.rs: struct PerfTimeSpec *)
Definition PerfTimeSpec_le (a b : PerfTimeSpec) : bool :=
  (a.(seconds) <? b.(seconds)) || (a.(seconds) =? b.(seconds)) && (a.(nanoseconds) <=? b.(nanoseconds)).

(** ** PerfSessionInfo *)

(* perf_session.rs: struct PerfSessionInfo *)
Record PerfSessionInfo := {
  clock_offset_seconds : Z;
  clock_offset_nanoseconds : Z;
  clock_id : Z;
  clock_offset_known : bool;
  session_byte_reader : PerfByteReader;
}.

(* perf_session.rs: PerfSessionInfo::new *)
Definition PerfSessionInfo_new (r : PerfByteReader) : PerfSessionInfo :=
  {| clock_offset_seconds := 0; clock_offset_nanoseconds := 0; clock_id := 0;
     clock_offset_known := false; session_byte_reader := r |}.
(* perf_session.rs: PerfSessionInfo::source_big_endian *)
Definition session_big_endian (s : PerfSessionInfo) : bool := source_big_endian s.(session_byte_reader).
(* perf_session.rs: PerfSessionInfo::clock_offset *)
Definition clock_offset (s : PerfSessionInfo) : outcome PerfTimeSpec :=
  PerfTimeSpec_new s.(clock_offset_seconds) s.(clock_offset_nanoseconds).
(* perf_session.rs: PerfSessionInfo::set_clock_id *)
Definition set_clock_id (id : Z) (s : PerfSessionInfo) : PerfSessionInfo :=
  {| clock_offset_seconds := s.(clock_offset_seconds);
     clock_offset_nanoseconds := s.(clock_offset_nanoseconds);
     clock_id := id; clock_offset_known := s.(clock_offset_known);
     session_byte_reader := s.(session_byte_reader) |}.
Definition set_offset (sec nsec id : Z) (known : bool) (s : PerfSessionInfo) : PerfSessionInfo :=
  {| clock_offset_seconds := sec; clock_offset_nanoseconds := nsec; clock_id := id;
     clock_offset_known := known; session_byte_reader := s.(session_byte_reader) |}.

(* perf_session.rs: PerfSessionInfo::set_clock_data *)
Definition set_clock_data (id wall_clock_ns clock_id_time_ns : Z) (s : PerfSessionInfo)
    : outcome PerfSessionInfo :=
  if id =? 2 ^ 32 - 1 then Ret (set_offset 0 0 id false s)
  else if clock_id_time_ns <=? wall_clock_ns then
    offset_ns ← u64 (wall_clock_ns - clock_id_time_ns);
    Ret (set_offset (as_signed 64 (offset_ns / BILLION64)) (as_unsigned 32 (offset_ns mod BILLION64)) id true s)
  else
    neg_offset_ns ← u64 (clock_id_time_ns - wall_clock_ns);
    neg ← i64 (- as_signed 64 (neg_offset_ns / BILLION64));
    sec ← i64 (neg - 1);
    nsec ← u32 (BILLION32 - as_unsigned 32 (neg_offset_ns mod BILLION64));
    if nsec =? BILLION32 then
      sec ← i64 (sec + 1);
      nsec ← u32 (nsec - BILLION32);
      Ret (set_offset sec nsec id true s)
    else Ret (set_offset sec nsec id true s).

(* perf_session.rs: PerfSessionInfo::get_clock_data *)
Definition get_clock_data (s : PerfSessionInfo) : outcome (Z * Z) :=
  if 0 <=? s.(clock_offset_seconds) then
    ns ← u64 (as_unsigned 64 s.(clock_offset_seconds) * BILLION64);
    ns ← u64 (ns + s.(clock_offset_nanoseconds));
    Ret (ns, 0)
  else
    neg ← i64 (- s.(clock_offset_seconds));
    ns ← u64 (as_unsigned 64 neg * BILLION64);
    ns ← u64 (ns - s.(clock_offset_nanoseconds));
    Ret (0, ns).

(* perf_session.rs: PerfSessionInfo::time_to_time_spec *)
Definition time_to_time_spec (time : Z) (s : PerfSessionInfo) : outcome PerfTimeSpec :=
  let sec := as_signed 64 (time / BILLION64) in
  let nsec := as_unsigned 32 (time mod BILLION64) in
  sec ← i64 (sec + s.(clock_offset_seconds));
  nsec ← u32 (nsec + s.(clock_offset_nanoseconds));
  if BILLION32 <=? nsec then
    sec ← i64 (sec + 1);
    nsec ← u32 (nsec - BILLION32);
    PerfTimeSpec_new sec nsec
  else PerfTimeSpec_new sec nsec.
