(* ===== verification/SessionProps.v ===== *)
(** * SessionProps: event timestamps become wall-clock times *)

From S2P Require Import Prelude Types ByteReader Session.

(** ** Times as numbers of nanoseconds *)

Definition total_ns (t : PerfTimeSpec) : Z := t.(seconds) * 1000000000 + t.(nanoseconds).
(** The one normal form of a number of nanoseconds. *)
Definition of_ns (ns : Z) : PerfTimeSpec := {| seconds := ns / 1000000000; nanoseconds := ns mod 1000000000 |}.

Lemma total_of_ns ns : total_ns (of_ns ns) = ns.
Proof. unfold total_ns, of_ns. cbn. Z.div_mod_to_equations. lia. Qed.
Lemma of_ns_eq sec nsec : 0 <= nsec < 1000000000 -> {| seconds := sec; nanoseconds := nsec |} = of_ns (sec * 1000000000 + nsec).
Proof. intros H. unfold of_ns. f_equal; Z.div_mod_to_equations; lia. Qed.

Lemma i64_ok z : - 2 ^ 63 <= z < 2 ^ 63 -> i64 z = Ret z.
Proof. intros H. apply checked_signed_ok; lia. Qed.
Lemma as_i64 z : 0 <= z < 2 ^ 63 -> as_signed 64 z = z.
Proof. intros H. apply as_signed_small; lia. Qed.

(** A [u32] of nanoseconds is carried into the seconds. *)
Lemma normalize_ok fuel sec nsec : 0 <= nsec < Z.of_nat fuel * 1000000000 -> nsec < 2 ^ 32 ->
  - 2 ^ 63 <= sec -> sec + nsec / 1000000000 < 2 ^ 63 ->
  normalize_loop fuel {| seconds := sec; nanoseconds := nsec |} = Ret (of_ns (sec * 1000000000 + nsec)).
Proof.
  revert sec nsec. induction fuel as [|fuel IH]; intros sec nsec Hn Hw Hlo Hhi; [lia|].
  cbn [normalize_loop nanoseconds seconds]. unfold BILLION32.
  destruct (Z.leb_spec 1000000000 nsec).
  - assert (Ed : nsec / 1000000000 = (nsec - 1000000000) / 1000000000 + 1) by (Z.div_mod_to_equations; lia).
    assert (0 <= (nsec - 1000000000) / 1000000000) by (apply Z.div_pos; lia).
    rewrite i64_ok by lia. cbn [mbind outcome_bind]. rewrite checked_ok by lia. cbn [mbind outcome_bind].
    rewrite IH by lia. do 2 f_equal. lia.
  - by rewrite of_ns_eq by lia.
Qed.
Lemma new_ok sec nsec : 0 <= nsec < 2 ^ 32 -> - 2 ^ 63 <= sec -> sec + nsec / 1000000000 < 2 ^ 63 ->
  PerfTimeSpec_new sec nsec = Ret (of_ns (sec * 1000000000 + nsec)).
Proof. intros Hn Hlo Hhi. apply normalize_ok; lia. Qed.

Lemma i64_panic z : 2 ^ 63 <= z -> i64 z = Panic.
Proof.
  intros Hz. unfold checked_signed, fits_signed. change (64 - 1) with 63.
  by rewrite (proj2 (Z.ltb_ge z (2 ^ 63))), andb_false_r by lia.
Qed.
Lemma normalize_panic fuel sec nsec : 0 <= nsec < 2 ^ 32 -> - 2 ^ 63 <= sec < 2 ^ 63 ->
  2 ^ 63 <= sec + nsec / 1000000000 ->
  normalize_loop fuel {| seconds := sec; nanoseconds := nsec |} = Panic.
Proof.
  revert sec nsec. induction fuel as [|fuel IH]; intros sec nsec Hn Hs Hhi; [done|].
  cbn [normalize_loop nanoseconds seconds]. unfold BILLION32.
  destruct (Z.leb_spec 1000000000 nsec); [|rewrite Z.div_small in Hhi by lia; lia].
  destruct (Z.ltb_spec (sec + 1) (2 ^ 63)); [|by rewrite i64_panic by lia].
  rewrite i64_ok by lia. cbn [mbind outcome_bind]. rewrite checked_ok by lia. cbn [mbind outcome_bind].
  apply IH; try lia. Z.div_mod_to_equations. lia.
Qed.

(** ** Properties *)

(** [PerfTimeSpec::new] keeps the instant and puts the nanoseconds below a second,
    and panics exactly when the seconds overflow an [i64]; adding nanoseconds to a
    time adds them to the instant, with carry. *)
Theorem time_spec_normalized sec nsec extra :
  - 2 ^ 63 <= sec < 2 ^ 63 -> in_width 32 nsec -> in_width 64 extra ->
  (sec + nsec / 1000000000 < 2 ^ 63 -> PerfTimeSpec_new sec nsec = Ret (of_ns (sec * 1000000000 + nsec))) /\
  (2 ^ 63 <= sec + nsec / 1000000000 -> PerfTimeSpec_new sec nsec = Panic) /\
  (nsec < 1000000000 -> (sec * 1000000000 + nsec + extra) / 1000000000 < 2 ^ 63 ->
   add_nanoseconds {| seconds := sec; nanoseconds := nsec |} extra
   = Ret (of_ns (sec * 1000000000 + nsec + extra))).
Proof.
  unfold in_width. intros Hs Hn He. split_and!.
  - intros Hhi. by apply new_ok; lia.
  - intros Hhi. by apply normalize_panic.
  - intros Hb Hhi. unfold add_nanoseconds. cbn [seconds nanoseconds].
    set (q := extra / BILLION64). set (r := extra mod BILLION64).
    assert (Eq : extra = q * 1000000000 + r /\ 0 <= r < 1000000000 /\ 0 <= q < 2 ^ 35)
      by (unfold q, r, BILLION64; Z.div_mod_to_equations; lia).
    clearbody q r. destruct Eq as (-> & Hr & Hq).
    replace (sec * 1000000000 + nsec + (q * 1000000000 + r)) with ((sec + q) * 1000000000 + (nsec + r)) in * by lia.
    assert (Ed : ((sec + q) * 1000000000 + (nsec + r)) / 1000000000 = sec + q + (nsec + r) / 1000000000)
      by (rewrite Z.div_add_l by lia; lia).
    assert (0 <= (nsec + r) / 1000000000) by (apply Z.div_pos; lia).
    rewrite as_i64, as_unsigned_id, i64_ok by lia. cbn [mbind outcome_bind].
    rewrite checked_ok by lia. cbn [mbind outcome_bind]. by apply new_ok; lia.
Qed.

Lemma time_spec_normalized_witness :
  PerfTimeSpec_new 7 4000000001 = Ret (of_ns 11000000001) /\
  PerfTimeSpec_new (2 ^ 63 - 1) 1000000000 = Panic /\
  add_nanoseconds {| seconds := -1; nanoseconds := 999999999 |} 2 = Ret (of_ns 1).
Proof.
  split_and!.
  - refine (proj1 (time_spec_normalized 7 4000000001 0 _ _ _) _); unfold in_width; (lia || by vm_compute).
  - refine (proj1 (proj2 (time_spec_normalized (2 ^ 63 - 1) 1000000000 0 _ _ _)) _); unfold in_width; (lia || by vm_compute).
  - refine (proj2 (proj2 (time_spec_normalized (-1) 999999999 2 _ _ _)) _ _); unfold in_width; (lia || by vm_compute).
Defined.

(** The state [set_clock_data] makes of a pair of clock readings: the offset between
    them in normal form. *)
Definition offset_state (id wall clock : Z) (s : PerfSessionInfo) : PerfSessionInfo :=
  set_offset (of_ns (wall - clock)).(seconds) (of_ns (wall - clock)).(nanoseconds) id true s.

Lemma set_clock_data_ok id wall clock s : in_width 64 wall -> in_width 64 clock -> id <> 2 ^ 32 - 1 ->
  set_clock_data id wall clock s = Ret (offset_state id wall clock s).
Proof.
  unfold in_width. intros Hw Hc Hid. unfold set_clock_data, offset_state.
  rewrite (proj2 (Z.eqb_neq _ _) Hid). destruct (Z.leb_spec clock wall).
  - rewrite checked_ok by lia. cbn [mbind outcome_bind]. unfold BILLION64.
    rewrite as_i64, as_unsigned_id by (Z.div_mod_to_equations; lia). done.
  - rewrite checked_ok by lia. cbn [mbind outcome_bind]. unfold BILLION64, BILLION32.
    set (neg := clock - wall). assert (Hneg : 0 < neg < 2 ^ 64) by lia.
    set (q := neg / 1000000000). set (r := neg mod 1000000000).
    assert (Eq : neg = q * 1000000000 + r /\ 0 <= r < 1000000000 /\ 0 <= q < 2 ^ 35)
      by (unfold q, r; Z.div_mod_to_equations; lia).
    replace (wall - clock) with (- neg) by lia. clearbody q r. clearbody neg. destruct Eq as (-> & Hr & Hq).
    rewrite as_i64, as_unsigned_id by lia. rewrite i64_ok by lia. cbn [mbind outcome_bind].
    rewrite i64_ok by lia. cbn [mbind outcome_bind]. rewrite checked_ok by lia. cbn [mbind outcome_bind].
    unfold set_offset, of_ns. cbn [seconds nanoseconds].
    destruct (Z.eqb_spec (1000000000 - r) 1000000000).
    + rewrite i64_ok by lia. cbn [mbind outcome_bind]. rewrite checked_ok by lia. cbn [mbind outcome_bind].
      do 2 f_equal; Z.div_mod_to_equations; lia.
    + do 2 f_equal; Z.div_mod_to_equations; lia.
Qed.

(** C21. After [set_clock_data] with two readings of the same instant, one of the wall
    clock and one of the session's clock, [time_to_time_spec] turns every event
    timestamp into the wall-clock time that lies as far from the first reading as the
    timestamp lies from the second one, before 1970 too, with its nanoseconds below a
    second; [clock_offset] is the time of timestamp 0.  Nothing panics, for any [u64]s. *)
Theorem event_times_are_exact id wall clock time s :
  in_width 64 wall -> in_width 64 clock -> in_width 64 time -> id <> 2 ^ 32 - 1 ->
  exists s', set_clock_data id wall clock s = Ret s' /\
    time_to_time_spec time s' = Ret (of_ns (time + wall - clock)) /\
    clock_offset s' = Ret (of_ns (wall - clock)) /\
    s'.(clock_id) = id /\ s'.(clock_offset_known) = true.
Proof.
  intros Hw Hc Ht Hid. exists (offset_state id wall clock s).
  split; [by apply set_clock_data_ok|]. unfold in_width in *.
  unfold time_to_time_spec, clock_offset, offset_state. cbn [set_offset clock_offset_seconds clock_offset_nanoseconds
    clock_id Session.clock_offset_known].
  pose proof (total_of_ns (wall - clock)) as Ho. set (sec := (of_ns (wall - clock)).(seconds)).
  assert (Hn : 0 <= (of_ns (wall - clock)).(nanoseconds) < 1000000000) by (cbn; apply Z.mod_pos_bound; lia).
  assert (Hs : - 2 ^ 35 <= sec < 2 ^ 35) by (unfold sec; cbn; Z.div_mod_to_equations; lia).
  unfold total_ns in Ho. set (nsec := (of_ns (wall - clock)).(nanoseconds)) in *. fold sec in Ho.
  clearbody sec nsec. unfold BILLION64, BILLION32.
  set (q := time / 1000000000). set (r := time mod 1000000000).
  assert (Eq : time = q * 1000000000 + r /\ 0 <= r < 1000000000 /\ 0 <= q < 2 ^ 35)
    by (unfold q, r; Z.div_mod_to_equations; lia).
  clearbody q r. destruct Eq as (-> & Hr & Hq). rewrite as_i64, as_unsigned_id by lia.
  split_and!; try done.
  - rewrite i64_ok by lia. cbn [mbind outcome_bind]. rewrite checked_ok by lia. cbn [mbind outcome_bind].
    destruct (Z.leb_spec 1000000000 (r + nsec)).
    + rewrite i64_ok by lia. cbn [mbind outcome_bind]. rewrite checked_ok by lia. cbn [mbind outcome_bind].
      rewrite new_ok by (rewrite ?Z.div_small; lia). do 2 f_equal. lia.
    + rewrite new_ok by (rewrite ?Z.div_small; lia). do 2 f_equal. lia.
  - rewrite new_ok by (rewrite ?Z.div_small; lia). do 2 f_equal. lia.
Qed.

Lemma event_times_are_exact_witness :
  exists s', set_clock_data 4 1000 5000000000 (PerfSessionInfo_new (PerfByteReader_new false)) = Ret s' /\
    time_to_time_spec 7 s' = Ret (of_ns (-4999998993)) /\
    clock_offset s' = Ret (of_ns (-4999999000)) /\
    s'.(clock_id) = 4 /\ s'.(clock_offset_known) = true.
Proof.
  apply (event_times_are_exact 4 1000 5000000000 7); unfold in_width; lia.
Defined.

Lemma checked_panic_over z : 2 ^ 64 <= z -> checked 64 z = Panic.
Proof. intros Hz. apply checked_panic. lia. Qed.

(** [get_clock_data] of a normal offset. *)
Lemma get_clock_data_ok sec nsec id known s :
  0 <= nsec < 1000000000 -> - 2 ^ 35 <= sec < 2 ^ 35 ->
  get_clock_data (set_offset sec nsec id known s)
  = if 0 <=? sec then
      if sec * 1000000000 + nsec <? 2 ^ 64 then Ret (sec * 1000000000 + nsec, 0) else Panic
    else if - sec * 1000000000 <? 2 ^ 64 then Ret (0, - sec * 1000000000 - nsec) else Panic.
Proof.
  intros Hn Hs. unfold get_clock_data, BILLION64. cbn [set_offset clock_offset_seconds clock_offset_nanoseconds].
  destruct (Z.leb_spec 0 sec).
  - rewrite as_unsigned_id by lia. destruct (Z.ltb_spec (sec * 1000000000 + nsec) (2 ^ 64)).
    + rewrite checked_ok by lia. cbn [mbind outcome_bind]. by rewrite checked_ok by lia.
    + destruct (Z.ltb_spec (sec * 1000000000) (2 ^ 64)); [|by rewrite checked_panic_over by lia].
      rewrite checked_ok by lia. cbn [mbind outcome_bind]. by rewrite checked_panic_over by lia.
  - rewrite i64_ok by lia. cbn [mbind outcome_bind]. rewrite as_unsigned_id by lia.
    destruct (Z.ltb_spec (- sec * 1000000000) (2 ^ 64)); [|by rewrite checked_panic_over by lia].
    rewrite checked_ok by lia. cbn [mbind outcome_bind]. by rewrite checked_ok by lia.
Qed.

(** C35. [get_clock_data] gives back two readings with the difference of the two that
    were set, one of them 0, and setting these again changes nothing; but when the
    clock was more than 18446744073 seconds ahead of the wall clock, the product of the
    rounded-up seconds overflows a [u64] and it panics. *)
Theorem clock_data_round_trip id wall clock s :
  in_width 64 wall -> in_width 64 clock -> id <> 2 ^ 32 - 1 ->
  exists s', set_clock_data id wall clock s = Ret s' /\
    (clock - wall <= 18446744073 * 1000000000 ->
     exists wall' clock', get_clock_data s' = Ret (wall', clock') /\
       in_width 64 wall' /\ in_width 64 clock' /\
       wall' - clock' = wall - clock /\ (wall' = 0 \/ clock' = 0) /\
       set_clock_data id wall' clock' s' = Ret s') /\
    (18446744073 * 1000000000 < clock - wall -> get_clock_data s' = Panic).
Proof.
  unfold in_width. intros Hw Hc Hid. exists (offset_state id wall clock s).
  split; [by apply set_clock_data_ok|]. unfold offset_state.
  pose proof (total_of_ns (wall - clock)) as Ho. unfold total_ns in Ho.
  assert (Hn : 0 <= (of_ns (wall - clock)).(nanoseconds) < 1000000000) by (cbn; apply Z.mod_pos_bound; lia).
  assert (Hs : - 2 ^ 35 <= (of_ns (wall - clock)).(seconds) < 2 ^ 35) by (cbn; Z.div_mod_to_equations; lia).
  rewrite get_clock_data_ok by done.
  set (sec := (of_ns (wall - clock)).(seconds)) in *. set (nsec := (of_ns (wall - clock)).(nanoseconds)) in *.
  assert (Again : forall w c, 0 <= w < 2 ^ 64 -> 0 <= c < 2 ^ 64 -> w - c = wall - clock ->
            set_clock_data id w c (set_offset sec nsec id true s) = Ret (set_offset sec nsec id true s)).
  { intros w c Hw' Hc' E. rewrite set_clock_data_ok by done. unfold offset_state. by rewrite E. }
  clearbody sec nsec. split.
  - intros Hle. destruct (Z.leb_spec 0 sec).
    + rewrite (proj2 (Z.ltb_lt (sec * 1000000000 + nsec) (2 ^ 64))) by lia.
      exists (sec * 1000000000 + nsec), 0.
      split_and!; try lia; [done | apply Again; lia].
    + rewrite (proj2 (Z.ltb_lt (- sec * 1000000000) (2 ^ 64))) by lia.
      exists 0, (- sec * 1000000000 - nsec).
      split_and!; try lia; [done | apply Again; lia].
  - intros Hgt. rewrite (proj2 (Z.leb_gt 0 sec)) by lia.
    by rewrite (proj2 (Z.ltb_ge (- sec * 1000000000) (2 ^ 64))) by lia.
Qed.

Lemma clock_data_round_trip_witness :
  let s := PerfSessionInfo_new (PerfByteReader_new false) in
  (exists s', set_clock_data 4 1000 5000000000 s = Ret s' /\
    exists wall' clock', get_clock_data s' = Ret (wall', clock') /\ wall' - clock' = -4999999000) /\
  (exists s', set_clock_data 4 0 18446744073000000001 s = Ret s' /\ get_clock_data s' = Panic).
Proof.
  split.
  - destruct (clock_data_round_trip 4 1000 5000000000 (PerfSessionInfo_new (PerfByteReader_new false)))
      as (s' & E & H & _); [unfold in_width; lia | unfold in_width; lia | done |].
    destruct H as (w & c & H & _ & _ & D & _); [done|]. exists s'. split; [exact E|]. exists w, c. by split.
  - destruct (clock_data_round_trip 4 0 18446744073000000001 (PerfSessionInfo_new (PerfByteReader_new false)))
      as (s' & E & _ & H); [unfold in_width; lia | unfold in_width; lia | done |].
    exists s'. split; [exact E | by apply H].
Defined.
