(* ===== verification/FieldFormat.v ===== *)
(** * FieldFormat: fields of tracefs events (tracepoint_decode/src/perf_field_format.rs)

    A line of a tracefs "format" file declares a field in the syntax of C; the parser
    deduces the type of the field from it, and the field's data is then found in the
    raw data of an event. *)

From S2P Require Import Prelude Strings Types ByteReader PerfItem.

(** ** Characters and numbers *)

(* perf_field_format.rs: fn is_space_or_tab *)
Definition is_space_or_tab (c : Z) : bool := (c =? 32) || (c =? 9).
(* perf_field_format.rs: fn is_space_or_tab_or_semicolon *)
Definition is_space_or_tab_or_semicolon (c : Z) : bool := (c =? 32) || (c =? 9) || (c =? 59).
Definition is_ascii_alphabetic (c : Z) : bool := (65 <=? c) && (c <=? 90) || (97 <=? c) && (c <=? 122).
Definition is_ascii_digit (c : Z) : bool := (48 <=? c) && (c <=? 57).
(* perf_field_format.rs: fn is_ident_start *)
Definition is_ident_start (c : Z) : bool := is_ascii_alphabetic c || (c =? 95).
(* perf_field_format.rs: fn is_ident_continue *)
Definition is_ident_continue (c : Z) : bool := is_ascii_alphabetic c || is_ascii_digit c || (c =? 95).

(** [char::to_digit] for the radices 10 and 16. *)
Definition to_digit (radix c : Z) : option Z :=
  if is_ascii_digit c then Some (c - 48)
  else if (radix =? 16) && (97 <=? c) && (c <=? 102) then Some (c - 87)
  else if (radix =? 16) && (65 <=? c) && (c <=? 70) then Some (c - 55)
  else None.

(** The two digit loops, on [chars[pos..]]. *)
(* perf_field_format.rs:1062-1098: fn ascii_to_u32, loops *)
Fixpoint digits_loop (radix : Z) (rest : bytes) (any_digits : bool) (value : Z) : outcome (option Z) :=
  let done := Ret (if any_digits then Some value else None) in
  match rest with
  | [] => done
  | ch :: rest =>
    match to_digit radix ch with
    | Some digit =>
      v ← u32 (value * radix);
      v ← u32 (v + digit);
      digits_loop radix rest true v
    | None => done
    end
  end.
(* perf_field_format.rs: fn ascii_to_u32 *)
Definition ascii_to_u32 (chars : bytes) : outcome (option Z) :=
  let pos := skip_from is_space_or_tab chars 0 in
  if (2 <? len chars - pos) && (byte_at chars pos =? 48)
     && ((byte_at chars (pos + 1) =? 120) || (byte_at chars (pos + 1) =? 88))
  then digits_loop 16 (from chars (pos + 2)) false 0
  else digits_loop 10 (from chars pos) false 0.

(** ** Tokens *)

(* perf_field_format.rs: enum TokenKind *)
Inductive TokenKind := TokNone | Ident | Brackets | Parentheses | TString | Punctuation.

#[export] Instance TokenKind_eq_dec : EqDecision TokenKind.
Proof. solve_decision. Defined.

(* perf_field_format.rs: struct Tokenizer *)
Record Tokenizer := { tk_input : bytes; input_pos : Z; kind : TokenKind; value_start : Z; value_end : Z }.

(* perf_field_format.rs: Tokenizer::new *)
Definition Tokenizer_new (input : bytes) : Tokenizer :=
  {| tk_input := input; input_pos := 0; kind := TokNone; value_start := 0; value_end := 0 |}.

(** [rest] is [bytes[pos..]]. *)
(* perf_field_format.rs: fn consume_string *)
Fixpoint consume_string (rest : bytes) (pos quote : Z) : Z :=
  match rest with
  | [] => pos
  | consumed :: rest =>
    let pos := pos + 1 in
    if consumed =? quote then pos
    else if consumed =? 92 then
      match rest with [] => pos | _ :: rest => consume_string rest (pos + 1) quote end
    else consume_string rest pos quote
  end.
(** The depth is an [i32]. *)
(* perf_field_format.rs: fn consume_braced *)
Fixpoint consume_braced (rest : bytes) (pos opening closing depth : Z) : outcome Z :=
  match rest with
  | [] => Ret pos
  | consumed :: rest =>
    let pos := pos + 1 in
    if consumed =? closing then
      depth ← checked_signed 32 (depth - 1);
      if depth =? 0 then Ret pos else consume_braced rest pos opening closing depth
    else if consumed =? opening then
      depth ← checked_signed 32 (depth + 1);
      consume_braced rest pos opening closing depth
    else consume_braced rest pos opening closing depth
  end.

(* perf_field_format.rs: Tokenizer::move_next *)
Definition Tokenizer_move_next (t : Tokenizer) : outcome Tokenizer :=
  let input_bytes := t.(tk_input) in
  let pos := skip_from (fun b => b <=? 32) input_bytes t.(input_pos) in
  let start_pos := pos in
  '(new_kind, pos) ←
    (if pos =? len input_bytes then Ret (TokNone, pos)
     else
       b ← index input_bytes pos;
       if is_ident_start b then Ret (Ident, skip_from is_ident_continue input_bytes (pos + 1))
       else if (b =? 39) || (b =? 34) then
         Ret (TString, consume_string (from input_bytes (pos + 1)) (pos + 1) b)
       else if b =? 40 then
         p ← consume_braced (from input_bytes (pos + 1)) (pos + 1) 40 41 1; Ret (Parentheses, p)
       else if b =? 91 then
         p ← consume_braced (from input_bytes (pos + 1)) (pos + 1) 91 93 1; Ret (Brackets, p)
       else Ret (Punctuation, pos + 1));
  Ret {| tk_input := input_bytes; input_pos := pos; kind := new_kind;
         value_start := start_pos; value_end := pos |}.

(** ** PerfFieldFormat *)

(* perf_field_format.rs: enum PerfFieldArray *)
Inductive PerfFieldArray := ArrNone | Fixed | RestOfEvent | RelLoc2 | DataLoc2 | RelLoc4 | DataLoc4.

#[export] Instance PerfFieldArray_eq_dec : EqDecision PerfFieldArray.
Proof. solve_decision. Defined.

(* perf_field_format.rs: struct PerfFieldFormat *)
Record PerfFieldFormat := {
  ff_field : bytes;
  name_start : Z;
  name_end : Z;
  ff_offset : Z;
  ff_size : Z;
  ff_signed : option bool;
  specified_array_count : Z;
  deduced_array_count : Z;
  specified_encoding : Z;
  deduced_encoding : Z;
  specified_format : Z;
  deduced_format : Z;
  ff_array : PerfFieldArray;
  element_size_shift : Z;
}.

(** The local variables of the declaration parser; a range is its two ends. *)
(* perf_field_format.rs:107-118: PerfFieldFormat::new, local variables *)
Record Declaration := {
  found_long_long : bool;
  found_long : bool;
  found_short : bool;
  found_unsigned : bool;
  found_signed : bool;
  found_struct : bool;
  found_data_loc : bool;
  found_rel_loc : bool;
  found_array : bool;
  found_pointer : bool;
  base_type_range : Z * Z;
  name_range : Z * Z;
  array_count : Z;
}.
Definition no_declaration : Declaration :=
  {| found_long_long := false; found_long := false; found_short := false; found_unsigned := false;
     found_signed := false; found_struct := false; found_data_loc := false; found_rel_loc := false;
     found_array := false; found_pointer := false; base_type_range := (0, 0); name_range := (0, 0);
     array_count := 0 |}.

(** Assignments to the flags. *)
Inductive flag := FLong | FShort | FUnsigned | FSigned | FStruct | FDataLoc | FRelLoc | FArray | FPointer.
Definition set_flag (f : flag) (d : Declaration) : Declaration :=
  {| found_long_long := (match f with FLong => d.(found_long) | _ => false end) || d.(found_long_long);
     found_long := (match f with FLong => true | _ => false end) || d.(found_long);
     found_short := (match f with FShort => true | _ => false end) || d.(found_short);
     found_unsigned := (match f with FUnsigned => true | _ => false end) || d.(found_unsigned);
     found_signed := (match f with FSigned => true | _ => false end) || d.(found_signed);
     found_struct := (match f with FStruct => true | _ => false end) || d.(found_struct);
     found_data_loc := (match f with FDataLoc => true | _ => false end) || d.(found_data_loc);
     found_rel_loc := (match f with FRelLoc => true | _ => false end) || d.(found_rel_loc);
     found_array := (match f with FArray => true | _ => false end) || d.(found_array);
     found_pointer := (match f with FPointer => true | _ => false end) || d.(found_pointer);
     base_type_range := d.(base_type_range); name_range := d.(name_range);
     array_count := d.(array_count) |}.
(** [base_type_range = name_range; name_range = tokenizer.value_range.clone();] *)
Definition push_name (r : Z * Z) (d : Declaration) : Declaration :=
  {| found_long_long := d.(found_long_long); found_long := d.(found_long); found_short := d.(found_short);
     found_unsigned := d.(found_unsigned); found_signed := d.(found_signed);
     found_struct := d.(found_struct); found_data_loc := d.(found_data_loc);
     found_rel_loc := d.(found_rel_loc); found_array := d.(found_array);
     found_pointer := d.(found_pointer); base_type_range := d.(name_range); name_range := r;
     array_count := d.(array_count) |}.
Definition set_array_count (n : Z) (d : Declaration) : Declaration :=
  {| found_long_long := d.(found_long_long); found_long := d.(found_long); found_short := d.(found_short);
     found_unsigned := d.(found_unsigned); found_signed := d.(found_signed);
     found_struct := d.(found_struct); found_data_loc := d.(found_data_loc);
     found_rel_loc := d.(found_rel_loc); found_array := d.(found_array);
     found_pointer := d.(found_pointer); base_type_range := d.(base_type_range);
     name_range := d.(name_range); array_count := n |}.

(** The word of an identifier token. *)
(* perf_field_format.rs:147-182: PerfFieldFormat::new, identifiers *)
Definition ident_token (token_value : bytes) (range : Z * Z) (d : Declaration) : Declaration :=
  if str_is token_value "long" then set_flag FLong d
  else if str_is token_value "short" then set_flag FShort d
  else if str_is token_value "unsigned" then set_flag FUnsigned d
  else if str_is token_value "signed" then set_flag FSigned d
  else if str_is token_value "struct" then set_flag FStruct d
  else if str_is token_value "__data_loc" then set_flag FDataLoc d
  else if str_is token_value "__rel_loc" then set_flag FRelLoc d
  else if negb (str_is token_value "__attribute__") && negb (str_is token_value "const")
          && negb (str_is token_value "volatile")
  then push_name range d else d.

(** Every token but the last one consumes a byte, so [len field + 1] turns are enough. *)
(* perf_field_format.rs:139-206: PerfFieldFormat::new, token loop *)
Fixpoint declaration_loop (fuel : nat) (t : Tokenizer) (d : Declaration) : outcome Declaration :=
  match fuel with
  | O => Panic
  | S fuel =>
    t ← Tokenizer_move_next t;
    token_value ← str_slice t.(tk_input) t.(value_start) t.(value_end);
    match t.(kind) with
    | TokNone => Ret d
    | Ident => declaration_loop fuel t (ident_token token_value (t.(value_start), t.(value_end)) d)
    | Brackets =>
      let d := set_flag FArray d in
      digits ← slice_from token_value 1;
      n ← ascii_to_u32 digits;
      let d := set_array_count (as_unsigned 16 (default 0 n)) d in
      t ← Tokenizer_move_next t;
      Ret (if bool_decide (t.(kind) = Ident) then push_name (t.(value_start), t.(value_end)) d else d)
    | Parentheses | TString => declaration_loop fuel t d
    | Punctuation =>
      declaration_loop fuel t (if str_is token_value "*" then set_flag FPointer d else d)
    end
  end.
Definition parse_declaration (field : bytes) : outcome Declaration :=
  declaration_loop (S (length field)) (Tokenizer_new field) no_declaration.

(** The type that the declaration names: its encoding and its format. *)
(* perf_field_format.rs:213-287: PerfFieldFormat::new, specified type *)
Definition specified_type (long_is_64_bits : bool) (base_type : bytes) (d : Declaration) : Z * Z :=
  let one_of l := existsb (str_is base_type) l in
  if d.(found_pointer) then
    (if long_is_64_bits then FieldEncoding_Value64 else FieldEncoding_Value32, FieldFormat_HexInt)
  else if d.(found_struct) then (FieldEncoding_Struct, FieldFormat_HexBytes)
  else if (len base_type =? 0) || str_is base_type "int" then
    let format := if d.(found_unsigned) then FieldFormat_UnsignedInt else FieldFormat_SignedInt in
    if d.(found_long_long) then (FieldEncoding_Value64, format)
    else if d.(found_long) then
      (if long_is_64_bits then FieldEncoding_Value64 else FieldEncoding_Value32,
       if d.(found_unsigned) then FieldFormat_HexInt else format)
    else if d.(found_short) then (FieldEncoding_Value16, format)
    else (FieldEncoding_Value32, format)
  else if str_is base_type "char" then
    (FieldEncoding_Value8,
     if d.(found_unsigned) then FieldFormat_UnsignedInt
     else if d.(found_signed) then FieldFormat_SignedInt else FieldFormat_String8)
  else if one_of ["u8"; "__u8"; "uint8_t"]%string then (FieldEncoding_Value8, FieldFormat_UnsignedInt)
  else if one_of ["s8"; "__s8"; "int8_t"]%string then (FieldEncoding_Value8, FieldFormat_SignedInt)
  else if one_of ["u16"; "__u16"; "uint16_t"]%string then (FieldEncoding_Value16, FieldFormat_UnsignedInt)
  else if one_of ["s16"; "__s16"; "int16_t"]%string then (FieldEncoding_Value16, FieldFormat_SignedInt)
  else if one_of ["u32"; "__u32"; "uint32_t"]%string then (FieldEncoding_Value32, FieldFormat_UnsignedInt)
  else if one_of ["s32"; "__s32"; "int32_t"]%string then (FieldEncoding_Value32, FieldFormat_SignedInt)
  else if one_of ["u64"; "__u64"; "uint64_t"]%string then (FieldEncoding_Value64, FieldFormat_UnsignedInt)
  else if one_of ["s64"; "__s64"; "int64_t"]%string then (FieldEncoding_Value64, FieldFormat_SignedInt)
  else (FieldEncoding_Invalid, FieldFormat_HexInt).

(* perf_field_format.rs:289-305: PerfFieldFormat::new, array *)
Definition declared_array (size : Z) (d : Declaration) : PerfFieldArray :=
  if size =? 0 then RestOfEvent
  else if (size =? 2) && d.(found_rel_loc) then RelLoc2
  else if (size =? 2) && d.(found_data_loc) then DataLoc2
  else if (size =? 4) && d.(found_rel_loc) then RelLoc4
  else if (size =? 4) && d.(found_data_loc) then DataLoc4
  else if d.(found_array) then Fixed
  else ArrNone.

(* perf_field_format.rs:307-321: PerfFieldFormat::new, deduced_format *)
Definition apply_signed (specified_format : Z) (signed : option bool) : Z :=
  if (specified_format =? FieldFormat_UnsignedInt) || (specified_format =? FieldFormat_SignedInt) then
    match signed with
    | None => specified_format
    | Some false => FieldFormat_UnsignedInt
    | Some true => FieldFormat_SignedInt
    end
  else specified_format.

(** What is deduced: encoding, format, number of elements and size shift. *)
Record Deduced := { d_encoding : Z; d_format : Z; d_count : Z; d_shift : Z }.

(* perf_field_format.rs: PerfFieldFormat::set_hex_dump *)
Definition hex_dump : Deduced :=
  {| d_encoding := FieldEncoding_StringLength16Char8; d_format := FieldFormat_HexBytes;
     d_count := 1; d_shift := 255 |}.

(** The encoding and shift of an element of 1, 2, 4 or 8 bytes. *)
Definition sized_value (size : Z) : option (Z * Z) :=
  if size =? 1 then Some (FieldEncoding_Value8, 0)
  else if size =? 2 then Some (FieldEncoding_Value16, 1)
  else if size =? 4 then Some (FieldEncoding_Value32, 2)
  else if size =? 8 then Some (FieldEncoding_Value64, 3)
  else None.
(** The shift and the size of the specified encoding. *)
Definition value_shift (enc : Z) : option (Z * Z) :=
  if enc =? FieldEncoding_Value8 then Some (0, 1)
  else if enc =? FieldEncoding_Value16 then Some (1, 2)
  else if enc =? FieldEncoding_Value32 then Some (2, 4)
  else if enc =? FieldEncoding_Value64 then Some (3, 8)
  else None.

(* perf_field_format.rs:343-484: PerfFieldFormat::new, integers *)
Definition deduce_value (size count specified_enc format : Z) (array : PerfFieldArray) : outcome Deduced :=
  match array with
  | ArrNone =>
    match sized_value size with
    | Some (enc, shift) => Ret {| d_encoding := enc; d_format := format; d_count := 1; d_shift := shift |}
    | None => Ret hex_dump
    end
  | Fixed =>
    if count =? 0 then
      match value_shift specified_enc with
      | Some (shift, element) =>
        if negb (size mod element =? 0) then Ret hex_dump
        else Ret {| d_encoding := FieldEncoding_with_flags specified_enc FieldEncoding_CArrayFlag;
                    d_format := format; d_count := size / element; d_shift := shift |}
      | None => _ ← rassert (specified_enc =? FieldEncoding_Invalid); Ret hex_dump
      end
    else if negb (size mod count =? 0) then Ret hex_dump
    else
      match sized_value (size / count) with
      | Some (enc, shift) =>
        Ret {| d_encoding := FieldEncoding_with_flags enc FieldEncoding_CArrayFlag;
               d_format := format; d_count := count; d_shift := shift |}
      | None => Ret hex_dump
      end
  | _ =>
    match value_shift specified_enc with
    | Some (shift, _) =>
      Ret {| d_encoding := FieldEncoding_with_flags specified_enc FieldEncoding_VArrayFlag;
             d_format := format; d_count := 0; d_shift := shift |}
    | None => _ ← rassert (specified_enc =? FieldEncoding_Invalid); Ret hex_dump
    end
  end.

(* perf_field_format.rs:307-484: PerfFieldFormat::new, deduction *)
Definition deduce (size count specified_enc specified_fmt : Z) (signed : option bool)
    (array : PerfFieldArray) : outcome Deduced :=
  let format := apply_signed specified_fmt signed in
  if specified_fmt =? FieldFormat_String8 then
    _ ← rassert (specified_enc =? FieldEncoding_Value8);
    Ret {| d_encoding := if size =? 1 then FieldEncoding_Value8 else FieldEncoding_ZStringChar8;
           d_format := format; d_count := 1; d_shift := if size =? 1 then 0 else 255 |}
  else if specified_fmt =? FieldFormat_HexBytes then
    _ ← rassert (specified_enc =? FieldEncoding_Struct);
    Ret {| d_encoding := if size =? 1 then FieldEncoding_Value8 else FieldEncoding_StringLength16Char8;
           d_format := format; d_count := 1; d_shift := 255 |}
  else deduce_value size count specified_enc format array.

(** The assertions at the end of [new]; [size == count * SIZEOF] is a [u16] product. *)
(* perf_field_format.rs:486-572: PerfFieldFormat::new, debug asserts *)
Definition deduced_asserts (field : bytes) (size : Z) (d : Deduced) : outcome unit :=
  _ ← rassert (negb (len field =? 0));
  let value := FieldEncoding_without_flags d.(d_encoding) in
  let flags := Z.land d.(d_encoding) FieldEncoding_FlagMask in
  _ ← (match value_shift value with
       | Some (shift, element) =>
         _ ← (if negb (d.(d_count) =? 0)
              then p ← u16 (d.(d_count) * element); rassert (size =? p) else Ret tt);
         rassert (d.(d_shift) =? shift)
       | None =>
         if value =? FieldEncoding_StringLength16Char8 then
           rassert ((d.(d_count) =? 1) && (flags =? 0) && (d.(d_format) =? FieldFormat_HexBytes) && (d.(d_shift) =? 255))
         else if value =? FieldEncoding_ZStringChar8 then
           rassert ((d.(d_count) =? 1) && (flags =? 0) && (d.(d_format) =? FieldFormat_String8) && (d.(d_shift) =? 255))
         else Panic
       end);
  _ ← (if flags =? 0 then rassert (d.(d_count) =? 1)
       else if flags =? FieldEncoding_VArrayFlag then rassert (d.(d_count) =? 0)
       else if flags =? FieldEncoding_CArrayFlag then rassert (1 <=? d.(d_count))
       else Panic);
  if (d.(d_format) =? FieldFormat_UnsignedInt) || (d.(d_format) =? FieldFormat_SignedInt)
     || (d.(d_format) =? FieldFormat_HexInt)
  then rassert ((FieldEncoding_Value8 <=? value) && (value <=? FieldEncoding_Value64))
  else if d.(d_format) =? FieldFormat_HexBytes then rassert (value =? FieldEncoding_StringLength16Char8)
  else if d.(d_format) =? FieldFormat_String8
  then rassert ((value =? FieldEncoding_Value8) || (value =? FieldEncoding_ZStringChar8))
  else Panic.

(* perf_field_format.rs: PerfFieldFormat::new *)
Definition PerfFieldFormat_new (long_is_64_bits : bool) (field : bytes) (offset size : Z)
    (signed : option bool) : outcome PerfFieldFormat :=
  d ← parse_declaration field;
  base_type ← str_slice field (fst d.(base_type_range)) (snd d.(base_type_range));
  let '(enc, fmt) := specified_type long_is_64_bits base_type d in
  let array := declared_array size d in
  r ← deduce size d.(array_count) enc fmt signed array;
  _ ← deduced_asserts field size r;
  Ret {| ff_field := field; name_start := fst d.(name_range); name_end := snd d.(name_range);
         ff_offset := offset; ff_size := size; ff_signed := signed;
         specified_array_count := d.(array_count); deduced_array_count := r.(d_count);
         specified_encoding := enc; deduced_encoding := r.(d_encoding);
         specified_format := fmt; deduced_format := r.(d_format);
         ff_array := array; element_size_shift := r.(d_shift) |}.

(** ** Lines of a format file *)

(** The properties found so far. *)
Record Properties := {
  p_field : bytes;
  p_offset : option Z;
  p_size : option Z;
  p_signed : option bool;
}.

(** One turn per property: each consumes at least the colon. *)
(* perf_field_format.rs:601-645: PerfFieldFormat::parse, loop *)
Fixpoint parse_loop (fuel : nat) (line : bytes) (format_pos : Z) (p : Properties) : outcome Properties :=
  match fuel with
  | O => Panic
  | S fuel =>
    if negb (format_pos <? len line) then Ret p
    else
      let format_pos := skip_from is_space_or_tab_or_semicolon line format_pos in
      if len line <=? format_pos then Ret p
      else
        let name_pos := format_pos in
        let format_pos := skip_from (fun b => negb (b =? 58)) line format_pos in
        if len line <=? format_pos then Ret p
        else
          name ← str_slice line name_pos format_pos;
          let format_pos := format_pos + 1 in
          let format_pos := skip_from is_space_or_tab line format_pos in
          let value_pos := format_pos in
          let format_pos := skip_from (fun b => negb (b =? 59)) line format_pos in
          value ← str_slice line value_pos format_pos;
          let ended := format_pos <? len line in
          p ← (if str_is name "field" || str_is name "field special" then
                 Ret {| p_field := value; p_offset := p.(p_offset); p_size := p.(p_size); p_signed := p.(p_signed) |}
               else if str_is name "offset" && ended then
                 n ← ascii_to_u32 value;
                 Ret {| p_field := p.(p_field); p_offset := as_unsigned 16 <$> n; p_size := p.(p_size);
                        p_signed := p.(p_signed) |}
               else if str_is name "size" && ended then
                 n ← ascii_to_u32 value;
                 Ret {| p_field := p.(p_field); p_offset := p.(p_offset); p_size := as_unsigned 16 <$> n;
                        p_signed := p.(p_signed) |}
               else if str_is name "signed" && ended then
                 n ← ascii_to_u32 value;
                 Ret {| p_field := p.(p_field); p_offset := p.(p_offset); p_size := p.(p_size);
                        p_signed := (fun v => negb (v =? 0)) <$> n |}
               else Ret p);
          parse_loop fuel line format_pos p
  end.

(* perf_field_format.rs: PerfFieldFormat::parse *)
Definition PerfFieldFormat_parse (long_is_64_bits : bool) (format_line : bytes)
    : outcome (option PerfFieldFormat) :=
  p ← parse_loop (S (length format_line)) format_line 0
        {| p_field := []; p_offset := None; p_size := None; p_signed := None |};
  match p.(p_offset), p.(p_size) with
  | Some offset, Some size =>
    if negb (len p.(p_field) =? 0) then
      f ← PerfFieldFormat_new long_is_64_bits p.(p_field) offset size p.(p_signed); Ret (Some f)
    else Ret None
  | _, _ => Ret None
  end.

(* perf_field_format.rs: PerfFieldFormat::name *)
Definition ff_name (f : PerfFieldFormat) : outcome bytes :=
  if f.(name_end) <=? f.(name_start) then Ret (str_bytes "noname")
  else str_slice f.(ff_field) f.(name_start) f.(name_end).
(* perf_field_format.rs: PerfFieldFormat::element_size *)
Definition element_size (f : PerfFieldFormat) : Z :=
  as_unsigned 8 (as_unsigned 32 (Z.shiftl 1 (Z.land f.(element_size_shift) 0x1F))).

(** ** The data of a field *)

(* perf_field_format.rs: fn until_first_nul *)
Definition until_first_nul (bytes : bytes) : outcome Prelude.bytes :=
  slice bytes 0 (skip_from (fun b => negb (b =? 0)) bytes 0).

(** [dyn_offset] of the two-byte references, and the pair of the four-byte ones. *)
Definition dyn_offset2 (f : PerfFieldFormat) (raw : bytes) (r : PerfByteReader) : outcome Z :=
  let raw_begin := f.(ff_offset) in
  raw_end ← usize (raw_begin + f.(ff_size));
  src ← slice_from raw raw_begin;
  v ← read_u16 r src;
  usize (v + if bool_decide (f.(ff_array) = RelLoc2) then raw_end else 0).
Definition dyn_range4 (f : PerfFieldFormat) (raw : bytes) (r : PerfByteReader) : outcome (Z * Z) :=
  let raw_begin := f.(ff_offset) in
  raw_end ← usize (raw_begin + f.(ff_size));
  src ← slice_from raw raw_begin;
  dyn32 ← read_u32 r src;
  let dyn_size := Z.shiftr dyn32 16 in
  dyn_offset ← usize (Z.land dyn32 0xFFFF + if bool_decide (f.(ff_array) = RelLoc2) then raw_end else 0);
  Ret (dyn_offset, dyn_size).

(* perf_field_format.rs: PerfFieldFormat::get_field_bytes *)
Definition get_field_bytes (f : PerfFieldFormat) (event_raw_data : bytes) (r : PerfByteReader)
    : outcome (option bytes) :=
  let raw_begin := f.(ff_offset) in
  raw_end ← usize (raw_begin + f.(ff_size));
  if (raw_begin <=? raw_end) && (raw_end <=? len event_raw_data) then
    match f.(ff_array) with
    | ArrNone | Fixed => b ← slice event_raw_data raw_begin raw_end; Ret (Some b)
    | RestOfEvent => b ← slice_from event_raw_data raw_begin; Ret (Some b)
    | DataLoc2 | RelLoc2 =>
      dyn_offset ← dyn_offset2 f event_raw_data r;
      if dyn_offset <=? len event_raw_data then
        b ← slice_from event_raw_data dyn_offset;
        b ← until_first_nul b;
        Ret (Some b)
      else Ret None
    | DataLoc4 | RelLoc4 =>
      '(dyn_offset, dyn_size) ← dyn_range4 f event_raw_data r;
      dyn_end ← usize (dyn_offset + dyn_size);
      if dyn_end <=? len event_raw_data then
        b ← slice event_raw_data dyn_offset dyn_end; Ret (Some b)
      else Ret None
    end
  else Ret None.

(** What the loop that stands for a goto finds: a value of fixed size, the bytes of a
    value of variable size and whether they end at a NUL, or nothing. *)
Inductive FieldData := FixedSize (b : bytes) | VariableSize (b : bytes) (check_str_len : bool) | OutOfBounds.

(* perf_field_format.rs:868-933: PerfFieldFormat::get_field_value_with_data_and_reader, loop *)
Definition find_field_data (f : PerfFieldFormat) (event_raw_data : bytes) (r : PerfByteReader)
    : outcome FieldData :=
  let check_str_len := f.(deduced_encoding) =? FieldEncoding_ZStringChar8 in
  let raw_begin := f.(ff_offset) in
  raw_end ← usize (raw_begin + f.(ff_size));
  if (raw_begin <=? raw_end) && (raw_end <=? len event_raw_data) then
    match f.(ff_array) with
    | ArrNone | Fixed =>
      b ← slice event_raw_data raw_begin raw_end;
      b ← (if check_str_len then until_first_nul b else Ret b);
      Ret (FixedSize b)
    | RestOfEvent => b ← slice_from event_raw_data raw_begin; Ret (VariableSize b check_str_len)
    | DataLoc2 | RelLoc2 =>
      dyn_offset ← dyn_offset2 f event_raw_data r;
      if dyn_offset <=? len event_raw_data then
        b ← slice_from event_raw_data dyn_offset;
        b ← until_first_nul b;
        Ret (VariableSize b true)
      else Ret OutOfBounds
    | DataLoc4 | RelLoc4 =>
      '(dyn_offset, dyn_size) ← dyn_range4 f event_raw_data r;
      dyn_end ← usize (dyn_offset + dyn_size);
      if dyn_end <=? len event_raw_data then
        b ← slice event_raw_data dyn_offset dyn_end; Ret (VariableSize b check_str_len)
      else Ret OutOfBounds
    end
  else Ret OutOfBounds.

(** The item of the field's type with the given bytes and number of elements. *)
Definition field_item (f : PerfFieldFormat) (r : PerfByteReader) (b : bytes) (count : Z) : outcome PerfItemValue :=
  m ← PerfItemMetadata_new r f.(deduced_encoding) f.(deduced_format)
        (negb (FieldEncoding_is_array f.(deduced_encoding))) (element_size f) count 0;
  PerfItemValue_new b m.

(* perf_field_format.rs: PerfFieldFormat::get_field_value_with_data_and_reader *)
Definition get_field_value_with_data_and_reader (f : PerfFieldFormat) (event_raw_data : bytes)
    (r : PerfByteReader) : outcome PerfItemValue :=
  data ← find_field_data f event_raw_data r;
  match data with
  | FixedSize b => field_item f r b f.(deduced_array_count)
  | OutOfBounds => PerfItemValue_new [] PerfItemMetadata_null
  | VariableSize b check_str_len =>
    b ← (if check_str_len then until_first_nul b else Ret b);
    mask ← usize (element_size f - 1);
    b ← (if negb (Z.land (len b) mask =? 0) then slice b 0 (Z.land (len b) (2 ^ 64 - 1 - mask)) else Ret b);
    let array_count :=
      if negb (f.(deduced_array_count) =? 0) then f.(deduced_array_count)
      else as_unsigned 16 (Z.shiftr (len b) f.(element_size_shift)) in
    field_item f r b array_count
  end.
