(* ===== verification/FieldFormatProps.v ===== *)
(** * FieldFormatProps: what the format parser deduces and what it finds in an event *)

From S2P Require Import Prelude Strings Types ByteReader PerfItem FieldFormat.

(** ** The tokenizer *)

Lemma consume_string_bounds rest pos quote : pos <= consume_string rest pos quote <= pos + len rest.
Proof.
  remember (length rest) as n eqn:Hn. revert rest pos Hn. induction n as [n IH] using lt_wf_ind.
  intros [|c rest] pos Hn; cbn [consume_string]; [change (len (@nil Z)) with 0; lia|].
  rewrite len_cons. pose proof (len_nonneg rest). cbn [length] in Hn.
  destruct (c =? quote); [lia|]. destruct (c =? 92).
  - destruct rest as [|c' rest]; [change (len (@nil Z)) with 0; lia|]. cbn [length] in Hn.
    pose proof (IH (length rest) ltac:(lia) rest (pos + 1 + 1) eq_refl). rewrite len_cons. lia.
  - pose proof (IH (length rest) ltac:(lia) rest (pos + 1) eq_refl). lia.
Qed.
Lemma consume_braced_bounds rest pos opening closing depth :
  0 < depth -> depth + len rest < 2 ^ 31 ->
  exists p, consume_braced rest pos opening closing depth = Ret p /\ pos <= p <= pos + len rest.
Proof.
  revert pos depth. induction rest as [|c rest IH]; intros pos depth Hd Hlen; cbn [consume_braced].
  { exists pos. change (len (@nil Z)) with 0. split; [done | lia]. }
  rewrite len_cons in *. pose proof (len_nonneg rest).
  assert (Hc : forall z, 0 <= z < 2 ^ 31 -> checked_signed 32 z = Ret z).
  { intros z Hz. unfold checked_signed, fits_signed. change (32 - 1) with 31.
    by rewrite (proj2 (Z.leb_le _ _)), (proj2 (Z.ltb_lt _ _)) by lia. }
  destruct (c =? closing).
  - rewrite Hc by lia. cbn [mbind outcome_bind]. destruct (Z.eqb_spec (depth - 1) 0); [exists (pos + 1); split; [done | lia]|].
    destruct (IH (pos + 1) (depth - 1)) as (p & -> & Hp); [lia | lia |]. exists p. split; [done | lia].
  - destruct (c =? opening).
    + rewrite Hc by lia. cbn [mbind outcome_bind].
      destruct (IH (pos + 1) (depth + 1)) as (p & -> & Hp); [lia | lia |]. exists p. split; [done | lia].
    + destruct (IH (pos + 1) depth) as (p & -> & Hp); [lia | lia |]. exists p. split; [done | lia].
Qed.

(** A token lies after the ones before it, and every token but the last is not empty. *)
Definition token_in (t : Tokenizer) : Prop :=
  0 <= t.(value_start) <= t.(value_end) /\ t.(value_end) = t.(input_pos) /\ t.(input_pos) <= len t.(tk_input).
Lemma move_next_token t : 0 <= t.(input_pos) <= len t.(tk_input) -> len t.(tk_input) < 2 ^ 31 ->
  exists t', Tokenizer_move_next t = Ret t' /\ t'.(tk_input) = t.(tk_input) /\ token_in t' /\
    t.(input_pos) <= t'.(value_start) /\ (t'.(kind) <> TokNone -> t'.(value_start) < t'.(value_end)).
Proof.
  intros Hp Hlen. unfold Tokenizer_move_next. set (l := t.(tk_input)) in *.
  pose proof (skip_from_bounds (fun b => b <=? 32) l t.(input_pos) Hp) as Hs.
  set (pos := skip_from _ l t.(input_pos)) in *. clearbody pos. unfold token_in.
  destruct (Z.eqb_spec pos (len l)).
  { eexists. split; [reflexivity|]. cbn. split_and!; try lia; done. }
  rewrite index_byte_at by lia. cbn [mbind outcome_bind].
  assert (Hfrom : len (from l (pos + 1)) = len l - (pos + 1)) by (apply len_from; lia).
  assert (Fin : forall k p, pos + 1 <= p <= len l ->
    exists t', Ret {| tk_input := l; input_pos := p; kind := k; value_start := pos; value_end := p |} = Ret t' /\
      tk_input t' = l /\ (0 <= value_start t' <= value_end t' /\ value_end t' = input_pos t' /\ input_pos t' <= len (tk_input t')) /\
      input_pos t <= value_start t' /\ (kind t' <> TokNone -> value_start t' < value_end t')).
  { intros k p Hpp. eexists. split; [reflexivity|]. cbn. split_and!; try lia; done. }
  destruct (is_ident_start _). { apply Fin. apply skip_from_bounds. lia. }
  destruct ((_ =? 39) || _).
  { apply Fin. pose proof (consume_string_bounds (from l (pos + 1)) (pos + 1) (byte_at l pos)). lia. }
  assert (Br : forall o c, exists p, consume_braced (from l (pos + 1)) (pos + 1) o c 1 = Ret p /\ pos + 1 <= p <= len l).
  { intros o c. destruct (consume_braced_bounds (from l (pos + 1)) (pos + 1) o c 1) as (p & E & Hb); [lia | lia |].
    exists p. split; [done | lia]. }
  destruct (_ =? 40). { destruct (Br 40 41) as (p & -> & Hb). by apply Fin. }
  destruct (_ =? 91). { destruct (Br 91 93) as (p & -> & Hb). by apply Fin. }
  apply Fin. lia.
Qed.

(** ** Numbers *)

(** No run of digits in the text overflows a [u32]. *)
Definition numbers_fit (l : bytes) : Prop := forall k, is_ret (ascii_to_u32 (drop k l)) = true.
Definition numbers_fitb (l : bytes) : bool :=
  forallb (fun k => is_ret (ascii_to_u32 (drop k l))) (seq 0 (S (length l))).

Lemma numbers_fit_decide l : numbers_fitb l = true -> numbers_fit l.
Proof.
  intros H k. unfold numbers_fitb in H. rewrite forallb_forall in H.
  destruct (Nat.le_gt_cases k (length l)) as [Hk | Hk].
  - apply H. apply in_seq. lia.
  - replace (drop k l) with (drop (length l) l) by (rewrite !drop_ge; (done || lia)).
    apply H. apply in_seq. lia.
Qed.
Lemma digits_loop_prefix radix l m any v :
  is_ret (digits_loop radix (l ++ m) any v) = true -> is_ret (digits_loop radix l any v) = true.
Proof.
  revert any v. induction l as [|c l IH]; intros any v; [done|]. cbn [app digits_loop].
  destruct (to_digit radix c) as [d|]; [|done].
  destruct (checked 32 (v * radix)) as [v1|]; [|done]. cbn [mbind outcome_bind].
  destruct (checked 32 (v1 + d)) as [v2|]; [|done]. cbn [mbind outcome_bind]. apply IH.
Qed.
Lemma to_digit_bound radix c d : to_digit radix c = Some d -> 0 <= d < 16 /\ (radix = 10 -> d < 10).
Proof.
  unfold to_digit, is_ascii_digit.
  destruct ((48 <=? c) && (c <=? 57)) eqn:E1; [intros [= <-]; bool_hyps; lia|].
  destruct (Z.eqb_spec radix 16); cbn [andb]; [|done].
  destruct ((97 <=? c) && (c <=? 102)) eqn:E2; [intros [= <-]; bool_hyps; lia|].
  destruct ((65 <=? c) && (c <=? 70)) eqn:E3; [intros [= <-]; bool_hyps; lia | done].
Qed.
Lemma digits_loop_step c l any v d : to_digit 10 c = Some d -> 0 <= v -> v * 10 + d < 2 ^ 32 ->
  digits_loop 10 (c :: l) any v = digits_loop 10 l true (v * 10 + d).
Proof.
  intros Ed Hv Hb. cbn [digits_loop]. rewrite Ed. pose proof (to_digit_bound 10 c d Ed) as [Hd Hd10].
  rewrite checked_ok by lia. cbn [mbind outcome_bind]. rewrite checked_ok by lia. done.
Qed.
Lemma digits_short l any : (length l <= 2)%nat -> is_ret (digits_loop 10 l any 0) = true.
Proof.
  intros Hl. destruct l as [|a l]; [done|]. destruct (to_digit 10 a) as [d|] eqn:Ed.
  2: { cbn [digits_loop]. by rewrite Ed. }
  pose proof (to_digit_bound 10 a d Ed) as [H1 H2]. rewrite (digits_loop_step a l any 0 d) by (done || lia).
  destruct l as [|b l]; [done|]. destruct (to_digit 10 b) as [e|] eqn:Ee.
  2: { cbn [digits_loop]. by rewrite Ee. }
  pose proof (to_digit_bound 10 b e Ee) as [H3 H4].
  rewrite (digits_loop_step b l _ _ e) by (done || lia). destruct l; [done | cbn in Hl; lia].
Qed.
Lemma skip_bytes_app p l m pos :
  skip_bytes p l pos < pos + len l -> skip_bytes p (l ++ m) pos = skip_bytes p l pos.
Proof.
  revert pos. induction l as [|c l IH]; intros pos; cbn [skip_bytes app].
  - change (len (@nil Z)) with 0. lia.
  - rewrite len_cons. destruct (p c); [|done]. intros H. apply IH. lia.
Qed.
Lemma byte_at_app_l (l m : bytes) i : 0 <= i < len l -> byte_at (l ++ m) i = byte_at l i.
Proof. intros H. unfold byte_at, len in *. rewrite app_nth1 by lia. done. Qed.
Lemma from_app_l (l m : bytes) i : 0 <= i <= len l -> from (l ++ m) i = from l i ++ m.
Proof. intros H. unfold from, len in *. rewrite drop_app_le by lia. done. Qed.

Lemma ascii_to_u32_prefix l m : is_ret (ascii_to_u32 (l ++ m)) = true -> is_ret (ascii_to_u32 l) = true.
Proof.
  intros H. unfold ascii_to_u32 in *. pose proof (len_nonneg m) as Hm.
  pose proof (skip_from_bounds is_space_or_tab l 0 ltac:(pose proof (len_nonneg l); lia)) as Hs.
  destruct (Z.eq_dec (skip_from is_space_or_tab l 0) (len l)) as [E | Hne].
  { rewrite E, Z.sub_diag. cbn [Z.ltb Z.compare andb]. unfold from, len. rewrite Nat2Z.id, drop_all. done. }
  assert (E : skip_from is_space_or_tab (l ++ m) 0 = skip_from is_space_or_tab l 0).
  { unfold skip_from in *. change (from l 0) with l in *. apply (skip_bytes_app _ l m 0). lia. }
  rewrite E in H. set (pos := skip_from is_space_or_tab l 0) in *. clearbody pos.
  rewrite len_app in H. destruct (Z.ltb_spec 2 (len l - pos)) as [Hlong | Hshort].
  - rewrite (proj2 (Z.ltb_lt 2 (len l + len m - pos))) in H by lia.
    rewrite !byte_at_app_l, !from_app_l in H by lia. cbn [andb] in *.
    destruct (_ && _); by apply digits_loop_prefix in H.
  - cbn [andb]. apply digits_short. unfold from. rewrite length_drop. unfold len in *. lia.
Qed.
Lemma numbers_fit_slice l a b : numbers_fit l -> 0 <= a -> is_ret (ascii_to_u32 (sub l a b)) = true.
Proof.
  intros H Ha. unfold sub. specialize (H (Z.to_nat a)).
  rewrite <- (take_drop (Z.to_nat (b - a)) (drop (Z.to_nat a) l)) in H. by apply ascii_to_u32_prefix in H.
Qed.

(** ** The declaration parser *)

(** What is known of the ranges: they lie in the field. *)
Definition ranges_in (l : bytes) (d : Declaration) : Prop :=
  (0 <= fst d.(base_type_range) <= snd d.(base_type_range) /\ snd d.(base_type_range) <= len l) /\
  (0 <= fst d.(name_range) <= snd d.(name_range) /\ snd d.(name_range) <= len l) /\
  0 <= d.(array_count) < 2 ^ 16.
Lemma ranges_flag l f d : ranges_in l d -> ranges_in l (set_flag f d).
Proof. done. Qed.
Lemma ranges_push l a b d : 0 <= a <= b -> b <= len l -> ranges_in l d -> ranges_in l (push_name (a, b) d).
Proof. unfold ranges_in. cbn. tauto. Qed.
Lemma ranges_count l n d : 0 <= n < 2 ^ 16 -> ranges_in l d -> ranges_in l (set_array_count n d).
Proof. unfold ranges_in. cbn. tauto. Qed.
Lemma ranges_ident l v a b d : 0 <= a <= b -> b <= len l -> ranges_in l d -> ranges_in l (ident_token v (a, b) d).
Proof.
  intros Ha Hb Hd. unfold ident_token.
  repeat match goal with |- context [if ?c then _ else _] => destruct c end; try done; by apply ranges_push.
Qed.

Lemma declaration_loop_ok fuel t d :
  ascii t.(tk_input) -> numbers_fit t.(tk_input) -> len t.(tk_input) < 2 ^ 31 ->
  0 <= t.(input_pos) <= len t.(tk_input) -> len t.(tk_input) - t.(input_pos) < Z.of_nat fuel ->
  ranges_in t.(tk_input) d ->
  exists d', declaration_loop fuel t d = Ret d' /\ ranges_in t.(tk_input) d'.
Proof.
  revert t d. induction fuel as [|fuel IH]; intros t d Ha Hn Hlen Hp Hf Hd; [lia|].
  cbn [declaration_loop]. destruct (move_next_token t Hp Hlen) as (t' & -> & Et & Hin & Hst & Hne).
  cbn [mbind outcome_bind]. rewrite Et. destruct Hin as (Hv & He & Hi). rewrite Et in Hi.
  rewrite str_slice_ascii by (done || lia). cbn [mbind outcome_bind].
  assert (Next : forall d', kind t' <> TokNone -> ranges_in (tk_input t) d' ->
            exists d'', declaration_loop fuel t' d' = Ret d'' /\ ranges_in (tk_input t) d'').
  { intros d' Hk Hd'. specialize (Hne Hk). rewrite <- Et in *. apply IH; try done; lia. }
  destruct (kind t') eqn:Ek; try (apply Next; [done|]).
  - by exists d.
  - apply ranges_ident; try done; lia.
  - specialize (Hne ltac:(done)).
    unfold slice_from. set (tok := sub (tk_input t) (value_start t') (value_end t')).
    assert (Htok : len tok = value_end t' - value_start t') by (apply len_sub; lia).
    rewrite slice_ok by lia. cbn [mbind outcome_bind].
    assert (Hnum : is_ret (ascii_to_u32 (sub tok 1 (len tok))) = true).
    { rewrite sub_from_drop by lia. change (Z.to_nat 1) with 1%nat.
      unfold tok. unfold sub. rewrite skipn_firstn_comm, drop_drop.
      pose proof (numbers_fit_slice (tk_input t) (value_start t' + 1) (value_end t') Hn ltac:(lia)) as H.
      unfold sub in H. replace (Z.to_nat (value_start t') + 1)%nat with (Z.to_nat (value_start t' + 1)) by lia.
      by replace (Z.to_nat (value_end t' - value_start t') - 1)%nat
        with (Z.to_nat (value_end t' - (value_start t' + 1))) by lia. }
    destruct (ascii_to_u32 (sub tok 1 (len tok))) as [n|]; [|done]. cbn [mbind outcome_bind].
    destruct (move_next_token t') as (t2 & -> & Et2 & (Hv2 & He2 & Hi2) & Hst2 & _); [rewrite Et; lia | by rewrite Et|].
    cbn [mbind outcome_bind]. eexists. split; [reflexivity|]. rewrite Et2, Et in Hi2.
    assert (Hc : 0 <= as_unsigned 16 (default 0 n) < 2 ^ 16) by (apply as_unsigned_range; lia).
    destruct (bool_decide _); [apply ranges_push; try lia|]; by apply ranges_count.
  - done.
  - done.
  - by destruct (str_is _ _).
Qed.

Lemma parse_declaration_ok field : ascii field -> numbers_fit field -> len field < 2 ^ 31 ->
  exists d, parse_declaration field = Ret d /\ ranges_in field d.
Proof.
  intros Ha Hn Hlen. pose proof (len_nonneg field).
  apply (declaration_loop_ok (S (length field)) (Tokenizer_new field) no_declaration); cbn [tk_input input_pos Tokenizer_new];
    try done; unfold len in *; lia.
Qed.

(** ** What is deduced *)

(** An integer element: its encoding, shift and size. *)
Inductive int_kind : Z -> Z -> Z -> Prop :=
  | Kind8 : int_kind FieldEncoding_Value8 0 1
  | Kind16 : int_kind FieldEncoding_Value16 1 2
  | Kind32 : int_kind FieldEncoding_Value32 2 4
  | Kind64 : int_kind FieldEncoding_Value64 3 8.
Definition int_format (f : Z) : Prop :=
  f = FieldFormat_UnsignedInt \/ f = FieldFormat_SignedInt \/ f = FieldFormat_HexInt.

(** The three kinds of array flags with their counts. *)
Inductive shape (size element : Z) : Z -> Z -> Prop :=
  | ShapeScalar : size = element -> shape size element 0 1
  | ShapeFixed count : 1 <= count < 2 ^ 16 -> size = count * element ->
      shape size element FieldEncoding_CArrayFlag count
  | ShapeVariable : shape size element FieldEncoding_VArrayFlag 0.

(** The types a field can have. *)
Inductive deduced_ok (size : Z) : Deduced -> Prop :=
  | DeducedInt enc shift element flags count format :
      int_kind enc shift element -> shape size element flags count ->
      int_format format \/ (format = FieldFormat_String8 /\ enc = FieldEncoding_Value8 /\ flags = 0) ->
      deduced_ok size {| d_encoding := FieldEncoding_with_flags enc flags; d_format := format;
                         d_count := count; d_shift := shift |}
  | DeducedBlob : deduced_ok size hex_dump
  | DeducedString :
      deduced_ok size {| d_encoding := FieldEncoding_ZStringChar8; d_format := FieldFormat_String8;
                         d_count := 1; d_shift := 255 |}.

Lemma deduced_asserts_ok field size r : field <> [] -> 0 <= size < 2 ^ 16 -> deduced_ok size r ->
  deduced_asserts field size r = Ret tt.
Proof.
  intros Hf Hs Hr. unfold deduced_asserts.
  assert (E : (len field =? 0) = false).
  { destruct field as [|b l]; [done|]. rewrite len_cons. pose proof (len_nonneg l). apply Z.eqb_neq. lia. }
  rewrite E. cbn [rassert negb mbind outcome_bind].
  destruct Hr as [enc shift element flags count format Hk Hsh Hfmt | |]; [|reflexivity | reflexivity].
  assert (Hform : forall e, FieldEncoding_Value8 <= e <= FieldEncoding_Value64 ->
    (format = FieldFormat_String8 -> e = FieldEncoding_Value8) -> 
    (if (format =? FieldFormat_UnsignedInt) || (format =? FieldFormat_SignedInt) || (format =? FieldFormat_HexInt)
     then rassert ((FieldEncoding_Value8 <=? e) && (e <=? FieldEncoding_Value64))
     else if format =? FieldFormat_HexBytes then rassert (e =? FieldEncoding_StringLength16Char8)
     else if format =? FieldFormat_String8
     then rassert ((e =? FieldEncoding_Value8) || (e =? FieldEncoding_ZStringChar8)) else Panic) = Ret tt).
  { intros e He Hes. destruct Hfmt as [[-> | [-> | ->]] | (-> & _ & _)]; cbn [orb Z.eqb Pos.eqb FieldFormat_UnsignedInt
      FieldFormat_SignedInt FieldFormat_HexInt FieldFormat_String8 FieldFormat_HexBytes];
      try (by rewrite (proj2 (Z.leb_le _ _)), (proj2 (Z.leb_le _ _)) by lia). by rewrite Hes. }
  assert (Hval : FieldEncoding_without_flags (FieldEncoding_with_flags enc flags) = enc /\
                 Z.land (FieldEncoding_with_flags enc flags) FieldEncoding_FlagMask = flags /\
                 value_shift enc = Some (shift, element) /\ FieldEncoding_Value8 <= enc <= FieldEncoding_Value64 /\ 1 <= element)
    by (destruct Hk, Hsh; vm_compute; split_and!; congruence || done).
  cbn [d_encoding d_format d_count d_shift]. destruct Hval as (-> & -> & -> & Hrange & Hel).
  rewrite Z.eqb_refl. cbn [rassert]. rewrite (Hform enc Hrange) by (destruct Hfmt as [[-> | [-> | ->]] | (_ & -> & _)]; done || discriminate).
  destruct Hsh as [-> | count Hc -> |].
  - change (negb (1 =? 0)) with true. cbv iota. rewrite checked_ok by lia. cbn [mbind outcome_bind].
    rewrite Z.mul_1_l, !Z.eqb_refl. done.
  - rewrite (proj2 (Z.eqb_neq count 0)) by lia. cbn [negb]. rewrite checked_ok by lia. cbn [mbind outcome_bind].
    rewrite !Z.eqb_refl. cbn [rassert mbind outcome_bind Z.eqb Pos.eqb FieldEncoding_CArrayFlag FieldEncoding_VArrayFlag].
    by rewrite (proj2 (Z.leb_le 1 count)) by lia.
  - done.
Qed.

(** What the declaration can name. *)
Definition spec_ok (enc fmt : Z) : Prop :=
  (fmt = FieldFormat_String8 /\ enc = FieldEncoding_Value8) \/
  (fmt = FieldFormat_HexBytes /\ enc = FieldEncoding_Struct) \/
  (int_format fmt /\ ((exists shift element, int_kind enc shift element) \/ enc = FieldEncoding_Invalid)).

Lemma int_kinds : (exists s e, int_kind FieldEncoding_Value8 s e) /\ (exists s e, int_kind FieldEncoding_Value16 s e) /\
  (exists s e, int_kind FieldEncoding_Value32 s e) /\ (exists s e, int_kind FieldEncoding_Value64 s e).
Proof. split_and!; do 2 eexists; constructor. Qed.
Lemma specified_type_ok long64 base d enc fmt : specified_type long64 base d = (enc, fmt) -> spec_ok enc fmt.
Proof.
  destruct int_kinds as (K8 & K16 & K32 & K64).
  assert (U : int_format FieldFormat_UnsignedInt) by by left.
  assert (Sg : int_format FieldFormat_SignedInt) by by right; left.
  assert (X : int_format FieldFormat_HexInt) by by right; right.
  assert (I : forall e f, int_format f -> (exists s el, int_kind e s el) -> spec_ok e f)
    by (intros; right; right; split; [done | by left]).
  unfold specified_type. intros E.
  repeat (match type of E with (if ?c then _ else _) = _ => destruct c end);
    (injection E as <- <- || (revert E; cbv zeta; intros E));
    repeat match type of E with (if ?c then _ else _) = _ => destruct c end;
    try (injection E as <- <-);
    repeat match goal with |- context [if ?c then _ else _] => destruct c end;
    try (by apply I); try (by right; left); try (by left).
  right. right. split; [done | by right].
Qed.

Lemma value_shift_kind enc shift element : int_kind enc shift element -> value_shift enc = Some (shift, element).
Proof. by intros []. Qed.
Lemma sized_value_kind size enc shift : sized_value size = Some (enc, shift) -> int_kind enc shift size.
Proof.
  unfold sized_value. repeat (match goal with |- (if ?a =? ?b then _ else _) = _ -> _ =>
    destruct (Z.eqb_spec a b) as [-> | _]; [intros [= <- <-]; constructor|] end). done.
Qed.
Lemma with_no_flags enc : FieldEncoding_with_flags enc 0 = enc.
Proof. apply Z.lor_0_r. Qed.
Lemma apply_signed_int fmt signed : int_format fmt -> int_format (apply_signed fmt signed).
Proof.
  intros H. unfold apply_signed. destruct ((fmt =? _) || _); [|done].
  destruct signed as [[]|]; [by right; left | by left | done].
Qed.

Lemma deduce_value_ok size count enc fmt array :
  0 <= size < 2 ^ 16 -> 0 <= count < 2 ^ 16 -> (array = Fixed -> size <> 0) -> int_format fmt ->
  (exists shift element, int_kind enc shift element) \/ enc = FieldEncoding_Invalid ->
  exists r, deduce_value size count enc fmt array = Ret r /\ deduced_ok size r.
Proof.
  intros Hs Hc Ha Hf He.
  assert (Inv : enc = FieldEncoding_Invalid -> value_shift enc = None) by by intros ->.
  assert (Blob : exists r, Ret hex_dump = Ret r /\ deduced_ok size r) by (eexists; split; [reflexivity | constructor]).
  assert (Var : exists r, match value_shift enc with
      | Some (shift, _) => Ret {| d_encoding := FieldEncoding_with_flags enc FieldEncoding_VArrayFlag;
                                  d_format := fmt; d_count := 0; d_shift := shift |}
      | None => _ ← rassert (enc =? FieldEncoding_Invalid); Ret hex_dump
      end = Ret r /\ deduced_ok size r).
  { destruct He as [(shift & element & Hk) | ->]; [|exact Blob]. rewrite (value_shift_kind _ _ _ Hk).
    eexists. split; [reflexivity|]. eapply (DeducedInt size); [done | constructor | by left]. }
  destruct array; cbn [deduce_value]; try exact Var.
  - destruct (sized_value size) as [[e s]|] eqn:Es; [|exact Blob]. apply sized_value_kind in Es.
    eexists. split; [reflexivity|]. rewrite <- (with_no_flags e).
    eapply (DeducedInt size); [done | by constructor | by left].
  - specialize (Ha eq_refl). destruct (Z.eqb_spec count 0) as [-> | Hne].
    + destruct He as [(shift & element & Hk) | ->]; [|exact Blob]. rewrite (value_shift_kind _ _ _ Hk).
      destruct (Z.eqb_spec (size mod element) 0) as [Hm | _]; cbn [negb]; [|exact Blob].
      assert (Hel : 1 <= element) by (destruct Hk; lia).
      eexists. split; [reflexivity|]. eapply (DeducedInt size); [done | | by left].
      pose proof (Z.div_mod size element ltac:(lia)) as E. rewrite Hm in E.
      constructor; [|lia]. split; [|apply (Z.le_lt_trans _ size); [apply Z.div_le_upper_bound; nia | lia]].
      destruct (Z.le_gt_cases 1 (size / element)); [done|]. exfalso. nia.
    + destruct (Z.eqb_spec (size mod count) 0) as [Hm | _]; cbn [negb]; [|exact Blob].
      destruct (sized_value (size / count)) as [[e s]|] eqn:Es; [|exact Blob]. apply sized_value_kind in Es.
      eexists. split; [reflexivity|]. eapply (DeducedInt size); [done | | by left].
      pose proof (Z.div_mod size count ltac:(lia)) as E. rewrite Hm in E. constructor; lia.
Qed.

Lemma deduce_ok size count enc fmt signed array : spec_ok enc fmt ->
  0 <= size < 2 ^ 16 -> 0 <= count < 2 ^ 16 -> (array = Fixed -> size <> 0) ->
  exists r, deduce size count enc fmt signed array = Ret r /\
    (~ (fmt = FieldFormat_HexBytes /\ size = 1) -> deduced_ok size r) /\
    (fmt = FieldFormat_HexBytes /\ size = 1 -> r = {| d_encoding := FieldEncoding_Value8;
       d_format := FieldFormat_HexBytes; d_count := 1; d_shift := 255 |}).
Proof.
  intros Hspec Hs Hc Ha. unfold deduce. destruct Hspec as [[-> ->] | [[-> ->] | [Hf He]]].
  - cbn. eexists. split; [reflexivity|]. split; [intros _ | by intros [? _]].
    destruct (Z.eqb_spec size 1) as [-> | _]; [|constructor].
    rewrite <- (with_no_flags FieldEncoding_Value8).
    apply (DeducedInt 1 FieldEncoding_Value8 0 1 0 1 FieldFormat_String8); [constructor | by constructor | by right].
  - cbn. eexists. split; [reflexivity|]. destruct (Z.eqb_spec size 1) as [-> | Hne].
    + split; [intros H; exfalso; apply H; by split | done].
    + split; [intros _; constructor | by intros [_ ?]].
  - assert (Hfne : (fmt =? FieldFormat_String8) = false /\ (fmt =? FieldFormat_HexBytes) = false /\ fmt <> FieldFormat_HexBytes)
      by (destruct Hf as [-> | [-> | ->]]; done).
    destruct Hfne as (-> & -> & Hne).
    destruct (deduce_value_ok size count enc (apply_signed fmt signed) array) as (r & -> & Hr); try done;
      [by apply apply_signed_int|].
    exists r. split; [done|]. split; [done | by intros [? _]].
Qed.

(** A field whose data has a length of its own. *)
Definition is_variable (a : PerfFieldArray) : bool := match a with ArrNone | Fixed => false | _ => true end.
Lemma declared_array_size size d : (declared_array size d = Fixed -> size <> 0) /\
  (is_variable (declared_array size d) = true -> size <> 1).
Proof.
  unfold declared_array. destruct (Z.eqb_spec size 0) as [-> | H0]; [done|].
  destruct (Z.eqb_spec size 2) as [-> | H2]; [done|]. destruct (Z.eqb_spec size 4) as [-> | H4]; [done|].
  cbn [andb]. by destruct (found_array d).
Qed.
Lemma deduce_array size count enc fmt signed array r : deduce size count enc fmt signed array = Ret r ->
  spec_ok enc fmt -> 0 <= size < 2 ^ 16 -> 0 <= count < 2 ^ 16 -> (array = Fixed -> size <> 0) ->
  (is_variable array = true -> size <> 1) ->
  if is_variable array then r.(d_count) = 0 \/ r.(d_shift) = 255 else r.(d_count) <> 0.
Proof.
  unfold deduce. intros E Hspec Hs Hc Hf Hv.
  assert (Str : forall c x b, (if is_variable array then c = 0 \/ (if size =? 1 then x else 255) = 255 else c <> 0) \/
            c <> 1 \/ b) by (intros c x b; destruct (is_variable array) eqn:Ea;
              [left; right; by rewrite (proj2 (Z.eqb_neq size 1)) by auto | destruct (Z.eq_dec c 0); [right; left; lia | by left]]).
  destruct (fmt =? FieldFormat_String8).
  { unfold rassert in E. destruct (enc =? _); [|done]. injection E as <-. cbn [d_count d_shift].
    destruct (Str 1 0 False) as [H | [H | []]]; [exact H | done]. }
  destruct (fmt =? FieldFormat_HexBytes).
  { unfold rassert in E. destruct (enc =? _); [|done]. injection E as <-. cbn. by destruct (is_variable array); [right|]. }
  assert (Hex : forall a, (a : outcome Deduced) = Ret r -> a = Ret hex_dump \/ (exists x, a = (x ≫= fun _ : unit => Ret hex_dump)) ->
            if is_variable array then r.(d_count) = 0 \/ r.(d_shift) = 255 else r.(d_count) <> 0).
  { intros a Ha Hd. assert (Er : r = hex_dump).
    { destruct Hd as [-> | [x ->]]; [by injection Ha as <-|]. destruct x; [by injection Ha as <- | done]. }
    rewrite Er. cbn. by destruct (is_variable array); [right|]. }
  destruct array; cbn [deduce_value is_variable] in *.
  1: destruct (sized_value size) as [[e s]|]; [injection E as <-; done | by eapply Hex; [exact E | left]].
  1: { destruct (Z.eqb_spec count 0).
       - destruct (value_shift enc) as [[s el]|] eqn:Ev; [|by eapply Hex; [exact E | right; eexists]].
         destruct (size mod el =? 0) eqn:Em; cbn [negb] in E; [|by eapply Hex; [exact E | left]].
         injection E as <-. cbn. apply Z.eqb_eq in Em.
         assert (Hel : el = 1 \/ el = 2 \/ el = 4 \/ el = 8).
         { unfold value_shift in Ev. repeat (destruct (enc =? _); [injection Ev as _ <-; lia|]). done. }
         specialize (Hf eq_refl). destruct Hel as [-> | [-> | [-> | ->]]]; Z.div_mod_to_equations; lia.
       - destruct (size mod count =? 0); cbn [negb] in E; [|by eapply Hex; [exact E | left]].
         destruct (sized_value _) as [[e s]|]; [injection E as <-; done | by eapply Hex; [exact E | left]]. }
  all: destruct (value_shift enc) as [[s el]|]; [injection E as <-; by left | by eapply Hex; [exact E | right; eexists]].
Qed.

(** The parsed form of a field: its type is one of those above, its name lies in the
    declaration, and it has a number of elements exactly if its data has no length of
    its own. *)
Definition deduced_of (f : PerfFieldFormat) : Deduced :=
  {| d_encoding := f.(deduced_encoding); d_format := f.(deduced_format);
     d_count := f.(deduced_array_count); d_shift := f.(element_size_shift) |}.
Record field_format_ok (f : PerfFieldFormat) : Prop := {
  fo_size : 0 <= f.(ff_size) < 2 ^ 16;
  fo_type : deduced_ok f.(ff_size) (deduced_of f);
  fo_name : exists n, ff_name f = Ret n;
  fo_count : if is_variable f.(ff_array) then f.(deduced_array_count) = 0 \/ f.(element_size_shift) = 255
             else f.(deduced_array_count) <> 0;
  fo_array : match f.(ff_array) with RestOfEvent => f.(ff_size) = 0 | RelLoc2 | DataLoc2 => f.(ff_size) = 2
             | RelLoc4 | DataLoc4 => f.(ff_size) = 4 | _ => True end;
}.

Lemma declaration_ok long64 field offset size signed :
  ascii field -> field <> [] -> numbers_fit field -> len field < 2 ^ 31 -> 0 <= size < 2 ^ 16 ->
  (exists f, PerfFieldFormat_new long64 field offset size signed = Ret f /\ field_format_ok f /\
     f.(ff_field) = field /\ f.(ff_offset) = offset /\ f.(ff_size) = size /\ f.(ff_signed) = signed) \/
  (PerfFieldFormat_new long64 field offset size signed = Panic /\ size = 1 /\
   exists d, parse_declaration field = Ret d /\ d.(found_struct) = true /\ d.(found_pointer) = false).
Proof.
  intros Ha Hne Hn Hlen Hs. destruct (parse_declaration_ok field Ha Hn Hlen) as (d & Ed & Hb & Hnm & Hc).
  unfold PerfFieldFormat_new. rewrite Ed. cbn [mbind outcome_bind].
  rewrite str_slice_ascii by (done || lia). cbn [mbind outcome_bind].
  set (base := sub field _ _). destruct (specified_type long64 base d) as [enc fmt] eqn:Esp.
  pose proof (specified_type_ok _ _ _ _ _ Esp) as Hspec.
  destruct (declared_array_size size d) as [Hfix Hvar].
  destruct (deduce_ok size d.(array_count) enc fmt signed (declared_array size d) Hspec Hs Hc Hfix) as (r & Er & Hok & Hbad).
  rewrite Er. cbn [mbind outcome_bind].
  destruct (decide (fmt = FieldFormat_HexBytes /\ size = 1)) as [[-> ->] | Hgood].
  - right. rewrite (Hbad (conj eq_refl eq_refl)). split_and!; [|done|].
    + unfold deduced_asserts. by destruct (len field =? 0).
    + exists d. split; [done|]. unfold specified_type in Esp. destruct (found_pointer d); [done|].
      destruct (found_struct d) eqn:Est; [done|]. exfalso. revert Esp. cbv zeta.
      repeat match goal with |- context [if ?c then _ else _] => destruct c end; done.
  - left. rewrite deduced_asserts_ok by (try done; by apply Hok). cbn [mbind outcome_bind].
    eexists. split; [reflexivity|]. split_and!; try done. constructor; cbn; try done.
    + destruct r. by apply Hok.
    + unfold ff_name. cbn. destruct (_ <=? _); [by eexists|].
      rewrite str_slice_ascii by (done || lia). by eexists.
    + by eapply deduce_array.
    + unfold declared_array. destruct (Z.eqb_spec size 0); [done|]. destruct (Z.eqb_spec size 2) as [-> |].
      { cbn [andb]. by destruct (found_rel_loc d), (found_data_loc d), (found_array d). }
      destruct (Z.eqb_spec size 4) as [-> |]; cbn [andb]; by destruct (found_rel_loc d), (found_data_loc d), (found_array d).
Qed.
Lemma parsed_ok long64 field offset size signed f :
  ascii field -> field <> [] -> numbers_fit field -> len field < 2 ^ 31 -> 0 <= size < 2 ^ 16 ->
  PerfFieldFormat_new long64 field offset size signed = Ret f -> field_format_ok f.
Proof.
  intros H1 H2 H3 H4 H5 E. destruct (declaration_ok long64 field offset size signed) as [(g & Eg & Hg & _) | [Ep _]]; try done.
  - rewrite E in Eg. by injection Eg as ->.
  - congruence.
Qed.
(** The conditions on a declaration, as a test. *)
Definition declaration_okb (field : bytes) : bool :=
  forallb (fun b => (0 <=? b) && (b <? 0x80)) field && negb (len field =? 0) && numbers_fitb field
  && (len field <? 2 ^ 31).
Lemma declaration_okb_ok field : declaration_okb field = true ->
  ascii field /\ field <> [] /\ numbers_fit field /\ len field < 2 ^ 31.
Proof.
  unfold declaration_okb. intros H. bool_hyps. split_and!.
  - apply List.Forall_forall. intros b Hb. rewrite forallb_forall in *. 
    match goal with H : forall x, In x field -> _ |- _ => specialize (H b Hb) end. bool_hyps. lia.
  - by intros ->.
  - by apply numbers_fit_decide.
  - done.
Qed.

(** C11. [PerfFieldFormat::new] parses every declaration that is not empty, consists of
    ASCII characters, is shorter than 2^31 bytes and in which no run of digits exceeds a
    [u32] ([numbers_fit]: the code reads array lengths with [ascii_to_u32], which panics
    on a number that does not fit, see [big_array_length_panics]): it ends, it never
    indexes outside of the text, its many assertions hold, and the type it deduces is an
    integer of 1, 2, 4 or 8 bytes, alone or in an array whose size is the size of the
    field or open, a string, or a blob.  The one exception is a [struct] of size 1, for
    which the assertions fail. *)
Theorem declaration_is_parsed long64 field offset size signed :
  ascii field -> field <> [] -> numbers_fit field -> len field < 2 ^ 31 -> 0 <= size < 2 ^ 16 ->
  (exists f, PerfFieldFormat_new long64 field offset size signed = Ret f /\ field_format_ok f /\
     f.(ff_field) = field /\ f.(ff_offset) = offset /\ f.(ff_size) = size /\ f.(ff_signed) = signed) \/
  (PerfFieldFormat_new long64 field offset size signed = Panic /\ size = 1 /\
   exists d, parse_declaration field = Ret d /\ d.(found_struct) = true /\ d.(found_pointer) = false).
Proof. apply declaration_ok. Qed.

Lemma declaration_is_parsed_witness :
  (exists f, PerfFieldFormat_new true (str_bytes "unsigned long args[6]") 16 48 (Some false) = Ret f /\
     field_format_ok f /\ f.(ff_offset) = 16 /\ f.(ff_size) = 48) /\
  PerfFieldFormat_new true (str_bytes "struct flags f") 8 1 None = Panic.
Proof.
  split.
  - destruct (declaration_okb_ok (str_bytes "unsigned long args[6]")) as (H1 & H2 & H3 & H4); [by vm_compute|].
    assert (H5 : 0 <= 48 < 2 ^ 16) by lia.
    destruct (declaration_is_parsed true (str_bytes "unsigned long args[6]") 16 48 (Some false) H1 H2 H3 H4 H5)
      as [(f & E & Hok & _ & Ho & Hs & _) | (E & _ & _)].
    + exists f. split_and!; assumption.
    + exfalso. vm_compute in E. discriminate E.
  - destruct (declaration_okb_ok (str_bytes "struct flags f")) as (H1 & H2 & H3 & H4); [by vm_compute|].
    assert (H5 : 0 <= 1 < 2 ^ 16) by lia.
    destruct (declaration_is_parsed true (str_bytes "struct flags f") 8 1 None H1 H2 H3 H4 H5)
      as [(f & E & _) | (E & _ & _)].
    + exfalso. vm_compute in E. discriminate E.
    + exact E.
Defined.

(** A length beyond a [u32], which [numbers_fit] excludes. *)
Lemma big_array_length_panics :
  numbers_fitb (str_bytes "int a[99999999999]") = false /\
  PerfFieldFormat_new true (str_bytes "int a[99999999999]") 0 8 None = Panic.
Proof. split; [by vm_compute|by vm_compute]. Qed.

(** ** Items of fields *)

(** What the type of a field gives its item. *)
Record type_facts (f : PerfFieldFormat) : Prop := {
  tf_enc : is_u8 f.(deduced_encoding);
  tf_asserts : forall count,
    (FieldEncoding_is_array f.(deduced_encoding) = false -> count = 1) ->
    metadata_asserts f.(deduced_encoding) f.(deduced_format)
      (negb (FieldEncoding_is_array f.(deduced_encoding))) (element_size f) count = true;
  tf_struct : (FieldEncoding_without_flags f.(deduced_encoding) =? FieldEncoding_Struct) = false;
  tf_scalar : FieldEncoding_is_array f.(deduced_encoding) = false -> f.(deduced_array_count) = 1;
  tf_open : f.(deduced_array_count) = 0 -> FieldEncoding_is_array f.(deduced_encoding) = true;
  tf_size : if f.(element_size_shift) =? 255 then element_size f = 0 /\ f.(deduced_array_count) = 1
            else 0 <= f.(element_size_shift) <= 3 /\ element_size f = 2 ^ f.(element_size_shift) /\
                 (f.(deduced_array_count) <> 0 -> f.(ff_size) = element_size f * f.(deduced_array_count));
  tf_string : f.(deduced_encoding) = FieldEncoding_ZStringChar8 -> f.(element_size_shift) = 255;
}.

Lemma field_type_facts f : deduced_ok f.(ff_size) (deduced_of f) -> type_facts f.
Proof.
  intros H. remember (deduced_of f) as r eqn:Er. destruct H as [enc shift element flags count format Hk Hsh Hfmt | |];
    unfold deduced_of in Er; [injection Er as E1 E2 E3 E4 | injection Er as E1 E2 E3 E4 | injection Er as E1 E2 E3 E4].
  - assert (Hel : element_size f = element) by (unfold element_size; rewrite <- E4; by destruct Hk).
    assert (Hsize : count <> 0 -> ff_size f = element * count).
    { destruct Hsh as [-> | c Hc Es |]; [lia | rewrite Es; lia | done]. }
    assert (Hcount : flags = 0 -> count = 1) by by destruct Hsh.
    constructor; rewrite <- ?E1, <- ?E2, <- ?E3, <- ?E4, ?Hel.
    + unfold is_u8. destruct Hk, Hsh; vm_compute; by split.
    + intros c Hc. destruct Hk, Hsh; cbn in Hc |- *;
        (destruct Hfmt as [[-> | [-> | ->]] | (-> & ? & ?)]; try done; try (by rewrite Hc by done)).
    + by destruct Hk, Hsh.
    + destruct Hk, Hsh; done.
    + destruct Hk, Hsh; intros; done || lia.
    + destruct Hk; cbn; (split; [lia | split; [done | by intros; rewrite Hsize]]).
    + destruct Hk, Hsh; done.
  - constructor; unfold element_size; rewrite <- ?E1, <- ?E2, <- ?E3, <- ?E4; try done.
    intros c Hc. rewrite (Hc eq_refl). done.
  - constructor; unfold element_size; rewrite <- ?E1, <- ?E2, <- ?E3, <- ?E4; try done.
    intros c Hc. rewrite (Hc eq_refl). done.
Qed.

(** The item a field makes of its bytes. *)
Definition is_item (f : PerfFieldFormat) (r : PerfByteReader) (b : bytes) (count : Z) (v : PerfItemValue) : Prop :=
  v.(item_bytes) = b /\ element_count v.(item_metadata) = count /\
  md_encoding v.(item_metadata) = FieldEncoding_without_flags f.(deduced_encoding) /\
  md_array_flag v.(item_metadata) = FieldEncoding_array_flags f.(deduced_encoding) /\
  md_is_scalar v.(item_metadata) = negb (FieldEncoding_is_array f.(deduced_encoding)) /\
  format v.(item_metadata) = f.(deduced_format) /\ md_byte_reader v.(item_metadata) = r /\
  type_size v.(item_metadata) = element_size f.

Lemma field_item_ok f r b count : type_facts f ->
  (FieldEncoding_is_array f.(deduced_encoding) = false -> count = 1) ->
  element_size f = 0 \/ len b = element_size f * count ->
  exists v, field_item f r b count = Ret v /\ is_item f r b count v.
Proof.
  intros Hf Hc Hb. unfold field_item.
  destruct (PerfItemMetadata_new r (deduced_encoding f) (deduced_format f)
              (negb (FieldEncoding_is_array (deduced_encoding f))) (element_size f) count 0) as [m|] eqn:Em.
  2: { unfold PerfItemMetadata_new in Em. by rewrite (tf_asserts f Hf count Hc) in Em. }
  cbn [mbind outcome_bind].
  destruct (metadata_new_accessors _ _ _ _ _ _ _ _ (tf_enc f Hf) Em) as (M1 & M2 & M3 & M4 & M5 & M6 & _ & M8).
  unfold PerfItemValue_new. rewrite M1, M4, M5, (tf_struct f Hf).
  assert (E : (if negb (element_size f =? 0) && negb (len b =? 0) then len b =? element_size f * count else true) = true).
  { destruct (Z.eqb_spec (element_size f) 0); [done|]. destruct Hb as [Hb | ->]; [done|].
    cbn [negb andb]. rewrite Z.eqb_refl. by destruct (_ =? 0). }
  rewrite E. cbn [rassert mbind outcome_bind]. eexists. split; [reflexivity|]. by split_and!.
Qed.

(** ** Where the data of a field is *)

(** The bytes before the first zero. *)
Fixpoint before_nul (l : bytes) : bytes :=
  match l with [] => [] | c :: l => if c =? 0 then [] else c :: before_nul l end.

Lemma skip_before_nul l pos : skip_bytes (fun b => negb (b =? 0)) l pos = pos + len (before_nul l).
Proof.
  revert pos. induction l as [|c l IH]; intros pos; cbn [skip_bytes before_nul].
  - change (len (@nil Z)) with 0. lia.
  - destruct (c =? 0); cbn [negb]; [change (len (@nil Z)) with 0; lia|]. rewrite IH, len_cons. lia.
Qed.
Lemma before_nul_prefix l : exists r, l = before_nul l ++ r.
Proof.
  induction l as [|c l [r IH]]; [by exists []|]. cbn. destruct (c =? 0); [by exists (c :: l)|].
  exists r. cbn. by rewrite <- IH.
Qed.
Lemma until_first_nul_eq l : until_first_nul l = Ret (before_nul l).
Proof.
  unfold until_first_nul, skip_from. change (from l 0) with l. rewrite skip_before_nul, Z.add_0_l.
  destruct (before_nul_prefix l) as [r E]. pose proof (len_nonneg (before_nul l)).
  assert (Hle : len (before_nul l) <= len l).
  { rewrite E at 2. rewrite len_app. pose proof (len_nonneg r). lia. }
  rewrite slice_ok by lia. f_equal. unfold sub. rewrite E at 2. rewrite Z.sub_0_r. change (Z.to_nat 0) with 0%nat.
  rewrite drop_0. apply take_app_length'. unfold len. lia.
Qed.
Lemma before_nul_idem l : before_nul (before_nul l) = before_nul l.
Proof. induction l as [|c l IH]; [done|]. cbn. destruct (c =? 0) eqn:E; [done|]. cbn. by rewrite E, IH. Qed.
Lemma bytes_ok_from l k : bytes_ok l -> bytes_ok (from l k).
Proof. intros H. unfold from. by apply Forall_drop. Qed.
Lemma slice_from_ok (l : bytes) a : 0 <= a <= len l -> slice_from l a = Ret (from l a).
Proof. intros H. unfold slice_from. rewrite slice_ok by lia. by rewrite sub_from_drop by lia. Qed.

(** The bytes of a field by its kind: in place, up to the end of the event, or where
    the reference in its place points, up to a zero or for the length given there.  In
    the reference, [lo] is the offset and [hi] the length. *)
Definition field_data (f : PerfFieldFormat) (raw : bytes) (r : PerfByteReader) : option bytes :=
  let start := f.(ff_offset) in
  let stop := f.(ff_offset) + f.(ff_size) in
  let reference n := from_source_bytes r (sub (from raw start) 0 n) in
  let text k := if k <=? len raw then Some (before_nul (from raw k)) else None in
  let block lo hi := if lo + hi <=? len raw then Some (sub raw lo (lo + hi)) else None in
  if len raw <? stop then None
  else
    match f.(ff_array) with
    | ArrNone | Fixed => Some (sub raw start stop)
    | RestOfEvent => Some (from raw start)
    | DataLoc2 => text (reference 2)
    | RelLoc2 => text (stop + reference 2)
    | DataLoc4 | RelLoc4 => block (reference 4 mod 65536) (reference 4 / 65536)
    end.

Section FieldData.
Context (f : PerfFieldFormat) (raw : bytes) (r : PerfByteReader).
Hypothesis Hf : field_format_ok f.
Hypothesis Hoff : 0 <= f.(ff_offset) < 2 ^ 16.
Hypothesis Hraw : bytes_ok raw.
Hypothesis Hlen : len raw < 2 ^ 32.

Lemma read_at n : 0 <= n <= len raw - f.(ff_offset) -> f.(ff_offset) <= len raw ->
  read_uint n r (from raw f.(ff_offset)) = Ret (from_source_bytes r (sub (from raw f.(ff_offset)) 0 n)) /\
  0 <= from_source_bytes r (sub (from raw f.(ff_offset)) 0 n) < 256 ^ n.
Proof using All.
  intros Hn Ho. assert (Hl : len (from raw (ff_offset f)) = len raw - ff_offset f) by (apply len_from; lia).
  rewrite read_uint_ok by lia. split; [done|].
  pose proof (from_source_bytes_bound r (sub (from raw (ff_offset f)) 0 n)) as Hb.
  rewrite len_sub, Z.sub_0_r in Hb by lia. by apply Hb, bytes_ok_sub, bytes_ok_from.
Qed.

Lemma dyn_offset2_ok : f.(ff_offset) + 2 <= len raw -> f.(ff_size) = 2 ->
  dyn_offset2 f raw r = Ret (from_source_bytes r (sub (from raw f.(ff_offset)) 0 2)
    + if bool_decide (f.(ff_array) = RelLoc2) then f.(ff_offset) + f.(ff_size) else 0).
Proof using All.
  intros Hl Hs. unfold dyn_offset2. rewrite checked_ok by lia. cbn [mbind outcome_bind].
  rewrite slice_from_ok by lia. cbn [mbind outcome_bind]. unfold read_u16.
  destruct (read_at 2) as [-> Hv]; [lia | lia |]. cbn [mbind outcome_bind].
  rewrite checked_ok; [done|]. destruct (bool_decide _); lia.
Qed.
Lemma dyn_range4_ok : f.(ff_offset) + 4 <= len raw -> f.(ff_size) = 4 -> f.(ff_array) <> RelLoc2 ->
  let v := from_source_bytes r (sub (from raw f.(ff_offset)) 0 4) in
  dyn_range4 f raw r = Ret (v mod 65536, v / 65536) /\ 0 <= v < 2 ^ 32.
Proof using All.
  intros Hl Hs Ha v. unfold dyn_range4. rewrite checked_ok by lia. cbn [mbind outcome_bind].
  rewrite slice_from_ok by lia. cbn [mbind outcome_bind]. unfold read_u32.
  destruct (read_at 4) as [-> Hv]; [lia | lia |]. fold v in Hv |- *. cbn [mbind outcome_bind].
  rewrite bool_decide_eq_false_2 by done. change 0xFFFF with (Z.ones 16). rewrite Z.land_ones, Z.add_0_r by lia.
  change (2 ^ 16) with 65536. pose proof (Z.mod_pos_bound v 65536 ltac:(lia)).
  rewrite checked_ok by lia. cbn [mbind outcome_bind]. rewrite Z.shiftr_div_pow2 by lia. done.
Qed.

Lemma field_data4 chk : f.(ff_offset) + 4 <= len raw -> f.(ff_size) = 4 -> f.(ff_array) <> RelLoc2 ->
  let v := from_source_bytes r (sub (from raw f.(ff_offset)) 0 4) in
  let o := if v mod 65536 + v / 65536 <=? len raw
           then Some (sub raw (v mod 65536) (v mod 65536 + v / 65536)) else None in
  ('(dyn_offset, dyn_size) ← dyn_range4 f raw r;
   dyn_end ← usize (dyn_offset + dyn_size);
   if dyn_end <=? len raw then b ← slice raw dyn_offset dyn_end; Ret (Some b) else Ret None) = Ret o /\
  ('(dyn_offset, dyn_size) ← dyn_range4 f raw r;
   dyn_end ← usize (dyn_offset + dyn_size);
   if dyn_end <=? len raw then b ← slice raw dyn_offset dyn_end; Ret (VariableSize b chk) else Ret OutOfBounds)
  = Ret (match o with Some b => VariableSize b chk | None => OutOfBounds end).
Proof using All.
  intros Hl Hs Ha v o. destruct (dyn_range4_ok Hl Hs Ha) as [E Hv]. fold v in E, Hv. rewrite E. unfold o. clearbody v.
  assert (0 <= v mod 65536 < 65536 /\ 0 <= v / 65536 < 65536) as [? ?] by (Z.div_mod_to_equations; lia).
  cbn [mbind outcome_bind]. rewrite checked_ok by lia. cbn [mbind outcome_bind].
  destruct (Z.leb_spec (v mod 65536 + v / 65536) (len raw)); [|done]. by rewrite slice_ok by lia.
Qed.

(** What is found, with the kind of data it is. *)
Definition found_data : FieldData :=
  match field_data f raw r with
  | None => OutOfBounds
  | Some b =>
    let str := f.(deduced_encoding) =? FieldEncoding_ZStringChar8 in
    if is_variable f.(ff_array) then
      VariableSize b (match f.(ff_array) with RelLoc2 | DataLoc2 => true | _ => str end)
    else FixedSize (if str then before_nul b else b)
  end.

Lemma field_data_ok :
  get_field_bytes f raw r = Ret (field_data f raw r) /\ find_field_data f raw r = Ret found_data.
Proof using All.
  pose proof (fo_size f Hf) as Hs. pose proof (fo_array f Hf) as Harr.
  unfold get_field_bytes, find_field_data, found_data, field_data.
  rewrite !checked_ok by lia. cbn [mbind outcome_bind].
  rewrite (proj2 (Z.leb_le (ff_offset f) (ff_offset f + ff_size f))) by lia. cbn [andb].
  destruct (Z.leb_spec (ff_offset f + ff_size f) (len raw)) as [Hin | Hout].
  2: { by rewrite (proj2 (Z.ltb_lt _ _)) by lia. }
  rewrite (proj2 (Z.ltb_ge (len raw) _)) by lia.
  destruct (ff_array f) eqn:Ea; cbn [is_variable].
  - rewrite slice_ok by lia. cbn [mbind outcome_bind]. split; [done|].
    destruct (_ =? _); cbn [mbind outcome_bind]; [by rewrite until_first_nul_eq | done].
  - rewrite slice_ok by lia. cbn [mbind outcome_bind]. split; [done|].
    destruct (_ =? _); cbn [mbind outcome_bind]; [by rewrite until_first_nul_eq | done].
  - by rewrite slice_from_ok by lia.
  - rewrite dyn_offset2_ok by lia. rewrite Ea. rewrite bool_decide_eq_true_2 by done. cbn [mbind outcome_bind].
    rewrite (Z.add_comm (from_source_bytes _ _)). destruct (Z.leb_spec (ff_offset f + ff_size f + from_source_bytes r (sub (from raw (ff_offset f)) 0 2)) (len raw)); [|done].
    destruct (read_at 2) as [_ Hv]; [lia | lia |].
    rewrite slice_from_ok by lia. cbn [mbind outcome_bind]. by rewrite until_first_nul_eq.
  - rewrite dyn_offset2_ok by lia. rewrite Ea. rewrite bool_decide_eq_false_2 by done. cbn [mbind outcome_bind].
    rewrite Z.add_0_r. destruct (Z.leb_spec (from_source_bytes r (sub (from raw (ff_offset f)) 0 2)) (len raw)); [|done].
    destruct (read_at 2) as [_ Hv]; [lia | lia |].
    rewrite slice_from_ok by lia. cbn [mbind outcome_bind]. by rewrite until_first_nul_eq.
  - apply field_data4; [lia | done | by rewrite Ea].
  - apply field_data4; [lia | done | by rewrite Ea].
Qed.

(** The whole elements of the bytes. *)
Definition whole_elements (b : bytes) : bytes := sub b 0 (len b / element_size f * element_size f).

Lemma masked_length n s : 0 <= n < 2 ^ 64 -> 0 <= s <= 3 ->
  Z.land n (2 ^ s - 1) = n mod 2 ^ s /\ Z.land n (2 ^ 64 - 1 - (2 ^ s - 1)) = n / 2 ^ s * 2 ^ s.
Proof using.
  clear. intros Hn Hs. replace (2 ^ s - 1) with (Z.ones s) by (rewrite Z.ones_equiv; lia).
  rewrite Z.land_ones by lia. split; [done|].
  change (2 ^ 64 - 1) with (Z.ones 64).
  assert (E : Z.ldiff (Z.ones s) (Z.ones 64) = 0).
  { rewrite Z.ldiff_ones_r by lia. rewrite Z.shiftr_div_pow2, Z.div_small; [done | | lia].
    rewrite Z.ones_equiv. pose proof (Z.pow_pos_nonneg 2 s). pose proof (Z.pow_le_mono_r 2 s 64). lia. }
  rewrite (Z.sub_nocarry_ldiff _ _ E), Z.ldiff_land, Z.land_assoc, Z.land_ones, Z.mod_small by lia.
  rewrite <- Z.ldiff_land.
  rewrite Z.ldiff_ones_r by lia. by rewrite Z.shiftr_div_pow2, Z.shiftl_mul_pow2 by lia.
Qed.
Lemma mask_whole b : len b < 2 ^ 64 -> 0 <= f.(element_size_shift) <= 3 -> element_size f = 2 ^ f.(element_size_shift) ->
  (if negb (Z.land (len b) (element_size f - 1) =? 0)
   then slice b 0 (Z.land (len b) (2 ^ 64 - 1 - (element_size f - 1))) else Ret b) = Ret (whole_elements b) /\
  len (whole_elements b) = len b / element_size f * element_size f.
Proof using.
  clear. intros Hl Hs He. pose proof (len_nonneg b) as Hb. unfold whole_elements. rewrite !He.
  destruct (masked_length (len b) (element_size_shift f)) as [-> ->]; [lia | lia |].
  assert (Hp : 0 < 2 ^ element_size_shift f) by (apply Z.pow_pos_nonneg; lia).
  set (p := 2 ^ element_size_shift f) in *. clearbody p.
  pose proof (Z.div_mod (len b) p ltac:(lia)) as E. pose proof (Z.mod_pos_bound (len b) p Hp) as Hm.
  assert (0 <= len b / p) by (apply Z.div_pos; lia).
  assert (0 <= len b / p * p <= len b) by nia. split; [|by rewrite len_sub; lia].
  destruct (Z.eqb_spec (len b mod p) 0) as [E0 | _]; cbn [negb]; [|by rewrite slice_ok by lia].
  f_equal. replace (len b / p * p) with (len b) by lia.
  rewrite sub_from_drop by lia. change (Z.to_nat 0) with 0%nat. by rewrite drop_0.
Qed.

Lemma found_small b : field_data f raw r = Some b -> len b <= len raw.
Proof using All.
  intros H. pose proof (fo_size f Hf) as Hs.
  assert (P : forall l, len (before_nul l) <= len l).
  { intros l. destruct (before_nul_prefix l) as [t E]. rewrite E at 2. rewrite len_app. pose proof (len_nonneg t). lia. }
  assert (F : forall k, len (from raw k) <= len raw) by (intros; unfold from, len; rewrite length_drop; lia).
  assert (Sb : forall i j, len (sub raw i j) <= len raw).
  { intros. unfold sub, len. rewrite length_take, length_drop. lia. }
  unfold field_data in H. destruct (_ <? _); [done|].
  destruct (ff_array f); repeat match type of H with (if ?c then _ else _) = _ => destruct c; [|done] end;
    injection H as <-; try done; try (etransitivity; [apply P | done]).
Qed.
End FieldData.

(** C37. [get_field_bytes] finds the data of a field where its kind says, for every
    event: in place, in the rest of the event, or where the reference in its place
    points, and nothing when the place or the data is not all in the event; it never
    panics.  A reference of two bytes is relative to the end of the field if it is
    declared so; one of four bytes is always taken from the start of the event, even
    when the field is declared [__rel_loc]. *)
Theorem field_bytes_are_located f raw r :
  field_format_ok f -> 0 <= f.(ff_offset) < 2 ^ 16 -> bytes_ok raw -> len raw < 2 ^ 32 ->
  get_field_bytes f raw r = Ret (field_data f raw r).
Proof. intros Hf Ho Hr Hl. by apply field_data_ok. Qed.

(** C19. [get_field_value] gives the item of the field's type: an empty one if the data
    is not in the event; with the number of elements the declaration says if its size
    is fixed, a string up to its first zero; and with all the whole elements of the data
    if it is an array of integers of open length.  But a string or a blob of open length
    always panics (and in a release build comes out empty), since its element size is 0
    and the mask is computed as one less. *)
Theorem field_value_is_item f raw r :
  field_format_ok f -> 0 <= f.(ff_offset) < 2 ^ 16 -> bytes_ok raw -> len raw < 2 ^ 16 ->
  let value := get_field_value_with_data_and_reader f raw r in
  match field_data f raw r with
  | None => value = Ret {| item_bytes := []; item_metadata := PerfItemMetadata_null |}
  | Some b =>
    if negb (is_variable f.(ff_array)) then
      exists v, value = Ret v /\
        is_item f r (if f.(deduced_encoding) =? FieldEncoding_ZStringChar8 then before_nul b else b)
          f.(deduced_array_count) v
    else if f.(element_size_shift) =? 255 then value = Panic
    else exists v, value = Ret v /\ is_item f r (whole_elements f b) (len b / element_size f) v
  end.
Proof.
  intros Hf Ho Hr Hl value. pose proof (field_type_facts f (fo_type f Hf)) as Ht. unfold value.
  unfold get_field_value_with_data_and_reader.
  destruct (field_data_ok f raw r Hf Ho Hr ltac:(lia)) as [_ ->]. unfold found_data. cbn [mbind outcome_bind].
  destruct (field_data f raw r) as [b|] eqn:Ed; [|reflexivity].
  pose proof (found_small f raw r Hf Ho Hr ltac:(lia) b Ed) as Hb. pose proof (fo_count f Hf) as Hc.
  pose proof (tf_size f Ht) as Hsz. destruct (is_variable (ff_array f)) eqn:Ev; cbn [negb].
  - set (chk := match ff_array f with RelLoc2 | DataLoc2 => true | _ => deduced_encoding f =? FieldEncoding_ZStringChar8 end).
    destruct (Z.eqb_spec (element_size_shift f) 255) as [E255 | Hne].
    { destruct Hsz as [-> _]. by destruct chk; [rewrite until_first_nul_eq|]. }
    destruct Hsz as (Hs & He & _). destruct Hc as [Hc | Hc]; [|done].
    assert (Echk : (if chk then until_first_nul b else Ret b) = Ret b).
    { unfold chk. assert (Es : (deduced_encoding f =? FieldEncoding_ZStringChar8) = false).
      { apply Z.eqb_neq. intros Es. by apply (tf_string f Ht) in Es. }
      unfold field_data in Ed. destruct (_ <? _); [done|].
      destruct (ff_array f); try done; rewrite ?Es; try done; rewrite until_first_nul_eq;
        (destruct (_ <=? _); [|done]); injection Ed as <-; by rewrite before_nul_idem. }
    rewrite Echk. cbn [mbind outcome_bind].
    assert (Hp : 1 <= element_size f <= 8).
    { rewrite He. assert (element_size_shift f = 0 \/ element_size_shift f = 1 \/ element_size_shift f = 2 \/ element_size_shift f = 3)
        as [-> | [-> | [-> | ->]]] by lia; cbn; lia. }
    rewrite checked_ok by lia. cbn [mbind outcome_bind].
    destruct (mask_whole f b) as [-> Hw]; [lia | done | done |]. cbn [mbind outcome_bind].
    rewrite Hc. cbn [negb Z.eqb]. rewrite Hw, Z.shiftr_div_pow2, <- He, Z.div_mul by lia.
    pose proof (len_nonneg b). assert (0 <= len b / element_size f <= len b)
      by (split; [apply Z.div_pos; lia | apply Z.div_le_upper_bound; nia]).
    rewrite as_unsigned_id by lia. apply field_item_ok; [done | | right; rewrite Hw; lia].
    intros Hsc. by rewrite (tf_open f Ht Hc) in Hsc.
  - apply field_item_ok; [done | by apply (tf_scalar f Ht) |].
    destruct (Z.eqb_spec (element_size_shift f) 255) as [E255 | Hne]; [left; apply Hsz | right].
    destruct Hsz as (_ & _ & Hsz).
    assert (Es : (deduced_encoding f =? FieldEncoding_ZStringChar8) = false).
    { apply Z.eqb_neq. intros Es. by apply (tf_string f Ht) in Es. }
    rewrite Es, <- Hsz by done. pose proof (fo_size f Hf) as Hs. unfold field_data in Ed.
    destruct (Z.ltb_spec (len raw) (ff_offset f + ff_size f)); [done|].
    destruct (ff_array f); try done; injection Ed as <-; rewrite len_sub; lia.
Qed.

(** Two fields whose data is elsewhere in the event, and an event for them: numbers
    and a string behind a reference of four bytes. *)
Definition example_field (declaration : bytes) : PerfFieldFormat :=
  match PerfFieldFormat_new true declaration 0 4 None with
  | Ret f => f
  | Panic => {| ff_field := []; name_start := 0; name_end := 0; ff_offset := 0; ff_size := 0; ff_signed := None;
                specified_array_count := 0; deduced_array_count := 0; specified_encoding := 0;
                deduced_encoding := 0; specified_format := 0; deduced_format := 0; ff_array := ArrNone;
                element_size_shift := 0 |}
  end.
Definition example_numbers : PerfFieldFormat := example_field (str_bytes "__rel_loc u16[] numbers").
Definition example_message : PerfFieldFormat := example_field (str_bytes "__data_loc char[] message").
Definition example_raw : bytes := [4; 0; 5; 0; 104; 105; 33; 0; 9; 9; 9].

Lemma example_numbers_ok : field_format_ok example_numbers.
Proof.
  destruct (declaration_okb_ok (str_bytes "__rel_loc u16[] numbers")) as (H1 & H2 & H3 & H4); [by vm_compute|].
  apply (parsed_ok true _ 0 4 None _ H1 H2 H3 H4); [lia | by vm_compute].
Qed.
Lemma example_message_ok : field_format_ok example_message.
Proof.
  destruct (declaration_okb_ok (str_bytes "__data_loc char[] message")) as (H1 & H2 & H3 & H4); [by vm_compute|].
  apply (parsed_ok true _ 0 4 None _ H1 H2 H3 H4); [lia | by vm_compute].
Qed.
Lemma example_raw_ok : bytes_ok example_raw.
Proof. apply bytes_ok_decide. by vm_compute. Qed.

(** The data of the relative field starts at 4, not 4 bytes after its end at 8. *)
Lemma field_bytes_are_located_witness :
  ff_array example_numbers = RelLoc4 /\
  get_field_bytes example_numbers example_raw (PerfByteReader_new false) = Ret (Some [104; 105; 33; 0; 9]).
Proof.
  split; [by vm_compute|].
  refine (eq_trans (field_bytes_are_located example_numbers example_raw (PerfByteReader_new false)
                      example_numbers_ok _ example_raw_ok _) _); by vm_compute.
Defined.

Lemma field_value_is_item_witness :
  (exists v, get_field_value_with_data_and_reader example_numbers example_raw (PerfByteReader_new false) = Ret v /\
     item_bytes v = [104; 105; 33; 0] /\ element_count (item_metadata v) = 2) /\
  get_field_value_with_data_and_reader example_message example_raw (PerfByteReader_new false) = Panic.
Proof.
  set (r := PerfByteReader_new false).
  assert (Hl : len example_raw < 2 ^ 16) by (vm_compute; reflexivity).
  assert (Ho1 : 0 <= ff_offset example_numbers < 2 ^ 16) by (vm_compute; split; congruence).
  assert (Ho2 : 0 <= ff_offset example_message < 2 ^ 16) by (vm_compute; split; congruence).
  assert (E1 : field_data example_numbers example_raw r = Some [104; 105; 33; 0; 9]) by (vm_compute; reflexivity).
  assert (E2 : field_data example_message example_raw r = Some [104; 105; 33; 0; 9]) by (vm_compute; reflexivity).
  pose proof (field_value_is_item example_numbers example_raw r example_numbers_ok Ho1 example_raw_ok Hl) as H1.
  pose proof (field_value_is_item example_message example_raw r example_message_ok Ho2 example_raw_ok Hl) as H2.
  cbv zeta in H1, H2. rewrite E1 in H1. rewrite E2 in H2.
  assert (V1 : is_variable (ff_array example_numbers) = true) by (vm_compute; reflexivity).
  assert (V2 : is_variable (ff_array example_message) = true) by (vm_compute; reflexivity).
  assert (S1 : (element_size_shift example_numbers =? 255) = false) by (vm_compute; reflexivity).
  assert (S2 : (element_size_shift example_message =? 255) = true) by (vm_compute; reflexivity).
  rewrite V1, S1 in H1. rewrite V2, S2 in H2. cbn [negb] in H1, H2. split; [|exact H2].
  destruct H1 as (v & Ev & Hb & Hc & _). exists v. split; [exact Ev|].
  rewrite Hb, Hc. split; vm_compute; reflexivity.
Defined.
