(* ===== verification/FieldLine.v ===== *)
(** * FieldLine: lines of a format file are read back

    The kernel prints a field as
    [field:DECLARATION; offset:N; size:N; signed:N;], each property after a tab. *)

From S2P Require Import Prelude Strings Types ByteReader PerfItem Text Provider Guid Writers FieldFormat FieldFormatProps.

(** ** Decimal numbers *)

Definition is_digit (c : Z) : Prop := 48 <= c <= 57.
Lemma to_digit_decimal d : 0 <= d < 10 -> to_digit 10 (48 + d) = Some d.
Proof.
  intros Hd. unfold to_digit, is_ascii_digit. rewrite (proj2 (Z.leb_le 48 (48 + d))), (proj2 (Z.leb_le (48 + d) 57)) by lia.
  cbn [andb]. f_equal. lia.
Qed.
Lemma decimal_loop_digits n v tail : Forall is_digit tail -> 0 <= v -> Forall is_digit (decimal_loop n v tail).
Proof.
  revert v tail. induction n as [|n IH]; intros v tail Ht Hv; [done|]. cbn [decimal_loop].
  assert (Forall is_digit (48 + v mod 10 :: tail)).
  { constructor; [|done]. unfold is_digit. pose proof (Z.mod_pos_bound v 10 ltac:(lia)). lia. }
  destruct (v / 10 =? 0); [done|]. apply IH; [done|]. apply Z.div_pos; lia.
Qed.
Lemma digits_loop_decimal n v tail any : 0 <= v < 10 ^ Z.of_nat n -> v < 2 ^ 32 -> (0 < n)%nat ->
  digits_loop 10 (decimal_loop n v tail) any 0 = digits_loop 10 tail true v.
Proof.
  revert v tail any. induction n as [|n IH]; intros v tail any Hv Hb Hn; [lia|]. cbn [decimal_loop].
  pose proof (Z.mod_pos_bound v 10 ltac:(lia)) as Hm. pose proof (Z.div_mod v 10 ltac:(lia)) as Ed.
  destruct (Z.eqb_spec (v / 10) 0) as [E0 | Hne].
  - rewrite (digits_loop_step _ _ _ _ (v mod 10)) by (try apply to_digit_decimal; lia). f_equal. lia.
  - assert (0 <= v / 10) by (apply Z.div_pos; lia).
    destruct n as [|n]; [change (10 ^ Z.of_nat 1) with 10 in Hv; exfalso; lia|].
    rewrite IH; [| | | lia]; [| | Z.div_mod_to_equations; lia].
    + rewrite (digits_loop_step _ _ _ _ (v mod 10)) by (try apply to_digit_decimal; lia). f_equal. lia.
    + rewrite (Nat2Z.inj_succ (S n)), Z.pow_succ_r in Hv by lia. lia.
Qed.
Lemma ascii_to_u32_decimal v : 0 <= v < 2 ^ 32 -> ascii_to_u32 (fmt_decimal v) = Ret (Some v).
Proof.
  intros Hv. unfold fmt_decimal. rewrite (proj2 (Z.ltb_ge v 0)) by lia.
  pose proof (decimal_loop_digits 20 v [] (List.Forall_nil _) ltac:(lia)) as Hd.
  pose proof (digits_loop_decimal 20 v [] false ltac:(lia) ltac:(lia) ltac:(lia)) as He. cbn [digits_loop] in He.
  set (l := decimal_loop 20 v []) in *. clearbody l. unfold ascii_to_u32.
  assert (E : skip_from is_space_or_tab l 0 = 0).
  { unfold skip_from. change (from l 0) with l. destruct Hd as [|c t Hc Hd]; [done|]. cbn [skip_bytes].
    unfold is_space_or_tab, is_digit in *. by rewrite (proj2 (Z.eqb_neq c 32)), (proj2 (Z.eqb_neq c 9)) by lia. }
  rewrite E. assert (Hx : (byte_at l (0 + 1) =? 120) || (byte_at l (0 + 1) =? 88) = false \/ len l <= 2).
  { destruct Hd as [|c t Hc [|c2 t2 Hc2 Hd]]; [by right | by right |]. left.
    change (byte_at (c :: c2 :: t2) (0 + 1)) with c2. unfold is_digit in Hc2.
    by rewrite (proj2 (Z.eqb_neq c2 120)), (proj2 (Z.eqb_neq c2 88)) by lia. }
  destruct Hx as [-> | Hs].
  - rewrite andb_false_r. exact He.
  - rewrite (proj2 (Z.ltb_ge 2 (len l - 0))) by lia. exact He.
Qed.

(** ** One property of a line *)

Lemma skip_from_run p (pre a : bytes) c rest : Forall (fun b => p b = true) a -> p c = false ->
  skip_from p (pre ++ a ++ c :: rest) (len pre) = len pre + len a.
Proof.
  intros Ha Hc. unfold skip_from, from. unfold len at 1. rewrite Nat2Z.id, drop_app_length' by done.
  generalize (len pre). induction Ha as [|b a Hb _ IH]; intros pos; cbn [app skip_bytes].
  - rewrite Hc. change (len (@nil Z)) with 0. lia.
  - rewrite Hb, IH, len_cons. lia.
Qed.
Lemma sub_middle (pre a rest : bytes) : sub (pre ++ a ++ rest) (len pre) (len pre + len a) = a.
Proof.
  unfold sub. replace (len pre + len a - len pre) with (len a) by lia. unfold len. rewrite !Nat2Z.id.
  rewrite drop_app_length' by done. by rewrite take_app_length' by done.
Qed.

(** What a property does to the ones found before. *)
Definition assign_property (name value : bytes) (p : Properties) : outcome Properties :=
  if str_is name "field" || str_is name "field special" then
    Ret {| p_field := value; p_offset := p.(p_offset); p_size := p.(p_size); p_signed := p.(p_signed) |}
  else if str_is name "offset" then
    n ← ascii_to_u32 value;
    Ret {| p_field := p.(p_field); p_offset := as_unsigned 16 <$> n; p_size := p.(p_size); p_signed := p.(p_signed) |}
  else if str_is name "size" then
    n ← ascii_to_u32 value;
    Ret {| p_field := p.(p_field); p_offset := p.(p_offset); p_size := as_unsigned 16 <$> n; p_signed := p.(p_signed) |}
  else if str_is name "signed" then
    n ← ascii_to_u32 value;
    Ret {| p_field := p.(p_field); p_offset := p.(p_offset); p_size := p.(p_size);
           p_signed := (fun v => negb (v =? 0)) <$> n |}
  else Ret p.

Definition plain_name (n : bytes) : Prop :=
  Forall (fun b => negb (b =? 58) = true) n /\ match n with [] => False | b :: _ => is_space_or_tab_or_semicolon b = false end.
Definition plain_value (v : bytes) : Prop :=
  Forall (fun b => negb (b =? 59) = true) v /\ match v with [] => False | b :: _ => is_space_or_tab b = false end.

Lemma parse_property fuel pre seps name value rest p :
  ascii (pre ++ seps ++ name ++ 58 :: value ++ 59 :: rest) ->
  Forall (fun b => is_space_or_tab_or_semicolon b = true) seps -> plain_name name -> plain_value value ->
  parse_loop (S fuel) (pre ++ seps ++ name ++ 58 :: value ++ 59 :: rest) (len pre) p
  = (p' ← assign_property name value p;
     parse_loop fuel (pre ++ seps ++ name ++ 58 :: value ++ 59 :: rest)
       (len (pre ++ seps ++ name ++ 58 :: value)) p').
Proof.
  intros Ha Hseps [Hname Hn0] [Hvalue Hv0]. set (line := pre ++ seps ++ name ++ 58 :: value ++ 59 :: rest) in *.
  destruct name as [|n0 name]; [done|]. destruct value as [|v0 value]; [done|].
  set (N := n0 :: name) in *. set (V := v0 :: value) in *.
  assert (L1 : line = pre ++ seps ++ n0 :: (name ++ 58 :: V ++ 59 :: rest)) by done.
  assert (L2 : line = (pre ++ seps) ++ N ++ 58 :: (V ++ 59 :: rest)) by (unfold line; by rewrite <- !app_assoc).
  assert (L3 : line = (pre ++ seps ++ N ++ [58]) ++ [] ++ v0 :: (value ++ 59 :: rest))
    by (unfold line; rewrite <- !app_assoc; done).
  assert (L4 : line = (pre ++ seps ++ N ++ [58]) ++ V ++ 59 :: rest)
    by (unfold line; rewrite <- !app_assoc; done).
  assert (Hlen : len line = len pre + len seps + len N + 1 + len V + 1 + len rest).
  { unfold line. rewrite !len_app, len_cons, len_app, len_cons. lia. }
  pose proof (len_nonneg pre). pose proof (len_nonneg seps). pose proof (len_nonneg rest).
  assert (0 < len N) by (unfold N; rewrite len_cons; pose proof (len_nonneg name); lia).
  assert (0 < len V) by (unfold V; rewrite len_cons; pose proof (len_nonneg value); lia).
  cbn [parse_loop]. rewrite (proj2 (Z.ltb_lt (len pre) (len line))) by lia. cbn [negb].
  replace (skip_from is_space_or_tab_or_semicolon line (len pre)) with (len pre + len seps)
    by (rewrite L1; symmetry; by apply skip_from_run).
  rewrite (proj2 (Z.leb_gt (len line) (len pre + len seps))) by lia.
  replace (skip_from (fun b => negb (b =? 58)) line (len pre + len seps)) with (len pre + len seps + len N)
    by (rewrite L2, <- len_app; symmetry; by apply skip_from_run).
  rewrite (proj2 (Z.leb_gt (len line) (len pre + len seps + len N))) by lia.
  rewrite (str_slice_ascii line (len pre + len seps) (len pre + len seps + len N)) by (done || lia).
  cbn [mbind outcome_bind].
  replace (sub line (len pre + len seps) (len pre + len seps + len N)) with N
    by (rewrite L2, <- len_app; symmetry; apply sub_middle).
  assert (E58 : len pre + len seps + len N + 1 = len (pre ++ seps ++ N ++ [58])).
  { rewrite !len_app. change (len [58]) with 1. lia. }
  rewrite E58. replace (skip_from is_space_or_tab line (len (pre ++ seps ++ N ++ [58]))) with (len (pre ++ seps ++ N ++ [58])).
  2: { rewrite L3. rewrite (skip_from_run is_space_or_tab _ []) by (done || constructor). change (len (@nil Z)) with 0. lia. }
  replace (skip_from (fun b => negb (b =? 59)) line (len (pre ++ seps ++ N ++ [58])))
    with (len (pre ++ seps ++ N ++ [58]) + len V) by (rewrite L4; symmetry; by apply skip_from_run).
  rewrite str_slice_ascii by (done || lia). cbn [mbind outcome_bind].
  replace (sub line (len (pre ++ seps ++ N ++ [58])) (len (pre ++ seps ++ N ++ [58]) + len V)) with V
    by (rewrite L4; symmetry; apply sub_middle).
  rewrite (proj2 (Z.ltb_lt _ (len line))) by lia. rewrite !andb_true_r. unfold assign_property.
  replace (len (pre ++ seps ++ N ++ [58]) + len V) with (len (pre ++ seps ++ N ++ 58 :: V)).
  2: { rewrite !len_app, len_cons. change (len [58]) with 1. lia. }
  done.
Qed.

(** ** Whole lines *)

Definition line_text (ps : list (bytes * bytes)) : bytes :=
  concat (map (fun '(n, v) => 9 :: n ++ 58 :: v ++ [59]) ps).
Fixpoint assign_all (ps : list (bytes * bytes)) (p : Properties) : outcome Properties :=
  match ps with [] => Ret p | (n, v) :: ps => p ← assign_property n v p; assign_all ps p end.

Lemma skip_to_end p (pre a : bytes) : Forall (fun b => p b = true) a -> skip_from p (pre ++ a) (len pre) = len (pre ++ a).
Proof.
  intros Ha. unfold skip_from, from. unfold len at 1. rewrite Nat2Z.id, drop_app_length' by done.
  rewrite len_app. generalize (len pre). induction Ha as [|b a Hb _ IH]; intros pos; cbn [skip_bytes].
  - change (len (@nil Z)) with 0. lia.
  - rewrite Hb, IH, len_cons. lia.
Qed.
Lemma parse_line_loop ps fuel pre s0 p :
  ascii (pre ++ s0 ++ line_text ps) -> Forall (fun b => is_space_or_tab_or_semicolon b = true) s0 ->
  Forall (fun '(n, v) => plain_name n /\ plain_value v) ps -> (length ps < fuel)%nat ->
  parse_loop fuel (pre ++ s0 ++ line_text ps) (len pre) p = assign_all ps p.
Proof.
  revert fuel pre s0 p. induction ps as [|[n v] ps IH]; intros fuel pre s0 p Ha Hs Hps Hf.
  - destruct fuel as [|fuel]; [lia|]. cbn [line_text map concat assign_all]. rewrite app_nil_r in *. cbn [parse_loop].
    destruct (len pre <? len (pre ++ s0)); cbn [negb]; [|done].
    rewrite skip_to_end by done. by rewrite (proj2 (Z.leb_le (len (pre ++ s0)) _)) by lia.
  - apply Forall_cons_iff in Hps as [[Hn Hv] Hps]. destruct fuel as [|fuel]; [cbn in Hf; lia|].
    assert (E : pre ++ s0 ++ line_text ((n, v) :: ps) = pre ++ (s0 ++ [9]) ++ n ++ 58 :: v ++ 59 :: line_text ps).
    { unfold line_text. cbn [map concat app]. repeat (rewrite <- ?app_assoc; cbn [app]). done. }
    rewrite E in Ha |- *. rewrite parse_property; try done.
    2: { apply Forall_app. split; [done | by repeat constructor]. }
    cbn [assign_all]. destruct (assign_property n v p) as [p'|]; [|done]. cbn [mbind outcome_bind].
    assert (E2 : pre ++ (s0 ++ [9]) ++ n ++ 58 :: v ++ 59 :: line_text ps
                 = (pre ++ (s0 ++ [9]) ++ n ++ 58 :: v) ++ [59] ++ line_text ps).
    { repeat (rewrite <- ?app_assoc; cbn [app]). done. }
    rewrite E2 in Ha |- *. apply IH; [done | by repeat constructor | done | cbn in Hf; lia].
Qed.

(** The line of a field, as the kernel prints it. *)
Definition field_properties (field : bytes) (offset size : Z) (signed : option bool) : list (bytes * bytes) :=
  [(str_bytes "field", field); (str_bytes "offset", fmt_decimal offset); (str_bytes "size", fmt_decimal size)]
  ++ match signed with Some b => [(str_bytes "signed", fmt_decimal (if b then 1 else 0))] | None => [] end.
Definition format_line (field : bytes) (offset size : Z) (signed : option bool) : bytes :=
  line_text (field_properties field offset size signed).

Lemma digits_plain v : 0 <= v -> plain_value (fmt_decimal v) /\ ascii (fmt_decimal v).
Proof.
  intros Hv. unfold fmt_decimal. rewrite (proj2 (Z.ltb_ge v 0)) by lia.
  pose proof (decimal_loop_digits 20 v [] (List.Forall_nil _) Hv) as Hd.
  assert (Hne : decimal_loop 20 v [] <> []).
  { assert (G : forall n v t, t <> [] -> decimal_loop n v t <> []).
    { induction n as [|n IH]; intros w t Ht; [done|]. cbn [decimal_loop]. destruct (_ =? 0); [done|]. by apply IH. }
    change (decimal_loop 20 v []) with (if v / 10 =? 0 then [48 + v mod 10] else decimal_loop 19 (v / 10) [48 + v mod 10]).
    destruct (_ =? 0); [done | by apply G]. }
  set (l := decimal_loop 20 v []) in *. clearbody l. split; [split|].
  - eapply List.Forall_impl; [|exact Hd]. unfold is_digit. intros c Hc. apply negb_true_iff, Z.eqb_neq. lia.
  - destruct Hd as [|c t Hc Hd]; [done|]. unfold is_space_or_tab, is_digit in *.
    by rewrite (proj2 (Z.eqb_neq c 32)), (proj2 (Z.eqb_neq c 9)) by lia.
  - eapply List.Forall_impl; [|exact Hd]. unfold is_digit. lia.
Qed.
Lemma ascii_line ps : Forall (fun '(n, v) => ascii n /\ ascii v) ps -> ascii (line_text ps).
Proof.
  induction 1 as [|[n v] ps [Hn Hv] _ IH]; [constructor|]. unfold line_text. cbn [map concat].
  apply Forall_app. split; [|done]. constructor; [lia|]. apply Forall_app. split; [done|].
  constructor; [lia|]. apply Forall_app. split; [done | repeat constructor; lia].
Qed.

(** The four properties. *)
Ltac words := repeat match goal with
  | |- context [str_is (str_bytes ?a) ?b] =>
    let v := eval vm_compute in (str_is (str_bytes a) b) in change (str_is (str_bytes a) b) with v
  end; cbn [orb].
Lemma assign_field v p : assign_property (str_bytes "field") v p =
  Ret {| p_field := v; p_offset := p.(p_offset); p_size := p.(p_size); p_signed := p.(p_signed) |}.
Proof. unfold assign_property. by words. Qed.
Lemma assign_offset n p : 0 <= n < 2 ^ 16 -> assign_property (str_bytes "offset") (fmt_decimal n) p =
  Ret {| p_field := p.(p_field); p_offset := Some n; p_size := p.(p_size); p_signed := p.(p_signed) |}.
Proof.
  intros Hn. unfold assign_property. words. rewrite ascii_to_u32_decimal by lia. cbn [mbind outcome_bind fmap option_fmap option_map].
  by rewrite as_unsigned_id.
Qed.
Lemma assign_size n p : 0 <= n < 2 ^ 16 -> assign_property (str_bytes "size") (fmt_decimal n) p =
  Ret {| p_field := p.(p_field); p_offset := p.(p_offset); p_size := Some n; p_signed := p.(p_signed) |}.
Proof.
  intros Hn. unfold assign_property. words. rewrite ascii_to_u32_decimal by lia. cbn [mbind outcome_bind fmap option_fmap option_map].
  by rewrite as_unsigned_id.
Qed.
Lemma assign_signed (b : bool) p : assign_property (str_bytes "signed") (fmt_decimal (if b then 1 else 0)) p =
  Ret {| p_field := p.(p_field); p_offset := p.(p_offset); p_size := p.(p_size); p_signed := Some b |}.
Proof.
  unfold assign_property. words. rewrite ascii_to_u32_decimal by (destruct b; lia).
  cbn [mbind outcome_bind fmap option_fmap option_map]. by destruct b.
Qed.

(** Parsing the line that the kernel prints for a field gives what
    [PerfFieldFormat::new] makes of the printed declaration, offset, size and sign. *)
Lemma format_line_parsed long64 field offset size signed :
  ascii field -> plain_value field -> 0 <= offset < 2 ^ 16 -> 0 <= size < 2 ^ 16 ->
  PerfFieldFormat_parse long64 (format_line field offset size signed)
  = (f ← PerfFieldFormat_new long64 field offset size signed; Ret (Some f)).
Proof.
  intros Ha Hp Ho Hs. unfold PerfFieldFormat_parse, format_line.
  set (ps := field_properties field offset size signed).
  destruct (digits_plain offset) as [Po Ao]; [lia|]. destruct (digits_plain size) as [Ps As]; [lia|].
  assert (Nm : forall s, In s ["field"; "offset"; "size"; "signed"]%string -> plain_name (str_bytes s) /\ ascii (str_bytes s)).
  { intros s Hin. repeat destruct Hin as [<- | Hin]; try done; (split; [split; [by repeat constructor | done] | by apply List.Forall_forall; cbn; intuition lia]). }
  assert (Hps : Forall (fun '(n, v) => (plain_name n /\ plain_value v) /\ (ascii n /\ ascii v)) ps).
  { destruct (Nm "field"%string), (Nm "offset"%string), (Nm "size"%string), (Nm "signed"%string); try (cbn; tauto).
    unfold ps, field_properties. apply Forall_app. split.
    - do 3 (apply Forall_cons_iff; split; [tauto|]). constructor.
    - destruct signed as [b|]; [|constructor]. destruct (digits_plain (if b then 1 else 0)); [destruct b; lia|].
      apply Forall_cons_iff; split; [tauto | constructor]. }
  assert (E : parse_loop (S (length (line_text ps))) (line_text ps) 0
                {| p_field := []; p_offset := None; p_size := None; p_signed := None |}
              = Ret {| p_field := field; p_offset := Some offset; p_size := Some size; p_signed := signed |}).
  { rewrite (parse_line_loop ps _ [] []).
    - unfold ps, field_properties.
      destruct signed as [b|]; cbn [app assign_all]; rewrite assign_field; cbn [mbind outcome_bind];
        rewrite assign_offset by done; cbn [mbind outcome_bind]; rewrite assign_size by done; cbn [mbind outcome_bind]; [|done].
      by rewrite assign_signed.
    - apply ascii_line. eapply List.Forall_impl; [|exact Hps]. intros [n v]. tauto.
    - constructor.
    - eapply List.Forall_impl; [|exact Hps]. intros [n v]. tauto.
    - assert (G : forall l : list (bytes * bytes), (length l <= length (line_text l))%nat).
      { induction l as [|[n v] l IH]; [done|]. unfold line_text. cbn [map concat]. rewrite length_app. cbn [length].
        fold (line_text l). lia. }
      specialize (G ps). lia. }
  rewrite E. cbn [mbind outcome_bind p_offset p_size p_field p_signed].
  destruct field as [|b field]; [by destruct Hp|]. rewrite len_cons.
  rewrite (proj2 (Z.eqb_neq _ 0)); [done|]. pose proof (len_nonneg field). lia.
Qed.
