(* ===== verification/PerfAbi.v ===== *)
(** * PerfAbi: records of the kernel's perf interface and of perf.data files
    (tracepoint_decode/src/perf_abi.rs, tracepoint_perf/src/file_abi.rs,
    tracepoint_perf/src/header_index.rs)

    A newtype over an integer is that integer, with the type's name as prefix of its
    constants.  A [repr(C)] struct is a record with its layout: the widths of its
    fields in bytes, in order, without padding.  [transmute] reads and writes it in the
    byte order of the target. *)

From S2P Require Import Prelude Strings Types ByteReader.

(** ** Structs in memory *)

(** [v] is the value of the [i]th field. *)
Definition field (l : list Z) (i : nat) : Z := nth i l 0.

Class ReprC (T : Type) := {
  layout : list nat;
  to_fields : T -> list Z;
  of_fields : list Z -> T;
  of_to_fields t : of_fields (to_fields t) = t;
  length_to_fields t : length (to_fields t) = length layout;
}.
Arguments layout T {_}.

(** [mem::size_of::<T>()] *)
Definition size_of (T : Type) `{ReprC T} : Z := Z.of_nat (list_sum (layout T)).

Fixpoint encode_fields (r : PerfByteReader) (ws : list nat) (vs : list Z) : bytes :=
  match ws, vs with
  | w :: ws, v :: vs => to_source_bytes r w v ++ encode_fields r ws vs
  | _, _ => []
  end.
Fixpoint decode_fields (r : PerfByteReader) (ws : list nat) (l : bytes) : list Z :=
  match ws with
  | [] => []
  | w :: ws => from_source_bytes r (take w l) :: decode_fields r ws (drop w l)
  end.

(** The bytes of a struct whose fields have the byte order of [r], and back. *)
Definition struct_bytes {T} `{ReprC T} (r : PerfByteReader) (t : T) : bytes :=
  encode_fields r (layout T) (to_fields t).
Definition struct_of_bytes T `{ReprC T} (r : PerfByteReader) (l : bytes) : T :=
  of_fields (decode_fields r (layout T) l).

(** [u64::reverse_bits] *)
Fixpoint reverse_bits (n : nat) (v : Z) : Z :=
  match n with O => 0 | Datatypes.S n => (v mod 2) * 2 ^ Z.of_nat n + reverse_bits n (v / 2) end.

(** ** perf_event_attr *)

(* perf_abi.rs:19-19: PerfEventAttrType::Hardware *)
Definition AttrType_Hardware : Z := 0.
(* perf_abi.rs:22-22: PerfEventAttrType::Software *)
Definition AttrType_Software : Z := 1.
(* perf_abi.rs:25-25: PerfEventAttrType::Tracepoint *)
Definition AttrType_Tracepoint : Z := 2.
(* perf_abi.rs:28-28: PerfEventAttrType::HwCache *)
Definition AttrType_HwCache : Z := 3.
(* perf_abi.rs:31-31: PerfEventAttrType::Raw *)
Definition AttrType_Raw : Z := 4.
(* perf_abi.rs:34-34: PerfEventAttrType::Breakpoint *)
Definition AttrType_Breakpoint : Z := 5.
(* perf_abi.rs: PerfEventAttrType::as_string *)
Definition AttrType_as_string (ty : Z) : option bytes :=
  [str_bytes "Hardware"; str_bytes "Software"; str_bytes "Tracepoint"; str_bytes "HwCache";
   str_bytes "Raw"; str_bytes "Breakpoint"] !! Z.to_nat ty.

(* perf_abi.rs:85-85: PerfEventAttrSize::Zero *)
Definition AttrSize_Zero : Z := 0.
(* perf_abi.rs:88-88: PerfEventAttrSize::Ver0 *)
Definition AttrSize_Ver0 : Z := 64.
(* perf_abi.rs:91-91: PerfEventAttrSize::Ver1 *)
Definition AttrSize_Ver1 : Z := 72.
(* perf_abi.rs:94-94: PerfEventAttrSize::Ver2 *)
Definition AttrSize_Ver2 : Z := 80.
(* perf_abi.rs:97-97: PerfEventAttrSize::Ver3 *)
Definition AttrSize_Ver3 : Z := 96.
(* perf_abi.rs:100-100: PerfEventAttrSize::Ver4 *)
Definition AttrSize_Ver4 : Z := 104.
(* perf_abi.rs:103-103: PerfEventAttrSize::Ver5 *)
Definition AttrSize_Ver5 : Z := 112.
(* perf_abi.rs:106-106: PerfEventAttrSize::Ver6 *)
Definition AttrSize_Ver6 : Z := 120.
(* perf_abi.rs:109-109: PerfEventAttrSize::Ver7 *)
Definition AttrSize_Ver7 : Z := 128.

(* perf_abi.rs:131-131: PerfEventAttrSampleType::None *)
Definition SampleType_None : Z := 0.
(* perf_abi.rs:134-134: PerfEventAttrSampleType::IP *)
Definition SampleType_IP : Z := Z.shiftl 1 0.
(* perf_abi.rs:137-137: PerfEventAttrSampleType::Tid *)
Definition SampleType_Tid : Z := Z.shiftl 1 1.
(* perf_abi.rs:140-140: PerfEventAttrSampleType::Time *)
Definition SampleType_Time : Z := Z.shiftl 1 2.
(* perf_abi.rs:143-143: PerfEventAttrSampleType::Addr *)
Definition SampleType_Addr : Z := Z.shiftl 1 3.
(* perf_abi.rs:146-146: PerfEventAttrSampleType::Read *)
Definition SampleType_Read : Z := Z.shiftl 1 4.
(* perf_abi.rs:149-149: PerfEventAttrSampleType::Callchain *)
Definition SampleType_Callchain : Z := Z.shiftl 1 5.
(* perf_abi.rs:152-152: PerfEventAttrSampleType::Id *)
Definition SampleType_Id : Z := Z.shiftl 1 6.
(* perf_abi.rs:155-155: PerfEventAttrSampleType::Cpu *)
Definition SampleType_Cpu : Z := Z.shiftl 1 7.
(* perf_abi.rs:158-158: PerfEventAttrSampleType::Period *)
Definition SampleType_Period : Z := Z.shiftl 1 8.
(* perf_abi.rs:161-161: PerfEventAttrSampleType::StreamId *)
Definition SampleType_StreamId : Z := Z.shiftl 1 9.
(* perf_abi.rs:164-164: PerfEventAttrSampleType::Raw *)
Definition SampleType_Raw : Z := Z.shiftl 1 10.
(* perf_abi.rs:167-167: PerfEventAttrSampleType::BranchStack *)
Definition SampleType_BranchStack : Z := Z.shiftl 1 11.
(* perf_abi.rs:170-170: PerfEventAttrSampleType::RegsUser *)
Definition SampleType_RegsUser : Z := Z.shiftl 1 12.
(* perf_abi.rs:173-173: PerfEventAttrSampleType::StackUser *)
Definition SampleType_StackUser : Z := Z.shiftl 1 13.
(* perf_abi.rs:176-176: PerfEventAttrSampleType::Weight *)
Definition SampleType_Weight : Z := Z.shiftl 1 14.
(* perf_abi.rs:179-179: PerfEventAttrSampleType::DataSrc *)
Definition SampleType_DataSrc : Z := Z.shiftl 1 15.
(* perf_abi.rs:182-182: PerfEventAttrSampleType::Identifier *)
Definition SampleType_Identifier : Z := Z.shiftl 1 16.
(* perf_abi.rs:185-185: PerfEventAttrSampleType::Transaction *)
Definition SampleType_Transaction : Z := Z.shiftl 1 17.
(* perf_abi.rs:188-188: PerfEventAttrSampleType::RegsIntr *)
Definition SampleType_RegsIntr : Z := Z.shiftl 1 18.
(* perf_abi.rs:191-191: PerfEventAttrSampleType::PhysAddr *)
Definition SampleType_PhysAddr : Z := Z.shiftl 1 19.
(* perf_abi.rs:194-194: PerfEventAttrSampleType::Aux *)
Definition SampleType_Aux : Z := Z.shiftl 1 20.
(* perf_abi.rs:197-197: PerfEventAttrSampleType::Cgroup *)
Definition SampleType_Cgroup : Z := Z.shiftl 1 21.
(* perf_abi.rs:200-200: PerfEventAttrSampleType::DataPageSize *)
Definition SampleType_DataPageSize : Z := Z.shiftl 1 22.
(* perf_abi.rs:203-203: PerfEventAttrSampleType::CodePageSize *)
Definition SampleType_CodePageSize : Z := Z.shiftl 1 23.
(* perf_abi.rs:206-206: PerfEventAttrSampleType::WeightStruct *)
Definition SampleType_WeightStruct : Z := Z.shiftl 1 24.
(* perf_abi.rs:209-209: PerfEventAttrSampleType::WeightType *)
Definition SampleType_WeightType : Z := Z.lor SampleType_Weight SampleType_WeightStruct.
(* perf_abi.rs: PerfEventAttrSampleType::has_flag *)
Definition SampleType_has_flag (self mask : Z) : bool := negb (Z.land self mask =? 0).

(* perf_abi.rs:241-241: PerfEventAttrReadFormat::None *)
Definition ReadFormat_None : Z := 0.
(* perf_abi.rs:244-244: PerfEventAttrReadFormat::TotalTimeEnabled *)
Definition ReadFormat_TotalTimeEnabled : Z := Z.shiftl 1 0.
(* perf_abi.rs:247-247: PerfEventAttrReadFormat::TotalTimeRunning *)
Definition ReadFormat_TotalTimeRunning : Z := Z.shiftl 1 1.
(* perf_abi.rs:250-250: PerfEventAttrReadFormat::Id *)
Definition ReadFormat_Id : Z := Z.shiftl 1 2.
(* perf_abi.rs:253-253: PerfEventAttrReadFormat::Group *)
Definition ReadFormat_Group : Z := Z.shiftl 1 3.
(* perf_abi.rs:256-256: PerfEventAttrReadFormat::Lost *)
Definition ReadFormat_Lost : Z := Z.shiftl 1 4.
(* perf_abi.rs: PerfEventAttrReadFormat::has_flag *)
Definition ReadFormat_has_flag (self mask : Z) : bool := negb (Z.land self mask =? 0).

(* perf_abi.rs:288-288: PerfEventAttrOptions::None *)
Definition AttrOptions_None : Z := 0.
(* perf_abi.rs:291-291: PerfEventAttrOptions::Disabled *)
Definition AttrOptions_Disabled : Z := Z.shiftl 1 0.
(* perf_abi.rs:294-294: PerfEventAttrOptions::Inherit *)
Definition AttrOptions_Inherit : Z := Z.shiftl 1 1.
(* perf_abi.rs:297-297: PerfEventAttrOptions::Pinned *)
Definition AttrOptions_Pinned : Z := Z.shiftl 1 2.
(* perf_abi.rs:300-300: PerfEventAttrOptions::Exclusive *)
Definition AttrOptions_Exclusive : Z := Z.shiftl 1 3.
(* perf_abi.rs:303-303: PerfEventAttrOptions::ExcludeUser *)
Definition AttrOptions_ExcludeUser : Z := Z.shiftl 1 4.
(* perf_abi.rs:306-306: PerfEventAttrOptions::ExcludeKernel *)
Definition AttrOptions_ExcludeKernel : Z := Z.shiftl 1 5.
(* perf_abi.rs:309-309: PerfEventAttrOptions::ExcludeHypervisor *)
Definition AttrOptions_ExcludeHypervisor : Z := Z.shiftl 1 6.
(* perf_abi.rs:312-312: PerfEventAttrOptions::ExcludeIdle *)
Definition AttrOptions_ExcludeIdle : Z := Z.shiftl 1 7.
(* perf_abi.rs:315-315: PerfEventAttrOptions::Mmap *)
Definition AttrOptions_Mmap : Z := Z.shiftl 1 8.
(* perf_abi.rs:318-318: PerfEventAttrOptions::Comm *)
Definition AttrOptions_Comm : Z := Z.shiftl 1 9.
(* perf_abi.rs:321-321: PerfEventAttrOptions::Freq *)
Definition AttrOptions_Freq : Z := Z.shiftl 1 10.
(* perf_abi.rs:324-324: PerfEventAttrOptions::InheritStat *)
Definition AttrOptions_InheritStat : Z := Z.shiftl 1 11.
(* perf_abi.rs:327-327: PerfEventAttrOptions::EnableOnExec *)
Definition AttrOptions_EnableOnExec : Z := Z.shiftl 1 12.
(* perf_abi.rs:330-330: PerfEventAttrOptions::Task *)
Definition AttrOptions_Task : Z := Z.shiftl 1 13.
(* perf_abi.rs:333-333: PerfEventAttrOptions::Watermark *)
Definition AttrOptions_Watermark : Z := Z.shiftl 1 14.
(* perf_abi.rs:339-339: PerfEventAttrOptions::PreciseIPSkidConstant *)
Definition AttrOptions_PreciseIPSkidConstant : Z := Z.shiftl 1 15.
(* perf_abi.rs:345-345: PerfEventAttrOptions::PreciseIPSkidZero *)
Definition AttrOptions_PreciseIPSkidZero : Z := Z.shiftl 1 16.
(* perf_abi.rs:348-348: PerfEventAttrOptions::MmapData *)
Definition AttrOptions_MmapData : Z := Z.shiftl 1 17.
(* perf_abi.rs:351-351: PerfEventAttrOptions::SampleIdAll *)
Definition AttrOptions_SampleIdAll : Z := Z.shiftl 1 18.
(* perf_abi.rs:354-354: PerfEventAttrOptions::ExcludeHost *)
Definition AttrOptions_ExcludeHost : Z := Z.shiftl 1 19.
(* perf_abi.rs:357-357: PerfEventAttrOptions::ExcludeGuest *)
Definition AttrOptions_ExcludeGuest : Z := Z.shiftl 1 20.
(* perf_abi.rs:360-360: PerfEventAttrOptions::ExcludeCallchainKernel *)
Definition AttrOptions_ExcludeCallchainKernel : Z := Z.shiftl 1 21.
(* perf_abi.rs:363-363: PerfEventAttrOptions::ExcludeCallchainUser *)
Definition AttrOptions_ExcludeCallchainUser : Z := Z.shiftl 1 22.
(* perf_abi.rs:366-366: PerfEventAttrOptions::Mmap2 *)
Definition AttrOptions_Mmap2 : Z := Z.shiftl 1 23.
(* perf_abi.rs:369-369: PerfEventAttrOptions::CommExec *)
Definition AttrOptions_CommExec : Z := Z.shiftl 1 24.
(* perf_abi.rs:372-372: PerfEventAttrOptions::UseClockId *)
Definition AttrOptions_UseClockId : Z := Z.shiftl 1 25.
(* perf_abi.rs:375-375: PerfEventAttrOptions::ContextSwitch *)
Definition AttrOptions_ContextSwitch : Z := Z.shiftl 1 26.
(* perf_abi.rs:378-378: PerfEventAttrOptions::WriteBackward *)
Definition AttrOptions_WriteBackward : Z := Z.shiftl 1 27.
(* perf_abi.rs:381-381: PerfEventAttrOptions::Namespaces *)
Definition AttrOptions_Namespaces : Z := Z.shiftl 1 28.
(* perf_abi.rs:384-384: PerfEventAttrOptions::Ksymbol *)
Definition AttrOptions_Ksymbol : Z := Z.shiftl 1 29.
(* perf_abi.rs:387-387: PerfEventAttrOptions::BpfEvent *)
Definition AttrOptions_BpfEvent : Z := Z.shiftl 1 30.
(* perf_abi.rs:390-390: PerfEventAttrOptions::AuxOutput *)
Definition AttrOptions_AuxOutput : Z := Z.shiftl 1 31.
(* perf_abi.rs:393-393: PerfEventAttrOptions::Cgroup *)
Definition AttrOptions_Cgroup : Z := Z.shiftl 1 32.
(* perf_abi.rs:396-396: PerfEventAttrOptions::TextPoke *)
Definition AttrOptions_TextPoke : Z := Z.shiftl 1 33.
(* perf_abi.rs:399-399: PerfEventAttrOptions::BuildId *)
Definition AttrOptions_BuildId : Z := Z.shiftl 1 34.
(* perf_abi.rs:402-402: PerfEventAttrOptions::InheritThread *)
Definition AttrOptions_InheritThread : Z := Z.shiftl 1 35.
(* perf_abi.rs:405-405: PerfEventAttrOptions::RemoveOnExec *)
Definition AttrOptions_RemoveOnExec : Z := Z.shiftl 1 36.
(* perf_abi.rs:408-408: PerfEventAttrOptions::Sigtrap *)
Definition AttrOptions_Sigtrap : Z := Z.shiftl 1 37.
(* perf_abi.rs: PerfEventAttrOptions::has_flag *)
Definition AttrOptions_has_flag (self mask : Z) : bool := negb (Z.land self mask =? 0).

(* perf_abi.rs: struct PerfEventAttr *)
Record PerfEventAttr := {
     attr_type : Z; attr_size : Z; attr_config : Z; attr_sample_time : Z; attr_sample_type : Z;
     attr_read_format : Z; attr_options : Z; attr_wakeup_value : Z; attr_bp_type : Z; attr_config1 : Z;
     attr_config2 : Z; attr_branch_sample_type : Z; attr_sample_regs_user : Z; attr_sample_stack_user : Z;
     attr_clockid : Z; attr_sample_regs_intr : Z; attr_aux_watermark : Z; attr_sample_max_stack : Z;
     attr_reserved2 : Z; attr_aux_sample_size : Z; attr_reserved3 : Z; attr_sig_data : Z }.

#[export] Instance PerfEventAttr_struct : ReprC PerfEventAttr := {|
  layout :=
    [4%nat; 4%nat; 8%nat; 8%nat; 8%nat; 8%nat; 8%nat; 4%nat; 4%nat; 8%nat; 8%nat; 8%nat; 8%nat; 4%nat;
     4%nat; 8%nat; 4%nat; 2%nat; 2%nat; 4%nat; 4%nat; 8%nat];
  to_fields a :=
    [a.(attr_type); a.(attr_size); a.(attr_config); a.(attr_sample_time); a.(attr_sample_type);
     a.(attr_read_format); a.(attr_options); a.(attr_wakeup_value); a.(attr_bp_type); a.(attr_config1);
     a.(attr_config2); a.(attr_branch_sample_type); a.(attr_sample_regs_user); a.(attr_sample_stack_user);
     a.(attr_clockid); a.(attr_sample_regs_intr); a.(attr_aux_watermark); a.(attr_sample_max_stack);
     a.(attr_reserved2); a.(attr_aux_sample_size); a.(attr_reserved3); a.(attr_sig_data)];
  of_fields l :=
    {| attr_type := field l 0; attr_size := field l 1; attr_config := field l 2;
     attr_sample_time := field l 3; attr_sample_type := field l 4; attr_read_format := field l 5;
     attr_options := field l 6; attr_wakeup_value := field l 7; attr_bp_type := field l 8;
     attr_config1 := field l 9; attr_config2 := field l 10; attr_branch_sample_type := field l 11;
     attr_sample_regs_user := field l 12; attr_sample_stack_user := field l 13;
     attr_clockid := field l 14; attr_sample_regs_intr := field l 15; attr_aux_watermark := field l 16;
     attr_sample_max_stack := field l 17; attr_reserved2 := field l 18;
     attr_aux_sample_size := field l 19; attr_reserved3 := field l 20; attr_sig_data := field l 21 |};
  of_to_fields := ltac:(by intros []);
  length_to_fields := ltac:(by intros []);
|}.

Definition attr_default : PerfEventAttr :=
  {| attr_type := 0; attr_size := 0; attr_config := 0; attr_sample_time := 0; attr_sample_type := 0;
     attr_read_format := 0; attr_options := 0; attr_wakeup_value := 0; attr_bp_type := 0;
     attr_config1 := 0; attr_config2 := 0; attr_branch_sample_type := 0; attr_sample_regs_user := 0;
     attr_sample_stack_user := 0; attr_clockid := 0; attr_sample_regs_intr := 0; attr_aux_watermark := 0;
     attr_sample_max_stack := 0; attr_reserved2 := 0; attr_aux_sample_size := 0; attr_reserved3 := 0;
     attr_sig_data := 0 |}.
Definition set_attr_size (n : Z) (a : PerfEventAttr) : PerfEventAttr :=
  {| attr_type := a.(attr_type); attr_size := n; attr_config := a.(attr_config);
     attr_sample_time := a.(attr_sample_time); attr_sample_type := a.(attr_sample_type);
     attr_read_format := a.(attr_read_format); attr_options := a.(attr_options);
     attr_wakeup_value := a.(attr_wakeup_value); attr_bp_type := a.(attr_bp_type);
     attr_config1 := a.(attr_config1); attr_config2 := a.(attr_config2);
     attr_branch_sample_type := a.(attr_branch_sample_type);
     attr_sample_regs_user := a.(attr_sample_regs_user);
     attr_sample_stack_user := a.(attr_sample_stack_user); attr_clockid := a.(attr_clockid);
     attr_sample_regs_intr := a.(attr_sample_regs_intr); attr_aux_watermark := a.(attr_aux_watermark);
     attr_sample_max_stack := a.(attr_sample_max_stack); attr_reserved2 := a.(attr_reserved2);
     attr_aux_sample_size := a.(attr_aux_sample_size); attr_reserved3 := a.(attr_reserved3);
     attr_sig_data := a.(attr_sig_data) |}.

(* perf_abi.rs: const PerfEventAttr::SIZE_OFFSET *)
Definition SIZE_OFFSET : Z := 4.

(* perf_abi.rs: PerfEventAttr::byte_swap *)
Definition attr_byte_swap (a : PerfEventAttr) : PerfEventAttr :=
  {| attr_type := swap_bytes 4 a.(attr_type); attr_size := swap_bytes 4 a.(attr_size);
     attr_config := swap_bytes 8 a.(attr_config); attr_sample_time := swap_bytes 8 a.(attr_sample_time);
     attr_sample_type := swap_bytes 8 a.(attr_sample_type);
     attr_read_format := swap_bytes 8 a.(attr_read_format);
     attr_options := swap_bytes 8 (reverse_bits 64 a.(attr_options));
     attr_wakeup_value := swap_bytes 4 a.(attr_wakeup_value);
     attr_bp_type := swap_bytes 4 a.(attr_bp_type); attr_config1 := swap_bytes 8 a.(attr_config1);
     attr_config2 := swap_bytes 8 a.(attr_config2);
     attr_branch_sample_type := swap_bytes 8 a.(attr_branch_sample_type);
     attr_sample_regs_user := swap_bytes 8 a.(attr_sample_regs_user);
     attr_sample_stack_user := swap_bytes 4 a.(attr_sample_stack_user); attr_clockid := a.(attr_clockid);
     attr_sample_regs_intr := a.(attr_sample_regs_intr);
     attr_aux_watermark := swap_bytes 4 a.(attr_aux_watermark);
     attr_sample_max_stack := swap_bytes 2 a.(attr_sample_max_stack);
     attr_reserved2 := a.(attr_reserved2); attr_aux_sample_size := swap_bytes 4 a.(attr_aux_sample_size);
     attr_reserved3 := a.(attr_reserved3); attr_sig_data := a.(attr_sig_data) |}.

(** ** perf_event_header *)

(* perf_abi.rs:601-601: PerfEventHeaderType::None *)
Definition HeaderType_None : Z := 0.
(* perf_abi.rs:619-619: PerfEventHeaderType::Mmap *)
Definition HeaderType_Mmap : Z := 1.
(* perf_abi.rs:630-630: PerfEventHeaderType::Lost *)
Definition HeaderType_Lost : Z := 2.
(* perf_abi.rs:642-642: PerfEventHeaderType::Comm *)
Definition HeaderType_Comm : Z := 3.
(* perf_abi.rs:654-654: PerfEventHeaderType::Exit *)
Definition HeaderType_Exit : Z := 4.
(* perf_abi.rs:666-666: PerfEventHeaderType::Throttle *)
Definition HeaderType_Throttle : Z := 5.
(* perf_abi.rs:678-678: PerfEventHeaderType::Unthrottle *)
Definition HeaderType_Unthrottle : Z := 6.
(* perf_abi.rs:690-690: PerfEventHeaderType::Fork *)
Definition HeaderType_Fork : Z := 7.
(* perf_abi.rs:702-702: PerfEventHeaderType::Read *)
Definition HeaderType_Read : Z := 8.
(* perf_abi.rs:785-785: PerfEventHeaderType::Sample *)
Definition HeaderType_Sample : Z := 9.
(* perf_abi.rs:817-817: PerfEventHeaderType::Mmap2 *)
Definition HeaderType_Mmap2 : Z := 10.
(* perf_abi.rs:832-832: PerfEventHeaderType::Aux *)
Definition HeaderType_Aux : Z := 11.
(* perf_abi.rs:845-845: PerfEventHeaderType::ItraceStart *)
Definition HeaderType_ItraceStart : Z := 12.
(* perf_abi.rs:858-858: PerfEventHeaderType::LostSamples *)
Definition HeaderType_LostSamples : Z := 13.
(* perf_abi.rs:871-871: PerfEventHeaderType::Switch *)
Definition HeaderType_Switch : Z := 14.
(* perf_abi.rs:886-886: PerfEventHeaderType::SwitchCpuWide *)
Definition HeaderType_SwitchCpuWide : Z := 15.
(* perf_abi.rs:899-899: PerfEventHeaderType::Namespaces *)
Definition HeaderType_Namespaces : Z := 16.
(* perf_abi.rs:915-915: PerfEventHeaderType::Ksymbol *)
Definition HeaderType_Ksymbol : Z := 17.
(* perf_abi.rs:936-936: PerfEventHeaderType::BpfEvent *)
Definition HeaderType_BpfEvent : Z := 18.
(* perf_abi.rs:947-947: PerfEventHeaderType::Cgroup *)
Definition HeaderType_Cgroup : Z := 19.
(* perf_abi.rs:966-966: PerfEventHeaderType::TextPoke *)
Definition HeaderType_TextPoke : Z := 20.
(* perf_abi.rs:982-982: PerfEventHeaderType::AuxOutputHwId *)
Definition HeaderType_AuxOutputHwId : Z := 21.
(* perf_abi.rs:992-992: PerfEventHeaderType::HeaderAttr *)
Definition HeaderType_HeaderAttr : Z := 64.
(* perf_abi.rs:995-995: PerfEventHeaderType::UserTypeStart *)
Definition HeaderType_UserTypeStart : Z := HeaderType_HeaderAttr.
(* perf_abi.rs:1011-1011: PerfEventHeaderType::HeaderEventType *)
Definition HeaderType_HeaderEventType : Z := 65.
(* perf_abi.rs:1020-1020: PerfEventHeaderType::HeaderTracingData *)
Definition HeaderType_HeaderTracingData : Z := 66.
(* perf_abi.rs:1025-1025: PerfEventHeaderType::HeaderBuildId *)
Definition HeaderType_HeaderBuildId : Z := 67.
(* perf_abi.rs:1030-1030: PerfEventHeaderType::FinishedRound *)
Definition HeaderType_FinishedRound : Z := 68.
(* perf_abi.rs:1049-1049: PerfEventHeaderType::IdIndex *)
Definition HeaderType_IdIndex : Z := 69.
(* perf_abi.rs:1062-1062: PerfEventHeaderType::AuxtraceInfo *)
Definition HeaderType_AuxtraceInfo : Z := 70.
(* perf_abi.rs:1089-1089: PerfEventHeaderType::Auxtrace *)
Definition HeaderType_Auxtrace : Z := 71.
(* perf_abi.rs:1114-1114: PerfEventHeaderType::AuxtraceError *)
Definition HeaderType_AuxtraceError : Z := 72.
(* perf_abi.rs:1117-1117: PerfEventHeaderType::ThreadMap *)
Definition HeaderType_ThreadMap : Z := 73.
(* perf_abi.rs:1120-1120: PerfEventHeaderType::CpuMap *)
Definition HeaderType_CpuMap : Z := 74.
(* perf_abi.rs:1123-1123: PerfEventHeaderType::StatConfig *)
Definition HeaderType_StatConfig : Z := 75.
(* perf_abi.rs:1126-1126: PerfEventHeaderType::Stat *)
Definition HeaderType_Stat : Z := 76.
(* perf_abi.rs:1129-1129: PerfEventHeaderType::StatRound *)
Definition HeaderType_StatRound : Z := 77.
(* perf_abi.rs:1132-1132: PerfEventHeaderType::EventUpdate *)
Definition HeaderType_EventUpdate : Z := 78.
(* perf_abi.rs:1135-1135: PerfEventHeaderType::TimeConv *)
Definition HeaderType_TimeConv : Z := 79.
(* perf_abi.rs:1141-1141: PerfEventHeaderType::HeaderFeature *)
Definition HeaderType_HeaderFeature : Z := 80.
(* perf_abi.rs:1153-1153: PerfEventHeaderType::Compressed *)
Definition HeaderType_Compressed : Z := 81.
(* perf_abi.rs:1163-1163: PerfEventHeaderType::FinishedInit *)
Definition HeaderType_FinishedInit : Z := 82.

Fixpoint assoc (k : Z) (l : list (Z * bytes)) : option bytes :=
  match l with [] => None | (k', v) :: l => if k =? k' then Some v else assoc k l end.
(* perf_abi.rs: PerfEventHeaderType::as_string *)
Definition HeaderType_as_string (ty : Z) : option bytes :=
  assoc ty
  [(HeaderType_None, str_bytes "None");
   (HeaderType_Mmap, str_bytes "Mmap");
   (HeaderType_Lost, str_bytes "Lost");
   (HeaderType_Comm, str_bytes "Comm");
   (HeaderType_Exit, str_bytes "Exit");
   (HeaderType_Throttle, str_bytes "Throttle");
   (HeaderType_Unthrottle, str_bytes "Unthrottle");
   (HeaderType_Fork, str_bytes "Fork");
   (HeaderType_Read, str_bytes "Read");
   (HeaderType_Sample, str_bytes "Sample");
   (HeaderType_Mmap2, str_bytes "Mmap2");
   (HeaderType_Aux, str_bytes "Aux");
   (HeaderType_ItraceStart, str_bytes "ItraceStart");
   (HeaderType_LostSamples, str_bytes "LostSamples");
   (HeaderType_Switch, str_bytes "Switch");
   (HeaderType_SwitchCpuWide, str_bytes "SwitchCpuWide");
   (HeaderType_Namespaces, str_bytes "Namespaces");
   (HeaderType_Ksymbol, str_bytes "Ksymbol");
   (HeaderType_BpfEvent, str_bytes "BpfEvent");
   (HeaderType_Cgroup, str_bytes "Cgroup");
   (HeaderType_TextPoke, str_bytes "TextPoke");
   (HeaderType_AuxOutputHwId, str_bytes "AuxOutputHwId");
   (HeaderType_HeaderAttr, str_bytes "HeaderAttr");
   (HeaderType_HeaderEventType, str_bytes "HeaderEventType");
   (HeaderType_HeaderTracingData, str_bytes "HeaderTracingData");
   (HeaderType_HeaderBuildId, str_bytes "HeaderBuildId");
   (HeaderType_FinishedRound, str_bytes "FinishedRound");
   (HeaderType_IdIndex, str_bytes "IdIndex");
   (HeaderType_AuxtraceInfo, str_bytes "AuxtraceInfo");
   (HeaderType_Auxtrace, str_bytes "Auxtrace");
   (HeaderType_AuxtraceError, str_bytes "AuxtraceError");
   (HeaderType_ThreadMap, str_bytes "ThreadMap");
   (HeaderType_CpuMap, str_bytes "CpuMap");
   (HeaderType_StatConfig, str_bytes "StatConfig");
   (HeaderType_Stat, str_bytes "Stat");
   (HeaderType_StatRound, str_bytes "StatRound");
   (HeaderType_EventUpdate, str_bytes "EventUpdate");
   (HeaderType_TimeConv, str_bytes "TimeConv");
   (HeaderType_HeaderFeature, str_bytes "HeaderFeature");
   (HeaderType_Compressed, str_bytes "Compressed");
   (HeaderType_FinishedInit, str_bytes "FinishedInit")].

(* perf_abi.rs:1245-1245: PerfEventHeaderMiscCpuMode::Unknown *)
Definition CpuMode_Unknown : Z := 0.
(* perf_abi.rs:1250-1250: PerfEventHeaderMiscCpuMode::Kernel *)
Definition CpuMode_Kernel : Z := 1.
(* perf_abi.rs:1255-1255: PerfEventHeaderMiscCpuMode::User *)
Definition CpuMode_User : Z := 2.
(* perf_abi.rs:1260-1260: PerfEventHeaderMiscCpuMode::Hypervisor *)
Definition CpuMode_Hypervisor : Z := 3.
(* perf_abi.rs:1265-1265: PerfEventHeaderMiscCpuMode::GuestKernel *)
Definition CpuMode_GuestKernel : Z := 4.
(* perf_abi.rs:1270-1270: PerfEventHeaderMiscCpuMode::GuestUser *)
Definition CpuMode_GuestUser : Z := 5.
(* perf_abi.rs: PerfEventHeaderMisc::cpu_mode *)
Definition cpu_mode (misc : Z) : Z := as_unsigned 8 (Z.land misc 0x7).
(* perf_abi.rs: PerfEventHeaderMisc::proc_map_parse_timeout *)
Definition proc_map_parse_timeout (misc : Z) : bool := negb (Z.land misc 0x1000 =? 0).
(* perf_abi.rs: PerfEventHeaderMisc::mmap_data *)
Definition mmap_data (misc : Z) : bool := negb (Z.land misc 0x2000 =? 0).
(* perf_abi.rs: PerfEventHeaderMisc::comm_exec *)
Definition comm_exec (misc : Z) : bool := negb (Z.land misc 0x2000 =? 0).
(* perf_abi.rs: PerfEventHeaderMisc::fork_exec *)
Definition fork_exec (misc : Z) : bool := negb (Z.land misc 0x2000 =? 0).
(* perf_abi.rs: PerfEventHeaderMisc::switch_out *)
Definition switch_out (misc : Z) : bool := negb (Z.land misc 0x2000 =? 0).
(* perf_abi.rs: PerfEventHeaderMisc::exact_ip *)
Definition exact_ip (misc : Z) : bool := negb (Z.land misc 0x4000 =? 0).
(* perf_abi.rs: PerfEventHeaderMisc::switch_out_preempt *)
Definition switch_out_preempt (misc : Z) : bool := negb (Z.land misc 0x4000 =? 0).
(* perf_abi.rs: PerfEventHeaderMisc::mmap_build_id *)
Definition mmap_build_id (misc : Z) : bool := negb (Z.land misc 0x4000 =? 0).
(* perf_abi.rs: PerfEventHeaderMisc::ext_reserved *)
Definition ext_reserved (misc : Z) : bool := negb (Z.land misc 0x8000 =? 0).

(* perf_abi.rs: struct PerfEventHeader *)
Record PerfEventHeader := { eh_type : Z; eh_misc : Z; eh_size : Z }.
#[export] Instance PerfEventHeader_struct : ReprC PerfEventHeader := {|
  layout := [4%nat; 2%nat; 2%nat];
  to_fields h := [h.(eh_type); h.(eh_misc); h.(eh_size)];
  of_fields l := {| eh_type := field l 0; eh_misc := field l 1; eh_size := field l 2 |};
  of_to_fields := ltac:(by intros []);
  length_to_fields := ltac:(by intros []);
|}.

(* perf_abi.rs: PerfEventHeader::new *)
Definition PerfEventHeader_new : PerfEventHeader := {| eh_type := HeaderType_None; eh_misc := 0; eh_size := 0 |}.
(* perf_abi.rs: PerfEventHeader::byte_swap_copy *)
Definition header_byte_swap (h : PerfEventHeader) : PerfEventHeader :=
  {| eh_type := swap_bytes 4 h.(eh_type); eh_misc := swap_bytes 2 h.(eh_misc); eh_size := swap_bytes 2 h.(eh_size) |}.
(* perf_abi.rs: PerfEventHeader::from_bytes *)
Definition PerfEventHeader_from_bytes `{Target} (bytes : bytes) (r : PerfByteReader) : PerfEventHeader :=
  let header := struct_of_bytes PerfEventHeader KEEP_ENDIAN bytes in
  if byte_swap_needed r then header_byte_swap header else header.

(** ** perf.data files *)

(* file_abi.rs: struct ClockData *)
Record ClockData := { cd_version : Z; cd_clockid : Z; cd_wall_clock_ns : Z; cd_clockid_time_ns : Z }.
#[export] Instance ClockData_struct : ReprC ClockData := {|
  layout := [4%nat; 4%nat; 8%nat; 8%nat];
  to_fields c := [c.(cd_version); c.(cd_clockid); c.(cd_wall_clock_ns); c.(cd_clockid_time_ns)];
  of_fields l := {| cd_version := field l 0; cd_clockid := field l 1; cd_wall_clock_ns := field l 2;
                    cd_clockid_time_ns := field l 3 |};
  of_to_fields := ltac:(by intros []);
  length_to_fields := ltac:(by intros []);
|}.
(* file_abi.rs: ClockData::byte_swap *)
Definition clock_byte_swap (c : ClockData) : ClockData :=
  {| cd_version := swap_bytes 4 c.(cd_version); cd_clockid := swap_bytes 4 c.(cd_clockid);
     cd_wall_clock_ns := swap_bytes 8 c.(cd_wall_clock_ns);
     cd_clockid_time_ns := swap_bytes 8 c.(cd_clockid_time_ns) |}.

(* file_abi.rs: struct PerfFileSection *)
Record PerfFileSection := { sec_offset : Z; sec_size : Z }.
#[export] Instance PerfFileSection_struct : ReprC PerfFileSection := {|
  layout := [8%nat; 8%nat];
  to_fields s := [s.(sec_offset); s.(sec_size)];
  of_fields l := {| sec_offset := field l 0; sec_size := field l 1 |};
  of_to_fields := ltac:(by intros []);
  length_to_fields := ltac:(by intros []);
|}.
Definition section_default : PerfFileSection := {| sec_offset := 0; sec_size := 0 |}.
(* file_abi.rs: PerfFileSection::byte_swap *)
Definition section_byte_swap (s : PerfFileSection) : PerfFileSection :=
  {| sec_offset := swap_bytes 8 s.(sec_offset); sec_size := swap_bytes 8 s.(sec_size) |}.

(* file_abi.rs: struct PerfFileHeaderPipe *)
Record PerfFileHeaderPipe := { hp_magic : Z; hp_size : Z }.
#[export] Instance PerfFileHeaderPipe_struct : ReprC PerfFileHeaderPipe := {|
  layout := [8%nat; 8%nat];
  to_fields s := [s.(hp_magic); s.(hp_size)];
  of_fields l := {| hp_magic := field l 0; hp_size := field l 1 |};
  of_to_fields := ltac:(by intros []);
  length_to_fields := ltac:(by intros []);
|}.
(* file_abi.rs: PerfFileHeaderPipe::byte_swap *)
Definition pipe_byte_swap (h : PerfFileHeaderPipe) : PerfFileHeaderPipe :=
  {| hp_magic := swap_bytes 8 h.(hp_magic); hp_size := swap_bytes 8 h.(hp_size) |}.

(** [flags] is an array of four words. *)
(* file_abi.rs: struct PerfFileHeaderRest *)
Record PerfFileHeaderRest := {
  hr_attr_size : Z; hr_attrs : PerfFileSection; hr_data : PerfFileSection; hr_event_types : PerfFileSection;
  hr_flags0 : Z; hr_flags1 : Z; hr_flags2 : Z; hr_flags3 : Z }.
#[export] Instance PerfFileHeaderRest_struct : ReprC PerfFileHeaderRest := {|
  layout := [8%nat; 8%nat; 8%nat; 8%nat; 8%nat; 8%nat; 8%nat; 8%nat; 8%nat; 8%nat; 8%nat];
  to_fields h :=
    [h.(hr_attr_size); h.(hr_attrs).(sec_offset); h.(hr_attrs).(sec_size); h.(hr_data).(sec_offset);
     h.(hr_data).(sec_size); h.(hr_event_types).(sec_offset); h.(hr_event_types).(sec_size);
     h.(hr_flags0); h.(hr_flags1); h.(hr_flags2); h.(hr_flags3)];
  of_fields l :=
    {| hr_attr_size := field l 0;
       hr_attrs := {| sec_offset := field l 1; sec_size := field l 2 |};
       hr_data := {| sec_offset := field l 3; sec_size := field l 4 |};
       hr_event_types := {| sec_offset := field l 5; sec_size := field l 6 |};
       hr_flags0 := field l 7; hr_flags1 := field l 8; hr_flags2 := field l 9; hr_flags3 := field l 10 |};
  of_to_fields := ltac:(by intros [? [] [] []]);
  length_to_fields := ltac:(by intros [? [] [] []]);
|}.
(* file_abi.rs: PerfFileHeaderRest::byte_swap *)
Definition rest_byte_swap (h : PerfFileHeaderRest) : PerfFileHeaderRest :=
  {| hr_attr_size := swap_bytes 8 h.(hr_attr_size); hr_attrs := section_byte_swap h.(hr_attrs);
     hr_data := section_byte_swap h.(hr_data); hr_event_types := section_byte_swap h.(hr_event_types);
     hr_flags0 := swap_bytes 8 h.(hr_flags0); hr_flags1 := swap_bytes 8 h.(hr_flags1);
     hr_flags2 := swap_bytes 8 h.(hr_flags2); hr_flags3 := swap_bytes 8 h.(hr_flags3) |}.

(* file_abi.rs: struct PerfFileHeader *)
Record PerfFileHeader := { fh_pipe : PerfFileHeaderPipe; fh_rest : PerfFileHeaderRest }.
#[export] Instance PerfFileHeader_struct : ReprC PerfFileHeader := {|
  layout := layout PerfFileHeaderPipe ++ layout PerfFileHeaderRest;
  to_fields h := to_fields h.(fh_pipe) ++ to_fields h.(fh_rest);
  of_fields l := {| fh_pipe := of_fields (take 2 l); fh_rest := of_fields (drop 2 l) |};
  of_to_fields := ltac:(by intros [[] [? [] [] []]]);
  length_to_fields := ltac:(by intros [[] [? [] [] []]]);
|}.
(* file_abi.rs: PerfFileHeader::byte_swap *)
Definition file_header_byte_swap (h : PerfFileHeader) : PerfFileHeader :=
  {| fh_pipe := pipe_byte_swap h.(fh_pipe); fh_rest := rest_byte_swap h.(fh_rest) |}.

(** ** Header indexes *)

(* header_index.rs:16-16: PerfHeaderIndex::Reserved *)
Definition HeaderIndex_Reserved : Z := 0.
(* header_index.rs:19-19: PerfHeaderIndex::TracingData *)
Definition HeaderIndex_TracingData : Z := 1.
(* header_index.rs:22-22: PerfHeaderIndex::FirstFeature *)
Definition HeaderIndex_FirstFeature : Z := 1.
(* header_index.rs:25-25: PerfHeaderIndex::BuildId *)
Definition HeaderIndex_BuildId : Z := 2.
(* header_index.rs:28-28: PerfHeaderIndex::Hostname *)
Definition HeaderIndex_Hostname : Z := 3.
(* header_index.rs:31-31: PerfHeaderIndex::OSRelease *)
Definition HeaderIndex_OSRelease : Z := 4.
(* header_index.rs:34-34: PerfHeaderIndex::Version *)
Definition HeaderIndex_Version : Z := 5.
(* header_index.rs:37-37: PerfHeaderIndex::Arch *)
Definition HeaderIndex_Arch : Z := 6.
(* header_index.rs:40-40: PerfHeaderIndex::NrCpus *)
Definition HeaderIndex_NrCpus : Z := 7.
(* header_index.rs:43-43: PerfHeaderIndex::CpuDesc *)
Definition HeaderIndex_CpuDesc : Z := 8.
(* header_index.rs:46-46: PerfHeaderIndex::CpuId *)
Definition HeaderIndex_CpuId : Z := 9.
(* header_index.rs:49-49: PerfHeaderIndex::TotalMem *)
Definition HeaderIndex_TotalMem : Z := 10.
(* header_index.rs:52-52: PerfHeaderIndex::Cmdline *)
Definition HeaderIndex_Cmdline : Z := 11.
(* header_index.rs:55-55: PerfHeaderIndex::EventDesc *)
Definition HeaderIndex_EventDesc : Z := 12.
(* header_index.rs:58-58: PerfHeaderIndex::CpuTopology *)
Definition HeaderIndex_CpuTopology : Z := 13.
(* header_index.rs:61-61: PerfHeaderIndex::NumaTopology *)
Definition HeaderIndex_NumaTopology : Z := 14.
(* header_index.rs:64-64: PerfHeaderIndex::BranchStack *)
Definition HeaderIndex_BranchStack : Z := 15.
(* header_index.rs:67-67: PerfHeaderIndex::PmuMappings *)
Definition HeaderIndex_PmuMappings : Z := 16.
(* header_index.rs:70-70: PerfHeaderIndex::GroupDesc *)
Definition HeaderIndex_GroupDesc : Z := 17.
(* header_index.rs:73-73: PerfHeaderIndex::AuxTrace *)
Definition HeaderIndex_AuxTrace : Z := 18.
(* header_index.rs:76-76: PerfHeaderIndex::Stat *)
Definition HeaderIndex_Stat : Z := 19.
(* header_index.rs:79-79: PerfHeaderIndex::Cache *)
Definition HeaderIndex_Cache : Z := 20.
(* header_index.rs:82-82: PerfHeaderIndex::SampleTime *)
Definition HeaderIndex_SampleTime : Z := 21.
(* header_index.rs:85-85: PerfHeaderIndex::MemTopology *)
Definition HeaderIndex_MemTopology : Z := 22.
(* header_index.rs:88-88: PerfHeaderIndex::ClockId *)
Definition HeaderIndex_ClockId : Z := 23.
(* header_index.rs:91-91: PerfHeaderIndex::DirFormat *)
Definition HeaderIndex_DirFormat : Z := 24.
(* header_index.rs:94-94: PerfHeaderIndex::BpfProgInfo *)
Definition HeaderIndex_BpfProgInfo : Z := 25.
(* header_index.rs:97-97: PerfHeaderIndex::BpfBtf *)
Definition HeaderIndex_BpfBtf : Z := 26.
(* header_index.rs:100-100: PerfHeaderIndex::Compressed *)
Definition HeaderIndex_Compressed : Z := 27.
(* header_index.rs:103-103: PerfHeaderIndex::CpuPmuCaps *)
Definition HeaderIndex_CpuPmuCaps : Z := 28.
(* header_index.rs:106-106: PerfHeaderIndex::ClockData *)
Definition HeaderIndex_ClockData : Z := 29.
(* header_index.rs:109-109: PerfHeaderIndex::HybridTopology *)
Definition HeaderIndex_HybridTopology : Z := 30.
(* header_index.rs:112-112: PerfHeaderIndex::PmuCaps *)
Definition HeaderIndex_PmuCaps : Z := 31.
(* header_index.rs:115-115: PerfHeaderIndex::LastFeature *)
Definition HeaderIndex_LastFeature : Z := 32.
(* header_index.rs: PerfHeaderIndex::as_string *)
Definition HeaderIndex_as_string (index : Z) : option bytes :=
  [str_bytes "Reserved"; str_bytes "TracingData"; str_bytes "BuildId"; str_bytes "Hostname";
   str_bytes "OSRelease"; str_bytes "Version"; str_bytes "Arch"; str_bytes "NrCpus";
   str_bytes "CpuDesc"; str_bytes "CpuId"; str_bytes "TotalMem"; str_bytes "Cmdline";
   str_bytes "EventDesc"; str_bytes "CpuTopology"; str_bytes "NumaTopology";
   str_bytes "BranchStack"; str_bytes "PmuMappings"; str_bytes "GroupDesc";
   str_bytes "AuxTrace"; str_bytes "Stat"; str_bytes "Cache"; str_bytes "SampleTime";
   str_bytes "MemTopology"; str_bytes "ClockId"; str_bytes "DirFormat";
   str_bytes "BpfProgInfo"; str_bytes "BpfBtf"; str_bytes "Compressed";
   str_bytes "CpuPmuCaps"; str_bytes "ClockData"; str_bytes "HybridTopology";
   str_bytes "PmuCaps"; str_bytes "LastFeature"] !! Z.to_nat index.

(** ** Structs are read back *)

(** Every field is in its width. *)
Definition struct_ok {T} `{ReprC T} (t : T) : Prop :=
  Forall2 (fun w v => 0 <= v < 256 ^ Z.of_nat w) (layout T) (to_fields t).

Lemma length_encode_fields r ws vs : length vs = length ws -> length (encode_fields r ws vs) = list_sum ws.
Proof.
  revert vs. induction ws as [|w ws IH]; intros [|v vs] H; try done. cbn [encode_fields list_sum foldr].
  rewrite length_app, length_to_source_bytes, IH by (cbn in H; lia). done.
Qed.
Lemma decode_encode_fields r ws vs rest : Forall2 (fun w v => 0 <= v < 256 ^ Z.of_nat w) ws vs ->
  decode_fields r ws (encode_fields r ws vs ++ rest) = vs.
Proof.
  induction 1 as [|w v ws vs Hv _ IH]; [done|]. cbn [encode_fields decode_fields]. rewrite <- (app_assoc (to_source_bytes r w v)).
  rewrite take_app_length', drop_app_length' by (by rewrite length_to_source_bytes).
  by rewrite IH, from_to_source_bytes.
Qed.

Section Struct.
Context {T} `{ReprC T}.

Lemma len_struct_bytes r (t : T) : len (struct_bytes r t) = size_of T.
Proof. unfold len, struct_bytes, size_of. by rewrite length_encode_fields by apply length_to_fields. Qed.
Lemma struct_round_trip r (t : T) rest : struct_ok t -> struct_of_bytes T r (struct_bytes r t ++ rest) = t.
Proof. intros Hok. unfold struct_of_bytes, struct_bytes. by rewrite decode_encode_fields, of_to_fields. Qed.
Lemma encode_fields_ok r ws vs : bytes_ok (encode_fields r ws vs).
Proof.
  revert vs. induction ws as [|w ws IH]; intros [|v vs]; cbn; try apply List.Forall_nil.
  apply Forall_app. split; [apply to_source_bytes_ok | apply IH].
Qed.
Lemma struct_bytes_ok r (t : T) : bytes_ok (struct_bytes r t).
Proof. apply encode_fields_ok. Qed.
End Struct.

(** Swapping the bytes of the fields is reading them in the other byte order. *)
Section Swap.
Context `{Target}.

Lemma swap_from_source n l : bytes_ok l -> length l = n ->
  swap_bytes n (from_source_bytes KEEP_ENDIAN l) = from_source_bytes SWAP_ENDIAN l.
Proof.
  intros Hl <-. unfold from_source_bytes, swap_bytes, KEEP_ENDIAN, SWAP_ENDIAN, PerfByteReader_new. cbn.
  destruct HOST_IS_BIG_ENDIAN; cbn; unfold be_value, be_bytes.
  - rewrite <- (length_rev l), le_bytes_le_value by (by apply Forall_rev). by rewrite rev_involutive.
  - by rewrite le_bytes_le_value.
Qed.
Lemma swap_swap n v : 0 <= v < 256 ^ Z.of_nat n -> swap_bytes n (swap_bytes n v) = v.
Proof.
  intros Hv. unfold swap_bytes, be_bytes.
  pose proof (le_bytes_le_value (rev (le_bytes n v))) as E. rewrite length_rev, length_le_bytes in E.
  rewrite E by apply Forall_rev, le_bytes_ok. rewrite rev_involutive. by apply le_value_le_bytes.
Qed.

(** The fields of a struct in the byte order of the other target. *)
Fixpoint swap_fields (ws : list nat) (vs : list Z) : list Z :=
  match ws, vs with w :: ws, v :: vs => swap_bytes w v :: swap_fields ws vs | _, _ => [] end.
Lemma swap_decode_fields ws l : bytes_ok l -> (list_sum ws <= length l)%nat ->
  swap_fields ws (decode_fields KEEP_ENDIAN ws l) = decode_fields SWAP_ENDIAN ws l.
Proof.
  revert l. induction ws as [|w ws IH]; intros l Hl Hlen; [done|]. cbn [decode_fields swap_fields] in *.
  change (list_sum (w :: ws)) with (w + list_sum ws)%nat in Hlen.
  rewrite swap_from_source; [| by apply Forall_take | rewrite length_take; lia].
  rewrite IH; [done | by apply Forall_drop | rewrite length_drop; lia].
Qed.
End Swap.
