(* ===== verification/PerfIo.v ===== *)
(** * PerfIo: computations on files
    (tracepoint_perf/src/input_file.rs, tracepoint_perf/src/output_file.rs)

    [io S E A] is a method with [&mut self] of type [S] that returns a
    [Result<A, E>]: it keeps the changes made before an error.  A file is a regular
    file: its contents and the position of its descriptor. *)

From S2P Require Import Prelude Strings Types ByteReader PerfAbi.

(** ** Methods that fail *)

Definition io (S E A : Type) : Type := S -> outcome (result A E * S).

#[export] Instance io_ret {S E} : MRet (io S E) := fun A a s => Ret (Ok a, s).
#[export] Instance io_bind {S E} : MBind (io S E) := fun A B f m s =>
  '(r, s) ← m s; match r with Ok a => f a s | Err e => Ret (Err e, s) end.

Definition io_err {S E A} (e : E) : io S E A := fun s => Ret (Err e, s).
Definition io_get {S E} : io S E S := fun s => Ret (Ok s, s).
Definition io_modify {S E} (f : S -> S) : io S E unit := fun s => Ret (Ok tt, f s).
Definition io_lift {S E A} (m : outcome A) : io S E A := fun s => a ← m; Ret (Ok a, s).
Definition io_when {S E} (b : bool) (m : io S E unit) : io S E unit := if b then m else mret tt.
(** [result?] does not return early: the caller looks at the result. *)
Definition io_try {S E A F} (m : io S E A) : io S F (result A E) := fun s =>
  '(r, s) ← m s; Ret (Ok r, s).

(** A method of a part of the state. *)
Definition io_on {S T E A} (get : S -> T) (set : T -> S -> S) (m : io T E A) : io S E A := fun s =>
  '(r, t) ← m (get s); Ret (r, set t s).

(** [for x in l { m }] *)
Fixpoint io_for {S E A} (l : list A) (m : A -> io S E unit) : io S E unit :=
  match l with [] => mret tt | x :: l => _ ← m x; io_for l m end.

Section IoLaws.
Context {S E A B : Type}.
Implicit Types (m : io S E A) (f : A -> io S E B).

Lemma io_bind_ok m f s a s' : m s = Ret (Ok a, s') -> (m ≫= f) s = f a s'.
Proof. unfold mbind, io_bind. by intros ->. Qed.
Lemma io_bind_err m f s e s' : m s = Ret (Err e, s') -> (m ≫= f) s = Ret (Err e, s').
Proof. unfold mbind, io_bind. by intros ->. Qed.
Lemma io_bind_panic m f s : m s = Panic -> (m ≫= f) s = Panic.
Proof. unfold mbind, io_bind. by intros ->. Qed.
Lemma io_get_bind (f : S -> io S E B) s : (io_get ≫= f) s = f s s.
Proof. reflexivity. Qed.
Lemma io_lift_bind {C} (m : outcome C) (a : C) (f : C -> io S E B) s : m = Ret a -> (io_lift m ≫= f) s = f a s.
Proof. intros ->. reflexivity. Qed.
Lemma io_modify_bind (g : S -> S) (f : unit -> io S E B) s : (io_modify g ≫= f) s = f tt (g s).
Proof. reflexivity. Qed.
Lemma io_ret_bind {C} (a : C) (f : C -> io S E B) s : ((mret a : io S E C) ≫= f) s = f a s.
Proof. reflexivity. Qed.
(** A computation that does not panic, with a condition on its result and state. *)
Definition io_wp m (Q : result A E -> S -> Prop) (s : S) : Prop := wp (m s) (fun '(r, s') => Q r s').
Lemma io_wp_bind m f (Q : result B E -> S -> Prop) s :
  io_wp m (fun r s' => match r with Ok a => wp (f a s') (fun '(r, s'') => Q r s'') | Err e => Q (Err e) s' end) s ->
  wp ((m ≫= f) s) (fun '(r, s') => Q r s').
Proof.
  unfold io_wp, mbind, io_bind. intros H. apply wp_bind. eapply wp_mono; [exact H|]. intros [[a|e] s'] Hr; [exact Hr|].
  by apply wp_ret.
Qed.
End IoLaws.

(** ** Files *)

Inductive ErrorKind := UnexpectedEof | InvalidData | InvalidInput | OutOfMemory | OsError (code : Z).
#[export] Instance ErrorKind_eq_dec : EqDecision ErrorKind.
Proof. solve_decision. Defined.

(** [fs::File] *)
Record File := { contents : bytes; file_offset : Z }.

(** [io::Read::read_exact] of [n] bytes: at the end of the file it takes what there is and fails. *)
Definition File_read_exact (n : Z) : io File ErrorKind bytes := fun f =>
  if f.(file_offset) + n <=? len f.(contents)
  then Ret (Ok (sub f.(contents) f.(file_offset) (f.(file_offset) + n)),
            {| contents := f.(contents); file_offset := f.(file_offset) + n |})
  else Ret (Err UnexpectedEof, {| contents := f.(contents);
                                  file_offset := Z.max f.(file_offset) (len f.(contents)) |}).
(** [io::Seek::seek(SeekFrom::Start(pos))] *)
Definition File_seek (pos : Z) : io File ErrorKind Z := fun f =>
  Ret (Ok pos, {| contents := f.(contents); file_offset := pos |}).
(** The bytes at the position are overwritten, and a gap after the end is filled with zeros. *)
Definition put_bytes (data : bytes) (f : File) : File :=
  if len data =? 0 then f
  else
    let pre := take (Z.to_nat f.(file_offset)) f.(contents) in
    let pre := pre ++ repeat 0 (Z.to_nat (f.(file_offset) - len pre)) in
    {| contents := pre ++ data ++ drop (Z.to_nat (f.(file_offset) + len data)) f.(contents);
       file_offset := f.(file_offset) + len data |}.
(** The system that writes: for data to be written to a file, the error that it reports,
    if it does, after how many bytes (a full disk, a limit of the size of a file, ..). *)
Class WriteSystem := sys_write : File -> bytes -> option (Z * ErrorKind).
(** The system takes every write. *)
Class SystemTakes {Sys : WriteSystem} := system_takes : forall f data, sys_write f data = None.
Definition taking_system : WriteSystem := fun _ _ => None.
Definition taking_system_takes : @SystemTakes taking_system := fun _ _ => eq_refl.
(** [io::Write::write_all]: after an error, what was taken before it is in the file. *)
Definition File_write_all `{WriteSystem} (data : bytes) : io File ErrorKind unit := fun f =>
  if len data =? 0 then Ret (Ok tt, f)
  else
    match sys_write f data with
    | None => Ret (Ok tt, put_bytes data f)
    | Some (n, e) => Ret (Err e, put_bytes (take (Z.to_nat n) data) f)
    end.
(** [io::Write::flush] of a file does nothing. *)
Definition File_flush : io File ErrorKind unit := mret tt.

(** The file system: what [open] of a path gives. *)
Class FileSystem := {
  fs_read : bytes -> result bytes ErrorKind;
  fs_create : bytes -> result unit ErrorKind;
}.

(** ** InputFile *)

(* input_file.rs: struct InputFile *)
Record InputFile := { in_inner : File; inner_pos : Z; inner_len : Z }.
Definition on_inner {E A} : io File E A -> io InputFile E A :=
  io_on in_inner (fun g f => {| in_inner := g; inner_pos := f.(inner_pos); inner_len := f.(inner_len) |}).
Definition set_inner_pos (p : Z) (f : InputFile) : InputFile :=
  {| in_inner := f.(in_inner); inner_pos := p; inner_len := f.(inner_len) |}.

(* input_file.rs: InputFile::new *)
Definition InputFile_new `{FileSystem} (path : bytes) : result InputFile ErrorKind :=
  match fs_read path with
  | Ok c => Ok {| in_inner := {| contents := c; file_offset := 0 |}; inner_pos := 0; inner_len := 0 |}
  | Err e => Err e
  end.
(* input_file.rs: InputFile::update_len *)
Definition update_len : io InputFile ErrorKind unit :=
  io_modify (fun f => {| in_inner := f.(in_inner); inner_pos := f.(inner_pos);
                         inner_len := len f.(in_inner).(contents) |}).
(* input_file.rs: InputFile::seek_absolute *)
Definition seek_absolute (new_pos : Z) : io InputFile ErrorKind Z :=
  f ← io_get;
  if new_pos =? f.(inner_pos) then mret new_pos
  else if f.(inner_len) <? new_pos then io_err UnexpectedEof
  else
    p ← on_inner (File_seek new_pos);
    _ ← io_modify (set_inner_pos p);
    mret p.
(* input_file.rs: InputFile::read_exact *)
Definition read_exact (n : Z) : io InputFile ErrorKind bytes :=
  buf ← on_inner (File_read_exact n);
  f ← io_get;
  p ← io_lift (u64 (f.(inner_pos) + n));
  _ ← io_modify (set_inner_pos p);
  mret buf.

Section Target.
Context `{Target}.

(* input_file.rs: InputFile::read_struct *)
Definition read_struct T `{ReprC T} : io InputFile ErrorKind T :=
  buf ← read_exact (size_of T);
  mret (struct_of_bytes T KEEP_ENDIAN buf).
(* input_file.rs: InputFile::read_append_vec *)
Definition read_append_vec (vec : bytes) (n : Z) : io InputFile ErrorKind bytes :=
  new_len ← io_lift (usize (len vec + n));
  buf ← read_exact (new_len - len vec);
  mret (vec ++ buf).
(* input_file.rs: InputFile::read_assign_vec *)
Definition read_assign_vec (n : Z) : io InputFile ErrorKind bytes := read_append_vec [] n.

(** ** OutputFile *)

(* output_file.rs: struct OutputFile *)
Record OutputFile := { out_inner : File; out_pos : Z }.
Definition on_out {E A} : io File E A -> io OutputFile E A :=
  io_on out_inner (fun g f => {| out_inner := g; out_pos := f.(out_pos) |}).
Definition set_out_pos (p : Z) (f : OutputFile) : OutputFile := {| out_inner := f.(out_inner); out_pos := p |}.

(* output_file.rs: OutputFile::new *)
Definition OutputFile_new `{FileSystem} (path : bytes) : result OutputFile ErrorKind :=
  match fs_create path with
  | Ok _ => Ok {| out_inner := {| contents := []; file_offset := 0 |}; out_pos := 0 |}
  | Err e => Err e
  end.
(* output_file.rs: OutputFile::seek_absolute *)
Definition out_seek_absolute (new_pos : Z) : io OutputFile ErrorKind Z :=
  p ← on_out (File_seek new_pos);
  _ ← io_modify (set_out_pos p);
  mret p.
(* output_file.rs: OutputFile::pos *)
Definition pos (f : OutputFile) : Z := f.(out_pos).
(* output_file.rs: OutputFile::flush *)
Definition flush : io OutputFile ErrorKind unit := on_out File_flush.
(** What the system takes of the buffers, or its error, is [accept]. *)
(* output_file.rs: OutputFile::write_vectored *)
Definition write_vectored (accept : list bytes -> result Z ErrorKind) (bufs : list bytes) : io OutputFile ErrorKind Z :=
  match accept bufs with
  | Err e => io_err e
  | Ok n =>
    let data := take (Z.to_nat n) (concat bufs) in
    _ ← on_out (io_modify (put_bytes data));
    f ← io_get;
    p ← io_lift (u64 (f.(out_pos) + len data));
    _ ← io_modify (set_out_pos p);
    mret (len data)
  end.

Section System.
Context `{Sys : WriteSystem}.

(* output_file.rs: OutputFile::write_all *)
Definition write_all (data : bytes) : io OutputFile ErrorKind unit :=
  _ ← on_out (File_write_all data);
  f ← io_get;
  p ← io_lift (u64 (f.(out_pos) + len data));
  io_modify (set_out_pos p).
(* output_file.rs: OutputFile::write_struct *)
Definition write_struct {T} `{ReprC T} (value : T) : io OutputFile ErrorKind unit :=
  write_all (struct_bytes KEEP_ENDIAN value).
End System.
End Target.
