(* ===== verification/EventFormat.v ===== *)
(** * EventFormat: format files of tracefs events
    (tracepoint_decode/src/perf_event_format.rs, perf_event_desc.rs)

    A format file has lines [NAME: VALUE]; the lines of the fields follow the line
    [format:], the common fields separated from the others by a blank line. *)

From S2P Require Import Prelude Strings Types ByteReader PerfItem Text Writers FieldFormat PerfAbi.

#[export] Instance PerfFieldFormat_eq_dec : EqDecision PerfFieldFormat.
Proof. solve_decision. Defined.

(** ** The parser *)

(* perf_event_format.rs: enum PerfEventDecodingStyle *)
Inductive PerfEventDecodingStyle := TraceEventFormat | EventHeaderStyle.

(* perf_event_format.rs: struct PerfEventFormat *)
Record PerfEventFormat := {
  ef_system_name : bytes;
  ef_name : bytes;
  ef_print_fmt : bytes;
  ef_fields : list PerfFieldFormat;
  ef_id : Z;
  ef_common_field_count : Z;
  ef_common_fields_size : Z;
  ef_decoding_style : PerfEventDecodingStyle;
}.

#[export] Instance PerfEventDecodingStyle_eq_dec : EqDecision PerfEventDecodingStyle.
Proof. solve_decision. Defined.
#[export] Instance PerfEventFormat_eq_dec : EqDecision PerfEventFormat.
Proof. solve_decision. Defined.

(* perf_event_format.rs: fn is_eol_char *)
Definition is_eol_char (c : Z) : bool := (c =? 13) || (c =? 10).

(** The local variables of [parse]. *)
Record Found := {
  fd_name : bytes;
  fd_print_fmt : bytes;
  fd_fields : list PerfFieldFormat;
  fd_id : option Z;
  fd_common_field_count : Z;
}.

(** [VALUE...]: up to the end of the line that is not in a string. *)
(* perf_event_format.rs:138-146: PerfEventFormat::parse, value *)
Fixpoint value_end (fuel : nat) (l : bytes) (pos : Z) : outcome Z :=
  match fuel with
  | O => Panic
  | S fuel =>
    if negb (pos <? len l) || is_eol_char (byte_at l pos) then Ret pos
    else
      let consumed := byte_at l pos in
      let pos := pos + 1 in
      value_end fuel l (if consumed =? 34 then consume_string (from l pos) pos 34 else pos)
  end.

(** The lines of the fields; [common] until the first blank line. *)
(* perf_event_format.rs:156-203: PerfEventFormat::parse, fields *)
Fixpoint field_lines (fuel : nat) (long_is_64_bits : bool) (l : bytes) (pos : Z) (common : bool)
    (fields : list PerfFieldFormat) (count : Z) : outcome (Z * list PerfFieldFormat * Z) :=
  match fuel with
  | O => Panic
  | S fuel =>
    if negb (pos <? len l) then Ret (pos, fields, count)
    else
      _ ← rassert (is_eol_char (byte_at l pos));
      let pos := if (2 <=? len l - pos) && (byte_at l pos =? 13) && (byte_at l (pos + 1) =? 10)
                 then pos + 2 else pos + 1 in
      let line_start_pos := pos in
      let pos := skip_from (fun c => negb (is_eol_char c)) l pos in
      if line_start_pos =? pos then
        if common then field_lines fuel long_is_64_bits l pos false fields count
        else Ret (pos, fields, count)
      else
        line ← str_slice l line_start_pos pos;
        field ← PerfFieldFormat_parse long_is_64_bits line;
        match field with
        | Some field =>
          count ← (if common then u16 (count + 1) else Ret count);
          field_lines fuel long_is_64_bits l pos common (fields ++ [field]) count
        | None => field_lines fuel long_is_64_bits l pos common fields count
        end
  end.

(** What the value at [prop_value_pos..pos] of a property is used for. *)
(* perf_event_format.rs:148-204: PerfEventFormat::parse, property *)
Definition use_property (long_is_64_bits : bool) (l prop_name : bytes) (prop_value_pos pos : Z) (d : Found)
    : outcome (Z * Found) :=
  if str_is prop_name "name" then
    name ← str_slice l prop_value_pos pos;
    Ret (pos, {| fd_name := name; fd_print_fmt := d.(fd_print_fmt); fd_fields := d.(fd_fields); fd_id := d.(fd_id);
                 fd_common_field_count := d.(fd_common_field_count) |})
  else if str_is prop_name "ID" && (pos <? len l) then
    value ← slice l prop_value_pos pos;
    id ← ascii_to_u32 value;
    Ret (pos, {| fd_name := d.(fd_name); fd_print_fmt := d.(fd_print_fmt); fd_fields := d.(fd_fields); fd_id := id;
                 fd_common_field_count := d.(fd_common_field_count) |})
  else if str_is prop_name "print fmt" then
    print_fmt ← str_slice l prop_value_pos pos;
    Ret (pos, {| fd_name := d.(fd_name); fd_print_fmt := print_fmt; fd_fields := d.(fd_fields); fd_id := d.(fd_id);
                 fd_common_field_count := d.(fd_common_field_count) |})
  else if str_is prop_name "format" then
    '(pos, fields, count) ← field_lines (S (S (length l))) long_is_64_bits l pos true [] d.(fd_common_field_count);
    Ret (pos, {| fd_name := d.(fd_name); fd_print_fmt := d.(fd_print_fmt); fd_fields := fields; fd_id := d.(fd_id);
                 fd_common_field_count := count |})
  else Ret (pos, d).

(** One turn per line. *)
(* perf_event_format.rs:94-205: PerfEventFormat::parse, loop *)
Fixpoint property_lines (fuel : nat) (long_is_64_bits : bool) (l : bytes) (pos : Z) (d : Found) : outcome Found :=
  match fuel with
  | O => Panic
  | S fuel =>
    if negb (pos <? len l) then Ret d
    else
      let pos := skip_from is_eol_char l pos in
      if len l <=? pos then Ret d
      else
        let pos := skip_from is_space_or_tab l pos in
        if len l <=? pos then Ret d
        else
          let prop_name_pos := pos in
          let pos := skip_from (fun c => negb (c =? 58) && negb (is_eol_char c)) l pos in
          if len l <=? pos then Ret d
          else if is_eol_char (byte_at l pos) then property_lines fuel long_is_64_bits l pos d
          else
            prop_name ← slice l prop_name_pos pos;
            let pos := skip_from is_space_or_tab l (pos + 1) in
            let prop_value_pos := pos in
            pos ← value_end (S (length l)) l pos;
            '(pos, d) ← use_property long_is_64_bits l prop_name prop_value_pos pos d;
            property_lines fuel long_is_64_bits l pos d
  end.

(* perf_event_format.rs:208-242: PerfEventFormat::parse, result *)
Definition format_of (system_name : bytes) (d : Found) : outcome (option PerfEventFormat) :=
  match d.(fd_id) with
  | Some id =>
    if len d.(fd_name) =? 0 then Ret None
    else
      let count := d.(fd_common_field_count) in
      common_fields_size ←
        (if count =? 0 then Ret 0
         else
           last_common_field ← index d.(fd_fields) (count - 1);
           u16 (last_common_field.(ff_offset) + last_common_field.(ff_size)));
      style ←
        (if count <? len d.(fd_fields) then
           field ← index d.(fd_fields) count;
           name ← ff_name field;
           Ret (if str_is name "eventheader_flags" then EventHeaderStyle else TraceEventFormat)
         else Ret TraceEventFormat);
      Ret (Some {| ef_system_name := system_name; ef_name := d.(fd_name); ef_print_fmt := d.(fd_print_fmt);
                   ef_fields := d.(fd_fields); ef_id := id; ef_common_field_count := count;
                   ef_common_fields_size := common_fields_size; ef_decoding_style := style |})
  | None => Ret None
  end.

Definition nothing_found : Found :=
  {| fd_name := []; fd_print_fmt := []; fd_fields := []; fd_id := None; fd_common_field_count := 0 |}.
(* perf_event_format.rs: PerfEventFormat::parse *)
Definition PerfEventFormat_parse (long_is_64_bits : bool) (system_name format_file_contents : bytes)
    : outcome (option PerfEventFormat) :=
  d ← property_lines (S (length format_file_contents)) long_is_64_bits format_file_contents 0 nothing_found;
  format_of system_name d.

(** ** Printing *)

Section Print.
Context {S : Type} `{Write S}.

(* perf_event_format.rs:297-308: PerfEventFormat::write_to, one field *)
Definition write_field_line (field : PerfFieldFormat) : fmt S :=
  dest_write_str (9 :: str_bytes "field:") ;;? dest_write_str field.(ff_field) ;;?
  dest_write_str (59 :: 9 :: str_bytes "offset:") ;;? dest_write_str (fmt_decimal field.(ff_offset)) ;;?
  dest_write_str (59 :: 9 :: str_bytes "size:") ;;? dest_write_str (fmt_decimal field.(ff_size)) ;;?
  dest_write_str (str_bytes ";") ;;?
  match field.(ff_signed) with
  | Some signed =>
    dest_write_str (9 :: str_bytes "signed:") ;;? dest_write_str (fmt_decimal (if signed : bool then 1 else 0)) ;;?
    dest_write_str (str_bytes ";" ++ [10])
  | None => dest_write_str [10]
  end.
Fixpoint write_field_lines (common_field_count i : Z) (fields : list PerfFieldFormat) : fmt S :=
  match fields with
  | [] => fmt_ok
  | field :: fields =>
    write_field_line field ;;?
    (if i + 1 =? common_field_count then dest_write_str [10] else fmt_ok) ;;?
    write_field_lines common_field_count (i + 1) fields
  end.

(* perf_event_format.rs: PerfEventFormat::write_to *)
Definition PerfEventFormat_write_to (f : PerfEventFormat) : fmt S :=
  dest_write_str (str_bytes "name: ") ;;? dest_write_str f.(ef_name) ;;? dest_write_str [10] ;;?
  dest_write_str (str_bytes "ID: ") ;;? dest_write_str (fmt_decimal f.(ef_id)) ;;? dest_write_str [10] ;;?
  dest_write_str (str_bytes "format:" ++ [10]) ;;?
  write_field_lines f.(ef_common_field_count) 0 f.(ef_fields) ;;?
  dest_write_str ([10] ++ str_bytes "print fmt: ") ;;? dest_write_str f.(ef_print_fmt) ;;? dest_write_str [10].
End Print.

(** ** Event descriptions *)

(* perf_event_desc.rs: struct PerfEventDesc *)
Record PerfEventDesc := {
  pd_attr : PerfEventAttr;
  pd_name : bytes;
  pd_format : option PerfEventFormat;
  pd_ids : list Z;
}.
(* perf_event_desc.rs: PerfEventDesc::update_name *)
Definition update_name (d : PerfEventDesc) : PerfEventDesc :=
  {| pd_attr := d.(pd_attr);
     pd_name := match d.(pd_name), d.(pd_format) with
                | [], Some format => format.(ef_system_name) ++ [58] ++ format.(ef_name)
                | name, _ => name
                end;
     pd_format := d.(pd_format); pd_ids := d.(pd_ids) |}.
(* perf_event_desc.rs: PerfEventDesc::new *)
Definition PerfEventDesc_new (attr : PerfEventAttr) (name : bytes) (format : option PerfEventFormat) (ids : list Z)
    : PerfEventDesc :=
  update_name {| pd_attr := attr; pd_name := name; pd_format := format; pd_ids := ids |}.
(* perf_event_desc.rs: PerfEventDesc::set_format *)
Definition set_format (format : PerfEventFormat) (d : PerfEventDesc) : PerfEventDesc :=
  update_name {| pd_attr := d.(pd_attr); pd_name := d.(pd_name); pd_format := Some format; pd_ids := d.(pd_ids) |}.
