(* ===== verification/EventFormatProps.v ===== *)
(** * EventFormatProps: a printed format is parsed back *)

From S2P Require Import Prelude Strings Types ByteReader PerfItem Text TextSpec Writers FieldFormat FieldFormatProps FieldLine.
From S2P Require Import PerfAbi EventFormat.

(** ** Texts and positions *)

Section At.
Context (pre : bytes).

Lemma byte_at_here c rest : byte_at (pre ++ c :: rest) (len pre) = c.
Proof. unfold byte_at, len. rewrite Nat2Z.id, app_nth2, Nat.sub_diag by lia. done. Qed.
Lemma from_here (rest : bytes) : from (pre ++ rest) (len pre) = rest.
Proof. unfold from, len. by rewrite Nat2Z.id, drop_app_length. Qed.
Lemma slice_here (a rest : bytes) : slice (pre ++ a ++ rest) (len pre) (len (pre ++ a)) = Ret a.
Proof.
  pose proof (len_nonneg pre). pose proof (len_nonneg a). pose proof (len_nonneg rest).
  rewrite slice_ok by (rewrite !len_app; lia). f_equal. rewrite len_app. apply sub_middle.
Qed.
Lemma str_slice_here (a rest : bytes) : ascii (pre ++ a ++ rest) ->
  str_slice (pre ++ a ++ rest) (len pre) (len (pre ++ a)) = Ret a.
Proof.
  pose proof (len_nonneg pre). pose proof (len_nonneg a). pose proof (len_nonneg rest). intros Ha.
  rewrite str_slice_ascii by (done || rewrite !len_app; lia). f_equal. rewrite len_app. apply sub_middle.
Qed.
Lemma skip_here p (a : bytes) c rest : Forall (fun b => p b = true) a -> p c = false ->
  skip_from p (pre ++ a ++ c :: rest) (len pre) = len (pre ++ a).
Proof. rewrite len_app. apply skip_from_run. Qed.
Lemma stay_here p c rest : p c = false -> skip_from p (pre ++ c :: rest) (len pre) = len pre.
Proof.
  intros Hc. pose proof (skip_from_run p pre [] c rest (List.Forall_nil _) Hc) as E. cbn [app] in E.
  rewrite E. change (len (@nil Z)) with 0. lia.
Qed.
Lemma in_text c rest : len pre < len (pre ++ c :: rest).
Proof. rewrite len_app, len_cons. pose proof (len_nonneg rest). lia. Qed.
End At.

(** ** Values *)

(** Text that ends outside of string literals, and outside of them has no line end. *)
Fixpoint balanced (inside : bool) (v : bytes) : bool :=
  match v with
  | [] => negb inside
  | c :: v =>
    if inside then
      if c =? 34 then balanced false v
      else if c =? 92 then match v with [] => false | _ :: v => balanced true v end
      else balanced true v
    else negb (is_eol_char c) && balanced (c =? 34) v
  end.

Lemma consume_balanced n v rest pos : (length v <= n)%nat -> balanced true v = true ->
  exists a b, v = a ++ b /\ consume_string (v ++ rest) pos 34 = pos + len a /\ balanced false b = true.
Proof.
  revert v pos. induction n as [|n IH]; intros v pos Hn Hb; destruct v as [|c v]; cbn in Hn; try done; [lia|].
  cbn [balanced] in Hb. cbn [app consume_string]. destruct (c =? 34).
  { exists [c], v. split_and!; [done | done | exact Hb]. }
  destruct (c =? 92).
  - destruct v as [|d v]; [done|]. destruct (IH v (pos + 1 + 1)) as (a & b & -> & E & H); [cbn in Hn; lia | done|].
    exists (c :: d :: a), b. split_and!; [done | | done]. cbn [app]. rewrite E, !len_cons. lia.
  - destruct (IH v (pos + 1)) as (a & b & -> & E & H); [lia | done|].
    exists (c :: a), b. split_and!; [done | | done]. rewrite E, len_cons. lia.
Qed.
Lemma value_end_balanced fuel pre v rest : (length v < fuel)%nat -> balanced false v = true ->
  value_end fuel (pre ++ v ++ 10 :: rest) (len pre) = Ret (len (pre ++ v)).
Proof.
  remember (length v) as n eqn:Hn. revert fuel pre v Hn.
  induction n as [n IH] using lt_wf_ind. intros fuel pre v Hn Hf Hb. destruct fuel as [|fuel]; [lia|].
  cbn [value_end]. destruct v as [|c v].
  - cbn [app]. rewrite byte_at_here, orb_true_r. by rewrite app_nil_r.
  - cbn [balanced] in Hb. apply andb_prop in Hb as [He Hb]. apply negb_true_iff in He.
    rewrite <- app_comm_cons, byte_at_here, He, orb_false_r.
    rewrite (proj2 (Z.ltb_lt _ _) (in_text pre c _)). cbn [negb].
    assert (Ec : len pre + 1 = len (pre ++ [c])) by (rewrite len_app; done).
    assert (El : pre ++ c :: v ++ 10 :: rest = (pre ++ [c]) ++ v ++ 10 :: rest) by (by rewrite <- app_assoc).
    rewrite Ec, El. cbn in Hn. destruct (c =? 34).
    + rewrite from_here. destruct (consume_balanced (length v) v (10 :: rest) (len (pre ++ [c]))) as (a & b & -> & Ea & Hb');
        [done | done|]. rewrite Ea, <- len_app, <- (app_assoc a), (app_assoc (pre ++ [c])).
      rewrite (IH (length b)) by (done || rewrite ?length_app in *; lia). f_equal. f_equal. by rewrite <- !app_assoc.
    + rewrite (IH (length v)) by (done || lia). f_equal. f_equal. by rewrite <- app_assoc.
Qed.

(** ** One line of the file *)

(** A name of a property, after which a colon follows. *)
Definition property_name (n : bytes) : Prop :=
  Forall (fun c => negb (c =? 58) && negb (is_eol_char c) = true) n /\
  match n with [] => False | c :: _ => is_space_or_tab c = false end.
(** A value that is printed after the spaces [sp]. *)
Definition property_value (sp v : bytes) : Prop :=
  Forall (fun c => is_space_or_tab c = true) sp /\ balanced false v = true /\
  match v with [] => True | c :: _ => is_space_or_tab c = false end.

Lemma property_line fuel long64 pre eols name sp value rest d :
  Forall (fun c => is_eol_char c = true) eols -> property_name name -> property_value sp value ->
  let l := pre ++ eols ++ name ++ 58 :: sp ++ value ++ 10 :: rest in
  property_lines (S fuel) long64 l (len pre) d
  = ('(pos, d) ← use_property long64 l name (len (pre ++ eols ++ name ++ 58 :: sp))
                  (len (pre ++ eols ++ name ++ 58 :: sp ++ value)) d;
     property_lines fuel long64 l pos d).
Proof.
  intros He [Hn Hn0] (Hsp & Hv & Hv0) l. destruct name as [|n0 name]; [done|].
  apply Forall_cons_iff in Hn as [Hc0 Hn]. pose proof Hc0 as Hc. apply andb_prop in Hc as [_ Hneol].
  apply negb_true_iff in Hneol. set (N := n0 :: name).
  assert (Hl1 : l = pre ++ eols ++ n0 :: name ++ 58 :: sp ++ value ++ 10 :: rest) by done.
  assert (Hl2 : l = (pre ++ eols) ++ n0 :: name ++ 58 :: sp ++ value ++ 10 :: rest) by (by rewrite <- app_assoc).
  assert (Hl3 : l = (pre ++ eols) ++ N ++ 58 :: sp ++ value ++ 10 :: rest) by (by rewrite <- app_assoc).
  assert (Hl4 : l = ((pre ++ eols) ++ N) ++ 58 :: sp ++ value ++ 10 :: rest) by (by rewrite <- !app_assoc).
  assert (Hl5 : l = (((pre ++ eols) ++ N) ++ [58]) ++ sp ++ value ++ 10 :: rest) by (unfold l, N; by rewrite <- !app_assoc).
  assert (Hl6 : l = ((((pre ++ eols) ++ N) ++ [58]) ++ sp) ++ value ++ 10 :: rest) by (unfold l, N; by rewrite <- !app_assoc).
  assert (Hlen : len l = len (((((pre ++ eols) ++ N) ++ [58]) ++ sp) ++ value) + 1 + len rest).
  { rewrite Hl6. rewrite !len_app, (len_cons 10). lia. }
  assert (Hle : len pre <= len (pre ++ eols) < len ((pre ++ eols) ++ N) /\
                len ((pre ++ eols) ++ N) < len (((((pre ++ eols) ++ N) ++ [58]) ++ sp) ++ value)).
  { rewrite !len_app. change (len [58]) with 1. unfold N. rewrite (len_cons n0). pose proof (len_nonneg eols).
    pose proof (len_nonneg name). pose proof (len_nonneg sp). pose proof (len_nonneg value). lia. }
  assert (E1 : pre ++ eols ++ N ++ 58 :: sp = (((pre ++ eols) ++ N) ++ [58]) ++ sp) by (by rewrite <- !app_assoc).
  assert (E2 : pre ++ eols ++ N ++ 58 :: sp ++ value = ((((pre ++ eols) ++ N) ++ [58]) ++ sp) ++ value)
    by (rewrite <- !app_assoc; done).
  fold N. rewrite E1, E2. pose proof (len_nonneg rest).
  cbn [property_lines]. rewrite (proj2 (Z.ltb_lt (len pre) (len l))) by lia. cbn [negb].
  replace (skip_from is_eol_char l (len pre)) with (len (pre ++ eols)) by (rewrite Hl1; symmetry; by apply skip_here).
  rewrite (proj2 (Z.leb_gt (len l) (len (pre ++ eols)))) by lia.
  replace (skip_from is_space_or_tab l (len (pre ++ eols))) with (len (pre ++ eols))
    by (rewrite Hl2; symmetry; by apply stay_here).
  rewrite (proj2 (Z.leb_gt (len l) (len (pre ++ eols)))) by lia.
  replace (skip_from (fun c => negb (c =? 58) && negb (is_eol_char c)) l (len (pre ++ eols)))
    with (len ((pre ++ eols) ++ N)) by (rewrite Hl3; symmetry; apply skip_here; [by constructor | done]).
  rewrite (proj2 (Z.leb_gt (len l) (len ((pre ++ eols) ++ N)))) by lia.
  replace (byte_at l (len ((pre ++ eols) ++ N))) with 58 by (rewrite Hl4; symmetry; apply byte_at_here).
  change (is_eol_char 58) with false. cbn iota.
  rewrite Hl3 at 1. rewrite slice_here. cbn [mbind outcome_bind].
  replace (len ((pre ++ eols) ++ N) + 1) with (len (((pre ++ eols) ++ N) ++ [58])) by (rewrite (len_app _ [58]); done).
  replace (skip_from is_space_or_tab l (len (((pre ++ eols) ++ N) ++ [58])))
    with (len ((((pre ++ eols) ++ N) ++ [58]) ++ sp)).
  2: { rewrite Hl5. symmetry. destruct value as [|v0 value]; by apply skip_here. }
  rewrite Hl6 at 2. rewrite value_end_balanced; [done | | done].
  rewrite Hl6, !length_app. cbn. lia.
Qed.

(** ** The lines of the fields *)

Definition no_eol (l : bytes) : Prop := Forall (fun c => negb (is_eol_char c) = true) l.

Lemma field_line_step fuel long64 pre line rest common fields count :
  ascii (pre ++ 10 :: line ++ 10 :: rest) -> line <> [] -> no_eol line ->
  let l := pre ++ 10 :: line ++ 10 :: rest in
  field_lines (S fuel) long64 l (len pre) common fields count
  = (field ← PerfFieldFormat_parse long64 line;
     match field with
     | Some field =>
       count ← (if common then u16 (count + 1) else Ret count);
       field_lines fuel long64 l (len (pre ++ 10 :: line)) common (fields ++ [field]) count
     | None => field_lines fuel long64 l (len (pre ++ 10 :: line)) common fields count
     end).
Proof.
  intros Ha Hne Hline l.
  assert (Hl : l = (pre ++ [10]) ++ line ++ 10 :: rest) by (unfold l; by rewrite <- app_assoc).
  assert (E : pre ++ 10 :: line = (pre ++ [10]) ++ line) by (by rewrite <- app_assoc).
  rewrite E. cbn [field_lines].
  replace (byte_at l (len pre)) with 10 by (symmetry; apply byte_at_here).
  change (is_eol_char 10) with true. change (10 =? 13) with false. cbn [rassert mbind outcome_bind]. rewrite andb_false_r.
  cbn [andb]. rewrite (proj2 (Z.ltb_lt _ _) (in_text pre 10 (line ++ 10 :: rest)) : (len pre <? len l) = true).
  cbn [negb]. replace (len pre + 1) with (len (pre ++ [10])) by (rewrite len_app; done).
  replace (skip_from (fun c => negb (is_eol_char c)) l (len (pre ++ [10]))) with (len ((pre ++ [10]) ++ line)).
  2: { rewrite Hl. symmetry. by apply skip_here. }
  rewrite (proj2 (Z.eqb_neq _ _)).
  2: { rewrite (len_app _ line). destruct line as [|c line]; [done|]. rewrite len_cons. pose proof (len_nonneg line). lia. }
  rewrite Hl at 1. rewrite str_slice_here by (rewrite <- Hl; exact Ha). done.
Qed.
Lemma blank_line fuel long64 pre rest common fields count :
  let l := pre ++ 10 :: 10 :: rest in
  field_lines (S fuel) long64 l (len pre) common fields count
  = if (common : bool) then field_lines fuel long64 l (len (pre ++ [10])) false fields count
    else Ret (len (pre ++ [10]), fields, count).
Proof.
  intros l. cbn [field_lines]. replace (byte_at l (len pre)) with 10 by (symmetry; apply byte_at_here).
  change (is_eol_char 10) with true. change (10 =? 13) with false. cbn [rassert mbind outcome_bind]. rewrite andb_false_r.
  cbn [andb]. rewrite (proj2 (Z.ltb_lt _ _) (in_text pre 10 (10 :: rest)) : (len pre <? len l) = true).
  cbn [negb]. replace (len pre + 1) with (len (pre ++ [10])) by (rewrite len_app; done).
  replace (skip_from (fun c => negb (is_eol_char c)) l (len (pre ++ [10]))) with (len (pre ++ [10])).
  2: { unfold l. change (10 :: 10 :: rest) with ([10] ++ 10 :: rest). rewrite app_assoc. symmetry. by apply stay_here. }
  by rewrite Z.eqb_refl.
Qed.

(** A field that [new] makes from its own declaration, offset, size and sign. *)
Record field_printed (long64 : bool) (g : PerfFieldFormat) : Prop := {
  fp_new : PerfFieldFormat_new long64 g.(ff_field) g.(ff_offset) g.(ff_size) g.(ff_signed) = Ret g;
  fp_ascii : ascii g.(ff_field);
  fp_plain : plain_value g.(ff_field);
  fp_no_eol : no_eol g.(ff_field);
  fp_offset : 0 <= g.(ff_offset) < 2 ^ 16;
  fp_size : 0 <= g.(ff_size) < 2 ^ 16;
}.
Definition line_of (g : PerfFieldFormat) : bytes := format_line g.(ff_field) g.(ff_offset) g.(ff_size) g.(ff_signed).

Lemma line_of_parsed long64 g : field_printed long64 g -> PerfFieldFormat_parse long64 (line_of g) = Ret (Some g).
Proof. intros []. unfold line_of. by rewrite format_line_parsed, fp_new0. Qed.
Lemma line_of_ok long64 g : field_printed long64 g -> ascii (line_of g) /\ no_eol (line_of g) /\ line_of g <> [].
Proof.
  intros [_ Ha _ Hn Ho Hs]. destruct (digits_plain g.(ff_offset)) as [_ Ao]; [lia|].
  destruct (digits_plain g.(ff_size)) as [_ As]; [lia|].
  assert (D : forall v, 0 <= v -> no_eol (fmt_decimal v)).
  { intros v Hv. unfold fmt_decimal. rewrite (proj2 (Z.ltb_ge v 0)) by lia.
    eapply List.Forall_impl; [|exact (decimal_loop_digits 20 v [] (List.Forall_nil _) Hv)].
    unfold is_digit, is_eol_char. intros c Hc. by rewrite (proj2 (Z.eqb_neq c 13)), (proj2 (Z.eqb_neq c 10)) by lia. }
  assert (W : forall s, In s ["field"; "offset"; "size"; "signed"]%string -> ascii (str_bytes s) /\ no_eol (str_bytes s)).
  { intros s Hin. repeat destruct Hin as [<- | Hin]; try done; split; apply List.Forall_forall; cbn; intuition (subst; done || lia). }
  assert (Hps : Forall (fun '(n, v) => ascii n /\ no_eol n /\ ascii v /\ no_eol v)
                  (field_properties g.(ff_field) g.(ff_offset) g.(ff_size) g.(ff_signed))).
  { destruct (W "field"%string), (W "offset"%string), (W "size"%string), (W "signed"%string); try (cbn; tauto).
    pose proof (D g.(ff_offset) ltac:(lia)). pose proof (D g.(ff_size) ltac:(lia)).
    unfold field_properties. apply Forall_app. split.
    - do 3 (apply Forall_cons_iff; split; [tauto|]). constructor.
    - destruct g.(ff_signed) as [b|]; [|constructor]. assert (Hb : 0 <= if b then 1 else 0) by (destruct b; lia).
      destruct (digits_plain (if b then 1 else 0) Hb) as [_ ?]. pose proof (D _ Hb).
      apply Forall_cons_iff. split; [tauto | constructor]. }
  unfold line_of, format_line. split_and!; [| | done].
  - apply ascii_line. eapply List.Forall_impl; [|exact Hps]. intros [n v]. tauto.
  - induction Hps as [|[n v] ps (_ & Hn' & _ & Hv) _ IH]; [constructor|]. unfold line_text. cbn [map concat].
    apply Forall_app. split; [|exact IH]. constructor; [done|]. apply Forall_app. split; [done|].
    constructor; [done|]. apply Forall_app. split; [done | by constructor].
Qed.

Definition field_block (gs : list PerfFieldFormat) : bytes := concat (map (fun g => 10 :: line_of g) gs).
Lemma field_lines_run fuel long64 pre gs rest common fields count :
  Forall (field_printed long64) gs -> ascii (pre ++ field_block gs ++ 10 :: rest) ->
  0 <= count -> count + len gs < 2 ^ 16 ->
  let l := pre ++ field_block gs ++ 10 :: rest in
  field_lines (length gs + fuel) long64 l (len pre) common fields count
  = field_lines fuel long64 l (len (pre ++ field_block gs)) common (fields ++ gs)
      (if (common : bool) then count + len gs else count).
Proof.
  revert pre fields count. induction gs as [|g gs IH]; intros pre fields count Hgs Ha Hc0 Hc l.
  { cbn [field_block map concat length plus]. rewrite !app_nil_r. change (len (@nil PerfFieldFormat)) with 0.
    by rewrite Z.add_0_r, Tauto.if_same. }
  apply Forall_cons_iff in Hgs as [Hg Hgs]. destruct (line_of_ok long64 g Hg) as (_ & Hn & Hne).
  rewrite len_cons in Hc. pose proof (len_nonneg gs).
  set (rest' := match gs with [] => rest | _ => tail (field_block gs ++ 10 :: rest) end).
  assert (Hr : field_block gs ++ 10 :: rest = 10 :: rest') by (by destruct gs).
  assert (Hl : l = pre ++ 10 :: line_of g ++ 10 :: rest').
  { unfold l. cbn [field_block map concat]. rewrite <- app_assoc. cbn [app]. fold (field_block gs). by rewrite Hr. }
  assert (Hl2 : l = (pre ++ 10 :: line_of g) ++ field_block gs ++ 10 :: rest).
  { rewrite Hr, <- app_assoc. exact Hl. }
  change (length (g :: gs) + fuel)%nat with (S (length gs + fuel)).
  rewrite Hl. rewrite field_line_step by (rewrite <- ?Hl; done). rewrite <- Hl.
  rewrite (line_of_parsed long64 g Hg). cbn [mbind outcome_bind].
  assert (Eb : len (pre ++ field_block (g :: gs)) = len ((pre ++ 10 :: line_of g) ++ field_block gs)).
  { f_equal. cbn [field_block map concat]. by rewrite <- app_assoc. }
  assert (Ef : fields ++ g :: gs = (fields ++ [g]) ++ gs) by (by rewrite <- app_assoc).
  rewrite Eb, Ef, Hl2. destruct common.
  - rewrite checked_ok by lia. cbn [mbind outcome_bind]. rewrite IH by (rewrite <- ?Hl2; done || lia).
    f_equal. rewrite len_cons. lia.
  - cbn [mbind outcome_bind]. by rewrite IH by (rewrite <- ?Hl2; done || lia).
Qed.

(** ** The printed format *)

Definition common_fields (f : PerfEventFormat) : list PerfFieldFormat := take (Z.to_nat f.(ef_common_field_count)) f.(ef_fields).
Definition user_fields (f : PerfEventFormat) : list PerfFieldFormat := drop (Z.to_nat f.(ef_common_field_count)) f.(ef_fields).

Definition format_text (f : PerfEventFormat) : bytes :=
  str_bytes "name: " ++ f.(ef_name) ++ 10 :: str_bytes "ID: " ++ fmt_decimal f.(ef_id) ++ 10 :: str_bytes "format:"
  ++ field_block (common_fields f) ++ 10 :: field_block (user_fields f) ++ 10 :: 10 :: str_bytes "print fmt: "
  ++ f.(ef_print_fmt) ++ [10].

Fixpoint lines_text (count i : Z) (gs : list PerfFieldFormat) : bytes :=
  match gs with
  | [] => []
  | g :: gs => line_of g ++ 10 :: (if i + 1 =? count then [10] else []) ++ lines_text count (i + 1) gs
  end.
Lemma write_field_lines_text count i gs s : write_field_lines count i gs s = Ret (Ok tt, s ++ lines_text count i gs).
Proof.
  revert i s. induction gs as [|g gs IH]; intros i s; cbn [write_field_lines lines_text].
  { by rewrite app_nil_r. }
  unfold fmt_then. assert (E : write_field_line g s = Ret (Ok tt, s ++ line_of g ++ [10])).
  { unfold write_field_line, line_of, format_line, line_text, field_properties, fmt_then.
    change (str_bytes "field:") with (str_bytes "field" ++ [58]).
    change (str_bytes "offset:") with (str_bytes "offset" ++ [58]).
    change (str_bytes "size:") with (str_bytes "size" ++ [58]).
    change (str_bytes "signed:") with (str_bytes "signed" ++ [58]). change (str_bytes ";") with [59].
    destruct g.(ff_signed) as [b|]; cbn [dest_write_str String_Write mbind outcome_bind map concat app];
      do 2 f_equal; rewrite ?app_comm_cons, <- !app_assoc; cbn [app]; rewrite <- ?app_assoc; done. }
  rewrite E. cbn [mbind outcome_bind].
  destruct (i + 1 =? count); cbn [fmt_ok dest_write_str String_Write mbind outcome_bind app]; rewrite IH;
    do 2 f_equal; rewrite <- !app_assoc; done.
Qed.
Lemma lines_text_users count i gs : count <= i -> 10 :: lines_text count i gs = field_block gs ++ [10].
Proof.
  revert i. induction gs as [|g gs IH]; intros i Hi; [done|]. cbn [lines_text field_block map concat].
  rewrite (proj2 (Z.eqb_neq (i + 1) count)) by lia. cbn [app]. rewrite IH by lia.
  change (concat (map (fun g => 10 :: line_of g) gs)) with (field_block gs). by rewrite <- app_assoc.
Qed.
Lemma lines_text_common count i gs : i < count <= i + len gs ->
  10 :: lines_text count i gs
  = field_block (take (Z.to_nat (count - i)) gs) ++ 10 :: field_block (drop (Z.to_nat (count - i)) gs) ++ [10].
Proof.
  revert i. induction gs as [|g gs IH]; intros i Hi; [change (len (@nil PerfFieldFormat)) with 0 in Hi; lia|].
  rewrite len_cons in Hi. cbn [lines_text]. destruct (Z.to_nat (count - i)) as [|n] eqn:En; [lia|].
  cbn [take drop firstn skipn]. change (field_block (g :: ?l)) with (10 :: line_of g ++ field_block l).
  cbn [app]. rewrite <- app_assoc. f_equal. f_equal. destruct (Z.eqb_spec (i + 1) count) as [E | Hne].
  - replace n with O by lia. cbn [app]. by rewrite lines_text_users by lia.
  - cbn [app]. rewrite IH by lia. by replace (Z.to_nat (count - (i + 1))) with n by lia.
Qed.

(** A format whose parts are the printed ones: the other two follow from the fields. *)
Record event_format_ok (long64 : bool) (f : PerfEventFormat) : Prop := {
  eo_name : property_value [32] f.(ef_name) /\ f.(ef_name) <> [] /\ ascii f.(ef_name);
  eo_print_fmt : property_value [32] f.(ef_print_fmt) /\ ascii f.(ef_print_fmt);
  eo_id : 0 <= f.(ef_id) < 2 ^ 32;
  eo_fields : Forall (field_printed long64) f.(ef_fields) /\ len f.(ef_fields) < 2 ^ 16;
  eo_count : 1 <= f.(ef_common_field_count) <= len f.(ef_fields);
  eo_common_size : exists g, f.(ef_fields) !! Z.to_nat (f.(ef_common_field_count) - 1) = Some g /\
    f.(ef_common_fields_size) = g.(ff_offset) + g.(ff_size) /\ f.(ef_common_fields_size) < 2 ^ 16;
  eo_style : match user_fields f with
             | g :: _ => exists n, ff_name g = Ret n /\ f.(ef_decoding_style) =
                           if str_is n "eventheader_flags" then EventHeaderStyle else TraceEventFormat
             | [] => f.(ef_decoding_style) = TraceEventFormat
             end;
}.

Lemma write_to_text f s : 1 <= f.(ef_common_field_count) <= len f.(ef_fields) ->
  PerfEventFormat_write_to f s = Ret (Ok tt, s ++ format_text f).
Proof.
  intros Hc. unfold PerfEventFormat_write_to, fmt_then.
  cbn [dest_write_str String_Write mbind outcome_bind]. rewrite write_field_lines_text.
  cbn [dest_write_str String_Write mbind outcome_bind].
  do 2 f_equal. pose proof (lines_text_common f.(ef_common_field_count) 0 f.(ef_fields) ltac:(lia)) as E.
  rewrite Z.sub_0_r in E. unfold format_text, common_fields, user_fields.
  set (n := Z.to_nat f.(ef_common_field_count)) in *. cbn [app] in *.
  transitivity (s ++ str_bytes "name: " ++ f.(ef_name) ++ [10] ++ str_bytes "ID: " ++ fmt_decimal f.(ef_id) ++ [10] ++
    str_bytes "format:" ++ (10 :: lines_text f.(ef_common_field_count) 0 f.(ef_fields)) ++ [10] ++ str_bytes "print fmt: "
    ++ f.(ef_print_fmt) ++ [10]).
  - rewrite <- !app_assoc. done.
  - rewrite E, <- !app_assoc. cbn [app]. by rewrite <- !app_assoc.
Qed.

(** ** The file is read back *)

Lemma names_ok : Forall (fun s => property_name (str_bytes s)) ["name"; "ID"; "format"; "print fmt"]%string.
Proof. repeat constructor. Qed.

Lemma format_of_ok long64 f : event_format_ok long64 f ->
  format_of f.(ef_system_name)
    {| fd_name := f.(ef_name); fd_print_fmt := f.(ef_print_fmt); fd_fields := f.(ef_fields); fd_id := Some f.(ef_id);
       fd_common_field_count := f.(ef_common_field_count) |} = Ret (Some f).
Proof.
  intros [(_ & Hne & _) _ _ [Hf Hl] Hc (g & Hg & Hsize & Hb) Hs]. unfold format_of. cbn [fd_id fd_name fd_print_fmt fd_fields fd_common_field_count].
  rewrite (proj2 (Z.eqb_neq (len f.(ef_name)) 0)).
  2: { destruct f.(ef_name); [done|]. rewrite len_cons. pose proof (len_nonneg l). lia. }
  rewrite (proj2 (Z.eqb_neq f.(ef_common_field_count) 0)) by lia.
  assert (Eg : index f.(ef_fields) (f.(ef_common_field_count) - 1) = Ret g).
  { unfold index. rewrite (proj2 (Z.ltb_ge (f.(ef_common_field_count) - 1) 0)) by lia. by rewrite Hg. }
  rewrite Eg. cbn [mbind outcome_bind]. rewrite <- Hsize, checked_ok.
  2: { destruct (Forall_lookup_1 _ _ _ _ Hf Hg). lia. }
  cbn [mbind outcome_bind]. unfold user_fields in Hs.
  destruct (Z.ltb_spec f.(ef_common_field_count) (len f.(ef_fields))) as [Hlt | Hge].
  - destruct (drop _ _) as [|h t] eqn:Ed.
    { exfalso. apply (f_equal length) in Ed. rewrite length_drop in Ed. unfold len in Hlt. cbn in Ed. lia. }
    destruct Hs as (n & En & Es). unfold index. rewrite (proj2 (Z.ltb_ge f.(ef_common_field_count) 0)) by lia.
    replace (f.(ef_fields) !! Z.to_nat f.(ef_common_field_count)) with (Some h).
    2: { rewrite <- (Nat.add_0_r (Z.to_nat _)), <- lookup_drop, Ed. done. }
    cbn [mbind outcome_bind]. rewrite En. cbn [mbind outcome_bind]. rewrite <- Es. by destruct f.
  - assert (Ed : drop (Z.to_nat f.(ef_common_field_count)) f.(ef_fields) = []).
    { apply drop_ge. unfold len in *. lia. }
    rewrite Ed in Hs. cbn [mbind outcome_bind]. rewrite <- Hs. by destruct f.
Qed.

(** What the lines say, one after the other. *)
Lemma format_text_ascii long64 f : event_format_ok long64 f -> ascii (format_text f).
Proof.
  intros [(_ & _ & An) [_ Ap] Hid [Hf _] _ _ _]. destruct (digits_plain f.(ef_id)) as [_ Ai]; [lia|].
  assert (B : forall gs, Forall (field_printed long64) gs -> ascii (field_block gs)).
  { induction 1 as [|g gs Hg _ IH]; [constructor|]. change (field_block (g :: gs)) with (10 :: line_of g ++ field_block gs).
    constructor; [lia|]. apply Forall_app. split; [by apply (line_of_ok long64) | done]. }
  assert (W : Forall (fun s => ascii (str_bytes s)) ["name: "; "ID: "; "format:"; "print fmt: "]%string).
  { repeat constructor; lia. }
  repeat (apply Forall_cons_iff in W as [? W]). unfold format_text, ascii in *.
  repeat first [assumption | apply Forall_app; split | apply List.Forall_cons; [lia|]
               | apply B, Forall_take, Hf | apply B, Forall_drop, Hf | apply List.Forall_nil].
Qed.

(** A line, with what the property does. *)
Lemma used_line fuel long64 pre eols name sp value rest d pos d' :
  Forall (fun c => is_eol_char c = true) eols -> property_name name -> property_value sp value ->
  let l := pre ++ eols ++ name ++ 58 :: sp ++ value ++ 10 :: rest in
  let at_value := pre ++ eols ++ name ++ 58 :: sp in
  (l = at_value ++ value ++ 10 :: rest ->
   use_property long64 l name (len at_value) (len (at_value ++ value)) d = Ret (pos, d')) ->
  property_lines (S fuel) long64 l (len pre) d = property_lines fuel long64 l pos d'.
Proof.
  intros He Hn Hv l at_value Hu. unfold l. rewrite property_line by done.
  replace (pre ++ eols ++ name ++ 58 :: sp ++ value) with (at_value ++ value) by (unfold at_value; by rewrite <- !app_assoc).
  fold l at_value. rewrite Hu; [done|]. unfold at_value. by rewrite <- !app_assoc.
Qed.

(** The lines of the fields, from the end of the line [format:]. *)
Lemma both_blocks long64 pre f rest count : event_format_ok long64 f -> count = 0 ->
  let l := pre ++ field_block (common_fields f) ++ 10 :: field_block (user_fields f) ++ 10 :: 10 :: rest in
  ascii l ->
  field_lines (S (S (length l))) long64 l (len pre) true [] count
  = Ret (len (pre ++ field_block (common_fields f) ++ 10 :: field_block (user_fields f) ++ [10]),
         f.(ef_fields), f.(ef_common_field_count)).
Proof.
  intros [_ _ _ [Hf Hl] Hc _ _] -> l Ha. set (b1 := field_block (common_fields f)) in *. set (b2 := field_block (user_fields f)) in *.
  assert (Hf1 : Forall (field_printed long64) (common_fields f)) by (by apply Forall_take).
  assert (Hf2 : Forall (field_printed long64) (user_fields f)) by (by apply Forall_drop).
  assert (Hc1 : len (common_fields f) = f.(ef_common_field_count)).
  { unfold common_fields, len in *. rewrite length_take. lia. }
  assert (Hsum : common_fields f ++ user_fields f = f.(ef_fields)) by apply take_drop.
  assert (Hl2 : len (common_fields f) + len (user_fields f) = len f.(ef_fields)) by (by rewrite <- Hsum, len_app).
  pose proof (len_nonneg (user_fields f)).
  assert (Hb : forall gs, (length gs <= length (field_block gs))%nat).
  { induction gs as [|g gs IH]; [done|]. change (field_block (g :: gs)) with (10 :: line_of g ++ field_block gs).
    cbn [length]. rewrite length_app. lia. }
  assert (Hfuel : exists n, S (S (length l)) = (length (common_fields f) + S (length (user_fields f) + S n))%nat).
  { exists (length l - length (common_fields f) - length (user_fields f))%nat. pose proof (Hb (common_fields f)).
    pose proof (Hb (user_fields f)). unfold l. rewrite !length_app. cbn [length]. rewrite !length_app. unfold b1, b2. lia. }
  destruct Hfuel as [n ->].
  assert (L1 : l = (pre ++ b1) ++ 10 :: 10 :: tail (b2 ++ 10 :: 10 :: rest)).
  { unfold l. rewrite <- app_assoc. do 3 f_equal. unfold b2. by destruct (user_fields f). }
  assert (L2 : l = ((pre ++ b1) ++ [10]) ++ b2 ++ 10 :: 10 :: rest) by (unfold l; by rewrite <- !app_assoc).
  assert (L3 : l = (((pre ++ b1) ++ [10]) ++ b2) ++ 10 :: 10 :: rest) by (unfold l; by rewrite <- !app_assoc).
  assert (L0 : l = pre ++ b1 ++ 10 :: b2 ++ 10 :: 10 :: rest) by done. clearbody l.
  rewrite L0 at 1. unfold b1 at 1. rewrite field_lines_run; [| done | fold b1; by rewrite <- L0 | lia | lia].
  fold b1. rewrite <- L0, L1, blank_line, <- L1. rewrite L2 at 1. unfold b2 at 1.
  rewrite field_lines_run; [| done | fold b2; by rewrite <- L2 | lia | lia].
  fold b2. rewrite <- L2, L3, blank_line. cbn [app]. rewrite Hsum, Z.add_0_l, Hc1. by rewrite <- !app_assoc.
Qed.

Lemma property_lines_end fuel long64 pre d : property_lines (S fuel) long64 (pre ++ [10]) (len pre) d = Ret d.
Proof.
  cbn [property_lines]. destruct (negb _); [done|]. rewrite (skip_to_end is_eol_char pre [10]) by (by repeat constructor).
  by rewrite (proj2 (Z.leb_le (len (pre ++ [10])) _)) by lia.
Qed.

Lemma decimal_value v : 0 <= v -> property_value [32] (fmt_decimal v).
Proof.
  intros Hv. destruct (digits_plain v Hv) as [[_ H0] _]. split_and!; [by repeat constructor | | by destruct (fmt_decimal v)].
  unfold fmt_decimal. rewrite (proj2 (Z.ltb_ge v 0)) by lia.
  induction (decimal_loop_digits 20 v [] (List.Forall_nil _) Hv) as [|c t Hc _ IH]; [done|].
  cbn [balanced]. unfold is_eol_char, is_digit in *.
  by rewrite (proj2 (Z.eqb_neq c 13)), (proj2 (Z.eqb_neq c 10)), (proj2 (Z.eqb_neq c 34)), IH by lia.
Qed.

(** What the four properties of the file do. *)
Section Uses.
Context (long64 : bool) (l x v rest : bytes) (d : Found).
Context (Hl : l = x ++ v ++ rest) (Ha : ascii l).

Lemma use_name : use_property long64 l (str_bytes "name") (len x) (len (x ++ v)) d
  = Ret (len (x ++ v), {| fd_name := v; fd_print_fmt := d.(fd_print_fmt); fd_fields := d.(fd_fields);
                          fd_id := d.(fd_id); fd_common_field_count := d.(fd_common_field_count) |}).
Proof. unfold use_property. words. rewrite Hl in *. by rewrite str_slice_here by done. Qed.
Lemma use_print_fmt : use_property long64 l (str_bytes "print fmt") (len x) (len (x ++ v)) d
  = Ret (len (x ++ v), {| fd_name := d.(fd_name); fd_print_fmt := v; fd_fields := d.(fd_fields);
                          fd_id := d.(fd_id); fd_common_field_count := d.(fd_common_field_count) |}).
Proof. unfold use_property. words. cbn [andb]. rewrite Hl in *. by rewrite str_slice_here by done. Qed.
Lemma use_id id : 0 <= id < 2 ^ 32 -> v = fmt_decimal id -> rest <> [] ->
  use_property long64 l (str_bytes "ID") (len x) (len (x ++ v)) d
  = Ret (len (x ++ v), {| fd_name := d.(fd_name); fd_print_fmt := d.(fd_print_fmt); fd_fields := d.(fd_fields);
                          fd_id := Some id; fd_common_field_count := d.(fd_common_field_count) |}).
Proof.
  intros Hid Hv Hr. unfold use_property. words. rewrite (proj2 (Z.ltb_lt (len (x ++ v)) (len l))).
  2: { rewrite Hl, app_assoc, (len_app (x ++ v)). destruct rest as [|c r]; [done|]. rewrite len_cons.
       pose proof (len_nonneg r). lia. }
  cbn [andb]. rewrite Hl, slice_here. cbn [mbind outcome_bind]. rewrite Hv, ascii_to_u32_decimal by done. done.
Qed.
End Uses.
Lemma use_format long64 f pre rest d : event_format_ok long64 f -> d.(fd_common_field_count) = 0 ->
  let l := pre ++ field_block (common_fields f) ++ 10 :: field_block (user_fields f) ++ 10 :: 10 :: rest in
  ascii l ->
  use_property long64 l (str_bytes "format") (len pre) (len pre) d
  = Ret (len (pre ++ field_block (common_fields f) ++ 10 :: field_block (user_fields f) ++ [10]),
         {| fd_name := d.(fd_name); fd_print_fmt := d.(fd_print_fmt); fd_fields := f.(ef_fields); fd_id := d.(fd_id);
            fd_common_field_count := f.(ef_common_field_count) |}).
Proof. intros Hok Hd l Ha. unfold use_property. words. cbn [andb]. unfold l. by rewrite both_blocks. Qed.

Lemma parse_format_text long64 f : event_format_ok long64 f ->
  PerfEventFormat_parse long64 f.(ef_system_name) (format_text f) = Ret (Some f).
Proof.
  intros Hok. pose proof (format_text_ascii long64 f Hok) as Ha. pose proof Hok as [(Hn & _ & _) [Hp _] Hid [Hf Hlf] Hc _ _].
  pose proof names_ok as Nm. apply Forall_cons_iff in Nm as [N1 Nm]. apply Forall_cons_iff in Nm as [N2 Nm].
  apply Forall_cons_iff in Nm as [N3 Nm]. apply Forall_cons_iff in Nm as [N4 _].
  assert (Hi : property_value [32] (fmt_decimal f.(ef_id))).
  { apply decimal_value. lia. }
  unfold PerfEventFormat_parse. set (l := format_text f) in *. set (id := fmt_decimal f.(ef_id)) in *.
  set (b1 := field_block (common_fields f)). set (b2 := field_block (user_fields f)).
  set (r4 := str_bytes "print fmt: " ++ f.(ef_print_fmt) ++ [10]).
  set (r3 := b1 ++ 10 :: b2 ++ 10 :: 10 :: r4).
  set (r2 := str_bytes "format:" ++ r3). set (r1 := str_bytes "ID: " ++ id ++ 10 :: r2).
  assert (Hfuel : exists n, S (length l) = S (S (S (S (S n))))) by (by eexists).
  destruct Hfuel as [n ->].
  set (p1 := str_bytes "name: " ++ f.(ef_name)). set (p2 := p1 ++ 10 :: str_bytes "ID: " ++ id).
  set (p3 := p2 ++ 10 :: str_bytes "format:"). set (p4 := p3 ++ b1 ++ 10 :: b2 ++ [10]).
  set (p5 := p4 ++ 10 :: str_bytes "print fmt: " ++ f.(ef_print_fmt)).
  assert (L1 : l = [] ++ [] ++ str_bytes "name" ++ 58 :: [32] ++ f.(ef_name) ++ 10 :: r1) by done.
  assert (L2 : l = p1 ++ [10] ++ str_bytes "ID" ++ 58 :: [32] ++ id ++ 10 :: r2)
    by (unfold p1; rewrite <- app_assoc; done).
  assert (L3 : l = p3 ++ r3) by (unfold p3, p2, p1; rewrite <- !app_assoc; done).
  assert (L4 : l = p4 ++ [10] ++ str_bytes "print fmt" ++ 58 :: [32] ++ f.(ef_print_fmt) ++ [10]).
  { rewrite L3. unfold p4, r3. rewrite <- !app_assoc. cbn [app]. by rewrite <- !app_assoc. }
  assert (L5 : l = p5 ++ [10]) by (rewrite L4; unfold p5; rewrite <- !app_assoc; done).
  assert (Hr3 : r3 = 10 :: tail r3).
  { unfold r3, b1. destruct (common_fields f) as [|g gs] eqn:Eg; [|done]. exfalso.
    apply (f_equal length) in Eg. unfold common_fields, len in *. rewrite length_take in Eg. cbn in Eg. lia. }
  assert (L3' : l = p2 ++ [10] ++ str_bytes "format" ++ 58 :: [] ++ [] ++ 10 :: tail r3).
  { cbn [app]. rewrite <- Hr3, L3. unfold p3. rewrite <- !app_assoc. done. }
  clearbody l.
  assert (E1 : property_lines (S (S (S (S (S n))))) long64 l 0 nothing_found = Ret
    {| fd_name := f.(ef_name); fd_print_fmt := f.(ef_print_fmt); fd_fields := f.(ef_fields); fd_id := Some f.(ef_id);
       fd_common_field_count := f.(ef_common_field_count) |}).
  { change 0 with (len (@nil Z)). rewrite L1 at 1.
    erewrite used_line; [| constructor | done | done |]; rewrite <- ?L1.
    2: { intros E. by rewrite (use_name long64 l _ _ _ _ E Ha). }
    change (([] ++ [] ++ str_bytes "name" ++ 58 :: [32]) ++ f.(ef_name)) with p1. cbn [fd_print_fmt fd_fields fd_id fd_common_field_count nothing_found].
    rewrite L2 at 1. erewrite used_line; [| by repeat constructor | done | done |]; rewrite <- ?L2.
    2: { intros E. by rewrite (use_id long64 l _ _ _ _ E f.(ef_id)). }
    replace ((p1 ++ [10] ++ str_bytes "ID" ++ 58 :: [32]) ++ id) with p2 by (unfold p2; by rewrite <- !app_assoc).
    cbn [fd_name fd_print_fmt fd_fields fd_id fd_common_field_count].
    rewrite L3' at 1. erewrite used_line; [| by repeat constructor | done | done |]; rewrite <- ?L3'.
    2: { intros _. rewrite app_nil_r. replace (p2 ++ [10] ++ str_bytes "format" ++ [58]) with p3 by done.
         rewrite L3. unfold r3, b1, b2. by rewrite (use_format long64 f) by (try done; fold b1 b2 r3; by rewrite <- L3). }
    fold b1 b2 p4. cbn [fd_name fd_print_fmt fd_fields fd_id fd_common_field_count].
    rewrite L4 at 1. erewrite used_line; [| by repeat constructor | done | done |]; rewrite <- ?L4.
    2: { intros E. by rewrite (use_print_fmt long64 l _ _ _ _ E Ha). }
    replace ((p4 ++ [10] ++ str_bytes "print fmt" ++ 58 :: [32]) ++ f.(ef_print_fmt)) with p5
      by (unfold p5; by rewrite <- !app_assoc).
    rewrite L5 at 1. by rewrite property_lines_end. }
  rewrite E1. cbn [mbind outcome_bind]. by apply (format_of_ok long64).
Qed.

(** ** The conditions, as a test *)

Definition is_ascii (l : bytes) : bool := forallb (fun b => (0 <=? b) && (b <? 0x80)) l.
Definition field_printedb (long64 : bool) (g : PerfFieldFormat) : bool :=
  match PerfFieldFormat_new long64 g.(ff_field) g.(ff_offset) g.(ff_size) g.(ff_signed) with
  | Ret g' => bool_decide (g' = g)
  | Panic => false
  end
  && is_ascii g.(ff_field) && forallb (fun b => negb (b =? 59) && negb (is_eol_char b)) g.(ff_field)
  && match g.(ff_field) with [] => false | b :: _ => negb (is_space_or_tab b) end
  && fits 16 g.(ff_offset) && fits 16 g.(ff_size).
Definition value_okb (v : bytes) : bool :=
  balanced false v && match v with [] => true | c :: _ => negb (is_space_or_tab c) end && is_ascii v.
Definition event_format_okb (long64 : bool) (f : PerfEventFormat) : bool :=
  value_okb f.(ef_name) && negb (bool_decide (f.(ef_name) = [])) && value_okb f.(ef_print_fmt) && fits 32 f.(ef_id)
  && forallb (field_printedb long64) f.(ef_fields) && fits 16 (len f.(ef_fields))
  && (1 <=? f.(ef_common_field_count)) && (f.(ef_common_field_count) <=? len f.(ef_fields))
  && match f.(ef_fields) !! Z.to_nat (f.(ef_common_field_count) - 1) with
     | Some g => (f.(ef_common_fields_size) =? g.(ff_offset) + g.(ff_size)) && (f.(ef_common_fields_size) <? 2 ^ 16)
     | None => false
     end
  && match user_fields f with
     | g :: _ => match ff_name g with
                 | Ret n => bool_decide (f.(ef_decoding_style) =
                              if str_is n "eventheader_flags" then EventHeaderStyle else TraceEventFormat)
                 | Panic => false
                 end
     | [] => bool_decide (f.(ef_decoding_style) = TraceEventFormat)
     end.

Lemma is_ascii_ok l : is_ascii l = true -> ascii l.
Proof.
  unfold is_ascii. rewrite forallb_forall. intros H. apply List.Forall_forall. intros b Hb. specialize (H b Hb).
  bool_hyps. lia.
Qed.
Lemma fits_ok w z : fits w z = true -> 0 <= z < 2 ^ w.
Proof. unfold fits. intros H. bool_hyps. lia. Qed.
Lemma field_printedb_ok long64 g : field_printedb long64 g = true -> field_printed long64 g.
Proof.
  unfold field_printedb. intros H. repeat (apply andb_prop in H as [H ?]).
  destruct (PerfFieldFormat_new _ _ _ _ _) as [g'|] eqn:E; [|done]. apply bool_decide_eq_true in H as ->.
  assert (F : Forall (fun b => negb (b =? 59) && negb (is_eol_char b) = true) g.(ff_field))
    by (by apply List.Forall_forall, forallb_forall).
  constructor; try done; try (by apply fits_ok); [by apply is_ascii_ok | split |].
  - eapply List.Forall_impl; [|exact F]. intros b Hb. by apply andb_prop in Hb as [? _].
  - destruct g.(ff_field); [done|]. by apply negb_true_iff.
  - eapply List.Forall_impl; [|exact F]. intros b Hb. by apply andb_prop in Hb as [_ ?].
Qed.
Lemma value_okb_ok v : value_okb v = true -> property_value [32] v /\ ascii v.
Proof.
  unfold value_okb. intros H. repeat (apply andb_prop in H as [H ?]). split; [|by apply is_ascii_ok].
  split_and!; [by repeat constructor | done |]. destruct v; [done | by apply negb_true_iff].
Qed.
Lemma event_format_okb_ok long64 f : event_format_okb long64 f = true -> event_format_ok long64 f.
Proof.
  unfold event_format_okb. rewrite !andb_true_iff.
  intros [[[[[[[[[H H8] H7] H6] H5] H4] H3] H2] H1] H0]. apply negb_true_iff in H8. apply Z.leb_le in H3, H2.
  pose proof (value_okb_ok _ H) as [? ?]. constructor.
  - split_and!; [done | | done]. by apply (proj1 (bool_decide_eq_false _)).
  - by apply value_okb_ok.
  - by apply fits_ok.
  - split; [|by apply fits_ok]. apply List.Forall_forall. intros g Hg. apply field_printedb_ok.
    eapply forallb_forall; eassumption.
  - done.
  - destruct (_ !! _) as [g|]; [|done]. bool_hyps. eexists. split_and!; [reflexivity | done | done].
  - destruct (user_fields f) as [|g u]; [by apply (proj1 (bool_decide_eq_true _))|].
    destruct (ff_name g) as [n|]; [|done]. exists n. split; [done | by apply (proj1 (bool_decide_eq_true _))].
Qed.

(** C36. The text that [write_to] appends for an event format parses to the same format:
    name, id, print format, fields, the number and size of the common fields and the
    decoding style.  The formats are those of a format file with at least one common
    field ([event_format_ok]): the name is not empty, name and print format are ASCII, do
    not start with a space and leave no quotation mark or parenthesis open, each field is
    what its own ASCII declaration parses to, and size and style of the common fields are
    those of the fields.  Without common fields it does not hold:
    [no_common_fields_reread]. *)
Theorem format_round_trip long64 f s : event_format_ok long64 f ->
  exists text, PerfEventFormat_write_to f s = Ret (Ok tt, s ++ text) /\
    PerfEventFormat_parse long64 f.(ef_system_name) text = Ret (Some f).
Proof.
  intros Hok. exists (format_text f). split; [|by apply parse_format_text].
  apply write_to_text. by destruct Hok.
Qed.

(** A format file of user_events. *)
Definition example_file : bytes :=
  str_bytes "name: my_event" ++ 10 :: str_bytes "ID: 1462" ++ 10 :: str_bytes "format:" ++ 10 ::
  str_bytes "	field:unsigned short common_type;	offset:0;	size:2;	signed:0;" ++ 10 ::
  str_bytes "	field:int common_pid;	offset:4;	size:4;	signed:1;" ++ 10 :: 10 ::
  str_bytes "	field:u8 eventheader_flags;	offset:8;	size:1;	signed:0;" ++ 10 ::
  str_bytes "	field:__rel_loc char[] text;	offset:9;	size:4;	signed:1;" ++ 10 :: 10 ::
  str_bytes "print fmt: " ++ 34 :: str_bytes "flags=%x" ++ 34 :: str_bytes ", REC->eventheader_flags" ++ [10].
Definition example_format : PerfEventFormat :=
  match PerfEventFormat_parse true (str_bytes "user_events") example_file with
  | Ret (Some f) => f
  | _ => {| ef_system_name := []; ef_name := []; ef_print_fmt := []; ef_fields := []; ef_id := 0;
            ef_common_field_count := 0; ef_common_fields_size := 0; ef_decoding_style := TraceEventFormat |}
  end.

Lemma example_format_okb : event_format_okb true example_format = true.
Proof. vm_compute. reflexivity. Qed.

Lemma format_round_trip_witness :
  exists text, PerfEventFormat_write_to example_format [] = Ret (Ok tt, text) /\
    PerfEventFormat_parse true example_format.(ef_system_name) text = Ret (Some example_format).
Proof. apply (format_round_trip true example_format [] (event_format_okb_ok _ _ example_format_okb)). Defined.

(** A format without common fields is written without the blank line that ends them:
    read back, its fields are common fields, and the line of the print format is taken
    for a field and lost. *)
Definition no_common_file : bytes :=
  str_bytes "name: e" ++ 10 :: str_bytes "ID: 1" ++ 10 :: str_bytes "format:" ++ 10 :: 10 ::
  str_bytes "	field:u8 a;	offset:8;	size:1;	signed:0;" ++ 10 :: 10 :: str_bytes "print fmt: x" ++ [10].
Definition parse_text (text : bytes) : option PerfEventFormat :=
  match PerfEventFormat_parse true (str_bytes "s") text with Ret f => f | Panic => None end.
Definition rewritten (f : PerfEventFormat) : bytes :=
  match PerfEventFormat_write_to f [] with Ret (_, text) => text | Panic => [] end.
Lemma no_common_fields_reread :
  exists f g, parse_text no_common_file = Some f /\ parse_text (rewritten f) = Some g /\
    (f.(ef_common_field_count), f.(ef_print_fmt)) = (0, str_bytes "x") /\
    (g.(ef_common_field_count), g.(ef_print_fmt)) = (1, []).
Proof. eexists _, _. split; [vm_compute; reflexivity|]. split; vm_compute; [reflexivity|]. split; reflexivity. Qed.
