(* ===== verification/FileReader.v ===== *)
(** * FileReader: reading perf.data files (tracepoint_perf/src/file_reader.rs)

    A reader holds the headers, the attributes and the buffers of the events it has
    read.  A method that can fail keeps what it changed before the error ([io]); a
    parser of a header that returns early does so silently.  A [Vec<u8>] for events is
    its bytes and its capacity, grown as [RawVec] grows it. *)

From stdpp Require Import gmap sorting.
From S2P Require Import Prelude Strings Types ByteReader PerfItem Text Writers FieldFormat Session PerfAbi PerfIo EventFormat.

(* file_reader.rs: const OFFSET_UNSET *)
Definition OFFSET_UNSET : Z := -1.
(* file_reader.rs: const OFFSET_NOT_PRESENT *)
Definition OFFSET_NOT_PRESENT : Z := -2.
(* file_reader.rs: const NORMAL_EVENT_MAX_SIZE *)
Definition NORMAL_EVENT_MAX_SIZE : Z := 0x10000.
(* file_reader.rs: const FREE_BUFFER_LARGER_THAN *)
Definition FREE_BUFFER_LARGER_THAN : Z := NORMAL_EVENT_MAX_SIZE.
(* file_reader.rs: const PerfDataFileReader::PERFILE2_MAGIC_HOST_ENDIAN *)
Definition PERFILE2_MAGIC_HOST_ENDIAN : Z := 0x32454C4946524550.
(* file_reader.rs: const PerfDataFileReader::PERFILE2_MAGIC_SWAP_ENDIAN *)
Definition PERFILE2_MAGIC_SWAP_ENDIAN : Z := 0x50455246494C4532.

(** ** Data *)

(** [Vec<u8>]: [reserve] at least doubles the capacity when it grows. *)
Record Vec8 := { vec : bytes; capacity : Z }.
Definition Vec8_new : Vec8 := {| vec := []; capacity := 0 |}.
Definition with_capacity (n : Z) : Vec8 := {| vec := []; capacity := n |}.
Definition reserve (additional : Z) (v : Vec8) : Vec8 :=
  {| vec := v.(vec);
     capacity := if v.(capacity) - len v.(vec) <? additional
                 then Z.max (Z.max (2 * v.(capacity)) (len v.(vec) + additional)) 8 else v.(capacity) |}.
Definition extend (l : bytes) (v : Vec8) : Vec8 :=
  let v := reserve (len l) v in {| vec := v.(vec) ++ l; capacity := v.(capacity) |}.
Definition vec_clear (v : Vec8) : Vec8 := {| vec := []; capacity := v.(capacity) |}.

(* file_reader.rs: enum PerfDataFileEventOrder *)
Inductive PerfDataFileEventOrder := FileOrder | TimeOrder.
#[export] Instance PerfDataFileEventOrder_eq_dec : EqDecision PerfDataFileEventOrder.
Proof. solve_decision. Defined.

(* file_reader.rs: struct EventBytesRef *)
Record EventBytesRef := { buffer_index : Z; range_start : Z; range_end : Z }.
Definition EventBytesRef_default : EventBytesRef := {| buffer_index := 0; range_start := 0; range_end := 0 |}.

(* file_reader.rs: struct QueueEntry *)
Record QueueEntry := { entry_time : Z; round_sequence : Z; bytes_ref : EventBytesRef }.
(** The order of [Ord]: by time, then by position in the round. *)
(* file_reader.rs: QueueEntry::cmp *)
Definition entry_le (a b : QueueEntry) : Prop :=
  a.(entry_time) < b.(entry_time) \/ a.(entry_time) = b.(entry_time) /\ a.(round_sequence) <= b.(round_sequence).
#[export] Instance entry_le_dec : RelDecision entry_le.
Proof. intros a b. unfold entry_le. solve_decision. Defined.

(* file_reader.rs: struct ReaderAttrs *)
Record ReaderAttrs := {
  event_desc_list : list PerfEventDesc;
  event_desc_id_to_index : gmap Z Z;
  format_by_id : gmap Z PerfEventFormat;
  sample_id_offset : Z;
  non_sample_id_offset : Z;
  sample_time_offset : Z;
  non_sample_time_offset : Z;
}.

Definition set_event_desc_list (v : list PerfEventDesc) (a : ReaderAttrs) : ReaderAttrs :=
  {| event_desc_list := v; event_desc_id_to_index := a.(event_desc_id_to_index);
     format_by_id := a.(format_by_id); sample_id_offset := a.(sample_id_offset);
     non_sample_id_offset := a.(non_sample_id_offset); sample_time_offset := a.(sample_time_offset);
     non_sample_time_offset := a.(non_sample_time_offset) |}.
Definition set_event_desc_id_to_index (v : gmap Z Z) (a : ReaderAttrs) : ReaderAttrs :=
  {| event_desc_list := a.(event_desc_list); event_desc_id_to_index := v;
     format_by_id := a.(format_by_id); sample_id_offset := a.(sample_id_offset);
     non_sample_id_offset := a.(non_sample_id_offset); sample_time_offset := a.(sample_time_offset);
     non_sample_time_offset := a.(non_sample_time_offset) |}.
Definition set_format_by_id (v : gmap Z PerfEventFormat) (a : ReaderAttrs) : ReaderAttrs :=
  {| event_desc_list := a.(event_desc_list); event_desc_id_to_index := a.(event_desc_id_to_index);
     format_by_id := v; sample_id_offset := a.(sample_id_offset);
     non_sample_id_offset := a.(non_sample_id_offset); sample_time_offset := a.(sample_time_offset);
     non_sample_time_offset := a.(non_sample_time_offset) |}.
Definition set_sample_id_offset (v : Z) (a : ReaderAttrs) : ReaderAttrs :=
  {| event_desc_list := a.(event_desc_list); event_desc_id_to_index := a.(event_desc_id_to_index);
     format_by_id := a.(format_by_id); sample_id_offset := v;
     non_sample_id_offset := a.(non_sample_id_offset); sample_time_offset := a.(sample_time_offset);
     non_sample_time_offset := a.(non_sample_time_offset) |}.
Definition set_non_sample_id_offset (v : Z) (a : ReaderAttrs) : ReaderAttrs :=
  {| event_desc_list := a.(event_desc_list); event_desc_id_to_index := a.(event_desc_id_to_index);
     format_by_id := a.(format_by_id); sample_id_offset := a.(sample_id_offset);
     non_sample_id_offset := v; sample_time_offset := a.(sample_time_offset);
     non_sample_time_offset := a.(non_sample_time_offset) |}.
Definition set_sample_time_offset (v : Z) (a : ReaderAttrs) : ReaderAttrs :=
  {| event_desc_list := a.(event_desc_list); event_desc_id_to_index := a.(event_desc_id_to_index);
     format_by_id := a.(format_by_id); sample_id_offset := a.(sample_id_offset);
     non_sample_id_offset := a.(non_sample_id_offset); sample_time_offset := v;
     non_sample_time_offset := a.(non_sample_time_offset) |}.
Definition set_non_sample_time_offset (v : Z) (a : ReaderAttrs) : ReaderAttrs :=
  {| event_desc_list := a.(event_desc_list); event_desc_id_to_index := a.(event_desc_id_to_index);
     format_by_id := a.(format_by_id); sample_id_offset := a.(sample_id_offset);
     non_sample_id_offset := a.(non_sample_id_offset); sample_time_offset := a.(sample_time_offset);
     non_sample_time_offset := v |}.

(* file_reader.rs: ReaderAttrs::new *)
Definition ReaderAttrs_new : ReaderAttrs :=
  {| event_desc_list := []; event_desc_id_to_index := ∅; format_by_id := ∅;
     sample_id_offset := OFFSET_UNSET; non_sample_id_offset := OFFSET_UNSET;
     sample_time_offset := OFFSET_UNSET; non_sample_time_offset := OFFSET_UNSET |}.
(* file_reader.rs: ReaderAttrs::clear *)
Definition ReaderAttrs_clear (a : ReaderAttrs) : ReaderAttrs := ReaderAttrs_new.

(** The state behind HEADER_TRACING_DATA; ranges are in that header. *)
(* file_reader.rs:676-686: struct DataFileReader, tracing data *)
Record TracingData := {
  parsed_tracing_data : bool;
  tracing_data_long_size : Z;
  tracing_data_page_size : Z;
  header_page : Z * Z;
  header_event : Z * Z;
  ftraces : list (Z * Z);
  kallsyms : Z * Z;
  printk : Z * Z;
  cmd_line : Z * Z;
}.

Definition set_parsed_tracing_data (v : bool) (t : TracingData) : TracingData :=
  {| parsed_tracing_data := v; tracing_data_long_size := t.(tracing_data_long_size);
     tracing_data_page_size := t.(tracing_data_page_size); header_page := t.(header_page);
     header_event := t.(header_event); ftraces := t.(ftraces); kallsyms := t.(kallsyms);
     printk := t.(printk); cmd_line := t.(cmd_line) |}.
Definition set_tracing_data_long_size (v : Z) (t : TracingData) : TracingData :=
  {| parsed_tracing_data := t.(parsed_tracing_data); tracing_data_long_size := v;
     tracing_data_page_size := t.(tracing_data_page_size); header_page := t.(header_page);
     header_event := t.(header_event); ftraces := t.(ftraces); kallsyms := t.(kallsyms);
     printk := t.(printk); cmd_line := t.(cmd_line) |}.
Definition set_tracing_data_page_size (v : Z) (t : TracingData) : TracingData :=
  {| parsed_tracing_data := t.(parsed_tracing_data); tracing_data_long_size := t.(tracing_data_long_size);
     tracing_data_page_size := v; header_page := t.(header_page); header_event := t.(header_event);
     ftraces := t.(ftraces); kallsyms := t.(kallsyms); printk := t.(printk); cmd_line := t.(cmd_line) |}.
Definition set_header_page (v : Z * Z) (t : TracingData) : TracingData :=
  {| parsed_tracing_data := t.(parsed_tracing_data); tracing_data_long_size := t.(tracing_data_long_size);
     tracing_data_page_size := t.(tracing_data_page_size); header_page := v;
     header_event := t.(header_event); ftraces := t.(ftraces); kallsyms := t.(kallsyms);
     printk := t.(printk); cmd_line := t.(cmd_line) |}.
Definition set_header_event (v : Z * Z) (t : TracingData) : TracingData :=
  {| parsed_tracing_data := t.(parsed_tracing_data); tracing_data_long_size := t.(tracing_data_long_size);
     tracing_data_page_size := t.(tracing_data_page_size); header_page := t.(header_page);
     header_event := v; ftraces := t.(ftraces); kallsyms := t.(kallsyms); printk := t.(printk);
     cmd_line := t.(cmd_line) |}.
Definition set_ftraces (v : list (Z * Z)) (t : TracingData) : TracingData :=
  {| parsed_tracing_data := t.(parsed_tracing_data); tracing_data_long_size := t.(tracing_data_long_size);
     tracing_data_page_size := t.(tracing_data_page_size); header_page := t.(header_page);
     header_event := t.(header_event); ftraces := v; kallsyms := t.(kallsyms); printk := t.(printk);
     cmd_line := t.(cmd_line) |}.
Definition set_kallsyms (v : Z * Z) (t : TracingData) : TracingData :=
  {| parsed_tracing_data := t.(parsed_tracing_data); tracing_data_long_size := t.(tracing_data_long_size);
     tracing_data_page_size := t.(tracing_data_page_size); header_page := t.(header_page);
     header_event := t.(header_event); ftraces := t.(ftraces); kallsyms := v; printk := t.(printk);
     cmd_line := t.(cmd_line) |}.
Definition set_printk (v : Z * Z) (t : TracingData) : TracingData :=
  {| parsed_tracing_data := t.(parsed_tracing_data); tracing_data_long_size := t.(tracing_data_long_size);
     tracing_data_page_size := t.(tracing_data_page_size); header_page := t.(header_page);
     header_event := t.(header_event); ftraces := t.(ftraces); kallsyms := t.(kallsyms); printk := v;
     cmd_line := t.(cmd_line) |}.
Definition set_cmd_line (v : Z * Z) (t : TracingData) : TracingData :=
  {| parsed_tracing_data := t.(parsed_tracing_data); tracing_data_long_size := t.(tracing_data_long_size);
     tracing_data_page_size := t.(tracing_data_page_size); header_page := t.(header_page);
     header_event := t.(header_event); ftraces := t.(ftraces); kallsyms := t.(kallsyms);
     printk := t.(printk); cmd_line := v |}.

Definition TracingData_new : TracingData :=
  {| parsed_tracing_data := false; tracing_data_long_size := 0; tracing_data_page_size := 0;
     header_page := (0, 0); header_event := (0, 0); ftraces := []; kallsyms := (0, 0); printk := (0, 0);
     cmd_line := (0, 0) |}.

(* file_reader.rs:654-686: struct DataFileReader *)
Record DataFileReader := {
  data_begin_file_pos : Z;
  data_end_file_pos : Z;
  attrs : ReaderAttrs;
  buffers : list Vec8;
  headers : list bytes;
  event_queue : list QueueEntry;
  event_queue_consumed : Z;
  session_info : PerfSessionInfo;
  current_buffer : Z;
  parsed_header_event_desc : bool;
  event_order : PerfDataFileEventOrder;
  event_queue_pending_result : option (result bool ErrorKind);
  common_type_size : Z;
  common_type_offset : Z;
  tracing : TracingData;
}.

Definition set_data_begin_file_pos (v : Z) (d : DataFileReader) : DataFileReader :=
  {| data_begin_file_pos := v; data_end_file_pos := d.(data_end_file_pos); attrs := d.(attrs);
     buffers := d.(buffers); headers := d.(headers); event_queue := d.(event_queue);
     event_queue_consumed := d.(event_queue_consumed); session_info := d.(session_info);
     current_buffer := d.(current_buffer); parsed_header_event_desc := d.(parsed_header_event_desc);
     event_order := d.(event_order); event_queue_pending_result := d.(event_queue_pending_result);
     common_type_size := d.(common_type_size); common_type_offset := d.(common_type_offset);
     tracing := d.(tracing) |}.
Definition set_data_end_file_pos (v : Z) (d : DataFileReader) : DataFileReader :=
  {| data_begin_file_pos := d.(data_begin_file_pos); data_end_file_pos := v; attrs := d.(attrs);
     buffers := d.(buffers); headers := d.(headers); event_queue := d.(event_queue);
     event_queue_consumed := d.(event_queue_consumed); session_info := d.(session_info);
     current_buffer := d.(current_buffer); parsed_header_event_desc := d.(parsed_header_event_desc);
     event_order := d.(event_order); event_queue_pending_result := d.(event_queue_pending_result);
     common_type_size := d.(common_type_size); common_type_offset := d.(common_type_offset);
     tracing := d.(tracing) |}.
Definition set_attrs (v : ReaderAttrs) (d : DataFileReader) : DataFileReader :=
  {| data_begin_file_pos := d.(data_begin_file_pos); data_end_file_pos := d.(data_end_file_pos);
     attrs := v; buffers := d.(buffers); headers := d.(headers); event_queue := d.(event_queue);
     event_queue_consumed := d.(event_queue_consumed); session_info := d.(session_info);
     current_buffer := d.(current_buffer); parsed_header_event_desc := d.(parsed_header_event_desc);
     event_order := d.(event_order); event_queue_pending_result := d.(event_queue_pending_result);
     common_type_size := d.(common_type_size); common_type_offset := d.(common_type_offset);
     tracing := d.(tracing) |}.
Definition set_buffers (v : list Vec8) (d : DataFileReader) : DataFileReader :=
  {| data_begin_file_pos := d.(data_begin_file_pos); data_end_file_pos := d.(data_end_file_pos);
     attrs := d.(attrs); buffers := v; headers := d.(headers); event_queue := d.(event_queue);
     event_queue_consumed := d.(event_queue_consumed); session_info := d.(session_info);
     current_buffer := d.(current_buffer); parsed_header_event_desc := d.(parsed_header_event_desc);
     event_order := d.(event_order); event_queue_pending_result := d.(event_queue_pending_result);
     common_type_size := d.(common_type_size); common_type_offset := d.(common_type_offset);
     tracing := d.(tracing) |}.
Definition set_headers (v : list bytes) (d : DataFileReader) : DataFileReader :=
  {| data_begin_file_pos := d.(data_begin_file_pos); data_end_file_pos := d.(data_end_file_pos);
     attrs := d.(attrs); buffers := d.(buffers); headers := v; event_queue := d.(event_queue);
     event_queue_consumed := d.(event_queue_consumed); session_info := d.(session_info);
     current_buffer := d.(current_buffer); parsed_header_event_desc := d.(parsed_header_event_desc);
     event_order := d.(event_order); event_queue_pending_result := d.(event_queue_pending_result);
     common_type_size := d.(common_type_size); common_type_offset := d.(common_type_offset);
     tracing := d.(tracing) |}.
Definition set_event_queue (v : list QueueEntry) (d : DataFileReader) : DataFileReader :=
  {| data_begin_file_pos := d.(data_begin_file_pos); data_end_file_pos := d.(data_end_file_pos);
     attrs := d.(attrs); buffers := d.(buffers); headers := d.(headers); event_queue := v;
     event_queue_consumed := d.(event_queue_consumed); session_info := d.(session_info);
     current_buffer := d.(current_buffer); parsed_header_event_desc := d.(parsed_header_event_desc);
     event_order := d.(event_order); event_queue_pending_result := d.(event_queue_pending_result);
     common_type_size := d.(common_type_size); common_type_offset := d.(common_type_offset);
     tracing := d.(tracing) |}.
Definition set_event_queue_consumed (v : Z) (d : DataFileReader) : DataFileReader :=
  {| data_begin_file_pos := d.(data_begin_file_pos); data_end_file_pos := d.(data_end_file_pos);
     attrs := d.(attrs); buffers := d.(buffers); headers := d.(headers); event_queue := d.(event_queue);
     event_queue_consumed := v; session_info := d.(session_info); current_buffer := d.(current_buffer);
     parsed_header_event_desc := d.(parsed_header_event_desc); event_order := d.(event_order);
     event_queue_pending_result := d.(event_queue_pending_result);
     common_type_size := d.(common_type_size); common_type_offset := d.(common_type_offset);
     tracing := d.(tracing) |}.
Definition set_session_info (v : PerfSessionInfo) (d : DataFileReader) : DataFileReader :=
  {| data_begin_file_pos := d.(data_begin_file_pos); data_end_file_pos := d.(data_end_file_pos);
     attrs := d.(attrs); buffers := d.(buffers); headers := d.(headers); event_queue := d.(event_queue);
     event_queue_consumed := d.(event_queue_consumed); session_info := v;
     current_buffer := d.(current_buffer); parsed_header_event_desc := d.(parsed_header_event_desc);
     event_order := d.(event_order); event_queue_pending_result := d.(event_queue_pending_result);
     common_type_size := d.(common_type_size); common_type_offset := d.(common_type_offset);
     tracing := d.(tracing) |}.
Definition set_current_buffer (v : Z) (d : DataFileReader) : DataFileReader :=
  {| data_begin_file_pos := d.(data_begin_file_pos); data_end_file_pos := d.(data_end_file_pos);
     attrs := d.(attrs); buffers := d.(buffers); headers := d.(headers); event_queue := d.(event_queue);
     event_queue_consumed := d.(event_queue_consumed); session_info := d.(session_info);
     current_buffer := v; parsed_header_event_desc := d.(parsed_header_event_desc);
     event_order := d.(event_order); event_queue_pending_result := d.(event_queue_pending_result);
     common_type_size := d.(common_type_size); common_type_offset := d.(common_type_offset);
     tracing := d.(tracing) |}.
Definition set_parsed_header_event_desc (v : bool) (d : DataFileReader) : DataFileReader :=
  {| data_begin_file_pos := d.(data_begin_file_pos); data_end_file_pos := d.(data_end_file_pos);
     attrs := d.(attrs); buffers := d.(buffers); headers := d.(headers); event_queue := d.(event_queue);
     event_queue_consumed := d.(event_queue_consumed); session_info := d.(session_info);
     current_buffer := d.(current_buffer); parsed_header_event_desc := v; event_order := d.(event_order);
     event_queue_pending_result := d.(event_queue_pending_result);
     common_type_size := d.(common_type_size); common_type_offset := d.(common_type_offset);
     tracing := d.(tracing) |}.
Definition set_event_order (v : PerfDataFileEventOrder) (d : DataFileReader) : DataFileReader :=
  {| data_begin_file_pos := d.(data_begin_file_pos); data_end_file_pos := d.(data_end_file_pos);
     attrs := d.(attrs); buffers := d.(buffers); headers := d.(headers); event_queue := d.(event_queue);
     event_queue_consumed := d.(event_queue_consumed); session_info := d.(session_info);
     current_buffer := d.(current_buffer); parsed_header_event_desc := d.(parsed_header_event_desc);
     event_order := v; event_queue_pending_result := d.(event_queue_pending_result);
     common_type_size := d.(common_type_size); common_type_offset := d.(common_type_offset);
     tracing := d.(tracing) |}.
Definition set_event_queue_pending_result (v : option (result bool ErrorKind)) (d : DataFileReader) : DataFileReader :=
  {| data_begin_file_pos := d.(data_begin_file_pos); data_end_file_pos := d.(data_end_file_pos);
     attrs := d.(attrs); buffers := d.(buffers); headers := d.(headers); event_queue := d.(event_queue);
     event_queue_consumed := d.(event_queue_consumed); session_info := d.(session_info);
     current_buffer := d.(current_buffer); parsed_header_event_desc := d.(parsed_header_event_desc);
     event_order := d.(event_order); event_queue_pending_result := v;
     common_type_size := d.(common_type_size); common_type_offset := d.(common_type_offset);
     tracing := d.(tracing) |}.
Definition set_common_type_size (v : Z) (d : DataFileReader) : DataFileReader :=
  {| data_begin_file_pos := d.(data_begin_file_pos); data_end_file_pos := d.(data_end_file_pos);
     attrs := d.(attrs); buffers := d.(buffers); headers := d.(headers); event_queue := d.(event_queue);
     event_queue_consumed := d.(event_queue_consumed); session_info := d.(session_info);
     current_buffer := d.(current_buffer); parsed_header_event_desc := d.(parsed_header_event_desc);
     event_order := d.(event_order); event_queue_pending_result := d.(event_queue_pending_result);
     common_type_size := v; common_type_offset := d.(common_type_offset); tracing := d.(tracing) |}.
Definition set_common_type_offset (v : Z) (d : DataFileReader) : DataFileReader :=
  {| data_begin_file_pos := d.(data_begin_file_pos); data_end_file_pos := d.(data_end_file_pos);
     attrs := d.(attrs); buffers := d.(buffers); headers := d.(headers); event_queue := d.(event_queue);
     event_queue_consumed := d.(event_queue_consumed); session_info := d.(session_info);
     current_buffer := d.(current_buffer); parsed_header_event_desc := d.(parsed_header_event_desc);
     event_order := d.(event_order); event_queue_pending_result := d.(event_queue_pending_result);
     common_type_size := d.(common_type_size); common_type_offset := v; tracing := d.(tracing) |}.
Definition set_tracing (v : TracingData) (d : DataFileReader) : DataFileReader :=
  {| data_begin_file_pos := d.(data_begin_file_pos); data_end_file_pos := d.(data_end_file_pos);
     attrs := d.(attrs); buffers := d.(buffers); headers := d.(headers); event_queue := d.(event_queue);
     event_queue_consumed := d.(event_queue_consumed); session_info := d.(session_info);
     current_buffer := d.(current_buffer); parsed_header_event_desc := d.(parsed_header_event_desc);
     event_order := d.(event_order); event_queue_pending_result := d.(event_queue_pending_result);
     common_type_size := d.(common_type_size); common_type_offset := d.(common_type_offset); tracing := v |}.


(* file_reader.rs: DataFileReader::new *)
Definition DataFileReader_new : DataFileReader :=
  {| data_begin_file_pos := 0; data_end_file_pos := 0; attrs := ReaderAttrs_new; buffers := [Vec8_new];
     headers := repeat [] (Z.to_nat HeaderIndex_LastFeature); event_queue := []; event_queue_consumed := 0;
     session_info := PerfSessionInfo_new (PerfByteReader_new false); current_buffer := 0;
     parsed_header_event_desc := false; event_order := FileOrder; event_queue_pending_result := None;
     common_type_size := 0; common_type_offset := OFFSET_UNSET; tracing := TracingData_new |}.

(** [buffer.clear(); if buffer.capacity() > FREE_BUFFER_LARGER_THAN { buffer.shrink_to_fit(); }] *)
Definition trim_buffer (b : Vec8) : Vec8 :=
  if FREE_BUFFER_LARGER_THAN <? b.(capacity) then Vec8_new else vec_clear b.
(* file_reader.rs: DataFileReader::close *)
Definition DataFileReader_close (d : DataFileReader) : outcome DataFileReader :=
  match d.(buffers) with
  | [] => Panic
  | b0 :: bs =>
    Ret {| data_begin_file_pos := 0; data_end_file_pos := 0; attrs := ReaderAttrs_clear d.(attrs);
           buffers := vec_clear b0 :: map trim_buffer bs; headers := map (fun _ => []) d.(headers);
           event_queue := []; event_queue_consumed := 0;
           session_info := PerfSessionInfo_new (PerfByteReader_new false); current_buffer := 0;
           parsed_header_event_desc := false; event_order := FileOrder; event_queue_pending_result := None;
           common_type_size := 0; common_type_offset := OFFSET_UNSET; tracing := TracingData_new |}
  end.

Section Reader.
Context `{Target}.

(** ** Attributes *)

Definition b2z (b : bool) : Z := if b then 1 else 0.

(* file_reader.rs:1712-1726: ReaderAttrs::add_attr, attr from its bytes *)
Definition attr_of_bytes (r : PerfByteReader) (attr_bytes : bytes) : outcome PerfEventAttr :=
  _ ← rassert (len attr_bytes <=? size_of PerfEventAttr);
  let attr := struct_of_bytes PerfEventAttr KEEP_ENDIAN
                (attr_bytes ++ repeat 0 (Z.to_nat (size_of PerfEventAttr - len attr_bytes))) in
  let attr := if byte_swap_needed r then attr_byte_swap attr else attr in
  Ret (set_attr_size (as_unsigned 32 (len attr_bytes)) attr).

(** The offsets of the id and of the time in the prefix and in the suffix of events. *)
(* file_reader.rs:1728-1776: ReaderAttrs::add_attr, offsets *)
Definition attr_offsets (attr : PerfEventAttr) : outcome (Z * Z * Z * Z) :=
  let has := SampleType_has_flag attr.(attr_sample_type) in
  let n f := b2z (has f) in
  '(sample_id_offset, non_sample_id_offset) ←
    (if has SampleType_Identifier then Ret (8, 8)
     else if negb (has SampleType_Id) then Ret (OFFSET_NOT_PRESENT, OFFSET_NOT_PRESENT)
     else
       s ← checked_signed 8 (8 * (1 + n SampleType_IP + n SampleType_Tid + n SampleType_Time + n SampleType_Addr));
       ns ← checked_signed 8 (8 * (1 + n SampleType_Cpu + n SampleType_StreamId));
       Ret (s, ns));
  '(sample_time_offset, non_sample_time_offset) ←
    (if negb (has SampleType_Time) then Ret (OFFSET_NOT_PRESENT, OFFSET_NOT_PRESENT)
     else
       s ← checked_signed 8 (8 * (1 + n SampleType_Identifier + n SampleType_IP + n SampleType_Tid));
       ns ← checked_signed 8 (8 * (1 + n SampleType_Identifier + n SampleType_Cpu + n SampleType_StreamId + n SampleType_Id));
       Ret (s, ns));
  if negb (AttrOptions_has_flag attr.(attr_options) AttrOptions_SampleIdAll)
  then Ret (sample_id_offset, OFFSET_NOT_PRESENT, sample_time_offset, OFFSET_NOT_PRESENT)
  else Ret (sample_id_offset, non_sample_id_offset, sample_time_offset, non_sample_time_offset).

(** [if new != self.offset { if self.offset != OFFSET_UNSET { return false; } self.offset = new; }] *)
Definition merge_offset (get : ReaderAttrs -> Z) (set : Z -> ReaderAttrs -> ReaderAttrs) (new : Z)
    : io ReaderAttrs unit unit :=
  a ← io_get;
  if new =? get a then mret tt
  else if get a =? OFFSET_UNSET then io_modify (set new) else io_err tt.

(** [ids_bytes.chunks_exact(8).map(read_u64)] *)
Fixpoint read_ids (r : PerfByteReader) (n : nat) (l : bytes) : outcome (list Z) :=
  match n with
  | O => Ret []
  | Datatypes.S n => id ← read_u64 r (take 8 l); ids ← read_ids r n (drop 8 l); Ret (id :: ids)
  end.

(** The body; a [return false] is the error. *)
Definition add_attr_body (r : PerfByteReader) (attr_bytes name ids_bytes : bytes) : io ReaderAttrs unit unit :=
  attr ← io_lift (attr_of_bytes r attr_bytes);
  '(s_id, ns_id, s_time, ns_time) ← io_lift (attr_offsets attr);
  _ ← merge_offset sample_id_offset set_sample_id_offset s_id;
  _ ← merge_offset non_sample_id_offset set_non_sample_id_offset ns_id;
  _ ← merge_offset sample_time_offset set_sample_time_offset s_time;
  _ ← merge_offset non_sample_time_offset set_non_sample_time_offset ns_time;
  ids ← io_lift (read_ids r (Z.to_nat (len ids_bytes / 8)) ids_bytes);
  a ← io_get;
  let format := if negb (attr.(attr_type) =? AttrType_Tracepoint) then None
                else a.(format_by_id) !! as_unsigned 32 attr.(attr_config) in
  let event_desc_index := len a.(event_desc_list) in
  let desc := PerfEventDesc_new attr (utf8 name) format ids in
  let a := set_event_desc_list (a.(event_desc_list) ++ [desc]) a in
  io_modify (fun _ =>
    set_event_desc_id_to_index
      (fold_left (fun m id => <[id := event_desc_index]> m) desc.(pd_ids) a.(event_desc_id_to_index)) a).
(* file_reader.rs: ReaderAttrs::add_attr *)
Definition add_attr (r : PerfByteReader) (attr_bytes name ids_bytes : bytes) (a : ReaderAttrs)
    : outcome (bool * ReaderAttrs) :=
  '(res, a) ← add_attr_body r attr_bytes name ids_bytes a;
  Ret (match res with Ok _ => true | Err _ => false end, a).

(** ** Sections *)

(* file_reader.rs: DataFileReader::section_valid *)
Definition section_valid (f : InputFile) (s : PerfFileSection) : bool :=
  (s.(sec_offset) <? f.(inner_len)) && (s.(sec_size) <=? f.(inner_len) - s.(sec_offset)).

(** [rest] is [data[pos..]]; the value up to the nul. *)
Fixpoint before_zero (rest : bytes) : option bytes :=
  match rest with
  | [] => None
  | b :: rest => if b =? 0 then Some [] else cons b <$> before_zero rest
  end.
(* file_reader.rs: DataFileReader::read_sz *)
Definition read_sz (data : bytes) (pos : Z) : option bytes := before_zero (from data pos).

(* file_reader.rs: DataFileReader::read_section *)
Definition read_section (size_of_section_size : Z) (r : PerfByteReader) (data : bytes) (pos : Z) : outcome (Z * Z) :=
  _ ← rassert ((size_of_section_size =? 4) || (size_of_section_size =? 8));
  _ ← rassert (pos <=? len data);
  rest ← usize (len data - pos);
  if rest <? size_of_section_size then Ret (0, 0)
  else
    d ← slice_from data pos;
    section_size ← (if size_of_section_size =? 8 then read_u64 r d else read_u32 r d);
    pos ← usize (pos + size_of_section_size);
    rest ← usize (len data - pos);
    if rest <? section_size then Ret (0, 0)
    else
      pos_end ← usize (pos + section_size);
      Ret (pos, pos_end).
(* file_reader.rs: DataFileReader::read_named_section_64 *)
Definition read_named_section_64 (r : PerfByteReader) (data : bytes) (pos : Z) (expected_name : bytes)
    : outcome (Z * Z) :=
  _ ← rassert (pos <=? len data);
  rest ← usize (len data - pos);
  if rest <? len expected_name then Ret (pos, pos)
  else
    name ← slice data pos (pos + len expected_name);
    if negb (bool_decide (name = expected_name)) then Ret (pos, pos)
    else read_section 8 r data (pos + len expected_name).

(** ** HEADER_TRACING_DATA *)

(** [str::parse::<f64>] of the bytes is a number that is at least the double 0.6.  A
    decimal number rounds to a double of at least 0.6 exactly if it is above the
    midpoint of 0.6 and its predecessor. *)
Definition digits_value (l : bytes) : Z := fold_left (fun v c => v * 10 + (c - 48)) l 0.
Definition digits_prefix (l : bytes) : bytes * bytes :=
  let n := skip_bytes is_ascii_digit l 0 in (take (Z.to_nat n) l, drop (Z.to_nat n) l).
Definition decimal_above (m e : Z) : bool :=
  if 0 <=? e then 10808639105689189 <? m * 10 ^ e * 2 ^ 54
  else 10808639105689189 * 10 ^ (- e) <? m * 2 ^ 54.
Definition lowercase (l : bytes) : bytes := map (fun c => if (65 <=? c) && (c <=? 90) then c + 32 else c) l.
Definition unsigned_at_least_0_6 (l : bytes) : bool :=
  if str_is (lowercase l) "inf" || str_is (lowercase l) "infinity" then true
  else
    let '(i, l) := digits_prefix l in
    let '(f, l) := match l with 46 :: t => digits_prefix t | _ => ([], l) end in
    if (len i =? 0) && (len f =? 0) then false
    else
      let m := digits_value (i ++ f) in
      match l with
      | [] => decimal_above m (- len f)
      | e :: l =>
        if (e =? 101) || (e =? 69) then
          let '(neg, l) := match l with 45 :: t => (true, t) | 43 :: t => (false, t) | _ => (false, l) end in
          let '(x, l) := digits_prefix l in
          if (len x =? 0) || negb (len l =? 0) then false
          else decimal_above m ((if neg : bool then - digits_value x else digits_value x) - len f)
        else false
      end.
Definition f64_at_least_0_6 (l : bytes) : bool :=
  match l with
  | 45 :: _ => false
  | 43 :: t => unsigned_at_least_0_6 t
  | _ => unsigned_at_least_0_6 l
  end.

(** The state changes of the parser. *)
Definition on_tracing (f : TracingData -> TracingData) : io DataFileReader unit unit :=
  io_modify (fun d => set_tracing (f d.(tracing)) d).
(** [section_value.end], which is 0 for an unexpected section. *)
Definition section_end (s : Z * Z) : io DataFileReader unit Z :=
  if snd s =? 0 then io_err tt else mret (snd s).
(** [if data.len() - pos < n { return; }] *)
Definition need (data : bytes) (pos n : Z) : io DataFileReader unit unit :=
  rest ← io_lift (usize (len data - pos));
  if rest <? n then io_err tt else mret tt.
Definition read_u32_at (r : PerfByteReader) (data : bytes) (pos : Z) : io DataFileReader unit Z :=
  io_lift (d ← slice_from data pos; read_u32 r d).

Definition TRACING_SIGNATURE : bytes := [0x17; 0x08; 0x44] ++ str_bytes "tracing".

(* file_reader.rs:1333-1341: DataFileReader::parse_tracing_data, ftraces *)
Fixpoint parse_ftraces (fuel : nat) (r : PerfByteReader) (data : bytes) (n pos : Z) : io DataFileReader unit Z :=
  match fuel with
  | O => io_lift Panic
  | Datatypes.S fuel =>
    if n <=? 0 then mret pos
    else
      section_value ← io_lift (read_section 8 r data pos);
      pos ← section_end section_value;
      _ ← on_tracing (fun t => set_ftraces (t.(ftraces) ++ [section_value]) t);
      parse_ftraces fuel r data (n - 1) pos
  end.

(** The usable [common_type] field of a format: the first of that name, if it is one. *)
(* file_reader.rs:1383-1397: DataFileReader::parse_tracing_data, common_type *)
Fixpoint find_common_type (fields : list PerfFieldFormat) : outcome (Z * Z) :=
  match fields with
  | [] => Ret (OFFSET_UNSET, 0)
  | field :: fields =>
    name ← ff_name field;
    if str_is name "common_type" then
      if (field.(ff_offset) <=? 127)
         && ((field.(ff_size) =? 1) || (field.(ff_size) =? 2) || (field.(ff_size) =? 4))
         && bool_decide (field.(ff_array) = ArrNone)
      then Ret (as_signed 8 field.(ff_offset), as_unsigned 8 field.(ff_size))
      else Ret (OFFSET_UNSET, 0)
    else find_common_type fields
  end.

(** [for i in 0..common_field_count() { fields()[i] }] *)
Definition common_fields_of (f : PerfEventFormat) : outcome (list PerfFieldFormat) :=
  slice f.(ef_fields) 0 f.(ef_common_field_count).

(* file_reader.rs:1383-1416: DataFileReader::parse_tracing_data, one format *)
Definition use_event_format (event_format : PerfEventFormat) : io DataFileReader unit unit :=
  fields ← io_lift (common_fields_of event_format);
  '(offset, size) ← io_lift (find_common_type fields);
  d ← io_get;
  let insert := io_modify (fun d =>
    set_attrs (set_format_by_id (<[event_format.(ef_id) := event_format]> d.(attrs).(format_by_id)) d.(attrs)) d) in
  if offset =? OFFSET_UNSET then mret tt
  else if d.(common_type_offset) =? OFFSET_UNSET then
    _ ← io_modify (fun d => set_common_type_size size (set_common_type_offset offset d)); insert
  else if negb (d.(common_type_offset) =? offset) || negb (d.(common_type_size) =? size) then mret tt
  else insert.

(* file_reader.rs:1370-1417: DataFileReader::parse_tracing_data, events *)
Fixpoint parse_events (fuel : nat) (r : PerfByteReader) (data system_name : bytes) (n pos : Z)
    : io DataFileReader unit Z :=
  match fuel with
  | O => io_lift Panic
  | Datatypes.S fuel =>
    if n <=? 0 then mret pos
    else
      section_value ← io_lift (read_section 8 r data pos);
      pos ← section_end section_value;
      contents ← io_lift (slice data (fst section_value) (snd section_value));
      d ← io_get;
      let long_size_is_64 := negb (d.(tracing).(tracing_data_long_size) =? 4) in
      format ← io_lift (PerfEventFormat_parse long_size_is_64 system_name (utf8 contents));
      _ ← (match format with Some event_format => use_event_format event_format | None => mret tt end);
      parse_events fuel r data system_name (n - 1) pos
  end.

(* file_reader.rs:1354-1418: DataFileReader::parse_tracing_data, systems *)
Fixpoint parse_systems (fuel : nat) (r : PerfByteReader) (data : bytes) (n pos : Z) : io DataFileReader unit Z :=
  match fuel with
  | O => io_lift Panic
  | Datatypes.S fuel =>
    if n <=? 0 then mret pos
    else
      match read_sz data pos with
      | None => io_err tt
      | Some system_sz =>
        let pos := pos + len system_sz + 1 in
        _ ← need data pos 4;
        event_count ← read_u32_at r data pos;
        pos ← parse_events (Datatypes.S (length data)) r data (utf8 system_sz) event_count (pos + 4);
        parse_systems fuel r data (n - 1) pos
      end
  end.

(* file_reader.rs:1421-1433: DataFileReader::parse_tracing_data, formats of descriptions *)
Definition update_desc (formats : gmap Z PerfEventFormat) (desc : PerfEventDesc) : PerfEventDesc :=
  match desc.(pd_format) with
  | Some _ => desc
  | None =>
    if desc.(pd_attr).(attr_type) =? AttrType_Tracepoint then
      match formats !! as_unsigned 32 desc.(pd_attr).(attr_config) with
      | Some format => set_format format desc
      | None => desc
      end
    else desc
  end.

(** After the signature and the version. *)
Definition parse_tracing_rest (data : bytes) (version_06 : bool) (pos : Z) : io DataFileReader unit unit :=
  _ ← need data pos 6;
  big ← io_lift (index data pos);
  let r := PerfByteReader_new (negb (big =? 0)) in
  long_size ← io_lift (index data (pos + 1));
  _ ← on_tracing (set_tracing_data_long_size long_size);
  page_size ← read_u32_at r data (pos + 2);
  _ ← on_tracing (set_tracing_data_page_size page_size);
  section ← io_lift (read_named_section_64 r data (pos + 6) (str_bytes "header_page" ++ [0]));
  pos ← section_end section;
  _ ← on_tracing (set_header_page section);
  section ← io_lift (read_named_section_64 r data pos (str_bytes "header_event" ++ [0]));
  pos ← section_end section;
  _ ← on_tracing (set_header_event section);
  _ ← need data pos 4;
  ftrace_count ← read_u32_at r data pos;
  let pos := pos + 4 in
  rest ← io_lift (usize (len data - pos));
  if as_unsigned 32 rest / 8 <? ftrace_count then io_err tt
  else
    pos ← parse_ftraces (Datatypes.S (length data)) r data ftrace_count pos;
    _ ← need data pos 4;
    system_count ← read_u32_at r data pos;
    pos ← parse_systems (Datatypes.S (length data)) r data system_count (pos + 4);
    _ ← io_modify (fun d =>
      set_attrs (set_event_desc_list (map (update_desc d.(attrs).(format_by_id)) d.(attrs).(event_desc_list)) d.(attrs)) d);
    section ← io_lift (read_section 4 r data pos);
    pos ← section_end section;
    _ ← on_tracing (set_kallsyms section);
    section ← io_lift (read_section 4 r data pos);
    pos ← section_end section;
    _ ← on_tracing (set_printk section);
    io_when version_06
      (section ← io_lift (read_section 8 r data pos);
       _ ← section_end section;
       on_tracing (set_cmd_line section)).

(** Runs a parser; an early return leaves the state as it is then. *)
Definition parsed (m : io DataFileReader unit unit) (d : DataFileReader) : outcome DataFileReader :=
  '(_, d) ← m d; Ret d.

(** [headers[i]] *)
Definition header_at (i : Z) (d : DataFileReader) : outcome bytes := index d.(headers) i.

(* file_reader.rs: DataFileReader::parse_tracing_data *)
Definition parse_tracing_data : DataFileReader -> outcome DataFileReader := parsed (
  d ← io_get;
  data ← io_lift (header_at HeaderIndex_TracingData d);
  if (len data <? len TRACING_SIGNATURE)
     || negb (bool_decide (take (length TRACING_SIGNATURE) data = TRACING_SIGNATURE)) then io_err tt
  else
    _ ← on_tracing (set_parsed_tracing_data true);
    let pos := len TRACING_SIGNATURE in
    match read_sz data pos with
    | None => io_err tt
    | Some version_sz => parse_tracing_rest data (f64_at_least_0_6 version_sz) (pos + len version_sz + 1)
    end).

(** ** The other headers *)

Definition on_session (f : PerfSessionInfo -> outcome PerfSessionInfo) (d : DataFileReader) : outcome DataFileReader :=
  s ← f d.(session_info); Ret (set_session_info s d).

(* file_reader.rs: DataFileReader::parse_header_clockid *)
Definition parse_header_clockid (d : DataFileReader) : outcome DataFileReader :=
  data ← header_at HeaderIndex_ClockId d;
  if 8 <=? len data then
    id ← read_u64 d.(session_info).(session_byte_reader) data;
    on_session (fun s => Ret (set_clock_id (as_unsigned 32 id) s)) d
  else Ret d.

(* file_reader.rs: DataFileReader::parse_header_clock_data *)
Definition parse_header_clock_data (d : DataFileReader) : outcome DataFileReader :=
  data ← header_at HeaderIndex_ClockData d;
  if len data <? size_of ClockData then Ret d
  else
    let clock_data := struct_of_bytes ClockData KEEP_ENDIAN data in
    let clock_data := if byte_swap_needed d.(session_info).(session_byte_reader)
                      then clock_byte_swap clock_data else clock_data in
    if 1 <=? clock_data.(cd_version) then
      on_session (set_clock_data clock_data.(cd_clockid) clock_data.(cd_wall_clock_ns) clock_data.(cd_clockid_time_ns)) d
    else Ret d.

Definition on_attrs {A} (f : ReaderAttrs -> outcome (A * ReaderAttrs)) (d : DataFileReader) : outcome DataFileReader :=
  '(_, a) ← f d.(attrs); Ret (set_attrs a d).

(** One description; each takes at least the size of an attribute. *)
(* file_reader.rs:1523-1568: DataFileReader::parse_header_event_desc, loop *)
Fixpoint parse_event_descs (fuel : nat) (r : PerfByteReader) (data : bytes) (attr_size n pos : Z)
    : io DataFileReader unit unit :=
  match fuel with
  | O => io_lift Panic
  | Datatypes.S fuel =>
    if n <=? 0 then mret tt
    else
      _ ← need data pos (attr_size + 4 + 4);
      let attr_pos := pos in
      let pos := pos + attr_size in
      ids_count ← read_u32_at r data pos;
      string_size ← read_u32_at r data (pos + 4);
      let pos := pos + 8 in
      size ← read_u32_at r data (attr_pos + SIZE_OFFSET);
      if negb (attr_size =? size) || (0x10000 <? ids_count) || (0x10000 <? string_size) then io_err tt
      else
        _ ← need data pos (string_size + ids_count * 8);
        let string_pos := pos in
        let pos := pos + string_size in
        string ← io_lift (slice data string_pos (string_pos + string_size));
        match before_zero string with
        | None => io_err tt
        | Some name =>
          ids_bytes ← io_lift (slice data pos (pos + ids_count * 8));
          attr_bytes ← io_lift (slice data attr_pos (attr_pos + Z.min attr_size (size_of PerfEventAttr)));
          d ← io_get;
          d ← io_lift (on_attrs (add_attr r attr_bytes name ids_bytes) d);
          _ ← io_modify (fun _ => d);
          parse_event_descs fuel r data attr_size (n - 1) (pos + len ids_bytes)
        end
  end.
(* file_reader.rs: DataFileReader::parse_header_event_desc *)
Definition parse_header_event_desc : DataFileReader -> outcome DataFileReader := parsed (
  d ← io_get;
  data ← io_lift (header_at HeaderIndex_EventDesc d);
  if d.(parsed_header_event_desc) || (len data <? 8) then io_err tt
  else
    _ ← io_modify (set_parsed_header_event_desc true);
    let r := d.(session_info).(session_byte_reader) in
    event_count ← read_u32_at r data 0;
    attr_size ← read_u32_at r data 4;
    if negb ((AttrSize_Ver0 <=? attr_size) && (attr_size <=? 0x10000)) then io_err tt
    else parse_event_descs (Datatypes.S (length data)) r data attr_size event_count 8).

(** ** Opening a file *)

(** A reader, the reference to the current event and the file. *)
Record Reading := { rd : DataFileReader; cur : EventBytesRef; file : InputFile }.
Definition on_rd {E A} : io DataFileReader E A -> io Reading E A :=
  io_on rd (fun d s => {| rd := d; cur := s.(cur); file := s.(file) |}).
Definition on_file {E A} : io InputFile E A -> io Reading E A :=
  io_on file (fun f s => {| rd := s.(rd); cur := s.(cur); file := f |}).
Definition upd (f : DataFileReader -> outcome DataFileReader) : io Reading ErrorKind unit :=
  on_rd (fun d => d ← f d; Ret (Ok tt, d)).
Definition set_cur (c : EventBytesRef) : io Reading ErrorKind unit :=
  io_modify (fun s => {| rd := s.(rd); cur := c; file := s.(file) |}).

Definition buffer_at (i : Z) (d : DataFileReader) : outcome Vec8 := index d.(buffers) i.
Definition set_buffer (i : Z) (v : Vec8) (d : DataFileReader) : outcome DataFileReader :=
  bs ← store d.(buffers) i v; Ret (set_buffers bs d).

(** [file.read_append_vec(&mut self.buffers[i], n)]; the reservation stays after an error. *)
Definition append_to_buffer (i n : Z) : io Reading ErrorKind unit :=
  s ← io_get;
  b ← io_lift (buffer_at i s.(rd));
  let b := reserve n b in
  _ ← upd (set_buffer i b);
  l ← on_file (read_append_vec b.(vec) n);
  upd (set_buffer i {| vec := l; capacity := b.(capacity) |}).
Definition assign_buffer (i n : Z) : io Reading ErrorKind unit :=
  s ← io_get;
  b ← io_lift (buffer_at i s.(rd));
  _ ← upd (set_buffer i (vec_clear b));
  append_to_buffer i n.

Definition PERF_FILE_SECTION_SIZE : Z := size_of PerfFileSection.

(** One turn per attribute. *)
(* file_reader.rs:1180-1206: DataFileReader::load_attrs, loop *)
Fixpoint load_attrs_loop (fuel : nat) (attr_size_in_file attr_file_pos attr_file_pos_end : Z)
    : io Reading ErrorKind unit :=
  match fuel with
  | O => io_lift Panic
  | Datatypes.S fuel =>
    if negb (attr_file_pos <? attr_file_pos_end) then mret tt
    else
      _ ← on_file (seek_absolute attr_file_pos);
      attr_bytes ← on_file (read_exact (Z.min attr_size_in_file (size_of PerfEventAttr)));
      attr_file_pos ← io_lift (u64 (attr_file_pos + attr_size_in_file));
      _ ← on_file (seek_absolute attr_file_pos);
      section ← on_file (read_struct PerfFileSection);
      attr_file_pos ← io_lift (u64 (attr_file_pos + PERF_FILE_SECTION_SIZE));
      s ← io_get;
      if negb (section_valid s.(file) section) || negb (Z.land section.(sec_size) 7 =? 0)
         || (0x80000000 <=? section.(sec_size))
      then io_err InvalidData
      else
        _ ← on_file (seek_absolute section.(sec_offset));
        _ ← assign_buffer 0 section.(sec_size);
        s ← io_get;
        b ← io_lift (buffer_at 0 s.(rd));
        _ ← upd (on_attrs (add_attr s.(rd).(session_info).(session_byte_reader) attr_bytes [] b.(vec)));
        load_attrs_loop fuel attr_size_in_file attr_file_pos attr_file_pos_end
  end.
(* file_reader.rs: DataFileReader::load_attrs *)
Definition load_attrs (attrs_section : PerfFileSection) (attr_and_id_section_size64 : Z) : io Reading ErrorKind unit :=
  s ← io_get;
  b ← io_lift (buffer_at 0 s.(rd));
  _ ← io_lift (rassert (len b.(vec) =? 0));
  if (0x80000000 <=? attrs_section.(sec_size))
     || (attr_and_id_section_size64 <? AttrSize_Ver0 + PERF_FILE_SECTION_SIZE)
     || (0x10000 <? attr_and_id_section_size64)
  then io_err InvalidData
  else
    attr_size_in_file ← io_lift (u32 (attr_and_id_section_size64 - PERF_FILE_SECTION_SIZE));
    attr_file_pos_end ← io_lift (u64 (attrs_section.(sec_offset) + attrs_section.(sec_size)));
    load_attrs_loop (Datatypes.S (Z.to_nat (attrs_section.(sec_size) / attr_and_id_section_size64 + 1)))
      attr_size_in_file attrs_section.(sec_offset) attr_file_pos_end.

(** The parser of a header that is loaded. *)
(* file_reader.rs:1238-1244: DataFileReader::load_headers, parsers *)
Definition parse_header (index : Z) : DataFileReader -> outcome DataFileReader :=
  if index =? HeaderIndex_ClockId then parse_header_clockid
  else if index =? HeaderIndex_ClockData then parse_header_clock_data
  else if index =? HeaderIndex_EventDesc then parse_header_event_desc
  else if index =? HeaderIndex_TracingData then parse_tracing_data
  else Ret.
Definition set_header (i : Z) (value : bytes) (d : DataFileReader) : outcome DataFileReader :=
  hs ← store d.(headers) i value; Ret (set_headers hs d).

(** The headers from [header_index] on; [file_pos] is at the section of the next one. *)
(* file_reader.rs:1221-1248: DataFileReader::load_headers, loop *)
Fixpoint load_headers_loop (n : nat) (header_index flags file_pos : Z) : io Reading ErrorKind unit :=
  match n with
  | O => mret tt
  | Datatypes.S n =>
    if negb (Z.land flags (Z.shiftl 1 header_index) =? 0) then
      _ ← on_file (seek_absolute file_pos);
      section ← on_file (read_struct PerfFileSection);
      file_pos ← io_lift (u64 (file_pos + PERF_FILE_SECTION_SIZE));
      s ← io_get;
      if negb (section_valid s.(file) section) || (0x80000000 <=? section.(sec_size)) then io_err InvalidData
      else
        _ ← on_file (seek_absolute section.(sec_offset));
        _ ← upd (set_header header_index []);
        value ← on_file (read_assign_vec section.(sec_size));
        _ ← upd (set_header header_index value);
        _ ← upd (parse_header header_index);
        load_headers_loop n (header_index + 1) flags file_pos
    else load_headers_loop n (header_index + 1) flags file_pos
  end.
(* file_reader.rs: DataFileReader::load_headers *)
Definition load_headers (data_section : PerfFileSection) (flags : Z) : io Reading ErrorKind unit :=
  s ← io_get;
  file_pos ← io_lift (u64 (data_section.(sec_offset) + data_section.(sec_size)));
  load_headers_loop (length s.(rd).(headers)) 0 flags file_pos.

(** A file with a header of at least 104 bytes. *)
(* file_reader.rs:826-850: DataFileReader::open, normal mode *)
Definition open_normal (r : PerfByteReader) (pipe : PerfFileHeaderPipe) : io Reading ErrorKind unit :=
  _ ← on_file update_len;
  rest ← on_file (read_struct PerfFileHeaderRest);
  let header := {| fh_pipe := pipe; fh_rest := rest |} in
  let header := if byte_swap_needed r then file_header_byte_swap header else header in
  let rest := header.(fh_rest) in
  s ← io_get;
  if negb (section_valid s.(file) rest.(hr_attrs)) || negb (section_valid s.(file) rest.(hr_data))
     || negb (section_valid s.(file) rest.(hr_event_types))
  then io_err InvalidData
  else
    _ ← load_attrs rest.(hr_attrs) rest.(hr_attr_size);
    _ ← load_headers rest.(hr_data) rest.(hr_flags0);
    _ ← on_file (seek_absolute rest.(hr_data).(sec_offset));
    s ← io_get;
    _ ← io_lift (rassert (s.(file).(inner_pos) =? rest.(hr_data).(sec_offset)));
    end_pos ← io_lift (u64 (rest.(hr_data).(sec_offset) + rest.(hr_data).(sec_size)));
    upd (fun d => Ret (set_data_end_file_pos end_pos (set_data_begin_file_pos rest.(hr_data).(sec_offset) d))).

(* file_reader.rs: DataFileReader::open *)
Definition DataFileReader_open (order : PerfDataFileEventOrder) : io Reading ErrorKind unit :=
  _ ← upd (fun d => Ret (set_event_order order d));
  pipe ← on_file (read_struct PerfFileHeaderPipe);
  _ ← io_lift (rassert (PERFILE2_MAGIC_HOST_ENDIAN =? swap_bytes 8 PERFILE2_MAGIC_SWAP_ENDIAN));
  '(header_size, r) ←
    (if pipe.(hp_magic) =? PERFILE2_MAGIC_HOST_ENDIAN then mret (pipe.(hp_size), KEEP_ENDIAN)
     else if pipe.(hp_magic) =? PERFILE2_MAGIC_SWAP_ENDIAN then
       (** [u64::from_be] *)
       mret (if HOST_IS_BIG_ENDIAN then pipe.(hp_size) else swap_bytes 8 pipe.(hp_size), SWAP_ENDIAN)
     else io_err InvalidData);
  _ ← upd (fun d => Ret (set_session_info (PerfSessionInfo_new r) d));
  s ← io_get;
  b ← io_lift (buffer_at 0 s.(rd));
  _ ← io_lift (rassert (len b.(vec) =? 0));
  _ ← upd (set_buffer 0 (reserve NORMAL_EVENT_MAX_SIZE b));
  if header_size =? size_of PerfFileHeaderPipe then
    s ← io_get;
    _ ← io_lift (rassert (s.(file).(inner_pos) =? size_of PerfFileHeaderPipe));
    upd (fun d => Ret (set_data_end_file_pos (2 ^ 64 - 1) (set_data_begin_file_pos (size_of PerfFileHeaderPipe) d)))
  else if header_size <? size_of PerfFileHeader then io_err InvalidData
  else open_normal r pipe.

(** ** Reading an event *)

(** [self.buffers[cb][a..]], [self.buffers[cb][a..b]] *)
Definition buffer_slice (i a : Z) (b : option Z) (d : DataFileReader) : outcome bytes :=
  v ← buffer_at i d;
  match b with Some b => slice v.(vec) a b | None => slice_from v.(vec) a end.
Definition buffer_len (i : Z) (d : DataFileReader) : outcome Z := v ← buffer_at i d; Ret (len v.(vec)).

(** An error after which there is no current event. *)
Definition no_event {A} (e : ErrorKind) : io Reading ErrorKind A := _ ← set_cur EventBytesRef_default; io_err e.

(* file_reader.rs: DataFileReader::read_post_event_data *)
Definition read_post_event_data (i data_end_file_pos data_size : Z) : io Reading ErrorKind bool :=
  s ← io_get;
  rest ← io_lift (u64 (data_end_file_pos - s.(file).(inner_pos)));
  if (0x80000000 <=? data_size) || negb (data_size mod 8 =? 0) || (rest <? data_size) then mret false
  else
    n ← io_lift (buffer_len i s.(rd));
    new_end ← io_lift (usize (n + data_size));
    if (new_end <? data_size) || (0x80000000 <=? new_end) then mret false
    else _ ← append_to_buffer i data_size; mret true.
(** What every caller does with the result. *)
Definition post_event_data (i data_end_file_pos data_size : Z) : io Reading ErrorKind unit :=
  r ← io_try (read_post_event_data i data_end_file_pos data_size);
  match r with
  | Ok true => mret tt
  | Ok false => no_event InvalidData
  | Err e => no_event e
  end.

(** The special cases of an event by its type; [cb] is the buffer that holds it. *)
(* file_reader.rs:1036-1135: DataFileReader::read_one_event, special cases *)
Definition special_event (r : PerfByteReader) (h : PerfEventHeader) (cb header_pos event_data_pos : Z)
    : io Reading ErrorKind unit :=
  let event_data_len := h.(eh_size) - 8 in
  s ← io_get;
  let d := s.(rd) in
  let ty := h.(eh_type) in
  if ty =? HeaderType_HeaderAttr then
    if AttrSize_Ver0 <=? event_data_len then
      b ← io_lift (buffer_slice cb (event_data_pos + SIZE_OFFSET) None d);
      attr_size ← io_lift (read_u32 r b);
      if (AttrSize_Ver0 <=? attr_size) && (attr_size <? event_data_len) then
        let capped := Z.min attr_size (size_of PerfEventAttr) in
        attr_bytes ← io_lift (buffer_slice cb event_data_pos (Some (event_data_pos + capped)) d);
        ids ← io_lift (buffer_slice cb (event_data_pos + attr_size) None d);
        upd (on_attrs (add_attr r attr_bytes [] ids))
      else mret tt
    else mret tt
  else if ty =? HeaderType_HeaderTracingData then
    if event_data_len <? 4 then no_event InvalidData
    else
      b ← io_lift (buffer_slice cb event_data_pos None d);
      size ← io_lift (read_u32 r b);
      _ ← post_event_data cb d.(data_end_file_pos) size;
      s ← io_get;
      if s.(rd).(tracing).(parsed_tracing_data) then mret tt
      else
        v ← io_lift (buffer_slice cb (header_pos + h.(eh_size)) None s.(rd));
        _ ← upd (set_header HeaderIndex_TracingData v);
        upd parse_tracing_data
  else if ty =? HeaderType_HeaderBuildId then
    v ← io_lift (buffer_slice cb event_data_pos None d);
    upd (set_header HeaderIndex_BuildId v)
  else if ty =? HeaderType_Auxtrace then
    if event_data_len <? 8 then no_event InvalidData
    else
      b ← io_lift (buffer_slice cb event_data_pos None d);
      size ← io_lift (read_u64 r b);
      post_event_data cb d.(data_end_file_pos) size
  else if ty =? HeaderType_HeaderFeature then
    if 8 <=? event_data_len then
      b ← io_lift (buffer_slice cb event_data_pos None d);
      index64 ← io_lift (read_u64 r b);
      if index64 <? len d.(headers) then
        v ← io_lift (buffer_slice cb (event_data_pos + 8) None d);
        _ ← upd (set_header index64 v);
        if index64 =? HeaderIndex_ClockId then upd parse_header_clockid
        else if index64 =? HeaderIndex_ClockData then upd parse_header_clock_data
        else mret tt
      else mret tt
    else mret tt
  else if ty =? HeaderType_FinishedInit then
    data ← io_lift (header_at HeaderIndex_EventDesc d);
    if negb (len data =? 0) then upd parse_header_event_desc else mret tt
  else mret tt.

(** The buffer for an event of this size. *)
(* file_reader.rs:1005-1025: DataFileReader::read_one_event, next buffer *)
Definition choose_buffer (size : Z) (d : DataFileReader) : outcome DataFileReader :=
  n ← buffer_len d.(current_buffer) d;
  room ← usize (NORMAL_EVENT_MAX_SIZE - n);
  if room <? size then
    _ ← rassert (bool_decide (d.(event_order) = TimeOrder));
    cb ← u32 (d.(current_buffer) + 1);
    let d := set_current_buffer cb d in
    d ← (if len d.(buffers) <=? cb then
           _ ← rassert (cb =? len d.(buffers));
           Ret (set_buffers (d.(buffers) ++ [with_capacity NORMAL_EVENT_MAX_SIZE]) d)
         else Ret d);
    b ← buffer_at cb d;
    _ ← rassert (len b.(vec) =? 0);
    _ ← rassert (NORMAL_EVENT_MAX_SIZE <=? b.(capacity));
    Ret d
  else Ret d.

(** An event whose header is read and whose size is valid. *)
(* file_reader.rs:1005-1143: DataFileReader::read_one_event, data *)
Definition read_event_data (r : PerfByteReader) (header_bytes : bytes) (h : PerfEventHeader) : io Reading ErrorKind bool :=
  let event_data_len := h.(eh_size) - 8 in
  _ ← upd (choose_buffer h.(eh_size));
  s ← io_get;
  let cb := s.(rd).(current_buffer) in
  b ← io_lift (buffer_at cb s.(rd));
  let header_pos := len b.(vec) in
  _ ← upd (set_buffer cb (extend header_bytes b));
  let event_data_pos := header_pos + len header_bytes in
  _ ← append_to_buffer cb event_data_len;
  _ ← special_event r h cb header_pos event_data_pos;
  s ← io_get;
  _ ← io_lift (rassert (s.(file).(inner_pos) <=? s.(rd).(data_end_file_pos)));
  _ ← io_lift (rassert (event_data_pos =? header_pos + 8));
  n ← io_lift (buffer_len cb s.(rd));
  _ ← set_cur {| buffer_index := as_unsigned 32 cb; range_start := as_unsigned 32 header_pos;
                 range_end := as_unsigned 32 n |};
  mret true.

(* file_reader.rs: DataFileReader::read_one_event *)
Definition read_one_event : io Reading ErrorKind bool :=
  s ← io_get;
  let d := s.(rd) in
  b ← io_lift (buffer_at d.(current_buffer) d);
  _ ← io_lift (rassert (NORMAL_EVENT_MAX_SIZE <=? b.(capacity)));
  _ ← io_lift (rassert (len b.(vec) <=? NORMAL_EVENT_MAX_SIZE));
  let r := d.(session_info).(session_byte_reader) in
  let data_end := d.(data_end_file_pos) in
  let event_start_file_pos := s.(file).(inner_pos) in
  if data_end <=? event_start_file_pos then _ ← set_cur EventBytesRef_default; mret false
  else
    rest ← io_lift (u64 (data_end - event_start_file_pos));
    if rest <? 8 then no_event InvalidData
    else
      hb ← io_try (on_file (read_exact 8));
      match hb with
      | Err e =>
        if bool_decide (e = UnexpectedEof) && (data_end =? 2 ^ 64 - 1)
        then _ ← set_cur EventBytesRef_default; mret false
        else no_event e
      | Ok header_bytes =>
        let h := struct_of_bytes PerfEventHeader KEEP_ENDIAN header_bytes in
        let h := if byte_swap_needed r then header_byte_swap h else h in
        if h.(eh_size) <? 8 then no_event InvalidData
        else
          event_data_len ← io_lift (u16 (h.(eh_size) - 8));
          s ← io_get;
          rest ← io_lift (u64 (data_end - s.(file).(inner_pos)));
          if rest <? event_data_len then no_event InvalidData
          else read_event_data r header_bytes h
      end.

(* file_reader.rs: DataFileReader::read_event_file_order *)
Definition read_event_file_order : io Reading ErrorKind bool :=
  s ← io_get;
  _ ← io_lift (rassert (s.(rd).(current_buffer) =? 0));
  b ← io_lift (buffer_at 0 s.(rd));
  _ ← upd (set_buffer 0 (vec_clear b));
  read_one_event.

(** ** Time order *)

(** The sort key of an event. *)
(* file_reader.rs:900-920: DataFileReader::read_event_time_order, time *)
Definition event_time (r : PerfByteReader) (a : ReaderAttrs) (bytes : bytes) : outcome (Z * Z) :=
  header_type ← read_u32 r bytes;
  time ←
    (if header_type =? HeaderType_Sample then
       if (a.(sample_time_offset) <? 8) || (len bytes <? a.(sample_time_offset) + 8) then Ret 0
       else b ← slice_from bytes a.(sample_time_offset); read_u64 r b
     else if (HeaderType_UserTypeStart <=? header_type) || (a.(non_sample_time_offset) <? 8)
             || (len bytes <? a.(non_sample_time_offset))
     then Ret 0
     else b ← slice_from bytes (len bytes - a.(non_sample_time_offset)); read_u64 r b);
  Ret (header_type, time).

Definition push_entry (e : QueueEntry) : io Reading ErrorKind unit :=
  upd (fun d => Ret (set_event_queue (d.(event_queue) ++ [e]) d)).

(** Reads the events of a round; every one takes at least eight bytes of the file. *)
(* file_reader.rs:885-936: DataFileReader::read_event_time_order, round *)
Fixpoint read_round (fuel : nat) (r : PerfByteReader) : io Reading ErrorKind unit :=
  match fuel with
  | O => io_lift Panic
  | Datatypes.S fuel =>
    s ← io_get;
    let event_bytes := s.(cur) in
    _ ← set_cur EventBytesRef_default;
    result ← io_try read_one_event;
    s ← io_get;
    let ref := s.(cur) in
    _ ← set_cur event_bytes;
    match result with
    | Ok true =>
      bytes ← io_lift (buffer_slice ref.(buffer_index) ref.(range_start) (Some ref.(range_end)) s.(rd));
      '(header_type, time) ← io_lift (event_time r s.(rd).(attrs) bytes);
      let seq := as_unsigned 32 (len s.(rd).(event_queue)) in
      if (header_type =? HeaderType_FinishedRound) || (header_type =? HeaderType_FinishedInit) then
        push_entry {| entry_time := 2 ^ 64 - 1; round_sequence := seq; bytes_ref := ref |}
      else
        _ ← push_entry {| entry_time := time; round_sequence := seq; bytes_ref := ref |};
        read_round fuel r
    | _ => upd (fun d => Ret (set_event_queue_pending_result (Some result) d))
    end
  end.

(** One turn finds an event or the end, or reads a round and sorts it. *)
(* file_reader.rs:869-940: DataFileReader::read_event_time_order, loop *)
Fixpoint time_order_loop (fuel : nat) (r : PerfByteReader) : io Reading ErrorKind bool :=
  match fuel with
  | O => io_lift Panic
  | Datatypes.S fuel =>
    s ← io_get;
    let d := s.(rd) in
    if d.(event_queue_consumed) <? len d.(event_queue) then
      entry ← io_lift (index d.(event_queue) d.(event_queue_consumed));
      _ ← upd (fun d => Ret (set_event_queue_consumed (d.(event_queue_consumed) + 1) d));
      _ ← set_cur entry.(bytes_ref);
      mret true
    else
      match d.(event_queue_pending_result) with
      | Some result =>
        _ ← upd (fun d => Ret (set_event_queue_pending_result None d));
        _ ← set_cur EventBytesRef_default;
        match result with Ok b => mret b | Err e => io_err e end
      | None =>
        _ ← upd (fun d => Ret (set_event_queue_consumed 0 (set_event_queue [] d)));
        _ ← read_round (Datatypes.S (length s.(file).(in_inner).(contents))) r;
        _ ← upd (fun d => Ret (set_event_queue (merge_sort entry_le d.(event_queue)) d));
        time_order_loop fuel r
      end
  end.
(* file_reader.rs: DataFileReader::read_event_time_order *)
Definition read_event_time_order : io Reading ErrorKind bool :=
  s ← io_get;
  time_order_loop 2 s.(rd).(session_info).(session_byte_reader).

(** ** PerfDataFileReader *)

(* file_reader.rs: struct PerfDataFileReader *)
Record PerfDataFileReader := { pr_inner : DataFileReader; pr_current : EventBytesRef; pr_file : option InputFile }.

(* file_reader.rs: PerfDataFileReader::new *)
Definition PerfDataFileReader_new : PerfDataFileReader :=
  {| pr_inner := DataFileReader_new; pr_current := EventBytesRef_default; pr_file := None |}.
(* file_reader.rs: PerfDataFileReader::close *)
Definition PerfDataFileReader_close (p : PerfDataFileReader) : outcome PerfDataFileReader :=
  d ← DataFileReader_close p.(pr_inner);
  Ret {| pr_inner := d; pr_current := EventBytesRef_default; pr_file := None |}.

(* file_reader.rs: PerfDataFileReader::read_magic *)
Definition read_magic `{FileSystem} (filename : bytes) : result Z ErrorKind :=
  match fs_read filename with
  | Err e => Err e
  | Ok c => if len c <? 8 then Ok 0 else Ok (from_ne_bytes (take 8 c))
  end.
(* file_reader.rs: PerfDataFileReader::file_starts_with_magic *)
Definition file_starts_with_magic `{FileSystem} (filename : bytes) : result bool ErrorKind :=
  match read_magic filename with
  | Err e => Err e
  | Ok magic => Ok ((magic =? PERFILE2_MAGIC_HOST_ENDIAN) || (magic =? PERFILE2_MAGIC_SWAP_ENDIAN))
  end.

(* file_reader.rs: PerfDataFileReader::open_file *)
Definition open_file `{FileSystem} (path : bytes) (order : PerfDataFileEventOrder) : io PerfDataFileReader ErrorKind unit :=
  fun p =>
    p ← PerfDataFileReader_close p;
    match InputFile_new path with
    | Err e => Ret (Err e, p)
    | Ok f =>
      '(res, s) ← DataFileReader_open order {| rd := p.(pr_inner); cur := p.(pr_current); file := f |};
      Ret (res, {| pr_inner := s.(rd); pr_current := s.(cur);
                   pr_file := match res with Ok _ => Some s.(file) | Err _ => None end |})
    end.

(* file_reader.rs: PerfDataFileReader::move_next_event *)
Definition move_next_event : io PerfDataFileReader ErrorKind bool := fun p =>
  match p.(pr_file) with
  | None => Ret (Err InvalidInput, p)
  | Some f =>
    '(res, s) ← (match p.(pr_inner).(event_order) with
                 | FileOrder => read_event_file_order
                 | TimeOrder => read_event_time_order
                 end) {| rd := p.(pr_inner); cur := p.(pr_current); file := f |};
    Ret (res, {| pr_inner := s.(rd); pr_current := s.(cur); pr_file := Some s.(file) |})
  end.

(** ** What a reader shows *)

(* perf_event_data.rs: struct PerfEventBytes *)
Record PerfEventBytes := { pe_header : PerfEventHeader; pe_data : bytes }.
(* perf_event_data.rs: PerfEventBytes::new *)
Definition PerfEventBytes_new (header : PerfEventHeader) (data : bytes) : outcome PerfEventBytes :=
  _ ← rassert (size_of PerfEventHeader <=? len data); Ret {| pe_header := header; pe_data := data |}.

(* file_reader.rs: PerfDataFileReader::current_event *)
Definition current_event (p : PerfDataFileReader) : outcome PerfEventBytes :=
  let c := p.(pr_current) in
  if c.(range_end) - c.(range_start) <? size_of PerfEventHeader then PerfEventBytes_new PerfEventHeader_new []
  else
    bytes ← buffer_slice c.(buffer_index) c.(range_start) (Some c.(range_end)) p.(pr_inner);
    hb ← slice bytes 0 8;
    let header := struct_of_bytes PerfEventHeader KEEP_ENDIAN hb in
    let header := if byte_swap_needed p.(pr_inner).(session_info).(session_byte_reader)
                  then header_byte_swap header else header in
    PerfEventBytes_new header bytes.

(* file_reader.rs: PerfDataFileReader::event_desc_by_id *)
Definition event_desc_by_id (id : Z) (p : PerfDataFileReader) : outcome (option PerfEventDesc) :=
  match p.(pr_inner).(attrs).(event_desc_id_to_index) !! id with
  | Some i => d ← index p.(pr_inner).(attrs).(event_desc_list) i; Ret (Some d)
  | None => Ret None
  end.
(* file_reader.rs: PerfDataFileReader::header *)
Definition pr_header (i : Z) (p : PerfDataFileReader) : outcome bytes :=
  if i <? len p.(pr_inner).(headers) then header_at i p.(pr_inner) else Ret [].
(* file_reader.rs: PerfDataFileReader::header_string *)
Definition header_string (i : Z) (p : PerfDataFileReader) : outcome bytes :=
  if i <? len p.(pr_inner).(headers) then
    header ← header_at i p.(pr_inner);
    if 4 <=? len header then
      nts ← slice_from header 4;
      Ret (match before_zero nts with Some s => s | None => nts end)
    else Ret []
  else Ret [].
(** The parts of HEADER_TRACING_DATA. *)
Definition tracing_part (get : TracingData -> Z * Z) (p : PerfDataFileReader) : outcome bytes :=
  data ← header_at HeaderIndex_TracingData p.(pr_inner);
  let range := get p.(pr_inner).(tracing) in slice data (fst range) (snd range).
(* file_reader.rs: PerfDataFileReader::tracing_data_header_page *)
Definition tracing_data_header_page : PerfDataFileReader -> outcome bytes := tracing_part header_page.
(* file_reader.rs: PerfDataFileReader::tracing_data_header_event *)
Definition tracing_data_header_event : PerfDataFileReader -> outcome bytes := tracing_part header_event.
(* file_reader.rs: PerfDataFileReader::tracing_data_kallsyms *)
Definition tracing_data_kallsyms : PerfDataFileReader -> outcome bytes := tracing_part kallsyms.
(* file_reader.rs: PerfDataFileReader::tracing_data_printk *)
Definition tracing_data_printk : PerfDataFileReader -> outcome bytes := tracing_part printk.
(* file_reader.rs: PerfDataFileReader::tracing_data_saved_cmd_line *)
Definition tracing_data_saved_cmd_line : PerfDataFileReader -> outcome bytes := tracing_part cmd_line.
(* file_reader.rs: PerfDataFileReader::tracing_data_ftrace *)
Definition tracing_data_ftrace (i : Z) (p : PerfDataFileReader) : outcome bytes :=
  range ← index p.(pr_inner).(tracing).(ftraces) i; tracing_part (fun _ => range) p.
End Reader.
