(* ===== verification/SampleInfo.v ===== *)
(** * SampleInfo: the prefix and the suffix of events
    (tracepoint_perf/src/file_reader.rs, tracepoint_decode/src/perf_event_data.rs)

    A sample event starts with the items that its attribute's [sample_type] names, in a
    fixed order; another event may end with some of them.  The position is the state of
    the computation that takes them one after the other. *)

From stdpp Require Import gmap.
From S2P Require Import Prelude Strings Types ByteReader PerfItem Session PerfAbi PerfIo EventFormat FileReader.

(* file_reader.rs: enum PerfDataFileError *)
Inductive PerfDataFileError := EventInvalidData | IdNotFound | NotSupportedData | NoData.
#[export] Instance PerfDataFileError_eq_dec : EqDecision PerfDataFileError.
Proof. solve_decision. Defined.

(* perf_event_data.rs: struct PerfSampleEventInfo *)
Record PerfSampleEventInfo := {
  si_data : bytes;
  si_session_info : PerfSessionInfo;
  si_event_desc : PerfEventDesc;
  si_id : Z;
  si_ip : Z;
  si_pid : Z;
  si_tid : Z;
  si_time : Z;
  si_addr : Z;
  si_stream_id : Z;
  si_cpu : Z;
  si_cpu_reserved : Z;
  si_period : Z;
  si_read_range : Z * Z;
  si_callchain_range : Z * Z;
  si_raw_range : Z * Z;
}.
(* perf_event_data.rs: struct PerfNonSampleEventInfo *)
Record PerfNonSampleEventInfo := {
  ni_data : bytes;
  ni_session_info : PerfSessionInfo;
  ni_event_desc : PerfEventDesc;
  ni_id : Z;
  ni_cpu : Z;
  ni_cpu_reserved : Z;
  ni_stream_id : Z;
  ni_time : Z;
  ni_pid : Z;
  ni_tid : Z;
}.

(* file_reader.rs: const U64_ALIGN_MASK *)
Definition U64_ALIGN_MASK : Z := 2 ^ 64 - 8.
Definition align_down (n : Z) : Z := Z.land n U64_ALIGN_MASK.

(** ** The prefix of a sample *)

Section Prefix.
Context (r : PerfByteReader) (data : bytes) (end_pos : Z).

Definition read_u64_at (pos : Z) : outcome Z := d ← slice_from data pos; read_u64 r d.
Definition read_u32_from (pos : Z) : outcome Z := d ← slice_from data pos; read_u32 r d.

(** [if pos == end_pos { return Err(InvalidData); }] *)
Definition not_at_end : io Z PerfDataFileError unit :=
  pos ← io_get; if pos =? end_pos then io_err EventInvalidData else mret tt.

(** An item of eight bytes, if the sample type has it. *)
Definition take_u64 (has : bool) : io Z PerfDataFileError Z :=
  if has then
    _ ← not_at_end;
    pos ← io_get;
    v ← io_lift (read_u64_at pos);
    _ ← io_modify (Z.add 8);
    mret v
  else mret 0.
(** Two items of four bytes. *)
Definition take_u32s (has : bool) : io Z PerfDataFileError (Z * Z) :=
  if has then
    _ ← not_at_end;
    pos ← io_get;
    v ← io_lift (read_u32_from pos);
    _ ← io_modify (Z.add 4);
    pos ← io_get;
    w ← io_lift (read_u32_from pos);
    _ ← io_modify (Z.add 4);
    mret (v, w)
  else mret (0, 0).
(** The id, which is read before. *)
Definition skip_id (has : bool) : io Z PerfDataFileError unit :=
  if has then _ ← not_at_end; io_modify (Z.add 8) else mret tt.

Definition skip_identifier (has : bool) : io Z PerfDataFileError unit :=
  if has then pos ← io_get; _ ← io_lift (rassert (negb (pos =? end_pos))); io_modify (Z.add 8) else mret tt.

(** [if end_pos - pos < size { return Err(InvalidData); } pos += size;] *)
Definition take_block (size : Z) : io Z PerfDataFileError unit :=
  pos ← io_get;
  rest ← io_lift (usize (end_pos - pos));
  if rest <? size then io_err EventInvalidData else io_modify (Z.add size).

Definition SUPPORTED_READ_FORMATS : Z :=
  Z.lor (Z.lor (Z.lor (Z.lor ReadFormat_TotalTimeEnabled ReadFormat_TotalTimeRunning) ReadFormat_Id)
           ReadFormat_Group) ReadFormat_Lost.

(* file_reader.rs:422-473: PerfDataFileReader::get_sample_event_info, read *)
Definition take_read (has : bool) (read_format : Z) : io Z PerfDataFileError (Z * Z) :=
  if has then
    start ← io_get;
    let n f := b2z (ReadFormat_has_flag read_format f) in
    _ ←
      (if negb (Z.land read_format (Z.lnot SUPPORTED_READ_FORMATS) =? 0) then io_err NotSupportedData
       else if negb (ReadFormat_has_flag read_format ReadFormat_Group) then
         take_block ((1 + n ReadFormat_TotalTimeEnabled + n ReadFormat_TotalTimeRunning + n ReadFormat_Id
                      + n ReadFormat_Lost) * 8)
       else
         _ ← not_at_end;
         nr ← io_lift (read_u64_at start);
         if 0x10000 / 8 <=? nr then io_err EventInvalidData
         else
           let static_count := 1 + n ReadFormat_TotalTimeEnabled + n ReadFormat_TotalTimeRunning in
           let dyn_count := 1 + n ReadFormat_Id + n ReadFormat_Lost in
           take_block (8 * (static_count + nr * dyn_count)));
    pos ← io_get;
    mret (as_unsigned 16 start, as_unsigned 16 pos)
  else mret (0, 0).

(* file_reader.rs:475-493: PerfDataFileReader::get_sample_event_info, callchain *)
Definition take_callchain (has : bool) : io Z PerfDataFileError (Z * Z) :=
  if has then
    _ ← not_at_end;
    start ← io_get;
    nr ← io_lift (read_u64_at start);
    if 0x10000 / 8 <=? nr then io_err EventInvalidData
    else
      _ ← take_block (8 * (1 + nr));
      pos ← io_get;
      mret (as_unsigned 16 start, as_unsigned 16 pos)
  else mret (0, 0).

(* file_reader.rs:495-510: PerfDataFileReader::get_sample_event_info, raw *)
Definition take_raw (has : bool) : io Z PerfDataFileError (Z * Z) :=
  if has then
    _ ← not_at_end;
    pos ← io_get;
    raw_size ← io_lift (read_u32_from pos);
    rest ← io_lift (usize (end_pos - pos));
    rest ← io_lift (usize (rest - 4));
    if as_unsigned 32 rest <? raw_size then io_err EventInvalidData
    else
      let start := as_unsigned 16 (pos + 4) in
      range_end ← io_lift (u16 (start + as_unsigned 16 raw_size));
      _ ← io_modify (Z.add (align_down (4 + raw_size + 8 - 1)));
      mret (start, range_end)
  else mret (0, 0).
End Prefix.

(** The descriptor that the id of an event names. *)
Definition desc_of_id (a : ReaderAttrs) (id : Z) : outcome (result PerfEventDesc PerfDataFileError) :=
  match a.(event_desc_id_to_index) !! id with
  | Some index => d ← Prelude.index a.(event_desc_list) index; Ret (Ok d)
  | None => Ret (Err IdNotFound)
  end.

(** After the id is known. *)
(* file_reader.rs:317-513: PerfDataFileReader::get_sample_event_info, items *)
Definition sample_items (s : PerfSessionInfo) (desc : PerfEventDesc) (id : Z) (data : bytes)
    : io Z PerfDataFileError PerfSampleEventInfo :=
  let r := s.(session_byte_reader) in
  let has := SampleType_has_flag desc.(pd_attr).(attr_sample_type) in
  let end_pos := align_down (len data) in
  _ ← io_lift (rassert (2 * 8 <=? len data));
  _ ← skip_identifier end_pos (has SampleType_Identifier);
  ip ← take_u64 r data end_pos (has SampleType_IP);
  '(pid, tid) ← take_u32s r data end_pos (has SampleType_Tid);
  time ← take_u64 r data end_pos (has SampleType_Time);
  addr ← take_u64 r data end_pos (has SampleType_Addr);
  _ ← skip_id end_pos (has SampleType_Id);
  stream_id ← take_u64 r data end_pos (has SampleType_StreamId);
  '(cpu, cpu_reserved) ← take_u32s r data end_pos (has SampleType_Cpu);
  period ← take_u64 r data end_pos (has SampleType_Period);
  read_range ← take_read r data end_pos (has SampleType_Read) desc.(pd_attr).(attr_read_format);
  callchain_range ← take_callchain r data end_pos (has SampleType_Callchain);
  raw_range ← take_raw r data end_pos (has SampleType_Raw);
  pos ← io_get;
  _ ← io_lift (rassert (pos <=? end_pos));
  mret {| si_data := data; si_session_info := s; si_event_desc := desc; si_id := id; si_ip := ip; si_pid := pid;
          si_tid := tid; si_time := time; si_addr := addr; si_stream_id := stream_id; si_cpu := cpu;
          si_cpu_reserved := cpu_reserved; si_period := period; si_read_range := read_range;
          si_callchain_range := callchain_range; si_raw_range := raw_range |}.

(* file_reader.rs: PerfDataFileReader::get_sample_event_info *)
Definition get_sample_event_info (p : PerfDataFileReader) (event_bytes : PerfEventBytes)
    : outcome (result PerfSampleEventInfo PerfDataFileError) :=
  let a := p.(pr_inner).(attrs) in
  let s := p.(pr_inner).(session_info) in
  let data := event_bytes.(pe_data) in
  if a.(sample_id_offset) <? 8 then Ret (Err NoData)
  else if len data <? a.(sample_id_offset) + 8 then Ret (Err EventInvalidData)
  else
    id ← read_u64_at s.(session_byte_reader) data a.(sample_id_offset);
    desc ← desc_of_id a id;
    match desc with
    | Err e => Ret (Err e)
    | Ok desc => '(res, _) ← sample_items s desc id data 8; Ret res
    end.

(** ** The suffix of other events *)

Section Suffix.
Context (r : PerfByteReader) (data : bytes).

Definition back (n : Z) : io Z PerfDataFileError Z :=
  pos ← io_get; pos ← io_lift (usize (pos - n)); _ ← io_modify (fun _ => pos); mret pos.
(** [if pos == 0 { return Err(InvalidData); }] *)
Definition not_at_start : io Z PerfDataFileError unit :=
  pos ← io_get; if pos =? 0 then io_err EventInvalidData else mret tt.

Definition back_u64 (has : bool) : io Z PerfDataFileError Z :=
  if has then
    pos ← back 8; v ← io_lift (read_u64_at r data pos); _ ← not_at_start; mret v
  else mret 0.
Definition back_cpu (has : bool) : io Z PerfDataFileError (Z * Z) :=
  if has then
    pos ← back 4; cpu_reserved ← io_lift (read_u32_from r data pos);
    pos ← back 4; cpu ← io_lift (read_u32_from r data pos);
    _ ← not_at_start; mret (cpu, cpu_reserved)
  else mret (0, 0).
Definition back_tid (has : bool) : io Z PerfDataFileError (Z * Z) :=
  if has then
    pos ← back 8; pid ← io_lift (read_u32_from r data pos);
    tid ← io_lift (read_u32_from r data (pos + 4));
    _ ← not_at_start; mret (pid, tid)
  else mret (0, 0).
Definition back_id (has : bool) : io Z PerfDataFileError unit :=
  if has then _ ← back 8; not_at_start else mret tt.
End Suffix.

(* file_reader.rs:557-641: PerfDataFileReader::get_non_sample_event_info, items *)
Definition non_sample_items (s : PerfSessionInfo) (desc : PerfEventDesc) (id : Z) (data : bytes)
    : io Z PerfDataFileError PerfNonSampleEventInfo :=
  let r := s.(session_byte_reader) in
  let has := SampleType_has_flag desc.(pd_attr).(attr_sample_type) in
  _ ← io_lift (rassert (8 * 2 <=? len data));
  _ ← (if has SampleType_Identifier then pos ← back 8; io_lift (rassert (negb (pos =? 0))) else mret tt);
  '(cpu, cpu_reserved) ← back_cpu r data (has SampleType_Cpu);
  stream_id ← back_u64 r data (has SampleType_StreamId);
  _ ← back_id (has SampleType_Id);
  time ← back_u64 r data (has SampleType_Time);
  '(pid, tid) ← back_tid r data (has SampleType_Tid);
  pos ← io_get;
  _ ← io_lift (rassert (8 <=? pos));
  _ ← io_lift (rassert (pos <? 0x10000 / 8));
  mret {| ni_data := data; ni_session_info := s; ni_event_desc := desc; ni_id := id; ni_cpu := cpu;
          ni_cpu_reserved := cpu_reserved; ni_stream_id := stream_id; ni_time := time; ni_pid := pid; ni_tid := tid |}.

(* file_reader.rs: PerfDataFileReader::get_non_sample_event_info *)
Definition get_non_sample_event_info (p : PerfDataFileReader) (event_bytes : PerfEventBytes)
    : outcome (result PerfNonSampleEventInfo PerfDataFileError) :=
  let a := p.(pr_inner).(attrs) in
  let s := p.(pr_inner).(session_info) in
  let data := event_bytes.(pe_data) in
  if HeaderType_UserTypeStart <=? event_bytes.(pe_header).(eh_type) then Ret (Err IdNotFound)
  else if a.(non_sample_id_offset) <? 8 then Ret (Err NoData)
  else if len data <? a.(non_sample_id_offset) then Ret (Err EventInvalidData)
  else
    id ← read_u64_at s.(session_byte_reader) data (len data - a.(non_sample_id_offset));
    desc ← desc_of_id a id;
    match desc with
    | Err e => Ret (Err e)
    | Ok desc => '(res, _) ← non_sample_items s desc id data (align_down (len data)); Ret res
    end.

(** ** What the information gives access to *)

(* perf_event_data.rs: PerfSampleEventInfo::sample_type *)
Definition si_sample_type (i : PerfSampleEventInfo) : Z := i.(si_event_desc).(pd_attr).(attr_sample_type).
(* perf_event_data.rs: PerfSampleEventInfo::time_spec *)
Definition si_time_spec (i : PerfSampleEventInfo) : outcome PerfTimeSpec := time_to_time_spec i.(si_time) i.(si_session_info).
(* perf_event_data.rs: PerfSampleEventInfo::format *)
Definition si_format (i : PerfSampleEventInfo) : option PerfEventFormat := i.(si_event_desc).(pd_format).
(* perf_event_data.rs: PerfSampleEventInfo::read_format *)
Definition si_read_format (i : PerfSampleEventInfo) : outcome bytes :=
  slice i.(si_data) (fst i.(si_read_range)) (snd i.(si_read_range)).
(* perf_event_data.rs: PerfSampleEventInfo::callchain *)
Definition si_callchain (i : PerfSampleEventInfo) : outcome bytes :=
  slice i.(si_data) (fst i.(si_callchain_range)) (snd i.(si_callchain_range)).
(* perf_event_data.rs: PerfSampleEventInfo::raw_data *)
Definition si_raw_data (i : PerfSampleEventInfo) : outcome bytes :=
  slice i.(si_data) (fst i.(si_raw_range)) (snd i.(si_raw_range)).
(* perf_event_data.rs: PerfSampleEventInfo::user_data *)
Definition si_user_data (i : PerfSampleEventInfo) : outcome bytes :=
  match si_format i with
  | Some format =>
    raw_len ← u16 (snd i.(si_raw_range) - fst i.(si_raw_range));
    let user_offset := format.(ef_common_fields_size) in
    if user_offset <=? raw_len then
      start ← u16 (fst i.(si_raw_range) + user_offset);
      slice i.(si_data) start (snd i.(si_raw_range))
    else Ret []
  | None => Ret []
  end.
(* perf_event_data.rs: PerfNonSampleEventInfo::time_spec *)
Definition ni_time_spec (i : PerfNonSampleEventInfo) : outcome PerfTimeSpec := time_to_time_spec i.(ni_time) i.(ni_session_info).
