(* ===== verification/FileWriter.v ===== *)
(** * FileWriter: writing perf.data files (tracepoint_perf/src/file_writer.rs)

    A writer collects descriptions and headers while it writes the events, and adds the
    sections at the end of the file when it is closed.  A [Vec<u8>] is its bytes; the
    map of formats is its entries in the order of their keys. *)

From S2P Require Import Prelude Strings Types ByteReader Text Writers TextSpec Session FieldFormat PerfAbi PerfIo EventFormat.
From S2P Require Import FileReader.

(* file_writer.rs: const NAME_MAX_SIZE *)
Definition NAME_MAX_SIZE : Z := 64 * 1024.
(* file_writer.rs: const SAMPLE_IDS_MAX_SIZE *)
Definition SAMPLE_IDS_MAX_SIZE : Z := 0xFFFFFFFF.

(** ** Maps in the order of their keys *)

(** [BTreeMap]: the entry of [k] becomes [f] of its value, if it has one. *)
Section BTreeMap.
Context {K A : Type} (lt : K -> K -> bool).
Fixpoint btree_entry (k : K) (f : option A -> A) (m : list (K * A)) : list (K * A) :=
  match m with
  | [] => [(k, f None)]
  | (k', a) :: t =>
    if lt k k' then (k, f None) :: m
    else if lt k' k then (k', a) :: btree_entry k f t
    else (k', f (Some a)) :: t
  end.
Fixpoint btree_get (k : K) (m : list (K * A)) : option A :=
  match m with
  | [] => None
  | (k', a) :: t => if lt k k' then None else if lt k' k then btree_get k t else Some a
  end.
End BTreeMap.

(** The order of [str]: byte by byte. *)
Fixpoint str_lt (a b : bytes) : bool :=
  match a, b with
  | _, [] => false
  | [], _ :: _ => true
  | x :: a, y :: b => (x <? y) || (x =? y) && str_lt a b
  end.

(** ** Data *)

(* file_writer.rs: struct EventDesc *)
Record EventDesc := { ed_name : bytes; ed_sample_ids : list Z; ed_attr : PerfEventAttr }.

(** What goes into a synthesized HEADER_TRACING_DATA. *)
(* file_writer.rs:586-593: struct DataFileWriter, tracing data *)
Record WriterTracing := {
  wt_header_page : bytes; wt_header_event : bytes; wt_ftraces : list bytes; wt_kallsyms : bytes; wt_printk : bytes;
  wt_cmd_line : bytes; wt_page_size : Z; wt_long_size : Z }.
Definition WriterTracing_new : WriterTracing :=
  {| wt_header_page := []; wt_header_event := []; wt_ftraces := []; wt_kallsyms := []; wt_printk := [];
     wt_cmd_line := []; wt_page_size := 0; wt_long_size := 0 |}.

(* file_writer.rs: struct DataFileWriter *)
Record DataFileWriter := {
  event_descs : list EventDesc;
  event_format_by_common_type : list (Z * PerfEventFormat);
  w_headers : list bytes;
  w_tracing : WriterTracing;
}.
Definition set_event_descs (v : list EventDesc) (w : DataFileWriter) : DataFileWriter :=
  {| event_descs := v; event_format_by_common_type := w.(event_format_by_common_type);
     w_headers := w.(w_headers); w_tracing := w.(w_tracing) |}.
Definition set_event_formats (v : list (Z * PerfEventFormat)) (w : DataFileWriter) : DataFileWriter :=
  {| event_descs := w.(event_descs); event_format_by_common_type := v;
     w_headers := w.(w_headers); w_tracing := w.(w_tracing) |}.
Definition set_w_headers (v : list bytes) (w : DataFileWriter) : DataFileWriter :=
  {| event_descs := w.(event_descs); event_format_by_common_type := w.(event_format_by_common_type);
     w_headers := v; w_tracing := w.(w_tracing) |}.
Definition set_w_tracing (v : WriterTracing) (w : DataFileWriter) : DataFileWriter :=
  {| event_descs := w.(event_descs); event_format_by_common_type := w.(event_format_by_common_type);
     w_headers := w.(w_headers); w_tracing := v |}.

(* file_writer.rs: DataFileWriter::new *)
Definition DataFileWriter_new : DataFileWriter :=
  {| event_descs := []; event_format_by_common_type := []; w_headers := repeat [] (Z.to_nat HeaderIndex_LastFeature);
     w_tracing := WriterTracing_new |}.
(* file_writer.rs: DataFileWriter::close *)
Definition DataFileWriter_close (w : DataFileWriter) : DataFileWriter :=
  {| event_descs := []; event_format_by_common_type := []; w_headers := map (fun _ => []) w.(w_headers);
     w_tracing := WriterTracing_new |}.

(** [(n & !7)] *)
Definition align_8 (n : Z) : Z := Z.land n (2 ^ 64 - 8).

Section Writer.
Context `{Target} `{Sys : WriteSystem}.

(** ** Appending to a buffer *)

(* file_writer.rs: append_value *)
Definition append_value {T} `{ReprC T} (buf : bytes) (value : T) : bytes := buf ++ struct_bytes KEEP_ENDIAN value.
(** [append_value] of an integer of [n] bytes. *)
Definition append_int (n : nat) (buf : bytes) (value : Z) : bytes := buf ++ to_ne_bytes n value.
(* file_writer.rs: append_string_z *)
Definition append_string_z (buf value : bytes) : bytes := buf ++ value ++ [0].
(* file_writer.rs: append_section32 *)
Definition append_section32 (buf value : bytes) : outcome bytes :=
  _ ← rassert (len value <=? 2 ^ 32 - 1);
  Ret (buf ++ to_ne_bytes 4 (as_unsigned 32 (len value)) ++ value).
(* file_writer.rs: append_section64 *)
Definition append_section64 (buf value : bytes) : bytes := buf ++ to_ne_bytes 8 (as_unsigned 64 (len value)) ++ value.
(* file_writer.rs: append_named_section64 *)
Definition append_named_section64 (buf name default_value value : bytes) : bytes :=
  append_section64 (append_string_z buf name) (if len value =? 0 then default_value else value).

(* file_writer.rs: strlen *)
Definition strlen (value : bytes) : Z := match before_zero value with Some s => len s | None => len value end.

(** [value.chars()] of a [str] *)
Definition chars (value : bytes) : list Z := match from_utf8 value with Some cs => cs | None => [] end.
(* file_writer.rs: as_latin1 *)
Definition as_latin1 (value : bytes) : bytes :=
  if existsb (fun c => 0x7F <? c) value
  then map (fun c => if 0xFF <? c then 63 else as_unsigned 8 c) (chars value)
  else value.

(** The bytes of a slice of [u64]. *)
Definition ids_bytes (ids : list Z) : bytes := concat (map (to_ne_bytes 8) ids).

(** ** Headers and descriptions *)

(* file_writer.rs: DataFileWriter::get_header_vec *)
Definition get_header_vec (index : Z) (w : DataFileWriter) : option bytes := w.(w_headers) !! Z.to_nat index.
(** [*self.get_header_vec(index) = value] *)
Definition put_header (index : Z) (value : bytes) (w : DataFileWriter) : DataFileWriter :=
  set_w_headers (<[Z.to_nat index := value]> w.(w_headers)) w.
(* file_writer.rs: DataFileWriter::add_event_desc *)
Definition DataFileWriter_add_event_desc (name : bytes) (ids : list Z) (attr : PerfEventAttr) (w : DataFileWriter)
    : outcome DataFileWriter :=
  name ← str_slice name 0 (strlen name);
  Ret (set_event_descs (w.(event_descs) ++ [{| ed_name := name; ed_sample_ids := ids; ed_attr := attr |}]) w).

(** ** HEADER_TRACING_DATA *)

Definition field_line (text : String.string) (offset size signed : String.string) : bytes :=
  9 :: str_bytes "field: " ++ str_bytes text ++ [59; 9] ++ str_bytes "offset:" ++ str_bytes offset ++ [59; 9]
  ++ str_bytes "size:" ++ str_bytes size ++ [59; 9] ++ str_bytes "signed:" ++ str_bytes signed ++ [59; 10].
Arguments field_line (text offset size signed)%_string_scope.
(* file_writer.rs:641-646: DataFileWriter::synthesize_tracing_data, DEFAULT_HEADER_PAGE *)
Definition DEFAULT_HEADER_PAGE : bytes :=
  field_line "u64 timestamp" "0" "8" "0" ++ field_line "local_t commit" "8" "8" "1"
  ++ field_line "int overwrite" "8" "1" "1" ++ field_line "char data" "16" "4080" "0".
(* file_writer.rs:647-657: DataFileWriter::synthesize_tracing_data, DEFAULT_HEADER_EVENT *)
Definition DEFAULT_HEADER_EVENT : bytes :=
  str_bytes "# compressed entry header" ++ [10]
  ++ 9 :: str_bytes "type_len    :    5 bits" ++ [10] ++ 9 :: str_bytes "time_delta  :   27 bits" ++ [10]
  ++ 9 :: str_bytes "array       :   32 bits" ++ [10; 10] ++ 9 :: str_bytes "padding     : type == 29" ++ [10]
  ++ 9 :: str_bytes "time_extend : type == 30" ++ [10] ++ 9 :: str_bytes "time_stamp : type == 31" ++ [10]
  ++ 9 :: str_bytes "data max type_len  == 28" ++ [10].

(* file_writer.rs:693-700: DataFileWriter::synthesize_tracing_data, formats by system *)
Definition formats_by_system (formats : list (Z * PerfEventFormat)) : list (bytes * list PerfEventFormat) :=
  fold_left (fun m '(_, value) =>
    btree_entry str_lt value.(ef_system_name) (fun v => default [] v ++ [value]) m) formats [].

(** [format_str.clear(); format.write_to(&mut format_str).unwrap()] *)
Definition format_text (format : PerfEventFormat) : outcome bytes :=
  '(res, text) ← PerfEventFormat_write_to format [];
  match res with Ok _ => Ret text | Err _ => Panic end.
Fixpoint append_formats (header : bytes) (formats : list PerfEventFormat) : outcome bytes :=
  match formats with
  | [] => Ret header
  | format :: formats =>
    text ← format_text format;
    append_formats (append_section64 header (as_latin1 text)) formats
  end.
(* file_writer.rs:706-721: DataFileWriter::synthesize_tracing_data, systems *)
Fixpoint append_systems (header : bytes) (systems : list (bytes * list PerfEventFormat)) : outcome bytes :=
  match systems with
  | [] => Ret header
  | (system_name, formats) :: systems =>
    let header := append_string_z header (as_latin1 system_name) in
    let header := append_int 4 header (as_unsigned 32 (len formats)) in
    header ← append_formats header formats;
    append_systems header systems
  end.

(* file_writer.rs: DataFileWriter::synthesize_tracing_data *)
Definition synthesize_tracing_data (w : DataFileWriter) : outcome DataFileWriter :=
  let t := w.(w_tracing) in
  if (t.(wt_long_size) =? 0) || (t.(wt_page_size) =? 0) then Ret w
  else
    old ← index w.(w_headers) HeaderIndex_TracingData;
    _ ← rassert (len old =? 0);
    let header := append_string_z [] ([0x17; 0x08; 0x44] ++ str_bytes "tracing0.6") in
    let header := append_int 1 header (if HOST_IS_BIG_ENDIAN then 1 else 0) in
    let header := append_int 1 header t.(wt_long_size) in
    let header := append_int 4 header t.(wt_page_size) in
    let header := append_named_section64 header (str_bytes "header_page") DEFAULT_HEADER_PAGE t.(wt_header_page) in
    let header := append_named_section64 header (str_bytes "header_event") DEFAULT_HEADER_EVENT t.(wt_header_event) in
    let header := append_int 4 header (as_unsigned 32 (len t.(wt_ftraces))) in
    let header := fold_left append_section64 t.(wt_ftraces) header in
    let systems := formats_by_system w.(event_format_by_common_type) in
    let header := append_int 4 header (as_unsigned 32 (len systems)) in
    header ← append_systems header systems;
    header ← append_section32 header t.(wt_kallsyms);
    header ← append_section32 header t.(wt_printk);
    let header := append_section64 header t.(wt_cmd_line) in
    Ret (put_header HeaderIndex_TracingData header w).

(** ** HEADER_EVENT_DESC *)

(* file_writer.rs:754-778: DataFileWriter::synthesize_event_desc, one description *)
Definition append_event_desc (header : bytes) (desc : EventDesc) : outcome bytes :=
  let name := as_latin1 desc.(ed_name) in
  _ ← rassert (len desc.(ed_name) <=? NAME_MAX_SIZE);
  let name_size := len desc.(ed_name) in
  let name_pad := 8 - Z.land name_size 7 in
  _ ← rassert (len desc.(ed_sample_ids) <=? SAMPLE_IDS_MAX_SIZE);
  let nr_ids := as_unsigned 32 (len desc.(ed_sample_ids)) in
  let header := append_value header desc.(ed_attr) in
  let header := append_int 4 header nr_ids in
  let header := append_int 4 header (as_unsigned 32 (name_size + name_pad)) in
  string ← slice name 0 name_size;
  Ret (header ++ string ++ repeat 0 (Z.to_nat name_pad) ++ ids_bytes desc.(ed_sample_ids)).
Fixpoint append_event_descs (header : bytes) (descs : list EventDesc) : outcome bytes :=
  match descs with
  | [] => Ret header
  | desc :: descs => header ← append_event_desc header desc; append_event_descs header descs
  end.
(* file_writer.rs: DataFileWriter::synthesize_event_desc *)
Definition synthesize_event_desc (w : DataFileWriter) : outcome DataFileWriter :=
  old ← index w.(w_headers) HeaderIndex_EventDesc;
  _ ← rassert (len old =? 0);
  _ ← rassert (len w.(event_descs) <=? 0xFFFFFFFF);
  let nr := as_unsigned 32 (len w.(event_descs)) in
  let header := append_int 4 [] nr in
  let header := append_int 4 header (size_of PerfEventAttr) in
  header ← append_event_descs header w.(event_descs);
  Ret (put_header HeaderIndex_EventDesc header w).

(** ** The sections after the events *)

(** The headers from [i] on: the flags and the offset after their sections. *)
(* file_writer.rs:784-791: DataFileWriter::write_headers, flags *)
Fixpoint header_flags (i : Z) (headers : list bytes) (flags0 offset : Z) : outcome (Z * Z) :=
  match headers with
  | [] => Ret (flags0, offset)
  | header :: headers =>
    if negb (len header =? 0) then
      offset ← u64 (offset + PERF_FILE_SECTION_SIZE);
      header_flags (i + 1) headers (Z.lor flags0 (Z.shiftl 1 i)) offset
    else header_flags (i + 1) headers flags0 offset
  end.
(* file_writer.rs:794-808: DataFileWriter::write_headers, sections *)
Fixpoint write_header_sections (headers : list bytes) (perf_header_offset : Z) : io OutputFile ErrorKind Z :=
  match headers with
  | [] => mret perf_header_offset
  | header :: headers =>
    if negb (len header =? 0) then
      let section := {| sec_offset := perf_header_offset; sec_size := len header |} in
      perf_header_offset ← io_lift (u64 (perf_header_offset + len header));
      _ ← write_struct section;
      write_header_sections headers perf_header_offset
    else write_header_sections headers perf_header_offset
  end.
(* file_writer.rs: DataFileWriter::write_headers *)
Definition write_headers (w : DataFileWriter) : io OutputFile ErrorKind Z :=
  f ← io_get;
  '(flags0, offset) ← io_lift (header_flags 0 w.(w_headers) 0 (pos f));
  perf_header_offset ← write_header_sections w.(w_headers) offset;
  _ ← io_for w.(w_headers) (fun header => io_when (negb (len header =? 0)) (write_all header));
  f ← io_get;
  _ ← io_lift (rassert ((pos f) =? perf_header_offset));
  mret flags0.

(* file_writer.rs:830-841: DataFileWriter::write_attrs, sections *)
Fixpoint write_attr_sections (descs : list EventDesc) (attr_ids_offset : Z) : io OutputFile ErrorKind unit :=
  match descs with
  | [] => mret tt
  | desc :: descs =>
    _ ← write_struct desc.(ed_attr);
    size ← io_lift (u64 (len desc.(ed_sample_ids) * 8));
    let ids_section := {| sec_offset := attr_ids_offset; sec_size := size |} in
    attr_ids_offset ← io_lift (u64 (attr_ids_offset + ids_section.(sec_size)));
    _ ← write_struct ids_section;
    write_attr_sections descs attr_ids_offset
  end.
Definition ENTRY_SIZE : Z := size_of PerfEventAttr + size_of PerfFileSection.
(* file_writer.rs: DataFileWriter::write_attrs *)
Definition write_attrs (w : DataFileWriter) : io OutputFile ErrorKind PerfFileSection :=
  f ← io_get;
  size ← io_lift (u64 (ENTRY_SIZE * len w.(event_descs)));
  let attrs_section := {| sec_offset := (pos f); sec_size := size |} in
  attr_ids_offset ← io_lift (u64 (attrs_section.(sec_offset) + attrs_section.(sec_size)));
  _ ← write_attr_sections w.(event_descs) attr_ids_offset;
  _ ← io_for w.(event_descs) (fun desc => write_all (ids_bytes desc.(ed_sample_ids)));
  mret attrs_section.
(** ** PerfDataFileWriter *)

(** [pw_closed] is the contents of the file that was closed last. *)
(* file_writer.rs: struct PerfDataFileWriter *)
Record PerfDataFileWriter := { pw_inner : DataFileWriter; pw_file : option OutputFile; pw_closed : option bytes }.
Definition set_pw_inner (w : DataFileWriter) (p : PerfDataFileWriter) : PerfDataFileWriter :=
  {| pw_inner := w; pw_file := p.(pw_file); pw_closed := p.(pw_closed) |}.
Definition set_pw_file (f : option OutputFile) (p : PerfDataFileWriter) : PerfDataFileWriter :=
  {| pw_inner := p.(pw_inner); pw_file := f; pw_closed := p.(pw_closed) |}.

(* file_writer.rs: PerfDataFileWriter::new *)
Definition PerfDataFileWriter_new : PerfDataFileWriter :=
  {| pw_inner := DataFileWriter_new; pw_file := None; pw_closed := None |}.
(* file_writer.rs: PerfDataFileWriter::close_no_finalize *)
Definition close_no_finalize (p : PerfDataFileWriter) : PerfDataFileWriter :=
  {| pw_inner := DataFileWriter_close p.(pw_inner); pw_file := None;
     pw_closed := match p.(pw_file) with Some f => Some f.(out_inner).(contents) | None => p.(pw_closed) end |}.

(** [match &mut self.file { None => return Err(InvalidInput), Some(file) => .. }] *)
Definition with_file {A} (m : io OutputFile ErrorKind A) : io PerfDataFileWriter ErrorKind A := fun p =>
  match p.(pw_file) with
  | None => Ret (Err InvalidInput, p)
  | Some f => '(res, f) ← m f; Ret (res, set_pw_file (Some f) p)
  end.
Definition on_writer (f : DataFileWriter -> outcome DataFileWriter) : io PerfDataFileWriter ErrorKind unit := fun p =>
  w ← f p.(pw_inner); Ret (Ok tt, set_pw_inner w p).

Definition DATA_START_POS : Z := size_of PerfFileHeader.
(* file_writer.rs:80-97: PerfDataFileWriter::finalize_and_close, file_header *)
Definition final_header (data_size flags0 : Z) (attrs : PerfFileSection) : PerfFileHeader :=
  {| fh_pipe := {| hp_magic := PERFILE2_MAGIC_HOST_ENDIAN; hp_size := size_of PerfFileHeader |};
     fh_rest := {| hr_attr_size := size_of PerfEventAttr + size_of PerfFileSection; hr_attrs := attrs;
                   hr_data := {| sec_offset := DATA_START_POS; sec_size := data_size |};
                   hr_event_types := section_default; hr_flags0 := flags0; hr_flags1 := 0; hr_flags2 := 0;
                   hr_flags3 := 0 |} |}.
(* file_writer.rs: PerfDataFileWriter::finalize_and_close *)
Definition finalize_and_close : io PerfDataFileWriter ErrorKind unit :=
  _ ← with_file (mret tt);
  _ ← on_writer synthesize_tracing_data;
  _ ← on_writer synthesize_event_desc;
  data_end_pos ← with_file (f ← io_get; mret (pos f));
  data_size ← io_lift (u64 (data_end_pos - DATA_START_POS));
  p ← io_get;
  flags0 ← with_file (write_headers p.(pw_inner));
  attrs ← with_file (write_attrs p.(pw_inner));
  _ ← with_file (out_seek_absolute 0);
  _ ← with_file (write_struct (final_header data_size flags0 attrs));
  _ ← with_file flush;
  io_modify close_no_finalize.

Definition header_default : PerfFileHeader :=
  {| fh_pipe := {| hp_magic := 0; hp_size := 0 |};
     fh_rest := {| hr_attr_size := 0; hr_attrs := section_default; hr_data := section_default;
                   hr_event_types := section_default; hr_flags0 := 0; hr_flags1 := 0; hr_flags2 := 0;
                   hr_flags3 := 0 |} |}.
(* file_writer.rs: PerfDataFileWriter::create_file *)
Definition create_file `{FileSystem} (path : bytes) : io PerfDataFileWriter ErrorKind unit := fun p =>
  let p := close_no_finalize p in
  match OutputFile_new path with
  | Err e => Ret (Err e, p)
  | Ok f =>
    '(res, f) ← write_struct header_default f;
    match res with Err e => Ret (Err e, p) | Ok _ => Ret (Ok tt, set_pw_file (Some f) p) end
  end.
(* file_writer.rs: PerfDataFileWriter::file_pos *)
Definition file_pos (p : PerfDataFileWriter) : option Z := pos <$> p.(pw_file).

(** ** Events *)

(* file_writer.rs: PerfDataFileWriter::write_event_data *)
Definition write_event_data (data : bytes) : io PerfDataFileWriter ErrorKind unit := with_file (write_all data).
(** How many bytes the system takes is [accept], which may be fewer than all, or its error. *)
(* file_writer.rs: PerfDataFileWriter::write_event_data_vectored *)
Definition write_event_data_vectored (accept : list bytes -> result Z ErrorKind) (bufs : list bytes) : io PerfDataFileWriter ErrorKind Z :=
  with_file (write_vectored accept bufs).
(** An event of a header only. *)
Definition bare_event (ty : Z) : PerfEventHeader := {| eh_type := ty; eh_misc := 0; eh_size := 8 |}.
(* file_writer.rs: PerfDataFileWriter::write_finished_init *)
Definition write_finished_init : io PerfDataFileWriter ErrorKind unit := with_file (write_struct (bare_event HeaderType_FinishedInit)).
(* file_writer.rs: PerfDataFileWriter::write_finished_round *)
Definition write_finished_round : io PerfDataFileWriter ErrorKind unit := with_file (write_struct (bare_event HeaderType_FinishedRound)).

(** ** Setting headers *)

(* file_writer.rs: PerfDataFileWriter::get_header *)
Definition get_header (index : Z) (p : PerfDataFileWriter) : bytes := default [] (get_header_vec index p.(pw_inner)).
(** The result says that there is such a header. *)
(* file_writer.rs: PerfDataFileWriter::set_header *)
Definition set_header_data (index : Z) (data : bytes) (p : PerfDataFileWriter) : bool * PerfDataFileWriter :=
  match get_header_vec index p.(pw_inner) with
  | Some _ => (true, set_pw_inner (put_header index data p.(pw_inner)) p)
  | None => (false, p)
  end.
(* file_writer.rs: PerfDataFileWriter::set_string_header *)
Definition set_string_header (index : Z) (data : bytes) (p : PerfDataFileWriter) : outcome (bool * PerfDataFileWriter) :=
  match get_header_vec index p.(pw_inner) with
  | Some _ =>
    let value_len := strlen data in
    header_len ← usize (4 + value_len + 1 + 7);
    let header_len := align_8 header_len in
    let header := to_ne_bytes 4 (as_unsigned 32 (value_len + 1)) in
    value ← slice data 0 value_len;
    let header := header ++ value in
    let header := take (Z.to_nat header_len) header ++ repeat 0 (Z.to_nat (header_len - len header)) in
    Ret (true, set_pw_inner (put_header index header p.(pw_inner)) p)
  | None => Ret (false, p)
  end.
(** A header that every writer has: [get_header_vec(index).unwrap()]. *)
Definition replace_header (index : Z) (value : bytes) (p : PerfDataFileWriter) : outcome PerfDataFileWriter :=
  match get_header_vec index p.(pw_inner) with
  | Some _ => Ret (set_pw_inner (put_header index value p.(pw_inner)) p)
  | None => Panic
  end.
(* file_writer.rs: PerfDataFileWriter::set_nr_cpus_header *)
Definition set_nr_cpus_header (available online : Z) : PerfDataFileWriter -> outcome PerfDataFileWriter :=
  replace_header HeaderIndex_NrCpus (to_ne_bytes 4 available ++ to_ne_bytes 4 online).
(* file_writer.rs: PerfDataFileWriter::set_sample_time_header *)
Definition set_sample_time_header (first last : Z) : PerfDataFileWriter -> outcome PerfDataFileWriter :=
  replace_header HeaderIndex_SampleTime (to_ne_bytes 8 first ++ to_ne_bytes 8 last).
(* file_writer.rs: PerfDataFileWriter::set_clockid_header *)
Definition set_clockid_header (clockid : Z) : PerfDataFileWriter -> outcome PerfDataFileWriter :=
  replace_header HeaderIndex_ClockId (to_ne_bytes 8 clockid).
(* file_writer.rs: PerfDataFileWriter::set_clock_data_header *)
Definition set_clock_data_header (clockid wall_clock_ns clockid_time_ns : Z) : PerfDataFileWriter -> outcome PerfDataFileWriter :=
  replace_header HeaderIndex_ClockData
    (to_ne_bytes 4 1 ++ to_ne_bytes 4 clockid ++ to_ne_bytes 8 wall_clock_ns ++ to_ne_bytes 8 clockid_time_ns).
(* file_writer.rs: PerfDataFileWriter::set_session_info_headers *)
Definition set_session_info_headers (s : PerfSessionInfo) (p : PerfDataFileWriter) : outcome PerfDataFileWriter :=
  p ← (if s.(clock_id) =? 0xFFFFFFFF then replace_header HeaderIndex_ClockId [] p else set_clockid_header s.(clock_id) p);
  if negb s.(clock_offset_known) then replace_header HeaderIndex_ClockData [] p
  else
    '(wall_clock_ns, clock_offset_ns) ← get_clock_data s;
    set_clock_data_header s.(clock_id) wall_clock_ns clock_offset_ns p.
(* file_writer.rs: PerfDataFileWriter::set_utsname_headers *)
Definition set_utsname_headers (hostname os_release arch : bytes) (p : PerfDataFileWriter)
    : outcome (bool * PerfDataFileWriter) :=
  if (0x80000000 <=? len hostname) || (0x80000000 <=? len os_release) || (0x80000000 <=? len arch) then Ret (false, p)
  else
    '(_, p) ← set_string_header HeaderIndex_Hostname hostname p;
    '(_, p) ← set_string_header HeaderIndex_OSRelease os_release p;
    '(_, p) ← set_string_header HeaderIndex_Arch arch p;
    Ret (true, p).

(** ** Setting tracing data *)

Definition on_wt (f : WriterTracing -> WriterTracing) (p : PerfDataFileWriter) : PerfDataFileWriter :=
  set_pw_inner (set_w_tracing (f p.(pw_inner).(w_tracing)) p.(pw_inner)) p.
(** Data of less than 2GB. *)
Definition set_part (data : bytes) (f : WriterTracing -> WriterTracing) (p : PerfDataFileWriter) : bool * PerfDataFileWriter :=
  if 0x80000000 <=? len data then (false, p) else (true, on_wt f p).
Definition with_parts (page event : bytes) (ftraces : list bytes) (kallsyms printk cmd_line : bytes) (t : WriterTracing)
    : WriterTracing :=
  {| wt_header_page := page; wt_header_event := event; wt_ftraces := ftraces; wt_kallsyms := kallsyms;
     wt_printk := printk; wt_cmd_line := cmd_line; wt_page_size := t.(wt_page_size); wt_long_size := t.(wt_long_size) |}.

(* file_writer.rs: PerfDataFileWriter::set_tracing_data_required *)
Definition set_tracing_data_required (long_size page_size : Z) : PerfDataFileWriter -> PerfDataFileWriter :=
  on_wt (fun t =>
    {| wt_header_page := t.(wt_header_page); wt_header_event := t.(wt_header_event); wt_ftraces := t.(wt_ftraces);
       wt_kallsyms := t.(wt_kallsyms); wt_printk := t.(wt_printk); wt_cmd_line := t.(wt_cmd_line);
       wt_page_size := page_size; wt_long_size := long_size |}).
(* file_writer.rs: PerfDataFileWriter::set_tracing_data_header_page *)
Definition set_tracing_data_header_page (data : bytes) : PerfDataFileWriter -> bool * PerfDataFileWriter :=
  set_part data (fun t => with_parts data t.(wt_header_event) t.(wt_ftraces) t.(wt_kallsyms) t.(wt_printk) t.(wt_cmd_line) t).
(* file_writer.rs: PerfDataFileWriter::set_tracing_data_header_event *)
Definition set_tracing_data_header_event (data : bytes) : PerfDataFileWriter -> bool * PerfDataFileWriter :=
  set_part data (fun t => with_parts t.(wt_header_page) data t.(wt_ftraces) t.(wt_kallsyms) t.(wt_printk) t.(wt_cmd_line) t).
(* file_writer.rs: PerfDataFileWriter::set_tracing_data_kallsyms *)
Definition set_tracing_data_kallsyms (data : bytes) : PerfDataFileWriter -> bool * PerfDataFileWriter :=
  set_part data (fun t => with_parts t.(wt_header_page) t.(wt_header_event) t.(wt_ftraces) data t.(wt_printk) t.(wt_cmd_line) t).
(* file_writer.rs: PerfDataFileWriter::set_tracing_data_printk *)
Definition set_tracing_data_printk (data : bytes) : PerfDataFileWriter -> bool * PerfDataFileWriter :=
  set_part data (fun t => with_parts t.(wt_header_page) t.(wt_header_event) t.(wt_ftraces) t.(wt_kallsyms) data t.(wt_cmd_line) t).
(* file_writer.rs: PerfDataFileWriter::set_tracing_data_saved_cmd_line *)
Definition set_tracing_data_saved_cmd_line (data : bytes) : PerfDataFileWriter -> bool * PerfDataFileWriter :=
  set_part data (fun t => with_parts t.(wt_header_page) t.(wt_header_event) t.(wt_ftraces) t.(wt_kallsyms) t.(wt_printk) data t).
(* file_writer.rs: PerfDataFileWriter::set_tracing_data_clear_ftraces *)
Definition set_tracing_data_clear_ftraces : PerfDataFileWriter -> PerfDataFileWriter :=
  on_wt (fun t => with_parts t.(wt_header_page) t.(wt_header_event) [] t.(wt_kallsyms) t.(wt_printk) t.(wt_cmd_line) t).
(* file_writer.rs: PerfDataFileWriter::set_tracing_data_add_ftrace *)
Definition set_tracing_data_add_ftrace (ftrace : bytes) (p : PerfDataFileWriter) : bool * PerfDataFileWriter :=
  if (0x80000000 <=? len ftrace) || (0x80000000 <=? len p.(pw_inner).(w_tracing).(wt_ftraces)) then (false, p)
  else (true, on_wt (fun t =>
    with_parts t.(wt_header_page) t.(wt_header_event) (t.(wt_ftraces) ++ [ftrace]) t.(wt_kallsyms) t.(wt_printk)
      t.(wt_cmd_line) t) p).

(** ** Adding descriptions *)

Definition desc_args_valid (ids : list Z) (name : bytes) (w : DataFileWriter) : bool :=
  negb ((NAME_MAX_SIZE <=? len name) || (SAMPLE_IDS_MAX_SIZE <=? len ids) || (0xFFFFFFFF <=? len w.(event_descs))).
(* file_writer.rs: PerfDataFileWriter::add_event_desc *)
Definition add_event_desc (ids : list Z) (attr : PerfEventAttr) (name : bytes) (p : PerfDataFileWriter)
    : outcome (bool * PerfDataFileWriter) :=
  if negb (desc_args_valid ids name p.(pw_inner)) then Ret (false, p)
  else w ← DataFileWriter_add_event_desc name ids attr p.(pw_inner); Ret (true, set_pw_inner w p).
(* file_writer.rs: PerfDataFileWriter::has_tracepoint_event_desc *)
Definition has_tracepoint_event_desc (common_type : Z) (p : PerfDataFileWriter) : bool :=
  match btree_get Z.ltb common_type p.(pw_inner).(event_format_by_common_type) with Some _ => true | None => false end.
(* file_writer.rs: PerfDataFileWriter::add_tracepoint_event_desc *)
Definition add_tracepoint_event_desc (ids : list Z) (attr : PerfEventAttr) (name : bytes) (format : PerfEventFormat)
    (p : PerfDataFileWriter) : outcome (bool * PerfDataFileWriter) :=
  let w := p.(pw_inner) in
  if negb (desc_args_valid ids name w) then Ret (false, p)
  else
    match btree_get Z.ltb format.(ef_id) w.(event_format_by_common_type) with
    | Some _ => Ret (false, p)
    | None =>
      let w := set_event_formats (btree_entry Z.ltb format.(ef_id) (fun _ => format) w.(event_format_by_common_type)) w in
      w ← DataFileWriter_add_event_desc name ids attr w;
      Ret (true, set_pw_inner w p)
    end.
End Writer.
