(* ===== verification/SampleProps.v ===== *)
(** * SampleProps: the items of an event are found where the kernel puts them *)

From stdpp Require Import gmap.
From S2P Require Import Prelude Strings Types ByteReader PerfItem Session FieldFormat FieldFormatProps PerfAbi PerfIo.
From S2P Require Import EventFormat EventFormatProps FileReader SampleInfo.

Lemma align_down_eq n : 0 <= n < 2 ^ 64 -> align_down n = n / 8 * 8.
Proof. intros Hn. unfold align_down. by destruct (masked_length n 3 Hn ltac:(lia)) as [_ E]. Qed.

(** ** The layout of a sample *)

(** The values of the items; the pad makes the raw data end at a multiple of eight. *)
Record SampleItems := {
  it_ip : Z; it_pid : Z; it_tid : Z; it_time : Z; it_addr : Z; it_stream_id : Z; it_cpu : Z; it_cpu_reserved : Z;
  it_period : Z; it_read : list Z; it_callchain : list Z; it_raw : bytes; it_pad : bytes }.

Section Layout.
Context (r : PerfByteReader).

Definition u64_bytes (v : Z) : bytes := to_source_bytes r 8 v.
Definition u32_bytes (v : Z) : bytes := to_source_bytes r 4 v.
Definition u64s_bytes (l : list Z) : bytes := concat (map u64_bytes l).
Definition opt (has : bool) (l : bytes) : bytes := if has then l else [].

(** What the kernel writes for the items that [sample_type] names, in its order. *)
Definition sample_layout (sample_type id : Z) (it : SampleItems) : list bytes :=
  let has := SampleType_has_flag sample_type in
  [opt (has SampleType_Identifier) (u64_bytes id);
   opt (has SampleType_IP) (u64_bytes it.(it_ip));
   opt (has SampleType_Tid) (u32_bytes it.(it_pid) ++ u32_bytes it.(it_tid));
   opt (has SampleType_Time) (u64_bytes it.(it_time));
   opt (has SampleType_Addr) (u64_bytes it.(it_addr));
   opt (has SampleType_Id) (u64_bytes id);
   opt (has SampleType_StreamId) (u64_bytes it.(it_stream_id));
   opt (has SampleType_Cpu) (u32_bytes it.(it_cpu) ++ u32_bytes it.(it_cpu_reserved));
   opt (has SampleType_Period) (u64_bytes it.(it_period));
   opt (has SampleType_Read) (u64s_bytes it.(it_read));
   opt (has SampleType_Callchain) (u64_bytes (len it.(it_callchain)) ++ u64s_bytes it.(it_callchain));
   opt (has SampleType_Raw) (u32_bytes (len it.(it_raw)) ++ it.(it_raw) ++ it.(it_pad))].

Lemma len_u64_bytes v : len (u64_bytes v) = 8.
Proof. unfold len, u64_bytes. by rewrite length_to_source_bytes. Qed.
Lemma len_u32_bytes v : len (u32_bytes v) = 4.
Proof. unfold len, u32_bytes. by rewrite length_to_source_bytes. Qed.
Lemma len_u64s_bytes l : len (u64s_bytes l) = 8 * len l.
Proof.
  induction l as [|v l IH]; [done|]. change (u64s_bytes (v :: l)) with (u64_bytes v ++ u64s_bytes l).
  rewrite len_app, len_u64_bytes, IH, len_cons. lia.
Qed.

(** ** Taking the items *)

Lemma read_u64_here pre v rest : 0 <= v < 2 ^ 64 -> read_u64_at r (pre ++ u64_bytes v ++ rest) (len pre) = Ret v.
Proof.
  intros Hv. unfold read_u64_at. pose proof (len_nonneg pre). pose proof (len_nonneg (u64_bytes v ++ rest)).
  rewrite slice_from_ok by (rewrite len_app; lia). cbn [mbind outcome_bind]. rewrite from_here.
  by apply (read_uint_app r 8).
Qed.
Lemma read_u32_here pre v rest : 0 <= v < 2 ^ 32 -> read_u32_from r (pre ++ u32_bytes v ++ rest) (len pre) = Ret v.
Proof.
  intros Hv. unfold read_u32_from. pose proof (len_nonneg pre). pose proof (len_nonneg (u32_bytes v ++ rest)).
  rewrite slice_from_ok by (rewrite len_app; lia). cbn [mbind outcome_bind]. rewrite from_here.
  by apply (read_uint_app r 4).
Qed.

Section Take.
Context (data pre tail : bytes) (Hpre : len pre mod 8 = 0) (Hdata : len data < 2 ^ 16).
Let end_pos := align_down (len data).

Lemma end_pos_eq : end_pos = len data / 8 * 8 /\ end_pos <= len data.
Proof using Hdata.
  clear Hpre.
  pose proof (len_nonneg data). unfold end_pos. rewrite align_down_eq by lia.
  split; [done|]. Z.div_mod_to_equations. lia.
Qed.
(** [n] bytes, a positive multiple of eight, from here on are before the end. *)
Lemma before_end n : data = pre ++ tail -> n mod 8 = 0 -> n <= len tail -> len pre + n <= end_pos.
Proof.
  intros E Hn Hl. destruct end_pos_eq as [-> _]. rewrite E, len_app. Z.div_mod_to_equations. lia.
Qed.
Lemma not_at_end_ok : data = pre ++ tail -> 8 <= len tail -> not_at_end end_pos (len pre) = Ret (Ok tt, len pre).
Proof.
  intros E Hl. pose proof (before_end 8 E eq_refl Hl). unfold not_at_end. rewrite io_get_bind.
  by rewrite (proj2 (Z.eqb_neq (len pre) end_pos)) by lia.
Qed.
Lemma take_block_ok n : data = pre ++ tail -> n mod 8 = 0 -> 0 <= n <= len tail ->
  take_block end_pos n (len pre) = Ret (Ok tt, len pre + n).
Proof.
  intros E Hn Hl. pose proof (before_end n E Hn ltac:(lia)). destruct end_pos_eq as [_ He]. pose proof (len_nonneg pre).
  unfold take_block. rewrite io_get_bind, (io_lift_bind _ (end_pos - len pre)) by (apply checked_ok; lia).
  rewrite (proj2 (Z.ltb_ge _ n)) by lia. unfold io_modify. by rewrite Z.add_comm.
Qed.
End Take.

(** An item that is there if [has]; its length is a multiple of eight. *)
Section Items.
Context (data : bytes) (Hdata : len data < 2 ^ 16).
Let end_pos := align_down (len data).

Lemma take_u64_ok pre has v tail : data = pre ++ opt has (u64_bytes v) ++ tail -> len pre mod 8 = 0 -> 0 <= v < 2 ^ 64 ->
  take_u64 r data end_pos has (len pre) = Ret (Ok (if has then v else 0), len (pre ++ opt has (u64_bytes v))).
Proof.
  intros E Hp Hv. unfold take_u64, opt in *. destruct has; [|by rewrite app_nil_r].
  rewrite (io_bind_ok _ _ _ tt (len pre)).
  2: { eapply (not_at_end_ok data pre); try done. rewrite len_app, len_u64_bytes. pose proof (len_nonneg tail). lia. }
  rewrite io_get_bind, (io_lift_bind _ v) by (rewrite E; by apply read_u64_here).
  rewrite io_modify_bind, len_app, len_u64_bytes. by rewrite Z.add_comm.
Qed.
Lemma take_u32s_ok pre has v w tail : data = pre ++ opt has (u32_bytes v ++ u32_bytes w) ++ tail -> len pre mod 8 = 0 ->
  0 <= v < 2 ^ 32 -> 0 <= w < 2 ^ 32 ->
  take_u32s r data end_pos has (len pre)
  = Ret (Ok (if has then (v, w) else (0, 0)), len (pre ++ opt has (u32_bytes v ++ u32_bytes w))).
Proof.
  intros E Hp Hv Hw. unfold take_u32s, opt in *. destruct has; [|by rewrite app_nil_r].
  rewrite (io_bind_ok _ _ _ tt (len pre)).
  2: { eapply (not_at_end_ok data pre); try done. rewrite !len_app, !len_u32_bytes. pose proof (len_nonneg tail). lia. }
  rewrite io_get_bind, (io_lift_bind _ v) by (rewrite E, <- app_assoc; by apply read_u32_here).
  rewrite io_modify_bind, io_get_bind.
  assert (E4 : 4 + len pre = len (pre ++ u32_bytes v)) by (rewrite len_app, len_u32_bytes; lia). rewrite E4.
  rewrite (io_lift_bind _ w).
  2: { rewrite E, <- (app_assoc (u32_bytes v)), (app_assoc pre). by apply read_u32_here. }
  rewrite io_modify_bind, !len_app, !len_u32_bytes. unfold mret, io_ret. do 2 f_equal. lia.
Qed.
Lemma skip_id_ok pre has v tail : data = pre ++ opt has (u64_bytes v) ++ tail -> len pre mod 8 = 0 ->
  skip_id end_pos has (len pre) = Ret (Ok tt, len (pre ++ opt has (u64_bytes v))).
Proof.
  intros E Hp. unfold skip_id, opt in *. destruct has; [|by rewrite app_nil_r].
  rewrite (io_bind_ok _ _ _ tt (len pre)).
  2: { eapply (not_at_end_ok data pre); try done. rewrite len_app, len_u64_bytes. pose proof (len_nonneg tail). lia. }
  unfold io_modify. rewrite len_app, len_u64_bytes. by rewrite Z.add_comm.
Qed.

Lemma skip_identifier_ok pre has v tail : data = pre ++ opt has (u64_bytes v) ++ tail -> len pre mod 8 = 0 ->
  skip_identifier end_pos has (len pre) = Ret (Ok tt, len (pre ++ opt has (u64_bytes v))).
Proof.
  intros E Hp. unfold skip_identifier, opt in *. destruct has; [|by rewrite app_nil_r].
  pose proof (before_end data pre _ Hp Hdata 8 E eq_refl) as Hb. rewrite len_app, len_u64_bytes in Hb.
  pose proof (len_nonneg tail). fold end_pos in Hb.
  rewrite io_get_bind, (io_lift_bind _ tt) by (rewrite (proj2 (Z.eqb_neq (len pre) end_pos)) by lia; done).
  unfold io_modify. rewrite len_app, len_u64_bytes. by rewrite Z.add_comm.
Qed.

(** The values of the read item for a format: without groups a fixed number of them,
    with groups a number of entries, the times and the entries. *)
Definition read_shape (rf : Z) (l : list Z) : Prop :=
  let n f := b2z (ReadFormat_has_flag rf f) in
  Z.land rf (Z.lnot SUPPORTED_READ_FORMATS) = 0 /\
  if ReadFormat_has_flag rf ReadFormat_Group then
    exists nr rest, l = nr :: rest /\ 0 <= nr < 8192 /\
      len rest = n ReadFormat_TotalTimeEnabled + n ReadFormat_TotalTimeRunning
                 + nr * (1 + n ReadFormat_Id + n ReadFormat_Lost)
  else len l = 1 + n ReadFormat_TotalTimeEnabled + n ReadFormat_TotalTimeRunning + n ReadFormat_Id + n ReadFormat_Lost.

Definition range_of (has : bool) (pre l : bytes) : Z * Z := if has then (len pre, len (pre ++ l)) else (0, 0).

Lemma u16_here pre l tail : data = pre ++ l ++ tail -> as_unsigned 16 (len pre) = len pre /\ as_unsigned 16 (len (pre ++ l)) = len (pre ++ l).
Proof.
  intros E. pose proof (len_nonneg pre). pose proof (len_nonneg l). pose proof (len_nonneg tail).
  rewrite E, !len_app in Hdata. split; apply as_unsigned_id; rewrite ?len_app; lia.
Qed.
Lemma take_read_ok pre has rf l tail : data = pre ++ opt has (u64s_bytes l) ++ tail -> len pre mod 8 = 0 ->
  (has = true -> read_shape rf l /\ Forall (fun v => 0 <= v < 2 ^ 64) l) ->
  take_read r data end_pos has rf (len pre)
  = Ret (Ok (range_of has pre (u64s_bytes l)), len (pre ++ opt has (u64s_bytes l))).
Proof.
  intros E Hp Hr. unfold take_read, opt, range_of in *. destruct has; [|by rewrite app_nil_r].
  destruct (Hr eq_refl) as [[Hs Hl] Hv].
  destruct (u16_here pre _ tail E) as [U1 U2]. pose proof (len_nonneg tail). pose proof (len_nonneg l).
  rewrite io_get_bind. rewrite (io_bind_ok _ _ _ tt (len (pre ++ u64s_bytes l))); [by rewrite io_get_bind, U1, U2|].
  rewrite Hs. cbn [Z.eqb negb]. rewrite len_app, len_u64s_bytes.
  destruct (ReadFormat_has_flag rf ReadFormat_Group) eqn:Eg; cbn [negb].
  - destruct Hl as (nr & rest & -> & Hnr & Hrest). apply Forall_cons_iff in Hv as [Hv _].
    rewrite (io_bind_ok _ _ _ tt (len pre)).
    2: { eapply (not_at_end_ok data pre); try done. rewrite len_app, len_u64s_bytes, len_cons.
         pose proof (len_nonneg rest). lia. }
    rewrite (io_lift_bind _ nr).
    2: { rewrite E. change (u64s_bytes (nr :: rest)) with (u64_bytes nr ++ u64s_bytes rest).
         rewrite <- (app_assoc (u64_bytes nr)). by apply read_u64_here. }
    rewrite (proj2 (Z.leb_gt (0x10000 / 8) nr)) by (change (0x10000 / 8) with 8192; lia).
    rewrite len_cons, Hrest.
    assert (Hn : len pre mod 8 = 0) by done.
    rewrite (take_block_ok data pre (u64s_bytes (nr :: rest) ++ tail)); try done.
    + do 2 f_equal. lia.
    + rewrite Z.mul_comm. apply Z.mod_mul. lia.
    + rewrite len_app, len_u64s_bytes, len_cons, Hrest. pose proof (len_nonneg rest). lia.
  - rewrite <- Hl. rewrite (take_block_ok data pre (u64s_bytes l ++ tail)); try done.
    + by rewrite (Z.mul_comm 8).
    + apply Z.mod_mul. lia.
    + rewrite len_app, len_u64s_bytes. lia.
Qed.
Lemma take_callchain_ok pre has l tail :
  data = pre ++ opt has (u64_bytes (len l) ++ u64s_bytes l) ++ tail -> len pre mod 8 = 0 ->
  take_callchain r data end_pos has (len pre)
  = Ret (Ok (range_of has pre (u64_bytes (len l) ++ u64s_bytes l)), len (pre ++ opt has (u64_bytes (len l) ++ u64s_bytes l))).
Proof.
  intros E Hp. unfold take_callchain, opt, range_of in *. destruct has; [|by rewrite app_nil_r].
  destruct (u16_here pre _ tail E) as [U1 U2]. pose proof (len_nonneg tail). pose proof (len_nonneg l). pose proof (len_nonneg pre).
  assert (Hd : len data = len pre + 8 + 8 * len l + len tail).
  { rewrite E, !len_app, len_u64_bytes, len_u64s_bytes. lia. }
  rewrite (io_bind_ok _ _ _ tt (len pre)).
  2: { eapply (not_at_end_ok data pre); try done. rewrite !len_app, len_u64_bytes, len_u64s_bytes. lia. }
  rewrite io_get_bind, (io_lift_bind _ (len l)) by (rewrite E, <- app_assoc; apply read_u64_here; lia).
  rewrite (proj2 (Z.leb_gt (0x10000 / 8) (len l))) by (change (0x10000 / 8) with 8192; lia).
  rewrite (io_bind_ok _ _ _ tt (len (pre ++ u64_bytes (len l) ++ u64s_bytes l))); [by rewrite io_get_bind, U1, U2|].
  rewrite (take_block_ok data pre ((u64_bytes (len l) ++ u64s_bytes l) ++ tail)); try done.
  - do 2 f_equal. rewrite !len_app, len_u64_bytes, len_u64s_bytes. lia.
  - rewrite Z.mul_comm. apply Z.mod_mul. lia.
  - rewrite !len_app, len_u64_bytes, len_u64s_bytes. lia.
Qed.
Lemma take_raw_ok pre has raw pad tail :
  data = pre ++ opt has (u32_bytes (len raw) ++ raw ++ pad) ++ tail -> len pre mod 8 = 0 ->
  len pad < 8 -> (4 + len raw + len pad) mod 8 = 0 ->
  take_raw r data end_pos has (len pre)
  = Ret (Ok (if has then (len (pre ++ u32_bytes (len raw)), len (pre ++ u32_bytes (len raw) ++ raw)) else (0, 0)),
         len (pre ++ opt has (u32_bytes (len raw) ++ raw ++ pad))).
Proof.
  intros E Hp Hpad Hm. unfold take_raw, opt in *. destruct has; [|by rewrite app_nil_r].
  pose proof (len_nonneg tail). pose proof (len_nonneg raw). pose proof (len_nonneg pre). pose proof (len_nonneg pad).
  assert (Hd : len data = len pre + 4 + len raw + len pad + len tail) by (rewrite E, !len_app, len_u32_bytes; lia).
  assert (Hx : len ((u32_bytes (len raw) ++ raw ++ pad) ++ tail) = 4 + len raw + len pad + len tail)
    by (rewrite !len_app, len_u32_bytes; lia).
  pose proof (before_end data pre _ Hp Hdata (4 + len raw + len pad) E Hm ltac:(lia)) as Hb.
  destruct (end_pos_eq data Hdata) as [_ He]. fold end_pos in Hb, He.
  rewrite (io_bind_ok _ _ _ tt (len pre)).
  2: { eapply (not_at_end_ok data pre); try done. Z.div_mod_to_equations. lia. }
  rewrite io_get_bind, (io_lift_bind _ (len raw)) by (rewrite E, <- app_assoc; apply read_u32_here; lia).
  rewrite (io_lift_bind _ (end_pos - len pre)) by (apply checked_ok; lia).
  rewrite (io_lift_bind _ (end_pos - len pre - 4)) by (apply checked_ok; lia).
  rewrite (as_unsigned_id 32) by lia. rewrite (proj2 (Z.ltb_ge _ (len raw))) by lia.
  rewrite !(as_unsigned_id 16) by lia.
  rewrite (io_lift_bind _ (len pre + 4 + len raw)) by (apply checked_ok; lia).
  rewrite io_modify_bind, align_down_eq by lia. unfold mret, io_ret. rewrite !len_app, len_u32_bytes. do 2 f_equal.
  - do 2 f_equal; lia.
  - Z.div_mod_to_equations. lia.
Qed.
End Items.
End Layout.

(** ** The offsets of the id and of the time *)

Section Offsets.
Context (attr : PerfEventAttr).
Definition flag (f : Z) : bool := SampleType_has_flag attr.(attr_sample_type) f.

Definition id_offset : Z :=
  if flag SampleType_Identifier then 8
  else if flag SampleType_Id then
    8 * (1 + b2z (flag SampleType_IP) + b2z (flag SampleType_Tid) + b2z (flag SampleType_Time) + b2z (flag SampleType_Addr))
  else OFFSET_NOT_PRESENT.
Definition id_offset_back : Z :=
  if negb (AttrOptions_has_flag attr.(attr_options) AttrOptions_SampleIdAll) then OFFSET_NOT_PRESENT
  else if flag SampleType_Identifier then 8
  else if flag SampleType_Id then 8 * (1 + b2z (flag SampleType_Cpu) + b2z (flag SampleType_StreamId))
  else OFFSET_NOT_PRESENT.
Definition time_offset : Z :=
  if flag SampleType_Time then
    8 * (1 + b2z (flag SampleType_Identifier) + b2z (flag SampleType_IP) + b2z (flag SampleType_Tid))
  else OFFSET_NOT_PRESENT.
Definition time_offset_back : Z :=
  if negb (AttrOptions_has_flag attr.(attr_options) AttrOptions_SampleIdAll) then OFFSET_NOT_PRESENT
  else if flag SampleType_Time then
    8 * (1 + b2z (flag SampleType_Identifier) + b2z (flag SampleType_Cpu) + b2z (flag SampleType_StreamId)
         + b2z (flag SampleType_Id))
  else OFFSET_NOT_PRESENT.

Lemma b2z_range b : 0 <= b2z b <= 1.
Proof. destruct b; cbn; lia. Qed.
Lemma attr_offsets_eq : attr_offsets attr = Ret (id_offset, id_offset_back, time_offset, time_offset_back).
Proof.
  unfold attr_offsets, id_offset, id_offset_back, time_offset, time_offset_back. fold (flag).
  pose proof (b2z_range (flag SampleType_IP)). pose proof (b2z_range (flag SampleType_Tid)).
  pose proof (b2z_range (flag SampleType_Time)). pose proof (b2z_range (flag SampleType_Addr)).
  pose proof (b2z_range (flag SampleType_Cpu)). pose proof (b2z_range (flag SampleType_StreamId)).
  pose proof (b2z_range (flag SampleType_Identifier)). pose proof (b2z_range (flag SampleType_Id)).
  change (SampleType_has_flag (attr_sample_type attr)) with flag. rewrite !checked_signed_ok by lia.
  cbn [mbind outcome_bind].
  destruct (flag SampleType_Identifier), (flag SampleType_Id), (flag SampleType_Time); cbn [negb mbind outcome_bind];
    by destruct (negb _).
Qed.
End Offsets.

(** ** A whole sample *)

Record items_ok (sample_type rf id : Z) (it : SampleItems) : Prop := {
  io_id : in_width 64 id;
  io_words : Forall (in_width 64) [it.(it_ip); it.(it_time); it.(it_addr); it.(it_stream_id); it.(it_period)];
  io_halves : Forall (in_width 32) [it.(it_pid); it.(it_tid); it.(it_cpu); it.(it_cpu_reserved)];
  io_read : SampleType_has_flag sample_type SampleType_Read = true ->
            read_shape rf it.(it_read) /\ Forall (fun v => 0 <= v < 2 ^ 64) it.(it_read);
  io_pad : len it.(it_pad) < 8 /\ (4 + len it.(it_raw) + len it.(it_pad)) mod 8 = 0;
}.

Definition mod8 (l : bytes) : Prop := len l mod 8 = 0.
Lemma mod8_app l m : mod8 l -> mod8 m -> mod8 (l ++ m).
Proof. unfold mod8. rewrite len_app. intros. Z.div_mod_to_equations. lia. Qed.
Lemma mod8_opt has l : mod8 l -> mod8 (opt has l).
Proof. by destruct has. Qed.
Lemma mod8_u64 r v : mod8 (u64_bytes r v).
Proof. unfold mod8. by rewrite len_u64_bytes. Qed.
Lemma mod8_u32s r v w : mod8 (u32_bytes r v ++ u32_bytes r w).
Proof. unfold mod8. by rewrite len_app, !len_u32_bytes. Qed.
Lemma mod8_u64s r l : mod8 (u64s_bytes r l).
Proof. unfold mod8. rewrite len_u64s_bytes, Z.mul_comm. by apply Z.mod_mul. Qed.
#[local] Hint Resolve mod8_app mod8_opt mod8_u64 mod8_u32s mod8_u64s : core.

Lemma b2z_opt has l : len (opt has l) = b2z has * len l.
Proof. unfold opt. destruct has; cbn [b2z]; [lia | done]. Qed.

Section Sample.
Context (r : PerfByteReader) (st rf id : Z) (it : SampleItems) (hdr rest : bytes).
Context (Hok : items_ok st rf id it) (Hhdr : len hdr = 8).
Let has := SampleType_has_flag st.
Let data := hdr ++ concat (sample_layout r st id it) ++ rest.
Context (Hdata : len data < 2 ^ 16).

(** The id is where the offset says. *)
Lemma id_in_prefix attr s_id ns_id s_time ns_time : attr.(attr_sample_type) = st ->
  attr_offsets attr = Ret (s_id, ns_id, s_time, ns_time) -> has SampleType_Identifier || has SampleType_Id = true ->
  exists pre post, data = pre ++ u64_bytes r id ++ post /\ s_id = len pre /\ 8 <= len pre.
Proof.
  intros Hst Ho Hid. rewrite attr_offsets_eq in Ho. injection Ho as Hs _ _ _. revert Hs. unfold id_offset, flag. rewrite Hst. fold has.
  unfold data, sample_layout. cbn [concat]. fold has. destruct (has SampleType_Identifier).
  - intros <-. exists hdr. eexists. split; [cbn [opt]; rewrite <- app_assoc; reflexivity | lia].
  - cbn [orb] in Hid. rewrite Hid. intros <-.
    exists (hdr ++ opt (has SampleType_IP) (u64_bytes r it.(it_ip))
            ++ opt (has SampleType_Tid) (u32_bytes r it.(it_pid) ++ u32_bytes r it.(it_tid))
            ++ opt (has SampleType_Time) (u64_bytes r it.(it_time)) ++ opt (has SampleType_Addr) (u64_bytes r it.(it_addr))).
    eexists. split; [cbn [opt app]; rewrite <- !app_assoc; reflexivity|].
    rewrite !len_app, !b2z_opt, !len_app, !len_u64_bytes, !len_u32_bytes, Hhdr. unfold b2z. repeat case_match; lia.
Qed.

(** The information that the sample gives. *)
Definition prefix (n : nat) : bytes := hdr ++ concat (take n (sample_layout r st id it)).
Definition info_of (s : PerfSessionInfo) (desc : PerfEventDesc) : PerfSampleEventInfo :=
  {| si_data := data; si_session_info := s; si_event_desc := desc; si_id := id;
     si_ip := if has SampleType_IP then it.(it_ip) else 0;
     si_pid := if has SampleType_Tid then it.(it_pid) else 0;
     si_tid := if has SampleType_Tid then it.(it_tid) else 0;
     si_time := if has SampleType_Time then it.(it_time) else 0;
     si_addr := if has SampleType_Addr then it.(it_addr) else 0;
     si_stream_id := if has SampleType_StreamId then it.(it_stream_id) else 0;
     si_cpu := if has SampleType_Cpu then it.(it_cpu) else 0;
     si_cpu_reserved := if has SampleType_Cpu then it.(it_cpu_reserved) else 0;
     si_period := if has SampleType_Period then it.(it_period) else 0;
     si_read_range := range_of (has SampleType_Read) (prefix 9) (u64s_bytes r it.(it_read));
     si_callchain_range := range_of (has SampleType_Callchain) (prefix 10)
                             (u64_bytes r (len it.(it_callchain)) ++ u64s_bytes r it.(it_callchain));
     si_raw_range := if has SampleType_Raw
                     then (len (prefix 11 ++ u32_bytes r (len it.(it_raw))),
                           len (prefix 11 ++ u32_bytes r (len it.(it_raw)) ++ it.(it_raw)))
                     else (0, 0) |}.

Lemma prefix_step n x : sample_layout r st id it !! n = Some x ->
  prefix (Datatypes.S n) = prefix n ++ x /\ data = prefix n ++ x ++ concat (drop (Datatypes.S n) (sample_layout r st id it)) ++ rest.
Proof.
  intros Hx. unfold prefix, data. rewrite (take_S_r _ _ _ Hx), concat_app. cbn [concat]. rewrite app_nil_r.
  split; [by rewrite app_assoc|].
  rewrite <- (take_drop_middle _ _ _ Hx) at 1. rewrite concat_app. cbn [concat]. by rewrite <- !app_assoc.
Qed.
Lemma layout_mod8 : Forall mod8 (sample_layout r st id it).
Proof.
  destruct Hok as [_ _ _ _ [_ Hm]]. unfold sample_layout. repeat apply List.Forall_cons; try apply List.Forall_nil; auto.
  apply mod8_opt. unfold mod8. rewrite !len_app, len_u32_bytes, Z.add_assoc. done.
Qed.
Lemma prefix_mod8 n : len (prefix n) mod 8 = 0.
Proof.
  unfold prefix. apply mod8_app; [unfold mod8; by rewrite Hhdr|].
  induction (Forall_take _ n _ layout_mod8) as [|x l Hx _ IH]; [done|]. by apply mod8_app.
Qed.

Lemma sample_items_ok s desc : s.(session_byte_reader) = r -> desc.(pd_attr).(attr_sample_type) = st ->
  desc.(pd_attr).(attr_read_format) = rf ->
  (has SampleType_Identifier || has SampleType_Id = true) ->
  exists pos, sample_items s desc id data 8 = Ret (Ok (info_of s desc), pos).
Proof.
  intros Hr Hst Hrf Hid. destruct Hok as [Hi Hw Hh Hrd [Hp1 Hp2]].
  apply Forall_cons_iff in Hw as [W1 Hw]. apply Forall_cons_iff in Hw as [W2 Hw]. apply Forall_cons_iff in Hw as [W3 Hw].
  apply Forall_cons_iff in Hw as [W4 Hw]. apply Forall_cons_iff in Hw as [W5 _].
  apply Forall_cons_iff in Hh as [H1 Hh]. apply Forall_cons_iff in Hh as [H2 Hh]. apply Forall_cons_iff in Hh as [H3 Hh].
  apply Forall_cons_iff in Hh as [H4 _].
  assert (E0 : 8 = len (prefix 0)) by (unfold prefix; cbn [take concat]; by rewrite app_nil_r).
  assert (Hlen : 16 <= len data).
  { unfold data, sample_layout. cbn [concat]. fold has. rewrite !len_app, (b2z_opt (has SampleType_Identifier)),
      (b2z_opt (has SampleType_Id)), len_u64_bytes, Hhdr. unfold opt.
    destruct (has SampleType_Identifier), (has SampleType_Id); try done; cbn [b2z];
      repeat match goal with |- context [len ?x] => lazymatch goal with H : 0 <= len x |- _ => fail | _ => pose proof (len_nonneg x) end end; lia. }
  unfold sample_items. rewrite Hr, Hst, Hrf. fold has.
  rewrite (io_lift_bind _ tt) by (change (2 * 8) with 16; by rewrite (proj2 (Z.leb_le _ _) Hlen)).
  rewrite E0.
  destruct (prefix_step 0 _ eq_refl) as [P0 D0].
  rewrite (io_bind_ok _ _ _ _ _ (skip_identifier_ok r data Hdata _ _ _ _ D0 (prefix_mod8 0))), <- P0.
  destruct (prefix_step 1 _ eq_refl) as [P1 D1], (prefix_step 2 _ eq_refl) as [P2 D2], (prefix_step 3 _ eq_refl) as [P3 D3],
    (prefix_step 4 _ eq_refl) as [P4 D4], (prefix_step 5 _ eq_refl) as [P5 D5], (prefix_step 6 _ eq_refl) as [P6 D6].
  destruct (prefix_step 7 _ eq_refl) as [P7 D7], (prefix_step 8 _ eq_refl) as [P8 D8], (prefix_step 9 _ eq_refl) as [P9 D9],
    (prefix_step 10 _ eq_refl) as [P10 D10], (prefix_step 11 _ eq_refl) as [P11 D11].
  rewrite (io_bind_ok _ _ _ _ _ (take_u64_ok r data Hdata _ _ _ _ D1 (prefix_mod8 1) W1)), <- P1.
  rewrite (io_bind_ok _ _ _ _ _ (take_u32s_ok r data Hdata _ _ _ _ _ D2 (prefix_mod8 2) H1 H2)), <- P2.
  destruct (if SampleType_has_flag st SampleType_Tid then _ else _) as [pid tid] eqn:Etid.
  rewrite (io_bind_ok _ _ _ _ _ (take_u64_ok r data Hdata _ _ _ _ D3 (prefix_mod8 3) W2)), <- P3.
  rewrite (io_bind_ok _ _ _ _ _ (take_u64_ok r data Hdata _ _ _ _ D4 (prefix_mod8 4) W3)), <- P4.
  rewrite (io_bind_ok _ _ _ _ _ (skip_id_ok r data Hdata _ _ _ _ D5 (prefix_mod8 5))), <- P5.
  rewrite (io_bind_ok _ _ _ _ _ (take_u64_ok r data Hdata _ _ _ _ D6 (prefix_mod8 6) W4)), <- P6.
  rewrite (io_bind_ok _ _ _ _ _ (take_u32s_ok r data Hdata _ _ _ _ _ D7 (prefix_mod8 7) H3 H4)), <- P7.
  destruct (if SampleType_has_flag st SampleType_Cpu then _ else _) as [cpu cpu_reserved] eqn:Ecpu.
  rewrite (io_bind_ok _ _ _ _ _ (take_u64_ok r data Hdata _ _ _ _ D8 (prefix_mod8 8) W5)), <- P8.
  rewrite (io_bind_ok _ _ _ _ _ (take_read_ok r data Hdata _ _ _ _ _ D9 (prefix_mod8 9) Hrd)), <- P9.
  rewrite (io_bind_ok _ _ _ _ _ (take_callchain_ok r data Hdata _ _ _ _ D10 (prefix_mod8 10))), <- P10.
  rewrite (io_bind_ok _ _ _ _ _ (take_raw_ok r data Hdata _ _ _ _ _ D11 (prefix_mod8 11) Hp1 Hp2)), <- P11.
  rewrite io_get_bind, (io_lift_bind _ tt).
  2: { rewrite (proj2 (Z.leb_le _ _)); [done|]. destruct (end_pos_eq data Hdata) as [-> _].
       rewrite D11 at 1. cbn [drop concat]. rewrite app_nil_l, app_assoc, <- P11, len_app.
       pose proof (prefix_mod8 12). pose proof (len_nonneg rest). Z.div_mod_to_equations. lia. }
  eexists. unfold mret, io_ret, info_of. repeat f_equal; try done.
  all: revert Etid Ecpu; unfold has; repeat case_match; congruence.
Qed.

(** The slices that the information gives access to. *)
Lemma sub_range pre l tail b : data = pre ++ opt b l ++ tail ->
  slice data (fst (range_of b pre l)) (snd (range_of b pre l)) = Ret (opt b l).
Proof.
  intros E. pose proof (len_nonneg pre). pose proof (len_nonneg l). pose proof (len_nonneg tail). pose proof (len_nonneg data).
  unfold range_of. destruct b; cbn [opt fst snd] in *; [|by rewrite slice_ok by lia].
  rewrite E. apply slice_here.
Qed.

Lemma info_slices s desc :
  si_read_format (info_of s desc) = Ret (opt (has SampleType_Read) (u64s_bytes r it.(it_read))) /\
  si_callchain (info_of s desc)
  = Ret (opt (has SampleType_Callchain) (u64_bytes r (len it.(it_callchain)) ++ u64s_bytes r it.(it_callchain))) /\
  si_raw_data (info_of s desc) = Ret (opt (has SampleType_Raw) it.(it_raw)).
Proof.
  destruct (prefix_step 9 _ eq_refl) as [_ D9], (prefix_step 10 _ eq_refl) as [_ D10], (prefix_step 11 _ eq_refl) as [_ D11].
  split; [|split].
  - by apply (sub_range _ _ _ _ D9).
  - by apply (sub_range _ _ _ _ D10).
  - unfold si_raw_data, info_of. cbn [si_data si_raw_range]. fold has in D11.
    pose proof (len_nonneg data). destruct (has SampleType_Raw); cbn [opt fst snd] in *; [|by rewrite slice_ok by lia].
    rewrite <- !app_assoc, app_assoc in D11. rewrite D11.
    rewrite (app_assoc _ _ (it_raw it)). apply slice_here.
Qed.
(** The fields of the tracepoint come after the common fields. *)
Lemma info_user_data s desc format common fields : len data < 2 ^ 16 ->
  desc.(pd_format) = Some format -> format.(ef_common_fields_size) = len common ->
  it.(it_raw) = common ++ fields -> has SampleType_Raw = true -> si_user_data (info_of s desc) = Ret fields.
Proof.
  intros Hd Hf Hc Hraw Hh. unfold si_user_data, si_format, info_of. cbn [si_event_desc si_raw_range si_data].
  rewrite Hf, Hc, Hh. cbn [fst snd]. destruct (prefix_step 11 _ eq_refl) as [_ D]. fold has in D. rewrite Hh in D. cbn [opt] in D.
  rewrite Hraw in D |- *. rewrite <- !app_assoc in D.
  set (pre := prefix 11) in *. set (l := u32_bytes r (len (common ++ fields))) in *.
  pose proof (len_nonneg pre). pose proof (len_nonneg l). pose proof (len_nonneg common). pose proof (len_nonneg fields).
  assert (Hl : len pre + len l + len common + len fields < 2 ^ 16).
  { rewrite D, !len_app in Hd. pose proof (len_nonneg it.(it_pad)).
    pose proof (len_nonneg (concat (drop 12 (sample_layout r st id it)))). pose proof (len_nonneg rest). lia. }
  rewrite !checked_ok by (rewrite !len_app; lia). cbn [mbind outcome_bind].
  rewrite (proj2 (Z.leb_le _ _)) by (rewrite !len_app; lia).
  pose proof (slice_here (pre ++ l ++ common) fields
    (it.(it_pad) ++ concat (drop 12 (sample_layout r st id it)) ++ rest)) as Hs.
  rewrite <- !app_assoc in Hs. rewrite D, <- len_app, <- !app_assoc. exact Hs.
Qed.
End Sample.

(** The information is found. *)
Lemma sample_info_found r st rf id it hdr rest p header i desc ns_id s_time ns_time :
  let data := hdr ++ concat (sample_layout r st id it) ++ rest in
  let a := p.(pr_inner).(attrs) in
  items_ok st rf id it -> len hdr = 8 -> len data < 2 ^ 16 ->
  p.(pr_inner).(session_info).(session_byte_reader) = r ->
  desc.(pd_attr).(attr_sample_type) = st -> desc.(pd_attr).(attr_read_format) = rf ->
  SampleType_has_flag st SampleType_Identifier || SampleType_has_flag st SampleType_Id = true ->
  attr_offsets desc.(pd_attr) = Ret (a.(sample_id_offset), ns_id, s_time, ns_time) ->
  a.(event_desc_id_to_index) !! id = Some i -> index a.(event_desc_list) i = Ret desc ->
  get_sample_event_info p {| pe_header := header; pe_data := data |}
  = Ret (Ok (info_of r st id it hdr rest p.(pr_inner).(session_info) desc)).
Proof.
  intros data a Hok Hhdr Hdata Hr Hst Hrf Hid Ho Hi Hd.
  destruct (id_in_prefix r st id it hdr rest Hhdr desc.(pd_attr) _ _ _ _ Hst Ho Hid) as (pre & post & E & Ep & Hp).
  destruct (sample_items_ok r st rf id it hdr rest Hok Hhdr Hdata _ desc Hr Hst Hrf Hid) as [pos Es].
  unfold get_sample_event_info. fold a. cbn [pe_data]. rewrite Ep, (proj2 (Z.ltb_ge (len pre) 8)) by lia.
  fold data in E. pose proof (len_nonneg post).
  rewrite (proj2 (Z.ltb_ge (len data) _)) by (rewrite E, !len_app, len_u64_bytes; lia).
  rewrite E, Hr, read_u64_here, <- E by apply Hok. cbn [mbind outcome_bind]. unfold desc_of_id. rewrite Hi, Hd.
  cbn [mbind outcome_bind]. fold data in Es. by rewrite Es.
Qed.

(** C38. A sample that holds the items that its attribute names, in the order in which
    the kernel writes them, gives back every item: its information has the values, its
    ranges give the read values, the call chain and the raw data, and the user data is
    the raw data after the common fields of the format. *)
Theorem sample_info_round_trip r st rf id it hdr rest p header i desc ns_id s_time ns_time :
  let data := hdr ++ concat (sample_layout r st id it) ++ rest in
  let a := p.(pr_inner).(attrs) in
  items_ok st rf id it -> len hdr = 8 -> len data < 2 ^ 16 ->
  p.(pr_inner).(session_info).(session_byte_reader) = r ->
  desc.(pd_attr).(attr_sample_type) = st -> desc.(pd_attr).(attr_read_format) = rf ->
  SampleType_has_flag st SampleType_Identifier || SampleType_has_flag st SampleType_Id = true ->
  attr_offsets desc.(pd_attr) = Ret (a.(sample_id_offset), ns_id, s_time, ns_time) ->
  a.(event_desc_id_to_index) !! id = Some i -> index a.(event_desc_list) i = Ret desc ->
  let info := info_of r st id it hdr rest p.(pr_inner).(session_info) desc in
  get_sample_event_info p {| pe_header := header; pe_data := data |} = Ret (Ok info) /\
  si_read_format info = Ret (opt (SampleType_has_flag st SampleType_Read) (u64s_bytes r it.(it_read))) /\
  si_callchain info = Ret (opt (SampleType_has_flag st SampleType_Callchain)
                             (u64_bytes r (len it.(it_callchain)) ++ u64s_bytes r it.(it_callchain))) /\
  si_raw_data info = Ret (opt (SampleType_has_flag st SampleType_Raw) it.(it_raw)) /\
  (forall format common fields, desc.(pd_format) = Some format -> format.(ef_common_fields_size) = len common ->
     it.(it_raw) = common ++ fields -> SampleType_has_flag st SampleType_Raw = true ->
     si_user_data info = Ret fields).
Proof.
  intros data a Hok Hhdr Hdata Hr Hst Hrf Hid Ho Hi Hd info.
  destruct (info_slices r st id it hdr rest p.(pr_inner).(session_info) desc) as (I1 & I2 & I3).
  split; [|split; [exact I1|split; [exact I2|split; [exact I3|]]]].
  - by apply (sample_info_found _ _ rf _ _ _ _ _ _ i _ ns_id s_time ns_time).
  - intros format common fields. by apply info_user_data.
Qed.

(** A tracepoint event with an identifier, a thread, a time, a group of read values, a
    call chain and raw data of four common bytes and four bytes of fields. *)
Definition example_attr : PerfEventAttr :=
  of_fields [AttrType_Tracepoint; 128; 7; 0;
    Z.lor (Z.lor (Z.lor SampleType_Identifier SampleType_Tid) (Z.lor SampleType_Time SampleType_Read))
      (Z.lor SampleType_Callchain SampleType_Raw); Z.lor ReadFormat_Group ReadFormat_Id].
Definition example_desc : PerfEventDesc :=
  PerfEventDesc_new example_attr [101]
    (Some {| ef_system_name := [115]; ef_name := [101]; ef_print_fmt := []; ef_fields := []; ef_id := 7;
             ef_common_field_count := 0; ef_common_fields_size := 4; ef_decoding_style := TraceEventFormat |}) [33].
Definition example_attrs : ReaderAttrs :=
  set_sample_id_offset 8 (set_event_desc_id_to_index (<[33 := 0]> ∅) (set_event_desc_list [example_desc] ReaderAttrs_new)).
Definition example_reader : PerfDataFileReader :=
  {| pr_inner := set_attrs example_attrs DataFileReader_new; pr_current := EventBytesRef_default; pr_file := None |}.
Definition example_items : SampleItems :=
  {| it_ip := 0; it_pid := 11; it_tid := 12; it_time := 1000; it_addr := 0; it_stream_id := 0; it_cpu := 0;
     it_cpu_reserved := 0; it_period := 0; it_read := [2; 5; 6; 7; 8]; it_callchain := [4096; 8192];
     it_raw := [1; 2; 3; 4; 97; 98; 99; 100]; it_pad := repeat 0 4 |}.
Definition example_sample : bytes :=
  repeat 9 8
  ++ concat (sample_layout (PerfByteReader_new false) example_attr.(attr_sample_type) 33 example_items) ++ [].

Lemma sample_info_round_trip_witness :
  exists info, get_sample_event_info example_reader {| pe_header := PerfEventHeader_new; pe_data := example_sample |}
               = Ret (Ok info) /\ si_tid info = 12 /\ si_user_data info = Ret [97; 98; 99; 100].
Proof.
  assert (Hok : items_ok example_attr.(attr_sample_type) example_attr.(attr_read_format) 33 example_items).
  { split; [by split | by repeat constructor | by repeat constructor | intros _; split | by vm_compute].
    - split; [reflexivity|]. exists 2, [5; 6; 7; 8]. by vm_compute.
    - by repeat constructor. }
  destruct (sample_info_round_trip (PerfByteReader_new false) _ _ 33 example_items (repeat 9 8) [] example_reader
    PerfEventHeader_new 0 example_desc OFFSET_NOT_PRESENT 24 OFFSET_NOT_PRESENT Hok) as (H & _ & _ & _ & Hu);
    try (vm_compute; reflexivity).
  eexists. split; [exact H|]. split; [reflexivity|]. by apply (Hu _ [1; 2; 3; 4] _ eq_refl).
Defined.
