(* ===== verification/SampleSafe.v ===== *)
(** * SampleSafe: the information of any event, and of events that are not samples

    For any bytes of an event, however malformed, the items of a sample are taken
    without panics and the ranges are in the event.  The items at the end of other
    events are found where the kernel puts them, up to the position from which an
    assertion of the code fails. *)

From stdpp Require Import gmap.
From S2P Require Import Prelude Strings Types ByteReader PerfItem Session FieldFormat FieldFormatProps PerfAbi PerfIo.
From S2P Require Import EventFormat EventFormatProps FileReader SampleInfo SampleProps.

(** The index of every id is in the list of descriptions. *)
Definition ids_indexed (a : ReaderAttrs) : Prop :=
  forall id i, a.(event_desc_id_to_index) !! id = Some i -> 0 <= i < len a.(event_desc_list).

Lemma wp_desc_of_id a id (Q : result PerfEventDesc PerfDataFileError -> Prop) : ids_indexed a ->
  (forall i desc, a.(event_desc_id_to_index) !! id = Some i -> a.(event_desc_list) !! Z.to_nat i = Some desc -> Q (Ok desc)) ->
  (a.(event_desc_id_to_index) !! id = None -> Q (Err IdNotFound)) -> wp (desc_of_id a id) Q.
Proof.
  intros Ha HQ HN. unfold desc_of_id. destruct (_ !! id) as [i|] eqn:E; [|by apply wp_ret, HN].
  wp_step. apply wp_index; [by apply (Ha id)|]. intros desc Hd. apply wp_ret. by apply (HQ i).
Qed.

(** ** Samples *)

Section Safe.
Context (r : PerfByteReader) (data : bytes) (Hdata : bytes_ok data) (Hlen : 16 <= len data < 2 ^ 16).
Let end_pos := align_down (len data).

(** A position between items. *)
Definition at_item (pos : Z) : Prop := pos mod 8 = 0 /\ 8 <= pos <= end_pos.
(** A step that ends between items, with a result in [Q], or fails. *)
Definition item_step {A} (m : io Z PerfDataFileError A) (Q : A -> Prop) : Prop :=
  forall pos, at_item pos ->
  io_wp m (fun res pos' => match res with Ok a => at_item pos' /\ Q a | Err _ => True end) pos.
Definition in_event (range : Z * Z) : Prop := 0 <= fst range <= snd range /\ snd range <= len data.

Lemma end_of_items : end_pos mod 8 = 0 /\ 16 <= end_pos <= len data.
Proof using Hlen. unfold end_pos. rewrite align_down_eq by lia. Z.div_mod_to_equations. lia. Qed.
Lemma item_step_bind {A B} (m : io Z PerfDataFileError A) (f : A -> io Z PerfDataFileError B) Q R :
  item_step m Q -> (forall a, Q a -> item_step (f a) R) -> item_step (m ≫= f) R.
Proof.
  intros Hm Hf pos Hp. apply io_wp_bind. eapply wp_mono; [by apply Hm|].
  intros [[a|e] pos'] H; [|exact I]. destruct H as [Hp' Ha]. by apply (Hf a Ha).
Qed.
Lemma item_step_ret {A} (a : A) (Q : A -> Prop) : Q a -> item_step (mret a) Q.
Proof. intros HQ pos Hp. by split. Qed.
Lemma item_step_err {A} e (Q : A -> Prop) : item_step (io_err e) Q.
Proof. intros pos Hp. exact I. Qed.

(** The rest of a step may use that an item begins here. *)
Lemma not_at_end_wp {A} (f : unit -> io Z PerfDataFileError A) (Q : result A PerfDataFileError -> Z -> Prop) pos :
  at_item pos -> (forall e, Q (Err e) pos) -> (pos + 8 <= end_pos -> io_wp (f tt) Q pos) ->
  io_wp (not_at_end end_pos ≫= f) Q pos.
Proof.
  intros [Hm Hp] He Hf. destruct end_of_items as [Em _]. apply io_wp_bind. unfold not_at_end, io_wp.
  rewrite io_get_bind. destruct (Z.eqb_spec pos end_pos); [apply He|]. apply Hf. Z.div_mod_to_equations. lia.
Qed.
Lemma get_wp {A} (f : Z -> io Z PerfDataFileError A) (Q : result A PerfDataFileError -> Z -> Prop) pos :
  io_wp (f pos) Q pos -> io_wp (io_get ≫= f) Q pos.
Proof. done. Qed.
Lemma modify_wp {A} g (f : unit -> io Z PerfDataFileError A) (Q : result A PerfDataFileError -> Z -> Prop) pos :
  io_wp (f tt) Q (g pos) -> io_wp (io_modify g ≫= f) Q pos.
Proof. done. Qed.
Lemma lift_wp {A B} (m : outcome B) (f : B -> io Z PerfDataFileError A) (Q : result A PerfDataFileError -> Z -> Prop) pos :
  wp m (fun b => io_wp (f b) Q pos) -> io_wp (io_lift m ≫= f) Q pos.
Proof.
  intros H. apply io_wp_bind. unfold io_wp, io_lift. apply wp_bind. eapply wp_mono; [exact H|]. intros b Hb. exact Hb.
Qed.

Lemma read_u64_wp pos (Q : Z -> Prop) : 0 <= pos -> pos + 8 <= len data -> (forall v, 0 <= v < 2 ^ 64 -> Q v) ->
  wp (read_u64_at r data pos) Q.
Proof.
  intros. unfold read_u64_at. wp_step. wp_step. apply wp_read_u64; [by apply bytes_ok_sub | rewrite len_sub; lia | done].
Qed.
Lemma read_u32_wp pos (Q : Z -> Prop) : 0 <= pos -> pos + 4 <= len data -> (forall v, 0 <= v < 2 ^ 32 -> Q v) ->
  wp (read_u32_from r data pos) Q.
Proof.
  intros. unfold read_u32_from. wp_step. wp_step. apply wp_read_u32; [by apply bytes_ok_sub | rewrite len_sub; lia | done].
Qed.

Lemma skip_id_safe has : item_step (skip_id end_pos has) (fun _ => True).
Proof.
  unfold skip_id. destruct has; [|by apply item_step_ret]. intros pos Hp.
  apply not_at_end_wp; [done | done |]. intros He. destruct Hp as [Hm Hp]. unfold io_wp, io_modify, at_item. cbn.
  repeat split; try lia. Z.div_mod_to_equations. lia.
Qed.
Lemma take_u64_safe has : item_step (take_u64 r data end_pos has) (fun v => 0 <= v < 2 ^ 64).
Proof.
  unfold take_u64. destruct has; [|by apply item_step_ret]. intros pos Hp. destruct end_of_items as [_ Hend].
  apply not_at_end_wp; [done | done |]. intros He. destruct Hp as [Hm Hp]. apply get_wp, lift_wp, read_u64_wp; [lia | lia |].
  intros v Hv. apply modify_wp. unfold io_wp, at_item. cbn. repeat split; try lia. Z.div_mod_to_equations. lia.
Qed.
Lemma take_u32s_safe has : item_step (take_u32s r data end_pos has) (fun _ => True).
Proof.
  unfold take_u32s. destruct has; [|by apply item_step_ret]. intros pos Hp. destruct end_of_items as [_ Hend].
  apply not_at_end_wp; [done | done |]. intros He. destruct Hp as [Hm Hp]. apply get_wp, lift_wp, read_u32_wp; [lia | lia |].
  intros v Hv. apply modify_wp, get_wp, lift_wp, read_u32_wp; [lia | lia |]. intros w Hw.
  apply modify_wp. unfold io_wp, at_item. cbn. repeat split; try lia. Z.div_mod_to_equations. lia.
Qed.

(** A block of whole items ends between items, further on. *)
Lemma take_block_safe size pos : at_item pos -> 0 <= size -> size mod 8 = 0 ->
  io_wp (take_block end_pos size)
    (fun res pos' => match res with Ok _ => at_item pos' /\ pos <= pos' | Err _ => True end) pos.
Proof.
  intros [Hm Hp] Hs Hs8. destruct end_of_items as [_ Hend]. unfold take_block. apply get_wp, lift_wp.
  wp_step. destruct (Z.ltb_spec (end_pos - pos) size); unfold io_wp, io_err, io_modify, at_item; cbn; [done|].
  repeat split; try lia. Z.div_mod_to_equations. lia.
Qed.
(** The end of [take_read] and [take_callchain]. *)
Lemma range_safe (m : io Z PerfDataFileError unit) start : at_item start ->
  io_wp m (fun res pos' => match res with Ok _ => at_item pos' /\ start <= pos' | Err _ => True end) start ->
  io_wp (_ ← m; pos ← io_get; mret (as_unsigned 16 start, as_unsigned 16 pos))
    (fun res pos' => match res with Ok range => at_item pos' /\ in_event range | Err _ => True end) start.
Proof.
  intros [_ Hs] Hm. destruct end_of_items as [_ Hend]. apply io_wp_bind. eapply wp_mono; [exact Hm|].
  intros [[[]|e] pos'] H; [|exact I]. destruct H as [Hp Hle]. apply (get_wp (fun pos => mret _)). unfold io_wp. cbn.
  split; [done|]. destruct Hp as [_ Hp]. unfold in_event. cbn [fst snd]. rewrite !as_unsigned_id by lia. lia.
Qed.
Lemma take_read_safe has rf : item_step (take_read r data end_pos has rf) in_event.
Proof.
  unfold take_read. destruct has; [|apply item_step_ret; unfold in_event; cbn; lia]. intros pos Hp.
  destruct end_of_items as [_ Hend]. apply get_wp. cbv zeta. apply range_safe; [done|].
  assert (Hn : forall f, 0 <= b2z (ReadFormat_has_flag rf f)) by (intros f; destruct (ReadFormat_has_flag rf f); cbn; lia).
  destruct (negb (Z.land _ _ =? 0)); [exact I|]. destruct (negb (ReadFormat_has_flag rf ReadFormat_Group)).
  - apply take_block_safe; [done | | apply Z.mod_mul; lia].
    pose proof (Hn ReadFormat_TotalTimeEnabled). pose proof (Hn ReadFormat_TotalTimeRunning). pose proof (Hn ReadFormat_Id).
    pose proof (Hn ReadFormat_Lost). lia.
  - apply not_at_end_wp; [done | done |]. intros He. pose proof Hp as [Hm Hb].
    apply lift_wp, read_u64_wp; [lia | lia |]. intros nr Hnr. destruct (_ <=? nr); [exact I|].
    apply take_block_safe; [done | | rewrite Z.mul_comm; apply Z.mod_mul; lia].
    pose proof (Hn ReadFormat_TotalTimeEnabled). pose proof (Hn ReadFormat_TotalTimeRunning). pose proof (Hn ReadFormat_Id).
    pose proof (Hn ReadFormat_Lost). nia.
Qed.
Lemma take_callchain_safe has : item_step (take_callchain r data end_pos has) in_event.
Proof.
  unfold take_callchain. destruct has; [|apply item_step_ret; unfold in_event; cbn; lia]. intros pos Hp.
  destruct end_of_items as [_ Hend]. apply not_at_end_wp; [done | done |]. intros He. apply get_wp, lift_wp.
  pose proof Hp as [Hm Hb]. apply read_u64_wp; [lia | lia |]. intros nr Hnr. destruct (_ <=? nr); [exact I|].
  apply range_safe; [done|]. apply take_block_safe; [done | lia | rewrite Z.mul_comm; apply Z.mod_mul; lia].
Qed.
Lemma take_raw_safe has : item_step (take_raw r data end_pos has) in_event.
Proof.
  unfold take_raw. destruct has; [|apply item_step_ret; unfold in_event; cbn; lia]. intros pos Hp.
  destruct end_of_items as [Em Hend]. apply not_at_end_wp; [done | done |]. intros He. apply get_wp, lift_wp.
  destruct Hp as [Hm Hp]. apply read_u32_wp; [lia | lia |]. intros raw_size Hr.
  apply lift_wp. wp_step. apply lift_wp. wp_step. rewrite (as_unsigned_id 32) by lia.
  destruct (Z.ltb_spec (end_pos - pos - 4) raw_size); [exact I|]. cbv zeta. rewrite !(as_unsigned_id 16) by lia.
  apply lift_wp. wp_step. apply modify_wp. rewrite align_down_eq by lia. unfold io_wp, at_item, in_event. cbn.
  Z.div_mod_to_equations. lia.
Qed.

(** The information has the event's data, and its ranges are in it. *)
Definition info_in_event (desc : PerfEventDesc) (info : PerfSampleEventInfo) : Prop :=
  info.(si_data) = data /\ info.(si_event_desc) = desc /\ in_event info.(si_read_range) /\
  in_event info.(si_callchain_range) /\ in_event info.(si_raw_range).

Lemma sample_items_safe s desc id : s.(session_byte_reader) = r ->
  io_wp (sample_items s desc id data)
    (fun res _ => match res with Ok info => info_in_event desc info | Err _ => True end) 8.
Proof.
  intros Hr. destruct end_of_items as [Em Hend]. unfold sample_items. rewrite Hr. fold end_pos. cbv zeta.
  apply lift_wp. wp_step; [bool_solve|].
  set (has := SampleType_has_flag _).
  apply io_wp_bind.
  assert (Hstart : io_wp (skip_identifier end_pos (has SampleType_Identifier) : io Z PerfDataFileError unit)
    (fun res pos' => match res with Ok _ => at_item pos' | Err _ => True end) 8).
  { unfold skip_identifier. destruct (has _); [|by split; [|lia]]. apply get_wp, lift_wp. wp_step; [bool_solve|].
    unfold io_wp, io_modify, at_item. cbn. repeat split; lia. }
  eapply wp_mono; [exact Hstart|]. intros [[[]|e] pos] Hp; [|exact I]. revert pos Hp.
  cbv beta iota. lazymatch goal with |- forall pos, _ -> wp (?m pos) _ => enough (Hs : item_step m (info_in_event desc)) end.
  { intros pos Hp. eapply wp_mono; [exact (Hs pos Hp)|]. intros [[info|e] pos'] H; [by destruct H | exact I]. }
  eapply item_step_bind; [apply take_u64_safe|]. intros ip _.
  eapply item_step_bind; [apply take_u32s_safe|]. intros [pid tid] _.
  eapply item_step_bind; [apply take_u64_safe|]. intros time _.
  eapply item_step_bind; [apply take_u64_safe|]. intros addr _.
  eapply item_step_bind; [apply skip_id_safe|]. intros [] _.
  eapply item_step_bind; [apply take_u64_safe|]. intros stream_id _.
  eapply item_step_bind; [apply take_u32s_safe|]. intros [cpu cpu_reserved] _.
  eapply item_step_bind; [apply take_u64_safe|]. intros period _.
  eapply item_step_bind; [apply take_read_safe|]. intros read_range Hread.
  eapply item_step_bind; [apply take_callchain_safe|]. intros callchain_range Hchain.
  eapply item_step_bind; [apply take_raw_safe|]. intros raw_range Hraw.
  intros pos Hp. apply get_wp, lift_wp. destruct Hp as [Hm Hp]. wp_step; [bool_solve|]. split; [by split | by split_and!].
Qed.
End Safe.

(** C39. For every event of fewer than 2^16 bytes, whatever its bytes and its attribute are,
    the information of a sample is found or refused without panics; its ranges lie in
    the event, so the read values, the call chain, the raw data and the user data can
    be taken. *)
Theorem sample_info_safe p e :
  bytes_ok e.(pe_data) -> len e.(pe_data) < 2 ^ 16 -> ids_indexed p.(pr_inner).(attrs) ->
  (forall desc format, In desc p.(pr_inner).(attrs).(event_desc_list) -> desc.(pd_format) = Some format ->
     0 <= format.(ef_common_fields_size)) ->
  exists res, get_sample_event_info p e = Ret res /\
    forall info, res = Ok info ->
      is_ret (si_read_format info) && is_ret (si_callchain info) && is_ret (si_raw_data info)
      && is_ret (si_user_data info) = true.
Proof.
  intros Hb Hl Ha Hf.
  set (Q := fun res : result PerfSampleEventInfo PerfDataFileError => forall info, res = Ok info ->
      is_ret (si_read_format info) && is_ret (si_callchain info) && is_ret (si_raw_data info)
      && is_ret (si_user_data info) = true).
  enough (wp (get_sample_event_info p e) Q) as H by (apply wp_inv in H as (res & E & HQ); by exists res).
  unfold get_sample_event_info. destruct (Z.ltb_spec p.(pr_inner).(attrs).(sample_id_offset) 8); [by apply wp_ret|].
  destruct (Z.ltb_spec (len e.(pe_data)) (p.(pr_inner).(attrs).(sample_id_offset) + 8)); [by apply wp_ret|].
  wp_step. apply read_u64_wp; [done | lia | lia |]. intros id _. wp_step.
  apply wp_desc_of_id; [done | | intros _; by apply wp_ret]. intros i desc Hi Hd. wp_step.
  eapply wp_mono; [apply (sample_items_safe _ _ Hb ltac:(lia) _ desc id eq_refl)|].
  intros [[info|err] pos] Hinfo; apply wp_ret; [|done]. intros ? [= <-]. destruct Hinfo as (Hdata & Hdesc & Hr & Hc & Hw).
  unfold si_user_data, si_format, si_read_format, si_callchain, si_raw_data, in_event in *. rewrite Hdata, Hdesc.
  rewrite (slice_ok _ (fst info.(si_read_range))), (slice_ok _ (fst info.(si_callchain_range))),
    (slice_ok _ (fst info.(si_raw_range))) by lia.
  cbn [is_ret andb]. destruct desc.(pd_format) as [format|] eqn:E; [|done].
  pose proof (Hf desc format ltac:(apply list_elem_of_In; by eapply list_elem_of_lookup_2) E).
  rewrite (checked_ok 16 (_ - _)) by lia. cbn [mbind outcome_bind].
  destruct (Z.leb_spec format.(ef_common_fields_size) (snd info.(si_raw_range) - fst info.(si_raw_range))); [|done].
  rewrite checked_ok by lia. cbn [mbind outcome_bind]. by rewrite slice_ok by lia.
Qed.

Lemma sample_info_safe_witness :
  exists res, get_sample_event_info example_reader {| pe_header := PerfEventHeader_new; pe_data := repeat 33 8 ++ 33 :: repeat 0 23 |}
              = Ret res.
Proof.
  destruct (sample_info_safe example_reader {| pe_header := PerfEventHeader_new; pe_data := repeat 33 8 ++ 33 :: repeat 0 23 |})
    as (res & E & _).
  - by apply bytes_ok_decide.
  - reflexivity.
  - intros id i. change (_ !! id) with ((<[33 := 0]> ∅ : gmap Z Z) !! id).
    intros [[_ <-]|[_ H]]%lookup_insert_Some; [by vm_compute | by rewrite lookup_empty in H].
  - intros desc format [<-|[]] [= <-]. by vm_compute.
  - by exists res.
Defined.

(** ** Other events *)

Section Suffix.
Context (r : PerfByteReader).

(** What the kernel writes at the end of an event that is not a sample. *)
Definition suffix_layout (sample_type id : Z) (it : SampleItems) : list bytes :=
  let has := SampleType_has_flag sample_type in
  [opt (has SampleType_Tid) (u32_bytes r it.(it_pid) ++ u32_bytes r it.(it_tid));
   opt (has SampleType_Time) (u64_bytes r it.(it_time));
   opt (has SampleType_Id) (u64_bytes r id);
   opt (has SampleType_StreamId) (u64_bytes r it.(it_stream_id));
   opt (has SampleType_Cpu) (u32_bytes r it.(it_cpu) ++ u32_bytes r it.(it_cpu_reserved));
   opt (has SampleType_Identifier) (u64_bytes r id)].

Section Back.
Context (data : bytes) (Hdata : len data < 2 ^ 16).

Lemma back_ok (pre l : bytes) n : 0 <= n -> len (pre ++ l) < 2 ^ 16 -> len l = n -> back n (len (pre ++ l)) = Ret (Ok (len pre), len pre).
Proof.
  intros Hn Hl E. pose proof (len_nonneg pre). rewrite len_app in *. unfold back.
  rewrite io_get_bind, (io_lift_bind _ (len pre)); [done|].
  replace (len pre + len l - n) with (len pre) by lia. apply checked_ok. lia.
Qed.
Lemma not_at_start_ok (pre : bytes) : 8 <= len pre -> not_at_start (len pre) = Ret (Ok tt, len pre).
Proof. intros. unfold not_at_start. by rewrite io_get_bind, (proj2 (Z.eqb_neq (len pre) 0)) by lia. Qed.
Lemma pre_short (pre l tail : bytes) : data = pre ++ l ++ tail -> len (pre ++ l) < 2 ^ 16.
Proof. intros E. rewrite E, app_assoc, len_app in Hdata. pose proof (len_nonneg tail). lia. Qed.

Lemma back_u64_ok pre has v tail : data = pre ++ opt has (u64_bytes r v) ++ tail -> 8 <= len pre -> 0 <= v < 2 ^ 64 ->
  back_u64 r data has (len (pre ++ opt has (u64_bytes r v))) = Ret (Ok (if has then v else 0), len pre).
Proof.
  intros E Hp Hv. pose proof (pre_short _ _ _ E). unfold back_u64, opt in *. destruct has; [|by rewrite app_nil_r].
  rewrite (io_bind_ok _ _ _ _ _ (back_ok pre _ 8 ltac:(lia) ltac:(done) (len_u64_bytes r v))).
  rewrite (io_lift_bind _ v) by (rewrite E; by apply read_u64_here).
  by rewrite (io_bind_ok _ _ _ _ _ (not_at_start_ok pre Hp)).
Qed.
Lemma back_id_ok pre has v tail : data = pre ++ opt has (u64_bytes r v) ++ tail -> 8 <= len pre ->
  back_id has (len (pre ++ opt has (u64_bytes r v))) = Ret (Ok tt, len pre).
Proof.
  intros E Hp. pose proof (pre_short _ _ _ E). unfold back_id, opt in *. destruct has; [|by rewrite app_nil_r].
  rewrite (io_bind_ok _ _ _ _ _ (back_ok pre _ 8 ltac:(lia) ltac:(done) (len_u64_bytes r v))). by apply not_at_start_ok.
Qed.
Lemma back_tid_ok pre has v w tail : data = pre ++ opt has (u32_bytes r v ++ u32_bytes r w) ++ tail -> 8 <= len pre ->
  0 <= v < 2 ^ 32 -> 0 <= w < 2 ^ 32 ->
  back_tid r data has (len (pre ++ opt has (u32_bytes r v ++ u32_bytes r w))) = Ret (Ok (if has then (v, w) else (0, 0)), len pre).
Proof.
  intros E Hp Hv Hw. pose proof (pre_short _ _ _ E). unfold back_tid, opt in *. destruct has; [|by rewrite app_nil_r].
  rewrite (io_bind_ok _ _ _ _ _ (back_ok pre _ 8 ltac:(lia) ltac:(done) (eq_trans (len_app _ _) (f_equal2 Z.add (len_u32_bytes r v) (len_u32_bytes r w))))).
  rewrite (io_lift_bind _ v) by (rewrite E, <- app_assoc; by apply read_u32_here).
  rewrite (io_lift_bind _ w).
  2: { replace (len pre + 4) with (len (pre ++ u32_bytes r v)) by (rewrite len_app, len_u32_bytes; lia).
       rewrite E, <- (app_assoc (u32_bytes r v)), (app_assoc pre). by apply read_u32_here. }
  by rewrite (io_bind_ok _ _ _ _ _ (not_at_start_ok pre Hp)).
Qed.
Lemma back_cpu_ok pre has v w tail : data = pre ++ opt has (u32_bytes r v ++ u32_bytes r w) ++ tail -> 8 <= len pre ->
  0 <= v < 2 ^ 32 -> 0 <= w < 2 ^ 32 ->
  back_cpu r data has (len (pre ++ opt has (u32_bytes r v ++ u32_bytes r w))) = Ret (Ok (if has then (v, w) else (0, 0)), len pre).
Proof.
  intros E Hp Hv Hw. pose proof (pre_short _ _ _ E) as Hs. unfold back_cpu, opt in *. destruct has; [|by rewrite app_nil_r].
  rewrite (app_assoc pre) in Hs |- *.
  rewrite (io_bind_ok _ _ _ _ _ (back_ok (pre ++ u32_bytes r v) _ 4 ltac:(lia) Hs (len_u32_bytes r w))).
  rewrite (io_lift_bind _ w) by (rewrite E, <- (app_assoc (u32_bytes r v)), (app_assoc pre); by apply read_u32_here).
  rewrite len_app, len_u32_bytes in Hs. assert (Hs' : len (pre ++ u32_bytes r v) < 2 ^ 16) by lia.
  rewrite (io_bind_ok _ _ _ _ _ (back_ok pre _ 4 ltac:(lia) Hs' (len_u32_bytes r v))).
  rewrite (io_lift_bind _ v) by (rewrite E, <- app_assoc; by apply read_u32_here).
  by rewrite (io_bind_ok _ _ _ _ _ (not_at_start_ok pre Hp)).
Qed.
End Back.
End Suffix.
