(* ===== verification/FileBytes.v ===== *)
(** * FileBytes: the bytes of a finished perf.data file

    What [finalize_and_close] leaves on disk: the header, the events, the sections of
    the headers and their data, the sections of the attributes and the ids. *)

From S2P Require Import Prelude Strings Types ByteReader Text Writers TextSpec Session FieldFormat PerfAbi PerfIo EventFormat.
From S2P Require Import FileReader FileWriter.

Section Bytes.
Context `{Target} `{Sys : WriteSystem} `{Takes : !SystemTakes}.

(** ** The layout *)

Definition is_present (header : bytes) : bool := negb (len header =? 0).
Definition section_bytes (offset size : Z) : bytes := struct_bytes KEEP_ENDIAN {| sec_offset := offset; sec_size := size |}.

(** The sections of the headers that are present; [offset] is that of the first one's data. *)
Fixpoint header_table (headers : list bytes) (offset : Z) : bytes :=
  match headers with
  | [] => []
  | header :: headers =>
    if is_present header then section_bytes offset (len header) ++ header_table headers (offset + len header)
    else header_table headers offset
  end.
Definition count_present (headers : list bytes) : Z := len (List.filter is_present headers).
Fixpoint present_flags (i : Z) (headers : list bytes) : Z :=
  match headers with
  | [] => 0
  | header :: headers => (if is_present header then 2 ^ i else 0) + present_flags (i + 1) headers
  end.

Definition desc_ids (descs : list EventDesc) : bytes := concat (map (fun d => ids_bytes d.(ed_sample_ids)) descs).
(** The attributes, each with the section of its ids; [offset] is that of the first one's ids. *)
Fixpoint attr_table (descs : list EventDesc) (offset : Z) : bytes :=
  match descs with
  | [] => []
  | desc :: descs =>
    let size := len desc.(ed_sample_ids) * 8 in
    struct_bytes KEEP_ENDIAN desc.(ed_attr) ++ section_bytes offset size ++ attr_table descs (offset + size)
  end.

(** The offsets of the parts. *)
Definition headers_at (data : bytes) : Z := 104 + len data.
Definition header_data_at (data : bytes) (headers : list bytes) : Z := headers_at data + 16 * count_present headers.
Definition attrs_at (data : bytes) (headers : list bytes) : Z := header_data_at data headers + len (concat headers).
Definition ids_at (data : bytes) (headers : list bytes) (descs : list EventDesc) : Z :=
  attrs_at data headers + 144 * len descs.

Definition attrs_section (data : bytes) (headers : list bytes) (descs : list EventDesc) : PerfFileSection :=
  {| sec_offset := attrs_at data headers; sec_size := 144 * len descs |}.
Definition file_header (data : bytes) (headers : list bytes) (descs : list EventDesc) : PerfFileHeader :=
  final_header (len data) (present_flags 0 headers) (attrs_section data headers descs).
Definition after_header (data : bytes) (headers : list bytes) (descs : list EventDesc) : bytes :=
  data ++ header_table headers (header_data_at data headers) ++ concat headers
  ++ attr_table descs (ids_at data headers descs) ++ desc_ids descs.
Definition file_bytes (data : bytes) (headers : list bytes) (descs : list EventDesc) : bytes :=
  struct_bytes KEEP_ENDIAN (file_header data headers descs) ++ after_header data headers descs.

(** ** Lengths *)

Lemma len_section_bytes o s : len (section_bytes o s) = 16.
Proof. unfold section_bytes. by rewrite len_struct_bytes. Qed.
Lemma len_to_ne_bytes n v : len (to_ne_bytes n v) = Z.of_nat n.
Proof. unfold to_ne_bytes, len. case_match; by rewrite ?length_be_bytes, ?length_le_bytes. Qed.
Lemma len_ids_bytes ids : len (ids_bytes ids) = 8 * len ids.
Proof.
  induction ids as [|id ids IH]; [done|]. change (ids_bytes (id :: ids)) with (to_ne_bytes 8 id ++ ids_bytes ids).
  rewrite len_app, len_to_ne_bytes, IH, len_cons. lia.
Qed.
Lemma count_present_cons h hs : count_present (h :: hs) = b2z (is_present h) + count_present hs.
Proof. unfold count_present. cbn [List.filter]. destruct (is_present h); cbn [b2z]; [by rewrite len_cons | lia]. Qed.
Lemma len_header_table hs o : len (header_table hs o) = 16 * count_present hs.
Proof.
  revert o. induction hs as [|h hs IH]; intros o; [done|]. rewrite count_present_cons. cbn [header_table].
  destruct (is_present h); cbn [b2z]; rewrite ?len_app, ?len_section_bytes, IH; lia.
Qed.
Lemma len_attr_table descs o : len (attr_table descs o) = 144 * len descs.
Proof.
  revert o. induction descs as [|d descs IH]; intros o; [done|]. cbn [attr_table]. cbv zeta.
  rewrite !len_app, len_section_bytes, len_struct_bytes, IH, len_cons. change (size_of PerfEventAttr) with 128. lia.
Qed.
Lemma len_file_bytes data hs descs : len (file_bytes data hs descs) = ids_at data hs descs + len (desc_ids descs).
Proof.
  unfold file_bytes, after_header. rewrite !len_app, len_struct_bytes, len_header_table, len_attr_table.
  unfold ids_at, attrs_at, header_data_at, headers_at. change (size_of PerfFileHeader) with 104. lia.
Qed.

(** ** Writing at the end of a file *)

(** A file whose position is its end. *)
Definition at_end (c : bytes) : OutputFile := {| out_inner := {| contents := c; file_offset := len c |}; out_pos := len c |}.

Lemma File_write_all_takes d f : File_write_all d f = Ret (Ok tt, put_bytes d f).
Proof. unfold File_write_all, put_bytes. rewrite system_takes. by destruct (len d =? 0). Qed.
Lemma write_all_end c d : len (c ++ d) < 2 ^ 64 -> write_all d (at_end c) = Ret (Ok tt, at_end (c ++ d)).
Proof.
  intros Hl. pose proof (len_nonneg c). pose proof (len_nonneg d). rewrite len_app in Hl.
  unfold write_all. rewrite (io_bind_ok _ _ _ tt {| out_inner := {| contents := c ++ d; file_offset := len c + len d |}; out_pos := len c |}).
  - rewrite io_get_bind, (io_lift_bind _ (len c + len d)) by (apply checked_ok; lia).
    unfold io_modify, set_out_pos, at_end. cbn [out_inner]. by rewrite len_app.
  - unfold on_out, io_on, at_end. rewrite File_write_all_takes. unfold put_bytes.
    cbn [out_inner contents file_offset mbind outcome_bind out_pos].
    destruct (Z.eqb_spec (len d) 0) as [E0|E0].
    { destruct d; [by rewrite app_nil_r, Z.add_0_r|rewrite len_cons in E0; pose proof (len_nonneg d); lia]. }
    cbn [contents file_offset].
    assert (E : take (Z.to_nat (len c)) c = c) by (apply take_ge; unfold len; lia).
    rewrite E, Z.sub_diag, (drop_ge c) by (unfold len in *; lia). cbn [Z.to_nat repeat]. by rewrite !app_nil_r.
Qed.
Lemma write_struct_end {T} `{ReprC T} c (t : T) : len c + size_of T < 2 ^ 64 ->
  write_struct t (at_end c) = Ret (Ok tt, at_end (c ++ struct_bytes KEEP_ENDIAN t)).
Proof. intros Hl. apply write_all_end. by rewrite len_app, len_struct_bytes. Qed.
Lemma write_section_end c o s : len c + 16 < 2 ^ 64 ->
  write_struct {| sec_offset := o; sec_size := s |} (at_end c) = Ret (Ok tt, at_end (c ++ section_bytes o s)).
Proof. exact (write_struct_end c {| sec_offset := o; sec_size := s |}). Qed.
Lemma write_attr_end c (a : PerfEventAttr) : len c + 128 < 2 ^ 64 ->
  write_struct a (at_end c) = Ret (Ok tt, at_end (c ++ struct_bytes KEEP_ENDIAN a)).
Proof. exact (write_struct_end c a). Qed.

Lemma lor_pow2 flags i : 0 <= i -> 0 <= flags < 2 ^ i -> Z.lor flags (2 ^ i) = flags + 2 ^ i.
Proof.
  intros Hi Hf. assert (E : Z.land flags (2 ^ i) = 0).
  { apply Z.bits_inj'. intros n Hn. rewrite Z.land_spec, Z.pow2_bits_eqb, Z.bits_0 by lia.
    destruct (Z.eqb_spec i n) as [<-|]; [|by rewrite andb_false_r].
    rewrite <- (Z.mod_small flags (2 ^ i)), Z.mod_pow2_bits_high by lia. done. }
  by rewrite <- Z.lxor_lor, Z.add_nocarry_lxor.
Qed.
Lemma header_flags_ok i hs flags offset : 0 <= offset -> offset + 16 * count_present hs < 2 ^ 64 -> 0 <= i ->
  0 <= flags < 2 ^ i ->
  header_flags i hs flags offset = Ret (flags + present_flags i hs, offset + 16 * count_present hs).
Proof.
  revert i flags offset. induction hs as [|h hs IH]; intros i flags offset Ho Hl Hi Hf; cbn [header_flags present_flags].
  - change (count_present []) with 0. by rewrite !Z.add_0_r.
  - rewrite count_present_cons in *. change (negb (len h =? 0)) with (is_present h). pose proof (len_nonneg (List.filter is_present hs)) as Hn.
    fold (count_present hs) in Hn. destruct (is_present h); cbn [b2z] in *.
    + change PERF_FILE_SECTION_SIZE with 16. rewrite checked_ok by lia. cbn [mbind outcome_bind].
      assert (E : Z.lor flags (Z.shiftl 1 i) = flags + 2 ^ i).
      { rewrite Z.shiftl_1_l. by apply lor_pow2. }
      rewrite E, IH; try lia; [do 2 f_equal; lia|].
      rewrite Z.pow_add_r by lia. lia.
    + rewrite IH; try lia; [do 2 f_equal; lia|]. rewrite Z.pow_add_r by lia. lia.
Qed.

Lemma count_present_nonneg hs : 0 <= count_present hs.
Proof. apply len_nonneg. Qed.
Lemma write_header_sections_ok c hs offset : 0 <= offset -> offset + len (concat hs) < 2 ^ 64 ->
  len c + 16 * count_present hs < 2 ^ 64 ->
  write_header_sections hs offset (at_end c)
  = Ret (Ok (offset + len (concat hs)), at_end (c ++ header_table hs offset)).
Proof.
  revert c offset. induction hs as [|h hs IH]; intros c offset Ho Hl Hc; cbn [write_header_sections header_table concat].
  - by rewrite app_nil_r, Z.add_0_r.
  - cbn [concat] in Hl. rewrite count_present_cons, len_app in *. pose proof (count_present_nonneg hs). pose proof (len_nonneg (concat hs)).
    pose proof (len_nonneg h). change (negb (len h =? 0)) with (is_present h).
    destruct (is_present h) eqn:E; cbn [b2z] in *.
    + rewrite (io_lift_bind _ (offset + len h)) by (apply checked_ok; lia).
      rewrite (io_bind_ok _ _ _ _ _ (write_section_end c _ _ ltac:(lia))).
      rewrite IH by (rewrite ?len_app, ?len_section_bytes; lia). rewrite <- app_assoc. do 3 f_equal. lia.
    + apply negb_false_iff, Z.eqb_eq in E. rewrite IH by lia. do 3 f_equal. lia.
Qed.
(** Headers that are not present are empty. *)
Lemma write_header_data_ok c hs : len c + len (concat hs) < 2 ^ 64 ->
  io_for hs (fun header => io_when (negb (len header =? 0)) (write_all header)) (at_end c)
  = Ret (Ok tt, at_end (c ++ concat hs)).
Proof.
  revert c. induction hs as [|h hs IH]; intros c Hc; cbn [io_for concat]; [by rewrite app_nil_r|].
  cbn [concat] in Hc. rewrite len_app in Hc. pose proof (len_nonneg (concat hs)).
  assert (Ew : io_when (negb (len h =? 0)) (write_all h) (at_end c) = Ret (Ok tt, at_end (c ++ h))).
  { destruct (Z.eqb_spec (len h) 0) as [E|E]; cbn [negb io_when]; [|apply write_all_end; rewrite len_app; lia].
    destruct h; [by rewrite app_nil_r | rewrite len_cons in E; pose proof (len_nonneg h); lia]. }
  rewrite (io_bind_ok _ _ _ _ _ Ew), IH by (rewrite len_app; lia). by rewrite app_assoc.
Qed.
Lemma write_headers_ok w c : len c + 16 * count_present w.(w_headers) + len (concat w.(w_headers)) < 2 ^ 64 ->
  write_headers w (at_end c)
  = Ret (Ok (present_flags 0 w.(w_headers)),
         at_end (c ++ header_table w.(w_headers) (len c + 16 * count_present w.(w_headers)) ++ concat w.(w_headers))).
Proof.
  intros Hl. pose proof (len_nonneg c). pose proof (count_present_nonneg w.(w_headers)). pose proof (len_nonneg (concat w.(w_headers))).
  set (hs := w.(w_headers)) in *. unfold write_headers. fold hs.
  rewrite io_get_bind, (io_lift_bind _ (present_flags 0 hs, len c + 16 * count_present hs))
    by (cbn [pos out_pos at_end]; by rewrite header_flags_ok by lia).
  rewrite (io_bind_ok _ _ _ _ _ (write_header_sections_ok c hs (len c + 16 * count_present hs) ltac:(lia) ltac:(lia) ltac:(lia))).
  rewrite (io_bind_ok _ _ _ _ _ (write_header_data_ok (c ++ header_table hs (len c + 16 * count_present hs)) hs ltac:(rewrite len_app, len_header_table; lia))).
  rewrite io_get_bind, (io_lift_bind _ tt); [by rewrite <- app_assoc|].
  cbn [pos out_pos at_end]. rewrite !len_app, len_header_table, Z.eqb_refl. done.
Qed.

Lemma write_attr_sections_ok c descs offset : 0 <= offset -> offset + len (desc_ids descs) < 2 ^ 64 ->
  len c + 144 * len descs < 2 ^ 64 ->
  write_attr_sections descs offset (at_end c) = Ret (Ok tt, at_end (c ++ attr_table descs offset)).
Proof.
  revert c offset. induction descs as [|d descs IH]; intros c offset Ho Hl Hc; cbn [write_attr_sections attr_table].
  - by rewrite app_nil_r.
  - change (desc_ids (d :: descs)) with (ids_bytes d.(ed_sample_ids) ++ desc_ids descs) in Hl.
    rewrite len_app, len_ids_bytes in Hl. rewrite len_cons in Hc. pose proof (len_nonneg (desc_ids descs)).
    pose proof (len_nonneg d.(ed_sample_ids)). pose proof (len_nonneg descs). pose proof (len_nonneg c). cbv zeta.
    rewrite (io_bind_ok _ _ _ _ _ (write_attr_end c d.(ed_attr) ltac:(lia))).
    rewrite (io_lift_bind _ (len d.(ed_sample_ids) * 8)) by (apply checked_ok; lia).
    rewrite (io_lift_bind _ (offset + len d.(ed_sample_ids) * 8)) by (apply checked_ok; cbn [sec_size]; lia).
    assert (Hc' : len (c ++ struct_bytes KEEP_ENDIAN d.(ed_attr)) = len c + 128) by (by rewrite len_app, len_struct_bytes).
    rewrite (io_bind_ok _ _ _ _ _ (write_section_end (c ++ struct_bytes KEEP_ENDIAN d.(ed_attr)) _ _ ltac:(rewrite Hc'; lia))).
    rewrite IH by (rewrite ?len_app, ?len_section_bytes, ?len_struct_bytes; change (size_of PerfEventAttr) with 128; lia).
    by rewrite <- !app_assoc.
Qed.
Lemma write_ids_ok c descs : len c + len (desc_ids descs) < 2 ^ 64 ->
  io_for descs (fun desc => write_all (ids_bytes desc.(ed_sample_ids))) (at_end c) = Ret (Ok tt, at_end (c ++ desc_ids descs)).
Proof.
  revert c. induction descs as [|d descs IH]; intros c Hc; cbn [io_for]; [by rewrite app_nil_r|].
  change (desc_ids (d :: descs)) with (ids_bytes d.(ed_sample_ids) ++ desc_ids descs) in *. rewrite len_app in Hc.
  pose proof (len_nonneg (desc_ids descs)).
  rewrite (io_bind_ok _ _ _ _ _ (write_all_end c (ids_bytes d.(ed_sample_ids)) ltac:(rewrite len_app; lia))), IH by (rewrite len_app; lia).
  by rewrite app_assoc.
Qed.
Lemma write_attrs_ok w c : len c + 144 * len w.(event_descs) + len (desc_ids w.(event_descs)) < 2 ^ 64 ->
  write_attrs w (at_end c)
  = Ret (Ok {| sec_offset := len c; sec_size := 144 * len w.(event_descs) |},
         at_end (c ++ attr_table w.(event_descs) (len c + 144 * len w.(event_descs)) ++ desc_ids w.(event_descs))).
Proof.
  intros Hl. set (ds := w.(event_descs)) in *. pose proof (len_nonneg c). pose proof (len_nonneg ds). pose proof (len_nonneg (desc_ids ds)).
  unfold write_attrs, pos. fold ds. rewrite io_get_bind. change ENTRY_SIZE with 144. cbn [pos out_pos at_end].
  rewrite (io_lift_bind _ (144 * len ds)) by (apply checked_ok; lia). cbn [sec_offset sec_size].
  rewrite (io_lift_bind _ (len c + 144 * len ds)) by (apply checked_ok; lia).
  rewrite (io_bind_ok _ _ _ _ _ (write_attr_sections_ok c ds (len c + 144 * len ds) ltac:(lia) ltac:(lia) ltac:(lia))).
  rewrite (io_bind_ok _ _ _ _ _ (write_ids_ok (c ++ attr_table ds (len c + 144 * len ds)) ds ltac:(rewrite len_app, len_attr_table; lia))).
  by rewrite <- app_assoc.
Qed.

(** ** The finished file *)

(** A writer with an open file to which [data] was written after the place of the header. *)
Definition writing (p : PerfDataFileWriter) (data : bytes) : Prop :=
  exists hdr, len hdr = 104 /\ p.(pw_file) = Some (at_end (hdr ++ data)).

Lemma with_file_ok {A} (m : io OutputFile ErrorKind A) p f a f' : p.(pw_file) = Some f -> m f = Ret (Ok a, f') ->
  with_file m p = Ret (Ok a, set_pw_file (Some f') p).
Proof. intros E Em. unfold with_file. by rewrite E, Em. Qed.
Lemma with_file_bind {A B} (m : io OutputFile ErrorKind A) (k : A -> io PerfDataFileWriter ErrorKind B) p f a f' :
  p.(pw_file) = Some f -> m f = Ret (Ok a, f') -> (with_file m ≫= k) p = k a (set_pw_file (Some f') p).
Proof. intros E Em. by apply io_bind_ok, (with_file_ok m p f). Qed.

Definition at_start (c : bytes) : OutputFile := {| out_inner := {| contents := c; file_offset := 0 |}; out_pos := 0 |}.
Lemma overwrite_header c hdr (h : PerfFileHeader) : len hdr = 104 ->
  exists f, write_struct h (at_start (hdr ++ c)) = Ret (Ok tt, f) /\
    f.(out_inner).(contents) = struct_bytes KEEP_ENDIAN h ++ c.
Proof.
  intros Hh. pose proof (len_struct_bytes KEEP_ENDIAN h) as Hs. change (size_of PerfFileHeader) with 104 in Hs.
  exists {| out_inner := {| contents := struct_bytes KEEP_ENDIAN h ++ c; file_offset := 104 |}; out_pos := 104 |}.
  split; [|done]. unfold write_struct, write_all.
  rewrite (io_bind_ok _ _ _ tt {| out_inner := {| contents := struct_bytes KEEP_ENDIAN h ++ c; file_offset := 104 |}; out_pos := 0 |}).
  - by rewrite io_get_bind, (io_lift_bind _ 104) by (rewrite Hs; done).
  - unfold on_out, io_on. rewrite File_write_all_takes. unfold put_bytes. rewrite Hs. change (104 =? 0) with false. cbv iota.
    cbn [out_inner contents file_offset mbind outcome_bind out_pos at_start].
    change (Z.to_nat 0) with 0%nat. cbn [take app]. change (len []) with 0. cbn [Z.sub Z.opp Z.add Z.to_nat repeat app].
    rewrite drop_app_length' by (unfold len in Hh; lia). done.
Qed.

Lemma finalize_ok p data w : writing p data ->
  (w ← synthesize_tracing_data p.(pw_inner); synthesize_event_desc w) = Ret w ->
  len (file_bytes data w.(w_headers) w.(event_descs)) < 2 ^ 63 ->
  exists p', finalize_and_close p = Ret (Ok tt, p') /\
    p'.(pw_closed) = Some (file_bytes data w.(w_headers) w.(event_descs)) /\ p'.(pw_file) = None.
Proof.
  intros (hdr & Hh & Hf) Hs Hl. set (hs := w.(w_headers)) in *. set (ds := w.(event_descs)) in *.
  rewrite len_file_bytes in Hl. unfold ids_at, attrs_at, header_data_at, headers_at in Hl.
  pose proof (len_nonneg data). pose proof (count_present_nonneg hs). pose proof (len_nonneg (concat hs)).
  pose proof (len_nonneg ds). pose proof (len_nonneg (desc_ids ds)).
  destruct (synthesize_tracing_data p.(pw_inner)) as [w1|] eqn:E1; [cbn [mbind outcome_bind] in Hs|done].
  unfold finalize_and_close.
  erewrite with_file_bind; [|exact Hf|reflexivity].
  rewrite (io_bind_ok _ _ _ tt (set_pw_inner w1 (set_pw_file (Some (at_end (hdr ++ data))) p)))
    by (unfold on_writer; cbn [pw_inner set_pw_file]; by rewrite E1).
  rewrite (io_bind_ok _ _ _ tt (set_pw_inner w (set_pw_file (Some (at_end (hdr ++ data))) p)))
    by (unfold on_writer; cbn [pw_inner set_pw_inner]; by rewrite Hs).
  erewrite (with_file_bind _ _ _ _ (104 + len data)); [|reflexivity|rewrite io_get_bind; cbn [pos out_pos at_end]; by rewrite len_app, Hh].
  change DATA_START_POS with 104. rewrite (io_lift_bind _ (len data)) by (replace (104 + len data - 104) with (len data) by lia; apply checked_ok; lia).
  rewrite io_get_bind. cbn [pw_inner set_pw_inner set_pw_file].
  erewrite with_file_bind; [|reflexivity|apply write_headers_ok; fold hs; rewrite len_app; lia].
  fold hs. set (c1 := (hdr ++ data) ++ _).
  assert (Hc1 : len c1 = 104 + len data + 16 * count_present hs + len (concat hs))
    by (unfold c1; rewrite !len_app, len_header_table; lia).
  erewrite with_file_bind; [|reflexivity|apply write_attrs_ok; fold ds; lia]. fold ds.
  set (c2 := c1 ++ _).
  erewrite (with_file_bind (out_seek_absolute 0) _ _ (at_end c2) 0 (at_start c2)); [|reflexivity|reflexivity].
  assert (E2 : c2 = hdr ++ after_header data hs ds).
  { unfold c2, c1, after_header, ids_at, attrs_at, header_data_at, headers_at. rewrite !len_app, Hh, len_header_table, <- !app_assoc.
    do 5 f_equal. f_equal. lia. }
  rewrite E2.
  destruct (overwrite_header (after_header data hs ds) hdr
    (final_header (len data) (present_flags 0 hs) {| sec_offset := len c1; sec_size := 144 * len ds |}) Hh) as (f & Ew & Ef).
  erewrite with_file_bind; [|reflexivity|exact Ew].
  erewrite with_file_bind; [|reflexivity|reflexivity].
  eexists. split; [reflexivity|]. split; [|done]. cbn [pw_closed close_no_finalize pw_file set_pw_file out_inner]. rewrite Ef.
  unfold file_bytes, file_header, attrs_section, attrs_at, header_data_at, headers_at. by rewrite Hc1.
Qed.
End Bytes.
