(* ===== verification/FileOpen.v ===== *)
(** * FileOpen: opening a finished file

    The reader finds the sections where the writer put them: opening reads every
    attribute with its ids and every header with its parser. *)

From stdpp Require Import gmap.
From S2P Require Import Prelude Strings Types ByteReader Text Writers TextSpec Session FieldFormat PerfAbi PerfIo EventFormat.
From S2P Require Import FieldLine EventFormatProps SampleInfo SampleProps FileReader FileWriter FileBytes.

(** ** A file that is being read *)

(** A file at [pos] whose reader takes [n] for its length. *)
Definition in_file_of (n : Z) (c : bytes) (pos : Z) : InputFile :=
  {| in_inner := {| contents := c; file_offset := pos |}; inner_pos := pos; inner_len := n |}.
Notation "'in_file' c" := (in_file_of (len c) c) (at level 10, c at level 9).

Section Steps.
Context (c : bytes) (Hc : len c < 2 ^ 63).

Lemma seek_ok pos new_pos : new_pos <= len c -> seek_absolute new_pos (in_file c pos) = Ret (Ok new_pos, in_file c new_pos).
Proof.
  intros Hn. unfold seek_absolute. rewrite io_get_bind. cbn [inner_pos in_file_of inner_len].
  destruct (Z.eqb_spec new_pos pos) as [->|]; [done|]. by rewrite (proj2 (Z.ltb_ge (len c) new_pos)) by lia.
Qed.
Lemma read_exact_ok il pre l rest : c = pre ++ l ++ rest ->
  read_exact (len l) (in_file_of il c (len pre)) = Ret (Ok l, in_file_of il c (len (pre ++ l))).
Proof.
  intros E. pose proof (len_nonneg pre). pose proof (len_nonneg l). pose proof (len_nonneg rest).
  assert (Hl : len c = len pre + len l + len rest) by (rewrite E, !len_app; lia).
  unfold read_exact.
  rewrite (io_bind_ok _ _ _ l {| in_inner := {| contents := c; file_offset := len (pre ++ l) |}; inner_pos := len pre; inner_len := il |}).
  - rewrite io_get_bind, (io_lift_bind _ (len (pre ++ l))); [done|]. cbn [inner_pos]. rewrite len_app.
    apply checked_ok. lia.
  - unfold on_inner, io_on, File_read_exact. cbn [in_inner in_file_of contents file_offset].
    rewrite (proj2 (Z.leb_le _ _)) by lia. cbn [mbind outcome_bind inner_pos inner_len]. rewrite len_app.
    replace (sub c _ _) with l; [done|]. by rewrite E, sub_middle.
Qed.
Lemma read_exact_at il n pre l rest : c = pre ++ l ++ rest -> n = len l ->
  read_exact n (in_file_of il c (len pre)) = Ret (Ok l, in_file_of il c (len pre + n)).
Proof. intros E ->. by rewrite (read_exact_ok il pre l rest E), len_app. Qed.
Lemma read_append_at v n pre l rest : c = pre ++ l ++ rest -> n = len l -> len v + n < 2 ^ 64 ->
  read_append_vec v n (in_file c (len pre)) = Ret (Ok (v ++ l), in_file c (len pre + n)).
Proof.
  intros E -> Hv. pose proof (len_nonneg v). pose proof (len_nonneg l). unfold read_append_vec.
  rewrite (io_lift_bind _ (len v + len l)) by (apply checked_ok; lia).
  rewrite (io_bind_ok _ _ _ _ _ (read_exact_at (len c) (len v + len l - len v) pre l rest E ltac:(lia))).
  unfold mret, io_ret. do 3 f_equal. lia.
Qed.
Lemma read_struct_at `{Target} il {T} `{ReprC T} (t : T) pre rest : struct_ok t -> c = pre ++ struct_bytes KEEP_ENDIAN t ++ rest ->
  read_struct T (in_file_of il c (len pre)) = Ret (Ok t, in_file_of il c (len pre + size_of T)).
Proof.
  intros Ht E. unfold read_struct.
  rewrite (io_bind_ok _ _ _ _ _ (read_exact_at il (size_of T) pre _ rest E (eq_sym (len_struct_bytes _ t)))).
  pose proof (struct_round_trip KEEP_ENDIAN t [] Ht) as R. rewrite app_nil_r in R. by rewrite R.
Qed.
End Steps.

Section Reading.
Context {A B : Type}.

(** Parts of the state of a reader. *)
Lemma on_file_bind (m : io InputFile ErrorKind A) (k : A -> io Reading ErrorKind B) d r f a f' :
  m f = Ret (Ok a, f') ->
  (on_file m ≫= k) {| rd := d; cur := r; file := f |} = k a {| rd := d; cur := r; file := f' |}.
Proof. intros E. apply io_bind_ok. unfold on_file, io_on. cbn [file]. by rewrite E. Qed.
Lemma upd_bind g (k : unit -> io Reading ErrorKind B) d r f d' : g d = Ret d' ->
  (upd g ≫= k) {| rd := d; cur := r; file := f |} = k tt {| rd := d'; cur := r; file := f |}.
Proof. intros E. apply io_bind_ok. unfold upd, on_rd, io_on. cbn [rd]. by rewrite E. Qed.
Lemma set_cur_bind c' (k : unit -> io Reading ErrorKind B) d r f :
  (set_cur c' ≫= k) {| rd := d; cur := r; file := f |} = k tt {| rd := d; cur := c'; file := f |}.
Proof. done. Qed.
End Reading.

(** ** Attributes *)

Section Attrs.
Context `{Target}.

(** What all the attributes of a file agree on. *)
Definition Offsets : Type := Z * Z * Z * Z.
Definition has_offsets (o : Offsets) (a : ReaderAttrs) : Prop :=
  (a.(sample_id_offset), a.(non_sample_id_offset), a.(sample_time_offset), a.(non_sample_time_offset)) = o.
Definition unset_offsets : Offsets := (OFFSET_UNSET, OFFSET_UNSET, OFFSET_UNSET, OFFSET_UNSET).
(** A description is added at the end, and its ids lead to it. *)
Definition add_desc (o : Offsets) (desc : PerfEventDesc) (a : ReaderAttrs) : ReaderAttrs :=
  let '(s_id, ns_id, s_time, ns_time) := o in
  {| event_desc_list := a.(event_desc_list) ++ [desc];
     event_desc_id_to_index :=
       fold_left (fun m id => <[id := len a.(event_desc_list)]> m) desc.(pd_ids) a.(event_desc_id_to_index);
     format_by_id := a.(format_by_id); sample_id_offset := s_id; non_sample_id_offset := ns_id;
     sample_time_offset := s_time; non_sample_time_offset := ns_time |}.
Definition desc_format (a : ReaderAttrs) (attr : PerfEventAttr) : option PerfEventFormat :=
  if negb (attr.(attr_type) =? AttrType_Tracepoint) then None else a.(format_by_id) !! as_unsigned 32 attr.(attr_config).

Lemma to_ne_keep n v : to_ne_bytes n v = to_source_bytes KEEP_ENDIAN n v.
Proof. done. Qed.
Lemma read_ids_ok ids rest : Forall (fun id => 0 <= id < 2 ^ 64) ids ->
  read_ids KEEP_ENDIAN (length ids) (ids_bytes ids ++ rest) = Ret ids.
Proof.
  induction 1 as [|id ids Hid _ IH]; [done|]. change (ids_bytes (id :: ids)) with (to_ne_bytes 8 id ++ ids_bytes ids).
  rewrite <- app_assoc. cbn [length read_ids]. rewrite to_ne_keep.
  rewrite take_app_length', drop_app_length' by (by rewrite length_to_source_bytes).
  pose proof (read_uint_app KEEP_ENDIAN 8 id [] Hid) as R. rewrite app_nil_r in R. unfold read_u64. change (Z.of_nat 8) with 8 in R.
  rewrite R. cbn [mbind outcome_bind]. by rewrite IH.
Qed.
Lemma merge_offset_ok get set new a : (get a = new /\ set new a = a \/ get a = OFFSET_UNSET /\ new <> OFFSET_UNSET) ->
  merge_offset get set new a = Ret (Ok tt, set new a).
Proof.
  intros [[E1 E2]|[E1 E2]]; unfold merge_offset; rewrite io_get_bind.
  - rewrite E1, Z.eqb_refl, E2. done.
  - rewrite E1, (proj2 (Z.eqb_neq _ _) E2). done.
Qed.
Lemma attr_offsets_set attr s_id ns_id s_time ns_time : attr_offsets attr = Ret (s_id, ns_id, s_time, ns_time) ->
  s_id <> OFFSET_UNSET /\ ns_id <> OFFSET_UNSET /\ s_time <> OFFSET_UNSET /\ ns_time <> OFFSET_UNSET.
Proof.
  rewrite attr_offsets_eq. intros [= <- <- <- <-].
  unfold id_offset, id_offset_back, time_offset, time_offset_back, OFFSET_UNSET, OFFSET_NOT_PRESENT, b2z, SampleProps.flag.
  repeat split; repeat case_match; lia.
Qed.

Lemma add_attr_ok attr name ids a o : struct_ok attr -> Forall (fun id => 0 <= id < 2 ^ 64) ids ->
  attr_offsets attr = Ret o -> has_offsets o a \/ has_offsets unset_offsets a ->
  add_attr KEEP_ENDIAN (struct_bytes KEEP_ENDIAN attr) name (ids_bytes ids) a
  = Ret (true, add_desc o (PerfEventDesc_new (set_attr_size 128 attr) (utf8 name) (desc_format a attr) ids) a).
Proof.
  intros Hattr Hids Ho Ha. destruct o as [[[s_id ns_id] s_time] ns_time].
  destruct (attr_offsets_set _ _ _ _ _ Ho) as (N1 & N2 & N3 & N4).
  unfold add_attr.
  assert (E1 : attr_of_bytes KEEP_ENDIAN (struct_bytes KEEP_ENDIAN attr) = Ret (set_attr_size 128 attr)).
  { unfold attr_of_bytes. rewrite len_struct_bytes, Z.leb_refl, Z.sub_diag. cbn [rassert mbind outcome_bind Z.to_nat repeat].
    rewrite struct_round_trip by done. unfold byte_swap_needed. cbn [source_big_endian KEEP_ENDIAN PerfByteReader_new].
    by destruct HOST_IS_BIG_ENDIAN. }
  assert (E : add_attr_body KEEP_ENDIAN (struct_bytes KEEP_ENDIAN attr) name (ids_bytes ids) a
    = Ret (Ok tt, add_desc (s_id, ns_id, s_time, ns_time)
        (PerfEventDesc_new (set_attr_size 128 attr) (utf8 name) (desc_format a attr) ids) a)).
  2: { rewrite E. done. }
  unfold add_attr_body. rewrite (io_lift_bind _ _ _ _ E1), (io_lift_bind _ (s_id, ns_id, s_time, ns_time)) by exact Ho.
  assert (Hm : forall get set new a, (get a = new /\ set new a = a \/ get a = OFFSET_UNSET /\ new <> OFFSET_UNSET) ->
    forall k : unit -> io ReaderAttrs unit unit, (merge_offset get set new ≫= k) a = k tt (set new a)).
  { intros get set new a' H' k. by apply io_bind_ok, merge_offset_ok. }
  destruct a as [l m f o1 o2 o3 o4]. unfold has_offsets, unset_offsets in Ha. cbn [sample_id_offset non_sample_id_offset
    sample_time_offset non_sample_time_offset] in Ha.
  rewrite !Hm; cbn [sample_id_offset non_sample_id_offset sample_time_offset non_sample_time_offset set_sample_id_offset
    set_non_sample_id_offset set_sample_time_offset set_non_sample_time_offset event_desc_list event_desc_id_to_index
    format_by_id]; try (destruct Ha as [[= <- <- <- <-]|[= -> -> -> ->]]; [by left | by right]).
  assert (El : Z.to_nat (len (ids_bytes ids) / 8) = length ids).
  { rewrite len_ids_bytes, Z.mul_comm, Z.div_mul by lia. unfold len. by rewrite Nat2Z.id. }
  rewrite (io_lift_bind _ ids) by (rewrite El; pose proof (read_ids_ok ids [] Hids) as R; by rewrite app_nil_r in R).
  rewrite io_get_bind. unfold io_modify, desc_format. done.
Qed.

(** The buffer for events, used for the ids meanwhile. *)
Lemma set_buffer_0 v v' bs d : d.(buffers) = v :: bs -> set_buffer 0 v' d = Ret (set_buffers (v' :: bs) d).
Proof. intros E. unfold set_buffer. by rewrite E. Qed.
Lemma buffer_at_0 v bs d : d.(buffers) = v :: bs -> buffer_at 0 d = Ret v.
Proof. intros E. unfold buffer_at. by rewrite E. Qed.
Lemma reserve_capacity n v : v.(capacity) <= (reserve n v).(capacity).
Proof. unfold reserve. cbn [capacity]. destruct (_ <? n); lia. Qed.

Lemma append_to_buffer_ok {B} c (Hc : len c < 2 ^ 63) (k : unit -> io Reading ErrorKind B) d r v bs pre l rest n :
  d.(buffers) = v :: bs -> c = pre ++ l ++ rest -> n = len l -> len v.(vec) + n < 2 ^ 64 ->
  (append_to_buffer 0 n ≫= k) {| rd := d; cur := r; file := in_file c (len pre) |}
  = k tt {| rd := set_buffers ({| vec := v.(vec) ++ l; capacity := (reserve n v).(capacity) |} :: bs) d; cur := r;
            file := in_file c (len pre + n) |}.
Proof.
  intros Eb E Hn Hv. apply io_bind_ok. unfold append_to_buffer. rewrite io_get_bind. cbn [rd].
  rewrite (io_lift_bind _ _ _ _ (buffer_at_0 _ _ _ Eb)). cbv zeta.
  erewrite upd_bind by exact (set_buffer_0 _ _ _ _ Eb).
  erewrite on_file_bind by exact (read_append_at c Hc v.(vec) n pre l rest E Hn Hv).
  unfold upd, on_rd, io_on. cbn [rd]. erewrite set_buffer_0 by reflexivity. done.
Qed.
Lemma assign_buffer_ok {B} c (Hc : len c < 2 ^ 63) (k : unit -> io Reading ErrorKind B) d r v bs pre l rest n :
  d.(buffers) = v :: bs -> c = pre ++ l ++ rest -> n = len l ->
  exists cap, v.(capacity) <= cap /\
  (assign_buffer 0 n ≫= k) {| rd := d; cur := r; file := in_file c (len pre) |}
  = k tt {| rd := set_buffers ({| vec := l; capacity := cap |} :: bs) d; cur := r; file := in_file c (len pre + n) |}.
Proof.
  intros Eb E Hn. exists (reserve n (vec_clear v)).(capacity). split; [apply (reserve_capacity n (vec_clear v))|].
  apply io_bind_ok. unfold assign_buffer. rewrite io_get_bind. cbn [rd].
  rewrite (io_lift_bind _ _ _ _ (buffer_at_0 _ _ _ Eb)). erewrite upd_bind by exact (set_buffer_0 _ _ _ _ Eb).
  assert (Hn64 : len (@nil Z) + n < 2 ^ 64).
  { rewrite Hn. change (len []) with 0. pose proof (len_nonneg pre). pose proof (len_nonneg rest).
    rewrite E, !len_app in Hc. lia. }
  pose proof (append_to_buffer_ok c Hc (fun u => mret u) (set_buffers (vec_clear v :: bs) d) r (vec_clear v) bs pre l rest n
    eq_refl E Hn Hn64) as P.
  assert (M : forall s, (append_to_buffer 0 n ≫= fun u => mret u) s = append_to_buffer 0 n s).
  { intros s. unfold mbind, io_bind. destruct (append_to_buffer 0 n s) as [[[[]|e] s']|]; done. }
  rewrite M in P. rewrite P. done.
Qed.

(** ** The attributes of a file *)

Definition desc_ok (o : Offsets) (d : EventDesc) : Prop :=
  struct_ok d.(ed_attr) /\ Forall (fun id => 0 <= id < 2 ^ 64) d.(ed_sample_ids) /\ attr_offsets d.(ed_attr) = Ret o /\
  0 < len d.(ed_sample_ids) < 2 ^ 28.
Definition attr_desc (a : ReaderAttrs) (name : bytes) (d : EventDesc) : PerfEventDesc :=
  PerfEventDesc_new (set_attr_size 128 d.(ed_attr)) (utf8 name) (desc_format a d.(ed_attr)) d.(ed_sample_ids).
Definition load_descs (o : Offsets) (descs : list EventDesc) (a : ReaderAttrs) : ReaderAttrs :=
  fold_left (fun a d => add_desc o (attr_desc a [] d) a) descs a.

Lemma has_offsets_add o desc a : has_offsets o (add_desc o desc a).
Proof. by destruct o as [[[? ?] ?] ?]. Qed.
Lemma len_desc_ids_cons d descs : len (desc_ids (d :: descs)) = 8 * len d.(ed_sample_ids) + len (desc_ids descs).
Proof. change (desc_ids (d :: descs)) with (ids_bytes d.(ed_sample_ids) ++ desc_ids descs). by rewrite len_app, len_ids_bytes. Qed.
Lemma section_ok o s : 0 <= o < 2 ^ 64 -> 0 <= s < 2 ^ 64 -> struct_ok {| sec_offset := o; sec_size := s |}.
Proof. intros Ho Hs. repeat constructor; cbn; lia. Qed.

Section Loop.
Context (c : bytes) (Hc : len c < 2 ^ 63) (o : Offsets).

Lemma load_attrs_loop_ok descs fuel d r v bs pos pre pre2 rest rest2 : (length descs < fuel)%nat ->
  Forall (desc_ok o) descs -> d.(buffers) = v :: bs -> d.(session_info).(session_byte_reader) = KEEP_ENDIAN ->
  has_offsets o d.(attrs) \/ has_offsets unset_offsets d.(attrs) ->
  c = pre ++ attr_table descs (len pre2) ++ rest -> c = pre2 ++ desc_ids descs ++ rest2 ->
  exists v' pos', v.(capacity) <= v'.(capacity) /\
    load_attrs_loop fuel 128 (len pre) (len pre + 144 * len descs) {| rd := d; cur := r; file := in_file c pos |}
    = Ret (Ok tt, {| rd := set_buffers (v' :: bs) (set_attrs (load_descs o descs d.(attrs)) d); cur := r;
                     file := in_file c pos' |}).
Proof.
  revert fuel d v pos pre pre2. induction descs as [|desc descs IH]; intros fuel d v pos pre pre2 Hf Hok Eb Er Ha E1 E2.
  { destruct fuel as [|fuel]; [cbn in Hf; lia|]. exists v, pos. split; [lia|]. cbn [load_attrs_loop].
    change (len []) with 0. rewrite Z.mul_0_r, Z.add_0_r, Z.ltb_irrefl. cbn [negb]. unfold mret, io_ret. do 4 f_equal.
    destruct d. cbn in Eb. by subst. }
  destruct fuel as [|fuel]; [cbn in Hf; lia|]. apply Forall_cons_iff in Hok as [(Hattr & Hids & Ho & Hn) Hok].
  cbn [attr_table] in E1. cbv zeta in E1. rewrite <- !app_assoc in E1.
  change (desc_ids (desc :: descs)) with (ids_bytes desc.(ed_sample_ids) ++ desc_ids descs) in E2. rewrite <- app_assoc in E2.
  set (ab := struct_bytes KEEP_ENDIAN desc.(ed_attr)) in *. set (size := len desc.(ed_sample_ids) * 8) in *.
  set (sb := section_bytes (len pre2) size) in *. set (ib := ids_bytes desc.(ed_sample_ids)) in *.
  assert (Lab : len ab = 128) by (unfold ab; by rewrite len_struct_bytes).
  assert (Lsb : len sb = 16) by apply len_section_bytes.
  assert (Lib : size = len ib) by (unfold ib; rewrite len_ids_bytes; lia).
  pose proof (len_nonneg pre). pose proof (len_nonneg pre2). pose proof (len_nonneg descs).
  set (tail1 := attr_table descs (len pre2 + size) ++ rest) in *. set (tail2 := desc_ids descs ++ rest2) in *.
  pose proof (len_nonneg tail1). pose proof (len_nonneg tail2).
  assert (L1 : len c = len pre + 128 + 16 + len tail1) by (rewrite E1, !len_app; lia).
  assert (L2 : len c = len pre2 + len ib + len tail2) by (rewrite E2, !len_app; lia).
  cbn [load_attrs_loop]. rewrite len_cons. rewrite (proj2 (Z.ltb_lt (len pre) _)) by lia. cbn [negb].
  erewrite on_file_bind by (apply seek_ok; lia).
  change (Z.min 128 (size_of PerfEventAttr)) with 128.
  erewrite on_file_bind by (exact (read_exact_at c Hc _ 128 pre ab _ E1 (eq_sym Lab))).
  rewrite (io_lift_bind _ (len pre + 128)) by (apply checked_ok; lia).
  erewrite on_file_bind by (apply seek_ok; lia).
  assert (E1' : c = (pre ++ ab) ++ sb ++ tail1) by (by rewrite <- app_assoc).
  erewrite on_file_bind.
  2: { replace (len pre + 128) with (len (pre ++ ab)) by (rewrite len_app; lia).
       refine (read_struct_at c Hc _ {| sec_offset := len pre2; sec_size := size |} (pre ++ ab) tail1 _ E1').
       apply section_ok; lia. }
  change PERF_FILE_SECTION_SIZE with 16. rewrite (io_lift_bind _ (len pre + 128 + 16)) by (apply checked_ok; lia).
  rewrite io_get_bind. cbn [file sec_offset sec_size].
  assert (Hv : section_valid (in_file c (len (pre ++ ab) + size_of PerfFileSection)) {| sec_offset := len pre2; sec_size := size |} = true).
  { unfold section_valid. cbn [sec_offset sec_size inner_len in_file_of]. bool_solve. }
  rewrite Hv, (proj2 (Z.leb_gt 0x80000000 size)) by lia.
  replace (Z.land size 7) with 0 by (change 7 with (Z.ones 3); rewrite Z.land_ones by lia; unfold size; by rewrite Z.mod_mul by lia).
  cbn [negb orb Z.eqb].
  erewrite on_file_bind by (apply seek_ok; lia).
  edestruct (assign_buffer_ok (B:=unit) c Hc) as (cap & Hcap & ->); [exact Eb | exact E2 | exact Lib |].
  rewrite io_get_bind. cbn [rd]. erewrite (io_lift_bind _) by (by eapply buffer_at_0).
  erewrite upd_bind.
  2: { unfold on_attrs. change (attrs (set_buffers _ d)) with d.(attrs). change (session_info (set_buffers _ d)) with d.(session_info).
       cbn [vec]. rewrite Er. unfold ib. rewrite (add_attr_ok _ _ _ _ o Hattr Hids Ho Ha). reflexivity. }
  set (d1 := set_attrs _ _).
  destruct (IH fuel d1 {| vec := ib; capacity := cap |} (len pre2 + size) (pre ++ ab ++ sb) (pre2 ++ ib)) as (v' & pos' & Hv' & E');
    try done.
  - cbn in Hf. lia.
  - left. apply has_offsets_add.
  - rewrite len_app, <- Lib, <- !app_assoc. exact E1.
  - by rewrite <- app_assoc.
  - exists v', pos'. cbn [capacity] in Hv'. split; [lia|].
    replace (len pre + 144 * (1 + len descs)) with (len (pre ++ ab ++ sb) + 144 * len descs) by (rewrite !len_app; lia).
    replace (len pre + 128 + 16) with (len (pre ++ ab ++ sb)) by (rewrite !len_app; lia).
    exact E'.
Qed.
End Loop.

(** ** The headers of a file *)

(** The headers from [i] on are set and parsed. *)
Fixpoint parse_headers (i : Z) (hs : list bytes) (d : DataFileReader) : outcome DataFileReader :=
  match hs with
  | [] => Ret d
  | h :: hs =>
    d ← (if is_present h then d ← set_header i h d; parse_header i d else Ret d);
    parse_headers (i + 1) hs d
  end.
Lemma set_header_twice i h d d1 : set_header i h d = Ret d1 ->
  exists d0, set_header i [] d = Ret d0 /\ set_header i h d0 = Ret d1.
Proof.
  unfold set_header, store. destruct (_ && _) eqn:E; [|done]. cbn [mbind outcome_bind]. intros [= <-].
  eexists. split; [reflexivity|]. cbn [headers set_headers].
  replace (len (<[Z.to_nat i:=[]]> d.(headers))) with (len d.(headers)) by (unfold len; by rewrite length_insert).
  rewrite E. cbn [mbind outcome_bind]. by rewrite list_insert_insert_eq.
Qed.
Lemma testbit_land flags i : 0 <= i -> negb (Z.land flags (Z.shiftl 1 i) =? 0) = Z.testbit flags i.
Proof.
  intros Hi. rewrite Z.shiftl_1_l. destruct (Z.eqb_spec (Z.land flags (2 ^ i)) 0) as [E|E]; cbn [negb].
  - apply (f_equal (fun v => Z.testbit v i)) in E. rewrite Z.land_spec, Z.pow2_bits_true, andb_true_r, Z.bits_0 in E by lia. done.
  - destruct (Z.testbit flags i) eqn:Eb; [done|]. exfalso. apply E, Z.bits_inj'. intros n Hn.
    rewrite Z.land_spec, Z.pow2_bits_eqb, Z.bits_0 by lia. destruct (Z.eqb_spec i n) as [<-|]; [by rewrite Eb | apply andb_false_r].
Qed.
Lemma testbit_add_high a b n : 0 <= n -> 0 <= a < 2 ^ n -> Z.testbit (a + 2 ^ (n + 1) * b) n = false.
Proof.
  intros Hn Ha. rewrite <- (Z.mod_pow2_bits_low _ (n + 1)) by lia. rewrite Z.mul_comm, Z.mod_add by (apply Z.pow_nonzero; lia).
  rewrite Z.mod_pow2_bits_low by lia. rewrite <- (Z.mod_small a (2 ^ n)), Z.mod_pow2_bits_high by lia. done.
Qed.
(** The flag of a header says that it is present. *)
Lemma present_flags_multiple i hs : 0 <= i -> exists q, present_flags i hs = 2 ^ i * q /\ 0 <= q.
Proof.
  intros Hi. revert i Hi. induction hs as [|h hs IH]; intros i Hi; cbn [present_flags]; [exists 0; lia|].
  destruct (IH (i + 1) ltac:(lia)) as (q & -> & Hq). rewrite Z.pow_add_r by lia.
  exists ((if is_present h then 1 else 0) + 2 * q). destruct (is_present h); lia.
Qed.
Lemma testbit_present i hs k h : 0 <= i -> hs !! k = Some h -> Z.testbit (present_flags i hs) (i + Z.of_nat k) = is_present h.
Proof.
  intros Hi. revert i k Hi. induction hs as [|h' hs IH]; intros i k Hi E; [done|]. cbn [present_flags].
  destruct (present_flags_multiple (i + 1) hs ltac:(lia)) as (q & Eq & Hq). destruct k as [|k]; cbn in E.
  - injection E as ->. rewrite Eq, Z.add_0_r. destruct (is_present h).
    + rewrite <- (Z.mod_pow2_bits_low _ (i + 1)), (Z.mul_comm _ q), Z.mod_add by (lia || apply Z.pow_nonzero; lia).
      rewrite Z.mod_pow2_bits_low by lia. by apply Z.pow2_bits_true.
    + apply (testbit_add_high 0 q i); [lia|]. split; [lia|]. by apply Z.pow_pos_nonneg.
  - rewrite <- (IH (i + 1) k ltac:(lia) E), Eq. replace (i + Z.of_nat (S k)) with (i + 1 + Z.of_nat k) by lia.
    destruct (is_present h'); [|done]. rewrite Z.pow_add_r by lia.
    replace (2 ^ i + 2 ^ i * 2 ^ 1 * q) with (2 ^ i * (1 + 2 * q)) by lia. replace (2 ^ i * 2 ^ 1 * q) with (2 ^ i * (2 * q)) by lia.
    rewrite <- !(Z.mul_comm _ (2 ^ i)), !Z.mul_pow2_bits by lia.
    replace (i + 1 + Z.of_nat k - i) with (Z.succ (Z.of_nat k)) by lia.
    by rewrite (Z.add_comm 1), Z.testbit_odd_succ, Z.testbit_even_succ by lia.
Qed.

Lemma load_headers_loop_ok c (Hc : len c < 2 ^ 63) hs i flags d d' r pos pre pre2 rest rest2 : 0 <= i ->
  (forall k h, hs !! k = Some h -> Z.testbit flags (i + Z.of_nat k) = is_present h) ->
  Forall (fun h => len h < 0x80000000) hs ->
  c = pre ++ header_table hs (len pre2) ++ rest -> c = pre2 ++ concat hs ++ rest2 ->
  parse_headers i hs d = Ret d' ->
  exists pos', load_headers_loop (length hs) i flags (len pre) {| rd := d; cur := r; file := in_file c pos |}
               = Ret (Ok tt, {| rd := d'; cur := r; file := in_file c pos' |}).
Proof.
  revert i d pos pre pre2. induction hs as [|h hs IH]; intros i d pos pre pre2 Hi Hf Hs E1 E2 Hp.
  { cbn in Hp. injection Hp as <-. by exists pos. }
  apply Forall_cons_iff in Hs as [Hh Hs]. cbn [load_headers_loop length header_table concat parse_headers] in *.
  rewrite <- app_assoc in E2.
  assert (Hf' : forall k h, hs !! k = Some h -> Z.testbit flags (i + 1 + Z.of_nat k) = is_present h).
  { intros k h' E. rewrite <- (Hf (Datatypes.S k) h' E). f_equal. lia. }
  assert (Hi0 : Z.testbit flags i = is_present h) by (rewrite <- (Hf 0%nat h eq_refl); f_equal; lia).
  rewrite (testbit_land flags i Hi), Hi0.
  pose proof (len_nonneg pre). pose proof (len_nonneg pre2). pose proof (len_nonneg h). pose proof (len_nonneg (concat hs ++ rest2)).
  assert (L2 : len c = len pre2 + len h + len (concat hs ++ rest2)) by (rewrite E2, !len_app; lia).
  destruct (is_present h) eqn:Ep.
  - assert (Hnz : len h <> 0) by (apply negb_true_iff, Z.eqb_neq in Ep; done). rewrite <- app_assoc in E1.
    set (tail1 := header_table hs (len pre2 + len h) ++ rest) in *. pose proof (len_nonneg tail1).
    assert (L1 : len c = len pre + 16 + len tail1) by (rewrite E1, !len_app, len_section_bytes; lia).
    erewrite on_file_bind by (apply seek_ok; lia).
    erewrite on_file_bind.
    2: { refine (read_struct_at c Hc _ {| sec_offset := len pre2; sec_size := len h |} pre tail1 _ E1). apply section_ok; lia. }
    change PERF_FILE_SECTION_SIZE with 16. change (size_of PerfFileSection) with 16.
    rewrite (io_lift_bind _ (len pre + 16)) by (apply checked_ok; lia).
    rewrite io_get_bind. cbn [file sec_offset sec_size].
    assert (Hv : section_valid (in_file c (len pre + 16)) {| sec_offset := len pre2; sec_size := len h |} = true).
    { unfold section_valid. cbn [sec_offset sec_size inner_len in_file_of]. bool_solve. }
    rewrite Hv, (proj2 (Z.leb_gt 0x80000000 (len h))) by lia. cbn [negb orb].
    destruct (set_header i h d) as [d1|] eqn:Es; [cbn [mbind outcome_bind] in Hp|done].
    destruct (set_header_twice _ _ _ _ Es) as (d0 & E0 & Es').
    destruct (parse_header i d1) as [d2|] eqn:Epar; [cbn [mbind outcome_bind] in Hp|done].
    erewrite on_file_bind by (apply seek_ok; lia). erewrite upd_bind by exact E0.
    erewrite on_file_bind by (exact (read_append_at c Hc [] (len h) pre2 h _ E2 eq_refl ltac:(change (len []) with 0; lia))).
    erewrite upd_bind by exact Es'. erewrite upd_bind by exact Epar.
    replace (len pre + 16) with (len (pre ++ section_bytes (len pre2) (len h))) by (rewrite len_app, len_section_bytes; lia).
    apply (IH (i + 1) d2 (len pre2 + len h) (pre ++ section_bytes (len pre2) (len h)) (pre2 ++ h)); try done; try lia.
    + rewrite <- app_assoc, len_app. exact E1.
    + by rewrite <- app_assoc.
  - apply negb_false_iff, Z.eqb_eq in Ep. destruct h; [|rewrite len_cons in Ep; pose proof (len_nonneg h); lia].
    cbn [mbind outcome_bind] in Hp.
    by apply (IH (i + 1) d pos pre pre2); try lia.
Qed.

(** ** Opening *)

Lemma encode_fields_app r ws1 ws2 vs1 vs2 : length vs1 = length ws1 ->
  encode_fields r (ws1 ++ ws2) (vs1 ++ vs2) = encode_fields r ws1 vs1 ++ encode_fields r ws2 vs2.
Proof.
  revert vs1. induction ws1 as [|w ws1 IH]; intros [|v vs1] E; try done. cbn [app encode_fields].
  by rewrite IH, app_assoc by (cbn in E; lia).
Qed.
Lemma file_header_bytes (h : PerfFileHeader) :
  struct_bytes KEEP_ENDIAN h = struct_bytes KEEP_ENDIAN h.(fh_pipe) ++ struct_bytes KEEP_ENDIAN h.(fh_rest).
Proof. apply (encode_fields_app KEEP_ENDIAN (layout PerfFileHeaderPipe) (layout PerfFileHeaderRest)). apply length_to_fields. Qed.

(** A reader after [open] and before its headers are parsed. *)
Definition opened (order : PerfDataFileEventOrder) (v : Vec8) (bs : list Vec8) (a : ReaderAttrs) : DataFileReader :=
  {| data_begin_file_pos := 0; data_end_file_pos := 0; attrs := a; buffers := v :: bs;
     headers := repeat [] 32; event_queue := []; event_queue_consumed := 0;
     session_info := PerfSessionInfo_new KEEP_ENDIAN; current_buffer := 0;
     parsed_header_event_desc := false; event_order := order; event_queue_pending_result := None;
     common_type_size := 0; common_type_offset := OFFSET_UNSET; tracing := TracingData_new |}.
Definition set_data_range (b e : Z) (d : DataFileReader) : DataFileReader := set_data_end_file_pos e (set_data_begin_file_pos b d).

Lemma close_ok d b0 bs : d.(buffers) = b0 :: bs -> length d.(headers) = 32%nat ->
  DataFileReader_close d = Ret (set_session_info (PerfSessionInfo_new (PerfByteReader_new false))
                                  (opened FileOrder (vec_clear b0) (map trim_buffer bs) ReaderAttrs_new)).
Proof.
  intros Eb Eh. unfold DataFileReader_close. rewrite Eb.
  assert (E : map (fun _ => []) d.(headers) = repeat (@nil Z) 32).
  { rewrite <- Eh. clear. generalize d.(headers). intros l. induction l as [|h l IH]; [done|]. cbn. by rewrite IH. }
  by rewrite E.
Qed.

Section Open.
Context (data : bytes) (hs : list bytes) (descs : list EventDesc) (o : Offsets).
Let c := file_bytes data hs descs.
Context (Hc : len c < 2 ^ 63) (Hhs : length hs = 32%nat) (Hsize : Forall (fun h => len h < 0x80000000) hs).
Context (Hdescs : Forall (desc_ok o) descs) (Hsome : descs <> []) (Hmany : 144 * len descs < 0x80000000).

Let pipe := (file_header data hs descs).(fh_pipe).
Let frest := (file_header data hs descs).(fh_rest).

Lemma file_parts :
  c = struct_bytes KEEP_ENDIAN pipe ++ struct_bytes KEEP_ENDIAN frest ++ after_header data hs descs /\
  len (struct_bytes KEEP_ENDIAN pipe) = 16 /\ len (struct_bytes KEEP_ENDIAN frest) = 88.
Proof.
  unfold c, file_bytes. rewrite file_header_bytes, <- app_assoc. fold pipe frest. split; [done|].
  by rewrite !len_struct_bytes.
Qed.
(** Where the parts of the file are. *)
Lemma file_data : exists pre rest, c = pre ++ data ++ rest /\ len pre = 104.
Proof.
  destruct file_parts as (E & L1 & L2). exists (struct_bytes KEEP_ENDIAN pipe ++ struct_bytes KEEP_ENDIAN frest). eexists.
  split; [rewrite E; unfold after_header; by rewrite <- app_assoc | rewrite len_app; lia].
Qed.
Lemma file_headers : exists pre rest pre2 rest2,
  c = pre ++ header_table hs (len pre2) ++ rest /\ len pre = headers_at data /\
  c = pre2 ++ concat hs ++ rest2 /\ len pre2 = header_data_at data hs.
Proof.
  destruct file_parts as (E & L1 & L2). unfold after_header in E. set (p := struct_bytes KEEP_ENDIAN pipe) in *.
  set (q := struct_bytes KEEP_ENDIAN frest) in *. set (t := header_table hs (header_data_at data hs)) in *.
  assert (Lt : len t = 16 * count_present hs) by apply len_header_table.
  exists (p ++ q ++ data). eexists. exists (p ++ q ++ data ++ t). eexists.
  assert (L : len (p ++ q ++ data ++ t) = header_data_at data hs).
  { rewrite !len_app. unfold header_data_at, headers_at. lia. }
  rewrite L. fold t. split_and!; [rewrite E; by rewrite <- !app_assoc | rewrite !len_app; unfold headers_at; lia
    | rewrite E; by rewrite <- !app_assoc | done].
Qed.
Lemma file_attrs : exists pre rest pre2,
  c = pre ++ attr_table descs (len pre2) ++ rest /\ len pre = attrs_at data hs /\ c = pre2 ++ desc_ids descs ++ [].
Proof.
  destruct file_parts as (E & L1 & L2). unfold after_header in E. set (p := struct_bytes KEEP_ENDIAN pipe) in *.
  set (q := struct_bytes KEEP_ENDIAN frest) in *. set (t := header_table hs (header_data_at data hs)) in *.
  assert (Lt : len t = 16 * count_present hs) by apply len_header_table.
  set (t2 := attr_table descs (ids_at data hs descs)) in *.
  assert (Lt2 : len t2 = 144 * len descs) by apply len_attr_table.
  exists (p ++ q ++ data ++ t ++ concat hs). eexists. exists (p ++ q ++ data ++ t ++ concat hs ++ t2).
  assert (L : len (p ++ q ++ data ++ t ++ concat hs ++ t2) = ids_at data hs descs).
  { rewrite !len_app. unfold ids_at, attrs_at, header_data_at, headers_at. lia. }
  rewrite L. fold t2. split_and!; [rewrite E; by rewrite <- !app_assoc | rewrite !len_app; unfold attrs_at, header_data_at, headers_at; lia
    | rewrite E; by rewrite <- !app_assoc, app_nil_r].
Qed.

(** The fields of the header are in their widths. *)
Lemma present_flags_bound i l : 0 <= i -> 0 <= present_flags i l < 2 ^ (i + len l).
Proof.
  revert i. induction l as [|h l IH]; intros i Hi; cbn [present_flags].
  - change (len []) with 0. rewrite Z.add_0_r. split; [lia | by apply Z.pow_pos_nonneg].
  - specialize (IH (i + 1) ltac:(lia)). rewrite len_cons. replace (i + (1 + len l)) with (i + 1 + len l) by lia.
    destruct (present_flags_multiple (i + 1) l ltac:(lia)) as (q & E & Hq). rewrite E in *.
    pose proof (len_nonneg l). rewrite (Z.pow_add_r 2 (i + 1)) in * by lia.
    assert (0 < 2 ^ i) by (by apply Z.pow_pos_nonneg). rewrite (Z.pow_add_r 2 i 1) in * by lia.
    assert (q < 2 ^ len l) by nia. destruct (is_present h); nia.
Qed.
Lemma file_sizes : 0 <= len data /\ 0 <= len (concat hs) /\ 0 < len descs /\ 0 < len (desc_ids descs) /\ 0 <= count_present hs /\
  len c = 104 + len data + 16 * count_present hs + len (concat hs) + 144 * len descs + len (desc_ids descs).
Proof.
  pose proof (len_nonneg data). pose proof (len_nonneg (concat hs)). pose proof (count_present_nonneg hs).
  unfold c. rewrite len_file_bytes. unfold ids_at, attrs_at, header_data_at, headers_at.
  destruct descs as [|d ds]; [done|]. apply Forall_cons_iff in Hdescs as [(_ & _ & _ & Hi) _].
  rewrite len_desc_ids_cons, len_cons. pose proof (len_nonneg ds). pose proof (len_nonneg (desc_ids ds)).
  repeat split; lia.
Qed.
Lemma header_parts_ok : struct_ok pipe /\ struct_ok frest.
Proof.
  destruct file_sizes as (H1 & H2 & H3 & H4 & H5 & H6). pose proof (present_flags_bound 0 hs ltac:(lia)) as Hf.
  rewrite Z.add_0_l in Hf. assert (E32 : len hs = 32) by (unfold len; lia). rewrite E32 in Hf.
  unfold pipe, frest, file_header, attrs_section, attrs_at, header_data_at, headers_at, final_header. cbn [fh_pipe fh_rest].
  change (size_of PerfFileHeader) with 104. change (size_of PerfEventAttr + size_of PerfFileSection) with 144. change DATA_START_POS with 104.
  split; unfold struct_ok; cbn; repeat (apply List.Forall2_cons; [unfold PERFILE2_MAGIC_HOST_ENDIAN; cbn; lia|]); apply List.Forall2_nil.
Qed.

Definition start_state (b0 : Vec8) (bs : list Vec8) : DataFileReader :=
  set_session_info (PerfSessionInfo_new (PerfByteReader_new false)) (opened FileOrder b0 bs ReaderAttrs_new).

(** Opening reads the attributes; with the parsers of the headers it gives a reader
    at the first event. *)
Lemma open_ok order r b0 bs : b0.(vec) = [] ->
  exists v, NORMAL_EVENT_MAX_SIZE <= v.(capacity) /\
  forall d, parse_headers 0 hs (opened order v bs (load_descs o descs ReaderAttrs_new)) = Ret d ->
  DataFileReader_open order {| rd := start_state b0 bs; cur := r; file := in_file_of 0 c 0 |}
  = Ret (Ok tt, {| rd := set_data_range 104 (104 + len data) d; cur := r; file := in_file c 104 |}).
Proof.
  intros Hb. destruct file_sizes as (H1 & H2 & H3 & H4 & H5 & H6). destruct header_parts_ok as [Hp Hr].
  destruct file_parts as (E & L1 & L2). set (ps := struct_bytes KEEP_ENDIAN pipe) in *. set (rs := struct_bytes KEEP_ENDIAN frest) in *.
  destruct file_headers as (hp & hr & hp2 & hr2 & Eh1 & Lh1 & Eh2 & Lh2).
  destruct file_attrs as (ap & ar & ap2 & Ea1 & La1 & Ea2).
  assert (Hbc : NORMAL_EVENT_MAX_SIZE <= (reserve NORMAL_EVENT_MAX_SIZE b0).(capacity)).
  { unfold reserve. rewrite Hb. change (len []) with 0. cbn [capacity]. case_match; bool_hyps; lia. }
  set (b1 := reserve NORMAL_EVENT_MAX_SIZE b0) in *.
  edestruct (load_attrs_loop_ok c Hc o descs (Datatypes.S (Z.to_nat (144 * len descs / 144 + 1))) (opened order b1 bs ReaderAttrs_new) r b1
    bs (16 + 88) ap ap2 ar []) as (v & pos & Hv & El); try done.
  { rewrite Z.mul_comm, Z.div_mul by lia. unfold len. lia. }
  { by right. }
  exists v. split; [lia|]. intros d Hd. unfold DataFileReader_open.
  erewrite upd_bind by reflexivity.
  erewrite on_file_bind by (exact (read_struct_at c Hc 0 pipe [] _ Hp E)).
  rewrite (io_lift_bind _ tt) by (vm_compute; reflexivity).
  change (hp_magic pipe) with PERFILE2_MAGIC_HOST_ENDIAN. rewrite Z.eqb_refl. change (hp_size pipe) with 104.
  rewrite io_ret_bind. erewrite upd_bind by reflexivity. rewrite io_get_bind. cbn [rd].
  rewrite (io_lift_bind _ b0) by done. rewrite (io_lift_bind _ tt) by (by rewrite Hb).
  erewrite upd_bind by reflexivity. change (104 =? size_of PerfFileHeaderPipe) with false. change (104 <? size_of PerfFileHeader) with false.
  change (open_normal KEEP_ENDIAN pipe {| rd := opened order b1 bs ReaderAttrs_new; cur := r; file := in_file_of 0 c 16 |}
    = Ret (Ok tt, {| rd := set_data_range 104 (104 + len data) d; cur := r; file := in_file c 104 |})).
  unfold open_normal.
  erewrite on_file_bind by reflexivity.
  erewrite on_file_bind.
  2: { rewrite <- L1. exact (read_struct_at c Hc (len c) frest ps _ Hr E). }
  cbv zeta. change (byte_swap_needed KEEP_ENDIAN) with (negb (Bool.eqb HOST_IS_BIG_ENDIAN HOST_IS_BIG_ENDIAN)).
  rewrite eqb_reflx. cbn [negb fh_rest]. rewrite io_get_bind. cbn [file].
  change (hr_attrs frest) with (attrs_section data hs descs). change (hr_data frest) with {| sec_offset := 104; sec_size := len data |}.
  change (hr_event_types frest) with {| sec_offset := 0; sec_size := 0 |}. change (hr_attr_size frest) with 144.
  change (hr_flags0 frest) with (present_flags 0 hs). rewrite L1. change (size_of PerfFileHeaderRest) with 88.
  assert (Hsv : forall p off size, 0 <= off < len c -> size <= len c - off ->
    section_valid (in_file c p) {| sec_offset := off; sec_size := size |} = true).
  { intros p off size Ho Hs. unfold section_valid. cbn [sec_offset sec_size inner_len in_file_of]. bool_solve. }
  unfold attrs_section, attrs_at, header_data_at, headers_at in *.
  rewrite !Hsv by lia. cbn [negb orb].
  assert (Ela : load_attrs {| sec_offset := len ap; sec_size := 144 * len descs |} 144
      {| rd := opened order b1 bs ReaderAttrs_new; cur := r; file := in_file c (16 + 88) |}
    = Ret (Ok tt, {| rd := opened order v bs (load_descs o descs ReaderAttrs_new); cur := r; file := in_file c pos |})).
  { unfold load_attrs. rewrite io_get_bind. cbn [rd]. rewrite (io_lift_bind _ b1) by done.
    rewrite (io_lift_bind _ tt) by (unfold b1, reserve; cbn [vec]; by rewrite Hb). cbn [sec_size sec_offset].
    rewrite (proj2 (Z.leb_gt 0x80000000 (144 * len descs))) by lia. cbn [orb].
    change (144 <? AttrSize_Ver0 + PERF_FILE_SECTION_SIZE) with false. change (0x10000 <? 144) with false. cbn [orb].
    rewrite (io_lift_bind _ 128) by done. rewrite (io_lift_bind _ (len ap + 144 * len descs)) by (apply checked_ok; lia).
    exact El. }
  rewrite <- La1. rewrite (io_bind_ok _ _ _ _ _ Ela).
  destruct (load_headers_loop_ok c Hc hs 0 (present_flags 0 hs) _ d r pos hp hp2 hr hr2 ltac:(lia)
    (fun k h E => testbit_present 0 hs k h ltac:(lia) E) Hsize Eh1 Eh2 Hd) as (pos2 & Elh).
  rewrite (io_bind_ok _ _ _ tt {| rd := d; cur := r; file := in_file c pos2 |}).
  2: { unfold load_headers. rewrite io_get_bind. cbn [sec_offset sec_size rd].
       rewrite (io_lift_bind _ (len hp)) by (rewrite Lh1; apply checked_ok; lia).
       change (length (headers (opened order v bs (load_descs o descs ReaderAttrs_new)))) with 32%nat. rewrite <- Hhs. exact Elh. }
  cbn [sec_offset sec_size]. erewrite on_file_bind by (apply seek_ok; lia). rewrite io_get_bind. cbn [file inner_pos in_file_of].
  rewrite (io_lift_bind _ tt) by done. rewrite (io_lift_bind _ (104 + len data)) by (apply checked_ok; lia). done.
Qed.
End Open.
End Attrs.
