(* ===== verification/FileEvents.v ===== *)
(** * FileEvents: reading the events of a file

    The events that were written are read back one after the other, in the order of the
    file, and then the end of the data is found. *)

From stdpp Require Import gmap.
From S2P Require Import Prelude Strings Types ByteReader Text Writers TextSpec Session FieldFormat PerfAbi PerfIo EventFormat.
From S2P Require Import FieldLine EventFormatProps SampleInfo SampleProps FileReader FileWriter FileBytes FileOpen.

(** ** Events *)

Record Event := { ev_type : Z; ev_misc : Z; ev_body : bytes }.
Definition ev_header (e : Event) : PerfEventHeader :=
  {| eh_type := e.(ev_type); eh_misc := e.(ev_misc); eh_size := 8 + len e.(ev_body) |}.
(** Events that the reader does not use itself. *)
Definition plain_type (ty : Z) : bool :=
  negb ((ty =? HeaderType_HeaderAttr) || (ty =? HeaderType_HeaderTracingData) || (ty =? HeaderType_HeaderBuildId)
        || (ty =? HeaderType_Auxtrace) || (ty =? HeaderType_HeaderFeature)).
Definition event_ok (e : Event) : Prop :=
  0 <= e.(ev_type) < 2 ^ 32 /\ 0 <= e.(ev_misc) < 2 ^ 16 /\ 8 + len e.(ev_body) < 2 ^ 16 /\ plain_type e.(ev_type) = true.

Section Events.
Context `{Target}.

Definition ev_bytes (e : Event) : bytes := struct_bytes KEEP_ENDIAN (ev_header e) ++ e.(ev_body).
Definition events_bytes (es : list Event) : bytes := concat (map ev_bytes es).

Lemma ev_header_ok e : event_ok e -> struct_ok (ev_header e).
Proof.
  intros (H1 & H2 & H3 & _). pose proof (len_nonneg e.(ev_body)).
  unfold struct_ok. cbn. repeat (apply List.Forall2_cons; [cbn; lia|]). apply List.Forall2_nil.
Qed.
Lemma len_ev_bytes e : len (ev_bytes e) = 8 + len e.(ev_body).
Proof. unfold ev_bytes. by rewrite len_app, len_struct_bytes. Qed.

(** ** Appending to a buffer *)

Lemma set_buffer_at i v d : 0 <= i < len d.(buffers) -> set_buffer i v d = Ret (set_buffers (<[Z.to_nat i := v]> d.(buffers)) d).
Proof.
  intros Hi. unfold set_buffer, store. by rewrite (proj2 (Z.leb_le 0 i)), (proj2 (Z.ltb_lt i (len d.(buffers)))) by lia.
Qed.
Lemma buffer_at_ok i v d : 0 <= i -> d.(buffers) !! Z.to_nat i = Some v -> buffer_at i d = Ret v.
Proof. intros Hi E. unfold buffer_at, index. by rewrite (proj2 (Z.ltb_ge i 0)), E by lia. Qed.
Lemma lookup_buffer i (v : Vec8) (l : list Vec8) : 0 <= i -> l !! Z.to_nat i = Some v -> i < len l.
Proof. intros Hi E. apply lookup_lt_Some in E. unfold len. lia. Qed.

Lemma append_at {B} c (Hc : len c < 2 ^ 63) (k : unit -> io Reading ErrorKind B) d r i v pre l rest n :
  0 <= i -> d.(buffers) !! Z.to_nat i = Some v -> c = pre ++ l ++ rest -> n = len l -> len v.(vec) + n < 2 ^ 64 ->
  (append_to_buffer i n ≫= k) {| rd := d; cur := r; file := in_file c (len pre) |}
  = k tt {| rd := set_buffers (<[Z.to_nat i := {| vec := v.(vec) ++ l; capacity := (reserve n v).(capacity) |}]> d.(buffers)) d;
            cur := r; file := in_file c (len pre + n) |}.
Proof.
  intros Hi Eb E Hn Hv. pose proof (lookup_buffer _ _ _ Hi Eb) as Hl. apply io_bind_ok. unfold append_to_buffer. rewrite io_get_bind. cbn [rd].
  rewrite (io_lift_bind _ _ _ _ (buffer_at_ok _ _ _ Hi Eb)). cbv zeta.
  erewrite upd_bind by (apply set_buffer_at; lia).
  erewrite on_file_bind by exact (read_append_at c Hc v.(vec) n pre l rest E Hn Hv).
  unfold upd, on_rd, io_on. cbn [rd]. rewrite set_buffer_at by (cbn [buffers set_buffers]; unfold len in *; rewrite length_insert; lia).
  cbn [mbind outcome_bind buffers set_buffers]. by rewrite list_insert_insert_eq.
Qed.

(** ** One event *)

(** A reader that reads events of the byte order of the target. *)
Record ready (d : DataFileReader) : Prop := {
  rdy_endian : d.(session_info).(session_byte_reader) = KEEP_ENDIAN;
  rdy_parsed : d.(parsed_header_event_desc) = true;
  rdy_headers : length d.(headers) = 32%nat;
}.
Lemma header_12 d : ready d -> exists h, header_at HeaderIndex_EventDesc d = Ret h.
Proof.
  intros [_ _ Hh]. destruct (lookup_lt_is_Some_2 d.(headers) 12%nat ltac:(lia)) as [h Eh]. exists h.
  change (header_at HeaderIndex_EventDesc d) with (match d.(headers) !! 12%nat with Some h => Ret h | None => Panic end).
  by rewrite Eh.
Qed.
Lemma parsed_event_desc_again d : ready d -> parse_header_event_desc d = Ret d.
Proof.
  intros Hd. destruct (header_12 d Hd) as [h Eh]. unfold parse_header_event_desc, parsed. rewrite io_get_bind.
  by rewrite (io_lift_bind _ h), (rdy_parsed d Hd).
Qed.
Lemma special_event_plain {B} (k : unit -> io Reading ErrorKind B) d r f h cb p q : ready d -> plain_type h.(eh_type) = true ->
  (special_event KEEP_ENDIAN h cb p q ≫= k) {| rd := d; cur := r; file := f |} = k tt {| rd := d; cur := r; file := f |}.
Proof.
  intros Hd Hp. apply io_bind_ok. unfold special_event. rewrite io_get_bind. cbn [rd].
  unfold plain_type in Hp. apply negb_true_iff in Hp. rewrite !orb_false_iff in Hp. destruct Hp as [[[[E1 E2] E3] E4] E5].
  rewrite E1, E2, E3, E4, E5. destruct (_ =? HeaderType_FinishedInit); [|done].
  destruct (header_12 d Hd) as [hd Eh]. rewrite (io_lift_bind _ hd) by done.
  destruct (negb _); [|done]. unfold upd, on_rd, io_on. cbn [rd]. by rewrite parsed_event_desc_again.
Qed.

Lemma extend_vec l v : (extend l v).(vec) = v.(vec) ++ l.
Proof. done. Qed.
Lemma extend_capacity l v : v.(capacity) <= (extend l v).(capacity).
Proof. apply reserve_capacity. Qed.

Section OneEvent.
Context (c : bytes) (Hc : len c < 2 ^ 63) (e : Event) (He : event_ok e) (pre rest : bytes) (E : c = pre ++ ev_bytes e ++ rest).
Context (d d1 : DataFileReader) (r : EventBytesRef) (cb : Z) (v v1 : Vec8) (Hd : ready d1).
Context (Hcb : 0 <= cb) (Hb : d1.(buffers) !! Z.to_nat cb = Some v1) (Hcur : d1.(current_buffer) = cb) (Hv1 : len v1.(vec) < 2 ^ 62).
Context (Hchoose : choose_buffer (8 + len e.(ev_body)) d = Ret d1).
Context (Hend : len pre + len (ev_bytes e) <= d1.(data_end_file_pos)).

Let hb := struct_bytes KEEP_ENDIAN (ev_header e).
Definition event_ref (cb start size : Z) : EventBytesRef :=
  {| buffer_index := as_unsigned 32 cb; range_start := as_unsigned 32 start; range_end := as_unsigned 32 (start + size) |}.

Lemma read_event_data_ok : exists cap, v1.(capacity) <= cap /\
  read_event_data KEEP_ENDIAN hb (ev_header e) {| rd := d; cur := r; file := in_file c (len (pre ++ hb)) |}
  = Ret (Ok true, {| rd := set_buffers (<[Z.to_nat cb := {| vec := v1.(vec) ++ ev_bytes e; capacity := cap |}]> d1.(buffers)) d1;
                     cur := event_ref cb (len v1.(vec)) (len (ev_bytes e));
                     file := in_file c (len pre + len (ev_bytes e)) |}).
Proof.
  set (n := len e.(ev_body)) in *. pose proof (len_nonneg e.(ev_body)) as Hn. fold n in Hn.
  assert (Lhb : len hb = 8) by (unfold hb; by rewrite len_struct_bytes).
  rewrite len_ev_bytes in *. fold n in Hend |- *. destruct He as (_ & _ & Hs & Hp). fold n in Hs.
  pose proof (lookup_buffer _ _ _ Hcb Hb) as Hlb. pose proof (len_nonneg v1.(vec)).
  exists (reserve n (extend hb v1)).(capacity). split; [etransitivity; [apply (extend_capacity hb)|apply reserve_capacity]|].
  unfold read_event_data. cbv zeta. change (eh_size (ev_header e)) with (8 + n).
  erewrite upd_bind by exact Hchoose. rewrite io_get_bind. cbn [rd]. rewrite Hcur.
  rewrite (io_lift_bind _ _ _ _ (buffer_at_ok _ _ _ Hcb Hb)). erewrite upd_bind by (apply set_buffer_at; lia).
  replace (8 + n - 8) with n by lia.
  assert (Hb2 : <[Z.to_nat cb := extend hb v1]> d1.(buffers) !! Z.to_nat cb = Some (extend hb v1)).
  { apply list_lookup_insert_eq. apply lookup_lt_Some in Hb. done. }
  assert (E' : c = (pre ++ hb) ++ e.(ev_body) ++ rest) by (rewrite E; unfold ev_bytes; fold hb; by rewrite <- !app_assoc).
  rewrite (append_at c Hc _ (set_buffers (<[Z.to_nat cb := extend hb v1]> d1.(buffers)) d1) r cb (extend hb v1) (pre ++ hb) e.(ev_body) rest n Hcb Hb2 E' eq_refl)
    by (rewrite extend_vec, len_app; lia).
  cbn [buffers set_buffers]. rewrite list_insert_insert_eq, extend_vec.
  rewrite special_event_plain by (done || by destruct Hd). rewrite io_get_bind. cbn [rd file inner_pos in_file_of].
  rewrite (io_lift_bind _ tt) by (change (data_end_file_pos (set_buffers _ (set_buffers _ d1))) with d1.(data_end_file_pos); rewrite (proj2 (Z.leb_le _ _)); [done | rewrite len_app; lia]).
  rewrite (io_lift_bind _ tt) by (by rewrite Lhb, Z.eqb_refl).
  rewrite (io_lift_bind _ (len v1.(vec) + (8 + n))).
  2: { unfold buffer_len. erewrite buffer_at_ok; [|exact Hcb | cbn [buffers set_buffers]; apply list_lookup_insert_eq; by apply lookup_lt_Some in Hb].
       cbn [mbind outcome_bind vec]. f_equal. rewrite !len_app. fold n. lia. }
  rewrite set_cur_bind. unfold mret, io_ret, event_ref. do 3 f_equal.
  - rewrite <- app_assoc. reflexivity.
  - rewrite len_app. f_equal. lia.
Qed.

Lemma io_try_bind {S A B F G} (m : io S F A) (k : result A F -> io S G B) s res s' :
  m s = Ret (res, s') -> (io_try m ≫= k) s = k res s'.
Proof. intros Em. apply io_bind_ok. unfold io_try. by rewrite Em. Qed.

Lemma read_one_event_ok : d.(session_info).(session_byte_reader) = KEEP_ENDIAN -> 0 <= d.(current_buffer) ->
  d.(buffers) !! Z.to_nat d.(current_buffer) = Some v -> NORMAL_EVENT_MAX_SIZE <= v.(capacity) ->
  len v.(vec) <= NORMAL_EVENT_MAX_SIZE -> d.(data_end_file_pos) = d1.(data_end_file_pos) -> d1.(data_end_file_pos) < 2 ^ 64 ->
  exists cap, v1.(capacity) <= cap /\
  read_one_event {| rd := d; cur := r; file := in_file c (len pre) |}
  = Ret (Ok true, {| rd := set_buffers (<[Z.to_nat cb := {| vec := v1.(vec) ++ ev_bytes e; capacity := cap |}]> d1.(buffers)) d1;
                     cur := event_ref cb (len v1.(vec)) (len (ev_bytes e));
                     file := in_file c (len pre + len (ev_bytes e)) |}).
Proof.
  intros Hend0 Hcb0 Hb0 Hcap Hlen0 Hdata Hdata64. destruct read_event_data_ok as (cap & Hcap' & Ed). exists cap. split; [done|].
  pose proof (len_nonneg pre). pose proof (len_nonneg e.(ev_body)). rewrite len_ev_bytes in Hend.
  destruct He as (_ & _ & Hs & _).
  assert (Lhb : len hb = 8) by (unfold hb; by rewrite len_struct_bytes).
  unfold read_one_event. rewrite io_get_bind. cbn [rd file inner_pos in_file_of]. cbv zeta.
  rewrite (io_lift_bind _ _ _ _ (buffer_at_ok _ _ _ Hcb0 Hb0)), (io_lift_bind _ tt) by (by rewrite (proj2 (Z.leb_le _ _) Hcap)).
  rewrite (io_lift_bind _ tt) by (by rewrite (proj2 (Z.leb_le _ _) Hlen0)). rewrite Hend0, Hdata.
  rewrite (proj2 (Z.leb_gt _ _)) by lia. rewrite (io_lift_bind _ (d1.(data_end_file_pos) - len pre)) by (apply checked_ok; lia).
  rewrite (proj2 (Z.ltb_ge _ 8)) by lia.
  assert (E' : c = pre ++ hb ++ (e.(ev_body) ++ rest)) by (rewrite E; unfold ev_bytes; fold hb; by rewrite <- !app_assoc).
  erewrite io_try_bind.
  2: { unfold on_file, io_on. cbn [file]. rewrite (read_exact_at c Hc (len c) 8 pre hb _ E' (eq_sym Lhb)). reflexivity. }
  cbn iota. change (byte_swap_needed KEEP_ENDIAN) with (negb (Bool.eqb HOST_IS_BIG_ENDIAN HOST_IS_BIG_ENDIAN)).
  rewrite eqb_reflx. cbn [negb].
  pose proof (struct_round_trip KEEP_ENDIAN (ev_header e) [] (ev_header_ok e He)) as R. rewrite app_nil_r in R. fold hb in R. rewrite R.
  change (eh_size (ev_header e)) with (8 + len e.(ev_body)). rewrite (proj2 (Z.ltb_ge _ 8)) by lia.
  rewrite (io_lift_bind _ (len e.(ev_body))).
  2: { replace (8 + len e.(ev_body) - 8) with (len e.(ev_body)) by lia. apply checked_ok. lia. }
  rewrite io_get_bind. cbn [file inner_pos].
  rewrite (io_lift_bind _ (d1.(data_end_file_pos) - (len pre + 8))) by (apply checked_ok; lia).
  rewrite (proj2 (Z.ltb_ge _ (len e.(ev_body)))) by lia.
  rewrite len_app, Lhb in Ed. exact Ed.
Qed.
End OneEvent.

(** At the end of the data there is no event. *)
Lemma read_one_event_end c d r v : 0 <= d.(current_buffer) ->
  d.(buffers) !! Z.to_nat d.(current_buffer) = Some v -> NORMAL_EVENT_MAX_SIZE <= v.(capacity) ->
  len v.(vec) <= NORMAL_EVENT_MAX_SIZE ->
  read_one_event {| rd := d; cur := r; file := in_file c d.(data_end_file_pos) |}
  = Ret (Ok false, {| rd := d; cur := EventBytesRef_default; file := in_file c d.(data_end_file_pos) |}).
Proof.
  intros Hcb Hb Hcap Hl. unfold read_one_event. rewrite io_get_bind. cbn [rd file inner_pos in_file_of]. cbv zeta.
  rewrite (io_lift_bind _ _ _ _ (buffer_at_ok _ _ _ Hcb Hb)), (io_lift_bind _ tt) by (by rewrite (proj2 (Z.leb_le _ _) Hcap)).
  rewrite (io_lift_bind _ tt) by (by rewrite (proj2 (Z.leb_le _ _) Hl)). by rewrite Z.leb_refl.
Qed.

(** ** The current event *)

Definition shown (e : Event) : PerfEventBytes := {| pe_header := ev_header e; pe_data := ev_bytes e |}.

Lemma current_event_ok p e cb v a b : event_ok e -> p.(pr_inner).(session_info).(session_byte_reader) = KEEP_ENDIAN ->
  0 <= cb < 2 ^ 32 -> p.(pr_inner).(buffers) !! Z.to_nat cb = Some v -> v.(vec) = a ++ ev_bytes e ++ b ->
  len v.(vec) < 2 ^ 32 -> p.(pr_current) = event_ref cb (len a) (len (ev_bytes e)) ->
  current_event p = Ret (shown e).
Proof.
  intros He Hr Hcb Hb Ev Hl Ec. pose proof (len_nonneg a). pose proof (len_nonneg b). pose proof (len_nonneg e.(ev_body)).
  pose proof (len_ev_bytes e) as Le. rewrite Ev, !len_app in Hl.
  unfold current_event. rewrite Ec. unfold event_ref. cbn [range_end range_start buffer_index].
  rewrite !as_unsigned_id by lia. change (size_of PerfEventHeader) with 8. rewrite (proj2 (Z.ltb_ge _ 8)) by lia.
  unfold buffer_slice. rewrite (buffer_at_ok _ _ _ (proj1 Hcb) Hb). cbn [mbind outcome_bind].
  rewrite Ev. replace (len a + len (ev_bytes e)) with (len (a ++ ev_bytes e)) by (by rewrite len_app).
  rewrite slice_here. cbn [mbind outcome_bind].
  pose proof (slice_here [] (struct_bytes KEEP_ENDIAN (ev_header e)) e.(ev_body)) as S8. cbn [app] in S8.
  rewrite len_struct_bytes in S8. change (size_of PerfEventHeader) with 8 in S8. change (len []) with 0 in S8.
  fold (ev_bytes e) in S8. rewrite S8. cbn [mbind outcome_bind]. rewrite Hr.
  change (byte_swap_needed KEEP_ENDIAN) with (negb (Bool.eqb HOST_IS_BIG_ENDIAN HOST_IS_BIG_ENDIAN)). rewrite eqb_reflx. cbn [negb].
  pose proof (struct_round_trip KEEP_ENDIAN (ev_header e) [] (ev_header_ok e He)) as R. rewrite app_nil_r in R. rewrite R.
  unfold PerfEventBytes_new. change (size_of PerfEventHeader) with 8. rewrite (proj2 (Z.leb_le 8 _)) by lia. done.
Qed.

(** ** All the events *)

(** Reads events until there is none; the result of the last move. *)
Fixpoint read_all (fuel : nat) (p : PerfDataFileReader)
    : outcome (list PerfEventBytes * result bool ErrorKind * PerfDataFileReader) :=
  match fuel with
  | O => Panic
  | Datatypes.S fuel =>
    '(res, p) ← move_next_event p;
    match res with
    | Ok true =>
      e ← current_event p;
      '(es, res, p) ← read_all fuel p;
      Ret (e :: es, res, p)
    | _ => Ret ([], res, p)
    end
  end.

(** A reader in file order in front of the events [es] of the file [c]. *)
Record in_file_order (c : bytes) (es : list Event) (p : PerfDataFileReader) : Prop := {
  fo_ready : ready p.(pr_inner);
  fo_order : p.(pr_inner).(event_order) = FileOrder;
  fo_buffer : p.(pr_inner).(current_buffer) = 0 /\
    exists v bs, p.(pr_inner).(buffers) = v :: bs /\ NORMAL_EVENT_MAX_SIZE <= v.(capacity);
  fo_file : exists pre rest, c = pre ++ events_bytes es ++ rest /\ p.(pr_file) = Some (in_file c (len pre)) /\
    p.(pr_inner).(data_end_file_pos) = len (pre ++ events_bytes es);
}.

Lemma read_event_file_order_ok d r f v bs : d.(current_buffer) = 0 -> d.(buffers) = v :: bs ->
  read_event_file_order {| rd := d; cur := r; file := f |}
  = read_one_event {| rd := set_buffers (vec_clear v :: bs) d; cur := r; file := f |}.
Proof.
  intros Hc Hb. unfold read_event_file_order. rewrite io_get_bind. cbn [rd]. rewrite Hc.
  rewrite (io_lift_bind _ tt), (io_lift_bind _ _ _ _ (buffer_at_0 _ _ _ Hb)) by done.
  by erewrite upd_bind by exact (set_buffer_0 _ _ _ _ Hb).
Qed.

Lemma next_event_ok c (Hc : len c < 2 ^ 63) e es p : event_ok e -> in_file_order c (e :: es) p ->
  exists p', move_next_event p = Ret (Ok true, p') /\ current_event p' = Ret (shown e) /\ in_file_order c es p' /\
    p'.(pr_inner).(attrs) = p.(pr_inner).(attrs) /\ p'.(pr_inner).(headers) = p.(pr_inner).(headers) /\
    p'.(pr_inner).(session_info) = p.(pr_inner).(session_info).
Proof.
  intros He [Hr Ho [Hcb (v & bs & Hb & Hcap)] (pre & rest & E & Ef & Hend)].
  change (events_bytes (e :: es)) with (ev_bytes e ++ events_bytes es) in *. rewrite <- app_assoc in E.
  set (d := p.(pr_inner)) in *. set (d1 := set_buffers (vec_clear v :: bs) d).
  assert (Hr1 : ready d1) by (by destruct Hr; split).
  pose proof (len_nonneg pre). pose proof (len_nonneg (ev_bytes e)). pose proof (len_nonneg (events_bytes es)).
  pose proof (len_nonneg rest). assert (Lc : len c = len pre + len (ev_bytes e) + len (events_bytes es) + len rest)
    by (rewrite E, !len_app; lia). rewrite !len_app in Hend.
  destruct He as (He1 & He2 & Hs & He4) eqn:Eq.
  assert (Hch : choose_buffer (8 + len e.(ev_body)) d1 = Ret d1).
  { unfold choose_buffer, buffer_len. change (current_buffer d1) with d.(current_buffer). rewrite Hcb.
    rewrite (buffer_at_0 (vec_clear v) bs) by done. cbn [mbind outcome_bind vec vec_clear]. change (len []) with 0.
    rewrite (checked_ok 64) by (unfold NORMAL_EVENT_MAX_SIZE; lia). cbn [mbind outcome_bind].
    by rewrite (proj2 (Z.ltb_ge _ (8 + len e.(ev_body)))) by (unfold NORMAL_EVENT_MAX_SIZE; lia). }
  destruct (read_one_event_ok c Hc e (conj He1 (conj He2 (conj Hs He4))) pre _ E d1 d1 p.(pr_current) 0 (vec_clear v) (vec_clear v))
    as (cap & Hcap' & Er); try done; try (change (len (vec (vec_clear v))) with 0; unfold NORMAL_EVENT_MAX_SIZE; lia).
  { change (data_end_file_pos d1) with d.(data_end_file_pos). lia. }
  { destruct Hr. done. }
  { change (current_buffer d1) with d.(current_buffer). lia. }
  { change (current_buffer d1) with d.(current_buffer). by rewrite Hcb. }
  { change (data_end_file_pos d1) with d.(data_end_file_pos). lia. }
  eexists. split; [|split; [|split]].
  { unfold move_next_event. fold d. rewrite Ef, Ho. rewrite (read_event_file_order_ok _ _ _ _ _ Hcb Hb). fold d1. rewrite Er. reflexivity. }
  3: done.
  - apply (current_event_ok _ e 0 {| vec := ev_bytes e; capacity := cap |} [] []); try done; [by destruct Hr | cbn [vec app]; by rewrite app_nil_r |].
    cbn [vec]. rewrite len_ev_bytes. lia.
  - split; [by destruct Hr; split | done | |].
    { split; [done|]. exists {| vec := ev_bytes e; capacity := cap |}, bs. split; [reflexivity|]. cbn [capacity vec_clear] in *. lia. }
    exists (pre ++ ev_bytes e), rest. split_and!; [by rewrite <- app_assoc | by rewrite len_app |].
    rewrite !len_app. transitivity d.(data_end_file_pos); [reflexivity | lia].
Qed.

Lemma no_event_left c p : in_file_order c [] p ->
  exists p', move_next_event p = Ret (Ok false, p') /\ in_file_order c [] p'.
Proof.
  intros [Hr Ho [Hcb (v & bs & Hb & Hcap)] (pre & rest & E & Ef & Hend)].
  change (events_bytes []) with (@nil Z) in *. rewrite app_nil_r in Hend.
  set (d := p.(pr_inner)) in *. set (d1 := set_buffers (vec_clear v :: bs) d).
  eexists. split.
  - unfold move_next_event. fold d. rewrite Ef, Ho, (read_event_file_order_ok _ _ _ _ _ Hcb Hb), <- Hend. fold d1.
    erewrite (read_one_event_end c d1 _ (vec_clear v)); try done; change (current_buffer d1) with d.(current_buffer);
      [lia | by rewrite Hcb].
  - split; [by destruct Hr; split | done | split; [done|]; by eexists; eexists |].
    exists pre, rest. split_and!; [done | cbn [pr_file]; f_equal; by rewrite <- Hend | by rewrite app_nil_r].
Qed.

Lemma read_all_ok c (Hc : len c < 2 ^ 63) es fuel p : Forall event_ok es -> (length es < fuel)%nat -> in_file_order c es p ->
  exists p', read_all fuel p = Ret (map shown es, Ok false, p') /\ in_file_order c [] p'.
Proof.
  revert fuel p. induction es as [|e es IH]; intros fuel p He Hf Hp; (destruct fuel as [|fuel]; [cbn in Hf; lia|]); cbn [read_all map].
  - destruct (no_event_left c p Hp) as (p' & -> & Hp'). by exists p'.
  - apply Forall_cons_iff in He as [He Hes]. destruct (next_event_ok c Hc e es p He Hp) as (p1 & -> & E1 & Hp1 & _).
    cbn [mbind outcome_bind]. rewrite E1. cbn [mbind outcome_bind].
    destruct (IH fuel p1 Hes ltac:(cbn in Hf; lia) Hp1) as (p' & -> & Hp'). by exists p'.
Qed.
End Events.
