(* ===== verification/FileRoundTrip.v ===== *)
(** * FileRoundTrip: a perf.data file that was written is read back

    The descriptions in HEADER_EVENT_DESC are those that were added to the writer; the
    reader gives them for every id, the other headers as they were set, and the events
    in the order in which they were written. *)

From stdpp Require Import gmap.
From S2P Require Import Prelude Strings Types ByteReader Text Writers TextSpec Session FieldFormat PerfAbi PerfIo EventFormat.
From S2P Require Import FieldFormatProps FieldLine EventFormatProps SampleInfo SampleProps FileReader FileWriter FileBytes FileOpen.
From S2P Require Import SessionProps FileEvents.

Section RoundTrip.
Context `{Target}.

(** ** HEADER_EVENT_DESC *)

(** A name that is written as it is. *)
Definition name_ok (name : bytes) : Prop := Forall (fun b => 1 <= b < 0x80) name /\ len name < NAME_MAX_SIZE.
Definition named_desc_ok (o : Offsets) (d : EventDesc) : Prop :=
  desc_ok o d /\ name_ok d.(ed_name) /\ d.(ed_attr).(attr_size) = 128 /\ len d.(ed_sample_ids) <= 0x10000.

Definition name_pad (name : bytes) : Z := 8 - Z.land (len name) 7.
Definition desc_bytes (d : EventDesc) : bytes :=
  struct_bytes KEEP_ENDIAN d.(ed_attr) ++ to_ne_bytes 4 (len d.(ed_sample_ids))
  ++ to_ne_bytes 4 (len d.(ed_name) + name_pad d.(ed_name))
  ++ (d.(ed_name) ++ repeat 0 (Z.to_nat (name_pad d.(ed_name)))) ++ ids_bytes d.(ed_sample_ids).
Definition descs_bytes (ds : list EventDesc) : bytes := concat (map desc_bytes ds).
Definition event_desc_header (ds : list EventDesc) : bytes :=
  to_ne_bytes 4 (len ds) ++ to_ne_bytes 4 128 ++ descs_bytes ds.

Lemma name_pad_range name : 1 <= name_pad name <= 8.
Proof.
  unfold name_pad. change 7 with (Z.ones 3). rewrite Z.land_ones by lia.
  pose proof (Z.mod_pos_bound (len name) (2 ^ 3) ltac:(lia)). change (2 ^ 3) with 8 in *. lia.
Qed.
Lemma len_padded_name name : len (name ++ repeat 0 (Z.to_nat (name_pad name))) = len name + name_pad name.
Proof. pose proof (name_pad_range name). rewrite len_app. unfold len at 2. rewrite repeat_length. lia. Qed.
Lemma padded_name_small name : len name < NAME_MAX_SIZE -> len name + name_pad name <= 0x10000.
Proof.
  intros Hn. unfold name_pad, NAME_MAX_SIZE in *. change 7 with (Z.ones 3). rewrite Z.land_ones by lia.
  change (2 ^ 3) with 8. Z.div_mod_to_equations. lia.
Qed.
Lemma as_latin1_ascii name : Forall (fun b => 1 <= b < 0x80) name -> as_latin1 name = name.
Proof.
  intros Hn. unfold as_latin1. replace (existsb _ name) with false; [done|]. symmetry.
  induction Hn as [|b name Hb _ IH]; [done|]. cbn [existsb]. by rewrite (proj2 (Z.ltb_ge 0x7F b)), IH by lia.
Qed.
Lemma append_event_desc_ok o header d : named_desc_ok o d -> append_event_desc header d = Ret (header ++ desc_bytes d).
Proof.
  intros ((_ & _ & _ & Hi) & [Ha Hn] & _ & Hm). pose proof (len_nonneg d.(ed_name)). pose proof (padded_name_small _ Hn) as Hp.
  pose proof (name_pad_range d.(ed_name)). unfold append_event_desc. cbv zeta. rewrite (as_latin1_ascii _ Ha).
  unfold NAME_MAX_SIZE, SAMPLE_IDS_MAX_SIZE in *. rewrite (proj2 (Z.leb_le (len d.(ed_name)) _)) by lia. cbn [rassert mbind outcome_bind].
  rewrite (proj2 (Z.leb_le (len d.(ed_sample_ids)) _)) by lia. cbn [rassert mbind outcome_bind].
  rewrite slice_ok by lia. cbn [mbind outcome_bind]. fold (name_pad d.(ed_name)). rewrite !as_unsigned_id by lia.
  unfold append_int, append_value, desc_bytes.
  replace (sub d.(ed_name) 0 (len d.(ed_name))) with d.(ed_name) by (unfold sub, len; rewrite Z.sub_0_r, Nat2Z.id, drop_0, firstn_all; done).
  by rewrite <- !(app_assoc header), <- !app_assoc.
Qed.
Lemma append_event_descs_ok o header ds : Forall (named_desc_ok o) ds ->
  append_event_descs header ds = Ret (header ++ descs_bytes ds).
Proof.
  intros Hd. revert header. induction Hd as [|d ds Hd _ IH]; intros header; cbn [append_event_descs]; [by rewrite app_nil_r|].
  rewrite (append_event_desc_ok o) by done. cbn [mbind outcome_bind]. rewrite IH. by rewrite <- app_assoc.
Qed.
Lemma synthesize_event_desc_ok o w : Forall (named_desc_ok o) w.(event_descs) -> len w.(event_descs) < 2 ^ 32 ->
  w.(w_headers) !! 12%nat = Some [] ->
  synthesize_event_desc w = Ret (put_header HeaderIndex_EventDesc (event_desc_header w.(event_descs)) w).
Proof.
  intros Hd Hl Hh. unfold synthesize_event_desc, index. change (HeaderIndex_EventDesc <? 0) with false.
  change (Z.to_nat HeaderIndex_EventDesc) with 12%nat. rewrite Hh. cbn [mbind outcome_bind rassert]. change (len [] =? 0) with true.
  cbn [rassert mbind outcome_bind]. pose proof (len_nonneg w.(event_descs)).
  rewrite (proj2 (Z.leb_le (len w.(event_descs)) _)) by lia. cbn [rassert mbind outcome_bind]. cbv zeta.
  rewrite (append_event_descs_ok o) by done. cbn [mbind outcome_bind]. rewrite as_unsigned_id by lia. unfold append_int.
  cbn [app]. rewrite <- app_assoc. done.
Qed.

(** ** Reading it back *)

Lemma before_zero_ok name rest : Forall (fun b => 1 <= b < 0x80) name -> before_zero (name ++ 0 :: rest) = Some name.
Proof.
  induction 1 as [|b name Hb _ IH]; [done|]. cbn [app before_zero]. by rewrite (proj2 (Z.eqb_neq b 0)), IH by lia.
Qed.
Lemma before_zero_padded name : Forall (fun b => 1 <= b < 0x80) name ->
  before_zero (name ++ repeat 0 (Z.to_nat (name_pad name))) = Some name.
Proof.
  intros Hn. pose proof (name_pad_range name). destruct (Z.to_nat (name_pad name)) as [|k] eqn:E; [lia|]. cbn [repeat]. by apply before_zero_ok.
Qed.
Lemma utf8_of_ascii name : Forall (fun b => 1 <= b < 0x80) name -> utf8 name = name.
Proof. intros Hn. apply utf8_ascii_list. eapply List.Forall_impl; [|exact Hn]. cbn. lia. Qed.
Lemma read_u32_at_here {A} data pre v rest (k : Z -> io DataFileReader unit A) d : data = pre ++ to_ne_bytes 4 v ++ rest ->
  0 <= v < 2 ^ 32 -> (read_u32_at KEEP_ENDIAN data (len pre) ≫= k) d = k v d.
Proof.
  intros E Hv. apply io_lift_bind. rewrite E, to_ne_keep. exact (read_u32_here KEEP_ENDIAN pre v rest Hv).
Qed.
Lemma need_ok {A} data pos n (k : unit -> io DataFileReader unit A) d : 0 <= pos -> 0 <= n -> pos + n <= len data -> len data < 2 ^ 64 ->
  (need data pos n ≫= k) d = k tt d.
Proof.
  intros Hp Hn Hl H64. apply io_bind_ok. unfold need. rewrite (io_lift_bind _ (len data - pos)) by (apply checked_ok; lia).
  by rewrite (proj2 (Z.ltb_ge _ n)) by lia.
Qed.
Lemma attr_size_bytes attr : exists tail, struct_bytes KEEP_ENDIAN attr = to_ne_bytes 4 attr.(attr_type) ++ to_ne_bytes 4 attr.(attr_size) ++ tail.
Proof. eexists. unfold struct_bytes. cbn [layout to_fields PerfEventAttr_struct encode_fields]. rewrite !to_ne_keep. reflexivity. Qed.

(** The descriptions with their names. *)
Definition load_named (o : Offsets) (ds : list EventDesc) (a : ReaderAttrs) : ReaderAttrs :=
  fold_left (fun a d => add_desc o (attr_desc a d.(ed_name) d) a) ds a.

Lemma len_desc_bytes d : len (desc_bytes d) = 136 + (len d.(ed_name) + name_pad d.(ed_name)) + 8 * len d.(ed_sample_ids).
Proof.
  unfold desc_bytes. rewrite !len_app, !len_to_ne_bytes, len_struct_bytes, len_ids_bytes.
  pose proof (len_padded_name d.(ed_name)) as Hp. rewrite len_app in Hp. change (size_of PerfEventAttr) with 128. lia.
Qed.

Lemma desc_parts d tail : desc_bytes d ++ tail =
  struct_bytes KEEP_ENDIAN d.(ed_attr) ++ to_ne_bytes 4 (len d.(ed_sample_ids))
  ++ to_ne_bytes 4 (len d.(ed_name) + name_pad d.(ed_name))
  ++ (d.(ed_name) ++ repeat 0 (Z.to_nat (name_pad d.(ed_name)))) ++ ids_bytes d.(ed_sample_ids) ++ tail.
Proof. unfold desc_bytes. by rewrite <- !app_assoc. Qed.
Lemma parse_event_descs_ok o data ds fuel pre d : (length ds < fuel)%nat -> Forall (named_desc_ok o) ds -> len data < 2 ^ 63 ->
  data = pre ++ descs_bytes ds -> has_offsets o d.(attrs) ->
  parse_event_descs fuel KEEP_ENDIAN data 128 (len ds) (len pre) d = Ret (Ok tt, set_attrs (load_named o ds d.(attrs)) d).
Proof.
  revert fuel pre d. induction ds as [|desc ds IH]; intros fuel pre d Hf Hd Hl E Ha; (destruct fuel as [|fuel]; [cbn in Hf; lia|]).
  { cbn [parse_event_descs]. change (len [] <=? 0) with true. unfold mret, io_ret. do 3 f_equal. by destruct d. }
  apply Forall_cons_iff in Hd as [((Hattr & Hids & Ho & Hi) & [Hn Hn2] & Hsize & Hmany) Hd].
  change (descs_bytes (desc :: ds)) with (desc_bytes desc ++ descs_bytes ds) in E.
  pose proof (len_desc_bytes desc) as Ld. pose proof (padded_name_small _ Hn2) as Hps. pose proof (name_pad_range desc.(ed_name)) as Hpr.
  pose proof (len_nonneg pre). pose proof (len_nonneg desc.(ed_name)). pose proof (len_nonneg ds).
  pose proof (len_nonneg (descs_bytes ds)).
  assert (Lall : len data = len pre + len (desc_bytes desc) + len (descs_bytes ds)) by (rewrite E, !len_app; lia).
  cbn [parse_event_descs]. rewrite len_cons, (proj2 (Z.leb_gt _ 0)) by lia.
  rewrite need_ok by lia. cbv zeta.
  rewrite desc_parts in E. set (ab := struct_bytes KEEP_ENDIAN desc.(ed_attr)) in *.
  set (nb := to_ne_bytes 4 (len desc.(ed_sample_ids))) in *. set (sb := to_ne_bytes 4 (len desc.(ed_name) + name_pad desc.(ed_name))) in *.
  set (padded := desc.(ed_name) ++ repeat 0 (Z.to_nat (name_pad desc.(ed_name)))) in *. set (ib := ids_bytes desc.(ed_sample_ids)) in *.
  assert (Lab : len ab = 128) by (unfold ab; by rewrite len_struct_bytes).
  assert (Lnb : len nb = 4) by apply len_to_ne_bytes. assert (Lsb : len sb = 4) by apply len_to_ne_bytes.
  assert (Lpad : len padded = len desc.(ed_name) + name_pad desc.(ed_name)) by apply len_padded_name.
  assert (Lib : len ib = 8 * len desc.(ed_sample_ids)) by apply len_ids_bytes.
  replace (len pre + 128) with (len (pre ++ ab)) by (rewrite len_app; lia).
  erewrite read_u32_at_here; [|rewrite <- ?app_assoc; exact E | lia].
  replace (len (pre ++ ab) + 4) with (len (pre ++ ab ++ nb)) by (rewrite !len_app; lia).
  erewrite read_u32_at_here; [|rewrite <- ?app_assoc; exact E | lia].
  destruct (attr_size_bytes desc.(ed_attr)) as (at_tail & Eat). fold ab in Eat.
  change (len pre + SIZE_OFFSET) with (len pre + 4).
  replace (len pre + 4) with (len (pre ++ to_ne_bytes 4 desc.(ed_attr).(attr_type))) by (by rewrite len_app, len_to_ne_bytes).
  erewrite read_u32_at_here; [|rewrite E at 1; rewrite Eat, <- !app_assoc; reflexivity | lia].
  rewrite Hsize, Z.eqb_refl, (proj2 (Z.ltb_ge 0x10000 _) Hmany), (proj2 (Z.ltb_ge 0x10000 _) Hps). cbn [negb orb].
  assert (Lp2 : len (pre ++ ab) + 8 = len (pre ++ ab ++ nb ++ sb)) by (rewrite !len_app; lia).
  rewrite Lp2, <- Lpad. replace (len desc.(ed_sample_ids) * 8) with (len ib) by lia.
  rewrite need_ok by (rewrite ?len_app; lia).
  set (pre2 := pre ++ ab ++ nb ++ sb) in *. assert (E2 : data = pre2 ++ padded ++ ib ++ descs_bytes ds).
  { unfold pre2. rewrite <- !app_assoc. exact E. }
  rewrite <- (len_app pre2 padded). rewrite (io_lift_bind _ padded) by (rewrite E2; apply slice_here).
  unfold padded at 1. rewrite (before_zero_padded _ Hn).
  assert (E3 : data = (pre2 ++ padded) ++ ib ++ descs_bytes ds) by (by rewrite <- app_assoc).
  rewrite <- (len_app (pre2 ++ padded) ib). rewrite (io_lift_bind _ ib) by (rewrite E3; apply slice_here).
  change (Z.min 128 (size_of PerfEventAttr)) with 128. rewrite <- Lab, <- (len_app pre ab).
  rewrite (io_lift_bind _ ab) by (rewrite E; apply slice_here). rewrite io_get_bind.
  rewrite (io_lift_bind _ (set_attrs (add_desc o (attr_desc d.(attrs) desc.(ed_name) desc) d.(attrs)) d)).
  2: { unfold on_attrs, ab, ib. by rewrite (add_attr_ok _ _ _ _ o Hattr Hids Ho (or_introl Ha)). }
  rewrite io_modify_bind, <- (len_app (pre2 ++ padded) ib), Lab. replace (1 + len ds - 1) with (len ds) by lia.
  rewrite IH; [reflexivity | cbn in Hf; lia | done | done | by rewrite <- app_assoc | apply has_offsets_add].
Qed.

(** ** The headers of a file without tracing data *)

Lemma len_descs_bytes ds : len ds <= len (descs_bytes ds).
Proof.
  induction ds as [|d ds IH]; [done|]. change (descs_bytes (d :: ds)) with (desc_bytes d ++ descs_bytes ds).
  rewrite len_app, len_cons, len_desc_bytes. pose proof (name_pad_range d.(ed_name)). pose proof (len_nonneg d.(ed_name)).
  pose proof (len_nonneg d.(ed_sample_ids)). lia.
Qed.

(** The state of a reader with these descriptions and headers. *)
Lemma parse_header_event_desc_ok o ds d : Forall (named_desc_ok o) ds -> d.(parsed_header_event_desc) = false ->
  d.(session_info).(session_byte_reader) = KEEP_ENDIAN -> has_offsets o d.(attrs) ->
  header_at HeaderIndex_EventDesc d = Ret (event_desc_header ds) -> len (event_desc_header ds) < 2 ^ 63 -> len ds < 2 ^ 32 ->
  parse_header_event_desc d
  = Ret (set_attrs (load_named o ds d.(attrs)) (set_parsed_header_event_desc true d)).
Proof.
  intros Hd Hp Hr Ha Hh Hl Hn. pose proof (len_nonneg ds). unfold parse_header_event_desc, parsed. rewrite io_get_bind, (io_lift_bind _ _ _ _ Hh), Hp.
  assert (L8 : len (event_desc_header ds) = 8 + len (descs_bytes ds)) by (unfold event_desc_header; rewrite !len_app, !len_to_ne_bytes; lia).
  pose proof (len_nonneg (descs_bytes ds)). rewrite (proj2 (Z.ltb_ge _ 8)) by lia. cbn [orb]. rewrite io_modify_bind. cbv zeta. rewrite Hr.
  erewrite (read_u32_at_here _ []); [|reflexivity|lia].
  replace 4 with (len (to_ne_bytes 4 (len ds))) at 1 by apply len_to_ne_bytes.
  erewrite (read_u32_at_here _ (to_ne_bytes 4 (len ds))); [|reflexivity|lia].
  change ((AttrSize_Ver0 <=? 128) && (128 <=? 0x10000)) with true. cbn [negb].
  replace 8 with (len (to_ne_bytes 4 (len ds) ++ to_ne_bytes 4 128)) by (by rewrite len_app, !len_to_ne_bytes).
  rewrite (parse_event_descs_ok o); [done | | done | done | unfold event_desc_header; by rewrite <- app_assoc | done].
  pose proof (len_descs_bytes ds). unfold len in *. lia.
Qed.

(** The parsers of the clock headers take any bytes. *)
Definition same_endian (s s' : PerfSessionInfo) : Prop := s'.(session_byte_reader) = s.(session_byte_reader).
Lemma set_clock_data_total id wall time s : 0 <= wall < 2 ^ 64 -> 0 <= time < 2 ^ 64 ->
  exists s', set_clock_data id wall time s = Ret s' /\ same_endian s s'.
Proof.
  intros Hw Ht. destruct (Z.eq_dec id (2 ^ 32 - 1)) as [->|Hid]; [by eexists|].
  exists (offset_state id wall time s). by split; [apply set_clock_data_ok|].
Qed.
Lemma take_8_bound r l : bytes_ok l -> 0 <= from_source_bytes r (take 8 l) < 2 ^ 64.
Proof.
  intros Hl. pose proof (from_source_bytes_bound r (take 8 l) ltac:(by apply Forall_take)) as Hb.
  assert (256 ^ len (take 8 l) <= 256 ^ 8) by (apply Z.pow_le_mono_r; [lia | unfold len; rewrite length_take; lia]).
  change (256 ^ 8) with (2 ^ 64) in *. lia.
Qed.
Lemma swap_bytes_bound v : 0 <= swap_bytes 8 v < 2 ^ 64.
Proof.
  unfold swap_bytes. pose proof (le_value_bound _ (be_bytes_ok 8 v)) as Hb. unfold len in Hb. by rewrite length_be_bytes in Hb.
Qed.
Definition plain_header (i : Z) : Prop := i <> HeaderIndex_TracingData /\ i <> HeaderIndex_EventDesc.
Lemma parse_plain_header i d h : plain_header i -> header_at i d = Ret h -> bytes_ok h ->
  exists s, parse_header i d = Ret (set_session_info s d) /\ same_endian d.(session_info) s.
Proof.
  intros [N1 N2] Hh Hb. unfold parse_header.
  destruct (Z.eqb_spec i HeaderIndex_ClockId) as [->|_]; [|destruct (Z.eqb_spec i HeaderIndex_ClockData) as [->|_]].
  - unfold parse_header_clockid. rewrite Hh. cbn [mbind outcome_bind].
    destruct (Z.leb_spec 8 (len h)); [|exists d.(session_info); by destruct d].
    unfold read_u64. rewrite read_uint_ok by lia. cbn [mbind outcome_bind]. unfold on_session. by eexists.
  - unfold parse_header_clock_data. rewrite Hh. cbn [mbind outcome_bind]. change (size_of ClockData) with 24.
    destruct (Z.ltb_spec (len h) 24); [exists d.(session_info); by destruct d|].
    set (cd := if byte_swap_needed _ then _ else _). destruct (1 <=? _); [|exists d.(session_info); by destruct d].
    assert (Hcd : 0 <= cd.(cd_wall_clock_ns) < 2 ^ 64 /\ 0 <= cd.(cd_clockid_time_ns) < 2 ^ 64).
    { unfold cd, struct_of_bytes. cbn [layout ClockData_struct of_fields decode_fields].
      destruct (byte_swap_needed _); cbn [clock_byte_swap cd_wall_clock_ns cd_clockid_time_ns field nth];
        [split; apply swap_bytes_bound | split; apply take_8_bound; by repeat apply Forall_drop]. }
    destruct (set_clock_data_total cd.(cd_clockid) _ _ d.(session_info) (proj1 Hcd) (proj2 Hcd)) as (s & E & Hs).
    unfold on_session. rewrite E. by exists s.
  - rewrite (proj2 (Z.eqb_neq _ _) N2), (proj2 (Z.eqb_neq _ _) N1). exists d.(session_info). by destruct d.
Qed.

Lemma parse_headers_app i hs hs' d : parse_headers i (hs ++ hs') d = d ← parse_headers i hs d; parse_headers (i + len hs) hs' d.
Proof.
  revert i d. induction hs as [|h hs IH]; intros i d; cbn [app parse_headers].
  - cbn [mbind outcome_bind]. change (len []) with 0. by rewrite Z.add_0_r.
  - destruct (if is_present h then _ else _) as [d1|]; cbn [mbind outcome_bind]; [|done].
    rewrite IH. replace (i + len (h :: hs)) with (i + 1 + len hs) by (rewrite len_cons; lia). done.
Qed.
Lemma absent_header h : is_present h = false -> h = [].
Proof.
  unfold is_present. intros E. apply negb_false_iff, Z.eqb_eq in E. destruct h; [done|].
  rewrite len_cons in E. pose proof (len_nonneg h). lia.
Qed.
(** Header [i] is set; the ones after it are not yet. *)
Lemma set_header_here pre h old post d : d.(headers) = pre ++ old :: post ->
  set_header (len pre) h d = Ret (set_headers (pre ++ h :: post) d).
Proof.
  intros E. unfold set_header, store. rewrite E, len_app, len_cons. pose proof (len_nonneg pre). pose proof (len_nonneg post).
  rewrite (proj2 (Z.leb_le 0 _)), (proj2 (Z.ltb_lt _ _)) by lia. cbn [andb mbind outcome_bind].
  unfold len. rewrite Nat2Z.id. by rewrite insert_app_r_alt, Nat.sub_diag.
Qed.
Lemma header_at_here pre h post d : d.(headers) = pre ++ h :: post -> header_at (len pre) d = Ret h.
Proof.
  intros E. unfold header_at. rewrite E. unfold index. pose proof (len_nonneg pre). rewrite (proj2 (Z.ltb_ge _ 0)) by lia.
  unfold len. by rewrite Nat2Z.id, lookup_app_r, Nat.sub_diag.
Qed.

Lemma parse_plain_headers hs pre n d : d.(headers) = pre ++ repeat [] (length hs + n) -> Forall bytes_ok hs ->
  (forall k h, hs !! k = Some h -> is_present h = true -> plain_header (len pre + Z.of_nat k)) ->
  exists s, parse_headers (len pre) hs d = Ret (set_session_info s (set_headers ((pre ++ hs) ++ repeat [] n) d)) /\
    same_endian d.(session_info) s.
Proof.
  revert pre d. induction hs as [|h hs IH]; intros pre d Eh Hb Hp; cbn [parse_headers].
  - exists d.(session_info). cbn [length Nat.add] in Eh. rewrite app_nil_r, <- Eh. split; [by destruct d | done].
  - apply Forall_cons_iff in Hb as [Hh Hb]. cbn [length Nat.add repeat] in Eh.
    assert (Hp' : forall k h', hs !! k = Some h' -> is_present h' = true -> plain_header (len (pre ++ [h]) + Z.of_nat k)).
    { intros k h' E Ep. rewrite len_app. change (len [h]) with 1. replace (len pre + 1 + Z.of_nat k) with (len pre + Z.of_nat (S k)) by lia.
      by apply (Hp (S k) h'). }
    assert (Hstep : exists s, (if is_present h then d ← set_header (len pre) h d; parse_header (len pre) d else Ret d)
      = Ret (set_session_info s (set_headers (pre ++ h :: repeat [] (length hs + n)) d)) /\ same_endian d.(session_info) s).
    { destruct (is_present h) eqn:Ep.
      - rewrite (set_header_here _ _ _ _ _ Eh). cbn [mbind outcome_bind].
        specialize (Hp 0%nat h eq_refl Ep). rewrite Z.add_0_r in Hp.
        apply (parse_plain_header (len pre) (set_headers (pre ++ h :: repeat [] (length hs + n)) d) h Hp); [by eapply header_at_here | done].
      - exists d.(session_info). rewrite (absent_header h Ep), <- Eh. split; [by destruct d | done]. }
    destruct Hstep as (s1 & -> & Hs1). cbn [mbind outcome_bind].
    destruct (IH (pre ++ [h]) (set_session_info s1 (set_headers (pre ++ h :: repeat [] (length hs + n)) d))) as (s & E & Hs); try done.
    { cbn [headers set_headers set_session_info]. by rewrite <- app_assoc. }
    exists s. rewrite len_app in E. change (len [h]) with 1 in E. rewrite E. split; [by rewrite <- !app_assoc|].
    unfold same_endian in *. by rewrite Hs.
Qed.

(** A file whose only headers that change the descriptions are the synthesized ones. *)
Lemma parse_all_headers o order v bs ds a hs : length hs = 32%nat -> Forall bytes_ok hs -> hs !! 1%nat = Some [] ->
  hs !! 12%nat = Some (event_desc_header ds) -> Forall (named_desc_ok o) ds -> has_offsets o a -> len ds < 2 ^ 32 ->
  len (event_desc_header ds) < 2 ^ 63 ->
  exists s, parse_headers 0 hs (opened order v bs a)
    = Ret (set_session_info s (set_headers hs (set_attrs (load_named o ds a)
             (set_parsed_header_event_desc true (opened order v bs a))))) /\
    s.(session_byte_reader) = KEEP_ENDIAN.
Proof.
  intros Hl Hb H1 H12 Hd Ha Hn Hlen. rewrite <- (take_drop_middle _ _ _ H12) in Hb |- *.
  set (h1 := take 12 hs) in *. set (h2 := drop 13 hs) in *.
  assert (L1 : length h1 = 12%nat) by (unfold h1; rewrite length_take; lia).
  assert (L2 : length h2 = 19%nat) by (unfold h2; rewrite length_drop; lia).
  apply Forall_app in Hb as [Hb1 Hb]. apply Forall_cons_iff in Hb as [_ Hb2].
  rewrite parse_headers_app. replace (0 + len h1) with 12 by (unfold len; rewrite L1; done).
  destruct (parse_plain_headers h1 [] 20 (opened order v bs a)) as (s1 & E1 & Hs1); [by rewrite L1 | done | |].
  { intros k h E Ep. change (len []) with 0. pose proof (lookup_lt_Some _ _ _ E).
    assert (k <> 1)%nat. { intros ->. unfold h1 in E. rewrite lookup_take_lt in E by lia. rewrite H1 in E. injection E as <-. done. }
    unfold plain_header, HeaderIndex_TracingData, HeaderIndex_EventDesc. lia. }
  change (len []) with 0 in E1. rewrite E1. cbn [mbind outcome_bind app parse_headers]. clear E1.
  set (h12 := event_desc_header ds) in *. set (d1 := set_session_info s1 _).
  assert (P12 : is_present h12 = true).
  { unfold is_present, h12, event_desc_header. rewrite !len_app, !len_to_ne_bytes. pose proof (len_nonneg (descs_bytes ds)).
    apply negb_true_iff, Z.eqb_neq. lia. }
  rewrite P12. replace 12 with (len h1) by (unfold len; by rewrite L1).
  rewrite (set_header_here h1 h12 [] (repeat [] 19) d1) by done. cbn [mbind outcome_bind].
  assert (E12 : parse_header (len h1) (set_headers (h1 ++ h12 :: repeat [] 19) d1)
    = Ret (set_attrs (load_named o ds a) (set_parsed_header_event_desc true (set_headers (h1 ++ h12 :: repeat [] 19) d1)))).
  { replace (len h1) with 12 by (unfold len; by rewrite L1). change (parse_header 12) with parse_header_event_desc.
    apply (parse_header_event_desc_ok o); try done.
    change HeaderIndex_EventDesc with 12. replace 12 with (len h1) by (unfold len; by rewrite L1). by eapply header_at_here. }
  rewrite E12. cbn [mbind outcome_bind].
  destruct (parse_plain_headers h2 (h1 ++ [h12]) 0 (set_attrs (load_named o ds a) (set_parsed_header_event_desc true
    (set_headers (h1 ++ h12 :: repeat [] 19) d1)))) as (s2 & E2 & Hs2).
  { cbn [headers set_attrs set_parsed_header_event_desc set_headers]. rewrite L2. by rewrite <- app_assoc. }
  { done. }
  { intros k h E Ep. rewrite len_app. replace (len h1) with 12 by (unfold len; by rewrite L1). change (len [h12]) with 1.
    unfold plain_header, HeaderIndex_TracingData, HeaderIndex_EventDesc. lia. }
  rewrite len_app in E2. change (len [h12]) with 1 in E2. rewrite E2. exists s2. split.
  - rewrite app_nil_r, <- app_assoc. done.
  - unfold same_endian in *. rewrite Hs2. cbn. by rewrite Hs1.
Qed.
End RoundTrip.
