(* ===== verification/FileSpec.v ===== *)
(** * FileSpec: what a perf.data file is for

    A file abstractly: its events in order, the descriptions of their ids, and its
    headers.  The writer's operations change it as they should, and what a reader of the
    finished file shows is it. *)

From stdpp Require Import gmap.
From S2P Require Import Prelude Strings Types ByteReader Text Writers TextSpec Session FieldFormat PerfAbi PerfIo EventFormat.
From S2P Require Import FieldFormatProps FieldLine EventFormatProps SampleInfo SampleProps FileReader FileWriter FileBytes FileOpen.
From S2P Require Import SessionProps FileEvents FileRoundTrip.

(** ** Documents *)

(** What a file holds. *)
Record Document := { doc_events : list Event; doc_descs : list EventDesc; doc_headers : list bytes }.
Definition empty_document : Document := {| doc_events := []; doc_descs := []; doc_headers := repeat [] 32 |}.

(** What a program does with a writer. *)
Inductive WriterOp :=
| WriteEvent (e : Event)
| AddDesc (d : EventDesc)
| SetHeader (i : nat) (header : bytes).

Definition apply_op (op : WriterOp) (doc : Document) : Document :=
  match op with
  | WriteEvent e =>
    {| doc_events := doc.(doc_events) ++ [e]; doc_descs := doc.(doc_descs); doc_headers := doc.(doc_headers) |}
  | AddDesc d =>
    {| doc_events := doc.(doc_events); doc_descs := doc.(doc_descs) ++ [d]; doc_headers := doc.(doc_headers) |}
  | SetHeader i header =>
    {| doc_events := doc.(doc_events); doc_descs := doc.(doc_descs); doc_headers := <[i := header]> doc.(doc_headers) |}
  end.
Definition apply_ops (ops : list WriterOp) (doc : Document) : Document := fold_left (fun doc op => apply_op op doc) ops doc.

Section Spec.
Context `{Target} `{Sys : WriteSystem} `{Takes : !SystemTakes}.

(** The calls; the result says that the writer took it. *)
Definition run_op (op : WriterOp) (p : PerfDataFileWriter) : outcome (bool * PerfDataFileWriter) :=
  match op with
  | WriteEvent e =>
    '(res, p) ← write_event_data (ev_bytes e) p;
    Ret (match res with Ok _ => true | Err _ => false end, p)
  | AddDesc d => add_event_desc d.(ed_sample_ids) d.(ed_attr) d.(ed_name) p
  | SetHeader i header => Ret (set_header_data (Z.of_nat i) header p)
  end.
Fixpoint run_ops (ops : list WriterOp) (p : PerfDataFileWriter) : outcome (bool * PerfDataFileWriter) :=
  match ops with
  | [] => Ret (true, p)
  | op :: ops =>
    '(taken, p) ← run_op op p;
    if taken : bool then run_ops ops p else Ret (false, p)
  end.

(** Operations of a program that describes its events and leaves the headers of the
    tracing data and of the descriptions to the writer. *)
Definition op_ok (o : Offsets) (op : WriterOp) : Prop :=
  match op with
  | WriteEvent e => event_ok e
  | AddDesc d => named_desc_ok o d
  | SetHeader i header =>
    (i < 32)%nat /\ plain_header (Z.of_nat i) /\ bytes_ok header /\ len header < 0x80000000
  end.
Definition doc_ids (doc : Document) : list Z := concat (map ed_sample_ids doc.(doc_descs)).
(** The headers with the one that the writer adds. *)
Definition all_headers (doc : Document) : list bytes := <[12%nat := event_desc_header doc.(doc_descs)]> doc.(doc_headers).
Definition doc_bytes (doc : Document) : bytes := file_bytes (events_bytes doc.(doc_events)) (all_headers doc) doc.(doc_descs).
Record document_ok (o : Offsets) (doc : Document) : Prop := {
  ok_events : Forall event_ok doc.(doc_events);
  ok_descs : Forall (named_desc_ok o) doc.(doc_descs);
  ok_length : length doc.(doc_headers) = 32%nat;
  ok_headers : Forall (fun h => bytes_ok h /\ len h < 0x80000000) doc.(doc_headers);
  ok_tracing : doc.(doc_headers) !! 1%nat = Some [];
  ok_desc_header : doc.(doc_headers) !! 12%nat = Some [];
}.

Lemma empty_document_ok o : document_ok o empty_document.
Proof.
  split; try done. cbn [doc_headers empty_document]. repeat constructor.
Qed.
Lemma apply_op_ok o op doc : op_ok o op -> document_ok o doc -> document_ok o (apply_op op doc).
Proof.
  intros Ho [H1 H2 H3 H4 H5 H6]. destruct op as [e|d|i h]; split; cbn [apply_op doc_events doc_descs doc_headers]; try done;
    try (apply Forall_app; split; [done | by constructor]).
  - by rewrite length_insert.
  - destruct Ho as (_ & _ & Hb & Hl). by apply Forall_insert.
  - destruct Ho as (_ & [N _] & _). rewrite list_lookup_insert_ne; [done|]. unfold HeaderIndex_TracingData in N. lia.
  - destruct Ho as (_ & [_ N] & _). rewrite list_lookup_insert_ne; [done|]. unfold HeaderIndex_EventDesc in N. lia.
Qed.
Lemma apply_ops_ok o ops doc : Forall (op_ok o) ops -> document_ok o doc -> document_ok o (apply_ops ops doc).
Proof.
  intros Hops. revert doc. induction Hops as [|op ops Hop _ IH]; intros doc Hd; [done|]. by apply IH, apply_op_ok.
Qed.

(** ** The writer *)

(** A writer with an open file that holds the document so far. *)
Record represents (p : PerfDataFileWriter) (doc : Document) : Prop := {
  rep_file : writing p (events_bytes doc.(doc_events));
  rep_descs : p.(pw_inner).(event_descs) = doc.(doc_descs);
  rep_headers : p.(pw_inner).(w_headers) = doc.(doc_headers);
  rep_tracing : p.(pw_inner).(w_tracing) = WriterTracing_new;
}.

Lemma events_bytes_app es es' : events_bytes (es ++ es') = events_bytes es ++ events_bytes es'.
Proof. unfold events_bytes. by rewrite map_app, concat_app. Qed.

Lemma write_event_ok p doc e : represents p doc -> len (events_bytes (doc.(doc_events) ++ [e])) < 2 ^ 63 ->
  exists p', run_op (WriteEvent e) p = Ret (true, p') /\ represents p' (apply_op (WriteEvent e) doc).
Proof.
  intros [(hdr & Hh & Hf) H2 H3 H4] Hl. rewrite events_bytes_app in Hl. rewrite len_app in Hl.
  assert (Ee : events_bytes [e] = ev_bytes e) by apply app_nil_r. rewrite Ee in Hl.
  eexists. split.
  - unfold run_op, write_event_data. erewrite with_file_ok; [reflexivity | exact Hf |].
    apply write_all_end. rewrite !len_app. lia.
  - split; try done. exists hdr. split; [done|]. cbn [pw_file set_pw_file apply_op doc_events].
    by rewrite events_bytes_app, Ee, app_assoc.
Qed.

Lemma strlen_no_nul name : Forall (fun b => 1 <= b < 0x80) name -> strlen name = len name.
Proof.
  intros Hn. unfold strlen. assert (E : before_zero name = None); [|by rewrite E].
  induction Hn as [|b name Hb _ IH]; [done|]. cbn [before_zero]. by rewrite (proj2 (Z.eqb_neq b 0)), IH by lia.
Qed.
Lemma str_slice_all name : Forall (fun b => 1 <= b < 0x80) name -> str_slice name 0 (len name) = Ret name.
Proof.
  intros Hn. pose proof (str_slice_here [] name []) as E. rewrite !app_nil_l, app_nil_r in E. apply E.
  eapply List.Forall_impl; [|exact Hn]. cbn. lia.
Qed.
Lemma add_desc_ok o p doc d : represents p doc -> named_desc_ok o d -> len doc.(doc_descs) < 2 ^ 24 ->
  exists p', run_op (AddDesc d) p = Ret (true, p') /\ represents p' (apply_op (AddDesc d) doc).
Proof.
  intros [H1 H2 H3 H4] (_ & [Hn Hl] & _ & Hi) Hd. unfold NAME_MAX_SIZE in *.
  assert (Ev : desc_args_valid d.(ed_sample_ids) d.(ed_name) p.(pw_inner) = true).
  { unfold desc_args_valid, NAME_MAX_SIZE, SAMPLE_IDS_MAX_SIZE. rewrite H2, !(proj2 (Z.leb_gt _ _)) by lia. done. }
  unfold run_op, add_event_desc. rewrite Ev. unfold DataFileWriter_add_event_desc.
  rewrite (strlen_no_nul _ Hn), (str_slice_all _ Hn). cbn [negb mbind outcome_bind].
  eexists. split; [reflexivity|]. split; try done. cbn. rewrite H2. by destruct d.
Qed.
Lemma set_header_ok p doc i h : represents p doc -> (i < length doc.(doc_headers))%nat ->
  exists p', run_op (SetHeader i h) p = Ret (true, p') /\ represents p' (apply_op (SetHeader i h) doc).
Proof.
  intros [H1 H2 H3 H4] Hi. unfold run_op, set_header_data, get_header_vec. rewrite Nat2Z.id, H3.
  destruct (lookup_lt_is_Some_2 _ _ Hi) as [old ->]. eexists. split; [reflexivity|].
  split; try done. unfold apply_op. cbn. by rewrite Nat2Z.id, H3.
Qed.

(** The document never shrinks. *)
Lemma apply_ops_grows ops doc : len (events_bytes doc.(doc_events)) <= len (events_bytes (apply_ops ops doc).(doc_events)) /\
  len doc.(doc_descs) <= len (apply_ops ops doc).(doc_descs).
Proof.
  revert doc. induction ops as [|op ops IH]; intros doc; [done|]. destruct (IH (apply_op op doc)) as [H1 H2].
  change (apply_ops (op :: ops) doc) with (apply_ops ops (apply_op op doc)).
  assert (H' : len (events_bytes doc.(doc_events)) <= len (events_bytes (apply_op op doc).(doc_events)) /\
    len doc.(doc_descs) <= len (apply_op op doc).(doc_descs)); [|lia].
  destruct op as [e|d|i h]; cbn [apply_op doc_events doc_descs]; rewrite ?events_bytes_app, ?len_app; [|pose proof (len_nonneg [d])|]; try lia.
  pose proof (len_nonneg (events_bytes [e])). lia.
Qed.
(** Every run of the writer is a run of the document. *)
Lemma run_ops_ok o ops p doc : Forall (op_ok o) ops -> document_ok o doc -> represents p doc ->
  len (events_bytes (apply_ops ops doc).(doc_events)) < 2 ^ 63 -> len (apply_ops ops doc).(doc_descs) < 2 ^ 24 ->
  exists p', run_ops ops p = Ret (true, p') /\ represents p' (apply_ops ops doc).
Proof.
  intros Hops. revert p doc. induction Hops as [|op ops Hop _ IH]; intros p doc Hd Hp He Hn; cbn [run_ops].
  - by exists p.
  - change (apply_ops (op :: ops) doc) with (apply_ops ops (apply_op op doc)) in *.
    destruct (apply_ops_grows ops (apply_op op doc)) as [G1 G2].
    assert (Hs : exists p', run_op op p = Ret (true, p') /\ represents p' (apply_op op doc)).
    { destruct op as [e|d|i h].
      - apply write_event_ok; [done|]. exact (Z.le_lt_trans _ _ _ G1 He).
      - apply (add_desc_ok o); try done. pose proof (Z.le_lt_trans _ _ _ G2 Hn) as G.
        cbn [apply_op doc_descs] in G. rewrite len_app in G. change (len [d]) with 1 in G. lia.
      - apply set_header_ok; [done|]. destruct Hop as [Hi _]. by rewrite (ok_length _ _ Hd). }
    destruct Hs as (p' & -> & Hp'). cbn [mbind outcome_bind]. apply IH; try done. by apply apply_op_ok.
Qed.

Lemma create_file_ok `{FileSystem} path p : fs_create path = Ok tt -> length p.(pw_inner).(w_headers) = 32%nat ->
  exists p', create_file path p = Ret (Ok tt, p') /\ represents p' empty_document.
Proof.
  intros Hc Hl. unfold create_file, OutputFile_new. rewrite Hc.
  change {| out_inner := _; out_pos := 0 |} with (at_end []). rewrite (write_struct_end [] header_default) by done.
  cbn [mbind outcome_bind]. eexists. split; [reflexivity|]. split; try done.
  - exists (struct_bytes KEEP_ENDIAN header_default). split; [by rewrite len_struct_bytes|].
    cbn [pw_file set_pw_file]. by rewrite app_nil_l, app_nil_r.
  - change (map (fun _ => []) p.(pw_inner).(w_headers) = repeat (@nil Z) 32). rewrite <- Hl. clear. induction p.(pw_inner).(w_headers) as [|h hs IH]; [done|]. cbn. by rewrite IH.
Qed.
Lemma finalize_represents o p doc : represents p doc -> document_ok o doc -> len doc.(doc_descs) < 2 ^ 24 ->
  len (doc_bytes doc) < 2 ^ 63 ->
  exists p', finalize_and_close p = Ret (Ok tt, p') /\ p'.(pw_closed) = Some (doc_bytes doc) /\ p'.(pw_file) = None.
Proof.
  intros [H1 H2 H3 H4] [_ Hd Hl _ _ Hh] Hn Hs.
  pose proof (finalize_ok p (events_bytes doc.(doc_events)) (put_header HeaderIndex_EventDesc (event_desc_header doc.(doc_descs)) p.(pw_inner)) H1) as F.
  cbn [w_headers put_header set_w_headers event_descs] in F. rewrite H2, H3 in F. apply F; [|exact Hs].
  unfold synthesize_tracing_data. rewrite H4. cbn [wt_long_size WriterTracing_new Z.eqb orb mbind outcome_bind].
  rewrite (synthesize_event_desc_ok o); rewrite ?H2, ?H3; try done. lia.
Qed.

(** ** The reader *)

(** The descriptions of [pds] in order. *)
Definition add_descs (o : Offsets) (pds : list PerfEventDesc) (a : ReaderAttrs) : ReaderAttrs :=
  fold_left (fun a pd => add_desc o pd a) pds a.
Lemma add_desc_parts o pd a :
  (add_desc o pd a).(event_desc_list) = a.(event_desc_list) ++ [pd] /\ (add_desc o pd a).(format_by_id) = a.(format_by_id) /\
  (add_desc o pd a).(event_desc_id_to_index)
  = fold_left (fun m id => <[id := len a.(event_desc_list)]> m) pd.(pd_ids) a.(event_desc_id_to_index).
Proof. by destruct o as [[[? ?] ?] ?]. Qed.
Lemma insert_ids_lookup ids n (m : gmap Z Z) id :
  fold_left (fun m id => <[id := n]> m) ids m !! id = if bool_decide (id ∈ ids) then Some n else m !! id.
Proof.
  revert m. induction ids as [|i ids IH]; intros m; cbn [fold_left]; [done|]. rewrite IH.
  destruct (decide (id ∈ ids)) as [Hi|Hi].
  - rewrite !bool_decide_eq_true_2 by (done || by right). done.
  - rewrite (bool_decide_eq_false_2 (id ∈ ids)) by done. destruct (decide (id = i)) as [->|Ne].
    + rewrite bool_decide_eq_true_2 by left. by rewrite lookup_insert_eq.
    + rewrite lookup_insert_ne by done. rewrite bool_decide_eq_false_2; [done|]. by intros [?|?]%elem_of_cons.
Qed.
Lemma add_descs_parts o pds a :
  (add_descs o pds a).(event_desc_list) = a.(event_desc_list) ++ pds /\ (add_descs o pds a).(format_by_id) = a.(format_by_id).
Proof.
  revert a. induction pds as [|pd pds IH]; intros a; [by rewrite app_nil_r|]. destruct (add_desc_parts o pd a) as (E1 & E2 & _).
  change (add_descs o (pd :: pds) a) with (add_descs o pds (add_desc o pd a)). destruct (IH (add_desc o pd a)) as [-> ->].
  by rewrite E1, E2, <- app_assoc.
Qed.
(** An id leads to the last description with it. *)
Lemma add_descs_other o pds a id : id ∉ concat (map pd_ids pds) ->
  (add_descs o pds a).(event_desc_id_to_index) !! id = a.(event_desc_id_to_index) !! id.
Proof.
  revert a. induction pds as [|pd pds IH]; intros a Hid; [done|]. cbn [map concat] in Hid. apply not_elem_of_app in Hid as [N1 N2].
  change (add_descs o (pd :: pds) a) with (add_descs o pds (add_desc o pd a)). rewrite IH by done.
  destruct (add_desc_parts o pd a) as (_ & _ & ->). by rewrite insert_ids_lookup, bool_decide_eq_false_2.
Qed.
Lemma add_descs_at o pds a k pd id : NoDup (concat (map pd_ids pds)) -> pds !! k = Some pd -> id ∈ pd.(pd_ids) ->
  (add_descs o pds a).(event_desc_id_to_index) !! id = Some (len a.(event_desc_list) + Z.of_nat k).
Proof.
  revert a k. induction pds as [|pd' pds IH]; intros a k Hn Ek Hid; [done|]. cbn [map concat] in Hn. apply list.NoDup_app in Hn as (_ & Hd & Hn).
  change (add_descs o (pd' :: pds) a) with (add_descs o pds (add_desc o pd' a)).
  destruct (add_desc_parts o pd' a) as (E1 & _ & E3). destruct k as [|k]; cbn in Ek.
  - injection Ek as ->. rewrite add_descs_other by (by apply Hd). rewrite E3, insert_ids_lookup, bool_decide_eq_true_2 by done.
    by rewrite Z.add_0_r.
  - rewrite (IH _ k Hn Ek Hid), E1, len_app. change (len [pd']) with 1. f_equal. lia.
Qed.

(** What the reader gives for a description. *)
Definition shown_desc (d : EventDesc) : PerfEventDesc := PerfEventDesc_new d.(ed_attr) d.(ed_name) None d.(ed_sample_ids).
Definition nameless (d : EventDesc) : EventDesc := {| ed_name := []; ed_sample_ids := d.(ed_sample_ids); ed_attr := d.(ed_attr) |}.
Lemma attr_desc_shown o a d : named_desc_ok o d -> a.(format_by_id) = ∅ -> attr_desc a d.(ed_name) d = shown_desc d /\
  attr_desc a [] d = shown_desc (nameless d).
Proof.
  intros (_ & [Hn _] & Hs & _) Ha. unfold attr_desc, shown_desc, nameless. rewrite (utf8_of_ascii _ Hn). change (utf8 []) with (@nil Z).
  assert (Ef : desc_format a d.(ed_attr) = None) by (unfold desc_format; rewrite Ha, lookup_empty; by case_match).
  assert (Ea : set_attr_size 128 d.(ed_attr) = d.(ed_attr)) by (destruct (ed_attr d); cbn in *; by subst).
  by rewrite Ef, Ea.
Qed.
Lemma load_descs_eq o ds a : Forall (named_desc_ok o) ds -> a.(format_by_id) = ∅ ->
  load_named o ds a = add_descs o (map shown_desc ds) a /\ load_descs o ds a = add_descs o (map shown_desc (map nameless ds)) a.
Proof.
  intros Hd. revert a. induction Hd as [|d ds Hd _ IH]; intros a Ha; [done|]. destruct (attr_desc_shown o a d Hd Ha) as [E1 E2].
  unfold load_named, load_descs, add_descs in *. cbn [map fold_left]. rewrite E1, E2.
  split; apply IH; destruct (add_desc_parts o (shown_desc d) a) as (_ & F1 & _);
    destruct (add_desc_parts o (shown_desc (nameless d)) a) as (_ & F2 & _); congruence.
Qed.
Lemma shown_ids ds : concat (map pd_ids (map shown_desc ds)) = concat (map ed_sample_ids ds).
Proof. by rewrite map_map. Qed.

Lemma event_desc_header_bytes_ok o ds : Forall (named_desc_ok o) ds -> bytes_ok (event_desc_header ds).
Proof.
  assert (Hx : forall n v, bytes_ok (to_ne_bytes n v)) by (intros; rewrite to_ne_keep; apply to_source_bytes_ok).
  intros Hd. unfold event_desc_header. repeat (apply Forall_app; split; [apply Hx|]).
  induction Hd as [|d ds (_ & [Hn _] & _) _ IH]; [constructor|].
  change (descs_bytes (d :: ds)) with (desc_bytes d ++ descs_bytes ds). apply Forall_app. split; [|exact IH].
  unfold desc_bytes. apply Forall_app. split; [apply struct_bytes_ok|]. repeat (apply Forall_app; split; try apply Hx).
  - eapply List.Forall_impl; [|exact Hn]. unfold is_u8. cbn. lia.
  - apply List.Forall_forall. intros b ->%repeat_spec. done.
  - unfold ids_bytes. induction (ed_sample_ids d) as [|id ids IHi]; [constructor|]. cbn [map concat]. apply Forall_app.
    split; [apply Hx | exact IHi].
Qed.
Lemma event_desc_header_size o ds : Forall (named_desc_ok o) ds -> 8 + 145 * len ds <= len (event_desc_header ds).
Proof.
  intros Hd. unfold event_desc_header. rewrite !len_app, !len_to_ne_bytes.
  enough (145 * len ds <= len (descs_bytes ds)) by lia. induction Hd as [|d ds ((_ & _ & _ & Hi) & _) _ IH]; [done|].
  change (descs_bytes (d :: ds)) with (desc_bytes d ++ descs_bytes ds). rewrite len_app, len_cons, len_desc_bytes.
  pose proof (name_pad_range d.(ed_name)). pose proof (len_nonneg d.(ed_name)). lia.
Qed.

(** What a reader shows of a document. *)
Record shows (r : PerfDataFileReader) (doc : Document) : Prop := {
  show_events : exists r', read_all (Datatypes.S (length doc.(doc_events))) r = Ret (map shown doc.(doc_events), Ok false, r');
  show_headers : forall i h, all_headers doc !! i = Some h -> pr_header (Z.of_nat i) r = Ret h;
  show_descs : forall d id, d ∈ doc.(doc_descs) -> id ∈ d.(ed_sample_ids) -> event_desc_by_id id r = Ret (Some (shown_desc d));
  show_no_desc : forall id, id ∉ doc_ids doc -> event_desc_by_id id r = Ret None;
}.
(** Sizes that the reader takes. *)
Definition document_fits (doc : Document) : Prop :=
  len (doc_bytes doc) < 2 ^ 63 /\ len (event_desc_header doc.(doc_descs)) < 0x80000000.

(** The descriptions of an opened file: those of its attributes and those with names. *)
Definition loaded (o : Offsets) (ds : list EventDesc) : ReaderAttrs := load_named o ds (load_descs o ds ReaderAttrs_new).
Lemma loaded_eq o ds : Forall (named_desc_ok o) ds ->
  loaded o ds = add_descs o (map shown_desc ds) (add_descs o (map shown_desc (map nameless ds)) ReaderAttrs_new).
Proof.
  intros Hd. unfold loaded. destruct (load_descs_eq o ds ReaderAttrs_new Hd eq_refl) as [_ ->].
  apply (load_descs_eq o); [done|]. by destruct (add_descs_parts o (map shown_desc (map nameless ds)) ReaderAttrs_new) as [_ ->].
Qed.
Lemma nameless_ids ds : concat (map ed_sample_ids (map nameless ds)) = concat (map ed_sample_ids ds).
Proof. by rewrite map_map. Qed.
Lemma loaded_desc o ds d id : Forall (named_desc_ok o) ds -> NoDup (concat (map ed_sample_ids ds)) -> d ∈ ds ->
  id ∈ d.(ed_sample_ids) -> exists i, (loaded o ds).(event_desc_id_to_index) !! id = Some i /\
    (loaded o ds).(event_desc_list) !! Z.to_nat i = Some (shown_desc d) /\ 0 <= i.
Proof.
  intros Hd Hn Hin Hid. rewrite (loaded_eq o ds Hd). set (a := add_descs o _ ReaderAttrs_new).
  apply list_elem_of_lookup_1 in Hin as [k Ek].
  assert (Es : map shown_desc ds !! k = Some (shown_desc d)) by (by rewrite list_lookup_fmap, Ek).
  exists (len a.(event_desc_list) + Z.of_nat k). pose proof (len_nonneg a.(event_desc_list)). split_and!; [| | lia].
  - apply add_descs_at with (shown_desc d); [by rewrite shown_ids | done | exact Hid].
  - destruct (add_descs_parts o (map shown_desc ds) a) as [-> _]. rewrite lookup_app_r by (unfold len; lia).
    replace (_ - _)%nat with k by (unfold len; lia). exact Es.
Qed.
Lemma loaded_no_desc o ds id : Forall (named_desc_ok o) ds -> id ∉ concat (map ed_sample_ids ds) ->
  (loaded o ds).(event_desc_id_to_index) !! id = None.
Proof.
  intros Hd Hid. rewrite (loaded_eq o ds Hd), !add_descs_other by (by rewrite shown_ids, ?nameless_ids). apply lookup_empty.
Qed.

Lemma pr_header_ok i h r : r.(pr_inner).(headers) !! i = Some h -> pr_header (Z.of_nat i) r = Ret h.
Proof.
  intros E. pose proof (lookup_lt_Some _ _ _ E). unfold pr_header, header_at, index.
  rewrite (proj2 (Z.ltb_lt _ _)) by (unfold len; lia). by rewrite (proj2 (Z.ltb_ge _ 0)), Nat2Z.id, E by lia.
Qed.
Lemma all_headers_ok o doc : document_ok o doc -> len (event_desc_header doc.(doc_descs)) < 0x80000000 ->
  length (all_headers doc) = 32%nat /\ Forall bytes_ok (all_headers doc) /\
  Forall (fun h => len h < 0x80000000) (all_headers doc) /\ all_headers doc !! 1%nat = Some [] /\
  all_headers doc !! 12%nat = Some (event_desc_header doc.(doc_descs)).
Proof.
  intros [_ Hd Hl Hh H1 H12] Hs. unfold all_headers. split_and!.
  - by rewrite length_insert.
  - apply Forall_insert; [|by eapply event_desc_header_bytes_ok]. eapply List.Forall_impl; [|exact Hh]. by intros ? [].
  - apply Forall_insert; [|done]. eapply List.Forall_impl; [|exact Hh]. by intros ? [].
  - by rewrite list_lookup_insert_ne.
  - apply list_lookup_insert_eq. lia.
Qed.
Lemma open_shows `{FileSystem} o doc path r : document_ok o doc -> document_fits doc -> doc.(doc_descs) <> [] -> NoDup (doc_ids doc) ->
  fs_read path = Ok (doc_bytes doc) -> r.(pr_inner).(buffers) <> [] -> length r.(pr_inner).(headers) = 32%nat ->
  exists r', open_file path FileOrder r = Ret (Ok tt, r') /\ shows r' doc.
Proof.
  intros Hdoc [Hc Hs] Hne Hnd Hfs Hb Hh. destruct (all_headers_ok o doc Hdoc Hs) as (L1 & L2 & L3 & L4 & L5).
  set (es := doc.(doc_events)) in *. set (ds := doc.(doc_descs)) in *. set (hs := all_headers doc) in *.
  assert (Hds : Forall (named_desc_ok o) ds) by apply Hdoc. pose proof (event_desc_header_size o ds Hds) as Hsize.
  assert (Hok : Forall (desc_ok o) ds) by (eapply List.Forall_impl; [|exact Hds]; by intros ? []).
  destruct (r.(pr_inner).(buffers)) as [|b0 bs] eqn:Eb; [done|].
  unfold open_file, PerfDataFileReader_close. rewrite (close_ok _ _ _ Eb Hh). cbn [mbind outcome_bind]. unfold InputFile_new. rewrite Hfs.
  destruct (open_ok (events_bytes es) hs ds o Hc L1 L3 Hok Hne ltac:(lia) FileOrder EventBytesRef_default (vec_clear b0)
    (map trim_buffer bs) eq_refl) as (v & Hv & Hopen).
  set (a0 := load_descs o ds ReaderAttrs_new) in *.
  assert (Ha0 : has_offsets o a0).
  { unfold a0. destruct (load_descs_eq o ds ReaderAttrs_new Hds eq_refl) as [_ ->]. destruct ds as [|d ds'] using rev_ind; [done|].
    rewrite !map_app. unfold add_descs. rewrite fold_left_app. apply has_offsets_add. }
  destruct (parse_all_headers o FileOrder v (map trim_buffer bs) ds a0 hs L1 L2 L4 L5 Hds Ha0 ltac:(lia) ltac:(lia)) as (s & Ep & Hr).
  specialize (Hopen _ Ep). unfold start_state in Hopen. fold hs ds es in Hopen. cbn [pr_inner pr_current].
  change {| in_inner := _; inner_pos := 0; inner_len := 0 |} with (in_file_of 0 (file_bytes (events_bytes es) hs ds) 0).
  rewrite Hopen. cbn [mbind outcome_bind]. eexists. split; [reflexivity|].
  destruct (file_data (events_bytes es) hs ds L1) as (pre & rest & Ef & Lp).
  cbn [rd cur file]. match goal with |- shows (Build_PerfDataFileReader ?x _ _) _ => set (d := x) end.
  assert (Hattrs : d.(attrs) = loaded o ds) by reflexivity. split.
  - destruct (read_all_ok _ Hc es (Datatypes.S (length es)) {| pr_inner := d; pr_current := EventBytesRef_default;
      pr_file := Some (in_file (file_bytes (events_bytes es) hs ds) 104) |} ltac:(apply Hdoc) ltac:(lia)) as (r' & E & _).
    + split; [by split | done | split; [done|]; by exists v, (map trim_buffer bs)|].
      exists pre, rest. rewrite Lp, len_app, Lp. by split.
    + by exists r'.
  - intros i h E. apply pr_header_ok. exact E.
  - intros desc id Hin Hid. unfold event_desc_by_id. cbn [pr_inner]. rewrite Hattrs.
    destruct (loaded_desc o ds desc id Hds Hnd Hin Hid) as (i & -> & Ei & Hi).
    unfold index. by rewrite (proj2 (Z.ltb_ge i 0)), Ei by lia.
  - intros id Hid. unfold event_desc_by_id. cbn [pr_inner]. by rewrite Hattrs, (loaded_no_desc o ds id Hds Hid).
Qed.

(** A whole file: create, the operations, finalize. *)
Definition write_file `{FileSystem} (path : bytes) (ops : list WriterOp) : io PerfDataFileWriter ErrorKind bool :=
  _ ← create_file path;
  taken ← (fun p => '(taken, p) ← run_ops ops p; Ret (Ok taken, p));
  _ ← finalize_and_close;
  mret taken.

(** C3. A perf.data file that is written is read back, on a system that takes every write: for every sequence of
    operations that are well formed ([op_ok]: events; descriptions with an ASCII name without a nul, at least one id
    and the same layout of samples; headers other than those of the tracing data and of the descriptions), with at
    least one description, no id given twice and sizes that the reader takes, the writer takes all of them, the file
    that [finalize_and_close] leaves can be opened in file order by any reader, and the reader shows the document
    that the operations describe: its events in their order and then the end, every header, the description of
    every id with its attributes and name, and none for other ids. *)
Theorem file_round_trip `{FileSystem} o path ops w :
  let doc := apply_ops ops empty_document in
  fs_create path = Ok tt -> length w.(pw_inner).(w_headers) = 32%nat ->
  Forall (op_ok o) ops -> document_fits doc -> doc.(doc_descs) <> [] -> NoDup (doc_ids doc) ->
  exists w' c, write_file path ops w = Ret (Ok true, w') /\ w'.(pw_file) = None /\ w'.(pw_closed) = Some c /\
    forall (fs : FileSystem) path' r, @fs_read fs path' = Ok c ->
      r.(pr_inner).(buffers) <> [] -> length r.(pr_inner).(headers) = 32%nat ->
      exists r', open_file (H0:=fs) path' FileOrder r = Ret (Ok tt, r') /\ shows r' doc.
Proof.
  intros doc Hc Hl Hops Hfits Hne Hnd.
  assert (Hdoc : document_ok o doc) by (by apply apply_ops_ok, empty_document_ok).
  pose proof (event_desc_header_size o doc.(doc_descs) (ok_descs _ _ Hdoc)) as Hsize.
  assert (Hev : len (events_bytes doc.(doc_events)) < 2 ^ 63).
  { destruct Hfits as [Hb _]. unfold doc_bytes in Hb. rewrite len_file_bytes in Hb.
    unfold ids_at, attrs_at, header_data_at, headers_at in Hb. pose proof (count_present_nonneg (all_headers doc)).
    pose proof (len_nonneg (concat (all_headers doc))). pose proof (len_nonneg doc.(doc_descs)).
    pose proof (len_nonneg (desc_ids doc.(doc_descs))). lia. }
  destruct (create_file_ok path w Hc Hl) as (w1 & E1 & R1).
  destruct (run_ops_ok o ops w1 empty_document Hops (empty_document_ok o) R1 Hev ltac:(fold doc; destruct Hfits; lia)) as (w2 & E2 & R2).
  destruct (finalize_represents o w2 doc R2 Hdoc ltac:(destruct Hfits; lia) (proj1 Hfits)) as (w3 & E3 & Ec & Ef).
  exists w3, (doc_bytes doc). split_and!; [| done | done |].
  - unfold write_file. rewrite (io_bind_ok _ _ _ _ _ E1), (io_bind_ok _ _ _ true w2) by (by rewrite E2).
    by rewrite (io_bind_ok _ _ _ _ _ E3).
  - intros fs path' r Hfs Hb Hh. by apply (open_shows o).
Qed.
End Spec.

(** A host name, a description, a sample and the end of a round. *)
Definition example_file_desc : EventDesc := {| ed_name := str_bytes "ev"; ed_sample_ids := [33]; ed_attr := example_attr |}.
Definition example_ops : list WriterOp :=
  [SetHeader 3 (str_bytes "host"); AddDesc example_file_desc;
   WriteEvent {| ev_type := HeaderType_Sample; ev_misc := 2; ev_body := [33; 0; 0; 0; 0; 0; 0; 0] |};
   WriteEvent {| ev_type := HeaderType_FinishedRound; ev_misc := 0; ev_body := [] |}].
Definition any_file : FileSystem := {| fs_read _ := Err UnexpectedEof; fs_create _ := Ok tt |}.
Definition file_with (c : bytes) : FileSystem := {| fs_read _ := Ok c; fs_create _ := Ok tt |}.
Definition example_offsets : Offsets := (8, -2, 24, -2).

Lemma file_round_trip_witness :
  exists w' c r', @write_file little_endian_target taking_system any_file [] example_ops PerfDataFileWriter_new = Ret (Ok true, w') /\
    w'.(pw_closed) = Some c /\
    @open_file little_endian_target (file_with c) [] FileOrder PerfDataFileReader_new = Ret (Ok tt, r') /\
    @event_desc_by_id 33 r' = Ret (Some (shown_desc example_file_desc)) /\
    (exists r'', @read_all little_endian_target 3 r' =
      Ret (map (@shown little_endian_target) (apply_ops example_ops empty_document).(doc_events), Ok false, r'')).
Proof.
  assert (Hd : named_desc_ok example_offsets example_file_desc).
  { split; [split; [|split; [|split]]|split; [split|split]].
    - unfold struct_ok. repeat (apply List.Forall2_cons; [by vm_compute|]). apply List.Forall2_nil.
    - by repeat constructor.
    - by vm_compute.
    - by vm_compute.
    - by repeat constructor.
    - by vm_compute.
    - by vm_compute.
    - by vm_compute. }
  assert (Hops : Forall (op_ok example_offsets) example_ops).
  { apply List.Forall_cons; [|apply List.Forall_cons; [exact Hd|]].
    - split; [lia|]. split; [by split|]. split; [by repeat constructor | by vm_compute].
    - repeat apply List.Forall_cons; try apply List.Forall_nil; repeat split; by vm_compute. }
  destruct (@file_round_trip little_endian_target taking_system taking_system_takes any_file example_offsets [] example_ops PerfDataFileWriter_new eq_refl eq_refl Hops)
    as (w' & c & Ew & _ & Ec & Hr); [split; by vm_compute | done | by repeat constructor; set_solver |].
  destruct (Hr (file_with c) [] PerfDataFileReader_new eq_refl) as (r' & Er & [He _ Hdesc _]); [done | done |].
  exists w', c, r'. split; [exact Ew|]. split; [exact Ec|]. split; [exact Er|]. split; [|exact He].
  by apply (Hdesc example_file_desc 33); left.
Defined.
