(* ===== verification/Floats.v ===== *)
(** * Floats: the text of floating point numbers

    A float is its bits, as in [PerfItem].  [{}], [{:e}], [{:.n}] and [{:.ne}] of the
    standard library: the shortest digits that round to the number, or the number
    rounded to a count of digits with ties to even.  Also the rounding of a quotient to
    an [f64], for a count of nanoseconds that is divided. *)

From S2P Require Import Prelude Strings Types ByteReader Text Provider Writers.

(** ** IEEE 754 formats *)

(** The widths of the fraction and of the exponent. *)
Record FloatFormat := { fraction_bits : Z; exponent_bits : Z }.
Definition F32 : FloatFormat := {| fraction_bits := 23; exponent_bits := 8 |}.
Definition F64 : FloatFormat := {| fraction_bits := 52; exponent_bits := 11 |}.

Section Format.
Context (f : FloatFormat).

Definition bias : Z := 2 ^ (f.(exponent_bits) - 1) - 1.
Definition fl_fraction (v : Z) : Z := v mod 2 ^ f.(fraction_bits).
Definition fl_exponent (v : Z) : Z := v / 2 ^ f.(fraction_bits) mod 2 ^ f.(exponent_bits).
Definition fl_negative (v : Z) : bool := Z.testbit v (f.(fraction_bits) + f.(exponent_bits)).
Definition special (v : Z) : bool := fl_exponent v =? 2 ^ f.(exponent_bits) - 1.
Definition is_finite (v : Z) : bool := negb (special v).
Definition is_nan (v : Z) : bool := special v && negb (fl_fraction v =? 0).
(** The bits of the absolute value; those of numbers are ordered like the numbers. *)
Definition fl_abs (v : Z) : Z := v mod 2 ^ (f.(fraction_bits) + f.(exponent_bits)).

(** [integer_decode]: the number is [mant * 2 ^ exp]. *)
Definition mantissa (v : Z) : Z :=
  if fl_exponent v =? 0 then 2 * fl_fraction v else fl_fraction v + 2 ^ f.(fraction_bits).
Definition binary_exponent (v : Z) : Z := fl_exponent v - (bias + f.(fraction_bits)).

(** The numbers between [mant - minus] and [mant + plus] round to it, the ends too if
    [inclusive]; all times [2 ^ exp]. *)
Record Decoded := { d_mant : Z; d_minus : Z; d_plus : Z; d_exp : Z; d_inclusive : bool }.
Definition decode (v : Z) : Decoded :=
  let m := mantissa v in
  let e := binary_exponent v in
  if fl_exponent v =? 0 then {| d_mant := m; d_minus := 1; d_plus := 1; d_exp := e; d_inclusive := Z.even m |}
  else if m =? 2 ^ f.(fraction_bits)
  then {| d_mant := 4 * m; d_minus := 1; d_plus := 2; d_exp := e - 2; d_inclusive := Z.even m |}
  else {| d_mant := 2 * m; d_minus := 1; d_plus := 1; d_exp := e - 1; d_inclusive := Z.even m |}.

(** ** The shortest digits *)

(** [k] or [k + 1] is the count of digits before the point of [mant * 2 ^ exp]. *)
Definition estimate_scaling_factor (mant exp : Z) : Z := Z.shiftr ((Z.log2_up mant + exp) * 1292913986) 32.

(** One more digit until the rest is within the interval; the value is [mant / scale]. *)
Fixpoint shortest_loop (n : nat) (inclusive : bool) (mant minus plus scale : Z) (digits : list Z)
    : list Z * bool * bool * Z :=
  match n with
  | O => (digits, false, true, mant)
  | Datatypes.S n =>
    let digits := digits ++ [mant / scale] in
    let mant := mant mod scale in
    let down := if inclusive then mant <=? minus else mant <? minus in
    let up := if inclusive then scale <=? mant + plus else scale <? mant + plus in
    if down || up then (digits, up, down, mant)
    else shortest_loop n inclusive (10 * mant) (10 * minus) (10 * plus) scale digits
  end.
(** Adds one to the last digit; the result says that all were nines. *)
Definition round_up (digits : list Z) : list Z * bool :=
  foldr (fun d '(t, carry) => if carry : bool then (if d =? 9 then (0 :: t, true) else (d + 1 :: t, false)) else (d :: t, false))
    ([], true) digits.
(** The digits [d] and [k] such that the number is [0.d * 10 ^ k]. *)
Definition format_shortest (d : Decoded) : list Z * Z :=
  let k := estimate_scaling_factor (d.(d_mant) + d.(d_plus)) d.(d_exp) in
  let up2 := 2 ^ Z.max 0 d.(d_exp) in
  let up10 := 10 ^ Z.max 0 (- k) in
  let scale := 2 ^ Z.max 0 (- d.(d_exp)) * 10 ^ Z.max 0 k in
  let mant := d.(d_mant) * up2 * up10 in
  let minus := d.(d_minus) * up2 * up10 in
  let plus := d.(d_plus) * up2 * up10 in
  let high := if d.(d_inclusive) then scale <=? mant + plus else scale <? mant + plus in
  let '(k, m) := if high then (k + 1, 1) else (k, 10) in
  let '(digits, up, down, rest) := shortest_loop 40 d.(d_inclusive) (m * mant) (m * minus) (m * plus) scale [] in
  if up && (negb down || (scale <=? 2 * rest)) then
    let '(digits, carry) := round_up digits in
    if carry then (1 :: digits, k + 1) else (digits, k)
  else (digits, k).

(** ** Rounding to a count of digits *)

(** [n / d] to the nearest integer, ties to even. *)
Definition round_half_even (n d : Z) : Z :=
  let q := n / d in
  let r := n mod d in
  if (d <? 2 * r) || (2 * r =? d) && Z.odd q then q + 1 else q.
(** [mant * 2 ^ exp * 10 ^ p], rounded. *)
Definition scaled (mant exp p : Z) : Z :=
  round_half_even (mant * 2 ^ Z.max 0 exp * 10 ^ Z.max 0 p) (2 ^ Z.max 0 (- exp) * 10 ^ Z.max 0 (- p)).

(** The digits of [v], at least [n] of them. *)
Fixpoint digits_loop (fuel : nat) (v : Z) (tail : list Z) : list Z :=
  match fuel with
  | O => tail
  | Datatypes.S fuel => if v =? 0 then tail else digits_loop fuel (v / 10) (v mod 10 :: tail)
  end.
Definition digits_of (v : Z) : list Z := digits_loop 400 v [].
Definition pad_digits (n : Z) (l : list Z) : list Z := repeat 0 (Z.to_nat (n - len l)) ++ l.
(** [n] digits of the number and [k], as in [format_shortest]. *)
Definition format_exact_digits (n : Z) (d : Decoded) : list Z * Z :=
  let k := estimate_scaling_factor d.(d_mant) d.(d_exp) in
  let reached :=
    2 ^ Z.max 0 (- d.(d_exp)) * 10 ^ Z.max 0 k <=? d.(d_mant) * 2 ^ Z.max 0 d.(d_exp) * 10 ^ Z.max 0 (- k) in
  let k := if reached then k + 1 else k in
  let v := scaled d.(d_mant) d.(d_exp) (n - k) in
  if v =? 10 ^ n then (pad_digits n (digits_of (10 ^ (n - 1))), k + 1) else (pad_digits n (digits_of v), k).

(** ** Texts *)

Definition ascii_digits (l : list Z) : bytes := map (fun d => 48 + d) l.
Definition fl_sign (v : Z) : bytes := if fl_negative v && negb (is_nan v) then [45] else [].
(** What is not a finite number. *)
Definition special_text (v : Z) : bytes := if is_nan v then str_bytes "NaN" else str_bytes "inf".
Definition zeros (n : Z) : bytes := repeat 48 (Z.to_nat n).

(** [digits_to_dec_str] without a minimal count of digits after the point. *)
Definition dec_text (digits : list Z) (k : Z) : bytes :=
  if k <=? 0 then str_bytes "0." ++ zeros (- k) ++ ascii_digits digits
  else if k <? len digits then ascii_digits (take (Z.to_nat k) digits) ++ [46] ++ ascii_digits (drop (Z.to_nat k) digits)
  else ascii_digits digits ++ zeros (k - len digits).
(** [digits_to_exp_str] *)
Definition exp_text (digits : list Z) (k : Z) : bytes :=
  ascii_digits (take 1 digits) ++ (if 1 <? len digits then 46 :: ascii_digits (drop 1 digits) else [])
  ++ [101] ++ fmt_decimal (k - 1).

(** [{}], [{:e}], [{:.p}] and [{:.pe}], for [p] of at least 1. *)
Definition fmt_float (v : Z) : bytes :=
  fl_sign v ++
  (if special v then special_text v
   else if mantissa v =? 0 then [48]
   else let '(digits, k) := format_shortest (decode v) in dec_text digits k).
Definition fmt_float_exp (v : Z) : bytes :=
  fl_sign v ++
  (if special v then special_text v
   else if mantissa v =? 0 then str_bytes "0e0"
   else let '(digits, k) := format_shortest (decode v) in exp_text digits k).
Definition fmt_float_fixed (p v : Z) : bytes :=
  fl_sign v ++
  (if special v then special_text v
   else
     let d := decode v in
     let n := scaled d.(d_mant) d.(d_exp) p in
     let digits := pad_digits (p + 1) (digits_of n) in
     ascii_digits (take (length digits - Z.to_nat p) digits) ++ [46]
     ++ ascii_digits (drop (length digits - Z.to_nat p) digits)).
Definition fmt_float_fixed_exp (p v : Z) : bytes :=
  fl_sign v ++
  (if special v then special_text v
   else if mantissa v =? 0 then str_bytes "0." ++ zeros p ++ str_bytes "e0"
   else let '(digits, k) := format_exact_digits (p + 1) (decode v) in exp_text digits k).

(** The bits of the positive number [n / d], rounded; it must be in the normal range. *)
Definition fl_of_quotient (n d : Z) : Z :=
  if n =? 0 then 0
  else
    let m := f.(fraction_bits) in
    let s := m - (Z.log2 n - Z.log2 d) in
    (* 2 ^ (m - 1) < n / d * 2 ^ s < 2 ^ (m + 1) *)
    let s := if n * 2 ^ Z.max 0 s <? d * 2 ^ Z.max 0 (- s) * 2 ^ m then s + 1 else s in
    let q := round_half_even (n * 2 ^ Z.max 0 s) (d * 2 ^ Z.max 0 (- s)) in
    (m - s + bias) * 2 ^ m + (q - 2 ^ m).
End Format.
