(* ===== verification/ItemText.v ===== *)
(** * ItemText: values as text and as JSON (the write methods of tracepoint_decode/src/perf_item.rs
      and the rest of writers.rs)

    Every way a value is shown: by the encoding and the format of its metadata and, for
    binary data, by its length.  The conversion of seconds to a date is the C library's. *)

From S2P Require Import Prelude Strings Types ByteReader PerfItem Text Provider Writers Floats.

(** ** More of [PerfConvertOptions] *)

(* perf_item.rs:115-115: PerfConvertOptions::RootName *)
Definition RootName : Z := 0x02.
(* perf_item.rs: const FloatExtraPrecision *)
Definition FloatExtraPrecision : Z := 0x10.
(* perf_item.rs: const FloatNonFiniteAsString *)
Definition FloatNonFiniteAsString : Z := 0x20.
(* perf_item.rs: const UnixTimeWithinRangeAsString *)
Definition UnixTimeWithinRangeAsString : Z := 0x100.
(* perf_item.rs: const UnixTimeOutOfRangeAsString *)
Definition UnixTimeOutOfRangeAsString : Z := 0x200.
(* perf_item.rs:170-182: PerfConvertOptions::Default *)
Definition ConvertOptions_Default : Z :=
  fold_left Z.lor
    [RootName; FieldTag; FloatNonFiniteAsString; IntHexAsString; BoolOutOfRangeAsString; UnixTimeWithinRangeAsString;
     UnixTimeOutOfRangeAsString; ErrnoKnownAsString; ErrnoUnknownAsString; StringControlCharsReplaceWithSpace] Space.

(** ** Dates *)

(** [libc::tm], the parts that are used. *)
Record Tm := { tm_year : Z; tm_mon : Z; tm_mday : Z; tm_hour : Z; tm_min : Z; tm_sec : Z }.
(** [libc::gmtime_r]; [None] is a null pointer. *)
Class Calendar := gmtime_r : Z -> option Tm.

(* writers.rs:102-112: DateTime::new *)
Definition DateTime_new `{Calendar} (value : Z) : Tm :=
  match gmtime_r value with
  | Some tm => tm
  | None => {| tm_year := 0; tm_mon := 0; tm_mday := 0; tm_hour := 0; tm_min := 0; tm_sec := 0 |}
  end.
(* writers.rs:114-116: DateTime::valid *)
Definition dt_valid (dt : Tm) : bool := negb (dt.(tm_mday) =? 0).
(* writers.rs:118-120: DateTime::year *)
Definition dt_year (dt : Tm) : Z := as_unsigned 32 (dt.(tm_year) + 1900).
(* writers.rs:122-124: DateTime::month_of_year *)
Definition dt_month (dt : Tm) : outcome Z := checked 8 (as_unsigned 8 dt.(tm_mon) + 1).
(* writers.rs:126-128: DateTime::day_of_month *)
Definition dt_day (dt : Tm) : Z := as_unsigned 8 dt.(tm_mday).
(* writers.rs:130-132: DateTime::hour *)
Definition dt_hour (dt : Tm) : Z := as_unsigned 8 dt.(tm_hour).
(* writers.rs:134-136: DateTime::minute *)
Definition dt_minute (dt : Tm) : Z := as_unsigned 8 dt.(tm_min).
(* writers.rs:138-140: DateTime::second *)
Definition dt_second (dt : Tm) : Z := as_unsigned 8 dt.(tm_sec).

(** [{:0n}] of an unsigned integer. *)
Definition fmt_padded (n v : Z) : bytes := let s := fmt_decimal v in zeros (n - len s) ++ s.
(** The pieces of ["{:04}-{:02}-{:02}T{:02}:{:02}:{:02}"]. *)
Definition date_pieces (dt : Tm) (month : Z) : list bytes :=
  [fmt_padded 4 (dt_year dt); [45]; fmt_padded 2 month; [45]; fmt_padded 2 (dt_day dt); [84]; fmt_padded 2 (dt_hour dt);
   [58]; fmt_padded 2 (dt_minute dt); [58]; fmt_padded 2 (dt_second dt)].

Section Values.
Context {S : Type} `{Write S}.

(** An argument that may panic. *)
Definition with_arg {A} (m : outcome A) (k : A -> fmt (ValueWriter S)) : fmt (ValueWriter S) := fun w => a ← m; k a w.
(** [match x { a | b => .., _ => .. }] over constants. *)
Fixpoint by_value (x : Z) (cases : list (list Z * fmt (ValueWriter S))) (default : fmt (ValueWriter S)) : fmt (ValueWriter S) :=
  match cases with
  | [] => default
  | (values, m) :: cases => if existsb (Z.eqb x) values then m else by_value x cases default
  end.

(** ** The rest of ValueWriter *)

(** [value] is what [Display] makes of the argument. *)
(* writers.rs: ValueWriter::write_display_with_no_filter *)
Definition write_display_with_no_filter (value : bytes) : fmt (ValueWriter S) := write_pieces [value].
Definition write_decimal (value : Z) : fmt (ValueWriter S) := write_display_with_no_filter (fmt_decimal value).
(** The pieces of the arguments. *)
(* writers.rs: ValueWriter::write_fmt_with_no_filter *)
Definition write_fmt_with_no_filter (args : list bytes) : fmt (ValueWriter S) := write_pieces args.

(** [Display] of an [Ipv6Addr]: an IPv4 address in its place, or the words with the
    first longest run of at least two zeros left out. *)
Definition ipv6_words (b : bytes) : list Z := map (fun i => 256 * byte_at b (2 * i) + byte_at b (2 * i + 1)) [0; 1; 2; 3; 4; 5; 6; 7].
Fixpoint zero_span (words : list Z) (i : Z) (longest current : Z * Z) : Z * Z :=
  match words with
  | [] => longest
  | w :: words =>
    if w =? 0 then
      let current := ((if snd current =? 0 then i else fst current), snd current + 1) in
      zero_span words (i + 1) (if snd longest <? snd current then current else longest) current
    else zero_span words (i + 1) longest (0, 0)
  end.
Fixpoint colon_words (words : list Z) : bytes :=
  match words with
  | [] => []
  | w :: words => fmt_hex w ++ match words with [] => [] | _ => 58 :: colon_words words end
  end.
Definition ipv4_text (b : bytes) : bytes :=
  fmt_decimal (byte_at b 0) ++ [46] ++ fmt_decimal (byte_at b 1) ++ [46] ++ fmt_decimal (byte_at b 2) ++ [46]
  ++ fmt_decimal (byte_at b 3).
Definition ipv6_text (b : bytes) : bytes :=
  let words := ipv6_words b in
  if bool_decide (take 6 words = [0; 0; 0; 0; 0; 0xFFFF]) then str_bytes "::ffff:" ++ ipv4_text (drop 12 b)
  else
    let '(start, n) := zero_span words 0 (0, 0) (0, 0) in
    if 1 <? n then colon_words (take (Z.to_nat start) words) ++ [58; 58] ++ colon_words (drop (Z.to_nat (start + n)) words)
    else colon_words words.
(* writers.rs: ValueWriter::write_ipv6 *)
Definition write_ipv6 (value : bytes) : fmt (ValueWriter S) := write_pieces [ipv6_text value].

(* writers.rs: ValueWriter::write_time64 *)
Definition write_time64 `{Calendar} (value : Z) : fmt (ValueWriter S) :=
  let dt := DateTime_new value in
  if dt_valid dt then with_arg (dt_month dt) (fun month => write_pieces (date_pieces dt month ++ [[90]]))
  else
    with_options (fun options =>
      if options_has_flag options UnixTimeOutOfRangeAsString
      then write_pieces [str_bytes "TIME("; fmt_decimal value; [41]] else write_pieces [fmt_decimal value]).
(* writers.rs: ValueWriter::write_json_time64 *)
Definition write_json_time64 `{Calendar} (value : Z) : fmt (ValueWriter S) :=
  let dt := DateTime_new value in
  let number := write_pieces [fmt_decimal value] in
  with_options (fun options =>
    if dt_valid dt then
      if options_has_flag options UnixTimeWithinRangeAsString
      then with_arg (dt_month dt) (fun month => write_pieces ([34] :: date_pieces dt month ++ [[90; 34]])) else number
    else if options_has_flag options UnixTimeOutOfRangeAsString
    then write_pieces [34 :: str_bytes "TIME("; fmt_decimal value; [41; 34]] else number).

(** [abs_value >= 1.0e+9 || (abs_value != 0.0 && abs_value < 1.0e-4)]; the bounds are bits. *)
Definition wants_exponent (f : FloatFormat) (high low value : Z) : bool :=
  let a := fl_abs f value in
  negb (is_nan f value) && ((high <=? a) || (negb (a =? 0) && (a <? low))).
(* writers.rs: ValueWriter::write_float32 *)
Definition write_float32 (value : Z) : fmt (ValueWriter S) :=
  let e := wants_exponent F32 0x4E6E6B28 0x38D1B717 value in
  with_options (fun options =>
    if options_has_flag options FloatExtraPrecision
    then write_pieces [if e then fmt_float_fixed_exp F32 9 value else fmt_float_fixed F32 9 value]
    else write_pieces [if e then fmt_float_exp F32 value else fmt_float F32 value]).
(* writers.rs: ValueWriter::write_float64 *)
Definition write_float64 (value : Z) : fmt (ValueWriter S) :=
  let e := wants_exponent F64 0x4376345785D8A000 0x3F1A36E2EB1C432D value in
  with_options (fun options =>
    if options_has_flag options FloatExtraPrecision
    then write_pieces [if e then fmt_float_fixed_exp F64 17 value else fmt_float_fixed F64 17 value]
    else write_pieces [if e then fmt_float_exp F64 value else fmt_float F64 value]).
(* writers.rs: ValueWriter::write_json_float32 *)
Definition write_json_float32 (value : Z) : fmt (ValueWriter S) :=
  if is_finite F32 value then write_float32 value
  else
    with_options (fun options =>
      if options_has_flag options FloatNonFiniteAsString then write_pieces [[34]; fmt_float F32 value; [34]]
      else dest_str (str_bytes "null")).
(* writers.rs: ValueWriter::write_json_float64 *)
Definition write_json_float64 (value : Z) : fmt (ValueWriter S) :=
  if is_finite F64 value then write_float64 value
  else
    with_options (fun options =>
      if options_has_flag options FloatNonFiniteAsString then write_pieces [[34]; fmt_float F64 value; [34]]
      else dest_str (str_bytes "null")).

(** ** Values, as text and as JSON *)

Section Items.
Context `{Calendar}.

Definition hexbytes_of (m : outcome bytes) : fmt (ValueWriter S) := with_arg m write_hexbytes.
Definition ipv4_of (m : outcome bytes) : fmt (ValueWriter S) :=
  with_arg m (fun b => write_ipv4 (byte_at b 0) (byte_at b 1) (byte_at b 2) (byte_at b 3)).
Definition decimal_of (m : outcome Z) : fmt (ValueWriter S) := with_arg m write_decimal.
Definition null : fmt (ValueWriter S) := write_str_with_no_filter (str_bytes "null").
Definition item_format (v : PerfItemValue) : Z := v.(item_metadata).(format).
Definition item_encoding (v : PerfItemValue) : Z := md_encoding v.(item_metadata).
Definition item_type_size (v : PerfItemValue) : Z := v.(item_metadata).(type_size).

(* perf_item.rs: PerfItemValue::write_value8_to *)
Definition write_value8_to (v : PerfItemValue) (index : Z) : fmt (ValueWriter S) :=
  by_value (item_format v)
    [([FieldFormat_SignedInt], decimal_of (to_i8 v index));
     ([FieldFormat_HexInt], with_arg (to_u8 v index) write_hex32);
     ([FieldFormat_Boolean], with_arg (to_u8 v index) write_bool);
     ([FieldFormat_HexBytes], hexbytes_of (to_u8x1 v index));
     ([FieldFormat_String8], with_arg (to_u8x1 v index) write_latin1_with_control_chars_filter)]
    (decimal_of (to_u8 v index)).
(* perf_item.rs: PerfItemValue::write_json_value8_to *)
Definition write_json_value8_to (v : PerfItemValue) (index : Z) : fmt (ValueWriter S) :=
  by_value (item_format v)
    [([FieldFormat_SignedInt], decimal_of (to_i8 v index));
     ([FieldFormat_HexInt], with_arg (to_u8 v index) write_json_hex32);
     ([FieldFormat_Boolean], with_arg (to_u8 v index) write_json_bool);
     ([FieldFormat_HexBytes], write_quoted (hexbytes_of (to_u8x1 v index)));
     ([FieldFormat_String8], write_quoted (with_arg (to_u8x1 v index) write_latin1_with_json_escape))]
    (decimal_of (to_u8 v index)).
(* perf_item.rs: PerfItemValue::write_value16_to *)
Definition write_value16_to (v : PerfItemValue) (index : Z) : fmt (ValueWriter S) :=
  by_value (item_format v)
    [([FieldFormat_SignedInt], decimal_of (to_i16 v index));
     ([FieldFormat_HexInt], with_arg (to_u16 v index) write_hex32);
     ([FieldFormat_Boolean], with_arg (to_u16 v index) write_bool);
     ([FieldFormat_HexBytes], hexbytes_of (to_u8x2 v index));
     ([FieldFormat_StringUtf], with_arg (to_u16 v index) write_char32_with_control_chars_filter);
     ([FieldFormat_Port], decimal_of (to_port v index))]
    (decimal_of (to_u16 v index)).
(* perf_item.rs: PerfItemValue::write_json_value16_to *)
Definition write_json_value16_to (v : PerfItemValue) (index : Z) : fmt (ValueWriter S) :=
  by_value (item_format v)
    [([FieldFormat_SignedInt], decimal_of (to_i16 v index));
     ([FieldFormat_HexInt], with_arg (to_u16 v index) write_json_hex32);
     ([FieldFormat_Boolean], with_arg (to_u16 v index) write_json_bool);
     ([FieldFormat_HexBytes], write_quoted (hexbytes_of (to_u8x2 v index)));
     ([FieldFormat_StringUtf], write_quoted (with_arg (to_u16 v index) write_char32_with_json_escape));
     ([FieldFormat_Port], decimal_of (to_port v index))]
    (decimal_of (to_u16 v index)).
(* perf_item.rs: PerfItemValue::write_value32_to *)
Definition write_value32_to (v : PerfItemValue) (index : Z) : fmt (ValueWriter S) :=
  by_value (item_format v)
    [([FieldFormat_SignedInt; FieldFormat_Pid], decimal_of (to_i32 v index));
     ([FieldFormat_HexInt], with_arg (to_u32 v index) write_hex32);
     ([FieldFormat_Errno], with_arg (to_u32 v index) write_errno);
     ([FieldFormat_Time], with_arg (to_time32 v index) write_time64);
     ([FieldFormat_Boolean], with_arg (to_u32 v index) write_bool);
     ([FieldFormat_Float], with_arg (to_f32 v index) write_float32);
     ([FieldFormat_HexBytes], hexbytes_of (to_u8x4 v index));
     ([FieldFormat_StringUtf], with_arg (to_u32 v index) write_char32_with_control_chars_filter);
     ([FieldFormat_IPv4], ipv4_of (to_u8x4 v index))]
    (decimal_of (to_u32 v index)).
(* perf_item.rs: PerfItemValue::write_json_value32_to *)
Definition write_json_value32_to (v : PerfItemValue) (index : Z) : fmt (ValueWriter S) :=
  by_value (item_format v)
    [([FieldFormat_SignedInt; FieldFormat_Pid], decimal_of (to_i32 v index));
     ([FieldFormat_HexInt], write_quoted (with_arg (to_u32 v index) write_hex32));
     ([FieldFormat_Errno], with_arg (to_u32 v index) write_json_errno);
     ([FieldFormat_Time], with_arg (to_time32 v index) write_json_time64);
     ([FieldFormat_Boolean], with_arg (to_u32 v index) write_json_bool);
     ([FieldFormat_Float], with_arg (to_f32 v index) write_json_float32);
     ([FieldFormat_HexBytes], write_quoted (hexbytes_of (to_u8x4 v index)));
     ([FieldFormat_StringUtf], write_quoted (with_arg (to_u32 v index) write_char32_with_json_escape));
     ([FieldFormat_IPv4], write_quoted (ipv4_of (to_u8x4 v index)))]
    (decimal_of (to_u32 v index)).
(* perf_item.rs: PerfItemValue::write_value64_to *)
Definition write_value64_to (v : PerfItemValue) (index : Z) : fmt (ValueWriter S) :=
  by_value (item_format v)
    [([FieldFormat_SignedInt; FieldFormat_Pid], decimal_of (to_i64 v index));
     ([FieldFormat_HexInt], with_arg (to_u64 v index) write_hex64);
     ([FieldFormat_Time], with_arg (to_time64 v index) write_time64);
     ([FieldFormat_Float], with_arg (to_f64 v index) write_float64);
     ([FieldFormat_HexBytes], hexbytes_of (to_u8x8 v index))]
    (decimal_of (to_u64 v index)).
(* perf_item.rs: PerfItemValue::write_json_value64_to *)
Definition write_json_value64_to (v : PerfItemValue) (index : Z) : fmt (ValueWriter S) :=
  by_value (item_format v)
    [([FieldFormat_SignedInt; FieldFormat_Pid], decimal_of (to_i64 v index));
     ([FieldFormat_HexInt], with_arg (to_u64 v index) write_json_hex64);
     ([FieldFormat_Time], with_arg (to_time64 v index) write_json_time64);
     ([FieldFormat_Float], with_arg (to_f64 v index) write_json_float64);
     ([FieldFormat_HexBytes], write_quoted (hexbytes_of (to_u8x8 v index)))]
    (decimal_of (to_u64 v index)).
(* perf_item.rs: PerfItemValue::write_value128_to *)
Definition write_value128_to (v : PerfItemValue) (index : Z) : fmt (ValueWriter S) :=
  by_value (item_format v)
    [([FieldFormat_Uuid], with_arg (to_u8x16 v index) write_uuid);
     ([FieldFormat_IPv6], with_arg (to_u8x16 v index) write_ipv6)]
    (hexbytes_of (to_u8x16 v index)).
(* perf_item.rs: PerfItemValue::write_json_value128_to *)
Definition write_json_value128_to (v : PerfItemValue) (index : Z) : fmt (ValueWriter S) :=
  by_value (item_format v)
    [([FieldFormat_Uuid], write_quoted (with_arg (to_u8x16 v index) write_uuid));
     ([FieldFormat_IPv6], write_quoted (with_arg (to_u8x16 v index) write_ipv6))]
    (write_quoted (hexbytes_of (to_u8x16 v index))).

(* perf_item.rs: PerfItemValue::write_char8_default_to *)
Definition write_char8_default_to (v : PerfItemValue) : fmt (ValueWriter S) :=
  if item_encoding v =? FieldEncoding_BinaryLength16Char8 then write_hexbytes v.(item_bytes)
  else write_utf8_with_control_chars_filter v.(item_bytes).
(* perf_item.rs: PerfItemValue::write_json_char8_default_to *)
Definition write_json_char8_default_to (v : PerfItemValue) : fmt (ValueWriter S) :=
  if item_encoding v =? FieldEncoding_BinaryLength16Char8 then write_quoted (write_hexbytes v.(item_bytes))
  else write_quoted (write_utf8_with_json_escape v.(item_bytes)).

(** The formats of strings that may start with a byte order mark. *)
Definition bom_formats : list Z := [FieldFormat_StringUtfBom; FieldFormat_StringXml; FieldFormat_StringJson].
Definition without_bom (v : PerfItemValue) (encoding : PerfTextEncoding)
    (k : bytes -> PerfTextEncoding -> fmt (ValueWriter S)) : fmt (ValueWriter S) :=
  match from_bom v.(item_bytes) with
  | (Some bom_encoding, bom_len) => with_arg (slice_from v.(item_bytes) bom_len) (fun b => k b bom_encoding)
  | (None, _) => k v.(item_bytes) encoding
  end.
(* perf_item.rs: PerfItemValue::write_scalar_string_to *)
Definition write_scalar_string_to (v : PerfItemValue) (default_encoding : PerfTextEncoding) : fmt (ValueWriter S) :=
  by_value (item_format v)
    [([FieldFormat_HexBytes], write_hexbytes v.(item_bytes));
     ([FieldFormat_String8], write_latin1_with_control_chars_filter v.(item_bytes));
     (bom_formats, without_bom v default_encoding write_with_control_chars_filter)]
    (write_with_control_chars_filter v.(item_bytes) default_encoding).
(* perf_item.rs: PerfItemValue::write_json_scalar_string_to *)
Definition write_json_scalar_string_to (v : PerfItemValue) (default_encoding : PerfTextEncoding) : fmt (ValueWriter S) :=
  by_value (item_format v)
    [([FieldFormat_HexBytes], write_quoted (write_hexbytes v.(item_bytes)));
     ([FieldFormat_String8], write_quoted (write_latin1_with_json_escape v.(item_bytes)));
     (bom_formats, without_bom v default_encoding (fun b e => write_quoted (write_with_json_escape b e)))]
    (write_quoted (write_with_json_escape v.(item_bytes) default_encoding)).

(** ** Scalars *)

Definition utf16_of (v : PerfItemValue) : PerfTextEncoding :=
  if md_source_big_endian v.(item_metadata) then Utf16BE else Utf16LE.
Definition utf32_of (v : PerfItemValue) : PerfTextEncoding :=
  if md_source_big_endian v.(item_metadata) then Utf32BE else Utf32LE.

(* perf_item.rs:979-1075: PerfItemValue::write_scalar_to, binary *)
Definition write_binary_to (v : PerfItemValue) : fmt (ValueWriter S) :=
  let by_len cases := by_value (len v.(item_bytes)) (([0], null) :: cases) (write_char8_default_to v) in
  by_value (item_format v)
    [([FieldFormat_UnsignedInt], by_len
       [([1], decimal_of (to_u8 v 0)); ([2], decimal_of (to_u16 v 0)); ([4], decimal_of (to_u32 v 0)); ([8], decimal_of (to_u64 v 0))]);
     ([FieldFormat_SignedInt], by_len
       [([1], decimal_of (to_i8 v 0)); ([2], decimal_of (to_i16 v 0)); ([4], decimal_of (to_i32 v 0)); ([8], decimal_of (to_i64 v 0))]);
     ([FieldFormat_HexInt], by_len
       [([1], with_arg (to_u8 v 0) write_hex32); ([2], with_arg (to_u16 v 0) write_hex32);
        ([4], with_arg (to_u32 v 0) write_hex32); ([8], with_arg (to_u64 v 0) write_hex64)]);
     ([FieldFormat_Errno], by_len [([4], with_arg (to_u32 v 0) write_errno)]);
     ([FieldFormat_Pid], by_len [([4], decimal_of (to_i32 v 0))]);
     ([FieldFormat_Time], by_len [([4], with_arg (to_time32 v 0) write_time64); ([8], with_arg (to_time64 v 0) write_time64)]);
     ([FieldFormat_Boolean], by_len
       [([1], with_arg (to_u8 v 0) write_bool); ([2], with_arg (to_u16 v 0) write_bool); ([4], with_arg (to_u32 v 0) write_bool)]);
     ([FieldFormat_Float], by_len [([4], with_arg (to_f32 v 0) write_float32); ([8], with_arg (to_f64 v 0) write_float64)]);
     ([FieldFormat_HexBytes], write_hexbytes v.(item_bytes));
     ([FieldFormat_String8], write_latin1_with_control_chars_filter v.(item_bytes));
     ([FieldFormat_StringUtf], write_utf8_with_control_chars_filter v.(item_bytes));
     (bom_formats, without_bom v Utf8 write_with_control_chars_filter);
     ([FieldFormat_Uuid], by_len [([16], with_arg (to_u8x16 v 0) write_uuid)]);
     ([FieldFormat_Port], by_len [([2], decimal_of (to_port v 0))]);
     ([FieldFormat_IPAddress; FieldFormat_IPAddressObsolete], by_len
       [([4], ipv4_of (to_u8x4 v 0)); ([16], with_arg (to_u8x16 v 0) write_ipv6)])]
    (write_char8_default_to v).
(* perf_item.rs:1266-1364: PerfItemValue::write_json_scalar_to_impl, binary *)
Definition write_json_binary_to (v : PerfItemValue) : fmt (ValueWriter S) :=
  let by_len cases := by_value (len v.(item_bytes)) (([0], null) :: cases) (write_json_char8_default_to v) in
  by_value (item_format v)
    [([FieldFormat_UnsignedInt], by_len
       [([1], decimal_of (to_u8 v 0)); ([2], decimal_of (to_u16 v 0)); ([4], decimal_of (to_u32 v 0)); ([8], decimal_of (to_u64 v 0))]);
     ([FieldFormat_SignedInt], by_len
       [([1], decimal_of (to_i8 v 0)); ([2], decimal_of (to_i16 v 0)); ([4], decimal_of (to_i32 v 0)); ([8], decimal_of (to_i64 v 0))]);
     ([FieldFormat_HexInt], by_len
       [([1], with_arg (to_u8 v 0) write_json_hex32); ([2], with_arg (to_u16 v 0) write_json_hex32);
        ([4], with_arg (to_u32 v 0) write_json_hex32); ([8], with_arg (to_u64 v 0) write_json_hex64)]);
     ([FieldFormat_Errno], by_len [([4], with_arg (to_u32 v 0) write_json_errno)]);
     ([FieldFormat_Pid], by_len [([4], decimal_of (to_i32 v 0))]);
     ([FieldFormat_Time], by_len
       [([4], with_arg (to_time32 v 0) write_json_time64); ([8], with_arg (to_time64 v 0) write_json_time64)]);
     ([FieldFormat_Boolean], by_len
       [([1], with_arg (to_u8 v 0) write_json_bool); ([2], with_arg (to_u16 v 0) write_json_bool);
        ([4], with_arg (to_u32 v 0) write_json_bool)]);
     ([FieldFormat_Float], by_len
       [([4], with_arg (to_f32 v 0) write_json_float32); ([8], with_arg (to_f64 v 0) write_json_float64)]);
     ([FieldFormat_HexBytes], write_quoted (write_hexbytes v.(item_bytes)));
     ([FieldFormat_String8], write_quoted (write_latin1_with_json_escape v.(item_bytes)));
     ([FieldFormat_StringUtf], write_quoted (write_utf8_with_json_escape v.(item_bytes)));
     (bom_formats, without_bom v Utf8 (fun b e => write_quoted (write_with_json_escape b e)));
     ([FieldFormat_Uuid], by_len [([16], write_quoted (with_arg (to_u8x16 v 0) write_uuid))]);
     ([FieldFormat_Port], by_len [([2], decimal_of (to_port v 0))]);
     ([FieldFormat_IPAddress; FieldFormat_IPAddressObsolete], by_len
       [([4], write_quoted (ipv4_of (to_u8x4 v 0))); ([16], write_quoted (with_arg (to_u8x16 v 0) write_ipv6))])]
    (write_json_char8_default_to v).

(* perf_item.rs:944-1080: PerfItemValue::write_scalar_to *)
Definition write_scalar (v : PerfItemValue) : fmt (ValueWriter S) :=
  fmt_assert (item_type_size v <=? len v.(item_bytes))
  (by_value (item_encoding v)
    [([FieldEncoding_Invalid], null);
     ([FieldEncoding_Struct], write_fmt_with_no_filter
        [str_bytes "Struct["; fmt_decimal (md_struct_field_count v.(item_metadata)); [93]]);
     ([FieldEncoding_Value8], write_value8_to v 0);
     ([FieldEncoding_Value16], write_value16_to v 0);
     ([FieldEncoding_Value32], write_value32_to v 0);
     ([FieldEncoding_Value64], write_value64_to v 0);
     ([FieldEncoding_Value128], write_value128_to v 0);
     ([FieldEncoding_ZStringChar8], write_scalar_string_to v Utf8);
     ([FieldEncoding_ZStringChar16; FieldEncoding_StringLength16Char16], write_scalar_string_to v (utf16_of v));
     ([FieldEncoding_ZStringChar32; FieldEncoding_StringLength16Char32], write_scalar_string_to v (utf32_of v));
     ([FieldEncoding_BinaryLength16Char8; FieldEncoding_StringLength16Char8], write_binary_to v)]
    (write_fmt_with_no_filter [str_bytes "Encoding["; fmt_decimal (item_encoding v); [93]])).
(** The writer is made for the call. *)
Definition on_value_writer (options : Z) (m : fmt (ValueWriter S)) : fmt S := fun s =>
  '(r, w) ← m (ValueWriter_new s options); Ret (r, w.(dest)).
(* perf_item.rs: PerfItemValue::write_scalar_to *)
Definition write_scalar_to (v : PerfItemValue) (convert_options : Z) : fmt S := on_value_writer convert_options (write_scalar v).

Definition json_encoding (v : PerfItemValue) : fmt (ValueWriter S) :=
  write_fmt_with_no_filter [34 :: str_bytes "Encoding["; fmt_decimal (item_encoding v); [93; 34]].
(* perf_item.rs: PerfItemValue::write_json_scalar_to_impl *)
Definition write_json_scalar_to_impl (v : PerfItemValue) : fmt (ValueWriter S) :=
  fmt_assert (item_type_size v <=? len v.(item_bytes))
  (by_value (item_encoding v)
    [([FieldEncoding_Invalid], null);
     ([FieldEncoding_Struct], write_str_with_no_filter (str_bytes "{}"));
     ([FieldEncoding_Value8], write_json_value8_to v 0);
     ([FieldEncoding_Value16], write_json_value16_to v 0);
     ([FieldEncoding_Value32], write_json_value32_to v 0);
     ([FieldEncoding_Value64], write_json_value64_to v 0);
     ([FieldEncoding_Value128], write_json_value128_to v 0);
     ([FieldEncoding_ZStringChar8], write_json_scalar_string_to v Utf8);
     ([FieldEncoding_ZStringChar16; FieldEncoding_StringLength16Char16], write_json_scalar_string_to v (utf16_of v));
     ([FieldEncoding_ZStringChar32; FieldEncoding_StringLength16Char32], write_json_scalar_string_to v (utf32_of v));
     ([FieldEncoding_BinaryLength16Char8; FieldEncoding_StringLength16Char8], write_json_binary_to v)]
    (json_encoding v)).
(* perf_item.rs: PerfItemValue::write_json_scalar_to *)
Definition write_json_scalar_to (v : PerfItemValue) (convert_options : Z) : fmt S :=
  on_value_writer convert_options (write_json_scalar_to_impl v).

(** ** Elements and arrays *)

Definition element_asserts (v : PerfItemValue) (index : Z) : bool :=
  negb (item_type_size v =? 0) && (index <=? 65535) && ((index + 1) * item_type_size v <=? len v.(item_bytes)).
(* perf_item.rs: PerfItemValue::write_simple_element_to *)
Definition write_simple_element_to (v : PerfItemValue) (index convert_options : Z) : fmt S :=
  fmt_assert (element_asserts v index) (on_value_writer convert_options
    (by_value (item_encoding v)
      [([FieldEncoding_Value8], write_value8_to v index); ([FieldEncoding_Value16], write_value16_to v index);
       ([FieldEncoding_Value32], write_value32_to v index); ([FieldEncoding_Value64], write_value64_to v index);
       ([FieldEncoding_Value128], write_value128_to v index)]
      (write_fmt_with_no_filter [str_bytes "Encoding["; fmt_decimal (item_encoding v); [93]]))).
(* perf_item.rs: PerfItemValue::write_json_simple_element_to *)
Definition write_json_simple_element_to (v : PerfItemValue) (index convert_options : Z) : fmt S :=
  fmt_assert (element_asserts v index) (on_value_writer convert_options
    (by_value (item_encoding v)
      [([FieldEncoding_Value8], write_json_value8_to v index); ([FieldEncoding_Value16], write_json_value16_to v index);
       ([FieldEncoding_Value32], write_json_value32_to v index); ([FieldEncoding_Value64], write_json_value64_to v index);
       ([FieldEncoding_Value128], write_json_value128_to v index)]
      (json_encoding v))).

(** [for i in 0..n] *)
Fixpoint for_range (n : nat) (i : Z) (body : Z -> fmt (ValueWriter S)) : fmt (ValueWriter S) :=
  match n with O => fmt_ok | Datatypes.S n => body i ;;? for_range n (i + 1) body end.
(* perf_item.rs: PerfItemValue::write_simple_array_to *)
Definition write_simple_array_to (v : PerfItemValue) (convert_options : Z) : fmt S :=
  let separator := if options_has_flag convert_options Space then [44; 32] else [44] in
  let each size (write : PerfItemValue -> Z -> fmt (ValueWriter S)) :=
    for_range (Z.to_nat (len v.(item_bytes) / size)) 0 (fun i =>
      (if 0 <? i then write_str_with_no_filter separator else fmt_ok) ;;? write v i) in
  fmt_assert (negb (item_type_size v =? 0)) (on_value_writer convert_options
    (by_value (item_encoding v)
      [([FieldEncoding_Value8], each 1 write_value8_to); ([FieldEncoding_Value16], each 2 write_value16_to);
       ([FieldEncoding_Value32], each 4 write_value32_to); ([FieldEncoding_Value64], each 8 write_value64_to);
       ([FieldEncoding_Value128], each 16 write_value128_to)]
      (write_fmt_with_no_filter [str_bytes "Encoding["; fmt_decimal (item_encoding v); [93]]))).
(* perf_item.rs: PerfItemValue::write_json_simple_array_to_impl *)
Definition write_json_simple_array_to_impl (v : PerfItemValue) : fmt (ValueWriter S) :=
  let each size (write : PerfItemValue -> Z -> fmt (ValueWriter S)) :=
    for_range (Z.to_nat (len v.(item_bytes) / size)) 0 (fun i => write_value (write v i)) in
  fmt_assert (negb (item_type_size v =? 0))
  (write_array_begin ;;?
   by_value (item_encoding v)
     [([FieldEncoding_Value8], each 1 write_json_value8_to); ([FieldEncoding_Value16], each 2 write_json_value16_to);
      ([FieldEncoding_Value32], each 4 write_json_value32_to); ([FieldEncoding_Value64], each 8 write_json_value64_to);
      ([FieldEncoding_Value128], each 16 write_json_value128_to)]
     (write_value (json_encoding v)) ;;?
   write_array_end).
(* perf_item.rs: PerfItemValue::write_json_simple_array_to *)
Definition write_json_simple_array_to (v : PerfItemValue) (convert_options : Z) : fmt S := fun s =>
  '(r, w) ← write_json_simple_array_to_impl v (JsonWriter_new s convert_options false); Ret (r, w.(dest)).

(* perf_item.rs: PerfItemValue::write_to *)
Definition write_to (v : PerfItemValue) (convert_options : Z) : fmt S :=
  if md_is_scalar v.(item_metadata) then write_scalar_to v convert_options else write_simple_array_to v convert_options.
(* perf_item.rs: PerfItemValue::write_json_to *)
Definition write_json_to (v : PerfItemValue) (convert_options : Z) : fmt S :=
  if md_is_scalar v.(item_metadata) then write_json_scalar_to v convert_options
  else write_json_simple_array_to v convert_options.
End Items.
End Values.
