(* ===== verification/EventJson.v ===== *)
(** * EventJson: the JSON of an event
      (EventHeaderEnumerator::write_json_item_and_move_next_sibling of tracepoint_decode/src/enumerator.rs)

    The writer moves the enumerator while it writes, so a step is a computation on the
    enumerator's context together with the JSON writer. *)

From S2P Require Import Prelude Strings Types ByteReader PerfItem Enumerator Text Writers ItemText PerfIo.

(** The two mutable borrows of the method. *)
Record JsonState (S : Type) := { j_context : Ctx; j_json : ValueWriter S }.
Arguments j_context {S} _.
Arguments j_json {S} _.

Section EventJson.
Context `{Target} {S : Type} `{Write S} `{Calendar}.

(** A call on [json]; a call on [self] that gives no [Result]. *)
Definition on_json (m : fmt (ValueWriter S)) : io (JsonState S) unit unit :=
  io_on j_json (fun w s => {| j_context := s.(j_context); j_json := w |}) m.
Definition on_context {A} (m : Ctx -> outcome (A * Ctx)) : io (JsonState S) unit A := fun s =>
  '(a, c) ← m s.(j_context); Ret (Ok a, {| j_context := c; j_json := s.(j_json) |}).

(** The name of the current item, if it is wanted. *)
Definition json_name (i : EventHeaderItemInfo) (wanted : bool) : io (JsonState S) unit unit :=
  io_when wanted
    (name ← io_lift (ii_name_bytes i);
     on_json (write_property_name_from_item_info name (field_tag (item_metadata (ii_value i))))).

(** [depth] is an [i32]. *)
Definition deeper (depth : Z) : io (JsonState S) unit Z := io_lift (checked_signed 32 (depth + 1)).
Definition shallower (depth : Z) : io (JsonState S) unit Z := io_lift (checked_signed 32 (depth - 1)).

(** What is written of the current item.  The flag tells that the item was written
    with all its elements, so that the loop moves to the next sibling. *)
(* enumerator.rs:1370-1430: EventHeaderEnumeratorContext::write_json_item_and_move_next_sibling_impl, match *)
Definition json_item (event_data : bytes) (want_name : bool) (depth : Z) : io (JsonState S) unit (bool * Z) :=
  s ← io_get;
  let c := s.(j_context) in
  let item := io_lift (EventHeaderItemInfo_new event_data c) in
  match c.(state) with
  | StBeforeFirstItem => d ← deeper depth; mret (false, d)
  | StValue =>
    i ← item;
    _ ← json_name i (want_name && negb (md_is_element (item_metadata (ii_value i))));
    _ ← on_json (write_value (write_json_scalar_to_impl (ii_value i)));
    mret (false, depth)
  | StArrayBegin =>
    i ← item;
    _ ← json_name i want_name;
    if negb (type_size (item_metadata (ii_value i)) =? 0) then
      _ ← on_json (write_json_simple_array_to_impl (ii_value i));
      mret (true, depth)
    else
      _ ← on_json write_array_begin;
      d ← deeper depth; mret (false, d)
  | StArrayEnd => _ ← on_json write_array_end; d ← shallower depth; mret (false, d)
  | StStructBegin =>
    i ← item;
    _ ← json_name i (want_name && negb (md_is_element (item_metadata (ii_value i))));
    _ ← on_json write_object_begin;
    d ← deeper depth; mret (false, d)
  | StStructEnd => _ ← on_json write_object_end; d ← shallower depth; mret (false, d)
  | StError | StAfterLastItem => io_lift Panic
  end.

(** Each move lowers [move_next_remaining] or is the last. *)
(* enumerator.rs:1369-1438: EventHeaderEnumeratorContext::write_json_item_and_move_next_sibling_impl, loop *)
Fixpoint json_loop (event_data : bytes) (fuel : nat) (want_name : bool) (depth : Z) : io (JsonState S) unit unit :=
  match fuel with
  | O => io_lift Panic
  | Datatypes.S fuel =>
    '(whole, depth) ← json_item event_data want_name depth;
    moved ← on_context ((if whole : bool then move_next_sibling_impl else move_next_impl) event_data);
    if negb moved || (depth <=? 0) then mret tt
    else json_loop event_data fuel (if whole : bool then want_name else true) depth
  end.

(* enumerator.rs: EventHeaderEnumeratorContext::write_json_item_and_move_next_sibling_impl *)
Definition write_json_item_and_move_next_sibling_impl (event_data : bytes) (add_comma_before_first_item : bool)
    (convert_options : Z) : io (Ctx * S) unit bool := fun '(c, writer) =>
  _ ← rassert (can_move_next c.(state));
  '(r, s) ← json_loop event_data (Datatypes.S (Z.to_nat c.(move_next_remaining)))
      (options_has_flag convert_options RootName) 0
      {| j_context := c; j_json := JsonWriter_new writer convert_options add_comma_before_first_item |};
  Ret (match r with Ok _ => Ok (comma s.(j_json)) | Err e => Err e end, (s.(j_context), s.(j_json).(dest))).
(* enumerator.rs: EventHeaderEnumerator::write_json_item_and_move_next_sibling *)
Definition write_json_item_and_move_next_sibling (event_data : bytes) (add_comma_before_first_item : bool)
    (convert_options : Z) : io (Ctx * S) unit bool :=
  write_json_item_and_move_next_sibling_impl event_data add_comma_before_first_item convert_options.
End EventJson.
