(* ===== verification/Display.v ===== *)
(** * Display: names, identities and the metadata of events as text and JSON
      (tracepoint_decode/src/display.rs)

    A [Display] value is a record of what it shows and of its options; its [write_to] is a
    computation on the destination. *)

From stdpp Require Import gmap.
From S2P Require Import Prelude Strings Types ByteReader PerfItem Enumerator Text Provider Writers Session.
From S2P Require Import Floats ItemText PerfAbi PerfIo EventFormat FileReader SampleInfo.

(** ** [PerfMetaOptions]: a [u32] of flags *)

(* perf_item.rs:228-228: PerfMetaOptions::None *)
Definition Meta_None : Z := 0.
(* perf_item.rs:233-233: PerfMetaOptions::N *)
Definition Meta_N : Z := 0x1.
(* perf_item.rs:236-236: PerfMetaOptions::Time *)
Definition Meta_Time : Z := 0x2.
(* perf_item.rs:239-239: PerfMetaOptions::Cpu *)
Definition Meta_Cpu : Z := 0x4.
(* perf_item.rs:242-242: PerfMetaOptions::Pid *)
Definition Meta_Pid : Z := 0x8.
(* perf_item.rs:245-245: PerfMetaOptions::Tid *)
Definition Meta_Tid : Z := 0x10.
(* perf_item.rs:248-248: PerfMetaOptions::Id *)
Definition Meta_Id : Z := 0x20.
(* perf_item.rs:251-251: PerfMetaOptions::Version *)
Definition Meta_Version : Z := 0x40.
(* perf_item.rs:254-254: PerfMetaOptions::Level *)
Definition Meta_Level : Z := 0x80.
(* perf_item.rs:257-257: PerfMetaOptions::Keyword *)
Definition Meta_Keyword : Z := 0x100.
(* perf_item.rs:260-260: PerfMetaOptions::Opcode *)
Definition Meta_Opcode : Z := 0x200.
(* perf_item.rs:263-263: PerfMetaOptions::Tag *)
Definition Meta_Tag : Z := 0x400.
(* perf_item.rs:266-266: PerfMetaOptions::Activity *)
Definition Meta_Activity : Z := 0x800.
(* perf_item.rs:269-269: PerfMetaOptions::RelatedActivity *)
Definition Meta_RelatedActivity : Z := 0x1000.
(* perf_item.rs:272-272: PerfMetaOptions::Provider *)
Definition Meta_Provider : Z := 0x10000.
(* perf_item.rs:275-275: PerfMetaOptions::Event *)
Definition Meta_Event : Z := 0x20000.
(* perf_item.rs:278-278: PerfMetaOptions::Options *)
Definition Meta_Options : Z := 0x40000.
(* perf_item.rs:281-281: PerfMetaOptions::Flags *)
Definition Meta_Flags : Z := 0x80000.
(* perf_item.rs:285-285: PerfMetaOptions::Common *)
Definition Meta_Common : Z := 0x100000.
(* perf_item.rs:288-288: PerfMetaOptions::Default *)
Definition Meta_Default : Z := 0xffff.
(* perf_item.rs:291-291: PerfMetaOptions::All *)
Definition Meta_All : Z := 0xffffffff.
(* perf_item.rs:208-210: PerfMetaOptions::has_flag *)
Definition meta_has_flag (o flag : Z) : bool := negb (Z.land o flag =? 0).
(* perf_item.rs:213-215: PerfMetaOptions::and *)
Definition meta_and (o flag : Z) : Z := Z.land o flag.
(* perf_item.rs:218-220: PerfMetaOptions::and_not *)
Definition meta_and_not (o flag : Z) : Z := Z.ldiff o flag.
(* perf_item.rs:223-225: PerfMetaOptions::or *)
Definition meta_or (o flag : Z) : Z := Z.lor o flag.

Section Display.
Context {S : Type} `{Write S}.

(** ** Names *)

(* display.rs: JsonEscapeDisplay::write_to *)
Definition JsonEscapeDisplay_write_to (value : bytes) : fmt S := write_str_impl dest_filter false value.
(* display.rs: Utf8WithLatin1FallbackDisplay::write_to *)
Definition Utf8WithLatin1FallbackDisplay_write_to (utf8_bytes : bytes) : fmt S :=
  write_utf8_with_latin1_fallback_to dest_filter utf8_bytes.

(* display.rs: struct FieldNameAndTagDisplay *)
Record FieldNameAndTagDisplay := { fd_name_utf8_bytes : bytes; fd_tag : Z }.
(* display.rs: FieldNameAndTagDisplay::write_to *)
Definition FieldNameAndTagDisplay_write_to (d : FieldNameAndTagDisplay) : fmt S :=
  write_utf8_with_latin1_fallback_to dest_filter d.(fd_name_utf8_bytes) ;;?
  (if negb (d.(fd_tag) =? 0) then dest_write_str (str_bytes ";tag=0x") ;;? dest_write_str (fmt_HEX d.(fd_tag))
   else fmt_ok).

(* display.rs: struct EventHeaderIdentityDisplay *)
Record EventHeaderIdentityDisplay := { id_provider_name : bytes; id_event_name_utf8_bytes : bytes }.
(* display.rs: EventHeaderIdentityDisplay::write_to *)
Definition EventHeaderIdentityDisplay_write_to (d : EventHeaderIdentityDisplay) : fmt S :=
  WriteFilter_write_str d.(id_provider_name) ;;?
  WriteFilter_write_ascii 58 ;;?
  write_utf8_with_latin1_fallback_to dest_filter d.(id_event_name_utf8_bytes).
(* display.rs: struct EventHeaderJsonIdentityDisplay *)
Record EventHeaderJsonIdentityDisplay := { jid_provider_name : bytes; jid_event_name_utf8_bytes : bytes }.
(* display.rs: EventHeaderJsonIdentityDisplay::write_to *)
Definition EventHeaderJsonIdentityDisplay_write_to (d : EventHeaderJsonIdentityDisplay) : fmt S :=
  write_str_impl dest_filter false d.(jid_provider_name) ;;?
  JsonEscape_write_ascii dest_filter 58 ;;?
  write_utf8_with_latin1_fallback_to (JsonEscapeFilter dest_filter) d.(jid_event_name_utf8_bytes).

(* enumerator.rs:233-235: EventHeaderEventInfo::identity_display *)
Definition identity_display (i : EventHeaderEventInfo) : outcome EventHeaderIdentityDisplay :=
  p ← provider_name i; n ← ei_name_bytes i;
  Ret {| id_provider_name := p; id_event_name_utf8_bytes := n |}.
(* enumerator.rs:240-242: EventHeaderEventInfo::json_identity_display *)
Definition json_identity_display (i : EventHeaderEventInfo) : outcome EventHeaderIdentityDisplay :=
  p ← provider_name i; n ← ei_name_bytes i;
  Ret {| id_provider_name := p; id_event_name_utf8_bytes := n |}.
(* enumerator.rs:301-305: EventHeaderEventInfo::name_display *)
Definition ei_name_display (i : EventHeaderEventInfo) : outcome bytes :=
  slice i.(ei_event_data) i.(ei_name_start) (i.(ei_name_start) + i.(ei_name_len)).
(* enumerator.rs:447-451: EventHeaderItemInfo::name_display *)
Definition ii_name_display (i : EventHeaderItemInfo) : outcome bytes :=
  slice i.(ii_event_data) i.(ii_name_start) (i.(ii_name_start) + i.(ii_name_len)).
(* enumerator.rs:456-463: EventHeaderItemInfo::name_and_tag_display *)
Definition name_and_tag_display (i : EventHeaderItemInfo) : outcome FieldNameAndTagDisplay :=
  b ← slice i.(ii_event_data) i.(ii_name_start) (i.(ii_name_start) + i.(ii_name_len));
  Ret {| fd_name_utf8_bytes := b; fd_tag := field_tag (item_metadata i.(ii_value)) |}.

(** ** Values *)

(** Both [PerfItemValueDisplay] and [PerfItemValueJsonDisplay]. *)
(* display.rs: struct PerfItemValueDisplay *)
Record PerfItemValueDisplay := { vd_value : PerfItemValue; vd_convert_options : Z }.
(* display.rs: PerfItemValueDisplay::new *)
Definition PerfItemValueDisplay_new (value : PerfItemValue) : PerfItemValueDisplay :=
  {| vd_value := value; vd_convert_options := ConvertOptions_Default |}.
(* display.rs: PerfItemValueDisplay::convert_options *)
Definition vd_set_convert_options (value : Z) (d : PerfItemValueDisplay) : PerfItemValueDisplay :=
  {| vd_value := d.(vd_value); vd_convert_options := value |}.
(* display.rs: PerfItemValueDisplay::write_to *)
Definition PerfItemValueDisplay_write_to `{Calendar} (d : PerfItemValueDisplay) : fmt S :=
  write_to d.(vd_value) d.(vd_convert_options).
(* display.rs: PerfItemValueJsonDisplay::write_to *)
Definition PerfItemValueJsonDisplay_write_to `{Calendar} (d : PerfItemValueDisplay) : fmt S :=
  write_json_to d.(vd_value) d.(vd_convert_options).

(** ** One pair of the metadata *)

(** A [JsonWriter] that borrows the destination. *)
Definition with_json {A} (options : Z) (comma : bool) (m : io (ValueWriter S) unit A) : io S unit A := fun w =>
  '(r, json) ← m (JsonWriter_new w options comma); Ret (r, json.(dest)).

(** [if show { any_written = true; json.write_property_name_json_safe(name)?; value?; }]; the
    result is [any_written]. *)
Definition meta_item (any_written show : bool) (name : String.string) (value : fmt (ValueWriter S))
    : io (ValueWriter S) unit bool :=
  if show then _ ← (write_property_name_json_safe (str_bytes name) ;;? value : io _ _ _); mret true
  else mret any_written.
Arguments meta_item any_written show name%_string_scope value.

(** The options that every metadata display has. *)
Record MetaDisplayOptions := { add_comma_before_first_item : bool; meta_options : Z; convert_options : Z }.
Definition MetaDisplayOptions_default : MetaDisplayOptions :=
  {| add_comma_before_first_item := false; meta_options := Meta_Default; convert_options := ConvertOptions_Default |}.

(** ** The metadata that the perf session has of an event *)

(* display.rs: struct EventInfoJsonMetaDisplay *)
Record EventInfoJsonMetaDisplay := {
  md_session_info : PerfSessionInfo;
  md_event_desc : PerfEventDesc;
  md_time : Z;
  md_cpu : Z;
  md_pid : Z;
  md_tid : Z;
  md_options : MetaDisplayOptions;
}.
(* display.rs: EventInfoJsonMetaDisplay::new *)
Definition EventInfoJsonMetaDisplay_new (session_info : PerfSessionInfo) (event_desc : PerfEventDesc) (time cpu pid tid : Z)
    : EventInfoJsonMetaDisplay :=
  {| md_session_info := session_info; md_event_desc := event_desc; md_time := time; md_cpu := cpu; md_pid := pid;
     md_tid := tid; md_options := MetaDisplayOptions_default |}.
(* display.rs:540-556: EventInfoJsonMetaDisplay::convert_options *)
Definition md_set_options (o : MetaDisplayOptions) (d : EventInfoJsonMetaDisplay) : EventInfoJsonMetaDisplay :=
  {| md_session_info := d.(md_session_info); md_event_desc := d.(md_event_desc); md_time := d.(md_time);
     md_cpu := d.(md_cpu); md_pid := d.(md_pid); md_tid := d.(md_tid); md_options := o |}.
(* perf_event_data.rs:474-483: PerfSampleEventInfo::json_meta_display *)
Definition si_json_meta_display (i : PerfSampleEventInfo) : EventInfoJsonMetaDisplay :=
  EventInfoJsonMetaDisplay_new i.(si_session_info) i.(si_event_desc) i.(si_time) i.(si_cpu) i.(si_pid) i.(si_tid).
(* perf_event_data.rs:233-242: PerfNonSampleEventInfo::json_meta_display *)
Definition ni_json_meta_display (i : PerfNonSampleEventInfo) : EventInfoJsonMetaDisplay :=
  EventInfoJsonMetaDisplay_new i.(ni_session_info) i.(ni_event_desc) i.(ni_time) i.(ni_cpu) i.(ni_pid) i.(ni_tid).

(** [time as f64 / 1000000000.0]: both roundings. *)
Definition seconds_of_time (time : Z) : Z :=
  let t := fl_of_quotient F64 time 1 in
  if time =? 0 then 0
  else
    let e := binary_exponent F64 t in
    fl_of_quotient F64 (mantissa F64 t * 2 ^ Z.max 0 e) (1000000000 * 2 ^ Z.max 0 (- e)).

(* display.rs:572-599: EventInfoJsonMetaDisplay::write_to, time *)
Definition write_meta_time `{Calendar} (d : EventInfoJsonMetaDisplay) : fmt (ValueWriter S) :=
  if d.(md_session_info).(clock_offset_known) then
    with_arg (time_to_time_spec d.(md_time) d.(md_session_info)) (fun time_spec =>
      let dt := DateTime_new time_spec.(seconds) in
      if dt_valid dt then
        write_value_quoted (with_arg (dt_month dt) (fun month =>
          write_fmt_with_no_filter (date_pieces dt month ++ [[46]; fmt_padded 7 (time_spec.(nanoseconds) / 100); [90]])))
      else
        write_value_quoted (write_fmt_with_no_filter
          [str_bytes "TIME("; fmt_decimal time_spec.(seconds); [46]; fmt_padded 9 time_spec.(nanoseconds); [41]]))
  else write_value (write_float64 (seconds_of_time d.(md_time))).

(** [desc_name.split(':')]: its first two parts, empty when there are none. *)
Fixpoint take_part (l : bytes) : bytes * option bytes :=
  match l with
  | [] => ([], None)
  | b :: l => if b =? 58 then ([], Some l) else let '(p, rest) := take_part l in (b :: p, rest)
  end.
Definition split_name (desc_name : bytes) : bytes * bytes :=
  let '(provider, rest) := take_part desc_name in
  (provider, match rest with Some rest => fst (take_part rest) | None => [] end).
(* display.rs:630-644: EventInfoJsonMetaDisplay::write_to, provider and event *)
Definition meta_names (desc : PerfEventDesc) : bytes * bytes :=
  match desc.(pd_format), desc.(pd_name) with
  | Some format, [] => (format.(ef_system_name), format.(ef_name))
  | _, name => split_name name
  end.
Definition is_empty (l : bytes) : bool := match l with [] => true | _ => false end.

(* display.rs: EventInfoJsonMetaDisplay::write_to *)
Definition EventInfoJsonMetaDisplay_write_to `{Calendar} (d : EventInfoJsonMetaDisplay) : io S unit bool :=
  let meta := meta_has_flag d.(md_options).(meta_options) in
  let sample := SampleType_has_flag d.(md_event_desc).(pd_attr).(attr_sample_type) in
  let number v := write_value (write_decimal v) in
  with_json d.(md_options).(convert_options) d.(md_options).(add_comma_before_first_item)
    (any ← meta_item false (sample SampleType_Time && meta Meta_Time) "time" (write_meta_time d);
     any ← meta_item any (sample SampleType_Cpu && meta Meta_Cpu) "cpu" (number d.(md_cpu));
     any ← meta_item any (sample SampleType_Tid && meta Meta_Pid) "pid" (number d.(md_pid));
     any ← meta_item any (sample SampleType_Tid && (meta Meta_Tid && (negb (d.(md_pid) =? d.(md_tid)) || negb (meta Meta_Pid))))
             "tid" (number d.(md_tid));
     if meta (meta_or Meta_Provider Meta_Event) then
       let '(provider, event) := meta_names d.(md_event_desc) in
       any ← meta_item any (meta Meta_Provider && negb (is_empty provider)) "provider"
               (write_value_quoted (write_str_with_json_escape provider));
       meta_item any (meta Meta_Event && negb (is_empty event)) "event"
         (write_value_quoted (write_str_with_json_escape event))
     else mret any).

(** ** The metadata of an EventHeader event *)

(* display.rs: struct EventHeaderJsonMetaDisplay *)
Record EventHeaderJsonMetaDisplay := {
  eh_event_info : EventHeaderEventInfo;
  sample_event_info : option PerfSampleEventInfo;
  eh_options : MetaDisplayOptions;
}.
(* display.rs: EventHeaderJsonMetaDisplay::new *)
Definition EventHeaderJsonMetaDisplay_new (eh_event_info : EventHeaderEventInfo) (sample_event_info : option PerfSampleEventInfo)
    : EventHeaderJsonMetaDisplay :=
  {| eh_event_info := eh_event_info; sample_event_info := sample_event_info; eh_options := MetaDisplayOptions_default |}.
(* display.rs:312-328: EventHeaderJsonMetaDisplay::convert_options *)
Definition eh_set_options (o : MetaDisplayOptions) (d : EventHeaderJsonMetaDisplay) : EventHeaderJsonMetaDisplay :=
  {| eh_event_info := d.(eh_event_info); sample_event_info := d.(sample_event_info); eh_options := o |}.
(* enumerator.rs:274-279: EventHeaderEventInfo::json_meta_display *)
Definition json_meta_display (i : EventHeaderEventInfo) (sample_event_info : option PerfSampleEventInfo)
    : EventHeaderJsonMetaDisplay := EventHeaderJsonMetaDisplay_new i sample_event_info.

(** The first part: the metadata of the sample, without the names. *)
(* display.rs:334-346: EventHeaderJsonMetaDisplay::write_to, sample_event_info *)
Definition write_sample_meta `{Calendar} (d : EventHeaderJsonMetaDisplay) : io S unit bool :=
  match d.(sample_event_info) with
  | Some i =>
    EventInfoJsonMetaDisplay_write_to (md_set_options
      {| add_comma_before_first_item := d.(eh_options).(add_comma_before_first_item);
         meta_options := meta_and_not d.(eh_options).(meta_options) (meta_or Meta_Provider Meta_Event);
         convert_options := d.(eh_options).(convert_options) |} (si_json_meta_display i))
  | None => mret false
  end.

(** The second part, on the JSON writer. *)
(* display.rs:354-484: EventHeaderJsonMetaDisplay::write_to, json *)
Definition write_header_meta (d : EventHeaderJsonMetaDisplay) (any : bool) : io (ValueWriter S) unit bool :=
  let meta := meta_has_flag d.(eh_options).(meta_options) in
  let info := d.(eh_event_info) in
  let h := info.(ei_header) in
  let tracepoint_name := info.(ei_tracepoint_name) in
  let number v := write_value (write_decimal v) in
  let uuid start := write_value_quoted (with_arg (slice info.(ei_event_data) start (start + 16)) write_uuid) in
  provider_name_end ← io_lift
    (if meta (meta_or Meta_Provider Meta_Options)
     then match rfind_underscore tracepoint_name with Some p => Ret p | None => Panic end
     else Ret 0);
  any ← meta_item any (meta Meta_Provider) "provider"
          (write_value_quoted (with_arg (str_slice tracepoint_name 0 provider_name_end) write_str_with_json_escape));
  any ← meta_item any (meta Meta_Event) "event"
          (write_value_quoted (with_arg (ei_name_bytes info) write_utf8_with_json_escape));
  any ← meta_item any (meta Meta_Id && negb (h.(eh_id) =? 0)) "id" (number h.(eh_id));
  any ← meta_item any (meta Meta_Version && negb (h.(eh_version) =? 0)) "version" (number h.(eh_version));
  any ← meta_item any (meta Meta_Level && negb (h.(eh_level) =? Level_Invalid)) "level" (number h.(eh_level));
  any ← meta_item any (meta Meta_Keyword && negb (info.(ei_keyword) =? 0)) "keyword"
          (write_value (write_json_hex64 info.(ei_keyword)));
  any ← meta_item any (meta Meta_Opcode && negb (h.(eh_opcode) =? Opcode_Info)) "opcode" (number h.(eh_opcode));
  any ← meta_item any (meta Meta_Tag && negb (h.(eh_tag) =? 0)) "tag" (write_value (write_json_hex32 h.(eh_tag)));
  any ← meta_item any (meta Meta_Activity && (16 <=? info.(ei_activity_id_len))) "activity"
          (uuid info.(ei_activity_id_start));
  any ← meta_item any (meta Meta_RelatedActivity && (32 <=? info.(ei_activity_id_len))) "relatedActivity"
          (uuid (info.(ei_activity_id_start) + 16));
  start ← io_lift
    (if meta Meta_Options
     then find_option_start tracepoint_name (Z.to_nat (len tracepoint_name - provider_name_end)) provider_name_end
     else Ret None);
  any ← match start with
        | Some pos =>
          meta_item any true "options"
            (write_value_quoted (with_arg (str_slice tracepoint_name pos (len tracepoint_name)) write_str_with_no_filter))
        | None => mret any
        end;
  meta_item any (meta Meta_Flags) "flags" (write_value (write_json_hex32 h.(eh_flags))).

(* display.rs: EventHeaderJsonMetaDisplay::write_to *)
Definition EventHeaderJsonMetaDisplay_write_to `{Calendar} (d : EventHeaderJsonMetaDisplay) : io S unit bool :=
  any_written ← write_sample_meta d;
  with_json d.(eh_options).(convert_options) (any_written || d.(eh_options).(add_comma_before_first_item))
    (write_header_meta d any_written).
End Display.
