(* ===== verification/FloatsProps.v ===== *)
(** * FloatsProps: the texts of finite floating point numbers are JSON numbers *)

From S2P Require Import Prelude Strings Types ByteReader Text Provider Writers Floats.

(** ** The grammar of JSON numbers *)

Definition digits (l : bytes) : Prop := Forall (fun c => 48 <= c <= 57) l.
(** Without a leading zero, unless it is the only digit. *)
Definition natural_text (l : bytes) : Prop :=
  l = [48] \/ exists d ds, l = d :: ds /\ 49 <= d <= 57 /\ digits ds.
Definition sign_text (l : bytes) : Prop := l = [] \/ l = [45].
Definition fraction_text (l : bytes) : Prop := l = [] \/ exists ds, l = 46 :: ds /\ ds <> [] /\ digits ds.
Definition exponent_text (l : bytes) : Prop :=
  l = [] \/ exists s ds, l = 101 :: s ++ ds /\ sign_text s /\ ds <> [] /\ digits ds.
Definition json_number (l : bytes) : Prop :=
  exists s n fr e, l = s ++ n ++ fr ++ e /\ sign_text s /\ natural_text n /\ fraction_text fr /\ exponent_text e.

Lemma natural_digits l : natural_text l -> l <> [] /\ digits l.
Proof.
  intros [->|(d & ds & -> & Hd & Hds)]; (split; [done|]); constructor; try done; try constructor; lia.
Qed.
Lemma integer_number s n : sign_text s -> natural_text n -> json_number (s ++ n).
Proof. intros Hs Hn. exists s, n, [], []. rewrite !app_nil_r. split_and!; try done; by left. Qed.

(** ** Decimal integers *)

Lemma decimal_loop_ok n : forall v tail, 0 <= v < 10 ^ Z.of_nat n -> (0 < n)%nat ->
  exists ds, decimal_loop n v tail = ds ++ tail /\ natural_text ds /\ (0 < v -> exists d t, ds = d :: t /\ 49 <= d).
Proof.
  induction n as [|n IH]; intros v tail Hv Hn; [lia|]. cbn [decimal_loop].
  destruct (Z.eqb_spec (v / 10) 0) as [E|E].
  - assert (Hv9 : 0 <= v < 10) by (Z.div_mod_to_equations; lia). rewrite Z.mod_small by lia.
    exists [48 + v]. split; [done|]. destruct (Z.eqb_spec v 0) as [->|Hv0]; [by split; [left|lia]|].
    split; [right; exists (48 + v), []; split_and!; [done|lia|lia|constructor]|intros _; exists (48 + v), []; split; [done|lia]].
  - assert (Hn0 : (0 < n)%nat).
    { destruct n; [|lia]. cbn in Hv. Z.div_mod_to_equations; lia. }
    destruct (IH (v / 10) (48 + v mod 10 :: tail)) as (ds & -> & Hds & Hl); [|done|].
    { rewrite Nat2Z.inj_succ, Z.pow_succ_r in Hv by lia. split; [apply Z.div_pos; lia|]. apply Z.div_lt_upper_bound; lia. }
    destruct (Hl ltac:(pose proof (Z.div_pos v 10 ltac:(lia)); lia)) as (d & t & -> & Hd).
    exists ((d :: t) ++ [48 + v mod 10]). rewrite <- app_assoc. split; [done|].
    destruct (natural_digits _ Hds) as [_ Hdg]. apply Forall_cons_iff in Hdg as [Hd' Ht].
    split; [right|intros _; by exists d, (t ++ [48 + v mod 10])]. exists d, (t ++ [48 + v mod 10]).
    split_and!; [done|lia|lia|]. apply Forall_app. split; [done|]. repeat constructor; Z.div_mod_to_equations; lia.
Qed.
Lemma fmt_decimal_ok v : - 10 ^ 20 < v < 10 ^ 20 ->
  exists s ds, fmt_decimal v = s ++ ds /\ sign_text s /\ natural_text ds.
Proof.
  intros Hv. unfold fmt_decimal. destruct (Z.ltb_spec v 0).
  - destruct (decimal_loop_ok 20 (- v) []) as (ds & -> & Hds & _); [lia|lia|].
    exists [45], ds. rewrite app_nil_r. split_and!; [done|by right|done].
  - destruct (decimal_loop_ok 20 v []) as (ds & -> & Hds & _); [lia|lia|].
    exists [], ds. rewrite app_nil_r. split_and!; [done|by left|done].
Qed.
Lemma decimal_number v : - 10 ^ 20 < v < 10 ^ 20 -> json_number (fmt_decimal v).
Proof. intros Hv. destruct (fmt_decimal_ok v Hv) as (s & ds & -> & Hs & Hd). by apply integer_number. Qed.

(** The number that a literal is. *)
Definition digits_number (l : list Z) : Z := fold_left (fun v c => v * 10 + (c - 48)) l 0.
Definition literal_number (l : list Z) : Z :=
  match l with c :: t => if c =? 45 then - digits_number t else digits_number l | [] => 0 end.

Lemma decimal_loop_number n : forall v tail, 0 <= v < 10 ^ Z.of_nat n ->
  digits_number (decimal_loop n v tail) = fold_left (fun v c => v * 10 + (c - 48)) tail v.
Proof.
  unfold digits_number. induction n as [|n IH]; intros v tail Hv; [cbn; f_equal; cbn in Hv; lia|]. cbn [decimal_loop].
  rewrite Nat2Z.inj_succ, Z.pow_succ_r in Hv by lia. pose proof (Z.div_mod v 10 ltac:(lia)) as Hd.
  pose proof (Z.mod_pos_bound v 10 ltac:(lia)). destruct (Z.eqb_spec (v / 10) 0).
  - cbn [fold_left]. f_equal. lia.
  - rewrite IH; [|split; [apply Z.div_pos; lia|apply Z.div_lt_upper_bound; lia]]. cbn [fold_left]. f_equal. lia.
Qed.
Lemma decimal_literal x : - 10 ^ 20 < x < 10 ^ 20 -> literal_number (fmt_decimal x) = x.
Proof.
  intros Hx. unfold fmt_decimal. destruct (Z.ltb_spec x 0).
  - cbn [literal_number Z.eqb Pos.eqb]. rewrite decimal_loop_number by (change (Z.of_nat 20) with 20; lia). cbn. lia.
  - assert (E : forall l, digits l -> literal_number l = digits_number l).
    { intros [|c t] Hl; [done|]. apply Forall_cons_iff in Hl as [Hc _]. unfold literal_number. by rewrite (proj2 (Z.eqb_neq c 45)) by lia. }
    rewrite E, decimal_loop_number; [done|change (Z.of_nat 20) with 20; lia|].
    destruct (decimal_loop_ok 20 x []) as (ds & -> & Hds & _); [change (Z.of_nat 20) with 20; lia|lia|]. rewrite app_nil_r. by apply natural_digits.
Qed.

(** ** Lists of digits *)

Definition digits9 (l : list Z) : Prop := Forall (fun d => 0 <= d <= 9) l.
Definition leading (l : list Z) : Prop := exists d t, l = d :: t /\ 1 <= d.

Lemma ascii_digits_ok l : digits9 l -> digits (ascii_digits l).
Proof. intros Hl. apply Forall_map. eapply List.Forall_impl; [|exact Hl]. cbn. lia. Qed.
Lemma zeros_digits n : digits (zeros n).
Proof. unfold zeros. induction (Z.to_nat n); constructor; [lia|done]. Qed.
Lemma digits_app a b : digits a -> digits b -> digits (a ++ b).
Proof. intros. apply Forall_app. by split. Qed.
Lemma leading_natural l : digits9 l -> leading l -> natural_text (ascii_digits l).
Proof.
  intros Hl (d & t & -> & Hd). apply Forall_cons_iff in Hl as [Hd9 Ht]. right. exists (48 + d), (ascii_digits t).
  split_and!; [done|lia|lia|by apply ascii_digits_ok].
Qed.
Lemma natural_app a b : (exists d t, a = d :: t /\ 49 <= d) -> natural_text a -> digits b -> natural_text (a ++ b).
Proof.
  intros (d & t & -> & Hd) Hn Hb. apply natural_digits in Hn as [_ Hn]. apply Forall_cons_iff in Hn as [Hd' Ht].
  right. exists d, (t ++ b). split_and!; [done|lia|lia|by apply digits_app].
Qed.

Lemma dec_text_number l k : digits9 l -> leading l -> exists n fr, dec_text l k = n ++ fr /\ natural_text n /\ fraction_text fr.
Proof.
  intros Hl Hd. unfold dec_text. pose proof (leading_natural l Hl Hd) as Hn. destruct Hd as (d & t & -> & Hd).
  destruct (Z.leb_spec k 0); [|destruct (Z.ltb_spec k (len (d :: t)))].
  - exists [48], (46 :: zeros (- k) ++ ascii_digits (d :: t)). split_and!; [done|by left|]. right. eexists. split_and!; [done| |].
    + by destruct (zeros (- k)).
    + apply digits_app; [apply zeros_digits|by apply ascii_digits_ok].
  - eexists _, _. split; [reflexivity|]. rewrite <- (take_drop (Z.to_nat k) (d :: t)) in Hl. apply Forall_app in Hl as [Hl1 Hl2].
    split.
    + apply leading_natural; [done|]. destruct (Z.to_nat k) as [|m] eqn:E; [lia|]. by exists d, (take m t).
    + right. eexists. split_and!; [reflexivity| |by apply ascii_digits_ok].
      intros E. apply (f_equal (@length Z)) in E. unfold ascii_digits in E. rewrite length_map, length_drop in E. unfold len in *.
      cbn [length] in *. lia.
  - exists (ascii_digits (d :: t) ++ zeros (k - len (d :: t))), []. split_and!; [by rewrite app_nil_r| |by left].
    apply natural_app; [|done|apply zeros_digits]. exists (48 + d), (ascii_digits t). split; [done|lia].
Qed.
Lemma exp_text_number l k : digits9 l -> l <> [] -> - 10 ^ 19 < k < 10 ^ 19 ->
  exists n fr e, exp_text l k = n ++ fr ++ e /\ natural_text n /\ fraction_text fr /\ exponent_text e.
Proof.
  intros Hl Hne Hk. destruct l as [|d t]; [done|]. apply Forall_cons_iff in Hl as [Hd Ht]. unfold exp_text.
  cbn [take drop]. change (ascii_digits [d]) with [48 + d].
  eexists [48 + d], _, (101 :: fmt_decimal (k - 1)). split; [reflexivity|].
  assert (Hn : natural_text [48 + d]).
  { destruct (Z.eqb_spec d 0) as [->|]; [by left|]. right. exists (48 + d), []. split_and!; [done|lia|lia|constructor]. }
  split; [exact Hn|]. split.
  - destruct (Z.ltb_spec 1 (len (d :: t))) as [Hlt|]; [|by left]. right. eexists. split_and!; [done| |by apply ascii_digits_ok].
    destruct t; [|done]. unfold len in Hlt. cbn in Hlt. lia.
  - right. destruct (fmt_decimal_ok (k - 1)) as (s & ds & -> & Hs & Hds); [lia|]. exists s, ds.
    destruct (natural_digits _ Hds). by split_and!.
Qed.

(** ** The scaling factor *)

(** [2 ^ x <= 10 ^ k] *)
Definition pow_le (x k : Z) : bool :=
  2 ^ Z.max 0 x * 10 ^ Z.max 0 (- k) <=? 2 ^ Z.max 0 (- x) * 10 ^ Z.max 0 k.
(** [10 ^ k <= 2 ^ x] *)
Definition pow_ge (x k : Z) : bool :=
  2 ^ Z.max 0 (- x) * 10 ^ Z.max 0 k <=? 2 ^ Z.max 0 x * 10 ^ Z.max 0 (- k).
Definition factor (x : Z) : Z := Z.shiftr (x * 1292913986) 32.
Definition factor_ok (x : Z) : bool :=
  pow_le x (factor x + 1) && pow_ge (x - 1) (factor x - 1) && (-400 <=? factor x) && (factor x <=? 400).
Lemma factors_ok x : -1200 <= x <= 1100 -> factor_ok x = true.
Proof.
  assert (H : forallb (fun i => factor_ok (Z.of_nat i - 1200)) (seq 0 2301) = true) by by vm_compute.
  intros Hx. rewrite forallb_forall in H. specialize (H (Z.to_nat (x + 1200))). rewrite in_seq in H.
  rewrite Z2Nat.id in H by lia. replace (x + 1200 - 1200) with x in H by lia. apply H. lia.
Qed.

Lemma pow_pos b x : 0 < b -> 0 < b ^ Z.max 0 x.
Proof. intros Hb. apply Z.pow_pos_nonneg; lia. Qed.
(** [2 ^ L * 2 ^ E] is [2 ^ x]. *)
Lemma split_two x L E : 0 <= L -> x = L + E ->
  2 ^ L * 2 ^ Z.max 0 E * 2 ^ Z.max 0 (- x) = 2 ^ Z.max 0 x * 2 ^ Z.max 0 (- E).
Proof. intros HL ->. rewrite <- !Z.pow_add_r by lia. f_equal. lia. Qed.
Lemma scaled_le a x k L E : pow_le x k = true -> 0 <= L -> x = L + E -> a <= 2 ^ L ->
  a * 2 ^ Z.max 0 E * 10 ^ Z.max 0 (- k) <= 2 ^ Z.max 0 (- E) * 10 ^ Z.max 0 k.
Proof.
  unfold pow_le. intros Hp%Z.leb_le HL Hx Ha. pose proof (split_two x L E HL Hx) as Hs.
  pose proof (pow_pos 2 x ltac:(lia)) as H1. pose proof (pow_pos 2 (- x) ltac:(lia)) as H2.
  pose proof (pow_pos 2 E ltac:(lia)) as H3. pose proof (pow_pos 2 (- E) ltac:(lia)) as H4.
  pose proof (pow_pos 10 k ltac:(lia)) as H5. pose proof (pow_pos 10 (- k) ltac:(lia)) as H6.
  apply (Z.le_trans _ (2 ^ L * 2 ^ Z.max 0 E * 10 ^ Z.max 0 (- k))).
  { apply Z.mul_le_mono_nonneg_r; [lia|]. apply Z.mul_le_mono_nonneg_r; lia. }
  apply (Z.mul_le_mono_pos_r _ _ (2 ^ Z.max 0 (- x)) H2).
  rewrite <- Z.mul_assoc, (Z.mul_comm (10 ^ _)), Z.mul_assoc, Hs. nia.
Qed.
Lemma scaled_ge a x k L E : pow_ge x k = true -> 0 <= L -> x = L + E -> 2 ^ L < a ->
  2 ^ Z.max 0 (- E) * 10 ^ Z.max 0 k < a * 2 ^ Z.max 0 E * 10 ^ Z.max 0 (- k).
Proof.
  unfold pow_ge. intros Hp%Z.leb_le HL Hx Ha. pose proof (split_two x L E HL Hx) as Hs.
  pose proof (pow_pos 2 x ltac:(lia)) as H1. pose proof (pow_pos 2 (- x) ltac:(lia)) as H2.
  pose proof (pow_pos 2 E ltac:(lia)) as H3. pose proof (pow_pos 2 (- E) ltac:(lia)) as H4.
  pose proof (pow_pos 10 k ltac:(lia)) as H5. pose proof (pow_pos 10 (- k) ltac:(lia)) as H6.
  apply (Z.le_lt_trans _ (2 ^ L * 2 ^ Z.max 0 E * 10 ^ Z.max 0 (- k))).
  - apply (Z.mul_le_mono_pos_r _ _ (2 ^ Z.max 0 (- x)) H2).
    rewrite <- (Z.mul_assoc _ (10 ^ Z.max 0 (- k))), (Z.mul_comm (10 ^ Z.max 0 (- k))), (Z.mul_assoc _ _ (10 ^ Z.max 0 (- k))), Hs. nia.
  - apply Z.mul_lt_mono_pos_r; [done|]. by apply Z.mul_lt_mono_pos_r.
Qed.
(** From [k + 1] and from [k - 1] to [k]. *)
Lemma tens k : 10 ^ Z.max 0 (- k) * 10 ^ Z.max 0 (k + 1) = 10 * 10 ^ Z.max 0 k * 10 ^ Z.max 0 (- (k + 1)).
Proof. change 10 with (10 ^ 1) at 3. rewrite <- !Z.pow_add_r by lia. f_equal. lia. Qed.

(** The number whose scaling factor is estimated, against [10 ^ k]. *)
Lemma estimate_ok a E : 1 < a -> -1200 <= Z.log2_up a + E <= 1100 ->
  let k := estimate_scaling_factor a E in
  let scale := 2 ^ Z.max 0 (- E) * 10 ^ Z.max 0 k in
  let m := a * 2 ^ Z.max 0 E * 10 ^ Z.max 0 (- k) in
  m <= 10 * scale /\ scale < 10 * m /\ -400 <= k <= 400.
Proof.
  intros Ha Hx k scale m. pose proof (factors_ok _ Hx) as Hf. unfold factor_ok in Hf.
  change (factor (Z.log2_up a + E)) with k in Hf. bool_hyps.
  destruct (Z.log2_up_spec a ltac:(lia)) as [Hlo Hhi]. pose proof (Z.log2_up_nonneg a) as Hl0.
  assert (Hl1 : 1 <= Z.log2_up a) by (pose proof (Z.log2_up_pos a ltac:(lia)); lia).
  pose proof (pow_pos 10 k ltac:(lia)) as P1. pose proof (pow_pos 10 (- k) ltac:(lia)) as P2.
  pose proof (pow_pos 10 (k + 1) ltac:(lia)) as P3. pose proof (pow_pos 10 (- (k + 1)) ltac:(lia)) as P4.
  pose proof (pow_pos 10 (k - 1) ltac:(lia)) as P5. pose proof (pow_pos 10 (- (k - 1)) ltac:(lia)) as P6.
  pose proof (pow_pos 2 E ltac:(lia)) as P7. pose proof (pow_pos 2 (- E) ltac:(lia)) as P8.
  split_and!; [| |lia|lia].
  - pose proof (scaled_le a _ (k + 1) (Z.log2_up a) E ltac:(eassumption) Hl0 eq_refl Hhi) as Hs.
    pose proof (tens k) as Ht. subst m scale.
    apply (Z.mul_le_mono_pos_r _ _ (10 ^ Z.max 0 (- (k + 1))) P4).
    revert Hs Ht. generalize (a * 2 ^ Z.max 0 E). intros v Hs Ht. nia.
  - pose proof (scaled_ge a _ (k - 1) (Z.log2_up a - 1) E ltac:(eassumption) ltac:(lia) ltac:(lia) ltac:(by rewrite Z.sub_1_r)) as Hs.
    pose proof (tens (k - 1)) as Ht. replace (k - 1 + 1) with k in Ht by lia. subst m scale.
    apply (Z.mul_lt_mono_pos_r (10 ^ Z.max 0 (- (k - 1)))); [done|].
    revert Hs Ht. generalize (a * 2 ^ Z.max 0 E). intros v Hs Ht. nia.
Qed.

(** ** The shortest digits *)

Lemma shortest_step n incl mant minus plus scale ds :
  shortest_loop (S n) incl mant minus plus scale ds =
    let ds := ds ++ [mant / scale] in
    let rest := mant mod scale in
    let down := if incl then rest <=? minus else rest <? minus in
    let up := if incl then scale <=? rest + plus else scale <? rest + plus in
    if down || up then (ds, up, down, rest) else shortest_loop n incl (10 * rest) (10 * minus) (10 * plus) scale ds.
Proof. reflexivity. Qed.
Lemma shortest_loop_digits n : forall incl mant minus plus scale ds, 0 <= mant < 10 * scale -> 0 < scale ->
  digits9 ds -> digits9 (shortest_loop n incl mant minus plus scale ds).1.1.1.
Proof.
  induction n as [|n IH]; intros incl mant minus plus scale ds Hm Hs Hd; cbn [shortest_loop]; [done|]. cbv zeta.
  assert (Hd' : digits9 (ds ++ [mant / scale])).
  { apply Forall_app. split; [done|]. repeat constructor; [apply Z.div_pos; lia|].
    enough (mant / scale < 10) by lia. apply Z.div_lt_upper_bound; lia. }
  destruct (_ || _); [done|]. apply IH; [|done|done]. pose proof (Z.mod_pos_bound mant scale Hs). lia.
Qed.
Lemma shortest_loop_prefix n : forall incl mant minus plus scale ds,
  exists t, (shortest_loop n incl mant minus plus scale ds).1.1.1 = ds ++ t.
Proof.
  induction n as [|n IH]; intros incl mant minus plus scale ds; cbn [shortest_loop]; [exists []; by rewrite app_nil_r|].
  cbv zeta. destruct (_ || _); [by eexists|]. destruct (IH incl (10 * (mant mod scale)) (10 * minus) (10 * plus) scale
    (ds ++ [mant / scale])) as [t ->]. exists ((mant / scale) :: t). by rewrite <- app_assoc.
Qed.

Lemma round_up_ok l : digits9 l ->
  digits9 (round_up l).1 /\ length (round_up l).1 = length l /\
  (leading l -> leading (round_up l).1 \/ (round_up l).2 = true) /\ (l = [0] -> round_up l = ([1], false)).
Proof.
  intros Hl. unfold round_up.
  set (step := fun d '(t, carry) => if carry : bool then (if d =? 9 then (0 :: t, true) else (d + 1 :: t, false)) else (d :: t, false)).
  assert (Hf : digits9 (foldr step ([], true) l).1 /\ length (foldr step ([], true) l).1 = length l).
  { induction Hl as [|d l Hd Hl [IH1 IH2]]; [by split; [constructor|]|]. cbn [foldr].
    destruct (foldr step ([], true) l) as [t []]; cbn [fst] in *; unfold step;
      [destruct (Z.eqb_spec d 9)|]; cbn [fst length]; (split; [constructor; [lia|done]|congruence]). }
  destruct Hf as [Hf1 Hf2]. split_and!; try done.
  - intros (d & t & -> & Hd). cbn [foldr]. destruct (foldr step ([], true) t) as [t' []]; unfold step;
      [destruct (Z.eqb_spec d 9); [by right|]|]; left; eexists _, _; (split; [reflexivity|lia]).
  - by intros ->.
Qed.

(** What [decode] gives of a finite number other than zero. *)
Record decoded_ok (d : Decoded) : Prop := {
  mant_bound : 1 < d.(d_mant) <= 2 ^ 55;
  minus_one : d.(d_minus) = 1;
  plus_bound : 1 <= d.(d_plus) <= 2;
  exp_bound : -1100 <= d.(d_exp) <= 970;
}.
Lemma log2_up_bound a : 1 < a <= 2 ^ 56 -> 1 <= Z.log2_up a <= 56.
Proof.
  intros Ha. split; [pose proof (Z.log2_up_pos a ltac:(lia)); lia|].
  change 56 with (Z.log2_up (2 ^ 56)) at 1. apply Z.log2_up_le_mono. lia.
Qed.

Lemma format_shortest_ok d : decoded_ok d ->
  digits9 (format_shortest d).1 /\ leading (format_shortest d).1 /\ -500 <= (format_shortest d).2 <= 500.
Proof.
  intros [Hm Hmin Hp He]. unfold format_shortest. set (a := d_mant d + d_plus d).
  pose proof (log2_up_bound a ltac:(lia)) as Hlog.
  destruct (estimate_ok a (d_exp d) ltac:(lia) ltac:(lia)) as (H1 & H2 & H3).
  set (k := estimate_scaling_factor a (d_exp d)) in *. cbv zeta. rewrite Hmin.
  pose proof (pow_pos 2 (d_exp d) ltac:(lia)) as P1. pose proof (pow_pos 2 (- d_exp d) ltac:(lia)) as P2.
  pose proof (pow_pos 10 k ltac:(lia)) as P3. pose proof (pow_pos 10 (- k) ltac:(lia)) as P4.
  set (scale := 2 ^ Z.max 0 (- d_exp d) * 10 ^ Z.max 0 k) in *.
  assert (Hs : 0 < scale) by (subst scale; nia).
  set (mant := d_mant d * 2 ^ Z.max 0 (d_exp d) * 10 ^ Z.max 0 (- k)).
  set (minus := 1 * 2 ^ Z.max 0 (d_exp d) * 10 ^ Z.max 0 (- k)).
  set (plus := d_plus d * 2 ^ Z.max 0 (d_exp d) * 10 ^ Z.max 0 (- k)).
  assert (Hmm : minus < mant) by (subst mant minus; nia).
  assert (Hmp : 0 < minus /\ 0 < plus) by (subst plus minus; split; nia).
  replace (a * 2 ^ Z.max 0 (d_exp d) * 10 ^ Z.max 0 (- k)) with (mant + plus) in H1, H2 by (subst mant plus a; nia).
  set (high := if d_inclusive d then scale <=? mant + plus else scale <? mant + plus).
  set (n := if high then 1 else 10).
  assert (Hn : (if high then (k + 1, 1) else (k, 10)) = (if high then k + 1 else k, n)) by (subst n; by destruct high).
  rewrite Hn. clearbody mant minus plus scale.
  assert (Hrange : 0 <= n * mant < 10 * scale).
  { subst n high. destruct (d_inclusive d); [destruct (Z.leb_spec scale (mant + plus))|destruct (Z.ltb_spec scale (mant + plus))]; lia. }
  (* a first digit of zero is rounded up *)
  assert (Hfirst : n * mant < scale ->
    (if d_inclusive d then scale <=? n * mant + n * plus else scale <? n * mant + n * plus) = true /\ n * minus < n * mant).
  { intros Hz. subst n high. destruct (d_inclusive d); [destruct (Z.leb_spec scale (mant + plus))|destruct (Z.ltb_spec scale (mant + plus))];
      (split; [first [apply Z.leb_le | apply Z.ltb_lt]; lia|lia]). }
  destruct (shortest_loop 40 (d_inclusive d) (n * mant) (n * minus) (n * plus) scale []) as [[[ds up] down] rest] eqn:E.
  pose proof (shortest_loop_digits 40 (d_inclusive d) (n * mant) (n * minus) (n * plus) scale [] Hrange Hs ltac:(constructor)) as Hds.
  rewrite E in Hds. cbn [fst] in Hds. destruct (round_up_ok ds Hds) as (R1 & R2 & R3 & R4).
  assert (Hk : -500 <= (if high then k + 1 else k) <= 499) by (destruct high; lia).
  assert (Hcase : leading ds \/ ds = [0] /\ up = true /\ down = false).
  { destruct (Z.leb_spec scale (n * mant)) as [Hge|Hlt].
    - left. rewrite (shortest_step 39) in E. cbv zeta in E. cbn [app] in E.
      assert (Hq : 1 <= n * mant / scale) by (apply Z.div_le_lower_bound; lia).
      destruct (_ || _).
      + injection E as <- _ _ _. by eexists _, _.
      + destruct (shortest_loop_prefix 39 (d_inclusive d) (10 * ((n * mant) mod scale)) (10 * (n * minus)) (10 * (n * plus))
          scale [n * mant / scale]) as [t Et]. rewrite E in Et. cbn [fst] in Et. subst ds. by eexists _, _.
    - right. destruct (Hfirst Hlt) as [Hu Hdn]. rewrite (shortest_step 39) in E. cbv zeta in E. cbn [app] in E.
      rewrite Z.div_small, Z.mod_small, Hu, orb_true_r in E by lia. injection E as <- <- <- _.
      split_and!; [done|done|]. destruct (d_inclusive d); [apply Z.leb_gt|apply Z.ltb_ge]; lia. }
  destruct Hcase as [Hlead|(-> & -> & ->)].
  - destruct (up && _); [|cbn [fst snd]; split_and!; [done|done|lia|lia]].
    destruct (round_up ds) as [l carry]. cbn [fst snd] in *.
    destruct carry; cbn [fst snd]; split_and!; try lia.
    + constructor; [lia|done].
    + by exists 1, l.
    + done.
    + by destruct (R3 Hlead).
  - cbn [andb negb orb]. rewrite R4 by done. cbn [fst snd]. split_and!; [repeat constructor; lia|by exists 1, []|lia|lia].
Qed.

(** ** A fixed count of digits *)

Lemma digits_loop_ok fuel : forall v tail, 0 <= v < 10 ^ Z.of_nat fuel -> digits9 tail ->
  digits9 (digits_loop fuel v tail) /\ (0 < v -> leading (digits_loop fuel v tail)) /\ (v = 0 -> digits_loop fuel v tail = tail).
Proof.
  induction fuel as [|n IH]; intros v tail Hv Ht; [split_and!; [done|cbn in Hv; lia|done]|].
  cbn [digits_loop]. destruct (Z.eqb_spec v 0) as [->|Hv0]; [by split_and!|].
  rewrite Nat2Z.inj_succ, Z.pow_succ_r in Hv by lia.
  assert (Ht' : digits9 (v mod 10 :: tail)) by (constructor; [Z.div_mod_to_equations; lia|done]).
  destruct (IH (v / 10) (v mod 10 :: tail)) as (I1 & I2 & I3); [split; [apply Z.div_pos; lia|apply Z.div_lt_upper_bound; lia]|done|].
  split_and!; [done| |lia]. intros _. destruct (Z.eqb_spec (v / 10) 0) as [E|E].
  - rewrite I3 by done. exists (v mod 10), tail. split; [done|]. Z.div_mod_to_equations; lia.
  - apply I2. pose proof (Z.div_pos v 10 ltac:(lia)). lia.
Qed.
Lemma repeat_digits9 n l : digits9 l -> digits9 (repeat 0 n ++ l).
Proof. intros Hl. induction n as [|n IH]; [done|]. cbn. constructor; [lia|done]. Qed.
Lemma pad_digits_ok n l : digits9 l -> digits9 (pad_digits n l) /\ Z.max n (len l) = len (pad_digits n l) \/ n < 0.
Proof.
  intros Hl. destruct (Z.ltb_spec n 0); [by right|left]. unfold pad_digits. split; [by apply repeat_digits9|].
  unfold len. rewrite length_app, repeat_length. lia.
Qed.

Lemma scaled_bound mant exp p : 0 <= mant <= 2 ^ 55 -> exp <= 970 -> 0 <= p <= 17 -> 0 <= scaled mant exp p < 10 ^ 400.
Proof.
  intros Hm He Hp. unfold scaled. set (d := 2 ^ Z.max 0 (- exp) * 10 ^ Z.max 0 (- p)).
  set (n := mant * 2 ^ Z.max 0 exp * 10 ^ Z.max 0 p).
  assert (Hd : 0 < d) by (pose proof (pow_pos 2 (- exp) ltac:(lia)); pose proof (pow_pos 10 (- p) ltac:(lia)); subst d; nia).
  assert (Hn : 0 <= n <= 2 ^ 55 * 2 ^ 970 * 10 ^ 17).
  { pose proof (pow_pos 2 exp ltac:(lia)) as P1. pose proof (pow_pos 10 p ltac:(lia)) as P2.
    assert (L1 : 2 ^ Z.max 0 exp <= 2 ^ 970) by (apply Z.pow_le_mono_r; lia).
    assert (L2 : 10 ^ Z.max 0 p <= 10 ^ 17) by (apply Z.pow_le_mono_r; lia).
    subst n. split; [nia|]. apply Z.mul_le_mono_nonneg; [nia| |lia|done]. apply Z.mul_le_mono_nonneg; lia. }
  assert (Hq : 0 <= n / d <= n).
  { split; [apply Z.div_pos; lia|]. apply Z.div_le_upper_bound; nia. }
  unfold round_half_even. assert (Hc : 2 ^ 55 * 2 ^ 970 * 10 ^ 17 + 1 < 10 ^ 400) by by vm_compute.
  destruct (_ || _); lia.
Qed.

(** The digits around a point [p] digits before their end. *)
Lemma point_text p n : 1 <= p -> 0 <= n < 10 ^ 400 ->
  let l := pad_digits (p + 1) (digits_of n) in
  natural_text (ascii_digits (take (length l - Z.to_nat p) l)) /\
  fraction_text (46 :: ascii_digits (drop (length l - Z.to_nat p) l)).
Proof.
  intros Hp Hn l. destruct (digits_loop_ok 400 n [] Hn ltac:(constructor)) as (D1 & D2 & D3).
  fold (digits_of n) in D1, D2, D3.
  destruct (pad_digits_ok (p + 1) (digits_of n) D1) as [[L1 L2]|]; [|lia]. fold l in L1, L2.
  assert (L1' := L1). rewrite <- (take_drop (length l - Z.to_nat p) l) in L1'. apply Forall_app in L1' as [T1 T2]. split.
  - destruct (Z.leb_spec (len (digits_of n)) p) as [Hs|Hs].
    + assert (Hl : length l = (Z.to_nat p + 1)%nat) by (unfold len in *; lia).
      replace (length l - Z.to_nat p)%nat with 1%nat by lia. left. subst l. unfold pad_digits.
      destruct (Z.to_nat (p + 1 - len (digits_of n))) eqn:E; [lia|]. reflexivity.
    + assert (El : l = digits_of n) by (subst l; unfold pad_digits; by rewrite Z2Nat.nonpos by lia). apply leading_natural; [done|].
      destruct (Z.eqb_spec n 0) as [->|]; [rewrite D3 in Hs by done; unfold len in Hs; cbn in Hs; lia|].
      destruct (D2 ltac:(lia)) as (d & t & Ed & Hd). rewrite El, Ed.
      assert (Hlen : (Z.to_nat p < length (d :: t))%nat) by (rewrite <- Ed; unfold len in Hs; lia).
      destruct (length (d :: t) - Z.to_nat p)%nat as [|m] eqn:Em; [lia|]. by exists d, (take m t).
  - right. eexists. split_and!; [reflexivity| |by apply ascii_digits_ok].
    intros E. apply (f_equal (@length Z)) in E. unfold ascii_digits in E. rewrite length_map, length_drop in E.
    unfold len in L2. cbn [length] in E. lia.
Qed.

Lemma format_exact_digits_ok n d : decoded_ok d -> 1 <= n ->
  digits9 (format_exact_digits n d).1 /\ (format_exact_digits n d).1 <> [] /\ -500 <= (format_exact_digits n d).2 <= 500.
Proof.
  intros [Hm _ _ He] Hn. unfold format_exact_digits.
  pose proof (log2_up_bound (d_mant d) ltac:(lia)) as Hlog.
  destruct (estimate_ok (d_mant d) (d_exp d) ltac:(lia) ltac:(lia)) as (_ & _ & H3).
  set (k0 := estimate_scaling_factor _ _) in *. cbv zeta. set (k := if _ <=? _ then k0 + 1 else k0).
  assert (Hk : -400 <= k <= 401) by (subst k; destruct (_ <=? _); lia).
  assert (Hdig : forall v, digits9 (digits_of v)).
  { intros v. unfold digits_of. generalize 400%nat. intros m.
    assert (Hg : forall w tail, digits9 tail -> digits9 (digits_loop m w tail)); [|by apply Hg; constructor].
    induction m as [|m IH]; intros w tail Ht; [done|]. cbn [digits_loop]. destruct (w =? 0); [done|]. apply IH.
    constructor; [Z.div_mod_to_equations; lia|done]. }
  assert (Hpad : forall v, digits9 (pad_digits n (digits_of v)) /\ pad_digits n (digits_of v) <> []).
  { intros v. destruct (pad_digits_ok n (digits_of v) (Hdig v)) as [[P1 P2]|]; [|lia]. split; [done|].
    intros E. rewrite E in P2. change (len (@nil Z)) with 0 in P2. lia. }
  destruct (_ =? _); cbn [fst snd]; (split; [apply Hpad|split; [apply Hpad|lia]]).
Qed.

(** ** The texts *)

Definition float_format (f : FloatFormat) : Prop := f = F32 \/ f = F64.

Lemma decode_ok f v : float_format f -> is_finite f v = true -> 0 <= mantissa f v <= 2 ^ 53 /\ 0 <= d_mant (decode f v) <= 2 ^ 55 /\
  d_exp (decode f v) <= 970 /\ (mantissa f v <> 0 -> decoded_ok (decode f v)).
Proof.
  intros Hf Hv. unfold is_finite, special in Hv. apply negb_true_iff, Z.eqb_neq in Hv.
  assert (B : 0 <= fl_fraction f v < 2 ^ fraction_bits f /\ 0 <= fl_exponent f v < 2 ^ exponent_bits f).
  { unfold fl_fraction, fl_exponent. destruct Hf as [-> | ->]; split; apply Z.mod_pos_bound; done. }
  destruct B as [B1 B2]. unfold decode, mantissa, binary_exponent, bias.
  destruct Hf as [-> | ->]; cbn [fraction_bits exponent_bits F32 F64] in *; cbv zeta; unfold mantissa, binary_exponent, bias;
    cbn [fraction_bits exponent_bits] in *;
    match goal with |- context [fl_exponent ?f v =? 0] => destruct (Z.eqb_spec (fl_exponent f v) 0) end;
    try match goal with |- context [fl_fraction ?f v + ?a =? ?b] => destruct (Z.eqb_spec (fl_fraction f v + a) b) end;
    cbn [d_mant d_exp]; (split; [lia|split; [lia|split; [lia|intros; constructor; cbn [d_mant d_minus d_plus d_exp]; lia]]]).
Qed.

Lemma fl_sign_text f v : sign_text (fl_sign f v).
Proof. unfold fl_sign. destruct (_ && _); [by right|by left]. Qed.

(** What a text of digits may be. *)
Definition unsigned_number (l : bytes) : Prop :=
  exists n fr e, l = n ++ fr ++ e /\ natural_text n /\ fraction_text fr /\ exponent_text e.
Lemma signed_number f v l : unsigned_number l -> json_number (fl_sign f v ++ l).
Proof.
  intros (n & fr & e & -> & Hn & Hfr & He). exists (fl_sign f v), n, fr, e. split_and!; try done. apply fl_sign_text.
Qed.

Section Finite.
Context (f : FloatFormat) (v : Z) (Hf : float_format f) (Hv : is_finite f v = true).

Lemma not_special : special f v = false.
Proof using Hv. by apply negb_true_iff. Qed.

Lemma fmt_float_number : json_number (fmt_float f v).
Proof using Hf Hv.
  unfold fmt_float. rewrite not_special. apply signed_number. destruct (decode_ok f v Hf Hv) as (_ & _ & _ & Hd).
  destruct (Z.eqb_spec (mantissa f v) 0) as [E0|E0]; [by exists [48], [], []; split_and!; [done|left|left|left]|].
  destruct (format_shortest_ok _ (Hd ltac:(done))) as (H1 & H2 & _).
  destruct (format_shortest _) as [l k]. destruct (dec_text_number l k H1 H2) as (n & fr & -> & Hn & Hfr).
  exists n, fr, []. rewrite app_nil_r. split_and!; try done. by left.
Qed.
Lemma fmt_float_exp_number : json_number (fmt_float_exp f v).
Proof using Hf Hv.
  unfold fmt_float_exp. rewrite not_special. apply signed_number. destruct (decode_ok f v Hf Hv) as (_ & _ & _ & Hd).
  destruct (Z.eqb_spec (mantissa f v) 0) as [E0|E0].
  { exists [48], [], [101; 48]. split_and!; [done|by left|by left|]. right. exists [], [48].
    split_and!; [done|by left|done|by repeat constructor]. }
  destruct (format_shortest_ok _ (Hd ltac:(done))) as (H1 & (d & t & E & _) & H3).
  destruct (format_shortest _) as [l k]. cbn [fst snd] in *. apply exp_text_number; [done|by subst|lia].
Qed.
Lemma fmt_float_fixed_number p : 1 <= p <= 17 -> json_number (fmt_float_fixed f p v).
Proof using Hf Hv.
  intros Hp. unfold fmt_float_fixed. rewrite not_special. apply signed_number.
  destruct (decode_ok f v Hf Hv) as (_ & Hm & He & _). cbv zeta.
  destruct (point_text p (scaled (d_mant (decode f v)) (d_exp (decode f v)) p) ltac:(lia)) as [Hn Hfr];
    [apply scaled_bound; [done|done|lia]|]. cbv zeta in Hn, Hfr.
  eexists _, (46 :: _), []. rewrite app_nil_r. split_and!; [reflexivity|exact Hn|exact Hfr|by left].
Qed.
Lemma fmt_float_fixed_exp_number p : 1 <= p <= 17 -> json_number (fmt_float_fixed_exp f p v).
Proof using Hf Hv.
  intros Hp. unfold fmt_float_fixed_exp. rewrite not_special. apply signed_number.
  destruct (decode_ok f v Hf Hv) as (_ & _ & _ & Hd). destruct (Z.eqb_spec (mantissa f v) 0) as [E0|E0].
  { exists [48], (46 :: zeros p), [101; 48]. split_and!; [done|by left| |].
    - right. exists (zeros p). split_and!; [done| |apply zeros_digits]. unfold zeros. destruct (Z.to_nat p) eqn:E; [lia|done].
    - right. exists [], [48]. split_and!; [done|by left|done|by repeat constructor]. }
  destruct (format_exact_digits_ok (p + 1) _ (Hd ltac:(done))) as (H1 & H2 & H3); [lia|].
  destruct (format_exact_digits _ _) as [l k]. cbn [fst snd] in *. apply exp_text_number; [done|done|lia].
Qed.
End Finite.
