(* ===== verification/LeafJson.v ===== *)
(** * LeafJson: a scalar value is shown as one well-formed JSON value

    [shows m j]: a call that writes a value appends the text of the number, keyword or
    string [j]; [leaf m]: of some [j].  Numbers are of the grammar of JSON. *)

From S2P Require Import Prelude Strings Types ByteReader PerfItem Text Provider Guid Writers.
From S2P Require Import Floats FloatsProps ItemText TextSpec TextProps WritersProps JsonTree.

(** ** Leaves *)

Definition keywords : list bytes := map str_bytes ["true"; "false"; "null"]%string.
Definition json_literal (l : bytes) : Prop := json_number l \/ In l keywords.
Definition leaf_ok (j : json) : Prop :=
  match j with JLiteral l => json_literal l | JString cs => scalars cs | _ => False end.
Definition leaf_text (j : json) : list Z :=
  match j with JLiteral l => l | JString cs => 34 :: flat_map (json_char false) cs ++ [34] | _ => [] end.

Lemma leaf_text_eq S j : leaf_ok j -> json_text S j = leaf_text j.
Proof. by destruct j. Qed.
Lemma json_number_literal l : json_number l -> l <> [] /\ Forall (fun c => is_literal c = true) l.
Proof.
  assert (Hd : forall l, digits l -> Forall (fun c => is_literal c = true) l).
  { intros m. apply List.Forall_impl. unfold is_literal. intros c Hc.
    rewrite (proj2 (Z.leb_le 48 c)), (proj2 (Z.leb_le c 57)) by lia. done. }
  intros (s & n & fr & e & -> & Hs & Hn & Hfr & He). destruct (natural_digits _ Hn) as [Hne Hnd]. split.
  { destruct Hs as [-> | ->]; [|done]. by destruct n. }
  repeat (apply Forall_app; split).
  - destruct Hs as [-> | ->]; repeat constructor.
  - by apply Hd.
  - destruct Hfr as [->|(ds & -> & _ & Hds)]; [constructor|]. constructor; [done|by apply Hd].
  - destruct He as [->|(s' & ds & -> & Hs' & _ & Hds)]; [constructor|]. constructor; [done|]. apply Forall_app.
    split; [|by apply Hd]. destruct Hs' as [-> | ->]; repeat constructor.
Qed.
Lemma leaf_json_ok j : leaf_ok j -> json_ok j.
Proof.
  destruct j; try done. intros [H|H]; [by apply json_number_literal|].
  cbn in H. repeat destruct H as [<-|H]; try done; (split; [done|by repeat constructor]).
Qed.

(** Characters that need no escape. *)
Definition plain (cs : list Z) : Prop := Forall (fun c => 32 <= c < 127 /\ c <> 34 /\ c <> 92) cs.
Lemma plain_ascii cs : plain cs -> Forall (fun c => 0 <= c < 0x80) cs.
Proof. apply List.Forall_impl. lia. Qed.
Lemma plain_escape cs : plain cs -> flat_map (json_char false) cs = cs.
Proof.
  induction 1 as [|c cs Hc _ IH]; [done|]. cbn [flat_map]. rewrite IH. unfold json_char.
  repeat match goal with |- context [c =? ?k] => destruct (Z.eqb_spec c k); [lia|] end. cbn [andb]. by destruct (Z.ltb_spec c 32); [lia|].
Qed.
Lemma plain_app a b : plain a -> plain b -> plain (a ++ b).
Proof. intros. apply Forall_app. by split. Qed.
Lemma digit_list_plain l : digits l -> plain l.
Proof. apply List.Forall_impl. lia. Qed.
Lemma decimal_plain v : - 10 ^ 20 < v < 10 ^ 20 -> plain (fmt_decimal v).
Proof.
  intros Hv. destruct (fmt_decimal_ok v Hv) as (s & ds & -> & Hs & Hds). apply plain_app.
  - destruct Hs as [-> | ->]; repeat constructor; lia.
  - by apply digit_list_plain, natural_digits.
Qed.
Lemma padded_plain n v : 0 <= v < 10 ^ 20 -> plain (fmt_padded n v).
Proof. intros Hv. apply plain_app; [apply digit_list_plain, zeros_digits|apply decimal_plain; lia]. Qed.
Lemma hex_lower_plain v : 0 <= v -> plain (fmt_hex v).
Proof.
  intros Hv. unfold fmt_hex. generalize 16%nat. intros n.
  assert (Hg : forall v tail, 0 <= v -> plain tail -> plain (fmt_hex_loop n v tail)); [|by apply Hg; [|constructor]].
  clear v Hv. induction n as [|n IH]; intros v tail Hv Ht; [done|]. cbn [fmt_hex_loop]. cbv zeta.
  assert (Ht' : plain (Provider.hex_digit (v mod 16) :: tail)).
  { constructor; [|done]. unfold Provider.hex_digit. pose proof (Z.mod_pos_bound v 16 ltac:(lia)).
    destruct (Z.ltb_spec (v mod 16) 10); lia. }
  destruct (_ =? 0); [done|]. apply IH; [apply Z.div_pos; lia|done].
Qed.
Lemma hex_plain v : 0 <= v -> plain (fmt_HEX v).
Proof.
  intros Hv. unfold fmt_HEX, fmt_hex. apply Forall_map.
  set (P := fun c => 32 <= (if 97 <=? c then c - 32 else c) < 127 /\ (if 97 <=? c then c - 32 else c) <> 34 /\
    (if 97 <=? c then c - 32 else c) <> 92).
  assert (Hg : forall n v tail, 0 <= v -> Forall P tail -> Forall P (fmt_hex_loop n v tail)).
  { clear v Hv. induction n as [|n IH]; intros v tail Hv Ht; [done|]. cbn [fmt_hex_loop].
    assert (Ht' : Forall P (Provider.hex_digit (v mod 16) :: tail)).
    { constructor; [|done]. unfold P, Provider.hex_digit. cbv beta. pose proof (Z.mod_pos_bound v 16 ltac:(lia)).
      destruct (Z.ltb_spec (v mod 16) 10);
        match goal with |- context [97 <=? ?x] => destruct (Z.leb_spec 97 x) end; lia. }
    cbv zeta. destruct (_ =? 0); [done|]. apply IH; [apply Z.div_pos; lia|done]. }
  by apply Hg; [|constructor].
Qed.

(** ** What a call on the writer appends *)

Section Shows.
Context (o : Z).

Definition prints (m : fmt (ValueWriter bytes)) (cs : list Z) : Prop :=
  forall w, w.(options) = o -> emits m w cs.
Definition shows (m : fmt (ValueWriter bytes)) (j : json) : Prop := leaf_ok j /\ prints m (leaf_text j).
Definition leaf (m : fmt (ValueWriter bytes)) : Prop := exists j, shows m j.
Definition prints_plain (m : fmt (ValueWriter bytes)) : Prop := exists cs, plain cs /\ prints m cs.

Lemma prints_then m k cs ds : prints m cs -> prints k ds -> prints (m ;;? k) (cs ++ ds).
Proof. intros Hm Hk w Hw. apply emits_then; [by apply Hm|by apply Hk]. Qed.
Lemma prints_options f cs : prints (f o) cs -> prints (with_options f) cs.
Proof. intros Hf w Hw. unfold emits, with_options. rewrite Hw. by apply Hf. Qed.
Lemma prints_arg {A} (m : outcome A) a k cs : m = Ret a -> prints (k a) cs -> prints (with_arg m k) cs.
Proof. intros -> Hk. exact Hk. Qed.
Lemma prints_str b : Forall (fun c => 0 <= c < 0x80) b -> prints (dest_str b) b.
Proof.
  intros Hb w _. apply emits_on_dest. rewrite <- (utf8_ascii_list b) at 1.
  - eapply writes_eq; [apply (str_ok (F := WriteFilter) (h := fun c => [c]))|].
    + eapply List.Forall_impl; [|exact Hb]. intros a Ha. by apply scalar_ascii.
    + apply flat_map_fixed. by apply List.Forall_forall.
  - eapply List.Forall_impl; [|exact Hb]. cbn. lia.
Qed.
Lemma prints_pieces l : Forall (fun c => 0 <= c < 0x80) (concat l) -> prints (write_pieces l) (concat l).
Proof.
  induction l as [|b l IH]; intros Hl; [intros w _; unfold emits; cbn; rewrite app_nil_r; by destruct w|].
  cbn [concat] in *. apply Forall_app in Hl as [Hb Hl]. apply prints_then; [by apply prints_str|by apply IH].
Qed.
Lemma prints_quoted m cs : prints m cs -> prints (write_quoted m) (34 :: cs ++ [34]).
Proof. intros Hm w Hw. apply emits_quoted. by apply Hm. Qed.

Lemma shows_number m l : json_number l -> prints m l -> shows m (JLiteral l).
Proof. intros Hl Hm. split; [by left|done]. Qed.
Lemma shows_keyword m l : In l keywords -> prints m l -> shows m (JLiteral l).
Proof. intros Hl Hm. split; [by right|done]. Qed.
Lemma shows_plain m cs : plain cs -> prints m (34 :: cs ++ [34]) -> shows m (JString cs).
Proof.
  intros Hc Hm. split.
  - eapply List.Forall_impl; [|exact Hc]. intros c [Hp _]. apply scalar_ascii. lia.
  - cbn [leaf_text]. by rewrite plain_escape.
Qed.
Lemma shows_quoted m cs : plain cs -> prints m cs -> shows (write_quoted m) (JString cs).
Proof. intros Hc Hm. apply shows_plain; [done|by apply prints_quoted]. Qed.
Lemma leaf_quoted m : prints_plain m -> leaf (write_quoted m).
Proof. intros (cs & Hc & Hm). exists (JString cs). by apply shows_quoted. Qed.
(** Pieces that are a quoted text. *)
Lemma leaf_pieces l cs : concat l = 34 :: cs ++ [34] -> plain cs -> leaf (write_pieces l).
Proof.
  intros E Hc. exists (JString cs). apply shows_plain; [done|]. rewrite <- E. apply prints_pieces. rewrite E.
  constructor; [lia|]. apply Forall_app. split; [by apply plain_ascii|repeat constructor; lia].
Qed.
Lemma plain_pieces l : plain (concat l) -> prints_plain (write_pieces l).
Proof. intros Hl. exists (concat l). split; [done|]. by apply prints_pieces, plain_ascii. Qed.
Lemma leaf_arg {A} (m : outcome A) k : wp m (fun a => leaf (k a)) -> leaf (with_arg m k).
Proof. intros H. destruct (wp_inv _ _ H) as (a & -> & j & Hj). by exists j. Qed.
Lemma plain_arg {A} (m : outcome A) k : wp m (fun a => prints_plain (k a)) -> prints_plain (with_arg m k).
Proof. intros H. destruct (wp_inv _ _ H) as (a & -> & cs & Hc). by exists cs. Qed.
Lemma leaf_options f : leaf (f o) -> leaf (with_options f).
Proof. intros (j & Hj & Hp). exists j. split; [done|by apply prints_options]. Qed.

(** A choice over constants, with what the choice tells. *)
Lemma by_value_cases (P : fmt (ValueWriter bytes) -> Prop) x cases default :
  Forall (fun c => In x (fst c) -> P (snd c)) cases -> P default -> P (by_value x cases default).
Proof.
  intros Hc Hd. induction Hc as [|[vs m] cases Hm _ IH]; [done|]. cbn [by_value].
  destruct (existsb (Z.eqb x) vs) eqn:E; [|done]. apply Hm. apply existsb_exists in E as (y & Hy & ->%Z.eqb_eq). done.
Qed.

(** ** The writers *)

Context `{Calendar} (Hmonth : forall t tm, gmtime_r t = Some tm -> 0 <= tm.(tm_mon) <= 11).

Lemma shows_decimal v : - 10 ^ 20 < v < 10 ^ 20 -> shows (write_decimal v) (JLiteral (fmt_decimal v)).
Proof.
  intros Hv. apply shows_number; [by apply decimal_number|]. unfold write_decimal, write_display_with_no_filter.
  rewrite <- (app_nil_r (fmt_decimal v)) at 2. apply (prints_pieces [fmt_decimal v]). cbn [concat]. rewrite app_nil_r.
  by apply plain_ascii, decimal_plain.
Qed.
Lemma leaf_number v : - 10 ^ 20 < v < 10 ^ 20 -> leaf (write_pieces [fmt_decimal v]).
Proof. intros Hv. eexists. by apply shows_decimal. Qed.
Lemma leaf_decimal m : wp m (fun v => - 10 ^ 20 < v < 10 ^ 20) -> leaf (decimal_of m).
Proof. intros Hm. apply leaf_arg. eapply wp_mono; [exact Hm|]. intros v Hv. by apply leaf_number. Qed.
Lemma plain_hex v : 0 <= v -> prints_plain (write_pieces [str_bytes "0x"; fmt_HEX v]).
Proof.
  intros Hv. apply plain_pieces. cbn [concat]. rewrite app_nil_r. apply plain_app; [repeat constructor; done|by apply hex_plain].
Qed.
Lemma leaf_json_hex v : 0 <= v < 2 ^ 64 -> leaf (write_json_hex64 v).
Proof.
  intros Hv. apply leaf_options. destruct (options_has_flag o IntHexAsString); [|apply leaf_number; lia].
  apply (leaf_pieces _ (str_bytes "0x" ++ fmt_HEX v)); [done|].
  apply plain_app; [repeat constructor; done|apply hex_plain; lia].
Qed.
Lemma as_signed_32 v : - 10 ^ 20 < as_signed 32 v < 10 ^ 20.
Proof. unfold as_signed. pose proof (Z.mod_pos_bound (v + 2 ^ (32 - 1)) (2 ^ 32) ltac:(lia)). lia. Qed.
(** [NAME(number)] in quotes. *)
Lemma leaf_named s v : plain s -> - 10 ^ 20 < v < 10 ^ 20 -> leaf (write_pieces [34 :: s; fmt_decimal v; [41; 34]]).
Proof.
  intros Hs Hv. apply (leaf_pieces _ (s ++ fmt_decimal v ++ [41])).
  - cbn [concat]. rewrite app_nil_r. cbn [app]. by rewrite <- !app_assoc.
  - apply plain_app; [done|]. apply plain_app; [by apply decimal_plain|repeat constructor; lia].
Qed.
Lemma leaf_keyword s : In s keywords -> leaf (dest_str s).
Proof.
  intros Hs. exists (JLiteral s). apply shows_keyword; [done|]. apply prints_str.
  cbn in Hs. repeat destruct Hs as [<-|Hs]; [..|done]; repeat constructor; lia.
Qed.
Lemma leaf_json_bool v : leaf (write_json_bool v).
Proof.
  unfold write_json_bool. destruct (v =? 0); [apply leaf_keyword; cbn; tauto|]. destruct (v =? 1); [apply leaf_keyword; cbn; tauto|].
  apply leaf_options. destruct (options_has_flag _ _); [|apply leaf_number, as_signed_32].
  apply (leaf_named (str_bytes "BOOL(")); [repeat constructor; done|apply as_signed_32].
Qed.
Lemma errno_plain b : In b ERRNO_STRINGS -> plain b.
Proof.
  assert (HE : forallb (forallb (fun c => (32 <=? c) && (c <? 127) && negb (c =? 34) && negb (c =? 92))) ERRNO_STRINGS = true)
    by by vm_compute.
  intros Hb. rewrite forallb_forall in HE. specialize (HE _ Hb). rewrite forallb_forall in HE. apply List.Forall_forall.
  intros c Hc. specialize (HE _ Hc). cbv beta in HE. bool_hyps. lia.
Qed.
Lemma leaf_json_errno v : 0 <= v -> leaf (write_json_errno v).
Proof.
  intros Hv. apply leaf_options. destruct (Z.ltb_spec v (len ERRNO_STRINGS)) as [Hlt|]; destruct (options_has_flag _ _);
    try (apply leaf_number, as_signed_32).
  - destruct (wp_inv (index ERRNO_STRINGS v) (fun b => In b ERRNO_STRINGS)) as (b & E & Hb).
    { apply wp_index; [lia|]. intros b Hb. apply list_elem_of_In. by eapply list_elem_of_lookup_2. }
    destruct (leaf_pieces [[34]; b; [34]] b eq_refl (errno_plain b Hb)) as (j & Hj & Hp).
    exists j. split; [done|]. intros w Hw. unfold emits. rewrite E. by apply Hp.
  - apply (leaf_named (str_bytes "ERRNO(")); [repeat constructor; done|apply as_signed_32].
Qed.

(** ** Dates, floating point numbers, addresses and bytes *)

Lemma date_plain dt month : 0 <= month < 256 -> plain (concat (date_pieces dt month)).
Proof.
  intros Hm. unfold date_pieces. cbn [concat].
  assert (P : forall n w x, 0 <= w <= 64 -> plain (fmt_padded n (as_unsigned w x))).
  { intros n w x Hw. apply padded_plain. pose proof (as_unsigned_range w x ltac:(lia)).
    assert (2 ^ w <= 2 ^ 64) by (apply Z.pow_le_mono_r; lia). lia. }
  unfold dt_year, dt_day, dt_hour, dt_minute, dt_second.
  repeat (apply plain_app; [first [apply P; lia | apply padded_plain; lia | repeat constructor; lia]|]). constructor.
Qed.
Lemma leaf_json_time v : - 10 ^ 20 < v < 10 ^ 20 -> leaf (write_json_time64 v).
Proof using Hmonth.
  intros Hv. unfold write_json_time64. cbv zeta. apply leaf_options. destruct (dt_valid (DateTime_new v)) eqn:Ed.
  - destruct (options_has_flag _ _); [|by apply leaf_number]. apply leaf_arg. unfold dt_month.
    assert (Hmon : 0 <= (DateTime_new v).(tm_mon) <= 11).
    { unfold DateTime_new in *. destruct (gmtime_r v) as [tm|] eqn:E; [by eapply Hmonth|done]. }
    rewrite as_unsigned_id, checked_ok by lia. cbn [wp].
    eapply (leaf_pieces _ (concat (date_pieces (DateTime_new v) _) ++ [90])).
    + cbn [concat]. rewrite concat_app. cbn [concat app]. by rewrite <- app_assoc.
    + apply plain_app; [apply date_plain; lia|repeat constructor; lia].
  - destruct (options_has_flag _ _); [|by apply leaf_number].
    apply (leaf_named (str_bytes "TIME(")); [repeat constructor; done|done].
Qed.

Lemma leaf_text_number l : json_number l -> leaf (write_pieces [l]).
Proof.
  intros Hl. exists (JLiteral l). apply shows_number; [done|]. rewrite <- (app_nil_r l) at 2. apply (prints_pieces [l]).
  cbn [concat]. rewrite app_nil_r. destruct (json_number_literal l Hl) as [_ Hc]. eapply List.Forall_impl; [|exact Hc].
  intros c Hb. unfold is_literal in Hb. cbv beta in Hb. repeat (apply orb_prop in Hb as [Hb|Hb]); bool_hyps; lia.
Qed.
Lemma special_plain f v : is_finite f v = false -> plain (fmt_float f v).
Proof.
  unfold is_finite. intros Hs%negb_false_iff. unfold fmt_float, fl_sign, special_text. rewrite Hs.
  apply plain_app; [destruct (_ && _)|destruct (is_nan f v)]; repeat constructor; done.
Qed.
Lemma leaf_json_float32 v : leaf (write_json_float32 v).
Proof.
  unfold write_json_float32, write_float32. destruct (is_finite F32 v) eqn:Ef.
  - assert (Hf : float_format F32) by by left. cbv zeta. apply leaf_options.
    destruct (options_has_flag _ _), (wants_exponent _ _ _ _); apply leaf_text_number;
      auto using fmt_float_fixed_exp_number, fmt_float_fixed_number, fmt_float_exp_number, fmt_float_number with lia.
  - apply leaf_options. destruct (options_has_flag _ _); [|apply leaf_keyword; cbn; tauto].
    apply (leaf_pieces _ (fmt_float F32 v)); [done|by apply special_plain].
Qed.
Lemma leaf_json_float64 v : leaf (write_json_float64 v).
Proof.
  unfold write_json_float64, write_float64. destruct (is_finite F64 v) eqn:Ef.
  - assert (Hf : float_format F64) by by right. cbv zeta. apply leaf_options.
    destruct (options_has_flag _ _), (wants_exponent _ _ _ _); apply leaf_text_number;
      auto using fmt_float_fixed_exp_number, fmt_float_fixed_number, fmt_float_exp_number, fmt_float_number with lia.
  - apply leaf_options. destruct (options_has_flag _ _); [|apply leaf_keyword; cbn; tauto].
    apply (leaf_pieces _ (fmt_float F64 v)); [done|by apply special_plain].
Qed.

Lemma byte_decimal_plain b i : bytes_ok b -> plain (fmt_decimal (byte_at b i)).
Proof. intros Hb. apply decimal_plain. pose proof (byte_at_ok b i Hb). lia. Qed.
Lemma ipv4_plain b : bytes_ok b -> plain (ipv4_text b).
Proof.
  intros Hb. unfold ipv4_text. repeat apply plain_app; try by apply byte_decimal_plain.
  all: repeat constructor; lia.
Qed.
Lemma plain_write_ipv4 m : wp m bytes_ok -> prints_plain (ipv4_of m).
Proof.
  intros Hm. apply plain_arg. eapply wp_mono; [exact Hm|]. intros b Hb. apply plain_pieces.
  cbn [concat]. rewrite app_nil_r. exact (ipv4_plain b Hb).
Qed.
Lemma colon_plain l : Forall (fun w => 0 <= w) l -> plain (colon_words l).
Proof.
  induction 1 as [|w l Hw Hl IH]; [constructor|]. cbn [colon_words]. apply plain_app; [by apply hex_lower_plain|].
  destruct l; [constructor|]. constructor; [lia|exact IH].
Qed.
Lemma plain_write_ipv6 b : bytes_ok b -> prints_plain (write_ipv6 b).
Proof.
  intros Hb. apply plain_pieces. cbn [concat]. rewrite app_nil_r. unfold ipv6_text. cbv zeta.
  destruct (bool_decide _).
  - apply plain_app; [repeat constructor; done|]. apply ipv4_plain. by apply Forall_drop.
  - assert (Hw : Forall (fun w => 0 <= w) (ipv6_words b)).
    { apply Forall_map, List.Forall_forall. intros i _. pose proof (byte_at_ok b (2 * i) Hb). pose proof (byte_at_ok b (2 * i + 1) Hb). lia. }
    destruct (zero_span _ _ _ _) as [start n]. destruct (1 <? n); [|by apply colon_plain].
    apply plain_app; [by apply colon_plain, Forall_take|].
    apply plain_app; [repeat constructor; lia|by apply colon_plain, Forall_drop].
Qed.
Lemma plain_write_uuid b : bytes_ok b -> prints_plain (write_uuid b).
Proof.
  intros Hb. assert (Hp : plain (Guid_to_utf8_bytes (Guid_from_bytes_be b))).
  { assert (HP : forall i, plain (hex_pair (at16 b i))).
    { intros i. set (P := fun x => forallb (fun c => (32 <=? c) && (c <? 127) && negb (c =? 34) && negb (c =? 92)) (hex_pair x)).
      assert (HP : P (at16 b i) = true).
      { apply u8_exhaustive; [by vm_compute|]. unfold at16. destruct (Nat.ltb_spec i (length b)) as [Hi|Hi].
        - by apply (proj1 (List.Forall_nth _ _) Hb).
        - rewrite nth_overflow by done. unfold is_u8. lia. }
      unfold P in HP. rewrite forallb_forall in HP. apply List.Forall_forall. intros c Hc. specialize (HP c Hc). cbv beta in HP.
      bool_hyps. lia. }
    unfold Guid_to_utf8_bytes, Guid_from_bytes_be. cbn [flat_map]. repeat apply plain_app; try apply HP; repeat constructor; lia. }
  eexists. split; [exact Hp|]. by apply prints_str, plain_ascii.
Qed.
Lemma hex2_plain b : is_u8 b -> plain (fmt_02X b).
Proof.
  intros Hb. set (P := fun x => forallb (fun c => (32 <=? c) && (c <? 127) && negb (c =? 34) && negb (c =? 92)) (fmt_02X x)).
  assert (HP : P b = true) by (apply u8_exhaustive; [by vm_compute|done]).
  unfold P in HP. rewrite forallb_forall in HP. apply List.Forall_forall. intros c Hc. specialize (HP c Hc). cbv beta in HP.
  bool_hyps. lia.
Qed.
Lemma plain_then m k : prints_plain m -> prints_plain k -> prints_plain (m ;;? k).
Proof. intros (a & Ha & Hm) (b & Hb & Hk). exists (a ++ b). split; [by apply plain_app|by apply prints_then]. Qed.
Lemma plain_ok : prints_plain fmt_ok.
Proof. exists []. split; [constructor|]. intros w _. unfold emits. cbn. rewrite app_nil_r. by destruct w. Qed.
Lemma plain_write_hexbytes b : bytes_ok b -> prints_plain (write_hexbytes b).
Proof.
  destruct 1 as [|x b Hx Hb]; [apply plain_ok|]. cbn [write_hexbytes]. apply plain_then.
  - apply plain_pieces. cbn [concat]. rewrite app_nil_r. by apply hex2_plain.
  - induction Hb as [|y b Hy Hb IH]; [apply plain_ok|]. cbn [foldr]. apply plain_then; [|done].
    apply plain_pieces. cbn [concat]. rewrite app_nil_r. constructor; [lia|by apply hex2_plain].
Qed.

(** ** Text *)

Lemma text_shown e b : is_utf32 e = false -> bytes_ok b -> len b < 2 ^ 64 ->
  shows (write_quoted (write_with_json_escape b e)) (JString (decode e b)).
Proof.
  intros He Hb Hlen. split; [by apply decode_scalars|]. cbn [leaf_text]. apply prints_quoted. intros w Hw.
  pose proof (json_escape_converts e b w Hb Hlen) as Hc. by rewrite He in Hc.
Qed.
Lemma char32_shown v : 0 <= v -> v <> 92 ->
  shows (write_quoted (write_char32_with_json_escape v)) (JString [char_from_u32 v]).
Proof.
  intros Hv H92. assert (Hsc : is_scalar_value (char_from_u32 v) = true).
  { unfold char_from_u32. by destruct (is_scalar_value v) eqn:E. }
  split; [by repeat constructor|]. cbn [leaf_text flat_map]. rewrite app_nil_r. apply prints_quoted. intros w _.
  unfold write_char32_with_json_escape. destruct (Z.leb_spec 92 v).
  - assert (Hbig : 92 < char_from_u32 v) by (unfold char_from_u32; destruct (is_scalar_value v); [lia|done]).
    assert (E : json_char false (char_from_u32 v) = [char_from_u32 v]).
    { unfold json_char. repeat match goal with |- context [?c =? ?k] => destruct (Z.eqb_spec c k); [lia|] end.
      cbn [andb]. by destruct (Z.ltb_spec (char_from_u32 v) 32); [lia|]. }
    rewrite E. apply emits_on_dest. pose proof (str_ok (F := WriteFilter) (h := fun c => [c]) [char_from_u32 v] ltac:(by repeat constructor)) as Hs.
    cbn [flat_map app] in Hs. unfold utf8 in Hs. cbn [map concat] in Hs. rewrite app_nil_r in Hs. exact Hs.
  - rewrite as_unsigned_id by lia. assert (E : char_from_u32 v = v).
    { unfold char_from_u32. by rewrite scalar_ascii by lia. }
    rewrite E. apply emits_on_dest.
    eapply writes_eq; [apply (ascii_ok (F := JsonEscapeFilter WriteFilter)); lia|].
    unfold after_esc. apply flat_map_fixed. by apply List.Forall_forall.
Qed.

(** ** Fixed-size values *)

(** The bytes hold the element [i] of [size] bytes. *)
Definition has (v : PerfItemValue) (size i : Z) : Prop :=
  0 <= i /\ (i + 1) * size <= len v.(item_bytes) /\ bytes_ok v.(item_bytes).

Lemma wp_bytes size v i : 0 < size -> has v size i -> wp (element_bytes size v i) bytes_ok.
Proof.
  intros Hs (Hi & Hl & Hb). unfold element_bytes. apply wp_bind, wp_rassert.
  - apply Z.ltb_lt. enough (i + 1 <= len (item_bytes v) / size) by lia.
    apply Z.div_le_lower_bound; lia.
  - apply wp_slice; [nia|nia|by apply bytes_ok_sub].
Qed.
Lemma wp_element size (read : PerfByteReader -> bytes -> outcome Z) v i (Q : Z -> Prop) :
  0 < size -> has v size i ->
  (forall r l, bytes_ok l -> size <= len l -> wp (read r l) Q) -> wp (element_read size read v i) Q.
Proof.
  intros Hs (Hi & Hl & Hb) Hr. unfold element_read. apply wp_bind, wp_rassert.
  - apply Z.ltb_lt. enough (i + 1 <= len (item_bytes v) / size) by lia. apply Z.div_le_lower_bound; lia.
  - apply wp_bind, wp_slice_from; [nia|]. apply Hr; [by apply bytes_ok_sub|]. rewrite len_sub by nia. nia.
Qed.
Lemma wp_signed w n r l : 0 <= n <= 8 -> 0 < w <= 64 -> bytes_ok l -> n <= len l ->
  wp (v ← read_uint n r l; Ret (as_signed w v)) (fun v => - 10 ^ 20 < v < 10 ^ 20).
Proof.
  intros Hn Hw Hb Hl. apply wp_bind, wp_read_uint; [done|lia|]. intros v Hv. cbn [wp].
  unfold as_signed. assert (0 < 2 ^ (w - 1) <= 2 ^ 64) by (split; [apply Z.pow_pos_nonneg|apply Z.pow_le_mono_r]; lia).
  assert (0 < 2 ^ w <= 2 ^ 64) by (split; [apply Z.pow_pos_nonneg|apply Z.pow_le_mono_r]; lia).
  pose proof (Z.mod_pos_bound (v + 2 ^ (w - 1)) (2 ^ w) ltac:(lia)). lia.
Qed.

Section Value.
Context (v : PerfItemValue) (i : Z).

Lemma wp_to_u8 : has v 1 i -> wp (to_u8 v i) is_u8.
Proof.
  intros (Hi & Hl & Hb). unfold to_u8. apply wp_bind, wp_rassert; [apply Z.ltb_lt; lia|]. apply wp_index; [lia|].
  intros b Hx. apply (proj1 (List.Forall_forall _ _) Hb), list_elem_of_In. by eapply list_elem_of_lookup_2.
Qed.
Lemma wp_to_i8 : has v 1 i -> wp (to_i8 v i) (fun v => - 10 ^ 20 < v < 10 ^ 20).
Proof.
  intros Hh. destruct (wp_inv _ _ (wp_to_u8 Hh)) as (b & E & Hb). unfold to_u8, to_i8 in *.
  destruct (rassert _); cbn [mbind outcome_bind] in *; [|done]. rewrite E. cbn. unfold is_u8 in Hb.
  unfold as_signed. pose proof (Z.mod_pos_bound (b + 2 ^ (8 - 1)) (2 ^ 8) ltac:(lia)). lia.
Qed.
Lemma wp_to_u8x1 : has v 1 i -> wp (to_u8x1 v i) bytes_ok.
Proof.
  intros Hh. destruct (wp_inv _ _ (wp_to_u8 Hh)) as (b & E & Hb). unfold to_u8, to_u8x1 in *.
  destruct (rassert _); cbn [mbind outcome_bind] in *; [|done]. rewrite E. cbn. constructor; [done|constructor].
Qed.
Lemma wp_unsigned size (read : PerfByteReader -> bytes -> outcome Z) :
  0 < size <= 8 -> (forall r l, read r l = read_uint size r l) -> has v size i ->
  wp (element_read size read v i) (fun n => 0 <= n < 256 ^ size).
Proof.
  intros Hs Hr Hh. apply wp_element; [lia|done|]. intros r l Hb Hl. rewrite Hr. by apply wp_read_uint; [|lia|].
Qed.
Lemma wp_port : has v 2 i -> wp (to_port v i) (fun n => 0 <= n < 10 ^ 20).
Proof.
  intros Hh. unfold to_port. apply wp_bind. destruct Hh as (Hi & Hl & Hb). unfold element_bytes. apply wp_bind, wp_rassert.
  - apply Z.ltb_lt. enough (i + 1 <= len (item_bytes v) / 2) by lia. apply Z.div_le_lower_bound; lia.
  - apply wp_slice; [lia|lia|]. cbn [wp]. pose proof (be_value_bound _ (bytes_ok_sub _ (i * 2) (i * 2 + 2) Hb)) as Hv.
    rewrite len_sub in Hv by lia. replace (i * 2 + 2 - i * 2) with 2 in Hv by lia. lia.
Qed.

(** The arms of the values, for [by_value_cases]. *)
Lemma leaf_hexbytes m : wp m bytes_ok -> leaf (write_quoted (hexbytes_of m)).
Proof. intros Hm. apply leaf_quoted, plain_arg. eapply wp_mono; [exact Hm|]. intros b. apply plain_write_hexbytes. Qed.
Lemma leaf_arg_wp {A} (m : outcome A) k (Q : A -> Prop) : wp m Q -> (forall a, Q a -> leaf (k a)) -> leaf (with_arg m k).
Proof. intros Hm Hk. apply leaf_arg. eapply wp_mono; [exact Hm|exact Hk]. Qed.
Lemma leaf_decimal_wp m Q : wp m Q -> (forall a, Q a -> - 10 ^ 20 < a < 10 ^ 20) -> leaf (decimal_of m).
Proof. intros Hm Hk. apply leaf_decimal. eapply wp_mono; [exact Hm|exact Hk]. Qed.
Lemma leaf_char32 m : wp m (fun n => 0 <= n /\ n <> 92) -> leaf (write_quoted (with_arg m write_char32_with_json_escape)).
Proof.
  intros Hm. destruct (wp_inv _ _ Hm) as (n & -> & Hn & H92). eexists. by apply char32_shown.
Qed.
Lemma leaf_latin1 b : bytes_ok b -> len b < 2 ^ 64 -> leaf (write_quoted (write_latin1_with_json_escape b)).
Proof. intros Hb Hl. eexists. by apply (text_shown Latin1). Qed.
Lemma leaf_utf8 b : bytes_ok b -> len b < 2 ^ 64 -> leaf (write_quoted (write_utf8_with_json_escape b)).
Proof. intros Hb Hl. eexists. by apply (text_shown Utf8). Qed.

(** The character that [write_char32_with_json_escape] does not escape. *)
Definition backslash (m : outcome Z) : Prop := item_format v = FieldFormat_StringUtf /\ m = Ret 92.

Ltac arms := apply by_value_cases; [repeat constructor; cbn [fst snd]; intros Harm|].
Ltac small := unfold is_u8; cbv beta; intros; lia.

Lemma json_value8 : has v 1 i -> leaf (write_json_value8_to v i).
Proof.
  intros Hh. pose proof (wp_to_u8 Hh) as Hu. unfold write_json_value8_to. arms.
  - apply leaf_decimal. by apply wp_to_i8.
  - eapply leaf_arg_wp; [exact Hu|]. cbv beta. intros n Hn. apply leaf_json_hex. unfold is_u8 in Hn. lia.
  - eapply leaf_arg_wp; [exact Hu|]. intros n _. apply leaf_json_bool.
  - by apply leaf_hexbytes, wp_to_u8x1.
  - destruct Hh as (Hi & Hl & Hb). destruct (wp_inv _ _ Hu) as (b & E & Hb8).
    assert (Ex : to_u8x1 v i = Ret [b]).
    { unfold to_u8, to_u8x1 in *. destruct (rassert _); cbn [mbind outcome_bind] in *; [|done]. by rewrite E. }
    destruct (leaf_latin1 [b]) as (j & Hj & Hp); [constructor; [done|constructor]|done|].
    exists j. split; [done|]. by rewrite Ex.
  - eapply leaf_decimal_wp; [exact Hu|small].
Qed.
Lemma json_value16 : has v 2 i -> ~ backslash (to_u16 v i) -> leaf (write_json_value16_to v i).
Proof.
  intros Hh Hbs. assert (Hu : wp (to_u16 v i) (fun n => 0 <= n < 65536)) by by apply (wp_unsigned 2 read_u16).
  unfold write_json_value16_to. arms.
  - apply leaf_decimal. apply (wp_element 2 read_i16); [lia|done|]. intros r l Hb Hl. by apply (wp_signed 16 2).
  - eapply leaf_arg_wp; [exact Hu|]. cbv beta. intros n Hn. apply leaf_json_hex. lia.
  - eapply leaf_arg_wp; [exact Hu|]. intros n _. apply leaf_json_bool.
  - by apply leaf_hexbytes, (wp_bytes 2).
  - apply leaf_char32. destruct (wp_inv _ _ Hu) as (n & E & Hn). rewrite E. split; [lia|]. intros ->. apply Hbs.
    split; [by destruct Harm|done].
  - eapply leaf_decimal_wp; [by apply wp_port|small].
  - eapply leaf_decimal_wp; [exact Hu|small].
Qed.
Lemma json_value32 : has v 4 i -> ~ backslash (to_u32 v i) -> leaf (write_json_value32_to v i).
Proof using Hmonth.
  intros Hh Hbs. assert (Hu : wp (to_u32 v i) (fun n => 0 <= n < 2 ^ 32)) by by apply (wp_unsigned 4 read_u32).
  assert (Hs : wp (to_i32 v i) (fun n => - 10 ^ 20 < n < 10 ^ 20)).
  { apply (wp_element 4 read_i32); [lia|done|]. intros r l Hb Hl. by apply (wp_signed 32 4). }
  unfold write_json_value32_to. arms.
  - by apply leaf_decimal.
  - apply leaf_quoted, plain_arg. eapply wp_mono; [exact Hu|]. cbv beta. intros n Hn. apply plain_hex. lia.
  - eapply leaf_arg_wp; [exact Hu|]. cbv beta. intros n Hn. apply leaf_json_errno. lia.
  - eapply leaf_arg_wp; [exact Hs|]. intros n Hn. by apply leaf_json_time.
  - eapply leaf_arg_wp; [exact Hu|]. intros n _. apply leaf_json_bool.
  - eapply leaf_arg_wp; [exact Hu|]. intros n _. apply leaf_json_float32.
  - by apply leaf_hexbytes, (wp_bytes 4).
  - apply leaf_char32. destruct (wp_inv _ _ Hu) as (n & E & Hn). rewrite E. split; [lia|]. intros ->. apply Hbs.
    split; [by destruct Harm|done].
  - by apply leaf_quoted, plain_write_ipv4, (wp_bytes 4).
  - eapply leaf_decimal_wp; [exact Hu|small].
Qed.
Lemma json_value64 : has v 8 i -> leaf (write_json_value64_to v i).
Proof using Hmonth.
  intros Hh. assert (Hu : wp (to_u64 v i) (fun n => 0 <= n < 2 ^ 64)) by by apply (wp_unsigned 8 read_u64).
  assert (Hs : wp (to_i64 v i) (fun n => - 10 ^ 20 < n < 10 ^ 20)).
  { apply (wp_element 8 read_i64); [lia|done|]. intros r l Hb Hl. by apply (wp_signed 64 8). }
  unfold write_json_value64_to. arms.
  - by apply leaf_decimal.
  - eapply leaf_arg_wp; [exact Hu|]. intros n Hn. by apply leaf_json_hex.
  - eapply leaf_arg_wp; [exact Hs|]. intros n Hn. by apply leaf_json_time.
  - eapply leaf_arg_wp; [exact Hu|]. intros n _. apply leaf_json_float64.
  - by apply leaf_hexbytes, (wp_bytes 8).
  - eapply leaf_decimal_wp; [exact Hu|small].
Qed.
Lemma json_value128 : has v 16 i -> leaf (write_json_value128_to v i).
Proof.
  intros Hh. pose proof (wp_bytes 16 v i ltac:(lia) Hh) as Hb. unfold write_json_value128_to. arms.
  - apply leaf_quoted, plain_arg. eapply wp_mono; [exact Hb|]. intros b. apply plain_write_uuid.
  - apply leaf_quoted, plain_arg. eapply wp_mono; [exact Hb|]. intros b. apply plain_write_ipv6.
  - by apply leaf_hexbytes.
Qed.
End Value.

(** ** Strings, binaries and all scalars *)

Definition string_encodings : list Z :=
  [FieldEncoding_ZStringChar8; FieldEncoding_ZStringChar16; FieldEncoding_ZStringChar32; FieldEncoding_StringLength16Char8;
   FieldEncoding_StringLength16Char16; FieldEncoding_StringLength16Char32; FieldEncoding_BinaryLength16Char8].
(** The encoding of the text of a string. *)
Definition own_encoding (v : PerfItemValue) : PerfTextEncoding :=
  let e := item_encoding v in
  if (e =? FieldEncoding_ZStringChar16) || (e =? FieldEncoding_StringLength16Char16) then utf16_of v
  else if (e =? FieldEncoding_ZStringChar32) || (e =? FieldEncoding_StringLength16Char32) then utf32_of v
  else Utf8.
Definition text_encoding (v : PerfItemValue) : PerfTextEncoding :=
  if item_format v =? FieldFormat_String8 then Latin1
  else if existsb (Z.eqb (item_format v)) bom_formats
  then match from_bom v.(item_bytes) with (Some e, _) => e | (None, _) => own_encoding v end
  else own_encoding v.
(** Text in UTF-32 is not escaped. *)
Definition utf32_text (v : PerfItemValue) : bool :=
  existsb (Z.eqb (item_encoding v)) string_encodings && negb (item_format v =? FieldFormat_HexBytes)
  && is_utf32 (text_encoding v).
(** What is shown as well-formed JSON: the element [i] of a value. *)
Definition value_safe (v : PerfItemValue) (i : Z) : Prop :=
  utf32_text v = false /\
  (item_encoding v = FieldEncoding_Value16 -> ~ backslash v (to_u16 v i)) /\
  (item_encoding v = FieldEncoding_Value32 -> ~ backslash v (to_u32 v i)).

Section Scalar.
Context (v : PerfItemValue) (Hb : bytes_ok v.(item_bytes)) (Hlen : len v.(item_bytes) < 2 ^ 64).

Lemma from_bom_bound e n : from_bom v.(item_bytes) = (Some e, n) -> 0 <= n <= len v.(item_bytes).
Proof.
  unfold from_bom. cbv zeta. repeat match goal with |- context [if ?c then _ else _] => destruct c eqn:? end;
    intros [= _ <-]; bool_hyps; lia.
Qed.
Lemma leaf_escaped e : is_utf32 e = false -> leaf (write_quoted (write_with_json_escape v.(item_bytes) e)).
Proof using Hb Hlen. intros He. eexists. by apply text_shown. Qed.
Lemma leaf_without_bom e : In (item_format v) bom_formats -> own_encoding v = e -> utf32_text v = false ->
  In (item_encoding v) string_encodings ->
  leaf (without_bom v e (fun b e => write_quoted (write_with_json_escape b e))).
Proof using Hb Hlen.
  intros Hf He Hu Hs. assert (Ht : is_utf32 (match from_bom v.(item_bytes) with (Some e, _) => e | (None, _) => e end) = false).
  { unfold utf32_text, text_encoding in Hu. rewrite He in Hu.
    assert (E : existsb (Z.eqb (item_encoding v)) string_encodings = true).
    { apply existsb_exists. exists (item_encoding v). split; [done|apply Z.eqb_refl]. }
    assert (E2 : existsb (Z.eqb (item_format v)) bom_formats = true).
    { apply existsb_exists. exists (item_format v). split; [done|apply Z.eqb_refl]. }
    rewrite E, E2 in Hu. cbn in Hf. repeat destruct Hf as [Hf|Hf]; try rewrite <- Hf in Hu; done. }
  unfold without_bom. destruct (from_bom (item_bytes v)) as [[be|] n] eqn:Eb; [|by apply leaf_escaped].
  pose proof (from_bom_bound _ _ Eb). apply leaf_arg, wp_slice_from; [lia|]. eexists.
  apply text_shown; [done|by apply bytes_ok_sub|]. rewrite len_sub by lia. lia.
Qed.
Lemma leaf_string e : own_encoding v = e -> utf32_text v = false -> In (item_encoding v) string_encodings ->
  leaf (write_json_scalar_string_to v e).
Proof using Hb Hlen.
  intros He Hu Hs. unfold write_json_scalar_string_to.
  destruct (existsb (Z.eqb (item_format v)) [FieldFormat_HexBytes]) eqn:E1; cbn [by_value]; rewrite E1.
  { by apply leaf_quoted, plain_write_hexbytes. }
  destruct (existsb (Z.eqb (item_format v)) [FieldFormat_String8]) eqn:E2; [by apply leaf_latin1|].
  destruct (existsb (Z.eqb (item_format v)) bom_formats) eqn:E3.
  { apply leaf_without_bom; try done. apply existsb_exists in E3 as (x & Hx & ->%Z.eqb_eq). done. }
  apply leaf_escaped. unfold utf32_text, text_encoding in Hu. cbn [existsb] in E1, E2. rewrite orb_false_r in E1, E2.
  rewrite E1, E2, E3, He in Hu.
  assert (E : existsb (Z.eqb (item_encoding v)) string_encodings = true).
  { apply existsb_exists. exists (item_encoding v). split; [done|apply Z.eqb_refl]. }
  by rewrite E in Hu.
Qed.
Lemma leaf_char8 : leaf (write_json_char8_default_to v).
Proof using Hb Hlen.
  unfold write_json_char8_default_to. destruct (_ =? _); [by apply leaf_quoted, plain_write_hexbytes|by apply leaf_utf8].
Qed.
Lemma leaf_by_len cases : Forall (fun c => In (len v.(item_bytes)) (fst c) -> leaf (snd c)) cases ->
  leaf (by_value (len v.(item_bytes)) (([0], null) :: cases) (write_json_char8_default_to v)).
Proof using Hb Hlen.
  intros Hc. apply by_value_cases; [|apply leaf_char8]. constructor; [|done]. intros _. apply leaf_keyword. cbn. tauto.
Qed.

(** The bytes are one element of their length. *)
Lemma whole k : In (len v.(item_bytes)) [k] -> has v k 0.
Proof using Hb. intros [->|[]]. split_and!; [lia|lia|done]. Qed.

Ltac length_arms := apply leaf_by_len; repeat constructor; cbn [fst snd]; intros Hl%whole.

Lemma leaf_binary : own_encoding v = Utf8 -> utf32_text v = false -> In (item_encoding v) string_encodings ->
  leaf (write_json_binary_to v).
Proof using Hb Hlen Hmonth.
  intros He Hu Hs. unfold write_json_binary_to. cbv zeta.
  assert (U : forall size (read : PerfByteReader -> bytes -> outcome Z), 0 < size <= 8 ->
    (forall r l, read r l = read_uint size r l) -> has v size 0 ->
    wp (element_read size read v 0) (fun n => 0 <= n < 2 ^ 64)).
  { intros size read Hsz Hr Hh. eapply wp_mono; [by apply (wp_unsigned v 0 size)|]. cbv beta. intros n Hn.
    assert (256 ^ size <= 256 ^ 8) by (apply Z.pow_le_mono_r; lia). lia. }
  assert (I : forall w size, 0 < size <= 8 -> 0 < w <= 64 -> has v size 0 ->
    wp (element_read size (fun r l => v ← read_uint size r l; Ret (as_signed w v)) v 0) (fun n => - 10 ^ 20 < n < 10 ^ 20)).
  { intros w size Hsz Hw Hh. apply wp_element; [lia|done|]. intros r l Hbl Hl. apply wp_signed; [lia|lia|done|done]. }
  apply by_value_cases; [|by apply leaf_char8]. repeat constructor; cbn [fst snd]; intros Harm.
  - length_arms.
    + eapply leaf_decimal_wp; [by apply wp_to_u8|]. unfold is_u8. cbv beta. lia.
    + eapply leaf_decimal_wp; [by apply U|]. cbv beta. lia.
    + eapply leaf_decimal_wp; [by apply U|]. cbv beta. lia.
    + eapply leaf_decimal_wp; [by apply U|]. cbv beta. lia.
  - length_arms; apply leaf_decimal; [by apply wp_to_i8|by apply I..].
  - length_arms.
    + eapply leaf_arg_wp; [by apply wp_to_u8|]. unfold is_u8. cbv beta. intros n Hn. apply leaf_json_hex. lia.
    + eapply leaf_arg_wp; [by apply U|]. cbv beta. intros n Hn. by apply leaf_json_hex.
    + eapply leaf_arg_wp; [by apply U|]. cbv beta. intros n Hn. by apply leaf_json_hex.
    + eapply leaf_arg_wp; [by apply U|]. cbv beta. intros n Hn. by apply leaf_json_hex.
  - length_arms. eapply leaf_arg_wp; [by apply U|]. cbv beta. intros n Hn. apply leaf_json_errno. lia.
  - length_arms. apply leaf_decimal. by apply I.
  - length_arms; (eapply leaf_arg_wp; [by apply I|]; intros n Hn; by apply leaf_json_time).
  - length_arms.
    + eapply leaf_arg_wp; [by apply wp_to_u8|]. intros n _. apply leaf_json_bool.
    + eapply leaf_arg_wp; [by apply U|]. intros n _. apply leaf_json_bool.
    + eapply leaf_arg_wp; [by apply U|]. intros n _. apply leaf_json_bool.
  - length_arms; (eapply leaf_arg_wp; [by apply U|]; intros n _); [apply leaf_json_float32|apply leaf_json_float64].
  - by apply leaf_quoted, plain_write_hexbytes.
  - by apply leaf_latin1.
  - by apply leaf_utf8.
  - by apply leaf_without_bom.
  - length_arms. apply leaf_quoted, plain_arg. eapply wp_mono; [by apply (wp_bytes 16)|]. intros b. apply plain_write_uuid.
  - length_arms. eapply leaf_decimal_wp; [by apply wp_port|]. cbv beta. lia.
  - length_arms.
    + by apply leaf_quoted, plain_write_ipv4, (wp_bytes 4).
    + apply leaf_quoted, plain_arg. eapply wp_mono; [by apply (wp_bytes 16)|]. intros b. apply plain_write_ipv6.
Qed.

(** The bytes are those of the encoding. *)
Definition scalar_ok : Prop :=
  item_type_size v <= len v.(item_bytes) /\
  (item_encoding v = FieldEncoding_Value8 -> 1 <= len v.(item_bytes)) /\
  (item_encoding v = FieldEncoding_Value16 -> 2 <= len v.(item_bytes)) /\
  (item_encoding v = FieldEncoding_Value32 -> 4 <= len v.(item_bytes)) /\
  (item_encoding v = FieldEncoding_Value64 -> 8 <= len v.(item_bytes)) /\
  (item_encoding v = FieldEncoding_Value128 -> 16 <= len v.(item_bytes)) /\
  item_encoding v <> FieldEncoding_Struct /\ 0 <= item_encoding v < 32.

Lemma scalar_leaf : scalar_ok -> value_safe v 0 -> leaf (write_json_scalar_to_impl v).
Proof using Hb Hlen Hmonth.
  intros (Hsz & H8 & H16 & H32 & H64 & H128 & Hst & Hr) (Hu & Hs16 & Hs32).
  enough (Hc : leaf (by_value (item_encoding v)
    [([FieldEncoding_Invalid], null); ([FieldEncoding_Struct], write_str_with_no_filter (str_bytes "{}"));
     ([FieldEncoding_Value8], write_json_value8_to v 0); ([FieldEncoding_Value16], write_json_value16_to v 0);
     ([FieldEncoding_Value32], write_json_value32_to v 0); ([FieldEncoding_Value64], write_json_value64_to v 0);
     ([FieldEncoding_Value128], write_json_value128_to v 0); ([FieldEncoding_ZStringChar8], write_json_scalar_string_to v Utf8);
     ([FieldEncoding_ZStringChar16; FieldEncoding_StringLength16Char16], write_json_scalar_string_to v (utf16_of v));
     ([FieldEncoding_ZStringChar32; FieldEncoding_StringLength16Char32], write_json_scalar_string_to v (utf32_of v));
     ([FieldEncoding_BinaryLength16Char8; FieldEncoding_StringLength16Char8], write_json_binary_to v)]
    (json_encoding v))).
  { destruct Hc as (j & Hj & Hp). exists j. split; [done|]. intros w Hw. unfold emits, write_json_scalar_to_impl, fmt_assert.
    rewrite (proj2 (Z.leb_le _ _) Hsz). by apply Hp. }
  assert (Hown : forall es, In (item_encoding v) es -> forallb (fun e => existsb (Z.eqb e) string_encodings) es = true ->
    In (item_encoding v) string_encodings).
  { intros es Hin Hes. rewrite forallb_forall in Hes. specialize (Hes _ Hin). apply existsb_exists in Hes as (x & Hx & ->%Z.eqb_eq). done. }
  apply by_value_cases; [repeat constructor; cbn [fst snd]; intros Harm|].
  - apply leaf_keyword. cbn. tauto.
  - by destruct Harm.
  - apply json_value8. destruct Harm as [E|[]]. split_and!; [lia|specialize (H8 (eq_sym E)); lia|done].
  - destruct Harm as [E|[]]. apply json_value16; [split_and!; [lia|specialize (H16 (eq_sym E)); lia|done]|auto].
  - destruct Harm as [E|[]]. apply json_value32; [split_and!; [lia|specialize (H32 (eq_sym E)); lia|done]|auto].
  - destruct Harm as [E|[]]. apply json_value64. split_and!; [lia|specialize (H64 (eq_sym E)); lia|done].
  - destruct Harm as [E|[]]. apply json_value128. split_and!; [lia|specialize (H128 (eq_sym E)); lia|done].
  - apply leaf_string; [|done|by eapply Hown]. unfold own_encoding. by destruct Harm as [<-|[]].
  - apply leaf_string; [|done|by eapply Hown]. unfold own_encoding. by destruct Harm as [<-|[<-|[]]].
  - apply leaf_string; [|done|by eapply Hown]. unfold own_encoding. by destruct Harm as [<-|[<-|[]]].
  - apply leaf_binary; [|done|by eapply Hown]. unfold own_encoding. by destruct Harm as [<-|[<-|[]]].
  - apply (leaf_pieces _ (str_bytes "Encoding[" ++ fmt_decimal (item_encoding v) ++ [93])).
    + cbn [concat]. rewrite app_nil_r. cbn [app]. rewrite <- !app_assoc. done.
    + apply plain_app; [repeat constructor; done|]. apply plain_app; [apply decimal_plain; lia|repeat constructor; lia].
Qed.
End Scalar.
End Shows.
