(* ===== verification/EventJsonProps.v ===== *)
(** * EventJsonProps: the JSON of an event is the tree of its fields

    The writer is followed through the moves of the enumerator; what a scalar shows is
    [LeafJson]'s, where the commas and spaces go is [JsonProps]'s. *)

From S2P Require Import Prelude Strings Types ByteReader PerfItem Text Provider Writers Floats FloatsProps ItemText.
From S2P Require Import TextSpec TextProps WritersProps JsonTree JsonProps LeafJson PerfIo EventJson.
From S2P Require Import Enumerator EnumeratorInv EnumeratorSpec EnumeratorWalk EnumeratorProps.
From S2P Require Import EventBytes Tracepoint TracepointProps ProviderProps Builder BuilderProps.
From S2P Require Import FieldTree FieldWalk FieldVisit FieldProps.

#[local] Set Warnings "-register-all".

(** ** The JSON of a field *)

Section Shows.
Context `{Target} (o : Z) `{Calendar}.

(** A value of a field, on its own. *)
Definition scalar_value (k : ValueKind) (f : Z) (v : list bytes) : PerfItemValue :=
  {| item_bytes := value_item k v;
     item_metadata := {| element_count := 1; field_tag := 0; type_size := kind_size k;
       encoding_and_array_flag_and_is_scalar := FieldEncoding_with_flags (kind_encoding k) FieldEncoding_ChainFlag;
       format := f; md_byte_reader := host_reader |} |}.
Definition value_shows (k : ValueKind) (f : Z) (v : list bytes) (j : json) : Prop :=
  shows o (write_json_scalar_to_impl (scalar_value k f v)) j.

(** The name of a member: with the option, a tag follows the name. *)
Definition member_name (name : bytes) (t : Z) : list Z :=
  decode Utf8 name ++
  (if options_has_flag o FieldTag && negb (t =? 0) then str_bytes ";tag=0x" ++ fmt_HEX t else []).

Inductive field_shows : Field -> list Z * json -> Prop :=
  | scalar_shows name k v f t j : value_shows k f v j -> field_shows (FScalar name k v f t) (member_name name t, j)
  | array_shows name k vs f t js : Forall2 (value_shows k f) vs js ->
      field_shows (FArray name k vs f t) (member_name name t, JArray js)
  | struct_shows name fs t ms : Forall2 field_shows fs ms ->
      field_shows (FStruct name fs t) (member_name name t, JObject ms).

(** No value has text in UTF-32 or is the 16- or 32-bit character that is not escaped. *)
Fixpoint field_safe (f : Field) : Prop :=
  match f with
  | FScalar _ k v f _ => value_safe (scalar_value k f v) 0
  | FArray _ k vs f _ =>
    (fix all vs := match vs with [] => True | v :: vs => value_safe (scalar_value k f v) 0 /\ all vs end) vs
  | FStruct _ fs _ => (fix all fs := match fs with [] => True | f :: fs => field_safe f /\ all fs end) fs
  end.

Lemma array_safe name k vs f t :
  field_safe (FArray name k vs f t) <-> Forall (fun v => value_safe (scalar_value k f v) 0) vs.
Proof.
  cbn [field_safe]. induction vs as [|v vs IH]; [by split|]. rewrite Forall_cons_iff. by rewrite <- IH.
Qed.
Lemma struct_safe name fs t : field_safe (FStruct name fs t) <-> Forall field_safe fs.
Proof.
  cbn [field_safe]. induction fs as [|f fs IH]; [by split|]. rewrite Forall_cons_iff. by rewrite <- IH.
Qed.

Lemma scalar_encoding k f v : kind_ok k = true -> item_encoding (scalar_value k f v) = kind_encoding k.
Proof.
  intros Hk. set (P := fun k => FieldEncoding_without_flags (FieldEncoding_with_flags (kind_encoding k) FieldEncoding_ChainFlag) =? kind_encoding k).
  assert (E : P k = true) by (by apply kind_cases). by apply Z.eqb_eq in E.
Qed.

Lemma value_item_ok k v : value_ok k v -> bytes_ok (value_item k v).
Proof.
  intros [He _]. assert (Hc : forall l, Forall (fun e => len e = element_width k /\ bytes_ok e) l -> bytes_ok (concat l)).
  { intros l Hl. apply Forall_concat. eapply List.Forall_impl; [|exact Hl]. by intros x [_ Hx]. }
  destruct k as [n|n|n|]; cbn [value_item]; try by apply Hc.
  apply Hc. induction He as [|e v Hx He IH]; [constructor|]. cbn [before_zero].
  destruct (is_zero_element n e); [constructor|]. by constructor.
Qed.
Lemma fixed_item n v : value_ok (KValue n) v -> len (value_item (KValue n) v) = n.
Proof.
  intros [He Hl]. cbn [value_item]. rewrite (len_concat _ _ He). cbn [element_width]. unfold len. rewrite Hl. lia.
Qed.

Context (Hmonth : forall t tm, gmtime_r t = Some tm -> 0 <= tm.(tm_mon) <= 11).

(** Every value of a field is shown as some JSON value. *)
Lemma value_leaf k f v : kind_ok k = true -> value_ok k v -> len (value_item k v) < 2 ^ 64 ->
  value_safe (scalar_value k f v) 0 -> exists j, value_shows k f v j.
Proof using Hmonth.
  intros Hk Hv Hl Hs. pose proof (scalar_encoding k f v Hk) as He.
  destruct (kind_facts k Hk) as (_ & _ & _ & _ & _ & _ & _ & K8 & _ & K10).
  apply (scalar_leaf o Hmonth); [by apply value_item_ok|exact Hl| |exact Hs].
  assert (Hsize : forall n, k = KValue n -> len (value_item k v) = n) by (intros n ->; by apply fixed_item).
  assert (Hmin : simple_size (kind_encoding k) <= len (value_item k v)).
  { rewrite K8. pose proof (len_nonneg (value_item k v)). destruct k as [n|n|n|]; cbn [is_fixed element_width]; try lia.
    by rewrite (Hsize n eq_refl). }
  unfold LeafJson.scalar_ok. rewrite He. change (item_type_size (scalar_value k f v)) with (kind_size k).
  change (PerfItem.item_bytes (scalar_value k f v)) with (value_item k v). unfold kind_size. rewrite <- K8.
  split_and!; try lia; try (intros E; rewrite E in Hmin; exact Hmin).
  unfold FieldEncoding_Struct. lia.
Qed.

(** The scalar writer looks at the bytes, the encoding, the format and the byte order. *)
Lemma scalar_same {v v'} :
  item_bytes v = item_bytes v' -> item_encoding v = item_encoding v' -> item_format v = item_format v' ->
  md_byte_reader (item_metadata v) = md_byte_reader (item_metadata v') ->
  item_type_size v <= len (item_bytes v) -> item_type_size v' <= len (item_bytes v') ->
  write_json_scalar_to_impl (S := bytes) v = write_json_scalar_to_impl v'.
Proof.
  intros Hb He Hf Hr Ht Ht'. unfold write_json_scalar_to_impl.
  rewrite (proj2 (Z.leb_le _ _) Ht), (proj2 (Z.leb_le _ _) Ht').
  unfold write_json_value8_to, write_json_value16_to, write_json_value32_to, write_json_value64_to, write_json_value128_to,
    write_json_scalar_string_to, write_json_binary_to, write_json_char8_default_to, without_bom, json_encoding, utf16_of, utf32_of,
    md_source_big_endian, to_u8, to_i8, to_u16, to_i16, to_u32, to_i32, to_u64, to_i64, to_f32, to_f64, to_time32, to_time64, to_port,
    to_u8x1, to_u8x2, to_u8x4, to_u8x8, to_u8x16, element_read, element_bytes.
  by rewrite Hb, He, Hf, Hr.
Qed.
End Shows.

(** ** Elements of an array

    The writer of an element of an array is the writer of the element alone. *)

Section Elements.
Context `{Target} `{Calendar}.

Lemma read_uint_prefix n r elem post : len elem = n -> read_uint n r (elem ++ post) = read_uint n r elem.
Proof.
  intros Hn. pose proof (len_nonneg elem). pose proof (len_nonneg post).
  rewrite !read_uint_ok by (rewrite ?len_app; lia). do 2 f_equal. unfold sub. rewrite Z.sub_0_r, !drop_0.
  rewrite !take_app_le, !take_ge by (unfold len in *; lia). done.
Qed.

Section Element.
Context (size : Z) (arr one : PerfItemValue) (i : Z) (pre elem post : bytes).
Hypothesis (Harr : item_bytes arr = pre ++ elem ++ post) (Hone : item_bytes one = elem).
Hypothesis (Hpre : len pre = i * size) (Helem : len elem = size) (Hsize : 0 < size).
Hypothesis (Hreader : md_byte_reader (item_metadata arr) = md_byte_reader (item_metadata one)).

Lemma element_room : 0 <= i /\ i < len (item_bytes arr) / size /\ 0 < len (item_bytes one) / size.
Proof using Harr Helem Hone Hpre Hsize.
  pose proof (len_nonneg pre). pose proof (len_nonneg post). assert (Hi : 0 <= i) by nia. split; [done|].
  assert (R1 : i + 1 <= len (item_bytes arr) / size) by (rewrite Harr, !len_app; apply Z.div_le_lower_bound; lia).
  assert (R2 : 1 <= len (item_bytes one) / size) by (rewrite Hone; apply Z.div_le_lower_bound; lia). lia.
Qed.
Lemma element_bytes_same : element_bytes size arr i = element_bytes size one 0.
Proof using Harr Helem Hone Hpre Hsize.
  destruct element_room as (Hi & R1 & R2). unfold element_bytes.
  rewrite (proj2 (Z.ltb_lt _ _) R1), (proj2 (Z.ltb_lt _ _) R2). cbn [rassert mbind outcome_bind].
  pose proof (len_nonneg pre). pose proof (len_nonneg post).
  rewrite !slice_ok by (rewrite ?Harr, ?Hone, ?len_app; lia). f_equal. rewrite Harr, Hone. unfold sub.
  replace (Z.to_nat (i * size)) with (length pre) by (unfold len in *; lia).
  replace (Z.to_nat (i * size + size - i * size)) with (length elem) by (unfold len in *; lia).
  replace (Z.to_nat (0 * size + size - 0 * size)) with (length elem) by (unfold len in *; lia).
  replace (Z.to_nat (0 * size)) with 0%nat by lia.
  by rewrite drop_app_length, take_app_length, drop_0, take_ge.
Qed.
Lemma element_read_same (read : PerfByteReader -> bytes -> outcome Z) :
  (forall r post, read r (elem ++ post) = read r elem) -> element_read size read arr i = element_read size read one 0.
Proof using Harr Helem Hone Hpre Hsize Hreader.
  intros Hr. destruct element_room as (Hi & R1 & R2). unfold element_read.
  rewrite (proj2 (Z.ltb_lt _ _) R1), (proj2 (Z.ltb_lt _ _) R2). cbn [rassert mbind outcome_bind].
  pose proof (len_nonneg pre). pose proof (len_nonneg post). unfold slice_from.
  rewrite !slice_ok by (rewrite ?Harr, ?Hone, ?len_app; lia). cbn [mbind outcome_bind]. rewrite Hreader, Harr, Hone. unfold sub.
  replace (Z.to_nat (i * size)) with (length pre) by (unfold len in *; lia).
  replace (Z.to_nat (0 * size)) with 0%nat by lia. rewrite drop_app_length, drop_0, !take_ge by (unfold len in *; rewrite ?length_app; lia).
  apply Hr.
Qed.
Lemma read_same n (g : Z -> Z) : n = size -> forall r p,
  (v ← read_uint n r (elem ++ p); Ret (g v)) = (v ← read_uint n r elem; Ret (g v)).
Proof using Helem. intros -> r p. by rewrite read_uint_prefix. Qed.
End Element.

(** The writer of the elements of [n] bytes. *)
Definition value_writer (n : Z) : PerfItemValue -> Z -> fmt (ValueWriter bytes) :=
  if n =? 1 then write_json_value8_to else if n =? 2 then write_json_value16_to else if n =? 4 then write_json_value32_to
  else if n =? 8 then write_json_value64_to else write_json_value128_to.

Lemma writer_same n arr one i pre elem post :
  kind_ok (KValue n) = true -> item_bytes arr = pre ++ elem ++ post -> item_bytes one = elem ->
  len pre = i * n -> len elem = n -> md_byte_reader (item_metadata arr) = md_byte_reader (item_metadata one) ->
  item_format arr = item_format one -> value_writer n arr i = value_writer n one 0.
Proof.
  intros Hk Ha Ho Hp He Hr Hf.
  assert (Hn : 0 < n) by (apply existsb_exists in Hk as (m & Hm & ->%Z.eqb_eq); cbn in Hm; intuition lia).
  pose proof (element_bytes_same n arr one i pre elem post Ha Ho Hp He Hn) as Hb.
  pose proof (element_read_same n arr one i pre elem post Ha Ho Hp He Hn Hr) as Hrd.
  assert (Hu : element_read n (read_uint n) arr i = element_read n (read_uint n) one 0).
  { apply Hrd. intros. by apply read_uint_prefix. }
  assert (Hs : forall w, element_read n (fun r l => v ← read_uint n r l; Ret (as_signed w v)) arr i
    = element_read n (fun r l => v ← read_uint n r l; Ret (as_signed w v)) one 0).
  { intros w. apply Hrd. intros. by apply (read_same n). }
  apply existsb_exists in Hk as (m & Hm & E%Z.eqb_eq). subst m. cbn [In] in Hm.
  destruct Hm as [<-|[<-|[<-|[<-|[<-|[]]]]]]; cbn [value_writer Z.eqb Pos.eqb].
  - destruct (element_room 1 arr one i pre elem post Ha Ho Hp He Hn) as (Hi & R1 & R2). rewrite Z.div_1_r in R1, R2.
    unfold element_bytes in Hb. rewrite !Z.div_1_r, (proj2 (Z.ltb_lt _ _) R1), (proj2 (Z.ltb_lt _ _) R2) in Hb.
    cbn [rassert mbind outcome_bind] in Hb.
    assert (Hx : index (item_bytes arr) i = index (item_bytes one) 0).
    { destruct elem as [|x [|y l]]; cbn in He; unfold len in He; cbn in He; try lia. rewrite Ha, Ho. unfold index.
      rewrite (proj2 (Z.ltb_ge i 0)) by lia. cbn [Z.ltb Z.compare]. replace (Z.to_nat i) with (length pre) by (unfold len in Hp; lia).
      cbn [app]. by rewrite list_lookup_middle. }
    unfold write_json_value8_to, to_i8, to_u8, to_u8x1. by rewrite Hf, Hx, (proj2 (Z.ltb_lt _ _) R1), (proj2 (Z.ltb_lt _ _) R2).
  - unfold write_json_value16_to, to_i16, to_u16, to_u8x2, to_port. rewrite Hf, Hb. by rewrite (Hs 16 : element_read 2 read_i16 arr i = _), (Hu : element_read 2 read_u16 arr i = _).
  - unfold write_json_value32_to, to_i32, to_u32, to_u8x4, to_f32, to_time32. rewrite Hf, Hb.
    by rewrite (Hs 32 : element_read 4 read_i32 arr i = _), (Hu : element_read 4 read_u32 arr i = _), (Hu : element_read 4 read_f32 arr i = _).
  - unfold write_json_value64_to, to_i64, to_u64, to_u8x8, to_f64, to_time64. rewrite Hf, Hb.
    by rewrite (Hs 64 : element_read 8 read_i64 arr i = _), (Hu : element_read 8 read_u64 arr i = _), (Hu : element_read 8 read_f64 arr i = _).
  - unfold write_json_value128_to, to_u8x16. by rewrite Hf, Hb.
Qed.
End Elements.

(** ** Items *)

Section Items.
Context `{Target} (ed : bytes) (Hbytes : bytes_ok ed) (Hlen : len ed < 2 ^ 31) (o : Z) `{Calendar}.
Abbreviation S := (options_has_flag o Space).

Lemma item_read c : Inv ed c -> can_item_info c.(state) = true -> well_declared c.(field_type) ->
  exists i, EventHeaderItemInfo_new ed c = Ret i /\ ii_name_bytes i = Ret (it_name (seen ed c)) /\
    let v := ii_value i in let m := item_metadata v in
    item_bytes v = it_value (seen ed c) /\
    md_encoding m = FieldEncoding_without_flags c.(field_type).(ft_encoding) /\
    md_array_flag m = FieldEncoding_array_flags c.(field_type).(ft_encoding) /\
    md_is_scalar m = scalar_state c.(state) /\ type_size m = c.(element_size) /\ format m = c.(field_type).(ft_format) /\
    field_tag m = c.(field_type).(ft_tag) /\ md_byte_reader m = c.(byte_reader).
Proof using Hbytes.
  intros HI Hc Hw. destruct (wp_inv _ _ (item_info_ok ed Hbytes c HI Hc Hw)) as (i & E & Hn & Hv & _).
  destruct (wp_inv _ _ (item_metadata_ok ed Hbytes c HI Hc Hw)) as (m & Em & M1 & M2 & M3 & _ & M5 & M6 & M7 & M8).
  exists i. split; [exact E|]. split; [exact Hn|]. cbv zeta. split; [exact Hv|].
  assert (Hm : item_metadata (ii_value i) = m).
  { unfold item_info, EventHeaderItemInfo_new in E. rewrite Em in E.
    destruct (rassert _); cbn [mbind outcome_bind] in E; [|done]. destruct (slice _ _ _) as [b|]; cbn [mbind outcome_bind] in E; [|done].
    unfold PerfItemValue_new in E. repeat (destruct (rassert _); cbn [mbind outcome_bind] in E); try done. by injection E as <-. }
  rewrite Hm. by split_and!.
Qed.
Lemma is_element_split m : md_is_element m = md_is_scalar m && negb (md_array_flag m =? 0).
Proof.
  unfold md_is_element, md_is_scalar, md_array_flag, FieldEncoding_has_chain_flag, FieldEncoding_array_flags.
  by rewrite !(Z.eqb_sym 0).
Qed.

(** The type size of an item is at most its length. *)
Lemma value_size c : Inv ed c -> c.(state) = StValue -> c.(element_size) <= len (it_value (seen ed c)).
Proof.
  intros HI Hs. destruct (item_facts ed c HI ltac:(by rewrite Hs)) as (_ & Hp & Hz & Hle & _).
  unfold seen. cbn [it_value]. rewrite len_sub by lia. replace (_ + _ - _) with c.(item_size_cooked) by lia.
  destruct (Z.eqb_spec (element_size c) 0) as [->|He]; [done|]. destruct HI as [_ HS]. unfold SubInv, at_value in HS.
  rewrite Hs in HS. destruct (substate c); repeat match goal with HX : _ /\ _ |- _ => destruct HX end; try done;
    try match goal with HX : element_size c <> 0 -> _ |- _ => rewrite HX by done; lia end.
Qed.

(** ** Writing one item *)

Definition jst (c : Ctx) (d : bytes) (a b : bool) : JsonState bytes :=
  {| j_context := c; j_json := JsonProps.state o d a b |}.
Lemma on_json_runs m a s cs a' s' c d : JsonProps.runs o m a s cs a' s' ->
  on_json m (jst c d a s) = Ret (Ok tt, jst c (d ++ utf8 cs) a' s').
Proof. intros Hm. unfold on_json, io_on. cbn [j_json jst]. by rewrite Hm. Qed.
Lemma leaf_runs m j : shows o m j -> JsonProps.runs o m true S (leaf_text j) true S.
Proof. intros [_ Hm] d. exact (Hm (JsonProps.state o d true S) eq_refl). Qed.

Lemma member_plain t : 0 <= t -> plain (str_bytes ";tag=0x" ++ fmt_HEX t).
Proof. intros Ht. apply plain_app; [repeat constructor; done|by apply hex_plain]. Qed.
Lemma member_scalars name t : bytes_ok name -> 0 <= t -> scalars (member_name o name t).
Proof.
  intros Hn Ht. apply Forall_app. split; [by apply decode_scalars|]. destruct (_ && _); [|constructor].
  eapply List.Forall_impl; [|exact (member_plain t Ht)]. intros c [Hc _]. apply scalar_ascii. lia.
Qed.

(** The name of a member and what is due before it. *)
Definition name_text (a s : bool) (name : bytes) (t : Z) : list Z :=
  lead a s ++ 34 :: flat_map (json_char false) (member_name o name t) ++ [34; 58].
Lemma runs_item_name name t a s : bytes_ok name -> len name < 2 ^ 64 -> 0 <= t ->
  JsonProps.runs o (write_property_name_from_item_info name t) a s (name_text a s name t) false S.
Proof.
  intros Hn Hl Ht. eapply runs_cast.
  - eapply runs_then; [apply runs_comma_space|].
    eapply (runs_then _ _ _ _ _ false S _ _ []); [by apply runs_assign|].
    eapply (runs_then _ _ _ _ _ _ _ _ _ [34]); [by apply runs_ascii|].
    eapply runs_then; [apply runs_emits; intros d; apply (json_escape_converts Utf8 name); done|].
    eapply runs_then; [|by apply (runs_ascii_str _ [34; 58]); repeat constructor].
    apply runs_emits. intros d. apply (prints_options o _ (if options_has_flag o FieldTag && negb (t =? 0) then str_bytes ";tag=0x" ++ fmt_HEX t else [])); [|done].
    destruct (_ && _).
    + assert (E : str_bytes ";tag=0x" ++ fmt_HEX t = concat [str_bytes ";tag=0x"; fmt_HEX t]) by (cbn [concat]; by rewrite app_nil_r).
      rewrite E. apply prints_pieces. rewrite <- E. by apply plain_ascii, member_plain.
    + intros w _. unfold emits. cbn. rewrite app_nil_r. by destruct w.
  - unfold name_text, member_name. rewrite flat_map_app. cbn [app is_utf32]. rewrite <- !app_assoc. do 3 f_equal.
    destruct (_ && _); [|done]. by rewrite plain_escape by by apply member_plain.
Qed.

(** What is known of an item that a written event shows. *)
Record shown (c : Ctx) (st : EventHeaderEnumeratorState) (name : bytes) (e f t : Z) (value : bytes) : Prop := {
  sh_inv : Inv ed c;
  sh_seen : seen ed c = {| it_state := st; it_name := name; it_type := field_type_of e f t; it_value := value |};
  sh_declared : well_declared (field_type_of e f t);
  sh_reader : c.(byte_reader) = host_reader;
  sh_name : bytes_ok name /\ len name < 2 ^ 64;
  sh_tag : 0 <= t;
}.
Lemma shown_item c st name e f t value : shown c st name e f t value -> can_item_info st = true ->
  c.(state) = st /\
  exists i, EventHeaderItemInfo_new ed c = Ret i /\ ii_name_bytes i = Ret name /\
    let v := ii_value i in let m := item_metadata v in
    item_bytes v = value /\ md_encoding m = FieldEncoding_without_flags e /\
    md_array_flag m = FieldEncoding_array_flags e /\ md_is_scalar m = scalar_state st /\
    type_size m = c.(element_size) /\ format m = f /\ field_tag m = t /\ md_byte_reader m = host_reader.
Proof using Hbytes.
  intros [HI Hs Hw Hr _ _] Hc. assert (Hst : c.(state) = st) by (by injection Hs).
  assert (Hft : c.(field_type) = field_type_of e f t) by (by injection Hs). split; [done|].
  rewrite <- Hft in Hw. rewrite <- Hst in Hc. destruct (item_read c HI Hc Hw) as (i & E & En & R).
  exists i. rewrite Hs in En, R. rewrite Hft, Hr, Hst in R. by split_and!.
Qed.

(** What [json_item] does with the name. *)
Lemma json_name_shown c i name t d a s (wanted : bool) : bytes_ok name -> len name < 2 ^ 64 -> 0 <= t ->
  ii_name_bytes i = Ret name -> field_tag (item_metadata (ii_value i)) = t ->
  json_name i wanted (jst c d a s) =
    Ret (Ok tt, if wanted then jst c (d ++ utf8 (name_text a s name t)) false S else jst c d a s).
Proof.
  intros Hn Hl Ht En Et. unfold json_name. destruct wanted; [|done]. cbn [io_when]. rewrite (io_lift_bind _ _ _ _ En), Et.
  apply on_json_runs. by apply runs_item_name.
Qed.

Definition leaf_value_text (a s : bool) (named : bool) (name : bytes) (t : Z) (j : json) : list Z :=
  (if named then name_text a s name t ++ lead false S else lead a s) ++ leaf_text j.

Lemma json_value c name e f t k v j a s d depth :
  shown c StValue name e f t (value_item k v) -> FieldEncoding_without_flags e = kind_encoding k ->
  kind_ok k = true -> value_ok k v -> value_shows o k f v j ->
  json_item ed true depth (jst c d a s) =
    Ret (Ok (false, depth), jst c (d ++ utf8 (leaf_value_text a s (FieldEncoding_array_flags e =? 0) name t j)) true S).
Proof using Hbytes.
  intros Hsh He Hk Hv Hj. pose proof Hsh as [HI Hseen _ _ [Hn Hl] Ht].
  destruct (shown_item _ _ _ _ _ _ _ Hsh eq_refl) as (Hst & i & Ei & En & V1 & V2 & V3 & V4 & V5 & V6 & V7 & V8).
  unfold json_item. rewrite io_get_bind. change (j_context (jst c d a _)) with c. rewrite Hst. cbv iota zeta.
  rewrite (io_lift_bind _ _ _ _ Ei), is_element_split, V4, V3. change (scalar_state StValue) with true. cbn [andb].
  rewrite negb_involutive. erewrite io_bind_ok by by apply json_name_shown.
  assert (Hval : shows o (write_json_scalar_to_impl (ii_value i)) j).
  { rewrite (scalar_same (v := ii_value i) (v' := scalar_value k f v)); [exact Hj| | | | | |].
    - exact V1.
    - unfold item_encoding at 1. by rewrite V2, He, scalar_encoding.
    - exact V6.
    - exact V8.
    - unfold item_type_size. rewrite V5, V1. pose proof (value_size c HI Hst) as Hz. by rewrite Hseen in Hz.
    - change (kind_size k <= len (value_item k v)). pose proof (len_nonneg (value_item k v)).
      unfold kind_size. destruct k as [n|n|n|]; cbn [is_fixed element_width]; try lia. by rewrite fixed_item. }
  apply leaf_runs in Hval. unfold leaf_value_text.
  destruct (_ =? 0).
  - erewrite io_bind_ok by (apply on_json_runs; by apply runs_value). rewrite <- app_assoc, !utf8_app, <- !app_assoc. done.
  - erewrite io_bind_ok by (apply on_json_runs; by apply runs_value). done.
Qed.

Lemma json_struct_begin c name n t a s d depth :
  shown c StStructBegin name FieldEncoding_Struct n t [] -> 0 <= depth <= 1000 ->
  json_item ed true depth (jst c d a s) =
    Ret (Ok (false, depth + 1), jst c (d ++ utf8 (name_text a s name t ++ lead false S ++ [123])) false S).
Proof using Hbytes.
  intros Hsh Hd. pose proof Hsh as [HI Hseen _ _ [Hn Hl] Ht].
  destruct (shown_item _ _ _ _ _ _ _ Hsh eq_refl) as (Hst & i & Ei & En & V1 & V2 & V3 & V4 & V5 & V6 & V7 & V8).
  unfold json_item. rewrite io_get_bind. change (j_context (jst c d a _)) with c. rewrite Hst. cbv iota zeta.
  rewrite (io_lift_bind _ _ _ _ Ei), is_element_split, V3. cbn [Z.eqb]. rewrite andb_false_r. cbn [andb negb].
  erewrite io_bind_ok by by apply json_name_shown. cbv iota.
  erewrite io_bind_ok by (apply on_json_runs; by apply runs_begin). unfold deeper.
  rewrite (io_lift_bind _ (depth + 1)) by (apply checked_signed_ok; lia).
  rewrite !utf8_app, <- !app_assoc. done.
Qed.
Lemma json_struct_end c name n t a d depth :
  shown c StStructEnd name FieldEncoding_Struct n t [] -> 0 <= depth <= 1001 ->
  json_item ed true depth (jst c d a S) = Ret (Ok (false, depth - 1), jst c (d ++ utf8 (gap S ++ [125])) true S).
Proof using Hbytes.
  intros Hsh Hd. destruct (shown_item _ _ _ _ _ _ _ Hsh eq_refl) as (Hst & _).
  unfold json_item. rewrite io_get_bind. change (j_context (jst c d a _)) with c. rewrite Hst. cbv iota zeta.
  erewrite io_bind_ok by (apply on_json_runs; by apply runs_end). unfold shallower.
  by rewrite (io_lift_bind _ (depth - 1)) by (apply checked_signed_ok; lia).
Qed.
Lemma json_array_begin c name e f t a s d depth :
  shown c StArrayBegin name e f t [] -> c.(element_size) = 0 -> 0 <= depth <= 1000 ->
  json_item ed true depth (jst c d a s) =
    Ret (Ok (false, depth + 1), jst c (d ++ utf8 (name_text a s name t ++ lead false S ++ [91])) false S).
Proof using Hbytes.
  intros Hsh Hz Hd. pose proof Hsh as [HI Hseen _ _ [Hn Hl] Ht].
  destruct (shown_item _ _ _ _ _ _ _ Hsh eq_refl) as (Hst & i & Ei & En & V1 & V2 & V3 & V4 & V5 & V6 & V7 & V8).
  unfold json_item. rewrite io_get_bind. change (j_context (jst c d a _)) with c. rewrite Hst. cbv iota zeta.
  rewrite (io_lift_bind _ _ _ _ Ei). erewrite io_bind_ok by by apply json_name_shown. cbv iota.
  rewrite V5, Hz. cbn [Z.eqb negb].
  erewrite io_bind_ok by (apply on_json_runs; by apply runs_begin). unfold deeper.
  rewrite (io_lift_bind _ (depth + 1)) by (apply checked_signed_ok; lia).
  rewrite !utf8_app, <- !app_assoc. done.
Qed.
Lemma json_array_end c name e f t a d depth :
  shown c StArrayEnd name e f t [] -> 0 <= depth <= 1001 ->
  json_item ed true depth (jst c d a S) = Ret (Ok (false, depth - 1), jst c (d ++ utf8 (gap S ++ [93])) true S).
Proof using Hbytes.
  intros Hsh Hd. destruct (shown_item _ _ _ _ _ _ _ Hsh eq_refl) as (Hst & _).
  unfold json_item. rewrite io_get_bind. change (j_context (jst c d a _)) with c. rewrite Hst. cbv iota zeta.
  erewrite io_bind_ok by (apply on_json_runs; by apply runs_end). unfold shallower.
  by rewrite (io_lift_bind _ (depth - 1)) by (apply checked_signed_ok; lia).
Qed.

(** ** The loop *)

(** After a move: the end, or the next iteration. *)
Definition cont (fuel : nat) (depth : Z) (r : outcome (bool * Ctx)) (d : bytes) (a s : bool)
    : outcome (result unit unit * JsonState bytes) :=
  '(moved, c) ← r;
  if negb moved || (depth <=? 0) then Ret (Ok tt, jst c d a s) else json_loop ed fuel true depth (jst c d a s).

Lemma loop_step fuel (wanted : bool) depth depth' (whole : bool) c d a s d' a' s' : (whole = false \/ wanted = true) ->
  json_item ed wanted depth (jst c d a s) = Ret (Ok (whole, depth'), jst c d' a' s') ->
  json_loop ed (Datatypes.S fuel) wanted depth (jst c d a s) =
    cont fuel depth' ((if whole then move_next_sibling_impl else move_next_impl) ed c) d' a' s'.
Proof.
  intros Hw E. cbn [json_loop]. erewrite io_bind_ok by exact E. cbv iota beta. unfold cont, on_context, mbind at 1, io_bind.
  change (j_context (jst c d' a' s')) with c.
  destruct ((if whole then move_next_sibling_impl else move_next_impl) ed c) as [[moved c1]|]; cbn [mbind outcome_bind]; [|done].
  change {| j_context := c1; j_json := j_json (jst c d' a' s') |} with (jst c1 d' a' s').
  destruct (negb moved || (depth' <=? 0)); [done|]. destruct whole, wanted; try done. by destruct Hw.
Qed.

(** A stretch of the loop, in at most [n] iterations and with [m] levels below the
    current one: it writes [cs] and turns the bits of the writer from [a] and [s] to [b]
    and the option. *)
Definition jruns (n m : Z) (r : outcome (bool * Ctx)) (a s : bool) (cs : list Z) (b : bool) (r' : outcome (bool * Ctx)) : Prop :=
  exists q : nat, Z.of_nat q <= n /\ forall fuel depth d, 0 < depth -> depth + m <= 1000 ->
    cont (q + fuel) depth r d a s = cont fuel depth r' (d ++ utf8 cs) b S.

Lemma jruns_refl r a m : jruns 0 m r a S [] a r.
Proof. exists 0%nat. split; [done|]. intros. cbn [Nat.add]. by rewrite app_nil_r. Qed.
Lemma jruns_trans n1 n2 m r a s cs b r' cs' b' r'' :
  jruns n1 m r a s cs b r' -> jruns n2 m r' b S cs' b' r'' -> jruns (n1 + n2) m r a s (cs ++ cs') b' r''.
Proof.
  intros (q1 & Hq1 & H1) (q2 & Hq2 & H2). exists (q1 + q2)%nat. split; [lia|]. intros fuel depth d Hd Hm.
  by rewrite <- Nat.add_assoc, H1, H2, utf8_app, app_assoc.
Qed.
Lemma jruns_weaken n n' m m' r a s cs cs' b r' :
  jruns n m r a s cs b r' -> n <= n' -> m <= m' -> cs = cs' -> jruns n' m' r a s cs' b r'.
Proof. intros (q & Hq & H1) Hn Hm <-. exists q. split; [lia|]. intros. apply H1; lia. Qed.
(** One item that stays at its depth. *)
Lemma jruns_item c (whole : bool) a s cs b m :
  (forall depth d, json_item ed true depth (jst c d a s) = Ret (Ok (whole, depth), jst c (d ++ utf8 cs) b S)) ->
  jruns 1 m (Ret (true, c)) a s cs b ((if whole then move_next_sibling_impl else move_next_impl) ed c).
Proof.
  intros E. exists 1%nat. split; [done|]. intros fuel depth d Hd _. unfold cont at 1. cbn [mbind outcome_bind negb orb].
  rewrite (proj2 (Z.leb_gt depth 0)) by lia. cbn [Nat.add]. apply loop_step; [by right|done].
Qed.
(** A begin and an end around a stretch one level deeper. *)
Lemma jruns_nested n m cb cx r a s cs b1 cs1 b2 cs2 :
  (forall depth d, 0 <= depth <= 1000 -> json_item ed true depth (jst cb d a s) = Ret (Ok (false, depth + 1), jst cb (d ++ utf8 cs) b1 S)) ->
  (forall depth d, 0 <= depth <= 1001 -> json_item ed true depth (jst cx d b2 S) = Ret (Ok (false, depth - 1), jst cx (d ++ utf8 cs2) true S)) ->
  0 <= m -> move_next_impl ed cx = r ->
  jruns n m (move_next_impl ed cb) b1 S cs1 b2 (Ret (true, cx)) ->
  jruns (n + 2) (m + 1) (Ret (true, cb)) a s (cs ++ cs1 ++ cs2) true r.
Proof.
  intros Eb Ex Hm <- (q & Hq & Hin). exists (1 + (q + 1))%nat. split; [lia|]. intros fuel depth d Hd Hdm.
  unfold cont at 1. cbn [mbind outcome_bind negb orb]. rewrite (proj2 (Z.leb_gt depth 0)) by lia. cbn [Nat.add].
  rewrite (loop_step _ _ _ _ _ _ _ _ _ _ _ _ (or_intror eq_refl) (Eb depth d ltac:(lia))). cbv iota. rewrite <- Nat.add_assoc, Hin by lia.
  unfold cont at 1. cbn [mbind outcome_bind negb orb]. rewrite (proj2 (Z.leb_gt (depth + 1) 0)) by lia. cbn [Nat.add].
  rewrite (loop_step _ _ _ _ _ _ _ _ _ _ _ _ (or_intror eq_refl) (Ex (depth + 1) _ ltac:(lia))). cbv iota. rewrite Z.add_simpl_r.
  by rewrite !utf8_app, <- !app_assoc.
Qed.

(** The elements of an array of strings. *)
Lemma elements_json name k f t vs js : kind_ok k = true -> Forall (value_ok k) vs -> Forall2 (value_shows o k f) vs js ->
  bytes_ok name -> len name < 2 ^ 64 -> 0 <= t -> forall cs r r' first m,
  runs ed r cs r' -> Forall (fun c => Inv ed c /\ c.(byte_reader) = host_reader) cs ->
  map (seen ed) cs = element_items name k f t vs ->
  jruns (len vs) m r (negb first) S (elements_text S first js) (match vs with [] => negb first | _ => true end) r'.
Proof using Hbytes.
  intros Hk Hvs Hjs Hn Hl Ht. destruct (kind_facts k Hk) as (_ & _ & K3 & K4 & _).
  assert (Hfl : (FieldEncoding_array_flags (Z.lor (kind_encoding k) FieldEncoding_VArrayFlag) =? 0) = false).
  { set (P := fun k => negb (FieldEncoding_array_flags (Z.lor (kind_encoding k) FieldEncoding_VArrayFlag) =? 0)).
    assert (E : P k = true) by (by apply kind_cases). by apply negb_true_iff in E. }
  induction Hjs as [|v j vs js Hj Hjs IH]; intros cs r r' first m R HI Hs; cbn [element_items map] in Hs.
  - destruct cs; [|done]. cbn in R. subst. apply jruns_refl.
  - destruct cs as [|c cs]; [done|]. cbn [map] in Hs. injection Hs as Hs1 Hs2 Hs3 Hs4 Hs.
    destruct R as [-> R]. apply Forall_cons_iff in HI as [[HI Hr] HIs]. cbn [elements_text].
    rewrite len_cons.
    assert (IH' : jruns (len vs) m (move_next_impl ed c) true S (elements_text S false js) true r').
    { pose proof (IH (List.Forall_inv_tail Hvs) cs _ r' false m R HIs Hs) as HX. by destruct vs. }
    assert (Hc : shown c StValue name (Z.lor (kind_encoding k) FieldEncoding_VArrayFlag) f t (value_item k v)).
    { constructor; try done; [|by apply kind_declared]. unfold seen. congruence. }
    eapply jruns_weaken; [eapply jruns_trans; [|exact IH']; apply (jruns_item c false); intros depth d;
      apply (json_value c name _ f t k v j _ _ _ _ Hc K4 Hk (List.Forall_inv Hvs) Hj)|reflexivity|reflexivity|].
    rewrite Hfl. unfold leaf_value_text. rewrite separator_lead, <- app_assoc. do 2 f_equal.
    destruct Hj as [Hj _]. by rewrite (leaf_text_eq S j Hj).
Qed.

(** ** Arrays of fixed-size values *)

Lemma scalar_writer n f v : kind_ok (KValue n) = true -> value_ok (KValue n) v -> forall d,
  write_json_scalar_to_impl (S := bytes) (scalar_value (KValue n) f v) d = value_writer n (scalar_value (KValue n) f v) 0 d.
Proof.
  intros Hk Hv d. pose proof (fixed_item n v Hv) as Hn. unfold write_json_scalar_to_impl.
  rewrite scalar_encoding by done.
  change (item_type_size (scalar_value (KValue n) f v)) with n.
  change (PerfItem.item_bytes (scalar_value (KValue n) f v)) with (value_item (KValue n) v). rewrite Hn, Z.leb_refl.
  apply existsb_exists in Hk as (m & Hm & E%Z.eqb_eq). subst m. cbn [In] in Hm.
  by destruct Hm as [<-|[<-|[<-|[<-|[<-|[]]]]]].
Qed.

Lemma range_json n f arr vs js : kind_ok (KValue n) = true -> Forall (value_ok (KValue n)) vs ->
  Forall2 (value_shows o (KValue n) f) vs js ->
  item_format arr = f -> md_byte_reader (item_metadata arr) = host_reader -> forall i pre first,
  item_bytes arr = pre ++ concat (map (value_item (KValue n)) vs) -> len pre = i * n ->
  JsonProps.runs o (for_range (length vs) i (fun i => write_value (value_writer n arr i))) (negb first) S
    (elements_text S first js) (match vs with [] => negb first | _ => true end) S.
Proof.
  intros Hk Hvs Hjs Hf Hr. induction Hjs as [|v j vs js Hj Hjs IH]; intros i pre first Hb Hp; [apply runs_ok|].
  apply Forall_cons_iff in Hvs as [Hv Hvs]. pose proof (fixed_item n v Hv) as Hn. cbn [map concat] in Hb.
  cbn [length for_range elements_text]. rewrite separator_lead, app_assoc. eapply runs_then.
  - apply runs_value. rewrite (writer_same n arr (scalar_value (KValue n) f v) i pre _ _ Hk Hb eq_refl Hp Hn Hr Hf).
    pose proof (leaf_runs _ _ Hj) as R. intros d. rewrite <- scalar_writer by done. rewrite R.
    destruct Hj as [Hj _]. by rewrite (leaf_text_eq S j Hj).
  - specialize (IH Hvs (i + 1) (pre ++ value_item (KValue n) v) false). rewrite <- app_assoc, len_app in IH.
    specialize (IH Hb ltac:(lia)). by destruct vs.
Qed.

Lemma fixed_total n vs : Forall (value_ok (KValue n)) vs -> len (concat (map (value_item (KValue n)) vs)) = len vs * n.
Proof.
  induction 1 as [|v vs Hv _ IH]; [done|]. cbn [map concat]. rewrite len_app, IH, len_cons, fixed_item by done. lia.
Qed.

Lemma json_simple_array c name n f t vs js a s d depth :
  shown c StArrayBegin name (Z.lor (kind_encoding (KValue n)) FieldEncoding_VArrayFlag) f t
    (concat (map (value_item (KValue n)) vs)) -> c.(element_size) = n ->
  kind_ok (KValue n) = true -> Forall (value_ok (KValue n)) vs -> Forall2 (value_shows o (KValue n) f) vs js ->
  json_item ed true depth (jst c d a s) =
    Ret (Ok (true, depth), jst c (d ++ utf8 (name_text a s name t ++ lead false S ++ json_text S (JArray js))) true S).
Proof using Hbytes.
  intros Hsh Hz Hk Hvs Hjs. pose proof Hsh as [HI Hseen _ _ [Hn Hl] Ht].
  destruct (shown_item _ _ _ _ _ _ _ Hsh eq_refl) as (Hst & i & Ei & En & V1 & V2 & V3 & V4 & V5 & V6 & V7 & V8).
  assert (Hn0 : 0 < n) by (apply existsb_exists in Hk as (m & Hm & ->%Z.eqb_eq); cbn in Hm; intuition lia).
  unfold json_item. rewrite io_get_bind. change (j_context (jst c d a _)) with c. rewrite Hst. cbv iota zeta.
  rewrite (io_lift_bind _ _ _ _ Ei). erewrite io_bind_ok by by apply json_name_shown. cbv iota.
  rewrite V5, Hz, (proj2 (Z.eqb_neq n 0)) by lia. cbn [negb].
  pose proof (range_json n f (ii_value i) vs js Hk Hvs Hjs V6 V8 0 [] true V1 eq_refl) as R. cbn [negb] in R.
  assert (HR : JsonProps.runs o (write_json_simple_array_to_impl (ii_value i)) false S
                 ((lead false S ++ [91]) ++ elements_text S true js ++ gap S ++ [93]) true S).
  { intros d'. unfold write_json_simple_array_to_impl, item_type_size, item_encoding.
    rewrite V5, Hz, (proj2 (Z.eqb_neq n 0)), V2, V1, fixed_total by done || lia. unfold fmt_assert.
    cbn [negb rassert mbind outcome_bind]. destruct (kind_facts _ Hk) as (_ & _ & _ & -> & _).
    generalize d'. eapply runs_then; [apply runs_begin; lia|]. eapply runs_then; [|apply runs_end; lia].
    clear - R Hk. apply existsb_exists in Hk as (m & Hm & E%Z.eqb_eq). subst m. cbn [In] in Hm.
    destruct Hm as [<-|[<-|[<-|[<-|[<-|[]]]]]]; cbn [kind_encoding Z.eqb Pos.eqb by_value existsb orb];
      rewrite Z.div_mul by lia; unfold len; rewrite Nat2Z.id; exact R. }
  erewrite io_bind_ok by (apply on_json_runs; exact HR).
  by rewrite <- (app_assoc d), <- utf8_app, <- !app_assoc.
Qed.

(** ** Fields *)

(** The name of a member, what is due before it, and what is due before the value. *)
Lemma member_shown a s name t j :
  lead a s ++ member_text S (member_name o name t, j) = name_text a s name t ++ lead false S ++ json_text S j.
Proof. unfold member_text, name_text. cbn [fst snd]. rewrite <- !app_assoc. cbn [app]. by rewrite <- app_assoc. Qed.

Lemma runs_kept cs : forall c r', runs ed (move_next_impl ed c) cs r' ->
  Inv ed c -> c.(byte_reader) = host_reader -> Forall (fun c => Inv ed c /\ c.(byte_reader) = host_reader) cs.
Proof using Hbytes Hlen.
  induction cs as [|c1 cs IH]; intros c r' R HI Hr; [constructor|]. destruct R as [E R].
  pose proof (move_next_kept ed Hbytes Hlen c HI) as W. rewrite E in W. destruct W as [HI1 HE]. cbn [snd] in HI1, HE.
  destruct (event_part_facts _ _ HE) as (Er & _). assert (Hr1 : byte_reader c1 = host_reader) by congruence.
  constructor; [by split|]. by eapply IH.
Qed.

Definition field_json (f : Field) : Prop :=
  field_ok f -> forall m, field_shows o f m -> forall c a s, at_field ed (field_meta f) (field_data f) c ->
  c.(stack_top).(remaining_field_count) <> 0 -> c.(stack_index) + depth f <= 8 ->
  len (field_items f) <= c.(move_next_remaining) ->
  exists c' n, n <= len (field_items f) /\
    jruns n (depth f + 1) (next_property ed c) a s (lead a s ++ member_text S m) true (next_property ed c') /\
    after ed (len (field_meta f)) (len (field_data f)) n 1 c c'.

Lemma name_short name e f t rest data c : at_field ed (declaration name e f t ++ rest) data c -> len name < 2 ^ 64.
Proof.
  intros (HB & _ & _ & _ & Hme). pose proof (base_bounds _ _ HB). pose proof (base_next_offset _ _ HB).
  rewrite len_app, len_declaration in Hme. pose proof (len_nonneg rest). pose proof (len_nonneg (type_bytes e f t)). lia.
Qed.

Lemma next_kept_reader c b c1 : Base ed c -> c.(byte_reader) = host_reader -> next_property ed c = Ret (b, c1) ->
  Inv ed c1 /\ c1.(byte_reader) = host_reader.
Proof using Hbytes Hlen.
  intros HB Hr E. pose proof (next_property_ok ed Hbytes Hlen c HB) as W. rewrite E in W.
  destruct W as (HI & HE & _). cbn [snd] in HI, HE. destruct (event_part_facts _ _ HE) as (Er & _). split; [done|congruence].
Qed.
Lemma shown_seen c st name e f t v : Inv ed c -> c.(byte_reader) = host_reader ->
  seen ed c = {| it_state := st; it_name := name; it_type := field_type_of e f t; it_value := v |} ->
  well_declared (field_type_of e f t) -> bytes_ok name -> len name < 2 ^ 64 -> in_width 16 t -> shown c st name e f t v.
Proof. intros HI Hr Hs Hw Hn Hl [Ht _]. constructor; done. Qed.

Lemma scalar_json name k v f t : field_json (FScalar name k v f t).
Proof using Hbytes Hlen.
  intros HF m Hm c a s Hat Hrem _ Hmv. inversion Hm as [? ? ? ? ? j Hj| |]; subst.
  inversion HF as [? ? ? ? ? (Hn & Hnb & Hf & Ht) Hk Hv| |]; subst.
  destruct (scalar_runs ed Hbytes Hlen name k v f t c HF Hat Hrem) as (cs & c' & R & Hs & A); [exact Hmv|].
  destruct cs as [|cb [|? ?]]; try done. destruct R as [En E]. cbn [map field_items] in Hs. injection Hs as Hs.
  destruct (next_kept_reader c _ cb (proj1 Hat) ltac:(apply Hat) En) as [HI Hr].
  assert (Hl : len name < 2 ^ 64).
  { apply (name_short name (kind_encoding k) f t [] (value_bytes k v) c). by rewrite app_nil_r. }
  assert (Hsh : shown cb StValue name (kind_encoding k) f t (value_item k v)).
  { apply shown_seen; try done; [unfold seen; congruence|by apply kind_declared]. }
  assert (Ha : (FieldEncoding_array_flags (kind_encoding k) =? 0) = true).
  { by apply (kind_cases (fun k => FieldEncoding_array_flags (kind_encoding k) =? 0)). }
  destruct (kind_facts k Hk) as (_ & K2 & _).
  exists c', 1. split; [done|]. split; [|exact A]. rewrite En. cbn [runs] in E. rewrite <- E.
  apply (jruns_item cb false). intros depth d. rewrite (json_value cb name _ f t k v j _ _ _ _ Hsh K2 Hk Hv Hj), Ha.
  rewrite member_shown. unfold leaf_value_text. rewrite <- app_assoc. destruct Hj as [Hj _]. by rewrite (leaf_text_eq S j Hj).
Qed.

Lemma array_json name k vs f t : field_json (FArray name k vs f t).
Proof using Hbytes Hlen.
  intros HF m Hm c a s Hat Hrem _ Hmv. inversion Hm as [|? ? ? ? ? js Hjs|]; subst.
  inversion HF as [|? ? ? ? ? (Hn & Hnb & Hf & Ht) Hk Hvs Hlv|]; subst. pose proof (len_nonneg vs) as Hvl.
  assert (Hit : len (field_items (FArray name k vs f t)) = len vs + 2).
  { cbn [field_items]. autorewrite with tp_simpl. unfold len at 1. rewrite length_map. fold (len vs). lia. }
  rewrite Hit in *.
  destruct (array_steps ed Hbytes Hlen name k vs f t c HF Hat Hrem Hmv) as (En & HI & Sb & cs & ce & c' & R & Hs & HIe & Se & Ee & A).
  set (cb := begin_ctx name k (len vs) f t c) in *.
  destruct (next_kept_reader c _ cb (proj1 Hat) ltac:(apply Hat) En) as [_ Hr].
  assert (Hl : len name < 2 ^ 64).
  { apply (name_short name (Z.lor (kind_encoding k) FieldEncoding_VArrayFlag) f t [] (field_data (FArray name k vs f t)) c).
    by rewrite app_nil_r. }
  pose proof (kind_declared k f t Hk) as [_ Hd].
  assert (Hb := shown_seen cb _ name _ f t _ HI Hr Sb Hd Hnb Hl Ht).
  destruct (is_fixed k) eqn:Ef.
  - destruct k as [n|?|?|]; try done.
    destruct (array_skipped ed Hbytes Hlen name (KValue n) vs f t c eq_refl HF Hat Hrem ltac:(lia)) as (c2 & E2 & A2).
    exists c2, 1. split; [lia|]. split; [|exact A2]. rewrite En, <- E2. apply (jruns_item cb true). intros depth d.
    rewrite member_shown. by apply (json_simple_array cb name n f t vs js).
  - assert (Hez : element_size cb = 0) by (change (element_size cb) with (kind_size k); unfold kind_size; by rewrite Ef).
    assert (HK : Forall (fun c => Inv ed c /\ c.(byte_reader) = host_reader) (cs ++ [ce])).
    { eapply (runs_kept _ cb (move_next_impl ed ce)); [|done|done]. eapply runs_trans; [exact R|by split]. }
    apply Forall_app in HK as [HK HKe]. apply Forall_inv in HKe as [_ Hre].
    assert (He := shown_seen ce _ name _ f t _ HIe Hre Se Hd Hnb Hl Ht).
    exists c', (len vs + 2). split; [done|]. split; [|exact A]. rewrite En. eapply jruns_weaken.
    + eapply (jruns_nested (len vs) 0 cb ce (next_property ed c')); [| |done|exact Ee|].
      * intros depth d Hdep. by eapply json_array_begin.
      * intros depth d Hdep. by eapply json_array_end.
      * apply (elements_json name k f t vs js Hk Hvs Hjs Hnb Hl ltac:(apply Ht) cs _ _ true 0 R HK Hs).
    + done.
    + done.
    + by rewrite member_shown, array_text, <- !app_assoc.
Qed.

Lemma fields_json fs : Forall field_json fs -> Forall field_ok fs -> forall ms, Forall2 (field_shows o) fs ms ->
  forall c first, at_field ed (concat (map field_meta fs)) (concat (map field_data fs)) c ->
  len fs <= c.(stack_top).(remaining_field_count) -> c.(stack_index) + max_depth fs <= 8 ->
  len (concat (map field_items fs)) <= c.(move_next_remaining) ->
  exists c' n, n <= len (concat (map field_items fs)) /\
    jruns n (max_depth fs + 1) (next_property ed c) (negb first) S (members_text S first ms)
      (match fs with [] => negb first | _ => true end) (next_property ed c') /\
    after ed (len (concat (map field_meta fs))) (len (concat (map field_data fs))) n (len fs) c c'.
Proof using Hbytes Hlen.
  induction 1 as [|f fs Hf Hfs IH]; intros Hok ms Hms c first Hat Hrem Hdep Hm; inversion Hms as [|? m ? ms' Hm1 Hms1]; subst.
  - exists c, 0. split; [done|]. split; [apply jruns_refl|]. destruct Hat as (HB & _).
    unfold after, len. cbn [map concat length Z.of_nat]. split_and!; done || lia.
  - cbn [map concat] in *. destruct (at_field_split ed _ _ _ _ _ Hat) as [Hat1 Hat2].
    rewrite len_app in *. rewrite len_cons in *. pose proof (len_nonneg fs). pose proof (len_nonneg (field_items f)).
    pose proof (len_nonneg (concat (map field_items fs))). unfold max_depth in Hdep |- *. cbn [map fold_right] in Hdep |- *.
    fold (max_depth fs) in *. pose proof (max_depth_nonneg fs).
    destruct (Hf (List.Forall_inv Hok) m Hm1 c (negb first) S Hat1) as (c1 & n1 & L1 & R1 & A1); [lia|lia|lia|].
    pose proof A1 as (_ & _ & _ & _ & B5 & B6 & _ & B8).
    destruct (IH (List.Forall_inv_tail Hok) ms' Hms1 c1 false (Hat2 _ _ _ A1)) as (c2 & n2 & L2 & R2 & A2); [lia|lia|lia|].
    exists c2, (n1 + n2). split; [lia|]. split.
    + rewrite members_cons, separator_lead, app_assoc. eapply jruns_trans; [eapply jruns_weaken; [exact R1|done|lia|done]|].
      eapply jruns_weaken; [destruct fs; exact R2|done|lia|done].
    + rewrite ?len_app. by eapply after_trans.
Qed.

Lemma struct_json name fs t : Forall field_json fs -> field_json (FStruct name fs t).
Proof using Hbytes Hlen.
  intros Hfs HF m Hm c a s Hat Hrem Hdep Hmv. inversion Hm as [| |? ? ? ms Hms]; subst.
  cbn [depth] in *. fold (max_depth fs) in *. pose proof (max_depth_nonneg fs) as Hd0.
  pose proof (len_nonneg (concat (map field_items fs))) as Hil.
  assert (Hit : len (field_items (FStruct name fs t)) = len (concat (map field_items fs)) + 2).
  { cbn [field_items]. rewrite len_cons, len_app. change (len [_]) with 1. lia. }
  rewrite Hit in *.
  destruct (struct_steps ed Hbytes Hlen name fs t c HF Hat Hrem) as (En & HI & Sb & Eb & Hate & Hfc & Hsi & Hmr & Hend); [lia|lia|].
  inversion HF as [| |? ? ? (Hn & Hnb & Hf & Ht) Hl Hok]; subst.
  set (cb := struct_ctx name (len fs) t c) in *.
  destruct (next_kept_reader c _ cb (proj1 Hat) ltac:(apply Hat) En) as [_ Hr].
  assert (Hls : len name < 2 ^ 64) by (eapply name_short, Hat).
  assert (Hd : well_declared (field_type_of FieldEncoding_Struct (len fs) t)) by (split; [done|cbn; lia]).
  assert (Hb := shown_seen cb _ name _ _ t _ HI Hr Sb Hd Hnb Hls Ht).
  destruct (fields_json fs Hfs Hok ms Hms _ true Hate) as (ce & n & Ln & R & A); [lia|lia|lia|].
  destruct (Hend n ce A) as (cx & c' & Ee & HIx & Sx & Ex & Ax).
  { destruct A as (_ & _ & _ & _ & _ & _ & _ & ->). lia. }
  pose proof A as (HBe & HEe & _). rewrite enter_event in HEe. destruct (event_part_facts _ _ HEe) as (Ere & _).
  assert (Hre : byte_reader ce = host_reader) by congruence.
  destruct (next_kept_reader ce _ cx HBe Hre Ee) as [_ Hrx].
  assert (He := shown_seen cx _ name _ _ t _ HIx Hrx Sx Hd Hnb Hls Ht).
  exists c', (n + 2). split; [lia|]. split; [|exact Ax]. rewrite En. eapply jruns_weaken.
  - eapply (jruns_nested n (max_depth fs + 1) cb cx (next_property ed c')); [| |lia|exact Ex|].
    + intros depth d Hdd. by eapply json_struct_begin.
    + intros depth d Hdd. by eapply json_struct_end.
    + rewrite Eb, <- Ee. exact R.
  - done.
  - lia.
  - by rewrite member_shown, object_text, <- !app_assoc.
Qed.

Lemma all_fields_json fs : Forall field_json fs.
Proof using Hbytes Hlen.
  apply Forall_forall. intros f _.
  induction f as [name k v f t|name k vs f t|name fs' t IH] using Field_tree_ind;
    [apply scalar_json|apply array_json|by apply struct_json].
Qed.
End Items.
