(* ===== verification/EventJsonRound.v ===== *)
(** * EventJsonRound: the JSON of a written event reads back as the tree of its fields

    The whole run of the writer over an event that the builder made: the text, that it
    is well formed, and the values of the common formats. *)

From S2P Require Import Prelude Strings Types ByteReader PerfItem Text Provider Writers Floats FloatsProps ItemText.
From S2P Require Import TextSpec TextProps WritersProps JsonTree JsonProps LeafJson PerfIo EventJson.
From S2P Require Import Enumerator EnumeratorInv EnumeratorSpec EnumeratorWalk EnumeratorProps.
From S2P Require Import EventBytes Tracepoint TracepointProps ProviderProps Builder BuilderProps.
From S2P Require Import FieldTree FieldWalk FieldVisit FieldProps EventJsonProps.

(** ** The trees of the fields *)

Section Trees.
Context `{Target} `{Calendar} (o : Z) (Hmonth : forall t tm, gmtime_r t = Some tm -> 0 <= tm.(tm_mon) <= 11).

Lemma value_small k v b : kind_ok k = true -> value_ok k v -> len (value_bytes k v) <= b -> len (value_item k v) <= b.
Proof.
  intros Hk Hv Hb. destruct (value_bytes_bounds k v Hk Hv) as (_ & _ & H3).
  assert (0 <= value_offset k) by (destruct k; cbn [value_offset]; lia). lia.
Qed.
Lemma concat_small {A} (g : A -> bytes) l b : len (concat (map g l)) <= b -> Forall (fun a => len (g a) <= b) l.
Proof.
  induction l as [|a l IH]; intros Hb; [constructor|]. cbn [map concat] in Hb. rewrite len_app in Hb.
  pose proof (len_nonneg (g a)). pose proof (len_nonneg (concat (map g l))). constructor; [lia|]. apply IH. lia.
Qed.
Lemma Forall_shown {A B} (R : A -> B -> Prop) l : Forall (fun a => exists b, R a b) l -> exists m, Forall2 R l m.
Proof.
  induction 1 as [|a l [b Hb] _ [m Hm]]; [by exists []|]. exists (b :: m). by constructor.
Qed.

(** Each field has a tree. *)
Lemma field_shown f : field_ok f -> field_safe f -> len (field_data f) < 2 ^ 64 -> exists m, field_shows o f m.
Proof using Hmonth.
  induction f as [name k v f t|name k vs f t|name fs t IH] using Field_tree_ind; intros HF Hs Hl; inversion HF; subst.
  - cbn [field_data] in Hl. destruct (value_leaf o Hmonth k f v) as [j Hj]; try done; [|by eexists; constructor].
    pose proof (value_small k v _ ltac:(done) ltac:(done) (Z.le_refl _)). lia.
  - apply array_safe in Hs. cbn [field_data] in Hl. rewrite len_app in Hl. pose proof (len_nonneg (to_ne_bytes 2 (len vs))).
    assert (Hsm : len (concat (map (value_bytes k) vs)) <= 2 ^ 64 - 1) by lia. apply concat_small in Hsm.
    destruct (Forall_shown (value_shows o k f) vs) as [js Hjs]; [|by eexists; constructor].
    match goal with HX : Forall (value_ok k) vs |- _ => rename HX into Hvs end.
    rewrite List.Forall_forall in Hs, Hsm, Hvs |- *. intros v Hin. apply (value_leaf o Hmonth); auto.
    pose proof (value_small k v (2 ^ 64 - 1) ltac:(done) (Hvs v Hin) (Hsm v Hin)). lia.
  - apply struct_safe in Hs. cbn [field_data] in Hl.
    assert (Hsm : len (concat (map field_data fs)) <= 2 ^ 64 - 1) by lia. apply concat_small in Hsm.
    destruct (Forall_shown (field_shows o) fs) as [ms Hms]; [|by eexists; constructor].
    match goal with HX : Forall field_ok fs |- _ => rename HX into Hfs end.
    rewrite List.Forall_forall in IH, Hs, Hsm, Hfs |- *. intros f Hin. apply IH; auto. specialize (Hsm f Hin). cbv beta in Hsm. lia.
Qed.

Lemma value_wf k f v j : value_shows o k f v j -> json_wf j.
Proof. intros [Hj _]. by apply json_ok_wf, leaf_json_ok. Qed.
Lemma field_wf f m : field_ok f -> field_shows o f m -> scalars (fst m) /\ json_wf (snd m).
Proof.
  revert m. induction f as [name k v f t|name k vs f t|name fs t IH] using Field_tree_ind; intros m HF Hm;
    inversion HF as [? ? ? ? ? (_ & Hn & _ & [Ht _])|? ? ? ? ? (_ & Hn & _ & [Ht _])|? ? ? (_ & Hn & _ & [Ht _]) _ Hfs]; subst;
    inversion Hm as [? ? ? ? ? j Hj|? ? ? ? ? js Hjs|? ? ? ms Hms]; subst; (split; [by apply member_scalars|]); cbn [snd].
  - by eapply value_wf.
  - apply json_wf_array. clear - Hjs. induction Hjs; constructor; [by eapply value_wf|done].
  - apply json_wf_object. clear - IH Hfs Hms.
    induction Hms as [|f m fs ms Hf Hms IHms]; [constructor|]. apply Forall_cons_iff in IH as [IHf IH].
    apply Forall_cons_iff in Hfs as [Hf' Hfs]. constructor; [by apply IHf|by apply IHms].
Qed.
End Trees.

(** ** The values of the common formats *)

Section Values.
Context `{Target} `{Calendar} (o : Z).








End Values.

(** ** The text of an event *)

Section Event.
Context `{Target} `{Calendar} (o : Z).
Abbreviation S := (options_has_flag o Space).

(** The separator that a value after another one needs. *)
Definition event_lead (add_comma : bool) (ms : list (list Z * json)) : list Z :=
  match ms with [] => [] | _ => if add_comma then 44 :: gap S else [] end.

Lemma written_json b level kw aid rid name fs limit c ms add_comma d :
  built b name (all_meta fs) -> b.(b_data) = all_data fs -> Forall field_ok fs -> Forall2 (field_shows o) fs ms ->
  in_width 8 level -> id_ok aid -> id_ok rid ->
  len fs <= 255 -> max_depth fs <= 8 -> len (all_items fs) < limit ->
  written_context b name level kw limit aid rid c ->
  exists e, write_json_item_and_move_next_sibling (event_payload b level aid rid) add_comma o (c, d) =
      Ret (Ok (add_comma || negb (len fs =? 0)), (e, d ++ utf8 (event_lead add_comma ms ++ members_body S ms))) /\
    e.(state) = StAfterLastItem.
Proof.
  intros Hb Hbd Hfs Hms Hlv Ha Hr Hn Hdep Hlim W. pose proof (len_nonneg (all_items fs)) as Hil.
  destruct (written_start b level kw aid rid name fs limit c Hb Hbd Hlv Ha Hr ltac:(lia) W)
    as (Hok & Hlen & HI & Hst & Hmv & c1 & Em & Hat & Hfc & Hsi & Hmr & Hend).
  set (ed := event_payload b level aid rid) in *. set (s0 := add_comma && S).
  assert (HR : exists q c', Z.of_nat q <= limit /\ next_property ed c' = Ret (false, set_end_state StAfterLastItem SsAfterLastItem c') /\
    forall fuel, exists s1, cont ed o (q + fuel) 1 (next_property ed c1) d add_comma s0 =
      cont ed o fuel 1 (next_property ed c') (d ++ utf8 (event_lead add_comma ms ++ members_body S ms))
        (add_comma || negb (len fs =? 0)) s1).
  { destruct Hms as [|f m fs ms Hm Hms].
    - exists 0%nat, c1. split; [lia|]. split; [|intros fuel; exists s0; cbn [Nat.add event_lead members_body app];
        by rewrite app_nil_r, orb_false_r].
      apply (Hend 0). destruct Hat as (HB & _). unfold after, len. cbn. split_and!; done || lia.
    - apply Forall_cons_iff in Hfs as [Hf Hfs]. unfold all_items, all_meta, all_data, max_depth in *. cbn [map concat fold_right] in *.
      fold (max_depth fs) in *. rewrite len_cons in *. rewrite !len_app in *.
      pose proof (len_nonneg fs). pose proof (max_depth_nonneg fs). destruct (at_field_split ed _ _ _ _ _ Hat) as [Hat1 Hat2].
      pose proof (len_nonneg (field_items f)). pose proof (len_nonneg (concat (map field_items fs))).
      destruct (List.Forall_inv (all_fields_json ed Hok Hlen o [f]) Hf m Hm c1 add_comma s0 Hat1)
        as (c2 & n1 & L1 & (q1 & Hq1 & R1) & A1); [lia|lia|lia|].
      pose proof A1 as (_ & _ & _ & _ & B5 & B6 & _ & B8).
      destruct (fields_json ed Hok Hlen o fs (all_fields_json ed Hok Hlen o fs) Hfs ms Hms c2 false (Hat2 _ _ _ A1))
        as (c3 & n2 & L2 & (q2 & Hq2 & R2) & A2); [lia|lia|lia|].
      exists (q1 + q2)%nat, c3. split; [lia|]. split; [apply (Hend (n1 + n2)); by eapply after_trans|].
      intros fuel. exists S. rewrite <- Nat.add_assoc, R1, R2 by lia. rewrite (proj2 (Z.eqb_neq (1 + len fs) 0)), orb_true_r by lia.
      cbn [members_body negb]. f_equal; [|by destruct fs].
      rewrite <- app_assoc, <- utf8_app. do 2 f_equal. rewrite !app_assoc. do 2 f_equal.
      unfold lead, event_lead, s0, gap. by destruct add_comma, S. }
  destruct HR as (q & c' & Hq & Ee & HR). destruct (HR (Z.to_nat limit - q)%nat) as [s1 E].
  eexists. split; [|shelve]. unfold write_json_item_and_move_next_sibling, write_json_item_and_move_next_sibling_impl.
  rewrite Hst. change (can_move_next StBeforeFirstItem) with true. cbn [rassert mbind outcome_bind].
  change {| j_context := c; j_json := JsonWriter_new d o add_comma |} with (jst o c d add_comma s0).
  rewrite Hmv, (loop_step ed o (Z.to_nat limit) (options_has_flag o RootName) 0 1 false c d add_comma s0 d add_comma s0).
  - rewrite Em. replace (Z.to_nat limit) with (q + (Z.to_nat limit - q))%nat by lia. rewrite E, Ee. unfold cont.
    cbn [mbind outcome_bind negb orb]. reflexivity.
  - by left.
  - unfold json_item. rewrite io_get_bind. change (j_context (jst o c d add_comma s0)) with c. by rewrite Hst.
  Unshelve. done.
Qed.
End Event.

(** C4. The JSON of an event that the builder wrote is well formed, for any tree of
    fields (within the sizes of an event, structs nested at most 8 deep) in which no
    text is UTF-32 and no 16- or 32-bit character is a backslash ([field_safe]; those
    two the code does not escape): between braces it reads back as the object whose members are the
    fields in order - the name (with the tag, when the option asks for it), a scalar
    as the value that its writer shows, an array as the array of its elements, a
    struct as the object of its fields - whatever the [Space] and [RootName] options
    say.  The text starts with exactly the separator that a value after another one
    needs, the result tells whether a comma is now due, and the enumerator is left
    after the last item. *)
Theorem event_json_round_trip `{Target} `{UserEventsOk} `{Calendar} file st name tag fs b0 level kw aid rid pname attrs limit
    o add_comma d
    (Hmonth : forall t tm, gmtime_r t = Some tm -> 0 <= tm.(tm_mon) <= 11)
    (Hname : no_nul name /\ bytes_ok name) (Htag : in_width 16 tag) (Hfields : Forall field_ok fs)
    (Hsafe : Forall field_safe fs)
    (Hsize : len name + 1 + len (all_meta fs) + len (all_data fs) <= 65535 - (52 + 16))
    (Hcount : len fs <= 255) (Hdepth : max_depth fs <= 8) (Hmoves : len (all_items fs) < limit < 2 ^ 32)
    (Hlevel : in_width 8 level) (Hkeyword : in_width 64 kw)
    (Haid : id_ok aid) (Hrid : id_ok rid) (Hids : aid = None -> rid = None)
    (Henabled : st.(enable_status) <> 0) (Hindex : 0 <= st.(write_index) <= HIGHEST_VALID_WRITE_INDEX)
    (Hattrs : attributes_ok attrs) (Htn : bytes_ok (tracepoint_name pname (attributes attrs) level kw))
    (Hshort : len (tracepoint_name pname (attributes attrs) level kw) < EVENT_HEADER_TRACEPOINT_NAME_MAX) :
  exists b code iov ed c e ms text,
    (b ← EventBuilder_reset name tag b0; add_fields fs b) = Ret b /\
    EventBuilder_write file level st aid rid b = Ret (code, Some iov) /\
    concat iov = to_ne_bytes 4 st.(write_index) ++ ed /\
    enumerate_with_name_and_data (tracepoint_name pname (attributes attrs) level kw) ed limit
      EventHeaderEnumeratorContext_new = Ret (Ok tt, c) /\
    Forall2 (field_shows o) fs ms /\
    write_json_item_and_move_next_sibling ed add_comma o (c, d) =
      Ret (Ok (add_comma || negb (len fs =? 0)), (e, d ++ utf8 (event_lead o add_comma ms ++ text))) /\
    parse_json (123 :: text ++ [125]) = Some (JObject ms) /\ e.(state) = StAfterLastItem.
Proof.
  destruct Hname as [Hn Hnb]. destruct (fields_built name tag fs b0 Hn Hnb Htag Hfields Hsize) as (b & Eb & Hb & Hd).
  destruct (written_payload file level st aid rid b name (all_meta fs)) as (code & iov & Ew & Ei & _); try done.
  assert (Hlim : 0 <= limit < 2 ^ 32) by (pose proof (len_nonneg (all_items fs)); lia).
  destruct (enumerate_written b level kw aid rid name (all_meta fs) pname attrs limit EventHeaderEnumeratorContext_new)
    as (c & Ec & W); try done.
  assert (Hms : exists ms, Forall2 (field_shows o) fs ms).
  { apply Forall_shown. assert (Hsm : len (concat (map field_data fs)) <= 2 ^ 64 - 1).
    { pose proof (len_nonneg name). pose proof (len_nonneg (all_meta fs)). unfold all_data in Hsize. lia. }
    apply concat_small in Hsm. rewrite List.Forall_forall in Hfields, Hsafe, Hsm |- *. intros f Hin.
    apply (field_shown o Hmonth); auto. specialize (Hsm f Hin). cbv beta in Hsm. lia. }
  destruct Hms as [ms Hms].
  destruct (written_json o b level kw aid rid name fs limit c ms add_comma d) as (e & E & Es); try done; [lia|].
  exists b, code, iov, (event_payload b level aid rid), c, e, ms, (members_body (options_has_flag o Space) ms).
  split_and!; try done. apply parse_members, json_wf_object. clear - Hms Hfields.
  induction Hms as [|f m fs ms Hf Hms IH]; [constructor|]. apply Forall_cons_iff in Hfields as [Hf' Hfs].
  constructor; [by eapply field_wf|by apply IH].
Qed.

(** A calendar for the examples: no date is printed. *)
#[local] Instance no_calendar : Calendar := fun _ => None.

Lemma event_json_round_trip_witness :
  exists b code iov ed c e ms text,
    (b ← @EventBuilder_reset little_endian_target [101] 3 (@EventBuilder_new little_endian_target);
     @add_fields little_endian_target example_fields b) = Ret b /\
    @EventBuilder_write little_endian_target example_kernel 5 5 example_state None None b = Ret (code, Some iov) /\
    concat iov = @to_ne_bytes little_endian_target 4 9 ++ ed /\
    enumerate_with_name_and_data (tracepoint_name [80] (attributes example_attributes) 5 0x1F) ed 100
      EventHeaderEnumeratorContext_new = Ret (Ok tt, c) /\
    Forall2 (@field_shows little_endian_target (Z.lor Space FieldTag) no_calendar) example_fields ms /\
    @write_json_item_and_move_next_sibling little_endian_target _ _ _ ed true (Z.lor Space FieldTag) (c, [49]) =
      Ret (Ok true, (e, [49] ++ utf8 (event_lead (Z.lor Space FieldTag) true ms ++ text))) /\
    parse_json (123 :: text ++ [125]) = Some (JObject ms) /\ e.(state) = StAfterLastItem.
Proof.
  apply (@event_json_round_trip little_endian_target example_kernel example_kernel_ok no_calendar 5 example_state [101] 3
           example_fields _ 5 0x1F None None [80] example_attributes 100 (Z.lor Space FieldTag) true [49]).
  - discriminate.
  - split; [repeat constructor|apply bytes_ok_decide; reflexivity].
  - vm_compute; by split.
  - apply (forallb_Forall field_okb); [exact field_ok_decide|reflexivity].
  - repeat constructor; vm_compute; intuition discriminate.
  - vm_compute. discriminate.
  - vm_compute. discriminate.
  - vm_compute. discriminate.
  - vm_compute. by split.
  - vm_compute; by split.
  - vm_compute; by split.
  - exact I.
  - exact I.
  - reflexivity.
  - discriminate.
  - vm_compute. split; discriminate.
  - repeat constructor.
  - apply bytes_ok_decide. reflexivity.
  - vm_compute. reflexivity.
Defined.


#[local] Existing Instance little_endian_target.

(** The text of the example event, with quotes in the place of apostrophes. *)
Definition quoted (s : String.string) : bytes := map (fun c => if c =? 39 then 34 else c) (str_bytes s).
Example example_text :
  match write_json_item_and_move_next_sibling example_data true Space (example_start, []) with
  | Ret (Ok true, (_, text)) => text = quoted ", 'a': 5, 'b': [ 1, 2 ], 's': { 'c': 'AB', 'd': 1799 }"%string
  | _ => False
  end.
Proof. by vm_compute. Qed.
