(* ===== verification/MacroTokens.v ===== *)
(** * MacroTokens: the tokens that the macros read and write
      (eventheader_macros/src/tree.rs, strings.rs, enums.rs, ident_builder.rs, errors.rs)

    The macros [define_provider!], [write_event!] and [provider_enabled!] turn one
    stream of tokens into another.  A token here is one of [proc_macro] without its
    span: spans only say where the compiler shows an error.  A [Tree] is the list of
    the tokens that were added, or a panic: [Ident::new], which makes the identifiers
    that are added, panics on a text that is not an identifier, and a panic ends the
    macro.  A scratch tree is empty whenever a chain of calls on it begins, so that such
    a chain starts at [Tree_new]. *)

From S2P Require Import Prelude Strings Types Text Writers.

#[local] Set Warnings "-register-all".

(** ** Tokens *)

Inductive Delimiter := Parenthesis | Brace | Bracket | NoDelimiter.
Inductive Spacing := Joint | Alone.
(** A literal is its text. *)
Inductive TokenTree :=
  | Ident (name : bytes)
  | Punct (c : Z) (s : Spacing)
  | Literal (text : bytes)
  | Group (d : Delimiter) (stream : list TokenTree).
Abbreviation TokenStream := (list TokenTree).

(** The constructors of [proc_macro::Literal] that are used: [u8_unsuffixed] and the
    other unsuffixed ones, [u32_suffixed], [u64_suffixed], and [string], which escapes
    quotation marks and backslashes (the strings of the macros are printable ASCII). *)
Definition Literal_unsuffixed (n : Z) : TokenTree := Literal (fmt_decimal n).
Definition Literal_u32_suffixed (n : Z) : TokenTree := Literal (fmt_decimal n ++ str_bytes "u32").
Definition Literal_u64_suffixed (n : Z) : TokenTree := Literal (fmt_decimal n ++ str_bytes "u64").
Definition escape_string (s : bytes) : bytes := flat_map (fun c => if (c =? 34) || (c =? 92) then [92; c] else [c]) s.
Definition Literal_string (s : bytes) : TokenTree := Literal (34 :: escape_string s ++ [34]).

Definition words (l : list String.string) : list bytes := map str_bytes l.

(** [tree.f(..)] *)
Declare Scope tree_scope.
Delimit Scope tree_scope with tree.
Notation "t ▷ f" := (f t) (at level 62, left associativity, only parsing).

(** ** New identifiers and punctuation

    [Ident::new] panics on a text that is not an identifier (a raw identifier [r#x] is
    not one) and [Punct::new] on a character that is not punctuation.  The tables of
    Unicode say which characters after ASCII start and continue an identifier. *)

Class UnicodeIdent := {
  xid_start : Z -> bool;
  xid_continue : Z -> bool;
  (** [XID_Start] is a part of [XID_Continue] (UAX 31). *)
  xid_start_continues : forall c, xid_start c = true -> xid_continue c = true;
}.
(** Identifiers of ASCII only, used by concrete examples. *)
Definition ascii_identifiers : UnicodeIdent := {|
  xid_start := fun _ => false; xid_continue := fun _ => false; xid_start_continues := fun _ e => e |}.
Definition is_ascii_letter (c : Z) : bool := ((65 <=? c) && (c <=? 90)) || ((97 <=? c) && (c <=? 122)) || (c =? 95).
Definition is_digit (c : Z) : bool := (48 <=? c) && (c <=? 57).
Definition PUNCT_CHARS : bytes := str_bytes "=<>!~+-*/%^&|@.,;:#$?'".
(** [proc_macro::Punct::new] *)
Definition Punct_new (ch : Z) (spacing : Spacing) : outcome TokenTree :=
  if existsb (Z.eqb ch) PUNCT_CHARS then Ret (Punct ch spacing) else Panic.

(** ** Tree

    A tree is the tokens that were added, or the panic of the addition of one. *)

Abbreviation Tree := (outcome TokenStream).
(* eventheader_macros/src/tree.rs: Tree::new *)
Definition Tree_new : Tree := Ret [].
(* eventheader_macros/src/tree.rs: Tree::add_token *)
Definition add_token (token : TokenTree) (tree : Tree) : Tree := trees ← tree; Ret (trees ++ [token]).
(* eventheader_macros/src/tree.rs: Tree::add_with_tree_span *)
Definition add_with_tree_span (token : TokenTree) (tree : Tree) : Tree := trees ← tree; Ret (trees ++ [token]).
(* eventheader_macros/src/tree.rs: Tree::add_literal *)
Definition add_literal (token : TokenTree) (tree : Tree) : Tree := tree ▷ add_with_tree_span token.
(** [for (index, ch) in chars.chars().enumerate()]: the last one is alone. *)
(* eventheader_macros/src/tree.rs: Tree::add_punct *)
Fixpoint add_punct (chars : bytes) (tree : Tree) : Tree :=
  match chars with
  | [] => tree
  | ch :: rest =>
    punct ← Punct_new ch (match rest with [] => Alone | _ => Joint end);
    tree ▷ add_with_tree_span punct ▷ add_punct rest
  end.

Section Unicode.
Context `{UnicodeIdent}.

Definition is_id_start (c : Z) : bool := if c <? 128 then is_ascii_letter c else xid_start c.
Definition is_id_continue (c : Z) : bool := if c <? 128 then is_ascii_letter c || is_digit c else xid_continue c.
Definition is_ident (name : bytes) : bool :=
  match from_utf8 name with Some (c :: cs) => is_id_start c && forallb is_id_continue cs | _ => false end.
(** [proc_macro::Ident::new] *)
Definition Ident_new (name : bytes) : outcome TokenTree := if is_ident name then Ret (Ident name) else Panic.

(* eventheader_macros/src/tree.rs: Tree::add_ident *)
Definition add_ident (name : bytes) (tree : Tree) : Tree := trees ← tree; ident ← Ident_new name; Ret (trees ++ [ident]).
(* eventheader_macros/src/tree.rs: Tree::add_path *)
Fixpoint add_path (parts : list bytes) (tree : Tree) : Tree :=
  match parts with
  | [] => tree
  | part :: parts =>
    tree ▷ add_with_tree_span (Punct 58 Joint) ▷ add_with_tree_span (Punct 58 Alone) ▷ add_ident part ▷ add_path parts
  end.
(* eventheader_macros/src/tree.rs: Tree::add_tokens *)
Definition add_tokens (tokens : Tree) (tree : Tree) : Tree := trees ← tree; tokens ← tokens; Ret (trees ++ tokens).
(* eventheader_macros/src/tree.rs: Tree::add_group *)
Definition add_group (delimiter : Delimiter) (tokens : Tree) (tree : Tree) : Tree :=
  stream ← tokens; tree ▷ add_with_tree_span (Group delimiter stream).
(* eventheader_macros/src/tree.rs: Tree::add_group_paren *)
Definition add_group_paren (tokens : Tree) (tree : Tree) : Tree := tree ▷ add_group Parenthesis tokens.
(* eventheader_macros/src/tree.rs: Tree::add_group_curly *)
Definition add_group_curly (tokens : Tree) (tree : Tree) : Tree := tree ▷ add_group Brace tokens.
(* eventheader_macros/src/tree.rs: Tree::add_group_square *)
Definition add_group_square (tokens : Tree) (tree : Tree) : Tree := tree ▷ add_group Bracket tokens.
(* eventheader_macros/src/tree.rs: Tree::add_outer_attribute *)
Definition add_outer_attribute (name : bytes) (tokens : Tree) (tree : Tree) : Tree :=
  tree ▷ add_punct (str_bytes "#")
       ▷ add_group_square (ident ← Ident_new name; tokens ← tokens; Ret [ident; Group Parenthesis tokens]).
(* eventheader_macros/src/tree.rs: Tree::add_path_call *)
Definition add_path_call (path_parts : list bytes) (group_tokens : Tree) (tree : Tree) : Tree :=
  tree ▷ add_path path_parts ▷ add_group Parenthesis group_tokens.
(* eventheader_macros/src/tree.rs: Tree::add_const_from_tokens *)
Definition add_const_from_tokens (var_name : bytes) (type_parts : list bytes) (tokens : Tree) (tree : Tree) : Tree :=
  tree ▷ add_ident (str_bytes "const") ▷ add_ident var_name ▷ add_punct (str_bytes ":") ▷ add_path type_parts
       ▷ add_punct (str_bytes "=") ▷ add_tokens tokens ▷ add_punct (str_bytes ";").
(* eventheader_macros/src/tree.rs: Tree::add_scalar_type_path *)
Definition add_scalar_type_path (type_path : list bytes) (array_count : Z) (tree : Tree) : Tree :=
  if array_count =? 0 then tree ▷ add_path type_path
  else tree ▷ add_group_square
    (Tree_new ▷ add_path type_path ▷ add_punct (str_bytes ";") ▷ add_with_tree_span (Literal_unsuffixed array_count)).
End Unicode.

(** ** Names and paths of the generated code *)

(* eventheader_macros/src/strings.rs: LEVEL_ENUMS *)
Definition LEVEL_ENUMS : list bytes := words ["CriticalError"; "Error"; "Informational"; "Verbose"; "Warning"]%string.
(* eventheader_macros/src/strings.rs: OPCODE_ENUMS *)
Definition OPCODE_ENUMS : list bytes := words ["ActivityStart"; "ActivityStop"; "CollectionStart";
  "CollectionStop"; "Extension"; "Info"; "Receive"; "Reply"; "Resume"; "Send"; "Suspend"]%string.
(* eventheader_macros/src/strings.rs: ENCODING_ENUMS *)
Definition ENCODING_ENUMS : list bytes := words ["Invalid"; "StringLength16Char16"; "StringLength16Char32";
  "StringLength16Char8"; "Struct"; "Value128"; "Value16"; "Value32"; "Value64"; "Value8"; "ValueSize";
  "ZStringChar16"; "ZStringChar32"; "ZStringChar8"]%string.
(* eventheader_macros/src/strings.rs: FORMAT_ENUMS *)
Definition FORMAT_ENUMS : list bytes := words ["Boolean"; "Default"; "Errno"; "Float"; "HexBytes"; "HexInt";
  "IPv4"; "IPv6"; "Pid"; "Port"; "SignedInt"; "String8"; "StringJson"; "StringUtf"; "StringUtfBom";
  "StringXml"; "Time"; "UnsignedInt"; "Uuid"]%string.
(* eventheader_macros/src/strings.rs: EH_KEYWORD_CONST *)
Definition EH_KEYWORD_CONST : bytes := str_bytes "_EH_KEYWORD".
(* eventheader_macros/src/strings.rs: EH_TAG_CONST *)
Definition EH_TAG_CONST : bytes := str_bytes "_EH_TAG".
(* eventheader_macros/src/strings.rs: EH_TRACEPOINT_VAR *)
Definition EH_TRACEPOINT_VAR : bytes := str_bytes "_eh_tracepoint".
(* eventheader_macros/src/strings.rs: EH_ARG_VAR *)
Definition EH_ARG_VAR : bytes := str_bytes "_eh_arg".
(* eventheader_macros/src/strings.rs: EH_WRITE_FUNC *)
Definition EH_WRITE_FUNC : bytes := str_bytes "_eh_write".
(* eventheader_macros/src/strings.rs: EH_LENGTHS_VAR *)
Definition EH_LENGTHS_VAR : bytes := str_bytes "_eh_lengths".
(* eventheader_macros/src/strings.rs: EH_ACTIVITY_ID_VAR *)
Definition EH_ACTIVITY_ID_VAR : bytes := str_bytes "_eh_aid".
(* eventheader_macros/src/strings.rs: EH_RELATED_ID_VAR *)
Definition EH_RELATED_ID_VAR : bytes := str_bytes "_eh_rid".
(* eventheader_macros/src/strings.rs: EH_DUR_VAR *)
Definition EH_DUR_VAR : bytes := str_bytes "_eh_dur".
(* eventheader_macros/src/strings.rs: EH_TRACEPOINT_STATIC *)
Definition EH_TRACEPOINT_STATIC : bytes := str_bytes "_EH_TRACEPOINT".
(* eventheader_macros/src/strings.rs: EH_TRACEPOINT_PTR_STATIC *)
Definition EH_TRACEPOINT_PTR_STATIC : bytes := str_bytes "_EH_TRACEPOINT_PTR".
(* eventheader_macros/src/strings.rs: TRACEPOINTS_SECTION_PREFIX *)
Definition TRACEPOINTS_SECTION_PREFIX : bytes := str_bytes "_eh_tracepoints_".
(* eventheader_macros/src/strings.rs: TRACEPOINTS_SECTION_START_PREFIX *)
Definition TRACEPOINTS_SECTION_START_PREFIX : bytes := str_bytes "__start__eh_tracepoints_".
(* eventheader_macros/src/strings.rs: TRACEPOINTS_SECTION_STOP_PREFIX *)
Definition TRACEPOINTS_SECTION_STOP_PREFIX : bytes := str_bytes "__stop__eh_tracepoints_".
(* eventheader_macros/src/strings.rs: PROVIDER_PTR_VAR_PREFIX *)
Definition PROVIDER_PTR_VAR_PREFIX : bytes := str_bytes "_eh_define_provider_".
(* eventheader_macros/src/strings.rs: EH_TRACEPOINT_WRITE_EVENTHEADER *)
Definition EH_TRACEPOINT_WRITE_EVENTHEADER : bytes := str_bytes "write_eventheader".
(* eventheader_macros/src/strings.rs: EH_TRACEPOINT_ENABLED *)
Definition EH_TRACEPOINT_ENABLED : bytes := str_bytes "enabled".
(* eventheader_macros/src/strings.rs: BORROW_BORROW_PATH *)
Definition BORROW_BORROW_PATH : list bytes := words ["core"; "borrow"; "Borrow"; "borrow"]%string.
(* eventheader_macros/src/strings.rs: ASREF_PATH *)
Definition ASREF_PATH : list bytes := words ["core"; "convert"; "AsRef"]%string.
(* eventheader_macros/src/strings.rs: IDENTITY_PATH *)
Definition IDENTITY_PATH : list bytes := words ["core"; "convert"; "identity"]%string.
(* eventheader_macros/src/strings.rs: NULL_PATH *)
Definition NULL_PATH : list bytes := words ["core"; "ptr"; "null"]%string.
(* eventheader_macros/src/strings.rs: BOOL_PATH *)
Definition BOOL_PATH : list bytes := words ["core"; "primitive"; "bool"]%string.
(* eventheader_macros/src/strings.rs: F32_PATH *)
Definition F32_PATH : list bytes := words ["core"; "primitive"; "f32"]%string.
(* eventheader_macros/src/strings.rs: F64_PATH *)
Definition F64_PATH : list bytes := words ["core"; "primitive"; "f64"]%string.
(* eventheader_macros/src/strings.rs: I8_PATH *)
Definition I8_PATH : list bytes := words ["core"; "primitive"; "i8"]%string.
(* eventheader_macros/src/strings.rs: I16_PATH *)
Definition I16_PATH : list bytes := words ["core"; "primitive"; "i16"]%string.
(* eventheader_macros/src/strings.rs: I32_PATH *)
Definition I32_PATH : list bytes := words ["core"; "primitive"; "i32"]%string.
(* eventheader_macros/src/strings.rs: I64_PATH *)
Definition I64_PATH : list bytes := words ["core"; "primitive"; "i64"]%string.
(* eventheader_macros/src/strings.rs: ISIZE_PATH *)
Definition ISIZE_PATH : list bytes := words ["core"; "primitive"; "isize"]%string.
(* eventheader_macros/src/strings.rs: U8_PATH *)
Definition U8_PATH : list bytes := words ["core"; "primitive"; "u8"]%string.
(* eventheader_macros/src/strings.rs: U16_PATH *)
Definition U16_PATH : list bytes := words ["core"; "primitive"; "u16"]%string.
(* eventheader_macros/src/strings.rs: U32_PATH *)
Definition U32_PATH : list bytes := words ["core"; "primitive"; "u32"]%string.
(* eventheader_macros/src/strings.rs: U64_PATH *)
Definition U64_PATH : list bytes := words ["core"; "primitive"; "u64"]%string.
(* eventheader_macros/src/strings.rs: USIZE_PATH *)
Definition USIZE_PATH : list bytes := words ["core"; "primitive"; "usize"]%string.
(* eventheader_macros/src/strings.rs: OPTION_PATH *)
Definition OPTION_PATH : list bytes := words ["core"; "option"; "Option"]%string.
(* eventheader_macros/src/strings.rs: OPTION_NONE_PATH *)
Definition OPTION_NONE_PATH : list bytes := words ["core"; "option"; "Option"; "None"]%string.
(* eventheader_macros/src/strings.rs: OPTION_SOME_PATH *)
Definition OPTION_SOME_PATH : list bytes := words ["core"; "option"; "Option"; "Some"]%string.
(* eventheader_macros/src/strings.rs: RESULT_OK_PATH *)
Definition RESULT_OK_PATH : list bytes := words ["core"; "result"; "Result"; "Ok"]%string.
(* eventheader_macros/src/strings.rs: RESULT_ERR_PATH *)
Definition RESULT_ERR_PATH : list bytes := words ["core"; "result"; "Result"; "Err"]%string.
(* eventheader_macros/src/strings.rs: SYSTEMTIME_DURATION_SINCE_PATH *)
Definition SYSTEMTIME_DURATION_SINCE_PATH : list bytes := words ["std"; "time"; "SystemTime"; "duration_since"]%string.
(* eventheader_macros/src/strings.rs: SYSTEMTIME_UNIX_EPOCH_PATH *)
Definition SYSTEMTIME_UNIX_EPOCH_PATH : list bytes := words ["std"; "time"; "SystemTime"; "UNIX_EPOCH"]%string.
(* eventheader_macros/src/strings.rs: ENCODING_PATH *)
Definition ENCODING_PATH : list bytes := words ["eventheader"; "FieldEncoding"]%string.
(* eventheader_macros/src/strings.rs: LEVEL_VERBOSE_PATH *)
Definition LEVEL_VERBOSE_PATH : list bytes := words ["eventheader"; "Level"; "Verbose"]%string.
(* eventheader_macros/src/strings.rs: OPCODE_INFO_PATH *)
Definition OPCODE_INFO_PATH : list bytes := words ["eventheader"; "Opcode"; "Info"]%string.
(* eventheader_macros/src/strings.rs: FORMAT_PATH *)
Definition FORMAT_PATH : list bytes := words ["eventheader"; "FieldFormat"]%string.
(* eventheader_macros/src/strings.rs: FORMAT_FROM_INT_PATH *)
Definition FORMAT_FROM_INT_PATH : list bytes := words ["eventheader"; "FieldFormat"; "from_int"]%string.
(* eventheader_macros/src/strings.rs: GUID_PATH *)
Definition GUID_PATH : list bytes := words ["eventheader"; "Guid"]%string.
(* eventheader_macros/src/strings.rs: PROVIDER_PATH *)
Definition PROVIDER_PATH : list bytes := words ["eventheader"; "Provider"]%string.
(* eventheader_macros/src/strings.rs: PROVIDER_NEW_PATH *)
Definition PROVIDER_NEW_PATH : list bytes := words ["eventheader"; "_internal"; "provider_new"]%string.
(* eventheader_macros/src/strings.rs: EVENTHEADERTRACEPOINT_PATH *)
Definition EVENTHEADERTRACEPOINT_PATH : list bytes := words ["eventheader"; "_internal"; "EventHeaderTracepoint"]%string.
(* eventheader_macros/src/strings.rs: EVENTHEADERTRACEPOINT_NEW_PATH *)
Definition EVENTHEADERTRACEPOINT_NEW_PATH : list bytes := words ["eventheader"; "_internal";
  "EventHeaderTracepoint"; "new"]%string.
(* eventheader_macros/src/strings.rs: TAG_BYTE0_PATH *)
Definition TAG_BYTE0_PATH : list bytes := words ["eventheader"; "_internal"; "tag_byte0"]%string.
(* eventheader_macros/src/strings.rs: TAG_BYTE1_PATH *)
Definition TAG_BYTE1_PATH : list bytes := words ["eventheader"; "_internal"; "tag_byte1"]%string.
(* eventheader_macros/src/strings.rs: SLICE_COUNT_PATH *)
Definition SLICE_COUNT_PATH : list bytes := words ["eventheader"; "_internal"; "slice_count"]%string.
(* eventheader_macros/src/strings.rs: TIME_FROM_DURATION_AFTER_PATH *)
Definition TIME_FROM_DURATION_AFTER_PATH : list bytes := words ["eventheader"; "_internal";
  "time_from_duration_after_1970"]%string.
(* eventheader_macros/src/strings.rs: TIME_FROM_DURATION_BEFORE_PATH *)
Definition TIME_FROM_DURATION_BEFORE_PATH : list bytes := words ["eventheader"; "_internal";
  "time_from_duration_before_1970"]%string.
(* eventheader_macros/src/strings.rs: EVENTHEADER_FROM_PARTS_PATH *)
Definition EVENTHEADER_FROM_PARTS_PATH : list bytes := words ["eventheader"; "_internal"; "EventHeader";
  "from_parts"]%string.
(* eventheader_macros/src/strings.rs: HEADER_FLAGS_DEFAULT_PATH *)
Definition HEADER_FLAGS_DEFAULT_PATH : list bytes := words ["eventheader"; "_internal"; "HeaderFlags";
  "DefaultWithExtension"]%string.
(* eventheader_macros/src/strings.rs: DATADESC_ZERO_PATH *)
Definition DATADESC_ZERO_PATH : list bytes := words ["eventheader"; "_internal"; "EventDataDescriptor"; "zero"]%string.
(* eventheader_macros/src/strings.rs: DATADESC_FROM_VALUE_PATH *)
Definition DATADESC_FROM_VALUE_PATH : list bytes := words ["eventheader"; "_internal"; "EventDataDescriptor";
  "from_value"]%string.
(* eventheader_macros/src/strings.rs: DATADESC_FROM_CSTR_PATH *)
Definition DATADESC_FROM_CSTR_PATH : list bytes := words ["eventheader"; "_internal"; "EventDataDescriptor";
  "from_cstr"]%string.
(* eventheader_macros/src/strings.rs: DATADESC_FROM_SLICE_PATH *)
Definition DATADESC_FROM_SLICE_PATH : list bytes := words ["eventheader"; "_internal"; "EventDataDescriptor";
  "from_slice"]%string.

(** ** The calls that need the paths *)

Section Unicode.
Context `{UnicodeIdent}.

(* eventheader_macros/src/tree.rs: Tree::add_borrowed_option_from_tokens *)
Definition add_borrowed_option_from_tokens (tokens : Tree) (tree : Tree) : Tree :=
  stream ← tokens;
  match stream with
  | [] => tree ▷ add_path OPTION_NONE_PATH
  | _ => tree ▷ add_path_call OPTION_SOME_PATH
           (Tree_new ▷ add_path BORROW_BORROW_PATH ▷ add_with_tree_span (Group Parenthesis stream))
  end.
(* eventheader_macros/src/tree.rs: Tree::add_identity_call *)
Definition add_identity_call (type_path : list bytes) (array_count : Z) (value_tokens : Tree) (tree : Tree) : Tree :=
  tree ▷ add_path IDENTITY_PATH ▷ add_punct (str_bytes "::") ▷ add_punct (str_bytes "<") ▷ add_punct (str_bytes "&")
       ▷ add_scalar_type_path type_path array_count ▷ add_punct (str_bytes ">") ▷ add_group_paren value_tokens.
(* eventheader_macros/src/tree.rs: Tree::add_cfg_linux *)
Definition add_cfg_linux (tree : Tree) : Tree :=
  tree ▷ add_punct (str_bytes "#") ▷ add_group_square
    (cfg ← Ident_new (str_bytes "cfg");
     target_os ← Ident_new (str_bytes "target_os");
     eq ← Punct_new 61 Alone;
     Ret [cfg; Group Parenthesis [target_os; eq; Literal_string (str_bytes "linux")]]).
(* eventheader_macros/src/tree.rs: Tree::add_cfg_not_linux *)
Definition add_cfg_not_linux (tree : Tree) : Tree :=
  tree ▷ add_punct (str_bytes "#") ▷ add_group_square
    (cfg ← Ident_new (str_bytes "cfg");
     not ← Ident_new (str_bytes "not");
     target_os ← Ident_new (str_bytes "target_os");
     eq ← Punct_new 61 Alone;
     Ret [cfg; Group Parenthesis [not; Group Parenthesis [target_os; eq; Literal_string (str_bytes "linux")]]]).
End Unicode.

(** ** Names with a number: [IdentBuilder] *)

Record IdentBuilder := { ident : bytes; base_len : Z }.
(* eventheader_macros/src/ident_builder.rs: IdentBuilder::new *)
Definition IdentBuilder_new (base_name : bytes) : IdentBuilder := {| ident := base_name; base_len := len base_name |}.
(* eventheader_macros/src/ident_builder.rs: IdentBuilder::current *)
Definition current (b : IdentBuilder) : bytes := b.(ident).
(* eventheader_macros/src/ident_builder.rs: IdentBuilder::set_suffix *)
Definition set_suffix (suffix : Z) (b : IdentBuilder) : IdentBuilder :=
  {| ident := take (Z.to_nat b.(base_len)) b.(ident) ++ fmt_decimal suffix; base_len := b.(base_len) |}.

(** ** Errors: [::core::compile_error!("..");] for each *)

Abbreviation Errors := TokenStream.
(* eventheader_macros/src/errors.rs: Errors::new *)
Definition Errors_new : Errors := [].
(* eventheader_macros/src/errors.rs: Errors::is_empty *)
Definition Errors_is_empty (errors : Errors) : bool := match errors with [] => true | _ => false end.
(** [core] and [compile_error] are identifiers. *)
(* eventheader_macros/src/errors.rs: Errors::add *)
Definition add_error (error_message : bytes) (errors : Errors) : Errors :=
  errors ++ [Punct 58 Joint; Punct 58 Alone; Ident (str_bytes "core"); Punct 58 Joint; Punct 58 Alone;
             Ident (str_bytes "compile_error"); Punct 33 Alone; Group Parenthesis [Literal_string error_message];
             Punct 59 Alone].
(* eventheader_macros/src/errors.rs: Errors::into_items *)
Definition into_items (errors : Errors) : TokenStream := errors.
(* eventheader_macros/src/errors.rs: Errors::into_expression *)
Definition into_expression (errors : Errors) : TokenStream := [Group Brace (errors ++ [Literal_unsuffixed 0])].

(** ** Enumerations *)

(* eventheader_macros/src/enums.rs: enum EnumToken *)
Inductive EnumToken := EnumToken_U8 (n : Z) | EnumToken_Str (name : bytes).
(* eventheader_macros/src/enums.rs: enum FieldEncoding *)
Inductive FieldEncoding :=
  | E_Invalid | E_Struct | E_Value8 | E_Value16 | E_Value32 | E_Value64 | E_Value128
  | E_ZStringChar8 | E_ZStringChar16 | E_ZStringChar32
  | E_StringLength16Char8 | E_StringLength16Char16 | E_StringLength16Char32 | E_ValueSize.
(** [encoding as u8] *)
Definition encoding_u8 (e : FieldEncoding) : Z :=
  match e with
  | E_Invalid => 0 | E_Struct => 1 | E_Value8 => 2 | E_Value16 => 3 | E_Value32 => 4 | E_Value64 => 5 | E_Value128 => 6
  | E_ZStringChar8 => 7 | E_ZStringChar16 => 8 | E_ZStringChar32 => 9
  | E_StringLength16Char8 => 10 | E_StringLength16Char16 => 11 | E_StringLength16Char32 => 12 | E_ValueSize => 13
  end.
(* eventheader_macros/src/enums.rs: FieldEncoding::VArrayFlag *)
Definition VArrayFlag : Z := 0x40.
(* eventheader_macros/src/enums.rs: FieldEncoding::to_token *)
Definition to_token (e : FieldEncoding) : EnumToken :=
  match e with E_ValueSize => EnumToken_Str (str_bytes "ValueSize") | other => EnumToken_U8 (encoding_u8 other) end.
(* eventheader_macros/src/enums.rs: enum FieldFormat *)
Inductive FieldFormat :=
  | F_Default | F_UnsignedInt | F_SignedInt | F_HexInt | F_Errno | F_Pid | F_Time | F_Boolean | F_Float | F_HexBytes
  | F_String8 | F_StringUtf | F_StringUtfBom | F_StringXml | F_StringJson | F_Uuid | F_Port | F_IPv4 | F_IPv6.
(** [format as u8] *)
Definition format_u8 (f : FieldFormat) : Z :=
  match f with
  | F_Default => 0 | F_UnsignedInt => 1 | F_SignedInt => 2 | F_HexInt => 3 | F_Errno => 4 | F_Pid => 5 | F_Time => 6
  | F_Boolean => 7 | F_Float => 8 | F_HexBytes => 9 | F_String8 => 10 | F_StringUtf => 11 | F_StringUtfBom => 12
  | F_StringXml => 13 | F_StringJson => 14 | F_Uuid => 15 | F_Port => 16 | F_IPv4 => 17 | F_IPv6 => 18
  end.
(* eventheader_macros/src/enums.rs: FieldFormat::ValueMask *)
Definition ValueMask : Z := 0x7F.
