(* ===== verification/MacroTrees.v ===== *)
(** * MacroTrees: the identifiers and the trees of the macros

    Which texts [Ident::new] takes, and what a chain of additions to a tree adds when
    each of its names is one. *)

From S2P Require Import Prelude Strings Types Text Writers MacroTokens.

(** ** Identifiers *)

(** Letters, digits and underscores of ASCII. *)
Definition word (l : bytes) : Prop := Forall (fun c => 0 <= c < 128 /\ (is_ascii_letter c || is_digit c) = true) l.

Lemma decimal_loop_word n v tail : word tail -> word (decimal_loop n v tail).
Proof.
  revert v tail. induction n as [|n IH]; intros v tail Ht; [done|]. cbn [decimal_loop]. cbv zeta.
  assert (Hd : word (48 + v mod 10 :: tail)).
  { constructor; [|done]. pose proof (Z.mod_pos_bound v 10 ltac:(lia)). split; [lia|].
    apply orb_true_iff. right. unfold is_digit. rewrite andb_true_iff, !Z.leb_le. lia. }
  destruct (v / 10 =? 0); [done|]. by apply IH.
Qed.
Lemma decimal_word v : 0 <= v -> word (fmt_decimal v).
Proof. intros Hv. unfold fmt_decimal. rewrite (proj2 (Z.ltb_ge v 0)) by lia. apply decimal_loop_word; constructor. Qed.

(** The characters of a text that starts with ASCII. *)
Lemma from_utf8_ascii a s : Forall (fun c => 0 <= c < 128) a -> from_utf8 (a ++ s) = option_map (app a) (from_utf8 s).
Proof.
  unfold from_utf8. induction 1 as [|c a Hc Ha IH]; cbn [app length]; [by destruct (from_utf8_loop _ s)|].
  cbn [from_utf8_loop utf8_next]. rewrite (proj2 (Z.ltb_lt c 0x80)) by lia. rewrite IH. by destruct (from_utf8_loop _ s).
Qed.
Lemma word_ascii a : word a -> Forall (fun c => 0 <= c < 128) a.
Proof. intros Ha. eapply List.Forall_impl; [|exact Ha]. intros c [Hc _]. exact Hc. Qed.

Section Unicode.
Context `{UnicodeIdent}.

Lemma word_continues a : word a -> forallb is_id_continue a = true.
Proof.
  induction 1 as [|c a [Hc Hw] Ha IH]; [done|]. cbn [forallb]. unfold is_id_continue at 1.
  rewrite (proj2 (Z.ltb_lt c 128)) by lia. by rewrite Hw.
Qed.
(** What follows a letter. *)
Definition continues (s : bytes) : bool :=
  match from_utf8 s with Some cs => forallb is_id_continue cs | None => false end.
Lemma is_ident_app c a s : is_ascii_letter c = true -> 0 <= c < 128 -> word a -> is_ident (c :: a ++ s) = continues s.
Proof.
  intros Hl Hc Ha. unfold is_ident, continues. change (c :: a ++ s) with ((c :: a) ++ s). rewrite (from_utf8_ascii (c :: a) s) by (constructor; [done|by apply word_ascii]).
  destruct (from_utf8 s) as [cs|]; [|done]. cbn [option_map app]. unfold is_id_start.
  rewrite (proj2 (Z.ltb_lt c 128)) by lia. rewrite Hl, forallb_app, word_continues by done. done.
Qed.
Lemma numbered_ident c a n : is_ascii_letter c = true -> 0 <= c < 128 -> word a -> 0 <= n -> is_ident ((c :: a) ++ fmt_decimal n) = true.
Proof.
  intros Hl Hc Ha Hn. cbn [app]. rewrite is_ident_app by done. unfold continues. pose proof (decimal_word n Hn) as Hd.
  rewrite <- (app_nil_r (fmt_decimal n)), from_utf8_ascii by (by apply word_ascii). cbn. rewrite app_nil_r. by apply word_continues.
Qed.
(** An identifier continues what starts with a letter. *)
Lemma ident_continues s : is_ident s = true -> continues s = true.
Proof.
  unfold is_ident, continues. destruct (from_utf8 s) as [[|c cs]|]; [done| |done]. cbn [forallb].
  intros [Hs ->]%andb_true_iff. rewrite andb_true_r. unfold is_id_start, is_id_continue in *.
  destruct (c <? 128); [by rewrite Hs|by apply xid_start_continues].
Qed.
(** A name with a [#], such as a raw identifier, is refused. *)
Lemma raw_refused a s : word a -> continues (a ++ 35 :: s) = false.
Proof.
  intros Ha. unfold continues. rewrite (from_utf8_ascii a) by (by apply word_ascii).
  change (35 :: s) with ([35] ++ s). rewrite (from_utf8_ascii [35]) by (constructor; [lia|constructor]).
  destruct (from_utf8 s) as [cs|]; [|done]. cbn [option_map app]. rewrite forallb_app. cbn [forallb].
  change (is_id_continue 35) with false. by rewrite andb_false_r.
Qed.

(** ** Additions to a tree *)

(** The tokens [l] at the end of the tree. *)
Definition extend (l : TokenStream) (t : Tree) : Tree := trees ← t; Ret (trees ++ l).

Lemma extend_extend a b t : extend b (extend a t) = extend (a ++ b) t.
Proof. destruct t as [trees|]; [|done]. cbn. by rewrite <- app_assoc. Qed.
Lemma extend_nil t : extend [] t = t.
Proof. destruct t as [trees|]; [|done]. cbn. by rewrite app_nil_r. Qed.
Lemma extend_ret l trees : extend l (Ret trees) = Ret (trees ++ l).
Proof. reflexivity. Qed.
Lemma extend_new l : extend l Tree_new = Ret l.
Proof. reflexivity. Qed.

(** The characters of a punctuation: the last one is alone. *)
Fixpoint puncts (chars : bytes) : TokenStream :=
  match chars with
  | [] => []
  | ch :: rest => Punct ch (match rest with [] => Alone | _ => Joint end) :: puncts rest
  end.
(** [::a::b..] *)
Definition path_tokens (parts : list bytes) : TokenStream :=
  flat_map (fun p => [Punct 58 Joint; Punct 58 Alone; Ident p]) parts.
Definition idents (parts : list bytes) : bool := forallb is_ident parts.

Lemma add_token_ext token t : add_token token t = extend [token] t.
Proof. reflexivity. Qed.
Lemma add_span_ext token t : add_with_tree_span token t = extend [token] t.
Proof. reflexivity. Qed.
Lemma add_literal_ext token t : add_literal token t = extend [token] t.
Proof. reflexivity. Qed.
Lemma add_tokens_ext l t : add_tokens (Ret l) t = extend l t.
Proof. reflexivity. Qed.
Lemma add_group_ext d l t : add_group d (Ret l) t = extend [Group d l] t.
Proof. reflexivity. Qed.
Lemma add_group_new d t : add_group d Tree_new t = extend [Group d []] t.
Proof. reflexivity. Qed.
Lemma add_ident_ext name t : is_ident name = true -> add_ident name t = extend [Ident name] t.
Proof. intros Hn. unfold add_ident, Ident_new. by rewrite Hn. Qed.
Lemma add_ident_panics name t : is_ident name = false -> add_ident name t = Panic.
Proof. intros Hn. unfold add_ident, Ident_new. rewrite Hn. by destruct t. Qed.
Lemma add_punct_ext chars t : forallb (fun c => existsb (Z.eqb c) PUNCT_CHARS) chars = true ->
  add_punct chars t = extend (puncts chars) t.
Proof.
  revert t. induction chars as [|c chars IH]; intros t Hc; [by rewrite extend_nil|]. cbn [forallb add_punct puncts] in *.
  apply andb_true_iff in Hc as [Hc Hcs]. unfold Punct_new. rewrite Hc. cbn [mbind outcome_bind].
  rewrite IH by done. rewrite add_span_ext, extend_extend. done.
Qed.
Lemma add_path_ext parts t : idents parts = true -> add_path parts t = extend (path_tokens parts) t.
Proof.
  revert t. induction parts as [|p parts IH]; intros t Hp; [by rewrite extend_nil|]. unfold idents in Hp. cbn [forallb] in Hp.
  apply andb_true_iff in Hp as [Hp Hps]. cbn [add_path path_tokens flat_map].
  rewrite IH by done. rewrite add_ident_ext by done. rewrite !add_span_ext, !extend_extend. reflexivity.
Qed.
(** A tree that panicked stays so. *)
Lemma extend_panic l : extend l Panic = Panic.
Proof. reflexivity. Qed.
End Unicode.

(** The chain of additions as one: the names of the program are identifiers by
    computation, the others by hypothesis. *)
Ltac ident_side := first [reflexivity | assumption | eassumption].
Ltac flatten_step :=
  first [ rewrite add_token_ext | rewrite add_span_ext | rewrite add_literal_ext
        | rewrite add_punct_ext by reflexivity
        | rewrite add_ident_ext by ident_side
        | rewrite add_path_ext by ident_side
        | rewrite extend_new | rewrite extend_ret | rewrite extend_extend
        | rewrite add_group_ext | rewrite add_group_new | rewrite add_tokens_ext ].
Ltac flatten_trees :=
  unfold add_path_call, add_identity_call, add_const_from_tokens, add_group_paren, add_group_square, add_group_curly;
  repeat flatten_step.
