(* ===== verification/MacroFields.v ===== *)
(** * MacroFields: the types of fields that write_event! knows
      (eventheader_macros/src/field_option.rs, field_options.rs, field_info.rs)  *)

From S2P Require Import Prelude Strings Types MacroTokens.

(* eventheader_macros/src/field_option.rs: enum FieldStrategy *)
Inductive FieldStrategy :=
  | Scalar | SystemTime | CStr | Str | Slice | Struct | RawStruct | RawStructSlice
  | RawData | RawField | RawFieldSlice | RawMeta | RawMetaSlice.
(* eventheader_macros/src/field_option.rs: FieldStrategy::is_slice *)
Definition is_slice (s : FieldStrategy) : bool :=
  match s with
  | Scalar | SystemTime | CStr | Str | Struct | RawStruct | RawData | RawField | RawMeta => false
  | Slice | RawStructSlice | RawFieldSlice | RawMetaSlice => true
  end.
(* eventheader_macros/src/field_option.rs: FieldStrategy::has_metadata *)
Definition has_metadata (s : FieldStrategy) : bool := match s with RawData => false | _ => true end.
(* eventheader_macros/src/field_option.rs: FieldStrategy::data_count *)
Definition data_count (s : FieldStrategy) : Z :=
  match s with
  | Struct | RawStruct | RawStructSlice | RawMeta | RawMetaSlice => 0
  | Scalar | SystemTime | RawData | RawField | RawFieldSlice => 1
  | CStr | Str | Slice => 2
  end.

(* eventheader_macros/src/field_option.rs: struct FieldOption *)
Record FieldOption := {
  option_name : bytes;
  value_type : list bytes;
  encoding : FieldEncoding;
  format : FieldFormat;
  strategy : FieldStrategy;
  value_array_count : Z;
}.
(* eventheader_macros/src/field_option.rs: FieldOption::new *)
Definition FieldOption_new (option_name : bytes) (value_type : list bytes) (encoding : FieldEncoding)
    (format : FieldFormat) (strategy : FieldStrategy) (value_array_count : Z) : FieldOption :=
  {| option_name := option_name; value_type := value_type; encoding := encoding; format := format;
     strategy := strategy; value_array_count := value_array_count |}.

#[local] Abbreviation Opt name := (FieldOption_new (str_bytes name)).
(* eventheader_macros/src/field_options.rs: FIELD_OPTIONS *)
Definition FIELD_OPTIONS : list FieldOption :=
  [
    Opt "binary" U8_PATH E_StringLength16Char8 F_HexBytes Str 0;
    Opt "binaryc" U8_PATH E_StringLength16Char8 F_HexBytes Str 0;
    Opt "bool32" I32_PATH E_Value32 F_Boolean Scalar 0;
    Opt "bool32_slice" I32_PATH E_Value32 F_Boolean Slice 0;
    Opt "bool8" BOOL_PATH E_Value8 F_Boolean Scalar 0;
    Opt "bool8_slice" BOOL_PATH E_Value8 F_Boolean Slice 0;
    Opt "char16" U16_PATH E_Value16 F_StringUtf Scalar 0;
    Opt "char16_slice" U16_PATH E_Value16 F_StringUtf Slice 0;
    Opt "char8_cp1252" U8_PATH E_Value8 F_String8 Scalar 0;
    Opt "char8_cp1252_slice" U8_PATH E_Value8 F_String8 Slice 0;
    Opt "codepointer" USIZE_PATH E_ValueSize F_HexInt Scalar 0;
    Opt "codepointer_slice" USIZE_PATH E_ValueSize F_HexInt Slice 0;
    Opt "cstr16" U16_PATH E_ZStringChar16 F_Default CStr 0;
    Opt "cstr16_json" U16_PATH E_ZStringChar16 F_StringJson CStr 0;
    Opt "cstr16_xml" U16_PATH E_ZStringChar16 F_StringXml CStr 0;
    Opt "cstr32" U32_PATH E_ZStringChar32 F_Default CStr 0;
    Opt "cstr32_json" U32_PATH E_ZStringChar32 F_StringJson CStr 0;
    Opt "cstr32_xml" U32_PATH E_ZStringChar32 F_StringXml CStr 0;
    Opt "cstr8" U8_PATH E_ZStringChar8 F_Default CStr 0;
    Opt "cstr8_cp1252" U8_PATH E_ZStringChar8 F_String8 CStr 0;
    Opt "cstr8_json" U8_PATH E_ZStringChar8 F_StringJson CStr 0;
    Opt "cstr8_xml" U8_PATH E_ZStringChar8 F_StringXml CStr 0;
    Opt "errno" I32_PATH E_Value32 F_Errno Scalar 0;
    Opt "errno_slice" I32_PATH E_Value32 F_Errno Slice 0;
    Opt "f32" F32_PATH E_Value32 F_Float Scalar 0;
    Opt "f32_slice" F32_PATH E_Value32 F_Float Slice 0;
    Opt "f64" F64_PATH E_Value64 F_Float Scalar 0;
    Opt "f64_slice" F64_PATH E_Value64 F_Float Slice 0;
    Opt "guid" GUID_PATH E_Value128 F_Uuid Scalar 0;
    Opt "guid_slice" GUID_PATH E_Value128 F_Uuid Slice 0;
    Opt "hresult" I32_PATH E_Value32 F_HexInt Scalar 0;
    Opt "hresult_slice" I32_PATH E_Value32 F_HexInt Slice 0;
    Opt "i16" I16_PATH E_Value16 F_SignedInt Scalar 0;
    Opt "i16_hex" I16_PATH E_Value16 F_HexInt Scalar 0;
    Opt "i16_hex_slice" I16_PATH E_Value16 F_HexInt Slice 0;
    Opt "i16_slice" I16_PATH E_Value16 F_SignedInt Slice 0;
    Opt "i32" I32_PATH E_Value32 F_SignedInt Scalar 0;
    Opt "i32_hex" I32_PATH E_Value32 F_HexInt Scalar 0;
    Opt "i32_hex_slice" I32_PATH E_Value32 F_HexInt Slice 0;
    Opt "i32_slice" I32_PATH E_Value32 F_SignedInt Slice 0;
    Opt "i64" I64_PATH E_Value64 F_SignedInt Scalar 0;
    Opt "i64_hex" I64_PATH E_Value64 F_HexInt Scalar 0;
    Opt "i64_hex_slice" I64_PATH E_Value64 F_HexInt Slice 0;
    Opt "i64_slice" I64_PATH E_Value64 F_SignedInt Slice 0;
    Opt "i8" I8_PATH E_Value8 F_SignedInt Scalar 0;
    Opt "i8_hex" I8_PATH E_Value8 F_HexInt Scalar 0;
    Opt "i8_hex_slice" I8_PATH E_Value8 F_HexInt Slice 0;
    Opt "i8_slice" I8_PATH E_Value8 F_SignedInt Slice 0;
    Opt "ipv4" U8_PATH E_Value32 F_IPv4 Scalar 4;
    Opt "ipv4_slice" U8_PATH E_Value32 F_IPv4 Slice 4;
    Opt "ipv6" U8_PATH E_Value128 F_IPv6 Scalar 16;
    Opt "ipv6c" U8_PATH E_Value128 F_IPv6 Scalar 16;
    Opt "isize" ISIZE_PATH E_ValueSize F_SignedInt Scalar 0;
    Opt "isize_hex" ISIZE_PATH E_ValueSize F_HexInt Scalar 0;
    Opt "isize_hex_slice" ISIZE_PATH E_ValueSize F_HexInt Slice 0;
    Opt "isize_slice" ISIZE_PATH E_ValueSize F_SignedInt Slice 0;
    Opt "pid" U32_PATH E_Value32 F_Pid Scalar 0;
    Opt "pid_slice" U32_PATH E_Value32 F_Pid Slice 0;
    Opt "pointer" USIZE_PATH E_ValueSize F_HexInt Scalar 0;
    Opt "pointer_slice" USIZE_PATH E_ValueSize F_HexInt Slice 0;
    Opt "port" U16_PATH E_Value16 F_Port Scalar 0;
    Opt "port_slice" U16_PATH E_Value16 F_Port Slice 0;
    Opt "raw_data" U8_PATH E_Invalid F_Default RawData 0;
    Opt "raw_field" U8_PATH E_Invalid F_Default RawField 0;
    Opt "raw_field_slice" U8_PATH E_Invalid F_Default RawFieldSlice 0;
    Opt "raw_meta" [] E_Invalid F_Default RawMeta 0;
    Opt "raw_meta_slice" [] E_Invalid F_Default RawMetaSlice 0;
    Opt "raw_struct" [] E_Struct F_Default RawStruct 0;
    Opt "raw_struct_slice" [] E_Struct F_Default RawStructSlice 0;
    Opt "socketaddress" U8_PATH E_StringLength16Char8 F_HexBytes Str 0;
    Opt "socketaddressc" U8_PATH E_StringLength16Char8 F_HexBytes Str 0;
    Opt "str16" U16_PATH E_StringLength16Char16 F_Default Str 0;
    Opt "str16_json" U16_PATH E_StringLength16Char16 F_StringJson Str 0;
    Opt "str16_xml" U16_PATH E_StringLength16Char16 F_StringXml Str 0;
    Opt "str32" U32_PATH E_StringLength16Char32 F_Default Str 0;
    Opt "str32_json" U32_PATH E_StringLength16Char32 F_StringJson Str 0;
    Opt "str32_xml" U32_PATH E_StringLength16Char32 F_StringXml Str 0;
    Opt "str8" U8_PATH E_StringLength16Char8 F_Default Str 0;
    Opt "str8_cp1252" U8_PATH E_StringLength16Char8 F_String8 Str 0;
    Opt "str8_json" U8_PATH E_StringLength16Char8 F_StringJson Str 0;
    Opt "str8_xml" U8_PATH E_StringLength16Char8 F_StringXml Str 0;
    Opt "struct" [] E_Struct F_Default Struct 0;
    Opt "systemtime" I64_PATH E_Value64 F_Time SystemTime 0;
    Opt "tid" U32_PATH E_Value32 F_Pid Scalar 0;
    Opt "tid_slice" U32_PATH E_Value32 F_Pid Slice 0;
    Opt "time32" I32_PATH E_Value32 F_Time Scalar 0;
    Opt "time64" I64_PATH E_Value64 F_Time Scalar 0;
    Opt "u16" U16_PATH E_Value16 F_Default Scalar 0;
    Opt "u16_hex" U16_PATH E_Value16 F_HexInt Scalar 0;
    Opt "u16_hex_slice" U16_PATH E_Value16 F_HexInt Slice 0;
    Opt "u16_slice" U16_PATH E_Value16 F_Default Slice 0;
    Opt "u32" U32_PATH E_Value32 F_Default Scalar 0;
    Opt "u32_hex" U32_PATH E_Value32 F_HexInt Scalar 0;
    Opt "u32_hex_slice" U32_PATH E_Value32 F_HexInt Slice 0;
    Opt "u32_slice" U32_PATH E_Value32 F_Default Slice 0;
    Opt "u64" U64_PATH E_Value64 F_Default Scalar 0;
    Opt "u64_hex" U64_PATH E_Value64 F_HexInt Scalar 0;
    Opt "u64_hex_slice" U64_PATH E_Value64 F_HexInt Slice 0;
    Opt "u64_slice" U64_PATH E_Value64 F_Default Slice 0;
    Opt "u8" U8_PATH E_Value8 F_Default Scalar 0;
    Opt "u8_hex" U8_PATH E_Value8 F_HexInt Scalar 0;
    Opt "u8_hex_slice" U8_PATH E_Value8 F_HexInt Slice 0;
    Opt "u8_slice" U8_PATH E_Value8 F_Default Slice 0;
    Opt "usize" USIZE_PATH E_ValueSize F_Default Scalar 0;
    Opt "usize_hex" USIZE_PATH E_ValueSize F_HexInt Scalar 0;
    Opt "usize_hex_slice" USIZE_PATH E_ValueSize F_HexInt Slice 0;
    Opt "usize_slice" USIZE_PATH E_ValueSize F_Default Slice 0
  ].

(** ** The search for an option *)

(** [str::cmp]: bytes in lexicographic order. *)
Fixpoint str_cmp (a b : bytes) : comparison :=
  match a, b with
  | [], [] => Eq | [], _ => Lt | _, [] => Gt
  | x :: a, y :: b => match x ?= y with Eq => str_cmp a b | c => c end
  end.

(** [slice::binary_search_by], which halves the slice until one element is left. *)
Fixpoint search_loop {A} (cmp : A -> comparison) (l : list A) (fuel : nat) (base size : nat) : option nat :=
  match fuel with
  | O => None
  | Datatypes.S fuel =>
    if (1 <? size)%nat then
      let half := (size / 2)%nat in
      let mid := (base + half)%nat in
      let base := match option_map cmp (l !! mid) with Some Gt => base | _ => mid end in
      search_loop cmp l fuel base (size - half)
    else match option_map cmp (l !! base) with Some Eq => Some base | _ => None end
  end.
Definition binary_search_by {A} (cmp : A -> comparison) (l : list A) : option nat :=
  search_loop cmp l (Datatypes.S (length l)) 0 (length l).
(** [FIELD_OPTIONS.binary_search_by(|o| o.option_name.cmp(&option_name))] *)
(* eventheader_macros/src/event_info.rs:178-183: EventInfo::parse_event_options, the search of the table *)
Definition find_field_option (name : bytes) : option FieldOption :=
  match binary_search_by (fun o => str_cmp o.(option_name) name) FIELD_OPTIONS with
  | Some i => FIELD_OPTIONS !! i
  | None => None
  end.
(** [known_values.binary_search(&str)] *)
Definition is_known_value (known_values : list bytes) (value : bytes) : bool :=
  match binary_search_by (fun v => str_cmp v value) known_values with Some _ => true | None => false end.

(** A list sorted by [str::cmp], as the [debug_assert!]s of the macros check it. *)
Fixpoint sorted_names (l : list bytes) : bool :=
  match l with
  | a :: ((b :: _) as l) => match str_cmp a b with Lt => sorted_names l | _ => false end
  | _ => true
  end.

(* eventheader_macros/src/field_info.rs: struct FieldInfo *)
Record FieldInfo := {
  fi_option : FieldOption;
  fi_name : bytes;
  value_tokens : TokenStream;
  encoding_tokens : TokenStream;
  format_or_field_count_expr : TokenStream;
  format_or_field_count_int : Z;
  fi_tag : TokenStream;
}.
