(* ===== verification/MacroParser.v ===== *)
(** * MacroParser: reading the arguments of a macro (eventheader_macros/src/parser.rs)

    A [Parser] is the tokens that are left, and the errors, which a parser of a group
    borrows from the parser around it: a function takes the tokens and the errors and
    gives what is left of the tokens and the new errors. *)

From S2P Require Import Prelude Strings Types Text TextSpec TextProps MacroTokens.

(* eventheader_macros/src/parser.rs: enum ArgConstraints *)
Inductive ArgConstraints := Optional | OptionalNotLast | Required | RequiredLast | RequiredNotLast.
(* eventheader_macros/src/parser.rs: enum ArgResult *)
Inductive ArgResult := ArgNone | ArgOption (name : bytes) (args : TokenStream) | ArgStruct (fields : TokenStream).

Definition is_punct (ch : Z) (t : TokenTree) : bool := match t with Punct c _ => c =? ch | _ => false end.
Definition is_comma : TokenTree -> bool := is_punct 44.

(* eventheader_macros/src/parser.rs: Parser::skip_to_comma *)
Fixpoint skip_to_comma (next_token : TokenTree) (it : TokenStream) : bool * TokenStream :=
  if is_comma next_token then (true, it)
  else match it with [] => (false, []) | token :: it => skip_to_comma token it end.

(* eventheader_macros/src/parser.rs: Parser::eos_before_item *)
Definition eos_before_item (constraints : ArgConstraints) (error_message : bytes) (e : Errors) : Errors :=
  match constraints with Optional => e | _ => add_error error_message e end.
(* eventheader_macros/src/parser.rs: Parser::unexpected_token_before_end *)
Definition unexpected_token_before_end (constraints : ArgConstraints) (e : Errors) : Errors :=
  add_error (match constraints with
             | Optional | Required => str_bytes "expected ',' or ')'"
             | RequiredLast => str_bytes "expected ')'"
             | OptionalNotLast | RequiredNotLast => str_bytes "expected ','"
             end) e.
(* eventheader_macros/src/parser.rs: Parser::comma_after_item *)
Definition comma_after_item (constraints : ArgConstraints) (it : TokenStream) (e : Errors) : TokenStream * Errors :=
  match constraints with
  | RequiredLast => match it with _ :: it => (it, unexpected_token_before_end constraints e) | [] => ([], e) end
  | _ => (it, e)
  end.

(* eventheader_macros/src/parser.rs: Parser::next_comma *)
Definition next_comma (constraints : ArgConstraints) (it : TokenStream) (e : Errors) : TokenStream * Errors :=
  match it with
  | [] => ([], e)
  | token :: it =>
    if is_comma token then comma_after_item constraints it e
    else (snd (skip_to_comma token it), unexpected_token_before_end constraints e)
  end.

(** The recovery from a token that is not the item: the error, and the tokens up to
    the next comma. *)
Definition not_the_item (constraints : ArgConstraints) (error_message : bytes) (token : TokenTree) (it : TokenStream)
    (e : Errors) : TokenStream * Errors :=
  let e := add_error error_message e in
  let (comma, it) := skip_to_comma token it in
  if comma then comma_after_item constraints it e else (it, e).

(* eventheader_macros/src/parser.rs: Parser::next_ident *)
Definition next_ident (constraints : ArgConstraints) (error_message : bytes) (it : TokenStream) (e : Errors)
    : option bytes * (TokenStream * Errors) :=
  match it with
  | Ident name :: it => (Some name, next_comma constraints it e)
  | token :: it => (None, not_the_item constraints error_message token it e)
  | [] => (None, ([], eos_before_item constraints error_message e))
  end.

(** ** Escapes *)

(** [ch.to_digit(16)] *)
Definition to_digit16 (ch : Z) : option Z :=
  if (48 <=? ch) && (ch <=? 57) then Some (ch - 48)
  else if (97 <=? ch) && (ch <=? 102) then Some (ch - 87)
  else if (65 <=? ch) && (ch <=? 70) then Some (ch - 55) else None.
(* eventheader_macros/src/parser.rs: enum NextHexResult *)
Inductive NextHexResult := Digit (digit : Z) | Char (ch : Z) | End.
(* eventheader_macros/src/parser.rs: next_hex *)
Definition next_hex (it : list Z) : NextHexResult * list Z :=
  match it with
  | ch :: it => (match to_digit16 ch with Some digit => Digit digit | None => Char ch end, it)
  | [] => (End, [])
  end.
(** [for _ in 0..2]: the value of the digits. *)
Fixpoint hex_digits (n : nat) (val : Z) (it : list Z) : option (Z * list Z) :=
  match n with
  | O => Some (val, it)
  | S n => match next_hex it with (Digit digit, it) => hex_digits n (Z.lor (Z.shiftl val 4) digit) it | _ => None end
  end.
(* eventheader_macros/src/parser.rs: unescape_x *)
Definition unescape_x (it : list Z) : option (Z * list Z) := hex_digits 2 0 it.
(** [for n in 0..6], [first]: [n == 0]. *)
Fixpoint unescape_u_loop (n : nat) (first : bool) (val : Z) (it : list Z) : option (Z * list Z) :=
  match n with
  | O => None
  | S n =>
    match next_hex it with
    | (Digit digit, it) => unescape_u_loop n false (Z.lor (Z.shiftl val 4) digit) it
    | (Char ch, it) => if first || negb (ch =? 125) then None else if is_scalar_value val then Some (val, it) else None
    | (End, _) => None
    end
  end.
(* eventheader_macros/src/parser.rs: unescape_u *)
Definition unescape_u (it : list Z) : option (Z * list Z) :=
  match it with
  | ch :: it => if negb (ch =? 123) then None else unescape_u_loop 6 true 0 it
  | [] => None
  end.
(** What follows a backslash: the character and the rest. *)
Definition escape_sequence (it : list Z) : option (Z * list Z) :=
  match it with
  | ch :: it =>
    if ch =? 48 then Some (0, it) else if ch =? 110 then Some (10, it) else if ch =? 114 then Some (13, it)
    else if ch =? 116 then Some (9, it) else if ch =? 92 then Some (92, it)
    else if ch =? 120 then unescape_x it else if ch =? 117 then unescape_u it else None
  | [] => None
  end.
(** Each iteration takes at least one character. *)
Fixpoint unescape_loop (fuel : nat) (it : list Z) : option (list Z) :=
  match it with
  | [] => Some []
  | ch :: it =>
    match fuel with
    | O => None
    | S fuel =>
      if negb (ch =? 92) then option_map (cons ch) (unescape_loop fuel it)
      else match escape_sequence it with
           | Some (c, it) => option_map (cons c) (unescape_loop fuel it)
           | None => None
           end
    end
  end.
(* eventheader_macros/src/parser.rs: unescape *)
Definition unescape (src : bytes) : option bytes :=
  let chars := decode_utf8 src in option_map utf8 (unescape_loop (length chars) chars).

(** ** String literals *)

(** [lit_str.len() < 2 || !lit_str.starts_with('"') || !lit_str.ends_with('"')] *)
Definition not_string_literal (lit_str : bytes) : bool :=
  (len lit_str <? 2) || negb (nth 0 lit_str 0 =? 34) || negb (List.last lit_str 0 =? 34).
(* eventheader_macros/src/parser.rs: Parser::next_string_literal_token *)
Fixpoint next_string_literal_token (token : TokenTree) (constraints : ArgConstraints) (error_message : bytes)
    (it : TokenStream) (e : Errors) : option bytes * (TokenStream * Errors) :=
  match token with
  | Literal lit_str =>
    if not_string_literal lit_str then (None, not_the_item constraints error_message (Literal lit_str) it e)
    else
      let '(result, e) :=
        match unescape (sub lit_str 1 (len lit_str - 1)) with
        | Some unescaped => (Some unescaped, e)
        | None => (None, add_error (str_bytes "unsupported escape sequence") e)
        end in
      (result, next_comma constraints it e)
  | Group NoDelimiter contents =>
    match contents with
    | [token] => next_string_literal_token token constraints error_message it e
    | _ =>
      (None, match rev contents with
             | token :: _ => not_the_item constraints error_message token it e
             | [] => (it, add_error error_message e)
             end)
    end
  | token => (None, not_the_item constraints error_message token it e)
  end.
(* eventheader_macros/src/parser.rs: Parser::next_string_literal *)
Definition next_string_literal (constraints : ArgConstraints) (error_message : bytes) (it : TokenStream) (e : Errors)
    : option bytes * (TokenStream * Errors) :=
  match it with
  | token :: it => next_string_literal_token token constraints error_message it e
  | [] => (None, ([], eos_before_item constraints error_message e))
  end.

(** ** Expressions and options *)

(** [got_some]: the state is [GotSome]. *)
Fixpoint next_tokens_loop (got_some : bool) (constraints : ArgConstraints) (error_message : bytes) (it : TokenStream)
    (e : Errors) : TokenStream * (TokenStream * Errors) :=
  match it with
  | token :: it =>
    if is_comma token then
      ([], comma_after_item constraints it (if got_some then e else add_error error_message e))
    else if is_punct 59 token then
      ([], (snd (skip_to_comma token it), unexpected_token_before_end constraints e))
    else let '(tokens, rest) := next_tokens_loop true constraints error_message it e in (token :: tokens, rest)
  | [] => ([], ([], if got_some then e else eos_before_item constraints error_message e))
  end.
(* eventheader_macros/src/parser.rs: Parser::next_tokens *)
Definition next_tokens (constraints : ArgConstraints) (error_message : bytes) (it : TokenStream) (e : Errors)
    : TokenStream * (TokenStream * Errors) := next_tokens_loop false constraints error_message it e.

(* eventheader_macros/src/parser.rs:213-213: Parser::next_arg, EXPECTED_OPTION *)
Definition EXPECTED_OPTION : bytes := str_bytes "expected identifier for option name, e.g. Option(args...)".
(* eventheader_macros/src/parser.rs:214-215: Parser::next_arg, EXPECTED_OPTION_OR_STRUCT *)
Definition EXPECTED_OPTION_OR_STRUCT : bytes :=
  str_bytes "expected '{' for struct or identifier for option name, e.g. Option(args...)".
(* eventheader_macros/src/parser.rs:216-216: Parser::next_arg, EXPECTED_OPTION_ARGS *)
Definition EXPECTED_OPTION_ARGS : bytes := str_bytes "expected '(' after option name, e.g. Option(args...)".

(** The loop goes on only after a token. *)
Fixpoint next_arg_loop (fuel : nat) (want_struct : bool) (it : TokenStream) (e : Errors)
    : ArgResult * (TokenStream * Errors) :=
  match it with
  | [] => (ArgNone, ([], if want_struct then add_error EXPECTED_OPTION_OR_STRUCT e else e))
  | first_token :: it =>
    match fuel with
    | O => (ArgNone, (it, e))
    | S fuel =>
      let other :=
        next_arg_loop fuel want_struct (snd (skip_to_comma first_token it))
          (add_error (if want_struct then EXPECTED_OPTION_OR_STRUCT else EXPECTED_OPTION) e) in
      match first_token with
      | Group Brace stream => if want_struct then (ArgStruct stream, (it, e)) else other
      | Ident name =>
        match it with
        | Group Parenthesis args :: it =>
          (ArgOption name args, next_comma (if want_struct then OptionalNotLast else Optional) it e)
        | token :: it =>
          next_arg_loop fuel want_struct (snd (skip_to_comma token it)) (add_error EXPECTED_OPTION_ARGS e)
        | [] => (ArgNone, ([], add_error EXPECTED_OPTION_ARGS e))
        end
      | _ => other
      end
    end
  end.
(* eventheader_macros/src/parser.rs: Parser::next_arg *)
Definition next_arg (want_struct : bool) (it : TokenStream) (e : Errors) : ArgResult * (TokenStream * Errors) :=
  next_arg_loop (length it) want_struct it e.
