(* ===== verification/MacroEvent.v ===== *)
(** * MacroEvent: parsing write_event! (eventheader_macros/src/event_info.rs)

    A step takes the event, the tokens that are left and the errors.  The text of a
    stream of tokens, [to_string], is the compiler's. *)

From S2P Require Import Prelude Strings Types Writers MacroTokens MacroParser MacroFields.

(** [TokenStream::to_string]. *)
Class TokenText := to_string : TokenStream -> bytes.

(* eventheader_macros/src/event_info.rs: METADATA_BYTES_MAX *)
Definition METADATA_BYTES_MAX : Z := 65535.
(* eventheader_macros/src/event_info.rs: STRUCT_FIELDS_MAX *)
Definition STRUCT_FIELDS_MAX : Z := 127.

(* eventheader_macros/src/event_info.rs: struct EventInfo *)
Record EventInfo := {
  provider_symbol : bytes;
  ev_name : bytes;
  id_tokens : TokenStream;
  version_tokens : TokenStream;
  opcode_tokens : TokenStream;
  ev_level : TokenStream;
  keywords : list TokenStream;
  ev_tag : TokenStream;
  activity_id : TokenStream;
  related_id : TokenStream;
  fields : list FieldInfo;
  debug : bool;
  metadata_bytes_used : Z;
}.
Definition set_provider_symbol v (e : EventInfo) : EventInfo := {|
  provider_symbol := v; ev_name := e.(ev_name); id_tokens := e.(id_tokens);
  version_tokens := e.(version_tokens); opcode_tokens := e.(opcode_tokens); ev_level := e.(ev_level);
  keywords := e.(keywords); ev_tag := e.(ev_tag); activity_id := e.(activity_id);
  related_id := e.(related_id); fields := e.(fields); debug := e.(debug);
  metadata_bytes_used := e.(metadata_bytes_used) |}.
Definition set_ev_name v (e : EventInfo) : EventInfo := {|
  provider_symbol := e.(provider_symbol); ev_name := v; id_tokens := e.(id_tokens);
  version_tokens := e.(version_tokens); opcode_tokens := e.(opcode_tokens); ev_level := e.(ev_level);
  keywords := e.(keywords); ev_tag := e.(ev_tag); activity_id := e.(activity_id);
  related_id := e.(related_id); fields := e.(fields); debug := e.(debug);
  metadata_bytes_used := e.(metadata_bytes_used) |}.
Definition set_id_tokens v (e : EventInfo) : EventInfo := {|
  provider_symbol := e.(provider_symbol); ev_name := e.(ev_name); id_tokens := v;
  version_tokens := e.(version_tokens); opcode_tokens := e.(opcode_tokens); ev_level := e.(ev_level);
  keywords := e.(keywords); ev_tag := e.(ev_tag); activity_id := e.(activity_id);
  related_id := e.(related_id); fields := e.(fields); debug := e.(debug);
  metadata_bytes_used := e.(metadata_bytes_used) |}.
Definition set_version_tokens v (e : EventInfo) : EventInfo := {|
  provider_symbol := e.(provider_symbol); ev_name := e.(ev_name); id_tokens := e.(id_tokens);
  version_tokens := v; opcode_tokens := e.(opcode_tokens); ev_level := e.(ev_level);
  keywords := e.(keywords); ev_tag := e.(ev_tag); activity_id := e.(activity_id);
  related_id := e.(related_id); fields := e.(fields); debug := e.(debug);
  metadata_bytes_used := e.(metadata_bytes_used) |}.
Definition set_opcode_tokens v (e : EventInfo) : EventInfo := {|
  provider_symbol := e.(provider_symbol); ev_name := e.(ev_name); id_tokens := e.(id_tokens);
  version_tokens := e.(version_tokens); opcode_tokens := v; ev_level := e.(ev_level);
  keywords := e.(keywords); ev_tag := e.(ev_tag); activity_id := e.(activity_id);
  related_id := e.(related_id); fields := e.(fields); debug := e.(debug);
  metadata_bytes_used := e.(metadata_bytes_used) |}.
Definition set_ev_level v (e : EventInfo) : EventInfo := {|
  provider_symbol := e.(provider_symbol); ev_name := e.(ev_name); id_tokens := e.(id_tokens);
  version_tokens := e.(version_tokens); opcode_tokens := e.(opcode_tokens); ev_level := v;
  keywords := e.(keywords); ev_tag := e.(ev_tag); activity_id := e.(activity_id);
  related_id := e.(related_id); fields := e.(fields); debug := e.(debug);
  metadata_bytes_used := e.(metadata_bytes_used) |}.
Definition set_keywords v (e : EventInfo) : EventInfo := {|
  provider_symbol := e.(provider_symbol); ev_name := e.(ev_name); id_tokens := e.(id_tokens);
  version_tokens := e.(version_tokens); opcode_tokens := e.(opcode_tokens); ev_level := e.(ev_level);
  keywords := v; ev_tag := e.(ev_tag); activity_id := e.(activity_id); related_id := e.(related_id);
  fields := e.(fields); debug := e.(debug); metadata_bytes_used := e.(metadata_bytes_used) |}.
Definition set_ev_tag v (e : EventInfo) : EventInfo := {|
  provider_symbol := e.(provider_symbol); ev_name := e.(ev_name); id_tokens := e.(id_tokens);
  version_tokens := e.(version_tokens); opcode_tokens := e.(opcode_tokens); ev_level := e.(ev_level);
  keywords := e.(keywords); ev_tag := v; activity_id := e.(activity_id); related_id := e.(related_id);
  fields := e.(fields); debug := e.(debug); metadata_bytes_used := e.(metadata_bytes_used) |}.
Definition set_activity_id v (e : EventInfo) : EventInfo := {|
  provider_symbol := e.(provider_symbol); ev_name := e.(ev_name); id_tokens := e.(id_tokens);
  version_tokens := e.(version_tokens); opcode_tokens := e.(opcode_tokens); ev_level := e.(ev_level);
  keywords := e.(keywords); ev_tag := e.(ev_tag); activity_id := v; related_id := e.(related_id);
  fields := e.(fields); debug := e.(debug); metadata_bytes_used := e.(metadata_bytes_used) |}.
Definition set_related_id v (e : EventInfo) : EventInfo := {|
  provider_symbol := e.(provider_symbol); ev_name := e.(ev_name); id_tokens := e.(id_tokens);
  version_tokens := e.(version_tokens); opcode_tokens := e.(opcode_tokens); ev_level := e.(ev_level);
  keywords := e.(keywords); ev_tag := e.(ev_tag); activity_id := e.(activity_id); related_id := v;
  fields := e.(fields); debug := e.(debug); metadata_bytes_used := e.(metadata_bytes_used) |}.
Definition set_fields v (e : EventInfo) : EventInfo := {|
  provider_symbol := e.(provider_symbol); ev_name := e.(ev_name); id_tokens := e.(id_tokens);
  version_tokens := e.(version_tokens); opcode_tokens := e.(opcode_tokens); ev_level := e.(ev_level);
  keywords := e.(keywords); ev_tag := e.(ev_tag); activity_id := e.(activity_id);
  related_id := e.(related_id); fields := v; debug := e.(debug);
  metadata_bytes_used := e.(metadata_bytes_used) |}.
Definition set_debug v (e : EventInfo) : EventInfo := {|
  provider_symbol := e.(provider_symbol); ev_name := e.(ev_name); id_tokens := e.(id_tokens);
  version_tokens := e.(version_tokens); opcode_tokens := e.(opcode_tokens); ev_level := e.(ev_level);
  keywords := e.(keywords); ev_tag := e.(ev_tag); activity_id := e.(activity_id);
  related_id := e.(related_id); fields := e.(fields); debug := v;
  metadata_bytes_used := e.(metadata_bytes_used) |}.
Definition set_metadata_bytes_used v (e : EventInfo) : EventInfo := {|
  provider_symbol := e.(provider_symbol); ev_name := e.(ev_name); id_tokens := e.(id_tokens);
  version_tokens := e.(version_tokens); opcode_tokens := e.(opcode_tokens); ev_level := e.(ev_level);
  keywords := e.(keywords); ev_tag := e.(ev_tag); activity_id := e.(activity_id);
  related_id := e.(related_id); fields := e.(fields); debug := e.(debug); metadata_bytes_used := v |}.

(* eventheader_macros/src/event_info.rs: expected_enum_message *)
Definition expected_enum_message (enum_name suggested_string_value : bytes) (suggested_integer_value : Z) : bytes :=
  str_bytes "expected " ++ enum_name ++ str_bytes " value, e.g. " ++ suggested_string_value ++ str_bytes ", tracelogging::"
  ++ enum_name ++ str_bytes "::" ++ suggested_string_value ++ str_bytes ", or " ++ fmt_decimal suggested_integer_value.

Section EventInfo.
Context `{UnicodeIdent} `{TokenText}.

Definition is_ascii_digit (c : Z) : bool := (48 <=? c) && (c <=? 57).
(* eventheader_macros/src/event_info.rs: filter_enum_tokens *)
Definition filter_enum_tokens (tokens : TokenStream) (enum_name : bytes) (known_values : list bytes) : outcome TokenStream :=
  _ ← rassert (sorted_names known_values);
  let str := to_string tokens in
  if match str with c :: _ => is_ascii_digit c | [] => false end then
    Tree_new ▷ add_path_call [str_bytes "eventheader"; enum_name; str_bytes "from_int"] (Ret tokens)
  else if is_known_value known_values str then Tree_new ▷ add_path [str_bytes "eventheader"; enum_name; str]
  else Ret tokens.

(* eventheader_macros/src/event_info.rs: EventInfo::add_estimated_metadata *)
Definition add_estimated_metadata (size : Z) (event : EventInfo) (e : Errors) : outcome (EventInfo * Errors) :=
  if event.(metadata_bytes_used) =? 0 then Ret (event, e)
  else
    room ← checked 16 (METADATA_BYTES_MAX - event.(metadata_bytes_used));
    if size <=? room then
      used ← checked 16 (event.(metadata_bytes_used) + as_unsigned 16 size);
      Ret (set_metadata_bytes_used used event, e)
    else
      Ret (set_metadata_bytes_used 0 event, add_error (str_bytes
        "event metadata is too large (includes event name string, field name strings, and field type codes; limit is 65535 bytes)") e).
(* eventheader_macros/src/event_info.rs: EventInfo::push_field *)
Definition push_field (field : FieldInfo) (event : EventInfo) (e : Errors) : outcome (EventInfo * Errors) :=
  let metadata_size := len field.(fi_name) + 1 +
    match field.(fi_tag) with
    | _ :: _ => 4
    | [] => if negb (field.(format_or_field_count_int) =? 0) then 2 else 1
    end in
  '(event, e) ← add_estimated_metadata metadata_size event e;
  Ret (set_fields (event.(fields) ++ [field]) event, e).

Definition set_fi_tag v (f : FieldInfo) : FieldInfo := {|
  fi_option := f.(fi_option); fi_name := f.(fi_name); value_tokens := f.(value_tokens); encoding_tokens := f.(encoding_tokens);
  format_or_field_count_expr := f.(format_or_field_count_expr); format_or_field_count_int := f.(format_or_field_count_int);
  fi_tag := v |}.
Definition set_format_expr v (f : FieldInfo) : FieldInfo := {|
  fi_option := f.(fi_option); fi_name := f.(fi_name); value_tokens := f.(value_tokens); encoding_tokens := f.(encoding_tokens);
  format_or_field_count_expr := v; format_or_field_count_int := f.(format_or_field_count_int); fi_tag := f.(fi_tag) |}.
Definition set_format_int v (f : FieldInfo) : FieldInfo := {|
  fi_option := f.(fi_option); fi_name := f.(fi_name); value_tokens := f.(value_tokens); encoding_tokens := f.(encoding_tokens);
  format_or_field_count_expr := f.(format_or_field_count_expr); format_or_field_count_int := v; fi_tag := f.(fi_tag) |}.
Definition set_encoding_tokens v (f : FieldInfo) : FieldInfo := {|
  fi_option := f.(fi_option); fi_name := f.(fi_name); value_tokens := f.(value_tokens); encoding_tokens := v;
  format_or_field_count_expr := f.(format_or_field_count_expr); format_or_field_count_int := f.(format_or_field_count_int);
  fi_tag := f.(fi_tag) |}.
Definition set_value_tokens v (f : FieldInfo) : FieldInfo := {|
  fi_option := f.(fi_option); fi_name := f.(fi_name); value_tokens := v; encoding_tokens := f.(encoding_tokens);
  format_or_field_count_expr := f.(format_or_field_count_expr); format_or_field_count_int := f.(format_or_field_count_int);
  fi_tag := f.(fi_tag) |}.
Definition set_fi_name v (f : FieldInfo) : FieldInfo := {|
  fi_option := f.(fi_option); fi_name := v; value_tokens := f.(value_tokens); encoding_tokens := f.(encoding_tokens);
  format_or_field_count_expr := f.(format_or_field_count_expr); format_or_field_count_int := f.(format_or_field_count_int);
  fi_tag := f.(fi_tag) |}.

Definition add_error_if (b : bool) (message : bytes) (e : Errors) : Errors := if b then add_error message e else e.
Definition is_nil {A} (l : list A) : bool := match l with [] => true | _ => false end.
Definition has_nul (s : bytes) : bool := existsb (Z.eqb 0) s.

(** ** The arguments of a field *)

(** [field_accepts_tag], [field_accepts_format], [field_wants_struct] *)
Definition field_accepts_tag (s : FieldStrategy) : bool := match s with RawData => false | _ => true end.
Definition field_accepts_format (s : FieldStrategy) : bool :=
  match s with
  | Scalar | SystemTime | CStr | Str | Slice | RawField | RawFieldSlice | RawMeta | RawMetaSlice => true
  | Struct | RawStruct | RawStructSlice | RawData => false
  end.
Definition field_wants_struct (s : FieldStrategy) : bool := match s with Struct => true | _ => false end.

(* eventheader_macros/src/event_info.rs:192-206: EventInfo::parse_event_options, name *)
Definition parse_field_name (field : FieldInfo) (it : TokenStream) (e : Errors) : FieldInfo * (TokenStream * Errors) :=
  if negb (has_metadata field.(fi_option).(strategy)) then (field, (it, e))
  else
    match next_string_literal RequiredNotLast
            (str_bytes "expected field name (must be a string literal, e.g. " ++ 34 :: str_bytes "field name" ++ [34; 41]) it e with
    | (Some field_name, (it, e)) =>
      (set_fi_name field_name field,
       (it, add_error_if (has_nul field_name) (str_bytes "field name must not contain '\0'") e))
    | (None, rest) => (field, rest)
    end.
(* eventheader_macros/src/event_info.rs:208-274: EventInfo::parse_event_options, match *)
Definition parse_field_type (in_struct : bool) (field : FieldInfo) (it : TokenStream) (e : Errors)
    : outcome (FieldInfo * (TokenStream * Errors)) :=
  match field.(fi_option).(strategy) with
  | RawField | RawFieldSlice | RawMeta | RawMetaSlice =>
    let '(tokens, rest) :=
      next_tokens Required (expected_enum_message (str_bytes "FieldEncoding") (str_bytes "Value32") 4) it e in
    tokens ← filter_enum_tokens tokens (str_bytes "FieldEncoding") ENCODING_ENUMS;
    Ret (set_encoding_tokens tokens field, rest)
  | RawStruct | RawStructSlice =>
    let e := add_error_if in_struct (str_bytes "RawStruct not allowed within Struct") e in
    let '(tokens, rest) := next_tokens Required (str_bytes "expected struct field count value, e.g. 2") it e in
    tokens ← Tree_new ▷ add_path_call FORMAT_FROM_INT_PATH (Ret tokens);
    Ret (set_format_expr tokens field, rest)
  | _ => Ret (field, (it, e))
  end.
(* eventheader_macros/src/event_info.rs:276-279: EventInfo::parse_event_options, value *)
Definition parse_field_value (field : FieldInfo) (it : TokenStream) (e : Errors) : FieldInfo * (TokenStream * Errors) :=
  if negb (data_count field.(fi_option).(strategy) =? 0) then
    let '(tokens, rest) := next_tokens Required (str_bytes "expected field value") it e in
    (set_value_tokens tokens field, rest)
  else (field, (it, e)).

(** One option of a field: its arguments [args]. *)
(* eventheader_macros/src/event_info.rs:305-344: EventInfo::parse_event_options, option of a field *)
Definition parse_field_option (name : bytes) (args : TokenStream) (field : FieldInfo) (e : Errors)
    : outcome (FieldInfo * Errors) :=
  let s := field.(fi_option).(strategy) in
  if str_is name "tag" && field_accepts_tag s then
    let e := add_error_if (negb (is_nil field.(fi_tag))) (str_bytes "tag already set") e in
    let '(tokens, (_, e)) := next_tokens RequiredLast (str_bytes "expected Tag value, e.g. 1 or 0xFFFF") args e in
    Ret (set_fi_tag tokens field, e)
  else if str_is name "format" && field_accepts_format s then
    let e := add_error_if (negb (is_nil field.(format_or_field_count_expr))) (str_bytes "format already set") e in
    let '(tokens, (_, e)) :=
      next_tokens RequiredLast (expected_enum_message (str_bytes "FieldFormat") (str_bytes "String") 2) args e in
    tokens ← filter_enum_tokens tokens (str_bytes "FieldFormat") FORMAT_ENUMS;
    Ret (set_format_expr tokens field, e)
  else Ret (field, add_error (str_bytes "unrecognized option") e).

(** The loop over the options of a field, up to its end or the group of a struct. *)
(* eventheader_macros/src/event_info.rs:281-346: EventInfo::parse_event_options, loop *)
Fixpoint parse_field_options (fuel : nat) (field : FieldInfo) (it : TokenStream) (e : Errors)
    : outcome (FieldInfo * option TokenStream * Errors) :=
  match fuel with
  | O => Panic
  | Datatypes.S fuel =>
    match next_arg (field_wants_struct field.(fi_option).(strategy)) it e with
    | (ArgNone, (_, e)) => Ret (field, None, e)
    | (ArgStruct stream, (_, e)) => Ret (field, Some stream, e)
    | (ArgOption name args, (it, e)) =>
      '(field, e) ← parse_field_option name args field e;
      parse_field_options fuel field it e
    end
  end.

(* eventheader_macros/src/event_info.rs:181-190: EventInfo::parse_event_options, FieldInfo *)
Definition new_field (o : FieldOption) : FieldInfo := {|
  fi_option := o; fi_name := []; value_tokens := []; encoding_tokens := []; format_or_field_count_expr := [];
  format_or_field_count_int := format_u8 o.(format); fi_tag := [] |}.
(** A field up to its options. *)
Definition parse_field_head (in_struct : bool) (o : FieldOption) (it : TokenStream) (e : Errors)
    : outcome (FieldInfo * (TokenStream * Errors)) :=
  let '(field, (it, e)) := parse_field_name (new_field o) it e in
  '(field, (it, e)) ← parse_field_type in_struct field it e;
  Ret (parse_field_value field it e).

(* eventheader_macros/src/event_info.rs:348-360: EventInfo::parse_event_options, limits *)
Definition count_field (in_struct : bool) (o : FieldOption) (logical_fields_added : Z) (e : Errors) : Z * Errors :=
  if has_metadata o.(strategy) then
    let e :=
      if in_struct && (logical_fields_added =? STRUCT_FIELDS_MAX) then
        add_error (str_bytes "too many fields in struct (limit 127)") e
      else if negb in_struct && (logical_fields_added =? 254) then
        add_error (str_bytes "too many fields in event (limit 254)") e
      else e in
    (Z.min 255 (logical_fields_added + 1), e)
  else (logical_fields_added, e).

(** ** The options of an event *)

(** [channel_set] and [task_set] *)
Definition OptionState : Type := EventInfo * (bool * bool).
(* eventheader_macros/src/event_info.rs:361-467: EventInfo::parse_event_options, options *)
Definition parse_event_option (in_struct : bool) (name : bytes) (args : TokenStream) (event : EventInfo)
    (channel_set task_set : bool) (e : Errors) : outcome (OptionState * Errors) :=
  let once (set : bool) (message : bytes) (expected : bytes) (use : TokenStream -> outcome OptionState) :=
    let e := add_error_if set message e in
    let '(tokens, (_, e)) := next_tokens RequiredLast expected args e in
    s ← use tokens; Ret (s, e) in
  let keep (event : EventInfo) : outcome OptionState := Ret (event, (channel_set, task_set)) in
  if in_struct then Ret (event, (channel_set, task_set), add_error (str_bytes "unrecognized option") e)
  else if str_is name "debug" then Ret (set_debug true event, (channel_set, task_set), e)
  else if str_is name "id_version" then
    let e := add_error_if (negb (is_nil event.(id_tokens))) (str_bytes "id_version already set") e in
    let '(id, (it, e)) := next_tokens RequiredNotLast (str_bytes "expected Id value, e.g. 1 or 0x200F") args e in
    let '(version, (_, e)) := next_tokens RequiredLast (str_bytes "expected Version value, e.g. 0 or 0x1F") it e in
    Ret (set_version_tokens version (set_id_tokens id event), (channel_set, task_set), e)
  else if str_is name "channel" then
    once channel_set (str_bytes "channel already set")
      (expected_enum_message (str_bytes "Channel") (str_bytes "TraceLogging") 11)
      (fun _ => Ret (event, (true, task_set)))
  else if str_is name "level" then
    once (negb (is_nil event.(ev_level))) (str_bytes "level already set")
      (expected_enum_message (str_bytes "Level") (str_bytes "Verbose") 5)
      (fun tokens => t ← filter_enum_tokens tokens (str_bytes "Level") LEVEL_ENUMS; keep (set_ev_level t event))
  else if str_is name "opcode" then
    once (negb (is_nil event.(opcode_tokens))) (str_bytes "opcode already set")
      (expected_enum_message (str_bytes "Opcode") (str_bytes "Info") 0)
      (fun tokens => t ← filter_enum_tokens tokens (str_bytes "Opcode") OPCODE_ENUMS; keep (set_opcode_tokens t event))
  else if str_is name "task" then
    once task_set (str_bytes "task already set") (str_bytes "expected Task value, e.g. 1 or 0x2001")
      (fun _ => Ret (event, (channel_set, true)))
  else if str_is name "keyword" then
    once false [] (str_bytes "expected Keyword value, e.g. 0x100F")
      (fun tokens => keep (set_keywords (event.(keywords) ++ [tokens]) event))
  else if str_is name "tag" then
    once (negb (is_nil event.(ev_tag))) (str_bytes "tag already set")
      (str_bytes "expected Tag value, e.g. 1 or 0xFFFF") (fun tokens => keep (set_ev_tag tokens event))
  else if str_is name "activity_id" then
    once (negb (is_nil event.(activity_id))) (str_bytes "activity_id already set")
      (str_bytes "expected Activity Id variable") (fun tokens => keep (set_activity_id tokens event))
  else if str_is name "related_id" then
    once (negb (is_nil event.(related_id))) (str_bytes "related_id already set")
      (str_bytes "expected Related Id variable") (fun tokens => keep (set_related_id tokens event))
  else Ret (event, (channel_set, task_set), add_error (str_bytes "unrecognized option") e).

Definition update_field (i : nat) (f : FieldInfo -> FieldInfo) (event : EventInfo) : outcome EventInfo :=
  match event.(fields) !! i with
  | Some field => Ret (set_fields (<[i := f field]> event.(fields)) event)
  | None => Panic
  end.

(** The loop over the arguments: the event and the number of logical fields. *)
(* eventheader_macros/src/event_info.rs:160-472: EventInfo::parse_event_options, loop *)
Fixpoint parse_event_options_loop (fuel : nat) (in_struct : bool) (event : EventInfo) (logical_fields_added : Z)
    (channel_set task_set : bool) (it : TokenStream) (e : Errors) : outcome (EventInfo * Z * Errors) :=
  match fuel with
  | O => Panic
  | Datatypes.S fuel =>
    match next_arg false it e with
    | (ArgOption option_name args, (it, e)) =>
      match find_field_option option_name with
      | Some o =>
        '(field, (args, e)) ← parse_field_head in_struct o args e;
        '(field, ending, e) ← parse_field_options (Datatypes.S (length args)) field args e;
        '(event, e) ←
          match ending with
          | None => push_field field event e
          | Some stream =>
            let struct_index := length event.(fields) in
            '(event, e) ← push_field (set_format_int 1 field) event e;
            '(event, field_count, e) ← parse_event_options_loop fuel true event 0 false false stream e;
            let e := add_error_if (field_count =? 0) (str_bytes "struct must have at least 1 field") e in
            event ← update_field struct_index (set_format_int (Z.land field_count ValueMask)) event;
            Ret (event, e)
          end;
        let '(added, e) := count_field in_struct o logical_fields_added e in
        parse_event_options_loop fuel in_struct event added channel_set task_set it e
      | None =>
        '(event, (channel_set, task_set), e) ← parse_event_option in_struct option_name args event channel_set task_set e;
        parse_event_options_loop fuel in_struct event logical_fields_added channel_set task_set it e
      end
    | (_, (_, e)) => Ret (event, logical_fields_added, e)
    end
  end.

(** The number of tokens, those in groups included, is enough iterations. *)
Fixpoint token_count (t : TokenTree) : nat :=
  match t with Group _ ts => S (fold_right (fun t n => token_count t + n)%nat O ts) | _ => 1%nat end.
Definition stream_count (ts : TokenStream) : nat := fold_right (fun t n => token_count t + n)%nat O ts.
(* eventheader_macros/src/event_info.rs: EventInfo::parse_event_options *)
Definition parse_event_options (in_struct : bool) (event : EventInfo) (it : TokenStream) (e : Errors)
    : outcome (EventInfo * Z * Errors) :=
  parse_event_options_loop (S (stream_count it)) in_struct event 0 false false it e.

(* eventheader_macros/src/event_info.rs:42-57: EventInfo::try_from_tokens, event *)
Definition EventInfo_empty : EventInfo := {|
  provider_symbol := str_bytes "x"; ev_name := []; id_tokens := []; version_tokens := []; opcode_tokens := [];
  ev_level := []; keywords := []; ev_tag := []; activity_id := []; related_id := []; fields := []; debug := false;
  metadata_bytes_used := 1 |}.
(** The values of what was not given. *)
(* eventheader_macros/src/event_info.rs:100-151: EventInfo::try_from_tokens, defaults *)
Definition with_defaults (e : EventInfo) : outcome EventInfo :=
  e ← (if is_nil e.(id_tokens) then t ← Tree_new ▷ add_literal (Literal_unsuffixed 0); Ret (set_id_tokens t e) else Ret e);
  e ← (if is_nil e.(version_tokens) then t ← Tree_new ▷ add_literal (Literal_unsuffixed 0); Ret (set_version_tokens t e) else Ret e);
  e ← (if is_nil e.(ev_level) then t ← Tree_new ▷ add_path LEVEL_VERBOSE_PATH; Ret (set_ev_level t e) else Ret e);
  e ← (if is_nil e.(opcode_tokens) then t ← Tree_new ▷ add_path OPCODE_INFO_PATH; Ret (set_opcode_tokens t e) else Ret e);
  e ← (if is_nil e.(keywords) then t ← Tree_new ▷ add_literal (Literal_u64_suffixed 1); Ret (set_keywords [t] e) else Ret e);
  if is_nil e.(ev_tag) then t ← Tree_new ▷ add_literal (Literal_unsuffixed 0); Ret (set_ev_tag t e) else Ret e.

(* eventheader_macros/src/event_info.rs: EventInfo::try_from_tokens *)
Definition try_from_tokens (arg_tokens : TokenStream) : outcome (result EventInfo TokenStream) :=
  _ ← rassert (sorted_names (map option_name FIELD_OPTIONS));
  let '(symbol, (it, e)) := next_ident RequiredNotLast
    (str_bytes "expected identifier for provider symbol, e.g. MY_PROVIDER") arg_tokens Errors_new in
  let event := match symbol with Some ident => set_provider_symbol ident EventInfo_empty | None => EventInfo_empty end in
  let '(name, (it, e)) := next_string_literal Required
    (str_bytes "expected string literal for event name, e.g. write_event!(PROVIDER, " ++ 34 :: str_bytes "EventName" ++ 34
     :: str_bytes ", ...)") it e in
  '(event, e) ←
    match name with
    | Some event_name =>
      '(event, e) ← add_estimated_metadata (len event_name + 1) (set_ev_name event_name event) e;
      Ret (event, add_error_if (has_nul event_name) (str_bytes "event name must not contain '\0'") e)
    | None => Ret (event, e)
    end;
  '(event, _, e) ← parse_event_options false event it e;
  event ← with_defaults event;
  Ret (if Errors_is_empty e then Ok event else Err (into_expression e)).
End EventInfo.
