(* ===== verification/MacroGenerator.v ===== *)
(** * MacroGenerator: the code that write_event! generates
      (eventheader_macros/src/event_generator.rs)

    The scratch trees of the generator are local to the chains that fill and drain them. *)

From S2P Require Import Prelude Strings Types Writers MacroTokens MacroFields MacroEvent.

#[local] Abbreviation lit x := (str_bytes x).

(* eventheader_macros/src/event_generator.rs: struct EventGenerator *)
Record EventGenerator := {
  tags_tree : Tree;
  meta_tree : Tree;
  func_args_tree : Tree;
  func_call_tree : Tree;
  lengths_init_tree : Tree;
  data_desc_init_tree : Tree;
  tag_n : IdentBuilder;
  arg_n : IdentBuilder;
  field_count : Z;
  lengths_count : Z;
}.
Definition mk_generator tags meta args call lengths data tagn argn fc lc : EventGenerator :=
  {| tags_tree := tags; meta_tree := meta; func_args_tree := args; func_call_tree := call; lengths_init_tree := lengths;
     data_desc_init_tree := data; tag_n := tagn; arg_n := argn; field_count := fc; lengths_count := lc |}.
(** The additions to one of the trees. *)
Definition on_tags (f : Tree -> Tree) g := mk_generator (f g.(tags_tree)) g.(meta_tree) g.(func_args_tree) g.(func_call_tree)
  g.(lengths_init_tree) g.(data_desc_init_tree) g.(tag_n) g.(arg_n) g.(field_count) g.(lengths_count).
Definition on_meta (f : Tree -> Tree) g := mk_generator g.(tags_tree) (f g.(meta_tree)) g.(func_args_tree) g.(func_call_tree)
  g.(lengths_init_tree) g.(data_desc_init_tree) g.(tag_n) g.(arg_n) g.(field_count) g.(lengths_count).
Definition on_func_args (f : Tree -> Tree) g := mk_generator g.(tags_tree) g.(meta_tree) (f g.(func_args_tree)) g.(func_call_tree)
  g.(lengths_init_tree) g.(data_desc_init_tree) g.(tag_n) g.(arg_n) g.(field_count) g.(lengths_count).
Definition on_func_call (f : Tree -> Tree) g := mk_generator g.(tags_tree) g.(meta_tree) g.(func_args_tree) (f g.(func_call_tree))
  g.(lengths_init_tree) g.(data_desc_init_tree) g.(tag_n) g.(arg_n) g.(field_count) g.(lengths_count).
Definition on_lengths (f : Tree -> Tree) g := mk_generator g.(tags_tree) g.(meta_tree) g.(func_args_tree) g.(func_call_tree)
  (f g.(lengths_init_tree)) g.(data_desc_init_tree) g.(tag_n) g.(arg_n) g.(field_count) g.(lengths_count).
Definition on_data (f : Tree -> Tree) g := mk_generator g.(tags_tree) g.(meta_tree) g.(func_args_tree) g.(func_call_tree)
  g.(lengths_init_tree) (f g.(data_desc_init_tree)) g.(tag_n) g.(arg_n) g.(field_count) g.(lengths_count).
Definition with_tag_n b g := mk_generator g.(tags_tree) g.(meta_tree) g.(func_args_tree) g.(func_call_tree)
  g.(lengths_init_tree) g.(data_desc_init_tree) b g.(arg_n) g.(field_count) g.(lengths_count).
Definition with_arg_n b g := mk_generator g.(tags_tree) g.(meta_tree) g.(func_args_tree) g.(func_call_tree)
  g.(lengths_init_tree) g.(data_desc_init_tree) g.(tag_n) b g.(field_count) g.(lengths_count).
Definition with_counts fc lc g := mk_generator g.(tags_tree) g.(meta_tree) g.(func_args_tree) g.(func_call_tree)
  g.(lengths_init_tree) g.(data_desc_init_tree) g.(tag_n) g.(arg_n) fc lc.

(* eventheader_macros/src/event_generator.rs: EventGenerator::new *)
Definition EventGenerator_new : EventGenerator :=
  mk_generator Tree_new Tree_new Tree_new Tree_new Tree_new Tree_new (IdentBuilder_new EH_TAG_CONST) (IdentBuilder_new EH_ARG_VAR) 0 0.

Section Generator.
Context `{UnicodeIdent}.

(** ** Metadata *)

(* eventheader_macros/src/event_generator.rs: EventGenerator::append_meta *)
Definition append_meta (byte : Z) (g : EventGenerator) : EventGenerator :=
  g ▷ on_meta (fun t => t ▷ add_literal (Literal_unsuffixed byte) ▷ add_punct (lit ",")).
(** [for &ch in name.as_bytes()] *)
Fixpoint append_metas (name : bytes) (g : EventGenerator) : EventGenerator :=
  match name with [] => g | ch :: name => g ▷ append_meta ch ▷ append_metas name end.
(* eventheader_macros/src/event_generator.rs: EventGenerator::append_meta_name *)
Definition append_meta_name (name : bytes) (g : EventGenerator) : EventGenerator := g ▷ append_metas name ▷ append_meta 0.

(* eventheader_macros/src/event_generator.rs: EventGenerator::add_typecode_meta *)
Definition add_typecode_meta (enum_type_path : list bytes) (tokens : TokenStream) (type_token : EnumToken) (flags : Z)
    (g : EventGenerator) : EventGenerator :=
  let finish (t : Tree) : Tree :=
    let t := t ▷ add_punct (lit ".") ▷ add_ident (lit "as_int") ▷ add_group_paren Tree_new in
    let t := if negb (flags =? 0) then t ▷ add_punct (lit "|") ▷ add_literal (Literal_unsuffixed flags) else t in
    t ▷ add_punct (lit ",") in
  match tokens, type_token with
  | [], EnumToken_U8 enum_int => g ▷ append_meta (Z.lor enum_int flags)
  | [], EnumToken_Str enum_name =>
    g ▷ on_meta (fun t => finish (t ▷ add_path enum_type_path ▷ add_punct (lit "::") ▷ add_ident enum_name))
  | _, _ =>
    g ▷ on_meta (fun t => finish (t ▷ add_path IDENTITY_PATH ▷ add_punct (lit "::") ▷ add_punct (lit "<")
                                    ▷ add_path enum_type_path ▷ add_punct (lit ">") ▷ add_group_paren (Ret tokens)))
  end.
(* eventheader_macros/src/event_generator.rs: EventGenerator::add_tag *)
Definition add_tag (expression : TokenStream) (g : EventGenerator) : EventGenerator :=
  let name := current g.(tag_n) in
  g ▷ on_tags (add_const_from_tokens name U16_PATH (Ret expression))
    ▷ on_meta (fun t => t ▷ add_path_call TAG_BYTE0_PATH (Tree_new ▷ add_ident name) ▷ add_punct (lit ",")
                          ▷ add_path_call TAG_BYTE1_PATH (Tree_new ▷ add_ident name) ▷ add_punct (lit ",")).

(* eventheader_macros/src/event_generator.rs:396-434: EventGenerator::add_field, metadata *)
Definition add_field_meta (field : FieldInfo) (g : EventGenerator) : EventGenerator :=
  let option := field.(fi_option) in
  if has_metadata option.(strategy) then
    let g := g ▷ append_meta_name field.(fi_name) in
    let has_out := negb (is_nil field.(format_or_field_count_expr)) || negb (field.(format_or_field_count_int) =? 0) in
    let has_tag := negb (is_nil field.(fi_tag)) in
    let inflags := Z.lor (if has_out || has_tag then 0x80 else 0) (if is_slice option.(strategy) then VArrayFlag else 0) in
    let g := g ▷ add_typecode_meta ENCODING_PATH field.(encoding_tokens) (to_token option.(encoding)) inflags in
    let g :=
      if has_out || has_tag then
        g ▷ add_typecode_meta FORMAT_PATH field.(format_or_field_count_expr) (EnumToken_U8 field.(format_or_field_count_int))
              (if has_tag then 0x80 else 0)
      else g in
    if has_tag then
      g ▷ with_tag_n (set_suffix g.(field_count) g.(tag_n)) ▷ add_tag field.(fi_tag)
    else g
  else g.

(** ** Data *)

(* eventheader_macros/src/event_generator.rs: EventGenerator::add_data_desc_for_arg_n *)
Definition add_data_desc_for_arg_n (new_desc_path : list bytes) (g : EventGenerator) : EventGenerator :=
  g ▷ on_data (fun t => t ▷ add_path_call new_desc_path (Tree_new ▷ add_ident (current g.(arg_n))) ▷ add_punct (lit ",")).
(* eventheader_macros/src/event_generator.rs: EventGenerator::add_data_desc_with_length *)
Definition add_data_desc_with_length (get_length_path new_desc_path : list bytes) (g : EventGenerator)
    : outcome EventGenerator :=
  let g := g ▷ on_lengths (fun t => t ▷ add_path_call get_length_path (Tree_new ▷ add_ident (current g.(arg_n)))
                                      ▷ add_punct (lit ",")) in
  let g := g ▷ on_data (fun t => t
    ▷ add_path_call DATADESC_FROM_VALUE_PATH
        (Tree_new ▷ add_punct (lit "&") ▷ add_ident EH_LENGTHS_VAR
            ▷ add_group_square (Tree_new ▷ add_literal (Literal_unsuffixed g.(lengths_count))))
    ▷ add_punct (lit ",")) in
  let g := g ▷ add_data_desc_for_arg_n new_desc_path in
  count ← checked 16 (g.(lengths_count) + 1);
  Ret (g ▷ with_counts g.(field_count) count).
(* eventheader_macros/src/event_generator.rs: EventGenerator::add_func_scalar_arg *)
Definition add_func_scalar_arg (field_option : FieldOption) (tree1 : Tree) (g : EventGenerator) : EventGenerator :=
  g ▷ on_func_args (fun t => t ▷ add_punct (lit ",") ▷ add_ident (current g.(arg_n)) ▷ add_punct (lit ":") ▷ add_punct (lit "&")
                               ▷ add_scalar_type_path field_option.(value_type) field_option.(value_array_count))
    ▷ on_func_call (fun t => t ▷ add_punct (lit ",") ▷ add_tokens tree1).
(* eventheader_macros/src/event_generator.rs: EventGenerator::add_func_slice_arg *)
Definition add_func_slice_arg (field_option : FieldOption) (field_value_tokens : TokenStream) (g : EventGenerator)
    : EventGenerator :=
  let slice := Tree_new ▷ add_scalar_type_path field_option.(value_type) field_option.(value_array_count) in
  g ▷ on_func_args (fun t => t ▷ add_punct (lit ",") ▷ add_ident (current g.(arg_n)) ▷ add_punct (lit ":") ▷ add_punct (lit "&")
                               ▷ add_group_square slice)
    ▷ on_func_call (fun t => t ▷ add_punct (lit ",") ▷ add_path ASREF_PATH ▷ add_punct (lit "::") ▷ add_punct (lit "<")
                               ▷ add_group_square slice ▷ add_punct (lit ">") ▷ add_punct (lit "::")
                               ▷ add_ident (lit "as_ref") ▷ add_group_paren (Ret field_value_tokens)).

(** [identity::<&VALUE_TYPE>(value_tokens...)] *)
Definition identity_of (field : FieldInfo) : Tree :=
  Tree_new ▷ add_identity_call field.(fi_option).(value_type) field.(fi_option).(value_array_count) (Ret field.(value_tokens)).
(** [& match SystemTime::duration_since(value_tokens, SystemTime::UNIX_EPOCH) { .. }] *)
(* eventheader_macros/src/event_generator.rs:462-503: EventGenerator::add_field, SystemTime *)
Definition system_time_of (value_tokens : TokenStream) : Tree :=
  Tree_new ▷ add_punct (lit "&") ▷ add_ident (lit "match")
     ▷ add_path_call SYSTEMTIME_DURATION_SINCE_PATH
         (Tree_new ▷ add_tokens (Ret value_tokens) ▷ add_punct (lit ",") ▷ add_path SYSTEMTIME_UNIX_EPOCH_PATH)
     ▷ add_group_curly
         (Tree_new ▷ add_path RESULT_OK_PATH ▷ add_group_paren (Tree_new ▷ add_ident EH_DUR_VAR) ▷ add_punct (lit "=>")
             ▷ add_path_call TIME_FROM_DURATION_AFTER_PATH (Tree_new ▷ add_ident EH_DUR_VAR) ▷ add_punct (lit ",")
             ▷ add_path RESULT_ERR_PATH ▷ add_group_paren (Tree_new ▷ add_ident EH_DUR_VAR) ▷ add_punct (lit "=>")
             ▷ add_path_call TIME_FROM_DURATION_BEFORE_PATH
                 (Tree_new ▷ add_ident EH_DUR_VAR ▷ add_punct (lit ".") ▷ add_ident (lit "duration") ▷ add_group_paren Tree_new)
             ▷ add_punct (lit ",")).

(* eventheader_macros/src/event_generator.rs:436-589: EventGenerator::add_field, data *)
Definition add_field_data (field : FieldInfo) (g : EventGenerator) : outcome EventGenerator :=
  let option := field.(fi_option) in
  let g := g ▷ with_arg_n (set_suffix g.(field_count) g.(arg_n)) in
  match option.(strategy) with
  | Scalar =>
    Ret (g ▷ add_func_scalar_arg option (identity_of field) ▷ add_data_desc_for_arg_n DATADESC_FROM_VALUE_PATH)
  | SystemTime =>
    Ret (g ▷ add_func_scalar_arg option (system_time_of field.(value_tokens))
           ▷ add_data_desc_for_arg_n DATADESC_FROM_VALUE_PATH)
  | RawData | RawField | RawFieldSlice =>
    Ret (g ▷ add_func_slice_arg option field.(value_tokens) ▷ add_data_desc_for_arg_n DATADESC_FROM_SLICE_PATH)
  | CStr =>
    Ret (g ▷ add_func_slice_arg option field.(value_tokens) ▷ add_data_desc_for_arg_n DATADESC_FROM_CSTR_PATH
           ▷ on_data (fun t => t ▷ add_path DATADESC_FROM_VALUE_PATH ▷ add_punct (lit "::") ▷ add_punct (lit "<")
                                 ▷ add_path option.(value_type) ▷ add_punct (lit ">")
                                 ▷ add_group_paren (Tree_new ▷ add_punct (lit "&") ▷ add_literal (Literal_unsuffixed 0))
                                 ▷ add_punct (lit ",")))
  | Str =>
    let g :=
      if option.(value_array_count) =? 0 then g ▷ add_func_slice_arg option field.(value_tokens)
      else g ▷ add_func_scalar_arg option (identity_of field) in
    g ▷ add_data_desc_with_length SLICE_COUNT_PATH DATADESC_FROM_SLICE_PATH
  | Slice =>
    g ▷ add_func_slice_arg option field.(value_tokens)
      ▷ add_data_desc_with_length SLICE_COUNT_PATH DATADESC_FROM_SLICE_PATH
  | Struct | RawStruct | RawStructSlice | RawMeta | RawMetaSlice => Ret g
  end.
(* eventheader_macros/src/event_generator.rs: EventGenerator::add_field *)
Definition add_field (field : FieldInfo) (g : EventGenerator) : outcome EventGenerator :=
  g ← add_field_data field (g ▷ add_field_meta field);
  count ← checked 16 (g.(field_count) + 1);
  Ret (g ▷ with_counts count g.(lengths_count)).
(** [for field in event.fields.drain(..)] *)
Fixpoint add_fields (fields : list FieldInfo) (g : EventGenerator) : outcome EventGenerator :=
  match fields with [] => Ret g | field :: fields => g ← add_field field g; add_fields fields g end.

(** ** The whole event *)

(** [[u8; 16]], and an id's argument: [name: Option<&[u8; 16]>]. *)
Definition id_type : Tree := Tree_new ▷ add_path U8_PATH ▷ add_punct (lit ";") ▷ add_literal (Literal_unsuffixed 16).
Definition add_id_arg (name : bytes) (t : Tree) : Tree :=
  t ▷ add_punct (lit ",") ▷ add_ident name ▷ add_punct (lit ":") ▷ add_path OPTION_PATH ▷ add_punct (lit "<")
    ▷ add_punct (lit "&") ▷ add_group_square id_type ▷ add_punct (lit ">").
(* eventheader_macros/src/event_generator.rs:74-138: EventGenerator::generate, before the fields *)
Definition before_fields (event : EventInfo) (g : EventGenerator) : EventGenerator :=
  g ▷ with_counts 0 0
    ▷ append_meta_name event.(ev_name)
    ▷ on_data (fun t => t ▷ add_path_call DATADESC_ZERO_PATH Tree_new ▷ add_punct (lit ",")
                          ▷ add_path_call DATADESC_ZERO_PATH Tree_new ▷ add_punct (lit ","))
    ▷ on_func_args (fun t => t ▷ add_ident EH_TRACEPOINT_VAR ▷ add_punct (lit ":") ▷ add_punct (lit "&")
                               ▷ add_path EVENTHEADERTRACEPOINT_PATH
                               ▷ add_id_arg EH_ACTIVITY_ID_VAR ▷ add_id_arg EH_RELATED_ID_VAR)
    ▷ on_func_call (fun t => t ▷ add_punct (lit "&") ▷ add_ident EH_TRACEPOINT_STATIC
                               ▷ add_punct (lit ",") ▷ add_borrowed_option_from_tokens (Ret event.(activity_id))
                               ▷ add_punct (lit ",") ▷ add_borrowed_option_from_tokens (Ret event.(related_id))).

(** [let _eh_lengths: [u16; N] = [...]; _eh_tracepoint.write_eventheader(aid, rid, &mut [...]) as u32] *)
(* eventheader_macros/src/event_generator.rs:200-234: EventGenerator::generate, body of _eh_write *)
Definition write_body (g : EventGenerator) : Tree :=
  Tree_new ▷ add_ident (lit "let") ▷ add_ident EH_LENGTHS_VAR ▷ add_punct (lit ":")
     ▷ add_group_square (Tree_new ▷ add_path U16_PATH ▷ add_punct (lit ";") ▷ add_literal (Literal_unsuffixed g.(lengths_count)))
     ▷ add_punct (lit "=") ▷ add_group_square g.(lengths_init_tree) ▷ add_punct (lit ";")
     ▷ add_ident EH_TRACEPOINT_VAR ▷ add_punct (lit ".") ▷ add_ident EH_TRACEPOINT_WRITE_EVENTHEADER
     ▷ add_group_paren (Tree_new ▷ add_ident EH_ACTIVITY_ID_VAR ▷ add_punct (lit ",") ▷ add_ident EH_RELATED_ID_VAR
                           ▷ add_punct (lit ",") ▷ add_punct (lit "&") ▷ add_ident (lit "mut")
                           ▷ add_group_square g.(data_desc_init_tree))
     ▷ add_ident (lit "as") ▷ add_path U32_PATH.
(** [#[link_section = "_eh_tracepoints_MY_PROVIDER"]] *)
Definition add_link_section (provider_symbol : bytes) (t : Tree) : Tree :=
  t ▷ add_punct (lit "#")
    ▷ add_group_square (Tree_new ▷ add_ident (lit "link_section") ▷ add_punct (lit "=")
                           ▷ add_literal (Literal_string (TRACEPOINTS_SECTION_PREFIX ++ provider_symbol))).
(** [static mut _EH_TRACEPOINT_PTR: *const EventHeaderTracepoint = &_EH_TRACEPOINT;] *)
Definition add_tracepoint_ptr (t : Tree) : Tree :=
  t ▷ add_ident (lit "static") ▷ add_ident (lit "mut") ▷ add_ident EH_TRACEPOINT_PTR_STATIC ▷ add_punct (lit ":")
    ▷ add_punct (lit "*") ▷ add_ident (lit "const") ▷ add_path EVENTHEADERTRACEPOINT_PATH ▷ add_punct (lit "=")
    ▷ add_punct (lit "&") ▷ add_ident EH_TRACEPOINT_STATIC ▷ add_punct (lit ";").
(* eventheader_macros/src/event_generator.rs:146-238: EventGenerator::generate, enabled_tree *)
Definition enabled_tree (event : EventInfo) (g : EventGenerator) : Tree :=
  Tree_new ▷ add_link_section event.(provider_symbol)
     ▷ add_punct (lit "#") ▷ add_group_square (Tree_new ▷ add_ident (lit "used"))
     ▷ add_tracepoint_ptr
     ▷ add_outer_attribute (lit "allow") (Tree_new ▷ add_ident (lit "clippy") ▷ add_punct (lit "::")
                                            ▷ add_ident (lit "too_many_arguments"))
     ▷ add_ident (lit "fn") ▷ add_ident EH_WRITE_FUNC ▷ add_group_paren g.(func_args_tree)
     ▷ add_punct (lit "->") ▷ add_path U32_PATH ▷ add_group_curly (write_body g)
     ▷ add_ident EH_WRITE_FUNC ▷ add_group_paren g.(func_call_tree).

(** [for (n, keyword) in event.keywords.drain(..).enumerate()]: the constants and the
    expression that combines them. *)
Fixpoint add_keywords (n : Z) (keywords : list TokenStream) (keyword_n : IdentBuilder) (event_tree tree1 : Tree) : Tree * Tree :=
  match keywords with
  | [] => (event_tree, tree1)
  | keyword :: keywords =>
    let keyword_n := set_suffix n keyword_n in
    add_keywords (n + 1) keywords keyword_n
      (event_tree ▷ add_const_from_tokens (current keyword_n) U64_PATH (Ret keyword))
      (tree1 ▷ add_punct (lit "|") ▷ add_ident (current keyword_n))
  end.
(* eventheader_macros/src/event_generator.rs:255-298: EventGenerator::generate, _EH_KEYWORD *)
Definition keyword_tree (keywords : list TokenStream) : Tree :=
  match keywords with
  | [keyword] => Tree_new ▷ add_const_from_tokens EH_KEYWORD_CONST U64_PATH (Ret keyword)
  | _ =>
    let (event_tree, tree1) :=
      add_keywords 0 keywords (IdentBuilder_new EH_KEYWORD_CONST) Tree_new (Tree_new ▷ add_literal (Literal_u64_suffixed 0)) in
    event_tree ▷ add_const_from_tokens EH_KEYWORD_CONST U64_PATH tree1
  end.

(** [identity::<&Provider>(&PROVIDER);] and
    [identity::<&usize>(define_provider);], where [define_provider] borrows
    [_eh_define_provider_MY_PROVIDER]: errors for a bad provider symbol. *)
Definition add_provider_checks (provider_symbol : bytes) (define_provider : Tree) (t : Tree) : Tree :=
  t ▷ add_identity_call PROVIDER_PATH 0 (Tree_new ▷ add_punct (lit "&") ▷ add_token (Ident provider_symbol)) ▷ add_punct (lit ";")
    ▷ add_path IDENTITY_PATH ▷ add_punct (lit "::") ▷ add_punct (lit "<") ▷ add_punct (lit "&")
    ▷ add_scalar_type_path USIZE_PATH 0 ▷ add_punct (lit ">") ▷ add_group_paren define_provider ▷ add_punct (lit ";").
Definition define_provider_ref (provider_symbol : bytes) : Tree :=
  Tree_new ▷ add_punct (lit "&") ▷ add_ident (PROVIDER_PTR_VAR_PREFIX ++ provider_symbol).
(** [static _EH_TRACEPOINT: EventHeaderTracepoint = EventHeaderTracepoint::new(EventHeader::from_parts(parts), keyword, &[meta]);] *)
Definition add_tracepoint_static (parts keyword meta : Tree) (t : Tree) : Tree :=
  t ▷ add_ident (lit "static") ▷ add_ident EH_TRACEPOINT_STATIC ▷ add_punct (lit ":")
    ▷ add_path EVENTHEADERTRACEPOINT_PATH ▷ add_punct (lit "=")
    ▷ add_path_call EVENTHEADERTRACEPOINT_NEW_PATH
        (Tree_new ▷ add_path_call EVENTHEADER_FROM_PARTS_PATH parts ▷ add_punct (lit ",") ▷ add_tokens keyword
            ▷ add_punct (lit ",") ▷ add_punct (lit "&") ▷ add_group_square meta)
    ▷ add_punct (lit ";").
(** The arguments of [EventHeader::from_parts]. *)
Definition header_parts (event : EventInfo) : Tree :=
  Tree_new ▷ add_path HEADER_FLAGS_DEFAULT_PATH ▷ add_punct (lit ",") ▷ add_tokens (Ret event.(version_tokens)) ▷ add_punct (lit ",")
     ▷ add_tokens (Ret event.(id_tokens)) ▷ add_punct (lit ",") ▷ add_tokens (Ret event.(ev_tag)) ▷ add_punct (lit ",")
     ▷ add_tokens (Ret event.(opcode_tokens)) ▷ add_punct (lit ",") ▷ add_tokens (Ret event.(ev_level)).
(* eventheader_macros/src/event_generator.rs:240-380: EventGenerator::generate, event_tree *)
Definition event_tree (event : EventInfo) (g : EventGenerator) : Tree :=
  keyword_tree event.(keywords)
    ▷ add_tokens g.(tags_tree)
    ▷ add_provider_checks event.(provider_symbol) (define_provider_ref event.(provider_symbol))
    ▷ add_tracepoint_static (header_parts event) (Tree_new ▷ add_ident EH_KEYWORD_CONST) g.(meta_tree)
    ▷ add_ident (lit "if") ▷ add_punct (lit "!") ▷ add_ident EH_TRACEPOINT_STATIC ▷ add_punct (lit ".")
    ▷ add_ident EH_TRACEPOINT_ENABLED ▷ add_group_paren Tree_new
    ▷ add_group_curly (Tree_new ▷ add_literal (Literal_u32_suffixed 9))
    ▷ add_ident (lit "else") ▷ add_group_curly (enabled_tree event g).
(* eventheader_macros/src/event_generator.rs: EventGenerator::generate *)
Definition generate (event : EventInfo) : outcome TokenStream :=
  g ← add_fields event.(fields) (before_fields event EventGenerator_new);
  Tree_new ▷ add_group_curly (event_tree event g).
End Generator.
