(* ===== verification/MacroProvider.v ===== *)
(** * MacroProvider: define_provider!, provider_enabled! and the macros as a whole
      (eventheader_macros/src/provider_info.rs, provider_generator.rs, enabled_info.rs,
      enabled_generator.rs, lib.rs) *)

From S2P Require Import Prelude Strings Types Writers MacroTokens MacroParser MacroFields MacroEvent MacroGenerator.

#[local] Abbreviation lit x := (str_bytes x).

(** ** The arguments of define_provider! *)

(* eventheader_macros/src/provider_info.rs: EVENTHEADER_NAME_MAX *)
Definition EVENTHEADER_NAME_MAX : Z := 256.
(* eventheader_macros/src/provider_info.rs: NAMES_MAX *)
Definition NAMES_MAX : Z := EVENTHEADER_NAME_MAX - len (lit "_LffKffffffffffffffffG").

(* eventheader_macros/src/provider_info.rs: struct ProviderInfo *)
Record ProviderInfo := {
  symbol : bytes;
  name : bytes;
  group_name : bytes;
  debug : bool;
}.
Definition set_name v p : ProviderInfo :=
  {| symbol := p.(symbol); name := v; group_name := p.(group_name); debug := p.(debug) |}.
Definition set_group_name v p : ProviderInfo :=
  {| symbol := p.(symbol); name := p.(name); group_name := v; debug := p.(debug) |}.
Definition set_debug v p : ProviderInfo :=
  {| symbol := p.(symbol); name := p.(name); group_name := p.(group_name); debug := v |}.

(** [!ch.is_ascii_lowercase() && !ch.is_ascii_digit()] *)
Definition is_lower_or_digit (ch : Z) : bool := ((97 <=? ch) && (ch <=? 122)) || is_ascii_digit ch.
(* eventheader_macros/src/provider_info.rs:53-64: ProviderInfo::try_from_tokens, provider name *)
Definition check_provider_name (prov_name : bytes) (e : Errors) : Errors :=
  e ▷ add_error_if (NAMES_MAX <=? len prov_name) (lit "provider name.len() must be less than 234 chars")
    ▷ add_error_if (has_nul prov_name) (lit "provider name must not contain '\0'")
    ▷ add_error_if (existsb (Z.eqb 32) prov_name) (lit "provider name must not contain ' '")
    ▷ add_error_if (existsb (Z.eqb 58) prov_name) (lit "provider name must not contain ':'").
(* eventheader_macros/src/provider_info.rs:101-113: ProviderInfo::try_from_tokens, group_name *)
Definition check_group_name (prov_name id_str : bytes) (e : Errors) : Errors :=
  let e := e ▷ add_error_if (negb (forallb is_lower_or_digit id_str))
                 (lit "group_name must contain only lowercase ASCII letters and ASCII digits") in
  if NAMES_MAX <=? len id_str then e ▷ add_error (lit "group_name.len() must be less than 234 chars")
  else if NAMES_MAX <=? len prov_name + len id_str then
    e ▷ add_error (lit "provider name.len() + group_name.len() must be less than 234 chars")
  else e.

(** [EXPECTED_GUID] *)
Definition EXPECTED_GUID : bytes :=
  lit "expected " ++ 34 :: lit "GUID" ++ 34 :: lit ", e.g. " ++ 34 :: lit "20cf46dd-3b90-476c-94e9-4e74bbc30e31" ++ [34].
(** One option: the provider, [prov_id_set] and [group_id_set], the errors. *)
(* eventheader_macros/src/provider_info.rs:72-123: ProviderInfo::try_from_tokens, option *)
Definition parse_provider_option (option_name : bytes) (args : TokenStream) (prov : ProviderInfo)
    (prov_id_set group_id_set : bool) (e : Errors) : ProviderInfo * (bool * bool) * Errors :=
  if str_is option_name "debug" then (set_debug true prov, (prov_id_set, group_id_set), e)
  else if str_is option_name "id" then
    let e := e ▷ add_error_if prov_id_set (lit "id already set") in
    let '(_, (_, e)) := next_string_literal RequiredLast EXPECTED_GUID args e in
    (prov, (true, group_id_set), e)
  else if str_is option_name "group_id" || str_is option_name "groupid" then
    let e := e ▷ add_error_if group_id_set (lit "group_id already set") in
    let '(_, (_, e)) := next_string_literal RequiredLast EXPECTED_GUID args e in
    (prov, (prov_id_set, true), e)
  else if str_is option_name "group_name" || str_is option_name "groupname" then
    let e := e ▷ add_error_if (negb (is_nil prov.(group_name))) (lit "group_name already set") in
    let '(literal, (_, e)) :=
      next_string_literal RequiredLast (lit "expected " ++ 34 :: lit "groupname" ++ [34]) args e in
    match literal with
    | Some id_str => (set_group_name id_str prov, (prov_id_set, group_id_set), check_group_name prov.(name) id_str e)
    | None => (prov, (prov_id_set, group_id_set), e)
    end
  else (prov, (prov_id_set, group_id_set),
        e ▷ add_error (lit "expected option(" ++ 34 :: lit "value" ++ 34 :: lit "), e.g. group_name(" ++ 34 :: lit "groupname"
                       ++ 34 :: lit ")")).
(** [while let ArgResult::Option(..) = root_parser.next_arg(false)]; an option takes at
    least two tokens. *)
(* eventheader_macros/src/provider_info.rs:67-124: ProviderInfo::try_from_tokens, options *)
Fixpoint parse_provider_options (fuel : nat) (prov : ProviderInfo) (prov_id_set group_id_set : bool) (it : TokenStream)
    (e : Errors) : outcome (ProviderInfo * Errors) :=
  match fuel with
  | O => Panic
  | S fuel =>
    match next_arg false it e with
    | (ArgOption option_name args, (it, e)) =>
      let '(prov, (prov_id_set, group_id_set), e) :=
        parse_provider_option option_name args prov prov_id_set group_id_set e in
      parse_provider_options fuel prov prov_id_set group_id_set it e
    | (_, (_, e)) => Ret (prov, e)
    end
  end.
(* eventheader_macros/src/provider_info.rs: ProviderInfo::try_from_tokens *)
Definition ProviderInfo_try_from_tokens (arg_tokens : TokenStream) : outcome (result ProviderInfo TokenStream) :=
  let '(ident, (it, e)) := next_ident RequiredNotLast
    (lit "expected identifier for provider symbol, e.g. MY_PROVIDER") arg_tokens Errors_new in
  let prov := {| symbol := default (lit "x") ident; name := []; group_name := []; debug := false |} in
  let '(literal, (it, e)) := next_string_literal Required
    (lit "expected string literal for provider name, e.g. define_provider!(MY_PROVIDER, " ++ 34 :: lit "MyCompany_MyComponent"
     ++ 34 :: lit ")") it e in
  let '(prov, e) :=
    match literal with
    | Some prov_name => (set_name prov_name prov, check_provider_name prov_name e)
    | None => (prov, e)
    end in
  '(prov, e) ← parse_provider_options (S (length it)) prov false false it e;
  Ret (if Errors_is_empty e then Ok prov else Err (into_items e)).

(** ** The code of define_provider! *)

(** [Literal::byte_string]: a byte that is not printable ASCII is escaped. *)
Definition escape_byte (b : Z) : bytes :=
  if b =? 9 then lit "\t" else if b =? 10 then lit "\n" else if b =? 13 then lit "\r"
  else if (b =? 34) || (b =? 92) then [92; b]
  else if (32 <=? b) && (b <=? 126) then [b]
  else lit "\x" ++ map (fun d => if d <? 10 then 48 + d else 87 + d) [Z.shiftr b 4; Z.land b 15].
Definition Literal_byte_string (s : bytes) : TokenTree := Literal (98 :: 34 :: flat_map escape_byte s ++ [34]).

Section Provider.
Context `{UnicodeIdent}.

(** [static SYMBOL: Provider = unsafe { provider_new(b"..", b"..", start, stop,) };] *)
Definition add_provider_static (provider : ProviderInfo) (options : bytes) (start stop : Tree) (t : Tree) : Tree :=
  t ▷ add_ident (lit "static") ▷ add_token (Ident provider.(symbol)) ▷ add_punct (lit ":") ▷ add_path PROVIDER_PATH
    ▷ add_punct (lit "=") ▷ add_ident (lit "unsafe")
    ▷ add_group_curly
        (Tree_new ▷ add_path_call PROVIDER_NEW_PATH
                (Tree_new ▷ add_literal (Literal_byte_string provider.(name)) ▷ add_punct (lit ",")
                    ▷ add_literal (Literal_byte_string options) ▷ add_punct (lit ",")
                    ▷ add_tokens start ▷ add_punct (lit ",") ▷ add_tokens stop ▷ add_punct (lit ",")))
    ▷ add_punct (lit ";").
(** [#[name = "value"]] *)
Definition add_name_value (name value : bytes) (t : Tree) : Tree :=
  t ▷ add_punct (lit "#")
    ▷ add_group_square (Tree_new ▷ add_ident name ▷ add_punct (lit "=") ▷ add_literal (Literal_string value)).
(** [#[link_name = "section"] static mut section: usize;], without the first underscore. *)
Definition add_section_symbol (section : bytes) (t : Tree) : Tree :=
  t ▷ add_name_value (lit "link_name") section
    ▷ add_ident (lit "static") ▷ add_ident (lit "mut") ▷ add_ident (drop 1 section) ▷ add_punct (lit ":")
    ▷ add_path USIZE_PATH ▷ add_punct (lit ";").
(** [&section as *const usize] *)
Definition section_address (section : bytes) : Tree :=
  Tree_new ▷ add_punct (lit "&") ▷ add_ident (drop 1 section) ▷ add_ident (lit "as") ▷ add_punct (lit "*")
     ▷ add_ident (lit "const") ▷ add_path USIZE_PATH.
(* eventheader_macros/src/provider_generator.rs:36-40: ProviderGenerator::generate, options *)
Definition provider_options (group_name : bytes) : bytes := if is_nil group_name then [] else lit "G" ++ group_name.
(* eventheader_macros/src/provider_generator.rs: ProviderGenerator::generate *)
Definition ProviderGenerator_generate (provider : ProviderInfo) : Tree :=
  let provider_section_start := TRACEPOINTS_SECTION_START_PREFIX ++ provider.(symbol) in
  let provider_section_stop := TRACEPOINTS_SECTION_STOP_PREFIX ++ provider.(symbol) in
  let options := provider_options provider.(group_name) in
  let null := Tree_new ▷ add_path_call NULL_PATH Tree_new in
  Tree_new ▷ add_cfg_not_linux
     ▷ add_provider_static provider options null null
     ▷ add_cfg_linux
     ▷ add_ident (lit "extern")
     ▷ add_group_curly (Tree_new ▷ add_section_symbol provider_section_start ▷ add_section_symbol provider_section_stop)
     ▷ add_name_value (lit "link_section") (TRACEPOINTS_SECTION_PREFIX ++ provider.(symbol))
     ▷ add_punct (lit "#") ▷ add_group_square (Tree_new ▷ add_ident (lit "no_mangle"))
     ▷ add_punct (lit "#") ▷ add_group_square (Tree_new ▷ add_ident (lit "used"))
     ▷ add_ident (lit "static") ▷ add_ident (PROVIDER_PTR_VAR_PREFIX ++ provider.(symbol)) ▷ add_punct (lit ":")
     ▷ add_path USIZE_PATH ▷ add_punct (lit "=") ▷ add_literal (Literal_unsuffixed 0) ▷ add_punct (lit ";")
     ▷ add_cfg_linux
     ▷ add_outer_attribute (lit "allow") (Tree_new ▷ add_ident (lit "static_mut_refs"))
     ▷ add_provider_static provider options
         (section_address provider_section_start) (section_address provider_section_stop).

(** ** provider_enabled! *)

(* eventheader_macros/src/enabled_info.rs: struct EnabledInfo *)
Record EnabledInfo := {
  en_provider_symbol : bytes;
  en_level : TokenStream;
  en_keyword : TokenStream;
}.
(* eventheader_macros/src/enabled_info.rs: EnabledInfo::try_from_tokens *)
Definition EnabledInfo_try_from_tokens (arg_tokens : TokenStream) : result EnabledInfo TokenStream :=
  let '(ident, (it, e)) := next_ident RequiredNotLast
    (lit "expected identifier for provider symbol, e.g. MY_PROVIDER") arg_tokens Errors_new in
  let '(level, (it, e)) := next_tokens Required (lit "expected constant for level, e.g. Level::Verbose") it e in
  let '(keyword, (it, e)) := next_tokens RequiredLast (lit "expected constant for keyword, e.g. 1 or 0x1f") it e in
  if Errors_is_empty e then
    Ok {| en_provider_symbol := default (lit "x") ident; en_level := level; en_keyword := keyword |}
  else Err (into_expression e).

(* eventheader_macros/src/enabled_generator.rs: EnabledGenerator::generate *)
Definition EnabledGenerator_generate (enabled : EnabledInfo) : Tree :=
  let event_tree :=
    Tree_new ▷ add_provider_checks enabled.(en_provider_symbol)
           (Tree_new ▷ add_ident (lit "unsafe") ▷ add_group_curly (define_provider_ref enabled.(en_provider_symbol)))
       ▷ add_tracepoint_static
           (Tree_new ▷ add_path HEADER_FLAGS_DEFAULT_PATH ▷ add_punct (lit ",") ▷ add_literal (Literal_unsuffixed 0)
               ▷ add_punct (lit ",") ▷ add_literal (Literal_unsuffixed 0) ▷ add_punct (lit ",")
               ▷ add_literal (Literal_unsuffixed 0) ▷ add_punct (lit ",") ▷ add_path OPCODE_INFO_PATH
               ▷ add_punct (lit ",") ▷ add_tokens (Ret enabled.(en_level)))
           (Ret enabled.(en_keyword)) Tree_new
       ▷ add_link_section enabled.(en_provider_symbol)
       ▷ add_tracepoint_ptr
       ▷ add_ident EH_TRACEPOINT_STATIC ▷ add_punct (lit ".") ▷ add_ident EH_TRACEPOINT_ENABLED ▷ add_group_paren Tree_new in
  Tree_new ▷ add_group_curly event_tree.

(** ** The macros *)

(* eventheader_macros/src/lib.rs: define_provider *)
Definition define_provider (arg_tokens : TokenStream) : outcome TokenStream :=
  prov ← ProviderInfo_try_from_tokens arg_tokens;
  match prov with Err error_tokens => Ret error_tokens | Ok prov => ProviderGenerator_generate prov end.
(* eventheader_macros/src/lib.rs: provider_enabled *)
Definition provider_enabled (arg_tokens : TokenStream) : outcome TokenStream :=
  match EnabledInfo_try_from_tokens arg_tokens with
  | Err error_tokens => Ret error_tokens
  | Ok enabled => EnabledGenerator_generate enabled
  end.
(* eventheader_macros/src/lib.rs: write_event *)
Definition write_event `{TokenText} (arg_tokens : TokenStream) : outcome TokenStream :=
  event ← try_from_tokens arg_tokens;
  match event with Err error_tokens => Ret error_tokens | Ok event => generate event end.
End Provider.
