(* ===== verification/MacroRuntime.v ===== *)
(** * MacroRuntime: what the generated code calls
      (tracepoint/src/descriptors.rs, eventheader/src/_internal.rs, eventheader/src/provider.rs)

    A slice is the list of its elements, an element the bytes it occupies; a descriptor
    is the bytes it points to. *)

From S2P Require Import Prelude Types ByteReader Tracepoint Provider Builder.

(** ** Descriptors *)

(* tracepoint/src/descriptors.rs: EventDataDescriptor::zero *)
Definition EventDataDescriptor_zero : bytes := [].
(* tracepoint/src/descriptors.rs: EventDataDescriptor::is_empty *)
Definition EventDataDescriptor_is_empty (d : bytes) : bool := len d =? 0.
(* tracepoint/src/descriptors.rs: EventDataDescriptor::from_bytes *)
Definition EventDataDescriptor_from_bytes (value : bytes) : bytes := value.
(* tracepoint/src/descriptors.rs: EventDataDescriptor::from_value *)
Definition EventDataDescriptor_from_value (value : bytes) : bytes := value.
(** [&value[..MAX_LEN]], when the slice is longer. *)
Definition MAX_LEN : Z := 65535.
Definition at_most_max (value : list bytes) : list bytes :=
  if MAX_LEN <? len value then take (Z.to_nat MAX_LEN) value else value.
(** [while l < value_len]: [n] is [value_len - l]. *)
Fixpoint from_cstr_loop (n : nat) (zero : bytes) (value : list bytes) (l : nat) : list bytes :=
  match n with
  | O => value
  | S n => if bool_decide (value !! l = Some zero) then take l value else from_cstr_loop n zero value (S l)
  end.
(* tracepoint/src/descriptors.rs: EventDataDescriptor::from_cstr *)
Definition EventDataDescriptor_from_cstr (size_of : Z) (value : list bytes) : bytes :=
  let value := at_most_max value in
  concat (from_cstr_loop (length value) (zero_element size_of) value 0).
(* tracepoint/src/descriptors.rs: EventDataDescriptor::from_slice *)
Definition EventDataDescriptor_from_slice (value : list bytes) : bytes := concat (at_most_max value).

Section Target.
Context `{Target}.

(** ** Helpers of the generated code *)

(* eventheader/src/_internal.rs: tag_byte0 *)
Definition tag_byte0 (tag : Z) : Z := nth 0 (to_ne_bytes 2 tag) 0.
(* eventheader/src/_internal.rs: tag_byte1 *)
Definition tag_byte1 (tag : Z) : Z := nth 1 (to_ne_bytes 2 tag) 0.
(* eventheader/src/_internal.rs: slice_count *)
Definition slice_count {A} (value : list A) : Z := if 65535 <? len value then 65535 else as_unsigned 16 (len value).

(** A [Duration] is its seconds and its nanoseconds. *)
(* eventheader/src/_internal.rs: time_from_duration_after_1970 *)
Definition time_from_duration_after_1970 (secs nanos : Z) : Z :=
  if 2 ^ 63 - 1 <? secs then 2 ^ 63 - 1 else as_signed 64 secs.
(* eventheader/src/_internal.rs: time_from_duration_before_1970 *)
Definition time_from_duration_before_1970 (secs nanos : Z) : outcome Z :=
  if 2 ^ 63 - 1 <? secs then Ret (- 2 ^ 63)
  else
    m ← checked_signed 64 (- as_signed 64 secs);
    checked_signed 64 (m - bool_value (negb (nanos =? 0))).

(** ** The tracepoint of an event *)

Section Write.
Context `{UserEvents}.

(* eventheader/src/provider.rs: EventHeaderTracepoint::enabled *)
Definition EventHeaderTracepoint_enabled (t : EventHeaderTracepoint) : bool := TracepointState_enabled t.(ht_state).
(* eventheader/src/provider.rs: EventHeaderTracepoint::write_eventheader *)
Definition EventHeaderTracepoint_write_eventheader (file_or_error : Z) (activity_id related_id : option bytes)
    (data : list bytes) (t : EventHeaderTracepoint) : outcome (Z * option (list bytes)) :=
  d1 ← index data 1;
  _ ← rassert (EventDataDescriptor_is_empty d1);
  data ← store data 1 (EventDataDescriptor_from_bytes t.(ht_metadata));
  write_eventheader file_or_error t.(ht_state) t.(ht_header) activity_id related_id
    (as_unsigned 16 (len t.(ht_metadata))) data.
End Write.
End Target.
