(* ===== verification/MacroMeaning.v ===== *)
(** * MacroMeaning: what the code generated by write_event! means

    [generated_event] evaluates the trees of the generator: the array of the metadata
    to its bytes and the array of descriptors to the data, with the constants of the
    tags, the arguments of [_eh_write] and the lengths that the code declares.  The
    value of an expression of the user is the compiler's. *)

From S2P Require Import Prelude Strings Types ByteReader Writers FloatsProps Builder MacroTokens MacroParser MacroFields MacroEvent MacroGenerator.
From S2P Require Import MacroRuntime.

(** What an argument refers to: elements of [elem_size] bytes. *)
Record Argument := { elem_size : Z; elems : list bytes }.
Class RustValues := {
  (** the value of a constant expression of the type with the given path *)
  const_value : list bytes -> TokenStream -> Z;
  arg_value : TokenStream -> Argument;
}.

(** ** Reading generated tokens *)

(** The parts between the tokens [sep]. *)
Fixpoint items (sep : Z) (ts : TokenStream) : list TokenStream :=
  match ts with
  | [] => []
  | t :: ts =>
    if is_punct sep t then [] :: items sep ts
    else match items sep ts with [] => [[t]] | i :: rest => (t :: i) :: rest end
  end.
(** [::a::b..] and what follows. *)
Fixpoint take_path (ts : TokenStream) : list bytes * TokenStream :=
  match ts with
  | Punct c Joint :: ((Punct c' Alone :: Ident name :: rest) as ts') =>
    if (c =? 58) && (c' =? 58) then let (path, rest) := take_path rest in (name :: path, rest) else ([], ts)
  | _ => ([], ts)
  end.
#[local] Abbreviation is_path p q := (bool_decide (p = q)).
Definition lookup_name {A} (name : bytes) (env : list (bytes * A)) : option A :=
  option_map snd (find (fun x => bool_decide (x.1 = name)) env).

Section Values.
Context `{Target} `{RustValues}.

(** [FieldEncoding::ValueSize] on a 64-bit target. *)
Definition encoding_constant (name : bytes) : option Z := if str_is name "ValueSize" then Some 5 else None.
(** [const NAME: type = tokens], between semicolons. *)
Definition const_item (item : TokenStream) : option (bytes * Z) :=
  match item with
  | Ident _ :: Ident name :: Punct _ _ :: rest =>
    match take_path rest with (ty, Punct _ _ :: tokens) => Some (name, const_value ty tokens) | _ => None end
  | _ => None
  end.

(** [ENUM::name] or [identity::<ENUM>(tokens)], with what follows. *)
Definition enum_value (path : list bytes) (rest : TokenStream) : option (Z * TokenStream) :=
  if is_path path IDENTITY_PATH then
    match rest with
    | Punct _ Joint :: Punct _ Alone :: Punct _ Alone :: rest =>
      match take_path rest with
      | (ty, Punct _ _ :: Group Parenthesis tokens :: rest) => Some (const_value ty tokens, rest)
      | _ => None
      end
    | _ => None
    end
  else
    match rev path with
    | name :: ty => if is_path (rev ty) ENCODING_PATH then option_map (fun v => (v, rest)) (encoding_constant name) else None
    | [] => None
    end.
(** [.as_int()] and the flags. *)
Definition enum_byte (v : Z) (rest : TokenStream) : option Z :=
  match rest with
  | Punct 46 Alone :: Ident as_int :: Group Parenthesis [] :: rest =>
    if str_is as_int "as_int" then
      match rest with
      | [] => Some v
      | [Punct 124 Alone; Literal flags] => Some (Z.lor v (literal_number flags))
      | _ => None
      end
    else None
  | _ => None
  end.
(** One byte of the metadata. *)
Definition meta_byte (consts : list (bytes * Z)) (item : TokenStream) : option Z :=
  match item with
  | [Literal n] => Some (literal_number n)
  | _ =>
    let (path, rest) := take_path item in
    if is_path path TAG_BYTE0_PATH || is_path path TAG_BYTE1_PATH then
      match rest with
      | [Group Parenthesis [Ident name]] =>
        option_map (if is_path path TAG_BYTE0_PATH then tag_byte0 else tag_byte1) (lookup_name name consts)
      | _ => None
      end
    else match enum_value path rest with Some (v, rest) => enum_byte v rest | None => None end
  end.

(** ** The data *)

(** The parameters of [_eh_write] and what the call passes. *)
Definition param_names (func_args : TokenStream) : list bytes :=
  map (fun item => match item with Ident name :: _ => name | _ => [] end) (items 44 func_args).
Definition arguments (func_args func_call : TokenStream) : list (bytes * Argument) :=
  combine (param_names func_args) (map arg_value (items 44 func_call)).
(** [slice_count(arg)] *)
Definition length_value (args : list (bytes * Argument)) (item : TokenStream) : option Z :=
  match take_path item with
  | (path, [Group Parenthesis [Ident name]]) =>
    if is_path path SLICE_COUNT_PATH then option_map (fun a => slice_count a.(elems)) (lookup_name name args) else None
  | _ => None
  end.
(** The size of the type of a nul. *)
Definition char_size (path : list bytes) : option Z :=
  if is_path path U8_PATH then Some 1 else if is_path path U16_PATH then Some 2
  else if is_path path U32_PATH then Some 4 else None.
(** One descriptor. *)
Definition descriptor (args : list (bytes * Argument)) (lengths : list Z) (item : TokenStream) : option bytes :=
  let (path, rest) := take_path item in
  let arg name (f : Argument -> bytes) := option_map f (lookup_name name args) in
  if is_path path DATADESC_ZERO_PATH then
    match rest with [Group Parenthesis []] => Some EventDataDescriptor_zero | _ => None end
  else if is_path path DATADESC_FROM_VALUE_PATH then
    match rest with
    | [Group Parenthesis [Ident name]] => arg name (fun a => EventDataDescriptor_from_value (concat a.(elems)))
    | [Group Parenthesis [Punct 38 Alone; Ident _; Group Bracket [Literal i]]] =>
      option_map (fun n => EventDataDescriptor_from_value (to_ne_bytes 2 n)) (nth_error lengths (Z.to_nat (literal_number i)))
    | Punct _ Joint :: Punct _ Alone :: Punct _ Alone :: rest =>
      match take_path rest with
      | (ty, [Punct 62 Alone; Group Parenthesis [Punct 38 Alone; Literal n]]) =>
        option_map (fun size => EventDataDescriptor_from_value (to_ne_bytes (Z.to_nat size) (literal_number n))) (char_size ty)
      | _ => None
      end
    | _ => None
    end
  else if is_path path DATADESC_FROM_SLICE_PATH then
    match rest with
    | [Group Parenthesis [Ident name]] => arg name (fun a => EventDataDescriptor_from_slice a.(elems))
    | _ => None
    end
  else if is_path path DATADESC_FROM_CSTR_PATH then
    match rest with
    | [Group Parenthesis [Ident name]] => arg name (fun a => EventDataDescriptor_from_cstr a.(elem_size) a.(elems))
    | _ => None
    end
  else None.

(** The metadata of the tracepoint and the descriptors given to [write_eventheader]. *)
Definition trees_event (tags meta func_args func_call lengths data : TokenStream) : option (bytes * list bytes) :=
  match mapM const_item (items 59 tags) with
  | Some consts =>
    let args := arguments func_args func_call in
    match mapM (meta_byte consts) (items 44 meta), mapM (length_value args) (items 44 lengths) with
    | Some metadata, Some lengths => option_map (pair metadata) (mapM (descriptor args lengths) (items 44 data))
    | _, _ => None
    end
  | None => None
  end.
Definition generated_event (g : EventGenerator) : option (bytes * list bytes) :=
  match g.(tags_tree), g.(meta_tree), g.(func_args_tree), g.(func_call_tree), g.(lengths_init_tree), g.(data_desc_init_tree) with
  | Ret tags, Ret meta, Ret func_args, Ret func_call, Ret lengths, Ret data =>
    trees_event tags meta func_args func_call lengths data
  | _, _, _, _, _, _ => None
  end.
End Values.
