(* ===== verification/MacroPieces.v ===== *)
(** * MacroPieces: what one field adds to the generated code

    Each tree of the generator is a list of pieces, each followed, or each preceded, by
    a comma; [add_field_pieces] gives the pieces of a field. *)

From S2P Require Import Prelude Strings Types ByteReader Writers FloatsProps Builder MacroTokens MacroTrees MacroParser MacroFields MacroEvent MacroGenerator.
From S2P Require Import MacroRuntime MacroMeaning.

#[local] Abbreviation lit x := (str_bytes x).

(** ** Lists of pieces *)

Definition comma : TokenTree := Punct 44 Alone.
Definition listed (ps : list TokenStream) : TokenStream := concat (map (fun p => p ++ [comma]) ps).
Definition led (ps : list TokenStream) : TokenStream := concat (map (fun p => comma :: p) ps).
Definition free (sep : Z) (p : TokenStream) : Prop := Forall (fun t => is_punct sep t = false) p.

Lemma listed_app a b : listed (a ++ b) = listed a ++ listed b.
Proof. unfold listed. by rewrite map_app, concat_app. Qed.
Lemma listed_nil : listed [] = [].
Proof. done. Qed.
Lemma listed_cons p ps : listed (p :: ps) = p ++ [comma] ++ listed ps.
Proof. unfold listed. cbn [map concat]. by rewrite <- app_assoc. Qed.
Lemma led_app a b : led (a ++ b) = led a ++ led b.
Proof. unfold led. by rewrite map_app, concat_app. Qed.

Lemma items_free sep p : free sep p -> p <> [] -> items sep p = [p].
Proof.
  intros Hp. induction Hp as [|t p Ht Hp IH]; intros Hne; [done|]. cbn [items]. rewrite Ht.
  destruct p; [done|]. by rewrite IH.
Qed.
Lemma items_piece sep s p rest : free sep p -> items sep (p ++ Punct sep s :: rest) = p :: items sep rest.
Proof.
  intros Hp. induction Hp as [|t p Ht Hp IH]; cbn [items app].
  - cbn [is_punct]. by rewrite Z.eqb_refl.
  - by rewrite Ht, IH.
Qed.
Lemma items_listed ps : Forall (free 44) ps -> items 44 (listed ps) = ps.
Proof.
  induction 1 as [|p ps Hp Hps IH]; [done|]. unfold listed. cbn [map concat]. rewrite <- (assoc_L (++)). cbn [app].
  unfold comma. rewrite items_piece by done. by f_equal.
Qed.
Lemma items_led p ps : Forall (fun p => free 44 p /\ p <> []) (p :: ps) -> items 44 (p ++ led ps) = p :: ps.
Proof.
  revert p. induction ps as [|q ps IH]; intros p Hps; apply Forall_cons_iff in Hps as [[Hp Hn] Hps].
  - rewrite app_nil_r. by apply items_free.
  - unfold led. cbn [map concat app]. unfold comma at 1. rewrite items_piece by done. f_equal. by apply IH.
Qed.

Lemma take_path_app parts rest : take_path rest = ([], rest) -> take_path (path_tokens parts ++ rest) = (parts, rest).
Proof.
  intros Hr. induction parts as [|p parts IH]; [done|]. cbn [path_tokens flat_map app take_path].
  change (flat_map _ parts ++ rest) with (path_tokens parts ++ rest). rewrite IH. reflexivity.
Qed.
Lemma path_tokens_free sep parts : sep <> 58 -> free sep (path_tokens parts).
Proof.
  intros Hs. induction parts as [|p parts IH]; [constructor|]. cbn [path_tokens flat_map app].
  do 3 (constructor; [cbn [is_punct]; try done; by apply Z.eqb_neq; lia|]). exact IH.
Qed.
Lemma free_app sep a b : free sep a -> free sep b -> free sep (a ++ b).
Proof. intros Ha Hb. by apply Forall_app. Qed.

(** ** Numbered names *)

Definition named (base : bytes) (b : IdentBuilder) : Prop := b.(base_len) = len base /\ take (length base) b.(ident) = base.
Lemma named_new base : named base (IdentBuilder_new base).
Proof. split; [done|]. cbn. by rewrite firstn_all. Qed.
Lemma set_suffix_named base n b :
  named base b -> named base (set_suffix n b) /\ current (set_suffix n b) = base ++ fmt_decimal n.
Proof.
  intros [Hl Ht]. unfold set_suffix, current, named. cbn [ident base_len]. rewrite Hl. unfold len. rewrite Nat2Z.id, Ht.
  split_and!; [done|by rewrite take_app_length|done].
Qed.
Definition tag_name (n : Z) : bytes := EH_TAG_CONST ++ fmt_decimal n.
Definition arg_name (n : Z) : bytes := EH_ARG_VAR ++ fmt_decimal n.
Lemma numbered_inj base i j : 0 <= i < 2 ^ 16 -> 0 <= j < 2 ^ 16 -> base ++ fmt_decimal i = base ++ fmt_decimal j -> i = j.
Proof.
  intros Hi Hj E. apply app_inv_head in E. apply (f_equal literal_number) in E.
  by rewrite !decimal_literal in E by lia.
Qed.

(** ** The metadata of a field *)

Definition as_int_tokens (flags : Z) : TokenStream :=
  [Punct 46 Alone; Ident (lit "as_int"); Group Parenthesis []]
  ++ (if negb (flags =? 0) then [Punct 124 Alone; Literal_unsuffixed flags] else []).
Definition typecode_piece (path : list bytes) (tokens : TokenStream) (token : EnumToken) (flags : Z) : TokenStream :=
  match tokens, token with
  | [], EnumToken_U8 n => [Literal_unsuffixed (Z.lor n flags)]
  | [], EnumToken_Str name => path_tokens (path ++ [name]) ++ as_int_tokens flags
  | _, _ => path_tokens IDENTITY_PATH ++ puncts (lit "::") ++ puncts (lit "<") ++ path_tokens path ++ puncts (lit ">")
            ++ [Group Parenthesis tokens] ++ as_int_tokens flags
  end.
Definition has_tag (fi : FieldInfo) : bool := negb (is_nil fi.(fi_tag)).
Definition has_out (fi : FieldInfo) : bool :=
  negb (is_nil fi.(format_or_field_count_expr)) || negb (fi.(format_or_field_count_int) =? 0).
Definition name_pieces (name : bytes) : list TokenStream := map (fun ch => [Literal_unsuffixed ch]) (name ++ [0]).
Definition tag_pieces (n : Z) (fi : FieldInfo) : list TokenStream :=
  if has_tag fi then map (fun path => path_tokens path ++ [Group Parenthesis [Ident (tag_name n)]]) [TAG_BYTE0_PATH; TAG_BYTE1_PATH]
  else [].
Definition meta_pieces (n : Z) (fi : FieldInfo) : list TokenStream :=
  let o := fi.(fi_option) in
  if has_metadata o.(strategy) then
    name_pieces fi.(fi_name)
    ++ [typecode_piece ENCODING_PATH fi.(encoding_tokens) (to_token o.(encoding))
          (Z.lor (if has_out fi || has_tag fi then 0x80 else 0) (if is_slice o.(strategy) then VArrayFlag else 0))]
    ++ (if has_out fi || has_tag fi then
          [typecode_piece FORMAT_PATH fi.(format_or_field_count_expr) (EnumToken_U8 fi.(format_or_field_count_int))
             (if has_tag fi then 0x80 else 0)]
        else [])
    ++ tag_pieces n fi
  else [].
(** The constant of a tag, with the semicolon after it. *)
Definition const_piece (name : bytes) (tokens : TokenStream) : TokenStream :=
  [Ident (lit "const"); Ident name; Punct 58 Alone] ++ path_tokens U16_PATH ++ [Punct 61 Alone] ++ tokens.
Definition tag_consts (n : Z) (fi : FieldInfo) : TokenStream :=
  if has_metadata fi.(fi_option).(strategy) && has_tag fi then const_piece (tag_name n) fi.(fi_tag) ++ [Punct 59 Alone] else [].

(** ** The data of a field *)

Definition has_data (fi : FieldInfo) : bool := negb (data_count fi.(fi_option).(strategy) =? 0).
Definition type_tokens (path : list bytes) (count : Z) : TokenStream :=
  if count =? 0 then path_tokens path
  else [Group Bracket (path_tokens path ++ [Punct 59 Alone; Literal_unsuffixed count])].
Definition scalar_type (o : FieldOption) : TokenStream := type_tokens o.(value_type) o.(value_array_count).
(** [identity::<&T>(tokens)] *)
Definition identity_tokens (ty tokens : TokenStream) : TokenStream :=
  path_tokens IDENTITY_PATH ++ puncts (lit "::") ++ puncts (lit "<") ++ puncts (lit "&") ++ ty ++ puncts (lit ">")
  ++ [Group Parenthesis tokens].
(** [& match SystemTime::duration_since(tokens, UNIX_EPOCH) { Ok(dur) => .., Err(dur) => .. }] *)
Definition system_time_tokens (tokens : TokenStream) : TokenStream :=
  let dur := [Group Parenthesis [Ident EH_DUR_VAR]] in
  [Punct 38 Alone; Ident (lit "match")] ++ path_tokens SYSTEMTIME_DURATION_SINCE_PATH
  ++ [Group Parenthesis (tokens ++ [comma] ++ path_tokens SYSTEMTIME_UNIX_EPOCH_PATH);
      Group Brace
        (path_tokens RESULT_OK_PATH ++ dur ++ puncts (lit "=>") ++ path_tokens TIME_FROM_DURATION_AFTER_PATH ++ dur ++ [comma]
         ++ path_tokens RESULT_ERR_PATH ++ dur ++ puncts (lit "=>") ++ path_tokens TIME_FROM_DURATION_BEFORE_PATH
         ++ [Group Parenthesis [Ident EH_DUR_VAR; Punct 46 Alone; Ident (lit "duration"); Group Parenthesis []]; comma])].
(** [AsRef::<[T]>::as_ref(value)] *)
Definition as_ref_of (fi : FieldInfo) : TokenStream :=
  path_tokens ASREF_PATH ++ puncts (lit "::") ++ puncts (lit "<") ++ [Group Bracket (scalar_type fi.(fi_option))]
  ++ puncts (lit ">") ++ puncts (lit "::") ++ [Ident (lit "as_ref"); Group Parenthesis fi.(value_tokens)].
(** Whether the argument is a slice. *)
Definition by_slice (fi : FieldInfo) : bool :=
  match fi.(fi_option).(strategy) with
  | Str => fi.(fi_option).(value_array_count) =? 0
  | RawData | RawField | RawFieldSlice | CStr | Slice => true
  | _ => false
  end.
Definition call_tokens (fi : FieldInfo) : TokenStream :=
  if by_slice fi then as_ref_of fi
  else match fi.(fi_option).(strategy) with
       | SystemTime => system_time_tokens fi.(value_tokens)
       | _ => identity_tokens (scalar_type fi.(fi_option)) fi.(value_tokens)
       end.
Definition param_tokens (n : Z) (fi : FieldInfo) : TokenStream :=
  [Ident (arg_name n); Punct 58 Alone; Punct 38 Alone]
  ++ (if by_slice fi then [Group Bracket (scalar_type fi.(fi_option))] else scalar_type fi.(fi_option)).
(** [path(_eh_argN)] *)
Definition arg_call (path : list bytes) (n : Z) : TokenStream := path_tokens path ++ [Group Parenthesis [Ident (arg_name n)]].
Definition has_length (fi : FieldInfo) : bool := match fi.(fi_option).(strategy) with Str | Slice => true | _ => false end.
Definition length_pieces (n : Z) (fi : FieldInfo) : list TokenStream :=
  if has_length fi then [arg_call SLICE_COUNT_PATH n] else [].
(** [from_value::<T>(&0)] *)
Definition nul_piece (o : FieldOption) : TokenStream :=
  path_tokens DATADESC_FROM_VALUE_PATH ++ puncts (lit "::") ++ puncts (lit "<") ++ path_tokens o.(value_type)
  ++ puncts (lit ">") ++ [Group Parenthesis [Punct 38 Alone; Literal_unsuffixed 0]].
(** [from_value(&_eh_lengths[k])] *)
Definition length_ref (k : Z) : TokenStream :=
  path_tokens DATADESC_FROM_VALUE_PATH
  ++ [Group Parenthesis [Punct 38 Alone; Ident EH_LENGTHS_VAR; Group Bracket [Literal_unsuffixed k]]].
Definition data_pieces (n k : Z) (fi : FieldInfo) : list TokenStream :=
  match fi.(fi_option).(strategy) with
  | Scalar | SystemTime => [arg_call DATADESC_FROM_VALUE_PATH n]
  | RawData | RawField | RawFieldSlice => [arg_call DATADESC_FROM_SLICE_PATH n]
  | CStr => [arg_call DATADESC_FROM_CSTR_PATH n; nul_piece fi.(fi_option)]
  | Str | Slice => [length_ref k; arg_call DATADESC_FROM_SLICE_PATH n]
  | _ => []
  end.

(** ** [add_field] *)

(** The generator after the field [n]. *)
Definition with_pieces (fi : FieldInfo) (tagn argn : IdentBuilder) (g : EventGenerator) : EventGenerator :=
  let n := g.(field_count) in
  let k := g.(lengths_count) in
  mk_generator
    (extend (tag_consts n fi) g.(tags_tree))
    (extend (listed (meta_pieces n fi)) g.(meta_tree))
    (extend (if has_data fi then comma :: param_tokens n fi else []) g.(func_args_tree))
    (extend (if has_data fi then comma :: call_tokens fi else []) g.(func_call_tree))
    (extend (listed (length_pieces n fi)) g.(lengths_init_tree))
    (extend (listed (data_pieces n k fi)) g.(data_desc_init_tree))
    tagn argn (n + 1) (k + len (length_pieces n fi)).

Section Unicode.
Context `{UnicodeIdent}.

(** The type of a field of the table is a path of identifiers. *)
Definition plain_type (fi : FieldInfo) : Prop := idents fi.(fi_option).(value_type) = true.

Lemma tag_name_ident n : 0 <= n -> is_ident (tag_name n) = true.
Proof. intros Hn. apply (numbered_ident 95 (lit "EH_TAG")); [reflexivity|lia|repeat constructor; lia|done]. Qed.
Lemma arg_name_ident n : 0 <= n -> is_ident (arg_name n) = true.
Proof. intros Hn. apply (numbered_ident 95 (lit "eh_arg")); [reflexivity|lia|repeat constructor; lia|done]. Qed.

(** The additions to a tree as one. *)
Ltac flatten :=
  cbn [tags_tree meta_tree func_args_tree func_call_tree lengths_init_tree data_desc_init_tree tag_n arg_n field_count
       lengths_count mk_generator];
  flatten_trees; rewrite <- ?app_assoc.

Lemma append_metas_eq name g : append_metas name g = on_meta (extend (listed (map (fun ch => [Literal_unsuffixed ch]) name))) g.
Proof.
  revert g. induction name as [|ch name IH]; intros g; cbn [append_metas map].
  - unfold on_meta. change (listed []) with (@nil TokenTree). rewrite extend_nil. by destruct g.
  - rewrite IH. unfold append_meta, on_meta. f_equal. flatten. reflexivity.
Qed.
Lemma append_meta_name_eq name g : append_meta_name name g = on_meta (extend (listed (name_pieces name))) g.
Proof.
  unfold append_meta_name, name_pieces. rewrite append_metas_eq, map_app, listed_app. unfold append_meta, on_meta. f_equal.
  flatten. reflexivity.
Qed.
Lemma path_tokens_app a b : path_tokens (a ++ b) = path_tokens a ++ path_tokens b.
Proof. apply flat_map_app. Qed.
(** The paths of enumerations and the names in them. *)
Definition token_ident (token : EnumToken) : bool := match token with EnumToken_Str name => is_ident name | _ => true end.
Lemma add_typecode_eq path tokens token flags g : idents path = true -> token_ident token = true ->
  add_typecode_meta path tokens token flags g = on_meta (extend (listed [typecode_piece path tokens token flags])) g.
Proof.
  intros Hp Ht. unfold add_typecode_meta, typecode_piece, listed, as_int_tokens. cbn [map concat]. rewrite app_nil_r.
  destruct tokens as [|t0 tokens]; [destruct token as [n|name]|]; [| |destruct token]; unfold append_meta, on_meta; f_equal;
    cbn [token_ident] in Ht; flatten; rewrite ?path_tokens_app, ?app_nil_l; destruct (flags =? 0); cbn [negb];
    flatten; reflexivity.
Qed.
Lemma add_tag_eq n tagn fi g : 0 <= n -> current tagn = tag_name n -> has_tag fi = true ->
  add_tag fi.(fi_tag) (with_tag_n tagn g)
  = on_meta (extend (listed (tag_pieces n fi)))
      (on_tags (extend (const_piece (tag_name n) fi.(fi_tag) ++ [Punct 59 Alone])) (with_tag_n tagn g)).
Proof.
  intros H0 Hn Ht. unfold add_tag, tag_pieces, const_piece. rewrite Ht. change (tag_n (with_tag_n tagn g)) with tagn.
  cbv zeta. rewrite Hn. pose proof (tag_name_ident n H0). unfold on_meta, on_tags, with_tag_n. f_equal; flatten; reflexivity.
Qed.

Lemma on_meta_extend a b g : on_meta (extend a) (on_meta (extend b) g) = on_meta (extend (b ++ a)) g.
Proof. unfold on_meta. f_equal. apply extend_extend. Qed.
Lemma on_meta_tagn f b g : with_tag_n b (on_meta f g) = on_meta f (with_tag_n b g).
Proof. reflexivity. Qed.
Lemma on_meta_tags f h g : on_tags h (on_meta f g) = on_meta f (on_tags h g).
Proof. reflexivity. Qed.

(** The part of [add_field] for the metadata. *)
Lemma to_token_ident e : token_ident (to_token e) = true.
Proof. by destruct e. Qed.
Lemma add_field_meta_eq fi g : named EH_TAG_CONST g.(tag_n) -> 0 <= g.(field_count) ->
  exists tagn, named EH_TAG_CONST tagn /\
    add_field_meta fi g = on_meta (extend (listed (meta_pieces g.(field_count) fi)))
      (on_tags (extend (tag_consts g.(field_count) fi)) (with_tag_n tagn g)).
Proof.
  intros Hn H0. unfold add_field_meta, meta_pieces, tag_consts. cbv zeta. fold (has_tag fi). fold (has_out fi).
  set (n := field_count g) in *.
  assert (Hid : forall t, on_meta (extend (listed [])) (on_tags (extend []) (with_tag_n t g)) = with_tag_n t g).
  { intros t. unfold on_meta, on_tags. change (listed []) with (@nil TokenTree). by rewrite !extend_nil. }
  destruct (has_metadata (strategy (fi_option fi))) eqn:Em; cbn [andb].
  2: { exists (tag_n g). split; [done|]. rewrite Hid. by destruct g. }
  rewrite !append_meta_name_eq, !add_typecode_eq by (reflexivity || apply to_token_ident). rewrite !on_meta_extend.
  destruct (has_tag fi) eqn:Et; rewrite ?orb_true_r, ?orb_false_r.
  - destruct (set_suffix_named EH_TAG_CONST n (tag_n g) Hn) as [Hn' Hc].
    exists (set_suffix n (tag_n g)). split; [done|].
    match goal with |- context [on_meta ?f g] => set (f0 := f) end.
    change (field_count (on_meta f0 g)) with n. change (tag_n (on_meta f0 g)) with (tag_n g).
    rewrite (add_tag_eq n) by done. rewrite on_meta_tagn, on_meta_tags. subst f0. rewrite on_meta_extend.
    unfold tag_pieces. rewrite Et, !listed_app, <- !app_assoc. done.
  - exists (tag_n g). split; [done|]. unfold tag_pieces. rewrite Et, app_nil_r. unfold on_tags. rewrite extend_nil.
    replace (mk_generator _ _ _ _ _ _ _ _ _ _) with g by (by destruct g).
    destruct (has_out fi); rewrite ?app_nil_r, ?on_meta_extend, ?listed_app, <- ?app_assoc; done.
Qed.

(** The part of [add_field] for the data. *)
Definition data_added (fi : FieldInfo) (argn : IdentBuilder) (g : EventGenerator) : EventGenerator :=
  let n := g.(field_count) in
  let k := g.(lengths_count) in
  mk_generator g.(tags_tree) g.(meta_tree)
    (extend (if has_data fi then comma :: param_tokens n fi else []) g.(func_args_tree))
    (extend (if has_data fi then comma :: call_tokens fi else []) g.(func_call_tree))
    (extend (listed (length_pieces n fi)) g.(lengths_init_tree))
    (extend (listed (data_pieces n k fi)) g.(data_desc_init_tree))
    g.(tag_n) argn n (k + len (length_pieces n fi)).

Lemma type_tokens_ext path count t : idents path = true ->
  add_scalar_type_path path count t = extend (type_tokens path count) t.
Proof. intros Hp. unfold type_tokens, add_scalar_type_path. destruct (count =? 0); flatten; reflexivity. Qed.
Lemma identity_of_eq fi : plain_type fi -> identity_of fi = Ret (identity_tokens (scalar_type fi.(fi_option)) fi.(value_tokens)).
Proof.
  intros Hp. unfold identity_of, identity_tokens, scalar_type. unfold add_identity_call. rewrite type_tokens_ext by done. flatten. reflexivity.
Qed.
Lemma system_time_of_eq ts : system_time_of ts = Ret (system_time_tokens ts).
Proof. unfold system_time_of. flatten. unfold system_time_tokens. cbv zeta. rewrite <- ?app_assoc. reflexivity. Qed.
Lemma add_func_slice_arg_eq fi n g : plain_type fi -> 0 <= n -> current g.(arg_n) = arg_name n -> by_slice fi = true ->
  add_func_slice_arg fi.(fi_option) fi.(value_tokens) g
  = on_func_call (extend (comma :: call_tokens fi)) (on_func_args (extend (comma :: param_tokens n fi)) g).
Proof.
  intros Hp H0 Hn Hs. unfold add_func_slice_arg, call_tokens, param_tokens, as_ref_of. rewrite Hs, Hn. cbv zeta.
  rewrite type_tokens_ext by done. fold (scalar_type (fi_option fi)). pose proof (arg_name_ident n H0).
  unfold on_func_call, on_func_args. f_equal; flatten; reflexivity.
Qed.
Lemma add_func_scalar_arg_eq fi n tokens g : plain_type fi -> 0 <= n -> current g.(arg_n) = arg_name n -> by_slice fi = false ->
  tokens = Ret (call_tokens fi) ->
  add_func_scalar_arg fi.(fi_option) tokens g
  = on_func_call (extend (comma :: call_tokens fi)) (on_func_args (extend (comma :: param_tokens n fi)) g).
Proof.
  intros Hp H0 Hn Hs ->. unfold add_func_scalar_arg, param_tokens. rewrite Hs, Hn. pose proof (arg_name_ident n H0).
  unfold on_func_call, on_func_args. f_equal; rewrite ?type_tokens_ext by done; flatten; reflexivity.
Qed.
Lemma add_data_desc_for_arg_n_eq path n g : idents path = true -> 0 <= n -> current g.(arg_n) = arg_name n ->
  add_data_desc_for_arg_n path g = on_data (extend (listed [arg_call path n])) g.
Proof.
  intros Hp H0 Hn. unfold add_data_desc_for_arg_n, arg_call, on_data. rewrite Hn, listed_cons, listed_nil.
  pose proof (arg_name_ident n H0). f_equal. flatten. reflexivity.
Qed.
Lemma add_data_desc_with_length_eq n g : 0 <= n -> current g.(arg_n) = arg_name n -> 0 <= g.(lengths_count) < 65535 ->
  add_data_desc_with_length SLICE_COUNT_PATH DATADESC_FROM_SLICE_PATH g
  = Ret (with_counts g.(field_count) (g.(lengths_count) + 1)
      (on_data (extend (listed [length_ref g.(lengths_count); arg_call DATADESC_FROM_SLICE_PATH n]))
        (on_lengths (extend (listed [arg_call SLICE_COUNT_PATH n])) g))).
Proof.
  intros H0 Hn Hk. unfold add_data_desc_with_length. cbv zeta. rewrite (add_data_desc_for_arg_n_eq _ n) by done. rewrite Hn.
  pose proof (arg_name_ident n H0). unfold on_lengths, on_data, with_counts.
  cbn [tags_tree meta_tree func_args_tree func_call_tree lengths_init_tree data_desc_init_tree tag_n arg_n field_count
       lengths_count mk_generator].
  rewrite checked_ok by lia. cbn [mbind outcome_bind]. do 2 f_equal; rewrite !listed_cons, listed_nil; unfold arg_call, length_ref; flatten; reflexivity.
Qed.

Lemma add_field_data_eq fi g : plain_type fi -> named EH_ARG_VAR g.(arg_n) -> 0 <= g.(field_count) -> 0 <= g.(lengths_count) < 65535 ->
  exists argn, named EH_ARG_VAR argn /\ add_field_data fi g = Ret (data_added fi argn g).
Proof.
  intros Hp Hn H0 Hk. unfold add_field_data. cbv zeta. set (n := field_count g) in *.
  destruct (set_suffix_named EH_ARG_VAR n (arg_n g) Hn) as [Hn' Hc]. exists (set_suffix n (arg_n g)). split; [done|].
  set (g0 := with_arg_n (set_suffix n (arg_n g)) g).
  assert (E0 : current (arg_n g0) = arg_name n) by exact Hc.
  unfold data_added. fold n. unfold has_data, length_pieces, data_pieces, has_length.
  assert (Hlen : lengths_count g + len (@nil TokenStream) = lengths_count g) by apply Z.add_0_r.
  destruct (strategy (fi_option fi)) eqn:Es;
    [..|destruct (value_array_count (fi_option fi) =? 0) eqn:Ea| | | | | | | | |];
    rewrite ?(add_func_scalar_arg_eq fi n), ?(add_func_slice_arg_eq fi n)
      by (try exact E0; try exact Hp; try exact H0; unfold call_tokens, by_slice; rewrite Es; try rewrite Ea;
          rewrite ?identity_of_eq, ?system_time_of_eq by exact Hp; reflexivity);
    rewrite ?(add_data_desc_for_arg_n_eq _ n), ?(add_data_desc_with_length_eq n) by (exact E0 || exact Hk || exact H0 || reflexivity);
    rewrite ?Hlen; unfold on_func_call, on_func_args, on_lengths, on_data, with_counts, nul_piece; do 2 f_equal;
    rewrite ?listed_nil, ?listed_cons, ?app_nil_r, ?extend_nil; try done; flatten; reflexivity.
Qed.

(** [add_field] adds the pieces of the field. *)
Lemma add_field_pieces fi g : plain_type fi ->
  named EH_TAG_CONST g.(tag_n) -> named EH_ARG_VAR g.(arg_n) ->
  0 <= g.(field_count) < 65535 -> 0 <= g.(lengths_count) <= g.(field_count) ->
  exists tagn argn, named EH_TAG_CONST tagn /\ named EH_ARG_VAR argn /\ add_field fi g = Ret (with_pieces fi tagn argn g).
Proof.
  intros Hp Ht Ha Hn Hk. destruct (add_field_meta_eq fi g Ht) as (tagn & Ht' & Em); [lia|].
  unfold add_field. rewrite Em.
  match goal with |- context [add_field_data fi ?h] => destruct (add_field_data_eq fi h) as (argn & Ha' & Ed) end;
    [exact Hp|exact Ha|cbn; lia|cbn; lia|].
  rewrite Ed. exists tagn, argn. split_and!; [done|done|]. cbn [mbind outcome_bind]. rewrite checked_ok by (cbn; lia).
  reflexivity.
Qed.
End Unicode.
