(* ===== verification/MacroValues.v ===== *)
(** * MacroValues: the value of the generated code

    What the pieces of a field evaluate to: its declaration in the metadata and its
    bytes in the data.  [generated_fields] is the value of the code for any list of
    fields that the parser can produce. *)

From S2P Require Import Prelude Strings Types ByteReader Writers FloatsProps Builder FieldTree MacroTokens MacroTrees MacroParser MacroFields.
From S2P Require Import MacroEvent MacroGenerator MacroRuntime MacroMeaning MacroPieces.

#[local] Abbreviation lit x := (str_bytes x).

(** ** Pieces of numbered fields *)

Fixpoint numbered {A} (f : Z -> FieldInfo -> list A) (n : Z) (fis : list FieldInfo) : list A :=
  match fis with [] => [] | fi :: fis => f n fi ++ numbered f (n + 1) fis end.
(** [k]: the number of lengths before. *)
Fixpoint all_data_pieces (n k : Z) (fis : list FieldInfo) : list TokenStream :=
  match fis with
  | [] => []
  | fi :: fis => data_pieces n k fi ++ all_data_pieces (n + 1) (k + len (length_pieces n fi)) fis
  end.
Definition params (n : Z) (fi : FieldInfo) : list TokenStream := if has_data fi then [param_tokens n fi] else [].
Definition calls (n : Z) (fi : FieldInfo) : list TokenStream := if has_data fi then [call_tokens fi] else [].

Lemma led_params (b : bool) p : (if b then comma :: p else []) = led (if b then [p] else []).
Proof. destruct b; [|done]. unfold led. cbn. by rewrite app_nil_r. Qed.

Lemma add_fields_pieces `{UnicodeIdent} fis g : Forall plain_type fis ->
  named EH_TAG_CONST g.(tag_n) -> named EH_ARG_VAR g.(arg_n) ->
  0 <= g.(lengths_count) <= g.(field_count) -> g.(field_count) + len fis <= 65535 ->
  exists g', add_fields fis g = Ret g' /\
    g'.(tags_tree) = extend (numbered tag_consts g.(field_count) fis) g.(tags_tree) /\
    g'.(meta_tree) = extend (listed (numbered meta_pieces g.(field_count) fis)) g.(meta_tree) /\
    g'.(func_args_tree) = extend (led (numbered params g.(field_count) fis)) g.(func_args_tree) /\
    g'.(func_call_tree) = extend (led (numbered calls g.(field_count) fis)) g.(func_call_tree) /\
    g'.(lengths_init_tree) = extend (listed (numbered length_pieces g.(field_count) fis)) g.(lengths_init_tree) /\
    g'.(data_desc_init_tree) = extend (listed (all_data_pieces g.(field_count) g.(lengths_count) fis)) g.(data_desc_init_tree).
Proof.
  intros Hp. revert g. induction Hp as [|fi fis Hp Hfis IH]; intros g Ht Ha Hk Hn.
  - exists g. cbn [numbered all_data_pieces]. change (listed []) with (@nil TokenTree). change (led []) with (@nil TokenTree).
    rewrite !extend_nil. done.
  - rewrite len_cons in Hn. pose proof (len_nonneg fis).
    destruct (add_field_pieces fi g Hp Ht Ha) as (tagn & argn & Ht' & Ha' & E); [lia|lia|].
    assert (Hl : 0 <= len (length_pieces (field_count g) fi) <= 1) by (unfold length_pieces; destruct (has_length fi); unfold len; simpl length; lia).
    destruct (IH (with_pieces fi tagn argn g)) as (g' & E' & H1 & H2 & H3 & H4 & H5 & H6);
      [exact Ht'|exact Ha'|cbn; lia|cbn; lia|].
    exists g'. cbn [add_fields]. rewrite E. cbn [mbind outcome_bind numbered all_data_pieces]. split; [exact E'|].
    rewrite H1, H2, H3, H4, H5, H6. cbn [with_pieces mk_generator tags_tree meta_tree func_args_tree func_call_tree
      lengths_init_tree data_desc_init_tree field_count lengths_count].
    unfold params at 2, calls at 2. rewrite !listed_app, !led_app, !led_params, !extend_extend. done.
Qed.

(** A name looked up among numbered entries. *)
Lemma lookup_numbered {A} (name : Z -> bytes) (f : Z -> FieldInfo -> list (bytes * A)) fis n i fi v :
  (forall i j, 0 <= i < 2 ^ 16 -> 0 <= j < 2 ^ 16 -> name i = name j -> i = j) ->
  (forall n fi, f n fi = [] \/ exists v, f n fi = [(name n, v)]) ->
  0 <= n -> n + len fis <= 2 ^ 16 -> fis !! i = Some fi -> f (n + Z.of_nat i) fi = [(name (n + Z.of_nat i), v)] ->
  lookup_name (name (n + Z.of_nat i)) (numbered f n fis) = Some v.
Proof.
  intros Hinj Hf. revert n i. induction fis as [|fi0 fis IH]; intros n i H0 Hn Hi Hv; [done|].
  rewrite len_cons in Hn. pose proof (len_nonneg fis). cbn [numbered]. destruct i as [|i].
  - injection Hi as ->. rewrite Z.add_0_r in *. rewrite Hv. unfold lookup_name. cbn. by rewrite bool_decide_eq_true_2.
  - cbn in Hi. pose proof (lookup_lt_Some _ _ _ Hi) as Hlt.
    assert (E : n + Z.of_nat (S i) = n + 1 + Z.of_nat i) by lia. rewrite E in *.
    rewrite <- (IH (n + 1) i); [|lia|lia|done|done].
    destruct (Hf n fi0) as [-> | [w ->]]; [done|]. unfold lookup_name. cbn [app find fst].
    rewrite bool_decide_eq_false_2; [done|]. intros En. apply Hinj in En; unfold len in *; lia.
Qed.
Lemma tag_name_inj i j : 0 <= i < 2 ^ 16 -> 0 <= j < 2 ^ 16 -> tag_name i = tag_name j -> i = j.
Proof. apply numbered_inj. Qed.
Lemma arg_name_inj i j : 0 <= i < 2 ^ 16 -> 0 <= j < 2 ^ 16 -> arg_name i = arg_name j -> i = j.
Proof. apply numbered_inj. Qed.

(** ** What a field means *)

Section Values.
Context `{Target} `{RustValues}.

Definition info_encoding (fi : FieldInfo) : Z :=
  match fi.(encoding_tokens), to_token fi.(fi_option).(encoding) with
  | [], EnumToken_U8 n => n
  | [], EnumToken_Str name => default 0 (encoding_constant name)
  | tokens, _ => const_value ENCODING_PATH tokens
  end.
Definition info_format (fi : FieldInfo) : Z :=
  match fi.(format_or_field_count_expr) with
  | [] => fi.(format_or_field_count_int)
  | tokens => const_value FORMAT_PATH tokens
  end.
Definition info_tag (fi : FieldInfo) : Z := match fi.(fi_tag) with [] => 0 | tokens => const_value U16_PATH tokens end.
Definition info_value (fi : FieldInfo) : Argument := arg_value (call_tokens fi).

Definition info_meta (fi : FieldInfo) : bytes :=
  if has_metadata fi.(fi_option).(strategy) then
    declaration fi.(fi_name)
      (Z.lor (info_encoding fi) (if is_slice fi.(fi_option).(strategy) then VArrayFlag else 0)) (info_format fi) (info_tag fi)
  else [].
Definition info_data (fi : FieldInfo) : bytes :=
  let a := info_value fi in
  match fi.(fi_option).(strategy) with
  | Scalar | SystemTime => concat a.(elems)
  | RawData | RawField | RawFieldSlice => EventDataDescriptor_from_slice a.(elems)
  | CStr => EventDataDescriptor_from_cstr a.(elem_size) a.(elems)
            ++ zero_element (default 0 (char_size fi.(fi_option).(value_type)))
  | Str | Slice => to_ne_bytes 2 (slice_count a.(elems)) ++ EventDataDescriptor_from_slice a.(elems)
  | _ => []
  end.

(** A field that the generator can be given: the text of a tag ends before a semicolon,
    and a tag or format that is given is not zero. *)
Record info_ok (fi : FieldInfo) : Prop := {
  io_name : bytes_ok fi.(fi_name);
  io_int : 0 <= fi.(format_or_field_count_int) < 128;
  io_format : fi.(format_or_field_count_expr) <> [] -> info_format fi <> 0;
  io_tag : fi.(fi_tag) <> [] -> info_tag fi <> 0;
  io_tag_free : free 59 fi.(fi_tag);
  io_char : fi.(fi_option).(strategy) = CStr -> is_Some (char_size fi.(fi_option).(value_type));
}.

Lemma has_tag_value fi : info_ok fi -> has_tag fi = negb (info_tag fi =? 0).
Proof.
  intros Hf. pose proof (io_tag fi Hf) as Ht. unfold has_tag, info_tag in *. destruct (fi_tag fi); [done|].
  cbn. symmetry. apply negb_true_iff, Z.eqb_neq. by apply Ht.
Qed.
Lemma has_out_value fi : info_ok fi -> has_out fi = negb (info_format fi =? 0).
Proof.
  intros Hf. pose proof (io_format fi Hf) as Ht. unfold has_out, info_format in *.
  destruct (format_or_field_count_expr fi); [done|]. cbn. symmetry. apply negb_true_iff, Z.eqb_neq. by apply Ht.
Qed.

(** ** Metadata *)

Definition evaluates (consts : list (bytes * Z)) : list TokenStream -> bytes -> Prop :=
  Forall2 (fun p b => meta_byte consts p = Some b).

Lemma literal_byte consts x : - 10 ^ 20 < x < 10 ^ 20 -> meta_byte consts [Literal_unsuffixed x] = Some x.
Proof. intros Hx. cbn [meta_byte Literal_unsuffixed]. by rewrite decimal_literal. Qed.
Lemma name_evaluates consts name : bytes_ok name -> evaluates consts (name_pieces name) (name ++ [0]).
Proof.
  intros Hn. unfold name_pieces. assert (Hb : bytes_ok (name ++ [0])) by (apply Forall_app; split; [done|by apply bytes_ok_decide]).
  clear Hn. induction Hb as [|c l Hc Hl IH]; constructor; [|exact IH]. apply literal_byte. unfold is_u8, in_width in Hc. lia.
Qed.

(** The flags of a type code. *)
Definition code_flags : list Z := [0; 0x40; 0x80; 0xC0].
Lemma typecode_expr consts path t ts token flags : (path = ENCODING_PATH \/ path = FORMAT_PATH) -> In flags code_flags ->
  meta_byte consts (typecode_piece path (t :: ts) token flags) = Some (Z.lor (const_value path (t :: ts)) flags).
Proof.
  intros Hp Hf. cbn [code_flags In] in Hf.
  destruct Hp as [-> | ->]; destruct token; repeat destruct Hf as [<-|Hf]; rewrite ?Z.lor_0_r; reflexivity || done.
Qed.
Lemma typecode_known consts n flags : 0 <= n < 2 ^ 16 -> In flags code_flags -> forall path,
  meta_byte consts (typecode_piece path [] (EnumToken_U8 n) flags) = Some (Z.lor n flags).
Proof.
  intros Hn Hf path. apply literal_byte.
  assert (Hfl : 0 <= flags < 2 ^ 16) by (unfold code_flags in Hf; cbn [In] in Hf; repeat destruct Hf as [<-|Hf]; done || lia).
  assert (0 <= Z.lor n flags) by (apply Z.lor_nonneg; lia).
  assert (Z.lor n flags < 2 ^ 16); [|lia].
  destruct (Z.eq_dec (Z.lor n flags) 0) as [->|]; [done|]. apply Z.log2_lt_pow2; [lia|]. rewrite Z.log2_lor by lia.
  apply Z.max_lub_lt; [destruct (Z.eq_dec n 0) as [->|]|destruct (Z.eq_dec flags 0) as [->|]]; try done; apply Z.log2_lt_pow2; lia.
Qed.

(** The encoding of a field. *)
Lemma to_token_known e : match to_token e with EnumToken_U8 n => 0 <= n < 2 ^ 16 | EnumToken_Str name => name = lit "ValueSize" end.
Proof. by destruct e. Qed.
Lemma encoding_evaluates consts fi flags : In flags code_flags ->
  meta_byte consts (typecode_piece ENCODING_PATH fi.(encoding_tokens) (to_token fi.(fi_option).(encoding)) flags)
  = Some (Z.lor (info_encoding fi) flags).
Proof.
  intros Hf. unfold info_encoding. pose proof (to_token_known (encoding (fi_option fi))) as Hk.
  destruct (encoding_tokens fi) as [|t ts].
  - destruct (to_token _) as [n|name]; [by apply typecode_known|]. subst name.
    unfold code_flags in Hf. cbn [In] in Hf. repeat destruct Hf as [<-|Hf]; reflexivity || done.
  - rewrite typecode_expr by (exact Hf || by left). by destruct (to_token _).
Qed.
Lemma format_evaluates consts fi flags : info_ok fi -> In flags code_flags ->
  meta_byte consts (typecode_piece FORMAT_PATH fi.(format_or_field_count_expr)
                      (EnumToken_U8 fi.(format_or_field_count_int)) flags)
  = Some (Z.lor (info_format fi) flags).
Proof.
  intros Hi Hf. unfold info_format. pose proof (io_int fi Hi). destruct (format_or_field_count_expr fi) as [|t ts].
  - apply typecode_known; [lia|done].
  - by rewrite typecode_expr by (exact Hf || by right).
Qed.

Lemma tag_bytes t : to_ne_bytes 2 t = [tag_byte0 t; tag_byte1 t].
Proof.
  unfold tag_byte0, tag_byte1. pose proof (BuilderProps.length_to_ne_bytes 2 t) as E.
  destruct (to_ne_bytes 2 t) as [|a [|b [|]]]; done.
Qed.

(** The declaration of a field, when its tag is among the constants. *)
Lemma info_meta_evaluates consts n fi : info_ok fi ->
  (has_tag fi = true -> has_metadata fi.(fi_option).(strategy) = true -> lookup_name (tag_name n) consts = Some (info_tag fi)) ->
  evaluates consts (meta_pieces n fi) (info_meta fi).
Proof.
  intros Hi Hc. unfold meta_pieces, info_meta. destruct (has_metadata (strategy (fi_option fi))); [|constructor].
  unfold declaration. rewrite (app_assoc (fi_name fi)).
  apply Forall2_app; [apply name_evaluates, io_name, Hi|].
  unfold type_bytes. rewrite (has_out_value fi Hi), (has_tag_value fi Hi) in *. unfold tag_pieces. rewrite (has_tag_value fi Hi).
  set (sl := if is_slice _ then VArrayFlag else 0). set (enc := info_encoding fi).
  assert (Hsl : In sl code_flags /\ In (Z.lor 128 sl) code_flags)
    by (subst sl; unfold code_flags; destruct (is_slice _); cbn; tauto).
  destruct Hsl as [Hsl1 Hsl2].
  assert (Hs : forall a, Z.lor 128 (Z.lor enc a) = Z.lor enc (Z.lor 128 a))
    by (intros a; by rewrite Z.lor_assoc, (Z.lor_comm 128 enc), <- Z.lor_assoc).
  destruct (Z.eqb_spec (info_tag fi) 0); cbn [negb orb].
  - rewrite orb_false_r. destruct (Z.eqb_spec (info_format fi) 0) as [E|]; cbn [negb].
    + repeat constructor. exact (encoding_evaluates consts fi sl Hsl1).
    + rewrite Hs. repeat constructor; [exact (encoding_evaluates consts fi _ Hsl2)|]. rewrite format_evaluates; [|done|unfold code_flags; cbn; tauto].
      by rewrite Z.lor_0_r.
  - rewrite orb_true_r, Hs, (tag_bytes (info_tag fi)), (Z.lor_comm 128 (info_format fi)). cbn [negb] in Hc.
    specialize (Hc eq_refl eq_refl). unfold evaluates. cbn [app map].
    constructor; [exact (encoding_evaluates consts fi _ Hsl2)|].
    constructor; [apply format_evaluates; [done|unfold code_flags; cbn; tauto]|].
    constructor; [exact (f_equal (option_map tag_byte0) Hc)|]. constructor; [exact (f_equal (option_map tag_byte1) Hc)|constructor].
Qed.

(** ** Constants *)

Definition tag_entries (n : Z) (fi : FieldInfo) : list (bytes * Z) :=
  if has_metadata fi.(fi_option).(strategy) && has_tag fi then [(tag_name n, info_tag fi)] else [].
Lemma consts_evaluate n fis : Forall info_ok fis ->
  Forall2 (fun p c => const_item p = Some c) (items 59 (numbered tag_consts n fis)) (numbered tag_entries n fis).
Proof.
  intros Hfis. revert n. induction Hfis as [|fi fis Hf Hfis IH]; intros n; [constructor|]. cbn [numbered].
  unfold tag_consts at 1, tag_entries at 1. destruct (has_metadata (strategy (fi_option fi)) && has_tag fi) eqn:E; [|apply IH].
  apply andb_true_iff in E as [_ Ht]. rewrite <- app_assoc. cbn [app]. rewrite items_piece.
  2: { unfold const_piece. apply free_app; [by repeat constructor|]. apply free_app; [by apply path_tokens_free|].
       apply free_app; [by repeat constructor|]. apply io_tag_free, Hf. }
  constructor; [|apply IH]. unfold info_tag, has_tag in *. by destruct (fi_tag fi).
Qed.

(** All the declarations. *)
Definition tags_known (consts : list (bytes * Z)) (n : Z) (fis : list FieldInfo) : Prop := forall i fi, fis !! i = Some fi ->
  has_tag fi = true -> has_metadata fi.(fi_option).(strategy) = true ->
  lookup_name (tag_name (n + Z.of_nat i)) consts = Some (info_tag fi).
Lemma entries_known n fis : 0 <= n -> n + len fis <= 2 ^ 16 -> tags_known (numbered tag_entries n fis) n fis.
Proof.
  intros H1 H2 i fi Hi Ht Hm. apply (lookup_numbered tag_name tag_entries fis n i fi); try done; [apply tag_name_inj|..].
  - intros m f. unfold tag_entries. destruct (_ && _); [right; by eexists|by left].
  - unfold tag_entries. by rewrite Ht, Hm.
Qed.
Lemma meta_evaluates consts n fis : Forall info_ok fis -> tags_known consts n fis ->
  evaluates consts (numbered meta_pieces n fis) (concat (map info_meta fis)).
Proof.
  intros Hfis. revert n. induction Hfis as [|fi fis Hf Hfis IH]; intros n Hk; [constructor|]. cbn [numbered map concat].
  apply Forall2_app.
  - apply info_meta_evaluates; [done|]. intros Ht Hm. specialize (Hk O fi eq_refl Ht Hm). by rewrite Z.add_0_r in Hk.
  - apply IH. intros i f Hi Ht Hm. specialize (Hk (S i) f Hi Ht Hm). by replace (n + 1 + Z.of_nat i) with (n + Z.of_nat (S i)) by lia.
Qed.

(** ** Data *)

Definition arg_entries (n : Z) (fi : FieldInfo) : list (bytes * Argument) :=
  if has_data fi then [(arg_name n, info_value fi)] else [].
Definition info_lengths (fi : FieldInfo) : list Z := if has_length fi then [slice_count (info_value fi).(elems)] else [].
Definition args_known (args : list (bytes * Argument)) (n : Z) (fis : list FieldInfo) : Prop := forall i fi, fis !! i = Some fi ->
  has_data fi = true -> lookup_name (arg_name (n + Z.of_nat i)) args = Some (info_value fi).
Lemma args_known_tail args n fi fis : args_known args n (fi :: fis) -> args_known args (n + 1) fis.
Proof.
  intros Hk i f Hi Hd. specialize (Hk (S i) f Hi Hd). by replace (n + 1 + Z.of_nat i) with (n + Z.of_nat (S i)) by lia.
Qed.
Lemma args_known_head args n fi fis : args_known args n (fi :: fis) -> has_data fi = true ->
  lookup_name (arg_name n) args = Some (info_value fi).
Proof. intros Hk Hd. specialize (Hk O fi eq_refl Hd). by rewrite Z.add_0_r in Hk. Qed.

Lemma lengths_evaluate args n fis : args_known args n fis ->
  Forall2 (fun p v => length_value args p = Some v) (numbered length_pieces n fis) (concat (map info_lengths fis)).
Proof.
  revert n. induction fis as [|fi fis IH]; intros n Hk; [constructor|]. cbn [numbered map concat].
  apply Forall2_app; [|apply IH; by eapply args_known_tail]. unfold length_pieces, info_lengths.
  destruct (has_length fi) eqn:E; [|constructor]. constructor; [|constructor].
  assert (Hd : has_data fi = true) by (unfold has_length, has_data in *; by destruct (strategy (fi_option fi))).
  exact (f_equal (option_map (fun a => slice_count a.(elems))) (args_known_head _ _ _ _ Hk Hd)).
Qed.

(** The descriptor of a length. *)
Lemma length_ref_evaluates args lengths k n : 0 <= k < 10 ^ 20 -> nth_error lengths (Z.to_nat k) = Some n ->
  descriptor args lengths (length_ref k) = Some (to_ne_bytes 2 n).
Proof.
  intros Hk Hn. transitivity (option_map (fun n => EventDataDescriptor_from_value (to_ne_bytes 2 n))
    (nth_error lengths (Z.to_nat (literal_number (fmt_decimal k))))); [reflexivity|].
  by rewrite decimal_literal, Hn by lia.
Qed.
(** The nul after a string. *)
Lemma nul_evaluates args lengths o size : char_size o.(value_type) = Some size ->
  descriptor args lengths (nul_piece o) = Some (zero_element size).
Proof.
  unfold nul_piece, char_size. intros E. repeat case_bool_decide; try done; injection E as <-;
    match goal with Hv : value_type o = _ |- _ => rewrite Hv end; destruct HOST_IS_BIG_ENDIAN eqn:Hb; cbn;
    unfold to_ne_bytes; rewrite ?Hb; reflexivity.
Qed.

(** The descriptors of a field. *)
Definition data_evaluates (args : list (bytes * Argument)) (lengths : list Z) (ps : list TokenStream) (d : bytes) : Prop :=
  exists ds, Forall2 (fun p d => descriptor args lengths p = Some d) ps ds /\ concat ds = d.
Lemma info_data_evaluates args lengths pre rest n fi : info_ok fi ->
  (has_data fi = true -> lookup_name (arg_name n) args = Some (info_value fi)) ->
  lengths = pre ++ info_lengths fi ++ rest -> len pre < 10 ^ 20 ->
  data_evaluates args lengths (data_pieces n (len pre) fi) (info_data fi).
Proof.
  intros Hi Ha Hl Hp. pose proof (len_nonneg pre).
  assert (Hn : has_length fi = true -> nth_error lengths (Z.to_nat (len pre)) = Some (slice_count (info_value fi).(elems))).
  { intros Hh. rewrite Hl. unfold info_lengths, len. rewrite Hh, Nat2Z.id, nth_error_app2, Nat.sub_diag by lia. done. }
  pose proof (io_char fi Hi) as Hc. unfold has_data, has_length, data_pieces, info_data in *. cbv zeta.
  assert (Hcall : forall path (f : Argument -> bytes), lookup_name (arg_name n) args = Some (info_value fi) ->
    descriptor args lengths (arg_call path n) = option_map f (lookup_name (arg_name n) args) ->
    descriptor args lengths (arg_call path n) = Some (f (info_value fi))) by (by intros path f -> ->).
  destruct (strategy (fi_option fi)); try (exists []; by split); specialize (Ha eq_refl).
  1,2: (exists [concat (info_value fi).(elems)]; split; [|apply app_nil_r]; constructor; [|constructor];
        by apply (Hcall _ (fun a => EventDataDescriptor_from_value (concat a.(elems))))).
  1: { destruct (Hc eq_refl) as [size Hsz]. rewrite Hsz. cbn [default].
       exists [EventDataDescriptor_from_cstr (info_value fi).(elem_size) (info_value fi).(elems); zero_element size].
       split; [|cbn; by rewrite app_nil_r]. constructor; [|constructor; [by apply nul_evaluates|constructor]].
       by apply (Hcall _ (fun a => EventDataDescriptor_from_cstr a.(elem_size) a.(elems))). }
  1,2: (exists [to_ne_bytes 2 (slice_count (info_value fi).(elems)); EventDataDescriptor_from_slice (info_value fi).(elems)];
        split; [|cbn; by rewrite app_nil_r]; constructor; [apply length_ref_evaluates; [lia|by apply Hn]|];
        constructor; [|constructor]; by apply (Hcall _ (fun a => EventDataDescriptor_from_slice a.(elems)))).
  all: exists [EventDataDescriptor_from_slice (info_value fi).(elems)]; split; [|apply app_nil_r]; constructor; [|constructor];
    by apply (Hcall _ (fun a => EventDataDescriptor_from_slice a.(elems))).
Qed.
Lemma len_info_lengths n fi : len (length_pieces n fi) = len (info_lengths fi).
Proof. unfold length_pieces, info_lengths. by destruct (has_length fi). Qed.
Lemma data_evaluates_app args lengths ps qs a b :
  data_evaluates args lengths ps a -> data_evaluates args lengths qs b -> data_evaluates args lengths (ps ++ qs) (a ++ b).
Proof.
  intros (ds & Hd & <-) (es & He & <-). exists (ds ++ es). split; [by apply Forall2_app|by rewrite concat_app].
Qed.
Lemma data_of_fields args pre n fis : Forall info_ok fis -> args_known args n fis ->
  len pre + len fis < 10 ^ 20 ->
  data_evaluates args (pre ++ concat (map info_lengths fis)) (all_data_pieces n (len pre) fis) (concat (map info_data fis)).
Proof.
  intros Hfis. revert pre n. induction Hfis as [|fi fis Hf Hfis IH]; intros pre n Hk Hl.
  - exists []. by split.
  - rewrite len_cons in Hl. pose proof (len_nonneg fis). cbn [all_data_pieces map concat]. apply data_evaluates_app.
    + eapply info_data_evaluates; [done|by eapply args_known_head|reflexivity|lia].
    + rewrite (len_info_lengths n fi), app_assoc, <- len_app. apply IH; [by eapply args_known_tail|].
      rewrite len_app. unfold info_lengths. destruct (has_length fi); unfold len in *; simpl length; lia.
Qed.

(** ** The call *)

Lemma combine_params n fis :
  combine (map (fun item => match item with Ident name :: _ => name | _ => [] end) (numbered params n fis))
    (map arg_value (numbered calls n fis)) = numbered arg_entries n fis.
Proof.
  revert n. induction fis as [|fi fis IH]; intros n; [done|]. cbn [numbered]. unfold params at 1, calls at 1, arg_entries at 1.
  destruct (has_data fi); cbn [app map combine param_tokens]; [f_equal|]; apply IH.
Qed.
Definition item_ok (p : TokenStream) : Prop := free 44 p /\ p <> [].
Lemma scalar_type_free o : free 44 (scalar_type o).
Proof. unfold scalar_type, type_tokens. destruct (value_array_count o =? 0); [by apply path_tokens_free|by repeat constructor]. Qed.
Lemma system_time_free ts : free 44 (system_time_tokens ts).
Proof. unfold system_time_tokens. by repeat constructor. Qed.
Lemma identity_free ty ts : free 44 ty -> free 44 (identity_tokens ty ts).
Proof. intros Ht. unfold identity_tokens. repeat apply free_app; try (by apply path_tokens_free); try (by repeat constructor); exact Ht. Qed.
Lemma app_not_nil {A} (a b : list A) : a <> [] -> a ++ b <> [].
Proof. by destruct a. Qed.
Lemma call_ok fi : item_ok (call_tokens fi).
Proof.
  unfold call_tokens. destruct (by_slice fi).
  - split; [|by apply app_not_nil]. unfold as_ref_of.
    repeat apply free_app; try (by apply path_tokens_free); by repeat constructor.
  - assert (Hid : item_ok (identity_tokens (scalar_type (fi_option fi)) (value_tokens fi)))
      by (split; [apply identity_free, scalar_type_free|by apply app_not_nil]).
    destruct (strategy (fi_option fi)); try exact Hid. split; [apply system_time_free|done].
Qed.
Lemma param_ok n fi : item_ok (param_tokens n fi).
Proof.
  split; [|done]. unfold param_tokens. apply free_app; [by repeat constructor|].
  destruct (by_slice fi); [by repeat constructor|apply scalar_type_free].
Qed.
Lemma numbered_items (f : Z -> FieldInfo -> list TokenStream) n fis : (forall n fi, Forall item_ok (f n fi)) ->
  Forall item_ok (numbered f n fis).
Proof. intros Hf. revert n. induction fis as [|fi fis IH]; intros n; [constructor|]. by apply Forall_app. Qed.

(** The parameters and the arguments that each event has. *)
Definition id_tokens : TokenStream := path_tokens U8_PATH ++ [Punct 59 Alone; Literal_unsuffixed 16].
Definition option_tokens (tokens : TokenStream) : TokenStream :=
  match tokens with
  | [] => path_tokens OPTION_NONE_PATH
  | _ => path_tokens OPTION_SOME_PATH
         ++ [Group Parenthesis (path_tokens BORROW_BORROW_PATH ++ [Group Parenthesis tokens])]
  end.
Definition base_params : list TokenStream :=
  [[Ident EH_TRACEPOINT_VAR; Punct 58 Alone; Punct 38 Alone] ++ path_tokens EVENTHEADERTRACEPOINT_PATH]
  ++ map (fun name => [Ident name; Punct 58 Alone] ++ path_tokens OPTION_PATH
                      ++ [Punct 60 Alone; Punct 38 Alone; Group Bracket id_tokens; Punct 62 Alone])
       [EH_ACTIVITY_ID_VAR; EH_RELATED_ID_VAR].
Definition base_calls (event : EventInfo) : list TokenStream :=
  [Punct 38 Alone; Ident EH_TRACEPOINT_STATIC]
  :: map option_tokens [event.(activity_id); event.(related_id)].

Lemma base_params_ok : Forall item_ok base_params.
Proof. repeat constructor; done. Qed.
Lemma base_calls_ok event : Forall item_ok (base_calls event).
Proof.
  assert (Ho : forall ts, item_ok (option_tokens ts)).
  { intros ts. unfold option_tokens. destruct ts; split; try done; repeat apply free_app; try (by apply path_tokens_free);
      by repeat constructor. }
  unfold base_calls. cbn [map]. constructor; [|constructor; [apply Ho|constructor; [apply Ho|constructor]]].
  split; [by repeat constructor|done].
Qed.
Lemma option_tokens_ext `{UnicodeIdent} ts t : add_borrowed_option_from_tokens (Ret ts) t = extend (option_tokens ts) t.
Proof. unfold add_borrowed_option_from_tokens, option_tokens. cbn [mbind outcome_bind]. destruct ts; flatten_trees; reflexivity. Qed.
Lemma before_fields_eq `{UnicodeIdent} event :
  let g := before_fields event EventGenerator_new in
  g.(func_args_tree) = Ret (match base_params with p :: ps => p ++ led ps | [] => [] end) /\
  g.(func_call_tree) = Ret (match base_calls event with p :: ps => p ++ led ps | [] => [] end).
Proof.
  unfold before_fields. rewrite append_meta_name_eq.
  unfold base_calls, on_func_call, on_func_args, on_data, on_meta, with_counts, EventGenerator_new, led.
  cbn [func_args_tree func_call_tree mk_generator map concat].
  rewrite !option_tokens_ext. unfold add_id_arg, id_type, base_params. split; flatten_trees; rewrite ?app_nil_r, <- ?app_assoc; reflexivity.
Qed.

Lemma items_call p ps qs : Forall item_ok (p :: ps) -> Forall item_ok qs ->
  items 44 ((p ++ led ps) ++ led qs) = (p :: ps) ++ qs.
Proof. intros Hp Hq. rewrite <- app_assoc, <- led_app. apply items_led. by apply (Forall_app _ (p :: ps) qs). Qed.

Lemma arguments_known event fis : len fis <= 2 ^ 16 ->
  args_known (arguments (match base_params with p :: ps => p ++ led ps | [] => [] end ++ led (numbered params 0 fis))
                        (match base_calls event with p :: ps => p ++ led ps | [] => [] end ++ led (numbered calls 0 fis))) 0 fis.
Proof.
  intros Hl i fi Hi Hd.
  unfold arguments, param_names.
  assert (Hp : Forall item_ok (numbered params 0 fis)).
  { apply numbered_items. intros n f. unfold params. destruct (has_data f); [constructor; [apply param_ok|constructor]|constructor]. }
  assert (Hc : Forall item_ok (numbered calls 0 fis)).
  { apply numbered_items. intros n f. unfold calls. destruct (has_data f); [constructor; [apply call_ok|constructor]|constructor]. }
  pose proof base_params_ok as Hbp. pose proof (base_calls_ok event) as Hbc.
  change base_params with [nth 0 base_params []; nth 1 base_params []; nth 2 base_params []] in Hbp |- *.
  cbv iota. unfold base_calls in *. cbn [map] in Hbc |- *. rewrite !items_call by done.
  rewrite !map_app. cbn [map app combine]. rewrite combine_params.
  transitivity (lookup_name (arg_name (0 + Z.of_nat i)) (numbered arg_entries 0 fis)).
  - unfold lookup_name, base_params. cbn [app map nth find fst]. rewrite !bool_decide_eq_false_2; [done|..]; discriminate.
  - apply (lookup_numbered arg_name arg_entries fis 0 i fi); try done; [apply arg_name_inj|..].
    + intros n f. unfold arg_entries. destruct (has_data f); [right; by eexists|by left].
    + unfold arg_entries. by rewrite Hd.
Qed.

(** ** The whole event *)

(** Closes [free] goals on pieces. *)
Ltac solve_free := repeat apply free_app; try (by apply path_tokens_free); try (by repeat constructor).
Lemma typecode_free path ts token flags : free 44 (typecode_piece path ts token flags).
Proof.
  unfold typecode_piece, as_int_tokens. destruct ts; [destruct token|]; destruct (flags =? 0); solve_free.
Qed.
Lemma meta_pieces_free n fi : Forall (free 44) (meta_pieces n fi).
Proof.
  unfold meta_pieces. destruct (has_metadata _); [|constructor]. apply Forall_app. split.
  { unfold name_pieces. apply Forall_map, Forall_forall. intros c _. by repeat constructor. }
  apply Forall_app. split; [constructor; [apply typecode_free|constructor]|]. apply Forall_app. split.
  - destruct (_ || _); [constructor; [apply typecode_free|constructor]|constructor].
  - unfold tag_pieces. destruct (has_tag fi); [|constructor]. cbn [map]. do 2 (constructor; [solve_free|]). constructor.
Qed.
Lemma length_pieces_free n fi : Forall (free 44) (length_pieces n fi).
Proof. unfold length_pieces, arg_call. destruct (has_length fi); [|constructor]. constructor; [solve_free|constructor]. Qed.
Lemma data_pieces_free n k fi : Forall (free 44) (data_pieces n k fi).
Proof.
  unfold data_pieces, arg_call, nul_piece, length_ref.
  destruct (strategy (fi_option fi)); repeat (constructor; [solve_free|]); constructor.
Qed.
Lemma numbered_free (f : Z -> FieldInfo -> list TokenStream) n fis :
  (forall n fi, Forall (free 44) (f n fi)) -> Forall (free 44) (numbered f n fis).
Proof. intros Hf. revert n. induction fis as [|fi fis IH]; intros n; [constructor|]. by apply Forall_app. Qed.
Lemma all_data_free n k fis : Forall (free 44) (all_data_pieces n k fis).
Proof. revert n k. induction fis as [|fi fis IH]; intros n k; [constructor|]. apply Forall_app. split; [apply data_pieces_free|apply IH]. Qed.

Definition zero_pieces : list TokenStream := let zero := path_tokens DATADESC_ZERO_PATH ++ [Group Parenthesis []] in [zero; zero].
Lemma before_fields_trees `{UnicodeIdent} event :
  let g := before_fields event EventGenerator_new in
  named EH_TAG_CONST g.(tag_n) /\ named EH_ARG_VAR g.(arg_n) /\ g.(field_count) = 0 /\ g.(lengths_count) = 0 /\
  g.(tags_tree) = Ret [] /\ g.(meta_tree) = Ret (listed (name_pieces event.(ev_name))) /\ g.(lengths_init_tree) = Ret [] /\
  g.(data_desc_init_tree) = Ret (listed zero_pieces).
Proof.
  unfold before_fields. rewrite append_meta_name_eq. unfold EventGenerator_new.
  split_and!; try reflexivity; apply named_new.
Qed.

Lemma generated_fields `{UnicodeIdent} event fis : bytes_ok event.(ev_name) -> Forall info_ok fis -> Forall plain_type fis -> len fis <= 65535 ->
  exists g ds, add_fields fis (before_fields event EventGenerator_new) = Ret g /\
    generated_event g = Some (event.(ev_name) ++ [0] ++ concat (map info_meta fis), [] :: [] :: ds) /\
    concat ds = concat (map info_data fis).
Proof.
  intros Hname Hfis Hp Hl. destruct (before_fields_trees event) as (Bt & Ba & Bn & Bk & B1 & B2 & B3 & B4).
  destruct (add_fields_pieces fis _ Hp Bt Ba) as (g & Eg & G1 & G2 & G3 & G4 & G5 & G6); [lia|lia|].
  destruct (before_fields_eq event) as [B5 B6]. rewrite Bn, Bk, ?B1, ?B2, ?B3, ?B4, ?B5, ?B6, ?extend_ret in *. cbn [app] in *.
  assert (Ha := arguments_known event fis ltac:(lia)).
  match type of Ha with args_known ?a 0 fis => set (args := a) in * end.
  destruct (data_of_fields args [] 0 fis Hfis Ha) as (ds & Hds & Ed); [unfold len in *; simpl length; lia|]. cbn [app] in Hds.
  exists g, ds. split_and!; [done| |done]. unfold generated_event. rewrite G1, G2, G3, G4, G5, G6. unfold trees_event. cbv zeta. fold args.
  rewrite (mapM_Some_2 _ _ _ (consts_evaluate 0 fis Hfis)).
  rewrite <- !listed_app, !items_listed.
  2: by apply Forall_app; split; [|apply all_data_free]; unfold zero_pieces; repeat (constructor; [solve_free|]).
  2: by apply numbered_free, length_pieces_free.
  2: { apply Forall_app. split; [|by apply numbered_free, meta_pieces_free].
       unfold name_pieces. apply Forall_map, Forall_forall. intros c _. by repeat constructor. }
  rewrite (mapM_Some_2 _ _ (event.(ev_name) ++ [0] ++ concat (map info_meta fis))).
  2: { rewrite app_assoc. apply Forall2_app; [by apply name_evaluates|].
       apply meta_evaluates; [done|]. apply entries_known; lia. }
  rewrite (mapM_Some_2 _ _ _ (lengths_evaluate args 0 fis Ha)).
  rewrite (mapM_Some_2 _ _ ([] :: [] :: ds)); [done|].
  constructor; [reflexivity|]. constructor; [reflexivity|exact Hds].
Qed.
End Values.

(** ** The whole code

    The tree of the event is made unless the name that the provider's symbol ends is
    not an identifier. *)

Section Code.
Context `{UnicodeIdent}.

Lemma provider_name_ident symbol : is_ident (PROVIDER_PTR_VAR_PREFIX ++ symbol) = continues symbol.
Proof. apply (is_ident_app 95 (lit "eh_define_provider_")); [reflexivity|lia|repeat constructor; lia]. Qed.
Lemma keyword_name_ident n b : named EH_KEYWORD_CONST b -> 0 <= n -> is_ident (current (set_suffix n b)) = true.
Proof.
  intros Hb Hn. destruct (set_suffix_named _ n b Hb) as [_ ->].
  apply (numbered_ident 95 (lit "EH_KEYWORD")); [reflexivity|lia|repeat constructor; lia|done].
Qed.
Lemma const_ext name ty tokens t : is_ident name = true -> idents ty = true -> exists l,
  add_const_from_tokens name ty (Ret tokens) t = extend l t.
Proof. intros Hn Ht. eexists. flatten_trees. reflexivity. Qed.
Lemma add_keywords_total n keywords b t1 t2 : 0 <= n -> named EH_KEYWORD_CONST b -> exists l1 l2,
  add_keywords n keywords b (Ret t1) (Ret t2) = (Ret l1, Ret l2).
Proof.
  revert n b t1 t2. induction keywords as [|k keywords IH]; intros n b t1 t2 Hn Hb; [by do 2 eexists|]. cbn [add_keywords].
  pose proof (keyword_name_ident n b Hb Hn) as Hi. destruct (set_suffix_named _ n b Hb) as [Hb' _].
  destruct (const_ext _ U64_PATH k (Ret t1) Hi) as (l & ->); [reflexivity|]. flatten_trees. apply IH; [lia|done].
Qed.
Lemma keyword_tree_total keywords : exists l, keyword_tree keywords = Ret l.
Proof.
  assert (E : exists l, (let (event_tree, tree1) := add_keywords 0 keywords (IdentBuilder_new EH_KEYWORD_CONST) Tree_new
      (Tree_new ▷ add_literal (Literal_u64_suffixed 0)) in
    event_tree ▷ add_const_from_tokens EH_KEYWORD_CONST U64_PATH tree1) = Ret l).
  { flatten_trees. unfold Tree_new. destruct (add_keywords_total 0 keywords (IdentBuilder_new EH_KEYWORD_CONST) [] [Literal_u64_suffixed 0])
      as (l1 & l2 & ->); [lia|apply named_new|]. eexists. flatten_trees. reflexivity. }
  unfold keyword_tree. destruct keywords as [|k [|k2 keywords]]; [exact E| |exact E]. eexists. flatten_trees. reflexivity.
Qed.

(** The trees of a generator without a panic. *)
Definition trees_made (g : EventGenerator) : Prop :=
  Forall (fun t : Tree => exists l, t = Ret l)
    [g.(tags_tree); g.(meta_tree); g.(func_args_tree); g.(func_call_tree); g.(lengths_init_tree); g.(data_desc_init_tree)].
Lemma generated_made `{Target} `{RustValues} g x : generated_event g = Some x -> trees_made g.
Proof.
  unfold generated_event, trees_made. destruct (tags_tree g), (meta_tree g), (func_args_tree g), (func_call_tree g),
    (lengths_init_tree g), (data_desc_init_tree g); try done. intros _. repeat (constructor; [by eexists|]). constructor.
Qed.
Lemma enabled_tree_total event g : trees_made g -> exists l, enabled_tree event g = Ret l.
Proof.
  unfold trees_made. rewrite !Forall_cons_iff.
  intros ([l1 E1] & [l2 E2] & [l3 E3] & [l4 E4] & [l5 E5] & [l6 E6] & _).
  unfold enabled_tree, write_body, add_link_section, add_tracepoint_ptr, add_outer_attribute. rewrite E3, E4, E5, E6.
  eexists. flatten_trees. reflexivity.
Qed.
Lemma event_tree_total event g : trees_made g -> continues event.(provider_symbol) = true ->
  exists code, event_tree event g = Ret code.
Proof.
  intros Hg Hs. destruct (enabled_tree_total event g Hg) as [body Eb]. destruct (keyword_tree_total event.(keywords)) as [kw Ek].
  unfold trees_made in Hg. rewrite !Forall_cons_iff in Hg. destruct Hg as ([l1 E1] & [l2 E2] & _).
  unfold event_tree, add_provider_checks, add_tracepoint_static, header_parts, define_provider_ref.
  rewrite Eb, Ek, E1, E2. rewrite <- provider_name_ident in Hs. rewrite !type_tokens_ext by reflexivity.
  eexists. flatten_trees. unfold add_scalar_type_path. cbn [Z.eqb]. flatten_trees. reflexivity.
Qed.
(** A panic remains. *)
Lemma provider_checks_panic symbol t : add_provider_checks symbol Panic t = Panic.
Proof. unfold add_provider_checks, add_group_paren, add_group. reflexivity. Qed.
Lemma event_tree_panics event g : continues event.(provider_symbol) = false -> event_tree event g = Panic.
Proof.
  intros Hs. rewrite <- provider_name_ident in Hs. unfold event_tree, define_provider_ref.
  rewrite (add_ident_panics _ _ Hs), provider_checks_panic. unfold add_tracepoint_static.
  assert (Hc : forall d l t, t = Panic -> add_group d l t = Panic) by (intros d l t ->; by destruct l).
  assert (Hp : forall c t, t = Panic -> add_punct c t = Panic).
  { intros c t ->. induction c as [|x c IH]; [done|]. cbn [add_punct]. destruct (Punct_new _ _); [exact IH|done]. }
  assert (Hi : forall n t, t = Panic -> add_ident n t = Panic) by (intros n t ->; done).
  assert (Ha : forall p t, t = Panic -> add_path p t = Panic).
  { intros p. induction p as [|x p IH]; intros t ->; [done|]. by apply IH. }
  unfold add_path_call, add_group_paren, add_group_curly.
  repeat first [apply Hc | apply Hp | apply Hi | apply Ha]. reflexivity.
Qed.
End Code.
