(* ===== verification/MacroSyntax.v ===== *)
(** * MacroSyntax: the arguments of write_event! are parsed

    [macro_tokens] is a call of the macro as a user writes it; [macro_parsed] says which
    event the parser makes of it. *)

From S2P Require Import Prelude Strings Types ByteReader Writers Builder FieldTree.
From S2P Require Import MacroTokens MacroTrees MacroParser MacroFields MacroEvent MacroGenerator MacroRuntime MacroMeaning MacroPieces MacroValues.

#[local] Abbreviation lit x := (str_bytes x).
#[local] Set Warnings "-register-all".

(** ** The search for a type of field *)

Lemma str_cmp_eq a b : str_cmp a b = Eq <-> a = b.
Proof.
  revert b. induction a as [|x a IH]; intros [|y b]; cbn [str_cmp]; try done.
  destruct (Z.compare_spec x y) as [->|Hl|Hl].
  - rewrite IH. split; [by intros ->|by intros [= ->]].
  - split; [done|]. intros [= -> _]. lia.
  - split; [done|]. intros [= -> _]. lia.
Qed.
Lemma search_loop_sound {A} (cmp : A -> comparison) l fuel base size i :
  search_loop cmp l fuel base size = Some i -> exists x, l !! i = Some x /\ cmp x = Eq.
Proof.
  revert base size. induction fuel as [|fuel IH]; intros base size; [done|]. cbn [search_loop].
  destruct (1 <? size)%nat; [by apply IH|]. destruct (l !! base) as [x|] eqn:E; [|done]. cbn [option_map].
  destruct (cmp x) eqn:Ec; [|done|done]. intros [= <-]. by exists x.
Qed.
Definition options_found : bool :=
  forallb (fun i => match FIELD_OPTIONS !! i with
                    | Some o => match binary_search_by (fun x => str_cmp x.(option_name) o.(option_name)) FIELD_OPTIONS with
                                | Some j => Nat.eqb i j | None => false end
                    | None => false end) (seq 0 (length FIELD_OPTIONS)).
Lemma options_found_ok : options_found = true.
Proof. vm_compute. reflexivity. Qed.

Lemma find_field_option_sound name o : find_field_option name = Some o -> In o FIELD_OPTIONS /\ o.(option_name) = name.
Proof.
  unfold find_field_option. destruct (binary_search_by _ _) as [i|] eqn:E; [|done]. intros Hi. unfold binary_search_by in E.
  apply search_loop_sound in E as (x & Hx & Ec). rewrite Hi in Hx. injection Hx as <-.
  apply str_cmp_eq in Ec. split; [|done]. apply list_elem_of_In. by eapply list_elem_of_lookup_2.
Qed.
Lemma find_field_option_in o : In o FIELD_OPTIONS -> find_field_option o.(option_name) = Some o.
Proof.
  intros Hin. unfold find_field_option. apply list_elem_of_In, list_elem_of_lookup in Hin as [i Hi].
  pose proof options_found_ok as Hf. unfold options_found in Hf. rewrite forallb_forall in Hf.
  specialize (Hf i). rewrite Hi in Hf. rewrite in_seq in Hf. pose proof (lookup_lt_Some _ _ _ Hi).
  destruct (binary_search_by _ _) as [j|].
  - assert (E : (i =? j)%nat = true) by (apply Hf; lia). by apply Nat.eqb_eq in E as <-.
  - by specialize (Hf ltac:(lia)).
Qed.
(** The binary search over the table of field types is exact: a name is found if and only
    if it is the name of an option of the table, and what is found is that option. *)
Theorem find_field_option_exact name o : find_field_option name = Some o <-> In o FIELD_OPTIONS /\ o.(option_name) = name.
Proof. split; [apply find_field_option_sound|]. intros [Hin <-]. by apply find_field_option_in. Qed.

(** ** Fields given to the macro *)

(** The tokens of the format and of the tag are empty when none is given. *)
Inductive MField :=
  | MValue (o : FieldOption) (name : bytes) (value format tag : TokenStream)
  | MStruct (name : bytes) (fields : list MField) (tag : TokenStream).

Section Induction.
Context (P : MField -> Prop).
Context (Hvalue : forall o name value format tag, P (MValue o name value format tag)).
Context (Hstruct : forall name fields tag, Forall P fields -> P (MStruct name fields tag)).
Fixpoint MField_tree_ind (m : MField) : P m :=
  match m with
  | MValue o name value format tag => Hvalue o name value format tag
  | MStruct name fields tag =>
    Hstruct name fields tag
      ((fix all (ms : list MField) : Forall P ms :=
          match ms with [] => @List.Forall_nil _ P | m :: ms => @List.Forall_cons _ P m _ (MField_tree_ind m) (all ms) end) fields)
  end.
End Induction.

Definition struct_option : FieldOption := FieldOption_new (lit "struct") [] E_Struct F_Default Struct 0.
Definition value_info (o : FieldOption) (name : bytes) (value format tag : TokenStream) : FieldInfo := {|
  fi_option := o; fi_name := name; value_tokens := value; encoding_tokens := []; format_or_field_count_expr := format;
  format_or_field_count_int := format_u8 o.(MacroFields.format); fi_tag := tag |}.
Definition struct_info (name : bytes) (count : Z) (tag : TokenStream) : FieldInfo := {|
  fi_option := struct_option; fi_name := name; value_tokens := []; encoding_tokens := []; format_or_field_count_expr := [];
  format_or_field_count_int := count; fi_tag := tag |}.
Section Syntax.
Context `{Unicode : UnicodeIdent} `{TokenText}.

Lemma known_names_sorted l : In l [LEVEL_ENUMS; OPCODE_ENUMS; ENCODING_ENUMS; FORMAT_ENUMS] -> sorted_names l = true.
Proof. cbn [In]. intros Hl. repeat destruct Hl as [<-|Hl]; try done; vm_compute; reflexivity. Qed.
Lemma known_names_idents l : In l [LEVEL_ENUMS; OPCODE_ENUMS; ENCODING_ENUMS; FORMAT_ENUMS] -> idents l = true.
Proof. cbn [In]. intros Hl. repeat destruct Hl as [<-|Hl]; try done; reflexivity. Qed.
Lemma known_value_ident l str : idents l = true -> is_known_value l str = true -> is_ident str = true.
Proof.
  unfold is_known_value. intros Hl Hk. destruct (binary_search_by _ l) as [i|] eqn:E; [|done]. unfold binary_search_by in E.
  apply search_loop_sound in E as (x & Hx & Ec). apply str_cmp_eq in Ec as ->. unfold idents in Hl.
  rewrite forallb_forall in Hl. apply Hl, list_elem_of_In. by eapply list_elem_of_lookup_2.
Qed.
(** The names that the filter of a constant puts in a path are identifiers: it does not panic. *)
Lemma filter_total ts n l : In l [LEVEL_ENUMS; OPCODE_ENUMS; ENCODING_ENUMS; FORMAT_ENUMS] -> is_ident n = true ->
  exists ts', filter_enum_tokens ts n l = Ret ts'.
Proof.
  intros Hl Hn. unfold filter_enum_tokens. rewrite known_names_sorted by done. cbn [rassert mbind outcome_bind]. cbv zeta.
  destruct (match to_string ts with c :: _ => is_ascii_digit c | [] => false end).
  - assert (Hi : idents [lit "eventheader"; n; lit "from_int"] = true) by (cbn [idents forallb]; by rewrite Hn).
    eexists. flatten_trees. reflexivity.
  - destruct (is_known_value l (to_string ts)) eqn:Ek; [|by eexists].
    assert (Hi : idents [lit "eventheader"; n; to_string ts] = true)
      by (cbn [idents forallb]; rewrite Hn, (known_value_ident l (to_string ts)); [reflexivity|by apply known_names_idents|done]).
    eexists. flatten_trees. reflexivity.
Qed.

(** What the parser makes of the tokens of a format. *)
Definition format_expr (format : TokenStream) : TokenStream :=
  match format, filter_enum_tokens format (lit "FieldFormat") FORMAT_ENUMS with
  | [], _ | _, Panic => []
  | _, Ret tokens => tokens
  end.
(** The fields as the parser lists them: a struct before its fields. *)
Fixpoint m_infos (m : MField) : list FieldInfo :=
  match m with
  | MValue o name value format tag => [value_info o name value (format_expr format) tag]
  | MStruct name fields tag => struct_info name (Z.land (len fields) ValueMask) tag :: concat (map m_infos fields)
  end.


Definition all_infos (ms : list MField) : list FieldInfo := concat (map m_infos ms).

(** A type of field that has a value: not a struct, not raw. *)
Definition plain_strategy (s : FieldStrategy) : bool :=
  match s with Scalar | SystemTime | CStr | Str | Slice => true | _ => false end.

(** ** The tokens of a call *)

Definition quote (s : bytes) : TokenTree := Literal (34 :: s ++ [34]).
Definition option_call (name : bytes) (args : TokenStream) : TokenStream := [Ident name; Group Parenthesis args].
(** [, name(tokens)], when there are tokens. *)
Definition annotation (name : bytes) (tokens : TokenStream) : TokenStream :=
  if is_nil tokens then [] else comma :: option_call name tokens.
Fixpoint field_tokens (m : MField) : TokenStream :=
  match m with
  | MValue o name value format tag =>
    option_call o.(option_name)
      ([quote name; comma] ++ value ++ annotation (lit "tag") tag ++ annotation (lit "format") format)
  | MStruct name fields tag =>
    option_call (lit "struct")
      ([quote name] ++ annotation (lit "tag") tag
       ++ [comma; Group Brace (concat (map (fun m => field_tokens m ++ [comma]) fields))])
  end.
Definition fields_tokens (ms : list MField) : TokenStream := concat (map (fun m => field_tokens m ++ [comma]) ms).
Definition macro_tokens (symbol name : bytes) (ms : list MField) : TokenStream :=
  [Ident symbol; comma; quote name; comma] ++ fields_tokens ms.

(** Text that stands for itself in a string literal. *)
Definition plain_name (name : bytes) : Prop := unescape name = Some name /\ has_nul name = false.
(** An expression that the parser takes as one argument. *)
Definition expr_ok (ts : TokenStream) : Prop := free 44 ts /\ free 59 ts.
Inductive syntax_ok : MField -> Prop :=
  | value_syntax_ok o name value format tag :
      In o FIELD_OPTIONS -> plain_strategy o.(strategy) = true -> plain_name name ->
      expr_ok value -> value <> [] -> expr_ok format -> expr_ok tag -> syntax_ok (MValue o name value format tag)
  | struct_syntax_ok name fields tag :
      plain_name name -> expr_ok tag -> 1 <= len fields <= 127 -> Forall syntax_ok fields ->
      syntax_ok (MStruct name fields tag).

(** The parser's estimate of the metadata of a field. *)
Definition info_size (fi : FieldInfo) : Z :=
  len fi.(fi_name) + 1
  + match fi.(fi_tag) with _ :: _ => 4 | [] => if negb (fi.(format_or_field_count_int) =? 0) then 2 else 1 end.
Definition infos_size (fis : list FieldInfo) : Z := fold_right (fun fi n => info_size fi + n) 0 fis.
Definition with_infos (fis : list FieldInfo) (event : EventInfo) : EventInfo :=
  set_metadata_bytes_used (event.(metadata_bytes_used) + infos_size fis) (set_fields (event.(fields) ++ fis) event).

Lemma info_size_pos fi : 0 < info_size fi.
Proof. unfold info_size. pose proof (len_nonneg (fi_name fi)). destruct (fi_tag fi); [destruct (negb _)|]; lia. Qed.
Lemma infos_size_nonneg fis : 0 <= infos_size fis.
Proof. induction fis as [|fi fis IH]; [done|]. cbn. pose proof (info_size_pos fi). fold (infos_size fis). lia. Qed.
Lemma infos_size_app a b : infos_size (a ++ b) = infos_size a + infos_size b.
Proof. induction a as [|fi a IH]; [done|]. cbn [app infos_size fold_right]. fold (infos_size (a ++ b)) (infos_size a). lia. Qed.
Lemma with_infos_app a b event : with_infos (a ++ b) event = with_infos b (with_infos a event).
Proof. unfold with_infos, set_metadata_bytes_used, set_fields. cbn. by rewrite infos_size_app, Z.add_assoc, app_assoc. Qed.

(** ** Arguments *)

Definition fits_after (rest : TokenStream) (after : TokenStream) : Prop := rest = [] /\ after = [] \/ rest = comma :: after.
Lemma next_tokens_loop_ok c msg ts rest after got : free 44 ts -> free 59 ts -> (got = true \/ ts <> []) ->
  (c <> RequiredLast /\ fits_after rest after \/ rest = [] /\ after = []) ->
  next_tokens_loop got c msg (ts ++ rest) [] = (ts, (after, [])).
Proof.
  intros Hc Hs. revert got. induction Hc as [|t ts Ht Hc IH]; intros got Hg Hr.
  - destruct Hg as [-> | ?]; [|done]. cbn [app].
    destruct Hr as [[Hl [[-> ->] | ->]]|[-> ->]]; [done| |done]. cbn. by destruct c.
  - apply Forall_cons_iff in Hs as [Ht2 Hs]. cbn [app next_tokens_loop]. unfold is_comma. rewrite Ht, Ht2.
    rewrite IH; [done|done|by left|done].
Qed.
Lemma next_tokens_last c msg ts : expr_ok ts -> ts <> [] -> next_tokens c msg ts [] = (ts, ([], [])).
Proof.
  intros [Hc Hs] Hn. unfold next_tokens. rewrite <- (app_nil_r ts) at 1.
  by apply next_tokens_loop_ok; [..|by right|right].
Qed.
Lemma next_arg_option b name args rest after : fits_after rest after ->
  next_arg b (option_call name args ++ rest) [] = (ArgOption name args, (after, [])).
Proof. intros [[-> ->] | ->]; by destruct b. Qed.
Lemma next_arg_end : next_arg false [] [] = (ArgNone, ([], [])).
Proof. done. Qed.

Lemma string_literal_ok c msg name rest after : plain_name name -> c <> RequiredLast -> fits_after rest after ->
  next_string_literal c msg (quote name :: rest) [] = (Some name, (after, [])).
Proof.
  intros [Hu _] Hc Hr. pose proof (len_nonneg name). cbn [next_string_literal quote next_string_literal_token].
  assert (E : not_string_literal (34 :: name ++ [34]) = false).
  { unfold not_string_literal. rewrite len_cons, len_app. rewrite (proj2 (Z.ltb_ge _ 2)) by (change (len [34]) with 1; lia).
    cbn [nth orb negb Z.eqb Pos.eqb]. change (34 :: name ++ [34]) with ((34 :: name) ++ [34]). by rewrite last_last. }
  rewrite E. assert (Es : sub (34 :: name ++ [34]) 1 (len (34 :: name ++ [34]) - 1) = name).
  { unfold sub. rewrite len_cons, len_app. change (len [34]) with 1. change (Z.to_nat 1) with 1%nat. cbn [drop].
    replace (Z.to_nat (1 + (len name + 1) - 1 - 1)) with (length name) by (unfold len; lia). change (drop 0 (name ++ [34])) with (name ++ [34]). by rewrite take_app_length. }
  rewrite Es, Hu. destruct Hr as [[-> ->] | ->]; [done|]. cbn. by destruct c.
Qed.

(** ** One field *)

Lemma filter_format format : filter_enum_tokens format (lit "FieldFormat") FORMAT_ENUMS
  = Ret (match format, filter_enum_tokens format (lit "FieldFormat") FORMAT_ENUMS with _, Ret t => t | _, Panic => [] end).
Proof. destruct (filter_total format (lit "FieldFormat") FORMAT_ENUMS) as [t ->]; [cbn; tauto|reflexivity|done]. Qed.
Lemma format_expr_some format : format <> [] ->
  filter_enum_tokens format (lit "FieldFormat") FORMAT_ENUMS = Ret (format_expr format).
Proof. intros Hn. rewrite filter_format. unfold format_expr. destruct format; [done|]. by destruct (filter_enum_tokens _ _ _). Qed.

Lemma parse_tag field tag : expr_ok tag -> tag <> [] -> field_accepts_tag field.(fi_option).(strategy) = true ->
  field.(fi_tag) = [] -> parse_field_option (lit "tag") tag field [] = Ret (set_fi_tag tag field, []).
Proof.
  intros He Hn Ha Hf. unfold parse_field_option. cbv zeta. rewrite Ha.
  change (str_is (lit "tag") "tag") with true. cbn [andb]. rewrite Hf. cbn [is_nil negb add_error_if].
  by rewrite next_tokens_last.
Qed.
Lemma parse_format field format : expr_ok format -> format <> [] ->
  field_accepts_format field.(fi_option).(strategy) = true -> field.(format_or_field_count_expr) = [] ->
  parse_field_option (lit "format") format field [] = Ret (set_format_expr (format_expr format) field, []).
Proof.
  intros He Hn Ha Hf. unfold parse_field_option. cbv zeta. rewrite Ha.
  change (str_is (lit "format") "tag") with false. change (str_is (lit "format") "format") with true. cbn [andb].
  rewrite Hf. cbn [is_nil negb add_error_if]. rewrite next_tokens_last by done. rewrite format_expr_some by done. done.
Qed.

(** The options of a field with a value: [rest] is what [after] follows. *)
Lemma value_options o field tag format : field.(fi_option) = o -> plain_strategy o.(strategy) = true ->
  expr_ok tag -> expr_ok format -> field.(fi_tag) = [] -> field.(format_or_field_count_expr) = [] ->
  exists rest, fits_after (annotation (lit "tag") tag ++ annotation (lit "format") format) rest /\
    parse_field_options (S (length rest)) field rest []
    = Ret (set_fi_tag tag (set_format_expr (format_expr format) field), None, []).
Proof.
  intros Ho Hp Ht Hf Et Ef.
  assert (Hacc : field_wants_struct (strategy (fi_option field)) = false /\ field_accepts_tag (strategy (fi_option field)) = true /\
    field_accepts_format (strategy (fi_option field)) = true) by (rewrite Ho; by destruct (strategy o)).
  destruct Hacc as (Hw & Hat & Haf).
  assert (Hid : set_fi_tag [] field = field /\ set_format_expr [] field = field) by (destruct field; cbn in *; by subst).
  destruct Hid as [Hid1 Hid2]. unfold annotation. destruct tag as [|t ts]; destruct format as [|f fs]; cbn [is_nil app].
  - exists []. split; [by left|]. cbn [parse_field_options]. rewrite Hw, next_arg_end. change (format_expr []) with (@nil TokenTree).
    by rewrite Hid2, Hid1.
  - exists (option_call (lit "format") (f :: fs)). split; [by right|]. change (S (length _)) with 3%nat. cbn [parse_field_options]. rewrite Hw.
    rewrite <- (app_nil_r (option_call _ _)), (next_arg_option _ _ _ _ []) by by left.
    rewrite parse_format by done. cbn [mbind outcome_bind]. cbn [parse_field_options].
    change (fi_option (set_format_expr _ field)) with (fi_option field). rewrite Hw, next_arg_end.
    do 2 f_equal. by destruct field; cbn in *; subst.
  - exists (option_call (lit "tag") (t :: ts)). split; [right; by rewrite app_nil_r|]. change (S (length _)) with 3%nat. cbn [parse_field_options]. rewrite Hw.
    rewrite <- (app_nil_r (option_call _ _)), (next_arg_option _ _ _ _ []) by by left.
    rewrite parse_tag by done. cbn [mbind outcome_bind]. cbn [parse_field_options].
    change (fi_option (set_fi_tag _ field)) with (fi_option field). rewrite Hw, next_arg_end.
    change (format_expr []) with (@nil TokenTree). by rewrite Hid2.
  - exists (option_call (lit "tag") (t :: ts) ++ comma :: option_call (lit "format") (f :: fs)). split; [by right|]. change (S (length _)) with 6%nat.
    cbn [parse_field_options]. rewrite Hw.
    rewrite (next_arg_option _ _ _ _ (option_call (lit "format") (f :: fs))) by by right.
    rewrite parse_tag by done. cbn [mbind outcome_bind]. cbn [parse_field_options].
    change (fi_option (set_fi_tag _ field)) with (fi_option field). rewrite Hw.
    rewrite <- (app_nil_r (option_call _ _)), (next_arg_option _ _ _ _ []) by by left.
    rewrite parse_format by done. cbn [mbind outcome_bind]. cbn [parse_field_options].
    change (fi_option (set_format_expr _ _)) with (fi_option field). by rewrite Hw, next_arg_end.
Qed.

(** A field with a value, from its arguments. *)
Lemma value_head in_struct o name value tag format : plain_strategy o.(strategy) = true -> plain_name name ->
  expr_ok value -> value <> [] -> forall rest,
  fits_after (annotation (lit "tag") tag ++ annotation (lit "format") format) rest ->
  parse_field_head in_struct o ([quote name; comma] ++ value ++ annotation (lit "tag") tag ++ annotation (lit "format") format) []
  = Ret (set_value_tokens value (set_fi_name name (new_field o)), (rest, [])).
Proof.
  intros Hp Hn [Hv1 Hv2] Hne rest Hr. unfold parse_field_head, parse_field_name.
  assert (Hm : has_metadata (strategy (fi_option (new_field o))) = true /\
    (forall field it e, field.(fi_option) = o -> parse_field_type in_struct field it e = Ret (field, (it, e))) /\
    (data_count (strategy o) =? 0) = false).
  { change (fi_option (new_field o)) with o. unfold parse_field_type.
    destruct (strategy o) eqn:Es; try done; split_and!; try done; intros field it e ->; by rewrite Es. }
  destruct Hm as (Hm & Hty & Hd). rewrite Hm. cbn [negb app].
  rewrite (string_literal_ok _ _ _ _ (value ++ annotation (lit "tag") tag ++ annotation (lit "format") format))
    by (try done; by right).
  rewrite (proj2 Hn). cbn [add_error_if]. rewrite Hty by done. cbn [mbind outcome_bind].
  unfold parse_field_value. change (fi_option (set_fi_name name (new_field o))) with o. rewrite Hd. cbn [negb].
  unfold next_tokens. rewrite (next_tokens_loop_ok _ _ _ _ rest) by (done || (right; exact Hne) || (left; split; [done|exact Hr])). done.
Qed.

(** ** The metadata estimate *)

Lemma push_field_ok field event : 0 < event.(metadata_bytes_used) ->
  event.(metadata_bytes_used) + info_size field <= 65535 -> push_field field event [] = Ret (with_infos [field] event, []).
Proof.
  intros Hu Hs. pose proof (info_size_pos field). unfold push_field. cbv zeta. fold (info_size field).
  unfold add_estimated_metadata, METADATA_BYTES_MAX. rewrite (proj2 (Z.eqb_neq _ 0)) by lia.
  rewrite (checked_ok 16 (65535 - _)) by lia. cbn [mbind outcome_bind]. rewrite (proj2 (Z.leb_le _ _)) by lia.
  rewrite as_unsigned_id by lia. rewrite checked_ok by lia. cbn [mbind outcome_bind].
  unfold with_infos, infos_size. cbn [fold_right]. rewrite Z.add_0_r. done.
Qed.
Lemma count_field_ok (in_struct : bool) o added : has_metadata o.(strategy) = true -> 0 <= added ->
  added < (if in_struct then 127 else 254) -> count_field in_struct o added [] = (added + 1, []).
Proof.
  intros Hm H0 Hl. unfold count_field, STRUCT_FIELDS_MAX. rewrite Hm.
  destruct in_struct; cbn [andb negb]; rewrite (proj2 (Z.eqb_neq added _)) by lia; rewrite Z.min_r by lia; done.
Qed.

(** The iterations that a field takes. *)
Fixpoint weight (m : MField) : nat :=
  match m with MValue _ _ _ _ _ => 1 | MStruct _ fields _ => S (fold_right (fun m n => weight m + n)%nat O fields) end.
Definition weights (ms : list MField) : nat := fold_right (fun m n => weight m + n)%nat O ms.

(** What parsing one field does to the loop. *)
Definition parses (m : MField) : Prop := forall fuel in_struct event added cs ts rest,
  (weight m <= fuel)%nat -> 0 < event.(metadata_bytes_used) ->
  event.(metadata_bytes_used) + infos_size (m_infos m) <= 65535 ->
  0 <= added < (if in_struct : bool then 127 else 254) ->
  parse_event_options_loop (S fuel) in_struct event added cs ts (field_tokens m ++ comma :: rest) []
  = parse_event_options_loop fuel in_struct (with_infos (m_infos m) event) (added + 1) cs ts rest [].

Lemma fields_parse ms : Forall parses ms -> forall fuel in_struct event added cs ts,
  (weights ms < fuel)%nat -> 0 < event.(metadata_bytes_used) ->
  event.(metadata_bytes_used) + infos_size (all_infos ms) <= 65535 ->
  0 <= added -> added + len ms <= (if in_struct : bool then 127 else 254) ->
  parse_event_options_loop fuel in_struct event added cs ts (fields_tokens ms) []
  = Ret (with_infos (all_infos ms) event, added + len ms, []).
Proof.
  induction 1 as [|m ms Hm Hms IH]; intros fuel in_struct event added cs ts Hf Hu Hs H0 Hl.
  - destruct fuel as [|fuel]; [lia|]. cbn. unfold with_infos. cbn. rewrite app_nil_r, !Z.add_0_r. by destruct event.
  - rewrite len_cons in Hl. pose proof (len_nonneg ms). unfold all_infos in *. cbn [map concat] in *. fold (all_infos ms) in *.
    rewrite infos_size_app in Hs. pose proof (infos_size_nonneg (m_infos m)). pose proof (infos_size_nonneg (all_infos ms)).
    cbn [weights fold_right] in Hf. fold (weights ms) in Hf. destruct fuel as [|fuel]; [lia|].
    unfold fields_tokens. cbn [map concat]. fold (fields_tokens ms). rewrite <- (app_assoc (field_tokens m)). cbn [app].
    rewrite Hm; [|lia|done|lia|destruct in_struct; lia].
    assert (Hw : (1 <= weight m)%nat) by (destruct m; cbn; lia).
    rewrite IH; [|lia| | |lia|destruct in_struct; lia].
    + rewrite with_infos_app, len_cons. do 2 f_equal. f_equal. lia.
    + unfold with_infos. cbn. lia.
    + unfold with_infos. cbn. lia.
Qed.

Lemma value_parses o name value format tag : syntax_ok (MValue o name value format tag) -> parses (MValue o name value format tag).
Proof.
  intros Hm. inversion Hm as [? ? ? ? ? Hin Hp Hn Hv Hne Hf Ht|]; subst.
  intros fuel in_struct event added cs ts rest Hw Hu Hs Ha. cbn [field_tokens m_infos] in *.
  cbn [parse_event_options_loop]. rewrite (next_arg_option _ _ _ _ rest) by by right.
  rewrite find_field_option_in by done.
  destruct (value_options o (set_value_tokens value (set_fi_name name (new_field o))) tag format) as (after & Hfit & Eo);
    [done..|].
  rewrite (value_head _ _ _ _ tag format Hp Hn Hv Hne after Hfit). cbn [mbind outcome_bind].
  rewrite Eo. cbn [mbind outcome_bind].
  change (set_fi_tag tag _) with (value_info o name value (format_expr format) tag).
  assert (Es : infos_size [value_info o name value (format_expr format) tag]
               = info_size (value_info o name value (format_expr format) tag)) by (cbn; lia).
  rewrite push_field_ok by (done || lia). cbn [mbind outcome_bind].
  rewrite count_field_ok; [done|by destruct (strategy o)|lia|destruct in_struct; lia].
Qed.

(** The head of a struct: its name and its tag, up to the group of its fields. *)
Lemma struct_head in_struct name tag stream : plain_name name -> expr_ok tag ->
  exists field it, parse_field_head in_struct struct_option
      ([quote name] ++ annotation (lit "tag") tag ++ [comma; Group Brace stream]) [] = Ret (field, (it, [])) /\
    parse_field_options (S (length it)) field it [] = Ret (struct_info name 0 tag, Some stream, []).
Proof.
  intros Hn Ht. unfold parse_field_head, parse_field_name.
  change (has_metadata (strategy (fi_option (new_field struct_option)))) with true. cbn [negb app].
  set (f0 := set_fi_name name (new_field struct_option)). destruct tag as [|t ts].
  - exists f0, [Group Brace stream]. cbn [annotation is_nil app].
    rewrite (string_literal_ok _ _ _ _ [Group Brace stream]) by (try done; by right).
    rewrite (proj2 Hn). split; reflexivity.
  - exists f0, (option_call (lit "tag") (t :: ts) ++ [comma; Group Brace stream]). cbn [annotation is_nil app].
    rewrite (string_literal_ok _ _ _ _ (option_call (lit "tag") (t :: ts) ++ [comma; Group Brace stream])) by (try done; by right).
    rewrite (proj2 Hn). split; [reflexivity|]. change (S (length _)) with 5%nat. cbn [parse_field_options].
    rewrite (next_arg_option _ _ _ _ [Group Brace stream]) by by right.
    rewrite parse_tag by done. reflexivity.
Qed.
Lemma update_pushed i f event fi fis : i = length event.(fields) ->
  update_field i f (with_infos (fi :: fis) event) = Ret (set_fields (event.(fields) ++ f fi :: fis) (with_infos (fi :: fis) event)).
Proof.
  intros ->. unfold update_field, with_infos. cbn [fields set_metadata_bytes_used set_fields].
  by rewrite list_lookup_middle, insert_app_r_alt, Nat.sub_diag by done.
Qed.
Lemma struct_parses name fields tag : plain_name name -> expr_ok tag -> 1 <= len fields <= 127 ->
  Forall parses fields -> parses (MStruct name fields tag).
Proof.
  intros Hn Ht Hl Hfs fuel in_struct event added cs ts rest Hw Hu Hs Ha. cbn [field_tokens m_infos weight] in *.
  fold (weights fields) in Hw. fold (all_infos fields) in Hs |- *. fold (fields_tokens fields).
  cbn [parse_event_options_loop]. rewrite (next_arg_option _ _ _ _ rest) by by right.
  change (lit "struct") with (option_name struct_option). rewrite find_field_option_in by (vm_compute; tauto).
  destruct (struct_head in_struct name tag (fields_tokens fields) Hn Ht) as (field & it & Eh & Eo).
  rewrite Eh. cbn [mbind outcome_bind]. rewrite Eo. cbn [mbind outcome_bind].
  change (set_format_int 1 (struct_info name 0 tag)) with (struct_info name 1 tag).
  assert (E : Z.land (len fields) ValueMask = len fields).
  { unfold ValueMask. change 0x7F with (Z.ones 7). rewrite Z.land_ones by lia. apply Z.mod_small. lia. }
  rewrite E in *. assert (Ei : info_size (struct_info name (len fields) tag) = info_size (struct_info name 1 tag)).
  { unfold info_size. cbn [format_or_field_count_int struct_info fi_tag fi_name]. by rewrite (proj2 (Z.eqb_neq (len fields) 0)) by lia. }
  cbn [infos_size fold_right] in Hs. fold (infos_size (all_infos fields)) in Hs. rewrite Ei in Hs.
  pose proof (infos_size_nonneg (all_infos fields)). pose proof (info_size_pos (struct_info name 1 tag)).
  rewrite push_field_ok by (done || lia). cbn [mbind outcome_bind].
  assert (E1 : infos_size [struct_info name 1 tag] = info_size (struct_info name 1 tag)) by (cbn; lia).
  rewrite (fields_parse fields Hfs fuel true) by (try lia; unfold with_infos; cbn [metadata_bytes_used set_metadata_bytes_used]; lia).
  cbn [mbind outcome_bind]. rewrite Z.add_0_l, (proj2 (Z.eqb_neq (len fields) 0)) by lia. cbn [add_error_if].
  rewrite <- with_infos_app. cbn [app]. rewrite update_pushed by done. cbn [mbind outcome_bind].
  rewrite E, count_field_ok; [|done|lia|destruct in_struct; lia].
  do 2 f_equal. unfold with_infos, set_fields, set_metadata_bytes_used. cbn [MacroEvent.fields metadata_bytes_used infos_size fold_right
    set_format_int fi_option struct_info]. fold (infos_size (all_infos fields)). rewrite Ei. done.
Qed.

Lemma syntax_parses m : syntax_ok m -> parses m.
Proof.
  induction m as [o name value format tag|name fields tag IH] using MField_tree_ind; intros Hm; [by apply value_parses|].
  inversion Hm as [|? ? ? Hn Ht Hl Hfs]; subst. apply struct_parses; [done..|].
  rewrite Forall_forall in IH, Hfs. apply Forall_forall. intros m Hin. by apply IH, Hfs.
Qed.

(** ** The whole call *)

Lemma stream_count_app a b : stream_count (a ++ b) = (stream_count a + stream_count b)%nat.
Proof. induction a as [|t a IH]; [done|]. cbn [app stream_count fold_right]. fold (stream_count (a ++ b)) (stream_count a). lia. Qed.
Lemma token_count_group d ts : token_count (Group d ts) = S (stream_count ts).
Proof. done. Qed.
Lemma option_call_count name args : stream_count (option_call name args) = S (S (stream_count args)).
Proof. cbn [stream_count option_call fold_right]. rewrite token_count_group. cbn [token_count]. lia. Qed.
Lemma fields_count ms : Forall (fun m => (weight m <= stream_count (field_tokens m))%nat) ms ->
  (weights ms <= stream_count (fields_tokens ms))%nat.
Proof.
  induction 1 as [|m ms Hm Hms IH]; [done|]. cbn [weights fold_right]. fold (weights ms).
  unfold fields_tokens. cbn [map concat]. fold (fields_tokens ms). rewrite !stream_count_app. lia.
Qed.
Lemma weight_count m : (weight m <= stream_count (field_tokens m))%nat.
Proof.
  induction m as [o name value format tag|name fields tag IH] using MField_tree_ind; cbn [weight field_tokens];
    rewrite option_call_count; [lia|]. fold (weights fields) (fields_tokens fields). apply fields_count in IH.
  rewrite !stream_count_app. cbn [stream_count fold_right]. rewrite token_count_group. lia.
Qed.

(** The defaults are given without a panic, and leave the name, the symbol and the fields. *)
Lemma with_defaults_ok e : exists e', with_defaults e = Ret e' /\ e'.(ev_name) = e.(ev_name) /\
  e'.(MacroEvent.fields) = e.(MacroEvent.fields) /\ e'.(provider_symbol) = e.(provider_symbol).
Proof.
  unfold with_defaults. rewrite !add_literal_ext, !add_path_ext, !extend_new by reflexivity.
  repeat match goal with |- context [if is_nil ?l then _ else _] => destruct (is_nil l); cbn [mbind outcome_bind] end;
    by eexists.
Qed.
(** The event that the parser makes of a call. *)
Definition parsed_event (symbol name : bytes) (ms : list MField) : EventInfo :=
  match with_defaults (with_infos (all_infos ms)
    (set_metadata_bytes_used (1 + (len name + 1)) (set_ev_name name (set_provider_symbol symbol EventInfo_empty)))) with
  | Ret event => event
  | Panic => EventInfo_empty
  end.
Lemma parsed_event_facts symbol name ms :
  (parsed_event symbol name ms).(ev_name) = name /\ (parsed_event symbol name ms).(MacroEvent.fields) = all_infos ms /\
  (parsed_event symbol name ms).(provider_symbol) = symbol.
Proof. unfold parsed_event. match goal with |- context [with_defaults ?e] => by destruct (with_defaults_ok e) as (e' & -> & -> & -> & ->) end. Qed.

Lemma macro_parsed symbol name ms : plain_name name -> Forall syntax_ok ms -> len ms <= 254 ->
  1 + (len name + 1) + infos_size (all_infos ms) <= 65535 ->
  try_from_tokens (macro_tokens symbol name ms) = Ret (Ok (parsed_event symbol name ms)).
Proof.
  intros Hn Hms Hl Hs. pose proof (infos_size_nonneg (all_infos ms)). pose proof (len_nonneg name).
  unfold try_from_tokens. assert (Es : sorted_names (map option_name FIELD_OPTIONS) = true) by (vm_compute; reflexivity).
  rewrite Es. cbn [rassert mbind outcome_bind]. unfold macro_tokens. cbn [app next_ident].
  change (next_comma RequiredNotLast (comma :: quote name :: comma :: fields_tokens ms) Errors_new)
    with (quote name :: comma :: fields_tokens ms, @nil TokenTree). cbv beta iota.
  rewrite (string_literal_ok _ _ _ _ (fields_tokens ms)) by (try done; by right).
  unfold add_estimated_metadata, METADATA_BYTES_MAX.
  change (metadata_bytes_used (set_ev_name _ _)) with 1. cbn [Z.eqb]. change (1 =? 0) with false. cbv iota.
  rewrite (checked_ok 16 (65535 - 1)) by lia. cbn [mbind outcome_bind]. rewrite (proj2 (Z.leb_le _ _)) by lia.
  rewrite as_unsigned_id by lia. rewrite checked_ok by lia. cbn [mbind outcome_bind].
  rewrite (proj2 Hn). cbn [add_error_if]. unfold parse_event_options.
  match goal with |- context [parse_event_options_loop ?n false ?ev 0 false false _ _] => set (event := ev); set (fuel := n) end.
  assert (Hw : (weights ms < fuel)%nat).
  { subst fuel. assert (weights ms <= stream_count (fields_tokens ms))%nat; [|lia].
    apply fields_count, Forall_forall. intros m _. apply weight_count. }
  assert (Hu : metadata_bytes_used event = 1 + (len name + 1)) by done.
  rewrite (fields_parse ms) with (fuel := fuel); [|eapply List.Forall_impl; [apply syntax_parses|done]|done|lia..].
  cbn [mbind outcome_bind Errors_is_empty]. 
  destruct (with_defaults_ok (with_infos (all_infos ms) event)) as (e' & Ed & _). rewrite Ed. cbn [mbind outcome_bind].
  subst event. unfold parsed_event. rewrite Ed. done.
Qed.
End Syntax.
