(* ===== verification/MacroProps.v ===== *)
(** * MacroProps: an event written by write_event! is read back

    The code generated for a list of
    fields writes the same event as the builder, so that the decoder reads it back. *)

From S2P Require Import Prelude Strings Types ByteReader PerfItem Tracepoint TracepointProps Provider ProviderProps.
From S2P Require Import Enumerator Writers FloatsProps Builder BuilderProps FieldTree FieldVisit FieldProps.
From S2P Require Import MacroTokens MacroTrees MacroParser MacroFields MacroEvent MacroGenerator MacroRuntime MacroMeaning MacroPieces MacroValues MacroSyntax.

#[local] Abbreviation lit x := (str_bytes x).
#[local] Set Warnings "-register-all".

(** ** The field that is meant *)

(** The kind of value of an encoding. *)
Definition encoding_kind (e : FieldEncoding) : option ValueKind :=
  match e with
  | E_Value8 => Some (KValue 1) | E_Value16 => Some (KValue 2) | E_Value32 => Some (KValue 4)
  | E_Value64 | E_ValueSize => Some (KValue 8) | E_Value128 => Some (KValue 16)
  | E_ZStringChar8 => Some (KZString 1) | E_ZStringChar16 => Some (KZString 2) | E_ZStringChar32 => Some (KZString 4)
  | E_StringLength16Char8 => Some (KString 1) | E_StringLength16Char16 => Some (KString 2)
  | E_StringLength16Char32 => Some (KString 4)
  | E_Invalid | E_Struct => None
  end.
Definition option_kind (o : FieldOption) : ValueKind := default KBinary (encoding_kind o.(encoding)).

(** The strategy of each type suits its encoding. *)
Definition option_agrees (o : FieldOption) : bool :=
  if plain_strategy o.(strategy) then
    match o.(strategy), encoding_kind o.(encoding) with
    | (Scalar | SystemTime | Slice), Some (KValue _) => true
    | CStr, Some (KZString n) => match char_size o.(value_type) with Some m => m =? n | None => false end
    | Str, Some (KString _) => true
    | _, _ => false
    end
  else true.
Lemma options_agree : forallb option_agrees FIELD_OPTIONS = true.
Proof. vm_compute. reflexivity. Qed.

Section Values.
Context `{Target} `{RustValues} `{Unicode : UnicodeIdent} `{TokenText}.

(** The field that is meant. *)
Fixpoint m_field (m : MField) : Field :=
  match m with
  | MValue o name value format tag =>
    let fi := value_info o name value (format_expr format) tag in
    let v := (info_value fi).(elems) in
    match o.(strategy) with
    | Slice => FArray name (option_kind o) (map (fun e => [e]) v) (info_format fi) (info_tag fi)
    | Scalar | SystemTime => FScalar name (option_kind o) [concat v] (info_format fi) (info_tag fi)
    | _ => FScalar name (option_kind o) v (info_format fi) (info_tag fi)
    end
  | MStruct name fields tag => FStruct name (map m_field fields) (info_tag (struct_info name 0 tag))
  end.

(** Well-formed fields: the type is in the table, the value is of that type, a format
    or tag that is given is not zero. *)
Definition annotation_ok (fi : FieldInfo) : Prop :=
  (fi.(format_or_field_count_expr) <> [] -> info_format fi <> 0) /\ (fi.(fi_tag) <> [] -> info_tag fi <> 0) /\
  free 59 fi.(fi_tag).
Inductive m_ok : MField -> Prop :=
  | value_m_ok o name value format tag :
      In o FIELD_OPTIONS -> plain_strategy o.(strategy) = true ->
      annotation_ok (value_info o name value (format_expr format) tag) ->
      (o.(strategy) = CStr -> let a := info_value (value_info o name value (format_expr format) tag) in
         len a.(elems) <= 65535 /\ a.(elem_size) = element_width (option_kind o)) ->
      field_ok (m_field (MValue o name value format tag)) ->
      m_ok (MValue o name value format tag)
  | struct_m_ok name fields tag :
      annotation_ok (struct_info name 0 tag) -> decl_ok name 0 (info_tag (struct_info name 0 tag)) ->
      1 <= len fields <= 127 -> Forall m_ok fields -> m_ok (MStruct name fields tag).

Lemma m_field_ok m : m_ok m -> field_ok (m_field m).
Proof.
  induction m as [o name value format tag|name fields tag IH] using MField_tree_ind; intros Hm; inversion Hm; subst; [done|].
  cbn [m_field]. constructor; [done|unfold len in *; rewrite length_map; done|].
  apply Forall_map. rewrite Forall_forall in IH. apply Forall_forall. intros f Hin. apply IH; [done|].
  match goal with Hf : Forall m_ok fields |- _ => rewrite Forall_forall in Hf; by apply Hf end.
Qed.

Lemma from_cstr_before_zero size v : len v <= 65535 ->
  EventDataDescriptor_from_cstr size v = concat (before_zero size v).
Proof.
  intros Hv. unfold EventDataDescriptor_from_cstr, at_most_max, MAX_LEN. rewrite (proj2 (Z.ltb_ge _ _)) by lia.
  assert (E : forall n pre w, v = pre ++ w -> length w = n ->
    from_cstr_loop n (zero_element size) v (length pre) = pre ++ before_zero size w).
  { induction n as [|n IH]; intros pre w -> Hn.
    - apply nil_length_inv in Hn as ->. done.
    - destruct w as [|e w]; [done|]. cbn [from_cstr_loop before_zero]. unfold is_zero_element.
      rewrite list_lookup_middle by done. destruct (decide (e = zero_element size)) as [->|Hne].
      + rewrite !bool_decide_eq_true_2 by done. by rewrite take_app_length, app_nil_r.
      + rewrite !bool_decide_eq_false_2 by (done || by intros [= ->]).
        replace (S (length pre)) with (length (pre ++ [e])) by (rewrite length_app; cbn; lia).
        rewrite (IH (pre ++ [e]) w); [by rewrite <- app_assoc|by rewrite <- app_assoc|by injection Hn]. }
  pose proof (E (length v) [] v eq_refl eq_refl) as E0. cbn [length app] in E0. by rewrite E0.
Qed.
Lemma from_slice_short v : len v <= 65535 -> EventDataDescriptor_from_slice v = concat v /\ slice_count v = len v.
Proof.
  intros Hv. pose proof (len_nonneg v). unfold EventDataDescriptor_from_slice, slice_count, at_most_max, MAX_LEN.
  rewrite (proj2 (Z.ltb_ge _ _)) by lia. split; [done|]. by rewrite as_unsigned_id by lia.
Qed.

(** The encoding and the sizes of a type of the table. *)
Lemma option_facts o : In o FIELD_OPTIONS -> plain_strategy o.(strategy) = true ->
  option_agrees o = true /\ kind_ok (option_kind o) = true /\
  (exists n, to_token o.(encoding) = EnumToken_U8 n /\ n = kind_encoding (option_kind o)
             \/ to_token o.(encoding) = EnumToken_Str (lit "ValueSize") /\ kind_encoding (option_kind o) = 5).
Proof.
  intros Hin Hp. pose proof options_agree as Ha. rewrite forallb_forall in Ha. specialize (Ha o Hin). split; [done|].
  unfold option_agrees in Ha. rewrite Hp in Ha. unfold option_kind.
  destruct (encoding o) eqn:Ee; cbn [encoding_kind default to_token encoding_u8] in *; try (destruct (strategy o); discriminate);
    split; try reflexivity; (exists 0; right; by split) || (eexists; left; by split).
Qed.

Lemma info_encoding_plain o name value format tag : In o FIELD_OPTIONS -> plain_strategy o.(strategy) = true ->
  info_encoding (value_info o name value format tag) = kind_encoding (option_kind o).
Proof.
  intros Hin Hp. destruct (option_facts o Hin Hp) as (_ & _ & n & [[E ->]|[E Ek]]); unfold info_encoding;
    cbn [encoding_tokens fi_option value_info]; rewrite E; [done|]. by rewrite Ek.
Qed.
Lemma format_u8_range f : 0 <= format_u8 f < 128.
Proof. by destruct f. Qed.

(** A field with a value is declared, and its value written, as the field that is meant. *)
Lemma value_info_ok o name value format tag : m_ok (MValue o name value format tag) ->
  info_ok (value_info o name value (format_expr format) tag) /\
  info_meta (value_info o name value (format_expr format) tag) = field_meta (m_field (MValue o name value format tag)) /\
  info_data (value_info o name value (format_expr format) tag) = field_data (m_field (MValue o name value format tag)).
Proof.
  intros Hm. inversion Hm as [? ? ? ? ? Hin Hp (Hf & Ht & Hfree) Hc Hfield|]; subst.
  destruct (option_facts o Hin Hp) as (Ha & _). unfold option_agrees in Ha. rewrite Hp in Ha.
  pose proof (info_encoding_plain o name value (format_expr format) tag Hin Hp) as Ee.
  set (fi := value_info o name value (format_expr format) tag) in *.
  assert (Hn : bytes_ok name).
  { cbn [m_field] in Hfield. destruct (strategy o); try done; inversion Hfield; subst;
      match goal with Hd : decl_ok _ _ _ |- _ => apply Hd end. }
  split.
  { constructor; try done; [apply format_u8_range|]. cbn [fi fi_option value_info]. intros Es. rewrite Es in Ha.
    destruct (encoding_kind (encoding o)) as [[]|]; try done.
    destruct (char_size (value_type o)); [by eexists|done]. }
  unfold info_meta, info_data. rewrite Ee. cbv zeta. change (fi_option fi) with o. change (fi_name fi) with name.
  cbn [m_field] in *. fold fi in Hfield |- *. unfold option_kind in *.
  destruct (strategy o) eqn:Es; try done; destruct (encoding_kind (encoding o)) as [[size|size|size|]|] eqn:Ek; try done;
    cbn [default from_option id is_slice field_meta field_data has_metadata value_bytes concat]; rewrite ?Z.lor_0_r, ?app_nil_r;
    (split; [reflexivity|]); try done.
  - destruct (char_size (value_type o)) as [n|] eqn:En; rewrite ?En in Ha; [|done]. apply Z.eqb_eq in Ha as ->.
    destruct (Hc eq_refl) as [Hl Hw]. rewrite Hw. cbn [default from_option id element_width]. by rewrite from_cstr_before_zero.
  - assert (Hl : len (elems (info_value fi)) <= 65535)
      by (inversion Hfield as [? ? ? ? ? _ _ [_ ?]| |]; subst; done).
    by destruct (from_slice_short _ Hl) as [-> ->].
  - assert (Hl : len (elems (info_value fi)) <= 65535).
    { inversion Hfield as [|? ? ? ? ? _ _ _ Hl|]; subst. unfold len in *. by rewrite length_map in Hl. }
    destruct (from_slice_short _ Hl) as [-> ->]. unfold len. rewrite length_map. f_equal.
    rewrite map_map, <- (map_id (elems (info_value fi))) at 1. f_equal. apply map_ext. intros e. symmetry. apply app_nil_r.
Qed.


Lemma concat_infos {A} (f : FieldInfo -> list A) (h : MField -> list A) ms :
  Forall (fun m => concat (map f (m_infos m)) = h m) ms -> concat (map f (all_infos ms)) = concat (map h ms).
Proof.
  unfold all_infos. induction 1 as [|m ms Hm Hms IH]; [done|]. cbn [map concat]. by rewrite map_app, concat_app, Hm, IH.
Qed.
Lemma all_infos_ok ms : Forall (fun m => Forall info_ok (m_infos m)) ms -> Forall info_ok (all_infos ms).
Proof. intros Hms. by apply Forall_concat, Forall_map. Qed.

Lemma struct_info_ok name n tag : annotation_ok (struct_info name 0 tag) ->
  decl_ok name 0 (info_tag (struct_info name 0 tag)) -> 1 <= n <= 127 ->
  let fi := struct_info name (Z.land n ValueMask) tag in
  info_ok fi /\ info_meta fi = declaration name FieldEncoding_Struct n (info_tag fi) /\ info_data fi = [].
Proof.
  intros (Hf & Ht & Hfree) (Hn & Hnb & _) Hr fi.
  assert (E : Z.land n ValueMask = n).
  { unfold ValueMask. change 0x7F with (Z.ones 7). rewrite Z.land_ones by lia. apply Z.mod_small. lia. }
  unfold fi. rewrite E. split_and!; try reflexivity. constructor; try done. cbn. lia.
Qed.
Lemma m_infos_ok m : m_ok m ->
  Forall info_ok (m_infos m) /\ concat (map info_meta (m_infos m)) = field_meta (m_field m) /\
  concat (map info_data (m_infos m)) = field_data (m_field m).
Proof.
  induction m as [o name value format tag|name fields tag IH] using MField_tree_ind; intros Hm.
  - destruct (value_info_ok o name value format tag Hm) as (I1 & I2 & I3). cbn [m_infos map concat]. rewrite !app_nil_r.
    split_and!; [constructor; [done|constructor]|done|done].
  - inversion Hm as [|? ? ? Ha Hd Hl Hms]; subst. destruct (struct_info_ok name (len fields) tag Ha Hd Hl) as (I1 & I2 & I3).
    assert (Hall : Forall (fun m => Forall info_ok (m_infos m) /\ concat (map info_meta (m_infos m)) = field_meta (m_field m) /\
      concat (map info_data (m_infos m)) = field_data (m_field m)) fields).
    { rewrite Forall_forall in IH, Hms. apply Forall_forall. intros m Hin. by apply IH; [|apply Hms]. }
    cbn [m_infos map concat]. fold (all_infos fields). rewrite I2, I3.
    rewrite (concat_infos info_meta (fun m => field_meta (m_field m))), (concat_infos info_data (fun m => field_data (m_field m)))
      by (eapply List.Forall_impl; [|exact Hall]; intros m Hx; apply Hx).
    split_and!.
    + constructor; [done|]. apply all_infos_ok. eapply List.Forall_impl; [|exact Hall]. intros m Hx. apply Hx.
    + cbn [m_field field_meta]. unfold len. by rewrite length_map, map_map.
    + cbn [m_field field_data]. by rewrite map_map.
Qed.

(** The types of the table are paths of identifiers. *)
Lemma table_types : forallb (fun o => idents o.(value_type)) (struct_option :: FIELD_OPTIONS) = true.
Proof. reflexivity. Qed.
Lemma table_type fi : In fi.(fi_option) (struct_option :: FIELD_OPTIONS) -> plain_type fi.
Proof. intros Hin. pose proof table_types as Ht. rewrite forallb_forall in Ht. exact (Ht _ Hin). Qed.
Lemma m_infos_plain m : m_ok m -> Forall plain_type (m_infos m).
Proof.
  induction m as [o name value format tag|name fields tag IH] using MField_tree_ind; intros Hm; inversion Hm; subst; cbn [m_infos].
  - constructor; [|constructor]. apply table_type. by right.
  - constructor; [apply table_type; by left|]. apply Forall_concat, Forall_map. rewrite Forall_forall in IH.
    match goal with Hf : Forall m_ok fields |- _ => rewrite Forall_forall in Hf; rename Hf into Hfs end.
    apply Forall_forall. intros m Hin. apply IH; [done|by apply Hfs].
Qed.

(** The generated code declares the fields that are meant and writes their values. *)
Lemma generated_trees event ms : bytes_ok event.(ev_name) -> Forall m_ok ms -> len (all_infos ms) <= 65535 ->
  exists g ds, MacroGenerator.add_fields (all_infos ms) (before_fields event EventGenerator_new) = Ret g /\
    generated_event g = Some (event.(ev_name) ++ [0] ++ all_meta (map m_field ms), [] :: [] :: ds) /\
    concat ds = all_data (map m_field ms).
Proof.
  intros Hn Hms Hl.
  assert (Hall : Forall (fun m => Forall info_ok (m_infos m) /\ concat (map info_meta (m_infos m)) = field_meta (m_field m) /\
      concat (map info_data (m_infos m)) = field_data (m_field m)) ms).
  { eapply List.Forall_impl; [|exact Hms]. apply m_infos_ok. }
  unfold all_meta, all_data. rewrite !map_map.
  rewrite <- (concat_infos info_meta (fun m => field_meta (m_field m))), <- (concat_infos info_data (fun m => field_data (m_field m)))
    by (eapply List.Forall_impl; [|exact Hall]; intros m Hx; apply Hx).
  apply generated_fields; [done| | |done].
  2: { unfold all_infos. apply Forall_concat, Forall_map. eapply List.Forall_impl; [|exact Hms]. apply m_infos_plain. }
  apply all_infos_ok. eapply List.Forall_impl; [|exact Hall]. intros m Hx. apply Hx.
Qed.
End Values.

(** ** Written and read back *)

Section RoundTrip.
Context `{Target} `{RustValues} `{Unicode : UnicodeIdent} `{TokenText}.

(** The parser's estimate is at most the size of the metadata. *)
Lemma info_size_meta fi : info_ok fi -> has_metadata fi.(fi_option).(strategy) = true -> info_size fi <= len (info_meta fi).
Proof.
  intros Hi Hm. unfold info_size, info_meta. rewrite Hm. unfold declaration, type_bytes. rewrite !len_app.
  change (len [0]) with 1. pose proof (has_tag_value fi Hi) as Et. pose proof (has_out_value fi Hi) as Eo. unfold has_tag, has_out in *.
  destruct (fi_tag fi) as [|t ts]; cbn [is_nil negb] in Et.
  - rewrite <- Et. cbv iota. destruct (Z.eqb_spec (format_or_field_count_int fi) 0) as [E0|E0]; cbn [negb] in *.
    + destruct (negb (info_format fi =? 0)); unfold len; cbn [length]; lia.
    + rewrite orb_true_r in Eo. rewrite <- Eo. unfold len. cbn [length]. lia.
  - rewrite <- Et. rewrite len_app. unfold len. rewrite BuilderProps.length_to_ne_bytes. cbn [length]. lia.
Qed.
Lemma infos_have_metadata m : m_ok m -> Forall (fun fi => has_metadata fi.(fi_option).(strategy) = true) (m_infos m).
Proof.
  induction m as [o name value format tag|name fields tag IH] using MField_tree_ind; intros Hm; inversion Hm; subst; cbn [m_infos].
  - constructor; [|constructor]. cbn. by destruct (strategy o).
  - constructor; [done|]. apply Forall_concat, Forall_map. rewrite Forall_forall in IH.
    match goal with Hf : Forall m_ok fields |- _ => rewrite Forall_forall in Hf; rename Hf into Hfs end.
    apply Forall_forall. intros m Hin. apply IH; [done|by apply Hfs].
Qed.
Lemma estimate_le ms : Forall m_ok ms -> infos_size (all_infos ms) <= len (all_meta (map m_field ms)).
Proof.
  intros Hms. assert (E : forall fis, Forall info_ok fis -> Forall (fun fi => has_metadata fi.(fi_option).(strategy) = true) fis ->
    infos_size fis <= len (concat (map info_meta fis))).
  { induction 1 as [|fi fis Hf Hfis IH]; intros Hm; [done|]. apply Forall_cons_iff in Hm as [Hm Hms'].
    cbn [infos_size fold_right map concat]. fold (infos_size fis). rewrite len_app.
    pose proof (info_size_meta fi Hf Hm). specialize (IH Hms'). lia. }
  assert (Ea : concat (map info_meta (all_infos ms)) = all_meta (map m_field ms)).
  { unfold all_meta. rewrite map_map. apply (concat_infos info_meta (fun m => field_meta (m_field m))).
    eapply List.Forall_impl; [|exact Hms]. intros m Hm. by apply m_infos_ok. }
  rewrite <- Ea. apply E.
  - apply all_infos_ok. eapply List.Forall_impl; [|exact Hms]. intros m Hm. by apply m_infos_ok.
  - unfold all_infos. apply Forall_concat, Forall_map. eapply List.Forall_impl; [|exact Hms]. apply infos_have_metadata.
Qed.
Lemma len_infos_size fis : len fis <= infos_size fis.
Proof.
  induction fis as [|fi fis IH]; [done|]. rewrite len_cons. cbn [infos_size fold_right]. fold (infos_size fis).
  pose proof (info_size_pos fi). lia.
Qed.
Lemma plain_no_nul name : plain_name name -> no_nul name.
Proof.
  intros [_ Hn]. unfold has_nul in Hn. induction name as [|c l IH]; [constructor|]. cbn [existsb] in Hn.
  apply orb_false_iff in Hn as [Hc Hl]. constructor; [by rewrite Z.eqb_sym|by apply IH].
Qed.

(** The tracepoint that the generated code declares. *)
Definition declared (st : TracepointState) (header : EventHeader) (keyword : Z) (metadata : bytes) : EventHeaderTracepoint :=
  set_ht_state st (EventHeaderTracepoint_new header keyword metadata).
(** The header of an event with metadata. *)
Record header_ok (h : EventHeader) : Prop := {
  ho_flags : h.(eh_flags) = HeaderFlags_DefaultWithExtension;
  ho_version : in_width 8 h.(eh_version);
  ho_id : in_width 16 h.(eh_id);
  ho_tag : in_width 16 h.(eh_tag);
  ho_opcode : in_width 8 h.(eh_opcode);
  ho_level : in_width 8 h.(eh_level);
}.
Definition header_builder (h : EventHeader) (meta data : bytes) : EventBuilder := {|
  b_meta := meta; b_data := data; b_flags := h.(eh_flags); b_version := h.(eh_version); b_id := h.(eh_id); b_tag := h.(eh_tag);
  b_opcode := h.(eh_opcode) |}.

Lemma built_by_macro h name fs : header_ok h -> no_nul name -> bytes_ok name -> Forall field_ok fs ->
  len name + 1 + len (all_meta fs) + len (all_data fs) <= 65535 - (52 + 16) ->
  built (header_builder h (name ++ [0] ++ all_meta fs) (all_data fs)) name (all_meta fs).
Proof.
  intros Hh Hn Hb Hfs Hs. destruct (fields_built name 0 fs EventBuilder_new Hn Hb) as (b & _ & Bb & Bd); [by vm_compute|done|done|].
  constructor; try done; try apply Hh.
  - change (bytes_ok (name ++ [0] ++ all_meta fs)). rewrite <- (built_meta _ _ _ Bb). apply Bb.
  - change (bytes_ok (all_data fs)). rewrite <- Bd. apply Bb.
  - change (len (name ++ [0] ++ all_meta fs) + len (all_data fs) <= 65535 - (52 + 16)). rewrite !len_app. change (len [0]) with 1. lia.
Qed.

(** C5. A call of [write_event!] with any list of fields from the table of types and
    structs of them (at most 254 at the top, 127 in a struct, structs nested at most 8
    deep, at most the size of an event in all) and any provider symbol that is an
    identifier is parsed, and the code that is generated, when it runs on an enabled
    tracepoint, hands the kernel the write index and an event which the enumerator
    accepts and traverses as exactly the fields of the call: their names, the types and
    formats of their options, their tags, and the values of their expressions. *)
Theorem write_event_round_trip `{UserEventsOk} file st h kw symbol name ms aid rid pname attrs limit
    (Hsymbol : is_ident symbol = true) (Hname : plain_name name /\ bytes_ok name) (Hsyntax : Forall syntax_ok ms) (Hfields : Forall m_ok ms)
    (Hsize : len name + 1 + len (all_meta (map m_field ms)) + len (all_data (map m_field ms)) <= 65535 - (52 + 16))
    (Hcount : len ms <= 254) (Hdepth : max_depth (map m_field ms) <= 8)
    (Hmoves : len (all_items (map m_field ms)) < limit < 2 ^ 32)
    (Hheader : header_ok h) (Hkeyword : in_width 64 kw)
    (Haid : id_ok aid) (Hrid : id_ok rid) (Hids : aid = None -> rid = None)
    (Henabled : st.(enable_status) <> 0) (Hindex : 0 <= st.(write_index) <= HIGHEST_VALID_WRITE_INDEX)
    (Hattrs : attributes_ok attrs) (Htn : bytes_ok (tracepoint_name pname (attributes attrs) h.(eh_level) kw))
    (Hshort : len (tracepoint_name pname (attributes attrs) h.(eh_level) kw) < EVENT_HEADER_TRACEPOINT_NAME_MAX) :
  exists event g tree metadata data code iov ed c cs e,
    try_from_tokens (macro_tokens symbol name ms) = Ret (Ok event) /\
    event_tree event g = Ret tree /\ generate event = Ret [Group Brace tree] /\
    generated_event g = Some (metadata, data) /\
    EventHeaderTracepoint_write_eventheader file aid rid data (declared st h kw metadata) = Ret (code, Some iov) /\
    concat iov = to_ne_bytes 4 st.(write_index) ++ ed /\
    enumerate_with_name_and_data (tracepoint_name pname (attributes attrs) h.(eh_level) kw) ed limit
      EventHeaderEnumeratorContext_new = Ret (Ok tt, c) /\
    visit ed (length (all_items (map m_field ms))) (move_next_impl ed c) = Ret (cs, e) /\
    map (observe ed) cs = map Ret (all_items (map m_field ms)) /\ e.(state) = StAfterLastItem.
Proof.
  destruct Hname as [Hpn Hnb]. pose proof (plain_no_nul name Hpn) as Hnn. set (fs := map m_field ms) in *.
  assert (Hfs : Forall field_ok fs) by (apply Forall_map; eapply List.Forall_impl; [apply m_field_ok|done]).
  pose proof (estimate_le ms Hfields) as Hest. fold fs in Hest. pose proof (len_infos_size (all_infos ms)) as Hli.
  pose proof (len_nonneg (all_data fs)). pose proof (len_nonneg name). pose proof (len_nonneg (all_items fs)).
  assert (Hest' : 1 + (len name + 1) + infos_size (all_infos ms) <= 65535) by lia.
  pose proof (macro_parsed symbol name ms Hpn Hsyntax Hcount Hest') as Ep.
  set (event := parsed_event symbol name ms) in *. destruct (parsed_event_facts symbol name ms) as (En & Ef & Esym). fold event in En, Ef, Esym.
  destruct (generated_trees event ms) as (g & ds & Eg & Ev & Ed); [by rewrite En|done|lia|]. fold fs in Ev, Ed. rewrite En in Ev.
  pose proof (built_by_macro h name fs Hheader Hnn Hnb Hfs Hsize) as Hb.
  destruct (event_tree_total event g (generated_made g _ Ev)) as [tree Etree]; [rewrite Esym; by apply ident_continues|].
  set (b := header_builder h (name ++ [0] ++ all_meta fs) (all_data fs)) in *.
  destruct (payload_written file (eh_level h) st aid rid b ds Ed) as (code & iov & Ew & Ei & _).
  destruct (enumerate_written b (eh_level h) kw aid rid name (all_meta fs) pname attrs limit EventHeaderEnumeratorContext_new)
    as (c & Ec & W); try done; [apply Hheader|lia|].
  destruct (written_traversal b (eh_level h) kw aid rid name fs limit c) as (cs & e & Et & Eo & Es); try done;
    [apply Hheader|unfold fs, len in *; rewrite length_map; lia|lia|].
  exists event, g, tree, (name ++ [0] ++ all_meta fs), ([] :: [] :: ds), code, iov, (event_payload b (eh_level h) aid rid), c, cs, e.
  split_and!; try done.
  - unfold generate. rewrite Ef, Eg. cbn [mbind outcome_bind]. by rewrite Etree.
  - rewrite <- Ew. unfold EventHeaderTracepoint_write_eventheader. cbn [index].
    change (index ([] :: [] :: ds) 1) with (Ret (@nil Z)). cbn [mbind outcome_bind EventDataDescriptor_is_empty].
    change (len (@nil Z) =? 0) with true. cbn [rassert mbind outcome_bind].
    rewrite (store_at [[]] [] _ ds : store ([] :: [] :: ds) 1 _ = _). cbn [mbind outcome_bind].
    rewrite <- (write_eventheader_ok file (eh_level h) st aid rid b name (all_meta fs) ds) by (done || apply Hheader).
    unfold b, header_builder, built_header, declared. by destruct h.
Qed.
End RoundTrip.

(** ** An example *)

(** The compiler's part: literals are themselves, and the variables are known. *)
Definition example_text : TokenText := fun ts => match ts with [Ident a] => a | [Literal l] => l | _ => lit "x" end.
Definition example_variable (name : bytes) : Argument :=
  if str_is name "id" then {| elem_size := 4; elems := [[1; 2; 3; 4]] |}
  else if str_is name "text" then {| elem_size := 1; elems := [[72]; [105]] |}
  else if str_is name "wide" then {| elem_size := 2; elems := [[65; 0]; [0; 0]; [66; 0]] |}
  else {| elem_size := 8; elems := [[1; 0; 0; 0; 0; 0; 0; 0]; [2; 0; 0; 0; 0; 0; 0; 0]] |}.
Fixpoint last_name (ts : TokenStream) : bytes :=
  match ts with [] => [] | t :: ts => match t, ts with Ident name, [] => name | _, _ => last_name ts end end.
Definition example_values : RustValues := {|
  const_value _ ts := match ts with [Literal n] => literal_number n | _ => 3 end;
  arg_value ts := match rev ts with Group _ args :: _ => example_variable (last_name args) | _ => example_variable [] end |}.

#[local] Existing Instance little_endian_target.
#[local] Existing Instance ascii_identifiers.
#[local] Existing Instance example_text.
#[local] Existing Instance example_values.

Definition named_option (name : bytes) : FieldOption := default struct_option (find_field_option name).
Definition variable (name : bytes) : TokenStream := [Punct 38 Alone; Ident name].
(** [u32("a", &id, tag(7)), struct("s", { str8("b", &text, ), cstr16("c", &wide, ), }), usize_slice("d", &sizes, format(HexInt))] *)
Definition example_call : list MField :=
  [MValue (named_option (lit "u32")) (lit "a") (variable (lit "id")) [] [Literal (lit "7")];
   MStruct (lit "s") [MValue (named_option (lit "str8")) (lit "b") (variable (lit "text")) [] [];
                      MValue (named_option (lit "cstr16")) (lit "c") (variable (lit "wide")) [] []] [];
   MValue (named_option (lit "usize_slice")) (lit "d") (variable (lit "sizes")) [Ident (lit "HexInt")] []].
Definition example_header : EventHeader :=
  {| eh_flags := HeaderFlags_DefaultWithExtension; eh_version := 0; eh_id := 0; eh_tag := 0; eh_opcode := 0; eh_level := 5 |}.

(** Deciding the premises, for concrete fields. *)
#[local] Instance encoding_eq_dec : EqDecision FieldEncoding.
Proof. solve_decision. Defined.
#[local] Instance format_eq_dec : EqDecision FieldFormat.
Proof. solve_decision. Defined.
#[local] Instance strategy_eq_dec : EqDecision FieldStrategy.
Proof. solve_decision. Defined.
#[local] Instance option_eq_dec : EqDecision FieldOption.
Proof. solve_decision. Defined.

Definition freeb (sep : Z) (ts : TokenStream) : bool := forallb (fun t => negb (is_punct sep t)) ts.
Definition exprb (ts : TokenStream) : bool := freeb 44 ts && freeb 59 ts.
Definition plainb (name : bytes) : bool := bool_decide (unescape name = Some name) && negb (has_nul name).
Definition in_table (o : FieldOption) : bool := existsb (fun x => bool_decide (x = o)) FIELD_OPTIONS && plain_strategy o.(strategy).
Fixpoint syntax_okb (m : MField) : bool :=
  match m with
  | MValue o name value format tag =>
    in_table o && plainb name && exprb value && negb (is_nil value) && exprb format && exprb tag
  | MStruct name fields tag =>
    plainb name && exprb tag && (1 <=? len fields) && (len fields <=? 127) && forallb syntax_okb fields
  end.
Definition annotation_okb (fi : FieldInfo) : bool :=
  (is_nil fi.(format_or_field_count_expr) || negb (info_format fi =? 0)) && (is_nil fi.(fi_tag) || negb (info_tag fi =? 0))
  && freeb 59 fi.(fi_tag).
Fixpoint m_okb (m : MField) : bool :=
  match m with
  | MValue o name value format tag =>
    let fi := value_info o name value (format_expr format) tag in
    in_table o && annotation_okb fi
    && (len (info_value fi).(elems) <=? 65535) && ((info_value fi).(elem_size) =? element_width (option_kind o))
    && field_okb (m_field m)
  | MStruct name fields tag =>
    annotation_okb (struct_info name 0 tag) && decl_okb name 0 (info_tag (struct_info name 0 tag))
    && (1 <=? len fields) && (len fields <=? 127) && forallb m_okb fields
  end.

Lemma freeb_ok sep ts : freeb sep ts = true -> free sep ts.
Proof. apply forallb_Forall. intros t Et. by apply negb_true_iff. Qed.
Lemma exprb_ok ts : exprb ts = true -> expr_ok ts.
Proof. intros E. apply andb_true_iff in E as [E1 E2]. split; by apply freeb_ok. Qed.
Lemma plainb_ok name : plainb name = true -> plain_name name.
Proof. intros E. apply andb_true_iff in E as [E1 E2]. split; [by apply bool_decide_eq_true_1 in E1|by apply negb_true_iff]. Qed.
Lemma in_table_ok o : in_table o = true -> In o FIELD_OPTIONS /\ plain_strategy o.(strategy) = true.
Proof.
  intros E. apply andb_true_iff in E as [E1 E2]. split; [|done]. apply existsb_exists in E1 as (x & Hx & E). 
  by apply bool_decide_eq_true_1 in E as <-.
Qed.
Lemma is_nil_ok {A} (l : list A) : is_nil l = false <-> l <> [].
Proof. by destruct l. Qed.
Lemma annotation_okb_ok fi : annotation_okb fi = true -> annotation_ok fi.
Proof.
  unfold annotation_okb. intros E. bool_hyps. split_and!; [..|by apply freeb_ok].
  - intros Hn. apply is_nil_ok in Hn. rewrite Hn in *. bool_hyps. lia.
  - intros Hn. apply is_nil_ok in Hn. rewrite Hn in *. bool_hyps. lia.
Qed.
Lemma syntax_okb_ok m : syntax_okb m = true -> syntax_ok m.
Proof.
  induction m as [o name value format tag|name fields tag IH] using MField_tree_ind; cbn [syntax_okb]; intros E; bool_hyps.
  - match goal with Ht : in_table o = true |- _ => apply in_table_ok in Ht as [Ht1 Ht2] end.
    constructor; try (by apply exprb_ok); try (by apply plainb_ok); try done. by apply is_nil_ok.
  - constructor; [by apply plainb_ok|by apply exprb_ok|lia|]. rewrite Forall_forall in IH.
    match goal with Hf : forallb _ fields = true |- _ => rewrite forallb_forall in Hf; rename Hf into Hfs end.
    apply Forall_forall. intros m Hin. apply IH; [done|by apply Hfs].
Qed.
Lemma m_okb_ok m : m_okb m = true -> m_ok m.
Proof.
  induction m as [o name value format tag|name fields tag IH] using MField_tree_ind; cbn [m_okb]; intros E; bool_hyps.
  - match goal with Ht : in_table o = true |- _ => apply in_table_ok in Ht as [Ht1 Ht2] end.
    constructor; [done|done|by apply annotation_okb_ok| |by apply field_ok_decide]. intros _. cbv zeta. split; lia.
  - constructor; [by apply annotation_okb_ok|by apply decl_ok_decide|lia|]. rewrite Forall_forall in IH.
    match goal with Hf : forallb _ fields = true |- _ => rewrite forallb_forall in Hf; rename Hf into Hfs end.
    apply Forall_forall. intros m Hin. apply IH; [done|by apply Hfs].
Qed.

Lemma write_event_round_trip_witness :
  exists event g tree metadata data code iov ed c cs e,
    try_from_tokens (macro_tokens (lit "MY") (lit "Ev") example_call) = Ret (Ok event) /\
    event_tree event g = Ret tree /\ generate event = Ret [Group Brace tree] /\
    generated_event g = Some (metadata, data) /\
    @EventHeaderTracepoint_write_eventheader _ example_kernel 5 None None data (declared example_state example_header 0x1F metadata)
      = Ret (code, Some iov) /\
    concat iov = to_ne_bytes 4 9 ++ ed /\
    enumerate_with_name_and_data (tracepoint_name [80] (attributes example_attributes) 5 0x1F) ed 100
      EventHeaderEnumeratorContext_new = Ret (Ok tt, c) /\
    visit ed 9 (move_next_impl ed c) = Ret (cs, e) /\
    map (observe ed) cs = map Ret (all_items (map m_field example_call)) /\ e.(state) = StAfterLastItem.
Proof.
  apply (@write_event_round_trip little_endian_target example_values ascii_identifiers example_text example_kernel example_kernel_ok
    5 example_state example_header 0x1F (lit "MY") (lit "Ev") example_call None None [80] example_attributes 100).
  - reflexivity.
  - split; [apply plainb_ok; vm_compute; reflexivity|apply bytes_ok_decide; reflexivity].
  - apply (forallb_Forall syntax_okb); [exact syntax_okb_ok|vm_compute; reflexivity].
  - apply (forallb_Forall m_okb); [exact m_okb_ok|vm_compute; reflexivity].
  - vm_compute. discriminate.
  - vm_compute. discriminate.
  - vm_compute. discriminate.
  - vm_compute. by split.
  - by split.
  - vm_compute; by split.
  - exact I.
  - exact I.
  - reflexivity.
  - discriminate.
  - vm_compute. split; discriminate.
  - repeat constructor.
  - apply bytes_ok_decide. reflexivity.
  - vm_compute. reflexivity.
Defined.
