(* ===== verification/MacroTotal.v ===== *)
(** * MacroTotal: the macros end on any tokens

    Each call of the parser takes tokens away and only adds errors; the fuel of the
    loops is enough, no counter of the parser or the generator overflows, and no index
    is out of range.  The names of the generated code are identifiers, except those that
    end with the symbol of the provider, when the symbol is a raw identifier. *)

From S2P Require Import Prelude Strings Types Text TextSpec Writers MacroTokens MacroTrees MacroParser MacroFields MacroEvent MacroGenerator.
From S2P Require Import MacroProvider MacroMeaning MacroPieces MacroValues MacroSyntax.

#[local] Abbreviation lit x := (str_bytes x).

(** Tokens are only taken, and errors are only added. *)
Definition shrinks (it it' : TokenStream) : Prop :=
  (stream_count it' <= stream_count it)%nat /\ (length it' <= length it)%nat.
Definition grows (e e' : Errors) : Prop := e' = [] -> e = [].
Definition advances (it : TokenStream) (e : Errors) (r : TokenStream * Errors) : Prop := shrinks it (fst r) /\ grows e (snd r).

Lemma shrinks_refl it : shrinks it it.
Proof. split; lia. Qed.
Lemma shrinks_trans a b c : shrinks a b -> shrinks b c -> shrinks a c.
Proof. intros [] []. split; lia. Qed.
Lemma token_count_pos t : (1 <= token_count t)%nat.
Proof. destruct t; cbn; lia. Qed.
Lemma stream_count_cons t it : stream_count (t :: it) = (token_count t + stream_count it)%nat.
Proof. done. Qed.
Lemma shrinks_cons t a b : shrinks a b -> shrinks (t :: a) b.
Proof. intros []. split; [rewrite stream_count_cons; lia|cbn; lia]. Qed.
Lemma shrinks_nil it : shrinks it [].
Proof. split; cbn; lia. Qed.
Lemma grows_refl e : grows e e.
Proof. exact (fun E => E). Qed.
Lemma grows_trans a b c : grows a b -> grows b c -> grows a c.
Proof. unfold grows. auto. Qed.
Lemma add_error_grows m e e' : grows e (add_error m e').
Proof. intros E. unfold add_error in E. by destruct e'. Qed.
Lemma add_error_if_grows b m e : grows e (add_error_if b m e).
Proof. destruct b; [apply add_error_grows|apply grows_refl]. Qed.
Create HintDb macro.
#[local] Hint Resolve shrinks_refl shrinks_cons shrinks_nil grows_refl add_error_grows add_error_if_grows : macro.

(** ** The parser *)

Lemma skip_shrinks t it : shrinks it (snd (skip_to_comma t it)).
Proof.
  revert t. induction it as [|t' it IH]; intros t; cbn [skip_to_comma]; destruct (is_comma t); cbn; auto with macro.
Qed.
#[local] Hint Resolve skip_shrinks : macro.
Lemma comma_after_advances c it e0 e : grows e0 e -> advances it e0 (comma_after_item c it e).
Proof.
  intros He. unfold comma_after_item, unexpected_token_before_end. destruct c; try (split; [apply shrinks_refl|done]).
  destruct it; split; cbn; auto with macro.
Qed.
Lemma next_comma_advances c it e0 e : grows e0 e -> advances it e0 (next_comma c it e).
Proof.
  intros He. unfold next_comma. destruct it as [|t it]; [by split|]. destruct (is_comma t).
  - destruct (comma_after_advances c it e0 e He) as [H1 H2]. split; auto with macro.
  - unfold unexpected_token_before_end. split; cbn; auto with macro.
Qed.
Lemma not_the_item_advances c m t it e : advances it e (not_the_item c m t it e).
Proof.
  unfold not_the_item. pose proof (skip_shrinks t it) as Hs. destruct (skip_to_comma t it) as [comma it'] eqn:E. cbn in Hs.
  destruct comma; [|split; [done|apply add_error_grows]].
  destruct (comma_after_advances c it' e (add_error m e) ltac:(apply add_error_grows)) as [H1 H2].
  split; [by eapply shrinks_trans|done].
Qed.
Lemma advances_cons t it e r : advances it e r -> advances (t :: it) e r.
Proof. intros [H1 H2]. split; auto with macro. Qed.
Lemma eos_grows c m e : grows e (eos_before_item c m e).
Proof. destruct c; cbn; auto with macro. Qed.
Lemma next_ident_advances c m it e : advances it e (snd (next_ident c m it e)).
Proof.
  unfold next_ident. destruct it as [|t it]; [split; cbn; [apply shrinks_refl|apply eos_grows]|]. apply advances_cons.
  destruct t; cbn [snd]; apply not_the_item_advances || apply next_comma_advances, grows_refl.
Qed.
Lemma next_string_literal_token_advances c m it e : forall t, advances it e (snd (next_string_literal_token t c m it e)).
Proof.
  fix IH 1. intros t. destruct t as [name|ch s|text|d contents]; cbn [next_string_literal_token snd];
    try apply not_the_item_advances.
  - destruct (not_string_literal text); [apply not_the_item_advances|].
    destruct (unescape _); cbn [snd]; apply next_comma_advances; auto with macro.
  - destruct d; try apply not_the_item_advances. destruct contents as [|t [|t' rest]]; cbn [snd].
    + split; cbn; auto with macro.
    + apply IH.
    + destruct (rev (t :: t' :: rest)); [split; cbn; auto with macro|apply not_the_item_advances].
Qed.
Lemma next_string_literal_advances c m it e : advances it e (snd (next_string_literal c m it e)).
Proof.
  unfold next_string_literal. destruct it as [|t it]; [split; cbn; [apply shrinks_refl|apply eos_grows]|].
  apply advances_cons, next_string_literal_token_advances.
Qed.
Lemma next_tokens_advances got c m it e : advances it e (snd (next_tokens_loop got c m it e)).
Proof.
  revert got. induction it as [|t it IH]; intros got; cbn [next_tokens_loop].
  - split; cbn; [apply shrinks_refl|]. destruct got; [apply grows_refl|apply eos_grows].
  - destruct (is_comma t); cbn [snd].
    { apply advances_cons, comma_after_advances. destruct got; auto with macro. }
    destruct (is_punct 59 t); cbn [snd].
    { unfold unexpected_token_before_end. split; cbn; auto with macro. }
    specialize (IH true). destruct (next_tokens_loop true c m it e) as [tokens rest]. cbn [snd] in *. by apply advances_cons.
Qed.

(** An option, or a struct, takes its tokens. *)
Definition arg_taken (it : TokenStream) (r : ArgResult * (TokenStream * Errors)) : Prop :=
  match fst r with
  | ArgOption _ args => (stream_count args + stream_count (fst (snd r)) < stream_count it)%nat /\ (length (fst (snd r)) < length it)%nat
  | ArgStruct stream => (stream_count stream < stream_count it)%nat
  | ArgNone => True
  end.
Lemma next_arg_loop_taken fuel w it e :
  arg_taken it (next_arg_loop fuel w it e) /\ grows e (snd (snd (next_arg_loop fuel w it e))).
Proof.
  revert it e. induction fuel as [|fuel IH]; intros it e; (destruct it as [|t it]; [cbn; destruct w; split; auto with macro|]);
    cbn [next_arg_loop]; [split; [done|apply grows_refl]|].
  assert (Hskip : forall t' it0 m, arg_taken it0 (next_arg_loop fuel w (snd (skip_to_comma t' it0)) (add_error m e)) /\
    grows e (snd (snd (next_arg_loop fuel w (snd (skip_to_comma t' it0)) (add_error m e))))).
  { intros t' it0 m. destruct (skip_shrinks t' it0) as [Hs Hl].
    destruct (IH (snd (skip_to_comma t' it0)) (add_error m e)) as [Ht Hg].
    split; [|by eapply grows_trans; [apply (add_error_grows m e e)|]].
    unfold arg_taken in *. destruct (fst (next_arg_loop _ _ _ _)); [done|lia|lia]. }
  assert (Hup : forall it0 t' r, arg_taken it0 r -> arg_taken (t' :: it0) r).
  { intros it0 t' r. unfold arg_taken. rewrite stream_count_cons. cbn [length]. destruct (fst r); [done|lia|lia]. }
  destruct t as [name|ch s|text|d stream].
  - destruct it as [|t' it]; [cbn; split; auto with macro|].
    destruct t' as [name'|ch' s'|text'|d' args];
      try (match goal with |- context [skip_to_comma ?t' it] => destruct (Hskip t' it EXPECTED_OPTION_ARGS) as [? ?] end;
           split; [by do 2 apply Hup|done]).
    destruct d'; try (match goal with |- context [skip_to_comma ?t' it] => destruct (Hskip t' it EXPECTED_OPTION_ARGS) as [? ?] end;
           split; [by do 2 apply Hup|done]).
    destruct (next_comma_advances (if w then OptionalNotLast else Optional) it e e (grows_refl e)) as [[Hs Hl] Hg].
    split; [|done]. unfold arg_taken. cbn [fst snd]. rewrite !stream_count_cons, token_count_group. cbn [length token_count]. lia.
  - match goal with |- context [skip_to_comma ?t' it] => destruct (Hskip t' it (if w then EXPECTED_OPTION_OR_STRUCT else EXPECTED_OPTION)) as [? ?] end.
    split; [by apply Hup|done].
  - match goal with |- context [skip_to_comma ?t' it] => destruct (Hskip t' it (if w then EXPECTED_OPTION_OR_STRUCT else EXPECTED_OPTION)) as [? ?] end.
    split; [by apply Hup|done].
  - destruct (Hskip (Group d stream) it (if w then EXPECTED_OPTION_OR_STRUCT else EXPECTED_OPTION)) as [Ha Hb].
    destruct d; try (split; [by apply Hup|done]). destruct w; [|split; [by apply Hup|done]].
    split; [|apply grows_refl]. unfold arg_taken. cbn [fst]. rewrite stream_count_cons, token_count_group. lia.
Qed.

Lemma next_arg_taken w it e : arg_taken it (next_arg w it e) /\ grows e (snd (snd (next_arg w it e))).
Proof. apply next_arg_loop_taken. Qed.

(** The fuel of the two loops of the parser is enough: more does not change the result. *)
Lemma next_arg_fuel n m w it e : (length it <= n)%nat -> (length it <= m)%nat -> next_arg_loop n w it e = next_arg_loop m w it e.
Proof.
  revert m it e. induction n as [|n IH]; intros m it e Hn Hm.
  - destruct it; [|cbn in Hn; lia]. by destruct m.
  - destruct it as [|t it]; [by destruct m|]. destruct m as [|m]; [cbn in Hm; lia|]. cbn [length] in Hn, Hm. cbn [next_arg_loop].
    assert (Hskip : forall t' it0 e', (length it0 <= length it)%nat ->
      next_arg_loop n w (snd (skip_to_comma t' it0)) e' = next_arg_loop m w (snd (skip_to_comma t' it0)) e').
    { intros t' it0 e' Hl. destruct (skip_shrinks t' it0) as [_ Hs]. apply IH; lia. }
    rewrite (Hskip t it) by done. destruct t; try done. destruct it as [|t' it]; [done|].
    rewrite (Hskip t' it) by (cbn; lia). done.
Qed.
Lemma escape_takes it c rest : escape_sequence it = Some (c, rest) -> (length rest < length it)%nat.
Proof.
  assert (Hh : forall n v l c r, hex_digits n v l = Some (c, r) -> (length r <= length l)%nat).
  { induction n as [|n IH]; intros v l c' r; cbn [hex_digits]; [by intros [= _ ->]|].
    destruct l as [|d l]; cbn [next_hex]; [done|]. destruct (to_digit16 d); [|done]. intros E%IH. cbn. lia. }
  assert (Hu : forall n b v l c r, unescape_u_loop n b v l = Some (c, r) -> (length r <= length l)%nat).
  { induction n as [|n IH]; intros b v l c' r; cbn [unescape_u_loop]; [done|].
    destruct l as [|d l]; cbn [next_hex]; [done|]. destruct (to_digit16 d); [intros E%IH; cbn; lia|].
    destruct (b || negb (d =? 125)); [done|]. destruct (is_scalar_value v); [|done]. intros [= _ <-]. cbn. lia. }
  unfold escape_sequence. destruct it as [|ch it]; [done|]. cbn [length].
  repeat (destruct (ch =? _); [intros [= _ <-]; lia|]).
  destruct (ch =? 120); [intros E%Hh; lia|]. destruct (ch =? 117); [|done].
  unfold unescape_u. destruct it as [|d it]; [done|]. destruct (negb (d =? 123)); [done|]. intros E%Hu. cbn. lia.
Qed.
Lemma unescape_fuel n m it : (length it <= n)%nat -> (length it <= m)%nat -> unescape_loop n it = unescape_loop m it.
Proof.
  revert m it. induction n as [|n IH]; intros m it Hn Hm.
  - destruct it; [|cbn in Hn; lia]. by destruct m.
  - destruct it as [|ch it]; [by destruct m|]. destruct m as [|m]; [cbn in Hm; lia|]. cbn [length] in Hn, Hm. cbn [unescape_loop].
    destruct (negb (ch =? 92)); [by rewrite (IH m) by lia|]. destruct (escape_sequence it) as [[c rest]|] eqn:E; [|done].
    apply escape_takes in E. by rewrite (IH m) by lia.
Qed.

(** ** The fields and options of an event *)

Section Event.
Context `{Unicode : UnicodeIdent} `{TokenText}.

(** Replaces the call of the filter in the goal by its result. *)
Ltac filtered :=
  match goal with |- context [filter_enum_tokens ?ts ?n ?l] =>
    let E := fresh "E" in destruct (filter_total ts n l) as [? E]; [cbn; tauto|reflexivity|rewrite E; cbn [mbind outcome_bind]] end.

(** A part of the parser that gives a field, what is left and the errors. *)
Definition head_total (o : FieldOption) (it : TokenStream) (e : Errors) (r : outcome (FieldInfo * (TokenStream * Errors))) : Prop :=
  exists field it' e', r = Ret (field, (it', e')) /\ field.(fi_option) = o /\ advances it e (it', e').
Lemma advances_grows it e e0 r : grows e e0 -> advances it e0 r -> advances it e r.
Proof. intros He [Hs Hg]. split; [done|by eapply grows_trans]. Qed.
Lemma parse_field_head_total in_struct o it e : head_total o it e (parse_field_head in_struct o it e).
Proof.
  unfold parse_field_head.
  assert (H1 : exists f it1 e1, parse_field_name (new_field o) it e = (f, (it1, e1)) /\ f.(fi_option) = o /\ advances it e (it1, e1)).
  { unfold parse_field_name. destruct (negb _); [do 3 eexists; split; [reflexivity|split; [reflexivity|split; auto with macro]]|].
    match goal with |- context [next_string_literal ?c ?m it e] => pose proof (next_string_literal_advances c m it e) as [Hs Hg];
      destruct (next_string_literal c m it e) as [[name|] [it1 e1]] end; cbn [fst snd] in *;
      do 3 eexists; (split; [reflexivity|]); (split; [reflexivity|]); split; try done. eapply grows_trans; [exact Hg|apply add_error_if_grows]. }
  destruct H1 as (f & it1 & e1 & -> & Ho1 & [Hs1 Hg1]).
  assert (H2 : head_total o it1 e1 (parse_field_type in_struct f it1 e1)).
  { unfold parse_field_type, next_tokens. destruct (strategy (fi_option f)); try (do 3 eexists; split; [reflexivity|split; [exact Ho1|split; auto with macro]]).
    all: match goal with |- context [next_tokens_loop ?g ?c ?m ?it ?e2] => pose proof (next_tokens_advances g c m it e2) as Ha;
      destruct (next_tokens_loop g c m it e2) as [ts [it2 e3]] end; cbn [snd] in Ha; try filtered;
      do 3 eexists; (split; [reflexivity|]); (split; [exact Ho1|]); try exact Ha; (eapply advances_grows; [apply add_error_if_grows|exact Ha]). }
  destruct H2 as (f2 & it2 & e2 & -> & Ho2 & [Hs2 Hg2]). cbn [mbind outcome_bind]. unfold parse_field_value, next_tokens.
  destruct (negb _).
  - match goal with |- context [next_tokens_loop ?g ?c ?m it2 e2] => pose proof (next_tokens_advances g c m it2 e2) as [Hs3 Hg3];
      destruct (next_tokens_loop g c m it2 e2) as [ts [it3 e3]] end. cbn [fst snd] in *.
    do 3 eexists. split; [reflexivity|]. split; [exact Ho2|]. split; cbn [fst snd].
    + eapply shrinks_trans; [exact Hs1|]. by eapply shrinks_trans.
    + eapply grows_trans; [exact Hg1|]. by eapply grows_trans.
  - do 3 eexists. split; [reflexivity|]. split; [exact Ho2|]. split; cbn [fst snd] in *; [by eapply shrinks_trans|by eapply grows_trans].
Qed.

Lemma parse_field_option_total name args field e : exists field' e',
  parse_field_option name args field e = Ret (field', e') /\ field'.(fi_option) = field.(fi_option) /\ grows e e'.
Proof.
  unfold parse_field_option, next_tokens. destruct (str_is name "tag" && _); [|destruct (str_is name "format" && _)].
  3: { do 2 eexists. split; [reflexivity|]. split; [done|apply add_error_grows]. }
  all: match goal with |- context [next_tokens_loop ?g ?c ?m ?it ?e2] => pose proof (next_tokens_advances g c m it e2) as [_ Hg];
      destruct (next_tokens_loop g c m it e2) as [ts [it3 e3]] end; cbn [fst snd] in *; try filtered;
    do 2 eexists; (split; [reflexivity|]); (split; [reflexivity|]); eapply grows_trans; [apply add_error_if_grows|exact Hg].
Qed.
Lemma parse_field_options_total fuel field it e : (length it < fuel)%nat -> exists field' ending e',
  parse_field_options fuel field it e = Ret (field', ending, e') /\ field'.(fi_option) = field.(fi_option) /\ grows e e' /\
  match ending with Some stream => (stream_count stream < stream_count it)%nat | None => True end.
Proof.
  revert field it e. induction fuel as [|fuel IH]; intros field it e Hf; [lia|]. cbn [parse_field_options].
  pose proof (next_arg_taken (field_wants_struct (strategy (fi_option field))) it e) as [Ht Hg].
  destruct (next_arg _ it e) as [[|name args|stream] [it' e']]; unfold arg_taken in Ht; cbn [fst snd] in *.
  - do 3 eexists. split; [reflexivity|done].
  - destruct (parse_field_option_total name args field e') as (f' & e2 & -> & Ho2 & Hg2). cbn [mbind outcome_bind].
    destruct (IH f' it' e2) as (f3 & ending & e3 & E3 & Ho3 & Hg3 & Hend); [lia|]. exists f3, ending, e3. split_and!; [done|congruence| |].
    + eapply grows_trans; [exact Hg|]. by eapply grows_trans.
    + destruct ending; [lia|done].
  - do 3 eexists. split; [reflexivity|done].
Qed.

(** Each field is of a type of the table; while there is no error, it has its share of
    the metadata. *)
Definition counted (event : EventInfo) (e : Errors) : Prop :=
  (0 <= event.(metadata_bytes_used) <= 65535 /\ (e = [] -> len event.(fields) < event.(metadata_bytes_used))) /\
  Forall plain_type event.(fields).
Lemma listed_types : forallb (fun o => idents o.(value_type)) FIELD_OPTIONS = true.
Proof. reflexivity. Qed.
Lemma listed_type fi : In fi.(fi_option) FIELD_OPTIONS -> plain_type fi.
Proof. intros Hin. pose proof listed_types as Ht. rewrite forallb_forall in Ht. exact (Ht _ Hin). Qed.
Lemma add_estimated_total size event e : 1 <= size -> counted event e -> exists event' e',
  add_estimated_metadata size event e = Ret (event', e') /\ event'.(fields) = event.(fields) /\ grows e e' /\
  0 <= event'.(metadata_bytes_used) <= 65535 /\ (e' = [] -> len event.(fields) + 1 < event'.(metadata_bytes_used)).
Proof.
  intros Hs [[Hu Hc] _]. unfold add_estimated_metadata, METADATA_BYTES_MAX. destruct (Z.eqb_spec event.(metadata_bytes_used) 0) as [E|E].
  - do 2 eexists. split_and!; [reflexivity|done|apply grows_refl|lia|lia|]. intros He. specialize (Hc He).
    pose proof (len_nonneg event.(fields)). lia.
  - rewrite (checked_ok 16 (65535 - _)) by lia. cbn [mbind outcome_bind]. destruct (Z.leb_spec size (65535 - event.(metadata_bytes_used))).
    + rewrite as_unsigned_id by lia. rewrite checked_ok by lia. cbn [mbind outcome_bind].
      do 2 eexists. split_and!; [reflexivity|done|apply grows_refl|cbn; lia|cbn; lia|]. intros He. specialize (Hc He). cbn. lia.
    + do 2 eexists. split_and!; [reflexivity|done|apply add_error_grows|cbn; lia|cbn; lia|]. intros He.
      unfold add_error in He. by destruct e.
Qed.
Lemma push_field_total field event e : plain_type field -> counted event e -> exists event' e',
  push_field field event e = Ret (event', e') /\ event'.(fields) = event.(fields) ++ [field] /\ grows e e' /\ counted event' e'.
Proof.
  intros Hp Hc. unfold push_field. cbv zeta. fold (info_size field). pose proof (info_size_pos field).
  destruct (add_estimated_total (info_size field) event e) as (ev & e' & -> & Ef & Hg & Hu & Hl); [lia|done|].
  cbn [mbind outcome_bind]. do 2 eexists. split_and!; [reflexivity|cbn; by rewrite Ef|done|].
  split; [|cbn; rewrite Ef; apply Forall_app; split; [apply Hc|by constructor]]. split; [exact Hu|]. intros He. cbn. rewrite Ef, len_app. change (len [field]) with 1. by apply Hl.
Qed.
Lemma counted_grows event e e' : counted event e -> grows e e' -> counted event e'.
Proof. intros [[Hu Hc] Hp] Hg. split; [|done]. split; [done|]. intros He. by apply Hc, Hg. Qed.

(** An option of the event leaves the fields and the estimate. *)
Definition same_fields (a b : EventInfo) : Prop := b.(fields) = a.(fields) /\ b.(metadata_bytes_used) = a.(metadata_bytes_used).
Lemma parse_event_option_total in_struct name args event cs ts e : exists event' cs' ts' e',
  parse_event_option in_struct name args event cs ts e = Ret (event', (cs', ts'), e') /\ same_fields event event' /\ grows e e'.
Proof.
  unfold parse_event_option. cbv zeta. unfold next_tokens.
  destruct in_struct; [do 4 eexists; split_and!; [reflexivity|by split|apply add_error_grows]|].
  destruct (str_is name "debug"); [do 4 eexists; split_and!; [reflexivity|by split|apply grows_refl]|].
  destruct (str_is name "id_version").
  { match goal with |- context [next_tokens_loop ?g ?c ?m args ?e2] => pose proof (next_tokens_advances g c m args e2) as [_ Hg];
      destruct (next_tokens_loop g c m args e2) as [id [it2 e3]] end. cbn [fst snd] in Hg.
    match goal with |- context [next_tokens_loop ?g ?c ?m it2 ?e2] => pose proof (next_tokens_advances g c m it2 e2) as [_ Hg2];
      destruct (next_tokens_loop g c m it2 e2) as [version [it3 e4]] end. cbn [fst snd] in Hg2.
    do 4 eexists. split_and!; [reflexivity|by split|].
    eapply grows_trans; [apply add_error_if_grows|]. by eapply grows_trans. }
  repeat match goal with |- context [if str_is name ?s then _ else _] => destruct (str_is name s);
    [match goal with |- context [next_tokens_loop ?g ?c ?m args ?e2] => pose proof (next_tokens_advances g c m args e2) as [_ Hg];
      destruct (next_tokens_loop g c m args e2) as [id [it2 e3]] end; cbn [fst snd] in Hg; try filtered;
     do 4 eexists; split_and!; [reflexivity|by split|eapply grows_trans; [apply add_error_if_grows|exact Hg]]|] end.
  do 4 eexists. split_and!; [reflexivity|by split|apply add_error_grows].
Qed.

Lemma count_field_grows in_struct o added e : grows e (snd (count_field in_struct o added e)).
Proof.
  unfold count_field. destruct (has_metadata _); [|apply grows_refl]. cbn [snd].
  destruct (in_struct && _); [apply add_error_grows|]. destruct (negb in_struct && _); [apply add_error_grows|apply grows_refl].
Qed.
Lemma update_field_total i f event e : (forall x, plain_type x -> plain_type (f x)) -> (i < length event.(fields))%nat -> counted event e -> exists event',
  update_field i f event = Ret event' /\ length event'.(fields) = length event.(fields) /\ counted event' e.
Proof.
  intros Hf Hi [[Hu Hc] Hp]. unfold update_field. destruct (lookup_lt_is_Some_2 _ _ Hi) as [x Ex]. rewrite Ex. eexists. split; [reflexivity|].
  cbn. split; [apply length_insert|]. split; [|cbn; apply Forall_insert; [done|]; apply Hf; by eapply Forall_lookup_1].
  split; [done|]. unfold len in *. cbn. by rewrite length_insert.
Qed.

(** What a run of the loop gives. *)
Definition loop_total (event : EventInfo) (e : Errors) (r : outcome (EventInfo * Z * Errors)) : Prop :=
  exists event' added' e', r = Ret (event', added', e') /\ grows e e' /\ counted event' e' /\
    (length event.(fields) <= length event'.(fields))%nat.
Lemma loop_total_step event e event' e' r : grows e e' -> (length event.(fields) <= length event'.(fields))%nat ->
  loop_total event' e' r -> loop_total event e r.
Proof.
  intros Hg Hl (ev & ad & e2 & -> & Hg2 & Hc & Hl2). exists ev, ad, e2. split_and!; [done|by eapply grows_trans|done|lia].
Qed.
Lemma parse_loop_total fuel in_struct event added cs ts it e : (stream_count it < fuel)%nat -> counted event e ->
  loop_total event e (parse_event_options_loop fuel in_struct event added cs ts it e).
Proof.
  revert in_struct event added cs ts it e. induction fuel as [|fuel IH]; intros in_struct event added cs ts it e Hf Hc; [lia|].
  cbn [parse_event_options_loop]. pose proof (next_arg_taken false it e) as [Ht Hg].
  destruct (next_arg false it e) as [[|name args|stream] [it' e1]]; unfold arg_taken in Ht; cbn [fst snd] in *;
    try (do 3 eexists; split_and!; [reflexivity|done|by eapply counted_grows|done]).
  pose proof (counted_grows _ _ _ Hc Hg) as Hc1. apply (loop_total_step _ _ event e1 _ Hg); [done|]. clear Hc Hg.
  destruct (find_field_option name) as [o|] eqn:Eo.
  - destruct (parse_field_head_total in_struct o args e1) as (f & args' & e2 & -> & Ho2 & [[Hs Hl] Hg2]). cbn [mbind outcome_bind fst snd] in *.
    destruct (parse_field_options_total (S (length args')) f args' e2) as (f2 & ending & e3 & -> & Ho3 & Hg3 & Hend); [lia|].
    assert (Hty : plain_type f2).
    { apply listed_type. rewrite Ho3, Ho2. by apply find_field_option_sound in Eo as [? _]. }
    cbn [mbind outcome_bind]. assert (Hg13 : grows e1 e3) by (by eapply grows_trans).
    pose proof (counted_grows _ _ _ Hc1 Hg13) as Hc3.
    assert (Hrest : forall ev e4, counted ev e4 -> grows e1 e4 -> (length event.(fields) <= length ev.(fields))%nat ->
      loop_total event e1 (let '(added, e) := count_field in_struct o added e4 in
                           parse_event_options_loop fuel in_struct ev added cs ts it' e)).
    { intros ev e4 Hc4 Hg4 Hl4. pose proof (count_field_grows in_struct o added e4) as Hg5.
      destruct (count_field in_struct o added e4) as [added' e5]. cbn [snd] in Hg5.
      apply (loop_total_step _ _ ev e5); [by eapply grows_trans|done|]. apply IH; [lia|by eapply counted_grows]. }
    destruct ending as [stream|].
    + destruct (push_field_total (set_format_int 1 f2) event e3 Hty Hc3) as (ev & e4 & -> & Ef & Hg4 & Hc4). cbn [mbind outcome_bind].
      destruct (IH true ev 0 false false stream e4) as (ev2 & n & e5 & -> & Hg5 & Hc5 & Hl5); [lia|done|]. cbn [mbind outcome_bind].
      match goal with |- context [add_error_if ?b ?m e5] => pose proof (add_error_if_grows b m e5) as Hg6; set (e6 := add_error_if b m e5) in * end.
      rewrite Ef, length_app in Hl5. cbn [length] in Hl5.
      match goal with |- context [update_field _ ?g ev2] => destruct (update_field_total (length event.(fields)) g ev2 e6)
        as (ev3 & -> & Hl7 & Hc7); [by intros x Hx|lia|by eapply counted_grows|] end. cbn [mbind outcome_bind].
      apply Hrest; [done| |lia]. eapply grows_trans; [exact Hg13|]. eapply grows_trans; [exact Hg4|]. by eapply grows_trans.
    + destruct (push_field_total f2 event e3 Hty Hc3) as (ev & e4 & -> & Ef & Hg4 & Hc4). cbn [mbind outcome_bind].
      apply Hrest; [done|by eapply grows_trans|]. rewrite Ef, length_app. lia.
  - destruct (parse_event_option_total in_struct name args event cs ts e1) as (ev & cs' & ts' & e2 & -> & [Ef Eu] & Hg2).
    cbn [mbind outcome_bind]. apply (loop_total_step _ _ ev e2); [done|by rewrite Ef|].
    apply IH; [lia|]. destruct Hc1 as [[Hu Hc] Hp]. split; [|by rewrite Ef]. split; [by rewrite Eu|]. intros He. rewrite Ef, Eu. by apply Hc, Hg2.
Qed.

Lemma try_from_tokens_total ts : exists r, try_from_tokens ts = Ret r /\
  forall event, r = Ok event -> len event.(fields) < 65535 /\ Forall plain_type event.(fields).
Proof.
  unfold try_from_tokens. assert (Es : sorted_names (map option_name FIELD_OPTIONS) = true) by (vm_compute; reflexivity).
  rewrite Es. cbn [rassert mbind outcome_bind].
  match goal with |- context [next_ident ?c ?m ts ?e] => destruct (next_ident c m ts e) as [symbol [it1 e1]] end.
  match goal with |- context [next_string_literal ?c ?m it1 e1] => destruct (next_string_literal c m it1 e1) as [name [it2 e2]] end.
  set (event := match symbol with Some ident => set_provider_symbol ident EventInfo_empty | None => EventInfo_empty end).
  assert (Hc : counted event e2) by (split; [split; [destruct symbol; cbn; lia|intros _; destruct symbol; reflexivity]|destruct symbol; constructor]).
  assert (H1 : exists ev e3, match name with
      | Some event_name => '(event, e) ← add_estimated_metadata (len event_name + 1) (set_ev_name event_name event) e2;
                           Ret (event, add_error_if (has_nul event_name) (str_bytes "event name must not contain '\0'") e)
      | None => Ret (event, e2) end = Ret (ev, e3) /\ counted ev e3).
  { destruct name as [name|]; [|by do 2 eexists]. pose proof (len_nonneg name).
    destruct (add_estimated_total (len name + 1) (set_ev_name name event) e2) as (ev & e3 & -> & Ef & Hg & Hu & Hl); [lia|exact Hc|].
    cbn [mbind outcome_bind]. do 2 eexists. split; [reflexivity|]. split; [|rewrite Ef; apply Hc]. split; [exact Hu|]. intros He.
    apply add_error_if_grows in He. specialize (Hl He). rewrite Ef. cbn in *. lia. }
  destruct H1 as (ev & e3 & -> & Hc3). cbn [mbind outcome_bind]. unfold parse_event_options.
  destruct (parse_loop_total (S (stream_count it2)) false ev 0 false false it2 e3) as (ev2 & n & e4 & -> & _ & [[Hu Hl] Hp] & _); [lia|done|].
  cbn [mbind outcome_bind]. destruct (with_defaults_ok ev2) as (ev3 & -> & _ & Ef & _). cbn [mbind outcome_bind].
  eexists. split; [reflexivity|]. intros event' E. destruct e4 as [|t e4]; [|done]. injection E as <-.
  rewrite Ef. specialize (Hl eq_refl). split; [lia|done].
Qed.

(** A generator after all fields. *)
Lemma fields_made event : len event.(fields) < 65535 -> Forall plain_type event.(fields) ->
  exists g, add_fields event.(fields) (before_fields event EventGenerator_new) = Ret g /\ trees_made g.
Proof.
  intros Hl Hp. destruct (before_fields_trees event) as (Bt & Ba & Bn & Bk & B1 & B2 & B3 & B4).
  destruct (before_fields_eq event) as [B5 B6].
  destruct (add_fields_pieces event.(fields) (before_fields event EventGenerator_new) Hp Bt Ba)
    as (g & Eg & G1 & G2 & G3 & G4 & G5 & G6); [lia|lia|].
  exists g. split; [done|]. rewrite B1 in G1. rewrite B2 in G2. rewrite B5 in G3. rewrite B6 in G4. rewrite B3 in G5. rewrite B4 in G6.
  unfold trees_made. rewrite G1, G2, G3, G4, G5, G6. repeat (constructor; [by eexists|]). constructor.
Qed.

(** C17. [write_event!] ends on any tokens whatever, with errors or with code, and neither the parser nor the
    generator runs out of steps, overflows a counter or goes out of range; there is one panic: for an event without
    errors, the generator gives code if [_eh_define_provider_] followed by the provider's symbol is an identifier,
    as it is for a symbol that is one, and otherwise, as for a raw identifier [r#name], it panics. *)
Theorem write_event_total ts : exists r, try_from_tokens ts = Ret r /\
  match r with
  | Err errors => write_event ts = Ret errors
  | Ok event =>
    if is_ident (PROVIDER_PTR_VAR_PREFIX ++ event.(provider_symbol)) then exists code, write_event ts = Ret [Group Brace code]
    else write_event ts = Panic
  end.
Proof.
  unfold write_event. destruct (try_from_tokens_total ts) as (r & Er & Hl). exists r. split; [done|]. rewrite Er.
  cbn [mbind outcome_bind]. destruct r as [event|errors]; [|done]. destruct (Hl event eq_refl) as [Hlen Hp].
  unfold generate. destruct (fields_made event Hlen Hp) as (g & -> & Hg). cbn [mbind outcome_bind].
  rewrite provider_name_ident. destruct (continues (provider_symbol event)) eqn:Es.
  - destruct (event_tree_total event g Hg Es) as [code ->]. by exists code.
  - by rewrite (event_tree_panics event g Es).
Qed.

(** The symbols of the two cases. *)
Lemma plain_symbol symbol : is_ident symbol = true -> is_ident (PROVIDER_PTR_VAR_PREFIX ++ symbol) = true.
Proof. intros Hs. rewrite provider_name_ident. by apply ident_continues. Qed.
Lemma raw_symbol name : is_ident (PROVIDER_PTR_VAR_PREFIX ++ lit "r#" ++ name) = false.
Proof. rewrite provider_name_ident. apply (raw_refused (lit "r")). repeat constructor; lia. Qed.
End Event.

(** [define_provider!] ends as well. *)
Lemma provider_options_total fuel prov a b it e : (length it < fuel)%nat ->
  exists prov' e', parse_provider_options fuel prov a b it e = Ret (prov', e').
Proof.
  revert prov a b it e. induction fuel as [|fuel IH]; intros prov a b it e Hf; [lia|]. cbn [parse_provider_options].
  pose proof (next_arg_taken false it e) as [Ht _]. destruct (next_arg false it e) as [[|name args|stream] [it' e1]];
    unfold arg_taken in Ht; cbn [fst snd] in *; try (by do 2 eexists).
  destruct (parse_provider_option name args prov a b e1) as [[p [a' b']] e2]. apply IH. lia.
Qed.
Lemma provider_parse_total ts : exists r, ProviderInfo_try_from_tokens ts = Ret r.
Proof.
  unfold ProviderInfo_try_from_tokens.
  match goal with |- context [next_ident ?c ?m ts ?e] => destruct (next_ident c m ts e) as [symbol [it1 e1]] end.
  match goal with |- context [next_string_literal ?c ?m it1 e1] => destruct (next_string_literal c m it1 e1) as [name [it2 e2]] end.
  destruct name as [name|];
    match goal with |- context [parse_provider_options ?n ?p false false it2 ?e3] =>
      destruct (provider_options_total n p false false it2 e3) as (p' & e4 & ->); [lia|] end; by eexists.
Qed.
Lemma section_name_ident `{UnicodeIdent} symbol :
  is_ident (drop 1 (TRACEPOINTS_SECTION_START_PREFIX ++ symbol)) = continues symbol /\
  is_ident (drop 1 (TRACEPOINTS_SECTION_STOP_PREFIX ++ symbol)) = continues symbol.
Proof.
  split; [apply (is_ident_app 95 (lit "start__eh_tracepoints_"))|apply (is_ident_app 95 (lit "stop__eh_tracepoints_"))];
    try reflexivity; try lia; repeat constructor; lia.
Qed.
(** It gives code for a symbol that is an identifier. *)
Lemma define_provider_total `{UnicodeIdent} ts : exists r, ProviderInfo_try_from_tokens ts = Ret r /\
  match r with
  | Err errors => define_provider ts = Ret errors
  | Ok prov => is_ident prov.(symbol) = true -> exists code, define_provider ts = Ret code
  end.
Proof.
  unfold define_provider. destruct (provider_parse_total ts) as [r Er]. exists r. split; [done|]. rewrite Er. cbn [mbind outcome_bind].
  destruct r as [prov|errors]; [|done]. intros Hs%ident_continues.
  destruct (section_name_ident prov.(symbol)) as [H1 H2]. rewrite Hs in H1, H2.
  pose proof (provider_name_ident prov.(symbol)) as H3. rewrite Hs in H3.
  unfold ProviderGenerator_generate, add_provider_static, add_name_value, add_section_symbol, section_address, add_outer_attribute,
    add_cfg_linux, add_cfg_not_linux, Ident_new, Punct_new. cbv zeta.
  eexists. flatten_trees. reflexivity.
Qed.

Lemma provider_enabled_total `{UnicodeIdent} ts :
  match EnabledInfo_try_from_tokens ts with
  | Err errors => provider_enabled ts = Ret errors
  | Ok enabled => is_ident enabled.(en_provider_symbol) = true -> exists code, provider_enabled ts = Ret code
  end.
Proof.
  unfold provider_enabled. destruct (EnabledInfo_try_from_tokens ts) as [enabled|errors]; [|done]. intros Hs%ident_continues.
  pose proof (provider_name_ident enabled.(en_provider_symbol)) as H3. rewrite Hs in H3.
  unfold EnabledGenerator_generate, add_provider_checks, add_tracepoint_static, add_link_section, add_tracepoint_ptr, define_provider_ref.
  cbv zeta. rewrite !type_tokens_ext by reflexivity. unfold add_identity_call. rewrite !type_tokens_ext by reflexivity.
  eexists. flatten_trees. reflexivity.
Qed.

(** An escape of six hexadecimal digits, which Rust allows, is refused; one of five is read. *)
Lemma six_digit_escape_refused :
  unescape (str_bytes "\u{01F600}") = None /\ unescape (str_bytes "\u{1F600}") = Some [240; 159; 152; 128].
Proof. by vm_compute. Qed.

(** A provider symbol that is a raw identifier makes each of the macros panic. *)
Lemma raw_symbols_panic (text : TokenText) :
  let symbol := Ident (lit "r#type") in
  let name := Literal (34 :: lit "E" ++ [34]) in
  @write_event ascii_identifiers text [symbol; Punct 44 Alone; name] = Panic /\
  @define_provider ascii_identifiers [symbol; Punct 44 Alone; name] = Panic /\
  @provider_enabled ascii_identifiers [symbol; Punct 44 Alone; Literal (lit "5"); Punct 44 Alone; Literal (lit "1")] = Panic.
Proof. by vm_compute. Qed.
