(* ===== verification/MacroNames.v ===== *)
(** * MacroNames: the providers that define_provider! accepts

    The checks of the macro are what the rest of the program relies on: the names of the
    tracepoints of an accepted provider fit in the command buffer, and the decoder reads
    them back. *)

From S2P Require Import Prelude Strings Types ByteReader Tracepoint Provider ProviderProps PerfItem Enumerator.
From S2P Require Import MacroTokens MacroParser MacroFields MacroEvent MacroGenerator MacroProvider MacroTotal.

#[local] Abbreviation lit x := (str_bytes x).

(** What the checks of a provider ensure. *)
Definition name_ok (p : ProviderInfo) : Prop :=
  len p.(MacroProvider.name) < 234 /\ has_nul p.(MacroProvider.name) = false /\
  ~ In 32 p.(MacroProvider.name) /\ ~ In 58 p.(MacroProvider.name).
Definition group_ok (p : ProviderInfo) : Prop :=
  p.(group_name) = [] \/
  forallb is_lower_or_digit p.(group_name) = true /\ len p.(MacroProvider.name) + len p.(group_name) < 234.

Lemma add_error_if_nil b m e : add_error_if b m e = [] -> b = false /\ e = [].
Proof. destruct b; [|done]. unfold add_error_if, add_error. by destruct e. Qed.
Lemma existsb_not_in c l : existsb (Z.eqb c) l = false -> ~ In c l.
Proof.
  intros E Hin. assert (Et : existsb (Z.eqb c) l = true); [|congruence]. apply existsb_exists. exists c.
  split; [done|apply Z.eqb_refl].
Qed.
Lemma check_provider_name_ok p prov_name e : check_provider_name prov_name e = [] -> name_ok (set_name prov_name p).
Proof.
  unfold check_provider_name. intros E.
  apply add_error_if_nil in E as [E4 E]. apply add_error_if_nil in E as [E3 E]. apply add_error_if_nil in E as [E2 E].
  apply add_error_if_nil in E as [E1 _]. unfold name_ok. cbn [MacroProvider.name set_name].
  split_and!; [|done|by apply existsb_not_in|by apply existsb_not_in].
  apply Z.leb_gt in E1. change NAMES_MAX with 234 in E1. done.
Qed.
Lemma check_group_name_ok prov_name id_str e : check_group_name prov_name id_str e = [] ->
  forallb is_lower_or_digit id_str = true /\ len prov_name + len id_str < 234 /\ e = [].
Proof.
  unfold check_group_name. cbv zeta. change NAMES_MAX with 234. destruct (Z.leb_spec 234 (len id_str)).
  { intros E. unfold add_error in E. by destruct (add_error_if _ _ e). }
  destruct (Z.leb_spec 234 (len prov_name + len id_str)).
  { intros E. unfold add_error in E. by destruct (add_error_if _ _ e). }
  intros E. apply add_error_if_nil in E as [Ef Ee]. by apply negb_false_iff in Ef.
Qed.

(** One option keeps what was checked. *)
Lemma parse_provider_option_ok name args p a b e p' a' b' e' :
  parse_provider_option name args p a b e = (p', (a', b'), e') -> e' = [] ->
  e = [] /\ p'.(MacroProvider.symbol) = p.(MacroProvider.symbol) /\ p'.(MacroProvider.name) = p.(MacroProvider.name)
  /\ (group_ok p -> group_ok p').
Proof.
  unfold parse_provider_option.
  assert (Hlit : forall c m it e0, snd (snd (next_string_literal c m it e0)) = [] -> e0 = [])
    by (intros c m it e0; apply next_string_literal_advances).
  destruct (str_is name "debug"); [by intros [= <- <- <- <-] ->|].
  destruct (str_is name "id").
  { match goal with |- context [next_string_literal ?c ?m args ?e0] => pose proof (Hlit c m args e0) as Hl;
      destruct (next_string_literal c m args e0) as [l [it e1]] end.
    intros [= <- <- <- <-] E. cbn [snd] in Hl. apply Hl, add_error_if_nil in E as [_ E]. done. }
  destruct (str_is name "group_id" || _).
  { match goal with |- context [next_string_literal ?c ?m args ?e0] => pose proof (Hlit c m args e0) as Hl;
      destruct (next_string_literal c m args e0) as [l [it e1]] end.
    intros [= <- <- <- <-] E. cbn [snd] in Hl. apply Hl, add_error_if_nil in E as [_ E]. done. }
  destruct (str_is name "group_name" || _).
  - match goal with |- context [next_string_literal ?c ?m args ?e0] => pose proof (Hlit c m args e0) as Hl;
      destruct (next_string_literal c m args e0) as [l [it e1]] end. cbn [snd] in Hl. destruct l as [id_str|].
    + intros [= <- <- <- <-] E. apply check_group_name_ok in E as (Hf & Hn & E). apply Hl, add_error_if_nil in E as [_ E].
      split_and!; [done|done|done|]. intros _. right. by split.
    + intros [= <- <- <- <-] E. apply Hl, add_error_if_nil in E as [_ E]. done.
  - intros [= <- <- <- <-] E. unfold add_error in E. by destruct e.
Qed.
Lemma parse_provider_options_ok fuel p a b it e p' e' :
  parse_provider_options fuel p a b it e = Ret (p', e') -> e' = [] ->
  e = [] /\ p'.(MacroProvider.name) = p.(MacroProvider.name) /\ (group_ok p -> group_ok p').
Proof.
  revert p a b it e. induction fuel as [|fuel IH]; intros p a b it e; [done|]. cbn [parse_provider_options].
  pose proof (next_arg_taken false it e) as [_ Hg]. destruct (next_arg false it e) as [[|name args|stream] [it' e1]];
    cbn [fst snd] in *; try (intros [= -> ->] E; split; [by apply Hg|done]).
  destruct (parse_provider_option name args p a b e1) as [[p1 [a1 b1]] e2] eqn:E1. intros E Ee.
  destruct (IH _ _ _ _ _ E Ee) as (E2 & Hn2 & Hk2). destruct (parse_provider_option_ok _ _ _ _ _ _ _ _ _ _ E1 E2) as (E0 & _ & Hn1 & Hk1).
  split_and!; [by apply Hg|congruence|auto].
Qed.
Lemma accepted_provider ts p : ProviderInfo_try_from_tokens ts = Ret (Ok p) -> name_ok p /\ group_ok p.
Proof.
  unfold ProviderInfo_try_from_tokens.
  match goal with |- context [next_ident ?c ?m ts ?e] => destruct (next_ident c m ts e) as [symbol [it1 e1]] end.
  match goal with |- context [next_string_literal ?c ?m it1 e1] => pose proof (next_string_literal_advances c m it1 e1) as [_ Hg];
    destruct (next_string_literal c m it1 e1) as [[prov_name|] [it2 e2]] eqn:El end;
  match goal with |- context [parse_provider_options ?n ?p0 false false ?it ?e0] =>
    destruct (parse_provider_options n p0 false false it e0) as [[p' e']|] eqn:E; [|done]; cbn [mbind outcome_bind];
    destruct e'; [|done]; intros [= <-]; destruct (parse_provider_options_ok _ _ _ _ _ _ _ _ E eq_refl) as (Ee & En & Hk) end.
  - apply (check_provider_name_ok p') in Ee. split; [|apply Hk; by left]. unfold name_ok in *. cbn [MacroProvider.name set_name] in *. by rewrite En.
  - split; [|apply Hk; by left]. unfold name_ok. rewrite En. split_and!; [reflexivity|reflexivity|intros []|intros []].
Qed.

Lemma lower_or_digit c : is_lower_or_digit c = true -> value_char c = true /\ (c =? 0) = false.
Proof.
  unfold is_lower_or_digit, value_char, MacroEvent.is_ascii_digit, Enumerator.is_ascii_digit, Enumerator.is_ascii_lowercase. intros E.
  apply orb_true_iff in E. rewrite !andb_true_iff, !Z.leb_le in E. split; [|apply Z.eqb_neq; lia].
  destruct E as [E|E].
  - rewrite orb_true_iff, !andb_true_iff, !Z.leb_le. lia.
  - rewrite orb_true_iff, !andb_true_iff, !Z.leb_le. lia.
Qed.
(** The options of an accepted provider are attributes. *)
Definition group_attributes (group : bytes) : list (Z * bytes) := if is_nil group then [] else [(71, group)].
Lemma provider_options_attributes group : provider_options group = attributes (group_attributes group).
Proof. unfold provider_options, group_attributes. destruct group; [done|]. unfold attributes. cbn. by rewrite app_nil_r. Qed.

(** C18. Each tracepoint of a provider that [define_provider!] accepts can be registered and decoded:
    the command string is exact and fits in its buffer for any level and keyword, its name is short
    enough for the enumerator, and the enumerator reads level and keyword back from the name. *)
Theorem accepted_provider_registers ts p level keyword b c
    (Haccepted : ProviderInfo_try_from_tokens ts = Ret (Ok p))
    (Hlevel : in_width 8 level) (Hkeyword : in_width 64 keyword)
    (Hbuf : len b.(buf) = EVENTHEADER_COMMAND_MAX) (Hheader : c.(header).(eh_level) = level) :
  let tn := tracepoint_name p.(MacroProvider.name) (provider_options p.(group_name)) level keyword in
  (exists b', CommandString_format p.(MacroProvider.name) (provider_options p.(group_name)) level keyword b
                = Ret (command_text p.(MacroProvider.name) (provider_options p.(group_name)) level keyword, b')) /\
  len tn < EVENT_HEADER_TRACEPOINT_NAME_MAX /\
  parse_tracepoint_name tn c = Ret (Ok tt, set_keyword keyword c).
Proof.
  intros tn. apply accepted_provider in Haccepted as [(Hn & Hnul & _) Hg].
  assert (Hno : no_nul p.(MacroProvider.name)).
  { clear Hn. unfold has_nul in Hnul. induction (MacroProvider.name p) as [|x l IH]; [constructor|]. cbn [existsb] in Hnul.
    apply orb_false_iff in Hnul as [Hx Hl]. constructor; [by rewrite Z.eqb_sym|by apply IH]. }
  assert (Hopt : no_nul (provider_options p.(group_name)) /\ attributes_ok (group_attributes p.(group_name)) /\
    len p.(MacroProvider.name) + len (provider_options p.(group_name)) <= Provider.EVENTHEADER_NAME_MAX - 22).
  { unfold Provider.EVENTHEADER_NAME_MAX, provider_options, group_attributes. destruct (group_name p) as [|x g] eqn:Eg; cbn [is_nil].
    - split_and!; [constructor|constructor|change (len (@nil Z)) with 0; lia].
    - destruct Hg as [Hg|[Hf Hl]]; [congruence|]. rewrite Eg in Hf, Hl. rewrite forallb_forall in Hf. split_and!.
      + apply Forall_app. split; [by repeat constructor|]. apply List.Forall_forall. intros y Hy. by apply lower_or_digit, Hf.
      + constructor; [|constructor]. split; [done|]. cbn [snd]. apply forallb_forall. intros y Hy. by apply lower_or_digit, Hf.
      + rewrite len_app. change (len (lit "G")) with 1. lia. }
  destruct Hopt as (Ho & Ha & Hs). split_and!.
  - destruct (CommandString_format_ok p.(MacroProvider.name) (provider_options p.(group_name)) level keyword b) as (b' & E & _);
      [done..|]. by exists b'.
  - by apply tracepoint_name_short.
  - unfold tn. rewrite provider_options_attributes. by apply tracepoint_name_parses.
Qed.

(** [define_provider!(MY, "Co_App", group_name("g1"))] *)
Definition example_provider : TokenStream :=
  [Ident (lit "MY"); Punct 44 Alone; Literal (34 :: lit "Co_App" ++ [34]); Punct 44 Alone; Ident (lit "group_name");
   Group Parenthesis [Literal (34 :: lit "g1" ++ [34])]].
Lemma accepted_provider_registers_witness : exists p,
  ProviderInfo_try_from_tokens example_provider = Ret (Ok p) /\
  len (tracepoint_name p.(MacroProvider.name) (provider_options p.(group_name)) 5 0x1F) < EVENT_HEADER_TRACEPOINT_NAME_MAX.
Proof.
  exists {| symbol := lit "MY"; MacroProvider.name := lit "Co_App"; group_name := lit "g1"; debug := false |}.
  split; [vm_compute; reflexivity|].
  apply (@accepted_provider_registers example_provider _ 5 0x1F CommandString_new
    (set_header {| eh_flags := 0; eh_version := 0; eh_id := 0; eh_tag := 0; eh_opcode := 0; eh_level := 5 |} EventHeaderEnumeratorContext_new)).
  - vm_compute. reflexivity.
  - by split.
  - by split.
  - reflexivity.
  - reflexivity.
Defined.
