(* ===== verification/EnumText.v ===== *)
(** * EnumText: the text of enumerations, and what [drop] does

    [fmt::Display] of the small types of the repository (with the default options of a
    formatter: [pad] writes its text and an integer is written in decimal), and the
    [Drop] implementations.  A newtype over an integer has its text from the table of its
    names, or is written as the integer. *)

From S2P Require Import Prelude Strings Types ByteReader Enumerator Guid Tracepoint Provider DynProvider.
From S2P Require Import Writers PerfAbi FieldFormat EventFormat Floats FloatsProps.

(** The text of a newtype with names for some of its values. *)
Definition named_or_decimal (as_string : option bytes) (v : Z) : bytes :=
  match as_string with Some s => s | None => fmt_decimal v end.

(* eventheader_types/src/enums.rs:68-72: HeaderFlags::fmt *)
Definition HeaderFlags_fmt (self : Z) : bytes := fmt_decimal self.
(* eventheader_types/src/enums.rs:167-171: ExtensionKind::fmt *)
Definition ExtensionKind_fmt (self : Z) : bytes := fmt_decimal self.
(* eventheader_types/src/enums.rs:398-402: FieldEncoding::fmt *)
Definition FieldEncoding_fmt (self : Z) : bytes := fmt_decimal self.
(* eventheader_types/src/enums.rs:520-524: FieldFormat::fmt *)
Definition FieldFormat_fmt (self : Z) : bytes := fmt_decimal self.
(* eventheader_types/src/enums.rs:575-579: Level::fmt *)
Definition Level_fmt (self : Z) : bytes := fmt_decimal self.
(* eventheader_types/src/enums.rs:718-722: Opcode::fmt *)
Definition Opcode_fmt (self : Z) : bytes := fmt_decimal self.

(* perf_abi.rs:68-76: PerfEventAttrType::fmt *)
Definition AttrType_fmt (self : Z) : bytes := named_or_decimal (AttrType_as_string self) self.
(* perf_abi.rs:1226-1234: PerfEventHeaderType::fmt *)
Definition HeaderType_fmt (self : Z) : bytes := named_or_decimal (HeaderType_as_string self) self.
(* header_index.rs:176-184: PerfHeaderIndex::fmt *)
Definition HeaderIndex_fmt (self : Z) : bytes := named_or_decimal (HeaderIndex_as_string self) self.

(* eventheader_types/src/guid.rs:317-322: Guid::fmt (Debug) *)
Definition Guid_debug (g : bytes) : bytes := Guid_to_utf8_bytes g.
(* eventheader_types/src/guid.rs:324-329: Guid::fmt (Display) *)
Definition Guid_display (g : bytes) : bytes := Guid_to_utf8_bytes g.

(* enumerator.rs:124-137: EventHeaderEnumeratorError::fmt *)
Definition EnumeratorError_fmt (e : EventHeaderEnumeratorError) : bytes :=
  match e with
  | ErSuccess => str_bytes "Success"
  | ErInvalidParameter => str_bytes "InvalidParameter"
  | ErNotSupported => str_bytes "NotSupported"
  | ErImplementationLimit => str_bytes "ImplementationLimit"
  | ErInvalidData => str_bytes "InvalidData"
  | ErStackOverflow => str_bytes "StackOverflow"
  | ErNotEventHeader => str_bytes "NotEventHeader"
  end.

(* enumerator.rs:174-188: EventHeaderEnumeratorState::fmt *)
Definition EnumeratorState_fmt (s : EventHeaderEnumeratorState) : bytes :=
  match s with
  | StError => str_bytes "Error"
  | StAfterLastItem => str_bytes "AfterLastItem"
  | StBeforeFirstItem => str_bytes "BeforeFirstItem"
  | StValue => str_bytes "Value"
  | StArrayBegin => str_bytes "ArrayBegin"
  | StArrayEnd => str_bytes "ArrayEnd"
  | StStructBegin => str_bytes "StructBegin"
  | StStructEnd => str_bytes "StructEnd"
  end.

(* perf_field_format.rs:53-66: PerfFieldArray::fmt *)
Definition PerfFieldArray_fmt (a : PerfFieldArray) : bytes :=
  match a with
  | ArrNone => str_bytes "None"
  | Fixed => str_bytes "Fixed"
  | RestOfEvent => str_bytes "RestOfEvent"
  | RelLoc2 => str_bytes "RelLoc2"
  | DataLoc2 => str_bytes "DataLoc2"
  | RelLoc4 => str_bytes "RelLoc4"
  | DataLoc4 => str_bytes "DataLoc4"
  end.

(* perf_event_format.rs:37-45: PerfEventDecodingStyle::fmt *)
Definition DecodingStyle_fmt (s : PerfEventDecodingStyle) : bytes :=
  match s with TraceEventFormat => str_bytes "TraceEventFormat" | EventHeaderStyle => str_bytes "EventHeader" end.

(** ** Debug text of the providers *)

Definition quoted (l : bytes) : bytes := [34] ++ l ++ [34].
(* eventheader/src/provider.rs:224-233: Provider::fmt *)
Definition Provider_debug (p : Provider) : bytes :=
  str_bytes "Provider { name: " ++ quoted p.(p_name) ++ str_bytes ", options: " ++ quoted p.(p_options)
  ++ str_bytes " }".
(* eventheader_dynamic/src/provider.rs:219-229: Provider::fmt *)
Definition DynProvider_debug (p : DynProvider) : bytes :=
  str_bytes "Provider { name: " ++ quoted p.(dp_name) ++ str_bytes ", options: " ++ quoted p.(dp_options)
  ++ str_bytes ", sets: " ++ fmt_decimal (len p.(dp_sets)) ++ str_bytes " }".
(* eventheader_dynamic/src/provider.rs:281-289: ProviderOptions::fmt *)
Definition ProviderOptions_debug (o : ProviderOptions) : bytes :=
  str_bytes "ProviderOptions { group_name: " ++ quoted o.(group_name) ++ str_bytes " }".
(* eventheader_dynamic/src/provider.rs:415-426: EventSet::fmt *)
Definition EventSet_debug (s : EventSet) : bytes :=
  str_bytes "EventSet { enabled: " ++ (if EventSet_enabled s then str_bytes "true" else str_bytes "false")
  ++ str_bytes ", level: " ++ fmt_hex s.(es_key).(key_level) ++ str_bytes ", keyword: " ++ fmt_hex s.(es_key).(key_keyword)
  ++ str_bytes ", errno: " ++ fmt_decimal s.(es_errno) ++ str_bytes " }".

(** ** Dropping *)

(* native.rs:275-279: UserEventsDataFile::drop *)
Definition UserEventsDataFile_drop (file_or_error : Z) : Z * option Z := UserEventsDataFile_close file_or_error.

Section Drop.
Context `{UserEvents}.
(* native.rs:623-627: TracepointState::drop *)
Definition TracepointState_drop (file_or_error : Z) (s : TracepointState) : outcome TracepointState :=
  '(_, s) ← TracepointState_unregister file_or_error s; Ret s.
(* eventheader/src/provider.rs:218-222: Provider::drop *)
Definition Provider_drop (file : Z) (p : Provider) : outcome Provider :=
  '(_, p) ← Provider_unregister file p; Ret p.
(* eventheader_dynamic/src/provider.rs:213-217: Provider::drop *)
Definition DynProvider_drop (file : Z) (p : DynProvider) (heap : list EventSet) : outcome (DynProvider * list EventSet) :=
  DynProvider_unregister file p heap.
End Drop.

(** ** The texts tell the values apart *)

(** Different names, each of them starting with a letter. *)
Definition starts_with_letter (s : bytes) : bool :=
  match s with c :: _ => 65 <=? c | [] => false end.
Definition names_ok (l : list bytes) : bool := bool_decide (NoDup l) && forallb starts_with_letter l.

Lemma decimal_starts_with_digit v : 0 <= v < 10 ^ 20 -> starts_with_letter (fmt_decimal v) = false.
Proof.
  intros Hv. destruct (fmt_decimal_ok v) as (s & ds & -> & Hs & Hds); [lia|].
  apply natural_digits in Hds as [_ Hds].
  destruct Hs as [-> | ->]; [|done]. destruct Hds as [|c l Hc _]; [done|]. cbn. apply Z.leb_gt. lia.
Qed.

Lemma named_or_decimal_inj (f : Z -> option bytes) l a b :
  names_ok l = true -> (forall v s, f v = Some s -> s ∈ l) ->
  (forall s, f a = Some s -> f b = Some s -> a = b) ->
  0 <= a < 10 ^ 20 -> 0 <= b < 10 ^ 20 ->
  named_or_decimal (f a) a = named_or_decimal (f b) b -> a = b.
Proof.
  unfold names_ok. intros [_ Hl]%andb_true_iff Hin Hinj Ha Hb E.
  assert (Hname : forall v s, f v = Some s -> starts_with_letter s = true).
  { intros v s Hs. apply (proj1 (forallb_forall _ _) Hl), list_elem_of_In, (Hin v s Hs). }
  destruct (f a) as [s|] eqn:Ea, (f b) as [s'|] eqn:Eb; cbn in E.
  - subst s'. by apply (Hinj s).
  - subst s. apply Hname in Ea. by rewrite decimal_starts_with_digit in Ea.
  - subst s'. apply Hname in Eb. by rewrite decimal_starts_with_digit in Eb.
  - rewrite <- (decimal_literal a), <- (decimal_literal b), E by lia. done.
Qed.

Lemma assoc_elem k l s : assoc k l = Some s -> (k, s) ∈ l.
Proof.
  induction l as [|[k' v] l IH]; [done|]. cbn. destruct (Z.eqb_spec k k') as [->|]; [intros [= ->]; left|right; auto].
Qed.
Lemma assoc_inj l a b s : NoDup (map snd l) -> assoc a l = Some s -> assoc b l = Some s -> a = b.
Proof.
  intros Hn (i & Hi)%assoc_elem%list_elem_of_lookup (j & Hj)%assoc_elem%list_elem_of_lookup.
  assert (i = j) as ->.
  { apply (NoDup_lookup (map snd l) i j s Hn); rewrite list_lookup_fmap; [by rewrite Hi|by rewrite Hj]. }
  rewrite Hi in Hj. by injection Hj.
Qed.

(** The texts of the type of an event and of a header index identify it. *)
Lemma HeaderType_fmt_inj a b : in_width 32 a -> in_width 32 b -> HeaderType_fmt a = HeaderType_fmt b -> a = b.
Proof.
  intros Ha Hb. unfold HeaderType_fmt, HeaderType_as_string.
  match goal with |- context [assoc a ?t] => set (table := t) end.
  apply (named_or_decimal_inj (fun v => assoc v table) (map snd table)); [by vm_compute| | |unfold in_width in *; lia..].
  - intros v s Hs%assoc_elem. by apply (list_elem_of_fmap_2 snd) in Hs.
  - intros s. apply assoc_inj. apply (bool_decide_unpack _). by vm_compute.
Qed.

Lemma lookup_names_inj l a b : names_ok l = true -> in_width 64 a -> in_width 64 b ->
  named_or_decimal (l !! Z.to_nat a) a = named_or_decimal (l !! Z.to_nat b) b -> a = b.
Proof.
  intros Hl Ha Hb. apply (named_or_decimal_inj (fun v => l !! Z.to_nat v) l);
    [done|by intros v s Hs%list_elem_of_lookup_2| |unfold in_width in *; lia..].
  intros s Hs Hs'. unfold names_ok in Hl. apply andb_true_iff in Hl as [Hn%bool_decide_eq_true _].
  unfold in_width in *. assert (Z.to_nat a = Z.to_nat b) by (by eapply NoDup_lookup). lia.
Qed.
Lemma AttrType_fmt_inj a b : in_width 32 a -> in_width 32 b -> AttrType_fmt a = AttrType_fmt b -> a = b.
Proof. intros Ha Hb. apply lookup_names_inj; [by vm_compute|unfold in_width in *; lia..]. Qed.
Lemma HeaderIndex_fmt_inj a b : in_width 64 a -> in_width 64 b -> HeaderIndex_fmt a = HeaderIndex_fmt b -> a = b.
Proof. intros Ha Hb. apply lookup_names_inj; [by vm_compute|done..]. Qed.
