(* ===== verification/Recorded.v ===== *)
(** * Recorded: from the program that writes an event to the fields that a decoder shows

    [EventHeaderEnumeratorContext::enumerate] starts an enumeration from the information of
    a sample (enumerator.rs), so it connects the reader of perf files with the enumerator.
    The property follows an event through all the parts: the builder, the tracepoint, the
    sample that the kernel makes of it, the reader and the enumerator. *)

From stdpp Require Import gmap.
From S2P Require Import Prelude Strings Types ByteReader Enumerator EnumeratorInv EnumeratorSpec EnumeratorWalk Session.
From S2P Require Import Tracepoint TracepointProps Provider ProviderProps Builder EventBytes BuilderProps FieldTree FieldWalk FieldVisit FieldProps.
From S2P Require Import PerfAbi PerfIo EventFormat FileReader SampleInfo SampleProps.

(* enumerator.rs: EventHeaderEnumeratorContext::enumerate_with_limit *)
Definition enumerate_with_limit (sample_event_info : PerfSampleEventInfo) (move_next_limit : Z) (c : Ctx)
  : outcome (result unit EventHeaderEnumeratorError * Ctx) :=
  match si_format sample_event_info with
  | Some format =>
    match format.(ef_decoding_style) with
    | EventHeaderStyle =>
      user_data ← si_user_data sample_event_info;
      enumerate_with_name_and_data format.(ef_name) user_data move_next_limit c
    | TraceEventFormat => Ret (Err ErNotEventHeader, c)
    end
  | None => Ret (Err ErNotEventHeader, c)
  end.
(* enumerator.rs: EventHeaderEnumeratorContext::enumerate *)
Definition enumerate (sample_event_info : PerfSampleEventInfo) (c : Ctx)
  : outcome (result unit EventHeaderEnumeratorError * Ctx) :=
  enumerate_with_limit sample_event_info MOVE_NEXT_LIMIT_DEFAULT c.

(** The reader knows the tracepoint: samples with [id] have the attribute of [desc], which
    asks for the id and the raw data and has the format [format] of an EventHeader event with that
    name. *)
Record knows (p : PerfDataFileReader) (id : Z) (desc : PerfEventDesc) (format : PerfEventFormat) (name : bytes) : Prop := {
  kn_id : SampleType_has_flag desc.(pd_attr).(attr_sample_type) SampleType_Identifier
          || SampleType_has_flag desc.(pd_attr).(attr_sample_type) SampleType_Id = true;
  kn_raw : SampleType_has_flag desc.(pd_attr).(attr_sample_type) SampleType_Raw = true;
  kn_offset : exists ns_id s_time ns_time,
    attr_offsets desc.(pd_attr) = Ret (p.(pr_inner).(attrs).(sample_id_offset), ns_id, s_time, ns_time);
  kn_index : exists i, p.(pr_inner).(attrs).(event_desc_id_to_index) !! id = Some i /\
    index p.(pr_inner).(attrs).(event_desc_list) i = Ret desc;
  kn_format : desc.(pd_format) = Some format;
  kn_style : format.(ef_decoding_style) = EventHeaderStyle;
  kn_name : format.(ef_name) = name;
}.

(** What the reader finds in a sample of the tracepoint with raw data [common ++ ed]. *)
Lemma sample_enumerated p id desc format name hdr it rest header common ed limit c :
  let r := p.(pr_inner).(session_info).(session_byte_reader) in
  let data := hdr ++ concat (sample_layout r desc.(pd_attr).(attr_sample_type) id it) ++ rest in
  knows p id desc format name ->
  items_ok desc.(pd_attr).(attr_sample_type) desc.(pd_attr).(attr_read_format) id it ->
  len hdr = 8 -> len data < 2 ^ 16 -> it.(it_raw) = common ++ ed -> len common = format.(ef_common_fields_size) ->
  let info := info_of r desc.(pd_attr).(attr_sample_type) id it hdr rest p.(pr_inner).(session_info) desc in
  get_sample_event_info p {| pe_header := header; pe_data := data |} = Ret (Ok info) /\
  enumerate_with_limit info limit c = enumerate_with_name_and_data name ed limit c.
Proof.
  intros r data [Hid Hraw (ns_id & s_time & ns_time & Ho) (i & Hi & Hd) Hf Hst Hn] Hok Hhdr Hlen Hit Hc info. split.
  - by eapply sample_info_found.
  - assert (Eu : si_user_data info = Ret ed) by (unfold info; eapply info_user_data; [..|exact Hraw]; try eassumption; done).
    unfold enumerate_with_limit. change (si_format info) with desc.(pd_format). rewrite Hf, Hst, Eu. by rewrite <- Hn.
Qed.

(** C6. An event is followed from the program to the decoder: an event built from any tree of
    fields is handed to the kernel; when the kernel records it (after its common fields, as
    the raw data of a sample with any of the other items), a reader that knows the
    tracepoint finds the items of the sample, and the enumeration that it
    starts from the sample visits exactly the fields that the builder was given. *)
Theorem recorded_event_decodes `{Target} `{UserEventsOk} file st name tag fs b0 level kw aid rid pname attrs limit p id desc format
    (Hname : no_nul name /\ bytes_ok name) (Htag : in_width 16 tag) (Hfields : Forall field_ok fs)
    (Hsize : len name + 1 + len (all_meta fs) + len (all_data fs) <= 65535 - (52 + 16))
    (Hcount : len fs <= 255) (Hdepth : max_depth fs <= 8) (Hmoves : len (all_items fs) < limit < 2 ^ 32)
    (Hlevel : in_width 8 level) (Hkeyword : in_width 64 kw)
    (Haid : id_ok aid) (Hrid : id_ok rid) (Hids : aid = None -> rid = None)
    (Henabled : st.(enable_status) <> 0) (Hindex : 0 <= st.(write_index) <= HIGHEST_VALID_WRITE_INDEX)
    (Hattrs : attributes_ok attrs) (Htn : bytes_ok (tracepoint_name pname (attributes attrs) level kw))
    (Hshort : len (tracepoint_name pname (attributes attrs) level kw) < EVENT_HEADER_TRACEPOINT_NAME_MAX)
    (Hknows : knows p id desc format (tracepoint_name pname (attributes attrs) level kw)) :
  let sample_type := desc.(pd_attr).(attr_sample_type) in
  let r := p.(pr_inner).(session_info).(session_byte_reader) in
  exists b code iov ed,
    (b ← EventBuilder_reset name tag b0; add_fields fs b) = Ret b /\
    EventBuilder_write file level st aid rid b = Ret (code, Some iov) /\
    concat iov = to_ne_bytes 4 st.(write_index) ++ ed /\
    forall common it hdr rest header,
      let data := hdr ++ concat (sample_layout r sample_type id it) ++ rest in
      it.(it_raw) = common ++ ed -> len common = format.(ef_common_fields_size) ->
      items_ok sample_type desc.(pd_attr).(attr_read_format) id it -> len hdr = 8 -> len data < 2 ^ 16 ->
      exists info c cs e,
        get_sample_event_info p {| pe_header := header; pe_data := data |} = Ret (Ok info) /\
        info = info_of r sample_type id it hdr rest p.(pr_inner).(session_info) desc /\
        enumerate_with_limit info limit EventHeaderEnumeratorContext_new = Ret (Ok tt, c) /\
        visit ed (length (all_items fs)) (move_next_impl ed c) = Ret (cs, e) /\
        map (observe ed) cs = map Ret (all_items fs) /\ e.(state) = StAfterLastItem.
Proof.
  intros sample_type r.
  destruct (written_event_visited file st name tag fs b0 level kw aid rid pname attrs limit)
    as (b & code & iov & ed & c & cs & e & Eb & Ew & Ei & Ec & Ev & Eo & Es); try done.
  exists b, code, iov, ed. split_and!; [done..|]. intros common it hdr rest header data Hraw Hc Hok Hhdr Hlen.
  destruct (sample_enumerated p id desc format _ hdr it rest header common ed limit EventHeaderEnumeratorContext_new
    Hknows Hok Hhdr Hlen Hraw Hc) as [Einfo Eenum].
  eexists _, c, cs, e. split_and!; [exact Einfo|done|by rewrite Eenum|done..].
Qed.

(** The description of a tracepoint with eight bytes of common fields. *)
Definition recorded_format : PerfEventFormat :=
  {| ef_system_name := [115]; ef_name := tracepoint_name [80] (attributes example_attributes) 5 0x1F;
     ef_print_fmt := []; ef_fields := []; ef_id := 7; ef_common_field_count := 0; ef_common_fields_size := 8;
     ef_decoding_style := EventHeaderStyle |}.
Definition recorded_desc : PerfEventDesc := PerfEventDesc_new example_attr [101] (Some recorded_format) [33].
Definition recorded_attrs : ReaderAttrs :=
  set_sample_id_offset 8 (set_event_desc_id_to_index (<[33 := 0]> ∅) (set_event_desc_list [recorded_desc] ReaderAttrs_new)).
Definition recorded_reader : PerfDataFileReader :=
  {| pr_inner := set_attrs recorded_attrs DataFileReader_new; pr_current := EventBytesRef_default; pr_file := None |}.

(** The event of [example_fields], as it is written. *)
Definition written_bytes : bytes :=
  Eval vm_compute in
  match (b ← @EventBuilder_reset little_endian_target [101] 3 (@EventBuilder_new little_endian_target);
         b ← @add_fields little_endian_target example_fields b;
         @EventBuilder_write little_endian_target example_kernel 5 5 example_state None None b) with
  | Ret (_, Some iov) => drop 4 (concat iov)
  | _ => []
  end.
Definition recorded_items : SampleItems :=
  {| it_ip := 0; it_pid := 11; it_tid := 12; it_time := 1000; it_addr := 0; it_stream_id := 0; it_cpu := 0;
     it_cpu_reserved := 0; it_period := 0; it_read := [2; 5; 6; 7; 8]; it_callchain := [4096; 8192];
     it_raw := [1; 0; 0; 0; 11; 0; 0; 0] ++ written_bytes;
     it_pad := repeat 0 (Z.to_nat ((- (12 + len written_bytes)) mod 8)) |}.
Definition recorded_sample : bytes :=
  repeat 9 8
  ++ concat (sample_layout (PerfByteReader_new false) example_attr.(attr_sample_type) 33 recorded_items) ++ [].

Lemma recorded_event_decodes_witness :
  exists info c cs e,
    get_sample_event_info recorded_reader {| pe_header := PerfEventHeader_new; pe_data := recorded_sample |} = Ret (Ok info) /\
    si_tid info = 12 /\ enumerate_with_limit info 100 EventHeaderEnumeratorContext_new = Ret (Ok tt, c) /\
    @visit little_endian_target written_bytes 12%nat (@move_next_impl little_endian_target written_bytes c) = Ret (cs, e) /\
    map (observe written_bytes) cs = map Ret (all_items example_fields) /\ e.(state) = StAfterLastItem.
Proof.
  assert (Hk : knows recorded_reader 33 recorded_desc recorded_format (tracepoint_name [80] (attributes example_attributes) 5 0x1F)).
  { constructor; try (vm_compute; reflexivity).
    - exists OFFSET_NOT_PRESENT, 24, OFFSET_NOT_PRESENT. by vm_compute.
    - exists 0. by vm_compute. }
  assert (Hok : items_ok example_attr.(attr_sample_type) example_attr.(attr_read_format) 33 recorded_items).
  { split; [by split | by repeat constructor | by repeat constructor | intros _; split | by vm_compute].
    - split; [reflexivity|]. exists 2, [5; 6; 7; 8]. by vm_compute.
    - by repeat constructor. }
  destruct (@recorded_event_decodes little_endian_target example_kernel example_kernel_ok 5 example_state [101] 3
    example_fields (@EventBuilder_new little_endian_target) 5 0x1F None None [80] example_attributes 100
    recorded_reader 33 recorded_desc recorded_format) as (b & code & iov & ed & Eb & Ew & Ei & Hsample).
  - split; [repeat constructor|apply bytes_ok_decide; reflexivity].
  - vm_compute; by split.
  - apply (forallb_Forall field_okb); [exact field_ok_decide|reflexivity].
  - vm_compute. discriminate.
  - vm_compute. discriminate.
  - vm_compute. discriminate.
  - vm_compute. by split.
  - vm_compute; by split.
  - vm_compute; by split.
  - exact I.
  - exact I.
  - reflexivity.
  - discriminate.
  - vm_compute. split; discriminate.
  - repeat constructor.
  - apply bytes_ok_decide. reflexivity.
  - vm_compute. reflexivity.
  - exact Hk.
  - vm_compute in Eb. injection Eb as <-. vm_compute in Ew. injection Ew as <- <-. vm_compute in Ei. injection Ei as <-.
    destruct (Hsample [1; 0; 0; 0; 11; 0; 0; 0] recorded_items (repeat 9 8) [] PerfEventHeader_new eq_refl eq_refl Hok eq_refl)
      as (info & c & cs & e & E1 & -> & E2 & E3 & E4 & E5); [vm_compute; reflexivity|].
    eexists _, c, cs, e. split; [exact E1|]. split; [reflexivity|]. by split.
Defined.
